(* ===== verification/_CoqProject ===== *)
-Q . S2P
Prelude.v
SeqNumber.v
RingBuffer.v
Assembler.v
PacketBuffer.v
PacketRoom.v
TimeModel.v
TcpTimers.v
Congestion.v
IpTypes.v
TcpRepr.v
ByteOrder.v
Checksum.v
TcpWire.v
Ipv4Wire.v
Icmpv4Wire.v
UdpWire.v
Fragmentation.v
IfaceContext.v
Ipv4Addr.v
Ipv6Addr.v
Heapless.v
Route.v
Neighbor.v
EthernetArp.v
Ipv6Wire.v
Icmpv6Packet.v
NdiscWire.v
MldWire.v
Icmpv6Wire.v
NdiscWireSpec.v
Icmpv6WireSpec.v
NdiscEmitSpec.v
Icmpv6EmitSpec.v
TcpSocket.v
UdpSocket.v
UdpSocketSpec.v
IgmpWire.v
DhcpWire.v
Ipv6ExtWire.v
IpWire.v
PacketQueue.v
RawSocket.v
IcmpSocket.v
DhcpSocket.v
DhcpSocketSpec.v
IfacePacket.v
Iface.v
Multicast.v
IfaceEgress.v
TcpProcess.v
TcpDispatch.v
TcpInvariant.v
TcpReplyLemmas.v
TcpProcessLemmas.v
TcpTransitionLemmas.v
TcpReceiveLemmas.v
TcpExample.v
TcpProcessSpec.v
TcpApp.v
TcpDispatchLemmas.v
TcpDispatchSpec.v
TcpRun.v
TcpWireLemmas.v
TcpWireSpec.v
IfaceTcp.v
IfaceIngress.v
SocketSet.v
IfacePoll.v
IfaceFragments.v
IfaceInvariant.v
IfaceEgressLemmas.v
IfaceIngressLemmas.v
IfaceExample.v
IfaceDhcp.v
IfaceIngressSpec.v
IfaceEgressSpec.v
IfaceFragmentSpec.v
IfacePollSpec.v
MulticastSpec.v
