(* ===== verification/Prelude.v ===== *)
(** * Verification of the smoltcp network stack

    This library models the transport core of the smoltcp fork under [src/smoltcp/src/]: the
    TCP and UDP sockets with everything they are built from, the packet formats below them,
    reassembly, routing and the neighbor cache.  Every definition is executable, follows the
    statements of the source in their order, and carries the source's name (with a short
    prefix where two types have a method of the same name).

    ** The program

    An application owns sockets and calls them ([listen], [connect], [send_slice],
    [recv_slice], [close], ..).  The interface polls: it parses a received frame, hands the
    segment or datagram to the socket that [accepts] it ([process], which may answer at once),
    asks each socket for a packet to send ([dispatch], with a callback [emit] that puts the
    packet into the device or refuses it), and sleeps until the earliest [poll_at].  A TCP socket
    keeps its octets in two ring buffers, remembers out-of-order data in an assembler, and its
    timing in a round-trip time estimator, a timer and a congestion controller.  Datagram sockets
    keep their packets in packet buffers.  Below them, a packet is parsed from and emitted into
    bytes by the [Packet] accessors and the [Repr] types of wire/, fragments are collected by
    iface/fragmentation.rs, the next hop is found by iface/route.rs and its hardware address by
    iface/neighbor.rs.

    ** Files and the code they model

    Foundations:
    - [Prelude]: the result of a computation that may panic ([res]), its weakest
      precondition ([wp]), machine integers, slices, tactics and hint databases.
    - [ByteOrder]: fields of a buffer and the byte order (the byteorder crate, as the class
      [NetworkEndian] with laws and an instance); a buffer as a layout of fields.
    - [Checksum]: wire/ip.rs, module [checksum]; phy/mod.rs, [ChecksumCapabilities].
    - [TimeModel]: time.rs, [Instant] and [Duration] as counts of microseconds.
    - [Heapless]: the vector and the linear map of the heapless crate, as classes with laws.
    - [IfaceContext]: the [InterfaceInner] a socket operation receives: time, device
      capabilities (phy/mod.rs), random numbers (rand.rs), source address selection
      (iface/interface/ipv4.rs, ipv6.rs).

    Storage:
    - [RingBuffer]: storage/ring_buffer.rs.  The abstract value is the queue [rb_contents].
    - [Assembler]: storage/assembler.rs.  The meaning is the set [covered] of offsets; a
      reference insertion [add_ref] on the list of the contigs in use is the specification
      that the in-place loops refine.
    - [PacketBuffer]: storage/packet_buffer.rs.  The abstract value is the list [pb_packets];
      [PacketRoom]: its room, which no operation changes.

    Packet formats, each with its accessors, [parse] and [emit]; a file [XSpec] has the lemmas and
    properties of the file [X], where they are not at its end:
    - [IpTypes], [Ipv4Addr], [Ipv6Addr]: addresses, CIDR blocks and headers of wire/ip.rs,
      wire/ipv4.rs, wire/ipv6.rs.
    - [SeqNumber], [TcpRepr], [TcpWire], [TcpWireLemmas], [TcpWireSpec]: wire/tcp.rs.
    - [UdpWire]: wire/udp.rs.  [Ipv4Wire]: wire/ipv4.rs.  [Ipv6Wire]: wire/ipv6.rs.
      [Icmpv4Wire]: wire/icmpv4.rs.  [EthernetArp]: wire/ethernet.rs, wire/arp.rs.
    - [Icmpv6Packet], [Icmpv6Wire]: wire/icmpv6.rs, [NdiscWire]: wire/ndisc.rs and
      wire/ndiscoption.rs, [MldWire]: wire/mld.rs; their properties are in [NdiscWireSpec],
      [Icmpv6WireSpec] (parsing), [NdiscEmitSpec] and [Icmpv6EmitSpec] (emitting).
    - [DhcpWire]: wire/dhcpv4.rs.
    - [IgmpWire]: wire/igmp.rs.  [Ipv6ExtWire]: wire/ipv6ext_header.rs,
      wire/ipv6option.rs, wire/ipv6hbh.rs.  [IpWire]: the choice of the IP version in wire/ip.rs.

    Interface:
    - [Fragmentation]: iface/fragmentation.rs, the assembler of IP fragments, and its use in
      iface/interface/ipv4.rs.
    - [Route]: iface/route.rs, and the choice of the next hop in iface/interface/mod.rs.
    - [Neighbor]: iface/neighbor.rs, hardware addresses of wire/mod.rs, wire/ethernet.rs and
      wire/ieee802154.rs.
    - [IfaceTcp]: iface/interface/tcp.rs, a received TCP packet and the set of sockets.
    - [IfacePacket]: iface/packet.rs, what the interface sends.  [Iface]: [InterfaceInner] of
      iface/interface/mod.rs with its addresses.  [Multicast]: iface/interface/multicast.rs.
    - [IfaceIngress]: received frames and packets, iface/interface/{mod,ethernet,ipv4,ipv6,udp}.rs.
      [IfaceFragments], [IfaceInvariant] (the invariant [iface_wf], the loops over the sockets),
      [IfaceIngressLemmas] (one lemma per handler) and [IfaceIngressSpec]: its properties;
      [IfaceExample]: the concrete interface.
    - [IfaceEgress]: the way out, [dispatch_ip] and [lookup_hardware_addr] of
      iface/interface/mod.rs, ethernet.rs, ipv4.rs and the [Fragmenter] of iface/fragmentation.rs;
      the frames that the device was given are a list.  [IfaceEgressLemmas] (a packet in a frame),
      [IfaceEgressSpec] (what becomes of a packet, by the [resolution] of its next hop) and
      [IfaceFragmentSpec] (the fragments of a datagram, from the sender to the receiver).
    - [IfaceDhcp]: how a received datagram gets to the DHCP socket (iface/interface/ipv4.rs), and how
      its messages are written (iface/packet.rs).
    - [SocketSet]: iface/socket_set.rs, iface/socket_meta.rs, the trait of the sockets in
      socket/mod.rs.
    - [IfacePoll]: the polling loop of iface/interface/mod.rs, [poll], [poll_egress],
      [poll_ingress_single] and [poll_at], with [multicast_egress] of multicast.rs; the
      device of phy/mod.rs is the class [Device].  [IfacePollSpec], [MulticastSpec]: its properties.

    Sockets:
    - [TcpTimers]: socket/tcp.rs, [RttEstimator], [Timer], [AckDelayTimer]; socket/mod.rs,
      [PollAt].
    - [Congestion]: socket/tcp/congestion.rs and congestion/{no_control,reno,cubic}.rs; the
      trait is a class, its laws ([ControllerLaws]) the interface the socket's proofs use.
    - [TcpSocket]: socket/tcp.rs, the [Socket] record and the operations an application
      calls, socket/waker.rs.
    - [TcpProcess]: socket/tcp.rs, the replies ([reply] to [challenge_ack_reply]), [accepts]
      and [process], a composition of the stages
      [process_check_ack], [process_window], [process_ack_len], [process_transition],
      [process_remote], [process_dup_ack], [process_timers] and [process_payload].
    - [TcpDispatch]: socket/tcp.rs, [timed_out] to [poll_at]; [dispatch] is [dispatch_prepare]
      (everything up to [emit]), the call of [emit], and [dispatch_commit].
    - [TcpInvariant]: the invariant [sk_wf] of a socket; [TcpReplyLemmas],
      [TcpProcessLemmas], [TcpTransitionLemmas], [TcpReceiveLemmas], [TcpDispatchLemmas]: one
      lemma per stage; [TcpProcessSpec], [TcpApp], [TcpDispatchSpec], [TcpRun]: the properties;
      [TcpExample]: the concrete connection the properties are instantiated at.
    - [UdpSocket], [UdpSocketSpec]: socket/udp.rs.  [PacketQueue]: what the datagram sockets
      share; [RawSocket]: socket/raw.rs; [IcmpSocket]:
      socket/icmp.rs.
    - [DhcpSocket], [DhcpSocketSpec]: socket/dhcpv4.rs, the client that acquires an IPv4 address; the
      states are [ClientState], the answers [dhcp_process], the messages [dhcp_dispatch].

    ** What is proved

    - Safety: no interleaving of application calls, settings, received segments and transmissions
      panics outside the conditions named below, and each keeps [sk_wf] ([TcpRun.socket_runs_safely],
      [TcpProcessSpec.process_keeps_invariant], [TcpDispatchSpec.dispatch_keeps_invariant]).
    - Delivery: whatever the network does to the segments, the octets an application reads
      are the stream of the remote end from its beginning on ([TcpApp.reads_are_stream],
      [TcpProcessSpec.process_receives_stream]); whatever bytes arrive, [process_tcp] does not
      panic, and it gives a segment to the first socket that accepts it ([IfaceTcp]).
    - Protocol: state changes follow the TCP state diagram, exactly the acknowledged octets
      leave the transmit buffer, answers are well addressed, challenge acknowledgements are
      rate limited, and a packet handed to the device carries the octets that are due, within
      the remote window, the remote MSS and, but for the timestamps, the MTU (the other theorems of
      [TcpProcessSpec] and [TcpDispatchSpec]).
    - Progress: before the time that [poll_at] returns, [dispatch] has nothing to do
      ([TcpDispatchSpec.poll_at_complete]).
    - Application interface: [connect], [close], [send_slice], [recv_slice], on every branch; a UDP
      socket refines two bounded queues of datagrams, its panics included
      ([UdpSocketSpec.udp_socket_refines]), and a raw and an ICMP socket hand over the oldest packet, or keep it when it cannot be sent.
    - DHCP client: an answer has exactly the effect of its case ([dhcp_transition], a function of
      the state and the message), it reaches the client through
      the octets of its datagram, the client acts exactly when [poll_at] says so, with one message that
      can be written, and the events tell the application the lease after any sequence of operations
      ([DhcpSocketSpec], [IfaceDhcp]); where the code is not what it means to be is shown at the end
      of [IfaceDhcp].
    - Packet formats: parsing never panics and yields values of the right ranges; what is emitted
      is parsed back, with a valid checksum, for TCP with its options, UDP, IPv4, IPv6, ICMPv4,
      ICMPv6 with neighbor and listener discovery, IGMP, DHCP, hop-by-hop options, Ethernet and ARP; the checksum is that of RFC 1071.
    - Interface: whatever octets a frame holds, receiving it does not panic, down to the sockets and
      the answers, and keeps every invariant, for TCP sockets outside the conditions named below
      ([IfaceIngressSpec.process_ethernet_safe]); a ping, with any header that parses, and an ARP
      request are answered, a datagram reaches the socket that accepts it.
    - Transmission: a packet is sent in one frame to the hardware address of its next hop, or that
      address is asked for, at most once a second ([IfaceEgressSpec.dispatch_ip_delivers]); a
      datagram longer than the MTU leaves in fragments from which the receiving half of the stack
      puts the same datagram together ([IfaceFragmentSpec.fragmented_datagram_arrives]).
    - Polling: before the time that [poll_at] returns nothing is due for the fragmenter and the
      sockets, and a poll ends when the device has no more packets ([IfacePollSpec]); the groups that
      were joined and left are announced ([MulticastSpec.multicast_egress_announces]; a query for a
      unicast address, which panics, is excluded).
    - Below it: fragments in any order and number are reassembled to the packet they were cut
      from and to nothing else ([Fragmentation.reassembly_correct]); routing is longest prefix
      match ([Route.routes_lookup_longest]); the neighbor cache gives an answer only when an
      unbounded cache would ([Neighbor.cache_refines_unbounded]).
    - Components: queue semantics of the ring buffer, refinement and set semantics of the
      assembler, packet semantics of the packet buffer, bounds of the retransmission timeout,
      positivity of every controller's window (Cubic's binary64 computation included), source
      address selection, and sequence arithmetic across the wrap-around.

    ** Semantics and assumptions

    - Arithmetic that leaves its machine type, a failed [debug_assert!], an index out of
      range and an [unwrap] of [None] are [Panic], as in a build with debug assertions, and
      [usize] has 64 bits.  The features [alloc], [async], [socket-tcp-pause-synack],
      [packetmeta-id], [proto-ipv4], [proto-ipv4-fragmentation] and [proto-ipv6] are on, all
      media are enabled, [proto-rpl] is off and [cfg!(fuzzing)] is false; the cargo features that
      choose a congestion controller and the number of contigs of an assembler are the fields of
      [BuildConfig].
    - The crates byteorder and heapless are classes: [NetworkEndianLaws] says that a field is read
      and written in network byte order, [HeaplessVecLaws] and [LinearMapLaws] that a
      vector is a bounded list and a linear map a bounded association list; each class has a
      concrete instance.
    - The timestamp generator, the wakers' identities, the device and the clock are arguments.
    - [repr_ok]: a received segment has the ranges that parsing guarantees.  [time_ok]: the
      clock is between 0 and 2^61 microseconds.  [rtte_fresh]: less than 2^28 ms pass between
      sending a segment and its acknowledgement (the estimator casts the difference to [u32]).
      [tx_inv]: the transmit buffer has at most 1 GiB, which the source demands of the receive
      buffer only.  [sack_room]: with SACK, the receive window does not lie across the sequence
      number 0, where [ack_reply] overflows on data out of order ([sack_near_wrap_panics]);
      [win_edge_ok]: no octet lies beyond the advertised window edge, as one does in
      [probe_after_read_panics].  [pb_slots_ok]: [send_with] does not put a padding into the
      last free slot ([pb_infallible_orphans]).  [ip4_fits]: no fragment
      reaches beyond the largest packet.  [mtu_is]: the MTU of
      the device leaves room for the headers.  [retry_config_ok]: the timeouts of a DHCP client are
      positive and its last doubled timeout is below 2^61 microseconds; [emit_keeps_clock]: the clock
      of the interface stands still while a packet is handed to the device.
    - Loops without a structural measure take fuel: the assembler's loops its array length,
      [cube_root] the 20 further iterations of the source, the loops over options the length of
      the bytes that are left, of which every turn consumes one at least, the loops over joined and
      left groups the number of groups, the poll the number of packets of the device, so that no run
      ends for lack of fuel.

    ** Not modelled

    The DNS socket, IEEE 802.15.4 with 6LoWPAN (whose functions are arguments of the
    interface's) and RPL, the formats of DNS, IPsec and of the IPv6 routing and fragment
    headers, and the devices of phy/: each is separate from the transport core, and no modelled
    operation calls it.  The socket set, the ingress and the polling loop are those of a build without
    the DNS and DHCP sockets; the part of the ingress for a DHCP socket is [IfaceDhcp.ipv4_process_dhcp].  The constructor of the interface, which reads the device, is left out, as are
    trace output, [Display], [Debug] and [PrettyPrint]. *)

From stdpp Require Export base tactics list numbers option.
From Stdlib Require Export ZArith Lia.

#[global] Open Scope Z_scope.

(** ** Computations that may panic

    A Rust function either returns a value or panics (a failed [assert!], an
    out-of-range index, an [unwrap] of [None], or, with overflow checks enabled,
    an arithmetic operation that leaves its machine type). *)

Inductive res (A : Type) : Type :=
| Ret (a : A)
| Panic.
Arguments Ret {A} a.
Arguments Panic {A}.

#[global] Instance res_ret : MRet res := fun A a => Ret a.
#[global] Instance res_bind : MBind res := fun A B f m =>
  match m with Ret a => f a | Panic => Panic end.

(** Rust's [Result]. *)
Inductive result (T E : Type) : Type :=
| Ok (t : T)
| Err (e : E).
Arguments Ok {T E} t.
Arguments Err {T E} e.

(** The value satisfies [P], when there is one. *)
Definition opt_prop {A} (P : A -> Prop) (o : option A) : Prop :=
  match o with Some x => P x | None => True end.

Lemma opt_prop_mono {A} (P Q : A -> Prop) (o : option A) : opt_prop P o -> (forall a, P a -> Q a) -> opt_prop Q o.
Proof. destruct o; cbn; auto. Qed.

Definition is_ok {T E} (r : result T E) : bool :=
  match r with Ok _ => true | Err _ => false end.

(** [wp m Q]: the computation [m] does not panic and its result satisfies [Q]. *)
Definition wp {A} (m : res A) (Q : A -> Prop) : Prop :=
  match m with Ret a => Q a | Panic => False end.

(** [wlp m Q]: if [m] returns, its result satisfies [Q]. *)
Definition wlp {A} (m : res A) (Q : A -> Prop) : Prop :=
  match m with Ret a => Q a | Panic => True end.

Definition passert (b : bool) : res unit := if b then Ret tt else Panic.

Lemma bind_Ret {A B} (a : A) (f : A -> res B) : (Ret a ≫= f) = f a.
Proof. reflexivity. Qed.

Lemma bind_assoc {A B C} (m : res A) (f : A -> res B) (g : B -> res C) :
  ((m ≫= f) ≫= g) = (m ≫= (fun a => f a ≫= g)).
Proof. destruct m; reflexivity. Qed.

Lemma bind_Ret_inv {A B} (m : res A) (f : A -> res B) b :
  (m ≫= f) = Ret b -> exists a, m = Ret a /\ f a = Ret b.
Proof. destruct m as [a|]; cbn; [eauto | discriminate]. Qed.

Lemma wp_bind {A B} (m : res A) (f : A -> res B) Q :
  wp m (fun a => wp (f a) Q) -> wp (m ≫= f) Q.
Proof. destruct m; cbn; auto. Qed.

Lemma wp_mono {A} (m : res A) (P Q : A -> Prop) :
  wp m P -> (forall a, P a -> Q a) -> wp m Q.
Proof. destruct m; cbn; auto. Qed.

Lemma wp_bind_mono {A B} (m : res A) (f : A -> res B) P Q :
  wp m P -> (forall a, P a -> wp (f a) Q) -> wp (m ≫= f) Q.
Proof. destruct m; cbn; auto. Qed.

Lemma wp_Ret_inv {A} (m : res A) (Q : A -> Prop) :
  wp m Q -> exists a, m = Ret a /\ Q a.
Proof. destruct m; cbn; [eauto | contradiction]. Qed.

Lemma wp_of_Ret {A} (m : res A) (Q : A -> Prop) a : m = Ret a -> Q a -> wp m Q.
Proof. intros -> H. exact H. Qed.

Lemma wlp_bind {A B} (m : res A) (f : A -> res B) P Q :
  wlp m P -> (forall a, P a -> wlp (f a) Q) -> wlp (m ≫= f) Q.
Proof. destruct m; cbn; auto. Qed.

Lemma wlp_mono {A} (m : res A) (P Q : A -> Prop) :
  wlp m P -> (forall a, P a -> Q a) -> wlp m Q.
Proof. destruct m; cbn; auto. Qed.

Lemma wlp_Ret_inv {A} (m : res A) (Q : A -> Prop) a : wlp m Q -> m = Ret a -> Q a.
Proof. intros H ->. exact H. Qed.

Lemma wp_wlp {A} (m : res A) Q : wp m Q -> wlp m Q.
Proof. destruct m; cbn; auto; contradiction. Qed.

(** ** Machine integers *)

Definition usize_max : Z := 2 ^ 64 - 1.
Definition isize_max : Z := 2 ^ 63 - 1.
Definition u8_max : Z := 255.
Definition u16_max : Z := 65535.
Definition u32_max : Z := 2 ^ 32 - 1.
Definition u64_max : Z := 2 ^ 64 - 1.
Definition i32_max : Z := 2 ^ 31 - 1.
Definition i64_max : Z := 2 ^ 63 - 1.
Definition i64_min : Z := - 2 ^ 63.

Definition in_u8 (x : Z) : Prop := 0 <= x <= u8_max.
Definition in_u16 (x : Z) : Prop := 0 <= x <= u16_max.
Definition in_u32 (x : Z) : Prop := 0 <= x <= u32_max.
Definition in_usize (x : Z) : Prop := 0 <= x <= usize_max.
Definition in_i32 (x : Z) : Prop := - 2 ^ 31 <= x <= i32_max.
Definition in_i64 (x : Z) : Prop := i64_min <= x <= i64_max.

(** [x as uN] and [x as iN]: truncation to the width. *)
Definition wrap_u (bits x : Z) : Z := x mod 2 ^ bits.
Definition wrap_i (bits x : Z) : Z := (x + 2 ^ (bits - 1)) mod 2 ^ bits - 2 ^ (bits - 1).

(** Checked arithmetic: a result outside the type is a panic. *)
Definition checked (lo hi x : Z) : res Z :=
  if (lo <=? x) && (x <=? hi) then Ret x else Panic.

Definition usize_add (a b : Z) : res Z := checked 0 usize_max (a + b).
Definition usize_sub (a b : Z) : res Z := checked 0 usize_max (a - b).
Definition u32_chk (x : Z) : res Z := checked 0 u32_max x.
Definition u64_chk (x : Z) : res Z := checked 0 u64_max x.
Definition i64_chk (x : Z) : res Z := checked i64_min i64_max x.

Lemma checked_ok lo hi x : lo <= x <= hi -> checked lo hi x = Ret x.
Proof.
  intros H. unfold checked.
  replace ((lo <=? x) && (x <=? hi)) with true by lia. reflexivity.
Qed.

Lemma checked_inv lo hi x y : checked lo hi x = Ret y -> y = x /\ lo <= x <= hi.
Proof.
  unfold checked. destruct ((lo <=? x) && (x <=? hi)) eqn:E; [|discriminate].
  intros [= <-]. lia.
Qed.

Lemma usize_add_ok a b : 0 <= a + b <= usize_max -> usize_add a b = Ret (a + b).
Proof. apply checked_ok. Qed.

Lemma usize_sub_ok a b : 0 <= a - b <= usize_max -> usize_sub a b = Ret (a - b).
Proof. apply checked_ok. Qed.

Lemma wrap_u_id bits x : 0 <= x < 2 ^ bits -> wrap_u bits x = x.
Proof. apply Z.mod_small. Qed.

Lemma wrap_u_range bits x : 0 <= bits -> 0 <= wrap_u bits x < 2 ^ bits.
Proof. intros. apply Z.mod_pos_bound. lia. Qed.

(** ** Slices

    Rust slices are lists; positions and lengths are [usize] values in [Z]. *)

Definition Zlen {A} (l : list A) : Z := Z.of_nat (length l).

(** The values of [l[k..k+n]], when the range is inside the slice. *)
Definition sub {A} (l : list A) (k n : Z) : list A :=
  take (Z.to_nat n) (drop (Z.to_nat k) l).

(** [l] with the elements from position [k] on overwritten by [d]. *)
Definition splice {A} (l : list A) (k : Z) (d : list A) : list A :=
  take (Z.to_nat k) l ++ d ++ drop (Z.to_nat k + length d) l.

(** [&l[a..b]]: panics unless [a <= b <= l.len()]. *)
Definition slice {A} (l : list A) (a b : Z) : res (list A) :=
  if (0 <=? a) && (a <=? b) && (b <=? Zlen l) then Ret (sub l a (b - a)) else Panic.

(** [l[i]] as a value. *)
Definition index {A} (l : list A) (i : Z) : res A :=
  if 0 <=? i then match l !! Z.to_nat i with Some x => Ret x | None => Panic end else Panic.

(** [l[i] = x]. *)
Definition index_set {A} (l : list A) (i : Z) (x : A) : res (list A) :=
  if (0 <=? i) && (i <? Zlen l) then Ret (<[Z.to_nat i := x]> l) else Panic.

(** [dst[k..k+src.len()].copy_from_slice(src)] for a range inside [dst]. *)
Definition copy_into {A} (dst : list A) (k : Z) (src : list A) : res (list A) :=
  if (0 <=? k) && (k + Zlen src <=? Zlen dst) then Ret (splice dst k src) else Panic.

(** ** Tactics and hint databases *)

Create HintDb machine.
Create Rewrite HintDb zlen.

Ltac unfold_max :=
  unfold in_u8, in_u16, in_u32, in_usize, in_i32, in_i64, usize_max, isize_max,
    u8_max, u16_max, u32_max, u64_max, i32_max, i64_max, i64_min in *.

(** [lia] with the machine bounds unfolded. *)
Ltac mlia := unfold_max; unfold Zlen in *; lia.

(** Case analysis on the condition of an [if] of the goal. *)
Ltac destr_if :=
  match goal with
  | |- context [if ?b then _ else _] => let E := fresh "Hif" in destruct b eqn:E
  end.

(** Evaluate the next checked addition or subtraction of the goal. *)
Ltac arith_step :=
  match goal with
  | |- context [usize_add ?a ?b ≫= _] => rewrite (usize_add_ok a b) by mlia
  | |- context [usize_sub ?a ?b ≫= _] => rewrite (usize_sub_ok a b) by mlia
  end; rewrite ?bind_Ret; cbv beta.

(** Discharge the range of the leading checked operation of a [wp] goal with [tac]. *)
Ltac chk_step tac :=
  match goal with
  | |- context [checked ?l ?h ?x ≫= _] => rewrite (checked_ok l h x) by tac
  end; rewrite ?bind_Ret; cbv beta.

Ltac wp_bind_with H := eapply wp_bind_mono; [ eapply H | ].

(** Pass the value of the leading computation on to the rest. *)
Ltac ret_step :=
  match goal with
  | |- (Ret ?a ≫= ?f) = _ => change (Ret a ≫= f) with (f a)
  | |- (Ret ?a ≫= ?f) = _ /\ _ => change (Ret a ≫= f) with (f a)
  | |- (Ret ?a ≫= ?f) ≫= ?g = _ => change (Ret a ≫= f) with (f a)
  | |- wp (Ret ?a ≫= ?f) _ => change (Ret a ≫= f) with (f a)
  | |- wp ((Ret ?a ≫= ?f) ≫= ?g) _ => change (Ret a ≫= f) with (f a)
  | |- wp (((Ret ?a ≫= ?f) ≫= ?g) ≫= ?h) _ => change (Ret a ≫= f) with (f a)
  end; cbv beta.

(** Run a computation whose parts have values; the lets in between are reduced. *)
Ltac ret_steps := repeat (ret_step; cbv beta iota zeta).

(** Invert a hypothesis [m ≫= f = Ret x]. *)
Ltac bind_inv H :=
  apply bind_Ret_inv in H; destruct H as (? & ? & H); cbv beta in H.

(** ** Lemmas on lists and slices *)

Section Lists.
Context {A : Type}.
Implicit Types l d : list A.

Lemma Zlen_nonneg l : 0 <= Zlen l.
Proof. unfold Zlen. lia. Qed.

Lemma Zlen_app l d : Zlen (l ++ d) = Zlen l + Zlen d.
Proof. unfold Zlen. rewrite length_app. lia. Qed.

Lemma Zlen_cons x l : Zlen (x :: l) = 1 + Zlen l.
Proof. unfold Zlen. cbn [length]. lia. Qed.

Lemma Zlen_nil : Zlen (@nil A) = 0.
Proof. reflexivity. Qed.

Lemma Zlen_nil_inv l : Zlen l = 0 -> l = [].
Proof. unfold Zlen. destruct l; cbn; [done | lia]. Qed.

Lemma Zlen_sub l k n : 0 <= k -> 0 <= n -> k + n <= Zlen l -> Zlen (sub l k n) = n.
Proof. unfold Zlen, sub. intros. rewrite length_take, length_drop. lia. Qed.

Lemma Zlen_sub_le l k n : 0 <= n -> Zlen (sub l k n) <= n.
Proof. unfold Zlen, sub. intros. rewrite length_take, length_drop. lia. Qed.

Lemma Zlen_splice l k d :
  0 <= k -> k + Zlen d <= Zlen l -> Zlen (splice l k d) = Zlen l.
Proof.
  unfold Zlen, splice. intros. rewrite !length_app, length_take, length_drop. lia.
Qed.

Lemma slice_ok l a b :
  0 <= a <= b -> b <= Zlen l -> slice l a b = Ret (sub l a (b - a)).
Proof.
  intros. unfold slice.
  replace ((0 <=? a) && (a <=? b) && (b <=? Zlen l)) with true by lia. reflexivity.
Qed.

Lemma copy_into_ok (dst src : list A) k :
  0 <= k -> k + Zlen src <= Zlen dst -> copy_into dst k src = Ret (splice dst k src).
Proof.
  intros. unfold copy_into.
  replace ((0 <=? k) && (k + Zlen src <=? Zlen dst)) with true by lia. reflexivity.
Qed.

Lemma index_ok l i x : 0 <= i -> l !! Z.to_nat i = Some x -> index l i = Ret x.
Proof. intros. unfold index. replace (0 <=? i) with true by lia. by case_match; simplify_eq. Qed.

Lemma index_set_ok l i x :
  0 <= i < Zlen l -> index_set l i x = Ret (<[Z.to_nat i := x]> l).
Proof.
  intros. unfold index_set.
  replace ((0 <=? i) && (i <? Zlen l)) with true by lia. reflexivity.
Qed.

Lemma sub_0 l n : sub l 0 n = take (Z.to_nat n) l.
Proof. unfold sub. by rewrite Z2Nat.inj_0, drop_0. Qed.

Lemma sub_all l : sub l 0 (Zlen l) = l.
Proof. rewrite sub_0. unfold Zlen. rewrite Nat2Z.id. apply firstn_all. Qed.

Lemma sub_nil_n l k : sub l k 0 = [].
Proof. unfold sub. by rewrite Z2Nat.inj_0, take_0. Qed.

Lemma splice_nil l k : 0 <= k <= Zlen l -> splice l k [] = l.
Proof.
  intros. unfold splice. cbn. rewrite Nat.add_0_r. apply take_drop.
Qed.

Lemma sub_split l k n m :
  0 <= k -> 0 <= n -> 0 <= m -> sub l k (n + m) = sub l k n ++ sub l (k + n) m.
Proof.
  intros. unfold sub.
  rewrite !Z2Nat.inj_add by lia. rewrite <- drop_drop.
  rewrite <- (take_drop (Z.to_nat n) (drop (Z.to_nat k) l)) at 1.
  destruct (decide (Z.to_nat n ≤ length (drop (Z.to_nat k) l))%nat) as [Hle|Hgt].
  - rewrite take_app_ge; rewrite length_take; [|lia].
    f_equal. f_equal. lia.
  - rewrite (drop_ge (drop _ l)) by lia. rewrite app_nil_r, take_nil, app_nil_r.
    rewrite take_take. f_equal. lia.
Qed.

Lemma sub_lookup l k n i :
  0 <= k -> 0 <= i < n -> sub l k n !! Z.to_nat i = l !! Z.to_nat (k + i).
Proof.
  intros. unfold sub. rewrite lookup_take_lt by lia. rewrite lookup_drop.
  f_equal. lia.
Qed.

Lemma splice_lookup_in l k d i :
  0 <= k -> k + Zlen d <= Zlen l -> k <= i < k + Zlen d ->
  splice l k d !! Z.to_nat i = d !! Z.to_nat (i - k).
Proof.
  intros. unfold splice, Zlen in *.
  rewrite lookup_app_r; rewrite length_take; [|lia].
  rewrite lookup_app_l by lia. f_equal. lia.
Qed.

Lemma splice_lookup_out l k d i :
  0 <= k -> k + Zlen d <= Zlen l -> 0 <= i -> i < k \/ k + Zlen d <= i ->
  splice l k d !! Z.to_nat i = l !! Z.to_nat i.
Proof.
  intros Hk Hd Hi Hout. unfold splice, Zlen in *. destruct Hout as [Hlt|Hge].
  - rewrite lookup_app_l by (rewrite length_take; lia). apply lookup_take_lt. lia.
  - rewrite lookup_app_r; rewrite length_take; [|lia].
    rewrite lookup_app_r by lia. rewrite lookup_drop. f_equal. lia.
Qed.

(** Two lists of one length with the same element at every [Z] position are equal. *)
Lemma list_eq_Z l d :
  Zlen l = Zlen d -> (forall i, 0 <= i < Zlen l -> l !! Z.to_nat i = d !! Z.to_nat i) -> l = d.
Proof.
  unfold Zlen. intros Hl H. apply list_eq. intros i.
  destruct (decide (i < length l)%nat) as [Hlt|Hge].
  - specialize (H (Z.of_nat i)). rewrite Nat2Z.id in H. apply H. lia.
  - rewrite !lookup_ge_None_2 by lia. reflexivity.
Qed.

Lemma splice_sub_same l k d : 0 <= k -> k + Zlen d <= Zlen l -> sub (splice l k d) k (Zlen d) = d.
Proof.
  intros. apply list_eq_Z.
  - rewrite Zlen_sub; rewrite ?Zlen_splice; auto using Zlen_nonneg.
  - intros i Hi. rewrite Zlen_sub in Hi by (rewrite ?Zlen_splice; auto using Zlen_nonneg).
    rewrite sub_lookup, splice_lookup_in by lia. f_equal. lia.
Qed.

End Lists.

#[export] Hint Resolve Zlen_nonneg : machine.
#[export] Hint Rewrite @Zlen_app @Zlen_cons @Zlen_nil : zlen.

Ltac zlen := autorewrite with zlen; try lia.
