(* ===== verification/SeqNumber.v ===== *)
(** * TCP sequence numbers (wire/tcp.rs, [SeqNumber])

    A sequence number is an [i32] advanced modulo 2^32; two of them are compared by the
    sign of their wrapped difference.  Additions and subtractions panic on offsets above
    [i32::MAX], and the difference of two sequence numbers panics when it is negative. *)

From S2P Require Import Prelude.

Definition SeqNumber : Type := Z.

(** [self.0.wrapping_add(x)] and friends end in this truncation. *)
Definition seq_wrap (x : Z) : Z := wrap_i 32 x.

Definition seq_add (s : SeqNumber) (n : Z) : res SeqNumber :=
  if i32_max <? n then Panic else Ret (seq_wrap (s + n)).

Definition seq_sub_usize (s : SeqNumber) (n : Z) : res SeqNumber :=
  if i32_max <? n then Panic else Ret (seq_wrap (s - n)).

Definition seq_sub (a b : SeqNumber) : res Z :=
  let result := seq_wrap (a - b) in
  if result <? 0 then Panic else Ret result.

(** [partial_cmp], and the comparison operators it induces. *)
Definition seq_cmp (a b : SeqNumber) : comparison := seq_wrap (a - b) ?= 0.
Definition seq_lt (a b : SeqNumber) : bool := seq_wrap (a - b) <? 0.
Definition seq_le (a b : SeqNumber) : bool := seq_wrap (a - b) <=? 0.
Definition seq_gt (a b : SeqNumber) : bool := 0 <? seq_wrap (a - b).
Definition seq_ge (a b : SeqNumber) : bool := 0 <=? seq_wrap (a - b).

Definition seq_max (a b : SeqNumber) : SeqNumber := if seq_gt a b then a else b.
Definition seq_min (a b : SeqNumber) : SeqNumber := if seq_lt a b then a else b.

(** The comparison operators are the ones [PartialOrd] derives from [partial_cmp]. *)
Lemma seq_ops_cmp a b :
  seq_lt a b = (if seq_cmp a b is Lt then true else false) /\
  seq_le a b = (if seq_cmp a b is Gt then false else true) /\
  seq_gt a b = (if seq_cmp a b is Gt then true else false) /\
  seq_ge a b = (if seq_cmp a b is Lt then false else true).
Proof.
  unfold seq_lt, seq_le, seq_gt, seq_ge, seq_cmp.
  destruct (Z.compare_spec (seq_wrap (a - b)) 0); lia.
Qed.

(** ** Reasoning about wrapped differences *)

Lemma seq_wrap_spec x :
  (exists k, x = seq_wrap x + 2 ^ 32 * k) /\ - 2 ^ 31 <= seq_wrap x < 2 ^ 31.
Proof.
  unfold seq_wrap, wrap_i. change (2 ^ (32 - 1)) with (2 ^ 31).
  pose proof (Z.mod_pos_bound (x + 2 ^ 31) (2 ^ 32) eq_refl).
  split; [|lia]. exists ((x + 2 ^ 31) / 2 ^ 32).
  pose proof (Z.div_mod (x + 2 ^ 31) (2 ^ 32) ltac:(lia)). lia.
Qed.

(** Replace every wrapped value by a fresh integer with its defining bounds, then [lia]. *)
Ltac seq_pose :=
  repeat match goal with
  | |- context [seq_wrap ?x] =>
      let w := fresh "w" in let E := fresh "Ew" in
      destruct (seq_wrap_spec x) as [[? ?] ?];
      remember (seq_wrap x) as w eqn:E; clear E
  | H : context [seq_wrap ?x] |- _ =>
      let w := fresh "w" in let E := fresh "Ew" in
      destruct (seq_wrap_spec x) as [[? ?] ?];
      remember (seq_wrap x) as w eqn:E; clear E
  end.

Ltac seq_lia :=
  unfold seq_lt, seq_le, seq_gt, seq_ge in *; unfold_max; seq_pose; lia.

Lemma seq_add_ok s n : n <= i32_max -> seq_add s n = Ret (seq_wrap (s + n)).
Proof. intros. unfold seq_add. destr_if; [lia | done]. Qed.

Lemma seq_sub_usize_ok s n : n <= i32_max -> seq_sub_usize s n = Ret (seq_wrap (s - n)).
Proof. intros. unfold seq_sub_usize. destr_if; [lia | done]. Qed.

Lemma seq_sub_ok a b : 0 <= seq_wrap (a - b) -> seq_sub a b = Ret (seq_wrap (a - b)).
Proof. intros. unfold seq_sub. destr_if; [lia | done]. Qed.

Lemma seq_wrap_range x : in_i32 (seq_wrap x).
Proof. seq_lia. Qed.

Lemma seq_wrap_id x : in_i32 x -> seq_wrap x = x.
Proof. intros. seq_lia. Qed.

Lemma seq_wrap_add_l x y : seq_wrap (seq_wrap x + y) = seq_wrap (x + y).
Proof. seq_lia. Qed.

(** The wrapped distance of two numbers advanced from one base. *)
Lemma seq_dist s m n :
  - 2 ^ 31 <= m - n < 2 ^ 31 -> seq_wrap (seq_wrap (s + m) - seq_wrap (s + n)) = m - n.
Proof. intros. seq_lia. Qed.

Lemma seq_dist_0 s n : - 2 ^ 31 <= n < 2 ^ 31 -> seq_wrap (seq_wrap (s + n) - s) = n.
Proof. intros. seq_lia. Qed.

(** Every [i32] is its distance away from any base. *)
Lemma seq_decompose s x : in_i32 x -> x = seq_wrap (s + seq_wrap (x - s)).
Proof. intros. seq_lia. Qed.

Lemma seq_wrap_inj s m n :
  - 2 ^ 31 < m - n < 2 ^ 31 -> seq_wrap (s + m) = seq_wrap (s + n) -> m = n.
Proof. intros. seq_lia. Qed.

#[export] Hint Resolve seq_wrap_range : machine.

(** Evaluate the leading advance or retreat of a sequence number. *)
Ltac seq_step :=
  match goal with
  | |- context [seq_add ?a ?b ≫= _] => rewrite (seq_add_ok a b) by mlia
  | |- context [seq_sub_usize ?a ?b ≫= _] => rewrite (seq_sub_usize_ok a b) by mlia
  end; rewrite ?bind_Ret; cbv beta.

(** ** Properties *)

(** Advancing a sequence number by an offset that fits an [i32] and taking the difference
    gives the offset back, also across the wrap-around; retreating by the offset gives the
    number back; and the advanced number is not before it in the wrapped order. *)
Theorem seq_add_sub_roundtrip (s : SeqNumber) (n : Z) :
  in_i32 s -> 0 <= n <= i32_max ->
  (s' ← seq_add s n; seq_sub s' s) = Ret n /\
  (s' ← seq_add s n; seq_sub_usize s' n) = Ret s /\
  (s' ← seq_add s n; Ret (seq_le s s')) = Ret true.
Proof.
  intros Hs Hn. rewrite seq_add_ok by mlia. rewrite !bind_Ret.
  rewrite seq_sub_ok by seq_lia. rewrite seq_sub_usize_ok by mlia.
  repeat split; f_equal; seq_lia.
Qed.

Lemma seq_add_sub_roundtrip_witness :
  (s' ← seq_add i32_max 7; seq_sub s' i32_max) = Ret 7 /\
  (s' ← seq_add i32_max 7; seq_sub_usize s' 7) = Ret i32_max /\
  (s' ← seq_add i32_max 7; Ret (seq_le i32_max s')) = Ret true.
Proof. apply (seq_add_sub_roundtrip i32_max 7); vm_compute; intuition discriminate. Defined.
