(* ===== verification/RingBuffer.v ===== *)
(** * Ring buffers (storage/ring_buffer.rs)

    [RingBuffer] is a fixed storage slice with a read position and a length.  A method
    that hands out a reference into the storage is modelled by the position and length of
    the referenced range; a closure argument receives the position and the elements of
    the range it may access and returns the elements it leaves there.

    The abstract value of a buffer is the queue [rb_contents]; [rb_view] lists the whole
    storage starting at the read position, so that the queue is its first [length]
    elements and the unallocated area the rest. *)

From S2P Require Import Prelude.

(** Error values of the discrete interface (storage/mod.rs). *)
Inductive Full : Set := FullErr.
Inductive Empty : Set := EmptyErr.

Record RingBuffer (T : Type) : Type := mkRingBuffer {
  rb_storage : list T;
  rb_read_at : Z;
  rb_length : Z;
}.
Arguments mkRingBuffer {T} _ _ _.
Arguments rb_storage {T} _.
Arguments rb_read_at {T} _.
Arguments rb_length {T} _.

Section RingBuffer.
Context {T : Type}.
Implicit Types rb : RingBuffer T.

Definition rb_new (storage : list T) : RingBuffer T := mkRingBuffer storage 0 0.

Definition rb_clear rb : RingBuffer T := mkRingBuffer (rb_storage rb) 0 0.

Definition rb_capacity rb : Z := Zlen (rb_storage rb).

(** [T: Resettable] contributes its in-place [reset]. *)
Definition rb_reset (elem_reset : T -> T) rb : RingBuffer T :=
  let rb := rb_clear rb in
  mkRingBuffer (elem_reset <$> rb_storage rb) (rb_read_at rb) (rb_length rb).

Definition rb_len rb : Z := rb_length rb.

Definition rb_window rb : res Z := usize_sub (rb_capacity rb) (rb_len rb).

Definition rb_get_idx rb (idx : Z) : res Z :=
  let len := rb_capacity rb in
  if 0 <? len then i ← usize_add (rb_read_at rb) idx; Ret (i mod len) else Ret 0.

(** [% capacity] panics for a capacity of zero. *)
Definition rb_get_idx_unchecked rb (idx : Z) : res Z :=
  i ← usize_add (rb_read_at rb) idx;
  if rb_capacity rb =? 0 then Panic else Ret (i mod rb_capacity rb).

Definition rb_contiguous_window rb : res Z :=
  w ← rb_window rb;
  i ← rb_get_idx rb (rb_length rb);
  e ← usize_sub (rb_capacity rb) i;
  Ret (Z.min w e).

Definition rb_is_empty rb : bool := rb_len rb =? 0.

Definition rb_is_full rb : res bool := w ← rb_window rb; Ret (w =? 0).

(** *** Discrete interface *)

(** The closure gets the element (and its position), leaves an element and succeeds or not;
    it may panic. *)
Definition rb_enqueue_one_with {R E} rb (f : Z -> T -> res (T * result R E))
  : res (RingBuffer T * result (result R E) Full) :=
  full ← rb_is_full rb;
  if (full : bool) then Ret (rb, Err FullErr)
  else
    index_ ← rb_get_idx_unchecked rb (rb_length rb);
    x ← index (rb_storage rb) index_;
    '(x', r) ← f index_ x;
    st ← index_set (rb_storage rb) index_ x';
    len ← (if is_ok r then usize_add (rb_length rb) 1 else Ret (rb_length rb));
    Ret (mkRingBuffer st (rb_read_at rb) len, Ok r).

(** Returns the position of the element enqueued. *)
Definition rb_enqueue_one rb : res (RingBuffer T * result Z Full) :=
  '(rb', r) ← rb_enqueue_one_with (E := Full) rb (fun pos x => Ret (x, Ok pos));
  Ret (rb', match r with Ok (Ok pos) => Ok pos | Ok (Err e) => Err e | Err e => Err e end).

Definition rb_dequeue_one_with {R E} rb (f : Z -> T -> res (T * result R E))
  : res (RingBuffer T * result (result R E) Empty) :=
  if rb_is_empty rb then Ret (rb, Err EmptyErr)
  else
    next_at ← rb_get_idx_unchecked rb 1;
    x ← index (rb_storage rb) (rb_read_at rb);
    '(x', r) ← f (rb_read_at rb) x;
    st ← index_set (rb_storage rb) (rb_read_at rb) x';
    if is_ok r then
      len ← usize_sub (rb_length rb) 1;
      Ret (mkRingBuffer st next_at len, Ok r)
    else Ret (mkRingBuffer st (rb_read_at rb) (rb_length rb), Ok r).

Definition rb_dequeue_one rb : res (RingBuffer T * result Z Empty) :=
  '(rb', r) ← rb_dequeue_one_with (E := Empty) rb (fun pos x => Ret (x, Ok pos));
  Ret (rb', match r with Ok (Ok pos) => Ok pos | Ok (Err e) => Err e | Err e => Err e end).

(** *** Continuous interface *)

(** The closure gets the position and the elements of the slice, and returns the elements
    it leaves in the slice, the amount to enqueue, and its result. *)
Definition rb_enqueue_many_with {R} rb (f : Z -> list T -> res (list T * Z * R))
  : res (RingBuffer T * Z * R) :=
  let rb := if rb_length rb =? 0 then mkRingBuffer (rb_storage rb) 0 (rb_length rb) else rb in
  write_at ← rb_get_idx rb (rb_length rb);
  max_size ← rb_contiguous_window rb;
  write_end ← usize_add write_at max_size;
  buf ← slice (rb_storage rb) write_at write_end;
  '(buf', size, result_) ← f write_at buf;
  st ← copy_into (rb_storage rb) write_at buf';
  _ ← passert (size <=? max_size);
  len ← usize_add (rb_length rb) size;
  Ret (mkRingBuffer st (rb_read_at rb) len, size, result_).

(** Returns the position and length of the slice enqueued. *)
Definition rb_enqueue_many rb (size : Z) : res (RingBuffer T * (Z * Z)) :=
  '(rb', _, r) ← rb_enqueue_many_with rb (fun pos buf =>
     let size := Z.min size (Zlen buf) in Ret (buf, size, (pos, size)));
  Ret (rb', r).

(** The closure of [enqueue_slice]: copy the data that fits, return what is left. *)
Definition enqueue_slice_fn (data : list T) (pos : Z) (buf : list T) : res (list T * Z * list T) :=
  let size := Z.min (Zlen buf) (Zlen data) in
  Ret (splice buf 0 (sub data 0 size), size, drop (Z.to_nat size) data).

Definition rb_enqueue_slice rb (data : list T) : res (RingBuffer T * Z) :=
  '(rb1, size_1, data) ← rb_enqueue_many_with rb (enqueue_slice_fn data);
  '(rb2, size_2, _) ← rb_enqueue_many_with rb1 (enqueue_slice_fn data);
  s ← usize_add size_1 size_2;
  Ret (rb2, s).

Definition rb_dequeue_many_with {R} rb (f : Z -> list T -> res (list T * Z * R))
  : res (RingBuffer T * Z * R) :=
  let capacity := rb_capacity rb in
  c ← usize_sub capacity (rb_read_at rb);
  let max_size := Z.min (rb_len rb) c in
  read_end ← usize_add (rb_read_at rb) max_size;
  buf ← slice (rb_storage rb) (rb_read_at rb) read_end;
  '(buf', size, result_) ← f (rb_read_at rb) buf;
  st ← copy_into (rb_storage rb) (rb_read_at rb) buf';
  _ ← passert (size <=? max_size);
  read_at ← (if 0 <? capacity then r ← usize_add (rb_read_at rb) size; Ret (r mod capacity)
             else Ret 0);
  len ← usize_sub (rb_length rb) size;
  Ret (mkRingBuffer st read_at len, size, result_).

Definition rb_dequeue_many rb (size : Z) : res (RingBuffer T * (Z * Z)) :=
  '(rb', _, r) ← rb_dequeue_many_with rb (fun pos buf =>
     let size := Z.min size (Zlen buf) in Ret (buf, size, (pos, size)));
  Ret (rb', r).

(** The closure of [dequeue_slice]: [out] is what was copied out so far, [room] the space
    left in the destination slice. *)
Definition dequeue_slice_fn (room : Z) (pos : Z) (buf : list T) : res (list T * Z * list T) :=
  let size := Z.min (Zlen buf) room in Ret (buf, size, sub buf 0 size).

(** Returns the elements written to the front of a destination of length [data_len],
    and their number. *)
Definition rb_dequeue_slice rb (data_len : Z) : res (RingBuffer T * list T * Z) :=
  '(rb1, size_1, out1) ← rb_dequeue_many_with rb (dequeue_slice_fn data_len);
  room ← usize_sub data_len size_1;
  '(rb2, size_2, out2) ← rb_dequeue_many_with rb1 (dequeue_slice_fn room);
  s ← usize_add size_1 size_2;
  Ret (rb2, out1 ++ out2, s).

(** *** Random access interface *)

(** Position and length of the slice of unallocated elements. *)
Definition rb_get_unallocated rb (offset size : Z) : res (Z * Z) :=
  o ← usize_add (rb_length rb) offset;
  start_at ← rb_get_idx rb o;
  w ← rb_window rb;
  if w <? offset then Ret (start_at, 0)
  else
    clamped_window ← usize_sub w offset;
    let size := if clamped_window <? size then clamped_window else size in
    until_end ← usize_sub (rb_capacity rb) start_at;
    let size := if until_end <? size then until_end else size in
    e ← usize_add start_at size;
    _ ← slice (rb_storage rb) start_at e;
    Ret (start_at, size).

Definition rb_write_unallocated rb (offset : Z) (data : list T) : res (RingBuffer T * Z) :=
  '(p1, n1) ← rb_get_unallocated rb offset (Zlen data);
  d1 ← slice data 0 n1;
  st1 ← copy_into (rb_storage rb) p1 d1;
  let rb1 := mkRingBuffer st1 (rb_read_at rb) (rb_length rb) in
  offset ← usize_add offset n1;
  let data := drop (Z.to_nat n1) data in
  '(p2, n2) ← rb_get_unallocated rb1 offset (Zlen data);
  d2 ← slice data 0 n2;
  st2 ← copy_into (rb_storage rb1) p2 d2;
  s ← usize_add n1 n2;
  Ret (mkRingBuffer st2 (rb_read_at rb) (rb_length rb), s).

Definition rb_enqueue_unallocated rb (count : Z) : res (RingBuffer T) :=
  w ← rb_window rb;
  _ ← passert (count <=? w);
  len ← usize_add (rb_length rb) count;
  Ret (mkRingBuffer (rb_storage rb) (rb_read_at rb) len).

Definition rb_get_allocated rb (offset size : Z) : res (list T) :=
  start_at ← rb_get_idx rb offset;
  if rb_length rb <? offset then Ret []
  else
    clamped_length ← usize_sub (rb_length rb) offset;
    let size := if clamped_length <? size then clamped_length else size in
    until_end ← usize_sub (rb_capacity rb) start_at;
    let size := if until_end <? size then until_end else size in
    e ← usize_add start_at size;
    slice (rb_storage rb) start_at e.

(** Returns the elements written to the front of a destination of length [data_len]. *)
Definition rb_read_allocated rb (offset data_len : Z) : res (list T * Z) :=
  s1 ← rb_get_allocated rb offset data_len;
  room ← usize_sub data_len (Zlen s1);
  offset ← usize_add offset (Zlen s1);
  s2 ← rb_get_allocated rb offset room;
  n ← usize_add (Zlen s1) (Zlen s2);
  Ret (s1 ++ s2, n).

Definition rb_dequeue_allocated rb (count : Z) : res (RingBuffer T) :=
  _ ← passert (count <=? rb_len rb);
  len ← usize_sub (rb_length rb) count;
  read_at ← rb_get_idx rb count;
  Ret (mkRingBuffer (rb_storage rb) read_at len).

(** ** Invariant and abstraction *)

(** The read position is inside the storage, the length at most the capacity; a Rust slice
    has at most [isize::MAX] elements. *)
Definition rb_wf rb : Prop :=
  0 <= rb_length rb <= rb_capacity rb /\
  rb_capacity rb <= isize_max /\
  0 <= rb_read_at rb /\
  (rb_read_at rb < rb_capacity rb \/ (rb_capacity rb = 0 /\ rb_read_at rb = 0)).

Definition rb_view rb : list T :=
  drop (Z.to_nat (rb_read_at rb)) (rb_storage rb) ++ take (Z.to_nat (rb_read_at rb)) (rb_storage rb).

Definition rb_contents rb : list T := take (Z.to_nat (rb_length rb)) (rb_view rb).

(** Storage position of the [k]-th element of the view. *)
Definition rb_pos rb (k : Z) : Z :=
  if rb_capacity rb =? 0 then 0 else (rb_read_at rb + k) mod rb_capacity rb.

(** ** The view and the storage *)

Lemma rb_pos_cases rb k :
  rb_wf rb -> 0 <= k <= rb_capacity rb -> 0 < rb_capacity rb ->
  (rb_read_at rb + k < rb_capacity rb /\ rb_pos rb k = rb_read_at rb + k) \/
  (rb_capacity rb <= rb_read_at rb + k /\ rb_pos rb k = rb_read_at rb + k - rb_capacity rb).
Proof.
  intros (Hl & Hc & Hr & Hr') Hk Hpos. unfold rb_pos.
  replace (rb_capacity rb =? 0) with false by lia.
  destruct (Z_lt_le_dec (rb_read_at rb + k) (rb_capacity rb)) as [Hlt|Hge]; [left|right].
  - rewrite Z.mod_small by lia. lia.
  - split; [lia|]. rewrite <- (Z.mod_small (rb_read_at rb + k - rb_capacity rb) (rb_capacity rb)) by lia.
    rewrite <- (Z_mod_plus_full (rb_read_at rb + k - rb_capacity rb) 1). f_equal. lia.
Qed.

Lemma rb_pos_range rb k :
  rb_wf rb -> 0 <= k <= rb_capacity rb -> 0 <= rb_pos rb k <= rb_capacity rb.
Proof.
  intros Hwf Hk. destruct (Z.eq_dec (rb_capacity rb) 0) as [E|E].
  - unfold rb_pos. rewrite E. cbn. lia.
  - destruct (rb_pos_cases rb k); auto; destruct Hwf; lia.
Qed.

Lemma Zlen_rb_view rb : rb_wf rb -> Zlen (rb_view rb) = rb_capacity rb.
Proof.
  intros (_ & _ & Hr & Hr'). unfold rb_view, rb_capacity in *.
  rewrite Zlen_app. unfold Zlen in *. rewrite length_drop, length_take. lia.
Qed.

Lemma rb_view_lookup rb k :
  rb_wf rb -> 0 <= k < rb_capacity rb ->
  rb_view rb !! Z.to_nat k = rb_storage rb !! Z.to_nat (rb_pos rb k).
Proof.
  intros Hwf Hk. pose proof Hwf as (Hl & Hc & Hr & Hr').
  unfold rb_view, rb_capacity, Zlen in *.
  destruct (rb_pos_cases rb k Hwf) as [[Hlt ->]|[Hge ->]]; unfold rb_capacity, Zlen in *; try lia.
  - rewrite lookup_app_l by (rewrite length_drop; lia). rewrite lookup_drop. f_equal. lia.
  - rewrite lookup_app_r by (rewrite length_drop; lia). rewrite length_drop.
    rewrite lookup_take_lt by lia. f_equal. lia.
Qed.

(** A contiguous range of the storage is the corresponding range of the view. *)
Lemma rb_view_sub rb k n :
  rb_wf rb -> 0 <= k -> 0 <= n -> k + n <= rb_capacity rb -> rb_pos rb k + n <= rb_capacity rb ->
  sub (rb_storage rb) (rb_pos rb k) n = sub (rb_view rb) k n.
Proof.
  intros Hwf Hk Hn Hkn Hp. pose proof Hwf as (Hl & Hc & Hr & Hr').
  assert (Hpr : 0 <= rb_pos rb k) by (apply rb_pos_range; auto; lia).
  apply list_eq_Z.
  - rewrite !Zlen_sub; rewrite ?Zlen_rb_view; auto.
  - intros i Hi. rewrite Zlen_sub in Hi by auto.
    rewrite !sub_lookup by lia. rewrite rb_view_lookup by (auto; lia).
    f_equal. f_equal.
    destruct (rb_pos_cases rb k); try lia; auto; destruct (rb_pos_cases rb (k + i)); auto; lia.
Qed.

Lemma rb_wf_storage rb st :
  rb_wf rb -> Zlen st = rb_capacity rb -> rb_wf (mkRingBuffer st (rb_read_at rb) (rb_length rb)).
Proof. unfold rb_wf, rb_capacity. cbn. intros Hwf E. by rewrite E. Qed.

Lemma rb_pos_storage rb st len k :
  Zlen st = rb_capacity rb -> rb_pos (mkRingBuffer st (rb_read_at rb) len) k = rb_pos rb k.
Proof. unfold rb_pos, rb_capacity. cbn. by intros ->. Qed.

(** Writing a contiguous range of the storage writes the corresponding range of the view. *)
Lemma rb_pos_advance rb (st : list T) n len k :
  Zlen st = rb_capacity rb -> rb_pos (mkRingBuffer st (rb_pos rb n) len) k = rb_pos rb (n + k).
Proof.
  intros Hst. unfold rb_pos.
  assert (Hc : rb_capacity (mkRingBuffer st (if rb_capacity rb =? 0 then 0 else (rb_read_at rb + n) mod rb_capacity rb) len)
    = rb_capacity rb) by exact Hst.
  rewrite Hc. cbn [rb_read_at].
  destr_if; [done|]. by rewrite Zplus_mod_idemp_l, Z.add_assoc.
Qed.

Lemma rb_view_splice rb k d len :
  rb_wf rb -> 0 <= k -> k + Zlen d <= rb_capacity rb -> rb_pos rb k + Zlen d <= rb_capacity rb ->
  rb_view (mkRingBuffer (splice (rb_storage rb) (rb_pos rb k) d) (rb_read_at rb) len)
  = splice (rb_view rb) k d.
Proof.
  intros Hwf Hk Hkn Hp. pose proof (Zlen_nonneg d) as Hd0.
  assert (Hpr : 0 <= rb_pos rb k) by (apply rb_pos_range; auto; lia).
  set (st := splice _ _ d).
  assert (Hcap : Zlen st = rb_capacity rb) by (by apply Zlen_splice).
  change (rb_view (mkRingBuffer st (rb_read_at rb) len))
    with (rb_view (mkRingBuffer st (rb_read_at rb) (rb_length rb))).
  pose proof (rb_wf_storage rb st Hwf Hcap) as Hwf'.
  apply list_eq_Z; rewrite Zlen_rb_view by auto; unfold rb_capacity at 1; cbn [rb_storage].
  - rewrite Zlen_splice; rewrite ?Zlen_rb_view; auto.
  - intros i Hi. unfold rb_capacity in Hi. cbn [rb_storage] in Hi. rewrite Hcap in Hi.
    rewrite rb_view_lookup by (auto; unfold rb_capacity; cbn [rb_storage]; lia).
    rewrite rb_pos_storage by auto. cbn [rb_storage]. subst st.
    destruct (rb_pos_cases rb k) as [[? Ek]|[? Ek]]; try lia; auto;
    destruct (rb_pos_cases rb i) as [[? Ei]|[? Ei]]; try lia; auto; rewrite ?Ek, ?Ei in *;
    (destruct (Z_lt_le_dec i k); [|destruct (Z_lt_le_dec i (k + Zlen d))]);
    (first [ rewrite (splice_lookup_in (rb_view rb)) by (rewrite ?Zlen_rb_view; auto; lia);
             rewrite splice_lookup_in by (unfold rb_capacity in *; lia); f_equal; lia
           | rewrite (splice_lookup_out (rb_view rb)) by (rewrite ?Zlen_rb_view; auto; lia);
             rewrite splice_lookup_out by (unfold rb_capacity, rb_wf in *; lia);
             rewrite rb_view_lookup by (auto; lia); rewrite Ei; reflexivity
           | destruct Hwf; unfold rb_capacity in *; lia ]).
Qed.

(** Advancing the read position rotates the view. *)
Lemma rb_view_advance rb n len :
  rb_wf rb -> 0 <= n <= rb_capacity rb -> 0 < rb_capacity rb ->
  rb_view (mkRingBuffer (rb_storage rb) (rb_pos rb n) len)
  = drop (Z.to_nat n) (rb_view rb) ++ take (Z.to_nat n) (rb_view rb).
Proof.
  intros Hwf Hn Hpos. pose proof Hwf as (Hl & Hc & Hr & Hr').
  destruct (rb_pos_cases rb n) as [[Hlt E]|[Hge E]]; auto;
    unfold rb_view, rb_capacity, Zlen in *; cbn; rewrite E.
  - rewrite drop_app_le by (rewrite length_drop; lia).
    rewrite take_app_le by (rewrite length_drop; lia).
    rewrite drop_drop. rewrite <- app_assoc. f_equal; [f_equal; lia|].
    rewrite take_drop_commute.
    rewrite <- (take_drop (Z.to_nat (rb_read_at rb)) (take _ (rb_storage rb))) at 1.
    rewrite take_take. f_equal; [f_equal; lia| f_equal; f_equal; lia].
  - rewrite drop_app_ge by (rewrite length_drop; lia).
    rewrite take_app_ge by (rewrite length_drop; lia). rewrite length_drop.
    set (r := Z.to_nat (rb_read_at rb)). set (s := rb_storage rb) in *.
    set (j := (Z.to_nat n - (length s - r))%nat).
    replace (Z.to_nat (rb_read_at rb + n - Z.of_nat (length s))) with j by lia.
    rewrite take_take. replace (j `min` r)%nat with j by lia.
    rewrite !app_assoc. f_equal.
    rewrite <- (take_drop r s) at 1.
    rewrite drop_app_le by (rewrite length_take; lia). reflexivity.
Qed.

(** ** Evaluation of the operations on well-formed buffers *)

Lemma rb_window_ok rb : rb_wf rb -> rb_window rb = Ret (rb_capacity rb - rb_length rb).
Proof. intros (? & ? & ?). unfold rb_window, rb_len. apply usize_sub_ok. mlia. Qed.

Lemma rb_get_idx_ok rb k :
  rb_wf rb -> 0 <= k -> rb_read_at rb + k <= usize_max -> rb_get_idx rb k = Ret (rb_pos rb k).
Proof.
  intros (? & ? & ? & ?) Hk Ho. unfold rb_get_idx, rb_pos.
  destruct (Z.ltb_spec 0 (rb_capacity rb)).
  - rewrite usize_add_ok by mlia. replace (rb_capacity rb =? 0) with false by lia. reflexivity.
  - replace (rb_capacity rb =? 0) with true by lia. reflexivity.
Qed.

Lemma rb_get_idx_in rb k :
  rb_wf rb -> 0 <= k <= rb_capacity rb -> rb_get_idx rb k = Ret (rb_pos rb k).
Proof. intros Hwf Hk. apply rb_get_idx_ok; auto; destruct Hwf; mlia. Qed.

(** Size of the contiguous unallocated range at the tail. *)
Definition rb_cw rb : Z :=
  Z.min (rb_capacity rb - rb_length rb) (rb_capacity rb - rb_pos rb (rb_length rb)).

Lemma rb_contiguous_window_ok rb : rb_wf rb -> rb_contiguous_window rb = Ret (rb_cw rb).
Proof.
  intros Hwf. unfold rb_contiguous_window.
  rewrite rb_window_ok, bind_Ret by auto.
  rewrite rb_get_idx_in, bind_Ret by (auto; destruct Hwf; lia).
  pose proof (rb_pos_range rb (rb_length rb) Hwf ltac:(destruct Hwf; lia)).
  rewrite usize_sub_ok by (destruct Hwf; mlia). reflexivity.
Qed.

(** [read_at] is rewound when the queue is empty. *)
Definition rb_norm rb : RingBuffer T :=
  if rb_length rb =? 0 then mkRingBuffer (rb_storage rb) 0 (rb_length rb) else rb.

Lemma rb_norm_wf rb : rb_wf rb -> rb_wf (rb_norm rb).
Proof. unfold rb_norm. destr_if; auto. unfold rb_wf, rb_capacity. cbn. lia. Qed.

Lemma rb_norm_contents rb : rb_contents (rb_norm rb) = rb_contents rb.
Proof.
  unfold rb_norm. destr_if; auto. apply Z.eqb_eq in Hif. unfold rb_contents. cbn.
  by rewrite Hif.
Qed.

Lemma rb_norm_capacity rb : rb_capacity (rb_norm rb) = rb_capacity rb.
Proof. unfold rb_norm. by destr_if. Qed.

Lemma rb_norm_length rb : rb_length (rb_norm rb) = rb_length rb.
Proof. unfold rb_norm. by destr_if. Qed.

Lemma rb_cw_range rb :
  rb_wf rb -> 0 <= rb_cw rb <= rb_capacity rb - rb_length rb /\
  rb_pos rb (rb_length rb) + rb_cw rb <= rb_capacity rb.
Proof.
  intros Hwf. pose proof (rb_pos_range rb (rb_length rb) Hwf ltac:(destruct Hwf; lia)).
  unfold rb_cw. destruct Hwf. lia.
Qed.

Lemma Zlen_contents rb : rb_wf rb -> Zlen (rb_contents rb) = rb_length rb.
Proof.
  intros Hwf. pose proof (Zlen_rb_view rb Hwf). destruct Hwf as (? & _).
  unfold rb_contents, Zlen in *. rewrite length_take. lia.
Qed.

Lemma rb_enqueue_many_with_ok {R} rb (f : Z -> list T -> res (list T * Z * R)) buf' size r :
  rb_wf rb ->
  let rb1 := rb_norm rb in
  f (rb_pos rb1 (rb_length rb)) (sub (rb_view rb1) (rb_length rb) (rb_cw rb1)) = Ret (buf', size, r) ->
  Zlen buf' = rb_cw rb1 -> 0 <= size <= rb_cw rb1 ->
  rb_enqueue_many_with rb f = Ret
    (mkRingBuffer (splice (rb_storage rb) (rb_pos rb1 (rb_length rb)) buf')
       (rb_read_at rb1) (rb_length rb + size), size, r).
Proof.
  intros Hwf rb1 Hf Hb Hs. unfold rb_enqueue_many_with.
  change (if rb_length rb =? 0 then _ else rb) with rb1. cbv zeta.
  pose proof (rb_norm_wf rb Hwf) as Hwf1. fold rb1 in Hwf1.
  assert (El : rb_length rb1 = rb_length rb) by apply rb_norm_length.
  pose proof (rb_cw_range rb1 Hwf1) as (Hcw & Hcw'). rewrite El in *.
  pose proof Hwf1 as (? & ? & _). rewrite El in *.
  pose proof (rb_pos_range rb1 (rb_length rb) Hwf1 ltac:(lia)).
  rewrite rb_get_idx_in, bind_Ret by (auto; lia).
  rewrite rb_contiguous_window_ok, bind_Ret by auto.
  rewrite usize_add_ok, bind_Ret by mlia.
  rewrite slice_ok, bind_Ret by (unfold rb_capacity in *; lia).
  rewrite Z.add_simpl_l, rb_view_sub by (auto; lia). rewrite Hf, bind_Ret.
  assert (Est : rb_storage rb1 = rb_storage rb) by (unfold rb1, rb_norm; by destr_if).
  rewrite copy_into_ok, bind_Ret by (unfold rb_capacity in *; lia).
  unfold passert. replace (size <=? rb_cw rb1) with true by lia. rewrite bind_Ret.
  rewrite usize_add_ok, bind_Ret by mlia. by rewrite Est.
Qed.

(** The queue after enqueueing [size] of the elements [buf'] left in the tail range. *)
Lemma rb_enqueue_many_contents rb buf' size :
  rb_wf rb -> Zlen buf' = rb_cw rb -> 0 <= size <= rb_cw rb ->
  let rb' := mkRingBuffer (splice (rb_storage rb) (rb_pos rb (rb_length rb)) buf')
               (rb_read_at rb) (rb_length rb + size) in
  rb_wf rb' /\ rb_capacity rb' = rb_capacity rb /\
  rb_contents rb' = rb_contents rb ++ take (Z.to_nat size) buf'.
Proof.
  intros Hwf Hb Hs rb'. pose proof (rb_cw_range rb Hwf) as (Hcw & Hcw').
  pose proof Hwf as (? & ? & ? & ?).
  pose proof (rb_pos_range rb (rb_length rb) Hwf ltac:(lia)).
  assert (Hcap : rb_capacity rb' = rb_capacity rb).
  { unfold rb_capacity, rb'. cbn. apply Zlen_splice; unfold rb_capacity in *; lia. }
  split; [|split; [done|]].
  - unfold rb_wf. rewrite Hcap. cbn. lia.
  - unfold rb_contents. unfold rb'. rewrite rb_view_splice by (auto; lia). cbn [rb_length].
    unfold splice. pose proof (Zlen_rb_view rb Hwf) as Hv.
    assert (Hlen : length (take (Z.to_nat (rb_length rb)) (rb_view rb)) = Z.to_nat (rb_length rb)).
    { rewrite length_take. unfold Zlen in *. lia. }
    rewrite take_app_ge by lia. rewrite Hlen. f_equal.
    rewrite take_app_le by (unfold Zlen in *; lia). f_equal. lia.
Qed.

(** Once the contiguous range is used up, the next one is everything that is free. *)
Lemma rb_cw_full rb st :
  rb_wf rb -> Zlen st = rb_capacity rb ->
  let rb' := mkRingBuffer st (rb_read_at rb) (rb_length rb + rb_cw rb) in
  rb_cw (rb_norm rb') = rb_capacity rb - (rb_length rb + rb_cw rb).
Proof.
  intros Hwf Hst rb'. pose proof (rb_cw_range rb Hwf) as (Hcw & Hcw').
  pose proof Hwf as (? & ? & ? & ?).
  assert (Hcap : rb_capacity rb' = rb_capacity rb) by (unfold rb_capacity at 1; exact Hst).
  assert (Hwf' : rb_wf rb') by (unfold rb_wf; rewrite Hcap; cbn; lia).
  assert (Hwfn : rb_wf (rb_norm rb')) by (by apply rb_norm_wf).
  unfold rb_cw at 1. rewrite rb_norm_capacity, rb_norm_length, Hcap.
  change (rb_length rb') with (rb_length rb + rb_cw rb).
  pose proof (rb_pos_range _ (rb_length (rb_norm rb')) Hwfn ltac:(destruct Hwfn; lia)) as Hp.
  rewrite rb_norm_capacity, Hcap in Hp. rewrite rb_norm_length in Hp. cbn [rb_length rb'] in Hp.
  destruct (Z.eq_dec (rb_capacity rb) (rb_length rb + rb_cw rb)) as [E|E]; [lia|].
  destruct (Z.eq_dec (rb_capacity rb) 0) as [E0|E0]; [lia|].
  cut (rb_pos (rb_norm rb') (rb_length rb + rb_cw rb) = 0); [lia|].
  unfold rb_norm. cbn [rb_length rb']. destr_if.
  - unfold rb_pos. destr_if; [done|]. cbn [rb_read_at].
    replace (0 + (rb_length rb + rb_cw rb)) with 0 by lia. apply Zmod_0_l.
  - unfold rb'. rewrite rb_pos_storage by done.
    destruct (rb_pos_cases rb (rb_length rb)) as [[? E1]|[? E1]]; auto; try lia;
    unfold rb_cw in *; destruct (rb_pos_cases rb (rb_length rb + (rb_capacity rb - rb_pos rb (rb_length rb)))) as [[? E2]|[? E2]]; auto; try lia.
    all: rewrite Z.min_r by lia; lia.
Qed.

(** One closure call of [enqueue_slice]. *)
Lemma rb_enqueue_slice_step rb data :
  rb_wf rb ->
  let n := Z.min (rb_cw (rb_norm rb)) (Zlen data) in
  exists st, Zlen st = rb_capacity rb /\
  let rb' := mkRingBuffer st (rb_read_at (rb_norm rb)) (rb_length rb + n) in
  rb_enqueue_many_with rb (enqueue_slice_fn data) = Ret (rb', n, drop (Z.to_nat n) data) /\
  rb_wf rb' /\ rb_contents rb' = rb_contents rb ++ take (Z.to_nat n) data.
Proof.
  intros Hwf n. pose proof (rb_norm_wf rb Hwf) as Hwf1.
  pose proof (rb_cw_range _ Hwf1) as (Hcw & Hcw').
  rewrite rb_norm_length, rb_norm_capacity in *.
  pose proof (Zlen_nonneg data).
  assert (Hbuf : Zlen (sub (rb_view (rb_norm rb)) (rb_length rb) (rb_cw (rb_norm rb)))
                 = rb_cw (rb_norm rb)).
  { pose proof Hwf as (? & _). rewrite Zlen_sub; rewrite ?Zlen_rb_view, ?rb_norm_capacity; auto; lia. }
  set (buf := sub _ _ _) in *.
  assert (Hd : Zlen (sub data 0 n) = n) by (rewrite Zlen_sub; lia).
  assert (Hb' : Zlen (splice buf 0 (sub data 0 n)) = rb_cw (rb_norm rb)) by (rewrite Zlen_splice; lia).
  pose proof (rb_enqueue_many_with_ok rb (enqueue_slice_fn data)
    (splice buf 0 (sub data 0 n)) n (drop (Z.to_nat n) data) Hwf) as Heval.
  pose proof (rb_enqueue_many_contents (rb_norm rb) (splice buf 0 (sub data 0 n)) n Hwf1 Hb' ltac:(lia))
    as (Hw & Hc & Hcont).
  rewrite rb_norm_length, rb_norm_contents in *. rewrite rb_norm_capacity in *.
  assert (Est : rb_storage (rb_norm rb) = rb_storage rb) by (unfold rb_norm; by destr_if).
  rewrite Est in *.
  exists (splice (rb_storage rb) (rb_pos (rb_norm rb) (rb_length rb)) (splice buf 0 (sub data 0 n))).
  split; [exact Hc|]. split; [|split].
  - apply Heval; auto; [|lia]. unfold enqueue_slice_fn. fold buf. rewrite Hbuf. reflexivity.
  - exact Hw.
  - rewrite Hcont. f_equal. unfold splice.
    change (take (Z.to_nat 0) buf) with (@nil T). rewrite app_nil_l.
    rewrite take_app_le by (unfold Zlen in Hd; lia). rewrite sub_0, take_take. f_equal. lia.
Qed.

(** ** Reading *)

(** The front of the queue, up to the end of the storage. *)
Lemma rb_front_sub rb n :
  rb_wf rb -> 0 <= n <= rb_capacity rb - rb_read_at rb -> sub (rb_storage rb) (rb_read_at rb) n = sub (rb_view rb) 0 n.
Proof.
  intros Hwf Hn. pose proof Hwf as (? & ? & ? & ?). assert (Hp0 : rb_read_at rb = rb_pos rb 0).
  { destruct (Z.eq_dec (rb_capacity rb) 0) as [E|E].
    - unfold rb_pos. rewrite E. cbn. lia.
    - destruct (rb_pos_cases rb 0); auto; lia. }
  rewrite <- rb_view_sub; rewrite <- ?Hp0; auto; lia.
Qed.

Lemma rb_dequeue_many_with_ok {R} rb (f : Z -> list T -> res (list T * Z * R)) buf' size r :
  rb_wf rb ->
  let max_size := Z.min (rb_length rb) (rb_capacity rb - rb_read_at rb) in
  f (rb_read_at rb) (sub (rb_view rb) 0 max_size) = Ret (buf', size, r) ->
  Zlen buf' = max_size -> 0 <= size <= max_size ->
  rb_dequeue_many_with rb f = Ret
    (mkRingBuffer (splice (rb_storage rb) (rb_read_at rb) buf') (rb_pos rb size)
       (rb_length rb - size), size, r).
Proof.
  intros Hwf max_size Hf Hb Hs. pose proof Hwf as (? & ? & ? & ?).
  unfold rb_dequeue_many_with, rb_len. cbv zeta.
  rewrite usize_sub_ok, bind_Ret by mlia. fold max_size.
  rewrite usize_add_ok, bind_Ret by mlia.
  rewrite slice_ok, bind_Ret by (unfold rb_capacity in *; lia).
  rewrite Z.add_simpl_l, rb_front_sub by (done || lia).
  rewrite Hf, bind_Ret. rewrite copy_into_ok, bind_Ret by (unfold rb_capacity in *; lia).
  unfold passert. replace (size <=? max_size) with true by lia. rewrite bind_Ret.
  unfold rb_pos. destruct (Z.ltb_spec 0 (rb_capacity rb)).
  - replace (rb_capacity rb =? 0) with false by lia.
    rewrite usize_add_ok, !bind_Ret by mlia. rewrite usize_sub_ok, bind_Ret by mlia. reflexivity.
  - replace (rb_capacity rb =? 0) with true by lia. rewrite bind_Ret.
    rewrite usize_sub_ok, bind_Ret by mlia. reflexivity.
Qed.

Lemma rb_dequeue_many_with_panic {R} rb (f : Z -> list T -> res (list T * Z * R)) :
  rb_wf rb -> f (rb_read_at rb) (sub (rb_view rb) 0 (Z.min (rb_length rb) (rb_capacity rb - rb_read_at rb))) = Panic ->
  rb_dequeue_many_with rb f = Panic.
Proof.
  intros Hwf Hf. pose proof Hwf as (? & ? & ? & ?). unfold rb_dequeue_many_with, rb_len. cbv zeta.
  rewrite usize_sub_ok, bind_Ret by mlia. rewrite usize_add_ok, bind_Ret by mlia.
  rewrite slice_ok, bind_Ret by (unfold rb_capacity in *; lia).
  rewrite Z.add_simpl_l, rb_front_sub, Hf by (done || lia). done.
Qed.

(** Dropping [n] elements at the head of the queue, the storage left as it is. *)
Lemma rb_advance_contents rb n :
  rb_wf rb -> 0 <= n <= rb_length rb ->
  let rb' := mkRingBuffer (rb_storage rb) (rb_pos rb n) (rb_length rb - n) in
  rb_wf rb' /\ rb_contents rb' = drop (Z.to_nat n) (rb_contents rb) /\
  (0 < rb_capacity rb -> rb_view rb' =
     drop (Z.to_nat n) (rb_view rb) ++ take (Z.to_nat n) (rb_view rb)).
Proof.
  intros Hwf Hn rb'. pose proof Hwf as (? & ? & ? & ?).
  assert (Hcap : rb_capacity rb' = rb_capacity rb) by reflexivity.
  destruct (Z.eq_dec (rb_capacity rb) 0) as [E|E].
  - split; [|split; [|lia]].
    + unfold rb_wf. rewrite Hcap, E. cbn. unfold rb_pos. rewrite E. cbn. mlia.
    + unfold rb_contents. cbn. replace (rb_length rb - n) with 0 by lia.
      replace (rb_length rb) with 0 by lia. change (Z.to_nat 0) with 0%nat.
      rewrite !take_0. by rewrite drop_nil.
  - destruct (rb_pos_cases rb n) as [[? Ep]|[? Ep]]; auto; try lia;
    (split; [unfold rb_wf; rewrite Hcap; cbn; lia|]);
    assert (Hv : rb_view rb' = drop (Z.to_nat n) (rb_view rb) ++ take (Z.to_nat n) (rb_view rb))
      by (apply rb_view_advance; auto; lia);
    (split; [|auto]); unfold rb_contents; rewrite Hv; cbn [rb_length rb'];
    rewrite take_app_le by (rewrite length_drop; pose proof (Zlen_rb_view rb Hwf); unfold Zlen in *; lia);
    rewrite skipn_firstn_comm; f_equal; lia.
Qed.

Lemma splice_same (l : list T) k n : 0 <= k -> 0 <= n -> k + n <= Zlen l -> splice l k (sub l k n) = l.
Proof.
  intros. apply list_eq_Z.
  - apply Zlen_splice; rewrite ?Zlen_sub; auto.
  - intros i Hi. assert (Hsl : Zlen (sub l k n) = n) by (by apply Zlen_sub).
    destruct (Z_lt_le_dec i k); [|destruct (Z_lt_le_dec i (k + n))].
    + apply splice_lookup_out; lia.
    + rewrite splice_lookup_in by lia. rewrite sub_lookup by lia. f_equal. lia.
    + apply splice_lookup_out; lia.
Qed.

(** One closure call of [dequeue_slice]. *)
Lemma rb_dequeue_slice_step rb room :
  rb_wf rb -> 0 <= room ->
  let n := Z.min (Z.min (rb_length rb) (rb_capacity rb - rb_read_at rb)) room in
  let rb' := mkRingBuffer (rb_storage rb) (rb_pos rb n) (rb_length rb - n) in
  rb_dequeue_many_with rb (dequeue_slice_fn room) = Ret (rb', n, take (Z.to_nat n) (rb_contents rb)) /\
  rb_wf rb' /\ rb_contents rb' = drop (Z.to_nat n) (rb_contents rb).
Proof.
  intros Hwf Hroom n rb'. pose proof Hwf as (? & ? & ? & ?).
  set (mx := Z.min (rb_length rb) (rb_capacity rb - rb_read_at rb)) in *.
  assert (Hp0 : rb_read_at rb = rb_pos rb 0).
  { destruct (Z.eq_dec (rb_capacity rb) 0) as [E|E].
    - unfold rb_pos. rewrite E. cbn. lia.
    - destruct (rb_pos_cases rb 0); auto; lia. }
  assert (Hbl : Zlen (sub (rb_view rb) 0 mx) = mx) by (rewrite Zlen_sub; rewrite ?Zlen_rb_view; auto; lia).
  split.
  - erewrite (rb_dequeue_many_with_ok rb _ (sub (rb_view rb) 0 mx) n); auto.
    + f_equal. f_equal. f_equal. unfold rb'. f_equal.
      rewrite <- rb_view_sub by (auto; rewrite <- ?Hp0; lia). rewrite <- Hp0.
      apply splice_same; unfold rb_capacity in *; lia.
    + fold mx. unfold dequeue_slice_fn. rewrite Hbl. f_equal. f_equal.
      rewrite !sub_0. unfold rb_contents. rewrite !take_take. f_equal. lia.
    + fold mx. lia.
  - destruct (rb_advance_contents rb n) as (? & ? & _); auto; lia.
Qed.

(** ** Random access *)

Lemma rb_pos_add_end rb k n :
  rb_wf rb -> 0 <= k -> 0 <= n -> k + n <= rb_capacity rb -> 0 < rb_capacity rb ->
  rb_pos rb k + n = rb_capacity rb -> rb_pos rb (k + n) = 0.
Proof.
  intros Hwf Hk Hn Hkn Hc He. pose proof Hwf as (? & ? & ? & ?).
  destruct (rb_pos_cases rb k) as [[? E]|[? E]]; auto; try lia;
  destruct (rb_pos_cases rb (k + n)) as [[? E']|[? E']]; auto; lia.
Qed.

Lemma rb_get_unallocated_ok rb offset size :
  rb_wf rb -> 0 <= offset <= rb_capacity rb - rb_length rb -> 0 <= size ->
  let p := rb_pos rb (rb_length rb + offset) in
  rb_get_unallocated rb offset size =
    Ret (p, Z.min (Z.min size (rb_capacity rb - rb_length rb - offset)) (rb_capacity rb - p)).
Proof.
  intros Hwf Ho Hs p. pose proof Hwf as (? & ? & ? & ?). unfold rb_get_unallocated.
  rewrite usize_add_ok, bind_Ret by mlia.
  rewrite rb_get_idx_in, bind_Ret by (auto; lia). fold p.
  pose proof (rb_pos_range rb (rb_length rb + offset) Hwf ltac:(lia)) as Hp. fold p in Hp.
  rewrite rb_window_ok, bind_Ret by auto.
  destr_if; [lia|]. rewrite (usize_sub_ok _ offset), bind_Ret by mlia.
  rewrite usize_sub_ok, bind_Ret by mlia.
  set (w := rb_capacity rb - rb_length rb - offset) in *.
  set (sz := if w <? size then w else size).
  assert (Hsz : sz = Z.min size w) by (unfold sz; destr_if; lia). rewrite Hsz. clear sz Hsz.
  set (sz := if _ <? _ then _ else _).
  assert (Hsz : sz = Z.min (Z.min size w) (rb_capacity rb - p)) by (unfold sz; destr_if; lia).
  rewrite Hsz. clear sz Hsz.
  rewrite usize_add_ok, bind_Ret by mlia.
  rewrite slice_ok, bind_Ret by (unfold rb_capacity in *; lia). reflexivity.
Qed.

(** [write_unallocated] writes the data at its offset in the unallocated area and
    leaves everything else of the view, and the queue, as it was. *)
Lemma rb_write_unallocated_ok rb offset data :
  rb_wf rb -> 0 <= offset <= rb_capacity rb - rb_length rb ->
  let n := Z.min (Zlen data) (rb_capacity rb - rb_length rb - offset) in
  exists st, Zlen st = rb_capacity rb /\
  let rb' := mkRingBuffer st (rb_read_at rb) (rb_length rb) in
  rb_write_unallocated rb offset data = Ret (rb', n) /\
  rb_wf rb' /\
  rb_view rb' = splice (rb_view rb) (rb_length rb + offset) (take (Z.to_nat n) data).
Proof.
  intros Hwf Ho n. pose proof Hwf as (? & ? & ? & ?). pose proof (Zlen_nonneg data) as Hd0.
  set (k := rb_length rb + offset). set (p := rb_pos rb k).
  set (n1 := Z.min n (rb_capacity rb - p)).
  pose proof (rb_pos_range rb k Hwf ltac:(lia)) as Hp. fold p in Hp.
  assert (Hd1 : Zlen (take (Z.to_nat n1) data) = n1) by (unfold Zlen in *; rewrite length_take; lia).
  set (st1 := splice (rb_storage rb) p (take (Z.to_nat n1) data)).
  assert (Hst1 : Zlen st1 = rb_capacity rb) by (apply Zlen_splice; unfold rb_capacity in *; lia).
  set (rb1 := mkRingBuffer st1 (rb_read_at rb) (rb_length rb)).
  assert (Hwf1 : rb_wf rb1) by (by apply rb_wf_storage).
  assert (Hcap1 : rb_capacity rb1 = rb_capacity rb) by exact Hst1.
  assert (Hv1 : rb_view rb1 = splice (rb_view rb) k (take (Z.to_nat n1) data))
    by (apply rb_view_splice; auto; fold p; lia).
  set (n2 := n - n1). set (p2 := rb_pos rb1 (k + n1)).
  assert (Hp2 : p2 = rb_pos rb (k + n1)) by (by apply rb_pos_storage).
  assert (Hp2r : 0 <= p2 <= rb_capacity rb) by (rewrite Hp2; apply rb_pos_range; auto; lia).
  assert (Hn2 : Z.min (Z.min (Zlen data - n1) (rb_capacity rb - rb_length rb - (offset + n1)))
                  (rb_capacity rb - p2) = n2).
  { destruct (Z.eq_dec n n1) as [E|E]; [lia|].
    assert (p2 = 0) by (rewrite Hp2; apply rb_pos_add_end; auto; fold p; lia). lia. }
  set (d2 := take (Z.to_nat n2) (drop (Z.to_nat n1) data)).
  assert (Hd2 : Zlen d2 = n2) by (unfold d2, Zlen in *; rewrite length_take, length_drop; lia).
  set (st2 := splice st1 p2 d2).
  assert (Hst2 : Zlen st2 = rb_capacity rb) by (unfold st2; rewrite Zlen_splice; lia).
  exists st2. split; [done|]. split; [|split].
  - unfold rb_write_unallocated.
    rewrite rb_get_unallocated_ok by auto. fold k p n n1. rewrite bind_Ret.
    rewrite slice_ok, bind_Ret by lia. rewrite Z.sub_0_r, sub_0.
    rewrite copy_into_ok, bind_Ret by (unfold rb_capacity in *; lia). fold st1 rb1.
    rewrite usize_add_ok, bind_Ret by mlia.
    replace (Zlen (drop (Z.to_nat n1) data)) with (Zlen data - n1)
      by (unfold Zlen in *; rewrite length_drop; lia).
    rewrite rb_get_unallocated_ok; rewrite ?Hcap1; cbn [rb_length rb1]; auto; try lia.
    replace (rb_length rb + (offset + n1)) with (k + n1) by lia. fold p2.
    rewrite Hn2, bind_Ret.
    rewrite slice_ok by (unfold Zlen in *; rewrite ?length_drop; lia).
    rewrite bind_Ret, Z.sub_0_r, sub_0. fold d2.
    change (rb_storage rb1) with st1.
    rewrite copy_into_ok, bind_Ret by lia. fold st2.
    rewrite usize_add_ok, bind_Ret by mlia.
    replace (n1 + n2) with n by lia. reflexivity.
  - by apply rb_wf_storage.
  - assert (Hv2 : rb_view (mkRingBuffer st2 (rb_read_at rb) (rb_length rb))
                  = splice (rb_view rb1) (k + n1) d2).
    { apply (rb_view_splice rb1 (k + n1) d2 (rb_length rb)); auto; fold p2; rewrite ?Hcap1; lia. }
    rewrite Hv2, Hv1. clear Hv2 Hv1.
    pose proof (Zlen_rb_view rb Hwf) as Hv.
    assert (Hs1 : Zlen (splice (rb_view rb) k (take (Z.to_nat n1) data)) = rb_capacity rb)
      by (rewrite Zlen_splice; lia).
    assert (Hdn : Zlen (take (Z.to_nat n) data) = n) by (unfold Zlen in *; rewrite length_take; lia).
    apply list_eq_Z; [rewrite !Zlen_splice; lia|].
    intros i Hi. rewrite Zlen_splice in Hi by lia.
    assert (Hlk : forall m j, 0 <= j < m -> (take (Z.to_nat m) data) !! Z.to_nat j = data !! Z.to_nat j)
      by (intros; apply lookup_take_lt; lia).
    destruct (Z_lt_le_dec i k); [|destruct (Z_lt_le_dec i (k + n1)); [|destruct (Z_lt_le_dec i (k + n))]].
    + rewrite !splice_lookup_out by lia. done.
    + rewrite splice_lookup_out, !splice_lookup_in by lia. rewrite !Hlk by lia. done.
    + rewrite !splice_lookup_in by lia. unfold d2. rewrite lookup_take_lt by lia.
      rewrite lookup_drop, Hlk by lia. f_equal. lia.
    + rewrite !splice_lookup_out by lia. done.
Qed.

Lemma rb_get_allocated_ok rb offset size :
  rb_wf rb -> 0 <= offset <= rb_length rb -> 0 <= size ->
  let n := Z.min (Z.min size (rb_length rb - offset)) (rb_capacity rb - rb_pos rb offset) in
  rb_get_allocated rb offset size = Ret (sub (rb_contents rb) offset n).
Proof.
  intros Hwf Ho Hs n. pose proof Hwf as (? & ? & ? & ?). unfold rb_get_allocated.
  rewrite rb_get_idx_in, bind_Ret by (auto; lia).
  pose proof (rb_pos_range rb offset Hwf ltac:(lia)) as Hp.
  destr_if; [lia|]. rewrite (usize_sub_ok _ offset), bind_Ret by mlia.
  rewrite usize_sub_ok, bind_Ret by mlia.
  set (sz := if _ <? size then _ else size).
  assert (Hsz : sz = Z.min size (rb_length rb - offset)) by (unfold sz; destr_if; lia).
  rewrite Hsz. clear sz Hsz.
  set (sz := if _ <? _ then _ else _).
  assert (Hsz : sz = n) by (unfold sz; destr_if; lia). rewrite Hsz. clear sz Hsz.
  rewrite usize_add_ok, bind_Ret by mlia.
  rewrite slice_ok by (unfold rb_capacity in *; lia). f_equal.
  rewrite Z.add_simpl_l, rb_view_sub by (auto; lia).
  unfold rb_contents, sub. rewrite skipn_firstn_comm, take_take. f_equal. lia.
Qed.

Lemma rb_enqueue_unallocated_ok rb count :
  rb_wf rb -> 0 <= count <= rb_capacity rb - rb_length rb ->
  let rb' := mkRingBuffer (rb_storage rb) (rb_read_at rb) (rb_length rb + count) in
  rb_enqueue_unallocated rb count = Ret rb' /\ rb_wf rb' /\
  rb_contents rb' = rb_contents rb ++ sub (rb_view rb) (rb_length rb) count.
Proof.
  intros Hwf Hc rb'. pose proof Hwf as (? & ? & ? & ?). split; [|split].
  - unfold rb_enqueue_unallocated. rewrite rb_window_ok, bind_Ret by auto.
    unfold passert. destr_if; [|lia]. rewrite bind_Ret.
    rewrite usize_add_ok, bind_Ret by mlia. reflexivity.
  - unfold rb_wf, rb'. cbn. unfold rb_capacity in *. cbn in *. lia.
  - unfold rb_contents. change (rb_view rb') with (rb_view rb). cbn [rb_length rb'].
    pose proof (sub_split (rb_view rb) 0 (rb_length rb) count) as E.
    rewrite !sub_0 in E. rewrite E by lia. reflexivity.
Qed.

Lemma rb_dequeue_allocated_ok rb count :
  rb_wf rb -> 0 <= count <= rb_length rb ->
  rb_dequeue_allocated rb count =
    Ret (mkRingBuffer (rb_storage rb) (rb_pos rb count) (rb_length rb - count)).
Proof.
  intros Hwf Hc. pose proof Hwf as (? & ? & ? & ?). unfold rb_dequeue_allocated, passert, rb_len.
  destr_if; [|lia]. rewrite bind_Ret. rewrite usize_sub_ok, bind_Ret by mlia.
  rewrite rb_get_idx_in, bind_Ret by (auto; lia). reflexivity.
Qed.

(** A count above the queue length is refused by the assertion. *)
Lemma rb_dequeue_allocated_panic rb count :
  rb_length rb < count -> rb_dequeue_allocated rb count = Panic.
Proof. intros. unfold rb_dequeue_allocated, passert, rb_len. destr_if; [lia | done]. Qed.

Lemma rb_new_wf (storage : list T) : Zlen storage <= isize_max -> rb_wf (rb_new storage).
Proof. intros. unfold rb_wf, rb_capacity, rb_new. cbn. pose proof (Zlen_nonneg storage). lia. Qed.

Lemma rb_clear_wf rb : rb_wf rb -> rb_wf (rb_clear rb).
Proof. unfold rb_wf, rb_capacity, rb_clear. cbn. lia. Qed.

(** Position of the element past the queue, in the discrete interface. *)
Lemma rb_get_idx_unchecked_ok rb k :
  rb_wf rb -> 0 <= k <= rb_capacity rb -> 0 < rb_capacity rb ->
  rb_get_idx_unchecked rb k = Ret (rb_pos rb k).
Proof.
  intros (? & ? & ? & ?) Hk Hc. unfold rb_get_idx_unchecked, rb_pos.
  rewrite usize_add_ok, bind_Ret by mlia. destr_if; [lia | done].
Qed.

Lemma splice_singleton (l : list T) k x :
  0 <= k < Zlen l -> splice l k [x] = <[Z.to_nat k := x]> l.
Proof.
  intros. unfold splice, Zlen in *. rewrite insert_take_drop by lia. cbn.
  f_equal. f_equal. f_equal. lia.
Qed.

(** The discrete enqueue in closed form: the closure runs on the element past the queue;
    the element is enqueued exactly when the closure succeeds. *)
Lemma rb_enqueue_one_with_ok {R E} rb (f : Z -> T -> res (T * result R E)) :
  rb_wf rb -> rb_length rb < rb_capacity rb ->
  let p := rb_pos rb (rb_length rb) in
  exists x, rb_view rb !! Z.to_nat (rb_length rb) = Some x /\
  forall x' r, f p x = Ret (x', r) ->
  let rb' := mkRingBuffer (splice (rb_storage rb) p [x']) (rb_read_at rb)
               (if is_ok r then rb_length rb + 1 else rb_length rb) in
  rb_enqueue_one_with rb f = Ret (rb', Ok r) /\ rb_wf rb' /\
  rb_contents rb' = (if is_ok r then rb_contents rb ++ [x'] else rb_contents rb).
Proof.
  intros Hwf Hl p. pose proof Hwf as (? & ? & ? & ?).
  assert (Hp : 0 <= p < rb_capacity rb)
    by (destruct (rb_pos_cases rb (rb_length rb)) as [[? Ep]|[? Ep]]; auto; try lia; fold p in Ep; lia).
  destruct (lookup_lt_is_Some_2 (rb_view rb) (Z.to_nat (rb_length rb))) as [x Hx].
  { pose proof (Zlen_rb_view rb Hwf). unfold Zlen in *. lia. }
  assert (Hxs : rb_storage rb !! Z.to_nat p = Some x)
    by (unfold p; rewrite <- rb_view_lookup by (auto; lia); done).
  exists x. split; [done|]. intros x' r Ef rb'.
  assert (Hcap : rb_capacity rb' = rb_capacity rb)
    by (unfold rb_capacity, rb' in *; cbn [rb_storage]; rewrite Zlen_splice; unfold Zlen in *; cbn [length]; lia).
  split; [|split].
  - unfold rb_enqueue_one_with, rb_is_full. rewrite rb_window_ok, !bind_Ret by auto.
    replace (rb_capacity rb - rb_length rb =? 0) with false by lia.
    rewrite rb_get_idx_unchecked_ok, bind_Ret by (auto; lia). fold p.
    rewrite (index_ok _ _ x), bind_Ret by (auto; lia).
    rewrite Ef, bind_Ret. rewrite index_set_ok, bind_Ret by (unfold rb_capacity in *; lia).
    unfold rb'. rewrite splice_singleton by (unfold rb_capacity in *; lia).
    destruct (is_ok r); [rewrite usize_add_ok by mlia|]; rewrite bind_Ret; reflexivity.
  - unfold rb_wf. rewrite Hcap. cbn. destruct (is_ok r); lia.
  - unfold rb_contents, rb', p.
    rewrite rb_view_splice; auto; fold p; try (unfold Zlen; cbn [length]; lia).
    cbn [rb_length]. unfold splice. pose proof (Zlen_rb_view rb Hwf).
    assert (Hlen : length (take (Z.to_nat (rb_length rb)) (rb_view rb)) = Z.to_nat (rb_length rb))
      by (rewrite length_take; unfold Zlen in *; lia).
    destruct (is_ok r).
    + rewrite take_app_ge by lia. rewrite Hlen. f_equal.
      replace (Z.to_nat (rb_length rb + 1) - Z.to_nat (rb_length rb))%nat with 1%nat by lia. done.
    + rewrite take_app_le by lia. rewrite take_take. f_equal. lia.
Qed.

(** The first element of the queue is at [read_at]. *)
Lemma rb_head_stored rb x q :
  rb_wf rb -> rb_contents rb = x :: q -> rb_storage rb !! Z.to_nat (rb_read_at rb) = Some x.
Proof.
  intros Hwf Ec. pose proof Hwf as (? & ? & ? & ?). pose proof (Zlen_contents rb Hwf) as Hcl.
  rewrite Ec in Hcl. unfold Zlen in Hcl. cbn in Hcl.
  assert (Hx : rb_view rb !! Z.to_nat 0 = Some x).
  { unfold rb_contents in Ec. destruct (rb_view rb); [by rewrite take_nil in Ec|].
    destruct (Z.to_nat (rb_length rb)); [done|]. cbn in Ec. by simplify_eq. }
  assert (Hp0 : rb_read_at rb = rb_pos rb 0) by (destruct (rb_pos_cases rb 0); auto; lia).
  rewrite Hp0. by rewrite <- rb_view_lookup by (auto; lia).
Qed.

(** A closure that panics on the first element makes [dequeue_one_with] panic. *)
Lemma rb_dequeue_one_with_panic {R E} rb x q (f : Z -> T -> res (T * result R E)) :
  rb_wf rb -> rb_contents rb = x :: q -> f (rb_read_at rb) x = Panic -> rb_dequeue_one_with rb f = Panic.
Proof.
  intros Hwf Ec Hf. pose proof (rb_head_stored rb x q Hwf Ec) as Hx. pose proof (Zlen_contents rb Hwf) as Hcl.
  rewrite Ec in Hcl. unfold Zlen in Hcl. cbn in Hcl. pose proof Hwf as (? & ? & ? & ?).
  unfold rb_dequeue_one_with, rb_is_empty, rb_len. replace (rb_length rb =? 0) with false by lia.
  destruct (rb_get_idx_unchecked rb 1); [|done]. rewrite bind_Ret, (index_ok _ _ x), bind_Ret by done. by rewrite Hf.
Qed.

Lemma rb_dequeue_one_with_ok {R E} rb (f : Z -> T -> res (T * result R E)) :
  rb_wf rb -> 0 < rb_length rb ->
  let p := rb_read_at rb in
  exists x, rb_contents rb = x :: drop 1 (rb_contents rb) /\
  forall x' r, f p x = Ret (x', r) ->
  let st := splice (rb_storage rb) p [x'] in
  let rb' := if is_ok r then mkRingBuffer st (rb_pos rb 1) (rb_length rb - 1)
             else mkRingBuffer st p (rb_length rb) in
  rb_dequeue_one_with rb f = Ret (rb', Ok r) /\ rb_wf rb' /\
  rb_contents rb' = (if is_ok r then drop 1 (rb_contents rb) else x' :: drop 1 (rb_contents rb)).
Proof.
  intros Hwf Hl p. pose proof Hwf as (? & ? & ? & ?).
  assert (Hp0 : p = rb_pos rb 0) by (destruct (rb_pos_cases rb 0); auto; lia).
  pose proof (Zlen_contents rb Hwf) as Hcl.
  destruct (rb_contents rb) as [|x q] eqn:Ec; [unfold Zlen in Hcl; cbn in Hcl; lia|].
  pose proof (rb_head_stored rb x q Hwf Ec) as Hxs. fold p in Hxs.
  exists x. split; [done|]. intros x' r Ef st rb'.
  assert (Hst : Zlen st = rb_capacity rb)
    by (unfold st, rb_capacity in *; rewrite Zlen_splice; unfold Zlen in *; cbn [length]; lia).
  set (rb1 := mkRingBuffer st p (rb_length rb)).
  assert (Hwf1 : rb_wf rb1) by (by apply rb_wf_storage).
  assert (Hc1 : rb_contents rb1 = x' :: q).
  { pose proof (rb_view_splice rb 0 [x'] (rb_length rb)) as Hv. rewrite <- Hp0 in Hv.
    assert (Hv1 : rb_view rb1 = splice (rb_view rb) 0 [x'])
      by (apply Hv; auto; unfold Zlen; cbn [length]; lia).
    unfold rb_contents. rewrite Hv1. change (rb_length rb1) with (rb_length rb).
    unfold splice. change (take (Z.to_nat 0) (rb_view rb)) with (@nil T). cbn [app rb_length].
    unfold rb_contents in Ec. change (Z.to_nat 0) with 0%nat in *.
    destruct (rb_view rb) as [|y v]; [by rewrite take_nil in Ec|].
    destruct (Z.to_nat (rb_length rb)); [done|]. cbn in *. by simplify_eq. }
  split; [|split].
  - unfold rb_dequeue_one_with, rb_is_empty, rb_len. replace (rb_length rb =? 0) with false by lia.
    rewrite rb_get_idx_unchecked_ok, bind_Ret by (auto; lia). fold p.
    rewrite (index_ok _ _ x), bind_Ret by (auto; lia).
    rewrite Ef, bind_Ret. rewrite index_set_ok, bind_Ret by (unfold rb_capacity in *; lia).
    unfold rb', st. rewrite splice_singleton by (unfold rb_capacity in *; lia).
    destruct (is_ok r); [rewrite usize_sub_ok, bind_Ret by mlia|]; reflexivity.
  - unfold rb'. destruct (is_ok r); [|done].
    rewrite <- (rb_pos_storage rb st (rb_length rb) 1) by done.
    apply (rb_advance_contents rb1 1); auto. cbn. lia.
  - unfold rb'. destruct (is_ok r); [|done].
    rewrite <- (rb_pos_storage rb st (rb_length rb) 1) by done.
    destruct (rb_advance_contents rb1 1) as (_ & Hc' & _); auto; [cbn; lia|].
    etransitivity; [exact Hc' | by rewrite Hc1].
Qed.

Lemma rb_enqueue_slice_ok rb data :
  rb_wf rb ->
  wp (rb_enqueue_slice rb data) (fun '(rb', n) =>
    rb_wf rb' /\ rb_capacity rb' = rb_capacity rb /\
    n = Z.min (rb_capacity rb - rb_length rb) (Zlen data) /\
    rb_contents rb' = rb_contents rb ++ take (Z.to_nat n) data).
Proof.
  intros Hwf. pose proof (Zlen_nonneg data) as Hd0. unfold rb_enqueue_slice.
  pose proof (rb_cw_range _ (rb_norm_wf rb Hwf)) as (Hcw & _).
  rewrite rb_norm_capacity, rb_norm_length in Hcw. pose proof Hwf as (? & ? & _).
  destruct (rb_enqueue_slice_step rb data Hwf) as (st1 & Hst1 & E1 & Hwf1 & Hc1).
  set (n1 := Z.min (rb_cw (rb_norm rb)) (Zlen data)) in *.
  set (rb1 := mkRingBuffer _ _ _) in *. rewrite E1, bind_Ret. clear E1.
  destruct (rb_enqueue_slice_step rb1 (drop (Z.to_nat n1) data) Hwf1) as (st2 & Hst2 & E2 & Hwf2 & Hc2).
  set (n2 := Z.min (rb_cw (rb_norm rb1)) (Zlen (drop (Z.to_nat n1) data))) in *.
  set (rb2 := mkRingBuffer st2 _ _) in *. rewrite E2, bind_Ret. clear E2.
  assert (Hd : Zlen (drop (Z.to_nat n1) data) = Zlen data - n1) by (unfold Zlen in *; rewrite length_drop; lia).
  assert (Hn : n1 + n2 = Z.min (rb_capacity rb - rb_length rb) (Zlen data)).
  { destruct (Z.eq_dec n1 (Zlen data)) as [E|E].
    - assert (0 <= rb_cw (rb_norm rb1)) by (apply rb_cw_range, rb_norm_wf; auto). lia.
    - pose proof (rb_cw_full (rb_norm rb) st1 (rb_norm_wf rb Hwf)) as Hf.
      rewrite rb_norm_capacity, rb_norm_length in Hf. specialize (Hf Hst1). cbv zeta in Hf.
      replace (rb_cw (rb_norm rb)) with n1 in Hf by lia. fold rb1 in Hf. lia. }
  assert (0 <= n2) by (pose proof (rb_cw_range _ (rb_norm_wf rb1 Hwf1)); lia).
  rewrite usize_add_ok, bind_Ret by mlia. cbn [wp].
  split; [done|]. split; [unfold rb_capacity at 1; cbn [rb_storage rb2]; rewrite Hst2; done|].
  split; [done|]. rewrite Hc2, Hc1, <- app_assoc. f_equal.
  rewrite Z2Nat.inj_add by lia.
  rewrite <- (take_drop (Z.to_nat n1) data) at 3.
  rewrite take_app_ge by (rewrite length_take; lia). f_equal. f_equal.
  rewrite length_take. unfold Zlen in *. lia.
Qed.

Lemma rb_read_allocated_ok rb offset data_len :
  rb_wf rb -> 0 <= offset <= rb_length rb -> 0 <= data_len <= usize_max ->
  rb_read_allocated rb offset data_len =
    let n := Z.min data_len (rb_length rb - offset) in
    Ret (sub (rb_contents rb) offset n, n).
Proof.
  intros Hwf Ho Hd. pose proof Hwf as (? & ? & ? & ?). cbv zeta. unfold rb_read_allocated.
  pose proof (Zlen_contents rb Hwf) as Hcl.
  pose proof (rb_pos_range rb offset Hwf ltac:(lia)) as Hp.
  rewrite rb_get_allocated_ok, bind_Ret by (auto; lia).
  set (n1 := Z.min (Z.min data_len (rb_length rb - offset)) (rb_capacity rb - rb_pos rb offset)).
  assert (Hs1 : Zlen (sub (rb_contents rb) offset n1) = n1) by (rewrite Zlen_sub; lia). rewrite Hs1.
  rewrite usize_sub_ok, bind_Ret by mlia. rewrite usize_add_ok, bind_Ret by mlia.
  rewrite rb_get_allocated_ok, bind_Ret by (auto; lia).
  pose proof (rb_pos_range rb (offset + n1) Hwf ltac:(lia)) as Hp2.
  set (n2 := Z.min (Z.min _ _) _).
  assert (Hn : n1 + n2 = Z.min data_len (rb_length rb - offset)).
  { destruct (Z.eq_dec n1 (Z.min data_len (rb_length rb - offset))) as [E|E]; [lia|].
    assert (rb_pos rb (offset + n1) = 0) by (apply rb_pos_add_end; auto; lia). lia. }
  assert (Hs2 : Zlen (sub (rb_contents rb) (offset + n1) n2) = n2) by (rewrite Zlen_sub; lia).
  rewrite Hs2. rewrite usize_add_ok, bind_Ret by mlia.
  rewrite <- sub_split by lia. by rewrite Hn.
Qed.

(** [dequeue_slice] in closed form: the storage is left as it is. *)
Lemma rb_dequeue_slice_eq rb data_len :
  rb_wf rb -> 0 <= data_len <= usize_max ->
  let n := Z.min (rb_length rb) data_len in
  rb_dequeue_slice rb data_len =
    Ret (mkRingBuffer (rb_storage rb) (rb_pos rb n) (rb_length rb - n),
         take (Z.to_nat n) (rb_contents rb), n).
Proof.
  intros Hwf Hd n. pose proof Hwf as (? & ? & ? & ?). unfold rb_dequeue_slice.
  destruct (rb_dequeue_slice_step rb data_len Hwf ltac:(lia)) as (E1 & Hwf1 & Hc1).
  set (n1 := Z.min (Z.min (rb_length rb) _) data_len) in *.
  set (rb1 := mkRingBuffer _ _ _) in *. rewrite E1, bind_Ret. clear E1.
  rewrite usize_sub_ok, bind_Ret by mlia.
  destruct (rb_dequeue_slice_step rb1 (data_len - n1) Hwf1 ltac:(lia)) as (E2 & Hwf2 & Hc2).
  set (n2 := Z.min (Z.min (rb_length rb1) _) _) in *.
  set (rb2 := mkRingBuffer _ (rb_pos rb1 n2) _) in *. rewrite E2, bind_Ret. clear E2.
  change (rb_length rb1) with (rb_length rb - n1) in *.
  change (rb_capacity rb1) with (rb_capacity rb) in *.
  change (rb_read_at rb1) with (rb_pos rb n1) in *.
  pose proof (rb_pos_range rb n1 Hwf ltac:(lia)) as Hp.
  assert (Hn : n1 + n2 = n).
  { destruct (Z.eq_dec n1 (Z.min (rb_length rb) data_len)) as [E|E]; [lia|].
    destruct (rb_pos_cases rb n1) as [[? Ep]|[? Ep]]; auto; lia. }
  rewrite usize_add_ok, bind_Ret by mlia. unfold rb2, rb1.
  rewrite rb_pos_advance by done. rewrite <- Hn. do 3 f_equal; [f_equal; cbn; lia|].
  fold rb1. rewrite Hc1, Z2Nat.inj_add by lia. symmetry.
  rewrite <- (take_drop (Z.to_nat n1) (rb_contents rb)) at 1.
  pose proof (Zlen_contents rb Hwf). rewrite take_app_ge; rewrite length_take; [|unfold Zlen in *; lia].
  do 2 f_equal. unfold Zlen in *. lia.
Qed.

Lemma rb_dequeue_slice_ok rb data_len :
  rb_wf rb -> 0 <= data_len <= usize_max ->
  wp (rb_dequeue_slice rb data_len) (fun '(rb', out, n) =>
    rb_wf rb' /\ rb_capacity rb' = rb_capacity rb /\
    n = Z.min (rb_length rb) data_len /\
    out = take (Z.to_nat n) (rb_contents rb) /\
    rb_contents rb' = drop (Z.to_nat n) (rb_contents rb)).
Proof.
  intros Hwf Hd. pose proof Hwf as (? & _). rewrite rb_dequeue_slice_eq by auto. cbn [wp].
  destruct (rb_advance_contents rb (Z.min (rb_length rb) data_len) Hwf ltac:(lia)) as (? & ? & _). auto.
Qed.

(** ** Properties *)

(** [enqueue_slice] appends to the queue the longest prefix of the data that fits, across the
    end of the storage, and reports its length; it never panics on a well-formed buffer. *)
Theorem rb_enqueue_slice_spec rb data :
  rb_wf rb ->
  wp (rb_enqueue_slice rb data) (fun '(rb', n) =>
    rb_wf rb' /\ rb_capacity rb' = rb_capacity rb /\
    n = Z.min (rb_capacity rb - rb_length rb) (Zlen data) /\
    rb_contents rb' = rb_contents rb ++ take (Z.to_nat n) data).
Proof. apply rb_enqueue_slice_ok. Qed.

(** [dequeue_slice] removes the longest prefix of the queue that fits the destination and
    delivers it in order; it never panics on a well-formed buffer. *)
Theorem rb_dequeue_slice_spec rb data_len :
  rb_wf rb -> 0 <= data_len <= usize_max ->
  wp (rb_dequeue_slice rb data_len) (fun '(rb', out, n) =>
    rb_wf rb' /\ rb_capacity rb' = rb_capacity rb /\
    n = Z.min (rb_length rb) data_len /\
    out = take (Z.to_nat n) (rb_contents rb) /\
    rb_contents rb' = drop (Z.to_nat n) (rb_contents rb)).
Proof. apply rb_dequeue_slice_ok. Qed.

(** Placing data at an offset of the unallocated area and then enqueueing up to its end
    appends exactly the unallocated bytes before it and the data to the queue (the way
    TCP reassembly uses the buffer). *)
Theorem rb_write_then_enqueue_spec rb offset data :
  rb_wf rb -> 0 <= offset -> offset + Zlen data <= rb_capacity rb - rb_length rb ->
  wp ('(rb1, n) ← rb_write_unallocated rb offset data;
      rb2 ← rb_enqueue_unallocated rb1 (offset + n); Ret (n, rb2)) (fun '(n, rb2) =>
    n = Zlen data /\ rb_wf rb2 /\
    rb_contents rb2 = rb_contents rb ++ sub (rb_view rb) (rb_length rb) offset ++ data).
Proof.
  intros Hwf Ho Hd. pose proof Hwf as (? & ? & ? & ?). pose proof (Zlen_nonneg data).
  destruct (rb_write_unallocated_ok rb offset data Hwf ltac:(lia)) as (st & Hst & E & Hwf1 & Hv).
  rewrite Z.min_l in * by lia. rewrite E, bind_Ret.
  set (rb1 := mkRingBuffer _ _ _) in *.
  destruct (rb_enqueue_unallocated_ok rb1 (offset + Zlen data) Hwf1) as (E2 & Hwf2 & Hc2).
  { change (rb_length rb1) with (rb_length rb). unfold rb_capacity at 1. cbn [rb_storage rb1]. lia. }
  rewrite E2, bind_Ret. cbn [wp]. split; [done|]. split; [done|].
  rewrite Hc2. change (rb_length rb1) with (rb_length rb). rewrite Hv.
  unfold Zlen at 1. rewrite Nat2Z.id, firstn_all. pose proof (Zlen_rb_view rb Hwf).
  rewrite sub_split by lia. rewrite splice_sub_same by lia.
  unfold rb_contents. rewrite Hv. unfold Zlen at 1. rewrite Nat2Z.id, firstn_all.
  change (rb_length rb1) with (rb_length rb). unfold splice, sub.
  rewrite take_app_le by (rewrite length_take; unfold Zlen in *; lia).
  rewrite take_take. f_equal; [f_equal; lia|]. f_equal.
  rewrite drop_app_le by (rewrite length_take; unfold Zlen in *; lia).
  rewrite take_app_le by (rewrite length_drop, length_take; unfold Zlen in *; lia).
  rewrite skipn_firstn_comm, take_take. f_equal. lia.
Qed.

(** Reading at an offset copies the requested part of the queue, also across the end of
    the storage, and leaves the queue as it is. *)
Theorem rb_read_allocated_spec rb offset data_len :
  rb_wf rb -> 0 <= offset <= rb_length rb -> 0 <= data_len <= usize_max ->
  rb_read_allocated rb offset data_len =
    let n := Z.min data_len (rb_length rb - offset) in
    Ret (sub (rb_contents rb) offset n, n).
Proof. apply rb_read_allocated_ok. Qed.

End RingBuffer.

(** ** Concrete instances *)

(** A buffer of four elements whose queue [4; 1] wraps around the end of the storage. *)
Definition rb_example : RingBuffer Z := mkRingBuffer [1; 2; 3; 4] 3 2.

Lemma rb_example_wf : rb_wf rb_example.
Proof. unfold rb_wf, rb_example, rb_capacity, Zlen; cbn. unfold_max. lia. Qed.

Lemma rb_enqueue_slice_spec_witness :
  rb_contents rb_example = [4; 1] /\
  wp (rb_enqueue_slice rb_example [7; 8; 9]) (fun '(rb', n) =>
    rb_wf rb' /\ rb_capacity rb' = rb_capacity rb_example /\
    n = Z.min (rb_capacity rb_example - rb_length rb_example) (Zlen [7; 8; 9]) /\
    rb_contents rb' = rb_contents rb_example ++ take (Z.to_nat n) [7; 8; 9]).
Proof. split; [reflexivity|]. apply (rb_enqueue_slice_spec rb_example), rb_example_wf. Defined.

Lemma rb_dequeue_slice_spec_witness :
  wp (rb_dequeue_slice rb_example 5) (fun '(rb', out, n) =>
    rb_wf rb' /\ rb_capacity rb' = rb_capacity rb_example /\
    n = Z.min (rb_length rb_example) 5 /\
    out = take (Z.to_nat n) (rb_contents rb_example) /\
    rb_contents rb' = drop (Z.to_nat n) (rb_contents rb_example)).
Proof. apply (rb_dequeue_slice_spec rb_example 5); [apply rb_example_wf | mlia]. Defined.

Lemma rb_write_then_enqueue_spec_witness :
  wp ('(rb1, n) ← rb_write_unallocated rb_example 1 [9];
      rb2 ← rb_enqueue_unallocated rb1 (1 + n); Ret (n, rb2)) (fun '(n, rb2) =>
    n = 1 /\ rb_wf rb2 /\ rb_contents rb2 = [4; 1] ++ [2] ++ [9]).
Proof.
  apply (rb_write_then_enqueue_spec rb_example 1 [9]); [apply rb_example_wf | lia |].
  vm_compute. discriminate.
Defined.

Lemma rb_read_allocated_spec_witness :
  rb_read_allocated rb_example 0 3 = Ret ([4; 1], 2).
Proof. apply (rb_read_allocated_spec rb_example 0 3); [apply rb_example_wf | cbn; lia | mlia]. Defined.
