(* ===== verification/Assembler.v ===== *)
(** * The (re)assembler (storage/assembler.rs)

    An [Assembler] is a fixed array of contigs, each a hole followed by data.  The loops of
    [add], [add_contig_at] and [remove_contig_at] update the array in place and are modelled
    as such; the reference definition [add_ref] works on the list of the contigs that hold
    data, and the two are proved equal.  The meaning of an assembler is the predicate
    [covered]: which offsets hold data. *)

From S2P Require Import Prelude.

Inductive TooManyHolesError : Set := TooManyHoles.

Record Contig : Type := mkContig { hole_size : Z; data_size : Z }.

#[global] Instance Contig_eq_dec : EqDecision Contig.
Proof. solve_decision. Defined.

Definition contig_empty : Contig := mkContig 0 0.
Definition contig_hole_and_data (hole data : Z) : Contig := mkContig hole data.
Definition has_hole (c : Contig) : bool := negb (hole_size c =? 0).
Definition has_data (c : Contig) : bool := negb (data_size c =? 0).
Definition total_size (c : Contig) : res Z := usize_add (hole_size c) (data_size c).

Definition shrink_hole_by (c : Contig) (size : Z) : res Contig :=
  h ← usize_sub (hole_size c) size; Ret (mkContig h (data_size c)).

Definition shrink_hole_to (c : Contig) (size : Z) : res Contig :=
  _ ← passert (size <=? hole_size c);
  total ← total_size c;
  d ← usize_sub total size;
  Ret (mkContig size d).

(** The array [contigs]; its length is [ASSEMBLER_MAX_SEGMENT_COUNT]. *)
Abbreviation Assembler := (list Contig).

Definition asm_new (max_segment_count : nat) : Assembler := replicate max_segment_count contig_empty.

Definition asm_clear (a : Assembler) : Assembler := replicate (length a) contig_empty.

Definition asm_front (a : Assembler) : res Contig := index a 0.

Definition asm_peek_front (a : Assembler) : res Z :=
  front ← asm_front a;
  Ret (if has_hole front then 0 else data_size front).

Definition asm_back (a : Assembler) : res Contig :=
  l ← usize_sub (Zlen a) 1; index a l.

Definition asm_is_empty (a : Assembler) : res bool :=
  front ← asm_front a; Ret (negb (has_data front)).

(** The loop [for i in at..len-1] of [remove_contig_at], [n] iterations left; the boolean
    says whether the function returned from inside the loop. *)
Fixpoint asm_remove_loop (n : nat) (a : Assembler) (i : Z) : res (Assembler * bool) :=
  match n with
  | O => Ret (a, false)
  | S n =>
      c ← index a i;
      if negb (has_data c) then Ret (a, true)
      else
        d ← index a (i + 1);
        a ← index_set a i d;
        asm_remove_loop n a (i + 1)
  end.

Definition asm_remove_contig_at (a : Assembler) (at_ : Z) : res Assembler :=
  c ← index a at_;
  _ ← passert (has_data c);
  last ← usize_sub (Zlen a) 1;
  '(a, returned) ← asm_remove_loop (Z.to_nat (last - at_)) a at_;
  if (returned : bool) then Ret a else index_set a last contig_empty.

(** The loop [for i in (at+1..len).rev()] of [add_contig_at], [n] iterations left, [i = at+n]. *)
Fixpoint asm_shift_up (n : nat) (a : Assembler) (at_ : Z) : res Assembler :=
  match n with
  | O => Ret a
  | S n' =>
      d ← index a (at_ + Z.of_nat n');
      a ← index_set a (at_ + Z.of_nat n) d;
      asm_shift_up n' a at_
  end.

Definition asm_add_contig_at (a : Assembler) (at_ : Z) : res (Assembler * result unit TooManyHolesError) :=
  back ← asm_back a;
  if has_data back then Ret (a, Err TooManyHoles)
  else
    a ← asm_shift_up (Z.to_nat (Zlen a - (at_ + 1))) a at_;
    a ← index_set a at_ contig_empty;
    Ret (a, Ok tt).

(** Outcome of the search loop of [add]: no contig left, a free one, or the one that
    contains the start of the range, with the offset relative to it. *)
Inductive find_outcome : Type :=
| FindFull
| FindFree (i offset : Z)
| FindAt (i offset : Z).

Fixpoint asm_find (n : nat) (a : Assembler) (i offset : Z) : res find_outcome :=
  match n with
  | O => Ret FindFull
  | S n =>
      c ← index a i;
      if negb (has_data c) then Ret (FindFree i offset)
      else
        t ← total_size c;
        if offset <=? t then Ret (FindAt i offset)
        else o ← usize_sub offset t; asm_find n a (i + 1) o
  end.

(** The loop that merges the contigs after [i] reached by the end of the range. *)
Fixpoint asm_coalesce (n : nat) (a : Assembler) (i j offset size : Z) : res (Assembler * Z) :=
  match n with
  | O => Ret (a, j)
  | S n =>
      cj ← index a j;
      if negb (has_data cj) then Ret (a, j)
      else
        e ← usize_add offset size;
        ci ← index a i;
        ti ← total_size ci;
        t ← usize_add ti (hole_size cj);
        if t <=? e then
          tj ← total_size cj;
          d ← usize_add (data_size ci) tj;
          a ← index_set a i (mkContig (hole_size ci) d);
          asm_coalesce n a i (j + 1) offset size
        else Ret (a, j)
  end.

(** The loop that closes the gap left by the merged contigs. *)
Fixpoint asm_shift_down (n : nat) (a : Assembler) (x shift : Z) : res Assembler :=
  match n with
  | O => Ret a
  | S n =>
      c ← index a x;
      if negb (has_data c) then Ret a
      else
        y ← usize_add x shift;
        a ← index_set a x (default contig_empty (a !! Z.to_nat y));
        asm_shift_down n a (x + 1) shift
  end.

(** Remove the [j - i - 1] contigs merged into contig [i]. *)
Definition asm_close_gap (a : Assembler) (i j : Z) : res Assembler :=
  ji ← usize_sub j i;
  shift ← usize_sub ji 1;
  if negb (shift =? 0) then asm_shift_down (Z.to_nat (Zlen a - (i + 1))) a (i + 1) shift
  else Ret a.

(** Extend contig [i] to the end of the range, at the expense of the next hole. *)
Definition asm_extend (a : Assembler) (i offset size : Z) : res Assembler :=
  e ← usize_add offset size;
  ci ← index a i;
  ti ← total_size ci;
  if ti <? e then
    left ← usize_sub e ti;
    d ← usize_add (data_size ci) left;
    a ← index_set a i (mkContig (hole_size ci) d);
    if i + 1 <? Zlen a then
      cn ← index a (i + 1);
      if has_data cn then
        h ← usize_sub (hole_size cn) left;
        index_set a (i + 1) (mkContig h (data_size cn))
      else Ret a
    else Ret a
  else Ret a.

(** The part of [add] after the contig [i] that contains the start was found and is not
    split. *)
Definition asm_add_merge (a : Assembler) (i offset size : Z) : res Assembler :=
  '(a, j) ← asm_coalesce (Z.to_nat (Zlen a - (i + 1))) a i (i + 1) offset size;
  a ← asm_close_gap a i j;
  asm_extend a i offset size.

(** [add] once the contig [i] that contains the start of the range is found. *)
Definition asm_add_at (a : Assembler) (i offset size : Z)
  : res (Assembler * result unit TooManyHolesError) :=
  c ← index a i;
  if offset <? hole_size c then
    e ← usize_add offset size;
    if e <? hole_size c then
      '(a, r) ← asm_add_contig_at a i;
      match r with
      | Err err => Ret (a, Err err)
      | Ok _ =>
          a ← index_set a i (mkContig offset size);
          e ← usize_add offset size;
          cn ← index a (i + 1);
          cn ← shrink_hole_by cn e;
          a ← index_set a (i + 1) cn;
          Ret (a, Ok tt)
      end
    else
      c ← shrink_hole_to c offset;
      a ← index_set a i c;
      a ← asm_add_merge a i offset size;
      Ret (a, Ok tt)
  else
    a ← asm_add_merge a i offset size;
    Ret (a, Ok tt).

Definition asm_add (a : Assembler) (offset size : Z) : res (Assembler * result unit TooManyHolesError) :=
  if size =? 0 then Ret (a, Ok tt)
  else
    f ← asm_find (length a) a 0 offset;
    match f with
    | FindFull => Ret (a, Err TooManyHoles)
    | FindFree i offset =>
        a ← index_set a i (contig_hole_and_data offset size); Ret (a, Ok tt)
    | FindAt i offset => asm_add_at a i offset size
    end.

Definition asm_remove_front (a : Assembler) : res (Assembler * Z) :=
  front ← asm_front a;
  if has_hole front || negb (has_data front) then Ret (a, 0)
  else
    a ← asm_remove_contig_at a 0;
    _ ← passert (0 <? data_size front);
    Ret (a, data_size front).

Definition asm_add_then_remove_front (a : Assembler) (offset size : Z)
  : res (Assembler * result Z TooManyHolesError) :=
  c0 ← index a 0;
  if (offset =? 0) && (size <? hole_size c0) then
    h ← usize_sub (hole_size c0) size;
    a ← index_set a 0 (mkContig h (data_size c0));
    Ret (a, Ok size)
  else
    '(a, r) ← asm_add a offset size;
    match r with
    | Err e => Ret (a, Err e)
    | Ok _ => '(a, n) ← asm_remove_front a; Ret (a, Ok n)
    end.

(** [AssemblerIter]: [next] scans for the next contig that holds data. *)
Record AssemblerIter : Type := mkAssemblerIter {
  it_assembler : Assembler; it_offset : Z; it_index : Z; it_left : Z; it_right : Z }.

Definition asm_iter_data (a : Assembler) (first_offset : Z) : AssemblerIter :=
  mkAssemblerIter a first_offset 0 0 0.

Fixpoint asm_iter_next (n : nat) (it : AssemblerIter) : res (AssemblerIter * option (Z * Z)) :=
  match n with
  | O => Ret (it, None)
  | S n =>
      if it_index it <? Zlen (it_assembler it) then
        contig ← index (it_assembler it) (it_index it);
        left ← usize_add (it_left it) (hole_size contig);
        right ← usize_add left (data_size contig);
        if left <? right then
          l ← usize_add left (it_offset it);
          r ← usize_add right (it_offset it);
          Ret (mkAssemblerIter (it_assembler it) (it_offset it) (it_index it + 1) right right, Some (l, r))
        else asm_iter_next n (mkAssemblerIter (it_assembler it) (it_offset it) (it_index it + 1) left right)
      else Ret (it, None)
  end.

(** ** Reference definitions and meaning *)

(** Size of a contig and of a list of contigs, as integers. *)
Definition ctotal (c : Contig) : Z := hole_size c + data_size c.

Fixpoint span (cs : list Contig) : Z :=
  match cs with [] => 0 | c :: cs => ctotal c + span cs end.

(** Whether offset [x] holds data. *)
Fixpoint covered (cs : list Contig) (x : Z) : bool :=
  match cs with
  | [] => false
  | c :: cs => ((hole_size c <=? x) && (x <? ctotal c)) || covered cs (x - ctotal c)
  end.

Fixpoint coalesce_ref (c : Contig) (rest : list Contig) (e : Z) : Contig * list Contig :=
  match rest with
  | [] => (c, [])
  | d :: rest' =>
      if ctotal c + hole_size d <=? e
      then coalesce_ref (mkContig (hole_size c) (data_size c + ctotal d)) rest' e
      else (c, rest)
  end.

Definition merge_ref (c : Contig) (rest : list Contig) (e : Z) : list Contig :=
  let '(c, rest) := coalesce_ref c rest e in
  if ctotal c <? e then
    let left := e - ctotal c in
    mkContig (hole_size c) (data_size c + left) ::
    match rest with [] => [] | d :: rest => mkContig (hole_size d - left) (data_size d) :: rest end
  else c :: rest.

Fixpoint add_ref (cs : list Contig) (offset size : Z) : list Contig :=
  match cs with
  | [] => [mkContig offset size]
  | c :: cs' =>
      if offset <=? ctotal c then
        if offset <? hole_size c then
          if offset + size <? hole_size c then
            mkContig offset size :: mkContig (hole_size c - (offset + size)) (data_size c) :: cs'
          else merge_ref (mkContig offset (ctotal c - offset)) cs' (offset + size)
        else merge_ref c cs' (offset + size)
      else c :: add_ref cs' (offset - ctotal c) size
  end.

(** Contigs that hold data, separated by holes ([first] allows an empty first hole). *)
Fixpoint contigs_ok (first : bool) (cs : list Contig) : Prop :=
  match cs with
  | [] => True
  | c :: cs => (if first then 0 <= hole_size c else 0 < hole_size c) /\ 0 < data_size c /\ contigs_ok false cs
  end.

(** The array for a list of contigs: unused entries are empty. *)
Definition pad (k : nat) (cs : list Contig) : Assembler := cs ++ replicate k contig_empty.

(** Invariant of the array: the source's two conditions (a prefix of entries with data, only
    the first of which may have an empty hole), with all sizes and the array length inside
    [isize]. *)
Definition asm_wf (a : Assembler) : Prop :=
  exists cs k, a = pad k cs /\ contigs_ok true cs /\ span cs <= isize_max /\
               a <> [] /\ Zlen a <= isize_max.

(** ** Facts about the reference definitions *)

Lemma contigs_ok_weaken cs : contigs_ok false cs -> contigs_ok true cs.
Proof. destruct cs; cbn; intuition lia. Qed.

Lemma contigs_ok_any b cs : contigs_ok b cs -> contigs_ok true cs.
Proof. destruct b; auto using contigs_ok_weaken. Qed.

Lemma span_nonneg b cs : contigs_ok b cs -> 0 <= span cs.
Proof.
  revert b. induction cs as [|c cs IH]; intros b; cbn; [lia|].
  intros (H1 & H2 & H3). specialize (IH _ H3). unfold ctotal. destruct b; lia.
Qed.

Lemma span_app cs ds : span (cs ++ ds) = span cs + span ds.
Proof. induction cs; cbn; lia. Qed.

Lemma span_replicate k : span (replicate k contig_empty) = 0.
Proof. induction k; cbn; [done|]. unfold ctotal at 1. cbn. lia. Qed.

Lemma covered_neg b cs x : contigs_ok b cs -> x < 0 -> covered cs x = false.
Proof.
  revert b x. induction cs as [|c cs IH]; intros b x; cbn; [done|]. intros (H1 & H2 & H3) Hx.
  rewrite (IH false) by (auto; unfold ctotal; destruct b; lia). destruct b; lia.
Qed.

Lemma covered_app cs ds x : covered (cs ++ ds) x = covered cs x || covered ds (x - span cs).
Proof.
  revert x. induction cs as [|c cs IH]; intros x; cbn.
  - f_equal. lia.
  - rewrite IH. rewrite orb_assoc. f_equal. f_equal. lia.
Qed.

Lemma covered_replicate k x : covered (replicate k contig_empty) x = false.
Proof.
  revert x. induction k; intros x; cbn; [done|]. rewrite IHk. unfold ctotal. cbn. lia.
Qed.

Lemma covered_pad k cs x : covered (pad k cs) x = covered cs x.
Proof. unfold pad. rewrite covered_app, covered_replicate. apply orb_false_r. Qed.

(** Nothing is covered past the end. *)
Lemma covered_beyond b cs x : contigs_ok b cs -> span cs <= x -> covered cs x = false.
Proof.
  revert b x. induction cs as [|c cs IH]; intros b x; cbn; [done|]. intros (H1 & H2 & H3) Hx.
  pose proof (span_nonneg _ _ H3). rewrite (IH false) by (auto; lia). lia.
Qed.

Lemma coalesce_ref_ok b c rest e c' rest' :
  (if b : bool then 0 <= hole_size c else 0 < hole_size c) -> 0 < data_size c ->
  contigs_ok false rest ->
  coalesce_ref c rest e = (c', rest') ->
  hole_size c' = hole_size c /\ data_size c <= data_size c' /\ contigs_ok false rest' /\
  (length rest' <= length rest)%nat /\
  ctotal c' + span rest' = ctotal c + span rest /\
  (match rest' with [] => True | d :: _ => e < ctotal c' + hole_size d end) /\
  (forall x, hole_size c <= x -> covered rest' (x - ctotal c') || (x <? ctotal c') =
     covered rest (x - ctotal c) || (x <? ctotal c) || ((ctotal c <=? x) && (x <? e) && (x <? ctotal c'))).
Proof.
  intros H1 H2. revert c H1 H2. induction rest as [|d rest IH]; intros c H1 H2 Hok; cbn [coalesce_ref].
  - intros [= <- <-]. cbn. repeat split; auto; try lia.
  - destruct Hok as (Hd1 & Hd2 & Hok). destr_if.
    + intros Hc. apply IH in Hc; cbn in *; auto; [|unfold ctotal; lia].
      destruct Hc as (Ha & Hb & Hc & Hd & He & Hf & Hg). unfold ctotal in *. cbn in *.
      repeat split; auto; try lia.
      intros x Hx. rewrite Hg by lia.
      replace (x - (hole_size c + data_size c) - (hole_size d + data_size d))
        with (x - (hole_size c + (data_size c + (hole_size d + data_size d)))) by lia.
      destruct (covered rest _); lia.
    + intros [= <- <-]. cbn. repeat split; auto; try lia. intros x Hx. unfold ctotal in *.
      destruct (covered rest _); lia.
Qed.

Lemma merge_ref_ok b c rest e :
  (if b : bool then 0 <= hole_size c else 0 < hole_size c) -> 0 < data_size c -> contigs_ok false rest ->
  contigs_ok b (merge_ref c rest e) /\
  (1 <= length (merge_ref c rest e) <= S (length rest))%nat /\
  span (merge_ref c rest e) = Z.max e (ctotal c + span rest) /\
  (forall x, hole_size c <= x -> covered (merge_ref c rest e) x =
     covered rest (x - ctotal c) || (x <? ctotal c) || ((ctotal c <=? x) && (x <? e))) /\
  (forall x, x < hole_size c -> covered (merge_ref c rest e) x = false).
Proof.
  intros H1 H2 Hok. unfold merge_ref. destruct (coalesce_ref c rest e) as [c' rest'] eqn:E.
  destruct (coalesce_ref_ok b c rest e c' rest') as (Ha & Hb & Hc & Hd & He & Hf & Hg); auto.
  pose proof (span_nonneg _ _ Hc) as Hsp. destr_if.
  - destruct rest' as [|d rest'].
    + cbn in *. unfold ctotal in *. cbn in *. rewrite Ha.
      repeat split; auto; try lia.
      * intros x Hx. specialize (Hg x Hx). destruct (covered rest _); lia.
    + destruct Hc as (Hd1 & Hd2 & Hc). cbn in *. unfold ctotal in *. cbn in *. rewrite Ha in *.
      pose proof (span_nonneg _ _ Hc).
      repeat split; auto; try lia.
      * intros x Hx. specialize (Hg x Hx).
        replace (x - (hole_size c + data_size c') - (hole_size d + data_size d)) with
          (x - (hole_size c + (data_size c' + (e - (hole_size c + data_size c')))) -
             (hole_size d - (e - (hole_size c + data_size c')) + data_size d)) in Hg by lia.
        set (K := covered rest' _) in *. clearbody K.
        destruct (covered rest _), K; lia.
      * intros x Hx. rewrite (covered_neg false rest') by (auto; lia). destruct b; lia.
  - cbn. unfold ctotal in *. rewrite Ha in *. repeat split; auto; try lia.
    + intros x Hx. specialize (Hg x Hx). destruct (covered rest' _), (covered rest _); lia.
    + intros x Hx. rewrite (covered_neg false rest') by (auto; destruct b; lia). lia.
Qed.

(** Meaning of [add_ref]: the range becomes covered, nothing else changes. *)
Lemma add_ref_ok b cs offset size :
  contigs_ok b cs -> (if b then 0 <= offset else 0 < offset) -> 0 < size ->
  contigs_ok b (add_ref cs offset size) /\
  (length (add_ref cs offset size) <= S (length cs))%nat /\
  span (add_ref cs offset size) = Z.max (span cs) (offset + size) /\
  (forall x, covered (add_ref cs offset size) x =
     covered cs x || ((offset <=? x) && (x <? offset + size))).
Proof.
  revert b offset. induction cs as [|c cs IH]; intros b offset; cbn [add_ref contigs_ok].
  - intros _ Ho Hs. cbn. unfold ctotal. cbn. repeat split; auto; destruct b; lia.
  - intros (H1 & H2 & Hok) Ho Hs. pose proof (span_nonneg _ _ Hok) as Hsp.
    assert (Hneg : forall x, x < ctotal c -> covered cs (x - ctotal c) = false)
      by (intros; apply (covered_neg false); auto; lia).
    destr_if; [destr_if; [destr_if|]|].
    + cbn. unfold ctotal in *. cbn. repeat split; auto; try lia.
      intros x. replace (x - (offset + size) - (hole_size c - (offset + size) + data_size c))
        with (x - (hole_size c + data_size c)) by lia.
      destruct (covered cs _); lia.
    + destruct (merge_ref_ok b (mkContig offset (ctotal c - offset)) cs (offset + size))
        as (Ha & Hb & Hc & Hd & He); cbn; auto; [unfold ctotal; lia|].
      assert (Ect : ctotal (mkContig offset (ctotal c - offset)) = ctotal c) by (unfold ctotal; cbn; lia).
      rewrite Ect in *. cbn [hole_size] in *.
      split; [done|]. split; [cbn [length]; lia|]. split; [cbn [span]; lia|]. intros x. cbn [covered].
      destruct (Z_lt_le_dec x offset).
      * rewrite He by lia. rewrite Hneg by lia. unfold ctotal. lia.
      * rewrite Hd by lia. destruct (Z_lt_le_dec x (ctotal c)); [rewrite Hneg by lia|];
        destruct (covered cs (x - ctotal c)); unfold ctotal in *; lia.
    + destruct (merge_ref_ok b c cs (offset + size)) as (Ha & Hb & Hc & Hd & He); auto.
      split; [done|]. split; [cbn [length]; lia|]. split; [cbn [span]; lia|]. intros x. cbn [covered].
      destruct (Z_lt_le_dec x (hole_size c)).
      * rewrite He by lia. rewrite Hneg by (unfold ctotal; lia). lia.
      * rewrite Hd by lia. destruct (Z_lt_le_dec x (ctotal c)); [rewrite Hneg by lia|];
        destruct (covered cs (x - ctotal c)); unfold ctotal in *; lia.
    + destruct (IH false (offset - ctotal c)) as (Ha & Hb & Hc & Hd); auto; [lia|].
      cbn. repeat split; auto; try lia.
      intros x. rewrite Hd. destruct (covered cs _); unfold ctotal in *; destruct b; lia.
Qed.

(** ** The loops compute the reference definitions *)

Lemma index_mid {A} (pre suf : list A) c i :
  i = Zlen pre -> index (pre ++ c :: suf) i = Ret c.
Proof.
  intros ->. apply index_ok; [apply Zlen_nonneg|].
  unfold Zlen. rewrite Nat2Z.id. by rewrite list_lookup_middle.
Qed.

Lemma index_set_mid {A} (pre suf : list A) c d i :
  i = Zlen pre -> index_set (pre ++ c :: suf) i d = Ret (pre ++ d :: suf).
Proof.
  intros ->. rewrite index_set_ok.
  - unfold Zlen. rewrite Nat2Z.id, <- (Nat.add_0_r (length pre)). by rewrite insert_app_r.
  - rewrite Zlen_app. unfold Zlen. cbn. lia.
Qed.

Lemma total_size_ok c : 0 <= ctotal c <= usize_max -> total_size c = Ret (ctotal c).
Proof. apply usize_add_ok. Qed.

Lemma has_data_pos c : 0 < data_size c -> has_data c = true.
Proof. unfold has_data. lia. Qed.

(** Bound on a contig inside a bounded list. *)
Lemma ctotal_range b c cs :
  contigs_ok b (c :: cs) -> span (c :: cs) <= isize_max ->
  0 <= ctotal c <= isize_max /\ 0 <= hole_size c /\ 0 < data_size c /\ 0 <= span cs /\
  ctotal c + span cs <= isize_max.
Proof.
  cbn. intros (H1 & H2 & H3) Hs. pose proof (span_nonneg _ _ H3). unfold ctotal in *.
  destruct b; lia.
Qed.

(** The search loop on the contigs that hold data, [k] free entries after them. *)
Fixpoint find_ref (k : nat) (cs : list Contig) (i offset : Z) : find_outcome :=
  match cs with
  | [] => match k with O => FindFull | S _ => FindFree i offset end
  | c :: cs => if offset <=? ctotal c then FindAt i offset else find_ref k cs (i + 1) (offset - ctotal c)
  end.

Lemma asm_find_spec b pre cs k offset :
  contigs_ok b cs -> span cs <= isize_max -> 0 <= offset <= usize_max ->
  asm_find (length (pad k cs)) (pre ++ pad k cs) (Zlen pre) offset = Ret (find_ref k cs (Zlen pre) offset).
Proof.
  revert b pre offset. induction cs as [|c cs IH]; intros b pre offset Hok Hs Ho.
  - unfold pad. cbn [app]. destruct k as [|k]; [done|]. cbn [replicate length asm_find].
    rewrite index_mid by done. rewrite bind_Ret. cbn. done.
  - destruct (ctotal_range b c cs) as (? & ? & ? & ? & ?); auto. destruct Hok as (_ & _ & Hok).
    unfold pad. cbn [app length asm_find]. rewrite index_mid, bind_Ret by done.
    rewrite has_data_pos by done. cbn [negb].
    rewrite total_size_ok, bind_Ret by mlia. cbn [find_ref]. destr_if; [done|].
    rewrite usize_sub_ok, bind_Ret by mlia.
    specialize (IH false (pre ++ [c]) (offset - ctotal c) Hok).
    rewrite <- app_assoc in IH. cbn [app] in IH.
    replace (Zlen (pre ++ [c])) with (Zlen pre + 1) in IH by (rewrite Zlen_app; reflexivity).
    apply IH; lia.
Qed.

Lemma length_pad_cons k c cs : length (pad k (c :: cs)) = S (length (pad k cs)).
Proof. reflexivity. Qed.

Lemma asm_coalesce_spec pre c mid cs k offset size :
  0 < data_size c -> 0 <= hole_size c ->
  contigs_ok false cs -> ctotal c + span cs <= isize_max -> 0 <= offset -> 0 <= size ->
  offset + size <= usize_max ->
  let '(c', rest) := coalesce_ref c cs (offset + size) in
  exists mid', cs = mid' ++ rest /\
  asm_coalesce (length (pad k cs)) (pre ++ c :: mid ++ pad k cs) (Zlen pre)
    (Zlen pre + 1 + Zlen mid) offset size =
  Ret (pre ++ c' :: mid ++ pad k cs, Zlen pre + 1 + Zlen mid + Zlen mid').
Proof.
  intros Hd Hh Hok Hs Ho Hsz He. revert c mid Hd Hh Hok Hs.
  induction cs as [|d cs IH]; intros c mid Hd Hh Hok Hs; cbn [coalesce_ref].
  - exists []. split; [done|]. change (Zlen (@nil Contig)) with 0. rewrite Z.add_0_r.
    unfold pad. cbn [app]. destruct k as [|k]; [done|]. cbn [replicate length asm_coalesce].
    rewrite app_comm_cons, app_assoc. rewrite (index_mid _ _ _ (Zlen pre + 1 + Zlen mid)) by zlen. done.
  - destruct (ctotal_range false d cs) as (? & ? & ? & ? & ?); auto; [unfold ctotal in Hs; lia|].
    cbn [span] in Hs. destruct Hok as (_ & _ & Hok).
    assert (Hj : index (pre ++ c :: mid ++ pad k (d :: cs)) (Zlen pre + 1 + Zlen mid) = Ret d).
    { unfold pad. cbn [app]. rewrite app_comm_cons, app_assoc.
      apply index_mid. zlen. }
    destruct (ctotal c + hole_size d <=? offset + size) eqn:Ec.
    + specialize (IH (mkContig (hole_size c) (data_size c + ctotal d)) (mid ++ [d])).
      destruct (coalesce_ref _ cs _) as [c' rest] eqn:Er.
      destruct IH as (mid' & Hcs & IH);
        [cbn; unfold ctotal in *; cbn; first [assumption | lia] .. | ].
      exists (d :: mid'). split; [cbn; by rewrite Hcs|].
      rewrite length_pad_cons. cbn [asm_coalesce].
      rewrite Hj, bind_Ret. rewrite has_data_pos by done. cbn [negb].
      rewrite usize_add_ok, bind_Ret by lia.
      rewrite index_mid, bind_Ret by done.
      rewrite (total_size_ok c), bind_Ret by (unfold ctotal in *; mlia).
      rewrite usize_add_ok, bind_Ret by (unfold ctotal in *; mlia). rewrite Ec.
      rewrite (total_size_ok d), bind_Ret by (unfold ctotal in *; mlia).
      rewrite usize_add_ok, bind_Ret by (unfold ctotal in *; mlia).
      rewrite index_set_mid, bind_Ret by done.
      replace (mid ++ pad k (d :: cs)) with ((mid ++ [d]) ++ pad k cs) by (rewrite <- app_assoc; done).
      replace (Zlen pre + 1 + Zlen mid + 1) with (Zlen pre + 1 + Zlen (mid ++ [d]))
        by zlen.
      rewrite IH. f_equal. f_equal. zlen.
    + exists []. split; [done|]. change (Zlen (@nil Contig)) with 0. rewrite Z.add_0_r.
      rewrite length_pad_cons. cbn [asm_coalesce].
      rewrite Hj, bind_Ret. rewrite has_data_pos by done. cbn [negb].
      rewrite usize_add_ok, bind_Ret by lia.
      rewrite index_mid, bind_Ret by done.
      rewrite (total_size_ok c), bind_Ret by (unfold ctotal in *; mlia).
      rewrite usize_add_ok, bind_Ret by (unfold ctotal in *; mlia). by rewrite Ec.
Qed.

(** The gap-closing loop: while the entry holds data, take the one [shift] further. *)
Fixpoint shift_ref (s : nat) (r : list Contig) : list Contig :=
  match r with
  | [] => []
  | c :: r' => if has_data c then default contig_empty (r !! s) :: shift_ref s r' else r
  end.

Lemma asm_shift_down_spec p r s :
  (0 < s)%nat -> Zlen (p ++ r) + Z.of_nat s <= usize_max ->
  asm_shift_down (length r) (p ++ r) (Zlen p) (Z.of_nat s) = Ret (p ++ shift_ref s r).
Proof.
  intros Hs. revert p. induction r as [|c r IH]; intros p Hb; cbn [length asm_shift_down shift_ref]; [done|].
  rewrite index_mid, bind_Ret by done. destruct (has_data c); cbn [negb]; [|done].
  autorewrite with zlen in Hb. pose proof (Zlen_nonneg p). pose proof (Zlen_nonneg r).
  rewrite usize_add_ok, bind_Ret by lia.
  rewrite index_set_mid, bind_Ret by done.
  replace ((p ++ c :: r) !! Z.to_nat (Zlen p + Z.of_nat s)) with ((c :: r) !! s).
  2:{ rewrite lookup_app_r by (unfold Zlen; lia). f_equal. unfold Zlen. lia. }
  specialize (IH (p ++ [default contig_empty ((c :: r) !! s)])).
  rewrite <- !app_assoc in IH. cbn [app] in IH.
  replace (Zlen (p ++ [default contig_empty ((c :: r) !! s)])) with (Zlen p + 1) in IH by zlen.
  rewrite IH by zlen. done.
Qed.

Lemma shift_ref_lookup k s ds i :
  contigs_ok true ds -> (i < length ds)%nat ->
  shift_ref s (pad k ds) !! i = Some (default contig_empty (pad k ds !! (s + i)%nat)).
Proof.
  revert i. induction ds as [|d ds IH]; intros i Hok Hi; cbn in Hi; [lia|].
  destruct Hok as (_ & Hd & Hok). unfold pad. cbn [app shift_ref]. rewrite has_data_pos by done.
  destruct i as [|i]; [by rewrite Nat.add_0_r|].
  cbn [lookup list_lookup]. fold (pad k ds). rewrite IH by (auto using contigs_ok_weaken; lia).
  f_equal. f_equal. by rewrite Nat.add_succ_r.
Qed.

Lemma shift_ref_tail k s ds :
  contigs_ok true ds -> drop (length ds) (shift_ref s (pad k ds)) = replicate k contig_empty.
Proof.
  induction ds as [|d ds IH]; intros Hok.
  - unfold pad. cbn. by destruct k.
  - destruct Hok as (_ & Hd & Hok). unfold pad. cbn [app shift_ref length drop].
    rewrite has_data_pos by done. cbn [drop]. apply IH, contigs_ok_weaken, Hok.
Qed.

(** Closing a gap of [s] contigs drops the first [s] of them. *)
Lemma shift_ref_spec k mid rest :
  contigs_ok true (mid ++ rest) ->
  shift_ref (length mid) (pad k (mid ++ rest)) = pad (k + length mid) rest.
Proof.
  intros Hok. set (ds := mid ++ rest) in *. set (s := length mid).
  assert (Hl : length ds = (s + length rest)%nat) by (unfold ds; rewrite length_app; done).
  rewrite <- (take_drop (length ds) (shift_ref s (pad k ds))), shift_ref_tail by done.
  assert (Hlen : (length ds <= length (shift_ref s (pad k ds)))%nat).
  { destruct (decide (length ds = 0)%nat) as [E|E]; [lia|].
    pose proof (shift_ref_lookup k s ds (length ds - 1) Hok ltac:(lia)) as H.
    apply lookup_lt_Some in H. lia. }
  unfold pad at 2. rewrite (Nat.add_comm k), replicate_add, app_assoc. f_equal.
  apply list_eq. intros i. destruct (decide (i < length ds)%nat) as [Hi|Hi].
  - rewrite lookup_take_lt, shift_ref_lookup by done. unfold pad.
    destruct (decide (i < length rest)%nat) as [Hr|Hr].
    + rewrite (lookup_app_l ds), (lookup_app_l rest) by lia.
      replace (ds !! (s + i)%nat) with (rest !! i)
        by (unfold ds; rewrite lookup_app_r by lia; f_equal; lia).
      destruct (lookup_lt_is_Some_2 rest i Hr) as [x ->]. done.
    + rewrite (lookup_app_r rest), lookup_replicate_2 by lia. f_equal.
      rewrite (lookup_app_r ds) by lia. destruct (decide (s + i - length ds < k)%nat).
      * by rewrite lookup_replicate_2.
      * by rewrite lookup_ge_None_2 by (rewrite length_replicate; lia).
  - rewrite !lookup_ge_None_2; auto; rewrite ?length_take, ?length_app, ?length_replicate; lia.
Qed.

Lemma length_pad_suffix pre c cs k :
  Z.to_nat (Zlen (pre ++ c :: pad k cs) - (Zlen pre + 1)) = length (pad k cs).
Proof. autorewrite with zlen. unfold Zlen. lia. Qed.

Lemma asm_close_gap_spec pre c mid rest k :
  contigs_ok false (mid ++ rest) -> Zlen (pre ++ c :: pad k (mid ++ rest)) <= isize_max ->
  asm_close_gap (pre ++ c :: pad k (mid ++ rest)) (Zlen pre) (Zlen pre + 1 + Zlen mid) =
  Ret (pre ++ c :: pad (k + length mid) rest).
Proof.
  intros Hok Hlen. unfold asm_close_gap. autorewrite with zlen in Hlen.
  assert (Zlen mid <= Zlen (pad k (mid ++ rest)))
    by (unfold pad; autorewrite with zlen; unfold Zlen; lia).
  pose proof (Zlen_nonneg pre). pose proof (Zlen_nonneg mid).
  rewrite usize_sub_ok, bind_Ret by mlia. rewrite usize_sub_ok, bind_Ret by mlia.
  replace (Zlen pre + 1 + Zlen mid - Zlen pre - 1) with (Zlen mid) by lia.
  destruct mid as [|m mid]; [by rewrite Nat.add_0_r|].
  replace (negb (Zlen (m :: mid) =? 0)) with true by (rewrite Zlen_cons in *; pose proof (Zlen_nonneg mid); lia).
  rewrite length_pad_suffix. set (ds := (m :: mid) ++ rest) in *.
  replace (pre ++ c :: pad k ds) with ((pre ++ [c]) ++ pad k ds) by (rewrite <- app_assoc; done).
  replace (Zlen pre + 1) with (Zlen (pre ++ [c])) by zlen.
  unfold Zlen at 2.
  rewrite asm_shift_down_spec; [|cbn; lia|autorewrite with zlen; mlia].
  unfold ds. rewrite shift_ref_spec by (by apply contigs_ok_weaken).
  by rewrite <- app_assoc.
Qed.

(** Extension of contig [c] at the expense of the hole after it. *)
Definition extend_ref (c : Contig) (rest : list Contig) (e : Z) : list Contig :=
  if ctotal c <? e then
    mkContig (hole_size c) (data_size c + (e - ctotal c)) ::
    match rest with [] => [] | d :: rest => mkContig (hole_size d - (e - ctotal c)) (data_size d) :: rest end
  else c :: rest.

Lemma asm_extend_spec pre c rest k offset size :
  0 < data_size c -> 0 <= hole_size c -> contigs_ok false rest -> ctotal c + span rest <= isize_max ->
  0 <= offset -> 0 <= size -> offset + size <= isize_max ->
  match rest with [] => True | d :: _ => offset + size < ctotal c + hole_size d end ->
  asm_extend (pre ++ c :: pad k rest) (Zlen pre) offset size =
  Ret (pre ++ pad k (extend_ref c rest (offset + size))).
Proof.
  intros Hd Hh Hok Hs Ho Hsz He Hnext. unfold asm_extend, extend_ref.
  pose proof (span_nonneg _ _ Hok) as Hspr.
  rewrite usize_add_ok, bind_Ret by mlia. rewrite index_mid, bind_Ret by done.
  rewrite total_size_ok, bind_Ret by (unfold ctotal in *; mlia).
  destruct (ctotal c <? offset + size) eqn:Elt; [|done].
  rewrite usize_sub_ok, bind_Ret by (unfold ctotal in *; mlia).
  rewrite usize_add_ok, bind_Ret by (unfold ctotal in *; mlia).
  rewrite index_set_mid, bind_Ret by done.
  set (c2 := mkContig (hole_size c) _). unfold pad.
  assert (Hre : forall d l, pre ++ c2 :: d :: l = (pre ++ [c2]) ++ d :: l)
    by (intros; by rewrite <- app_assoc).
  destruct rest as [|d rest]; cbn [app].
  - destr_if; [|done]. destruct k as [|k]; cbn [replicate]; [autorewrite with zlen in Hif; lia|].
    rewrite Hre, index_mid, bind_Ret by zlen. done.
  - destruct (ctotal_range false d rest) as (? & ? & ? & ? & ?); auto; [unfold ctotal in *; lia|].
    pose proof (Zlen_nonneg (rest ++ replicate k contig_empty)).
    destr_if; [|autorewrite with zlen in *; lia].
    rewrite Hre, index_mid, bind_Ret by zlen. rewrite has_data_pos by done.
    rewrite usize_sub_ok, bind_Ret by (unfold ctotal in *; mlia).
    rewrite index_set_mid by zlen. by rewrite <- app_assoc.
Qed.

Lemma merge_ref_extend c cs e c' rest :
  coalesce_ref c cs e = (c', rest) -> merge_ref c cs e = extend_ref c' rest e.
Proof. unfold merge_ref, extend_ref. by intros ->. Qed.

Lemma length_extend_ref c rest e : length (extend_ref c rest e) = S (length rest).
Proof. unfold extend_ref. destr_if; [|done]. by destruct rest. Qed.

Lemma asm_add_merge_spec pre c cs k offset size :
  0 < data_size c -> 0 <= hole_size c ->
  contigs_ok false cs -> ctotal c + span cs <= isize_max ->
  0 <= offset <= ctotal c -> 0 < size -> offset + size <= isize_max ->
  Zlen (pre ++ c :: pad k cs) <= isize_max ->
  asm_add_merge (pre ++ c :: pad k cs) (Zlen pre) offset size =
  Ret (pre ++ pad (k + S (length cs) - length (merge_ref c cs (offset + size)))
                 (merge_ref c cs (offset + size))).
Proof.
  intros Hd Hh Hok Hs Ho Hsz He Hlen. unfold asm_add_merge.
  pose proof (asm_coalesce_spec pre c [] cs k offset size) as Hco.
  destruct (coalesce_ref c cs (offset + size)) as [c' rest] eqn:Er.
  destruct Hco as (mid & Hcs & Hco); auto; try mlia.
  destruct (coalesce_ref_ok true c cs _ _ _ ltac:(done) Hd Hok Er) as (Ha & Hb & Hc & _ & Htot & Hnext & _).
  cbn [app] in Hco. rewrite Zlen_nil, Z.add_0_r in Hco.
  rewrite length_pad_suffix, Hco, bind_Ret.
  autorewrite with zlen in Hlen. subst cs.
  rewrite asm_close_gap_spec, bind_Ret by (auto; autorewrite with zlen; lia).
  rewrite (merge_ref_extend _ _ _ _ _ Er).
  rewrite asm_extend_spec by (auto; lia). rewrite length_extend_ref, length_app.
  do 3 f_equal. lia.
Qed.

Lemma asm_shift_up_spec pre m l tl :
  (a ← asm_shift_up (length m) (pre ++ m ++ l :: tl) (Zlen pre); index_set a (Zlen pre) contig_empty)
  = Ret (pre ++ contig_empty :: m ++ tl).
Proof.
  remember (length m) as n eqn:En. revert m l tl En.
  induction n as [|n IH]; intros m l tl En; cbn [asm_shift_up].
  - destruct m; [|done]. cbn [app]. rewrite bind_Ret. by apply index_set_mid.
  - destruct (exists_last (l := m)) as (m' & z & ->); [by destruct m|].
    rewrite length_app in En. cbn in En.
    assert (Hm : length m' = n) by lia.
    rewrite <- !app_assoc. cbn [app].
    replace (pre ++ m' ++ z :: l :: tl) with ((pre ++ m') ++ z :: l :: tl) by (by rewrite <- app_assoc).
    rewrite index_mid, bind_Ret by (autorewrite with zlen; unfold Zlen; lia).
    replace ((pre ++ m') ++ z :: l :: tl) with ((pre ++ m' ++ [z]) ++ l :: tl) by (by rewrite <- !app_assoc).
    rewrite index_set_mid, bind_Ret by (autorewrite with zlen; unfold Zlen; lia).
    rewrite <- !app_assoc. cbn [app]. by apply IH.
Qed.

Lemma asm_back_snoc (p : Assembler) c : Zlen (p ++ [c]) <= isize_max -> asm_back (p ++ [c]) = Ret c.
Proof.
  unfold asm_back. autorewrite with zlen. intros. pose proof (Zlen_nonneg p).
  rewrite usize_sub_ok, bind_Ret by mlia. apply index_mid. lia.
Qed.

Lemma contigs_ok_app b cs ds : contigs_ok b (cs ++ ds) -> contigs_ok b cs /\ contigs_ok true ds.
Proof.
  revert b. induction cs as [|c cs IH]; intros b; cbn; [eauto using contigs_ok_any|].
  intros (H1 & H2 & H3). destruct (IH _ H3). auto.
Qed.

(** The last entry of the array holds data exactly when no entry is unused. *)
Lemma asm_back_pad k cs :
  contigs_ok true cs -> pad k cs <> [] -> Zlen (pad k cs) <= isize_max ->
  exists c, asm_back (pad k cs) = Ret c /\ has_data c = (if k is O then true else false).
Proof.
  intros Hok Hne Hlen. unfold pad in *. destruct k as [|k].
  - cbn [replicate] in *. rewrite app_nil_r in *.
    destruct (exists_last Hne) as (p & c & ->). exists c. split; [by apply asm_back_snoc|].
    apply contigs_ok_app in Hok as [_ Hc]. cbn in Hc. apply has_data_pos. lia.
  - rewrite replicate_S_end, app_assoc in *. exists contig_empty.
    split; [by apply asm_back_snoc | done].
Qed.

(** [add_contig_at] inserts an empty entry, or fails when the array is full. *)
Lemma asm_add_contig_at_spec pre cs k :
  contigs_ok true (pre ++ cs) -> pad k (pre ++ cs) <> [] -> Zlen (pad k (pre ++ cs)) <= isize_max ->
  cs <> [] ->
  asm_add_contig_at (pad k (pre ++ cs)) (Zlen pre) =
  Ret (match k with
       | O => (pad k (pre ++ cs), Err TooManyHoles)
       | S k => (pre ++ contig_empty :: pad k cs, Ok tt)
       end).
Proof.
  intros Hok Hne Hlen Hcs. unfold asm_add_contig_at.
  destruct (asm_back_pad k (pre ++ cs)) as (c & -> & Hc); auto. rewrite bind_Ret, Hc.
  destruct k as [|k]; [done|].
  assert (Hpad : pad (S k) (pre ++ cs) = pre ++ pad k cs ++ contig_empty :: []).
  { unfold pad. rewrite replicate_S_end. by rewrite <- !app_assoc. }
  rewrite Hpad. pose proof (asm_shift_up_spec pre (pad k cs) contig_empty []) as Hup.
  replace (Z.to_nat (Zlen (pre ++ pad k cs ++ [contig_empty]) - (Zlen pre + 1))) with (length (pad k cs))
    by (autorewrite with zlen; unfold Zlen; lia).
  apply bind_Ret_inv in Hup as (a & Ha & Hset). rewrite Ha, bind_Ret, Hset, bind_Ret.
  by rewrite app_nil_r.
Qed.

(** [remove_contig_at] moves the following entries down while they hold data. *)
Fixpoint rem_ref (c : Contig) (r : list Contig) : list Contig :=
  match r with
  | [] => [contig_empty]
  | c' :: r' => if has_data c then c' :: rem_ref c' r' else c :: r
  end.

Lemma asm_remove_loop_spec p c r last :
  last = Zlen p + Zlen r ->
  ('(a, returned) ← asm_remove_loop (length r) (p ++ c :: r) (Zlen p);
   if (returned : bool) then Ret a else index_set a last contig_empty) = Ret (p ++ rem_ref c r).
Proof.
  revert p c. induction r as [|c' r IH]; intros p c Hl; cbn [length asm_remove_loop rem_ref].
  - rewrite bind_Ret. apply index_set_mid. rewrite Zlen_nil in Hl. lia.
  - rewrite (index_mid p _ c (Zlen p)), bind_Ret by done. destruct (has_data c); cbn [negb]; [|done].
    replace (p ++ c :: c' :: r) with ((p ++ [c]) ++ c' :: r) by (by rewrite <- app_assoc).
    rewrite (index_mid (p ++ [c])), bind_Ret by zlen.
    rewrite <- app_assoc. cbn [app]. rewrite index_set_mid, bind_Ret by done.
    specialize (IH (p ++ [c']) c'). rewrite <- !app_assoc in IH. cbn [app] in IH.
    replace (Zlen p + 1) with (Zlen (p ++ [c'])) by zlen. apply IH.
    autorewrite with zlen in *. lia.
Qed.

Lemma rem_ref_pad b d ds k :
  0 < data_size d -> contigs_ok b ds -> rem_ref d (pad k ds) = pad (S k) ds.
Proof.
  intros Hd Hok. revert b d Hd Hok. induction ds as [|d' ds IH]; intros b d Hd Hok; unfold pad; cbn [app].
  - destruct k as [|[|k]]; cbn; rewrite ?has_data_pos by done; reflexivity.
  - destruct Hok as (_ & Hd' & Hok). cbn [rem_ref]. rewrite has_data_pos by done.
    f_equal. apply (IH false); auto.
Qed.

Lemma asm_remove_front_spec cs k :
  contigs_ok true cs -> pad k cs <> [] -> Zlen (pad k cs) <= isize_max ->
  asm_remove_front (pad k cs) =
  Ret (match cs with
       | c :: cs' => if hole_size c =? 0 then (pad (S k) cs', data_size c) else (pad k cs, 0)
       | [] => (pad k cs, 0)
       end).
Proof.
  intros Hok Hne Hlen. unfold asm_remove_front, asm_front. destruct cs as [|c cs].
  - destruct k as [|k]; [done|]. done.
  - destruct Hok as (Hh & Hd & Hok).
    rewrite (index_mid [] _ c 0 eq_refl : index (pad k (c :: cs)) 0 = _), bind_Ret.
    unfold has_hole. rewrite has_data_pos by done. rewrite orb_false_r.
    destruct (hole_size c =? 0); cbn [negb]; [|done].
    unfold asm_remove_contig_at.
    rewrite (index_mid [] _ c 0 eq_refl : index (pad k (c :: cs)) 0 = _), bind_Ret.
    rewrite has_data_pos by done. cbn [passert]. rewrite bind_Ret.
    pose proof (Zlen_nonneg (pad k (c :: cs))).
    assert (Hl : Zlen (pad k (c :: cs)) = 1 + Zlen (pad k cs)) by (apply Zlen_cons).
    pose proof (Zlen_nonneg (pad k cs)).
    rewrite usize_sub_ok, bind_Ret by mlia.
    pose proof (asm_remove_loop_spec [] c (pad k cs) (Zlen (pad k (c :: cs)) - 1)) as Hr.
    rewrite Zlen_nil in Hr. specialize (Hr ltac:(lia)). cbn [app] in Hr.
    replace (Z.to_nat (Zlen (pad k (c :: cs)) - 1 - 0)) with (length (pad k cs)) by (unfold Zlen in *; lia).
    change (pad k (c :: cs)) with (c :: pad k cs) in *. rewrite Hr, bind_Ret.
    rewrite (rem_ref_pad false) by done. replace (0 <? data_size c) with true by lia. done.
Qed.

(** ** [add] computes [add_ref] when the result fits the array *)

Lemma find_ref_spec b k cs i offset size :
  contigs_ok b cs -> 0 <= offset -> 0 < size ->
  match find_ref k cs i offset with
  | FindFull => k = 0%nat /\ length (add_ref cs offset size) = S (length cs)
  | FindFree j o => (0 < k)%nat /\ j = i + Zlen cs /\ 0 <= o <= offset /\
      add_ref cs offset size = cs ++ [mkContig o size]
  | FindAt j o => exists pre c suf, cs = pre ++ c :: suf /\ j = i + Zlen pre /\
      0 <= o <= offset /\ o <= ctotal c /\
      add_ref cs offset size = pre ++ add_ref (c :: suf) o size
  end.
Proof.
  revert b i offset. induction cs as [|c cs IH]; intros b i offset Hok Ho Hs; cbn [find_ref].
  - destruct k; [done|]. repeat split; try lia. rewrite Zlen_nil. lia.
  - cbn [add_ref]. destruct (offset <=? ctotal c) eqn:E.
    + exists [], c, cs. cbn [app add_ref]. rewrite E, Zlen_nil. repeat split; lia.
    + destruct Hok as (Hh & Hd & Hok).
      assert (0 <= ctotal c) by (unfold ctotal; destruct b; lia).
      specialize (IH false (i + 1) (offset - ctotal c) Hok ltac:(lia) Hs).
      destruct (find_ref k cs (i + 1) (offset - ctotal c)) as [|j o|j o].
      * destruct IH as (? & IH). split; [done|]. cbn. lia.
      * destruct IH as (? & ? & ? & ->). repeat split; zlen.
      * destruct IH as (pre & c' & suf & -> & -> & ? & ? & ->).
        exists (c :: pre), c', suf. repeat split; zlen.
Qed.

Lemma length_pad k cs : length (pad k cs) = (length cs + k)%nat.
Proof. unfold pad. by rewrite length_app, length_replicate. Qed.

Lemma pad_app k pre cs : pad k (pre ++ cs) = pre ++ pad k cs.
Proof. unfold pad. by rewrite <- app_assoc. Qed.

Lemma index_pad k pre c suf : index (pad k (pre ++ c :: suf)) (Zlen pre) = Ret c.
Proof. rewrite pad_app. by apply index_mid. Qed.

(** The array holding [cs'] instead of [cs], if it fits. *)
Definition refit (k : nat) (cs cs' : list Contig) : Assembler * result unit TooManyHolesError :=
  if decide (length cs' <= length (pad k cs))%nat
  then (pad (length (pad k cs) - length cs') cs', Ok tt)
  else (pad k cs, Err TooManyHoles).

(** Splitting a hole takes one more entry. *)
Lemma asm_add_at_split pre c suf k o size :
  contigs_ok true (pre ++ c :: suf) -> span (pre ++ c :: suf) <= isize_max ->
  Zlen (pad k (pre ++ c :: suf)) <= isize_max ->
  0 <= o -> 0 < size -> o + size < hole_size c ->
  asm_add_at (pad k (pre ++ c :: suf)) (Zlen pre) o size =
  Ret (refit k (pre ++ c :: suf)
         (pre ++ mkContig o size :: mkContig (hole_size c - (o + size)) (data_size c) :: suf)).
Proof.
  intros Hok Hsp Hlen Ho Hs Hh. destruct (contigs_ok_app _ _ _ Hok) as [Hpre Hcs].
  rewrite span_app in Hsp. pose proof (span_nonneg _ _ Hpre).
  destruct (ctotal_range true c suf) as (? & ? & ? & ? & ?); auto; [lia|].
  unfold asm_add_at, refit. rewrite length_pad, !length_app. cbn [length].
  rewrite index_pad, bind_Ret.
  replace (o <? hole_size c) with true by lia.
  rewrite usize_add_ok, bind_Ret by (unfold ctotal in *; mlia).
  replace (o + size <? hole_size c) with true by lia.
  rewrite asm_add_contig_at_spec, bind_Ret by (auto; rewrite pad_app; by destruct pre).
  destruct k as [|k]; [by rewrite decide_False by lia|].
  rewrite decide_True by lia. rewrite index_set_mid, !bind_Ret by done.
  change (pad k (c :: suf)) with (c :: pad k suf). set (c1 := mkContig o size).
  replace (pre ++ c1 :: c :: pad k suf) with ((pre ++ [c1]) ++ c :: pad k suf) by (by rewrite <- app_assoc).
  rewrite index_mid, bind_Ret by zlen. unfold shrink_hole_by.
  rewrite usize_sub_ok, !bind_Ret by (unfold ctotal in *; mlia).
  rewrite index_set_mid, bind_Ret by zlen. rewrite pad_app, <- !app_assoc. cbn [app].
  unfold pad. cbn [app]. repeat f_equal. lia.
Qed.

Lemma asm_add_merge_refit pre c c' suf k o size :
  contigs_ok true (pre ++ c :: suf) -> span (pre ++ c :: suf) <= isize_max ->
  Zlen (pad k (pre ++ c :: suf)) <= isize_max ->
  0 <= o <= ctotal c -> 0 < size -> o + size <= isize_max ->
  0 < data_size c' -> 0 <= hole_size c' -> ctotal c' = ctotal c ->
  (a ← asm_add_merge (pre ++ c' :: pad k suf) (Zlen pre) o size; Ret (a, Ok tt)) =
  Ret (refit k (pre ++ c :: suf) (pre ++ merge_ref c' suf (o + size))).
Proof.
  intros Hok Hsp Hlen Ho Hs He Hd' Hh' Ht'. destruct (contigs_ok_app _ _ _ Hok) as [Hpre Hcs].
  rewrite span_app in Hsp. pose proof (span_nonneg _ _ Hpre). pose proof Hcs as (_ & _ & Hsuf).
  cbn [span] in Hsp.
  destruct (merge_ref_ok true c' suf (o + size)) as (_ & Hml & _); auto.
  rewrite pad_app in Hlen. unfold pad in Hlen. autorewrite with zlen in Hlen.
  rewrite asm_add_merge_spec, bind_Ret by (auto; try lia; unfold pad; autorewrite with zlen; lia).
  unfold refit. rewrite length_pad, !length_app. cbn [length].
  rewrite decide_True by lia. rewrite pad_app.
  match goal with |- context [pad ?n (merge_ref _ _ _)] => set (n1 := n) end.
  match goal with |- _ = Ret (_ ++ pad ?n _, _) => replace n with n1 by lia end. done.
Qed.

Lemma asm_add_at_spec pre c suf k o size :
  contigs_ok true (pre ++ c :: suf) -> span (pre ++ c :: suf) <= isize_max ->
  Zlen (pad k (pre ++ c :: suf)) <= isize_max ->
  0 <= o <= ctotal c -> 0 < size -> o + size <= isize_max ->
  asm_add_at (pad k (pre ++ c :: suf)) (Zlen pre) o size =
  Ret (refit k (pre ++ c :: suf) (pre ++ add_ref (c :: suf) o size)).
Proof.
  intros Hok Hsp Hlen Ho Hs He. cbn [add_ref]. replace (o <=? ctotal c) with true by lia.
  destruct (contigs_ok_app _ _ _ Hok) as [Hpre Hcs]. pose proof (span_nonneg _ _ Hpre).
  destruct (ctotal_range true c suf) as (? & ? & ? & ? & ?); auto; [rewrite span_app in Hsp; lia|].
  destruct (o <? hole_size c) eqn:Eh; [destruct (o + size <? hole_size c) eqn:Ee|].
  - apply asm_add_at_split; auto; lia.
  - unfold asm_add_at. rewrite index_pad, bind_Ret.
    rewrite Eh, usize_add_ok, bind_Ret by mlia. rewrite Ee. unfold shrink_hole_to.
    replace (o <=? hole_size c) with true by lia. cbn [passert].
    rewrite bind_Ret, total_size_ok, bind_Ret by mlia. rewrite usize_sub_ok, !bind_Ret by mlia.
    rewrite pad_app. change (pad k (c :: suf)) with (c :: pad k suf).
    rewrite (index_set_mid pre _ c), bind_Ret by done.
    apply asm_add_merge_refit; auto; cbn; unfold ctotal in *; cbn; lia.
  - unfold asm_add_at. rewrite index_pad, bind_Ret.
    rewrite Eh, pad_app. apply asm_add_merge_refit; auto; lia.
Qed.

Lemma asm_add_pad cs k offset size :
  contigs_ok true cs -> span cs <= isize_max -> Zlen (pad k cs) <= isize_max ->
  0 <= offset -> 0 < size -> offset + size <= isize_max ->
  asm_add (pad k cs) offset size = Ret (refit k cs (add_ref cs offset size)).
Proof.
  intros Hok Hsp Hlen Ho Hs He. unfold asm_add. replace (size =? 0) with false by lia.
  pose proof (asm_find_spec true [] cs k offset Hok Hsp ltac:(mlia)) as Hf.
  cbn [app] in Hf. rewrite Zlen_nil in Hf. rewrite Hf, bind_Ret. clear Hf.
  pose proof (find_ref_spec true k cs 0 offset size Hok Ho Hs) as Hr.
  destruct (find_ref k cs 0 offset) as [|i o|i o].
  - destruct Hr as (-> & Hl). unfold refit. rewrite length_pad, decide_False by lia. done.
  - destruct Hr as (Hk & -> & Hor & ->). unfold refit. rewrite length_pad, length_app. cbn [length].
    rewrite decide_True by lia. destruct k as [|k]; [lia|]. unfold pad. cbn [replicate].
    rewrite index_set_mid, bind_Ret by lia. unfold contig_hole_and_data.
    rewrite <- app_assoc. cbn [app]. repeat f_equal. lia.
  - destruct Hr as (pre & c & suf & -> & -> & Hor & Hot & ->). rewrite Z.add_0_l.
    apply asm_add_at_spec; auto; lia.
Qed.

Lemma refit_wf k cs cs' :
  asm_wf (pad k cs) -> contigs_ok true cs' -> span cs' <= isize_max -> cs' <> [] ->
  asm_wf (refit k cs cs').1 /\ length (refit k cs cs').1 = length (pad k cs).
Proof.
  intros Hwf Hok Hs Hne. unfold refit. case_decide as Hd; cbn [fst]; [|auto].
  rewrite !length_pad in *. split; [|lia].
  destruct Hwf as (_ & _ & _ & _ & _ & _ & Hlen).
  exists cs', (length cs + k - length cs')%nat. repeat split; auto.
  - by destruct cs'.
  - unfold Zlen in *. rewrite !length_pad in *. lia.
Qed.

Lemma add_ref_nonempty cs offset size : add_ref cs offset size <> [].
Proof.
  destruct cs as [|c cs]; cbn; [done|]. unfold merge_ref.
  repeat (destr_if || destruct (coalesce_ref _ _ _)); done.
Qed.

Lemma has_data_contigs b cs : contigs_ok b cs -> Forall (fun c => has_data c = true) cs.
Proof.
  revert b. induction cs as [|c cs IH]; intros b; cbn; [done|]. intros (_ & Hd & Hok).
  constructor; eauto using has_data_pos.
Qed.

Lemma covered_0_false cs : contigs_ok false cs -> covered cs 0 = false.
Proof.
  destruct cs as [|c cs]; cbn; [done|]. intros (Hh & Hd & Hok).
  rewrite (covered_neg false) by (auto; unfold ctotal; lia). unfold ctotal. lia.
Qed.

Lemma asm_new_wf n : (0 < n)%nat -> Z.of_nat n <= isize_max -> asm_wf (asm_new n).
Proof.
  intros. exists [], n. unfold pad, asm_new. cbn. repeat split; auto.
  - mlia.
  - by destruct n; [lia|].
  - unfold Zlen. by rewrite length_replicate.
Qed.

Lemma covered_asm_new n x : covered (asm_new n) x = false.
Proof. apply covered_replicate. Qed.

(** The first entry of a well-formed array. *)
Lemma asm_front_wf a :
  asm_wf a -> exists c, index a 0 = Ret c /\ 0 <= hole_size c <= isize_max /\ 0 <= data_size c.
Proof.
  intros (cs & k & -> & Hok & Hs & Hne & _). destruct cs as [|c cs].
  - destruct k; [done|]. exists contig_empty. split; [done|]. cbn. mlia.
  - exists c. split; [done|]. destruct (ctotal_range true c cs) as (? & ? & ? & ? & ?); auto.
    unfold ctotal in *. lia.
Qed.

Lemma asm_is_empty_ok a : asm_wf a -> wp (asm_is_empty a) (fun _ => True).
Proof. intros Ha. unfold asm_is_empty, asm_front. by destruct (asm_front_wf a Ha) as (c & -> & _). Qed.

Lemma asm_add_ok (a : Assembler) (offset size : Z) :
  asm_wf a -> 0 <= offset -> 0 <= size -> offset + size <= isize_max ->
  wp (asm_add a offset size) (fun '(a', r) =>
    asm_wf a' /\ length a' = length a /\
    match r with
    | Ok _ => forall x, covered a' x = covered a x || ((offset <=? x) && (x <? offset + size))
    | Err _ => a' = a /\ Forall (fun c => has_data c = true) a
    end).
Proof.
  intros Hwf Ho Hs He. pose proof Hwf as (cs & k & -> & Hok & Hsp & Hne & Hlen).
  destruct (Z.eq_dec size 0) as [->|Hsz].
  { unfold asm_add. cbn. repeat split; auto. intros x. destruct (covered _ x); lia. }
  rewrite asm_add_pad by (auto; lia). cbn [wp].
  destruct (add_ref_ok true cs offset size) as (Hok' & Hl' & Hsp' & Hcov); auto; [lia|].
  destruct (refit_wf k cs (add_ref cs offset size)) as (Hwf' & Hlen');
    auto using add_ref_nonempty; [lia|].
  unfold refit in *. case_decide as Hd; cbn [fst] in *; (split; [done|]; split; [done|]).
  - intros x. rewrite !covered_pad. apply Hcov.
  - rewrite length_pad in Hd. replace k with 0%nat by lia. split; [done|].
    unfold pad. cbn [replicate]. rewrite app_nil_r. by apply (has_data_contigs true).
Qed.

(** [n] is the length of the run of present offsets at the front of [u], and [a'] describes
    what is past it. *)
Definition front_run (u : Z -> bool) (n : Z) (a' : Assembler) : Prop :=
  0 <= n /\ (forall x, 0 <= x < n -> u x = true) /\ u n = false /\
  (forall x, 0 <= x -> covered a' x = u (x + n)).

(** The shortcut of [add_then_remove_front]: the range ends inside the first hole. *)
Lemma asm_shrink_front_ok c cs k size :
  asm_wf (pad k (c :: cs)) -> contigs_ok true (c :: cs) -> 0 <= size < hole_size c ->
  let a' := mkContig (hole_size c - size) (data_size c) :: pad k cs in
  asm_wf a' /\
  front_run (fun x => covered (pad k (c :: cs)) x || ((0 <=? x) && (x <? 0 + size))) size a'.
Proof.
  intros (cs0 & k0 & E & _ & Hsp & _ & Hlen) (_ & Hd & Hok) Hs a'.
  assert (Hsp' : span (pad k (c :: cs)) = span (pad k0 cs0)) by (by rewrite E).
  unfold pad in Hsp'. rewrite !span_app, !span_replicate in Hsp'. cbn [span] in Hsp'.
  assert (Hneg : forall x, x < ctotal c -> covered cs (x - ctotal c) = false)
    by (intros; apply (covered_neg false); auto; lia).
  split.
  - exists (mkContig (hole_size c - size) (data_size c) :: cs), k.
    split; [done|]. split; [cbn; split; [lia|auto]|]. split; [|split; [done|exact Hlen]].
    cbn [span]. unfold ctotal in *. cbn [hole_size data_size]. lia.
  - unfold front_run, a'. change (pad k (c :: cs)) with (c :: pad k cs). cbn [covered].
    split; [lia|]. split; [intros; lia|]. split.
    + rewrite covered_pad, Hneg by (unfold ctotal; lia). unfold ctotal. lia.
    + intros x Hx. rewrite !covered_pad. unfold ctotal in *. cbn [hole_size data_size].
      replace (x + size - (hole_size c + data_size c)) with (x - (hole_size c - size + data_size c)) by lia.
      destruct (covered cs _); lia.
Qed.

(** [remove_front] returns the run at the front. *)
Lemma asm_remove_front_run a :
  asm_wf a ->
  wp (asm_remove_front a) (fun '(a', n) =>
    asm_wf a' /\ length a' = length a /\ front_run (covered a) n a').
Proof.
  intros Hwf. pose proof Hwf as (cs & k & -> & Hok & Hsp & Hne & Hlen).
  rewrite asm_remove_front_spec by auto. unfold front_run. destruct cs as [|c cs]; cbn [wp].
  { repeat split; auto; try lia; [by rewrite covered_pad|]. intros x Hx. by rewrite Z.add_0_r. }
  destruct (ctotal_range true c cs) as (? & ? & ? & ? & ?); auto. pose proof Hok as (_ & Hd & Hok').
  destruct (hole_size c =? 0) eqn:Eh.
  - split; [|split; [rewrite !length_pad; cbn [length]; lia|]].
    + exists cs, (S k). repeat split; auto using contigs_ok_weaken; try lia.
      * unfold pad. by destruct cs.
      * unfold Zlen in *. rewrite length_pad in *. cbn [length] in *. lia.
    + split; [lia|]. change (pad k (c :: cs)) with (c :: pad k cs). cbn [covered].
      unfold ctotal. split; [intros; lia|]. split.
      * replace (data_size c - (hole_size c + data_size c)) with 0 by lia.
        rewrite covered_pad, covered_0_false by done. lia.
      * intros x Hx. replace (x + data_size c - (hole_size c + data_size c)) with x by lia.
        rewrite !covered_pad. destruct (covered cs x); lia.
  - repeat split; auto; try lia.
    + rewrite covered_pad. apply covered_0_false. cbn. repeat split; auto. lia.
    + intros x Hx. by rewrite Z.add_0_r.
Qed.

Lemma refit_Ok k cs cs' :
  (length cs' <= length (pad k cs))%nat ->
  refit k cs cs' = (pad (length (pad k cs) - length cs') cs', Ok tt).
Proof. intros. unfold refit. by rewrite decide_True. Qed.

(** A range at offset 0 that reaches past the first hole needs no new entry. *)
Lemma add_ref_0_fits k cs c0 size :
  contigs_ok true cs -> pad k cs <> [] -> index (pad k cs) 0 = Ret c0 ->
  (size <? hole_size c0) = false ->
  (length (add_ref cs 0 size) <= length (pad k cs))%nat.
Proof.
  intros Hok Hne Hc0 Hs. rewrite length_pad. destruct cs as [|c cs]; cbn [add_ref].
  - destruct k; [done|]. cbn. lia.
  - injection Hc0 as ->. destruct Hok as (Hh & Hd & Hok). unfold ctotal.
    replace (0 <=? hole_size c0 + data_size c0) with true by lia.
    replace (0 + size <? hole_size c0) with false by lia. cbn [length].
    destr_if.
    + destruct (merge_ref_ok true (mkContig 0 (hole_size c0 + data_size c0 - 0)) cs (0 + size))
        as (_ & Hm & _); cbn [hole_size data_size]; auto; lia.
    + destruct (merge_ref_ok true c0 cs (0 + size)) as (_ & Hm & _); auto; lia.
Qed.

Lemma asm_add_then_remove_front_ok (a : Assembler) (offset size : Z) :
  asm_wf a -> 0 <= offset -> 0 <= size -> offset + size <= isize_max ->
  let u x := covered a x || ((offset <=? x) && (x <? offset + size)) in
  wp (asm_add_then_remove_front a offset size) (fun '(a', r) =>
    asm_wf a' /\ length a' = length a /\
    match r with
    | Ok n => front_run u n a'
    | Err _ => a' = a /\ Forall (fun c => has_data c = true) a
    end).
Proof.
  intros Hwf Ho Hs He u. destruct (asm_front_wf a Hwf) as (c0 & Hc0 & Hh0 & Hd0).
  unfold asm_add_then_remove_front. rewrite Hc0, bind_Ret.
  destruct ((offset =? 0) && (size <? hole_size c0)) eqn:E.
  - pose proof Hwf as (cs & k & -> & Hok & Hsp & Hne & Hlen).
    destruct cs as [|c cs]; [destruct k; [done|]; injection Hc0 as <-; cbn [hole_size contig_empty] in E; lia|].
    injection Hc0 as <-. rewrite usize_sub_ok, bind_Ret by mlia.
    assert (offset = 0) as -> by lia.
    destruct (asm_shrink_front_ok c cs k size Hwf Hok ltac:(lia)) as [Hwf' Hrun].
    rewrite (index_set_mid [] (pad k cs) c _ 0 eq_refl : index_set (pad k (c :: cs)) 0 _ = _), bind_Ret.
    split; [exact Hwf'|]. split; [done|]. exact Hrun.
  - eapply wp_bind_mono; [exact (asm_add_ok a offset size Hwf Ho Hs He)|].
    intros [a1 [?|?]] (Hwf1 & Hl1 & Hcov); [|cbn; auto].
    eapply wp_bind_mono; [exact (asm_remove_front_run a1 Hwf1)|].
    intros [a2 n] (Hwf2 & Hl2 & Hr1 & Hr2 & Hr3 & Hr4). cbn [wp].
    split; [done|]. split; [congruence|]. unfold front_run, u. setoid_rewrite <- Hcov. auto.
Qed.

(** ** Properties *)

(** [add] on a well-formed assembler never panics; on success exactly the offsets of the
    range become present and the invariant is kept; on failure the assembler is unchanged
    and every one of its entries is in use. *)
Theorem asm_add_spec (a : Assembler) (offset size : Z) :
  asm_wf a -> 0 <= offset -> 0 <= size -> offset + size <= isize_max ->
  wp (asm_add a offset size) (fun '(a', r) =>
    asm_wf a' /\ length a' = length a /\
    match r with
    | Ok _ => forall x, covered a' x = covered a x || ((offset <=? x) && (x <? offset + size))
    | Err _ => a' = a /\ Forall (fun c => has_data c = true) a
    end).
Proof. apply asm_add_ok. Qed.

(** C38: [add] on the array computes the reference insertion on the list of contigs that hold
    data whenever the result fits the array, and fails otherwise. *)
Theorem asm_add_refines_ref (cs : list Contig) (k : nat) (offset size : Z) :
  asm_wf (pad k cs) -> contigs_ok true cs ->
  0 <= offset -> 0 < size -> offset + size <= isize_max ->
  asm_add (pad k cs) offset size = Ret (refit k cs (add_ref cs offset size)).
Proof.
  intros (cs' & k' & E & Hok' & Hsp & _ & Hlen) Hok Ho Hs He. apply asm_add_pad; auto.
  assert (Hspan : span (pad k cs) = span (pad k' cs')) by (by rewrite E).
  unfold pad in Hspan. rewrite !span_app, !span_replicate in Hspan. lia.
Qed.

(** [add_then_remove_front] never panics on a well-formed assembler.  With [u] the offsets
    present before or in the range, the number [n] it returns is the length of the run of
    present offsets at the front, and the offsets past that run are kept, moved by [n]. *)
Theorem asm_add_then_remove_front_spec (a : Assembler) (offset size : Z) :
  asm_wf a -> 0 <= offset -> 0 <= size -> offset + size <= isize_max ->
  let u x := covered a x || ((offset <=? x) && (x <? offset + size)) in
  wp (asm_add_then_remove_front a offset size) (fun '(a', r) =>
    asm_wf a' /\ length a' = length a /\
    match r with
    | Ok n => front_run u n a'
    | Err _ => a' = a /\ Forall (fun c => has_data c = true) a
    end).
Proof. apply asm_add_then_remove_front_ok. Qed.

(** As its comment promises, [add_then_remove_front] never fails for a range at offset 0,
    however full the assembler is, so the next expected segment is never dropped. *)
Theorem asm_add_then_remove_front_0_ok (a : Assembler) (size : Z) :
  asm_wf a -> 0 <= size <= isize_max ->
  wp (asm_add_then_remove_front a 0 size) (fun '(_, r) => is_ok r = true).
Proof.
  intros Hwf Hs. pose proof Hwf as (cs & k & -> & Hok & Hsp & Hne & Hlen).
  destruct (asm_front_wf _ Hwf) as (c0 & Hc0 & Hh0 & Hd0).
  unfold asm_add_then_remove_front. rewrite Hc0, bind_Ret. rewrite Z.eqb_refl. cbn [andb].
  destr_if.
  - rewrite usize_sub_ok, bind_Ret by mlia. rewrite index_set_ok; [done|].
    unfold Zlen. destruct (pad k cs); [done|cbn; lia].
  - destruct (Z.eq_dec size 0) as [->|Hsz].
    { unfold asm_add. cbn [Z.eqb]. rewrite bind_Ret.
      eapply wp_bind_mono; [exact (asm_remove_front_run _ Hwf)|]. by intros [? ?] _. }
    rewrite asm_add_pad by (auto; lia). rewrite bind_Ret.
    destruct (add_ref_ok true cs 0 size) as (Hok' & Hl' & Hsp' & _); auto; [lia|lia|].
    destruct (refit_wf k cs (add_ref cs 0 size)) as (Hwf' & _);
      auto using add_ref_nonempty; [lia|].
    pose proof (add_ref_0_fits k cs c0 size Hok Hne Hc0 Hif) as Hfit.
    rewrite refit_Ok in Hwf' by done. rewrite refit_Ok by done. cbn [fst] in Hwf'.
    eapply wp_bind_mono; [exact (asm_remove_front_run _ Hwf')|]. by intros [? ?] _.
Qed.

(** ** Concrete instances *)

(** Four entries, two of them in use: data at [2,5) and [9,10). *)
Definition asm_example : Assembler := pad 2 [mkContig 2 3; mkContig 4 1].

Lemma asm_example_wf : asm_wf asm_example.
Proof.
  exists [mkContig 2 3; mkContig 4 1], 2%nat.
  cbn. unfold Zlen, asm_example; cbn. unfold_max. repeat split; try done; lia.
Qed.

Lemma asm_add_spec_witness :
  asm_add asm_example 4 6 = Ret (pad 3 [mkContig 2 8], Ok tt) /\
  wp (asm_add asm_example 4 6) (fun '(a', r) =>
    asm_wf a' /\ length a' = length asm_example /\
    match r with
    | Ok _ => forall x, covered a' x = covered asm_example x || ((4 <=? x) && (x <? 4 + 6))
    | Err _ => a' = asm_example /\ Forall (fun c => has_data c = true) asm_example
    end).
Proof. split; [reflexivity|]. apply (asm_add_spec asm_example 4 6); [apply asm_example_wf | mlia..]. Defined.

Lemma asm_add_refines_ref_witness :
  asm_add asm_example 0 1 = Ret (refit 2 [mkContig 2 3; mkContig 4 1] [mkContig 0 1; mkContig 1 3; mkContig 4 1]).
Proof.
  apply (asm_add_refines_ref [mkContig 2 3; mkContig 4 1] 2 0 1);
    [apply asm_example_wf | cbn; lia | mlia..].
Defined.

Lemma asm_add_then_remove_front_spec_witness :
  asm_add_then_remove_front asm_example 0 3 = Ret (pad 3 [mkContig 4 1], Ok 5) /\
  wp (asm_add_then_remove_front asm_example 0 3) (fun '(a', r) =>
    asm_wf a' /\ length a' = length asm_example /\
    match r with
    | Ok n => front_run (fun x => covered asm_example x || ((0 <=? x) && (x <? 0 + 3))) n a'
    | Err _ => a' = asm_example /\ Forall (fun c => has_data c = true) asm_example
    end).
Proof.
  split; [reflexivity|].
  apply (asm_add_then_remove_front_spec asm_example 0 3); [apply asm_example_wf | mlia..].
Defined.

Lemma asm_add_then_remove_front_0_ok_witness :
  wp (asm_add_then_remove_front asm_example 0 7) (fun '(_, r) => is_ok r = true).
Proof. apply (asm_add_then_remove_front_0_ok asm_example 7); [apply asm_example_wf | mlia]. Defined.
