(* ===== verification/PacketBuffer.v ===== *)
(** * Packet buffers (storage/packet_buffer.rs)

    A [PacketBuffer] keeps a ring of packet descriptions and a ring of payload bytes.  The
    payload of one packet is contiguous in the storage; when it would not fit before the
    end of the storage, a padding entry covers the rest.  The abstract value of a buffer is
    the list of its packets, [pb_packets]. *)

From S2P Require Import Prelude RingBuffer.

Record PacketMetadata (H : Type) : Type := mkPacketMetadata { pm_size : Z; pm_header : option H }.
Arguments mkPacketMetadata {H} _ _.
Arguments pm_size {H} _.
Arguments pm_header {H} _.

Record PacketBuffer (H : Type) : Type := mkPacketBuffer {
  metadata_ring : RingBuffer (PacketMetadata H);
  payload_ring : RingBuffer Z;
}.
Arguments mkPacketBuffer {H} _ _.
Arguments metadata_ring {H} _.
Arguments payload_ring {H} _.

(** [*r = x] for a reference [r] into the storage of a ring. *)
Definition rb_assign {T} (rb : RingBuffer T) (pos : Z) (x : T) : res (RingBuffer T) :=
  st ← index_set (rb_storage rb) pos x;
  Ret (mkRingBuffer st (rb_read_at rb) (rb_length rb)).

(** [r.copy_from_slice(data)] for a reference to a range of the storage of a ring. *)
Definition rb_fill {T} (rb : RingBuffer T) (pos : Z) (data : list T) : res (RingBuffer T) :=
  st ← copy_into (rb_storage rb) pos data;
  Ret (mkRingBuffer st (rb_read_at rb) (rb_length rb)).

Section PacketBuffer.
Context {H : Type}.
Implicit Types pb : PacketBuffer H.

Definition pm_empty : PacketMetadata H := mkPacketMetadata 0 None.
Definition pm_padding (size : Z) : PacketMetadata H := mkPacketMetadata size None.
Definition pm_packet (size : Z) (header : H) : PacketMetadata H := mkPacketMetadata size (Some header).
Definition pm_is_padding (m : PacketMetadata H) : bool :=
  match pm_header m with None => true | Some _ => false end.

Definition pb_new (metadata_storage : list (PacketMetadata H)) (payload_storage : list Z) : PacketBuffer H :=
  mkPacketBuffer (rb_new metadata_storage) (rb_new payload_storage).

Definition pb_is_empty pb : bool := rb_is_empty (metadata_ring pb).
Definition pb_is_full pb : res bool := rb_is_full (metadata_ring pb).

(** [*self.metadata_ring.enqueue_one()? = m]. *)
Definition pb_push_metadata pb (m : PacketMetadata H) : res (PacketBuffer H * result unit Full) :=
  '(meta, r) ← rb_enqueue_one (metadata_ring pb);
  match r with
  | Err e => Ret (mkPacketBuffer meta (payload_ring pb), Err e)
  | Ok pos =>
      meta ← rb_assign meta pos m;
      Ret (mkPacketBuffer meta (payload_ring pb), Ok tt)
  end.

(** The padding step shared by [enqueue] and [enqueue_with_infallible]: make room for a
    contiguous range of [size] bytes, or fail. *)
Definition pb_make_room pb (size : Z) : res (PacketBuffer H * result unit Full) :=
  window ← rb_window (payload_ring pb);
  contig_window ← rb_contiguous_window (payload_ring pb);
  if window <? size then Ret (pb, Err FullErr)
  else if contig_window <? size then
    w ← usize_sub window contig_window;
    if w <? size then Ret (pb, Err FullErr)
    else
      '(pb, r) ← pb_push_metadata pb (pm_padding contig_window);
      match r with
      | Err e => Ret (pb, Err e)
      | Ok _ =>
          '(payload, _) ← rb_enqueue_many (payload_ring pb) contig_window;
          Ret (mkPacketBuffer (metadata_ring pb) payload, Ok tt)
      end
  else Ret (pb, Ok tt).

(** Returns the position and length of the payload slice of the new packet. *)
Definition pb_enqueue pb (size : Z) (header : H) : res (PacketBuffer H * result (Z * Z) Full) :=
  full ← rb_is_full (metadata_ring pb);
  if (rb_capacity (payload_ring pb) <? size) || (full : bool) then Ret (pb, Err FullErr)
  else
    let pb := if rb_is_empty (payload_ring pb)
              then mkPacketBuffer (metadata_ring pb) (rb_clear (payload_ring pb)) else pb in
    '(pb, r) ← pb_make_room pb size;
    match r with
    | Err e => Ret (pb, Err e)
    | Ok _ =>
        '(pb, r) ← pb_push_metadata pb (pm_packet size header);
        match r with
        | Err e => Ret (pb, Err e)
        | Ok _ =>
            '(payload, (pos, len)) ← rb_enqueue_many (payload_ring pb) size;
            _ ← passert (len =? size);
            Ret (mkPacketBuffer (metadata_ring pb) payload, Ok (pos, len))
        end
    end.

(** [f] gets the [max_size] bytes it may fill, and returns their new values and the size used. *)
Definition pb_enqueue_with_infallible pb (max_size : Z) (header : H) (f : list Z -> list Z * Z)
  : res (PacketBuffer H * result Z Full) :=
  full ← rb_is_full (metadata_ring pb);
  if (rb_capacity (payload_ring pb) <? max_size) || (full : bool) then Ret (pb, Err FullErr)
  else
    '(pb, r) ← pb_make_room pb max_size;
    match r with
    | Err e => Ret (pb, Err e)
    | Ok _ =>
        '(payload, size, _) ← rb_enqueue_many_with (payload_ring pb) (fun _ data =>
           d ← slice data 0 max_size;
           let '(d', size) := f d in Ret (splice data 0 d', size, tt));
        let pb := mkPacketBuffer (metadata_ring pb) payload in
        '(pb, r) ← pb_push_metadata pb (pm_packet size header);
        match r with
        | Err e => Ret (pb, Err e)
        | Ok _ => Ret (pb, Ok size)
        end
    end.

(** The closure also takes the bytes of the padding off the payload ring. *)
Definition pb_dequeue_padding pb : res (PacketBuffer H) :=
  '(meta, r) ← rb_dequeue_one_with (R := RingBuffer Z) (E := unit) (metadata_ring pb) (fun _ m =>
     if pm_is_padding m then
       '(payload, _) ← rb_dequeue_many (payload_ring pb) (pm_size m);
       Ret (m, Ok payload)
     else Ret (m, Err tt));
  Ret (mkPacketBuffer meta (match r with Ok (Ok payload) => payload | _ => payload_ring pb end)).

(** [f] gets the header and the payload of the first packet, returns what it leaves there,
    and decides by its result whether the packet is dequeued. *)
Definition pb_dequeue_with {R E} pb (f : H -> list Z -> res (H * list Z * result R E))
  : res (PacketBuffer H * result (result R E) Empty) :=
  pb ← pb_dequeue_padding pb;
  '(meta, r) ← rb_dequeue_one_with (R := R * RingBuffer Z) (E := E * RingBuffer Z) (metadata_ring pb) (fun _ m =>
     '(payload, _, (h', r)) ← rb_dequeue_many_with (payload_ring pb) (fun _ payload_buf =>
        _ ← passert (pm_size m <=? Zlen payload_buf);
        match pm_header m with
        | None => Panic
        | Some h =>
            d ← slice payload_buf 0 (pm_size m);
            '(h', d', r) ← f h d;
            Ret (splice payload_buf 0 d', (if is_ok r then pm_size m else 0), (h', r))
        end);
     Ret (mkPacketMetadata (pm_size m) (Some h'),
          match r with Ok v => Ok (v, payload) | Err e => Err (e, payload) end));
  Ret (match r with
       | Err e => (mkPacketBuffer meta (payload_ring pb), Err e)
       | Ok (Ok (v, payload)) => (mkPacketBuffer meta payload, Ok (Ok v))
       | Ok (Err (e, payload)) => (mkPacketBuffer meta payload, Ok (Err e))
       end).

(** Returns the header and the bytes of the payload slice. *)
Definition pb_dequeue pb : res (PacketBuffer H * result (H * list Z) Empty) :=
  pb ← pb_dequeue_padding pb;
  '(meta, r) ← rb_dequeue_one (metadata_ring pb);
  match r with
  | Err e => Ret (mkPacketBuffer meta (payload_ring pb), Err e)
  | Ok mpos =>
      m ← index (rb_storage meta) mpos;
      '(payload, (pos, len)) ← rb_dequeue_many (payload_ring pb) (pm_size m);
      _ ← passert (len =? pm_size m);
      match pm_header m with
      | None => Panic
      | Some h =>
          meta ← rb_assign meta mpos (mkPacketMetadata (pm_size m) None);
          bytes ← slice (rb_storage payload) pos (pos + len);
          Ret (mkPacketBuffer meta payload, Ok (h, bytes))
      end
  end.

Definition pb_peek pb : res (PacketBuffer H * result (H * list Z) Empty) :=
  pb ← pb_dequeue_padding pb;
  ms ← rb_get_allocated (metadata_ring pb) 0 1;
  match ms with
  | [] => Ret (pb, Err EmptyErr)
  | m :: _ =>
      match pm_header m with
      | None => Panic
      | Some h =>
          bytes ← rb_get_allocated (payload_ring pb) 0 (pm_size m);
          Ret (pb, Ok (h, bytes))
      end
  end.

Definition pb_packet_capacity pb : Z := rb_capacity (metadata_ring pb).
Definition pb_payload_capacity pb : Z := rb_capacity (payload_ring pb).
Definition pb_payload_bytes_count pb : Z := rb_len (payload_ring pb).

Definition pb_reset pb : PacketBuffer H :=
  mkPacketBuffer (rb_clear (metadata_ring pb)) (rb_clear (payload_ring pb)).

(** ** Invariant and abstraction *)

Definition sizes (ms : list (PacketMetadata H)) : Z := foldr (fun m n => pm_size m + n) 0 ms.

(** The packets described by [ms] over the bytes [bs]; padding describes none. *)
Fixpoint pb_split (ms : list (PacketMetadata H)) (bs : list Z) : list (H * list Z) :=
  match ms with
  | [] => []
  | m :: ms =>
      match pm_header m with
      | Some h => (h, take (Z.to_nat (pm_size m)) bs) :: pb_split ms (drop (Z.to_nat (pm_size m)) bs)
      | None => pb_split ms (drop (Z.to_nat (pm_size m)) bs)
      end
  end.

Definition pb_packets pb : list (H * list Z) :=
  pb_split (rb_contents (metadata_ring pb)) (rb_contents (payload_ring pb)).

(** Every entry is contiguous in a storage of [cap] bytes, the first one at position [p]. *)
Fixpoint aligned (cap p : Z) (ms : list (PacketMetadata H)) : Prop :=
  match ms with
  | [] => True
  | m :: ms => 0 <= pm_size m /\ p + pm_size m <= cap /\ aligned cap ((p + pm_size m) mod cap) ms
  end.

(** No two paddings follow each other, and none is empty. *)
Fixpoint pad_sep (ms : list (PacketMetadata H)) : Prop :=
  match ms with
  | [] => True
  | m :: ms =>
      (pm_is_padding m = true -> 0 < pm_size m) /\
      match ms with
      | m' :: _ => pm_is_padding m && pm_is_padding m' = false
      | [] => True
      end /\ pad_sep ms
  end.

(** Whether the last entry is a padding. *)
Definition last_padding (ms : list (PacketMetadata H)) : bool :=
  match ms !! pred (length ms) with Some m => pm_is_padding m | None => false end.

(** The two rings describe the same bytes; a padding at the end leaves the write position at
    the start of the storage, so that no second padding can follow it. *)
Definition pb_wf pb : Prop :=
  let ms := rb_contents (metadata_ring pb) in
  let payload := payload_ring pb in
  rb_wf (metadata_ring pb) /\ rb_wf payload /\
  sizes ms = rb_length payload /\
  aligned (rb_capacity payload) (rb_read_at payload) ms /\
  pad_sep ms /\
  (last_padding ms = true -> rb_length payload = 0 \/ rb_pos payload (rb_length payload) = 0).

(** ** Lemmas *)

Lemma sizes_app ms ms' : sizes (ms ++ ms') = sizes ms + sizes ms'.
Proof. unfold sizes. induction ms; cbn; lia. Qed.

Lemma sizes_cons m ms : sizes (m :: ms) = pm_size m + sizes ms.
Proof. reflexivity. Qed.

Abbreviation sizes_pos ms := (Forall (fun m : PacketMetadata H => 0 <= pm_size m) ms).

Lemma sizes_nonneg ms : sizes_pos ms -> 0 <= sizes ms.
Proof. induction 1; [done|]. rewrite sizes_cons. lia. Qed.

Lemma aligned_pos cap p ms : aligned cap p ms -> sizes_pos ms.
Proof.
  revert p. induction ms as [|m ms IH]; intros p; [constructor|]. intros (? & _ & Hal).
  constructor; eauto.
Qed.

Lemma pb_split_app ms ms' bs :
  sizes_pos ms -> sizes ms <= Zlen bs ->
  pb_split (ms ++ ms') bs = pb_split ms bs ++ pb_split ms' (drop (Z.to_nat (sizes ms)) bs).
Proof.
  intros Hpos. revert bs. induction Hpos as [|m ms Hm Hpos IH]; intros bs Hb; cbn [app pb_split]; [done|].
  rewrite sizes_cons in *. pose proof (sizes_nonneg _ Hpos).
  rewrite IH by (unfold Zlen in *; rewrite length_drop; lia).
  rewrite drop_drop, Z2Nat.inj_add by lia. by destruct (pm_header m).
Qed.

(** Bytes past those described do not matter. *)
Lemma pb_split_ext ms bs bs' :
  sizes_pos ms -> sizes ms <= Zlen bs -> pb_split ms (bs ++ bs') = pb_split ms bs.
Proof.
  intros Hpos. revert bs. induction Hpos as [|m ms Hm Hpos IH]; intros bs Hb; cbn [pb_split]; [done|].
  rewrite sizes_cons in *. pose proof (sizes_nonneg _ Hpos).
  rewrite take_app_le, drop_app_le by (unfold Zlen in *; lia).
  rewrite IH by (unfold Zlen in *; rewrite length_drop; lia). done.
Qed.

(** A position of a storage of [cap] bytes. *)
Definition pos_in (cap p : Z) : Prop := 0 <= p /\ (p < cap \/ (cap = 0 /\ p = 0)).

Lemma pos_in_mod cap p : pos_in cap p -> p mod cap = p.
Proof.
  intros [Hp [Hlt|[-> ->]]]; [by apply Z.mod_small | done].
Qed.

Lemma mod_pos_in cap p : 0 <= cap -> 0 <= p -> (cap = 0 -> p = 0) -> pos_in cap (p mod cap).
Proof.
  intros Hc Hp H0. unfold pos_in. destruct (Z.eq_dec cap 0) as [->|E].
  - rewrite (H0 eq_refl), Z.mod_0_r. lia.
  - pose proof (Z.mod_pos_bound p cap). lia.
Qed.

Lemma aligned_app cap p ms ms' :
  0 <= cap -> pos_in cap p ->
  aligned cap p (ms ++ ms') <-> aligned cap p ms /\ aligned cap ((p + sizes ms) mod cap) ms'.
Proof.
  intros Hc. revert p. induction ms as [|m ms IH]; intros p Hp; cbn [app aligned].
  - change (sizes []) with 0. rewrite Z.add_0_r, pos_in_mod by done. tauto.
  - rewrite sizes_cons.
    assert (Heq : 0 <= pm_size m -> p + pm_size m <= cap ->
      (((p + pm_size m) mod cap) + sizes ms) mod cap = (p + (pm_size m + sizes ms)) mod cap).
    { intros. rewrite Z.add_assoc. destruct (Z.eq_dec cap 0) as [->|E]; [by rewrite !Z.mod_0_r|].
      apply Zplus_mod_idemp_l. }
    split.
    + intros (H1 & H2 & H3). apply IH in H3; [|apply mod_pos_in; unfold pos_in in *; lia].
      rewrite Heq in H3 by done. tauto.
    + intros ((H1 & H2 & H3) & H4). split; [done|]. split; [done|].
      apply IH; [apply mod_pos_in; unfold pos_in in *; lia|]. rewrite Heq by done. done.
Qed.

Lemma pad_sep_snoc ms m :
  pad_sep (ms ++ [m]) <->
  pad_sep ms /\ last_padding ms && pm_is_padding m = false /\ (pm_is_padding m = true -> 0 < pm_size m).
Proof.
  induction ms as [|m1 ms IH]; cbn [app pad_sep]; [cbn; tauto|].
  destruct ms as [|m2 ms]; [cbn in *; tauto|].
  change ((m2 :: ms) ++ [m]) with (m2 :: ms ++ [m]) in *. rewrite IH.
  replace (last_padding (m1 :: m2 :: ms)) with (last_padding (m2 :: ms)) by done.
  cbn [pad_sep]. tauto.
Qed.

Lemma last_padding_snoc ms m : last_padding (ms ++ [m]) = pm_is_padding m.
Proof.
  unfold last_padding. rewrite length_app. cbn [length]. rewrite Nat.add_1_r. cbn [pred].
  by rewrite list_lookup_middle.
Qed.

Lemma rb_pos_in {T} (rb : RingBuffer T) : rb_wf rb -> pos_in (rb_capacity rb) (rb_read_at rb).
Proof. intros (? & ? & ? & ?). unfold pos_in. lia. Qed.

Lemma rb_pos_mod {T} (rb : RingBuffer T) k :
  rb_wf rb -> 0 <= k <= rb_capacity rb -> rb_pos rb k = (rb_read_at rb + k) mod rb_capacity rb.
Proof.
  intros (? & ? & ? & ?) Hk. unfold rb_pos. destr_if; [|done].
  apply Z.eqb_eq in Hif. rewrite Hif, Z.mod_0_r. lia.
Qed.

Lemma rb_pos_eq {T} (rb rb' : RingBuffer T) k :
  rb_capacity rb' = rb_capacity rb -> rb_read_at rb' = rb_read_at rb -> rb_pos rb' k = rb_pos rb k.
Proof. unfold rb_pos. by intros -> ->. Qed.

(** The invariant but for the position behind a padding at the end. *)
Definition pb_described pb : Prop :=
  let ms := rb_contents (metadata_ring pb) in
  let payload := payload_ring pb in
  rb_wf (metadata_ring pb) /\ rb_wf payload /\
  sizes ms = rb_length payload /\
  aligned (rb_capacity payload) (rb_read_at payload) ms /\
  pad_sep ms.

Lemma pb_wf_described pb : pb_wf pb -> pb_described pb.
Proof. by intros (? & ? & ? & ? & ? & _). Qed.

(** Appending one entry and its bytes keeps it. *)
Lemma pb_described_append pb meta' payload' m xs :
  let payload := payload_ring pb in
  let ms := rb_contents (metadata_ring pb) in
  pb_described pb -> rb_wf meta' -> rb_contents meta' = ms ++ [m] ->
  rb_wf payload' -> rb_capacity payload' = rb_capacity payload ->
  rb_read_at payload' = rb_read_at payload ->
  rb_contents payload' = rb_contents payload ++ xs -> pm_size m = Zlen xs ->
  rb_pos payload (rb_length payload) + Zlen xs <= rb_capacity payload ->
  (pm_is_padding m = true -> last_padding ms = false /\ 0 < Zlen xs) ->
  pb_described (mkPacketBuffer meta' payload') /\
  pb_packets (mkPacketBuffer meta' payload') =
    pb_packets pb ++ match pm_header m with Some h => [(h, xs)] | None => [] end.
Proof.
  intros payload ms (Hmw & Hpw & Hsz & Hal & Hsep) Hmw' Hmc Hpw' Hcap Hrd Hpc Hm Hpos Hpad.
  fold ms payload in Hmw, Hpw, Hsz, Hal, Hsep.
  pose proof (Zlen_contents payload Hpw) as Hl. pose proof (Zlen_contents payload' Hpw') as Hl'.
  rewrite Hpc, Zlen_app, Hl in Hl'. pose proof (Zlen_nonneg xs).
  pose proof (aligned_pos _ _ _ Hal) as Hsp.
  pose proof Hpw as (? & ? & _). pose proof Hpw' as (? & ? & _).
  split.
  - unfold pb_described. cbn [metadata_ring payload_ring]. rewrite Hmc, Hcap, Hrd.
    split; [done|]. split; [done|]. split; [rewrite sizes_app; cbn; lia|]. split.
    + apply aligned_app; [lia | apply rb_pos_in; done |]. split; [done|]. cbn [aligned].
      rewrite Hsz, <- rb_pos_mod by (auto; lia). lia.
    + apply pad_sep_snoc. split; [done|]. destruct (pm_is_padding m); [|split; [apply andb_false_r|done]].
      destruct Hpad as (-> & ?); [done|]. split; [done|]. lia.
  - unfold pb_packets. cbn [metadata_ring payload_ring]. rewrite Hmc, Hpc. fold ms payload.
    rewrite pb_split_app by (auto; rewrite Zlen_app; lia).
    rewrite pb_split_ext by (auto; lia). f_equal. cbn [pb_split].
    rewrite drop_app_ge by (unfold Zlen in *; lia).
    replace (Z.to_nat (sizes ms) - length (rb_contents payload))%nat with 0%nat by (unfold Zlen in *; lia).
    rewrite drop_0, Hm. destruct (pm_header m); [|done].
    rewrite firstn_all2 by (unfold Zlen; lia). done.
Qed.

(** Appending one entry and its bytes keeps the invariant. *)
Lemma pb_wf_append pb meta' payload' m xs :
  let payload := payload_ring pb in
  let ms := rb_contents (metadata_ring pb) in
  pb_described pb -> rb_wf meta' -> rb_contents meta' = ms ++ [m] ->
  rb_wf payload' -> rb_capacity payload' = rb_capacity payload ->
  rb_read_at payload' = rb_read_at payload ->
  rb_contents payload' = rb_contents payload ++ xs -> pm_size m = Zlen xs ->
  rb_pos payload (rb_length payload) + Zlen xs <= rb_capacity payload ->
  (pm_is_padding m = true -> last_padding ms = false /\ 0 < rb_capacity payload /\
     rb_pos payload (rb_length payload) + Zlen xs = rb_capacity payload) ->
  pb_wf (mkPacketBuffer meta' payload') /\
  pb_packets (mkPacketBuffer meta' payload') =
    pb_packets pb ++ match pm_header m with Some h => [(h, xs)] | None => [] end.
Proof.
  intros payload ms Hd Hmw' Hmc Hpw' Hcap Hrd Hpc Hm Hpos Hpad. pose proof Hd as (_ & Hpw & _). fold payload in Hpw.
  pose proof Hpw as (? & ? & ? & ?).
  destruct (pb_described_append pb meta' payload' m xs) as ((? & ? & ? & ? & ?) & Hpk); try done.
  { intros Hp. destruct (Hpad Hp) as (? & ? & ?). split; [done|].
    destruct (rb_pos_cases payload (rb_length payload) Hpw) as [[? ?]|[? ?]]; lia. }
  split; [|done]. unfold pb_wf. cbn [metadata_ring payload_ring] in *. split_and!; try done.
  rewrite Hmc, last_padding_snoc. intros Hp. destruct (Hpad Hp) as (_ & Hc & He). right.
  pose proof (Zlen_contents payload' Hpw') as Hl'. rewrite Hpc, Zlen_app, Zlen_contents in Hl' by done. pose proof (Zlen_nonneg xs).
  rewrite <- Hl', (rb_pos_eq payload) by done. pose proof Hpw' as (? & ? & _). apply rb_pos_add_end; auto; lia.
Qed.

Lemma pb_push_metadata_ok pb m :
  rb_wf (metadata_ring pb) ->
  (rb_length (metadata_ring pb) = rb_capacity (metadata_ring pb) /\
   pb_push_metadata pb m = Ret (pb, Err FullErr)) \/
  (rb_length (metadata_ring pb) < rb_capacity (metadata_ring pb) /\
   exists meta', pb_push_metadata pb m = Ret (mkPacketBuffer meta' (payload_ring pb), Ok tt) /\
     rb_wf meta' /\ rb_contents meta' = rb_contents (metadata_ring pb) ++ [m] /\
     rb_capacity meta' = rb_capacity (metadata_ring pb)).
Proof.
  intros Hwf. unfold pb_push_metadata, rb_enqueue_one. set (meta := metadata_ring pb) in *.
  pose proof Hwf as (? & ? & ? & ?).
  destruct (Z.eq_dec (rb_length meta) (rb_capacity meta)) as [E|E]; [left|right].
  - split; [done|]. unfold rb_enqueue_one_with, rb_is_full. rewrite rb_window_ok, !bind_Ret by done.
    replace (rb_capacity meta - rb_length meta =? 0) with true by lia. by destruct pb.
  - split; [lia|]. set (p := rb_pos meta (rb_length meta)).
    assert (Hp : 0 <= p < rb_capacity meta)
      by (destruct (rb_pos_cases meta (rb_length meta)) as [[? Ep]|[? Ep]]; auto; try lia; fold p in Ep; lia).
    destruct (rb_enqueue_one_with_ok (E := Full) meta (fun pos x => Ret (x, Ok pos)) Hwf) as (x & Hx & Hx'); [lia|].
    destruct (Hx' _ _ eq_refl) as (He & _). fold p in He. rewrite He, !bind_Ret. cbn [is_ok].
    destruct (rb_enqueue_one_with_ok (E := Full) meta (fun pos _ => Ret (m, Ok pos)) Hwf) as (x1 & _ & Hx1); [lia|].
    destruct (Hx1 _ _ eq_refl) as (_ & Hw & Hc). fold p in Hw, Hc. cbn [is_ok] in *.
    assert (Hst : Zlen (splice (rb_storage meta) p [x]) = rb_capacity meta)
      by (apply Zlen_splice; unfold rb_capacity in *; unfold Zlen in *; cbn [length]; lia).
    unfold rb_assign. cbn [rb_storage rb_read_at rb_length].
    rewrite index_set_ok, !bind_Ret by (rewrite Hst; lia).
    rewrite splice_singleton by (unfold rb_capacity in *; lia). rewrite list_insert_insert_eq.
    rewrite <- splice_singleton by (unfold rb_capacity in *; lia).
    eexists. split; [reflexivity|]. split; [done|]. split; [done|].
    unfold rb_capacity at 1. cbn [rb_storage].
    apply Zlen_splice; unfold rb_capacity in *; unfold Zlen in *; cbn [length]; lia.
Qed.

Lemma rb_enqueue_many_ok {T} (rb : RingBuffer T) size :
  rb_wf rb -> rb_norm rb = rb -> 0 <= size <= rb_cw rb ->
  let rb' := mkRingBuffer (rb_storage rb) (rb_read_at rb) (rb_length rb + size) in
  rb_enqueue_many rb size = Ret (rb', (rb_pos rb (rb_length rb), size)) /\
  rb_wf rb' /\ rb_contents rb' = rb_contents rb ++ sub (rb_view rb) (rb_length rb) size.
Proof.
  intros Hwf Hn Hs rb'. pose proof (rb_cw_range rb Hwf) as (? & ?). pose proof Hwf as (? & ? & _).
  destruct (rb_enqueue_unallocated_ok rb size Hwf ltac:(lia)) as (_ & Hwf' & Hc). split; [|auto].
  assert (Hb : Zlen (sub (rb_view rb) (rb_length rb) (rb_cw rb)) = rb_cw rb)
    by (rewrite Zlen_sub; rewrite ?Zlen_rb_view; auto; lia).
  pose proof (rb_pos_range rb (rb_length rb) Hwf ltac:(lia)).
  unfold rb_enqueue_many.
  rewrite (rb_enqueue_many_with_ok rb _ (sub (rb_view rb) (rb_length rb) (rb_cw rb)) size
             (rb_pos rb (rb_length rb), size)); rewrite ?Hn; auto.
  - rewrite bind_Ret. unfold rb'. do 3 f_equal. rewrite <- rb_view_sub by (auto; lia).
    apply splice_same; unfold rb_capacity in *; lia.
  - rewrite Hb, Z.min_l by lia. done.
Qed.

Lemma rb_norm_nonempty {T} (rb : RingBuffer T) : rb_length rb <> 0 -> rb_norm rb = rb.
Proof. intros. unfold rb_norm. destr_if; [lia | done]. Qed.

Lemma rb_norm_read_0 {T} (rb : RingBuffer T) : rb_read_at rb = 0 -> rb_norm rb = rb.
Proof. intros E. unfold rb_norm. destr_if; [|done]. destruct rb; cbn in *. by subst. Qed.

(** The room made for a packet: the entries grow by at most a padding, the packets stay. *)
Lemma pb_make_room_ok pb size :
  pb_wf pb -> rb_norm (payload_ring pb) = payload_ring pb -> 0 <= size ->
  wp (pb_make_room pb size) (fun '(pb', r) =>
    pb_wf pb' /\ pb_packets pb' = pb_packets pb /\
    rb_capacity (payload_ring pb') = rb_capacity (payload_ring pb) /\
    (is_ok r = true -> rb_norm (payload_ring pb') = payload_ring pb' /\ size <= rb_cw (payload_ring pb'))).
Proof.
  intros Hwf Hn Hs. pose proof Hwf as (Hmw & Hpw & Hsz & Hal & Hsep & Hlast).
  pose proof Hpw as (? & ? & ? & ?). unfold pb_make_room. set (payload := payload_ring pb) in *.
  rewrite rb_window_ok, bind_Ret by done. rewrite rb_contiguous_window_ok, bind_Ret by done.
  pose proof (rb_cw_range payload Hpw) as (Hcw & Hcw').
  destruct (rb_capacity payload - rb_length payload <? size) eqn:Ew; [cbn; split_and!; auto; discriminate|].
  destruct (rb_cw payload <? size) eqn:Ecw; [|cbn; split_and!; auto; intros; split; [done|fold payload; lia]].
  rewrite usize_sub_ok, bind_Ret by mlia.
  destruct (rb_capacity payload - rb_length payload - rb_cw payload <? size) eqn:Ew2; [cbn; split_and!; auto; discriminate|].
  assert (Hcwe : rb_cw payload = rb_capacity payload - rb_pos payload (rb_length payload))
    by (unfold rb_cw in *; lia).
  assert (Hp0 : rb_length payload = 0 -> rb_pos payload (rb_length payload) = 0).
  { intros E. assert (Hr : rb_read_at payload = 0) by (rewrite <- Hn; unfold rb_norm; by rewrite E).
    destruct (rb_pos_cases payload (rb_length payload) Hpw ltac:(lia)) as [[? Ep]|[? Ep]]; lia. }
  assert (Hnl : last_padding (rb_contents (metadata_ring pb)) = false).
  { destruct (last_padding _); [|done]. destruct (Hlast eq_refl) as [E|E]; lia. }
  destruct (pb_push_metadata_ok pb (pm_padding (rb_cw payload)) Hmw) as [(_ & ->)|(_ & meta' & -> & Hw' & Hc' & _)];
    rewrite bind_Ret; [cbn; split_and!; auto; discriminate|]. cbn [metadata_ring payload_ring]. fold payload.
  destruct (rb_enqueue_many_ok payload (rb_cw payload) Hpw Hn ltac:(lia)) as (-> & Hpw' & Hpc').
  rewrite bind_Ret. cbn [wp metadata_ring payload_ring]. set (payload' := mkRingBuffer _ _ _) in *.
  assert (Hx : Zlen (sub (rb_view payload) (rb_length payload) (rb_cw payload)) = rb_cw payload)
    by (rewrite Zlen_sub; rewrite ?Zlen_rb_view; auto; lia).
  destruct (pb_wf_append pb meta' payload' (pm_padding (rb_cw payload))
    (sub (rb_view payload) (rb_length payload) (rb_cw payload))) as (Hwf' & Hpk);
    auto using pb_wf_described; fold payload; rewrite ?Hx; auto; try lia.
  { intros _. repeat split; auto; lia. }
  split; [exact Hwf'|]. split; [by rewrite Hpk, app_nil_r|]. split; [done|]. intros _.
  assert (Hn' : rb_norm payload' = payload') by (apply rb_norm_nonempty; cbn [payload' rb_length]; lia).
  split; [done|]. rewrite <- Hn'. unfold payload'. rewrite rb_cw_full by done. lia.
Qed.

(** Rewinding an empty payload ring. *)
Lemma pb_rewind_ok pb :
  pb_wf pb ->
  let pb0 := if rb_is_empty (payload_ring pb)
             then mkPacketBuffer (metadata_ring pb) (rb_clear (payload_ring pb)) else pb in
  pb_wf pb0 /\ pb_packets pb0 = pb_packets pb /\ rb_norm (payload_ring pb0) = payload_ring pb0 /\
  metadata_ring pb0 = metadata_ring pb /\ rb_capacity (payload_ring pb0) = rb_capacity (payload_ring pb).
Proof.
  intros Hwf. pose proof Hwf as (Hmw & Hpw & Hsz & Hal & Hsep & Hlast). cbv zeta.
  unfold rb_is_empty, rb_len. destruct (Z.eqb_spec (rb_length (payload_ring pb)) 0) as [E|E];
    [|auto using rb_norm_nonempty].
  assert (Hc : rb_contents (payload_ring pb) = []) by (unfold rb_contents; by rewrite E).
  split; [|split; [unfold pb_packets; cbn; by rewrite Hc|split; [by apply rb_norm_read_0|done]]].
  unfold pb_wf. cbn [metadata_ring payload_ring].
  split; [done|]. split; [by apply rb_clear_wf|]. split; [by rewrite Hsz, E|].
  split; [|split; [done|by left]].
  change (rb_capacity (rb_clear (payload_ring pb))) with (rb_capacity (payload_ring pb)).
  cbn [rb_clear rb_read_at]. pose proof (aligned_pos _ _ _ Hal) as Hsp. rewrite E in Hsz.
  clear -Hsp Hsz Hpw. destruct Hpw as ((? & ?) & _).
  revert Hsz. induction Hsp as [|m ms Hm Hms IH]; [done|]. rewrite sizes_cons.
  pose proof (sizes_nonneg _ Hms). intros. cbn [aligned].
  replace (pm_size m) with 0 by lia. rewrite Zmod_0_l. repeat split; try lia. apply IH. lia.
Qed.

(** *** Taking packets off *)

Lemma rb_pos_0 {T} (rb : RingBuffer T) : rb_wf rb -> rb_pos rb 0 = rb_read_at rb.
Proof.
  intros Hwf. pose proof Hwf as (? & ? & ? & ?).
  rewrite rb_pos_mod, Z.add_0_r by (auto; lia). apply pos_in_mod. by apply rb_pos_in.
Qed.

Lemma rb_dequeue_many_ok {T} (rb : RingBuffer T) size :
  rb_wf rb -> 0 <= size <= rb_length rb -> rb_read_at rb + size <= rb_capacity rb ->
  rb_dequeue_many rb size =
    Ret (mkRingBuffer (rb_storage rb) (rb_pos rb size) (rb_length rb - size), (rb_read_at rb, size)).
Proof.
  intros Hwf Hs Hc. pose proof Hwf as (? & ? & ? & ?). unfold rb_dequeue_many.
  set (max_size := Z.min (rb_length rb) (rb_capacity rb - rb_read_at rb)).
  assert (Hb : Zlen (sub (rb_view rb) 0 max_size) = max_size)
    by (rewrite Zlen_sub; rewrite ?Zlen_rb_view; auto; lia).
  rewrite (rb_dequeue_many_with_ok rb _ (sub (rb_view rb) 0 max_size) size (rb_read_at rb, size));
    auto; [| |fold max_size; lia].
  - rewrite bind_Ret. do 3 f_equal. rewrite <- (rb_pos_0 rb) by done.
    rewrite <- rb_view_sub by (rewrite ?rb_pos_0; auto; lia).
    apply splice_same; rewrite ?rb_pos_0 by done; unfold rb_capacity in *; lia.
  - fold max_size. rewrite Hb, Z.min_l by lia. done.
Qed.

(** Removing the first entry and its bytes. *)
Lemma pb_pop_ok pb meta' m ms payload' :
  let payload := payload_ring pb in
  pb_wf pb -> rb_contents (metadata_ring pb) = m :: ms -> rb_wf meta' -> rb_contents meta' = ms ->
  rb_wf payload' -> rb_capacity payload' = rb_capacity payload ->
  rb_read_at payload' = rb_pos payload (pm_size m) ->
  rb_length payload' = rb_length payload - pm_size m ->
  rb_contents payload' = drop (Z.to_nat (pm_size m)) (rb_contents payload) ->
  let pb' := mkPacketBuffer meta' payload' in
  pb_wf pb' /\
  pb_packets pb = match pm_header m with
                  | Some h => [(h, take (Z.to_nat (pm_size m)) (rb_contents payload))] | None => [] end
                  ++ pb_packets pb'.
Proof.
  intros payload Hwf Hms Hmw' Hmc Hpw' Hcap Hrd Hlen Hpc.
  pose proof Hwf as (Hmw & Hpw & Hsz & Hal & Hsep & Hlast). fold payload in Hpw, Hsz, Hal, Hlast.
  rewrite Hms in *. rewrite sizes_cons in Hsz. cbn [aligned pad_sep] in Hal, Hsep.
  destruct Hal as (Hm & Hmc' & Hal). pose proof (sizes_nonneg _ (aligned_pos _ _ _ Hal)).
  pose proof Hpw as (? & ? & _). split; [unfold pb_wf; cbn [metadata_ring payload_ring]|].
  - rewrite Hmc, Hcap, Hlen, Hrd. split; [done|]. split; [done|]. split; [lia|].
    split; [by rewrite rb_pos_mod by (auto; lia)|]. split; [apply Hsep|].
    intros Hl. destruct ms as [|m' ms']; [done|]. destruct Hlast as [E|E]; [done|left; lia|right].
    destruct payload' as [st rd len]. cbn in Hrd, Hlen. subst rd len.
    rewrite rb_pos_advance by done. rewrite <- E. f_equal. lia.
  - unfold pb_packets. cbn [metadata_ring payload_ring]. fold payload. rewrite Hms, Hmc, Hpc.
    cbn [pb_split]. by destruct (pm_header m).
Qed.

(** The first packet of the queue lies at the read position of the payload ring. *)
Lemma pb_first_ok pb m ms :
  let payload := payload_ring pb in
  pb_wf pb -> rb_contents (metadata_ring pb) = m :: ms ->
  0 <= pm_size m <= rb_length payload /\ rb_read_at payload + pm_size m <= rb_capacity payload /\
  sub (rb_storage payload) (rb_read_at payload) (pm_size m) =
    take (Z.to_nat (pm_size m)) (rb_contents payload).
Proof.
  intros payload (Hmw & Hpw & Hsz & Hal & _) Hms. fold payload in Hpw, Hsz, Hal.
  rewrite Hms in *. rewrite sizes_cons in Hsz. destruct Hal as (Hm & Hc & Hal).
  pose proof (sizes_nonneg _ (aligned_pos _ _ _ Hal)). pose proof Hpw as (? & ? & _).
  split; [lia|]. split; [done|].
  rewrite <- (rb_pos_0 payload) by done. rewrite rb_view_sub by (rewrite ?rb_pos_0; auto; lia).
  rewrite sub_0. unfold rb_contents. rewrite take_take. f_equal. lia.
Qed.

(** No padding at the head of the queue. *)
Definition head_packet (ms : list (PacketMetadata H)) : Prop :=
  match ms with [] => True | m :: _ => pm_header m <> None end.

Lemma pb_dequeue_padding_ok pb :
  pb_wf pb ->
  wp (pb_dequeue_padding pb) (fun pb' =>
    pb_wf pb' /\ pb_packets pb' = pb_packets pb /\ head_packet (rb_contents (metadata_ring pb'))).
Proof.
  intros Hwf. pose proof Hwf as (Hmw & Hpw & Hsz & Hal & Hsep & Hlast).
  unfold pb_dequeue_padding. set (meta := metadata_ring pb) in *.
  destruct (Z.eq_dec (rb_length meta) 0) as [E|E].
  { unfold rb_dequeue_one_with, rb_is_empty, rb_len. rewrite E. cbn [Z.eqb]. rewrite bind_Ret. cbn [wp].
    destruct pb; cbn in *. split; [done|]. split; [done|]. unfold rb_contents, meta. cbn. unfold meta in E. cbn in E.
    rewrite E. done. }
  match goal with |- context [rb_dequeue_one_with meta ?f] => set (F := f) end.
  destruct (rb_dequeue_one_with_ok meta F Hmw) as (m & Hm & HF); [destruct Hmw; lia|].
  destruct (pb_first_ok pb m (drop 1 (rb_contents meta)) Hwf Hm) as (Hms & Hmc & _).
  destruct (pm_is_padding m) eqn:Ep.
  - assert (HFm : F (rb_read_at meta) m = Ret (m, Ok (mkRingBuffer (rb_storage (payload_ring pb))
      (rb_pos (payload_ring pb) (pm_size m)) (rb_length (payload_ring pb) - pm_size m)))).
    { unfold F. rewrite Ep. rewrite rb_dequeue_many_ok by (auto; lia). done. }
    destruct (HF _ _ HFm) as (He & Hw & Hc). rewrite He, bind_Ret. cbn [wp is_ok] in *.
    destruct (rb_advance_contents (payload_ring pb) (pm_size m) Hpw Hms) as (Hpw' & Hpc' & _).
    edestruct (pb_pop_ok pb _ m (drop 1 (rb_contents meta)) _ Hwf Hm Hw Hc Hpw') as (Hwf' & Hpk); auto.
    split; [exact Hwf'|]. unfold pm_is_padding in Ep. destruct (pm_header m) eqn:Eh; [done|].
    split; [by rewrite Hpk|]. cbn [metadata_ring]. rewrite Hc.
    rewrite Hm in Hsep. cbn [pad_sep] in Hsep. destruct (drop 1 (rb_contents meta)) as [|m' ?]; [done|].
    destruct Hsep as (_ & Hsep & _). unfold pm_is_padding in Hsep. rewrite Eh in Hsep.
    cbn. by destruct (pm_header m').
  - assert (HFm : F (rb_read_at meta) m = Ret (m, Err tt)) by (unfold F; by rewrite Ep).
    destruct (HF _ _ HFm) as (He & Hw & Hc). rewrite He, bind_Ret. cbn [wp is_ok] in *.
    rewrite <- Hm in Hc. cbn [metadata_ring]. rewrite Hc. unfold pb_wf, pb_packets.
    cbn [metadata_ring payload_ring]. rewrite Hc. fold meta.
    split; [split; [exact Hw|]; split; [done|]; by split_and!|]. split; [done|]. rewrite Hm. cbn. intros Eh. unfold pm_is_padding in Ep. by rewrite Eh in Ep.
Qed.

(** [dequeue_one] followed by the assignment of [x'] to the freed slot. *)
Lemma rb_dequeue_one_ok {T} (rb : RingBuffer T) (x' : T) :
  rb_wf rb -> 0 < rb_length rb ->
  exists x meta1 meta2, rb_contents rb = x :: drop 1 (rb_contents rb) /\
    rb_dequeue_one rb = Ret (meta1, Ok (rb_read_at rb)) /\
    index (rb_storage meta1) (rb_read_at rb) = Ret x /\
    rb_assign meta1 (rb_read_at rb) x' = Ret meta2 /\
    rb_wf meta2 /\ rb_contents meta2 = drop 1 (rb_contents rb).
Proof.
  intros Hwf Hl. pose proof Hwf as (? & ? & ? & ?). set (p := rb_read_at rb) in *.
  destruct (rb_dequeue_one_with_ok (E := Empty) rb (fun pos x => Ret (x, Ok pos)) Hwf Hl) as (x & Hx & Hx1).
  destruct (Hx1 _ _ eq_refl) as (He & _). cbn [is_ok] in He.
  destruct (rb_dequeue_one_with_ok (E := Empty) rb (fun pos _ => Ret (x', Ok pos)) Hwf Hl) as (y & _ & Hx2).
  destruct (Hx2 _ _ eq_refl) as (_ & Hw & Hc). cbn [is_ok] in *. fold p in He, Hw, Hc.
  assert (Hp : 0 <= p < Zlen (rb_storage rb)) by (unfold rb_capacity in *; lia).
  exists x. do 2 eexists. split; [done|].
  split; [unfold rb_dequeue_one; rewrite He; reflexivity|]. cbn [rb_storage].
  rewrite splice_singleton by done. split.
  { apply index_ok; [lia|]. apply list_lookup_insert_eq. unfold Zlen in *. lia. }
  unfold rb_assign. cbn [rb_storage rb_read_at rb_length].
  rewrite index_set_ok, bind_Ret by (unfold Zlen in *; rewrite length_insert; lia).
  rewrite list_insert_insert_eq, <- splice_singleton by done. auto.
Qed.

Lemma pb_head_cases pb :
  pb_wf pb -> head_packet (rb_contents (metadata_ring pb)) ->
  (rb_length (metadata_ring pb) = 0 /\ rb_contents (metadata_ring pb) = [] /\ pb_packets pb = []) \/
  (0 < rb_length (metadata_ring pb) /\
   exists m h ms, rb_contents (metadata_ring pb) = m :: ms /\ pm_header m = Some h).
Proof.
  intros (Hmw & _) Hh. pose proof (Zlen_contents _ Hmw) as Hl. unfold pb_packets.
  destruct (rb_contents (metadata_ring pb)) as [|m ms]; [left|right].
  - by rewrite <- Hl.
  - rewrite Zlen_cons in Hl. pose proof (Zlen_nonneg ms). split; [lia|]. cbn in Hh.
    destruct (pm_header m) eqn:E; [|done]. eauto.
Qed.

Lemma splice_front_nested {T} (l d : list T) n :
  Zlen d <= n -> n <= Zlen l -> splice l 0 (splice (sub l 0 n) 0 d) = d ++ drop (length d) l.
Proof.
  intros Hd Hn. unfold splice, sub, Zlen in *. change (Z.to_nat 0) with 0%nat. rewrite drop_0, !take_0. cbn [app Nat.add].
  rewrite <- app_assoc, length_app, length_drop, length_take. f_equal.
  replace (length d + (Z.to_nat n `min` length l - length d))%nat with (Z.to_nat n) by lia.
  rewrite <- drop_app_le by (rewrite length_take; lia). by rewrite take_drop.
Qed.

(** Overwriting the bytes at the front of the queue in place. *)
Lemma rb_overwrite_front {T} (rb : RingBuffer T) d mx :
  rb_wf rb -> mx = Z.min (rb_length rb) (rb_capacity rb - rb_read_at rb) -> Zlen d <= mx ->
  let st := splice (rb_storage rb) (rb_read_at rb) (splice (sub (rb_view rb) 0 mx) 0 d) in
  let rb1 := mkRingBuffer st (rb_read_at rb) (rb_length rb) in
  Zlen st = rb_capacity rb /\ rb_wf rb1 /\ rb_contents rb1 = d ++ drop (length d) (rb_contents rb).
Proof.
  intros Hwf -> Hd st rb1. set (mx := Z.min _ _) in *. pose proof Hwf as (? & ? & ? & ?). pose proof (Zlen_nonneg d).
  pose proof (rb_pos_0 rb Hwf) as Hp0.
  assert (Hsub : Zlen (sub (rb_view rb) 0 mx) = mx) by (rewrite Zlen_sub; rewrite ?Zlen_rb_view; auto; lia).
  assert (Hbuf : Zlen (splice (sub (rb_view rb) 0 mx) 0 d) = mx) by (rewrite Zlen_splice; lia).
  assert (Hst : Zlen st = rb_capacity rb) by (unfold st, rb_capacity in *; rewrite Zlen_splice; lia).
  split; [done|]. assert (Hwf1 : rb_wf rb1) by (by apply rb_wf_storage). split; [done|].
  assert (Hv : rb_view rb1 = splice (rb_view rb) 0 (splice (sub (rb_view rb) 0 mx) 0 d)).
  { unfold rb1, st. rewrite <- Hp0 at 1. apply rb_view_splice; rewrite ?Hp0; auto; lia. }
  unfold rb_contents. rewrite Hv, splice_front_nested by (rewrite ?Zlen_rb_view; auto; lia).
  cbn [rb1 rb_length]. unfold Zlen in *. rewrite take_app_ge by lia. by rewrite skipn_firstn_comm.
Qed.

(** The closure of [dequeue_with] on the first entry. *)
Lemma pb_dequeue_with_payload {R E} pb m h ms (f : H -> list Z -> res (H * list Z * result R E)) h' d' r :
  let payload := payload_ring pb in
  let bs := take (Z.to_nat (pm_size m)) (rb_contents payload) in
  pb_wf pb -> rb_contents (metadata_ring pb) = m :: ms -> pm_header m = Some h ->
  f h bs = Ret (h', d', r) -> Zlen d' = Zlen bs ->
  let size := if is_ok r then pm_size m else 0 in
  exists st, Zlen st = rb_capacity payload /\
    rb_wf (mkRingBuffer st (rb_read_at payload) (rb_length payload)) /\
    rb_contents (mkRingBuffer st (rb_read_at payload) (rb_length payload)) =
      d' ++ drop (Z.to_nat (pm_size m)) (rb_contents payload) /\
    Zlen d' = pm_size m /\
    rb_dequeue_many_with payload (fun _ payload_buf =>
        _ ← passert (pm_size m <=? Zlen payload_buf);
        match pm_header m with
        | None => Panic
        | Some h =>
            d ← slice payload_buf 0 (pm_size m);
            '(h', d', r) ← f h d;
            Ret (splice payload_buf 0 d', (if is_ok r then pm_size m else 0), (h', r))
        end) = Ret (mkRingBuffer st (rb_pos payload size) (rb_length payload - size), size, (h', r)).
Proof.
  intros payload bs Hwf Hms Hh Hf Hd size. destruct (pb_first_ok pb m ms Hwf Hms) as (Hs & Hc & Hb). fold payload in Hs, Hc, Hb.
  pose proof Hwf as (_ & Hpw & _). fold payload in Hpw. pose proof (Zlen_contents _ Hpw) as Hcl. pose proof Hpw as (? & ? & ? & ?).
  assert (Hbl : Zlen bs = pm_size m) by (unfold bs, Zlen in *; rewrite length_take; lia).
  set (mx := Z.min (rb_length payload) (rb_capacity payload - rb_read_at payload)).
  destruct (rb_overwrite_front payload d' mx Hpw eq_refl ltac:(lia)) as (Hst & Hwf1 & Hc1).
  replace (length d') with (Z.to_nat (pm_size m)) in Hc1 by (unfold Zlen in *; lia).
  eexists. split; [exact Hst|]. split; [exact Hwf1|]. split; [exact Hc1|]. split; [lia|].
  assert (Hsub : Zlen (sub (rb_view payload) 0 mx) = mx) by (rewrite Zlen_sub; rewrite ?Zlen_rb_view; auto; lia).
  apply rb_dequeue_many_with_ok; [done| | |unfold size; destr_if; lia].
  - fold mx. rewrite Hsub. replace (pm_size m <=? mx) with true by lia. cbn [passert]. rewrite bind_Ret, Hh.
    rewrite slice_ok, bind_Ret by lia. rewrite Z.sub_0_r.
    assert (E' : sub (sub (rb_view payload) 0 mx) 0 (pm_size m) = bs).
    { unfold bs, rb_contents. rewrite !sub_0, !take_take. f_equal. lia. }
    by rewrite E', Hf, bind_Ret.
  - fold mx. rewrite Zlen_splice; lia.
Qed.

(** A closure that panics on the first packet makes [dequeue_with] panic. *)
Lemma pb_dequeue_with_panic {R E} pb h bs rest (f : H -> list Z -> res (H * list Z * result R E)) :
  pb_wf pb -> pb_packets pb = (h, bs) :: rest -> f h bs = Panic -> pb_dequeue_with pb f = Panic.
Proof.
  intros Hwf Hpk Hf. unfold pb_dequeue_with.
  destruct (wp_Ret_inv _ _ (pb_dequeue_padding_ok pb Hwf)) as (pb1 & -> & Hwf1 & Hpk1 & Hh1).
  rewrite <- Hpk1 in Hpk. rewrite bind_Ret. clear Hpk1 Hwf pb. pose proof Hwf1 as (Hmw & Hpw & _).
  destruct (pb_head_cases pb1 Hwf1 Hh1) as [(_ & _ & Ep)|(_ & m & h0 & ms & Ec & Eh)].
  { congruence. }
  unfold pb_packets in Hpk. rewrite Ec in Hpk. cbn [pb_split] in Hpk. rewrite Eh in Hpk. injection Hpk as -> Hbs _.
  destruct (pb_first_ok pb1 m ms Hwf1 Ec) as (Hs & Hc & _). pose proof Hpw as (? & ? & ? & ?).
  erewrite rb_dequeue_one_with_panic; [done|exact Hmw|exact Ec|].
  rewrite rb_dequeue_many_with_panic; [done|exact Hpw|].
  set (mx := Z.min _ _). assert (Hsub : Zlen (sub (rb_view (payload_ring pb1)) 0 mx) = mx) by (rewrite Zlen_sub; rewrite ?Zlen_rb_view; auto; lia).
  rewrite Hsub. replace (pm_size m <=? mx) with true by lia. cbn [passert]. rewrite bind_Ret, Eh, slice_ok, bind_Ret, Z.sub_0_r by lia.
  assert (E' : sub (sub (rb_view (payload_ring pb1)) 0 mx) 0 (pm_size m) = bs).
  { rewrite <- Hbs. unfold rb_contents. rewrite !sub_0, !take_take. f_equal. lia. }
  by rewrite E', Hf.
Qed.

(** Replacing the bytes and the header of the first packet. *)
Lemma pb_overwrite_ok pb m h ms meta' st h' d' :
  let payload := payload_ring pb in
  let payload' := mkRingBuffer st (rb_read_at payload) (rb_length payload) in
  pb_wf pb -> rb_contents (metadata_ring pb) = m :: ms -> pm_header m = Some h ->
  rb_wf meta' -> rb_contents meta' = mkPacketMetadata (pm_size m) (Some h') :: ms ->
  Zlen st = rb_capacity payload -> rb_wf payload' -> Zlen d' = pm_size m ->
  rb_contents payload' = d' ++ drop (Z.to_nat (pm_size m)) (rb_contents payload) ->
  let pb' := mkPacketBuffer meta' payload' in
  pb_wf pb' /\ pb_packets pb' = (h', d') :: drop 1 (pb_packets pb).
Proof.
  intros payload payload' Hwf Hms Hh Hmw' Hmc Hst Hpw' Hd Hpc. pose proof Hwf as (_ & _ & Hsz & Hal & Hsep & Hlast).
  fold payload in Hsz, Hal, Hlast. assert (Hcap : rb_capacity payload' = rb_capacity payload) by done. split.
  - unfold pb_wf. cbn [metadata_ring payload_ring]. rewrite Hmc, Hcap. cbn [payload' rb_read_at rb_length].
    rewrite Hms in *. split; [done|]. split; [done|]. split; [done|]. split; [exact Hal|]. split.
    + cbn [pad_sep] in *. unfold pm_is_padding in *. rewrite Hh in Hsep. cbn [pm_header]. split; [done|apply Hsep].
    + intros Hl. assert (Hl' : last_padding (m :: ms) = true).
      { destruct ms as [|m' ms']; [done|]. exact Hl. }
      destruct (Hlast Hl') as [|E]; [by left | right]. unfold payload'. by rewrite rb_pos_storage.
  - unfold pb_packets. cbn [metadata_ring payload_ring]. fold payload. rewrite Hmc, Hms, Hpc. cbn [pb_split pm_header pm_size].
    rewrite Hh. assert (E : Z.to_nat (pm_size m) = length d') by (unfold Zlen in *; lia).
    rewrite E, take_app_length, drop_app_length. done.
Qed.

Lemma pb_dequeue_with_ok {R E} pb (f : H -> list Z -> res (H * list Z * result R E)) :
  pb_wf pb ->
  match pb_packets pb with
  | [] => wp (pb_dequeue_with pb f) (fun '(pb', r) => pb_wf pb' /\ pb_packets pb' = [] /\ r = Err EmptyErr)
  | (h, bs) :: rest =>
      wp (f h bs) (fun '(h', d', r) => Zlen d' = Zlen bs ->
        wp (pb_dequeue_with pb f) (fun '(pb', r') =>
          pb_wf pb' /\ r' = Ok r /\ pb_packets pb' = if is_ok r then rest else (h', d') :: rest)) \/
      f h bs = Panic
  end.
Proof.
  intros Hwf. unfold pb_dequeue_with.
  destruct (wp_Ret_inv _ _ (pb_dequeue_padding_ok pb Hwf)) as (pb1 & -> & Hwf1 & Hpk1 & Hh1).
  rewrite <- Hpk1, bind_Ret. clear Hpk1 Hwf pb. pose proof Hwf1 as (Hmw & Hpw & _).
  destruct (pb_head_cases pb1 Hwf1 Hh1) as [(El & Ec & ->)|(El & m & h & ms & Ec & Eh)].
  { unfold rb_dequeue_one_with, rb_is_empty, rb_len. rewrite El. cbn.
    replace (mkPacketBuffer (metadata_ring pb1) (payload_ring pb1)) with pb1 by (by destruct pb1).
    split; [done|]. split; [|done]. unfold pb_packets. by rewrite Ec. }
  assert (Ep : pb_packets pb1 = (h, take (Z.to_nat (pm_size m)) (rb_contents (payload_ring pb1))) ::
    pb_split ms (drop (Z.to_nat (pm_size m)) (rb_contents (payload_ring pb1)))).
  { unfold pb_packets. rewrite Ec. cbn [pb_split]. by rewrite Eh. }
  rewrite Ep. set (bs := take _ _) in *. destruct (f h bs) as [[[h' d'] r]|] eqn:Ef; [left; cbn [wp]|by right].
  intros Hd.
  destruct (pb_dequeue_with_payload pb1 m h ms f h' d' r Hwf1 Ec Eh Ef Hd) as (st & Hst & Hwfs & Hcs & Hdl & Hdq).
  set (payload := payload_ring pb1) in *.
  match goal with |- context [rb_dequeue_one_with (metadata_ring pb1) ?g] => set (G := g) end.
  destruct (rb_dequeue_one_with_ok (metadata_ring pb1) G Hmw El) as (x & Hx & HG).
  rewrite Ec in Hx. cbn [drop] in Hx. injection Hx as <-. specialize (HG (mkPacketMetadata (pm_size m) (Some h'))).
  destruct (pb_first_ok pb1 m ms Hwf1 Ec) as (Hms & _). fold payload in Hms.
  destruct r as [v|e]; cbn [is_ok] in *.
  - assert (EG : G (rb_read_at (metadata_ring pb1)) m = Ret (mkPacketMetadata (pm_size m) (Some h'),
      Ok (v, mkRingBuffer st (rb_pos payload (pm_size m)) (rb_length payload - pm_size m)))).
    { unfold G. rewrite Hdq, bind_Ret. done. }
    destruct (HG _ EG) as (-> & Hmw' & Hmc). rewrite bind_Ret. cbn [wp is_ok] in *. rewrite Ec in Hmc. cbn [drop] in Hmc.
    destruct (rb_advance_contents _ (pm_size m) Hwfs Hms) as (Hpw' & Hpc' & _).
    cbn [rb_storage rb_length] in Hpw', Hpc'. rewrite (rb_pos_storage payload st) in Hpw', Hpc' by done. rewrite Hcs in Hpc'.
    replace (Z.to_nat (pm_size m)) with (length d') in Hpc' at 1 by (unfold Zlen in *; lia).
    rewrite drop_app_length in Hpc'.
    edestruct (pb_pop_ok pb1 _ m ms _ Hwf1 Ec Hmw' Hmc Hpw') as (Hwf' & Hpk); auto.
    split; [exact Hwf'|]. split; [done|]. rewrite Hpk, Eh in Ep. by injection Ep.
  - assert (EG : G (rb_read_at (metadata_ring pb1)) m = Ret (mkPacketMetadata (pm_size m) (Some h'),
      Err (e, mkRingBuffer st (rb_pos payload 0) (rb_length payload - 0)))).
    { unfold G. rewrite Hdq, bind_Ret. done. }
    destruct (HG _ EG) as (-> & Hmw' & Hmc). rewrite bind_Ret. cbn [wp is_ok] in *. rewrite Ec in Hmc. cbn [drop] in Hmc.
    rewrite rb_pos_0, Z.sub_0_r by done.
    destruct (pb_overwrite_ok pb1 m h ms _ st h' d' Hwf1 Ec Eh Hmw' Hmc Hst Hwfs Hdl Hcs) as [Hwf' Hpk].
    split; [exact Hwf'|]. split; [done|]. rewrite Ep in Hpk. exact Hpk.
Qed.

(** The slice that [enqueue] returns, and the packet once the slice is filled. *)
Lemma pb_enqueue_ok pb (size : Z) (h : H) :
  pb_wf pb -> 0 <= size ->
  wp (pb_enqueue pb size h) (fun '(pb', r) =>
    match r with
    | Ok (pos, len) =>
        pb_wf pb' /\ len = size /\ 0 <= pos /\ pos + size <= Zlen (rb_storage (payload_ring pb')) /\
        forall data, Zlen data = size ->
          exists payload', rb_fill (payload_ring pb') pos data = Ret payload' /\
            pb_wf (mkPacketBuffer (metadata_ring pb') payload') /\
            pb_packets (mkPacketBuffer (metadata_ring pb') payload') = pb_packets pb ++ [(h, data)]
    | Err _ => pb_wf pb' /\ pb_packets pb' = pb_packets pb
    end).
Proof.
  intros Hwf Hs. pose proof Hwf as (Hmw & Hpw & Hsz & Hal & Hsep & Hlast).
  unfold pb_enqueue, rb_is_full. rewrite rb_window_ok, !bind_Ret by done.
  destruct (_ || _); [cbn; auto|].
  destruct (pb_rewind_ok pb Hwf) as (Hwf0 & Hpk0 & Hn0 & _). set (pb0 := if rb_is_empty _ then _ else pb) in *.
  clearbody pb0.
  eapply wp_bind_mono; [exact (pb_make_room_ok pb0 size Hwf0 Hn0 Hs)|].
  intros [pb1 [?|?]] (Hwf1 & Hpk1 & _ & Hroom); [|cbn; split; [done|congruence]].
  destruct (Hroom eq_refl) as [Hn1 Hcw1]. clear Hroom. pose proof Hwf1 as (Hmw1 & Hpw1 & _).
  destruct (pb_push_metadata_ok pb1 (pm_packet size h) Hmw1) as [(_ & ->)|(_ & meta' & -> & Hw' & Hc' & _)];
    rewrite bind_Ret; [cbn; split; [done|congruence]|]. cbn [metadata_ring payload_ring].
  set (payload := payload_ring pb1) in *. pose proof (rb_cw_range payload Hpw1) as (Hcw & Hcw').
  destruct (rb_enqueue_many_ok payload size Hpw1 Hn1 ltac:(lia)) as (-> & Hpw' & Hpc').
  rewrite bind_Ret, Z.eqb_refl. cbn [passert]. rewrite bind_Ret. cbn [wp].
  pose proof Hpw1 as (? & ? & _). pose proof (rb_pos_range payload (rb_length payload) Hpw1 ltac:(lia)).
  assert (Happ : forall payload' xs, rb_wf payload' -> rb_capacity payload' = rb_capacity payload ->
    rb_read_at payload' = rb_read_at payload -> rb_contents payload' = rb_contents payload ++ xs -> Zlen xs = size ->
    rb_length payload' = rb_length payload + size ->
    pb_wf (mkPacketBuffer meta' payload') /\ pb_packets (mkPacketBuffer meta' payload') = pb_packets pb ++ [(h, xs)]).
  { intros payload' xs Hw Hcap Hrd Hct Hxs Hl.
    edestruct (pb_wf_append pb1 meta' payload' (pm_packet size h) xs (pb_wf_described _ Hwf1) Hw' Hc' Hw) as (Hwf' & Hpk');
      [done | done | exact Hct | done | fold payload; lia | done |].
    split; [exact Hwf'|]. rewrite Hpk'. cbn [pm_header pm_packet]. congruence. }
  cbn [payload_ring rb_storage metadata_ring]. split; [|split; [done|split; [lia|split; [unfold rb_capacity in *; lia|]]]].
  { apply (Happ _ (sub (rb_view payload) (rb_length payload) size)); [done | done | done | exact Hpc' | | done].
    rewrite Zlen_sub; rewrite ?Zlen_rb_view; auto; lia. }
  intros data Hd. unfold rb_fill. cbn [rb_storage rb_read_at rb_length].
  rewrite copy_into_ok, bind_Ret by (unfold rb_capacity in *; lia). eexists. split; [done|].
  set (st := splice _ _ data).
  assert (Hst : Zlen st = rb_capacity payload) by (unfold st, rb_capacity in *; rewrite Zlen_splice; lia).
  apply (Happ _ data); [| by unfold rb_capacity | done | | done | done].
  - destruct Hpw' as (? & ? & ? & ?). unfold rb_wf, rb_capacity in *. cbn [rb_storage rb_read_at rb_length] in *.
    by rewrite Hst.
  - unfold rb_contents at 1. unfold st.
    rewrite (rb_view_splice payload (rb_length payload) data) by (auto; lia). cbn [rb_length].
    unfold rb_contents, splice. pose proof (Zlen_rb_view payload Hpw1) as Hvl. unfold Zlen in *.
    rewrite app_assoc, take_app_le by (rewrite length_app, length_take; lia).
    apply take_ge. rewrite length_app, length_take. lia.
Qed.

(** Taking the first packet off. *)
Lemma pb_dequeue_ok pb :
  pb_wf pb ->
  wp (pb_dequeue pb) (fun '(pb', r) =>
    pb_wf pb' /\
    match r with
    | Ok (h, bytes) => pb_packets pb = (h, bytes) :: pb_packets pb'
    | Err _ => pb_packets pb = [] /\ pb_packets pb' = []
    end).
Proof.
  intros Hwf. unfold pb_dequeue. eapply wp_bind_mono; [apply (pb_dequeue_padding_ok pb Hwf)|].
  intros pb1 (Hwf1 & Hpk1 & Hh1). rewrite <- Hpk1. pose proof Hwf1 as (Hmw & Hpw & _).
  destruct (pb_head_cases pb1 Hwf1 Hh1) as [(El & Ec & Ep)|(El & m & h & ms & Ec & Eh)].
  { unfold rb_dequeue_one, rb_dequeue_one_with, rb_is_empty, rb_len. rewrite El. cbn.
    replace (mkPacketBuffer (metadata_ring pb1) (payload_ring pb1)) with pb1 by (by destruct pb1). auto. }
  destruct (rb_dequeue_one_ok (metadata_ring pb1) (mkPacketMetadata (pm_size m) None) Hmw El)
    as (x & meta1 & meta2 & Hx & -> & Hi & Ha & Hw2 & Hc2).
  rewrite Ec in Hx. injection Hx as <-. rewrite bind_Ret, Hi, bind_Ret. clear Hi.
  rewrite Ec in Hc2. cbn [drop] in Hc2.
  destruct (pb_first_ok pb1 m ms Hwf1 Ec) as (Hms & Hmc & Hb).
  rewrite rb_dequeue_many_ok, bind_Ret by (auto; lia). rewrite Z.eqb_refl. cbn [passert].
  rewrite bind_Ret, Eh, Ha, bind_Ret. cbn [rb_storage].
  pose proof Hpw as (? & ? & ? & _).
  rewrite slice_ok, bind_Ret, Z.add_simpl_l by (unfold rb_capacity in *; lia). cbn [wp].
  destruct (rb_advance_contents (payload_ring pb1) (pm_size m) Hpw Hms) as (Hpw' & Hpc' & _).
  edestruct (pb_pop_ok pb1 meta2 m ms _ Hwf1 Ec Hw2 Hc2 Hpw') as (Hwf' & Hpk); auto.
  split; [exact Hwf'|]. rewrite Hpk, Eh, Hb. done.
Qed.

(** Looking at the first packet. *)
Lemma pb_peek_ok pb :
  pb_wf pb ->
  wp (pb_peek pb) (fun '(pb', r) =>
    pb_wf pb' /\ pb_packets pb' = pb_packets pb /\
    match r with
    | Ok p => head (pb_packets pb) = Some p
    | Err _ => pb_packets pb = []
    end).
Proof.
  intros Hwf. unfold pb_peek. eapply wp_bind_mono; [apply (pb_dequeue_padding_ok pb Hwf)|].
  intros pb1 (Hwf1 & Hpk1 & Hh1). rewrite <- Hpk1. pose proof Hwf1 as (Hmw & Hpw & Hsz & _).
  pose proof Hmw as (? & ? & ? & ?). pose proof Hpw as (? & ? & _).
  rewrite rb_get_allocated_ok, bind_Ret by (auto; lia).
  rewrite rb_pos_0 by done. rewrite sub_0.
  destruct (pb_head_cases pb1 Hwf1 Hh1) as [(El & Ec & Ep)|(El & m & h & ms & Ec & Eh)]; rewrite Ec.
  { rewrite take_nil. cbn [wp]. auto. }
  replace (Z.to_nat _) with 1%nat by lia. cbn [take]. rewrite Eh.
  destruct (pb_first_ok pb1 m ms Hwf1 Ec) as (Hms & Hmc & Hb).
  rewrite rb_get_allocated_ok, bind_Ret by (auto; lia). cbn [wp]. split; [done|]. split; [done|].
  rewrite rb_pos_0, sub_0 by done. unfold pb_packets. rewrite Ec. cbn [pb_split]. rewrite Eh.
  cbn [head]. do 4 f_equal. lia.
Qed.

(** *** Filling a packet in place *)

Lemma rb_norm_idem {T} (rb : RingBuffer T) : rb_norm (rb_norm rb) = rb_norm rb.
Proof. unfold rb_norm. destruct (rb_length rb =? 0) eqn:E; cbn [rb_length]; by rewrite E. Qed.

(** Both calls rewind an empty ring first. *)
Lemma rb_enqueue_many_with_norm {T R} (rb : RingBuffer T) (f : Z -> list T -> res (list T * Z * R)) :
  rb_enqueue_many_with rb f = rb_enqueue_many_with (rb_norm rb) f.
Proof.
  unfold rb_enqueue_many_with at 2. change (if rb_length (rb_norm rb) =? 0 then _ else _) with (rb_norm (rb_norm rb)).
  by rewrite rb_norm_idem.
Qed.

Lemma rb_enqueue_many_norm {T} (rb : RingBuffer T) size : rb_enqueue_many rb size = rb_enqueue_many (rb_norm rb) size.
Proof. unfold rb_enqueue_many. by rewrite rb_enqueue_many_with_norm. Qed.

(** What [make_room] does, entry by entry, when the metadata has room: nothing, or a padding up
    to the end of the storage. *)
Definition padded pb pb' : Prop :=
  let payload := rb_norm (payload_ring pb) in
  exists meta', rb_wf meta' /\ rb_contents meta' = rb_contents (metadata_ring pb) ++ [pm_padding (rb_cw (payload_ring pb))] /\
    rb_capacity meta' = rb_capacity (metadata_ring pb) /\
    pb' = mkPacketBuffer meta' (mkRingBuffer (rb_storage payload) (rb_read_at payload) (rb_length payload + rb_cw (payload_ring pb))).

Lemma rb_cw_norm {T} (rb : RingBuffer T) : rb_wf rb -> rb_cw rb <= rb_cw (rb_norm rb).
Proof.
  intros Hwf. pose proof Hwf as (? & ? & ? & ?). unfold rb_norm. destr_if; [|lia].
  apply Z.eqb_eq in Hif. unfold rb_cw. cbn [rb_length]. change (rb_capacity (mkRingBuffer _ _ _)) with (rb_capacity rb).
  set (rb0 := mkRingBuffer (rb_storage rb) 0 (rb_length rb)).
  assert (Hwf0 : rb_wf rb0) by (unfold rb0, rb_wf, rb_capacity in *; cbn; lia).
  assert (rb_pos rb0 (rb_length rb) = 0) as ->.
  { destruct (Z.eq_dec (rb_capacity rb) 0) as [E|E].
    - unfold rb_pos. change (rb_capacity rb0) with (rb_capacity rb). rewrite E. cbn. lia.
    - destruct (rb_pos_cases rb0 (rb_length rb) Hwf0) as [[? Ep]|[? Ep]];
        change (rb_capacity rb0) with (rb_capacity rb) in *; change (rb_read_at rb0) with 0 in *; lia. }
  pose proof (rb_pos_range rb (rb_length rb) Hwf ltac:(lia)). lia.
Qed.

Lemma pb_make_room_cases pb size :
  pb_wf pb -> 0 <= size ->
  (rb_cw (payload_ring pb) < size -> rb_length (metadata_ring pb) < rb_capacity (metadata_ring pb)) ->
  (pb_make_room pb size = Ret (pb, Err FullErr) /\ rb_cw (payload_ring pb) < size /\
   rb_capacity (payload_ring pb) - rb_length (payload_ring pb) - rb_cw (payload_ring pb) < size) \/
  (pb_make_room pb size = Ret (pb, Ok tt) /\ size <= rb_cw (payload_ring pb)) \/
  exists pb', pb_make_room pb size = Ret (pb', Ok tt) /\ padded pb pb' /\
    rb_cw (payload_ring pb) < size <= rb_capacity (payload_ring pb) - rb_length (payload_ring pb) - rb_cw (payload_ring pb).
Proof.
  intros Hwf Hs Hroom. pose proof Hwf as (Hmw & Hpw & _). pose proof Hpw as (? & ? & ? & ?). unfold pb_make_room.
  rewrite rb_window_ok, bind_Ret by done. rewrite rb_contiguous_window_ok, bind_Ret by done.
  pose proof (rb_cw_range _ Hpw) as (Hcw & _). set (c := rb_cw (payload_ring pb)) in *.
  destr_if; [left; split; [done|lia]|]. destruct (Z.ltb_spec c size) as [Hlt|Hle]; [|by right; left].
  rewrite usize_sub_ok, bind_Ret by mlia. destr_if; [left; split; [done|lia]|]. right. right.
  destruct (pb_push_metadata_ok pb (pm_padding c) Hmw) as [(E & _)|(_ & meta' & -> & Hw' & Hc' & Hcap')]; [specialize (Hroom Hlt); lia|].
  rewrite bind_Ret. cbn [metadata_ring payload_ring]. rewrite rb_enqueue_many_norm.
  pose proof (rb_cw_norm _ Hpw). destruct (rb_enqueue_many_ok (rb_norm (payload_ring pb)) c) as (-> & _);
    [by apply rb_norm_wf|apply rb_norm_idem|subst c; lia|]. rewrite bind_Ret.
  eexists. split; [done|]. split; [|lia]. exists meta'. done.
Qed.

Lemma pad_sep_positive ms : pad_sep ms -> sizes_pos ms -> last_padding ms = true -> 0 < sizes ms.
Proof.
  induction ms as [|m ms IH]; [done|]. intros (Hm & _ & Hs) (Hp & Hps)%Forall_cons_iff Hl. rewrite sizes_cons.
  pose proof (sizes_nonneg _ Hps). destruct ms as [|m' ms]; [specialize (Hm Hl); lia|]. specialize (IH Hs Hps Hl). lia.
Qed.

Lemma pb_norm_wf pb : pb_wf pb ->
  pb_wf (mkPacketBuffer (metadata_ring pb) (rb_norm (payload_ring pb))) /\
  pb_packets (mkPacketBuffer (metadata_ring pb) (rb_norm (payload_ring pb))) = pb_packets pb.
Proof.
  intros Hwf. destruct (pb_rewind_ok pb Hwf) as (Hw & Hp & _). unfold rb_is_empty, rb_len, rb_norm in *.
  destruct (Z.eqb_spec (rb_length (payload_ring pb)) 0) as [E|E]; [|by destruct pb]. unfold rb_clear in *. by rewrite E.
Qed.

(** A padding, and the room behind it. *)
Lemma padded_ok pb pb' size :
  pb_wf pb -> padded pb pb' ->
  rb_cw (payload_ring pb) < size <= rb_capacity (payload_ring pb) - rb_length (payload_ring pb) - rb_cw (payload_ring pb) ->
  pb_described pb' /\ pb_packets pb' = pb_packets pb /\
  rb_norm (payload_ring pb') = payload_ring pb' /\ size <= rb_cw (payload_ring pb').
Proof.
  intros Hwf (meta' & Hmw' & Hmc & _ & ->) Hsz0. destruct (pb_norm_wf pb Hwf) as (Hwf0 & Hpk0).
  set (payload := rb_norm (payload_ring pb)) in *. set (c := rb_cw (payload_ring pb)) in *.
  pose proof Hwf as (_ & Hpw0 & _). pose proof (rb_cw_norm _ Hpw0) as Hcn. fold c payload in Hcn.
  pose proof (rb_cw_range _ Hpw0) as (Hcr & _). fold c in Hcr.
  assert (El : rb_length payload = rb_length (payload_ring pb)) by apply rb_norm_length.
  assert (Ec : rb_capacity payload = rb_capacity (payload_ring pb)) by apply rb_norm_capacity.
  pose proof Hwf0 as (_ & Hpw & Hsz & Hal & Hsep & Hlast). cbn [metadata_ring payload_ring] in *. pose proof Hpw as (? & ? & ? & ?).
  assert (Hc0 : 0 < c).
  { unfold c, rb_cw. destruct (rb_pos_cases (payload_ring pb) (rb_length (payload_ring pb)) Hpw0) as [[? ?]|[? ?]]; destruct Hpw0 as (? & ? & ? & ?); lia. }
  destruct (rb_enqueue_many_ok payload c Hpw (rb_norm_idem _) ltac:(lia)) as (_ & Hpw' & Hpc').
  set (payload' := mkRingBuffer _ _ _) in *. pose proof (rb_cw_range payload Hpw) as (Hcw & Hcw').
  assert (Hx : Zlen (sub (rb_view payload) (rb_length payload) c) = c)
    by (rewrite Zlen_sub; rewrite ?Zlen_rb_view; auto; lia).
  destruct (pb_described_append (mkPacketBuffer (metadata_ring pb) payload) meta' payload' (pm_padding c) (sub (rb_view payload) (rb_length payload) c))
    as (Hd & Hpk); cbn [metadata_ring payload_ring]; rewrite ?Hx; auto using pb_wf_described; try lia.
  { intros _. split; [|lia]. destruct (last_padding _) eqn:Elp; [|done].
    pose proof (pad_sep_positive _ Hsep (aligned_pos _ _ _ Hal) Elp). destruct (Hlast eq_refl) as [E|E]; [lia|].
    assert (payload = payload_ring pb) as Ep by (apply rb_norm_nonempty; lia). assert (Ecw : rb_cw payload = c) by (unfold c; by rewrite <- Ep).
    unfold rb_cw in Ecw. rewrite E in Ecw. lia. }
  split; [exact Hd|]. split; [by rewrite Hpk, app_nil_r, Hpk0|].
  assert (Hn' : rb_norm payload' = payload') by (apply rb_norm_nonempty; cbn [payload' rb_length]; lia). split; [done|].
  destruct (Z.eq_dec (rb_length payload) 0) as [E|E].
  - assert (Hr : rb_read_at payload' = 0) by (unfold payload', payload, rb_norm; cbn; by rewrite <- El, E).
    unfold rb_cw. change (rb_capacity payload') with (rb_capacity payload). change (rb_length payload') with (rb_length payload + c).
    pose proof (rb_pos_range payload' (rb_length payload + c) Hpw') as Hpr. change (rb_capacity payload') with (rb_capacity payload) in Hpr.
    destruct (rb_pos_cases payload' (rb_length payload + c) Hpw') as [[? Ep]|[? Ep]];
      change (rb_capacity payload') with (rb_capacity payload) in *; lia.
  - assert (payload = payload_ring pb) as Ep by (apply rb_norm_nonempty; lia).
    assert (Ecw : rb_cw payload = c) by (unfold c; by rewrite <- Ep).
    pose proof (rb_cw_full payload (rb_storage payload) Hpw eq_refl) as Hfull. cbv zeta in Hfull.
    rewrite Ecw in Hfull. fold payload' in Hfull. rewrite Hn' in Hfull. lia.
Qed.

(** The slot of metadata that a padding takes is not the last one. *)
Definition pb_slots_ok pb (max_size : Z) : Prop :=
  rb_cw (payload_ring pb) < max_size -> rb_length (metadata_ring pb) + 1 <> rb_capacity (metadata_ring pb).

(** A closure that fills the slice it gets, and takes no more than it. *)
Definition fills_at_most (max_size : Z) (f : list Z -> list Z * Z) : Prop :=
  forall d, Zlen d = max_size -> Zlen (fst (f d)) = max_size /\ 0 <= snd (f d) <= max_size.

(** The packet itself, where there is room for it. *)
Definition pb_put_with pb (max_size : Z) (header : H) (f : list Z -> list Z * Z) : res (PacketBuffer H * result Z Full) :=
  '(payload, size, _) ← rb_enqueue_many_with (payload_ring pb) (fun _ data =>
     d ← slice data 0 max_size;
     let '(d', size) := f d in Ret (splice data 0 d', size, tt));
  let pb := mkPacketBuffer (metadata_ring pb) payload in
  '(pb, r) ← pb_push_metadata pb (pm_packet size header);
  match r with
  | Err e => Ret (pb, Err e)
  | Ok _ => Ret (pb, Ok size)
  end.

Lemma pb_put_with_ok pb max_size h f :
  pb_described pb -> rb_norm (payload_ring pb) = payload_ring pb -> 0 <= max_size <= rb_cw (payload_ring pb) ->
  rb_length (metadata_ring pb) < rb_capacity (metadata_ring pb) -> fills_at_most max_size f ->
  wp (pb_put_with pb max_size h f) (fun '(pb', r) => pb_wf pb' /\
    exists d, Zlen d = max_size /\ r = Ok (snd (f d)) /\
      pb_packets pb' = pb_packets pb ++ [(h, take (Z.to_nat (snd (f d))) (fst (f d)))]).
Proof.
  intros Hd Hn Hm Hslot Hf. pose proof Hd as (Hmw & Hpw & _). unfold pb_put_with. set (payload := payload_ring pb) in *.
  pose proof (rb_cw_range payload Hpw) as (Hcw & Hcw'). pose proof Hpw as (? & ? & ? & ?).
  set (buf := sub (rb_view payload) (rb_length payload) (rb_cw payload)).
  assert (Hb : Zlen buf = rb_cw payload) by (unfold buf; rewrite Zlen_sub; rewrite ?Zlen_rb_view; auto; lia).
  set (d := sub buf 0 max_size). assert (Hdz : Zlen d = max_size) by (unfold d; rewrite Zlen_sub; lia).
  destruct (Hf d Hdz) as (Hfz & Hfs). set (buf' := splice buf 0 (fst (f d))).
  assert (Hb' : Zlen buf' = rb_cw payload) by (unfold buf'; rewrite Zlen_splice; lia).
  rewrite (rb_enqueue_many_with_ok payload _ buf' (snd (f d)) tt); rewrite ?Hn; auto; [|fold buf|lia].
  2: { rewrite slice_ok, bind_Ret, Z.sub_0_r by lia. fold d. unfold buf'. by destruct (f d). }
  rewrite bind_Ret. destruct (rb_enqueue_many_contents payload buf' (snd (f d)) Hpw Hb' ltac:(lia)) as (Hw' & Hcap' & Hc').
  set (payload' := mkRingBuffer _ _ _) in *.
  destruct (pb_push_metadata_ok (mkPacketBuffer (metadata_ring pb) payload') (pm_packet (snd (f d)) h) Hmw) as [(E & _)|(_ & meta' & -> & Hmw' & Hmc & _)];
    [cbn [metadata_ring] in E; lia|]. rewrite bind_Ret. cbn [wp payload_ring metadata_ring] in *.
  assert (Ht : take (Z.to_nat (snd (f d))) buf' = take (Z.to_nat (snd (f d))) (fst (f d))).
  { unfold buf', splice. change (take (Z.to_nat 0) buf) with (@nil Z). rewrite app_nil_l. apply take_app_le. unfold Zlen in *. lia. }
  rewrite Ht in Hc'. destruct (pb_wf_append pb meta' payload' (pm_packet (snd (f d)) h) (take (Z.to_nat (snd (f d))) (fst (f d)))) as (Hwf & Hpk);
    try done; try (unfold Zlen in *; cbn [pm_size pm_packet]; rewrite ?length_take; fold payload; lia).
  split; [done|]. exists d. split; [done|]. split; [done|]. by rewrite Hpk.
Qed.

Lemma pb_idle_empty pb : pb_wf pb -> rb_length (metadata_ring pb) = 0 -> rb_length (payload_ring pb) = 0.
Proof. intros (_ & _ & Hs & _) E. rewrite <- Hs. unfold rb_contents. by rewrite E. Qed.

Lemma pb_enqueue_with_infallible_ok pb max_size h f :
  pb_wf pb -> 0 <= max_size -> pb_slots_ok pb max_size -> fills_at_most max_size f ->
  wp (pb_enqueue_with_infallible pb max_size h f) (fun '(pb', r) => pb_wf pb' /\
    match r with
    | Ok n => exists d, Zlen d = max_size /\ n = snd (f d) /\
        pb_packets pb' = pb_packets pb ++ [(h, take (Z.to_nat n) (fst (f d)))]
    | Err _ => pb' = pb /\ (pb_is_empty pb = true -> pb_packet_capacity pb = 0 \/ pb_payload_capacity pb + 1 < 2 * max_size)
    end).
Proof.
  intros Hwf Hm Hslots Hf. pose proof Hwf as (Hmw & Hpw & _). unfold pb_enqueue_with_infallible, rb_is_full.
  rewrite rb_window_ok, !bind_Ret by done. unfold pb_is_empty, rb_is_empty, rb_len, pb_packet_capacity, pb_payload_capacity.
  pose proof (pb_idle_empty pb Hwf) as Hidle. pose proof Hmw as ([? ?] & _). pose proof Hpw as ([? ?] & _).
  destr_if; [cbn [wp]; split_and!; [done..|]; intros E; apply orb_true_iff in Hif; lia|]. apply orb_false_iff in Hif as [_ Hfull].
  assert (Hput : forall pb', pb_described pb' -> pb_packets pb' = pb_packets pb -> rb_norm (payload_ring pb') = payload_ring pb' ->
    max_size <= rb_cw (payload_ring pb') -> rb_length (metadata_ring pb') < rb_capacity (metadata_ring pb') ->
    wp (pb_put_with pb' max_size h f) (fun '(pb', r) => pb_wf pb' /\
      match r with
      | Ok n => exists d, Zlen d = max_size /\ n = snd (f d) /\
          pb_packets pb' = pb_packets pb ++ [(h, take (Z.to_nat n) (fst (f d)))]
      | Err _ => pb' = pb /\ ((rb_length (metadata_ring pb) =? 0) = true ->
          rb_capacity (metadata_ring pb) = 0 \/ rb_capacity (payload_ring pb) + 1 < 2 * max_size)
      end)).
  { intros pb' Hd Hpk Hn Hcw Hsl. eapply wp_mono; [by apply pb_put_with_ok|]. intros [pb2 r] (Hw & d & Hd' & -> & Hp).
    split; [done|]. exists d. split; [done|]. split; [done|]. by rewrite Hp, Hpk. }
  destruct (pb_make_room_cases pb max_size Hwf Hm ltac:(lia)) as [(-> & Hc1 & Hc2)|[[-> Hcw]|(pb' & -> & Hpad & Hcw)]]; rewrite bind_Ret.
  - cbn [wp]. split_and!; [done..|]. intros E. right. rewrite Hidle in Hc2 by lia. lia.
  - destruct (pb_norm_wf pb Hwf) as (Hwf0 & Hpk0). pose proof (rb_cw_norm _ Hpw). rewrite rb_enqueue_many_with_norm.
    apply (Hput (mkPacketBuffer (metadata_ring pb) (rb_norm (payload_ring pb)))); cbn [metadata_ring payload_ring]; auto using pb_wf_described, rb_norm_idem; lia.
  - destruct (padded_ok pb pb' max_size Hwf Hpad Hcw) as (Hd & Hpk & Hn & Hcw'). apply (Hput pb'); try done.
    destruct Hpad as (meta' & Hmw' & Hmc & Hcap & ->). cbn [metadata_ring]. specialize (Hslots ltac:(lia)).
    rewrite <- (Zlen_contents meta' Hmw'), Hmc, Zlen_app, Zlen_contents, Hcap by done. change (Zlen [_]) with 1. lia.
Qed.

Lemma pb_reset_ok pb : pb_wf pb -> pb_wf (pb_reset pb) /\ pb_packets (pb_reset pb) = [].
Proof.
  intros (Hmw & Hpw & _). unfold pb_packets, pb_wf, pb_reset. cbn [metadata_ring payload_ring].
  split; [|done]. split; [by apply rb_clear_wf|]. split; [by apply rb_clear_wf|]. by cbn.
Qed.

(** A packet is no longer than the storage. *)
Lemma pb_split_bound ms bs : Forall (fun p => Zlen (snd p) <= Zlen bs) (pb_split ms bs).
Proof.
  revert bs. induction ms as [|m ms IH]; intros bs; cbn [pb_split]; [constructor|].
  assert (Ht : Forall (fun p => Zlen (snd p) <= Zlen bs) (pb_split ms (drop (Z.to_nat (pm_size m)) bs))).
  { eapply Forall_impl; [|apply IH]. intros p Hp. unfold Zlen in *. rewrite length_drop in Hp. lia. }
  destruct (pm_header m); [|done]. constructor; [|done]. unfold Zlen. cbn [snd]. rewrite length_take. lia.
Qed.

Lemma pb_packets_bound pb : pb_wf pb -> Forall (fun p => Zlen (snd p) <= isize_max) (pb_packets pb).
Proof.
  intros (_ & Hpw & _). eapply Forall_impl; [|apply pb_split_bound]. intros p Hp.
  unfold rb_contents, Zlen in Hp. rewrite length_take in Hp. destruct Hpw as (? & ? & ? & ?). unfold rb_capacity, Zlen in *. lia.
Qed.

(** ** Properties *)

(** [enqueue] never panics on a well-formed buffer.  On success the packets are the old
    ones followed by one with the header and the bytes of the returned slice, which has the
    size asked for; on failure (also after a padding was inserted) the packets are
    unchanged.  The invariant is kept either way. *)
Theorem pb_enqueue_spec pb (size : Z) (h : H) :
  pb_wf pb -> 0 <= size ->
  wp (pb_enqueue pb size h) (fun '(pb', r) =>
    pb_wf pb' /\
    match r with
    | Ok (pos, len) =>
        len = size /\ Zlen (sub (rb_storage (payload_ring pb')) pos len) = size /\
        pb_packets pb' = pb_packets pb ++ [(h, sub (rb_storage (payload_ring pb')) pos len)]
    | Err _ => pb_packets pb' = pb_packets pb
    end).
Proof.
  intros Hwf Hs. eapply wp_mono; [by apply pb_enqueue_ok|]. intros [pb' [[pos len]|e]]; [|done].
  intros (Hwf' & -> & Hp & Hpl & Hfill). split; [done|]. split; [done|].
  split; [by apply Zlen_sub|]. destruct (Hfill (sub (rb_storage (payload_ring pb')) pos size)) as (payload' & E & _ & Hpk).
  { by apply Zlen_sub. }
  unfold rb_fill in E. rewrite copy_into_ok, bind_Ret in E by (rewrite ?Zlen_sub; lia).
  rewrite splice_same in E by lia. injection E as <-. by destruct pb' as [? []].
Qed.

End PacketBuffer.

(** ** The padding of [enqueue_with_infallible] *)

(** A buffer of three packets and ten bytes, after [enqueue 6], [enqueue 2], [dequeue] and
    [enqueue 1]: one packet slot is free, and one contiguous byte. *)
Definition pb_demo : res (PacketBuffer Z) :=
  let pb := pb_new (replicate 3 pm_empty) (replicate 10 0) in
  '(pb, _) ← pb_enqueue pb 6 101;
  '(pb, _) ← pb_enqueue pb 2 102;
  '(pb, _) ← pb_dequeue pb;
  '(pb, _) ← pb_enqueue pb 1 103;
  Ret pb.

(** The closure: write [0xAA] in all bytes, use four of them. *)
Definition fill_four (d : list Z) : list Z * Z := (replicate (length d) 170, 4).

(** The demo buffer, then [enqueue_with_infallible] with the closure. *)
Definition pb_demo_infallible : res (PacketBuffer Z * result Z Full) :=
  pb ← pb_demo; pb_enqueue_with_infallible pb 4 104 fill_four.

Definition pb_consistent {H} (pb : PacketBuffer H) : bool :=
  sizes (rb_contents (metadata_ring pb)) =? rb_length (payload_ring pb).

(** [enqueue_with_infallible] checks for one free packet slot before it inserts a padding,
    which takes that slot; the packet bytes are then enqueued, the second slot is refused,
    and the bytes stay in the payload ring without an entry that describes them.  From a
    buffer built by [new], [enqueue] and [dequeue] the call fails with [Full] and leaves eight
    bytes queued of which the entries describe four; the invariant does not hold any more. *)
Theorem pb_infallible_orphans :
  exists pb pb', pb_demo = Ret pb /\ pb_consistent pb = true /\
    pb_demo_infallible = Ret (pb', Err FullErr) /\
    rb_length (payload_ring pb') = 8 /\ sizes (rb_contents (metadata_ring pb')) = 4 /\ ~ pb_wf pb'.
Proof.
  do 2 eexists. split; [vm_compute; reflexivity|]. split; [vm_compute; reflexivity|].
  split; [vm_compute; reflexivity|]. split; [vm_compute; reflexivity|].
  split; [vm_compute; reflexivity|]. intros (_ & _ & Hsz & _). vm_compute in Hsz. discriminate.
Qed.

(** ** Concrete instances *)

(** A buffer without a packet that refuses packets: a padding without its packet, left by an [enqueue]
    that found no second slot, stays behind the last packet. *)
Definition pb_stale_padding : res (PacketBuffer Z) :=
  let pb := pb_new (replicate 2 pm_empty) (replicate 10 0) in
  '(pb, _) ← pb_enqueue pb 6 101;
  '(pb, _) ← pb_enqueue pb 2 102;
  '(pb, _) ← pb_dequeue pb;
  '(pb, _) ← pb_enqueue pb 5 103;
  '(pb, _) ← pb_dequeue pb;
  Ret pb.

Example pb_padding_refuses :
  exists pb, pb_stale_padding = Ret pb /\ pb_packets pb = [] /\ pb_is_empty pb = false /\
    exists pb', pb_enqueue pb 9 104 = Ret (pb', Err FullErr).
Proof. eexists. split; [vm_compute; reflexivity|]. split; [reflexivity|]. split; [reflexivity|]. eexists. vm_compute. reflexivity. Qed.

(** [enqueue_with_infallible] does not rewind an empty ring before it looks for contiguous room. *)
Definition pb_not_rewound : res (PacketBuffer Z) :=
  let pb := pb_new (replicate 3 pm_empty) (replicate 10 0) in
  '(pb, _) ← pb_enqueue pb 5 101;
  '(pb, _) ← pb_dequeue pb;
  Ret pb.

Example pb_infallible_refuses :
  exists pb, pb_not_rewound = Ret pb /\ pb_is_empty pb = true /\
    pb_enqueue_with_infallible pb 8 102 fill_four = Ret (pb, Err FullErr) /\ exists pb', pb_enqueue pb 8 102 = Ret (pb', Ok (0, 8)).
Proof. eexists. split; [vm_compute; reflexivity|]. split; [reflexivity|]. split; [vm_compute; reflexivity|]. eexists. vm_compute. reflexivity. Qed.

Definition pb_example : PacketBuffer Z := pb_new (replicate 3 pm_empty) (replicate 10 7).

Lemma pb_new_wf {H} (ms : list (PacketMetadata H)) bs :
  Zlen ms <= isize_max -> Zlen bs <= isize_max -> pb_wf (pb_new ms bs).
Proof.
  intros. unfold pb_wf, pb_new. cbn [metadata_ring payload_ring].
  split; [by apply rb_new_wf|]. split; [by apply rb_new_wf|].
  split; [reflexivity|]. split; [exact I|]. split; [exact I|]. discriminate.
Qed.

Lemma pb_example_wf : pb_wf pb_example.
Proof. apply pb_new_wf; vm_compute; discriminate. Qed.

Lemma pb_enqueue_spec_witness :
  wp (pb_enqueue pb_example 4 55) (fun '(pb', r) =>
    pb_wf pb' /\
    match r with
    | Ok (pos, len) =>
        len = 4 /\ Zlen (sub (rb_storage (payload_ring pb')) pos len) = 4 /\
        pb_packets pb' = pb_packets pb_example ++ [(55, sub (rb_storage (payload_ring pb')) pos len)]
    | Err _ => pb_packets pb' = pb_packets pb_example
    end).
Proof. apply (pb_enqueue_spec pb_example 4 55); [exact pb_example_wf | lia]. Defined.
