(* ===== verification/PacketRoom.v ===== *)
(** * The room in a packet buffer

    No operation changes the numbers of slots and octets of a packet buffer ([pb_room]), and a buffer
    without entries takes a packet that is not larger than its storage. *)

From S2P Require Import Prelude RingBuffer PacketBuffer.

Lemma wlp_passert (b : bool) (Q : unit -> Prop) : (b = true -> Q tt) -> wlp (passert b) Q.
Proof. destruct b; cbn; auto. Qed.

Lemma wlp_any {A} (m : res A) : wlp m (fun _ => True).
Proof. by destruct m. Qed.

Lemma wlp_slice {A} (l : list A) a b : wlp (slice l a b) (fun d => d = sub l a (b - a)).
Proof. unfold slice. by destruct (_ && _). Qed.

Lemma wlp_copy_into {A} (l : list A) k d : wlp (copy_into l k d) (fun l' => l' = splice l k d).
Proof. unfold copy_into. by destruct (_ && _). Qed.

Lemma copy_into_Zlen {A} (l : list A) k d : wlp (copy_into l k d) (fun l' => Zlen l' = Zlen l).
Proof.
  unfold copy_into. destruct (_ && _) eqn:E; [|done]. apply andb_true_iff in E as [E1 E2]. apply Zlen_splice; lia.
Qed.

Lemma index_set_Zlen {A} (l : list A) k x : wlp (index_set l k x) (fun l' => Zlen l' = Zlen l).
Proof. unfold index_set. destruct (_ && _); [|done]. unfold Zlen. cbn. by rewrite length_insert. Qed.

Lemma wp_and_wlp {A} (m : res A) P Q : wp m P -> wlp m Q -> wp m (fun a => P a /\ Q a).
Proof. by destruct m. Qed.

Lemma wlp_and {A} (m : res A) P Q : wlp m P -> wlp m Q -> wlp m (fun a => P a /\ Q a).
Proof. by destruct m. Qed.

(** Skip a step about which nothing need be known. *)
Ltac skip := eapply wlp_bind; [apply wlp_any|]; intros ? _.

(** ** Rings *)

Section Rings.
Context {T : Type}.
Implicit Types rb : RingBuffer T.

Lemma rb_enqueue_one_with_cap {R E} rb (f : Z -> T -> res (T * result R E)) :
  wlp (rb_enqueue_one_with rb f) (fun '(rb', _) => rb_capacity rb' = rb_capacity rb /\ rb_length rb <= rb_length rb').
Proof.
  unfold rb_enqueue_one_with. skip. destr_if; [by cbn|]. do 2 skip. eapply wlp_bind; [apply wlp_any|]. intros [x' r] _.
  eapply wlp_bind; [apply index_set_Zlen|]. intros st Hst. eapply (wlp_bind _ _ (fun len => rb_length rb <= len)); [|by cbn].
  destruct (is_ok r); [|by cbn]. unfold usize_add, checked. destr_if; [cbn; lia|done].
Qed.

Lemma rb_enqueue_one_cap rb :
  wlp (rb_enqueue_one rb) (fun '(rb', _) => rb_capacity rb' = rb_capacity rb /\ rb_length rb <= rb_length rb').
Proof. unfold rb_enqueue_one. eapply wlp_bind; [apply rb_enqueue_one_with_cap|]. by intros [rb' r]. Qed.

Lemma rb_dequeue_one_with_cap {R E} rb (f : Z -> T -> res (T * result R E)) (P : result R E -> Prop) :
  (forall p x, wlp (f p x) (fun '(_, r) => P r)) ->
  wlp (rb_dequeue_one_with rb f) (fun '(rb', r) => rb_capacity rb' = rb_capacity rb /\
    match r with Ok r => P r | Err _ => rb_is_empty rb' = true end).
Proof.
  intros Hf. unfold rb_dequeue_one_with. destr_if; [cbn [wlp]; by split|]. do 2 skip. eapply wlp_bind; [apply Hf|]. intros [x' r] Hr.
  eapply wlp_bind; [apply index_set_Zlen|]. intros st Hst. destr_if; [|by cbn]. skip. by cbn.
Qed.

Lemma rb_dequeue_one_cap rb :
  wlp (rb_dequeue_one rb) (fun '(rb', r) => rb_capacity rb' = rb_capacity rb /\ match r with Ok _ => True | Err _ => rb_is_empty rb' = true end).
Proof.
  unfold rb_dequeue_one. eapply wlp_bind; [apply (rb_dequeue_one_with_cap _ _ (fun r : result Z Empty => is_ok r = true)); by intros|].
  intros [rb' [[pos|e]|e]] []; by split.
Qed.

Lemma rb_enqueue_many_with_cap {R} rb (f : Z -> list T -> res (list T * Z * R)) :
  wlp (rb_enqueue_many_with rb f) (fun '(rb', _, _) => rb_capacity rb' = rb_capacity rb).
Proof.
  unfold rb_enqueue_many_with. set (rb0 := if rb_length rb =? 0 then _ else rb).
  assert (E : rb_capacity rb0 = rb_capacity rb) by (unfold rb0; by destr_if).
  do 4 skip. eapply wlp_bind; [apply wlp_any|]. intros [[d' size] r] _.
  eapply wlp_bind; [apply copy_into_Zlen|]. intros st Hst. do 2 skip. cbn. unfold rb_capacity in *. cbn. congruence.
Qed.

Lemma rb_dequeue_many_with_cap {R} rb (f : Z -> list T -> res (list T * Z * R)) :
  wlp (rb_dequeue_many_with rb f) (fun '(rb', _, _) => rb_capacity rb' = rb_capacity rb).
Proof.
  unfold rb_dequeue_many_with. do 3 skip. eapply wlp_bind; [apply wlp_any|]. intros [[d' size] r] _.
  eapply wlp_bind; [apply copy_into_Zlen|]. intros st Hst. do 3 skip. by cbn.
Qed.

Lemma rb_enqueue_many_cap rb n : wlp (rb_enqueue_many rb n) (fun '(rb', _) => rb_capacity rb' = rb_capacity rb).
Proof. unfold rb_enqueue_many. eapply wlp_bind; [apply rb_enqueue_many_with_cap|]. by intros [[rb' ?] r]. Qed.

Lemma rb_dequeue_many_cap rb n : wlp (rb_dequeue_many rb n) (fun '(rb', _) => rb_capacity rb' = rb_capacity rb).
Proof. unfold rb_dequeue_many. eapply wlp_bind; [apply rb_dequeue_many_with_cap|]. by intros [[rb' ?] r]. Qed.

Lemma rb_assign_cap rb pos x :
  wlp (rb_assign rb pos x) (fun rb' => rb_capacity rb' = rb_capacity rb /\ rb_length rb' = rb_length rb).
Proof. unfold rb_assign. eapply wlp_bind; [apply index_set_Zlen|]. by cbn. Qed.

Lemma rb_fill_cap rb pos d : wlp (rb_fill rb pos d) (fun rb' => rb_capacity rb' = rb_capacity rb).
Proof. unfold rb_fill. eapply wlp_bind; [apply copy_into_Zlen|]. by cbn. Qed.
End Rings.

(** ** Packet buffers *)

Section Room.
Context {H : Type}.
Implicit Types pb : PacketBuffer H.

(** The numbers of slots and octets. *)
Definition pb_room pb : Z * Z := (pb_packet_capacity pb, pb_payload_capacity pb).

(** A packet of [size] octets is not too large for such a buffer. *)
Definition fits (room : Z * Z) (size : Z) : Prop := 0 < fst room /\ size <= snd room.

(** The same room, and no fewer entries. *)
Definition pb_grows pb pb' : Prop :=
  pb_room pb' = pb_room pb /\ rb_length (metadata_ring pb) <= rb_length (metadata_ring pb').

Lemma pb_room_eq pb pb' :
  rb_capacity (metadata_ring pb') = rb_capacity (metadata_ring pb) ->
  rb_capacity (payload_ring pb') = rb_capacity (payload_ring pb) -> pb_room pb' = pb_room pb.
Proof. unfold pb_room, pb_packet_capacity, pb_payload_capacity. by intros -> ->. Qed.

Lemma pb_room_inv pb pb' : pb_room pb' = pb_room pb ->
  rb_capacity (metadata_ring pb') = rb_capacity (metadata_ring pb) /\ rb_capacity (payload_ring pb') = rb_capacity (payload_ring pb).
Proof. unfold pb_room, pb_packet_capacity, pb_payload_capacity. by intros [= -> ->]. Qed.

Lemma pb_push_metadata_grows pb m :
  wlp (pb_push_metadata pb m) (fun '(pb', _) => pb_grows pb pb' /\ payload_ring pb' = payload_ring pb).
Proof.
  unfold pb_push_metadata. eapply wlp_bind; [apply rb_enqueue_one_cap|]. intros [meta [pos|e]] [E L].
  - eapply wlp_bind; [apply rb_assign_cap|]. intros meta' [E' L']. cbn. split; [|done].
    split; [by apply pb_room_eq; [cbn; congruence|]|cbn; lia].
  - cbn. split; [|done]. split; [by apply pb_room_eq|done].
Qed.

Lemma pb_make_room_grows pb size : wlp (pb_make_room pb size) (fun '(pb', _) => pb_grows pb pb').
Proof.
  assert (Hrefl : pb_grows pb pb) by (split; [done|lia]).
  unfold pb_make_room. do 2 skip. destr_if; [done|]. destr_if; [|done]. skip. destr_if; [done|].
  eapply wlp_bind; [apply pb_push_metadata_grows|]. intros [pb1 [?|?]] [[Hr Hl] Hp]; [|done].
  eapply wlp_bind; [apply rb_enqueue_many_cap|]. intros [payload ?] E. apply pb_room_inv in Hr as [E1 E2]. split; [|done].
  apply pb_room_eq; cbn; congruence.
Qed.

Lemma pb_enqueue_grows pb n (h : H) : wlp (pb_enqueue pb n h) (fun '(pb', _) => pb_grows pb pb').
Proof.
  assert (Hrefl : pb_grows pb pb) by (split; [done|lia]).
  unfold pb_enqueue. skip. destr_if; [done|]. set (pb0 := if rb_is_empty _ then _ else pb).
  assert (E0 : pb_room pb0 = pb_room pb /\ metadata_ring pb0 = metadata_ring pb) by (unfold pb0; by destr_if).
  clearbody pb0. destruct E0 as [E0 M0]. eapply wlp_bind; [apply pb_make_room_grows|].
  intros [pb1 [?|?]] [E1 L1]; [|by split; [congruence|rewrite <- M0]].
  eapply wlp_bind; [apply pb_push_metadata_grows|]. intros [pb2 [?|?]] [[E2 L2] P2]; [|split; [congruence|rewrite <- M0; lia]].
  eapply wlp_bind; [apply rb_enqueue_many_cap|]. intros [payload [pos len]] Hp. skip. cbn [wlp].
  apply pb_room_inv in E2 as [E2 E2']. split; [|cbn [metadata_ring]; rewrite <- M0; lia].
  rewrite <- E0, <- E1. apply pb_room_eq; cbn [metadata_ring payload_ring]; congruence.
Qed.

Lemma pb_enqueue_with_infallible_room pb n (h : H) f :
  wlp (pb_enqueue_with_infallible pb n h f) (fun '(pb', _) => pb_room pb' = pb_room pb).
Proof.
  unfold pb_enqueue_with_infallible. skip. destr_if; [done|]. eapply wlp_bind; [apply pb_make_room_grows|].
  intros [pb1 [?|?]] [E1 _]; [|done]. eapply wlp_bind; [apply rb_enqueue_many_with_cap|]. intros [[payload size] ?] Hp.
  eapply wlp_bind; [apply pb_push_metadata_grows|]. intros [pb2 [?|?]] [[E2 _] P2]; cbn [wlp]; rewrite E2, <- E1; by apply pb_room_eq.
Qed.

Lemma pb_dequeue_padding_room pb : wlp (pb_dequeue_padding pb) (fun pb' => pb_room pb' = pb_room pb).
Proof.
  unfold pb_dequeue_padding. eapply wlp_bind.
  - apply (rb_dequeue_one_with_cap _ _ (fun r : result (RingBuffer Z) unit =>
      match r with Ok payload => rb_capacity payload = rb_capacity (payload_ring pb) | Err _ => True end)).
    intros p m. destr_if; [|done]. eapply wlp_bind; [apply rb_dequeue_many_cap|]. by intros [payload ?].
  - intros [meta [[payload|e]|e]] [Hm Hr]; by apply pb_room_eq.
Qed.

(** Without a packet to take, not even a padding is left. *)
Lemma pb_dequeue_room pb :
  wlp (pb_dequeue pb) (fun '(pb', r) => pb_room pb' = pb_room pb /\ (is_ok r = false -> pb_is_empty pb' = true)).
Proof.
  unfold pb_dequeue. eapply wlp_bind; [apply pb_dequeue_padding_room|]. intros pb1 E1.
  eapply wlp_bind; [apply rb_dequeue_one_cap|]. intros [meta [mpos|e]] [Em Hr].
  2: { cbn [wlp]. rewrite <- E1. split; [by apply pb_room_eq|]. by intros _. }
  skip. eapply wlp_bind; [apply rb_dequeue_many_cap|]. intros [payload [pos len]] Ep. skip.
  destruct (pm_header _); [|done]. eapply wlp_bind; [apply rb_assign_cap|]. intros meta' [Em' _]. skip. cbn [wlp is_ok].
  split; [|done]. rewrite <- E1. apply pb_room_eq; cbn; congruence.
Qed.

Lemma pb_dequeue_with_room {R E} pb (f : H -> list Z -> res (H * list Z * result R E)) :
  wlp (pb_dequeue_with pb f) (fun '(pb', r) => pb_room pb' = pb_room pb /\ (is_ok r = false -> pb_is_empty pb' = true)).
Proof.
  unfold pb_dequeue_with. eapply wlp_bind; [apply pb_dequeue_padding_room|]. intros pb1 E1.
  eapply wlp_bind.
  - apply (rb_dequeue_one_with_cap _ _ (fun r : result (R * RingBuffer Z) (E * RingBuffer Z) =>
      match r with Ok (_, payload) | Err (_, payload) => rb_capacity payload = rb_capacity (payload_ring pb1) end)).
    intros p m. eapply wlp_bind; [apply rb_dequeue_many_with_cap|]. intros [[payload ?] [h' [v|e]]] Ep; exact Ep.
  - intros [meta [[[v payload]|[e payload]]|e]] [Em Hr]; cbn [wlp is_ok]; rewrite <- E1; split; try done; by apply pb_room_eq.
Qed.

Lemma pb_peek_room pb : wlp (pb_peek pb) (fun '(pb', _) => pb_room pb' = pb_room pb).
Proof.
  unfold pb_peek. eapply wlp_bind; [apply pb_dequeue_padding_room|]. intros pb1 E1. skip. destruct a; [done|].
  destruct (pm_header _); [|done]. skip. done.
Qed.

(** ** Entries *)

Lemma pb_packets_idle pb : pb_packets pb <> [] -> pb_wf pb -> pb_is_empty pb = false.
Proof.
  intros Hp (Hmw & _). unfold pb_is_empty, rb_is_empty, rb_len. destruct (Z.eqb_spec (rb_length (metadata_ring pb)) 0) as [E|]; [|done].
  destruct Hp. unfold pb_packets, rb_contents. by rewrite E.
Qed.

Lemma pb_peek_idle pb : pb_wf pb -> wp (pb_peek pb) (fun '(pb', r) => is_ok r = false -> pb_is_empty pb' = true).
Proof.
  intros Hwf. unfold pb_peek. eapply wp_bind_mono; [apply (pb_dequeue_padding_ok pb Hwf)|].
  intros pb1 (Hwf1 & _ & Hh1). pose proof Hwf1 as (Hmw & Hpw & Hsz & _). pose proof Hmw as (? & ? & ? & ?). pose proof Hpw as (? & ? & _).
  rewrite rb_get_allocated_ok, bind_Ret by (auto; lia). rewrite rb_pos_0 by done. rewrite sub_0.
  destruct (pb_head_cases pb1 Hwf1 Hh1) as [(El & Ec & Ep)|(El & m & h & ms & Ec & Eh)]; rewrite Ec.
  - rewrite take_nil. cbn [wp]. intros _. unfold pb_is_empty, rb_is_empty, rb_len. by rewrite El.
  - replace (Z.to_nat _) with 1%nat by lia. cbn [take]. rewrite Eh. destruct (pb_first_ok pb1 m ms Hwf1 Ec) as (Hms & Hmc & Hb).
    rewrite rb_get_allocated_ok, bind_Ret by (auto; lia). done.
Qed.

(** The contiguous room of an empty ring that was rewound is its storage. *)
Lemma rb_cw_clear {T} (rb : RingBuffer T) : rb_wf rb -> rb_cw (rb_clear rb) = rb_capacity rb.
Proof.
  intros Hwf. pose proof Hwf as (? & ? & ? & ?). unfold rb_cw. change (rb_capacity (rb_clear rb)) with (rb_capacity rb).
  change (rb_length (rb_clear rb)) with 0. rewrite rb_pos_0 by (by apply rb_clear_wf). cbn. lia.
Qed.

(** An empty buffer takes what fits; otherwise its entries stay. *)
Lemma pb_enqueue_idle pb size (h : H) :
  pb_wf pb -> 0 <= size ->
  wlp (pb_enqueue pb size h) (fun '(pb', r) =>
    is_ok r = false -> pb_is_empty pb' = pb_is_empty pb /\ (pb_is_empty pb = true -> ~ fits (pb_room pb) size)).
Proof.
  intros Hwf Hs. pose proof Hwf as (Hmw & Hpw & _). destruct (pb_is_empty pb) eqn:Ei.
  2: { eapply wlp_mono; [apply pb_enqueue_grows|]. intros [pb' r] [_ Hl] _. split; [|done].
       unfold pb_is_empty, rb_is_empty, rb_len in *. destruct Hmw as (? & _). lia. }
  unfold pb_is_empty, rb_is_empty, rb_len in Ei. apply Z.eqb_eq in Ei. pose proof (pb_idle_empty pb Hwf Ei) as El.
  unfold pb_enqueue, rb_is_full. rewrite rb_window_ok, !bind_Ret, Ei by done. unfold fits, pb_room, pb_packet_capacity, pb_payload_capacity.
  cbn [fst snd]. destr_if.
  { cbn [wlp]. intros _. unfold pb_is_empty, rb_is_empty, rb_len. rewrite Ei. split; [done|]. intros _. lia. }
  apply orb_false_iff in Hif as [Hc Hf]. unfold rb_is_empty, rb_len. rewrite El. cbn [Z.eqb].
  unfold pb_make_room. cbn [payload_ring]. pose proof (rb_clear_wf _ Hpw) as Hcw.
  rewrite rb_window_ok, bind_Ret by done. rewrite rb_contiguous_window_ok, bind_Ret by done. rewrite rb_cw_clear by done.
  change (rb_capacity (rb_clear (payload_ring pb))) with (rb_capacity (payload_ring pb)). change (rb_length (rb_clear (payload_ring pb))) with 0.
  do 2 (destr_if; [lia|]). rewrite bind_Ret.
  destruct (pb_push_metadata_ok (mkPacketBuffer (metadata_ring pb) (rb_clear (payload_ring pb))) (pm_packet size h) Hmw)
    as [(E & _)|(_ & meta' & -> & _)]; [cbn in E; lia|]. rewrite bind_Ret.
  eapply wlp_bind; [apply wlp_any|]. intros [payload [pos len]] _. eapply wlp_bind; [apply wlp_any|]. done.
Qed.
End Room.
