(* ===== verification/TimeModel.v ===== *)
(** * Time (time.rs)

    [Instant] and [Duration] are wrappers around a number of microseconds, an [i64] and a
    [u64]; both are modelled by that number.  Arithmetic that leaves the type panics. *)

From S2P Require Import Prelude.

Abbreviation Instant := Z (only parsing).
Abbreviation Duration := Z (only parsing).

(** ** Instant *)

Definition instant_from_millis (millis : Z) : res Instant := i64_chk (millis * 1000).
Definition instant_from_secs (secs : Z) : res Instant := i64_chk (secs * 1000000).

(** [i64] division truncates towards zero. *)
Definition instant_millis (i : Instant) : Z := Z.quot (Z.rem i 1000000) 1000.
Definition instant_micros (i : Instant) : Z := Z.rem i 1000000.
Definition instant_secs (i : Instant) : Z := Z.quot i 1000000.
Definition instant_total_millis (i : Instant) : Z := Z.quot i 1000.

Definition instant_add (i : Instant) (d : Duration) : res Instant := i64_chk (i + wrap_i 64 d).
Definition instant_sub_duration (i : Instant) (d : Duration) : res Instant := i64_chk (i - wrap_i 64 d).
Definition instant_sub (a b : Instant) : res Duration := x ← i64_chk (a - b); Ret (Z.abs x).

(** ** Duration *)

Definition duration_from_millis (millis : Z) : res Duration := u64_chk (millis * 1000).
Definition duration_from_secs (secs : Z) : res Duration := u64_chk (secs * 1000000).
Definition duration_millis (d : Duration) : Z := d / 1000 mod 1000.
Definition duration_micros (d : Duration) : Z := d mod 1000000.
Definition duration_secs (d : Duration) : Z := d / 1000000.
Definition duration_total_millis (d : Duration) : Z := d / 1000.

Definition duration_add (a b : Duration) : res Duration := u64_chk (a + b).
Definition duration_sub (a b : Duration) : res Duration := u64_chk (a - b).
Definition duration_mul (d : Duration) (n : Z) : res Duration := u64_chk (d * n).
Definition duration_div (d : Duration) (n : Z) : res Duration := if n =? 0 then Panic else Ret (d / n).
Definition duration_shl (d : Duration) (n : Z) : res Duration :=
  if n <? 64 then Ret (wrap_u 64 (Z.shiftl d n)) else Panic.
Definition duration_shr (d : Duration) (n : Z) : res Duration :=
  if n <? 64 then Ret (Z.shiftr d n) else Panic.

(** ** Lemmas *)

(** Instants and durations far from the ends of their types: about 73,000 years. *)
Definition time_ok (t : Z) : Prop := 0 <= t <= 2 ^ 61.

Lemma wrap_i64_id d : 0 <= d <= i64_max -> wrap_i 64 d = d.
Proof. intros. unfold wrap_i. unfold_max. rewrite Z.mod_small; lia. Qed.

Lemma instant_add_ok i d : time_ok d -> - 2 ^ 61 <= i <= 2 ^ 62 -> instant_add i d = Ret (i + d).
Proof.
  intros Hd Hi. unfold instant_add, time_ok in *. rewrite wrap_i64_id by mlia.
  apply checked_ok. mlia.
Qed.

Lemma instant_sub_ok a b : - 2 ^ 61 <= a <= 2 ^ 62 -> - 2 ^ 61 <= b <= 2 ^ 62 -> instant_sub a b = Ret (Z.abs (a - b)).
Proof. intros. unfold instant_sub, i64_chk. rewrite checked_ok by mlia. done. Qed.

Lemma duration_from_millis_ok m : 0 <= m <= 2 ^ 50 -> duration_from_millis m = Ret (m * 1000).
Proof. intros. apply checked_ok. mlia. Qed.

Lemma duration_mul_ok d n : 0 <= d * n <= u64_max -> duration_mul d n = Ret (d * n).
Proof. apply checked_ok. Qed.

(** ** Properties *)

(** Adding a duration to an instant and subtracting the instant again gives the duration,
    subtracting the duration gives the instant, and the sum is not before the instant, for
    every pair whose sum is an [i64]. *)
Theorem instant_add_sub_roundtrip (i : Instant) (d : Duration) :
  in_i64 i -> 0 <= d <= i64_max -> i + d <= i64_max ->
  (j ← instant_add i d; instant_sub j i) = Ret d /\
  (j ← instant_add i d; instant_sub_duration j d) = Ret i /\
  (j ← instant_add i d; Ret (i <=? j)) = Ret true.
Proof.
  intros Hi Hd Hs. unfold instant_add, instant_sub_duration, instant_sub, i64_chk.
  rewrite wrap_i64_id by done. rewrite checked_ok, !bind_Ret by mlia.
  rewrite !checked_ok, bind_Ret by mlia. repeat split; f_equal; mlia.
Qed.

Lemma instant_add_sub_roundtrip_witness :
  (j ← instant_add 5 1000; instant_sub j 5) = Ret 1000 /\
  (j ← instant_add 5 1000; instant_sub_duration j 1000) = Ret 5 /\
  (j ← instant_add 5 1000; Ret (5 <=? j)) = Ret true.
Proof. apply (instant_add_sub_roundtrip 5 1000); vm_compute; intuition discriminate. Defined.
