(* ===== verification/TcpTimers.v ===== *)
(** * Timers of a TCP socket (socket/tcp.rs, socket/mod.rs)

    The round-trip time estimator with its retransmission timeout, the socket timer, the
    delayed-ACK timer and the poll time of a socket. *)

From S2P Require Import Prelude SeqNumber TimeModel.

(** ** PollAt *)

Inductive PollAt : Type :=
| PollNow
| PollTime (t : Instant)
| PollIngress.

(** The derived order: [Now], then the instants, then [Ingress]. *)
Definition poll_at_le (a b : PollAt) : bool :=
  match a, b with
  | PollNow, _ => true
  | PollTime _, PollNow => false
  | PollTime x, PollTime y => x <=? y
  | PollTime _, PollIngress => true
  | PollIngress, PollIngress => true
  | PollIngress, _ => false
  end.

(** [Iterator::min] keeps the first of several minimal elements. *)
Definition poll_at_min (a b : PollAt) : PollAt := if poll_at_le a b then a else b.

(** Whether a poll time asks for a poll at [now]. *)
Definition poll_due (p : PollAt) (now : Instant) : bool :=
  match p with PollNow => true | PollTime t => t <=? now | PollIngress => false end.

(** ** Round-trip time estimation *)

Definition RTTE_INITIAL_RTO : Z := 1000.
Definition RTTE_MIN_MARGIN : Z := 5.
Definition RTTE_K : Z := 4.
Definition RTTE_MIN_RTO : Z := 1000.
Definition RTTE_MAX_RTO : Z := 60000.

Record RttEstimator : Type := mkRttEstimator {
  have_measurement : bool;
  srtt : Z;
  rttvar : Z;
  rto : Z;
  timestamp : option (Instant * SeqNumber);
  max_seq_sent : option SeqNumber;
  rto_count : Z;
}.

Definition rtte_default : RttEstimator := mkRttEstimator false 0 0 RTTE_INITIAL_RTO None None 0.

Definition rtte_retransmission_timeout (r : RttEstimator) : res Duration := duration_from_millis (rto r).

Definition div_ceil (a b : Z) : Z := (a + b - 1) / b.

(** The [i32] difference of [sample], and the first measurement. *)
Definition rtte_update (r : RttEstimator) (new_rtt : Z) : res (bool * Z * Z) :=
  if have_measurement r then
    d ← checked (- 2 ^ 31) i32_max (wrap_i 32 (srtt r) - wrap_i 32 new_rtt);
    let diff := Z.abs d in
    v ← u32_chk (rttvar r * 3); v ← u32_chk (v + diff);
    s ← u32_chk (srtt r * 7); s ← u32_chk (s + new_rtt);
    Ret (true, div_ceil s 8, div_ceil v 4)
  else Ret (true, new_rtt, new_rtt / 2).

Definition rtte_sample (r : RttEstimator) (new_rtt : Z) : res RttEstimator :=
  '(hm, s, v) ← rtte_update r new_rtt;
  m ← u32_chk (v * RTTE_K);
  let margin := Z.max RTTE_MIN_MARGIN m in
  x ← u32_chk (s + margin);
  Ret (mkRttEstimator hm s v (Z.min (Z.max x RTTE_MIN_RTO) RTTE_MAX_RTO)
         (timestamp r) (max_seq_sent r) 0).

Definition rtte_on_send (r : RttEstimator) (now : Instant) (seq : SeqNumber) : RttEstimator :=
  if match max_seq_sent r with Some m => seq_gt seq m | None => true end then
    mkRttEstimator (have_measurement r) (srtt r) (rttvar r) (rto r)
      (match timestamp r with None => Some (now, seq) | Some t => Some t end)
      (Some seq) (rto_count r)
  else r.

Definition rtte_on_ack (r : RttEstimator) (now : Instant) (seq : SeqNumber) : res RttEstimator :=
  match timestamp r with
  | Some (sent_timestamp, sent_seq) =>
      if seq_ge seq sent_seq then
        d ← instant_sub now sent_timestamp;
        r ← rtte_sample r (wrap_u 32 (duration_total_millis d));
        Ret (mkRttEstimator (have_measurement r) (srtt r) (rttvar r) (rto r) None
               (max_seq_sent r) (rto_count r))
      else Ret r
  | None => Ret r
  end.

Definition rtte_on_retransmit (r : RttEstimator) : res RttEstimator :=
  x ← u32_chk (rto r * 2);
  c ← checked 0 u8_max (rto_count r + 1);
  let reset := 3 <=? c in
  Ret (mkRttEstimator (if reset then false else have_measurement r) (srtt r) (rttvar r)
         (Z.min x RTTE_MAX_RTO) None (max_seq_sent r) (if reset then 0 else c)).

(** ** The socket timer *)

Inductive Timer : Type :=
| TimerIdle (keep_alive_at : option Instant)
| TimerRetransmit (expires_at : Instant)
| TimerFastRetransmit
| TimerZeroWindowProbe (expires_at : Instant) (delay : Duration)
| TimerClose (expires_at : Instant).

Definition ACK_DELAY_DEFAULT : Duration := 10 * 1000.
Definition CLOSE_DELAY : Duration := 10000 * 1000.

Definition timer_new : Timer := TimerIdle None.

Definition timer_should_keep_alive (t : Timer) (now : Instant) : bool :=
  match t with TimerIdle (Some keep_alive_at) => keep_alive_at <=? now | _ => false end.

Definition timer_should_retransmit (t : Timer) (now : Instant) : bool :=
  match t with
  | TimerRetransmit expires_at => expires_at <=? now
  | TimerFastRetransmit => true
  | _ => false
  end.

Definition timer_should_close (t : Timer) (now : Instant) : bool :=
  match t with TimerClose expires_at => expires_at <=? now | _ => false end.

Definition timer_should_zero_window_probe (t : Timer) (now : Instant) : bool :=
  match t with TimerZeroWindowProbe expires_at _ => expires_at <=? now | _ => false end.

Definition timer_poll_at (t : Timer) : PollAt :=
  match t with
  | TimerIdle (Some keep_alive_at) => PollTime keep_alive_at
  | TimerIdle None => PollIngress
  | TimerZeroWindowProbe expires_at _ => PollTime expires_at
  | TimerRetransmit expires_at => PollTime expires_at
  | TimerFastRetransmit => PollNow
  | TimerClose expires_at => PollTime expires_at
  end.

(** [interval.map(|interval| timestamp + interval)]. *)
Definition after_interval (now : Instant) (interval : option Duration) : res (option Instant) :=
  match interval with
  | Some d => t ← instant_add now d; Ret (Some t)
  | None => Ret None
  end.

Definition timer_set_for_idle (now : Instant) (interval : option Duration) : res Timer :=
  k ← after_interval now interval; Ret (TimerIdle k).

Definition timer_set_keep_alive (t : Timer) : Timer :=
  match t with TimerIdle None => TimerIdle (Some 0) | _ => t end.

Definition timer_rewind_keep_alive (t : Timer) (now : Instant) (interval : option Duration) : res Timer :=
  match t with
  | TimerIdle _ => k ← after_interval now interval; Ret (TimerIdle k)
  | _ => Ret t
  end.

Definition timer_set_for_retransmit (t : Timer) (now : Instant) (delay : Duration) : res Timer :=
  match t with
  | TimerIdle _ | TimerFastRetransmit | TimerRetransmit _ | TimerZeroWindowProbe _ _ =>
      e ← instant_add now delay; Ret (TimerRetransmit e)
  | TimerClose _ => Ret t
  end.

Definition timer_set_for_fast_retransmit : Timer := TimerFastRetransmit.

Definition timer_set_for_close (now : Instant) : res Timer :=
  e ← instant_add now CLOSE_DELAY; Ret (TimerClose e).

Definition timer_set_for_zero_window_probe (now : Instant) (delay : Duration) : res Timer :=
  e ← instant_add now delay; Ret (TimerZeroWindowProbe e delay).

Definition timer_rewind_zero_window_probe (t : Timer) (now : Instant) : res Timer :=
  match t with
  | TimerZeroWindowProbe _ delay =>
      d ← duration_mul delay 2;
      m ← duration_from_millis RTTE_MAX_RTO;
      let delay := Z.min d m in
      e ← instant_add now delay; Ret (TimerZeroWindowProbe e delay)
  | _ => Ret t
  end.

Definition timer_is_idle (t : Timer) : bool := match t with TimerIdle _ => true | _ => false end.
Definition timer_is_zero_window_probe (t : Timer) : bool :=
  match t with TimerZeroWindowProbe _ _ => true | _ => false end.
Definition timer_is_retransmit (t : Timer) : bool :=
  match t with TimerRetransmit _ | TimerFastRetransmit => true | _ => false end.

Inductive AckDelayTimer : Type :=
| AckIdle
| AckWaiting (t : Instant)
| AckImmediate.

(** ** Invariants *)

(** The largest round-trip time sample for which the [u32] arithmetic does not overflow with
    room to spare: 2^28 ms, about 74 hours. *)
Definition rtt_max : Z := 2 ^ 28.

Definition rtte_wf (r : RttEstimator) : Prop :=
  0 <= srtt r <= rtt_max /\ 0 <= rttvar r <= rtt_max /\
  RTTE_MIN_RTO <= rto r <= RTTE_MAX_RTO /\ 0 <= rto_count r <= 2 /\
  match timestamp r with Some (t, _) => time_ok t | None => True end.

(** The sample pending at [now], if any, is not older than [rtt_max]. *)
Definition rtte_fresh (r : RttEstimator) (now : Instant) : Prop :=
  match timestamp r with
  | Some (t, _) => Z.abs (now - t) <= rtt_max * 1000
  | None => True
  end.

(** Delays of the zero window probe and expiry times stay far from overflow. *)
Definition timer_wf (t : Timer) : Prop :=
  match t with TimerZeroWindowProbe _ delay => 0 <= delay <= RTTE_MAX_RTO * 1000 | _ => True end.

Definition interval_ok (d : option Duration) : Prop :=
  match d with Some d => time_ok d | None => True end.

Ltac unfold_rtte :=
  unfold rtte_wf, rtte_fresh, rtt_max, RTTE_MIN_RTO, RTTE_MAX_RTO, RTTE_K, RTTE_MIN_MARGIN,
    RTTE_INITIAL_RTO, time_ok in *.

Lemma rtte_default_wf : rtte_wf rtte_default.
Proof. vm_compute. intuition discriminate. Qed.

Lemma div_ceil_bounds a b m : 0 < b -> 0 <= a <= b * m -> 0 <= div_ceil a b <= m.
Proof.
  intros. unfold div_ceil. split; [apply Z.div_pos; lia|].
  apply Z.lt_succ_r, Z.div_lt_upper_bound; nia.
Qed.

Lemma wrap_i32_id x : 0 <= x < 2 ^ 31 -> wrap_i 32 x = x.
Proof. intros. unfold wrap_i. rewrite Z.mod_small; lia. Qed.

Lemma rtte_update_ok r n :
  rtte_wf r -> 0 <= n <= rtt_max ->
  wp (rtte_update r n) (fun '(hm, s, v) =>
    hm = true /\ 0 <= s <= rtt_max /\ 0 <= v <= rtt_max).
Proof.
  intros (Hs & Hv & _) Hn. unfold rtte_update. destruct (have_measurement r).
  - rewrite !wrap_i32_id by (unfold_rtte; lia).
    unfold u32_chk. cbv zeta. do 5 chk_step ltac:(unfold_rtte; mlia).
    cbn [wp]. split; [done|]. split; apply div_ceil_bounds; unfold_rtte; lia.
  - cbn [wp]. split; [done|]. split; [lia|]. split; [apply Z.div_pos; lia|].
    apply Z.div_le_upper_bound; lia.
Qed.

Lemma rtte_sample_ok r n :
  rtte_wf r -> 0 <= n <= rtt_max ->
  wp (rtte_sample r n) (fun r' =>
    rtte_wf r' /\ have_measurement r' = true /\ rto_count r' = 0 /\
    timestamp r' = timestamp r /\ max_seq_sent r' = max_seq_sent r).
Proof.
  intros Hr Hn. unfold rtte_sample. wp_bind_with (rtte_update_ok r n Hr Hn).
  intros [[hm s] v] (-> & Hs & Hv). unfold u32_chk.
  do 2 chk_step ltac:(unfold_rtte; mlia). cbn [wp]. unfold_rtte.
  cbn [srtt rttvar rto rto_count timestamp max_seq_sent have_measurement].
  destruct Hr as (_ & _ & _ & _ & Ht). repeat split; auto; lia.
Qed.

Lemma rtte_on_ack_ok r now seq :
  rtte_wf r -> rtte_fresh r now -> time_ok now ->
  wp (rtte_on_ack r now seq) (fun r' => rtte_wf r' /\ (timestamp r' = None \/ r' = r)).
Proof.
  intros Hr Hf Hnow. unfold rtte_on_ack.
  destruct (timestamp r) as [[t sq]|] eqn:Et; [|cbn; auto].
  destr_if; [|cbn; auto]. pose proof Hr as (_ & _ & _ & _ & Ht). rewrite Et in Ht.
  unfold rtte_fresh in Hf. rewrite Et in Hf. unfold duration_total_millis.
  rewrite instant_sub_ok, bind_Ret by (unfold time_ok in *; lia).
  assert (Hm : 0 <= Z.abs (now - t) / 1000 <= rtt_max)
    by (split; [apply Z.div_pos; lia | apply Z.div_le_upper_bound; lia]).
  rewrite wrap_u_id by (unfold rtt_max in *; lia).
  wp_bind_with (rtte_sample_ok r _ Hr Hm). intros r' (Hr' & _). cbn [wp].
  split; [|left; done]. unfold rtte_wf in *. cbn. tauto.
Qed.

Lemma rtte_on_retransmit_ok r :
  rtte_wf r ->
  exists r', rtte_on_retransmit r = Ret r' /\ rtte_wf r' /\ timestamp r' = None /\
    rto r' = Z.min (2 * rto r) RTTE_MAX_RTO /\ max_seq_sent r' = max_seq_sent r.
Proof.
  intros Hr. pose proof Hr as (Hs & Hv & Hrto & Hc & _). unfold rtte_on_retransmit, u32_chk.
  do 2 chk_step ltac:(unfold_rtte; mlia).
  eexists. split; [reflexivity|]. unfold rtte_wf.
  cbn [srtt rttvar rto rto_count timestamp max_seq_sent]. unfold_rtte.
  repeat split; try lia; destruct (3 <=? rto_count r + 1) eqn:E; lia.
Qed.

Lemma rtte_on_send_wf r now seq : rtte_wf r -> time_ok now -> rtte_wf (rtte_on_send r now seq).
Proof.
  intros Hr Hn. unfold rtte_on_send. destr_if; [|done]. unfold rtte_wf in *. cbn.
  destruct (timestamp r) as [[? ?]|]; tauto.
Qed.

Lemma rtte_timeout_ok r : rtte_wf r -> rtte_retransmission_timeout r = Ret (rto r * 1000).
Proof. intros Hr. apply duration_from_millis_ok. destruct Hr as (_ & _ & ? & _). unfold_rtte. lia. Qed.

Lemma after_interval_ok now d :
  time_ok now -> interval_ok d -> after_interval now d = Ret (option_map (Z.add now) d).
Proof.
  intros Hn Hd. unfold after_interval. destruct d as [d|]; [|done]. cbn in Hd.
  rewrite instant_add_ok by (unfold time_ok in *; lia). done.
Qed.

Lemma timer_set_for_idle_ok now d :
  time_ok now -> interval_ok d -> timer_set_for_idle now d = Ret (TimerIdle (option_map (Z.add now) d)).
Proof. intros. unfold timer_set_for_idle. by rewrite after_interval_ok, bind_Ret. Qed.

Lemma timer_rewind_keep_alive_ok t now d :
  time_ok now -> interval_ok d ->
  timer_rewind_keep_alive t now d =
    Ret (if timer_is_idle t then TimerIdle (option_map (Z.add now) d) else t).
Proof.
  intros. unfold timer_rewind_keep_alive. destruct t; try done. by rewrite after_interval_ok, bind_Ret.
Qed.

Lemma timer_set_for_retransmit_ok t now d :
  time_ok now -> time_ok d ->
  timer_set_for_retransmit t now d =
    Ret (match t with TimerClose _ => t | _ => TimerRetransmit (now + d) end).
Proof.
  intros. unfold timer_set_for_retransmit.
  rewrite instant_add_ok by (unfold time_ok in *; lia). by destruct t.
Qed.

Lemma timer_set_for_close_ok now :
  time_ok now -> timer_set_for_close now = Ret (TimerClose (now + CLOSE_DELAY)).
Proof.
  intros. unfold timer_set_for_close, CLOSE_DELAY.
  rewrite instant_add_ok by (unfold time_ok in *; lia). done.
Qed.

Lemma timer_set_for_zero_window_probe_ok now d :
  time_ok now -> time_ok d ->
  timer_set_for_zero_window_probe now d = Ret (TimerZeroWindowProbe (now + d) d).
Proof.
  intros. unfold timer_set_for_zero_window_probe.
  rewrite instant_add_ok by (unfold time_ok in *; lia). done.
Qed.

Lemma timer_rewind_zero_window_probe_ok t now :
  time_ok now -> timer_wf t ->
  exists t', timer_rewind_zero_window_probe t now = Ret t' /\ timer_wf t' /\
    (timer_is_zero_window_probe t = true ->
     exists e d, t = TimerZeroWindowProbe e d /\
       t' = TimerZeroWindowProbe (now + Z.min (2 * d) 60000000) (Z.min (2 * d) 60000000)).
Proof.
  intros Hn Ht. unfold timer_rewind_zero_window_probe.
  destruct t as [| | |e d|]; try (eexists; split; [reflexivity|]; split; [done|]; discriminate).
  cbn in Ht. unfold RTTE_MAX_RTO in *. rewrite duration_mul_ok, bind_Ret by mlia.
  rewrite duration_from_millis_ok, bind_Ret by lia.
  rewrite instant_add_ok, bind_Ret by (unfold time_ok in *; lia).
  eexists. split; [reflexivity|]. split; [cbn; unfold RTTE_MAX_RTO; lia|].
  intros _. exists e, d. split; [done|]. f_equal; lia.
Qed.

Lemma poll_at_min_due a b now :
  poll_due (poll_at_min a b) now = poll_due a now || poll_due b now.
Proof.
  unfold poll_at_min. destruct a as [|x|], b as [|y|]; cbn; try done;
    rewrite ?orb_true_r, ?orb_false_r; try done.
  destruct (Z.leb_spec x y); cbn; destruct (Z.leb_spec x now), (Z.leb_spec y now); cbn; try done; lia.
Qed.

(** ** Runs of the estimator *)

(** What the socket reports to the estimator. *)
Inductive rtte_event : Type :=
| RttSend (now : Instant) (seq : SeqNumber)
| RttAck (now : Instant) (seq : SeqNumber)
| RttRetransmit.

Definition rtte_step (r : RttEstimator) (e : rtte_event) : res RttEstimator :=
  match e with
  | RttSend now seq => Ret (rtte_on_send r now seq)
  | RttAck now seq => rtte_on_ack r now seq
  | RttRetransmit => rtte_on_retransmit r
  end.

Fixpoint rtte_run (r : RttEstimator) (es : list rtte_event) : res RttEstimator :=
  match es with
  | [] => Ret r
  | e :: es => r ← rtte_step r e; rtte_run r es
  end.

(** The clock values of the events lie in the [rtt_max] milliseconds after [b]. *)
Definition rtte_event_in (b : Instant) (e : rtte_event) : Prop :=
  match e with
  | RttSend now _ | RttAck now _ => b <= now <= b + rtt_max * 1000
  | RttRetransmit => True
  end.

Definition rtte_pending_in (b : Instant) (r : RttEstimator) : Prop :=
  match timestamp r with Some (t, _) => b <= t <= b + rtt_max * 1000 | None => True end.

Lemma rtte_step_ok b r e :
  0 <= b <= 2 ^ 60 -> rtte_wf r -> rtte_pending_in b r -> rtte_event_in b e ->
  wp (rtte_step r e) (fun r' => rtte_wf r' /\ rtte_pending_in b r').
Proof.
  intros Hb Hr Hp He. destruct e as [now seq|now seq|]; cbn [rtte_step rtte_event_in] in *.
  - cbn [wp]. split; [apply rtte_on_send_wf; unfold time_ok, rtt_max in *; auto; lia|].
    unfold rtte_on_send. destr_if; [|done]. unfold rtte_pending_in in *. cbn.
    by destruct (timestamp r) as [[? ?]|].
  - eapply wp_mono; [apply rtte_on_ack_ok; auto|].
    + unfold rtte_fresh, rtte_pending_in in *. destruct (timestamp r) as [[? ?]|]; lia.
    + unfold time_ok, rtt_max in *. lia.
    + intros r' [Hr' [Ht| ->]]; [|done]. split; [done|]. unfold rtte_pending_in. by rewrite Ht.
  - destruct (rtte_on_retransmit_ok r Hr) as (r' & -> & Hr' & Ht & _). cbn [wp].
    split; [done|]. unfold rtte_pending_in. by rewrite Ht.
Qed.

(** ** Properties *)

(** C39: however the socket drives the round-trip time estimator, starting from its default
    state and with a clock that advances by at most 2^28 ms in between, the [u32] and [i32]
    arithmetic of the estimator does not overflow, and the retransmission timeout stays
    between one second and one minute. *)
Theorem rtte_run_bounded (b : Instant) (es : list rtte_event) :
  0 <= b <= 2 ^ 60 -> Forall (rtte_event_in b) es ->
  wp (rtte_run rtte_default es) (fun r => RTTE_MIN_RTO <= rto r <= RTTE_MAX_RTO /\ rtte_wf r).
Proof.
  intros Hb Hes.
  assert (H : forall r, rtte_wf r -> rtte_pending_in b r ->
            wp (rtte_run r es) (fun r => RTTE_MIN_RTO <= rto r <= RTTE_MAX_RTO /\ rtte_wf r)).
  { induction Hes as [|e es He Hes IH]; intros r Hr Hp; cbn [rtte_run].
    - cbn [wp]. split; [apply Hr|done].
    - wp_bind_with (rtte_step_ok b r e Hb Hr Hp He). intros r' [Hr' Hp']. by apply IH. }
  apply H; [apply rtte_default_wf | done].
Qed.

Lemma rtte_run_bounded_witness :
  wp (rtte_run rtte_default [RttSend 0 5; RttRetransmit; RttSend 10 9; RttAck 3000000 9])
    (fun r => RTTE_MIN_RTO <= rto r <= RTTE_MAX_RTO /\ rtte_wf r).
Proof.
  apply (rtte_run_bounded 0); [lia|]. repeat (constructor; [vm_compute; intuition discriminate|]). constructor.
Defined.

(** Each retransmission in a row doubles the retransmission timeout up to the maximum of
    one minute (RFC 6298, 5.5). *)
Theorem rtte_backoff (n : nat) (r : RttEstimator) :
  rtte_wf r ->
  wp (rtte_run r (replicate n RttRetransmit)) (fun r' =>
    rto r' = Z.min (rto r * 2 ^ Z.of_nat n) RTTE_MAX_RTO).
Proof.
  revert r. induction n as [|n IH]; intros r Hr; cbn [replicate rtte_run].
  - cbn [wp]. destruct Hr as (_ & _ & ? & _). unfold RTTE_MAX_RTO in *. lia.
  - cbn [rtte_step]. destruct (rtte_on_retransmit_ok r Hr) as (r1 & -> & Hr1 & _ & Hd & _).
    rewrite bind_Ret. eapply wp_mono; [by apply IH|]. cbn beta. intros r' ->.
    rewrite Hd. replace (Z.of_nat (S n)) with (Z.of_nat n + 1) by lia.
    rewrite Z.pow_add_r by lia. pose proof (Z.pow_pos_nonneg 2 (Z.of_nat n)).
    destruct Hr as (_ & _ & ? & _). unfold RTTE_MAX_RTO, RTTE_MIN_RTO in *.
    destruct (Z.le_gt_cases (2 * rto r) 60000); [rewrite (Z.min_l (2 * _)) by lia; lia|].
    rewrite (Z.min_r (2 * _)) by lia. rewrite !Z.min_r; nia.
Qed.

Lemma rtte_backoff_witness :
  wp (rtte_run rtte_default (replicate 3 RttRetransmit)) (fun r' =>
    rto r' = Z.min (rto rtte_default * 2 ^ Z.of_nat 3) RTTE_MAX_RTO).
Proof. apply (rtte_backoff 3 rtte_default). vm_compute. intuition discriminate. Defined.
