(* ===== verification/Congestion.v ===== *)
(** * Congestion control (socket/tcp/congestion.rs, congestion/{no_control,reno,cubic}.rs)

    The trait [Controller] is the class below, its three implementations are instances, and
    [AnyController] dispatches to the one a socket uses.  The [f64] arithmetic of Cubic is
    the binary64 arithmetic of [SpecFloat].  [ControllerLaws] is what the TCP socket relies
    on: an invariant kept by every operation, under which the window is never zero. *)

From Stdlib Require Import SpecFloat.
From S2P Require Import Prelude SeqNumber TimeModel TcpTimers.

Class Controller (C : Type) : Type := {
  ctl_window : C -> Z;
  ctl_set_remote_window : C -> Z -> C;
  ctl_on_ack : C -> Instant -> Z -> RttEstimator -> C;
  ctl_on_retransmit : C -> Instant -> C;
  ctl_on_duplicate_ack : C -> Instant -> C;
  ctl_pre_transmit : C -> Instant -> res C;
  ctl_post_transmit : C -> Instant -> Z -> C;
  ctl_set_mss : C -> Z -> C;
}.

Definition saturating_add (a b : Z) : Z := Z.min (a + b) usize_max.

(** ** No control *)

Inductive NoControl : Type := mkNoControl.

#[export] Instance no_control_controller : Controller NoControl := {|
  ctl_window c := usize_max;
  ctl_set_remote_window c _ := c;
  ctl_on_ack c _ _ _ := c;
  ctl_on_retransmit c _ := c;
  ctl_on_duplicate_ack c _ := c;
  ctl_pre_transmit c _ := Ret c;
  ctl_post_transmit c _ _ := c;
  ctl_set_mss c _ := c;
|}.

(** ** Reno *)

Record Reno : Type := mkReno {
  reno_cwnd : Z; reno_min_cwnd : Z; reno_ssthresh : Z; reno_rwnd : Z;
}.

Definition reno_new : Reno := mkReno (1024 * 2) (1024 * 2) usize_max (64 * 1024).

Definition reno_on_ack (c : Reno) (len : Z) : Reno :=
  let slow_start := reno_cwnd c <? reno_ssthresh c in
  let ssthresh := if slow_start then reno_ssthresh c else reno_cwnd c in
  let len := if slow_start then len else reno_min_cwnd c in
  mkReno (Z.max (Z.min (saturating_add (reno_cwnd c) len) (reno_rwnd c)) (reno_min_cwnd c))
    (reno_min_cwnd c) ssthresh (reno_rwnd c).

Definition reno_on_duplicate_ack (c : Reno) : Reno :=
  mkReno (reno_cwnd c) (reno_min_cwnd c)
    (Z.max (Z.shiftr (reno_cwnd c) 1) (reno_min_cwnd c)) (reno_rwnd c).

Definition reno_on_retransmit (c : Reno) : Reno :=
  mkReno (Z.max (Z.shiftr (reno_cwnd c) 1) (reno_min_cwnd c))
    (reno_min_cwnd c) (reno_ssthresh c) (reno_rwnd c).

Definition reno_set_mss (c : Reno) (mss : Z) : Reno :=
  mkReno (reno_cwnd c) mss (reno_ssthresh c) (reno_rwnd c).

Definition reno_set_remote_window (c : Reno) (remote_window : Z) : Reno :=
  mkReno (reno_cwnd c) (reno_min_cwnd c) (reno_ssthresh c)
    (if reno_rwnd c <? remote_window then remote_window else reno_rwnd c).

#[export] Instance reno_controller : Controller Reno := {|
  ctl_window := reno_cwnd;
  ctl_set_remote_window := reno_set_remote_window;
  ctl_on_ack c _ len _ := reno_on_ack c len;
  ctl_on_retransmit c _ := reno_on_retransmit c;
  ctl_on_duplicate_ack c _ := reno_on_duplicate_ack c;
  ctl_pre_transmit c _ := Ret c;
  ctl_post_transmit c _ _ := c;
  ctl_set_mss := reno_set_mss;
|}.

(** ** Cubic *)

Abbreviation f64 := spec_float (only parsing).

(** [x as f64] for an integer: rounded to nearest, ties to even. *)
Definition f64_of_Z (x : Z) : f64 := binary_normalize 53 1024 x 0 false.

(** [m * 2^e], for the literals below. *)
Definition f64_lit (m : positive) (e : Z) : f64 := S754_finite false m e.

(** [x as usize]: truncated towards zero, saturating, zero for NaN. *)
Definition f64_to_usize (x : f64) : Z :=
  match x with
  | S754_zero _ | S754_nan | S754_infinity true | S754_finite true _ _ => 0
  | S754_infinity false => usize_max
  | S754_finite false m e => Z.min usize_max (Z.shiftl (Zpos m) e)
  end.

Definition f64_add := SFadd 53 1024.
Definition f64_sub := SFsub 53 1024.
Definition f64_mul := SFmul 53 1024.
Definition f64_div := SFdiv 53 1024.
Definition f64_lt := SFltb.
Definition f64_le := SFleb.

Definition BETA_CUBIC : f64 := f64_lit 6305039478318694 (-53).
Definition CUBIC_C : f64 := f64_lit 7205759403792794 (-54).

Record Cubic : Type := mkCubic {
  cubic_cwnd : Z; cubic_min_cwnd : Z; cubic_w_max : Z; cubic_recovery_start : option Instant;
  cubic_rwnd : Z; cubic_last_update : Instant; cubic_ssthresh : Z;
}.

Definition cubic_new : Cubic := mkCubic (1024 * 2) (1024 * 2) (1024 * 2) None (64 * 1024) 0 usize_max.

(** [on_retransmit] and [on_duplicate_ack] have the same body. *)
Definition cubic_congestion_event (c : Cubic) (now : Instant) : Cubic :=
  mkCubic (cubic_cwnd c) (cubic_min_cwnd c) (cubic_cwnd c) (Some now) (cubic_rwnd c)
    (cubic_last_update c) (Z.shiftr (cubic_cwnd c) 1).

Definition cubic_set_remote_window (c : Cubic) (remote_window : Z) : Cubic :=
  mkCubic (cubic_cwnd c) (cubic_min_cwnd c) (cubic_w_max c) (cubic_recovery_start c)
    (if cubic_rwnd c <? remote_window then remote_window else cubic_rwnd c)
    (cubic_last_update c) (cubic_ssthresh c).

Definition cubic_set_cwnd (c : Cubic) (cwnd : Z) : Cubic :=
  mkCubic cwnd (cubic_min_cwnd c) (cubic_w_max c) (cubic_recovery_start c) (cubic_rwnd c)
    (cubic_last_update c) (cubic_ssthresh c).

Definition cubic_on_ack (c : Cubic) (len : Z) : Cubic :=
  if cubic_cwnd c <? cubic_ssthresh c then
    cubic_set_cwnd c (Z.max (Z.min (saturating_add (cubic_cwnd c) len) (cubic_rwnd c)) (cubic_min_cwnd c))
  else c.

Definition f64_abs (a : f64) : f64 := if f64_lt a (f64_of_Z 0) then SFopp a else a.

(** The Newton iteration; [n] is the remaining number of iterations. *)
Fixpoint cube_root_loop (n : nat) (a tolerance x : f64) : f64 :=
  let next_x := f64_div (f64_add (f64_mul (f64_of_Z 2) x) (f64_div a (f64_mul x x))) (f64_of_Z 3) in
  if f64_lt (f64_abs (f64_sub next_x x)) tolerance then next_x
  else match n with O => next_x | S n => cube_root_loop n a tolerance next_x end.

Definition cube_root (a : f64) : option f64 :=
  if f64_le a (f64_of_Z 0) then None
  else
    let '(tolerance, init) :=
      if f64_lt a (f64_of_Z 1000) then (f64_of_Z 1, f64_lit 4998455164235935 (-49))
      else if f64_lt a (f64_of_Z 1000000) then (f64_of_Z 5, f64_lit 6248068955294918 (-46))
      else if f64_lt a (f64_of_Z 1000000000) then (f64_of_Z 50, f64_lit 7810086194118647 (-43))
      else if f64_lt a (f64_of_Z 1000000000000) then (f64_of_Z 500, f64_lit 4881303871324154 (-39))
      else if f64_lt a (f64_of_Z 1000000000000000) then (f64_of_Z 5000, f64_lit 6101629839155191 (-36))
      else (f64_of_Z 50000, f64_lit 7627037298943988 (-33)) in
    Some (cube_root_loop 20 a tolerance init).

(** The window the cubic function gives [t] milliseconds after the congestion event. *)
Definition cubic_function (w_max t : Z) : option Z :=
  let k3 := f64_div (f64_mul (f64_of_Z w_max) (f64_sub (f64_of_Z 1) BETA_CUBIC)) CUBIC_C in
  match cube_root k3 with
  | None => None
  | Some k =>
      let s := f64_sub (f64_div (f64_of_Z t) (f64_of_Z 1000)) k in
      let s := f64_mul (f64_mul s s) s in
      Some (f64_to_usize (f64_add (f64_mul CUBIC_C s) (f64_of_Z w_max)))
  end.

Definition cubic_pre_transmit (c : Cubic) (now : Instant) : res Cubic :=
  match cubic_recovery_start c with
  | None =>
      Ret (mkCubic (cubic_cwnd c) (cubic_min_cwnd c) (cubic_w_max c) (Some now) (cubic_rwnd c)
             (cubic_last_update c) (cubic_ssthresh c))
  | Some recovery_start =>
      let now_millis := instant_total_millis now in
      recent ← (if recovery_start <? cubic_last_update c then
                  d ← i64_chk (now_millis - instant_total_millis (cubic_last_update c));
                  Ret (d <? 100)
                else Ret false);
      if (recent : bool) then Ret c
      else
        t ← i64_chk (now_millis - instant_total_millis recovery_start);
        if t <? 0 then Ret c
        else
          match cubic_function (cubic_w_max c) t with
          | None => Ret c
          | Some cwnd =>
              Ret (mkCubic (Z.min (Z.max cwnd (cubic_min_cwnd c)) (cubic_rwnd c)) (cubic_min_cwnd c)
                     (cubic_w_max c) (Some recovery_start) (cubic_rwnd c) now (cubic_ssthresh c))
          end
  end.

Definition cubic_set_mss (c : Cubic) (mss : Z) : Cubic :=
  mkCubic (cubic_cwnd c) mss (cubic_w_max c) (cubic_recovery_start c) (cubic_rwnd c)
    (cubic_last_update c) (cubic_ssthresh c).

#[export] Instance cubic_controller : Controller Cubic := {|
  ctl_window := cubic_cwnd;
  ctl_set_remote_window := cubic_set_remote_window;
  ctl_on_ack c _ len _ := cubic_on_ack c len;
  ctl_on_retransmit := cubic_congestion_event;
  ctl_on_duplicate_ack := cubic_congestion_event;
  ctl_pre_transmit := cubic_pre_transmit;
  ctl_post_transmit c _ _ := c;
  ctl_set_mss := cubic_set_mss;
|}.

(** ** AnyController *)

Inductive AnyController : Type :=
| AnyNone (n : NoControl)
| AnyReno (r : Reno)
| AnyCubic (c : Cubic).

(** The choice of [AnyController::new] for the features [socket-tcp-cubic] and
    [socket-tcp-reno]. *)
Definition any_new (feature_cubic feature_reno : bool) : AnyController :=
  if feature_cubic then AnyCubic cubic_new
  else if feature_reno then AnyReno reno_new
  else AnyNone mkNoControl.

(** [inner_mut()] and [inner()]: every operation goes to the controller in use. *)
Definition any_map (f : forall C, Controller C -> C -> C) (a : AnyController) : AnyController :=
  match a with
  | AnyNone n => AnyNone (f _ _ n)
  | AnyReno r => AnyReno (f _ _ r)
  | AnyCubic c => AnyCubic (f _ _ c)
  end.

#[export] Instance any_controller : Controller AnyController := {|
  ctl_window a := match a with
    | AnyNone n => ctl_window n | AnyReno r => ctl_window r | AnyCubic c => ctl_window c end;
  ctl_set_remote_window a w := any_map (fun _ _ c => ctl_set_remote_window c w) a;
  ctl_on_ack a now len r := any_map (fun _ _ c => ctl_on_ack c now len r) a;
  ctl_on_retransmit a now := any_map (fun _ _ c => ctl_on_retransmit c now) a;
  ctl_on_duplicate_ack a now := any_map (fun _ _ c => ctl_on_duplicate_ack c now) a;
  ctl_pre_transmit a now := match a with
    | AnyNone n => c ← ctl_pre_transmit n now; Ret (AnyNone c)
    | AnyReno r => c ← ctl_pre_transmit r now; Ret (AnyReno c)
    | AnyCubic c => c ← ctl_pre_transmit c now; Ret (AnyCubic c) end;
  ctl_post_transmit a now len := any_map (fun _ _ c => ctl_post_transmit c now len) a;
  ctl_set_mss a mss := any_map (fun _ _ c => ctl_set_mss c mss) a;
|}.

(** ** The laws a socket relies on *)

Class ControllerLaws (C : Type) `{Controller C} : Type := {
  ctl_inv : C -> Prop;
  law_window c : ctl_inv c -> 1 <= ctl_window c <= usize_max;
  law_set_remote_window c w : ctl_inv c -> 0 <= w <= usize_max -> ctl_inv (ctl_set_remote_window c w);
  law_on_ack c now len r : ctl_inv c -> 0 <= len -> ctl_inv (ctl_on_ack c now len r);
  law_on_retransmit c now : ctl_inv c -> time_ok now -> ctl_inv (ctl_on_retransmit c now);
  law_on_duplicate_ack c now : ctl_inv c -> time_ok now -> ctl_inv (ctl_on_duplicate_ack c now);
  law_pre_transmit c now : ctl_inv c -> time_ok now -> wp (ctl_pre_transmit c now) ctl_inv;
  law_post_transmit c now len : ctl_inv c -> ctl_inv (ctl_post_transmit c now len);
  law_set_mss c mss : ctl_inv c -> 1 <= mss <= u16_max -> ctl_inv (ctl_set_mss c mss);
}.

#[export] Instance no_control_laws : ControllerLaws NoControl.
Proof. refine {| ctl_inv := fun _ => True |}; cbn; auto; mlia. Defined.

Definition reno_inv (c : Reno) : Prop :=
  1 <= reno_cwnd c <= reno_rwnd c /\ 1 <= reno_min_cwnd c <= u16_max /\
  64 * 1024 <= reno_rwnd c <= usize_max.

Lemma shiftr_1_bounds x : 0 <= x -> 0 <= Z.shiftr x 1 <= x.
Proof. intros. rewrite Z.shiftr_div_pow2 by lia. change (2 ^ 1) with 2. split; [apply Z.div_pos|apply Z.div_le_upper_bound]; lia. Qed.

#[export] Instance reno_laws : ControllerLaws Reno.
Proof.
  refine {| ctl_inv := reno_inv |}; unfold reno_inv, saturating_add; cbn; intros c.
  - lia.
  - intros. destruct (Z.ltb_spec (reno_rwnd c) w); lia.
  - intros _ len _. intros. unfold saturating_add. mlia.
  - intros. pose proof (shiftr_1_bounds (reno_cwnd c)). mlia.
  - lia.
  - lia.
  - lia.
  - mlia.
Defined.

Definition cubic_inv (c : Cubic) : Prop :=
  1 <= cubic_cwnd c <= cubic_rwnd c /\ 1 <= cubic_min_cwnd c <= u16_max /\
  64 * 1024 <= cubic_rwnd c <= usize_max /\ time_ok (cubic_last_update c) /\
  match cubic_recovery_start c with Some t => time_ok t | None => True end.

Lemma total_millis_ok t : time_ok t -> 0 <= instant_total_millis t <= 2 ^ 61.
Proof.
  unfold time_ok, instant_total_millis. intros. rewrite Z.quot_div_nonneg by lia.
  split; [apply Z.div_pos|apply Z.div_le_upper_bound]; lia.
Qed.

Lemma cubic_pre_transmit_ok c now :
  cubic_inv c -> time_ok now -> wp (cubic_pre_transmit c now) cubic_inv.
Proof.
  intros Hc Hn. pose proof Hc as (Hcw & Hm & Hr & Hl & Hs). unfold cubic_pre_transmit.
  destruct (cubic_recovery_start c) as [t|] eqn:Et; [|cbn; unfold cubic_inv; cbn; tauto].
  pose proof (total_millis_ok _ Hn). pose proof (total_millis_ok _ Hs). pose proof (total_millis_ok _ Hl).
  unfold i64_chk. set (recent := if t <? _ then _ else _).
  assert (Hrec : exists b, recent = Ret b).
  { unfold recent. destr_if; [|by eexists]. rewrite checked_ok, bind_Ret by mlia. by eexists. }
  destruct Hrec as [b ->]. rewrite bind_Ret. destruct b; [done|].
  rewrite checked_ok, bind_Ret by mlia. destr_if; [done|].
  destruct (cubic_function _ _); [|done]. unfold cubic_inv. cbn. unfold_max. intuition lia.
Qed.

#[export] Instance cubic_laws : ControllerLaws Cubic.
Proof.
  refine {| ctl_inv := cubic_inv |}; try apply cubic_pre_transmit_ok;
    unfold cubic_inv, saturating_add; cbn; intros c.
  - lia.
  - intros. destruct (Z.ltb_spec (cubic_rwnd c) w); intuition lia.
  - intros _ len _ Hc Hl. unfold cubic_on_ack. destr_if; [|tauto]. cbn. unfold saturating_add.
    unfold_max. intuition lia.
  - tauto.
  - tauto.
  - tauto.
  - intros. unfold_max. intuition lia.
Defined.

#[export] Instance any_laws : ControllerLaws AnyController.
Proof.
  refine {| ctl_inv a := match a with
    | AnyNone n => ctl_inv n | AnyReno r => ctl_inv r | AnyCubic c => ctl_inv c end |};
  intros [c|c|c]; intros;
  cbn [ctl_window ctl_set_remote_window ctl_on_ack ctl_on_retransmit ctl_on_duplicate_ack
    ctl_pre_transmit ctl_post_transmit ctl_set_mss any_controller any_map];
  first
    [ by apply law_window | by apply law_set_remote_window | by apply law_on_ack
    | by apply law_on_retransmit | by apply law_on_duplicate_ack | by apply law_post_transmit
    | by apply law_set_mss | eapply wp_bind_mono; [by apply law_pre_transmit|]; auto ].
Defined.

(** ** Runs of a controller *)

(** What a socket reports to its controller. *)
Inductive ctl_event : Type :=
| CtlSetMss (mss : Z)
| CtlSetRemoteWindow (w : Z)
| CtlAck (now : Instant) (len : Z) (r : RttEstimator)
| CtlRetransmit (now : Instant)
| CtlDuplicateAck (now : Instant)
| CtlPreTransmit (now : Instant)
| CtlPostTransmit (now : Instant) (len : Z).

Section Runs.
Context {C : Type} `{ControllerLaws C}.

Definition ctl_step (c : C) (e : ctl_event) : res C :=
  match e with
  | CtlSetMss mss => Ret (ctl_set_mss c mss)
  | CtlSetRemoteWindow w => Ret (ctl_set_remote_window c w)
  | CtlAck now len r => Ret (ctl_on_ack c now len r)
  | CtlRetransmit now => Ret (ctl_on_retransmit c now)
  | CtlDuplicateAck now => Ret (ctl_on_duplicate_ack c now)
  | CtlPreTransmit now => ctl_pre_transmit c now
  | CtlPostTransmit now len => Ret (ctl_post_transmit c now len)
  end.

Fixpoint ctl_run (c : C) (es : list ctl_event) : res C :=
  match es with
  | [] => Ret c
  | e :: es => c ← ctl_step c e; ctl_run c es
  end.

(** The arguments a socket passes: a non-zero MSS of 16 bits, a window, the clock. *)
Definition ctl_event_ok (e : ctl_event) : Prop :=
  match e with
  | CtlSetMss mss => 1 <= mss <= u16_max
  | CtlSetRemoteWindow w => 0 <= w <= usize_max
  | CtlAck _ len _ => 0 <= len
  | CtlRetransmit now | CtlDuplicateAck now | CtlPreTransmit now => time_ok now
  | CtlPostTransmit _ _ => True
  end.

Lemma ctl_step_ok c e : ctl_inv c -> ctl_event_ok e -> wp (ctl_step c e) ctl_inv.
Proof.
  destruct e; cbn [ctl_step ctl_event_ok wp]; intros;
  first
    [ by apply law_set_remote_window | by apply law_on_ack | by apply law_on_retransmit
    | by apply law_on_duplicate_ack | by apply law_post_transmit | by apply law_set_mss
    | by apply law_pre_transmit ].
Qed.

Lemma ctl_run_ok c es : ctl_inv c -> Forall ctl_event_ok es -> wp (ctl_run c es) ctl_inv.
Proof.
  intros Hc Hes. revert c Hc. induction Hes as [|e es He Hes IH]; intros c Hc; [done|].
  cbn [ctl_run]. wp_bind_with (ctl_step_ok c e Hc He). apply IH.
Qed.
End Runs.

Lemma any_new_inv fc fr : ctl_inv (any_new fc fr).
Proof. destruct fc, fr; vm_compute; intuition discriminate. Qed.

(** ** Properties *)

(** Whatever controller is configured, and however the socket drives it, the [f64]
    computation of Cubic included, no operation panics and the congestion window is never
    zero, so that congestion control alone never stops the sender. *)
Theorem any_window_positive (feature_cubic feature_reno : bool) (es : list ctl_event) :
  Forall ctl_event_ok es ->
  wp (ctl_run (any_new feature_cubic feature_reno) es) (fun a => 1 <= ctl_window a <= usize_max).
Proof.
  intros Hes. eapply wp_mono; [apply ctl_run_ok; [apply any_new_inv | done]|].
  intros a Ha. by apply law_window.
Qed.

Lemma any_window_positive_witness :
  wp (ctl_run (any_new true false) [CtlPreTransmit 1000; CtlRetransmit 2000000; CtlPreTransmit 5000000])
    (fun a => 1 <= ctl_window a <= usize_max).
Proof.
  apply (any_window_positive true false).
  repeat (constructor; [vm_compute; intuition discriminate|]). constructor.
Defined.

(** In slow start Reno grows its window by the bytes acknowledged, limited by the largest
    remote window seen; past the threshold, an acknowledgement sets the threshold to the
    window and grows the window by at most one segment; a retransmission halves the window
    but keeps it at one segment at least, and a duplicate acknowledgement does the same to
    the threshold. *)
Theorem reno_window_response (c : Reno) (len : Z) :
  reno_inv c -> 0 <= len <= usize_max ->
  (reno_cwnd c < reno_ssthresh c ->
     reno_cwnd (reno_on_ack c len) = Z.max (Z.min (reno_cwnd c + len) (reno_rwnd c)) (reno_min_cwnd c)) /\
  (reno_ssthresh c <= reno_cwnd c ->
     reno_ssthresh (reno_on_ack c len) = reno_cwnd c /\
     reno_cwnd (reno_on_ack c len) <= Z.max (reno_cwnd c + reno_min_cwnd c) (reno_min_cwnd c)) /\
  reno_cwnd (reno_on_retransmit c) = Z.max (reno_cwnd c / 2) (reno_min_cwnd c) /\
  reno_ssthresh (reno_on_duplicate_ack c) = Z.max (reno_cwnd c / 2) (reno_min_cwnd c).
Proof.
  intros (Hc & Hm & Hr) Hl. unfold reno_on_ack, saturating_add, reno_on_retransmit, reno_on_duplicate_ack.
  cbn [reno_cwnd reno_ssthresh reno_min_cwnd reno_rwnd]. rewrite Z.shiftr_div_pow2 by lia.
  change (2 ^ 1) with 2. repeat split; intros; destruct (Z.ltb_spec (reno_cwnd c) (reno_ssthresh c)); mlia.
Qed.

Lemma reno_window_response_witness :
  (reno_cwnd reno_new < reno_ssthresh reno_new ->
     reno_cwnd (reno_on_ack reno_new 100) =
       Z.max (Z.min (reno_cwnd reno_new + 100) (reno_rwnd reno_new)) (reno_min_cwnd reno_new)) /\
  (reno_ssthresh reno_new <= reno_cwnd reno_new ->
     reno_ssthresh (reno_on_ack reno_new 100) = reno_cwnd reno_new /\
     reno_cwnd (reno_on_ack reno_new 100) <=
       Z.max (reno_cwnd reno_new + reno_min_cwnd reno_new) (reno_min_cwnd reno_new)) /\
  reno_cwnd (reno_on_retransmit reno_new) = Z.max (reno_cwnd reno_new / 2) (reno_min_cwnd reno_new) /\
  reno_ssthresh (reno_on_duplicate_ack reno_new) = Z.max (reno_cwnd reno_new / 2) (reno_min_cwnd reno_new).
Proof. apply (reno_window_response reno_new 100); vm_compute; intuition discriminate. Defined.
