(* ===== verification/IpTypes.v ===== *)
(** * IP addresses, endpoints and header representations (wire/ip.rs)

    Addresses are kept by their octets, as [core::net] exposes them. *)

From S2P Require Import Prelude.

Inductive Version : Type := Ipv4Version | Ipv6Version.

#[global] Instance Version_eq_dec : EqDecision Version.
Proof. solve_decision. Defined.

(** [Ipv4Addr] and [Ipv6Addr] by their octets. *)
Inductive Address : Type :=
| Ipv4 (octets : list Z)
| Ipv6 (octets : list Z).

#[export] Instance address_eq_dec : EqDecision Address.
Proof. solve_decision. Defined.

Definition address_eqb (a b : Address) : bool := bool_decide (a = b).

Definition address_version (a : Address) : Version :=
  match a with Ipv4 _ => Ipv4Version | Ipv6 _ => Ipv6Version end.

Definition version_eqb (a b : Version) : bool :=
  match a, b with Ipv4Version, Ipv4Version | Ipv6Version, Ipv6Version => true | _, _ => false end.

Definition address_octets (a : Address) : list Z := match a with Ipv4 o | Ipv6 o => o end.

(** [is_unspecified] of both families: all octets are zero. *)
Definition address_is_unspecified (a : Address) : bool := forallb (Z.eqb 0) (address_octets a).

Record Endpoint : Type := mkEndpoint { ep_addr : Address; ep_port : Z }.

Record ListenEndpoint : Type := mkListenEndpoint { lep_addr : option Address; lep_port : Z }.

#[export] Instance endpoint_eq_dec : EqDecision Endpoint.
Proof. solve_decision. Defined.
#[export] Instance listen_endpoint_eq_dec : EqDecision ListenEndpoint.
Proof. solve_decision. Defined.

Definition listen_endpoint_default : ListenEndpoint := mkListenEndpoint None 0.

Definition listen_endpoint_is_specified (e : ListenEndpoint) : bool :=
  (if lep_addr e is Some _ then true else false) && negb (lep_port e =? 0).

Definition listen_endpoint_of_endpoint (e : Endpoint) : ListenEndpoint :=
  mkListenEndpoint (Some (ep_addr e)) (ep_port e).

(** [IpProtocol], by its number. *)
Definition PROTOCOL_TCP : Z := 6.

Definition IPV4_HEADER_LEN : Z := 20.
Definition IPV6_HEADER_LEN : Z := 40.

(** [Ipv4Repr] and [Ipv6Repr] have the same fields; the constructor tells them apart. *)
Record IpHeader : Type := mkIpHeader {
  iph_src : list Z; iph_dst : list Z; iph_next_header : Z; iph_payload_len : Z; iph_hop_limit : Z;
}.

Inductive IpRepr : Type :=
| Ipv4Repr (h : IpHeader)
| Ipv6Repr (h : IpHeader).

(** [IpRepr::new]: panics when the addresses are of different families. *)
Definition ip_repr_new (src dst : Address) (next_header payload_len hop_limit : Z) : res IpRepr :=
  match src, dst with
  | Ipv4 s, Ipv4 d => Ret (Ipv4Repr (mkIpHeader s d next_header payload_len hop_limit))
  | Ipv6 s, Ipv6 d => Ret (Ipv6Repr (mkIpHeader s d next_header payload_len hop_limit))
  | _, _ => Panic
  end.

Definition ip_header (r : IpRepr) : IpHeader := match r with Ipv4Repr h | Ipv6Repr h => h end.

Definition ip_version (r : IpRepr) : Version :=
  match r with Ipv4Repr _ => Ipv4Version | Ipv6Repr _ => Ipv6Version end.
Definition ip_src_addr (r : IpRepr) : Address :=
  match r with Ipv4Repr h => Ipv4 (iph_src h) | Ipv6Repr h => Ipv6 (iph_src h) end.
Definition ip_dst_addr (r : IpRepr) : Address :=
  match r with Ipv4Repr h => Ipv4 (iph_dst h) | Ipv6Repr h => Ipv6 (iph_dst h) end.
Definition ip_next_header (r : IpRepr) : Z := iph_next_header (ip_header r).
Definition ip_payload_len (r : IpRepr) : Z := iph_payload_len (ip_header r).
Definition ip_hop_limit (r : IpRepr) : Z := iph_hop_limit (ip_header r).

Definition set_iph_payload_len (h : IpHeader) (length : Z) : IpHeader :=
  mkIpHeader (iph_src h) (iph_dst h) (iph_next_header h) length (iph_hop_limit h).

Definition ip_set_payload_len (r : IpRepr) (length : Z) : IpRepr :=
  match r with
  | Ipv4Repr h => Ipv4Repr (set_iph_payload_len h length)
  | Ipv6Repr h => Ipv6Repr (set_iph_payload_len h length)
  end.

Definition ip_header_len (r : IpRepr) : Z :=
  match r with Ipv4Repr _ => IPV4_HEADER_LEN | Ipv6Repr _ => IPV6_HEADER_LEN end.

Definition ip_buffer_len (r : IpRepr) : res Z := usize_add (ip_header_len r) (ip_payload_len r).

(** ** Lemmas *)

Lemma address_eqb_eq a b : address_eqb a b = true <-> a = b.
Proof. unfold address_eqb. apply bool_decide_eq_true. Qed.

Lemma version_eqb_eq a b : version_eqb a b = true <-> a = b.
Proof. destruct a, b; cbn; split; done. Qed.

Lemma ip_repr_new_mixed src dst nh len hl : address_version src <> address_version dst -> ip_repr_new src dst nh len hl = Panic.
Proof. by destruct src, dst. Qed.

Lemma ip_repr_new_ok src dst nh len hl :
  address_version src = address_version dst ->
  exists r, ip_repr_new src dst nh len hl = Ret r /\ ip_src_addr r = src /\ ip_dst_addr r = dst /\
    ip_next_header r = nh /\ ip_payload_len r = len /\ ip_hop_limit r = hl /\
    ip_version r = address_version src.
Proof. destruct src, dst; cbn; try done; intros _; by eexists. Qed.

(** Both addresses of a representation are of its family. *)
Lemma ip_repr_versions r :
  address_version (ip_src_addr r) = ip_version r /\ address_version (ip_dst_addr r) = ip_version r.
Proof. by destruct r. Qed.

Lemma ip_set_payload_len_addrs r n :
  ip_src_addr (ip_set_payload_len r n) = ip_src_addr r /\
  ip_dst_addr (ip_set_payload_len r n) = ip_dst_addr r /\
  ip_payload_len (ip_set_payload_len r n) = n.
Proof. by destruct r. Qed.
