(* ===== verification/TcpRepr.v ===== *)
(** * High-level TCP segments (wire/tcp.rs, [Control] and [Repr])

    The payload of a segment is a list of bytes; the four-byte timestamp values come from
    the generator function the application installs. *)

From S2P Require Import Prelude SeqNumber.

Inductive Control : Type := CtlNone | CtlPsh | CtlSyn | CtlFin | CtlRst.

#[export] Instance control_eq_dec : EqDecision Control.
Proof. solve_decision. Defined.

Definition control_eqb (a b : Control) : bool := bool_decide (a = b).

(** [Control::len]. *)
Definition control_len (c : Control) : Z := match c with CtlSyn | CtlFin => 1 | _ => 0 end.

Definition quash_psh (c : Control) : Control := match c with CtlPsh => CtlNone | _ => c end.

(** [TcpTimestampGenerator] is a function pointer, known by its address; calling it goes to
    application code. *)
Abbreviation TcpTimestampGenerator := Z (only parsing).

Record TcpTimestampRepr : Type := mkTcpTimestampRepr { tsval : Z; tsecr : Z }.

#[export] Instance tcp_timestamp_repr_eq_dec : EqDecision TcpTimestampRepr.
Proof. solve_decision. Defined.

(** [call] is what calling a generator returns. *)
Definition generate_reply_with_tsval (call : TcpTimestampGenerator -> Z)
  (generator : option TcpTimestampGenerator) (tsval : Z) : option TcpTimestampRepr :=
  match generator with
  | Some g => Some (mkTcpTimestampRepr (call g) tsval)
  | None => None
  end.

Definition generate_reply (call : TcpTimestampGenerator -> Z) (ts : TcpTimestampRepr)
  (generator : option TcpTimestampGenerator) : option TcpTimestampRepr :=
  generate_reply_with_tsval call generator (tsval ts).

(** [sack_ranges] is an array of three. *)
Abbreviation SackRanges := (option (Z * Z) * option (Z * Z) * option (Z * Z))%type (only parsing).

Record TcpRepr : Type := mkTcpRepr {
  src_port : Z;
  dst_port : Z;
  control : Control;
  seq_number : SeqNumber;
  ack_number : option SeqNumber;
  window_len : Z;
  window_scale : option Z;
  max_seg_size : option Z;
  sack_permitted : bool;
  sack_ranges : SackRanges;
  repr_timestamp : option TcpTimestampRepr;
  payload : list Z;
}.

Definition TCP_HEADER_LEN : Z := 20.

Definition opt_len {A} (o : option A) (n : Z) : Z := if o is Some _ then n else 0.

Definition sack_range_len (s : SackRanges) : Z :=
  let '(a, b, c) := s in opt_len a 8 + opt_len b 8 + opt_len c 8.

Definition tcp_header_len (r : TcpRepr) : Z :=
  let length := TCP_HEADER_LEN in
  let length := length + opt_len (max_seg_size r) 4 in
  let length := length + opt_len (window_scale r) 3 in
  let length := if sack_permitted r then length + 2 else length in
  let length := length + opt_len (repr_timestamp r) 10 in
  let length := if 0 <? sack_range_len (sack_ranges r)
                then length + sack_range_len (sack_ranges r) + 2 else length in
  if length mod 4 =? 0 then length else length + (4 - length mod 4).

Definition tcp_buffer_len (r : TcpRepr) : Z := tcp_header_len r + Zlen (payload r).

(** Length in sequence space. *)
Definition tcp_segment_len (r : TcpRepr) : Z := Zlen (payload r) + control_len (control r).

Definition tcp_is_empty (r : TcpRepr) : bool :=
  match payload r, control r with
  | _ :: _, _ => false
  | [], (CtlSyn | CtlFin | CtlRst) => false
  | [], (CtlNone | CtlPsh) => true
  end.

(** ** Lemmas *)

Lemma control_eqb_eq a b : control_eqb a b = true <-> a = b.
Proof. unfold control_eqb. apply bool_decide_eq_true. Qed.

Lemma sack_range_len_bounds s : 0 <= sack_range_len s <= 24.
Proof. destruct s as [[[?|] [?|]] [?|]]; cbn; lia. Qed.

(** The header is padded to words, and holds the fixed header and the options. *)
Lemma tcp_header_len_bounds r :
  TCP_HEADER_LEN <= tcp_header_len r <= 68 /\ tcp_header_len r mod 4 = 0.
Proof.
  unfold tcp_header_len, TCP_HEADER_LEN. pose proof (sack_range_len_bounds (sack_ranges r)).
  set (n := if 0 <? sack_range_len _ then _ else _).
  assert (Hn : 20 <= n <= 65).
  { unfold n. destruct (0 <? _), (max_seg_size r), (window_scale r), (sack_permitted r), (repr_timestamp r);
    cbn [opt_len]; lia. }
  clearbody n. pose proof (Z.mod_pos_bound n 4). pose proof (Z.div_mod n 4).
  destruct (Z.eqb_spec (n mod 4) 0) as [E|E]; [lia|]. split; [lia|].
  replace (n + (4 - n mod 4)) with ((n / 4 + 1) * 4) by lia. apply Z_mod_mult.
Qed.

Lemma tcp_segment_len_bounds r : 0 <= Zlen (payload r) <= tcp_segment_len r.
Proof. unfold tcp_segment_len. pose proof (Zlen_nonneg (payload r)). destruct (control r); cbn; lia. Qed.
