(* ===== verification/ByteOrder.v ===== *)
(** * Byte order and fields (the [NetworkEndian] of the byteorder crate, as wire/ uses it)

    The crate is not part of the repository: its functions are the class [NetworkEndian], and
    their documented behaviour, big-endian conversion of the first bytes of the slice and a
    panic on a slice that is too short, is the class [NetworkEndianLaws].  The accessors of the
    wire formats are proved against these laws; [network_endian] shows that they can hold. *)

From S2P Require Import Prelude SeqNumber.

(** [wire::Error]. *)

Inductive WireError : Type := MkWireError.

(** [x ←? m; k]: the [?] operator on a [Result] inside a computation. *)
Definition try_bind {A B} (m : res (result A WireError)) (f : A -> res (result B WireError))
  : res (result B WireError) :=
  r ← m; match r with Ok a => f a | Err e => Ret (Err e) end.

Declare Scope wire_scope.
Notation "x ←? m ; k" := (try_bind m (fun x => k))
  (at level 20, m at level 100, k at level 200, only parsing) : wire_scope.
Notation "' x ←? m ; k" := (try_bind m (fun x => k))
  (at level 20, x pattern, m at level 100, k at level 200, only parsing) : wire_scope.
(** ** Big-endian numbers *)

Definition be_value (bs : list Z) : Z := fold_left (fun v b => v * 256 + b) bs 0.

Fixpoint be_bytes (n : nat) (v : Z) : list Z :=
  match n with
  | O => []
  | S n => be_bytes n (v / 256) ++ [v mod 256]
  end.

Definition bytes_ok (bs : list Z) : Prop := Forall in_u8 bs.

Lemma be_value_snoc bs b : be_value (bs ++ [b]) = be_value bs * 256 + b.
Proof. unfold be_value. by rewrite fold_left_app. Qed.

Lemma Zlen_be_bytes n v : Zlen (be_bytes n v) = Z.of_nat n.
Proof. revert v. induction n as [|n IH]; intros v; cbn [be_bytes]; zlen. rewrite IH. lia. Qed.

Lemma be_bytes_ok n v : bytes_ok (be_bytes n v).
Proof.
  revert v. induction n as [|n IH]; intros v; cbn [be_bytes]; [constructor|].
  apply Forall_app. split; [apply IH|]. repeat constructor; pose proof (Z.mod_pos_bound v 256); mlia.
Qed.

Lemma be_value_bytes n v : be_value (be_bytes n v) = v mod 256 ^ Z.of_nat n.
Proof.
  revert v. induction n as [|n IH]; intros v; cbn [be_bytes]; [by rewrite Z.mod_1_r|].
  rewrite be_value_snoc, IH, Nat2Z.inj_succ, Z.pow_succ_r by lia.
  pose proof (Z.pow_pos_nonneg 256 (Z.of_nat n)). rewrite Z.rem_mul_r by lia. ring.
Qed.

Lemma be_bytes_value bs : bytes_ok bs -> be_bytes (length bs) (be_value bs) = bs.
Proof.
  induction bs as [|b bs IH] using rev_ind; intros H; [done|].
  apply Forall_app in H as [Hbs Hb]. rewrite Forall_singleton in Hb.
  rewrite length_app, Nat.add_1_r. cbn [be_bytes]. rewrite be_value_snoc.
  assert (0 <= b < 256) by mlia.
  rewrite Z.div_add_l, Z.div_small, Z.add_0_r by lia.
  rewrite Z.add_comm, Z_mod_plus_full, Z.mod_small by lia. by rewrite IH.
Qed.

Lemma be_value_range bs : bytes_ok bs -> 0 <= be_value bs < 256 ^ Zlen bs.
Proof.
  induction bs as [|b bs IH] using rev_ind; intros H; [done|].
  apply Forall_app in H as [Hbs Hb]. rewrite Forall_singleton in Hb.
  rewrite be_value_snoc, Zlen_app. change (Zlen [b]) with 1.
  pose proof (Zlen_nonneg bs). rewrite Z.pow_add_r by lia. specialize (IH Hbs). mlia.
Qed.

(** ** The interface *)

Class NetworkEndian : Type := {
  read_u16 : list Z -> res Z;
  read_u24 : list Z -> res Z;
  read_u32 : list Z -> res Z;
  read_i32 : list Z -> res Z;
  write_u16 : list Z -> Z -> res (list Z);
  write_u24 : list Z -> Z -> res (list Z);
  write_u32 : list Z -> Z -> res (list Z);
  write_i32 : list Z -> Z -> res (list Z);
}.

(** Convert the first [n] bytes; write to the first [n] bytes. *)
Definition be_read (n : nat) (buf : list Z) : res Z :=
  if Z.of_nat n <=? Zlen buf then Ret (be_value (take n buf)) else Panic.

Definition be_write (n : nat) (buf : list Z) (v : Z) : res (list Z) :=
  if Z.of_nat n <=? Zlen buf then Ret (splice buf 0 (be_bytes n v)) else Panic.

Class NetworkEndianLaws `{NetworkEndian} : Prop := {
  read_u16_law buf : read_u16 buf = be_read 2 buf;
  read_u24_law buf : read_u24 buf = be_read 3 buf;
  read_u32_law buf : read_u32 buf = be_read 4 buf;
  read_i32_law buf : read_i32 buf = (v ← be_read 4 buf; Ret (wrap_i 32 v));
  write_u16_law buf v : in_u16 v -> write_u16 buf v = be_write 2 buf v;
  write_u24_law buf v : 0 <= v < 2 ^ 24 -> write_u24 buf v = be_write 3 buf v;
  write_u32_law buf v : in_u32 v -> write_u32 buf v = be_write 4 buf v;
  write_i32_law buf v : in_i32 v -> write_i32 buf v = be_write 4 buf v;
}.

Definition network_endian : NetworkEndian := {|
  read_u16 := be_read 2;
  read_u24 := be_read 3;
  read_u32 := be_read 4;
  read_i32 buf := v ← be_read 4 buf; Ret (wrap_i 32 v);
  write_u16 := be_write 2;
  write_u24 := be_write 3;
  write_u32 := be_write 4;
  write_i32 := be_write 4;
|}.

Lemma network_endian_laws : @NetworkEndianLaws network_endian.
Proof. by constructor. Qed.

(** [read(&data[a..b])]. *)
Definition field_read (read : list Z -> res Z) (buffer : list Z) (a b : Z) : res Z :=
  d ← slice buffer a b; read d.

(** [dst.copy_from_slice(src)]: panics unless the lengths are the same. *)
Definition copy_from_slice (dst src : list Z) : res (list Z) :=
  if Zlen dst =? Zlen src then Ret src else Panic.

(** ** Ranges of a buffer *)

(** [f(&mut l[a..b])]: the range is replaced by what [f] leaves there. *)
Definition slice_mut {A} (l : list A) (a b : Z) (f : list A -> res (list A)) : res (list A) :=
  d ← slice l a b; d' ← f d; Ret (splice l a d').

Lemma sub_mid {A} (p m s : list A) : sub (p ++ m ++ s) (Zlen p) (Zlen m) = m.
Proof.
  unfold sub, Zlen. rewrite !Nat2Z.id. by rewrite drop_app_length, take_app_length.
Qed.

Lemma splice_mid {A} (p m m' s : list A) :
  length m' = length m -> splice (p ++ m ++ s) (Zlen p) m' = p ++ m' ++ s.
Proof.
  intros H. unfold splice, Zlen. rewrite Nat2Z.id, take_app_length, H.
  rewrite <- drop_drop, drop_app_length, drop_app_length. done.
Qed.

Lemma slice_mid {A} (p m s : list A) a b :
  a = Zlen p -> b = a + Zlen m -> slice (p ++ m ++ s) a b = Ret m.
Proof.
  intros -> ->. pose proof (Zlen_nonneg p). pose proof (Zlen_nonneg m). pose proof (Zlen_nonneg s).
  rewrite slice_ok by (zlen). rewrite Z.add_simpl_l. by rewrite sub_mid.
Qed.

Lemma slice_mut_mid {A} (p m m' s : list A) a b f :
  a = Zlen p -> b = a + Zlen m -> f m = Ret m' -> length m' = length m ->
  slice_mut (p ++ m ++ s) a b f = Ret (p ++ m' ++ s).
Proof.
  intros -> -> Hf Hl. unfold slice_mut. rewrite (slice_mid p m s) by done. rewrite bind_Ret, Hf, bind_Ret.
  by rewrite splice_mid.
Qed.

(** A whole big-endian field is read and written exactly. *)
Lemma be_read_exact n v : be_read n (be_bytes n v) = Ret (v mod 256 ^ Z.of_nat n).
Proof.
  unfold be_read. rewrite Zlen_be_bytes, Z.leb_refl. rewrite take_ge, be_value_bytes; [done|].
  pose proof (Zlen_be_bytes n v). unfold Zlen in *. lia.
Qed.

Lemma be_write_exact n m v : Zlen m = Z.of_nat n -> be_write n m v = Ret (be_bytes n v).
Proof.
  intros H. unfold be_write. rewrite H, Z.leb_refl. f_equal.
  pose proof (splice_mid [] m (be_bytes n v) []) as E. rewrite !app_nil_r in E. apply E.
  pose proof (Zlen_be_bytes n v). unfold Zlen in *. lia.
Qed.

(** Reading from the front of a longer slice, and writing to it. *)
Lemma be_read_app n v s : be_read n (be_bytes n v ++ s) = Ret (v mod 256 ^ Z.of_nat n).
Proof.
  unfold be_read. pose proof (Zlen_be_bytes n v) as E. pose proof (Zlen_nonneg s).
  rewrite Zlen_app, E. replace (Z.of_nat n <=? Z.of_nat n + Zlen s) with true by lia.
  rewrite take_app_le by (unfold Zlen in *; lia). rewrite take_ge by (unfold Zlen in *; lia).
  by rewrite be_value_bytes.
Qed.

Lemma be_read_ok n buf : Z.of_nat n <= Zlen buf -> be_read n buf = Ret (be_value (take n buf)).
Proof. intros. unfold be_read. by replace (Z.of_nat n <=? Zlen buf) with true by lia. Qed.

Lemma be_write_front n buf v :
  Z.of_nat n <= Zlen buf -> be_write n buf v = Ret (be_bytes n v ++ drop n buf).
Proof.
  intros H. unfold be_write. replace (Z.of_nat n <=? Zlen buf) with true by lia. f_equal.
  unfold splice. pose proof (Zlen_be_bytes n v). unfold Zlen in *.
  replace (Z.to_nat 0 + length (be_bytes n v))%nat with n by lia. done.
Qed.

Lemma bytes_ok_take n bs : bytes_ok bs -> bytes_ok (take n bs).
Proof. apply Forall_take. Qed.

Lemma bytes_ok_drop n bs : bytes_ok bs -> bytes_ok (drop n bs).
Proof. apply Forall_drop. Qed.

Lemma bytes_ok_app a b : bytes_ok (a ++ b) <-> bytes_ok a /\ bytes_ok b.
Proof. apply Forall_app. Qed.

Lemma bytes_ok_cons b bs : bytes_ok (b :: bs) <-> in_u8 b /\ bytes_ok bs.
Proof. split; [by inversion 1 | intros []; by constructor]. Qed.

Lemma bytes_ok_sub bs k n : bytes_ok bs -> bytes_ok (sub bs k n).
Proof. intros. unfold sub. by apply bytes_ok_take, bytes_ok_drop. Qed.

Lemma be_value_u16 bs : bytes_ok bs -> Zlen bs = 2 -> in_u16 (be_value bs).
Proof. intros H E. pose proof (be_value_range bs H). rewrite E in *. change (256 ^ 2) with 65536 in *. mlia. Qed.

Lemma be_value_u32 bs : bytes_ok bs -> Zlen bs = 4 -> in_u32 (be_value bs).
Proof. intros H E. pose proof (be_value_range bs H). rewrite E in *. change (256 ^ 4) with (2 ^ 32) in *. mlia. Qed.

(** ** Layouts: a sequence of big-endian fields, by width and value *)

Abbreviation layout := (list (nat * Z)) (only parsing).

Definition layout_bytes (l : layout) : list Z := l ≫= (fun f => be_bytes f.1 f.2).
Definition layout_len (l : layout) : Z := foldr Z.add 0 (map (fun f => Z.of_nat f.1) l).

Lemma layout_bytes_app l1 l2 : layout_bytes (l1 ++ l2) = layout_bytes l1 ++ layout_bytes l2.
Proof. apply bind_app. Qed.

Lemma Zlen_layout_bytes l : Zlen (layout_bytes l) = layout_len l.
Proof.
  induction l as [|[n v] l IH]; [done|]. cbn [layout_len map foldr]. unfold layout_bytes in *. cbn.
  rewrite Zlen_app, Zlen_be_bytes. unfold layout_len in IH. by rewrite IH.
Qed.

Lemma layout_bytes_ok l : bytes_ok (layout_bytes l).
Proof.
  induction l as [|[n v] l IH]; [constructor|]. unfold layout_bytes. cbn.
  apply bytes_ok_app. split; [apply be_bytes_ok | exact IH].
Qed.

Lemma layout_split l1 n v l2 rest :
  layout_bytes (l1 ++ (n, v) :: l2) ++ rest = layout_bytes l1 ++ be_bytes n v ++ layout_bytes l2 ++ rest.
Proof. rewrite layout_bytes_app, <- app_assoc. unfold layout_bytes. cbn. by rewrite <- app_assoc. Qed.

Lemma layout_slice l1 n v l2 rest a b :
  a = layout_len l1 -> b = a + Z.of_nat n ->
  slice (layout_bytes (l1 ++ (n, v) :: l2) ++ rest) a b = Ret (be_bytes n v).
Proof.
  intros -> ->. rewrite layout_split. apply slice_mid; [by rewrite Zlen_layout_bytes|].
  by rewrite Zlen_be_bytes.
Qed.

Lemma layout_slice_mut l1 n v v' l2 rest a b f :
  a = layout_len l1 -> b = a + Z.of_nat n -> f (be_bytes n v) = Ret (be_bytes n v') ->
  slice_mut (layout_bytes (l1 ++ (n, v) :: l2) ++ rest) a b f =
  Ret (layout_bytes (l1 ++ (n, v') :: l2) ++ rest).
Proof.
  intros -> -> Hf. rewrite !layout_split. apply slice_mut_mid; [by rewrite Zlen_layout_bytes | | done |].
  - by rewrite Zlen_be_bytes.
  - pose proof (Zlen_be_bytes n v). pose proof (Zlen_be_bytes n v'). unfold Zlen in *. lia.
Qed.

(** Any bytes are a sequence of fields of given widths, and the rest. *)
Lemma layout_view (ns : list nat) bs :
  bytes_ok bs -> foldr Z.add 0 (map Z.of_nat ns) <= Zlen bs ->
  exists l rest, map fst l = ns /\ bs = layout_bytes l ++ rest /\ bytes_ok rest /\
    Forall (fun f => 0 <= f.2 < 256 ^ Z.of_nat f.1) l.
Proof.
  revert bs. induction ns as [|n ns IH]; intros bs Hb Hl; cbn [map foldr] in *.
  { exists [], bs. done. }
  assert (0 <= foldr Z.add 0 (map Z.of_nat ns)) by (clear; induction ns; cbn; lia).
  assert (Hn : length (take n bs) = n) by (rewrite length_take; mlia).
  destruct (IH (drop n bs)) as (l & rest & Hm & E & Hr & Hf).
  - by apply bytes_ok_drop.
  - unfold Zlen in *. rewrite length_drop. lia.
  - exists ((n, be_value (take n bs)) :: l), rest. split; [by rewrite <- Hm|]. split; [|split; [done|]].
    + unfold layout_bytes in *. cbn. rewrite <- app_assoc, <- E.
      pose proof (be_bytes_value (take n bs) (bytes_ok_take n bs Hb)) as Hv. rewrite Hn in Hv.
      by rewrite Hv, take_drop.
    + constructor; [|done]. cbn. pose proof (be_value_range (take n bs) (bytes_ok_take n bs Hb)) as Hv.
      unfold Zlen in Hv. by rewrite Hn in Hv.
Qed.

(** The field with index [i] of a layout. *)
Lemma layout_get i l n v rest a b :
  l !! i = Some (n, v) -> a = layout_len (take i l) -> b = a + Z.of_nat n ->
  slice (layout_bytes l ++ rest) a b = Ret (be_bytes n v).
Proof.
  intros Hi Ha Hb. rewrite <- (take_drop_middle l i (n, v) Hi) at 1. by apply layout_slice.
Qed.

Lemma layout_set i l n v v' rest a b f :
  l !! i = Some (n, v) -> a = layout_len (take i l) -> b = a + Z.of_nat n ->
  f (be_bytes n v) = Ret (be_bytes n v') ->
  slice_mut (layout_bytes l ++ rest) a b f = Ret (layout_bytes (<[i := (n, v')]> l) ++ rest).
Proof.
  intros Hi Ha Hb Hf. pose proof (lookup_lt_Some _ _ _ Hi).
  rewrite (insert_take_drop l i (n, v')) by done.
  rewrite <- (take_drop_middle l i (n, v) Hi) at 1. by apply layout_slice_mut.
Qed.

Lemma Zlen_split_at {A} (l : list A) n :
  0 <= n <= Zlen l -> exists p s, l = p ++ s /\ Zlen p = n.
Proof.
  intros Hn. exists (take (Z.to_nat n) l), (drop (Z.to_nat n) l).
  split; [by rewrite take_drop|]. unfold Zlen in *. rewrite length_take. lia.
Qed.

(** Bit operations stay inside the width. *)
Lemma in_bits n x : 0 <= n -> 0 <= x < 2 ^ n <-> Z.land x (Z.ones n) = x.
Proof.
  intros Hn. rewrite Z.land_ones by lia. split.
  - intros. by apply Z.mod_small.
  - intros <-. apply Z.mod_pos_bound. lia.
Qed.

Lemma in_u16_bits x : in_u16 x <-> Z.land x (Z.ones 16) = x.
Proof. rewrite <- in_bits by lia. unfold_max. lia. Qed.

Lemma in_u8_bits x : in_u8 x <-> Z.land x (Z.ones 8) = x.
Proof. rewrite <- in_bits by lia. unfold_max. lia. Qed.

Lemma land_bits_l a b m : Z.land a m = a -> Z.land (Z.land a b) m = Z.land a b.
Proof. intros Ha. by rewrite <- Z.land_assoc, (Z.land_comm b), Z.land_assoc, Ha. Qed.

Lemma lor_bits a b m : Z.land a m = a -> Z.land b m = b -> Z.land (Z.lor a b) m = Z.lor a b.
Proof. intros Ha Hb. by rewrite Z.land_lor_distr_l, Ha, Hb. Qed.

Lemma in_u16_lor a b : in_u16 a -> in_u16 b -> in_u16 (Z.lor a b).
Proof. rewrite !in_u16_bits. apply lor_bits. Qed.

Lemma in_u16_land_l a b : in_u16 a -> in_u16 (Z.land a b).
Proof. rewrite !in_u16_bits. apply land_bits_l. Qed.

Lemma in_u8_lor a b : in_u8 a -> in_u8 b -> in_u8 (Z.lor a b).
Proof. rewrite !in_u8_bits. apply lor_bits. Qed.

Lemma in_u8_land_l a b : in_u8 a -> in_u8 (Z.land a b).
Proof. rewrite !in_u8_bits. apply land_bits_l. Qed.

Lemma u16_not x : in_u16 x -> Z.lxor 0xffff x = 65535 - x.
Proof.
  intros Hx. assert (E : x + Z.lxor 65535 x = 65535); [|lia].
  rewrite Z.add_nocarry_lxor.
  - rewrite (Z.lxor_comm 65535), <- Z.lxor_assoc, Z.lxor_nilpotent. apply Z.lxor_0_l.
  - apply Z.bits_inj'. intros n Hn. rewrite Z.land_spec, Z.lxor_spec, Z.bits_0.
    change 65535 with (Z.ones 16). destruct (Z.ltb_spec n 16).
    + rewrite Z.ones_spec_low by lia. by destruct (Z.testbit x n).
    + rewrite (Z.bits_above_log2 x n); [done | mlia |].
      destruct (Z.eq_dec x 0) as [->|]; [cbn; lia|]. apply Z.log2_lt_pow2; [mlia|].
      apply Z.lt_le_trans with (2 ^ 16); [mlia|]. apply Z.pow_le_mono_r; lia.
Qed.

(** Bytes that are listed one by one. *)
Ltac byte_list := repeat (constructor; [mlia|]); constructor.

Lemma index_set_app {A} (p : list A) x s y i :
  i = Zlen p -> index_set (p ++ x :: s) i y = Ret (p ++ y :: s).
Proof.
  intros ->. pose proof (Zlen_nonneg p). pose proof (Zlen_nonneg s).
  rewrite index_set_ok by (rewrite Zlen_app, Zlen_cons; lia). unfold Zlen. rewrite Nat2Z.id.
  by rewrite insert_app_r_alt, Nat.sub_diag by lia.
Qed.

Lemma copy_from_slice_ok dst src : Zlen dst = Zlen src -> copy_from_slice dst src = Ret src.
Proof. intros E. unfold copy_from_slice. by rewrite E, Z.eqb_refl. Qed.

(** ** Fields of a layout *)

(** One byte. *)
Lemma layout_index i l v rest a :
  l !! i = Some (1%nat, v) -> a = layout_len (take i l) -> in_u8 v -> index (layout_bytes l ++ rest) a = Ret v.
Proof.
  intros Hi Ha Hv. rewrite <- (take_drop_middle l i (1%nat, v) Hi) at 1. rewrite layout_split.
  cbn [be_bytes app]. rewrite Z.mod_small by mlia. subst a. rewrite <- Zlen_layout_bytes.
  apply index_ok; [apply Zlen_nonneg|]. unfold Zlen. rewrite Nat2Z.id. by apply list_lookup_middle.
Qed.

Lemma layout_index_set i l v v' rest a :
  l !! i = Some (1%nat, v) -> a = layout_len (take i l) -> in_u8 v' ->
  index_set (layout_bytes l ++ rest) a v' = Ret (layout_bytes (<[i := (1%nat, v')]> l) ++ rest).
Proof.
  intros Hi Ha Hv. pose proof (lookup_lt_Some _ _ _ Hi). rewrite (insert_take_drop l i (1%nat, v')) by done.
  rewrite <- (take_drop_middle l i (1%nat, v) Hi) at 1. rewrite !layout_split.
  cbn [be_bytes app]. rewrite (Z.mod_small v') by mlia. apply index_set_app. by rewrite Zlen_layout_bytes.
Qed.

Section Fields.
Context `{NetworkEndianLaws}.

Lemma read_u16_exact v : in_u16 v -> read_u16 (be_bytes 2 v) = Ret v.
Proof.
  intros. rewrite read_u16_law, be_read_exact. change (256 ^ Z.of_nat 2) with 65536.
  rewrite Z.mod_small by mlia. done.
Qed.

Lemma read_u32_exact v : in_u32 v -> read_u32 (be_bytes 4 v) = Ret v.
Proof.
  intros. rewrite read_u32_law, be_read_exact. change (256 ^ Z.of_nat 4) with (2 ^ 32).
  rewrite Z.mod_small by mlia. done.
Qed.

Lemma seq_wrap_mod v : seq_wrap (v mod 2 ^ 32) = seq_wrap v.
Proof. unfold seq_wrap, wrap_i. f_equal. rewrite Zplus_mod_idemp_l. done. Qed.

Lemma read_i32_exact v : read_i32 (be_bytes 4 v) = Ret (seq_wrap v).
Proof.
  rewrite read_i32_law, be_read_exact, bind_Ret. change (256 ^ Z.of_nat 4) with (2 ^ 32).
  f_equal. apply seq_wrap_mod.
Qed.

Lemma write_u32_exact m v : in_u32 v -> Zlen m = 4 -> write_u32 m v = Ret (be_bytes 4 v).
Proof. intros. rewrite write_u32_law by done. by apply be_write_exact. Qed.

Lemma write_u16_exact m v : in_u16 v -> Zlen m = 2 -> write_u16 m v = Ret (be_bytes 2 v).
Proof. intros. rewrite write_u16_law by done. by apply be_write_exact. Qed.

Lemma layout_read_u16 i l v rest a b :
  l !! i = Some (2%nat, v) -> a = layout_len (take i l) -> b = a + 2 -> in_u16 v ->
  field_read read_u16 (layout_bytes l ++ rest) a b = Ret v.
Proof.
  intros Hi Ha Hb Hv. unfold field_read. rewrite (layout_get i l 2 v) by done. rewrite bind_Ret.
  by apply read_u16_exact.
Qed.

Lemma layout_read_u32 i l v rest a b :
  l !! i = Some (4%nat, v) -> a = layout_len (take i l) -> b = a + 4 -> in_u32 v ->
  field_read read_u32 (layout_bytes l ++ rest) a b = Ret v.
Proof.
  intros Hi Ha Hb Hv. unfold field_read. rewrite (layout_get i l 4 v) by done. rewrite bind_Ret.
  by apply read_u32_exact.
Qed.

Lemma layout_write_u32 i l v v' rest a b :
  l !! i = Some (4%nat, v) -> a = layout_len (take i l) -> b = a + 4 -> in_u32 v' ->
  slice_mut (layout_bytes l ++ rest) a b (fun d => write_u32 d v') =
  Ret (layout_bytes (<[i := (4%nat, v')]> l) ++ rest).
Proof. intros Hi Ha Hb Hv. apply (layout_set i l 4 v v'); [done..|]. by apply write_u32_exact. Qed.

Lemma layout_write_u16 i l v v' rest a b :
  l !! i = Some (2%nat, v) -> a = layout_len (take i l) -> b = a + 2 -> in_u16 v' ->
  slice_mut (layout_bytes l ++ rest) a b (fun d => write_u16 d v') =
  Ret (layout_bytes (<[i := (2%nat, v')]> l) ++ rest).
Proof. intros Hi Ha Hb Hv. apply (layout_set i l 2 v v'); [done..|]. by apply write_u16_exact. Qed.
End Fields.

(** A field that is copied. *)
Lemma layout_copy i l n v src rest a b :
  l !! i = Some (n, v) -> a = layout_len (take i l) -> b = a + Z.of_nat n -> bytes_ok src -> length src = n ->
  slice_mut (layout_bytes l ++ rest) a b (fun d => copy_from_slice d src) =
  Ret (layout_bytes (<[i := (n, be_value src)]> l) ++ rest).
Proof.
  intros Hi Ha Hb Hs Hl. apply (layout_set i l n v); [done..|].
  assert (E : be_bytes n (be_value src) = src) by (rewrite <- Hl; by apply be_bytes_value).
  rewrite E. apply copy_from_slice_ok. rewrite Zlen_be_bytes. unfold Zlen. lia.
Qed.

(** ** Reading inside a buffer: the value is in the range of its type *)

Lemma index_byte_wp bs i : bytes_ok bs -> 0 <= i < Zlen bs -> wp (index bs i) in_u8.
Proof.
  intros Hb Hi. destruct (lookup_lt_is_Some_2 bs (Z.to_nat i)) as [x Hx]; [mlia|].
  rewrite (index_ok bs i x) by (done || lia). by apply (Forall_lookup_1 _ _ _ _ Hb Hx).
Qed.

Lemma slice_wp bs a b : bytes_ok bs -> 0 <= a <= b -> b <= Zlen bs -> wp (slice bs a b) (fun d => bytes_ok d /\ Zlen d = b - a).
Proof. intros. rewrite slice_ok by lia. cbn [wp]. split; [by apply bytes_ok_sub | apply Zlen_sub; lia]. Qed.

Section ReadWp.
Context `{NetworkEndianLaws}.

Lemma field_u16_wp bs a b : bytes_ok bs -> b = a + 2 -> 0 <= a -> b <= Zlen bs -> wp (field_read read_u16 bs a b) in_u16.
Proof.
  intros Hb -> Ha Hl. unfold field_read. wp_bind_with (slice_wp bs a (a + 2)); [done | lia | lia |]. intros d [Hd E].
  rewrite read_u16_law, be_read_ok by lia. cbn [wp]. rewrite take_ge by mlia. apply be_value_u16; [done | lia].
Qed.

Lemma field_u32_wp bs a b : bytes_ok bs -> b = a + 4 -> 0 <= a -> b <= Zlen bs -> wp (field_read read_u32 bs a b) in_u32.
Proof.
  intros Hb -> Ha Hl. unfold field_read. wp_bind_with (slice_wp bs a (a + 4)); [done | lia | lia |]. intros d [Hd E].
  rewrite read_u32_law, be_read_ok by lia. cbn [wp]. rewrite take_ge by mlia. apply be_value_u32; [done | lia].
Qed.
End ReadWp.

(** The bytes of a buffer as a layout of the widths [ns]. *)
Ltac fields ns p l rest E Hr :=
  let Hm := fresh in let Hf := fresh in
  destruct (layout_view ns p) as (l & rest & Hm & E & Hr & Hf); [done | cbn; lia |];
  repeat (destruct l as [|[? ?] l]; [discriminate|]); destruct l; [|discriminate];
  cbn [map fst] in Hm; injection Hm as; subst;
  repeat match goal with H : Forall _ (_ :: _) |- _ => inversion H; clear H; subst end; cbn [fst snd] in *.

(** Run the next read of a [wp] goal, which gives [x] in the range [H]; a slice has its length
    as a further hypothesis. *)
Ltac read_side := done || mlia.
Tactic Notation "read_as" ident(x) ident(H) :=
  rewrite ?bind_assoc;
  match goal with
  | |- wp (index ?b ?i ≫= _) _ => eapply wp_bind_mono; [apply index_byte_wp; [done | read_side] |]; intros x H
  | |- wp (field_read read_u16 ?b ?i ?j ≫= _) _ => eapply wp_bind_mono; [apply field_u16_wp; read_side |]; intros x H
  | |- wp (field_read read_u32 ?b ?i ?j ≫= _) _ => eapply wp_bind_mono; [apply field_u32_wp; read_side |]; intros x H
  | |- wp (slice ?b ?i ?j ≫= _) _ => eapply wp_bind_mono; [apply slice_wp; read_side |]; intros x [H ?]
  end; cbv beta.
