(* ===== verification/Checksum.v ===== *)
(** * The Internet checksum (wire/ip.rs, module [checksum]; phy/mod.rs, [Checksum])

    [checksum_data] sums 16-bit words in chunks of 32 bytes and folds the carries once at the
    end; [rfc1071] adds word by word with the end-around carry.  Both equal [fold16] of the
    integer sum, on which the computations with checksums are done. *)

From S2P Require Import Prelude SeqNumber ByteOrder IpTypes.

(** ** Which checksums a device computes (phy/mod.rs) *)

Inductive Checksum : Type := CkBoth | CkRx | CkTx | CkNone.

Definition checksum_rx (c : Checksum) : bool := match c with CkBoth | CkRx => true | _ => false end.
Definition checksum_tx (c : Checksum) : bool := match c with CkBoth | CkTx => true | _ => false end.

Record ChecksumCapabilities : Type := mkChecksumCapabilities {
  caps_ipv4 : Checksum; caps_udp : Checksum; caps_tcp : Checksum;
  caps_icmpv4 : Checksum; caps_icmpv6 : Checksum;
}.

Definition caps_ignored : ChecksumCapabilities :=
  mkChecksumCapabilities CkNone CkNone CkNone CkNone CkNone.

(** ** Computing checksums *)

Definition propagate_carries (word : Z) : res Z :=
  sum ← u32_chk (Z.shiftr word 16 + Z.land word 0xffff);
  checked 0 u16_max (wrap_u 16 (Z.shiftr sum 16) + wrap_u 16 sum).

Section Checksum.
Context `{NetworkEndian}.

(** [while d.len() >= 2 { accum += read_u16(d); d = &d[2..]; }] *)
Fixpoint sum_words (fuel : nat) (d : list Z) (accum : Z) : res (list Z * Z) :=
  if 2 <=? Zlen d then
    match fuel with
    | O => Panic
    | S fuel =>
        w ← read_u16 d;
        accum ← u32_chk (accum + w);
        d ← slice d 2 (Zlen d);
        sum_words fuel d accum
    end
  else Ret (d, accum).

Definition CHUNK_SIZE : Z := 32.

(** The chunks of 32 bytes; [data] and [accum] after the last of them. *)
Fixpoint sum_chunks (fuel : nat) (data : list Z) (accum : Z) : res (list Z * Z) :=
  if CHUNK_SIZE <=? Zlen data then
    match fuel with
    | O => Panic
    | S fuel =>
        d ← slice data 0 CHUNK_SIZE;
        '(_, accum) ← sum_words (length d) d accum;
        data ← slice data CHUNK_SIZE (Zlen data);
        sum_chunks fuel data accum
    end
  else Ret (data, accum).

Definition checksum_data (data : list Z) : res Z :=
  '(data, accum) ← sum_chunks (length data) data 0;
  '(data, accum) ← sum_words (length data) data accum;
  accum ← (match data with
           | value :: _ => u32_chk (accum + Z.shiftl value 8)
           | [] => Ret accum
           end);
  propagate_carries accum.

(** [for &word in checksums { accum += word as u32; }] *)
Fixpoint sum_u32 (checksums : list Z) (accum : Z) : res Z :=
  match checksums with
  | [] => Ret accum
  | word :: checksums => accum ← u32_chk (accum + word); sum_u32 checksums accum
  end.

Definition checksum_combine (checksums : list Z) : res Z :=
  accum ← sum_u32 checksums 0; propagate_carries accum.

(** [pseudo_header_v4] and [pseudo_header_v6] differ in the length of the addresses only. *)
Definition pseudo_header_octets (src dst : list Z) (next_header length : Z) : res Z :=
  proto_len ← index_set [0; 0; 0; 0] 1 next_header;
  proto_len ← slice_mut proto_len 2 4 (fun d => write_u16 d (wrap_u 16 length));
  s ← checksum_data src;
  d ← checksum_data dst;
  p ← checksum_data proto_len;
  checksum_combine [s; d; p].

Definition pseudo_header (src_addr dst_addr : Address) (next_header length : Z) : res Z :=
  match src_addr, dst_addr with
  | Ipv4 src, Ipv4 dst => pseudo_header_octets src dst next_header length
  | Ipv6 src, Ipv6 dst => pseudo_header_octets src dst next_header length
  | _, _ => Panic
  end.
End Checksum.

(** ** Reference definitions *)

(** The integer sum of the big-endian words; an odd last byte is padded with zero. *)
Fixpoint word_sum (bs : list Z) : Z :=
  match bs with
  | a :: b :: bs => a * 256 + b + word_sum bs
  | [a] => a * 256
  | [] => 0
  end.

(** The addition of RFC 1071: a carry out of the 16 bits is added at the other end. *)
Definition onec_add (a b : Z) : Z := if 65535 <? a + b then a + b - 65535 else a + b.

Fixpoint rfc1071_from (acc : Z) (bs : list Z) : Z :=
  match bs with
  | a :: b :: bs => rfc1071_from (onec_add acc (a * 256 + b)) bs
  | [a] => onec_add acc (a * 256)
  | [] => acc
  end.
Definition rfc1071 (bs : list Z) : Z := rfc1071_from 0 bs.

(** The value of a sum folded to 16 bits: zero only for zero. *)
Definition fold16 (s : Z) : Z := if s =? 0 then 0 else (s - 1) mod 65535 + 1.

(** ** Lemmas *)

Lemma fold16_range s : 0 <= fold16 s <= 65535.
Proof. unfold fold16. destr_if; [lia|]. pose proof (Z.mod_pos_bound (s - 1) 65535). lia. Qed.

Lemma fold16_spec s : 0 <= s -> exists k, 0 <= k /\ s = fold16 s + 65535 * k.
Proof.
  intros Hs. unfold fold16. destr_if; [exists 0; lia|].
  exists ((s - 1) / 65535). split; [apply Z.div_pos; lia|].
  pose proof (Z.div_mod (s - 1) 65535). lia.
Qed.

Lemma fold16_unique s x k : 0 <= k -> 0 <= x <= 65535 -> s = x + 65535 * k -> (x = 0 -> s = 0) -> x = fold16 s.
Proof.
  intros Hk Hx E H0. assert (Hs : 0 <= s) by lia. destruct (fold16_spec s Hs) as (k' & Hk' & E'). pose proof (fold16_range s).
  assert (fold16 s = 0 -> s = 0).
  { unfold fold16. destr_if; [lia|]. pose proof (Z.mod_pos_bound (s - 1) 65535). lia. }
  lia.
Qed.

Lemma fold16_add a b : 0 <= a -> 0 <= b -> fold16 (a + fold16 b) = fold16 (a + b).
Proof.
  intros Ha Hb. destruct (fold16_spec b Hb) as (k & Hk & E). pose proof (fold16_range b).
  destruct (fold16_spec (a + fold16 b)) as (j & Hj & E'); [lia|].
  apply (fold16_unique (a + b) _ (k + j)); [lia | apply fold16_range | lia |].
  intros Hz. rewrite Hz in E'. unfold fold16 in Hz.
  destruct (Z.eqb_spec (a + (if b =? 0 then 0 else (b - 1) mod 65535 + 1)) 0) as [Ez|Ez].
  - destruct (Z.eqb_spec b 0); [lia|]. pose proof (Z.mod_pos_bound (b - 1) 65535). lia.
  - pose proof (Z.mod_pos_bound (a + (if b =? 0 then 0 else (b - 1) mod 65535 + 1) - 1) 65535). lia.
Qed.

(** Adding the complement of the folded sum gives all ones. *)
Lemma fold16_complement s : 0 <= s -> fold16 (s + (65535 - fold16 s)) = 65535.
Proof.
  intros Hs. destruct (fold16_spec s Hs) as (k & Hk & E). symmetry.
  apply (fold16_unique _ _ k); lia.
Qed.

Lemma onec_add_fold s w : 0 <= s -> 0 <= w <= 65535 -> onec_add (fold16 s) w = fold16 (s + w).
Proof.
  intros Hs Hw. rewrite Z.add_comm, <- fold16_add by lia. pose proof (fold16_range s).
  unfold onec_add. destr_if.
  - apply (fold16_unique _ _ 1); lia.
  - apply (fold16_unique _ _ 0); lia.
Qed.

Lemma propagate_carries_ok s : 0 <= s <= u32_max -> propagate_carries s = Ret (fold16 s).
Proof.
  intros Hs. unfold propagate_carries. change 65535 with (Z.ones 16).
  rewrite Z.land_ones, !Z.shiftr_div_pow2 by lia.
  pose proof (Z.div_mod s (2 ^ 16)). pose proof (Z.mod_pos_bound s (2 ^ 16)).
  assert (0 <= s / 2 ^ 16 < 2 ^ 16) by (split; [apply Z.div_pos | apply Z.div_lt_upper_bound]; mlia).
  unfold u32_chk. chk_step ltac:(mlia). set (t := s / 2 ^ 16 + s mod 2 ^ 16) in *.
  rewrite Z.shiftr_div_pow2 by lia. unfold wrap_u.
  pose proof (Z.div_mod t (2 ^ 16)). pose proof (Z.mod_pos_bound t (2 ^ 16)).
  assert (0 <= t / 2 ^ 16 <= 1).
  { split; [apply Z.div_pos; lia|]. apply Z.lt_succ_r, Z.div_lt_upper_bound; lia. }
  rewrite (Z.mod_small (t / 2 ^ 16)) by lia.
  rewrite checked_ok by mlia. f_equal.
  apply (fold16_unique s _ (s / 2 ^ 16 + t / 2 ^ 16)); lia.
Qed.

Lemma word_sum_bounds bs : bytes_ok bs -> 0 <= word_sum bs <= 32768 * (Zlen bs + 1).
Proof.
  revert bs. fix IH 1. intros [|a [|b bs]] Hb; cbn [word_sum].
  - unfold Zlen. cbn. lia.
  - apply bytes_ok_cons in Hb as [Hb _]. unfold Zlen. cbn [length]. mlia.
  - apply bytes_ok_cons in Hb as [Ha Hb]. apply bytes_ok_cons in Hb as [Hb Hbs].
    specialize (IH bs Hbs). rewrite !Zlen_cons. mlia.
Qed.

Lemma word_sum_app a b : Nat.Even (length a) -> word_sum (a ++ b) = word_sum a + word_sum b.
Proof.
  revert a. fix IH 1. intros [|x [|y a]] He; cbn [word_sum app]; [lia | |].
  - destruct He as [k E]. cbn in E. lia.
  - rewrite IH; [lia|]. destruct He as [k E]. exists (k - 1)%nat. cbn in E. lia.
Qed.

Lemma rfc1071_from_fold bs acc :
  bytes_ok bs -> 0 <= acc -> rfc1071_from (fold16 acc) bs = fold16 (acc + word_sum bs).
Proof.
  revert bs acc. fix IH 1. intros [|a [|b bs]] acc Hb Hacc; cbn [word_sum rfc1071_from].
  - by rewrite Z.add_0_r.
  - apply bytes_ok_cons in Hb as [Hb _]. apply onec_add_fold; mlia.
  - apply bytes_ok_cons in Hb as [Ha Hb]. apply bytes_ok_cons in Hb as [Hb Hbs].
    rewrite onec_add_fold by mlia. rewrite IH by (auto; mlia). f_equal. lia.
Qed.

Lemma word_sum_be2 v l : in_u16 v -> word_sum (be_bytes 2 v ++ l) = v + word_sum l.
Proof.
  intros Hv. pose proof (be_value_bytes 2 v) as E. change (256 ^ Z.of_nat 2) with 65536 in E.
  rewrite Z.mod_small in E by mlia. cbn [be_bytes app word_sum] in *. cbn [word_sum].
  unfold be_value in E. cbn [fold_left app] in E. lia.
Qed.

(** A checksum field adds its value to the sum of the words. *)
Lemma word_sum_field p v s :
  Nat.Even (length p) -> in_u16 v -> word_sum (p ++ be_bytes 2 v ++ s) = v + word_sum (p ++ be_bytes 2 0 ++ s).
Proof. intros Hp Hv. rewrite !(word_sum_app p), !word_sum_be2 by (done || mlia). lia. Qed.

(** The byte left over behind the words. *)
Fixpoint odd_byte (bs : list Z) : list Z :=
  match bs with
  | _ :: _ :: bs => odd_byte bs
  | bs => bs
  end.

Lemma odd_byte_even bs : Nat.Even (length bs) -> odd_byte bs = [].
Proof.
  revert bs. fix IH 1. intros [|a [|b bs]] He; cbn [odd_byte]; [done | |].
  - destruct He as [k E]. cbn in E. lia.
  - apply IH. destruct He as [k E]. exists (k - 1)%nat. cbn in E. lia.
Qed.

(** The word sum of at most 128 KiB fits the accumulator. *)
Definition sum_fits (acc : Z) (bs : list Z) : Prop :=
  bytes_ok bs /\ 0 <= acc /\ acc + word_sum bs <= u32_max.

Section Sums.
Context `{NetworkEndianLaws}.

Lemma sum_words_ok fuel d acc :
  (length d <= fuel)%nat -> sum_fits acc d ->
  sum_words fuel d acc = Ret (odd_byte d, acc + word_sum d - word_sum (odd_byte d)).
Proof.
  revert d acc. induction fuel as [|fuel IH]; intros d acc Hf (Hb & Ha & Hs).
  { destruct d; [|cbn in Hf; lia]. cbn. do 2 f_equal. lia. }
  cbn [sum_words]. destruct d as [|a [|b d]].
  - cbn. do 2 f_equal. lia.
  - cbn. do 2 f_equal. lia.
  - apply bytes_ok_cons in Hb as [Hx Hb]. apply bytes_ok_cons in Hb as [Hy Hb].
    pose proof (Zlen_nonneg d). pose proof (word_sum_bounds d Hb). cbn [word_sum odd_byte] in *.
    replace (2 <=? Zlen (a :: b :: d)) with true by (rewrite !Zlen_cons; lia).
    rewrite read_u16_law, be_read_ok, bind_Ret by (rewrite !Zlen_cons; lia).
    change (be_value (take 2 (a :: b :: d))) with ((0 * 256 + a) * 256 + b).
    unfold u32_chk. chk_step ltac:(mlia).
    pose proof (slice_mid [a; b] d [] 2 (Zlen (a :: b :: d))) as E. rewrite app_nil_r in E.
    cbn [app] in E. rewrite E, bind_Ret by (rewrite ?Zlen_cons; done || lia).
    rewrite IH; [do 2 f_equal; lia | cbn [length] in Hf; lia |].
    split; [done|]. mlia.
Qed.

Lemma sum_chunks_ok fuel data acc :
  (length data <= fuel)%nat -> sum_fits acc data ->
  exists rest, sum_chunks fuel data acc = Ret (rest, acc + word_sum data - word_sum rest) /\
    sum_fits (acc + word_sum data - word_sum rest) rest.
Proof.
  revert data acc. induction fuel as [|fuel IH]; intros data acc Hf Hfit.
  { exists data. destruct data; [|cbn in Hf; lia]. split; [cbn; do 2 f_equal; lia|].
    replace (acc + word_sum [] - word_sum []) with acc by lia. done. }
  cbn [sum_chunks]. destruct (CHUNK_SIZE <=? Zlen data) eqn:E.
  2: { exists data. replace (acc + word_sum data - word_sum data) with acc by lia. done. }
  unfold CHUNK_SIZE in *. destruct Hfit as (Hb & Ha & Hs).
  set (d := take 32 data). set (r := drop 32 data).
  assert (Ed : data = d ++ r) by (symmetry; apply take_drop).
  assert (Hd : length d = 32%nat) by (unfold d; rewrite length_take; mlia).
  clearbody d r. subst data. apply bytes_ok_app in Hb as [Hbd Hbr].
  assert (Hev : Nat.Even (length d)) by (rewrite Hd; by exists 16%nat).
  rewrite (word_sum_app d r Hev) in *. pose proof (word_sum_bounds d Hbd). pose proof (word_sum_bounds r Hbr).
  assert (Zlen d = 32) by (unfold Zlen; lia).
  pose proof (slice_mid [] d r 0 32) as E1. cbn [app] in E1. rewrite E1, bind_Ret by (done || lia).
  rewrite sum_words_ok, bind_Ret by (done || (split; [done | lia])). rewrite odd_byte_even by done.
  pose proof (slice_mid d r [] 32 (Zlen (d ++ r))) as E2. rewrite app_nil_r in E2.
  rewrite E2, bind_Ret by (rewrite ?Zlen_app; lia).
  destruct (IH r (acc + word_sum d)) as (rest & Er & Hr).
  { rewrite length_app in Hf. lia. }
  { split; [done | lia]. }
  exists rest. cbn [word_sum]. rewrite Z.sub_0_r, Er. split; [do 2 f_equal; lia|].
  by replace (acc + (word_sum d + word_sum r) - word_sum rest) with (acc + word_sum d + word_sum r - word_sum rest) by lia.
Qed.

Lemma checksum_data_ok data :
  bytes_ok data -> Zlen data <= 131070 -> checksum_data data = Ret (fold16 (word_sum data)).
Proof.
  intros Hb Hl. pose proof (word_sum_bounds data Hb).
  destruct (sum_chunks_ok (length data) data 0) as (rest & E & Hfit); [done | split; [done | mlia] |].
  unfold checksum_data. rewrite E, bind_Ret. rewrite Z.add_0_l in *.
  rewrite sum_words_ok, bind_Ret by done. destruct Hfit as (Hbr & Ha & Hs).
  set (acc := word_sum data - word_sum rest) in *.
  assert (Ho : odd_byte rest = [] \/ exists v, odd_byte rest = [v] /\ in_u8 v /\ word_sum [v] <= word_sum rest).
  { clear -Hbr. revert rest Hbr. fix IH 1. intros [|a [|b r]] Hb; cbn [odd_byte]; [by left| |].
    - right. exists a. apply bytes_ok_cons in Hb as [Hb _]. done.
    - apply bytes_ok_cons in Hb as [Hx Hb]. apply bytes_ok_cons in Hb as [Hy Hb].
      destruct (IH r Hb) as [E|(v & E & Hv & Hle)]; [by left|]. right. exists v. cbn [word_sum] in *. split; [done|]. split; [done | mlia]. }
  destruct Ho as [-> | (v & -> & Hv & Hle)].
  - rewrite bind_Ret, propagate_carries_ok by (cbn [word_sum]; mlia). do 2 f_equal. cbn [word_sum]. lia.
  - cbn [word_sum] in *. rewrite Z.shiftl_mul_pow2 by lia. change (2 ^ 8) with 256.
    unfold u32_chk. chk_step ltac:(mlia). rewrite propagate_carries_ok by mlia. do 2 f_equal. lia.
Qed.

Lemma sum_u32_ok cs acc :
  Forall in_u16 cs -> 0 <= acc -> acc + 65535 * Zlen cs <= u32_max ->
  sum_u32 cs acc = Ret (acc + foldr Z.add 0 cs) /\ 0 <= foldr Z.add 0 cs <= 65535 * Zlen cs.
Proof.
  revert acc. induction cs as [|c cs IH]; intros acc Hc Ha Hl; cbn [sum_u32 foldr].
  - split; [f_equal; lia | unfold Zlen; cbn; lia].
  - inversion Hc as [|? ? Hx Hcs]; subst. rewrite Zlen_cons in *. pose proof (Zlen_nonneg cs).
    unfold u32_chk. chk_step ltac:(mlia).
    destruct (IH (acc + c)) as [-> ?]; [done | mlia | mlia|]. split; [f_equal; lia | mlia].
Qed.

Lemma checksum_combine_ok cs :
  Forall in_u16 cs -> Zlen cs <= 65537 -> checksum_combine cs = Ret (fold16 (foldr Z.add 0 cs)).
Proof.
  intros Hc Hl. unfold checksum_combine. pose proof (Zlen_nonneg cs).
  destruct (sum_u32_ok cs 0) as [-> ?]; [done | lia | mlia|]. rewrite bind_Ret, Z.add_0_l.
  apply propagate_carries_ok. mlia.
Qed.

Lemma fold16_u16 s : in_u16 (fold16 s).
Proof. pose proof (fold16_range s). mlia. Qed.

(** An address as [core::net] gives it: octets. *)
Definition addr_ok (a : Address) : Prop := bytes_ok (address_octets a) /\ Zlen (address_octets a) <= 16.

Lemma pseudo_header_ok src dst nh len :
  address_version src = address_version dst -> addr_ok src -> addr_ok dst -> in_u8 nh ->
  exists p, pseudo_header src dst nh len = Ret p /\ in_u16 p.
Proof.
  intros Hv [Hs Hsl] [Hd Hdl] Hn.
  assert (E : exists p, pseudo_header_octets (address_octets src) (address_octets dst) nh len = Ret p /\ in_u16 p).
  { unfold pseudo_header_octets. rewrite index_set_ok, bind_Ret by (unfold Zlen; cbn; lia).
    cbn [Z.to_nat]. change (<[Pos.to_nat 1:=nh]> [0; 0; 0; 0]) with ([0; nh] ++ [0; 0] ++ []).
    set (l := wrap_u 16 len). assert (in_u16 l) by (pose proof (wrap_u_range 16 len ltac:(lia)); mlia).
    rewrite (slice_mut_mid [0; nh] [0; 0] (be_bytes 2 l) [] 2 4), bind_Ret.
    - rewrite (checksum_data_ok (address_octets src)), bind_Ret by (done || lia).
      rewrite (checksum_data_ok (address_octets dst)), bind_Ret by (done || lia).
      rewrite checksum_data_ok.
      + rewrite bind_Ret, checksum_combine_ok; [eexists; split; [reflexivity | apply fold16_u16] | |done].
        repeat (constructor; [apply fold16_u16|]). constructor.
      + apply bytes_ok_app. split; [repeat constructor; mlia|]. rewrite app_nil_r. apply be_bytes_ok.
      + rewrite app_nil_r. unfold Zlen. cbn. lia.
    - done.
    - done.
    - rewrite write_u16_law by done. by apply be_write_exact.
    - done. }
  destruct src, dst; done.
Qed.
End Sums.

(** ** Properties *)

(** C33: summing in chunks of 32 bytes and folding the carries once at the end computes the
    checksum of RFC 1071, the one's complement sum of the 16-bit words with an end-around
    carry at every addition; the accumulator does not overflow up to 131070 bytes. *)
Theorem checksum_data_rfc1071 `{NetworkEndianLaws} data :
  bytes_ok data -> Zlen data <= 131070 -> checksum_data data = Ret (rfc1071 data).
Proof.
  intros Hb Hl. rewrite checksum_data_ok by done. unfold rfc1071.
  pose proof (rfc1071_from_fold data 0 Hb ltac:(lia)) as E. by rewrite Z.add_0_l in E; rewrite <- E.
Qed.

(** The example of RFC 1071, with an odd byte behind it. *)
Definition ck_example : list Z := [0x00; 0x01; 0xf2; 0x03; 0xf4; 0xf5; 0xf6; 0xf7; 0x01].

Lemma checksum_data_rfc1071_witness :
  @checksum_data network_endian ck_example = Ret (rfc1071 ck_example).
Proof.
  apply (@checksum_data_rfc1071 network_endian network_endian_laws).
  - unfold ck_example, bytes_ok. repeat (constructor; [mlia|]). constructor.
  - vm_compute. discriminate.
Defined.
