(* ===== verification/TcpWire.v ===== *)
(** * TCP packets on the wire (wire/tcp.rs, [Packet], [TcpOption], [Repr::parse], [Repr::emit])

    A [Packet] is the list of its bytes; a setter returns the new bytes.  An accessor panics
    where the source indexes out of range. *)

From S2P Require Import Prelude SeqNumber ByteOrder IpTypes Checksum TcpRepr.

#[local] Open Scope wire_scope.

(** ** Fields *)

Module field.
Definition FLG_FIN : Z := 0x001.
Definition FLG_SYN : Z := 0x002.
Definition FLG_RST : Z := 0x004.
Definition FLG_PSH : Z := 0x008.
Definition FLG_ACK : Z := 0x010.
Definition FLG_URG : Z := 0x020.
Definition FLG_ECE : Z := 0x040.
Definition FLG_CWR : Z := 0x080.
Definition FLG_NS : Z := 0x100.

Definition URGENT_end : Z := 20.

Definition OPT_END : Z := 0x00.
Definition OPT_NOP : Z := 0x01.
Definition OPT_MSS : Z := 0x02.
Definition OPT_WS : Z := 0x03.
Definition OPT_SACKPERM : Z := 0x04.
Definition OPT_SACKRNG : Z := 0x05.
Definition OPT_TSTAMP : Z := 0x08.
End field.

Inductive TcpOption : Type :=
| EndOfList
| NoOperation
| MaxSegmentSize (value : Z)
| WindowScale (value : Z)
| SackPermitted
| SackRange (ranges : SackRanges)
| TimeStamp (tsval tsecr : Z)
| UnknownOption (kind : Z) (data : list Z).

#[export] Instance tcp_option_eq_dec : EqDecision TcpOption.
Proof. solve_decision. Defined.

Section Packet.
Context `{NetworkEndian}.
Implicit Types buffer : list Z.

(** ** Reading fields *)

Definition pkt_src_port buffer : res Z := field_read read_u16 buffer 0 2.
Definition pkt_dst_port buffer : res Z := field_read read_u16 buffer 2 4.
Definition pkt_seq_number buffer : res SeqNumber := field_read read_i32 buffer 4 8.
Definition pkt_ack_number buffer : res SeqNumber := field_read read_i32 buffer 8 12.
Definition pkt_flags buffer : res Z := field_read read_u16 buffer 12 14.

(** One flag of the flags field. *)
Definition pkt_flag (mask : Z) buffer : res bool :=
  raw ← pkt_flags buffer; Ret (negb (Z.land raw mask =? 0)).

Definition pkt_fin : list Z -> res bool := pkt_flag field.FLG_FIN.
Definition pkt_syn : list Z -> res bool := pkt_flag field.FLG_SYN.
Definition pkt_rst : list Z -> res bool := pkt_flag field.FLG_RST.
Definition pkt_psh : list Z -> res bool := pkt_flag field.FLG_PSH.
Definition pkt_ack : list Z -> res bool := pkt_flag field.FLG_ACK.
Definition pkt_urg : list Z -> res bool := pkt_flag field.FLG_URG.
Definition pkt_ece : list Z -> res bool := pkt_flag field.FLG_ECE.
Definition pkt_cwr : list Z -> res bool := pkt_flag field.FLG_CWR.
Definition pkt_ns : list Z -> res bool := pkt_flag field.FLG_NS.

Definition pkt_header_len buffer : res Z :=
  raw ← pkt_flags buffer;
  n ← checked 0 u16_max (Z.shiftr raw 12 * 4);
  Ret (wrap_u 8 n).

Definition pkt_window_len buffer : res Z := field_read read_u16 buffer 14 16.
Definition pkt_checksum buffer : res Z := field_read read_u16 buffer 16 18.
Definition pkt_urgent_at buffer : res Z := field_read read_u16 buffer 18 20.

Definition pkt_check_len buffer : res (result unit WireError) :=
  let len := Zlen buffer in
  if len <? field.URGENT_end then Ret (Err MkWireError)
  else
    header_len ← pkt_header_len buffer;
    if (len <? header_len) || (header_len <? field.URGENT_end) then Ret (Err MkWireError)
    else Ret (Ok tt).

Definition pkt_new_checked buffer : res (result (list Z) WireError) :=
  _ ←? pkt_check_len buffer; Ret (Ok buffer).

Definition pkt_segment_len buffer : res Z :=
  header_len ← pkt_header_len buffer;
  length ← usize_sub (Zlen buffer) header_len;
  syn ← pkt_syn buffer;
  length ← (if (syn : bool) then usize_add length 1 else Ret length);
  fin ← pkt_fin buffer;
  if (fin : bool) then usize_add length 1 else Ret length.

Definition pkt_options buffer : res (list Z) :=
  header_len ← pkt_header_len buffer; slice buffer field.URGENT_end header_len.

Definition pkt_payload buffer : res (list Z) :=
  header_len ← pkt_header_len buffer; slice buffer header_len (Zlen buffer).

Definition pkt_verify_partial_checksum buffer (src_addr dst_addr : Address) : res bool :=
  p ← pseudo_header src_addr dst_addr PROTOCOL_TCP (wrap_u 32 (Zlen buffer));
  c ← pkt_checksum buffer;
  Ret (p =? c).

(** The [cfg!(fuzzing)] of the source is false in a normal build. *)
Definition pkt_verify_checksum buffer (src_addr dst_addr : Address) : res bool :=
  p ← pseudo_header src_addr dst_addr PROTOCOL_TCP (wrap_u 32 (Zlen buffer));
  d ← checksum_data buffer;
  c ← checksum_combine [p; d];
  Ret (c =? u16_max).

(** ** Writing fields *)

Definition pkt_set_src_port buffer (v : Z) := slice_mut buffer 0 2 (fun d => write_u16 d v).
Definition pkt_set_dst_port buffer (v : Z) := slice_mut buffer 2 4 (fun d => write_u16 d v).
Definition pkt_set_seq_number buffer (v : SeqNumber) := slice_mut buffer 4 8 (fun d => write_i32 d v).
Definition pkt_set_ack_number buffer (v : SeqNumber) := slice_mut buffer 8 12 (fun d => write_i32 d v).
Definition pkt_set_flags buffer (raw : Z) := slice_mut buffer 12 14 (fun d => write_u16 d raw).

Definition pkt_clear_flags buffer : res (list Z) :=
  raw ← pkt_flags buffer; pkt_set_flags buffer (Z.land raw (Z.lxor 0xffff 0x0fff)).

Definition pkt_set_flag (mask : Z) buffer (value : bool) : res (list Z) :=
  raw ← pkt_flags buffer;
  pkt_set_flags buffer (if value then Z.lor raw mask else Z.land raw (Z.lxor 0xffff mask)).

Definition pkt_set_fin : list Z -> bool -> res (list Z) := pkt_set_flag field.FLG_FIN.
Definition pkt_set_syn : list Z -> bool -> res (list Z) := pkt_set_flag field.FLG_SYN.
Definition pkt_set_rst : list Z -> bool -> res (list Z) := pkt_set_flag field.FLG_RST.
Definition pkt_set_psh : list Z -> bool -> res (list Z) := pkt_set_flag field.FLG_PSH.
Definition pkt_set_ack : list Z -> bool -> res (list Z) := pkt_set_flag field.FLG_ACK.
Definition pkt_set_urg : list Z -> bool -> res (list Z) := pkt_set_flag field.FLG_URG.
Definition pkt_set_ece : list Z -> bool -> res (list Z) := pkt_set_flag field.FLG_ECE.
Definition pkt_set_cwr : list Z -> bool -> res (list Z) := pkt_set_flag field.FLG_CWR.
Definition pkt_set_ns : list Z -> bool -> res (list Z) := pkt_set_flag field.FLG_NS.

(** The shift truncates to 16 bits. *)
Definition pkt_set_header_len buffer (value : Z) : res (list Z) :=
  raw ← pkt_flags buffer;
  pkt_set_flags buffer (Z.lor (Z.land raw (Z.lxor 0xffff 0xf000)) (wrap_u 16 (Z.shiftl (value / 4) 12))).

Definition pkt_set_window_len buffer (v : Z) := slice_mut buffer 14 16 (fun d => write_u16 d v).
Definition pkt_set_checksum buffer (v : Z) := slice_mut buffer 16 18 (fun d => write_u16 d v).
Definition pkt_set_urgent_at buffer (v : Z) := slice_mut buffer 18 20 (fun d => write_u16 d v).

Definition pkt_fill_checksum buffer (src_addr dst_addr : Address) : res (list Z) :=
  buffer ← pkt_set_checksum buffer 0;
  p ← pseudo_header src_addr dst_addr PROTOCOL_TCP (wrap_u 32 (Zlen buffer));
  d ← checksum_data buffer;
  c ← checksum_combine [p; d];
  pkt_set_checksum buffer (Z.lxor 0xffff c).

(** [f(self.options_mut())] and [f(self.payload_mut())]. *)
Definition pkt_options_mut buffer (f : list Z -> res (list Z)) : res (list Z) :=
  header_len ← pkt_header_len buffer; slice_mut buffer field.URGENT_end header_len f.

Definition pkt_payload_mut buffer (f : list Z -> res (list Z)) : res (list Z) :=
  header_len ← pkt_header_len buffer; slice_mut buffer header_len (Zlen buffer) f.

(** ** Options *)

(** One entry of the array of SACK blocks. *)
Definition sack_range_at (data : list Z) (i : Z) : res (option (Z * Z)) :=
  let left := i * 8 in
  if left <? Zlen data then
    let mid := left + 4 in
    let right := mid + 4 in
    range_left ← field_read read_u32 data left mid;
    range_right ← field_read read_u32 data mid right;
    Ret (Some (range_left, range_right))
  else Ret None.

(** The option of kind [kind], neither the end nor a no-operation, with its [data]. *)
Definition option_of_kind (kind length : Z) (data : list Z) : res (result TcpOption WireError) :=
  if kind =? field.OPT_MSS then
    if length =? 4 then v ← read_u16 data; Ret (Ok (MaxSegmentSize v)) else Ret (Err MkWireError)
  else if kind =? field.OPT_WS then
    if length =? 3 then v ← index data 0; Ret (Ok (WindowScale v)) else Ret (Err MkWireError)
  else if kind =? field.OPT_SACKPERM then
    if length =? 2 then Ret (Ok SackPermitted) else Ret (Err MkWireError)
  else if kind =? field.OPT_SACKRNG then
    if (length <? 10) || negb ((length - 2) mod 8 =? 0) then Ret (Err MkWireError)
    else
      a ← sack_range_at data 0;
      b ← sack_range_at data 1;
      c ← sack_range_at data 2;
      Ret (Ok (SackRange (a, b, c)))
  else if (kind =? field.OPT_TSTAMP) && (length =? 10) then
    tsval ← field_read read_u32 data 0 4;
    tsecr ← field_read read_u32 data 4 8;
    Ret (Ok (TimeStamp tsval tsecr))
  else Ret (Ok (UnknownOption kind data)).

(** [buffer.get(a..b)]. *)
Definition get_range buffer (a b : Z) : option (list Z) :=
  if (a <=? b) && (b <=? Zlen buffer) then Some (sub buffer a (b - a)) else None.

(** The rest of the buffer, and the option in front of it. *)
Definition option_parse buffer : res (result (list Z * TcpOption) WireError) :=
  match buffer with
  | [] => Ret (Err MkWireError)
  | kind :: tail =>
      if kind =? field.OPT_END then rest ← slice buffer 1 (Zlen buffer); Ret (Ok (rest, EndOfList))
      else if kind =? field.OPT_NOP then rest ← slice buffer 1 (Zlen buffer); Ret (Ok (rest, NoOperation))
      else
        match tail with
        | [] => Ret (Err MkWireError)
        | length :: _ =>
            match get_range buffer 2 length with
            | None => Ret (Err MkWireError)
            | Some data =>
                option ←? option_of_kind kind length data;
                rest ← slice buffer length (Zlen buffer);
                Ret (Ok (rest, option))
            end
        end
  end.

Definition sack_blocks (s : SackRanges) : list (Z * Z) :=
  let '(a, b, c) := s in omap id [a; b; c].

Definition option_buffer_len (o : TcpOption) : Z :=
  match o with
  | EndOfList => 1
  | NoOperation => 1
  | MaxSegmentSize _ => 4
  | WindowScale _ => 3
  | SackPermitted => 2
  | SackRange s => Zlen (sack_blocks s) * 8 + 2
  | TimeStamp _ _ => 10
  | UnknownOption _ data => 2 + Zlen data
  end.

(** [write(&mut buffer[pos..], v)]. *)
Definition write_from buffer (pos : Z) (write : list Z -> Z -> res (list Z)) (v : Z) : res (list Z) :=
  slice_mut buffer pos (Zlen buffer) (fun d => write d v).

(** The loop over the SACK blocks, the first at [pos]. *)
Fixpoint emit_blocks buffer (pos : Z) (blocks : list (Z * Z)) : res (list Z) :=
  match blocks with
  | [] => Ret buffer
  | (first, second) :: blocks =>
      buffer ← write_from buffer pos write_u32 first;
      buffer ← write_from buffer (pos + 4) write_u32 second;
      emit_blocks buffer (pos + 8) blocks
  end.

(** The kind and the data of an option that has a length byte. *)
Definition emit_data (o : TcpOption) buffer : res (list Z) :=
  match o with
  | EndOfList | NoOperation => Panic
  | MaxSegmentSize value => buffer ← index_set buffer 0 field.OPT_MSS; write_from buffer 2 write_u16 value
  | WindowScale value => buffer ← index_set buffer 0 field.OPT_WS; index_set buffer 2 value
  | SackPermitted => index_set buffer 0 field.OPT_SACKPERM
  | SackRange s => buffer ← index_set buffer 0 field.OPT_SACKRNG; emit_blocks buffer 2 (sack_blocks s)
  | TimeStamp tsval tsecr =>
      buffer ← index_set buffer 0 field.OPT_TSTAMP;
      buffer ← write_from buffer 2 write_u32 tsval;
      write_from buffer 6 write_u32 tsecr
  | UnknownOption kind provided =>
      buffer ← index_set buffer 0 kind;
      slice_mut buffer 2 (Zlen buffer) (fun d => if Zlen d =? Zlen provided then Ret provided else Panic)
  end.

(** The new bytes of the buffer, and the position of the rest behind the option. *)
Definition option_emit (o : TcpOption) buffer : res (list Z * Z) :=
  '(buffer, length) ← (match o with
    | EndOfList => Ret (replicate (length buffer) field.OPT_END, 1)
    | NoOperation => buffer ← index_set buffer 0 field.OPT_NOP; Ret (buffer, 1)
    | _ =>
        let length := option_buffer_len o in
        buffer ← index_set buffer 1 (wrap_u 8 length);
        buffer ← emit_data o buffer;
        Ret (buffer, length)
    end);
  _ ← slice buffer length (Zlen buffer);
  Ret (buffer, length).

(** The first SACK-permitted option, or the first SACK blocks, of the options. *)
Fixpoint options_find {A} (fuel : nat) (pick : TcpOption -> option A) (default : A) (options : list Z)
  : res (result A WireError) :=
  match options with
  | [] => Ret (Ok default)
  | _ =>
      match fuel with
      | O => Panic
      | S fuel =>
          '(next_options, option) ←? option_parse options;
          match pick option with
          | Some a => Ret (Ok a)
          | None => options_find fuel pick default next_options
          end
      end
  end.

Definition pkt_selective_ack_permitted buffer : res (result bool WireError) :=
  options ← pkt_options buffer;
  options_find (length options) (fun o => if o is SackPermitted then Some true else None) false options.

Definition pkt_selective_ack_ranges buffer : res (result SackRanges WireError) :=
  options ← pkt_options buffer;
  options_find (length options) (fun o => if o is SackRange s then Some s else None) (None, None, None) options.

(** ** [Repr::parse] *)

(** The local variables that the loop over the options assigns. *)
Record ParsedOptions : Type := mkParsedOptions {
  po_max_seg_size : option Z;
  po_window_scale : option Z;
  po_sack_permitted : bool;
  po_sack_ranges : SackRanges;
  po_timestamp : option TcpTimestampRepr;
}.

Definition no_options : ParsedOptions := mkParsedOptions None None false (None, None, None) None.

(** The assignment of one option; the end of the list is handled by the loop. *)
Definition parse_option (p : ParsedOptions) (o : TcpOption) : ParsedOptions :=
  let '(mkParsedOptions mss ws sp sr ts) := p in
  match o with
  | MaxSegmentSize value => mkParsedOptions (Some value) ws sp sr ts
  | WindowScale value => mkParsedOptions mss (Some (if 14 <? value then 14 else value)) sp sr ts
  | SackPermitted => mkParsedOptions mss ws true sr ts
  | SackRange slice => mkParsedOptions mss ws sp slice ts
  | TimeStamp tsval tsecr => mkParsedOptions mss ws sp sr (Some (mkTcpTimestampRepr tsval tsecr))
  | _ => p
  end.

Fixpoint parse_options (fuel : nat) (p : ParsedOptions) (options : list Z)
  : res (result ParsedOptions WireError) :=
  match options with
  | [] => Ret (Ok p)
  | _ =>
      match fuel with
      | O => Panic
      | S fuel =>
          '(next_options, option) ←? option_parse options;
          match option with
          | EndOfList => Ret (Ok p)
          | _ => parse_options fuel (parse_option p option) next_options
          end
      end
  end.

Definition control_of_flags (syn fin rst psh : bool) : result Control WireError :=
  match syn, fin, rst, psh with
  | false, false, false, false => Ok CtlNone
  | false, false, false, true => Ok CtlPsh
  | true, false, false, _ => Ok CtlSyn
  | false, true, false, _ => Ok CtlFin
  | false, false, true, _ => Ok CtlRst
  | _, _, _, _ => Err MkWireError
  end.

(** The checks in front of the fields. *)
Definition parse_checks buffer (src_addr dst_addr : Address) (caps : ChecksumCapabilities)
  : res (result unit WireError) :=
  _ ←? pkt_check_len buffer;
  src_port ← pkt_src_port buffer;
  if src_port =? 0 then Ret (Err MkWireError)
  else
    dst_port ← pkt_dst_port buffer;
    if dst_port =? 0 then Ret (Err MkWireError)
    else if checksum_rx (caps_tcp caps) then
      valid ← pkt_verify_checksum buffer src_addr dst_addr;
      Ret (if (valid : bool) then Ok tt else Err MkWireError)
    else Ret (Ok tt).

Definition repr_parse buffer (src_addr dst_addr : Address) (caps : ChecksumCapabilities)
  : res (result TcpRepr WireError) :=
  _ ←? parse_checks buffer src_addr dst_addr caps;
  syn ← pkt_syn buffer;
  fin ← pkt_fin buffer;
  rst ← pkt_rst buffer;
  psh ← pkt_psh buffer;
  control ←? Ret (control_of_flags syn fin rst psh);
  ack ← pkt_ack buffer;
  ack_number ← (if (ack : bool) then n ← pkt_ack_number buffer; Ret (Some n) else Ret None);
  options ← pkt_options buffer;
  p ←? parse_options (length options) no_options options;
  src_port ← pkt_src_port buffer;
  dst_port ← pkt_dst_port buffer;
  seq_number ← pkt_seq_number buffer;
  window_len ← pkt_window_len buffer;
  payload ← pkt_payload buffer;
  Ret (Ok (mkTcpRepr src_port dst_port control seq_number ack_number window_len (po_window_scale p)
             (po_max_seg_size p) (po_sack_permitted p) (po_sack_ranges p) (po_timestamp p) payload)).

(** ** [Repr::emit] *)

(** [if let Some(value) = .. { options = option.emit(options); }]: [options] is the tail of
    [buffer] from [pos] on. *)
Definition emit_at (o : option TcpOption) (b : list Z * Z) : res (list Z * Z) :=
  let '(buffer, pos) := b in
  match o with
  | None => Ret b
  | Some o =>
      options ← slice buffer pos (Zlen buffer);
      '(options, length) ← option_emit o options;
      Ret (splice buffer pos options, pos + length)
  end.

Definition emit_control (c : Control) buffer : res (list Z) :=
  match c with
  | CtlNone => Ret buffer
  | CtlPsh => pkt_set_psh buffer true
  | CtlSyn => pkt_set_syn buffer true
  | CtlFin => pkt_set_fin buffer true
  | CtlRst => pkt_set_rst buffer true
  end.

(** [sack_ranges.iter().any(|s| s.is_some())]. *)
Definition sack_any (s : SackRanges) : bool :=
  match s with (None, None, None) => false | _ => true end.

(** SACK-permitted, or else the SACK blocks of an acknowledgement. *)
Definition sack_option (r : TcpRepr) : option TcpOption :=
  if sack_permitted r then Some SackPermitted
  else if (if ack_number r is Some _ then true else false) && sack_any (sack_ranges r)
  then Some (SackRange (sack_ranges r))
  else None.

Definition timestamp_option (t : TcpTimestampRepr) : TcpOption := TimeStamp (tsval t) (tsecr t).

Definition emit_options (r : TcpRepr) (options : list Z) : res (list Z) :=
  b ← emit_at (option_map MaxSegmentSize (max_seg_size r)) (options, 0);
  b ← emit_at (option_map WindowScale (window_scale r)) b;
  b ← emit_at (sack_option r) b;
  '(options, pos) ← emit_at (option_map timestamp_option (repr_timestamp r)) b;
  rest ← slice options pos (Zlen options);
  if Zlen rest =? 0 then Ret options
  else '(options, _) ← emit_at (Some EndOfList) (options, pos); Ret options.

(** The fixed header. *)
Definition emit_header (r : TcpRepr) buffer : res (list Z) :=
  buffer ← pkt_set_src_port buffer (src_port r);
  buffer ← pkt_set_dst_port buffer (dst_port r);
  buffer ← pkt_set_seq_number buffer (seq_number r);
  buffer ← pkt_set_ack_number buffer (default 0 (ack_number r));
  buffer ← pkt_set_window_len buffer (window_len r);
  buffer ← pkt_set_header_len buffer (wrap_u 8 (tcp_header_len r));
  buffer ← pkt_clear_flags buffer;
  buffer ← emit_control (control r) buffer;
  pkt_set_ack buffer (if ack_number r is Some _ then true else false).

Definition repr_emit (r : TcpRepr) buffer (src_addr dst_addr : Address) (caps : ChecksumCapabilities)
  : res (list Z) :=
  buffer ← emit_header r buffer;
  buffer ← pkt_options_mut buffer (emit_options r);
  buffer ← pkt_set_urgent_at buffer 0;
  buffer ← pkt_payload_mut buffer (fun d =>
    slice_mut d 0 (Zlen (payload r)) (fun d =>
      if Zlen d =? Zlen (payload r) then Ret (payload r) else Panic));
  if checksum_tx (caps_tcp caps) then pkt_fill_checksum buffer src_addr dst_addr
  else pkt_set_checksum buffer 0.
End Packet.
