(* ===== verification/Ipv4Wire.v ===== *)
(** * IPv4 packets on the wire (wire/ipv4.rs)

    A [Packet] is the list of its bytes, as in [TcpWire].  [Repr] is the [IpHeader] of
    [IpTypes]; a [Protocol] is its number.  The features [proto-ipv4] and
    [proto-ipv4-fragmentation] are on. *)

From S2P Require Import Prelude SeqNumber IpTypes ByteOrder Checksum.
#[local] Open Scope wire_scope.

(** [data[i] = f(data[i])] for a byte. *)
Definition update_byte (buffer : list Z) (i : Z) (f : Z -> Z) : res (list Z) :=
  x ← index buffer i; index_set buffer i (f x).

(** [!x] of a byte. *)
Definition not_u8 (x : Z) : Z := Z.lxor 0xff x.

(** The key of the fragments of a packet. *)
Record Ipv4Key : Type := mkIpv4Key { key_id : Z; key_src_addr : list Z; key_dst_addr : list Z; key_protocol : Z }.

#[export] Instance ipv4_key_eq_dec : EqDecision Ipv4Key.
Proof. solve_decision. Defined.

(** [Address::from_bytes]. *)
Definition ipv4_from_bytes (data : list Z) : res (list Z) := copy_from_slice [0; 0; 0; 0] data.

Section Packet.
Context `{NetworkEndian}.
Implicit Types buffer : list Z.

(** ** Reading fields *)

Definition ip4_version buffer : res Z := x ← index buffer 0; Ret (Z.shiftr x 4).
Definition ip4_header_len buffer : res Z := x ← index buffer 0; checked 0 u8_max (Z.land x 0x0f * 4).
Definition ip4_dscp buffer : res Z := x ← index buffer 1; Ret (Z.shiftr x 2).
Definition ip4_ecn buffer : res Z := x ← index buffer 1; Ret (Z.land x 0x03).
Definition ip4_total_len buffer : res Z := field_read read_u16 buffer 2 4.
Definition ip4_ident buffer : res Z := field_read read_u16 buffer 4 6.
Definition ip4_flg_off buffer : res Z := field_read read_u16 buffer 6 8.
Definition ip4_dont_frag buffer : res bool := raw ← ip4_flg_off buffer; Ret (negb (Z.land raw 0x4000 =? 0)).
Definition ip4_more_frags buffer : res bool := raw ← ip4_flg_off buffer; Ret (negb (Z.land raw 0x2000 =? 0)).
Definition ip4_frag_offset buffer : res Z := raw ← ip4_flg_off buffer; Ret (wrap_u 16 (Z.shiftl raw 3)).
Definition ip4_hop_limit buffer : res Z := index buffer 8.
Definition ip4_next_header buffer : res Z := index buffer 9.
Definition ip4_checksum buffer : res Z := field_read read_u16 buffer 10 12.
Definition ip4_src_addr buffer : res (list Z) := d ← slice buffer 12 16; ipv4_from_bytes d.
Definition ip4_dst_addr buffer : res (list Z) := d ← slice buffer 16 20; ipv4_from_bytes d.

Definition ip4_check_len buffer : res (result unit WireError) :=
  let len := Zlen buffer in
  if len <? IPV4_HEADER_LEN then Ret (Err MkWireError)
  else
    header_len ← ip4_header_len buffer;
    if len <? header_len then Ret (Err MkWireError)
    else
      total_len ← ip4_total_len buffer;
      if total_len <? header_len then Ret (Err MkWireError)
      else if len <? total_len then Ret (Err MkWireError)
      else Ret (Ok tt).

Definition ip4_new_checked buffer : res (result (list Z) WireError) :=
  _ ←? ip4_check_len buffer; Ret (Ok buffer).

(** The [cfg!(fuzzing)] of the source is false in a normal build. *)
Definition ip4_verify_checksum buffer : res bool :=
  header_len ← ip4_header_len buffer;
  d ← slice buffer 0 header_len;
  c ← checksum_data d;
  Ret (c =? u16_max).

Definition ip4_get_key buffer : res Ipv4Key :=
  id ← ip4_ident buffer;
  src_addr ← ip4_src_addr buffer;
  dst_addr ← ip4_dst_addr buffer;
  protocol ← ip4_next_header buffer;
  Ret (mkIpv4Key id src_addr dst_addr protocol).

Definition ip4_payload buffer : res (list Z) :=
  header_len ← ip4_header_len buffer;
  total_len ← ip4_total_len buffer;
  slice buffer header_len total_len.

(** ** Writing fields *)

Definition ip4_set_version buffer (value : Z) :=
  update_byte buffer 0 (fun x => Z.lor (Z.land x (not_u8 0xf0)) (wrap_u 8 (Z.shiftl value 4))).
Definition ip4_set_header_len buffer (value : Z) :=
  update_byte buffer 0 (fun x => Z.lor (Z.land x (not_u8 0x0f)) (Z.land (value / 4) 0x0f)).
Definition ip4_set_dscp buffer (value : Z) :=
  update_byte buffer 1 (fun x => Z.lor (Z.land x (not_u8 0xfc)) (wrap_u 8 (Z.shiftl value 2))).
Definition ip4_set_ecn buffer (value : Z) :=
  update_byte buffer 1 (fun x => Z.lor (Z.land x (not_u8 0x03)) (Z.land value 0x03)).
Definition ip4_set_total_len buffer (v : Z) := slice_mut buffer 2 4 (fun d => write_u16 d v).
Definition ip4_set_ident buffer (v : Z) := slice_mut buffer 4 6 (fun d => write_u16 d v).
Definition ip4_set_flg_off buffer (raw : Z) := slice_mut buffer 6 8 (fun d => write_u16 d raw).

Definition ip4_clear_flags buffer : res (list Z) :=
  raw ← ip4_flg_off buffer; ip4_set_flg_off buffer (Z.land raw (Z.lxor 0xffff 0xe000)).
Definition ip4_set_flag (mask : Z) buffer (value : bool) : res (list Z) :=
  raw ← ip4_flg_off buffer;
  ip4_set_flg_off buffer (if value then Z.lor raw mask else Z.land raw (Z.lxor 0xffff mask)).
Definition ip4_set_dont_frag : list Z -> bool -> res (list Z) := ip4_set_flag 0x4000.
Definition ip4_set_more_frags : list Z -> bool -> res (list Z) := ip4_set_flag 0x2000.
Definition ip4_set_frag_offset buffer (value : Z) : res (list Z) :=
  raw ← ip4_flg_off buffer; ip4_set_flg_off buffer (Z.lor (Z.land raw 0xe000) (Z.shiftr value 3)).

Definition ip4_set_hop_limit buffer (value : Z) := index_set buffer 8 value.
Definition ip4_set_next_header buffer (value : Z) := index_set buffer 9 value.
Definition ip4_set_checksum buffer (v : Z) := slice_mut buffer 10 12 (fun d => write_u16 d v).
Definition ip4_set_src_addr buffer (value : list Z) := slice_mut buffer 12 16 (fun d => copy_from_slice d value).
Definition ip4_set_dst_addr buffer (value : list Z) := slice_mut buffer 16 20 (fun d => copy_from_slice d value).

Definition ip4_fill_checksum buffer : res (list Z) :=
  buffer ← ip4_set_checksum buffer 0;
  header_len ← ip4_header_len buffer;
  d ← slice buffer 0 header_len;
  c ← checksum_data d;
  ip4_set_checksum buffer (Z.lxor 0xffff c).

Definition ip4_payload_mut buffer (f : list Z -> res (list Z)) : res (list Z) :=
  header_len ← ip4_header_len buffer;
  total_len ← ip4_total_len buffer;
  slice_mut buffer header_len total_len f.

(** ** [Repr] *)

Definition ipv4_parse buffer (caps : ChecksumCapabilities) : res (result IpHeader WireError) :=
  _ ←? ip4_check_len buffer;
  version ← ip4_version buffer;
  if negb (version =? 4) then Ret (Err MkWireError)
  else
    valid ← (if checksum_rx (caps_ipv4 caps) then ip4_verify_checksum buffer else Ret true);
    if negb valid then Ret (Err MkWireError)
    else
      total_len ← ip4_total_len buffer;
      header_len ← ip4_header_len buffer;
      payload_len ← usize_sub total_len header_len;
      src_addr ← ip4_src_addr buffer;
      dst_addr ← ip4_dst_addr buffer;
      next_header ← ip4_next_header buffer;
      hop_limit ← ip4_hop_limit buffer;
      Ret (Ok (mkIpHeader src_addr dst_addr next_header payload_len hop_limit)).

Definition ipv4_buffer_len (r : IpHeader) : Z := IPV4_HEADER_LEN.

Definition ipv4_emit (r : IpHeader) buffer (caps : ChecksumCapabilities) : res (list Z) :=
  buffer ← ip4_set_version buffer 4;
  buffer ← ip4_set_header_len buffer (wrap_u 8 IPV4_HEADER_LEN);
  buffer ← ip4_set_dscp buffer 0;
  buffer ← ip4_set_ecn buffer 0;
  header_len ← ip4_header_len buffer;
  total_len ← checked 0 u16_max (header_len + wrap_u 16 (iph_payload_len r));
  buffer ← ip4_set_total_len buffer total_len;
  buffer ← ip4_set_ident buffer 0;
  buffer ← ip4_clear_flags buffer;
  buffer ← ip4_set_more_frags buffer false;
  buffer ← ip4_set_dont_frag buffer true;
  buffer ← ip4_set_frag_offset buffer 0;
  buffer ← ip4_set_hop_limit buffer (iph_hop_limit r);
  buffer ← ip4_set_next_header buffer (iph_next_header r);
  buffer ← ip4_set_src_addr buffer (iph_src r);
  buffer ← ip4_set_dst_addr buffer (iph_dst r);
  if checksum_tx (caps_ipv4 caps) then ip4_fill_checksum buffer
  else ip4_set_checksum buffer 0.
End Packet.

(** * Parsing and emitting IPv4 headers *)

Definition ip4_hdr (vi de len id fo ttl proto ck src dst : Z) (rest : list Z) : list Z :=
  layout_bytes [(1%nat, vi); (1%nat, de); (2%nat, len); (2%nat, id); (2%nat, fo); (1%nat, ttl); (1%nat, proto);
    (2%nat, ck); (4%nat, src); (4%nat, dst)] ++ rest.

Lemma Zlen_ip4_hdr vi de len id fo ttl proto ck src dst rest :
  Zlen (ip4_hdr vi de len id fo ttl proto ck src dst rest) = 20 + Zlen rest.
Proof. unfold ip4_hdr. by rewrite Zlen_app, Zlen_layout_bytes. Qed.

Lemma ip4_hdr_view bs :
  bytes_ok bs -> 20 <= Zlen bs ->
  exists vi de len id fo ttl proto ck src dst rest,
    bs = ip4_hdr vi de len id fo ttl proto ck src dst rest /\ bytes_ok rest /\
    in_u8 vi /\ in_u8 de /\ in_u16 len /\ in_u16 id /\ in_u16 fo /\ in_u8 ttl /\ in_u8 proto /\ in_u16 ck /\
    in_u32 src /\ in_u32 dst.
Proof.
  intros Hb Hl.
  destruct (layout_view [1; 1; 2; 2; 2; 1; 1; 2; 4; 4]%nat bs Hb Hl) as (l & rest & Hm & E & Hr & Hf).
  do 10 (destruct l as [|[? ?] l]; [discriminate|]). destruct l; [|discriminate].
  cbn [map fst] in Hm. injection Hm as -> -> -> -> -> -> -> -> -> ->.
  repeat match goal with H : Forall _ (_ :: _) |- _ => inversion H; clear H; subst end. cbn [fst snd] in *.
  change (256 ^ Z.of_nat 1) with 256 in *. change (256 ^ Z.of_nat 2) with 65536 in *. change (256 ^ Z.of_nat 4) with (2 ^ 32) in *.
  do 11 eexists. split; [reflexivity|]. split; [done|]. split_and!; mlia.
Qed.

Lemma ip4_hdr_bytes_ok vi de len id fo ttl proto ck src dst rest :
  bytes_ok rest -> bytes_ok (ip4_hdr vi de len id fo ttl proto ck src dst rest).
Proof. intros. apply bytes_ok_app. split; [apply layout_bytes_ok | done]. Qed.

(** An IPv4 address by its octets. *)
Definition ipv4_addr_ok (a : list Z) : Prop := bytes_ok a /\ length a = 4%nat.

Lemma be_bytes_addr v : ipv4_addr_ok (be_bytes 4 v).
Proof. split; [apply be_bytes_ok|]. pose proof (Zlen_be_bytes 4 v). unfold Zlen in *. lia. Qed.

Lemma be_value_addr a : ipv4_addr_ok a -> be_bytes 4 (be_value a) = a.
Proof. intros [Hb Hl]. rewrite <- Hl. by apply be_bytes_value. Qed.

(** The low four bits of a byte, times four, and the high four bits. *)
Lemma low_nibble x : in_u8 x -> 0 <= Z.land x 15 <= 15.
Proof.
  intros Hx. change 15 with (Z.ones 4) at 1 2. rewrite Z.land_ones by lia.
  pose proof (Z.mod_pos_bound x (2 ^ 4)). lia.
Qed.

Section Header.
Context `{NetworkEndianLaws}.
Variables vi de len id fo ttl proto ck src dst : Z.
Variable rest : list Z.

Abbreviation h := (ip4_hdr vi de len id fo ttl proto ck src dst rest).

Ltac byte_get i := intros; unfold ip4_hdr; erewrite (layout_index i) by (reflexivity || done); done.
Ltac word_get i := unfold ip4_hdr; eapply (layout_read_u16 i); (reflexivity || done).

Lemma ip4_vi_ok : in_u8 vi -> index h 0 = Ret vi.
Proof. byte_get 0%nat. Qed.
Lemma ip4_de_ok : in_u8 de -> index h 1 = Ret de.
Proof. byte_get 1%nat. Qed.
Lemma ip4_total_len_ok : in_u16 len -> ip4_total_len h = Ret len.
Proof. intros. unfold ip4_total_len. word_get 2%nat. Qed.
Lemma ip4_ident_ok : in_u16 id -> ip4_ident h = Ret id.
Proof. intros. unfold ip4_ident. word_get 3%nat. Qed.
Lemma ip4_flg_off_ok : in_u16 fo -> ip4_flg_off h = Ret fo.
Proof. intros. unfold ip4_flg_off. word_get 4%nat. Qed.
Lemma ip4_hop_limit_ok : in_u8 ttl -> ip4_hop_limit h = Ret ttl.
Proof. unfold ip4_hop_limit. byte_get 5%nat. Qed.
Lemma ip4_next_header_ok : in_u8 proto -> ip4_next_header h = Ret proto.
Proof. unfold ip4_next_header. byte_get 6%nat. Qed.
Lemma ip4_checksum_ok : in_u16 ck -> ip4_checksum h = Ret ck.
Proof. intros. unfold ip4_checksum. word_get 7%nat. Qed.

Lemma ip4_src_addr_ok : ip4_src_addr h = Ret (be_bytes 4 src).
Proof.
  unfold ip4_src_addr, ip4_hdr. erewrite (layout_get 8) by reflexivity. rewrite bind_Ret.
  apply copy_from_slice_ok. by rewrite Zlen_be_bytes.
Qed.
Lemma ip4_dst_addr_ok : ip4_dst_addr h = Ret (be_bytes 4 dst).
Proof.
  unfold ip4_dst_addr, ip4_hdr. erewrite (layout_get 9) by reflexivity. rewrite bind_Ret.
  apply copy_from_slice_ok. by rewrite Zlen_be_bytes.
Qed.

Lemma ip4_header_len_ok : in_u8 vi -> ip4_header_len h = Ret (Z.land vi 15 * 4) /\ 0 <= Z.land vi 15 * 4 <= 60.
Proof.
  intros Hv. pose proof (low_nibble vi Hv). unfold ip4_header_len. rewrite ip4_vi_ok, bind_Ret by done.
  split; [|lia]. apply checked_ok. mlia.
Qed.

(** Setters. *)
Lemma ip4_update_vi f : in_u8 vi -> in_u8 (f vi) ->
  update_byte h 0 f = Ret (ip4_hdr (f vi) de len id fo ttl proto ck src dst rest).
Proof.
  intros Hv Hf. unfold update_byte. rewrite ip4_vi_ok, bind_Ret by done.
  unfold ip4_hdr. by erewrite (layout_index_set 0) by (reflexivity || done).
Qed.
Lemma ip4_update_de f : in_u8 de -> in_u8 (f de) ->
  update_byte h 1 f = Ret (ip4_hdr vi (f de) len id fo ttl proto ck src dst rest).
Proof.
  intros Hv Hf. unfold update_byte. rewrite ip4_de_ok, bind_Ret by done.
  unfold ip4_hdr. by erewrite (layout_index_set 1) by (reflexivity || done).
Qed.
Ltac word_set i := unfold ip4_hdr; erewrite (layout_write_u16 i) by (reflexivity || done); reflexivity.
Lemma ip4_set_total_len_ok v : in_u16 v -> ip4_set_total_len h v = Ret (ip4_hdr vi de v id fo ttl proto ck src dst rest).
Proof. intros. unfold ip4_set_total_len. word_set 2%nat. Qed.
Lemma ip4_set_ident_ok v : in_u16 v -> ip4_set_ident h v = Ret (ip4_hdr vi de len v fo ttl proto ck src dst rest).
Proof. intros. unfold ip4_set_ident. word_set 3%nat. Qed.
Lemma ip4_set_flg_off_ok v : in_u16 v -> ip4_set_flg_off h v = Ret (ip4_hdr vi de len id v ttl proto ck src dst rest).
Proof. intros. unfold ip4_set_flg_off. word_set 4%nat. Qed.
Lemma ip4_set_hop_limit_ok v : in_u8 v -> ip4_set_hop_limit h v = Ret (ip4_hdr vi de len id fo v proto ck src dst rest).
Proof. intros. unfold ip4_set_hop_limit, ip4_hdr. by erewrite (layout_index_set 5) by (reflexivity || done). Qed.
Lemma ip4_set_next_header_ok v : in_u8 v -> ip4_set_next_header h v = Ret (ip4_hdr vi de len id fo ttl v ck src dst rest).
Proof. intros. unfold ip4_set_next_header, ip4_hdr. by erewrite (layout_index_set 6) by (reflexivity || done). Qed.
Lemma ip4_set_checksum_ok v : in_u16 v -> ip4_set_checksum h v = Ret (ip4_hdr vi de len id fo ttl proto v src dst rest).
Proof. intros. unfold ip4_set_checksum. word_set 7%nat. Qed.
Lemma ip4_set_src_addr_ok a : ipv4_addr_ok a ->
  ip4_set_src_addr h a = Ret (ip4_hdr vi de len id fo ttl proto ck (be_value a) dst rest).
Proof. intros [Hb Hl]. unfold ip4_set_src_addr, ip4_hdr. by erewrite (layout_copy 8) by (reflexivity || done). Qed.
Lemma ip4_set_dst_addr_ok a : ipv4_addr_ok a ->
  ip4_set_dst_addr h a = Ret (ip4_hdr vi de len id fo ttl proto ck src (be_value a) rest).
Proof. intros [Hb Hl]. unfold ip4_set_dst_addr, ip4_hdr. by erewrite (layout_copy 9) by (reflexivity || done). Qed.
End Header.

(** ** Parsing *)

(** What a successful length check says about a packet. *)
Definition ip4_len_ok `{NetworkEndian} (bs : list Z) : Prop :=
  exists hl tl, ip4_header_len bs = Ret hl /\ ip4_total_len bs = Ret tl /\ 0 <= hl <= tl /\ tl <= Zlen bs /\ tl <= u16_max.

(** The values that parsing may produce. *)
Record ip_header_ok (r : IpHeader) : Prop := {
  iho_src : ipv4_addr_ok (iph_src r);
  iho_dst : ipv4_addr_ok (iph_dst r);
  iho_next_header : in_u8 (iph_next_header r);
  iho_payload_len : in_u16 (iph_payload_len r);
  iho_hop_limit : in_u8 (iph_hop_limit r);
}.

Section Parse.
Context `{NetworkEndianLaws}.

Lemma ip4_check_len_ok bs :
  bytes_ok bs ->
  wp (ip4_check_len bs) (fun r => match r with Ok _ => 20 <= Zlen bs /\ ip4_len_ok bs | Err _ => True end).
Proof.
  intros Hb. unfold ip4_check_len, IPV4_HEADER_LEN. destruct (Z.ltb_spec (Zlen bs) 20); [done|].
  destruct (ip4_hdr_view bs Hb ltac:(done)) as (vi & de & len & id & fo & ttl & proto & ck & src & dst & rest & -> & ? & ? & ? & ? & _).
  destruct (ip4_header_len_ok vi de len id fo ttl proto ck src dst rest ltac:(done)) as [Eh Hh].
  rewrite Eh, bind_Ret. destr_if; [done|]. rewrite ip4_total_len_ok, bind_Ret by done.
  destr_if; [done|]. destr_if; [done|]. cbn [wp]. split; [done|].
  exists (Z.land vi 15 * 4), len. rewrite ip4_total_len_ok by done. split; [done|]. split; [done|]. mlia.
Qed.

(** Every accessor works on a packet of sufficient length. *)
Lemma ip4_accessors_ok bs :
  bytes_ok bs -> 20 <= Zlen bs ->
  wp (ip4_version bs) (fun _ => True) /\ wp (ip4_src_addr bs) ipv4_addr_ok /\ wp (ip4_dst_addr bs) ipv4_addr_ok /\
  wp (ip4_next_header bs) in_u8 /\ wp (ip4_hop_limit bs) in_u8.
Proof.
  intros Hb Hl.
  destruct (ip4_hdr_view bs Hb Hl) as (vi & de & len & id & fo & ttl & proto & ck & src & dst & rest & -> & ? & ? & ? & ? & ? & ? & ? & ? & _).
  unfold ip4_version. rewrite ip4_vi_ok, bind_Ret by done.
  rewrite ip4_src_addr_ok, ip4_dst_addr_ok, ip4_next_header_ok, ip4_hop_limit_ok by done. cbn [wp].
  split; [done|]. split; [apply be_bytes_addr|]. split; [apply be_bytes_addr | done].
Qed.

Lemma ip4_verify_checksum_wp bs :
  bytes_ok bs -> 20 <= Zlen bs -> ip4_len_ok bs -> wp (ip4_verify_checksum bs) (fun _ => True).
Proof.
  intros Hb Hl (hl & tl & Eh & _ & Hh & Ht & Hm). unfold ip4_verify_checksum. rewrite Eh, bind_Ret.
  rewrite slice_ok, bind_Ret by lia. rewrite checksum_data_ok, bind_Ret; [done | by apply bytes_ok_sub |].
  pose proof (Zlen_sub_le bs 0 (hl - 0)). mlia.
Qed.

Lemma ipv4_parse_ok bs caps :
  bytes_ok bs ->
  wp (ipv4_parse bs caps) (fun r => match r with
    | Ok r => ip_header_ok r /\ exists hl, ip4_header_len bs = Ret hl /\ 0 <= hl /\
        ip4_total_len bs = Ret (hl + iph_payload_len r) /\
        ip4_payload bs = Ret (sub bs hl (iph_payload_len r)) /\ hl + iph_payload_len r <= Zlen bs
    | Err _ => True
    end).
Proof.
  intros Hb. unfold ipv4_parse, try_bind. wp_bind_with (ip4_check_len_ok bs Hb). intros [[]|e]; [|done].
  intros [Hl Hlen]. destruct (ip4_accessors_ok bs Hb Hl) as (Hv & Hs & Hd & Hn & Hh).
  wp_bind_with Hv. intros version _. destr_if; [done|].
  eapply (wp_bind_mono _ _ (fun _ => True)).
  { destr_if; [by apply ip4_verify_checksum_wp | done]. }
  intros valid _. destr_if; [done|]. destruct Hlen as (hl & tl & Eh & Et & Hle & Ht & Hm).
  rewrite Et, bind_Ret, Eh, bind_Ret. arith_step.
  wp_bind_with Hs. intros src Hsrc. wp_bind_with Hd. intros dst Hdst. wp_bind_with Hn. intros nh Hnh.
  wp_bind_with Hh. intros ttl Httl. cbn [wp iph_src iph_dst iph_next_header iph_payload_len iph_hop_limit]. split.
  - constructor; cbn; [done | done | done | mlia | done].
  - exists hl. split; [done|]. split; [lia|]. replace (hl + (tl - hl)) with tl by lia. split; [done|].
    split; [|done]. unfold ip4_payload. rewrite Eh, bind_Ret, Et, bind_Ret. by rewrite slice_ok by lia.
Qed.
End Parse.

(** ** Emitting *)

(** A header that [emit] can write in front of the payload. *)
Definition ip_emit_ok (r : IpHeader) : Prop :=
  ip_header_ok r /\ iph_payload_len r <= 65515.

Lemma set_vi_word vi :
  in_u8 vi ->
  let f x := Z.lor (Z.land x (not_u8 0xf0)) (wrap_u 8 (Z.shiftl 4 4)) in
  let g x := Z.lor (Z.land x (not_u8 0x0f)) (Z.land (wrap_u 8 IPV4_HEADER_LEN / 4) 0x0f) in
  in_u8 (f vi) /\ g (f vi) = 0x45.
Proof.
  intros Hv f g. split; [apply in_u8_lor; [by apply in_u8_land_l | by vm_compute]|].
  unfold f, g. rewrite Z.land_lor_distr_l, <- Z.land_assoc. change (Z.land (not_u8 240) (not_u8 15)) with 0.
  by rewrite Z.land_0_r.
Qed.

Lemma set_de_word de :
  in_u8 de ->
  let f x := Z.lor (Z.land x (not_u8 0xfc)) (wrap_u 8 (Z.shiftl 0 2)) in
  let g x := Z.lor (Z.land x (not_u8 0x03)) (Z.land 0 0x03) in
  in_u8 (f de) /\ g (f de) = 0.
Proof.
  intros Hv f g. split; [apply in_u8_lor; [by apply in_u8_land_l | by vm_compute]|].
  unfold f, g. change (wrap_u 8 (Z.shiftl 0 2)) with 0. change (Z.land 0 3) with 0.
  rewrite !Z.lor_0_r, <- Z.land_assoc. change (Z.land (not_u8 252) (not_u8 3)) with 0. by rewrite Z.land_0_r.
Qed.

Lemma set_fo_word fo :
  in_u16 fo ->
  let f1 := Z.land fo (Z.lxor 0xffff 0xe000) in
  let f2 := Z.land f1 (Z.lxor 0xffff 0x2000) in
  let f3 := Z.lor f2 0x4000 in
  in_u16 f1 /\ in_u16 f2 /\ in_u16 f3 /\ Z.lor (Z.land f3 0xe000) (Z.shiftr 0 3) = 0x4000.
Proof.
  intros Hf f1 f2 f3. assert (H1 : in_u16 f1) by (by apply in_u16_land_l).
  assert (H2 : in_u16 f2) by (by apply in_u16_land_l).
  split; [done|]. split; [done|]. split; [apply in_u16_lor; [done | by vm_compute]|].
  unfold f3, f2, f1. rewrite Z.land_lor_distr_l, <- !Z.land_assoc.
  change (Z.land (Z.lxor 65535 57344) (Z.land (Z.lxor 65535 8192) 57344)) with 0. by rewrite Z.land_0_r.
Qed.

(** What [emit] writes, with the checksum [ck]. *)
Definition ip4_emitted (r : IpHeader) (ck : Z) (rest : list Z) : list Z :=
  ip4_hdr 0x45 0 (20 + iph_payload_len r) 0 0x4000 (iph_hop_limit r) (iph_next_header r) ck
    (be_value (iph_src r)) (be_value (iph_dst r)) rest.

Section Emit.
Context `{NetworkEndianLaws}.

(** The header in front of the rest of the packet. *)
Lemma ip4_header_slice vi de len id fo ttl proto ck src dst rest :
  slice (ip4_hdr vi de len id fo ttl proto ck src dst rest) 0 20 = Ret (ip4_hdr vi de len id fo ttl proto ck src dst []).
Proof.
  unfold ip4_hdr. rewrite app_nil_r. apply (slice_mid [] _ rest); [done | by rewrite Zlen_layout_bytes].
Qed.

Lemma word_sum_checksum de len id fo ttl proto ck src dst :
  in_u16 ck ->
  word_sum (ip4_hdr 0x45 de len id fo ttl proto ck src dst []) =
  word_sum (ip4_hdr 0x45 de len id fo ttl proto 0 src dst []) + ck.
Proof.
  intros Hc. unfold ip4_hdr.
  assert (E : forall c', layout_bytes [(1%nat, 69); (1%nat, de); (2%nat, len); (2%nat, id); (2%nat, fo); (1%nat, ttl);
    (1%nat, proto); (2%nat, c'); (4%nat, src); (4%nat, dst)] ++ [] =
    layout_bytes [(1%nat, 69); (1%nat, de); (2%nat, len); (2%nat, id); (2%nat, fo); (1%nat, ttl); (1%nat, proto)] ++
    be_bytes 2 c' ++ layout_bytes [(4%nat, src); (4%nat, dst)] ++ []).
  { intros c'. apply (layout_split [(1%nat, 69); (1%nat, de); (2%nat, len); (2%nat, id); (2%nat, fo); (1%nat, ttl); (1%nat, proto)]). }
  rewrite !E, (word_sum_field _ ck) by (done || by exists 5%nat). lia.
Qed.

Lemma ip4_fill_checksum_ok len id fo ttl proto c src dst rest :
  bytes_ok rest ->
  exists ck, in_u16 ck /\
    ip4_fill_checksum (ip4_hdr 0x45 0 len id fo ttl proto c src dst rest) =
      Ret (ip4_hdr 0x45 0 len id fo ttl proto ck src dst rest) /\
    ip4_verify_checksum (ip4_hdr 0x45 0 len id fo ttl proto ck src dst rest) = Ret true.
Proof.
  intros Hr. assert (Hb : forall ck, bytes_ok (ip4_hdr 0x45 0 len id fo ttl proto ck src dst [])).
  { intros. apply ip4_hdr_bytes_ok; constructor. }
  assert (Hl : forall ck, Zlen (ip4_hdr 0x45 0 len id fo ttl proto ck src dst []) <= 131070).
  { intros. rewrite Zlen_ip4_hdr. change (Zlen []) with 0. lia. }
  set (s := word_sum (ip4_hdr 0x45 0 len id fo ttl proto 0 src dst [])).
  assert (Hs : 0 <= s) by (apply word_sum_bounds, Hb).
  pose proof (fold16_range s). exists (65535 - fold16 s). split; [mlia|].
  assert (H45 : forall ck, ip4_header_len (ip4_hdr 0x45 0 len id fo ttl proto ck src dst rest) = Ret 20).
  { intros ck. destruct (ip4_header_len_ok 0x45 0 len id fo ttl proto ck src dst rest ltac:(by vm_compute)) as [-> _]. done. }
  unfold ip4_fill_checksum, ip4_verify_checksum. rewrite ip4_set_checksum_ok, bind_Ret by mlia.
  rewrite !H45, !bind_Ret, !ip4_header_slice, !bind_Ret.
  rewrite !checksum_data_ok, !bind_Ret by done. fold s. rewrite u16_not by mlia.
  rewrite ip4_set_checksum_ok by mlia. split; [done|].
  rewrite word_sum_checksum by mlia. fold s. by rewrite fold16_complement.
Qed.

Lemma ipv4_emit_ok r bs caps :
  bytes_ok bs -> 20 <= Zlen bs -> ip_emit_ok r ->
  exists ck, in_u16 ck /\ ipv4_emit r bs caps = Ret (ip4_emitted r ck (drop 20 bs)) /\
    (checksum_tx (caps_ipv4 caps) = true -> ip4_verify_checksum (ip4_emitted r ck (drop 20 bs)) = Ret true).
Proof.
  intros Hb Hl [[Hsrc Hdst Hnh Hpl Hhop] Hmax].
  destruct (ip4_hdr_view bs Hb Hl) as (vi & de & len & id & fo & ttl & proto & c & src & dst & rest & -> & Hr & ? & ? & ? & ? & ? & _).
  assert (E : drop 20 (ip4_hdr vi de len id fo ttl proto c src dst rest) = rest) by (unfold ip4_hdr; by rewrite drop_app_length').
  rewrite E. clear E.
  destruct (set_vi_word vi ltac:(done)) as [Hf Hg]. destruct (set_de_word de ltac:(done)) as [Hf' Hg'].
  destruct (set_fo_word fo ltac:(done)) as (Hw1 & Hw2 & Hw3 & Hfo).
  unfold ipv4_emit, ip4_set_version, ip4_set_header_len, ip4_set_dscp, ip4_set_ecn.
  rewrite ip4_update_vi, bind_Ret by done.
  rewrite ip4_update_vi, bind_Ret by (done || by (rewrite Hg; vm_compute)). rewrite Hg.
  rewrite ip4_update_de, bind_Ret by done.
  rewrite ip4_update_de, bind_Ret by (done || by (rewrite Hg'; vm_compute)). rewrite Hg'.
  destruct (ip4_header_len_ok 0x45 0 len id fo ttl proto c src dst rest ltac:(by vm_compute)) as [-> _].
  rewrite bind_Ret. change (Z.land 69 15 * 4) with 20. rewrite (wrap_u_id 16) by mlia.
  chk_step ltac:(mlia). rewrite ip4_set_total_len_ok, bind_Ret by mlia. rewrite ip4_set_ident_ok, bind_Ret by mlia.
  unfold ip4_clear_flags, ip4_set_more_frags, ip4_set_dont_frag, ip4_set_flag, ip4_set_frag_offset.
  do 4 rewrite ip4_flg_off_ok, bind_Ret, ip4_set_flg_off_ok, bind_Ret by (done || by (rewrite Hfo; vm_compute)).
  rewrite Hfo. rewrite ip4_set_hop_limit_ok, bind_Ret by done. rewrite ip4_set_next_header_ok, bind_Ret by done.
  rewrite ip4_set_src_addr_ok, bind_Ret by done. rewrite ip4_set_dst_addr_ok, bind_Ret by done.
  unfold ip4_emitted. destruct (checksum_tx (caps_ipv4 caps)).
  - destruct (ip4_fill_checksum_ok (20 + iph_payload_len r) 0 0x4000 (iph_hop_limit r) (iph_next_header r) c
      (be_value (iph_src r)) (be_value (iph_dst r)) rest Hr) as (ck & Hck & -> & Hv). by exists ck.
  - exists 0. rewrite ip4_set_checksum_ok by mlia. split; [mlia | done].
Qed.

(** The fields of an emitted header that parsing looks at first. *)
Lemma Zlen_ip4_emitted r ck rest : Zlen (ip4_emitted r ck rest) = 20 + Zlen rest.
Proof. unfold ip4_emitted. apply Zlen_ip4_hdr. Qed.

Lemma ip4_emitted_bytes_ok r ck rest : bytes_ok rest -> bytes_ok (ip4_emitted r ck rest).
Proof. unfold ip4_emitted. apply ip4_hdr_bytes_ok. Qed.

Lemma ip4_emitted_head r ck rest :
  ip_emit_ok r ->
  index (ip4_emitted r ck rest) 0 = Ret 0x45 /\ ip4_header_len (ip4_emitted r ck rest) = Ret 20 /\
  ip4_total_len (ip4_emitted r ck rest) = Ret (20 + iph_payload_len r) /\ ip4_flg_off (ip4_emitted r ck rest) = Ret 0x4000.
Proof.
  intros [[_ _ _ Hpl _] Hmax]. unfold ip4_emitted. assert (Hvi : in_u8 0x45) by (by vm_compute).
  rewrite ip4_vi_ok, ip4_total_len_ok, ip4_flg_off_ok by mlia.
  split; [done|]. split; [|done]. by destruct (ip4_header_len_ok 0x45 0 (20 + iph_payload_len r) 0 0x4000 (iph_hop_limit r) (iph_next_header r) ck
    (be_value (iph_src r)) (be_value (iph_dst r)) rest Hvi) as [-> _].
Qed.

(** An emitted header is parsed back. *)
Lemma ipv4_parse_emitted r ck rest caps :
  ip_emit_ok r -> in_u16 ck -> iph_payload_len r <= Zlen rest ->
  (checksum_rx (caps_ipv4 caps) = true -> ip4_verify_checksum (ip4_emitted r ck rest) = Ret true) ->
  ipv4_parse (ip4_emitted r ck rest) caps = Ret (Ok r) /\
  ip4_payload (ip4_emitted r ck rest) = Ret (sub rest 0 (iph_payload_len r)) /\
  ip4_more_frags (ip4_emitted r ck rest) = Ret false /\ ip4_frag_offset (ip4_emitted r ck rest) = Ret 0.
Proof.
  intros [[Hsrc Hdst Hnh Hpl Hhop] Hmax] Hck Hrest Hv.
  pose proof (ip4_emitted_head r ck rest ltac:(by split)) as (Evi & Eh & Et & Ef). pose proof (Zlen_ip4_emitted r ck rest) as El.
  set (bs := ip4_emitted r ck rest) in *.
  assert (Elen : ip4_check_len bs = Ret (Ok tt)).
  { unfold ip4_check_len, IPV4_HEADER_LEN. rewrite El, Eh, bind_Ret, Et, bind_Ret. pose proof (Zlen_nonneg rest).
    replace (20 + Zlen rest <? 20) with false by lia. replace (20 + iph_payload_len r <? 20) with false by mlia.
    by replace (20 + Zlen rest <? 20 + iph_payload_len r) with false by lia. }
  split; [|split; [|split]].
  - unfold ipv4_parse, try_bind. rewrite Elen. ret_step. unfold ip4_version. rewrite Evi. do 2 ret_step.
    change (negb (Z.shiftr 69 4 =? 4)) with false. cbn iota.
    assert (Eck : (if checksum_rx (caps_ipv4 caps) then ip4_verify_checksum bs else Ret true) = Ret true)
      by (destr_if; auto).
    rewrite Eck. ret_step. cbn [negb]. rewrite Et. ret_step. rewrite Eh. ret_step. rewrite usize_sub_ok by mlia. ret_step.
    unfold bs, ip4_emitted.
    rewrite ip4_src_addr_ok, bind_Ret, ip4_dst_addr_ok, bind_Ret, ip4_next_header_ok, bind_Ret, ip4_hop_limit_ok, bind_Ret by done.
    rewrite !be_value_addr by done. replace (20 + iph_payload_len r - 20) with (iph_payload_len r) by lia.
    by destruct r.
  - unfold ip4_payload. rewrite Eh, bind_Ret, Et, bind_Ret. rewrite slice_ok by mlia.
    f_equal. unfold bs, ip4_emitted, ip4_hdr. rewrite Z.add_simpl_l. unfold sub. cbn [Z.to_nat].
    by rewrite drop_0.
  - unfold ip4_more_frags. by rewrite Ef, bind_Ret.
  - unfold ip4_frag_offset. by rewrite Ef, bind_Ret.
Qed.
End Emit.

(** ** Properties *)

(** Parsing an IPv4 packet never panics, whatever its bytes; the header it returns has
    values of the right widths, and its payload lies inside the buffer. *)
Theorem ipv4_parse_safe `{NetworkEndianLaws} bs caps :
  bytes_ok bs ->
  wp (ipv4_parse bs caps) (fun r => match r with
    | Ok r => ip_header_ok r /\ exists hl, ip4_header_len bs = Ret hl /\ 0 <= hl /\
        ip4_total_len bs = Ret (hl + iph_payload_len r) /\
        ip4_payload bs = Ret (sub bs hl (iph_payload_len r)) /\ hl + iph_payload_len r <= Zlen bs
    | Err _ => True
    end).
Proof. apply ipv4_parse_ok. Qed.

(** C34: an IPv4 header that is emitted in front of its payload is parsed back, with a valid
    checksum unless the device computes it; it is not a fragment, and the payload that
    follows is the payload of the packet. *)
Theorem ipv4_emit_parse `{NetworkEndianLaws} r bs caps :
  bytes_ok bs -> ip_emit_ok r -> 20 + iph_payload_len r <= Zlen bs ->
  (checksum_rx (caps_ipv4 caps) = true -> checksum_tx (caps_ipv4 caps) = true) ->
  wp (ipv4_emit r bs caps) (fun bs' =>
    ipv4_parse bs' caps = Ret (Ok r) /\ ip4_payload bs' = Ret (sub bs 20 (iph_payload_len r)) /\
    ip4_more_frags bs' = Ret false /\ ip4_frag_offset bs' = Ret 0).
Proof.
  intros Hb Hr Hl Hc. pose proof (iho_payload_len r (proj1 Hr)).
  destruct (ipv4_emit_ok r bs caps Hb ltac:(mlia) Hr) as (ck & Hck & -> & Hv). cbn [wp].
  assert (Hd : Zlen (drop 20 bs) = Zlen bs - 20) by (unfold Zlen; rewrite length_drop; mlia).
  destruct (ipv4_parse_emitted r ck (drop 20 bs) caps Hr Hck ltac:(lia)) as (Hp & Hpay & Hmf & Hfo); [by auto|].
  split; [done|]. split; [|done]. by rewrite Hpay.
Qed.

(** The length check does not ask for the twenty octets of the fixed header: a packet with a
    header length of 0 is parsed when the checksum is left to the device, and its payload
    starts with its own header. *)
Definition ex_short_header : list Z :=
  [0x40; 0; 0; 21; 0; 0; 0; 0; 64; 17; 0; 0; 10; 0; 0; 1; 10; 0; 0; 2; 0xff].

Example ipv4_short_header_accepted :
  @ipv4_parse network_endian ex_short_header caps_ignored = Ret (Ok (mkIpHeader [10; 0; 0; 1] [10; 0; 0; 2] 17 21 64)) /\
  @ip4_payload network_endian ex_short_header = Ret ex_short_header.
Proof. by vm_compute. Qed.

(** *** Concrete instances *)

Definition ex_ip4_header : IpHeader := mkIpHeader [192; 168; 1; 1] [192; 168; 1; 2] 17 4 64.

Lemma ex_ip4_header_ok : ip_emit_ok ex_ip4_header.
Proof.
  split; [|by vm_compute]. constructor; cbn; try mlia; (split; [byte_list | done]).
Qed.

Lemma ipv4_parse_safe_witness :
  wp (@ipv4_parse network_endian ex_short_header caps_ignored) (fun r => match r with
    | Ok r => ip_header_ok r /\ exists hl, ip4_header_len ex_short_header = Ret hl /\ 0 <= hl /\
        @ip4_total_len network_endian ex_short_header = Ret (hl + iph_payload_len r) /\
        @ip4_payload network_endian ex_short_header = Ret (sub ex_short_header hl (iph_payload_len r)) /\
        hl + iph_payload_len r <= Zlen ex_short_header
    | Err _ => True
    end).
Proof. apply (@ipv4_parse_safe network_endian network_endian_laws). unfold ex_short_header. byte_list. Defined.

Lemma ipv4_emit_parse_witness :
  wp (@ipv4_emit network_endian ex_ip4_header (replicate 24 0xa5) (mkChecksumCapabilities CkBoth CkBoth CkBoth CkBoth CkBoth))
    (fun bs' =>
    @ipv4_parse network_endian bs' (mkChecksumCapabilities CkBoth CkBoth CkBoth CkBoth CkBoth) = Ret (Ok ex_ip4_header) /\
    @ip4_payload network_endian bs' = Ret [0xa5; 0xa5; 0xa5; 0xa5] /\
    @ip4_more_frags network_endian bs' = Ret false /\ @ip4_frag_offset network_endian bs' = Ret 0).
Proof.
  apply (@ipv4_emit_parse network_endian network_endian_laws ex_ip4_header (replicate 24 0xa5)); try done.
  - apply Forall_replicate. mlia.
  - exact ex_ip4_header_ok.
Defined.
