(* ===== verification/Icmpv4Wire.v ===== *)
(** * ICMPv4 packets on the wire (wire/icmpv4.rs)

    Definitions as in [Ipv4Wire]; the header that an error message quotes is an [IpHeader]. *)

From S2P Require Import Prelude SeqNumber IpTypes ByteOrder Checksum Ipv4Wire.
#[local] Open Scope wire_scope.

Inductive Icmpv4Message : Type :=
| MsgEchoReply | MsgDstUnreachable | MsgRedirect | MsgEchoRequest | MsgRouterAdvert | MsgRouterSolicit
| MsgTimeExceeded | MsgParamProblem | MsgTimestamp | MsgTimestampReply | MsgUnknown (id : Z).

Definition message_from (v : Z) : Icmpv4Message :=
  match v with
  | 0 => MsgEchoReply | 3 => MsgDstUnreachable | 5 => MsgRedirect | 8 => MsgEchoRequest | 9 => MsgRouterAdvert
  | 10 => MsgRouterSolicit | 11 => MsgTimeExceeded | 12 => MsgParamProblem | 13 => MsgTimestamp | 14 => MsgTimestampReply
  | id => MsgUnknown id
  end.

Definition message_into (m : Icmpv4Message) : Z :=
  match m with
  | MsgEchoReply => 0 | MsgDstUnreachable => 3 | MsgRedirect => 5 | MsgEchoRequest => 8 | MsgRouterAdvert => 9
  | MsgRouterSolicit => 10 | MsgTimeExceeded => 11 | MsgParamProblem => 12 | MsgTimestamp => 13 | MsgTimestampReply => 14
  | MsgUnknown id => id
  end.

Inductive DstUnreachable : Type :=
| NetUnreachable | HostUnreachable | ProtoUnreachable | PortUnreachable | FragRequired | SrcRouteFailed
| DstNetUnknown | DstHostUnknown | SrcHostIsolated | NetProhibited | HostProhibited | NetUnreachToS
| HostUnreachToS | CommProhibited | HostPrecedViol | PrecedCutoff | UnreachableUnknown (id : Z).

Definition dst_unreachable_from (v : Z) : DstUnreachable :=
  match v with
  | 0 => NetUnreachable | 1 => HostUnreachable | 2 => ProtoUnreachable | 3 => PortUnreachable | 4 => FragRequired
  | 5 => SrcRouteFailed | 6 => DstNetUnknown | 7 => DstHostUnknown | 8 => SrcHostIsolated | 9 => NetProhibited
  | 10 => HostProhibited | 11 => NetUnreachToS | 12 => HostUnreachToS | 13 => CommProhibited | 14 => HostPrecedViol
  | 15 => PrecedCutoff | id => UnreachableUnknown id
  end.

Definition dst_unreachable_into (r : DstUnreachable) : Z :=
  match r with
  | NetUnreachable => 0 | HostUnreachable => 1 | ProtoUnreachable => 2 | PortUnreachable => 3 | FragRequired => 4
  | SrcRouteFailed => 5 | DstNetUnknown => 6 | DstHostUnknown => 7 | SrcHostIsolated => 8 | NetProhibited => 9
  | HostProhibited => 10 | NetUnreachToS => 11 | HostUnreachToS => 12 | CommProhibited => 13 | HostPrecedViol => 14
  | PrecedCutoff => 15 | UnreachableUnknown id => id
  end.

Inductive TimeExceeded : Type := TtlExpired | FragExpired | ExceededUnknown (id : Z).

Definition time_exceeded_from (v : Z) : TimeExceeded :=
  match v with 0 => TtlExpired | 1 => FragExpired | id => ExceededUnknown id end.
Definition time_exceeded_into (r : TimeExceeded) : Z :=
  match r with TtlExpired => 0 | FragExpired => 1 | ExceededUnknown id => id end.

(** [Repr]. *)
Inductive Icmpv4Repr : Type :=
| Icmpv4EchoRequest (ident seq_no : Z) (data : list Z)
| Icmpv4EchoReply (ident seq_no : Z) (data : list Z)
| Icmpv4DstUnreachable (reason : DstUnreachable) (header : IpHeader) (data : list Z)
| Icmpv4TimeExceeded (reason : TimeExceeded) (header : IpHeader) (data : list Z).

Definition ICMPV4_HEADER_END : Z := 8.

Section Packet.
Context `{NetworkEndian}.
Implicit Types buffer : list Z.

(** ** Fields *)

Definition icmp4_check_len buffer : result unit WireError :=
  if Zlen buffer <? ICMPV4_HEADER_END then Err MkWireError else Ok tt.
Definition icmp4_new_checked buffer : result (list Z) WireError :=
  match icmp4_check_len buffer with Ok _ => Ok buffer | Err e => Err e end.

Definition icmp4_msg_type buffer : res Icmpv4Message := x ← index buffer 0; Ret (message_from x).
Definition icmp4_msg_code buffer : res Z := index buffer 1.
Definition icmp4_checksum buffer : res Z := field_read read_u16 buffer 2 4.
Definition icmp4_echo_ident buffer : res Z := field_read read_u16 buffer 4 6.
Definition icmp4_echo_seq_no buffer : res Z := field_read read_u16 buffer 6 8.

Definition icmp4_header_len buffer : res Z :=
  t ← icmp4_msg_type buffer;
  Ret (match t with
       | MsgEchoRequest => 8
       | MsgEchoReply => 8
       | MsgDstUnreachable => 8
       | _ => 8
       end).

(** The [cfg!(fuzzing)] of the source is false in a normal build. *)
Definition icmp4_verify_checksum buffer : res bool := c ← checksum_data buffer; Ret (c =? u16_max).

Definition icmp4_data buffer : res (list Z) :=
  header_len ← icmp4_header_len buffer; slice buffer header_len (Zlen buffer).

Definition icmp4_set_msg_type buffer (m : Icmpv4Message) := index_set buffer 0 (message_into m).
Definition icmp4_set_msg_code buffer (v : Z) := index_set buffer 1 v.
Definition icmp4_set_checksum buffer (v : Z) := slice_mut buffer 2 4 (fun d => write_u16 d v).
Definition icmp4_set_echo_ident buffer (v : Z) := slice_mut buffer 4 6 (fun d => write_u16 d v).
Definition icmp4_set_echo_seq_no buffer (v : Z) := slice_mut buffer 6 8 (fun d => write_u16 d v).

Definition icmp4_fill_checksum buffer : res (list Z) :=
  buffer ← icmp4_set_checksum buffer 0;
  c ← checksum_data buffer;
  icmp4_set_checksum buffer (Z.lxor 0xffff c).

Definition icmp4_data_mut buffer (f : list Z -> res (list Z)) : res (list Z) :=
  header_len ← icmp4_header_len buffer; slice_mut buffer header_len (Zlen buffer) f.

(** ** [Repr] *)

(** The quoted header and payload of an error message: all arms of [parse] that have one. *)
Definition icmp4_parse_quote buffer : res (result (IpHeader * list Z) WireError) :=
  data ← icmp4_data buffer;
  ip_packet ←? ip4_new_checked data;
  header_len ← ip4_header_len ip_packet;
  payload ← slice data header_len (Zlen data);
  if Zlen payload <? 8 then Ret (Err MkWireError)
  else
    src_addr ← ip4_src_addr ip_packet;
    dst_addr ← ip4_dst_addr ip_packet;
    next_header ← ip4_next_header ip_packet;
    hop_limit ← ip4_hop_limit ip_packet;
    Ret (Ok (mkIpHeader src_addr dst_addr next_header (Zlen payload) hop_limit, payload)).

(** Identifier, sequence number and data of an echo message. *)
Definition icmp4_parse_echo buffer : res (Z * Z * list Z) :=
  ident ← icmp4_echo_ident buffer;
  seq_no ← icmp4_echo_seq_no buffer;
  data ← icmp4_data buffer;
  Ret (ident, seq_no, data).

Definition icmpv4_parse buffer (caps : ChecksumCapabilities) : res (result Icmpv4Repr WireError) :=
  match icmp4_check_len buffer with
  | Err e => Ret (Err e)
  | Ok _ =>
      valid ← (if checksum_rx (caps_icmpv4 caps) then icmp4_verify_checksum buffer else Ret true);
      if negb valid then Ret (Err MkWireError)
      else
        t ← icmp4_msg_type buffer;
        code ← icmp4_msg_code buffer;
        match t, code with
        | MsgEchoRequest, 0 => '(ident, seq_no, data) ← icmp4_parse_echo buffer; Ret (Ok (Icmpv4EchoRequest ident seq_no data))
        | MsgEchoReply, 0 => '(ident, seq_no, data) ← icmp4_parse_echo buffer; Ret (Ok (Icmpv4EchoReply ident seq_no data))
        | MsgDstUnreachable, code =>
            '(header, data) ←? icmp4_parse_quote buffer;
            Ret (Ok (Icmpv4DstUnreachable (dst_unreachable_from code) header data))
        | MsgTimeExceeded, code =>
            '(header, data) ←? icmp4_parse_quote buffer;
            Ret (Ok (Icmpv4TimeExceeded (time_exceeded_from code) header data))
        | _, _ => Ret (Err MkWireError)
        end
  end.

Definition icmpv4_buffer_len (r : Icmpv4Repr) : res Z :=
  match r with
  | Icmpv4EchoRequest _ _ data | Icmpv4EchoReply _ _ data => usize_add 8 (Zlen data)
  | Icmpv4DstUnreachable _ header data | Icmpv4TimeExceeded _ header data =>
      n ← usize_add 8 (ipv4_buffer_len header); usize_add n (Zlen data)
  end.

(** The arms of [emit]: an echo message, as much of its data as fits; a quoted packet. *)
Definition icmp4_emit_echo buffer (m : Icmpv4Message) (ident seq_no : Z) (data : list Z) : res (list Z) :=
  buffer ← icmp4_set_msg_type buffer m;
  buffer ← icmp4_set_msg_code buffer 0;
  buffer ← icmp4_set_echo_ident buffer ident;
  buffer ← icmp4_set_echo_seq_no buffer seq_no;
  icmp4_data_mut buffer (fun d =>
    let data_len := Z.min (Zlen d) (Zlen data) in
    src ← slice data 0 data_len;
    slice_mut d 0 data_len (fun d => copy_from_slice d src)).

Definition icmp4_emit_quote buffer (m : Icmpv4Message) (code : Z) (header : IpHeader) (data : list Z) (caps : ChecksumCapabilities)
  : res (list Z) :=
  buffer ← icmp4_set_msg_type buffer m;
  buffer ← icmp4_set_msg_code buffer code;
  icmp4_data_mut buffer (fun d =>
    ip_packet ← ipv4_emit header d caps;
    slice_mut ip_packet (ipv4_buffer_len header) (Zlen ip_packet) (fun d => copy_from_slice d data)).

Definition icmpv4_emit (r : Icmpv4Repr) buffer (caps : ChecksumCapabilities) : res (list Z) :=
  buffer ← icmp4_set_msg_code buffer 0;
  buffer ← match r with
           | Icmpv4EchoRequest ident seq_no data => icmp4_emit_echo buffer MsgEchoRequest ident seq_no data
           | Icmpv4EchoReply ident seq_no data => icmp4_emit_echo buffer MsgEchoReply ident seq_no data
           | Icmpv4DstUnreachable reason header data =>
               icmp4_emit_quote buffer MsgDstUnreachable (dst_unreachable_into reason) header data caps
           | Icmpv4TimeExceeded reason header data =>
               icmp4_emit_quote buffer MsgTimeExceeded (time_exceeded_into reason) header data caps
           end;
  if checksum_tx (caps_icmpv4 caps) then icmp4_fill_checksum buffer
  else icmp4_set_checksum buffer 0.
End Packet.

(** * What the ICMPv4 messages carry *)

Definition icmp_hdr (ty code ck a b : Z) (rest : list Z) : list Z :=
  layout_bytes [(1%nat, ty); (1%nat, code); (2%nat, ck); (2%nat, a); (2%nat, b)] ++ rest.

Lemma Zlen_icmp_hdr ty code ck a b rest : Zlen (icmp_hdr ty code ck a b rest) = 8 + Zlen rest.
Proof. unfold icmp_hdr. by rewrite Zlen_app, Zlen_layout_bytes. Qed.

Lemma icmp_hdr_bytes_ok ty code ck a b rest : bytes_ok rest -> bytes_ok (icmp_hdr ty code ck a b rest).
Proof. intros. apply bytes_ok_app. split; [apply layout_bytes_ok | done]. Qed.

Lemma icmp_hdr_view bs :
  bytes_ok bs -> 8 <= Zlen bs ->
  exists ty code ck a b rest, bs = icmp_hdr ty code ck a b rest /\ bytes_ok rest /\
    in_u8 ty /\ in_u8 code /\ in_u16 ck /\ in_u16 a /\ in_u16 b.
Proof.
  intros Hb Hl.
  destruct (layout_view [1; 1; 2; 2; 2]%nat bs Hb Hl) as (l & rest & Hm & E & Hr & Hf).
  do 5 (destruct l as [|[? ?] l]; [discriminate|]). destruct l; [|discriminate].
  cbn [map fst] in Hm. injection Hm as -> -> -> -> ->.
  repeat match goal with H : Forall _ (_ :: _) |- _ => inversion H; clear H; subst end. cbn [fst snd] in *.
  change (256 ^ Z.of_nat 1) with 256 in *. change (256 ^ Z.of_nat 2) with 65536 in *.
  do 6 eexists. split; [reflexivity|]. split; [done|]. split_and!; mlia.
Qed.

Section Header.
Context `{NetworkEndianLaws}.
Variables ty code ck a b : Z.
Variable rest : list Z.

Abbreviation h := (icmp_hdr ty code ck a b rest).

Lemma icmp4_msg_type_ok : in_u8 ty -> icmp4_msg_type h = Ret (message_from ty).
Proof. intros. unfold icmp4_msg_type, icmp_hdr. by erewrite (layout_index 0) by (reflexivity || done). Qed.
Lemma icmp4_msg_code_ok : in_u8 code -> icmp4_msg_code h = Ret code.
Proof. intros. unfold icmp4_msg_code, icmp_hdr. by erewrite (layout_index 1) by (reflexivity || done). Qed.
Lemma icmp4_echo_ident_ok : in_u16 a -> icmp4_echo_ident h = Ret a.
Proof. intros. unfold icmp4_echo_ident, icmp_hdr. eapply (layout_read_u16 3); (reflexivity || done). Qed.
Lemma icmp4_echo_seq_no_ok : in_u16 b -> icmp4_echo_seq_no h = Ret b.
Proof. intros. unfold icmp4_echo_seq_no, icmp_hdr. eapply (layout_read_u16 4); (reflexivity || done). Qed.

(** The data starts behind eight octets for every type. *)
Lemma icmp4_header_len_ok : in_u8 ty -> icmp4_header_len h = Ret 8.
Proof. intros. unfold icmp4_header_len. rewrite icmp4_msg_type_ok by done. ret_step. by destruct (message_from ty). Qed.

Lemma icmp4_data_ok : in_u8 ty -> icmp4_data h = Ret rest.
Proof.
  intros. unfold icmp4_data. rewrite icmp4_header_len_ok by done. ret_step.
  pose proof (slice_mid (layout_bytes [(1%nat, ty); (1%nat, code); (2%nat, ck); (2%nat, a); (2%nat, b)]) rest [] 8
    (Zlen h)) as E. rewrite app_nil_r in E. unfold icmp_hdr in *. apply E; [by rewrite Zlen_layout_bytes|].
  rewrite Zlen_app, Zlen_layout_bytes. done.
Qed.

Lemma icmp4_set_msg_type_ok m : in_u8 (message_into m) -> icmp4_set_msg_type h m = Ret (icmp_hdr (message_into m) code ck a b rest).
Proof. intros. unfold icmp4_set_msg_type, icmp_hdr. by erewrite (layout_index_set 0) by (reflexivity || done). Qed.
Lemma icmp4_set_msg_code_ok v : in_u8 v -> icmp4_set_msg_code h v = Ret (icmp_hdr ty v ck a b rest).
Proof. intros. unfold icmp4_set_msg_code, icmp_hdr. by erewrite (layout_index_set 1) by (reflexivity || done). Qed.
Lemma icmp4_set_checksum_ok v : in_u16 v -> icmp4_set_checksum h v = Ret (icmp_hdr ty code v a b rest).
Proof. intros. unfold icmp4_set_checksum, icmp_hdr. by erewrite (layout_write_u16 2) by (reflexivity || done). Qed.
Lemma icmp4_set_echo_ident_ok v : in_u16 v -> icmp4_set_echo_ident h v = Ret (icmp_hdr ty code ck v b rest).
Proof. intros. unfold icmp4_set_echo_ident, icmp_hdr. by erewrite (layout_write_u16 3) by (reflexivity || done). Qed.
Lemma icmp4_set_echo_seq_no_ok v : in_u16 v -> icmp4_set_echo_seq_no h v = Ret (icmp_hdr ty code ck a v rest).
Proof. intros. unfold icmp4_set_echo_seq_no, icmp_hdr. by erewrite (layout_write_u16 4) by (reflexivity || done). Qed.

Lemma icmp4_data_mut_ok f rest' :
  in_u8 ty -> f rest = Ret rest' -> Zlen rest' = Zlen rest -> icmp4_data_mut h f = Ret (icmp_hdr ty code ck a b rest').
Proof.
  intros Ht Hf Hl. unfold icmp4_data_mut. rewrite icmp4_header_len_ok by done. ret_step.
  pose proof (slice_mut_mid (layout_bytes [(1%nat, ty); (1%nat, code); (2%nat, ck); (2%nat, a); (2%nat, b)]) rest rest' [] 8
    (Zlen h) f) as E. rewrite !app_nil_r in E. unfold icmp_hdr in *. apply E; [by rewrite Zlen_layout_bytes| |done|].
  - rewrite Zlen_app, Zlen_layout_bytes. done.
  - unfold Zlen in Hl. lia.
Qed.
End Header.

(** The checksum adds its value to the sum of the words. *)
Lemma icmp_word_sum ty code ck a b rest :
  in_u16 ck -> word_sum (icmp_hdr ty code ck a b rest) = ck + word_sum (icmp_hdr ty code 0 a b rest).
Proof.
  intros Hc. unfold icmp_hdr.
  assert (E : forall c', layout_bytes [(1%nat, ty); (1%nat, code); (2%nat, c'); (2%nat, a); (2%nat, b)] ++ rest =
    layout_bytes [(1%nat, ty); (1%nat, code)] ++ be_bytes 2 c' ++ layout_bytes [(2%nat, a); (2%nat, b)] ++ rest).
  { intros c'. apply (layout_split [(1%nat, ty); (1%nat, code)]). }
  rewrite !E. apply word_sum_field; [by exists 1%nat | done].
Qed.

Lemma icmp4_fill_checksum_ok `{NetworkEndianLaws} ty code c a b rest :
  bytes_ok rest -> Zlen rest <= 65535 ->
  exists ck, in_u16 ck /\ icmp4_fill_checksum (icmp_hdr ty code c a b rest) = Ret (icmp_hdr ty code ck a b rest) /\
    icmp4_verify_checksum (icmp_hdr ty code ck a b rest) = Ret true.
Proof.
  intros Hr Hl. assert (Hb : forall ck, bytes_ok (icmp_hdr ty code ck a b rest)) by (intros; by apply icmp_hdr_bytes_ok).
  assert (Hz : forall ck, Zlen (icmp_hdr ty code ck a b rest) <= 131070) by (intros; rewrite Zlen_icmp_hdr; lia).
  set (s := word_sum (icmp_hdr ty code 0 a b rest)). assert (Hs : 0 <= s) by (apply word_sum_bounds, Hb).
  pose proof (fold16_range s). exists (65535 - fold16 s). split; [mlia|].
  unfold icmp4_fill_checksum, icmp4_verify_checksum. rewrite icmp4_set_checksum_ok by mlia. split.
  - ret_step. rewrite checksum_data_ok by auto. ret_step. fold s. rewrite u16_not by mlia. apply icmp4_set_checksum_ok. mlia.
  - rewrite checksum_data_ok by auto. ret_step. rewrite icmp_word_sum by mlia. fold s. by rewrite Z.add_comm, fold16_complement.
Qed.

(** ** Parsing *)

(** What parsing a message of [n] octets may produce: a quoted packet has at least eight octets,
    which are the payload that its header announces. *)
Definition icmpv4_ok (n : Z) (r : Icmpv4Repr) : Prop :=
  match r with
  | Icmpv4EchoRequest ident seq_no data | Icmpv4EchoReply ident seq_no data =>
      in_u16 ident /\ in_u16 seq_no /\ bytes_ok data /\ 8 + Zlen data = n
  | Icmpv4DstUnreachable reason header data =>
      in_u8 (dst_unreachable_into reason) /\ dst_unreachable_from (dst_unreachable_into reason) = reason /\
      ip_header_ok header /\ bytes_ok data /\ iph_payload_len header = Zlen data /\ 8 <= Zlen data /\ 8 + Zlen data <= n
  | Icmpv4TimeExceeded reason header data =>
      in_u8 (time_exceeded_into reason) /\ time_exceeded_from (time_exceeded_into reason) = reason /\
      ip_header_ok header /\ bytes_ok data /\ iph_payload_len header = Zlen data /\ 8 <= Zlen data /\ 8 + Zlen data <= n
  end.

(** The codes of a received message are those of its reason. *)
Lemma dst_unreachable_code x : dst_unreachable_into (dst_unreachable_from x) = x.
Proof. destruct x as [|p|p]; [done | | done]. do 5 (destruct p as [p|p|]; try done). Qed.

Lemma time_exceeded_code x : time_exceeded_into (time_exceeded_from x) = x.
Proof. destruct x as [|p|p]; [done | | done]. by destruct p. Qed.

Section Parse.
Context `{NetworkEndianLaws}.

Lemma icmp4_parse_quote_ok ty code ck a b rest :
  in_u8 ty -> bytes_ok rest -> Zlen rest <= u16_max ->
  wp (icmp4_parse_quote (icmp_hdr ty code ck a b rest)) (fun r => match r with
    | Ok (header, data) => ip_header_ok header /\ bytes_ok data /\ iph_payload_len header = Zlen data /\
                           8 <= Zlen data <= Zlen rest
    | Err _ => True
    end).
Proof.
  intros Hty Hb Hl. unfold icmp4_parse_quote, try_bind. rewrite icmp4_data_ok by done. ret_step.
  unfold ip4_new_checked, try_bind. rewrite bind_assoc. wp_bind_with (ip4_check_len_ok rest Hb). intros [[]|e]; [|done].
  intros [Hl20 (hl & tl & Eh & _ & Hh & Ht & _)]. ret_steps. rewrite Eh. ret_step. rewrite slice_ok by lia. ret_step.
  assert (Hz : Zlen (sub rest hl (Zlen rest - hl)) = Zlen rest - hl) by (apply Zlen_sub; lia).
  rewrite Hz. destruct (Z.ltb_spec (Zlen rest - hl) 8); [done|].
  destruct (ip4_accessors_ok rest Hb Hl20) as (_ & Hs & Hd & Hn & Hhop).
  wp_bind_with Hs. intros src Hsrc. wp_bind_with Hd. intros dst Hdst. wp_bind_with Hn. intros nh Hnh.
  wp_bind_with Hhop. intros hop Hho. cbn [wp]. rewrite Hz. split; [constructor; cbn; auto; mlia|].
  split; [by apply bytes_ok_sub|]. cbn. lia.
Qed.

Lemma icmpv4_parse_ok bs caps :
  bytes_ok bs -> Zlen bs <= u16_max ->
  wp (icmpv4_parse bs caps) (fun r => match r with Ok r => icmpv4_ok (Zlen bs) r | Err _ => True end).
Proof.
  intros Hb Hl. unfold icmpv4_parse, icmp4_check_len, ICMPV4_HEADER_END. destruct (Z.ltb_spec (Zlen bs) 8); [done|].
  destruct (icmp_hdr_view bs Hb ltac:(done)) as (ty & code & ck & a & b & rest & -> & Hr & Hty & Hco & Hck & Ha & Hbb).
  rewrite Zlen_icmp_hdr in *. eapply (wp_bind_mono _ _ (fun _ => True)).
  { destr_if; [|done]. unfold icmp4_verify_checksum. rewrite checksum_data_ok; [by ret_step|done|]. rewrite Zlen_icmp_hdr. mlia. }
  intros valid _. destr_if; [done|]. rewrite icmp4_msg_type_ok by done. ret_step. rewrite icmp4_msg_code_ok by done. ret_step.
  assert (He : icmp4_parse_echo (icmp_hdr ty code ck a b rest) = Ret (a, b, rest)).
  { unfold icmp4_parse_echo. rewrite icmp4_echo_ident_ok by done. ret_step. rewrite icmp4_echo_seq_no_ok by done. ret_step.
    rewrite icmp4_data_ok by done. by ret_step. }
  pose proof (icmp4_parse_quote_ok ty code ck a b rest Hty Hr ltac:(mlia)) as Hq. rewrite He. unfold try_bind.
  destruct (message_from ty); try done.
  all: try (destruct code; [ret_step; cbn; auto | done..]).
  all: wp_bind_with Hq; intros [[header data]|e]; [|done]; cbn [wp icmpv4_ok]; intros (? & ? & ? & ?);
    rewrite ?dst_unreachable_code, ?time_exceeded_code; auto 10 with lia.
Qed.
End Parse.

(** ** Emitting *)

(** A message that [emit] can write: the codes are octets, and not those of other
    constructors; a quoted packet is quoted as a whole. *)
Definition icmpv4_emit_ok (r : Icmpv4Repr) : Prop :=
  match r with
  | Icmpv4EchoRequest ident seq_no data | Icmpv4EchoReply ident seq_no data =>
      in_u16 ident /\ in_u16 seq_no /\ bytes_ok data /\ Zlen data <= 65527
  | Icmpv4DstUnreachable reason header data =>
      in_u8 (dst_unreachable_into reason) /\ dst_unreachable_from (dst_unreachable_into reason) = reason /\
      ip_emit_ok header /\ bytes_ok data /\ iph_payload_len header = Zlen data /\ 8 <= Zlen data
  | Icmpv4TimeExceeded reason header data =>
      in_u8 (time_exceeded_into reason) /\ time_exceeded_from (time_exceeded_into reason) = reason /\
      ip_emit_ok header /\ bytes_ok data /\ iph_payload_len header = Zlen data /\ 8 <= Zlen data
  end.

Section Emit.
Context `{NetworkEndianLaws}.

(** The message as bytes, with its checksum. *)
Lemma icmp4_emit_echo_ok ty code ck a b rest m ident seq_no data :
  in_u8 ty -> in_u8 code -> in_u8 (message_into m) -> in_u16 ident -> in_u16 seq_no -> Zlen rest = Zlen data ->
  icmp4_emit_echo (icmp_hdr ty code ck a b rest) m ident seq_no data = Ret (icmp_hdr (message_into m) 0 ck ident seq_no data).
Proof.
  intros Hty Hco Hm Hi Hs Hl. unfold icmp4_emit_echo. rewrite icmp4_set_msg_type_ok by done. ret_step.
  rewrite icmp4_set_msg_code_ok by mlia. ret_step. rewrite icmp4_set_echo_ident_ok by done. ret_step.
  rewrite icmp4_set_echo_seq_no_ok by done. ret_step. apply icmp4_data_mut_ok; [done| |done].
  rewrite Hl, Z.min_id. pose proof (Zlen_nonneg data). rewrite slice_ok by lia. ret_step. rewrite Z.sub_0_r, sub_all.
  pose proof (slice_mut_mid [] rest data [] 0 (Zlen data) (fun d => copy_from_slice d data)) as E. rewrite !app_nil_r in E.
  apply E; [done | lia | by apply copy_from_slice_ok | unfold Zlen in *; lia].
Qed.

(** The header of a quoted packet, by its accessors. *)
Lemma ip4_emitted_fields r ck rest :
  ip_emit_ok r -> in_u16 ck -> iph_payload_len r = Zlen rest ->
  let bs := ip4_emitted r ck rest in
  ip4_check_len bs = Ret (Ok tt) /\ ip4_header_len bs = Ret 20 /\ ip4_src_addr bs = Ret (iph_src r) /\
  ip4_dst_addr bs = Ret (iph_dst r) /\ ip4_next_header bs = Ret (iph_next_header r) /\ ip4_hop_limit bs = Ret (iph_hop_limit r).
Proof.
  intros [[Hsrc Hdst Hnh Hpl Hhop] Hmax] Hck Hl bs.
  pose proof (ip4_emitted_head r ck rest ltac:(by split)) as (_ & Eh & Et & _). pose proof (Zlen_ip4_emitted r ck rest) as El. fold bs in Eh, Et, El.
  split; [|split; [done|]].
  - unfold ip4_check_len, IPV4_HEADER_LEN. pose proof (Zlen_nonneg rest). rewrite El.
    replace (20 + Zlen rest <? 20) with false by lia. rewrite Eh. ret_step.
    replace (20 + Zlen rest <? 20) with false by lia. rewrite Et. ret_step.
    replace (20 + iph_payload_len r <? 20) with false by lia. by replace (20 + Zlen rest <? 20 + iph_payload_len r) with false by lia.
  - unfold bs, ip4_emitted. rewrite ip4_src_addr_ok, ip4_dst_addr_ok, ip4_next_header_ok, ip4_hop_limit_ok by done.
    by rewrite !be_value_addr by done.
Qed.

Lemma icmp4_emit_quote_ok ty code ck a b rest m reason header data caps :
  in_u8 ty -> in_u8 code -> in_u8 (message_into m) -> in_u8 reason -> ip_emit_ok header -> bytes_ok rest ->
  Zlen rest = 20 + Zlen data ->
  exists ipck, in_u16 ipck /\
    icmp4_emit_quote (icmp_hdr ty code ck a b rest) m reason header data caps =
    Ret (icmp_hdr (message_into m) reason ck a b (ip4_emitted header ipck data)).
Proof.
  intros Hty Hco Hm Hre Hh Hb Hl. pose proof (Zlen_nonneg data).
  destruct (ipv4_emit_ok header rest caps Hb ltac:(lia) Hh) as (ipck & Hck & Ee & _). exists ipck. split; [done|].
  unfold icmp4_emit_quote. rewrite icmp4_set_msg_type_ok by done. ret_step.
  rewrite icmp4_set_msg_code_ok by done. ret_step. apply icmp4_data_mut_ok; [done| |].
  - rewrite Ee. ret_step. unfold ip4_emitted. rewrite Zlen_ip4_hdr. unfold ip4_hdr, ipv4_buffer_len.
    assert (Hd : Zlen (drop 20 rest) = Zlen data) by (unfold Zlen in *; rewrite length_drop; lia).
    pose proof (slice_mut_mid (layout_bytes [(1%nat, 69); (1%nat, 0); (2%nat, 20 + iph_payload_len header); (2%nat, 0);
      (2%nat, 0x4000); (1%nat, iph_hop_limit header); (1%nat, iph_next_header header); (2%nat, ipck);
      (4%nat, be_value (iph_src header)); (4%nat, be_value (iph_dst header))]) (drop 20 rest) data [] 20 (20 + Zlen (drop 20 rest))
      (fun d => copy_from_slice d data)) as E. rewrite !app_nil_r in E.
    apply E; [by rewrite Zlen_layout_bytes | done | by apply copy_from_slice_ok | unfold Zlen in *; lia].
  - unfold ip4_emitted. rewrite Zlen_ip4_hdr. lia.
Qed.

(** An emitted message is [icmp_hdr] over the data of the message. *)
Lemma icmp4_parse_quoted ty code ck a b header ipck data :
  in_u8 ty -> ip_emit_ok header -> in_u16 ipck -> iph_payload_len header = Zlen data -> 8 <= Zlen data ->
  icmp4_parse_quote (icmp_hdr ty code ck a b (ip4_emitted header ipck data)) = Ret (Ok (header, data)).
Proof.
  intros Hty Hh Hck Hl H8. destruct (ip4_emitted_fields header ipck data Hh Hck Hl) as (Ec & Eh & Es & Ed & En & Eo).
  unfold icmp4_parse_quote, ip4_new_checked, try_bind. rewrite icmp4_data_ok by done. ret_step. rewrite Ec. ret_steps.
  rewrite Eh. ret_step.
  assert (E : slice (ip4_emitted header ipck data) 20 (Zlen (ip4_emitted header ipck data)) = Ret data).
  { unfold ip4_emitted. rewrite Zlen_ip4_hdr. unfold ip4_hdr.
    match goal with |- slice (?p ++ data) _ _ = _ => pose proof (slice_mid p data [] 20 (20 + Zlen data)) as E end.
    rewrite app_nil_r in E. apply E; [by rewrite Zlen_layout_bytes | lia]. }
  rewrite E. ret_step. replace (Zlen data <? 8) with false by lia. rewrite Es. ret_step. rewrite Ed. ret_step.
  rewrite En. ret_step. rewrite Eo. ret_step. rewrite <- Hl. by destruct header.
Qed.

(** The last step of [emit]: the checksum, or zero. *)
Lemma icmp4_finish_ok ty code ck a b rest caps :
  bytes_ok rest -> Zlen rest <= 65535 -> in_u16 ck ->
  exists ck', in_u16 ck' /\
    (if checksum_tx (caps_icmpv4 caps) then icmp4_fill_checksum (icmp_hdr ty code ck a b rest)
     else icmp4_set_checksum (icmp_hdr ty code ck a b rest) 0) = Ret (icmp_hdr ty code ck' a b rest) /\
    (checksum_tx (caps_icmpv4 caps) = true -> icmp4_verify_checksum (icmp_hdr ty code ck' a b rest) = Ret true).
Proof.
  intros Hb Hl Hck. destruct (checksum_tx (caps_icmpv4 caps)).
  - destruct (icmp4_fill_checksum_ok ty code ck a b rest Hb Hl) as (ck' & ? & ? & ?). by exists ck'.
  - exists 0. rewrite icmp4_set_checksum_ok by mlia. split; [mlia|]. by split.
Qed.

(** Parsing a message with a valid checksum. *)
Lemma icmpv4_parse_hdr ty code ck a b rest caps :
  in_u8 ty -> in_u8 code -> in_u16 a -> in_u16 b ->
  (checksum_rx (caps_icmpv4 caps) = true -> icmp4_verify_checksum (icmp_hdr ty code ck a b rest) = Ret true) ->
  icmpv4_parse (icmp_hdr ty code ck a b rest) caps =
  match message_from ty, code with
  | MsgEchoRequest, 0 => Ret (Ok (Icmpv4EchoRequest a b rest))
  | MsgEchoReply, 0 => Ret (Ok (Icmpv4EchoReply a b rest))
  | MsgDstUnreachable, code =>
      try_bind (icmp4_parse_quote (icmp_hdr ty code ck a b rest)) (fun '(header, data) =>
        Ret (Ok (Icmpv4DstUnreachable (dst_unreachable_from code) header data)))
  | MsgTimeExceeded, code =>
      try_bind (icmp4_parse_quote (icmp_hdr ty code ck a b rest)) (fun '(header, data) =>
        Ret (Ok (Icmpv4TimeExceeded (time_exceeded_from code) header data)))
  | _, _ => Ret (Err MkWireError)
  end.
Proof.
  intros Hty Hco Ha Hb Hv. unfold icmpv4_parse, icmp4_check_len, ICMPV4_HEADER_END. rewrite Zlen_icmp_hdr.
  pose proof (Zlen_nonneg rest). replace (8 + Zlen rest <? 8) with false by lia.
  assert (Ev : (if checksum_rx (caps_icmpv4 caps) then icmp4_verify_checksum (icmp_hdr ty code ck a b rest) else Ret true) = Ret true)
    by (destr_if; auto).
  rewrite Ev. ret_step. cbn [negb]. rewrite icmp4_msg_type_ok by done. ret_step. rewrite icmp4_msg_code_ok by done. ret_step.
  assert (He : icmp4_parse_echo (icmp_hdr ty code ck a b rest) = Ret (a, b, rest)).
  { unfold icmp4_parse_echo. rewrite icmp4_echo_ident_ok by done. ret_step. rewrite icmp4_echo_seq_no_ok by done. ret_step.
    rewrite icmp4_data_ok by done. by ret_step. }
  rewrite He. by destruct (message_from ty), code.
Qed.

Lemma icmpv4_emit_parse_ok r buffer caps :
  icmpv4_emit_ok r -> bytes_ok buffer -> icmpv4_buffer_len r = Ret (Zlen buffer) ->
  (checksum_rx (caps_icmpv4 caps) = true -> checksum_tx (caps_icmpv4 caps) = true) ->
  exists bs, icmpv4_emit r buffer caps = Ret bs /\ Zlen bs = Zlen buffer /\ icmpv4_parse bs caps = Ret (Ok r) /\ bytes_ok bs.
Proof.
  intros Hr Hb Hl Hc.
  assert (Hlen : exists data, Zlen buffer = 8 + match r with Icmpv4EchoRequest _ _ _ | Icmpv4EchoReply _ _ _ => 0 | _ => 20 end + Zlen data /\
    data = match r with Icmpv4EchoRequest _ _ d | Icmpv4EchoReply _ _ d | Icmpv4DstUnreachable _ _ d | Icmpv4TimeExceeded _ _ d => d end).
  { destruct r as [i q data|i q data|re he data|re he data]; exists data; (split; [|done]); pose proof (Zlen_nonneg data);
      cbn [icmpv4_emit_ok icmpv4_buffer_len] in *; unfold ipv4_buffer_len, IPV4_HEADER_LEN in Hl.
    1-2: destruct Hr as (_ & _ & _ & ?); unfold usize_add in Hl; rewrite checked_ok in Hl by mlia; injection Hl as Hl; lia.
    all: destruct Hr as (_ & _ & [_ ?] & _ & ? & _); unfold usize_add in Hl; rewrite checked_ok in Hl by mlia;
      cbn [mbind res_bind] in Hl; rewrite checked_ok in Hl by mlia; injection Hl as Hl; lia. }
  destruct Hlen as (data & Hlen & Hdata). pose proof (Zlen_nonneg data).
  destruct (icmp_hdr_view buffer Hb ltac:(destruct r; lia)) as (ty & code & ck & a & b & rest & -> & Hrest & Hty & Hco & Hck & Ha & Hbb).
  rewrite Zlen_icmp_hdr in Hlen. unfold icmpv4_emit. rewrite icmp4_set_msg_code_ok by mlia. rewrite bind_Ret.
  assert (Hecho : forall m ident seq_no, in_u8 (message_into m) -> in_u16 ident -> in_u16 seq_no -> bytes_ok data -> Zlen data <= 65527 ->
    Zlen rest = Zlen data -> (forall ck', in_u16 ck' ->
      (checksum_rx (caps_icmpv4 caps) = true -> icmp4_verify_checksum (icmp_hdr (message_into m) 0 ck' ident seq_no data) = Ret true) ->
      icmpv4_parse (icmp_hdr (message_into m) 0 ck' ident seq_no data) caps = Ret (Ok r)) ->
    exists bs, (buffer ← icmp4_emit_echo (icmp_hdr ty 0 ck a b rest) m ident seq_no data;
      if checksum_tx (caps_icmpv4 caps) then icmp4_fill_checksum buffer else icmp4_set_checksum buffer 0) = Ret bs /\
      Zlen bs = 8 + Zlen rest /\ icmpv4_parse bs caps = Ret (Ok r) /\ bytes_ok bs).
  { intros m ident seq_no Hm Hi Hs Hd Hd2 Hz Hp. rewrite icmp4_emit_echo_ok by (done || mlia).
    destruct (icmp4_finish_ok (message_into m) 0 ck ident seq_no data caps Hd ltac:(lia) Hck) as (ck' & Hck' & Ef & Hv).
    exists (icmp_hdr (message_into m) 0 ck' ident seq_no data). split; [ret_step; exact Ef|]. rewrite Zlen_icmp_hdr.
    split; [lia|]. split; [apply Hp; auto | by apply icmp_hdr_bytes_ok]. }
  assert (Hquote : forall m reason header, in_u8 (message_into m) -> in_u8 reason -> ip_emit_ok header -> bytes_ok data ->
    iph_payload_len header = Zlen data -> 8 <= Zlen data -> Zlen rest = 20 + Zlen data ->
    (forall ipck ck', in_u16 ipck -> in_u16 ck' ->
      (checksum_rx (caps_icmpv4 caps) = true -> icmp4_verify_checksum (icmp_hdr (message_into m) reason ck' a b (ip4_emitted header ipck data)) = Ret true) ->
      icmpv4_parse (icmp_hdr (message_into m) reason ck' a b (ip4_emitted header ipck data)) caps = Ret (Ok r)) ->
    exists bs, (buffer ← icmp4_emit_quote (icmp_hdr ty 0 ck a b rest) m reason header data caps;
      if checksum_tx (caps_icmpv4 caps) then icmp4_fill_checksum buffer else icmp4_set_checksum buffer 0) = Ret bs /\
      Zlen bs = 8 + Zlen rest /\ icmpv4_parse bs caps = Ret (Ok r) /\ bytes_ok bs).
  { intros m reason header Hm Hre Hh Hd Hpl H8 Hz Hp.
    destruct (icmp4_emit_quote_ok ty 0 ck a b rest m reason header data caps Hty ltac:(mlia) Hm Hre Hh Hrest Hz) as (ipck & Hipck & ->).
    pose proof (Zlen_ip4_emitted header ipck data) as Hz2.
    destruct Hh as [Hh1 Hh2].
    destruct (icmp4_finish_ok (message_into m) reason ck a b (ip4_emitted header ipck data) caps) as (ck' & Hck' & Ef & Hv);
      [by apply ip4_emitted_bytes_ok | lia | done |].
    exists (icmp_hdr (message_into m) reason ck' a b (ip4_emitted header ipck data)). split; [ret_step; exact Ef|].
    rewrite Zlen_icmp_hdr. split; [lia|]. split; [apply Hp; auto | by apply icmp_hdr_bytes_ok, ip4_emitted_bytes_ok]. }
  rewrite Zlen_icmp_hdr.
  destruct r as [i q d|i q d|re he d|re he d]; subst d; cbn [icmpv4_emit_ok] in Hr; cbv beta iota in Hlen.
  - destruct Hr as (Hi & Hq & Hd & Hd2). apply Hecho; try done; [lia|].
    intros ck' Hck' Hv. by rewrite icmpv4_parse_hdr by (done || mlia).
  - destruct Hr as (Hi & Hq & Hd & Hd2). apply Hecho; try done; [lia|].
    intros ck' Hck' Hv. by rewrite icmpv4_parse_hdr by (done || mlia).
  - destruct Hr as (Hre & Hinv & Hh & Hd & Hpl & H8). apply Hquote; try done; [lia|].
    intros ipck ck' Hipck Hck' Hv. rewrite icmpv4_parse_hdr by (done || mlia). cbn [message_into message_from].
    unfold try_bind. rewrite icmp4_parse_quoted by (done || mlia). ret_step. by rewrite Hinv.
  - destruct Hr as (Hre & Hinv & Hh & Hd & Hpl & H8). apply Hquote; try done; [lia|].
    intros ipck ck' Hipck Hck' Hv. rewrite icmpv4_parse_hdr by (done || mlia). cbn [message_into message_from].
    unfold try_bind. rewrite icmp4_parse_quoted by (done || mlia). ret_step. by rewrite Hinv.
Qed.
End Emit.

(** ** Properties *)

(** Parsing an ICMPv4 message never panics, whatever its bytes; the values of a parsed message
    are in the ranges of their types, the data of an echo message are all octets behind the
    header, and a quoted packet has at least the eight octets of payload that RFC 792 asks for. *)
Theorem icmpv4_parse_safe `{NetworkEndianLaws} bs caps :
  bytes_ok bs -> Zlen bs <= u16_max ->
  wp (icmpv4_parse bs caps) (fun r => match r with Ok r => icmpv4_ok (Zlen bs) r | Err _ => True end).
Proof. apply icmpv4_parse_ok. Qed.

(** A message that is emitted into a buffer of its length, whatever the buffer held, is parsed
    back as it was, with a checksum that is valid, for every kind of message. *)
Theorem icmpv4_emit_parse `{NetworkEndianLaws} r buffer caps :
  icmpv4_emit_ok r -> bytes_ok buffer -> icmpv4_buffer_len r = Ret (Zlen buffer) ->
  (checksum_rx (caps_icmpv4 caps) = true -> checksum_tx (caps_icmpv4 caps) = true) ->
  exists bs, icmpv4_emit r buffer caps = Ret bs /\ Zlen bs = Zlen buffer /\ icmpv4_parse bs caps = Ret (Ok r).
Proof. intros. destruct (icmpv4_emit_parse_ok r buffer caps) as (bs & ? & ? & ? & _); eauto. Qed.

(** An error message that quotes less than the whole packet it is about is refused, because the
    quoted header is checked like that of a received packet, whose total length may not exceed the
    buffer; the comment in the source, and RFC 792, allow any quote of at least eight octets. *)
Theorem icmpv4_truncated_quote_rejected `{NetworkEndianLaws} ty code ck a b quote total_len caps :
  ty = 3 \/ ty = 11 -> in_u8 code -> bytes_ok quote -> 20 <= Zlen quote <= 65527 ->
  ip4_total_len quote = Ret total_len -> Zlen quote < total_len ->
  icmpv4_parse (icmp_hdr ty code ck a b quote) caps = Ret (Err MkWireError).
Proof.
  intros Hty Hco Hb Hl Ht Hlt. assert (Hty8 : in_u8 ty) by mlia.
  assert (Hq : icmp4_parse_quote (icmp_hdr ty code ck a b quote) = Ret (Err MkWireError)).
  { unfold icmp4_parse_quote, ip4_new_checked, try_bind. rewrite icmp4_data_ok by done. ret_step.
    assert (Hc : ip4_check_len quote = Ret (Err MkWireError)); [|rewrite Hc; by ret_steps].
    unfold ip4_check_len, IPV4_HEADER_LEN. replace (Zlen quote <? 20) with false by lia.
    destruct (ip4_hdr_view quote Hb ltac:(lia)) as (vi & de & len & id & fo & ttl & proto & ck' & src & dst & rest & E & _ & Hvi & _).
    rewrite Ht. rewrite E at 1. destruct (ip4_header_len_ok vi de len id fo ttl proto ck' src dst rest Hvi) as [-> _]. ret_step.
    destr_if; [done|]. ret_step. destr_if; [done|]. by replace (Zlen quote <? total_len) with true by lia. }
  unfold icmpv4_parse, icmp4_check_len, ICMPV4_HEADER_END. rewrite Zlen_icmp_hdr. replace (8 + Zlen quote <? 8) with false by lia.
  assert (Hv : exists v, (if checksum_rx (caps_icmpv4 caps) then icmp4_verify_checksum (icmp_hdr ty code ck a b quote) else Ret true) = Ret v).
  { destr_if; [|by exists true]. unfold icmp4_verify_checksum.
    rewrite checksum_data_ok; [eexists; ret_step; reflexivity | by apply icmp_hdr_bytes_ok | rewrite Zlen_icmp_hdr; lia]. }
  destruct Hv as (v & ->). ret_step. destr_if; [done|]. rewrite icmp4_msg_type_ok by done. ret_step.
  rewrite icmp4_msg_code_ok by done. ret_step. rewrite Hq. by destruct Hty as [-> | ->].
Qed.

(** *** Concrete instances: the messages of the source's tests *)

Definition ex_echo_bytes : list Z := [0x08; 0x00; 0x8e; 0xfe; 0x12; 0x34; 0xab; 0xcd; 0xaa; 0x00; 0x00; 0xff].

Lemma icmpv4_parse_safe_witness :
  wp (@icmpv4_parse network_endian ex_echo_bytes (mkChecksumCapabilities CkBoth CkBoth CkBoth CkBoth CkBoth)) (fun r =>
    match r with Ok r => icmpv4_ok (Zlen ex_echo_bytes) r | Err _ => True end).
Proof.
  apply (@icmpv4_parse_safe network_endian network_endian_laws); [unfold ex_echo_bytes; byte_list | vm_compute; congruence].
Defined.

Example icmpv4_parse_example :
  @icmpv4_parse network_endian ex_echo_bytes (mkChecksumCapabilities CkBoth CkBoth CkBoth CkBoth CkBoth) =
  Ret (Ok (Icmpv4EchoRequest 0x1234 0xabcd [0xaa; 0x00; 0x00; 0xff])).
Proof. by vm_compute. Qed.

Definition ex_unreachable : Icmpv4Repr :=
  Icmpv4DstUnreachable PortUnreachable (mkIpHeader [192; 168; 1; 1] [192; 168; 1; 2] 17 8 64) [0xbf; 0; 0; 0x35; 0; 8; 0x12; 0x34].

Lemma icmpv4_emit_parse_witness :
  exists bs, @icmpv4_emit network_endian ex_unreachable (replicate 36 0xa5) (mkChecksumCapabilities CkBoth CkBoth CkBoth CkBoth CkBoth) = Ret bs /\
    Zlen bs = Zlen (replicate 36 0xa5) /\
    @icmpv4_parse network_endian bs (mkChecksumCapabilities CkBoth CkBoth CkBoth CkBoth CkBoth) = Ret (Ok ex_unreachable).
Proof.
  apply (@icmpv4_emit_parse network_endian network_endian_laws); [|byte_list|reflexivity|done].
  unfold ex_unreachable. cbn [icmpv4_emit_ok]. split; [by vm_compute|]. split; [done|].
  split; [|split; [byte_list | split; [reflexivity | by vm_compute]]].
  split; [constructor; cbn; try (split; [byte_list | reflexivity]); by vm_compute | by vm_compute].
Defined.

(** The first eight octets of the payload of a packet of 60 octets. *)
Definition ex_quote : list Z :=
  [0x45; 0; 0; 60; 0; 0; 0x40; 0; 64; 6; 0; 0; 10; 0; 0; 1; 10; 0; 0; 2; 0x80; 0; 0; 80; 1; 2; 3; 4].

Lemma icmpv4_truncated_quote_rejected_witness :
  @icmpv4_parse network_endian (icmp_hdr 3 3 0 0 0 ex_quote) caps_ignored = Ret (Err MkWireError).
Proof.
  apply (@icmpv4_truncated_quote_rejected network_endian network_endian_laws 3 3 0 0 0 ex_quote 60);
    [by left | by vm_compute | unfold ex_quote; byte_list | by vm_compute | reflexivity | reflexivity].
Defined.
