(* ===== verification/UdpWire.v ===== *)
(** * UDP packets on the wire (wire/udp.rs)

    Definitions as in [TcpWire].  [payload_len] and the closure that writes the payload are
    arguments of [udp_emit]. *)

From S2P Require Import Prelude SeqNumber IpTypes ByteOrder Checksum.
#[local] Open Scope wire_scope.

(** [IpProtocol::Udp]. *)
Definition PROTOCOL_UDP : Z := 17.

Definition UDP_HEADER_LEN : Z := 8.

Record UdpRepr : Type := mkUdpRepr { udp_src_port : Z; udp_dst_port : Z }.

#[export] Instance udp_repr_eq_dec : EqDecision UdpRepr.
Proof. solve_decision. Defined.

Section Packet.
Context `{NetworkEndian}.
Implicit Types buffer : list Z.

Definition udp_pkt_src_port buffer : res Z := field_read read_u16 buffer 0 2.
Definition udp_pkt_dst_port buffer : res Z := field_read read_u16 buffer 2 4.
Definition udp_pkt_len buffer : res Z := field_read read_u16 buffer 4 6.
Definition udp_pkt_checksum buffer : res Z := field_read read_u16 buffer 6 8.

Definition udp_check_len buffer : res (result unit WireError) :=
  let buffer_len := Zlen buffer in
  if buffer_len <? UDP_HEADER_LEN then Ret (Err MkWireError)
  else
    field_len ← udp_pkt_len buffer;
    if (buffer_len <? field_len) || (field_len <? UDP_HEADER_LEN) then Ret (Err MkWireError)
    else Ret (Ok tt).

Definition udp_new_checked buffer : res (result (list Z) WireError) :=
  _ ←? udp_check_len buffer; Ret (Ok buffer).

(** The [cfg!(fuzzing)] of the source is false in a normal build. *)
Definition udp_verify_partial_checksum buffer (src_addr dst_addr : Address) : res bool :=
  len ← udp_pkt_len buffer;
  p ← pseudo_header src_addr dst_addr PROTOCOL_UDP len;
  c ← udp_pkt_checksum buffer;
  Ret (p =? c).

(** The sum of the packet and its pseudo header. *)
Definition udp_sum buffer (src_addr dst_addr : Address) : res Z :=
  len ← udp_pkt_len buffer;
  p ← pseudo_header src_addr dst_addr PROTOCOL_UDP len;
  len ← udp_pkt_len buffer;
  d ← slice buffer 0 len;
  d ← checksum_data d;
  checksum_combine [p; d].

Definition udp_verify_checksum buffer (src_addr dst_addr : Address) : res bool :=
  c ← udp_pkt_checksum buffer;
  if c =? 0 then Ret true
  else c ← udp_sum buffer src_addr dst_addr; Ret (c =? u16_max).

Definition udp_payload buffer : res (list Z) :=
  length ← udp_pkt_len buffer; slice buffer UDP_HEADER_LEN length.

Definition udp_set_src_port buffer (v : Z) := slice_mut buffer 0 2 (fun d => write_u16 d v).
Definition udp_set_dst_port buffer (v : Z) := slice_mut buffer 2 4 (fun d => write_u16 d v).
Definition udp_set_len buffer (v : Z) := slice_mut buffer 4 6 (fun d => write_u16 d v).
Definition udp_set_checksum buffer (v : Z) := slice_mut buffer 6 8 (fun d => write_u16 d v).

Definition udp_fill_checksum buffer (src_addr dst_addr : Address) : res (list Z) :=
  buffer ← udp_set_checksum buffer 0;
  c ← udp_sum buffer src_addr dst_addr;
  let checksum := Z.lxor 0xffff c in
  udp_set_checksum buffer (if checksum =? 0 then 0xffff else checksum).

Definition udp_payload_mut buffer (f : list Z -> res (list Z)) : res (list Z) :=
  length ← udp_pkt_len buffer; slice_mut buffer UDP_HEADER_LEN length f.

(** A checksum that is not valid is accepted only over IPv4, and only if it is absent. *)
Definition udp_parse buffer (src_addr dst_addr : Address) (caps : ChecksumCapabilities)
  : res (result UdpRepr WireError) :=
  _ ←? udp_check_len buffer;
  dst_port ← udp_pkt_dst_port buffer;
  if dst_port =? 0 then Ret (Err MkWireError)
  else
    valid ← (if checksum_rx (caps_udp caps) then udp_verify_checksum buffer src_addr dst_addr else Ret true);
    _ ←? (if negb valid then
            match src_addr, dst_addr with
            | Ipv4 _, Ipv4 _ =>
                c ← udp_pkt_checksum buffer;
                if c =? 0 then Ret (Ok tt) else Ret (Err MkWireError)
            | _, _ => Ret (Err MkWireError)
            end
          else Ret (Ok tt));
    src_port ← udp_pkt_src_port buffer;
    dst_port ← udp_pkt_dst_port buffer;
    Ret (Ok (mkUdpRepr src_port dst_port)).

Definition udp_header_len (r : UdpRepr) : Z := UDP_HEADER_LEN.

Definition udp_emit_header (r : UdpRepr) buffer (payload_len : Z) : res (list Z) :=
  buffer ← udp_set_src_port buffer (udp_src_port r);
  buffer ← udp_set_dst_port buffer (udp_dst_port r);
  n ← usize_add UDP_HEADER_LEN payload_len;
  buffer ← udp_set_len buffer (wrap_u 16 n);
  udp_set_checksum buffer 0.

Definition udp_emit (r : UdpRepr) buffer (src_addr dst_addr : Address) (payload_len : Z)
    (emit_payload : list Z -> res (list Z)) (caps : ChecksumCapabilities) : res (list Z) :=
  buffer ← udp_set_src_port buffer (udp_src_port r);
  buffer ← udp_set_dst_port buffer (udp_dst_port r);
  n ← usize_add UDP_HEADER_LEN payload_len;
  buffer ← udp_set_len buffer (wrap_u 16 n);
  buffer ← udp_payload_mut buffer emit_payload;
  if checksum_tx (caps_udp caps) then udp_fill_checksum buffer src_addr dst_addr
  else udp_set_checksum buffer 0.
End Packet.

(** * What the UDP header carries *)

Definition udp_hdr (src dst len ck : Z) (rest : list Z) : list Z :=
  layout_bytes [(2%nat, src); (2%nat, dst); (2%nat, len); (2%nat, ck)] ++ rest.

Lemma Zlen_udp_hdr src dst len ck rest : Zlen (udp_hdr src dst len ck rest) = 8 + Zlen rest.
Proof. unfold udp_hdr. by rewrite Zlen_app, Zlen_layout_bytes. Qed.

Lemma udp_hdr_view bs :
  bytes_ok bs -> 8 <= Zlen bs ->
  exists src dst len ck rest, bs = udp_hdr src dst len ck rest /\ bytes_ok rest /\
    in_u16 src /\ in_u16 dst /\ in_u16 len /\ in_u16 ck.
Proof.
  intros Hb Hl. destruct (layout_view [2; 2; 2; 2]%nat bs Hb Hl) as (l & rest & Hm & E & Hr & Hf).
  do 4 (destruct l as [|[? ?] l]; [discriminate|]). destruct l; [|discriminate].
  cbn [map fst] in Hm. injection Hm as -> -> -> ->.
  repeat match goal with H : Forall _ (_ :: _) |- _ => inversion H; clear H; subst end. cbn [fst snd] in *.
  change (256 ^ Z.of_nat 2) with 65536 in *. do 5 eexists. split; [reflexivity|]. split; [done|]. split_and!; mlia.
Qed.

Lemma udp_hdr_bytes_ok src dst len ck rest : bytes_ok rest -> bytes_ok (udp_hdr src dst len ck rest).
Proof. intros. apply bytes_ok_app. split; [apply layout_bytes_ok | done]. Qed.

Section Header.
Context `{NetworkEndianLaws}.
Variables src dst len ck : Z.
Variable rest : list Z.
Abbreviation h := (udp_hdr src dst len ck rest).

Ltac word_get i := intros; unfold udp_hdr; eapply (layout_read_u16 i); (reflexivity || done).
Ltac word_set i := intros; unfold udp_hdr; erewrite (layout_write_u16 i) by (reflexivity || done); reflexivity.

Lemma udp_src_port_ok : in_u16 src -> udp_pkt_src_port h = Ret src.
Proof. unfold udp_pkt_src_port. word_get 0%nat. Qed.
Lemma udp_dst_port_ok : in_u16 dst -> udp_pkt_dst_port h = Ret dst.
Proof. unfold udp_pkt_dst_port. word_get 1%nat. Qed.
Lemma udp_len_ok : in_u16 len -> udp_pkt_len h = Ret len.
Proof. unfold udp_pkt_len. word_get 2%nat. Qed.
Lemma udp_checksum_ok : in_u16 ck -> udp_pkt_checksum h = Ret ck.
Proof. unfold udp_pkt_checksum. word_get 3%nat. Qed.
Lemma udp_set_src_port_ok v : in_u16 v -> udp_set_src_port h v = Ret (udp_hdr v dst len ck rest).
Proof. unfold udp_set_src_port. word_set 0%nat. Qed.
Lemma udp_set_dst_port_ok v : in_u16 v -> udp_set_dst_port h v = Ret (udp_hdr src v len ck rest).
Proof. unfold udp_set_dst_port. word_set 1%nat. Qed.
Lemma udp_set_len_ok v : in_u16 v -> udp_set_len h v = Ret (udp_hdr src dst v ck rest).
Proof. unfold udp_set_len. word_set 2%nat. Qed.
Lemma udp_set_checksum_ok v : in_u16 v -> udp_set_checksum h v = Ret (udp_hdr src dst len v rest).
Proof. unfold udp_set_checksum. word_set 3%nat. Qed.
End Header.

Section Facts.
Context `{NetworkEndianLaws}.

(** What a successful length check says about a packet: its payload, and what follows it. *)
Lemma udp_check_len_ok bs :
  bytes_ok bs ->
  wp (udp_check_len bs) (fun r => match r with
    | Ok _ => exists src dst ck pl tail, bs = udp_hdr src dst (8 + Zlen pl) ck (pl ++ tail) /\
        bytes_ok (pl ++ tail) /\ in_u16 src /\ in_u16 dst /\ in_u16 (8 + Zlen pl) /\ in_u16 ck
    | Err _ => True
    end).
Proof.
  intros Hb. unfold udp_check_len, UDP_HEADER_LEN. destruct (Z.ltb_spec (Zlen bs) 8); [done|].
  destruct (udp_hdr_view bs Hb ltac:(done)) as (src & dst & len & ck & rest & -> & Hr & ? & ? & ? & ?).
  rewrite udp_len_ok, bind_Ret, Zlen_udp_hdr in * by done. destr_if; [done|]. cbn [wp].
  destruct (Zlen_split_at rest (len - 8)) as (pl & tail & -> & Hp); [lia|].
  exists src, dst, ck, pl, tail. replace (8 + Zlen pl) with len by lia. done.
Qed.

Lemma udp_slice src dst ck pl tail :
  slice (udp_hdr src dst (8 + Zlen pl) ck (pl ++ tail)) 0 (8 + Zlen pl) = Ret (udp_hdr src dst (8 + Zlen pl) ck pl).
Proof.
  unfold udp_hdr. rewrite app_assoc. apply (slice_mid [] _ tail); [done|].
  by rewrite Zlen_app, Zlen_layout_bytes.
Qed.

(** The sum over the packet, with [p] the sum of the pseudo header. *)
Lemma udp_sum_ok src dst pl tail sa da :
  bytes_ok (pl ++ tail) -> in_u16 (8 + Zlen pl) ->
  address_version sa = address_version da -> addr_ok sa -> addr_ok da ->
  exists p, in_u16 p /\ forall ck, udp_sum (udp_hdr src dst (8 + Zlen pl) ck (pl ++ tail)) sa da =
    Ret (fold16 (p + word_sum (udp_hdr src dst (8 + Zlen pl) ck pl))).
Proof.
  intros Hb Hl Hv Hs Hd. apply bytes_ok_app in Hb as [Hbp Hbt].
  destruct (pseudo_header_ok sa da PROTOCOL_UDP (8 + Zlen pl) Hv Hs Hd) as (p & Ep & Hp); [vm_compute; split; discriminate|].
  exists p. split; [done|]. intros c. unfold udp_sum. rewrite udp_len_ok by done. ret_step. rewrite Ep. do 2 ret_step.
  rewrite udp_slice. ret_step.
  assert (Hok : bytes_ok (udp_hdr src dst (8 + Zlen pl) c pl)) by (by apply udp_hdr_bytes_ok).
  rewrite checksum_data_ok by (done || rewrite Zlen_udp_hdr; mlia). ret_step.
  rewrite checksum_combine_ok; [|constructor; [done | constructor; [apply fold16_u16 | constructor]] | done].
  cbn [foldr]. rewrite Z.add_0_r, fold16_add; [done | mlia |]. by apply word_sum_bounds.
Qed.

Lemma udp_parse_ok bs sa da caps :
  bytes_ok bs -> address_version sa = address_version da -> addr_ok sa -> addr_ok da ->
  wp (udp_parse bs sa da caps) (fun r => match r with
    | Ok r => in_u16 (udp_src_port r) /\ in_u16 (udp_dst_port r) /\ udp_dst_port r <> 0 /\
        exists src dst ck pl tail, bs = udp_hdr src dst (8 + Zlen pl) ck (pl ++ tail) /\ r = mkUdpRepr src dst /\
          udp_payload bs = Ret pl
    | Err _ => True
    end).
Proof.
  intros Hb Hv Hs Hd. unfold udp_parse, try_bind. wp_bind_with (udp_check_len_ok bs Hb). intros [[]|e]; [|done].
  intros (src & dst & ck & pl & tail & -> & Hr & Hsrc & Hdst & Hlen & Hck).
  rewrite udp_dst_port_ok by done. ret_step. destr_if; [done|].
  destruct (udp_sum_ok src dst pl tail sa da Hr Hlen Hv Hs Hd) as (p & Hp & Hsum).
  eapply (wp_bind_mono _ _ (fun _ => True)).
  { destr_if; [|done]. unfold udp_verify_checksum. rewrite udp_checksum_ok by done. ret_step.
    destr_if; [done|]. by rewrite Hsum. }
  intros valid _. eapply (wp_bind_mono _ _ (fun _ => True)).
  { destr_if; [|done]. destruct sa, da; try done. rewrite udp_checksum_ok by done. ret_step. by destr_if. }
  intros [[]|e] _; [|done]. rewrite udp_src_port_ok by done. do 2 ret_step. cbn [wp udp_src_port udp_dst_port].
  split; [done|]. split; [done|]. split; [lia|]. exists src, dst, ck, pl, tail. split; [done|]. split; [done|].
  unfold udp_payload. rewrite udp_len_ok by done. ret_step.
  unfold udp_hdr. by apply slice_mid; rewrite ?Zlen_layout_bytes.
Qed.

(** *** Emitting *)

Definition udp_emitted (r : UdpRepr) (ck : Z) (data tail : list Z) : list Z :=
  udp_hdr (udp_src_port r) (udp_dst_port r) (8 + Zlen data) ck (data ++ tail).

Definition udp_repr_ok (r : UdpRepr) : Prop := in_u16 (udp_src_port r) /\ in_u16 (udp_dst_port r).

Lemma udp_fill_checksum_ok src dst c pl tail sa da :
  bytes_ok (pl ++ tail) -> in_u16 (8 + Zlen pl) ->
  address_version sa = address_version da -> addr_ok sa -> addr_ok da ->
  let bs ck := udp_hdr src dst (8 + Zlen pl) ck (pl ++ tail) in
  exists ck, in_u16 ck /\ ck <> 0 /\ udp_fill_checksum (bs c) sa da = Ret (bs ck) /\
    udp_verify_checksum (bs ck) sa da = Ret true.
Proof.
  intros Hb Hl Hv Hs Hd bs. destruct (udp_sum_ok src dst pl tail sa da Hb Hl Hv Hs Hd) as (p & Hp & Hsum).
  set (s := p + word_sum (udp_hdr src dst (8 + Zlen pl) 0 pl)).
  assert (Hs0 : 0 <= s).
  { apply bytes_ok_app in Hb as [Hbp _].
    pose proof (word_sum_bounds (udp_hdr src dst (8 + Zlen pl) 0 pl) (udp_hdr_bytes_ok _ _ _ _ _ Hbp)). unfold s. mlia. }
  pose proof (fold16_range s) as Hr. set (ck := if 65535 - fold16 s =? 0 then 65535 else 65535 - fold16 s).
  assert (Hck : in_u16 ck /\ ck <> 0) by (unfold ck; destr_if; mlia). destruct Hck as [Hck Hne].
  exists ck. split; [done|]. split; [done|]. unfold udp_fill_checksum, bs. rewrite udp_set_checksum_ok by mlia. ret_step.
  rewrite Hsum. fold s. ret_step. rewrite u16_not by mlia. fold ck. rewrite udp_set_checksum_ok by done. split; [done|].
  unfold udp_verify_checksum. rewrite udp_checksum_ok by done. ret_step. replace (ck =? 0) with false by lia.
  rewrite Hsum. ret_step.
  assert (Ew : word_sum (udp_hdr src dst (8 + Zlen pl) ck pl) = ck + word_sum (udp_hdr src dst (8 + Zlen pl) 0 pl)).
  { unfold udp_hdr.
    assert (E : forall c', layout_bytes [(2%nat, src); (2%nat, dst); (2%nat, 8 + Zlen pl); (2%nat, c')] ++ pl =
      layout_bytes [(2%nat, src); (2%nat, dst); (2%nat, 8 + Zlen pl)] ++ be_bytes 2 c' ++ layout_bytes [] ++ pl).
    { intros c'. apply (layout_split [(2%nat, src); (2%nat, dst); (2%nat, 8 + Zlen pl)]). }
    rewrite !E. apply word_sum_field; [by exists 3%nat | done]. }
  rewrite Ew. replace (p + (ck + word_sum (udp_hdr src dst (8 + Zlen pl) 0 pl))) with (s + ck) by (unfold s; lia).
  assert (Ef : fold16 (s + ck) = 65535).
  { unfold ck. destr_if; [|by apply fold16_complement]. destruct (fold16_spec s Hs0) as (k & Hk & E).
    symmetry. apply (fold16_unique _ _ (k + 1)); lia. }
  by rewrite Ef.
Qed.

Lemma udp_emit_ok r bs sa da data emit_payload caps :
  bytes_ok bs -> udp_repr_ok r -> bytes_ok data -> 8 + Zlen data <= Zlen bs -> 8 + Zlen data <= u16_max ->
  (forall d, bytes_ok d -> Zlen d = Zlen data -> emit_payload d = Ret data) ->
  address_version sa = address_version da -> addr_ok sa -> addr_ok da ->
  exists ck tail, udp_emit r bs sa da (Zlen data) emit_payload caps = Ret (udp_emitted r ck data tail) /\
    in_u16 ck /\ bytes_ok (data ++ tail) /\ Zlen (data ++ tail) = Zlen bs - 8 /\
    (checksum_tx (caps_udp caps) = true -> ck <> 0 /\ udp_verify_checksum (udp_emitted r ck data tail) sa da = Ret true).
Proof.
  intros Hb [Hrs Hrd] Hdata Hl Hmax Hemit Hv Hs Hd. pose proof (Zlen_nonneg data).
  destruct (udp_hdr_view bs Hb ltac:(lia)) as (src & dst & len & c & rest & -> & Hr & _). rewrite Zlen_udp_hdr in *.
  destruct (Zlen_split_at rest (Zlen data)) as (old & tail & -> & Hold); [lia|].
  apply bytes_ok_app in Hr as [Hob Htail].
  assert (Hdt : bytes_ok (data ++ tail)) by (by apply bytes_ok_app).
  assert (Hlen : Zlen (data ++ tail) = 8 + Zlen (old ++ tail) - 8) by (rewrite !Zlen_app; lia).
  assert (Ep : slice_mut (udp_hdr (udp_src_port r) (udp_dst_port r) (8 + Zlen data) c (old ++ tail)) 8 (8 + Zlen data) emit_payload =
    Ret (udp_hdr (udp_src_port r) (udp_dst_port r) (8 + Zlen data) c (data ++ tail))).
  { unfold udp_hdr. apply slice_mut_mid; [by rewrite Zlen_layout_bytes | lia | by apply Hemit | unfold Zlen in *; lia]. }
  set (B := udp_hdr (udp_src_port r) (udp_dst_port r) (8 + Zlen data) c (data ++ tail)) in *.
  assert (Eem : udp_emit r (udp_hdr src dst len c (old ++ tail)) sa da (Zlen data) emit_payload caps =
    if checksum_tx (caps_udp caps) then udp_fill_checksum B sa da else udp_set_checksum B 0).
  { unfold udp_emit, UDP_HEADER_LEN. rewrite udp_set_src_port_ok by done. ret_step.
    rewrite udp_set_dst_port_ok by done. ret_step. rewrite usize_add_ok by mlia. ret_step.
    rewrite wrap_u_id by mlia. rewrite udp_set_len_ok by mlia. ret_step.
    unfold udp_payload_mut, UDP_HEADER_LEN. rewrite udp_len_ok by mlia. ret_step. rewrite Ep. by ret_step. }
  rewrite Eem. unfold B, udp_emitted. clear Eem Ep B.
  destruct (checksum_tx (caps_udp caps)).
  - destruct (udp_fill_checksum_ok (udp_src_port r) (udp_dst_port r) c data tail sa da Hdt ltac:(mlia) Hv Hs Hd)
      as (ck & Hck & Hne & -> & Hver). by exists ck, tail.
  - exists 0, tail. rewrite udp_set_checksum_ok by mlia. split; [done|]. split; [mlia|]. done.
Qed.

Lemma udp_parse_emitted r ck data tail sa da caps :
  udp_repr_ok r -> udp_dst_port r <> 0 -> in_u16 ck -> 8 + Zlen data <= u16_max ->
  (checksum_rx (caps_udp caps) = true -> udp_verify_checksum (udp_emitted r ck data tail) sa da = Ret true) ->
  udp_parse (udp_emitted r ck data tail) sa da caps = Ret (Ok r) /\ udp_payload (udp_emitted r ck data tail) = Ret data.
Proof.
  intros [Hrs Hrd] Hne Hck Hmax Hver. pose proof (Zlen_nonneg data). pose proof (Zlen_nonneg tail).
  set (bs := udp_emitted r ck data tail) in *.
  assert (El : udp_pkt_len bs = Ret (8 + Zlen data)) by (apply udp_len_ok; mlia).
  assert (Elen : udp_check_len bs = Ret (Ok tt)).
  { unfold udp_check_len, UDP_HEADER_LEN. rewrite El. unfold bs, udp_emitted. rewrite Zlen_udp_hdr, Zlen_app.
    replace (8 + (Zlen data + Zlen tail) <? 8) with false by lia. ret_step.
    by replace ((8 + (Zlen data + Zlen tail) <? 8 + Zlen data) || (8 + Zlen data <? 8)) with false by lia. }
  assert (Ed : udp_pkt_dst_port bs = Ret (udp_dst_port r)) by (by apply udp_dst_port_ok).
  assert (Es : udp_pkt_src_port bs = Ret (udp_src_port r)) by (by apply udp_src_port_ok). split.
  - unfold udp_parse, try_bind. rewrite Elen. ret_step. rewrite Ed. ret_step. replace (udp_dst_port r =? 0) with false by lia.
    assert (Ev : (if checksum_rx (caps_udp caps) then udp_verify_checksum bs sa da else Ret true) = Ret true)
      by (destr_if; auto).
    rewrite Ev. ret_step. cbn [negb]. ret_step. rewrite Es. do 2 ret_step. by destruct r.
  - unfold udp_payload, UDP_HEADER_LEN. rewrite El. ret_step. unfold bs, udp_emitted, udp_hdr.
    by apply slice_mid; rewrite ?Zlen_layout_bytes.
Qed.
End Facts.

(** ** Properties *)

(** Parsing a UDP packet never panics, whatever its bytes; on success the ports are those
    of the packet, the destination port is not zero, and the payload has the length that the
    header says. *)
Theorem udp_parse_safe `{NetworkEndianLaws} bs sa da caps :
  bytes_ok bs -> address_version sa = address_version da -> addr_ok sa -> addr_ok da ->
  wp (udp_parse bs sa da caps) (fun r => match r with
    | Ok r => in_u16 (udp_src_port r) /\ in_u16 (udp_dst_port r) /\ udp_dst_port r <> 0 /\
        exists src dst ck pl tail, bs = udp_hdr src dst (8 + Zlen pl) ck (pl ++ tail) /\ r = mkUdpRepr src dst /\
          udp_payload bs = Ret pl
    | Err _ => True
    end).
Proof. apply udp_parse_ok. Qed.

(** A UDP packet that is emitted is parsed back, ports and payload, with a checksum that is
    valid (and not the zero that means no checksum) unless the device computes it; octets of
    the buffer behind the packet do not matter. *)
Theorem udp_emit_parse `{NetworkEndianLaws} r bs sa da data emit_payload caps :
  bytes_ok bs -> udp_repr_ok r -> udp_dst_port r <> 0 -> bytes_ok data ->
  8 + Zlen data <= Zlen bs -> 8 + Zlen data <= u16_max ->
  (forall d, Zlen d = Zlen data -> emit_payload d = Ret data) ->
  address_version sa = address_version da -> addr_ok sa -> addr_ok da ->
  (checksum_rx (caps_udp caps) = true -> checksum_tx (caps_udp caps) = true) ->
  wp (udp_emit r bs sa da (Zlen data) emit_payload caps) (fun bs' =>
    udp_parse bs' sa da caps = Ret (Ok r) /\ udp_payload bs' = Ret data /\
    (checksum_tx (caps_udp caps) = true -> exists ck, udp_pkt_checksum bs' = Ret ck /\ ck <> 0)).
Proof.
  intros Hb Hr Hne Hdata Hl Hmax Hemit Hv Hs Hd Hc.
  destruct (udp_emit_ok r bs sa da data emit_payload caps) as (ck & tail & -> & Hck & Hdt & Hlen & Hver); [auto..|].
  cbn [wp]. destruct (udp_parse_emitted r ck data tail sa da caps Hr Hne Hck Hmax) as [Hp Hpay].
  { intros Hrx. by apply Hver, Hc. }
  split; [done|]. split; [done|]. intros Htx. exists ck. split; [by apply udp_checksum_ok | by apply Hver].
Qed.

(** The branch that accepts a missing checksum only over IPv4 is never reached, because
    [verify_checksum] already calls a zero checksum valid: with receive checksums enabled a
    packet without a checksum is accepted over IPv6 as well. *)
Theorem udp_zero_checksum_accepted `{NetworkEndianLaws} src dst pl tail sa da caps :
  in_u16 src -> in_u16 dst -> dst <> 0 -> in_u16 (8 + Zlen pl) ->
  udp_parse (udp_hdr src dst (8 + Zlen pl) 0 (pl ++ tail)) sa da caps = Ret (Ok (mkUdpRepr src dst)).
Proof.
  intros Hs Hd Hne Hl. apply (udp_parse_emitted (mkUdpRepr src dst) 0 pl tail); [done | done | mlia | mlia |].
  intros _. unfold udp_verify_checksum, udp_emitted. rewrite udp_checksum_ok by mlia. by ret_step.
Qed.

(** *** Concrete instances *)

Definition ex_udp_caps : ChecksumCapabilities := mkChecksumCapabilities CkBoth CkBoth CkBoth CkBoth CkBoth.
Definition ex_v6_a : Address := Ipv6 ([0xfe; 0x80] ++ replicate 13 0 ++ [1]).
Definition ex_v6_b : Address := Ipv6 ([0xfe; 0x80] ++ replicate 13 0 ++ [2]).

Lemma ex_v6_ok : addr_ok ex_v6_a /\ addr_ok ex_v6_b.
Proof.
  unfold addr_ok, ex_v6_a, ex_v6_b. cbn [address_octets replicate app].
  split; (split; [byte_list | by vm_compute]).
Qed.

Definition ex_udp_bytes : list Z := [0xbf; 0x00; 0x00; 0x35; 0x00; 0x0c; 0x00; 0x00; 0xaa; 0x00; 0x00; 0xff; 0x11].

Lemma udp_parse_safe_witness :
  wp (@udp_parse network_endian ex_udp_bytes ex_v6_a ex_v6_b ex_udp_caps) (fun r => match r with
    | Ok r => in_u16 (udp_src_port r) /\ in_u16 (udp_dst_port r) /\ udp_dst_port r <> 0 /\
        exists src dst ck pl tail, ex_udp_bytes = udp_hdr src dst (8 + Zlen pl) ck (pl ++ tail) /\ r = mkUdpRepr src dst /\
          @udp_payload network_endian ex_udp_bytes = Ret pl
    | Err _ => True
    end).
Proof.
  apply (@udp_parse_safe network_endian network_endian_laws); try apply ex_v6_ok; try reflexivity.
  unfold ex_udp_bytes. byte_list.
Defined.

Lemma udp_emit_parse_witness :
  wp (@udp_emit network_endian (mkUdpRepr 48896 53) (replicate 13 0xa5) ex_v6_a ex_v6_b 4
        (fun d => copy_from_slice d [0xaa; 0; 0; 0xff]) ex_udp_caps) (fun bs' =>
    @udp_parse network_endian bs' ex_v6_a ex_v6_b ex_udp_caps = Ret (Ok (mkUdpRepr 48896 53)) /\
    @udp_payload network_endian bs' = Ret [0xaa; 0; 0; 0xff] /\
    (checksum_tx (caps_udp ex_udp_caps) = true -> exists ck, @udp_pkt_checksum network_endian bs' = Ret ck /\ ck <> 0)).
Proof.
  apply (@udp_emit_parse network_endian network_endian_laws (mkUdpRepr 48896 53) (replicate 13 0xa5) ex_v6_a ex_v6_b
    [0xaa; 0; 0; 0xff]); try apply ex_v6_ok; try done.
  - apply Forall_replicate. mlia.
  - byte_list.
  - intros d Hd. by apply copy_from_slice_ok.
Defined.

Lemma udp_zero_checksum_accepted_witness :
  @udp_parse network_endian ex_udp_bytes ex_v6_a ex_v6_b ex_udp_caps = Ret (Ok (mkUdpRepr 48896 53)).
Proof.
  apply (@udp_zero_checksum_accepted network_endian network_endian_laws 48896 53 [0xaa; 0; 0; 0xff] [0x11]); done.
Defined.
