(* ===== verification/Fragmentation.v ===== *)
(** * Reassembly of fragmented packets (iface/fragmentation.rs)

    A [PacketAssembler] collects the fragments of one packet: a growing buffer, an
    [Assembler] that says which of its octets have arrived, and the size of the packet once
    the last fragment is known.  A [PacketAssemblerSet] holds one for each packet that is
    being received.  The invariant [pa_wf] relates an assembler to the packet [k] whose
    fragments it receives: the octets that have arrived are those of the packet. *)

From S2P Require Import Prelude TimeModel Assembler.

Inductive AssemblerError : Set := MkAssemblerError.
Inductive AssemblerFullError : Set := MkAssemblerFullError.

(** [Vec::resize] with zero: an allocation has at most [isize::MAX] octets. *)
Definition vec_resize (v : list Z) (new_len : Z) : res (list Z) :=
  if new_len <=? isize_max then Ret (take (Z.to_nat new_len) v ++ replicate (Z.to_nat (new_len - Zlen v)) 0) else Panic.

Section Fragmentation.
Context {K : Type} `{EqDecision K}.

Record PacketAssembler : Type := mkPacketAssembler {
  pa_key : option K;
  pa_buffer : list Z;
  pa_assembler : Assembler;
  pa_total_size : option Z;
  pa_expires_at : Instant;
}.

(** [segments] is [ASSEMBLER_MAX_SEGMENT_COUNT]; the feature [alloc] is on, so that the
    buffer is a [Vec]. *)
Definition pa_new (segments : nat) : PacketAssembler := mkPacketAssembler None [] (asm_new segments) None 0.

Definition pa_reset (p : PacketAssembler) : PacketAssembler :=
  mkPacketAssembler None (pa_buffer p) (asm_clear (pa_assembler p)) None 0.

Definition pa_set_total_size (p : PacketAssembler) (size : Z) : res (PacketAssembler * result unit AssemblerError) :=
  if (if pa_total_size p is Some old_size then negb (old_size =? size) else false)
  then Ret (p, Err MkAssemblerError)
  else
    buffer ← (if Zlen (pa_buffer p) <? size then vec_resize (pa_buffer p) size else Ret (pa_buffer p));
    Ret (mkPacketAssembler (pa_key p) buffer (pa_assembler p) (Some size) (pa_expires_at p), Ok tt).

(** [f] receives the buffer from [offset] on and returns what it has become with the number
    of octets it wrote. *)
Definition pa_add_with (p : PacketAssembler) (offset : Z)
    (f : list Z -> res (list Z * result Z AssemblerError)) : res (PacketAssembler * result unit AssemblerError) :=
  if Zlen (pa_buffer p) <? offset then Ret (p, Err MkAssemblerError)
  else
    d ← slice (pa_buffer p) offset (Zlen (pa_buffer p));
    '(d, r) ← f d;
    let buffer := splice (pa_buffer p) offset d in
    match r with
    | Err e => Ret (mkPacketAssembler (pa_key p) buffer (pa_assembler p) (pa_total_size p) (pa_expires_at p), Err e)
    | Ok len =>
        e ← usize_add offset len;
        _ ← passert (e <=? Zlen buffer);
        '(a, _) ← asm_add (pa_assembler p) offset len;
        Ret (mkPacketAssembler (pa_key p) buffer a (pa_total_size p) (pa_expires_at p), Ok tt)
    end.

(** The result of [Assembler::add] is dropped, as in the source. *)
Definition pa_add (p : PacketAssembler) (data : list Z) (offset : Z) : res (PacketAssembler * result unit AssemblerError) :=
  e ← usize_add offset (Zlen data);
  buffer ← (if Zlen (pa_buffer p) <? e then vec_resize (pa_buffer p) e else Ret (pa_buffer p));
  buffer ← copy_into buffer offset data;
  '(a, _) ← asm_add (pa_assembler p) offset (Zlen data);
  Ret (mkPacketAssembler (pa_key p) buffer a (pa_total_size p) (pa_expires_at p), Ok tt).

Definition pa_is_complete (p : PacketAssembler) : res bool :=
  n ← asm_peek_front (pa_assembler p);
  Ret (bool_decide (pa_total_size p = Some n)).

Definition pa_assemble (p : PacketAssembler) : res (PacketAssembler * option (list Z)) :=
  complete ← pa_is_complete p;
  if negb complete then Ret (p, None)
  else
    match pa_total_size p with
    | None => Panic
    | Some total_size => d ← slice (pa_buffer p) 0 total_size; Ret (pa_reset p, Some d)
    end.

Definition pa_is_free (p : PacketAssembler) : bool := if pa_key p is Some _ then false else true.

(** ** The set *)

Abbreviation PacketAssemblerSet := (list PacketAssembler).

Definition pas_new (count segments : nat) : PacketAssemblerSet := replicate count (pa_new segments).

(** The loop of [get]: the slot with the key, or else the last free slot seen. *)
Fixpoint pas_find (slots : PacketAssemblerSet) (key : K) (i : nat) (empty_slot : option nat) : option nat * bool :=
  match slots with
  | [] => (empty_slot, false)
  | slot :: slots =>
      if bool_decide (pa_key slot = Some key) then (Some i, true)
      else pas_find slots key (S i) (if pa_is_free slot then Some i else empty_slot)
  end.

(** The slot is returned as its position. *)
Definition pas_get (s : PacketAssemblerSet) (key : K) (expires_at : Instant)
  : PacketAssemblerSet * result nat AssemblerFullError :=
  match pas_find s key 0 None with
  | (Some i, true) => (s, Ok i)
  | (Some i, false) =>
      (alter (fun slot => mkPacketAssembler (Some key) (pa_buffer slot) (pa_assembler slot) (pa_total_size slot) expires_at) i s,
       Ok i)
  | (None, _) => (s, Err MkAssemblerFullError)
  end.

Definition pas_remove_expired (s : PacketAssemblerSet) (timestamp : Instant) : PacketAssemblerSet :=
  map (fun frag => if negb (pa_is_free frag) && (pa_expires_at frag <? timestamp) then pa_reset frag else frag) s.

(** ** Receiving a fragment (iface/interface/ipv4.rs, process_ipv4) *)

(** The fields of a fragment that reassembly reads. *)
Record Fragment : Type := mkFragment {
  fr_key : K;
  fr_more_frags : bool;
  fr_frag_offset : Z;
  fr_total_len : Z;
  fr_header_len : Z;
  fr_payload : list Z;
}.

(** The packet is returned when the fragment completes it. *)
Definition pa_receive (f : PacketAssembler) (r : Fragment) : res (PacketAssembler * option (list Z)) :=
  '(f, c) ← (if negb (fr_more_frags r) then
               size ← usize_sub (fr_total_len r) (fr_header_len r);
               size ← usize_add size (fr_frag_offset r);
               pa_set_total_size f size
             else Ret (f, Ok tt));
  match c with
  | Err _ => Ret (f, None)
  | Ok _ =>
      '(f, c) ← pa_add f (fr_payload r) (fr_frag_offset r);
      match c with
      | Err _ => Ret (f, None)
      | Ok _ => pa_assemble f
      end
  end.

(** [now] is [self.now], [timeout] is [frag.reassembly_timeout]. *)
Definition pas_receive (s : PacketAssemblerSet) (now : Instant) (timeout : Duration) (r : Fragment)
  : res (PacketAssemblerSet * option (list Z)) :=
  expires_at ← instant_add now timeout;
  match pas_get s (fr_key r) expires_at with
  | (s, Err _) => Ret (s, None)
  | (s, Ok i) =>
      f ← index s (Z.of_nat i);
      '(f, packet) ← pa_receive f r;
      Ret (<[i := f]> s, packet)
  end.

(** A run of the interface's reassembly buffers: fragments arrive and old packets expire. *)
Inductive frag_event : Type :=
| FragmentArrives (now : Instant) (r : Fragment)
| PacketsExpire (now : Instant).

Definition frag_step (timeout : Duration) (s : PacketAssemblerSet) (e : frag_event) : res (list PacketAssembler * option (K * list Z)) :=
  match e with
  | FragmentArrives now r =>
      '(s, o) ← pas_receive s now timeout r; Ret (s, option_map (pair (fr_key r)) o)
  | PacketsExpire now => Ret (pas_remove_expired s now, None)
  end.

(** The packets that a run delivers, with their keys. *)
Fixpoint frag_run (timeout : Duration) (s : PacketAssemblerSet) (es : list frag_event) : res (list (K * list Z)) :=
  match es with
  | [] => Ret []
  | e :: es =>
      '(s, o) ← frag_step timeout s e;
      ds ← frag_run timeout s es;
      Ret (option_list o ++ ds)
  end.
End Fragmentation.
Arguments PacketAssembler K : clear implicits.
Arguments Fragment K : clear implicits.

(** ** Invariant *)

(** [data] are the octets of the packet from [offset] on. *)
Definition fragment_of (packet : list Z) (offset : Z) (data : list Z) : Prop :=
  0 <= offset /\ offset + Zlen data <= Zlen packet /\ sub packet offset (Zlen data) = data.

Section Facts.
Context {K : Type} `{EqDecision K}.
Implicit Types (p : PacketAssembler K) (s : list (PacketAssembler K)).

(** The packets that the senders fragmented, by their keys. *)
Variable packet : K -> list Z.

(** The octets of [packet] that are marked as received are in the buffer. *)
Definition holds (buffer : list Z) (a : Assembler) (pkt : list Z) : Prop :=
  forall x, covered a x = true -> exists b, pkt !! Z.to_nat x = Some b /\ buffer !! Z.to_nat x = Some b.

Definition pa_wf p : Prop :=
  asm_wf (pa_assembler p) /\ Zlen (pa_buffer p) <= isize_max /\
  match pa_key p with
  | None => pa_total_size p = None /\ forall x, covered (pa_assembler p) x = false
  | Some k =>
      holds (pa_buffer p) (pa_assembler p) (packet k) /\
      forall n, pa_total_size p = Some n -> n = Zlen (packet k) /\ n <= Zlen (pa_buffer p)
  end.

Lemma vec_resize_ok v n :
  Zlen v <= n -> n <= isize_max -> vec_resize v n = Ret (v ++ replicate (Z.to_nat (n - Zlen v)) 0).
Proof.
  intros Hv Hn. unfold vec_resize. replace (n <=? isize_max) with true by lia.
  rewrite take_ge by mlia. done.
Qed.

(** The buffer after it was made long enough. *)
Definition grown (buffer buffer' : list Z) (n : Z) : Prop :=
  Zlen buffer' = Z.max (Zlen buffer) n /\ forall i b, buffer !! i = Some b -> buffer' !! i = Some b.

Lemma grow_ok buffer n :
  0 <= n <= isize_max ->
  wp (if Zlen buffer <? n then vec_resize buffer n else Ret buffer) (fun buffer' => grown buffer buffer' n).
Proof.
  intros Hn. destr_if.
  - rewrite vec_resize_ok by lia. split.
    + rewrite Zlen_app. unfold Zlen at 2. rewrite length_replicate. lia.
    + intros i b Hi. by rewrite lookup_app_l by (by eapply lookup_lt_Some).
  - split; [lia | done].
Qed.

Lemma asm_wf_covered_nonneg a x : asm_wf a -> covered a x = true -> 0 <= x.
Proof.
  intros (cs & k & -> & Hok & _) Hc. rewrite covered_pad in Hc.
  destruct (decide (x < 0)); [|lia]. by rewrite (covered_neg true) in Hc.
Qed.

Lemma asm_clear_wf a : asm_wf a -> asm_wf (asm_clear a) /\ forall x, covered (asm_clear a) x = false.
Proof.
  intros (cs & k & -> & Hok & Hs & Hne & Hl). split.
  - apply asm_new_wf; [|done]. destruct (pad k cs); [done | cbn; lia].
  - intros x. apply covered_replicate.
Qed.

(** The front of an assembler is its longest run of received octets from 0. *)
Lemma asm_peek_front_ok a :
  asm_wf a ->
  wp (asm_peek_front a) (fun n => 0 <= n <= isize_max /\ (forall x, 0 <= x < n -> covered a x = true) /\ covered a n = false).
Proof.
  intros (cs & k & -> & Hok & Hs & Hne & Hl). unfold asm_peek_front, asm_front.
  destruct cs as [|c cs].
  - destruct k as [|k]; [done|].
    split; [unfold_max; cbn; lia|]. split; [cbn; lia|]. apply (covered_replicate (S k)).
  - cbn [wp]. destruct (ctotal_range true c cs) as (? & ? & ? & ? & ?); [done..|].
    pose proof Hok as (_ & Hd & Hok'). change (pad k (c :: cs)) with (c :: pad k cs).
    change (index (c :: pad k cs) 0) with (Ret c). rewrite bind_Ret. cbn [wp covered].
    unfold has_hole, ctotal in *. destruct (hole_size c =? 0) eqn:Eh; cbn [negb].
    + split; [lia|]. split; [intros; lia|].
      replace (data_size c - (hole_size c + data_size c)) with 0 by lia.
      rewrite covered_pad, covered_0_false by done. lia.
    + split; [mlia|]. split; [lia|].
      rewrite covered_pad, (covered_neg false) by (done || lia). lia.
Qed.

Lemma pa_new_wf segments : (0 < segments)%nat -> Z.of_nat segments <= isize_max -> pa_wf (pa_new segments).
Proof.
  intros. split; [by apply asm_new_wf|]. split; [done|]. split; [done|]. intros x. apply covered_asm_new.
Qed.

Lemma pa_reset_wf p : pa_wf p -> pa_wf (pa_reset p).
Proof.
  intros (Ha & Hb & _). destruct (asm_clear_wf _ Ha). by repeat split.
Qed.

Lemma holds_grown buffer buffer' a pkt n : grown buffer buffer' n -> holds buffer a pkt -> holds buffer' a pkt.
Proof. intros [_ Hg] Hh x Hx. destruct (Hh x Hx) as (b & ? & ?). eauto. Qed.

(** Writing octets of the packet keeps those that were there. *)
Lemma holds_splice buffer a a' pkt offset data :
  asm_wf a -> asm_wf a' -> fragment_of pkt offset data -> offset + Zlen data <= Zlen buffer ->
  (forall x, covered a' x = true -> covered a x = true \/ offset <= x < offset + Zlen data) ->
  holds buffer a pkt -> holds (splice buffer offset data) a' pkt.
Proof.
  intros Ha Ha' (Ho & Hl & Hd) Hb Hc Hh x Hx.
  pose proof (asm_wf_covered_nonneg _ _ Ha' Hx) as Hx0.
  destruct (decide (offset <= x < offset + Zlen data)) as [Hin|Hout].
  - rewrite splice_lookup_in by (pose proof (Zlen_nonneg data); lia).
    assert (E : data !! Z.to_nat (x - offset) = pkt !! Z.to_nat x).
    { rewrite <- Hd, sub_lookup by lia. do 2 f_equal. lia. }
    rewrite E. destruct (pkt !! Z.to_nat x) as [b|] eqn:Ep; [eauto|]. apply lookup_ge_None in Ep. mlia.
  - destruct (Hc x Hx) as [Hx'|]; [|done]. rewrite splice_lookup_out by lia. by apply Hh.
Qed.

Lemma pa_add_ok p k data offset :
  pa_wf p -> pa_key p = Some k -> fragment_of (packet k) offset data -> Zlen (packet k) <= isize_max ->
  wp (pa_add p data offset) (fun '(p', r) =>
    pa_wf p' /\ r = Ok tt /\ pa_key p' = Some k /\ pa_total_size p' = pa_total_size p /\
    exists a r, asm_add (pa_assembler p) offset (Zlen data) = Ret (a, r) /\ pa_assembler p' = a).
Proof.
  intros (Ha & Hb & Hk) Ek Hf Hmax. rewrite Ek in Hk. destruct Hk as [Hh Ht].
  pose proof Hf as (Ho & Hl & Hd). pose proof (Zlen_nonneg data). unfold pa_add. arith_step.
  wp_bind_with (grow_ok (pa_buffer p) (offset + Zlen data)); [lia|]. intros buffer Hg.
  pose proof Hg as [Hgl _]. rewrite copy_into_ok, bind_Ret by lia.
  destruct (wp_Ret_inv _ _ (asm_add_ok (pa_assembler p) offset (Zlen data) Ha Ho ltac:(lia) ltac:(lia)))
    as ([a r] & E & Ha' & Hlen & Hr).
  rewrite E, bind_Ret. cbn [wp pa_key pa_total_size pa_assembler]. unfold pa_wf.
  cbn [pa_key pa_total_size pa_assembler pa_buffer]. rewrite Ek, Zlen_splice by lia.
  split; [|by eauto 10]. split; [done|]. split; [lia|]. split.
  - apply (holds_splice _ (pa_assembler p)); [done | done | done | lia | | exact (holds_grown _ _ _ _ _ Hg Hh)].
    intros x Hx. destruct r as [[]|].
    + rewrite Hr in Hx. destruct (covered (pa_assembler p) x); [by left | right; lia].
    + destruct Hr as [-> _]. by left.
  - intros n Hn. destruct (Ht n Hn). lia.
Qed.

Lemma pa_set_total_size_ok p k :
  pa_wf p -> pa_key p = Some k -> Zlen (packet k) <= isize_max ->
  wp (pa_set_total_size p (Zlen (packet k))) (fun '(p', r) =>
    pa_wf p' /\ r = Ok tt /\ pa_key p' = Some k /\ pa_total_size p' = Some (Zlen (packet k)) /\
    pa_assembler p' = pa_assembler p).
Proof.
  intros (Ha & Hb & Hk) Ek Hmax. rewrite Ek in Hk. destruct Hk as [Hh Ht]. unfold pa_set_total_size.
  assert (Hold : (if pa_total_size p is Some old_size then negb (old_size =? Zlen (packet k)) else false) = false).
  { destruct (pa_total_size p) as [n|]; [|done]. destruct (Ht n eq_refl) as [-> _]. lia. }
  rewrite Hold. wp_bind_with (grow_ok (pa_buffer p) (Zlen (packet k))); [pose proof (Zlen_nonneg (packet k)); lia|].
  intros buffer Hg. pose proof Hg as [Hgl _]. cbn [wp pa_key pa_total_size pa_assembler]. unfold pa_wf.
  cbn [pa_key pa_total_size pa_assembler pa_buffer]. rewrite Ek.
  split; [|done]. split; [done|]. split; [lia|]. split; [exact (holds_grown _ _ _ _ _ Hg Hh)|].
  intros n [= <-]. lia.
Qed.

(** The octets of a packet that are all received are the packet. *)
Lemma holds_all buffer a pkt :
  Zlen pkt <= Zlen buffer -> (forall x, 0 <= x < Zlen pkt -> covered a x = true) -> holds buffer a pkt ->
  sub buffer 0 (Zlen pkt) = pkt.
Proof.
  intros Hl Hc Hh. apply list_eq_Z; [rewrite Zlen_sub; pose proof (Zlen_nonneg pkt); lia|].
  rewrite Zlen_sub by (pose proof (Zlen_nonneg pkt); lia). intros x Hx. rewrite sub_lookup, Z.add_0_l by lia.
  by destruct (Hh x (Hc x Hx)) as (b & -> & ->).
Qed.

Lemma pa_assemble_ok p k :
  pa_wf p -> pa_key p = Some k ->
  wp (pa_assemble p) (fun '(p', o) => pa_wf p' /\
    match o with
    | Some d => d = packet k /\ pa_key p' = None
    | None => p' = p
    end).
Proof.
  intros Hwf Ek. pose proof Hwf as (Ha & Hb & Hk). rewrite Ek in Hk. destruct Hk as [Hh Ht].
  unfold pa_assemble, pa_is_complete. rewrite bind_assoc.
  wp_bind_with (asm_peek_front_ok (pa_assembler p)); [done|]. intros n (Hn & Hc & _).
  rewrite bind_Ret. destruct (bool_decide _) eqn:E; cbn [negb]; [|done].
  apply bool_decide_eq_true in E. rewrite E. destruct (Ht n E) as [-> Hl].
  rewrite slice_ok, bind_Ret by lia. cbn [wp]. split; [by apply pa_reset_wf|]. split; [|done].
  rewrite Z.sub_0_r. by apply (holds_all _ (pa_assembler p)).
Qed.

(** *** The set *)

Lemma alter_insert {A} (l : list A) i x (f : A -> A) : l !! i = Some x -> alter f i l = <[i := f x]> l.
Proof.
  intros Hx. apply list_eq. intros j. destruct (decide (i = j)) as [->|Hne].
  - pose proof (lookup_lt_Some _ _ _ Hx). by rewrite list_lookup_alter_eq, list_lookup_insert_eq, Hx by done.
  - by rewrite list_lookup_alter_ne, list_lookup_insert_ne.
Qed.

(** Some slot of [s] from position [i] on has the key, or is free. *)
Lemma pas_find_ok s k i e :
  match pas_find s k i e with
  | (Some j, true) => exists p, s !! (j - i)%nat = Some p /\ (i <= j)%nat /\ pa_key p = Some k
  | (Some j, false) =>
      Forall (fun p => pa_key p <> Some k) s /\
      (e = Some j /\ Forall (fun p => pa_is_free p = false) s \/
       exists p, s !! (j - i)%nat = Some p /\ (i <= j)%nat /\ pa_key p = None)
  | (None, b) => b = false /\ e = None /\ Forall (fun p => pa_key p <> Some k /\ pa_is_free p = false) s
  end.
Proof.
  revert i e. induction s as [|p s IH]; intros i e; cbn [pas_find].
  { destruct e as [j|]; [|by repeat constructor]. split; [constructor|]. left. by split; [|constructor]. }
  case_bool_decide as Hk.
  { exists p. rewrite Nat.sub_diag. by split. }
  specialize (IH (S i) (if pa_is_free p then Some i else e)).
  assert (Hsh : forall j, (S i <= j)%nat -> (p :: s) !! (j - i)%nat = s !! (j - S i)%nat).
  { intros j Hj. by replace (j - i)%nat with (S (j - S i)) by lia. }
  destruct (pas_find s k (S i) _) as [[j|] []].
  - destruct IH as (q & Hq & Hj & Hqk). exists q. rewrite Hsh by lia. by split; [|split; [lia|]].
  - destruct IH as [Hn Ho]. split; [by constructor|]. destruct Ho as [[He Hf]|(q & Hq & Hj & Hqk)].
    + destruct (pa_is_free p) eqn:Ef.
      * injection He as <-. right. exists p. rewrite Nat.sub_diag. unfold pa_is_free in Ef.
        destruct (pa_key p) eqn:Ep; [done|]. by split.
      * left. split; [done|]. by constructor.
    + right. exists q. rewrite Hsh by lia. by split; [|split; [lia|]].
  - by destruct IH.
  - destruct IH as (_ & He & Hf). destruct (pa_is_free p) eqn:Ef; [done|]. by repeat constructor.
Qed.

Definition pas_wf s : Prop := Forall pa_wf s.

(** [get] returns a slot with the key; only this slot changes, and only if it was free. *)
Lemma pas_get_ok s k e :
  pas_wf s ->
  match pas_get s k e with
  | (s', Ok i) => pas_wf s' /\ exists p, s' = <[i := p]> s /\ (i < length s)%nat /\ pa_key p = Some k
  | (s', Err _) => s' = s /\ Forall (fun p => pa_key p <> Some k /\ pa_is_free p = false) s
  end.
Proof.
  intros Hs. unfold pas_get. pose proof (pas_find_ok s k 0 None) as Hf.
  destruct (pas_find s k 0 None) as [[i|] []].
  - destruct Hf as (p & Hp & _ & Hk). rewrite Nat.sub_0_r in Hp. split; [done|]. exists p.
    split; [by rewrite list_insert_id|]. split; [by eapply lookup_lt_Some | done].
  - destruct Hf as [_ [[? _]|(p & Hp & _ & Hk)]]; [done|]. rewrite Nat.sub_0_r in Hp.
    pose proof (lookup_lt_Some _ _ _ Hp) as Hlt.
    assert (Hwf : pa_wf p) by (by eapply Forall_lookup_1 in Hp).
    destruct Hwf as (Ha & Hb & Hn). rewrite Hk in Hn. destruct Hn as [Ht Hc].
    rewrite (alter_insert s i p) by done.
    assert (Hp' : pa_wf (mkPacketAssembler (Some k) (pa_buffer p) (pa_assembler p) (pa_total_size p) e)).
    { split; [done|]. split; [done|]. split; [intros x Hx; by rewrite Hc in Hx|]. cbn. by rewrite Ht. }
    split; [by apply Forall_insert | by eexists].
  - by destruct Hf as [? _].
  - split; [done|]. apply Hf.
Qed.

Lemma pas_remove_expired_wf s t : pas_wf s -> pas_wf (pas_remove_expired s t).
Proof.
  intros Hs. apply Forall_map. eapply Forall_impl; [|exact Hs]. intros p Hp.
  destruct (negb _ && _); [by apply pa_reset_wf | done].
Qed.

(** *** Receiving *)

(** [r] is a fragment of the packet of its key: the octets of the packet at the offset, the
    length of the header consistent with the payload, and the end of the packet if no
    fragment follows. *)
Definition fragment_ok (r : Fragment K) : Prop :=
  fragment_of (packet (fr_key r)) (fr_frag_offset r) (fr_payload r) /\
  0 <= fr_header_len r /\ fr_total_len r = fr_header_len r + Zlen (fr_payload r) /\
  (fr_more_frags r = false -> fr_frag_offset r + Zlen (fr_payload r) = Zlen (packet (fr_key r))).

Hypothesis packets_fit : forall k, Zlen (packet k) <= isize_max.

Lemma pa_receive_ok p r :
  pa_wf p -> pa_key p = Some (fr_key r) -> fragment_ok r ->
  wp (pa_receive p r) (fun '(p', o) =>
    pa_wf p' /\ match o with Some d => d = packet (fr_key r) | None => True end).
Proof.
  intros Hwf Hk (Hf & Hh & Hlen & Hlast). pose proof (packets_fit (fr_key r)) as Hmax.
  pose proof Hf as (Ho & Hl & _). pose proof (Zlen_nonneg (fr_payload r)). unfold pa_receive.
  eapply (wp_bind_mono _ _ (fun '(p', c) => pa_wf p' /\ c = Ok tt /\ pa_key p' = Some (fr_key r))).
  { destr_if; [|done]. unfold negb in Hif. destruct (fr_more_frags r); [done|]. do 2 arith_step.
    replace (fr_total_len r - fr_header_len r + fr_frag_offset r) with (Zlen (packet (fr_key r)))
      by (specialize (Hlast eq_refl); lia).
    eapply wp_mono; [by apply (pa_set_total_size_ok p (fr_key r))|]. intros [p' c] (? & ? & ? & _). done. }
  intros [p1 c] (Hwf1 & -> & Hk1).
  wp_bind_with (pa_add_ok p1 (fr_key r) (fr_payload r) (fr_frag_offset r)); [done..|].
  intros [p2 c] (Hwf2 & -> & Hk2 & _).
  eapply wp_mono; [by apply (pa_assemble_ok p2 (fr_key r))|]. intros [p3 o] [Hwf3 Hd]. split; [done|].
  destruct o; [apply Hd | done].
Qed.

Lemma pas_receive_ok s now timeout r :
  pas_wf s -> time_ok now -> time_ok timeout -> fragment_ok r ->
  wp (pas_receive s now timeout r) (fun '(s', o) =>
    pas_wf s' /\ match o with Some d => d = packet (fr_key r) | None => True end).
Proof.
  intros Hs Hn Ht Hr. unfold pas_receive. rewrite instant_add_ok, bind_Ret by (done || unfold time_ok in *; lia).
  pose proof (pas_get_ok s (fr_key r) (now + timeout) Hs) as Hg.
  destruct (pas_get s (fr_key r) (now + timeout)) as [s' [i|e]]; [|by destruct Hg as [-> _]].
  destruct Hg as (Hwf & p & -> & Hi & Hk).
  assert (Hp : pa_wf p).
  { eapply Forall_lookup_1; [exact Hwf|]. by apply list_lookup_insert_eq. }
  rewrite (index_ok _ _ p), bind_Ret by (lia || by rewrite Nat2Z.id, list_lookup_insert_eq).
  wp_bind_with (pa_receive_ok p r); [done..|]. intros [p' o] [Hp' Ho]. cbn [wp]. split; [|done].
  by apply Forall_insert.
Qed.

(** The fragments of a packet cut into [chunks], behind headers of [header_len] octets. *)
Fixpoint fragments_of (k : K) (header_len offset : Z) (chunks : list (list Z)) : list (Fragment K) :=
  match chunks with
  | [] => []
  | c :: chunks =>
      mkFragment k (if chunks is [] then false else true) offset (header_len + Zlen c) header_len c ::
      fragments_of k header_len (offset + Zlen c) chunks
  end.

Definition frag_event_ok (e : frag_event) : Prop :=
  match e with FragmentArrives now r => time_ok now /\ fragment_ok r | PacketsExpire _ => True end.

Lemma frag_run_ok timeout s es :
  pas_wf s -> time_ok timeout -> Forall frag_event_ok es ->
  wp (frag_run timeout s es) (Forall (fun '(k, d) => d = packet k)).
Proof.
  intros Hs Ht He. revert s Hs. induction He as [|e es Hok He IH]; intros s Hs; cbn [frag_run]; [constructor|].
  eapply (wp_bind_mono _ _ (fun '(s', o) => pas_wf s' /\ Forall (fun '(k, d) => d = packet k) (option_list o))).
  - destruct e as [now r|now]; cbn [frag_step]; [|split; [by apply pas_remove_expired_wf | constructor]].
    destruct Hok. wp_bind_with (pas_receive_ok s now timeout r); [done..|]. intros [s' o] [Hs' Ho]. cbn [wp].
    split; [done|]. destruct o as [d|]; cbn; by repeat constructor.
  - intros [s' o] [Hs' Ho]. wp_bind_with (IH s' Hs'). intros ds Hds. cbn [wp]. by apply Forall_app.
Qed.

(** *** Fragments in order *)

(** Exactly the first [n] octets have been received. *)
Definition received_prefix (a : Assembler) (n : Z) : Prop :=
  exists k, a = pad k (if n =? 0 then [] else [mkContig 0 n]) /\ a <> [] /\ Zlen a <= isize_max.

Lemma received_prefix_front a n : 0 <= n -> received_prefix a n -> asm_peek_front a = Ret n.
Proof.
  intros Hn (k & -> & Hne & _). destruct (n =? 0) eqn:E; [|done].
  replace n with 0 by lia. destruct k; done.
Qed.

Lemma received_prefix_add a n m :
  received_prefix a n -> 0 <= n -> 0 < m -> n + m <= isize_max ->
  exists a', asm_add a n m = Ret (a', Ok tt) /\ received_prefix a' (n + m).
Proof.
  intros (k & -> & Hne & Hl) Hn Hm Hmax.
  set (cs := if n =? 0 then [] else [mkContig 0 n]) in *.
  assert (Hcs : contigs_ok true cs /\ span cs = n /\ add_ref cs n m = [mkContig 0 (n + m)]).
  { unfold cs. destruct (n =? 0) eqn:E; cbn; [replace n with 0 by lia; done|].
    unfold ctotal. cbn. replace (n <? 0) with false by lia. unfold merge_ref. cbn. unfold ctotal. cbn.
    rewrite !Z.add_0_l. replace (n <=? n) with true by lia. replace (n <? n + m) with true by lia.
    split; [lia|]. split; [lia|]. by replace (n + (n + m - n)) with (n + m) by lia. }
  destruct Hcs as (Hok & Hs & Ha). rewrite asm_add_pad, Ha by (done || mlia).
  assert (Hlen : (1 <= length (pad k cs))%nat) by (destruct (pad k cs); [done | cbn; lia]).
  unfold refit. cbn [length]. rewrite decide_True by done. eexists. split; [done|].
  exists (length (pad k cs) - 1)%nat. replace (n + m =? 0) with false by lia. split; [done|]. split; [done|].
  unfold Zlen in *. rewrite !length_pad in *. cbn [length]. lia.
Qed.

(** A slot that has received the first [n] octets of packet [k], and nothing else. *)
Definition slot_prefix p (k : K) (n : Z) : Prop :=
  pa_wf p /\ pa_key p = Some k /\ pa_total_size p = None /\ received_prefix (pa_assembler p) n.

(** The next fragment of the packet, which is its last one if [m] octets complete it. *)
Lemma pa_receive_next p k n r :
  slot_prefix p k n -> fr_key r = k -> fragment_ok r -> fr_frag_offset r = n -> 0 < Zlen (fr_payload r) ->
  fr_more_frags r = (n + Zlen (fr_payload r) <? Zlen (packet k)) ->
  wp (pa_receive p r) (fun '(p', o) =>
    if fr_more_frags r then slot_prefix p' k (n + Zlen (fr_payload r)) /\ o = None
    else o = Some (packet k)).
Proof.
  intros (Hwf & Hk & Ht & Hp) <- (Hf & Hh & Hlen & Hlast) Hn Hpos Hmore. pose proof (packets_fit (fr_key r)) as Hmax.
  pose proof Hf as (Ho & Hl & _). unfold pa_receive.
  eapply (wp_bind_mono _ _ (fun '(p', c) => pa_wf p' /\ c = Ok tt /\ pa_key p' = Some (fr_key r) /\
    pa_total_size p' = (if fr_more_frags r then None else Some (Zlen (packet (fr_key r)))) /\
    pa_assembler p' = pa_assembler p)).
  { destruct (fr_more_frags r) eqn:Em; cbn [negb]; [done|]. do 2 arith_step.
    replace (fr_total_len r - fr_header_len r + fr_frag_offset r) with (Zlen (packet (fr_key r)))
      by (specialize (Hlast eq_refl); lia).
    eapply wp_mono; [by apply (pa_set_total_size_ok p (fr_key r))|]. by intros [p' c] (? & ? & ? & ? & ?). }
  intros [p1 c] (Hwf1 & -> & Hk1 & Ht1 & Ha1).
  wp_bind_with (pa_add_ok p1 (fr_key r) (fr_payload r) (fr_frag_offset r)); [done..|].
  intros [p2 ?] (Hwf2 & -> & Hk2 & Ht2 & a & c' & Ea & Ha2). rewrite Ha1, Hn in Ea.
  destruct (received_prefix_add (pa_assembler p) n (Zlen (fr_payload r)) Hp ltac:(lia) Hpos ltac:(lia))
    as (a' & Ea' & Hp2). rewrite Ea' in Ea. injection Ea as <- <-. rewrite <- Ha2 in Hp2.
  pose proof (received_prefix_front (pa_assembler p2) (n + Zlen (fr_payload r)) ltac:(lia) Hp2) as Hfront.
  unfold pa_assemble, pa_is_complete. rewrite Hfront, bind_Ret, bind_Ret, Ht2, Ht1.
  destruct (fr_more_frags r) eqn:Em.
  - rewrite bool_decide_false by done. cbn [negb wp]. split; [|done]. split; [done|]. split; [done|].
    split; [by rewrite Ht2, Ht1 | done].
  - specialize (Hlast eq_refl). rewrite bool_decide_true by (f_equal; lia). cbn [negb].
    pose proof (pa_assemble_ok p2 (fr_key r) Hwf2 Hk2) as Has.
    unfold pa_assemble, pa_is_complete in Has. rewrite Hfront, bind_Ret, bind_Ret, Ht2, Ht1 in Has.
    rewrite bool_decide_true in Has by (f_equal; lia). cbn [negb] in Has.
    destruct (slice _ _ _) as [d|]; [|done]. rewrite bind_Ret in Has |- *. destruct Has as [_ [-> _]]. done.
Qed.

Lemma nothing_received a : asm_wf a -> (forall x, covered a x = false) -> received_prefix a 0.
Proof.
  intros (cs & k & -> & Hok & Hs & Hne & Hl) Hc. exists k. split; [|done]. cbn [Z.eqb].
  destruct cs as [|c cs]; [done|]. exfalso. destruct Hok as (Hh & Hd & Hok).
  specialize (Hc (hole_size c)). rewrite covered_pad in Hc. cbn [covered] in Hc. unfold ctotal in Hc.
  rewrite (covered_neg false) in Hc by (done || lia). lia.
Qed.

(** Slot [i] has the first [n] octets of packet [k], whose fragments no other slot collects. *)
Definition set_prefix s (k : K) (i : nat) (n : Z) : Prop :=
  pas_wf s /\ exists p, s !! i = Some p /\ slot_prefix p k n /\
  forall j q, s !! j = Some q -> pa_key q = Some k -> j = i.

(** The slot that [get] gives to a packet. *)
Lemma pas_get_prefix s k i n e : set_prefix s k i n -> pas_get s k e = (s, Ok i).
Proof.
  intros (Hs & p & Hp & (Hwf & Hk & _) & Hu). unfold pas_get. pose proof (pas_find_ok s k 0 None) as Hf.
  assert (Hno : ~ Forall (fun p => pa_key p <> Some k) s).
  { intros Hall. eapply Forall_lookup_1 in Hall; [|exact Hp]. done. }
  destruct (pas_find s k 0 None) as [[j|] []].
  - destruct Hf as (q & Hq & _ & Hkq). rewrite Nat.sub_0_r in Hq. by rewrite (Hu j q Hq Hkq).
  - by destruct Hf.
  - by destruct Hf.
  - destruct Hf as (_ & _ & Hall). exfalso. apply Hno. eapply Forall_impl; [|exact Hall]. by intros q [? _].
Qed.

Lemma pas_get_fresh s k e :
  pas_wf s -> Forall (fun p => pa_key p <> Some k) s -> Exists (fun p => pa_is_free p = true) s ->
  exists i s', pas_get s k e = (s', Ok i) /\ set_prefix s' k i 0.
Proof.
  intros Hs Hno Hfree. pose proof (pas_get_ok s k e Hs) as Hg. pose proof (pas_find_ok s k 0 None) as Hf.
  unfold pas_get in *. destruct (pas_find s k 0 None) as [[i|] []].
  - destruct Hf as (q & Hq & _ & Hkq). eapply Forall_lookup_1 in Hno; [|exact Hq]. done.
  - destruct Hf as [_ [[? _]|(p & Hp & _ & Hk)]]; [done|]. rewrite Nat.sub_0_r in Hp.
    pose proof (lookup_lt_Some _ _ _ Hp) as Hlt. rewrite (alter_insert s i p _ Hp) in Hg |- *. destruct Hg as [Hwf _].
    eexists _, _. split; [done|]. split; [done|]. eexists. split; [by apply list_lookup_insert_eq|].
    assert (Hwfp : pa_wf p) by (by eapply Forall_lookup_1 in Hp).
    destruct Hwfp as (Ha & Hb & Hn). rewrite Hk in Hn. destruct Hn as [Ht Hc]. split.
    + split; [by eapply Forall_lookup_1; [exact Hwf | by apply list_lookup_insert_eq]|].
      split; [done|]. split; [done|]. by apply nothing_received.
    + intros j q Hq Hkq. destruct (decide (j = i)); [done|]. rewrite list_lookup_insert_ne in Hq by done.
      eapply Forall_lookup_1 in Hno; [|exact Hq]. done.
  - by destruct Hf.
  - destruct Hf as (_ & _ & Hall). exfalso. apply Exists_exists in Hfree. destruct Hfree as (q & Hq & Hqf).
    rewrite Forall_forall in Hall. destruct (Hall q Hq) as [_ Hq']. congruence.
Qed.

(** The next fragment, at the slot of its packet. *)
Lemma pas_receive_next s0 s k i n now timeout r :
  (exists e, instant_add now timeout = Ret e /\ pas_get s0 k e = (s, Ok i)) -> set_prefix s k i n ->
  fr_key r = k -> fragment_ok r -> fr_frag_offset r = n -> 0 < Zlen (fr_payload r) ->
  fr_more_frags r = (n + Zlen (fr_payload r) <? Zlen (packet k)) ->
  exists s', pas_receive s0 now timeout r = Ret (s', if fr_more_frags r then None else Some (packet k)) /\
             (fr_more_frags r = true -> set_prefix s' k i (n + Zlen (fr_payload r))).
Proof.
  intros (e & Ee & Eg) (Hs & p & Hp & Hsl & Hu) Hk Hok Hn Hpos Hm. unfold pas_receive.
  rewrite Ee, bind_Ret, Hk, Eg. rewrite (index_ok _ _ p), bind_Ret by (lia || by rewrite Nat2Z.id).
  destruct (wp_Ret_inv _ _ (pa_receive_next p k n r Hsl Hk Hok Hn Hpos Hm)) as ([p' o] & -> & Ho).
  rewrite bind_Ret. eexists. split.
  { do 2 f_equal. destruct (fr_more_frags r); [apply Ho | exact Ho]. }
  intros Em. rewrite Em in Ho. destruct Ho as [Hsl' _]. pose proof (lookup_lt_Some _ _ _ Hp).
  split; [by apply Forall_insert; [|apply Hsl']|]. exists p'. split; [by apply list_lookup_insert_eq|].
  split; [done|]. intros j q Hq Hkq. destruct (decide (j = i)) as [|Hne]; [done|].
  rewrite list_lookup_insert_ne in Hq by done. by eapply Hu.
Qed.

Lemma fragments_of_ok k hl n c chunks :
  0 <= hl -> 0 <= n -> Forall (fun c => c <> []) (c :: chunks) ->
  Zlen (packet k) = n + Zlen (concat (c :: chunks)) -> drop (Z.to_nat n) (packet k) = concat (c :: chunks) ->
  let r := mkFragment k (if chunks is [] then false else true) n (hl + Zlen c) hl c in
  fragment_ok r /\ 0 < Zlen c /\ fr_more_frags r = (n + Zlen c <? Zlen (packet k)).
Proof.
  intros Hh Hn Hne Hlen Hd. cbn [concat] in *. rewrite Zlen_app in Hlen.
  inversion Hne as [|? ? Hc Hcs]; subst. assert (0 < Zlen c) by (destruct c; [done | rewrite Zlen_cons; pose proof (Zlen_nonneg c); lia]).
  pose proof (Zlen_nonneg (concat chunks)). split; [|split; [done|]].
  - split; [|split; [done|split; [done|]]]; cbn.
    + split; [done|]. split; [lia|]. unfold sub. rewrite Hd, take_app_le by mlia. apply take_ge. mlia.
    + destruct chunks; [|done]. intros _. cbn in *. change (Zlen []) with 0 in *. lia.
  - cbn. destruct chunks as [|c' chunks]; [change (Zlen (concat [])) with 0 in *; lia|].
    inversion Hcs as [|? ? Hc' ?]; subst. cbn [concat] in *. rewrite Zlen_app in *. pose proof (Zlen_nonneg (concat chunks)).
    destruct c'; [done|]. rewrite Zlen_cons in *. pose proof (Zlen_nonneg c'). lia.
Qed.

Lemma in_order_ok now timeout hl k chunks : forall s0 s i n,
  time_ok now -> time_ok timeout -> 0 <= hl -> 0 <= n ->
  pas_get s0 k (now + timeout) = (s, Ok i) -> set_prefix s k i n -> chunks <> [] ->
  Forall (fun c => c <> []) chunks ->
  Zlen (packet k) = n + Zlen (concat chunks) -> drop (Z.to_nat n) (packet k) = concat chunks ->
  frag_run timeout s0 (map (FragmentArrives now) (fragments_of k hl n chunks)) = Ret [(k, packet k)].
Proof.
  induction chunks as [|c chunks IH]; intros s0 s i n Hnow Hto Hh Hn Hg Hs Hne Hall Hlen Hd; [done|].
  destruct (fragments_of_ok k hl n c chunks) as (Hok & Hpos & Hm); [done..|].
  pose proof (instant_add_ok now timeout Hto ltac:(unfold time_ok in *; lia)) as He.
  destruct (pas_receive_next s0 s k i n now timeout (mkFragment k (if chunks is [] then false else true) n (hl + Zlen c) hl c))
    as (s' & Er & Hs'); [by eexists | done..|].
  cbn [fragments_of map frag_run frag_step]. rewrite Er, !bind_Ret. cbn [fr_key fr_more_frags fr_payload] in *.
  destruct chunks as [|c' chunks]; [done|]. cbn [option_map option_list app].
  specialize (Hs' eq_refl). change (option_list _) with (@nil (K * list Z)).
  inversion Hall; subst. cbn [concat] in Hlen, Hd. rewrite Zlen_app in Hlen.
  rewrite (IH s' s' i (n + Zlen c)); [done|done|done|done|lia| |done|done|done| |].
  - by eapply pas_get_prefix.
  - cbn [concat]. lia.
  - rewrite Z2Nat.inj_add, <- drop_drop, Hd by lia. unfold Zlen. by rewrite Nat2Z.id, drop_app_length.
Qed.
End Facts.

(** ** Properties *)

(** C30: whatever the order in which fragments arrive, are repeated or overlap, and whichever
    packets expire in between, reassembly does not panic and each packet it delivers is the
    packet that was fragmented. *)
Theorem reassembly_correct {K} `{EqDecision K} (packet : K -> list Z) count segments timeout es :
  (forall k, Zlen (packet k) <= isize_max) -> (0 < segments)%nat -> Z.of_nat segments <= isize_max ->
  time_ok timeout -> Forall (frag_event_ok packet) es ->
  wp (frag_run timeout (pas_new count segments) es) (Forall (fun '(k, d) => d = packet k)).
Proof.
  intros Hfit H0 Hmax Ht He. apply frag_run_ok; [done | | done | done].
  apply Forall_replicate. by apply pa_new_wf.
Qed.

(** The fragments of a packet that arrive in order are reassembled, in whatever state the
    other slots are, as soon as a slot is free for the packet; nothing else is delivered. *)
Theorem reassembly_in_order {K} `{EqDecision K} (packet : K -> list Z) s k now timeout header_len chunks :
  (forall k, Zlen (packet k) <= isize_max) -> pas_wf packet s ->
  Forall (fun p => pa_key p <> Some k) s -> Exists (fun p => pa_is_free p = true) s ->
  time_ok now -> time_ok timeout -> 0 <= header_len ->
  chunks <> [] -> Forall (fun c => c <> []) chunks -> packet k = concat chunks ->
  frag_run timeout s (map (FragmentArrives now) (fragments_of k header_len 0 chunks)) = Ret [(k, packet k)].
Proof.
  intros Hfit Hs Hno Hfree Hn Ht Hh Hne Hall Hp.
  destruct (pas_get_fresh packet s k (now + timeout) Hs Hno Hfree) as (i & s' & Hg & Hs').
  eapply in_order_ok; [done | done | done | done | done | exact Hg | exact Hs' | done | done | |].
  - by rewrite Hp.
  - by rewrite Z2Nat.inj_0, drop_0.
Qed.

(** When a packet cannot get a slot, every slot collects the fragments of another packet,
    and nothing changes; otherwise the slot returned has the key of the packet, and it is the
    only one that may have changed. *)
Theorem pas_get_spec {K} `{EqDecision K} (packet : K -> list Z) s k e :
  pas_wf packet s ->
  match pas_get s k e with
  | (s', Ok i) => pas_wf packet s' /\ exists p, s' = <[i := p]> s /\ (i < length s)%nat /\ pa_key p = Some k
  | (s', Err _) => s' = s /\ Forall (fun p => pa_key p <> Some k /\ pa_is_free p = false) s
  end.
Proof. apply pas_get_ok. Qed.

(** *** Concrete instances *)

(** Two packets of five and three octets. *)
Definition ex_packets (k : bool) : list Z := if k then [1; 2; 3; 4; 5] else [7; 8; 9].

Lemma ex_packets_fit k : Zlen (ex_packets k) <= isize_max.
Proof. by destruct k. Qed.

Lemma ex_set_wf : pas_wf ex_packets (pas_new 2 4).
Proof. apply Forall_replicate. apply pa_new_wf; [lia | done]. Qed.

Definition ex_fragments : list (@frag_event bool) :=
  [FragmentArrives 10 (mkFragment true false 3 22 20 [4; 5]); FragmentArrives 20 (mkFragment false true 0 22 20 [7; 8]);
   FragmentArrives 30 (mkFragment true true 2 22 20 [3; 4]); PacketsExpire 40;
   FragmentArrives 50 (mkFragment true true 0 23 20 [1; 2; 3]); FragmentArrives 60 (mkFragment false false 2 21 20 [9])].

Example ex_fragments_run :
  frag_run 60000000 (pas_new 2 4) ex_fragments = Ret [(true, [1; 2; 3; 4; 5]); (false, [7; 8; 9])].
Proof. reflexivity. Qed.

Lemma reassembly_correct_witness :
  wp (frag_run 60000000 (pas_new 2 4) ex_fragments) (Forall (fun '(k, d) => d = ex_packets k)).
Proof.
  apply reassembly_correct; [exact ex_packets_fit | lia | by unfold_max | unfold time_ok; lia |].
  repeat constructor; try (unfold time_ok; lia); try done; cbn; lia.
Defined.

Lemma reassembly_in_order_witness :
  frag_run 60000000 (pas_new 2 4) (map (FragmentArrives 10) (fragments_of true 20 0 [[1; 2]; [3]; [4; 5]])) =
  Ret [(true, ex_packets true)].
Proof.
  apply reassembly_in_order; try done; try (unfold time_ok; lia); try (by repeat constructor).
  - exact ex_packets_fit.
  - exact ex_set_wf.
Defined.

Lemma pas_get_spec_witness :
  match pas_get (pas_new 2 4) true 100 with
  | (s', Ok i) =>
      pas_wf ex_packets s' /\ exists p, s' = <[i := p]> (pas_new 2 4) /\ (i < 2)%nat /\ pa_key p = Some true
  | (s', Err _) => s' = pas_new 2 4 /\ Forall (fun p => pa_key p <> Some true /\ pa_is_free p = false) (pas_new 2 4)
  end.
Proof. apply pas_get_spec. exact ex_set_wf. Defined.
