(* ===== verification/IfaceContext.v ===== *)
(** * The interface as a socket sees it (iface/interface/mod.rs, ipv4.rs, ipv6.rs, rand.rs, phy/mod.rs)

    A socket operation gets a [Context], the [InterfaceInner] of the interface: the current
    time, the device's MTU, the random number generator and the interface addresses. *)

From S2P Require Import Prelude TimeModel IpTypes.

(** ** Random numbers (rand.rs) *)

Definition RAND_M : Z := 0xbb2efcec3c39611d.
Definition RAND_A : Z := 0x7590ef39.

(** The state is a [u64]; returns the new state and the number. *)
Definition rand_u32 (state : Z) : Z * Z :=
  let s := wrap_u 64 (wrap_u 64 (state * RAND_M) + RAND_A) in
  let shift := 29 - Z.shiftr s 61 in
  (s, wrap_u 32 (Z.shiftr s shift)).

Definition rand_u16 (state : Z) : Z * Z :=
  let '(s, n) := rand_u32 state in
  (s, wrap_u 16 (Z.lxor n (Z.shiftr n 16))).

(** ** CIDR blocks *)

Inductive Cidr : Type :=
| CidrV4 (address : list Z) (prefix_len : Z)
| CidrV6 (address : list Z) (prefix_len : Z).

Definition cidr_v4 (c : Cidr) : option (list Z) := match c with CidrV4 a _ => Some a | CidrV6 _ _ => None end.
Definition cidr_v6 (c : Cidr) : option (list Z * Z) := match c with CidrV6 a p => Some (a, p) | CidrV4 _ _ => None end.

(** ** The context *)

Inductive Medium : Type := MediumEthernet | MediumIp | MediumIeee802154.

Definition ETHERNET_HEADER_LEN : Z := 14.

Record Context : Type := mkContext {
  cx_now : Instant;
  cx_rand : Z;
  cx_medium : Medium;
  cx_max_transmission_unit : Z;
  cx_ip_addrs : list Cidr;
  (** what a call of a timestamp generator, a function of the application, returns *)
  cx_call : Z -> Z;
}.

Definition cx_set_rand (cx : Context) (r : Z) : Context :=
  mkContext (cx_now cx) r (cx_medium cx) (cx_max_transmission_unit cx) (cx_ip_addrs cx) (cx_call cx).

(** The contexts differ in the state of the random number generator at most. *)
Definition same_cx (cx cx' : Context) : Prop :=
  cx_now cx' = cx_now cx /\ cx_medium cx' = cx_medium cx /\ cx_max_transmission_unit cx' = cx_max_transmission_unit cx /\
  cx_ip_addrs cx' = cx_ip_addrs cx /\ cx_call cx' = cx_call cx.

Lemma same_cx_refl cx : same_cx cx cx.
Proof. by split_and!. Qed.
Lemma same_cx_trans cx1 cx2 cx3 : same_cx cx1 cx2 -> same_cx cx2 cx3 -> same_cx cx1 cx3.
Proof. unfold same_cx. intuition congruence. Qed.

(** What a socket's [dispatch] is called with: the closure [emit] that it calls changes more than
    the [InterfaceInner], of which the socket sees the [Context]. *)
Class HasContext (C : Type) := the_context : C -> Context.
#[export] Instance context_self : HasContext Context := fun cx => cx.

(** [DeviceCapabilities::ip_mtu]. *)
Definition cx_ip_mtu (cx : Context) : res Z :=
  match cx_medium cx with
  | MediumEthernet => usize_sub (cx_max_transmission_unit cx) ETHERNET_HEADER_LEN
  | MediumIp | MediumIeee802154 => Ret (cx_max_transmission_unit cx)
  end.

(** ** Source address selection *)

Section Ipv6.
(** An IPv6 address is a list of sixteen octets; [core::net] provides the first three. *)
Definition octet (a : list Z) (i : nat) : Z := nth i a 0.
Definition v6_is_multicast (a : list Z) : bool := octet a 0 =? 0xff.
Definition v6_localhost : list Z := replicate 15 0 ++ [1].
Definition v6_is_loopback (a : list Z) : bool := bool_decide (a = v6_localhost).
Definition v6_is_unspecified (a : list Z) : bool := forallb (Z.eqb 0) a.

Definition v6_is_link_local (a : list Z) : bool :=
  bool_decide (take 8 a = [0xfe; 0x80; 0; 0; 0; 0; 0; 0]).
Definition v6_is_unique_local (a : list Z) : bool := Z.land (octet a 0) 0xfe =? 0xfc.
Definition v6_is_global_unicast (a : list Z) : bool := Z.shiftr (octet a 0) 5 =? 1.

(** [MulticastScope], by its discriminant. *)
Definition SCOPE_LINK_LOCAL : Z := 0x2.
Definition SCOPE_GLOBAL : Z := 0xE.
Definition SCOPE_UNKNOWN : Z := 0xFF.
Definition scope_from (v : Z) : Z :=
  if bool_decide (v ∈ [0x1; 0x2; 0x4; 0x5; 0x8; 0xE]) then v else SCOPE_UNKNOWN.

Definition v6_multicast_scope (a : list Z) : Z :=
  if v6_is_multicast a then scope_from (Z.land (octet a 1) 0xf)
  else if v6_is_link_local a then SCOPE_LINK_LOCAL
  else if v6_is_unique_local a || v6_is_global_unicast a then SCOPE_GLOBAL
  else SCOPE_UNKNOWN.

Definition is_candidate_source_address (dst src : list Z) : bool :=
  if v6_is_link_local dst && negb (v6_is_link_local src) then false
  else if v6_is_multicast dst && (v6_multicast_scope dst =? SCOPE_LINK_LOCAL) &&
          v6_is_multicast src && negb (v6_multicast_scope src =? SCOPE_LINK_LOCAL) then false
  else if v6_is_unspecified src || v6_is_multicast src then false
  else true.

(** [u8::leading_zeros]. *)
Definition leading_zeros8 (x : Z) : Z := if x =? 0 then 8 else 7 - Z.log2 x.

Fixpoint common_bits (a b : list Z) : Z :=
  match a, b with
  | l :: a, r :: b => if l =? r then 8 + common_bits a b else leading_zeros8 (Z.lxor l r)
  | _, _ => 0
  end.

Definition common_prefix_length (c : list Z * Z) (src : list Z) : Z :=
  Z.min (common_bits (fst c) src) (snd c).

(** One iteration of the selection loop. *)
Definition select_step (dst : list Z) (candidate addr : list Z * Z) : list Z * Z :=
  if negb (is_candidate_source_address dst (fst addr)) then candidate
  else
    let candidate :=
      if negb (bool_decide (fst candidate = dst)) && bool_decide (fst addr = dst) then addr else candidate in
    let scope c := v6_multicast_scope (fst c) in
    let candidate :=
      if scope candidate <? scope addr then
        if scope candidate <? v6_multicast_scope dst then addr else candidate
      else if v6_multicast_scope dst <? scope addr then addr else candidate in
    if common_prefix_length candidate dst <? common_prefix_length addr dst then addr else candidate.

Definition get_source_address_ipv6 (cx : Context) (dst : list Z) : res (list Z) :=
  _ ← passert (negb (v6_is_unspecified dst));
  let addrs := omap cidr_v6 (cx_ip_addrs cx) in
  match addrs with
  | [] => Ret v6_localhost
  | first :: _ =>
      if v6_is_loopback dst then Ret v6_localhost
      else Ret (fst (fold_left (select_step dst) addrs first))
  end.

Definition get_source_address_ipv4 (cx : Context) (dst : list Z) : option (list Z) :=
  head (omap cidr_v4 (cx_ip_addrs cx)).

Definition get_source_address (cx : Context) (dst : Address) : res (option Address) :=
  match dst with
  | Ipv4 a => Ret (option_map Ipv4 (get_source_address_ipv4 cx a))
  | Ipv6 a => s ← get_source_address_ipv6 cx a; Ret (Some (Ipv6 s))
  end.
End Ipv6.

(** ** Lemmas *)

Lemma rand_u32_range state : 0 <= snd (rand_u32 state) <= u32_max.
Proof.
  unfold rand_u32. cbn [snd]. pose proof (wrap_u_range 32 (Z.shiftr (wrap_u 64 (wrap_u 64 (state * RAND_M) + RAND_A))
    (29 - Z.shiftr (wrap_u 64 (wrap_u 64 (state * RAND_M) + RAND_A)) 61))). unfold_max. lia.
Qed.

Lemma select_step_cases dst c a : select_step dst c a = c \/ select_step dst c a = a.
Proof. unfold select_step. repeat case_match; auto. Qed.

Lemma select_fold_in dst addrs c :
  fold_left (select_step dst) addrs c = c \/ fold_left (select_step dst) addrs c ∈ addrs.
Proof.
  revert c. induction addrs as [|a addrs IH]; intros c; [by left|]. cbn [fold_left].
  destruct (IH (select_step dst c a)) as [-> |?]; [|right; by constructor].
  destruct (select_step_cases dst c a) as [-> | ->]; [by left|right; by constructor].
Qed.

Lemma get_source_address_ok cx dst :
  address_is_unspecified dst = false ->
  wp (get_source_address cx dst) (fun r =>
    match r with
    | Some src => address_version src = address_version dst
    | None => address_version dst = Ipv4Version
    end).
Proof.
  destruct dst as [a|a]; cbn [get_source_address address_is_unspecified address_octets address_version]; intros Hu.
  - cbn [wp]. by destruct (get_source_address_ipv4 cx a).
  - unfold get_source_address_ipv6, v6_is_unspecified.
    change (forallb (Z.eqb 0) a) with (address_is_unspecified (Ipv6 a)). rewrite Hu. cbn [negb passert]. rewrite bind_Ret.
    destruct (omap cidr_v6 (cx_ip_addrs cx)); [done|]. by destr_if.
Qed.

(** ** Properties *)

(** For a destination that is not the unspecified address, source address selection does
    not panic; it returns an address of the family of the destination, which is one of the
    interface's, or the loopback address when the destination is the loopback address or
    the interface has no IPv6 address; there is no result only when the interface has no
    IPv4 address for an IPv4 destination. *)
Theorem get_source_address_spec (cx : Context) (dst : Address) :
  address_is_unspecified dst = false ->
  wp (get_source_address cx dst) (fun r =>
    match r, dst with
    | Some (Ipv4 a), Ipv4 _ => exists p, CidrV4 a p ∈ cx_ip_addrs cx
    | Some (Ipv6 a), Ipv6 d =>
        (exists p, CidrV6 a p ∈ cx_ip_addrs cx) \/
        (a = v6_localhost /\ (d = v6_localhost \/ omap cidr_v6 (cx_ip_addrs cx) = []))
    | None, Ipv4 _ => omap cidr_v4 (cx_ip_addrs cx) = []
    | _, _ => False
    end).
Proof.
  assert (H6 : forall x, x ∈ omap cidr_v6 (cx_ip_addrs cx) -> exists p, CidrV6 (fst x) p ∈ cx_ip_addrs cx).
  { intros [a p]. rewrite list_elem_of_omap. intros ([|] & ? & [=]). simplify_eq. eauto. }
  destruct dst as [a|a]; cbn [get_source_address address_is_unspecified address_octets]; intros Hu.
  - cbn [wp]. unfold get_source_address_ipv4. destruct (omap cidr_v4 (cx_ip_addrs cx)) as [|x l] eqn:E; [done|].
    cbn. assert (Hx : x ∈ omap cidr_v4 (cx_ip_addrs cx)) by (rewrite E; constructor).
    apply list_elem_of_omap in Hx as ([? p|] & ? & [=]). simplify_eq. by exists p.
  - unfold get_source_address_ipv6, v6_is_unspecified.
    change (forallb (Z.eqb 0) a) with (address_is_unspecified (Ipv6 a)). rewrite Hu. cbn [negb passert]. rewrite bind_Ret.
    destruct (omap cidr_v6 (cx_ip_addrs cx)) as [|x l] eqn:E; [cbn; auto|].
    destr_if; cbn [mbind res_bind wp].
    + right. unfold v6_is_loopback in Hif. rewrite bool_decide_eq_true in Hif. auto.
    + left. apply H6. destruct (select_fold_in a (x :: l) x) as [-> |?]; [constructor|done].
Qed.

Definition cx_example : Context :=
  mkContext 1000000 42 MediumIp 1500
    [CidrV4 [192; 168; 1; 1] 24; CidrV6 ([0xfe; 0x80] ++ replicate 13 0 ++ [1]) 64] (fun _ => 7).

Lemma get_source_address_spec_witness :
  wp (get_source_address cx_example (Ipv4 [192; 168; 1; 2])) (fun r =>
    match r, Ipv4 [192; 168; 1; 2] with
    | Some (Ipv4 a), Ipv4 _ => exists p, CidrV4 a p ∈ cx_ip_addrs cx_example
    | Some (Ipv6 a), Ipv6 d =>
        (exists p, CidrV6 a p ∈ cx_ip_addrs cx_example) \/
        (a = v6_localhost /\ (d = v6_localhost \/ omap cidr_v6 (cx_ip_addrs cx_example) = []))
    | None, Ipv4 _ => omap cidr_v4 (cx_ip_addrs cx_example) = []
    | _, _ => False
    end).
Proof. apply (get_source_address_spec cx_example (Ipv4 [192; 168; 1; 2])). reflexivity. Defined.
