(* ===== verification/Ipv4Addr.v ===== *)
(** * IPv4 addresses and CIDR blocks (wire/ipv4.rs), and the addresses of the interface

    An address is the list of its four octets; a CIDR block is the [CidrV4] of
    [IfaceContext].  The arithmetic is on the 32-bit number of an address. *)

From S2P Require Import Prelude SeqNumber ByteOrder TimeModel IpTypes IfaceContext.

(** ** Addresses ([core::net::Ipv4Addr] and the extension trait) *)

Definition v4_to_bits (a : list Z) : Z := be_value a.
Definition v4_from_bits (n : Z) : list Z := be_bytes 4 n.

Definition v4_is_broadcast (a : list Z) : bool := bool_decide (a = [255; 255; 255; 255]).
Definition v4_is_multicast (a : list Z) : bool := (224 <=? octet a 0) && (octet a 0 <=? 239).
Definition v4_is_unspecified (a : list Z) : bool := forallb (Z.eqb 0) a.

Definition v4_x_is_unicast (a : list Z) : bool :=
  negb (v4_is_broadcast a || v4_is_multicast a || v4_is_unspecified a).

(** The two nested loops of [prefix_len], the bits of the octets with the highest first:
    [ones] and [prefix_len] are the local variables. *)
Fixpoint prefix_len_loop (bits : list bool) (ones : bool) (prefix_len : Z) : option Z :=
  match bits with
  | [] => Some prefix_len
  | one :: bits =>
      if ones then
        if (one : bool) then prefix_len_loop bits ones (prefix_len + 1)
        else prefix_len_loop bits false prefix_len
      else if one then None
      else prefix_len_loop bits ones prefix_len
  end.

Definition byte_bits (byte : Z) : list bool :=
  map (fun i => negb (Z.land byte (Z.shiftr 0x80 i) =? 0)) (seqZ 0 8).

Definition v4_prefix_len (a : list Z) : option Z := prefix_len_loop (a ≫= byte_bits) true 0.

(** ** CIDR blocks *)

(** The numbers of ones and of trailing and leading zeros of a [u32]. *)
Definition count_ones32 (x : Z) : Z := Zlen (filter (fun i => Z.testbit x i = true) (seqZ 0 32)).
Definition count_zeros32 (x : Z) : Z := 32 - count_ones32 x.
Fixpoint zeros_while (x : Z) (positions : list Z) : Z :=
  match positions with [] => 0 | i :: positions => if Z.testbit x i then 0 else 1 + zeros_while x positions end.
Definition trailing_zeros32 (x : Z) : Z := zeros_while x (seqZ 0 32).
Definition leading_zeros32 (x : Z) : Z := zeros_while x (reverse (seqZ 0 32)).

Definition v4cidr_new (address : list Z) (prefix_len : Z) : res Cidr :=
  _ ← passert (prefix_len <=? 32); Ret (CidrV4 address prefix_len).

Definition v4cidr_from_netmask (addr netmask : list Z) : option Cidr :=
  let netmask := v4_to_bits netmask in
  if (leading_zeros32 netmask =? 0) && (trailing_zeros32 netmask =? count_zeros32 netmask)
  then Some (CidrV4 addr (wrap_u 8 (count_ones32 netmask))) else None.

(** The number of [netmask]; a [u8] subtraction and a shift by less than the width. *)
Definition v4_mask (prefix_len : Z) : res Z :=
  if prefix_len =? 0 then Ret 0
  else n ← checked 0 u8_max (32 - prefix_len);
       if n <? 32 then Ret (wrap_u 32 (Z.shiftl 0xffffffff n)) else Panic.

Definition v4_network (address : list Z) (prefix_len : Z) : res Z :=
  m ← v4_mask prefix_len; Ret (Z.land (v4_to_bits address) m).

Definition v4cidr_broadcast (address : list Z) (prefix_len : Z) : res (option (list Z)) :=
  network ← v4_network address prefix_len;
  if (prefix_len =? 31) || (prefix_len =? 32) then Ret None
  else if prefix_len <? 32 then Ret (Some (v4_from_bits (Z.lor network (Z.shiftr 0xffffffff prefix_len))))
  else Panic.

Definition v4cidr_contains_addr (address : list Z) (prefix_len : Z) (addr : list Z) : res bool :=
  m ← v4_mask prefix_len;
  Ret (Z.land (v4_to_bits address) m =? Z.land (v4_to_bits addr) m).

Definition v4cidr_contains_subnet (address : list Z) (prefix_len : Z) (subnet_addr : list Z) (subnet_len : Z) : res bool :=
  if prefix_len <=? subnet_len then v4cidr_contains_addr address prefix_len subnet_addr else Ret false.

(** ** The interface ([InterfaceInner]) *)

(** Some block of the interface has the broadcast address [address]; the search stops there. *)
Fixpoint broadcast_of_own (cidrs : list Cidr) (address : list Z) : res bool :=
  match cidrs with
  | [] => Ret false
  | CidrV4 own len :: cidrs =>
      b ← v4cidr_broadcast own len;
      if bool_decide (b = Some address) then Ret true else broadcast_of_own cidrs address
  | CidrV6 _ _ :: cidrs => broadcast_of_own cidrs address
  end.

Definition is_broadcast_v4 (cx : Context) (address : list Z) : res bool :=
  if v4_is_broadcast address then Ret true else broadcast_of_own (cx_ip_addrs cx) address.

Definition is_unicast_v4 (cx : Context) (address : list Z) : res bool :=
  if v4_x_is_unicast address then b ← is_broadcast_v4 cx address; Ret (negb b) else Ret false.

Definition cx_is_broadcast (cx : Context) (address : Address) : res bool :=
  match address with Ipv4 a => is_broadcast_v4 cx a | Ipv6 _ => Ret false end.

Definition address_is_multicast (a : Address) : bool :=
  match a with Ipv4 a => v4_is_multicast a | Ipv6 a => v6_is_multicast a end.

Definition address_is_broadcast (a : Address) : bool :=
  match a with Ipv4 a => v4_is_broadcast a | Ipv6 _ => false end.

(** ** Lemmas *)

Definition v4_ok (a : list Z) : Prop := bytes_ok a /\ Zlen a = 4.

Lemma be_bytes_v4 g : v4_ok (be_bytes 4 g).
Proof. split; [apply be_bytes_ok | by rewrite Zlen_be_bytes]. Qed.

Lemma be_value_v4 a : v4_ok a -> be_bytes 4 (be_value a) = a.
Proof. intros [Hb Hl]. replace 4%nat with (length a) by (unfold Zlen in Hl; lia). by apply be_bytes_value. Qed.

(** Blocks as [Cidr::new] makes them. *)
Definition cidr_ok (c : Cidr) : Prop :=
  match c with CidrV4 a p => v4_ok a /\ 0 <= p <= 32 | CidrV6 a p => bytes_ok a /\ Zlen a = 16 /\ 0 <= p <= 128 end.

Lemma v4_to_bits_range a : v4_ok a -> in_u32 (v4_to_bits a).
Proof. intros [Hb Hl]. by apply be_value_u32. Qed.

Lemma mask_value p : 0 < p <= 32 -> wrap_u 32 (Z.shiftl 0xffffffff (32 - p)) = 2 ^ 32 - 2 ^ (32 - p).
Proof.
  intros Hp. unfold wrap_u. rewrite Z.shiftl_mul_pow2 by lia.
  replace (4294967295 * 2 ^ (32 - p)) with (2 ^ 32 - 2 ^ (32 - p) + (2 ^ (32 - p) - 1) * 2 ^ 32) by lia.
  rewrite Z_mod_plus_full. apply Z.mod_small.
  pose proof (Z.pow_pos_nonneg 2 (32 - p)). pose proof (Z.pow_le_mono_r 2 (32 - p) 32). lia.
Qed.

Lemma v4_mask_ok p : 0 <= p <= 32 -> v4_mask p = Ret (2 ^ 32 - 2 ^ (32 - p)).
Proof.
  intros Hp. unfold v4_mask. destruct (Z.eqb_spec p 0) as [->|Hne]; [done|].
  rewrite checked_ok by mlia. ret_step. replace (32 - p <? 32) with true by lia. by rewrite mask_value by lia.
Qed.

(** Masking keeps the first [p] bits. *)
Lemma land_mask x p :
  in_u32 x -> 0 <= p <= 32 -> Z.land x (2 ^ 32 - 2 ^ (32 - p)) = Z.shiftl (Z.shiftr x (32 - p)) (32 - p).
Proof.
  intros Hx Hp. rewrite <- Z.ldiff_ones_r by lia.
  assert (E : 2 ^ 32 - 2 ^ (32 - p) = Z.ldiff (Z.ones 32) (Z.ones (32 - p))).
  { rewrite Z.ldiff_ones_r by lia. rewrite Z.shiftr_div_pow2, Z.shiftl_mul_pow2, Z.ones_equiv by lia.
    replace 32 with (p + (32 - p)) at 1 3 by lia. rewrite Z.pow_add_r by lia.
    replace (Z.pred (2 ^ p * 2 ^ (32 - p))) with ((2 ^ (32 - p) - 1) + (2 ^ p - 1) * 2 ^ (32 - p)) by lia.
    pose proof (Z.pow_pos_nonneg 2 (32 - p)). rewrite Z.div_add, Z.div_small by lia. lia. }
  rewrite E. apply Z.bits_inj'. intros n Hn. rewrite Z.land_spec, !Z.ldiff_spec.
  assert (Hxn : Z.testbit x n = true -> Z.testbit (Z.ones 32) n = true).
  { intros Ht. apply Z.ones_spec_low. split; [done|]. destruct (Z.ltb_spec n 32); [done|]. exfalso.
    assert (Hlog : Z.log2 x < n).
    { destruct (Z.eq_dec x 0) as [->|]; [cbn; lia|]. apply Z.log2_lt_pow2; [mlia|].
      apply Z.lt_le_trans with (2 ^ 32); [mlia|]. apply Z.pow_le_mono_r; lia. }
    rewrite Z.bits_above_log2 in Ht by (done || mlia). done. }
  destruct (Z.testbit x n); [|done]. by rewrite Hxn.
Qed.

Lemma v4cidr_contains_ok a p b :
  v4_ok a -> v4_ok b -> 0 <= p <= 32 ->
  v4cidr_contains_addr a p b = Ret (Z.shiftr (v4_to_bits a) (32 - p) =? Z.shiftr (v4_to_bits b) (32 - p)).
Proof.
  intros Ha Hb Hp. unfold v4cidr_contains_addr. rewrite v4_mask_ok by done. ret_step.
  rewrite !land_mask by (done || by apply v4_to_bits_range). f_equal. rewrite !Z.shiftl_mul_pow2 by lia.
  pose proof (Z.pow_pos_nonneg 2 (32 - p)). destruct (Z.eqb_spec (Z.shiftr (v4_to_bits a) (32 - p)) (Z.shiftr (v4_to_bits b) (32 - p))) as [->|Hne].
  - apply Z.eqb_refl.
  - apply Z.eqb_neq. intros E. apply Z.mul_reg_r in E; [done | lia].
Qed.

Lemma v4cidr_broadcast_safe a p : 0 <= p <= 32 -> wp (v4cidr_broadcast a p) (fun _ => True).
Proof.
  intros Hp. unfold v4cidr_broadcast, v4_network. rewrite v4_mask_ok by done. do 2 ret_step.
  destr_if; [done|]. by replace (p <? 32) with true by lia.
Qed.

Lemma broadcast_of_own_ok cs a : Forall cidr_ok cs -> wp (broadcast_of_own cs a) (fun _ => True).
Proof.
  induction 1 as [|[own p|own p] cs Hc Hcs IH]; cbn [broadcast_of_own]; [done | | done].
  destruct Hc as [_ Hp]. wp_bind_with (v4cidr_broadcast_safe own p Hp). intros b _. by destr_if.
Qed.

Lemma cx_is_broadcast_ok cx a : Forall cidr_ok (cx_ip_addrs cx) -> wp (cx_is_broadcast cx a) (fun _ => True).
Proof.
  intros Hc. destruct a as [a|a]; [|done]. unfold cx_is_broadcast, is_broadcast_v4. destr_if; [done|].
  by apply broadcast_of_own_ok.
Qed.

Lemma is_unicast_v4_ok cx a : Forall cidr_ok (cx_ip_addrs cx) -> wp (is_unicast_v4 cx a) (fun _ => True).
Proof.
  intros Hc. unfold is_unicast_v4. destr_if; [|done].
  wp_bind_with (cx_is_broadcast_ok cx (Ipv4 a) Hc). by intros b _.
Qed.

(** ** Properties *)

(** A block contains an address exactly when the first [prefix_len] bits of the two
    addresses are the same; this needs no panic for any prefix length up to 32, 0 included. *)
Theorem v4cidr_contains_prefix a p b :
  v4_ok a -> v4_ok b -> 0 <= p <= 32 ->
  v4cidr_contains_addr a p b = Ret (Z.shiftr (v4_to_bits a) (32 - p) =? Z.shiftr (v4_to_bits b) (32 - p)).
Proof. apply v4cidr_contains_ok. Qed.

(** A network mask and its prefix length determine each other: the mask of a block is
    recognised by [from_netmask] (for every length but 0, which [from_netmask] refuses) and by
    [prefix_len] (for every length). *)
Theorem v4_netmask_roundtrip a p :
  0 <= p <= 32 ->
  exists m, v4_mask p = Ret m /\ v4_prefix_len (v4_from_bits m) = Some p /\
    v4cidr_from_netmask a (v4_from_bits m) = if p =? 0 then None else Some (CidrV4 a p).
Proof.
  intros Hp. exists (2 ^ 32 - 2 ^ (32 - p)). split; [by apply v4_mask_ok|].
  set (mask p := v4_to_bits (v4_from_bits (2 ^ 32 - 2 ^ (32 - p)))).
  assert (Hin : p ∈ seqZ 0 33) by (apply elem_of_seqZ; lia).
  assert (Hall : Forall (fun p => v4_prefix_len (v4_from_bits (2 ^ 32 - 2 ^ (32 - p))) = Some p /\
    (leading_zeros32 (mask p) =? 0) && (trailing_zeros32 (mask p) =? count_zeros32 (mask p)) = negb (p =? 0) /\
    wrap_u 8 (count_ones32 (mask p)) = p) (seqZ 0 33)).
  { apply (bool_decide_unpack _). vm_compute. exact I. }
  apply list_elem_of_In in Hin. rewrite Forall_forall in Hall. destruct (Hall p Hin) as (H1 & H2 & H3). split; [done|].
  unfold v4cidr_from_netmask. fold (mask p). rewrite H2, H3. by destruct (p =? 0).
Qed.

(** *** Concrete instances *)

Lemma v4cidr_contains_prefix_witness :
  v4cidr_contains_addr [192; 168; 1; 10] 24 [192; 168; 1; 200] =
  Ret (Z.shiftr (v4_to_bits [192; 168; 1; 10]) (32 - 24) =? Z.shiftr (v4_to_bits [192; 168; 1; 200]) (32 - 24)).
Proof.
  apply v4cidr_contains_prefix; [split; [byte_list | done] | split; [byte_list | done] | lia].
Defined.

Lemma v4_netmask_roundtrip_witness :
  exists m, v4_mask 20 = Ret m /\ v4_prefix_len (v4_from_bits m) = Some 20 /\
    v4cidr_from_netmask [10; 0; 0; 1] (v4_from_bits m) = if 20 =? 0 then None else Some (CidrV4 [10; 0; 0; 1] 20).
Proof. apply v4_netmask_roundtrip. lia. Defined.
