(* ===== verification/Ipv6Addr.v ===== *)
(** * IPv6 addresses and CIDR blocks (wire/ipv6.rs), and the blocks of both families (wire/ip.rs)

    The rest of the address operations that routing and neighbor discovery use; the scopes
    that source address selection needs are in [IfaceContext]. *)

From S2P Require Import Prelude SeqNumber ByteOrder TimeModel IpTypes IfaceContext Ipv4Addr.

(** ** IPv6 *)

Definition v6_x_is_unicast (a : list Z) : bool := negb (v6_is_multicast a || v6_is_unspecified a).

(** [0xff >> modulus] and its complement are computed at [i32], then cut to a byte. *)
Definition v6_mask (a : list Z) (mask : Z) : res (list Z) :=
  _ ← passert (mask <=? 128);
  let idx := mask / 8 in
  let modulus := mask mod 8 in
  if Zlen a <? idx then Panic
  else
    let first := take (Z.to_nat idx) a in
    let second := drop (Z.to_nat idx) a in
    bytes ← copy_into (replicate 16 0) 0 first;
    if idx <? 16 then
      part ← index second 0;
      index_set bytes idx (Z.land part (wrap_u 8 (Z.lnot (Z.shiftr 0xff modulus))))
    else Ret bytes.

Definition v6_solicited_node (a : list Z) : res (list Z) :=
  _ ← passert (v6_x_is_unicast a);
  Ret [0xff; 0x02; 0; 0; 0; 0; 0; 0; 0; 0; 0; 0x01; 0xff; octet a 13; octet a 14; octet a 15].

Definition v6_is_solicited_node_multicast (a : list Z) : bool :=
  bool_decide (take 13 a = [0xff; 0x02; 0; 0; 0; 0; 0; 0; 0; 0; 0; 0x01; 0xff]).

Definition v6_prefix_len (a : list Z) : option Z := prefix_len_loop (a ≫= byte_bits) true 0.

Definition v6cidr_new (address : list Z) (prefix_len : Z) : res Cidr :=
  _ ← passert (prefix_len <=? 128); Ret (CidrV6 address prefix_len).

Definition v6cidr_contains_addr (address : list Z) (prefix_len : Z) (addr : list Z) : res bool :=
  if prefix_len =? 0 then Ret true
  else
    m ← v6_mask address prefix_len;
    n ← v6_mask addr prefix_len;
    Ret (bool_decide (m = n)).

Definition v6cidr_contains_subnet (address : list Z) (prefix_len : Z) (subnet_addr : list Z) (subnet_len : Z) : res bool :=
  if prefix_len <=? subnet_len then v6cidr_contains_addr address prefix_len subnet_addr else Ret false.

(** ** Both families *)

Definition address_is_unicast (a : Address) : bool :=
  match a with Ipv4 a => v4_x_is_unicast a | Ipv6 a => v6_x_is_unicast a end.

Definition cidr_new (addr : Address) (prefix_len : Z) : res Cidr :=
  match addr with Ipv4 a => v4cidr_new a prefix_len | Ipv6 a => v6cidr_new a prefix_len end.

Definition cidr_address (c : Cidr) : Address :=
  match c with CidrV4 a _ => Ipv4 a | CidrV6 a _ => Ipv6 a end.

Definition cidr_prefix_len (c : Cidr) : Z := match c with CidrV4 _ p | CidrV6 _ p => p end.

Definition cidr_contains_addr (c : Cidr) (addr : Address) : res bool :=
  match c, addr with
  | CidrV4 own p, Ipv4 a => v4cidr_contains_addr own p a
  | CidrV6 own p, Ipv6 a => v6cidr_contains_addr own p a
  | _, _ => Ret false
  end.

Definition cidr_contains_subnet (c subnet : Cidr) : res bool :=
  match c, subnet with
  | CidrV4 own p, CidrV4 a q => v4cidr_contains_subnet own p a q
  | CidrV6 own p, CidrV6 a q => v6cidr_contains_subnet own p a q
  | _, _ => Ret false
  end.

#[export] Instance cidr_eq_dec : EqDecision Cidr.
Proof. solve_decision. Defined.

(** ** Lemmas *)

Definition v6_ok (a : list Z) : Prop := bytes_ok a /\ Zlen a = 16.

Definition address_ok (a : Address) : Prop := match a with Ipv4 o => v4_ok o | Ipv6 o => v6_ok o end.

(** The first [p] bits of an address, as a number. *)
Definition prefix_bits (a : Address) (p : Z) : Z :=
  let n := be_value (address_octets a) in
  match a with Ipv4 _ => Z.shiftr n (32 - p) | Ipv6 _ => Z.shiftr n (128 - p) end.

Lemma be_value_app bs cs : be_value (bs ++ cs) = be_value bs * 256 ^ Zlen cs + be_value cs.
Proof.
  induction cs as [|c cs IH] using rev_ind; [rewrite app_nil_r; change (Zlen []) with 0; change (be_value []) with 0; lia|].
  rewrite app_assoc, !be_value_snoc, IH, Zlen_app. change (Zlen [c]) with 1.
  pose proof (Zlen_nonneg cs). rewrite Z.pow_add_r by lia. lia.
Qed.

Lemma be_value_inj bs cs : bytes_ok bs -> bytes_ok cs -> length bs = length cs -> be_value bs = be_value cs -> bs = cs.
Proof. intros Hb Hc Hl E. by rewrite <- (be_bytes_value bs Hb), <- (be_bytes_value cs Hc), Hl, E. Qed.

(** Masking a byte keeps its first [m] bits. *)
Lemma mask_byte x m :
  in_u8 x -> 0 <= m < 8 -> Z.land x (wrap_u 8 (Z.lnot (Z.shiftr 0xff m))) = x / 2 ^ (8 - m) * 2 ^ (8 - m).
Proof.
  intros Hx Hm.
  assert (Hall : Forall (fun m => Forall (fun x => Z.land x (wrap_u 8 (Z.lnot (Z.shiftr 0xff m))) = x / 2 ^ (8 - m) * 2 ^ (8 - m))
    (seqZ 0 256)) (seqZ 0 8)) by (apply (bool_decide_unpack _); vm_compute; exact I).
  rewrite Forall_forall in Hall. specialize (Hall m). rewrite <- list_elem_of_In, elem_of_seqZ in Hall.
  specialize (Hall ltac:(lia)). rewrite Forall_forall in Hall. apply Hall. rewrite <- list_elem_of_In, elem_of_seqZ. mlia.
Qed.

(** The masked address by its octets. *)
Lemma v6_mask_ok a p :
  v6_ok a -> 0 <= p < 128 ->
  exists part, a !! Z.to_nat (p / 8) = Some part /\
    v6_mask a p = Ret (take (Z.to_nat (p / 8)) a ++
      part / 2 ^ (8 - p mod 8) * 2 ^ (8 - p mod 8) :: replicate (Z.to_nat (15 - p / 8)) 0).
Proof.
  intros [Hb Hl] Hp. assert (Hi0 : 0 <= p / 8 < 16) by (split; [apply Z.div_pos; lia|apply Z.div_lt_upper_bound; lia]).
  pose proof (Z.mod_pos_bound p 8 ltac:(lia)).
  set (i := p / 8) in *. assert (Hi : (Z.to_nat i < length a)%nat) by (unfold Zlen in Hl; lia).
  destruct (lookup_lt_is_Some_2 a _ Hi) as [part Hpart]. exists part. split; [done|].
  unfold v6_mask. fold i. replace (p <=? 128) with true by lia. cbn [passert]. ret_step. cbv zeta.
  replace (Zlen a <? i) with false by lia.
  assert (Ht : Zlen (take (Z.to_nat i) a) = i) by (unfold Zlen in *; rewrite length_take; lia).
  rewrite copy_into_ok by (rewrite ?Ht; unfold Zlen; rewrite ?length_replicate; lia). ret_step.
  replace (i <? 16) with true by lia.
  assert (Hd : drop (Z.to_nat i) a = part :: drop (S (Z.to_nat i)) a) by (by apply drop_S).
  rewrite Hd. change (index (part :: drop (S (Z.to_nat i)) a) 0) with (Ret part). ret_step.
  assert (Hin : in_u8 part) by (unfold bytes_ok in Hb; rewrite Forall_lookup in Hb; eauto).
  rewrite mask_byte by (done || lia). unfold splice. cbn [Z.to_nat take app].
  assert (E : drop (Z.to_nat 0 + length (take (Z.to_nat i) a)) (replicate 16 0) = 0 :: replicate (Z.to_nat (15 - i)) 0).
  { unfold Zlen in Ht. replace (Z.to_nat 0 + length (take (Z.to_nat i) a))%nat with (Z.to_nat i) by lia.
    rewrite drop_replicate. replace (16 - Z.to_nat i)%nat with (S (Z.to_nat (15 - i))) by lia. done. }
  rewrite E. apply index_set_app. by rewrite Ht.
Qed.

(** The value of an address with all bits after the first [p] cleared. *)
Lemma v6_prefix_value first part rest p :
  bytes_ok (first ++ part :: rest) -> Zlen first = p / 8 -> Zlen (first ++ part :: rest) = 16 -> 0 <= p < 128 ->
  Z.shiftr (be_value (first ++ part :: rest)) (128 - p) = be_value first * 2 ^ (p mod 8) + part / 2 ^ (8 - p mod 8).
Proof.
  intros Hb Hf Hl Hp. rewrite Zlen_app, Zlen_cons in Hl. pose proof (Z.div_mod p 8). pose proof (Z.mod_pos_bound p 8 ltac:(lia)).
  change (part :: rest) with ([part] ++ rest) in *. rewrite app_assoc in Hb |- *. rewrite be_value_app, be_value_snoc.
  apply Forall_app in Hb as [_ Hr]. pose proof (be_value_range rest Hr) as Hrest. pose proof (Zlen_nonneg rest).
  rewrite Z.shiftr_div_pow2 by lia. replace (128 - p) with (8 * Zlen rest + (8 - p mod 8)) by lia.
  rewrite Z.pow_add_r by lia. replace (256 ^ Zlen rest) with (2 ^ (8 * Zlen rest)) in * by (by rewrite Z.pow_mul_r by lia).
  rewrite <- Z.div_div by (try apply Z.pow_pos_nonneg; try apply Z.pow_nonzero; lia).
  rewrite Z.div_add_l, (Z.div_small (be_value rest)), Z.add_0_r by lia.
  replace (be_value first * 256) with (be_value first * 2 ^ (p mod 8) * 2 ^ (8 - p mod 8)).
  - rewrite Z.div_add_l; [lia|]. apply Z.pow_nonzero; lia.
  - rewrite <- Z.mul_assoc, <- Z.pow_add_r by lia. by replace (p mod 8 + (8 - p mod 8)) with 8 by lia.
Qed.

Lemma v6_value_range a : v6_ok a -> 0 <= be_value a < 2 ^ 128.
Proof. intros [Hb Hl]. pose proof (be_value_range a Hb) as R. rewrite Hl in R. exact R. Qed.

Lemma v6_mask_128 a : v6_ok a -> v6_mask a 128 = Ret a.
Proof.
  intros [_ Hl]. unfold v6_mask. change (128 <=? 128) with true. cbn [passert]. ret_step. cbv zeta.
  change (128 / 8) with 16. rewrite Hl. change (16 <? 16) with false. cbv iota.
  assert (Ht : take (Z.to_nat 16) a = a) by (apply take_ge; unfold Zlen in Hl; lia). rewrite Ht.
  rewrite copy_into_ok by (unfold Zlen in *; rewrite ?length_replicate; lia). ret_step. unfold splice. cbn [Z.to_nat take app].
  unfold Zlen in Hl. replace (Z.to_nat 0 + length a)%nat with 16%nat by lia. cbn. by rewrite app_nil_r.
Qed.

(** The octets of a masked address determine its first [p] bits, and the other way round. *)
Lemma v6_mask_eq a b p :
  v6_ok a -> v6_ok b -> 0 <= p < 128 ->
  exists ma mb, v6_mask a p = Ret ma /\ v6_mask b p = Ret mb /\
    (ma = mb <-> prefix_bits (Ipv6 a) p = prefix_bits (Ipv6 b) p).
Proof.
  intros Ha Hb Hp. destruct (v6_mask_ok a p Ha Hp) as (x & Hx & Ex). destruct (v6_mask_ok b p Hb Hp) as (y & Hy & Ey).
  do 2 eexists. split; [exact Ex|]. split; [exact Ey|]. unfold prefix_bits. cbn [address_octets].
  assert (Hi0 : 0 <= p / 8 < 16) by (split; [apply Z.div_pos; lia|apply Z.div_lt_upper_bound; lia]).
  pose proof (Z.mod_pos_bound p 8 ltac:(lia)).
  apply take_drop_middle in Hx as Da. apply take_drop_middle in Hy as Db.
  set (fa := take (Z.to_nat (p / 8)) a) in *. set (fb := take (Z.to_nat (p / 8)) b) in *.
  assert (Hfa : Zlen fa = p / 8) by (destruct Ha as [_ L]; unfold fa, Zlen in *; rewrite length_take; lia).
  assert (Hfb : Zlen fb = p / 8) by (destruct Hb as [_ L]; unfold fb, Zlen in *; rewrite length_take; lia).
  destruct Ha as [Hba Hla]. destruct Hb as [Hbb Hlb].
  assert (Hfab : bytes_ok fa) by (by apply Forall_take). assert (Hfbb : bytes_ok fb) by (by apply Forall_take).
  assert (Hx8 : in_u8 x /\ in_u8 y).
  { unfold bytes_ok in *. rewrite Forall_lookup in Hba, Hbb. split; [eapply Hba|eapply Hbb]; eassumption. }
  rewrite <- Da in Hba, Hla. rewrite <- Db in Hbb, Hlb. rewrite <- Da at 1. rewrite <- Db at 1.
  rewrite (v6_prefix_value fa x), (v6_prefix_value fb y) by assumption.
  set (m := p mod 8) in *. set (K := 2 ^ (8 - m)). set (M := 2 ^ m).
  assert (HK : 0 < K) by (apply Z.pow_pos_nonneg; lia).
  assert (HM : K * M = 256) by (unfold K, M; rewrite <- Z.pow_add_r by lia; by replace (8 - m + m) with 8 by lia).
  assert (Hq : forall z, in_u8 z -> 0 <= z / K < M).
  { intros z Hz. split; [apply Z.div_pos; mlia|]. apply Z.div_lt_upper_bound; mlia. }
  split.
  - intros E. apply app_inj_1 in E as [-> E]; [|unfold Zlen in *; lia]. injection E as E.
    apply Z.mul_reg_r in E; [|lia]. by rewrite E.
  - intros E. destruct (Z.div_mod_unique M (be_value fa) (be_value fb) (x / K) (y / K)) as [E1 E2].
    + left. apply Hq, Hx8.
    + left. apply Hq, Hx8.
    + lia.
    + apply be_value_inj in E1; [|done|done|unfold Zlen in *; lia]. by rewrite E1, E2.
Qed.

Lemma v6cidr_contains_ok a p b :
  v6_ok a -> v6_ok b -> 0 <= p <= 128 ->
  v6cidr_contains_addr a p b = Ret (prefix_bits (Ipv6 a) p =? prefix_bits (Ipv6 b) p).
Proof.
  intros Ha Hb Hp. unfold v6cidr_contains_addr.
  pose proof (v6_value_range a Ha). pose proof (v6_value_range b Hb).
  destruct (Z.eqb_spec p 0) as [->|Hp0].
  { f_equal. symmetry. apply Z.eqb_eq. unfold prefix_bits. cbn [address_octets].
    rewrite !Z.shiftr_div_pow2, !Z.div_small by lia. done. }
  destruct (Z.eq_dec p 128) as [->|Hp8].
  { rewrite !v6_mask_128 by done. do 2 ret_step. f_equal. unfold prefix_bits. cbn [address_octets].
    rewrite Z.sub_diag, !Z.shiftr_0_r. apply eq_true_iff_eq. rewrite bool_decide_eq_true, Z.eqb_eq.
    split; [by intros ->|]. destruct Ha as [? La], Hb as [? Lb]. apply be_value_inj; auto. unfold Zlen in *. lia. }
  destruct (v6_mask_eq a b p Ha Hb ltac:(lia)) as (ma & mb & -> & -> & Hiff). do 2 ret_step. f_equal.
  apply eq_true_iff_eq. by rewrite bool_decide_eq_true, Z.eqb_eq.
Qed.

(** The blocks of both families: the same family and the same first bits. *)
Definition cidr_covers (c : Cidr) (a : Address) : bool :=
  version_eqb (address_version (cidr_address c)) (address_version a) &&
  (prefix_bits (cidr_address c) (cidr_prefix_len c) =? prefix_bits a (cidr_prefix_len c)).

Lemma cidr_contains_ok c a : cidr_ok c -> address_ok a -> cidr_contains_addr c a = Ret (cidr_covers c a).
Proof.
  intros Hc Ha. unfold cidr_contains_addr, cidr_covers.
  destruct c as [own p|own p], a as [a|a]; cbn [cidr_address cidr_prefix_len address_version version_eqb andb]; try done.
  - destruct Hc as [Ho Hp]. by rewrite v4cidr_contains_ok.
  - destruct Hc as (Ho & Hl & Hp). by rewrite v6cidr_contains_ok.
Qed.

(** ** Properties *)

(** A CIDR block of either family contains an address exactly when the address is of the
    block's family and its first [prefix_len] bits are those of the block's address, read as
    one number; the IPv6 code, which masks octets, computes this for every length from 0 to
    128, the IPv4 code, which masks words, for every length from 0 to 32, neither panics. *)
Theorem cidr_contains_prefix (c : Cidr) (a : Address) :
  cidr_ok c -> address_ok a -> cidr_contains_addr c a = Ret (cidr_covers c a).
Proof. apply cidr_contains_ok. Qed.

(** *** Concrete instances *)

Definition v6_example : list Z := [0x20; 0x01; 0x0d; 0xb8; 0; 0; 0; 0; 0; 0; 0; 0; 0; 0; 0; 1].

Lemma cidr_contains_prefix_witness :
  cidr_contains_addr (CidrV6 v6_example 61) (Ipv6 (v6_example)) = Ret (cidr_covers (CidrV6 v6_example 61) (Ipv6 v6_example)).
Proof.
  apply cidr_contains_prefix; [split; [byte_list | split; [reflexivity | lia]] | split; [byte_list | reflexivity]].
Defined.

Example v6_prefix_example :
  cidr_contains_addr (CidrV6 v6_example 61) (Ipv6 (take 7 v6_example ++ [7] ++ drop 8 v6_example)) = Ret true /\
  cidr_contains_addr (CidrV6 v6_example 61) (Ipv6 (take 7 v6_example ++ [8] ++ drop 8 v6_example)) = Ret false.
Proof. split; vm_compute; reflexivity. Qed.
