(* ===== verification/Heapless.v ===== *)
(** * Bounded containers (the [Vec] and the [LinearMap] of the heapless crate)

    The crate is not part of the repository: the operations that the interface uses are the
    classes [HeaplessVec] and [LinearMap], and their documented behaviour is the classes of
    laws.  [list_vec] and [list_map] show that the laws can hold. *)

From stdpp Require Import gmap.
From S2P Require Import Prelude.

(** ** [Vec<T, N>] *)

Class HeaplessVec (T : Type) : Type := {
  hvec : Type;
  hv_elems : hvec -> list T;
  hv_new : hvec;
  hv_push : hvec -> T -> hvec * result unit T;
  hv_remove : hvec -> Z -> res (hvec * T);
}.
Arguments hvec T {_}.

(** [push] gives the element back when the vector is full; [remove] shifts the elements after
    the position and panics when there is none at it. *)
Class HeaplessVecLaws (T : Type) `{HeaplessVec T} (capacity : nat) : Prop := {
  hv_new_elems : hv_elems hv_new = [];
  hv_bounded v : (length (hv_elems v) <= capacity)%nat;
  hv_push_ok v x : (length (hv_elems v) < capacity)%nat ->
    exists v', hv_push v x = (v', Ok tt) /\ hv_elems v' = hv_elems v ++ [x];
  hv_push_full v x : length (hv_elems v) = capacity ->
    exists v', hv_push v x = (v', Err x) /\ hv_elems v' = hv_elems v;
  hv_remove_ok v i x : hv_elems v !! i = Some x ->
    exists v', hv_remove v (Z.of_nat i) = Ret (v', x) /\ hv_elems v' = delete i (hv_elems v);
}.

(** ** [LinearMap<K, V, N>] *)

Class LinearMap (K V : Type) : Type := {
  lmap : Type;
  lm_iter : lmap -> list (K * V);
  lm_new : lmap;
  lm_get : lmap -> K -> option V;
  lm_set : lmap -> K -> V -> lmap;
  lm_insert : lmap -> K -> V -> lmap * result (option V) (K * V);
  lm_remove : lmap -> K -> lmap * option V;
  lm_clear : lmap -> lmap;
}.
Arguments lmap K V {_}.

Section LinearMap.
Context {K V : Type} `{Countable K} `{!LinearMap K V}.

(** The map that a linear map holds. *)
Definition lm_map (m : lmap K V) : gmap K V := list_to_map (lm_iter m).

(** [lm_set] is the assignment through the reference that [get_mut] returns; [insert] gives
    the pair back when the key is new and the map is full. *)
Class LinearMapLaws (capacity : nat) : Prop := {
  lm_keys m : NoDup (lm_iter m).*1;
  lm_bounded m : (length (lm_iter m) <= capacity)%nat;
  lm_new_map : lm_map lm_new = ∅;
  lm_clear_map m : lm_map (lm_clear m) = ∅;
  lm_get_map m k : lm_get m k = lm_map m !! k;
  lm_set_map m k v : is_Some (lm_map m !! k) -> lm_map (lm_set m k v) = <[k := v]> (lm_map m);
  lm_insert_old m k v o : lm_map m !! k = Some o ->
    exists m', lm_insert m k v = (m', Ok (Some o)) /\ lm_map m' = <[k := v]> (lm_map m);
  lm_insert_new m k v : lm_map m !! k = None -> (length (lm_iter m) < capacity)%nat ->
    exists m', lm_insert m k v = (m', Ok None) /\ lm_map m' = <[k := v]> (lm_map m);
  lm_insert_full m k v : lm_map m !! k = None -> length (lm_iter m) = capacity ->
    exists m', lm_insert m k v = (m', Err (k, v)) /\ lm_map m' = lm_map m;
  lm_remove_map m k : exists m', lm_remove m k = (m', lm_map m !! k) /\ lm_map m' = delete k (lm_map m);
}.

Context {capacity : nat} `{!LinearMapLaws capacity}.
Implicit Types m : lmap K V.

(** The number of entries is the size of the map. *)
Lemma lm_length m : length (lm_iter m) = size (lm_map m).
Proof.
  unfold lm_map. rewrite <- (length_fmap fst (lm_iter m)), <- (size_dom (D := gset K)), dom_list_to_map_L.
  symmetry. apply size_list_to_set, lm_keys.
Qed.

Lemma lm_iter_in m k v : (k, v) ∈ lm_iter m <-> lm_map m !! k = Some v.
Proof. apply elem_of_list_to_map, lm_keys. Qed.
End LinearMap.
Arguments LinearMapLaws K V {_ _ _} capacity.

(** ** Instances: bounded lists *)

Section ListVec.
Context (T : Type) (capacity : nat).

Lemma push_bounded (v : list T) x : (length v < capacity)%nat -> (length (v ++ [x]) <= capacity)%nat.
Proof. rewrite length_app. cbn. lia. Qed.

Lemma remove_bounded (v : list T) i : (length v <= capacity)%nat -> (length (delete i v) <= capacity)%nat.
Proof.
  intros Hl. destruct (decide (i < length v)%nat) as [Hi|Hi].
  - rewrite length_delete by (by apply lookup_lt_is_Some_2). lia.
  - assert (E : delete i v = v); [|by rewrite E]. apply list_eq. intros j. rewrite list_lookup_delete.
    destruct (decide _); [done|]. by rewrite !lookup_ge_None_2 by lia.
Qed.

Definition vec_push (v : { v : list T | (length v <= capacity)%nat }) (x : T) : { v : list T | (length v <= capacity)%nat } * result unit T :=
  match decide (length (proj1_sig v) < capacity)%nat with
  | left Hl => (exist _ (proj1_sig v ++ [x]) (push_bounded _ x Hl), Ok tt)
  | right _ => (v, Err x)
  end.

Definition vec_remove (v : { v : list T | (length v <= capacity)%nat }) (i : Z) : res ({ v : list T | (length v <= capacity)%nat } * T) :=
  x ← index (proj1_sig v) i;
  Ret (exist (fun v => (length v <= capacity)%nat) (delete (Z.to_nat i) (proj1_sig v)) (remove_bounded _ (Z.to_nat i) (proj2_sig v)), x).

Definition list_vec : HeaplessVec T := {|
  hvec := { v : list T | (length v <= capacity)%nat };
  hv_elems v := proj1_sig v;
  hv_new := exist _ [] (le_0_n capacity);
  hv_push := vec_push;
  hv_remove := vec_remove;
|}.

Lemma list_vec_laws : @HeaplessVecLaws T list_vec capacity.
Proof.
  constructor; cbn.
  - done.
  - intros v. apply (proj2_sig v).
  - intros v x Hl. unfold vec_push. destruct (decide _); [|lia]. by eexists.
  - intros v x Hl. unfold vec_push. destruct (decide _); [lia|]. by eexists.
  - intros v i x Hx. unfold vec_remove, index. rewrite Nat2Z.id, (proj2 (Z.leb_le 0 (Z.of_nat i)) (Nat2Z.is_nonneg i)), Hx.
    cbn. eexists. split; [reflexivity|]. done.
Qed.
End ListVec.

Section ListMap.
Context (K V : Type) `{Countable K} (capacity : nat).

Definition map_ok (l : list (K * V)) : Prop := NoDup l.*1 /\ (length l <= capacity)%nat.

Definition list_set (l : list (K * V)) (k : K) (v : V) : list (K * V) := map (fun p => if decide (p.1 = k) then (k, v) else p) l.
Definition list_del (l : list (K * V)) (k : K) : list (K * V) := filter (fun p => p.1 <> k) l.

Lemma list_set_keys l k v : (list_set l k v).*1 = l.*1.
Proof.
  unfold list_set. induction l as [|[k' v'] l IH]; [done|]. cbn. rewrite IH. by destruct (decide _); subst.
Qed.

Lemma list_set_ok l k v : map_ok l -> map_ok (list_set l k v).
Proof. intros [Hd Hl]. unfold map_ok. rewrite list_set_keys. unfold list_set. by rewrite length_map. Qed.

Lemma list_del_ok l k : map_ok l -> map_ok (list_del l k).
Proof.
  intros [Hd Hl]. unfold list_del. split; [|pose proof (length_filter (fun p : K * V => p.1 <> k) l); lia].
  induction l as [|[k' v'] l IH]; [done|]. rewrite fmap_cons in Hd. apply list.NoDup_cons in Hd as [Hn Hd]. cbn in Hl.
  rewrite filter_cons. destruct (decide _); [|apply IH; [done|lia]]. rewrite fmap_cons. constructor; [|apply IH; [done|lia]].
  rewrite list_elem_of_fmap. intros (p & Ep & Hp). apply list_elem_of_filter in Hp as [_ Hp]. apply Hn.
  rewrite Ep. exact (list_elem_of_fmap_2 fst _ _ Hp).
Qed.

Lemma list_set_map l k v : NoDup l.*1 -> k ∈ l.*1 ->
  list_to_map (M := gmap K V) (list_set l k v) = <[k := v]> (list_to_map l).
Proof.
  induction l as [|[k' v'] l IH]; intros Hd Hk; [by apply elem_of_nil in Hk|].
  rewrite fmap_cons in Hd, Hk. apply list.NoDup_cons in Hd as [Hn Hd]. cbn in Hn, Hk. unfold list_set in *. cbn [map list_to_map foldr].
  destruct (decide _) as [E|E]; cbn in *.
  - subst k'. rewrite insert_insert_eq. f_equal.
    assert (Hid : map (fun p : K * V => if decide (p.1 = k) then (k, v) else p) l = l); [|by rewrite Hid].
    clear IH Hd Hk. induction l as [|[k' v''] l IH]; [done|]. cbn in *. rewrite not_elem_of_cons in Hn.
    destruct Hn as [Hne Hn]. rewrite decide_False by done. by rewrite IH.
  - apply elem_of_cons in Hk as [->|Hk]; [done|]. unfold list_to_map in *. rewrite IH by done. by apply insert_insert_ne.
Qed.

Lemma list_del_map l k : list_to_map (M := gmap K V) (list_del l k) = delete k (list_to_map l).
Proof.
  unfold list_del. induction l as [|[k' v'] l IH].
  - change (∅ = delete k (∅ : gmap K V)). by rewrite delete_empty.
  - change (list_to_map ((k', v') :: l)) with (<[k' := v']> (list_to_map l : gmap K V)). rewrite filter_cons.
    destruct (decide _) as [E|E]; cbn [fst] in E.
    + change (<[k' := v']> (list_to_map (filter (fun p : K * V => p.1 <> k) l) : gmap K V) = delete k (<[k' := v']> (list_to_map l))).
      by rewrite IH, delete_insert_ne.
    + assert (k' = k) as -> by (by destruct (decide (k' = k))). by rewrite IH, delete_insert_eq.
Qed.

Lemma cons_ok l k v : map_ok l -> k ∉ l.*1 -> (length l < capacity)%nat -> map_ok ((k, v) :: l).
Proof. intros [Hd Hl] Hn Hc. split; [|cbn; lia]. rewrite fmap_cons. by constructor. Qed.

Definition list_insert (m : { l | map_ok l }) (k : K) (v : V) : { l | map_ok l } * result (option V) (K * V) :=
  match decide (k ∈ (proj1_sig m).*1) with
  | left _ => (exist _ (list_set (proj1_sig m) k v) (list_set_ok _ k v (proj2_sig m)),
               Ok (list_to_map (M := gmap K V) (proj1_sig m) !! k))
  | right Hn => match decide (length (proj1_sig m) < capacity)%nat with
                | left Hl => (exist _ ((k, v) :: proj1_sig m) (cons_ok _ k v (proj2_sig m) Hn Hl), Ok None)
                | right _ => (m, Err (k, v))
                end
  end.

Lemma nil_ok : map_ok [].
Proof. split; [constructor|cbn; lia]. Qed.

Definition list_map : LinearMap K V := {|
  lmap := { l | map_ok l };
  lm_iter m := proj1_sig m;
  lm_new := exist _ [] nil_ok;
  lm_get m k := list_to_map (M := gmap K V) (proj1_sig m) !! k;
  lm_set m k v := exist _ (list_set (proj1_sig m) k v) (list_set_ok _ k v (proj2_sig m));
  lm_insert := list_insert;
  lm_remove m k := (exist _ (list_del (proj1_sig m) k) (list_del_ok _ k (proj2_sig m)), list_to_map (M := gmap K V) (proj1_sig m) !! k);
  lm_clear _ := exist _ [] nil_ok;
|}.

Lemma list_map_laws : @LinearMapLaws K V _ _ list_map capacity.
Proof.
  assert (Hin : forall (m : { l | map_ok l }) k, is_Some (list_to_map (M := gmap K V) (proj1_sig m) !! k) -> k ∈ (proj1_sig m).*1).
  { intros [l Hl] k [v Hv]. apply elem_of_list_to_map_2 in Hv. by apply (list_elem_of_fmap_2 fst) in Hv. }
  constructor; unfold lm_map; cbn.
  - intros m. apply (proj2_sig m).
  - intros m. apply (proj2_sig m).
  - done.
  - done.
  - done.
  - intros m k v Hk. apply list_set_map; [apply (proj2_sig m)|by apply Hin].
  - intros m k v o Hk. unfold list_insert. destruct (decide _) as [Hi|Hi]; [|by exfalso; apply Hi, Hin; eauto].
    eexists. split; [by rewrite Hk|]. apply list_set_map; [apply (proj2_sig m)|done].
  - intros m k v Hk Hl. unfold list_insert. destruct (decide _) as [Hi|Hi].
    { apply not_elem_of_list_to_map_2 in Hk. done. }
    destruct (decide _); [|lia]. eexists. split; [reflexivity|]. done.
  - intros m k v Hk Hl. unfold list_insert. destruct (decide _) as [Hi|Hi].
    { apply not_elem_of_list_to_map_2 in Hk. done. }
    destruct (decide _); [lia|]. eexists. split; [reflexivity|]. done.
  - intros m k. eexists. split; [reflexivity|]. apply list_del_map.
Qed.
End ListMap.
