(* ===== verification/Route.v ===== *)
(** * The routing table (iface/route.rs) and the interface's choice of a next hop (iface/interface/mod.rs)

    The storage is a vector of the heapless crate, so that the operations are those of the
    class [HeaplessVec]; an [Instant] is its number of microseconds. *)

From S2P Require Import Prelude SeqNumber ByteOrder TimeModel IpTypes IfaceContext Ipv4Addr Ipv6Addr Heapless.

Inductive RouteTableFull : Type := MkRouteTableFull.

Record Route : Type := mkRoute {
  rt_cidr : Cidr;
  rt_via_router : Address;
  rt_preferred_until : option Instant;
  rt_expires_at : option Instant;
}.

Definition IPV4_DEFAULT : Cidr := CidrV4 [0; 0; 0; 0] 0.
Definition IPV6_DEFAULT : Cidr := CidrV6 (replicate 16 0) 0.

Definition new_ipv4_gateway (gateway : list Z) : Route := mkRoute IPV4_DEFAULT (Ipv4 gateway) None None.
Definition new_ipv6_gateway (gateway : list Z) : Route := mkRoute IPV6_DEFAULT (Ipv6 gateway) None None.

(** The position of the first route to [cidr]. *)
Definition find_route (routes : list Route) (cidr : Cidr) : option nat :=
  fst <$> list_find (fun r => rt_cidr r = cidr) routes.

(** Whether the route may be used at [timestamp] for [addr]. *)
Definition route_matches (addr : Address) (timestamp : Instant) (route : Route) : res bool :=
  match rt_expires_at route with
  | Some expires_at => if expires_at <? timestamp then Ret false else cidr_contains_addr (rt_cidr route) addr
  | None => cidr_contains_addr (rt_cidr route) addr
  end.

(** [filter] and [max_by_key] in one pass: of several routes with the greatest prefix length
    the last is kept. *)
Fixpoint best_route (routes : list Route) (addr : Address) (timestamp : Instant) (best : option Route) : res (option Route) :=
  match routes with
  | [] => Ret best
  | route :: routes =>
      m ← route_matches addr timestamp route;
      best_route routes addr timestamp
        (if (m : bool) then
           match best with
           | Some b => if cidr_prefix_len (rt_cidr route) <? cidr_prefix_len (rt_cidr b) then best else Some route
           | None => Some route
           end
         else best)
  end.

Section Routes.
Context `{HeaplessVec Route}.

(** [Routes]: its [storage]. *)
Abbreviation Routes := (hvec Route) (only parsing).

Definition routes_new : Routes := hv_new.

Definition routes_update (s : Routes) (f : Routes -> Routes) : Routes := f s.

Definition remove_default_route (cidr : Cidr) (s : Routes) : res (Routes * option Route) :=
  match find_route (hv_elems s) cidr with
  | Some i => '(s, r) ← hv_remove s (Z.of_nat i); Ret (s, Some r)
  | None => Ret (s, None)
  end.

Definition remove_default_ipv4_route : Routes -> res (Routes * option Route) := remove_default_route IPV4_DEFAULT.
Definition remove_default_ipv6_route : Routes -> res (Routes * option Route) := remove_default_route IPV6_DEFAULT.

Definition add_default_ipv4_route (s : Routes) (gateway : list Z) : res (Routes * result (option Route) RouteTableFull) :=
  '(s, old) ← remove_default_ipv4_route s;
  match hv_push s (new_ipv4_gateway gateway) with
  | (s, Ok _) => Ret (s, Ok old)
  | (s, Err _) => Ret (s, Err MkRouteTableFull)
  end.

Definition add_default_ipv6_route (s : Routes) (gateway : list Z) : res (Routes * result (option Route) RouteTableFull) :=
  '(s, old) ← remove_default_ipv6_route s;
  match hv_push s (new_ipv6_gateway gateway) with
  | (s, Ok _) => Ret (s, Ok old)
  | (s, Err _) => Ret (s, Err MkRouteTableFull)
  end.

Definition routes_lookup (s : Routes) (addr : Address) (timestamp : Instant) : res (option Address) :=
  _ ← passert (address_is_unicast addr);
  best ← best_route (hv_elems s) addr timestamp None;
  Ret (option_map rt_via_router best).

(** ** The interface's next hop ([InterfaceInner::in_same_network] and [route]) *)

Fixpoint same_network (cidrs : list Cidr) (addr : Address) : res bool :=
  match cidrs with
  | [] => Ret false
  | cidr :: cidrs => b ← cidr_contains_addr cidr addr; if (b : bool) then Ret true else same_network cidrs addr
  end.

Definition in_same_network (cx : Context) (addr : Address) : res bool := same_network (cx_ip_addrs cx) addr.

Definition iface_route (cx : Context) (s : Routes) (addr : Address) (timestamp : Instant) : res (option Address) :=
  b ← in_same_network cx addr;
  if b || address_is_broadcast addr then Ret (Some addr) else routes_lookup s addr timestamp.
End Routes.

(** ** Lemmas *)

(** A route that the lookup considers, as a boolean. *)
Definition usable (addr : Address) (timestamp : Instant) (r : Route) : bool :=
  match rt_expires_at r with Some t => timestamp <=? t | None => true end && cidr_covers (rt_cidr r) addr.

Definition route_ok (r : Route) : Prop := cidr_ok (rt_cidr r).

Lemma route_matches_ok addr t r : route_ok r -> address_ok addr -> route_matches addr t r = Ret (usable addr t r).
Proof.
  intros Hr Ha. unfold route_matches, usable. rewrite cidr_contains_ok by done.
  destruct (rt_expires_at r) as [e|]; [|done]. destruct (Z.ltb_spec e t), (Z.leb_spec t e); cbn; done || lia.
Qed.

(** The last of the usable routes with the greatest prefix length. *)
Definition longest (addr : Address) (t : Instant) (rs : list Route) (best : option Route) : Prop :=
  match best with
  | None => Forall (fun r => usable addr t r = false) rs
  | Some b => exists rs1 rs2, rs = rs1 ++ b :: rs2 /\ usable addr t b = true /\
      Forall (fun r => usable addr t r = true -> cidr_prefix_len (rt_cidr r) <= cidr_prefix_len (rt_cidr b)) rs1 /\
      Forall (fun r => usable addr t r = true -> cidr_prefix_len (rt_cidr r) < cidr_prefix_len (rt_cidr b)) rs2
  end.

Lemma longest_snoc addr t rs best r :
  longest addr t rs best ->
  longest addr t (rs ++ [r])
    (if usable addr t r then
       match best with
       | Some b => if cidr_prefix_len (rt_cidr r) <? cidr_prefix_len (rt_cidr b) then best else Some r
       | None => Some r
       end
     else best).
Proof.
  intros Hl. destruct best as [b|]; cbn [longest] in Hl.
  - destruct Hl as (rs1 & rs2 & -> & Hb & H1 & H2).
    assert (Hkeep : (usable addr t r = true -> cidr_prefix_len (rt_cidr r) < cidr_prefix_len (rt_cidr b)) ->
      longest addr t ((rs1 ++ b :: rs2) ++ [r]) (Some b)).
    { intros Hr. exists rs1, (rs2 ++ [r]). rewrite <- app_assoc. split; [done|]. split; [done|]. split; [done|].
      apply Forall_app_2; [done|]. by constructor. }
    destruct (usable addr t r) eqn:Er; [|by apply Hkeep].
    destruct (Z.ltb_spec (cidr_prefix_len (rt_cidr r)) (cidr_prefix_len (rt_cidr b))); [by apply Hkeep|].
    exists (rs1 ++ b :: rs2), []. split; [done|]. split; [done|]. split; [|constructor].
    apply Forall_app_2; [|constructor; [lia|]]; eapply Forall_impl; [|exact H1| |exact H2];
      cbn; intros r' Hr' Hu; specialize (Hr' Hu); lia.
  - destruct (usable addr t r) eqn:Er.
    + exists rs, []. split; [done|]. split; [done|]. split; [|constructor].
      eapply Forall_impl; [|exact Hl]. intros r' Hr' Hu. congruence.
    + apply Forall_app_2; [done|]. by constructor.
Qed.

Lemma best_route_ok addr t rs seen best :
  Forall route_ok rs -> address_ok addr -> longest addr t seen best ->
  wp (best_route rs addr t best) (fun b => longest addr t (seen ++ rs) b).
Proof.
  intros Hrs Ha. revert seen best. induction Hrs as [|r rs Hr Hrs IH]; intros seen best Hl; cbn [best_route].
  { by rewrite app_nil_r. }
  rewrite route_matches_ok by done. ret_step. replace (seen ++ r :: rs) with ((seen ++ [r]) ++ rs) by (by rewrite <- app_assoc).
  apply IH. by apply longest_snoc.
Qed.

Lemma same_network_ok cs a :
  Forall cidr_ok cs -> address_ok a -> same_network cs a = Ret (existsb (fun c => cidr_covers c a) cs).
Proof.
  intros Hc Ha. induction Hc as [|c cs Hc Hcs IH]; [done|]. cbn [same_network existsb].
  rewrite cidr_contains_ok by done. ret_step. by destruct (cidr_covers c a).
Qed.

Section Lemmas.
Context `{HeaplessVec Route} {capacity : nat} `{!HeaplessVecLaws Route capacity}.

Lemma routes_lookup_ok s addr t :
  Forall route_ok (hv_elems s) -> address_ok addr -> address_is_unicast addr = true ->
  wp (routes_lookup s addr t) (fun o => exists b, longest addr t (hv_elems s) b /\ o = option_map rt_via_router b).
Proof.
  intros Hrs Ha Hu. unfold routes_lookup. rewrite Hu. cbn [passert]. ret_step.
  eapply wp_bind_mono; [apply (best_route_ok addr t _ [] None Hrs Ha); constructor|]. intros b Hb. cbn [app wp] in *. eauto.
Qed.

Lemma find_route_Some rs c i : find_route rs c = Some i ->
  exists r, rs !! i = Some r /\ rt_cidr r = c /\ Forall (fun r => rt_cidr r <> c) (take i rs).
Proof.
  unfold find_route. rewrite fmap_Some. intros ([j r] & Hf & ->). apply list_find_Some in Hf as (Hr & Hc & Hall).
  exists r. split; [done|]. split; [done|]. apply Forall_lookup. intros k x Hk.
  apply lookup_take_Some in Hk as [Hk ?]. eapply Hall; [exact Hk|]. done.
Qed.

Lemma find_route_None rs c : find_route rs c = None -> Forall (fun r => rt_cidr r <> c) rs.
Proof. unfold find_route. rewrite fmap_None. intros Hf. by apply list_find_None in Hf. Qed.

(** What adding a default gateway does to the list of routes. *)
Definition default_replaced (rs : list Route) (r : Route) : list Route :=
  match find_route rs (rt_cidr r) with Some i => delete i rs ++ [r] | None => rs ++ [r] end.

Lemma remove_default_ok s c :
  exists s', remove_default_route c s =
      Ret (s', match find_route (hv_elems s) c with Some i => hv_elems s !! i | None => None end) /\
    hv_elems s' = match find_route (hv_elems s) c with Some i => delete i (hv_elems s) | None => hv_elems s end.
Proof.
  unfold remove_default_route. destruct (find_route (hv_elems s) c) as [i|] eqn:E; [|by eexists].
  destruct (find_route_Some _ _ _ E) as (r & Hr & _). destruct (hv_remove_ok (capacity := capacity) s i r Hr) as (s' & -> & Hs').
  exists s'. by rewrite Hr.
Qed.

(** [add_default_ipv4_route] and [add_default_ipv6_route] after the removal. *)
Lemma add_default_ok s (r : Route) (f : res (hvec Route * result (option Route) RouteTableFull)) :
  (0 < capacity)%nat ->
  f = ('(s, old) ← remove_default_route (rt_cidr r) s;
       match hv_push s r with (s, Ok _) => Ret (s, Ok old) | (s, Err _) => Ret (s, Err MkRouteTableFull) end) ->
  wp f (fun '(s', res) =>
    let i := find_route (hv_elems s) (rt_cidr r) in
    match res with
    | Ok old => old = (match i with Some i => hv_elems s !! i | None => None end) /\
                hv_elems s' = default_replaced (hv_elems s) r
    | Err _ => i = None /\ length (hv_elems s) = capacity /\ hv_elems s' = hv_elems s
    end).
Proof.
  intros Hcap ->. destruct (remove_default_ok s (rt_cidr r)) as (s1 & E & H1). rewrite E. ret_step. clear E. unfold default_replaced.
  assert (Hlen : (length (hv_elems s1) < capacity)%nat \/
    find_route (hv_elems s) (rt_cidr r) = None /\ length (hv_elems s) = capacity /\ hv_elems s1 = hv_elems s).
  { pose proof (hv_bounded (capacity := capacity) s). destruct (find_route (hv_elems s) (rt_cidr r)) as [i|] eqn:Ef.
    - left. destruct (find_route_Some _ _ _ Ef) as (x & Hx & _). apply lookup_lt_Some in Hx as Hi.
      rewrite H1, length_delete by eauto. lia.
    - destruct (decide (length (hv_elems s) < capacity)%nat); [left; by rewrite H1|right]. repeat split; auto; lia. }
  destruct Hlen as [Hlen|(Hn & Hlen & Hs)].
  - destruct (hv_push_ok s1 r Hlen) as (s2 & -> & H2). cbn [wp]. split; [done|].
    rewrite H2, H1. by destruct (find_route _ _).
  - destruct (hv_push_full s1 r ltac:(by rewrite Hs)) as (s2 & -> & H2). cbn [wp]. split; [done|]. split; [done|].
    by rewrite H2, Hs.
Qed.

(** ** Properties *)

(** C32: the lookup of a unicast address does not panic and is a longest-prefix match: with a
    result, it is the router of a route that has not expired and whose block covers the
    address; no such route has a longer prefix, and of those with an equal one it is the
    last; without a result no route that has not expired covers the address. *)
Theorem routes_lookup_longest s addr t :
  Forall route_ok (hv_elems s) -> address_ok addr -> address_is_unicast addr = true ->
  wp (routes_lookup s addr t) (fun o => exists b, longest addr t (hv_elems s) b /\ o = option_map rt_via_router b).
Proof. apply routes_lookup_ok. Qed.

(** Adding a default IPv4 gateway replaces the first route to 0.0.0.0/0, which is returned,
    and appends the new one; it fails exactly when the table is full and has no such route, and
    leaves the routes as they are then.  The position given to [remove] is always valid. *)
Theorem add_default_route_spec s (gateway : list Z) :
  (0 < capacity)%nat ->
  wp (add_default_ipv4_route s gateway) (fun '(s', r) =>
    let i := find_route (hv_elems s) IPV4_DEFAULT in
    match r with
    | Ok old => old = (match i with Some i => hv_elems s !! i | None => None end) /\
                hv_elems s' = default_replaced (hv_elems s) (new_ipv4_gateway gateway)
    | Err _ => i = None /\ length (hv_elems s) = capacity /\ hv_elems s' = hv_elems s
    end).
Proof. intros Hcap. by apply (add_default_ok s (new_ipv4_gateway gateway)). Qed.

(** The routes stay well formed, and the next hop of a destination is found without a panic. *)
Lemma iface_route_ok cx s addr t :
  Forall cidr_ok (cx_ip_addrs cx) -> Forall route_ok (hv_elems s) -> address_ok addr ->
  address_is_unicast addr = true \/ address_is_broadcast addr = true ->
  wp (iface_route cx s addr t) (fun o =>
    if existsb (fun c => cidr_covers c addr) (cx_ip_addrs cx) || address_is_broadcast addr then o = Some addr
    else exists b, longest addr t (hv_elems s) b /\ o = option_map rt_via_router b).
Proof.
  intros Hc Hr Ha Hu. unfold iface_route, in_same_network. rewrite same_network_ok by done. ret_step.
  destruct (_ || _) eqn:E; [done|]. apply orb_false_iff in E as [_ Eb]. destruct Hu as [Hu|Hu]; [|congruence].
  by apply routes_lookup_ok.
Qed.
End Lemmas.

(** *** Concrete instances *)

Definition route_example (a p g : Z) : Route := mkRoute (CidrV4 [10; a; 0; 0] p) (Ipv4 [192; 168; 1; g]) None (Some 1000).

(** A table of four routes: one to 0.0.0.0/0, two overlapping blocks and one that has expired. *)
Definition routes_example : @hvec Route (list_vec Route 4) :=
  exist _ [new_ipv4_gateway [192; 168; 1; 1]; route_example 0 8 2; route_example 1 16 3;
           mkRoute (CidrV4 [10; 1; 2; 0] 24) (Ipv4 [192; 168; 1; 4]) None (Some 5)] (le_n 4).

Lemma routes_lookup_longest_witness :
  wp (@routes_lookup (list_vec Route 4) routes_example (Ipv4 [10; 1; 2; 3]) 10)
    (fun o => exists b, longest (Ipv4 [10; 1; 2; 3]) 10 (@hv_elems Route (list_vec Route 4) routes_example) b /\ o = option_map rt_via_router b).
Proof.
  apply (@routes_lookup_longest (list_vec Route 4)); [|split; [byte_list | reflexivity] | reflexivity].
  repeat constructor; try byte_list; vm_compute; congruence.
Defined.

Example routes_lookup_example :
  @routes_lookup (list_vec Route 4) routes_example (Ipv4 [10; 1; 2; 3]) 10 = Ret (Some (Ipv4 [192; 168; 1; 3])).
Proof. reflexivity. Qed.

Lemma add_default_route_spec_witness :
  wp (@add_default_ipv4_route (list_vec Route 4) routes_example [192; 168; 1; 9]) (fun '(s', r) =>
    let i := find_route (@hv_elems Route (list_vec Route 4) routes_example) IPV4_DEFAULT in
    match r with
    | Ok old => old = (match i with Some i => @hv_elems Route (list_vec Route 4) routes_example !! i | None => None end) /\
                @hv_elems Route (list_vec Route 4) s' = default_replaced (@hv_elems Route (list_vec Route 4) routes_example) (new_ipv4_gateway [192; 168; 1; 9])
    | Err _ => i = None /\ length (@hv_elems Route (list_vec Route 4) routes_example) = 4%nat /\
               @hv_elems Route (list_vec Route 4) s' = @hv_elems Route (list_vec Route 4) routes_example
    end).
Proof. apply (@add_default_route_spec (list_vec Route 4) 4 (list_vec_laws Route 4) routes_example). lia. Defined.
