(* ===== verification/Neighbor.v ===== *)
(** * The neighbor cache (iface/neighbor.rs), and hardware addresses (wire/mod.rs)

    The storage is a linear map of the heapless crate: the class [LinearMap]. *)

From stdpp Require Import gmap.
From S2P Require Import Prelude SeqNumber ByteOrder TimeModel IpTypes IfaceContext Ipv4Addr Ipv6Addr Heapless Route.

(** ** Hardware addresses *)

(** [ieee802154::Address]. *)
Inductive Ieee802154Address : Type := Absent | Short (octets : list Z) | Extended (octets : list Z).

(** An Ethernet address is the list of its six octets. *)
Inductive HardwareAddress : Type :=
| HardwareIp
| HardwareEthernet (octets : list Z)
| HardwareIeee802154 (a : Ieee802154Address).

#[export] Instance ieee802154_address_eq_dec : EqDecision Ieee802154Address.
Proof. solve_decision. Defined.
#[export] Instance hardware_address_eq_dec : EqDecision HardwareAddress.
Proof. solve_decision. Defined.

Definition ethernet_broadcast : list Z := replicate 6 0xff.
Definition ethernet_is_broadcast (a : list Z) : bool := bool_decide (a = ethernet_broadcast).
Definition ethernet_is_multicast (a : list Z) : bool := negb (Z.land (octet a 0) 0x01 =? 0).
Definition ethernet_is_unicast (a : list Z) : bool := negb (ethernet_is_broadcast a || ethernet_is_multicast a).

Definition ieee802154_broadcast : Ieee802154Address := Short [0xff; 0xff].
Definition ieee802154_is_unicast (a : Ieee802154Address) : bool := negb (bool_decide (a = ieee802154_broadcast)).

(** There is no address to ask about on the IP medium. *)
Definition hardware_is_unicast (a : HardwareAddress) : res bool :=
  match a with
  | HardwareIp => Panic
  | HardwareEthernet a => Ret (ethernet_is_unicast a)
  | HardwareIeee802154 a => Ret (ieee802154_is_unicast a)
  end.

#[export] Instance address_countable : Countable Address :=
  inj_countable' (fun a => match a with Ipv4 o => inl o | Ipv6 o => inr o end)
                 (fun s => match s with inl o => Ipv4 o | inr o => Ipv6 o end)
                 (fun a => match a with Ipv4 _ | Ipv6 _ => eq_refl end).

(** ** The cache *)

Record Neighbor : Type := mkNeighbor { nb_hardware_addr : HardwareAddress; nb_expires_at : Instant }.

Inductive Answer : Type := Found (a : HardwareAddress) | NotFound | RateLimited.

Definition answer_found (a : Answer) : bool := match a with Found _ => true | _ => false end.

(** In microseconds. *)
Definition SILENT_TIME : Duration := 1000000.
Definition ENTRY_LIFETIME : Duration := 60000000.

(** [min_by_key]: the first entry with the least expiry. *)
Fixpoint min_by_expiry (l : list (Address * Neighbor)) : option (Address * Neighbor) :=
  match l with
  | [] => None
  | p :: l =>
      match min_by_expiry l with
      | Some q => if nb_expires_at (snd q) <? nb_expires_at (snd p) then Some q else Some p
      | None => Some p
      end
  end.

Section Cache.
Context `{LinearMap Address Neighbor}.

Record Cache : Type := mkCache { ca_storage : lmap Address Neighbor; ca_silent_until : Instant }.

Definition cache_new : Cache := mkCache lm_new 0.

Definition cache_reset_expiry_if_existing (c : Cache) (protocol_addr : Address) (source_hardware_addr : HardwareAddress)
    (timestamp : Instant) : res Cache :=
  match lm_get (ca_storage c) protocol_addr with
  | Some n =>
      if bool_decide (source_hardware_addr = nb_hardware_addr n) then
        expires_at ← instant_add timestamp ENTRY_LIFETIME;
        Ret (mkCache (lm_set (ca_storage c) protocol_addr (mkNeighbor (nb_hardware_addr n) expires_at)) (ca_silent_until c))
      else Ret c
  | None => Ret c
  end.

Definition cache_fill_with_expiration (c : Cache) (protocol_addr : Address) (hardware_addr : HardwareAddress)
    (expires_at : Instant) : res Cache :=
  _ ← passert (address_is_unicast protocol_addr);
  u ← hardware_is_unicast hardware_addr;
  _ ← passert u;
  match lm_insert (ca_storage c) protocol_addr (mkNeighbor hardware_addr expires_at) with
  | (st, Ok _) => Ret (mkCache st (ca_silent_until c))
  | (st, Err (protocol_addr, neighbor)) =>
      match min_by_expiry (lm_iter st) with
      | None => Panic
      | Some (old_protocol_addr, _) =>
          match lm_remove st old_protocol_addr with
          | (_, None) => Panic
          | (st, Some _) =>
              match lm_insert st protocol_addr neighbor with
              | (st, Ok None) => Ret (mkCache st (ca_silent_until c))
              | _ => Panic
              end
          end
      end
  end.

Definition cache_fill (c : Cache) (protocol_addr : Address) (hardware_addr : HardwareAddress) (timestamp : Instant) : res Cache :=
  _ ← passert (address_is_unicast protocol_addr);
  u ← hardware_is_unicast hardware_addr;
  _ ← passert u;
  expires_at ← instant_add timestamp ENTRY_LIFETIME;
  cache_fill_with_expiration c protocol_addr hardware_addr expires_at.

Definition cache_lookup (c : Cache) (protocol_addr : Address) (timestamp : Instant) : res Answer :=
  _ ← passert (address_is_unicast protocol_addr);
  let silent := if timestamp <? ca_silent_until c then RateLimited else NotFound in
  Ret (match lm_get (ca_storage c) protocol_addr with
       | Some n => if timestamp <? nb_expires_at n then Found (nb_hardware_addr n) else silent
       | None => silent
       end).

Definition cache_limit_rate (c : Cache) (timestamp : Instant) : res Cache :=
  t ← instant_add timestamp SILENT_TIME; Ret (mkCache (ca_storage c) t).

Definition cache_flush (c : Cache) : Cache := mkCache (lm_clear (ca_storage c)) (ca_silent_until c).

(** [InterfaceInner::has_neighbor]. *)
Definition has_neighbor `{HeaplessVec Route} (cx : Context) (routes : hvec Route) (c : Cache) (addr : Address) : res bool :=
  r ← iface_route cx routes addr (cx_now cx);
  match r with
  | Some routed_addr =>
      match cx_medium cx with
      | MediumEthernet | MediumIeee802154 => a ← cache_lookup c routed_addr (cx_now cx); Ret (answer_found a)
      | MediumIp => Ret true
      end
  | None => Ret false
  end.

(** ** Runs *)

Inductive cache_op : Type :=
| CacheFill (protocol_addr : Address) (hardware_addr : HardwareAddress) (timestamp : Instant)
| CacheResetExpiry (protocol_addr : Address) (hardware_addr : HardwareAddress) (timestamp : Instant)
| CacheLookup (protocol_addr : Address) (timestamp : Instant)
| CacheLimitRate (timestamp : Instant)
| CacheFlush.

Definition cache_step (c : Cache) (op : cache_op) : res (Cache * option Answer) :=
  match op with
  | CacheFill a h t => c ← cache_fill c a h t; Ret (c, None)
  | CacheResetExpiry a h t => c ← cache_reset_expiry_if_existing c a h t; Ret (c, None)
  | CacheLookup a t => r ← cache_lookup c a t; Ret (c, Some r)
  | CacheLimitRate t => c ← cache_limit_rate c t; Ret (c, None)
  | CacheFlush => Ret (cache_flush c, None)
  end.

Fixpoint cache_run (c : Cache) (ops : list cache_op) : res (Cache * list Answer) :=
  match ops with
  | [] => Ret (c, [])
  | op :: ops =>
      '(c, a) ← cache_step c op;
      '(c, l) ← cache_run c ops;
      Ret (c, option_list a ++ l)
  end.
End Cache.

(** ** The unbounded cache *)

(** All neighbors that were heard of, and the end of the silence. *)
Definition neighbors : Type := gmap Address Neighbor * Instant.

Definition neighbors_lookup (s : neighbors) (a : Address) (t : Instant) : Answer :=
  match fst s !! a with
  | Some n => if t <? nb_expires_at n then Found (nb_hardware_addr n) else if t <? snd s then RateLimited else NotFound
  | None => if t <? snd s then RateLimited else NotFound
  end.

Definition neighbors_step (s : neighbors) (op : cache_op) : neighbors :=
  match op with
  | CacheFill a h t => (<[a := mkNeighbor h (t + ENTRY_LIFETIME)]> (fst s), snd s)
  | CacheResetExpiry a h t =>
      match fst s !! a with
      | Some n => if bool_decide (h = nb_hardware_addr n) then (<[a := mkNeighbor h (t + ENTRY_LIFETIME)]> (fst s), snd s) else s
      | None => s
      end
  | CacheLookup _ _ => s
  | CacheLimitRate t => (fst s, t + SILENT_TIME)
  | CacheFlush => (∅, snd s)
  end.

Fixpoint neighbors_run (s : neighbors) (ops : list cache_op) : list Answer :=
  match ops with
  | [] => []
  | op :: ops => match op with CacheLookup a t => [neighbors_lookup s a t] | _ => [] end ++ neighbors_run (neighbors_step s op) ops
  end.

(** The answer of the bounded cache is the one of the unbounded cache, or it does not know. *)
Definition answer_le (a b : Answer) : Prop := a = b \/ answer_found a = false /\ answer_found b = true.

(** The requirements of the interface: unicast addresses and times that can be added to. *)
Definition hw_ok (h : HardwareAddress) : Prop := hardware_is_unicast h = Ret true.
Definition cache_op_ok (op : cache_op) : Prop :=
  match op with
  | CacheFill a h t => address_is_unicast a = true /\ hw_ok h /\ time_ok t
  | CacheResetExpiry _ _ t | CacheLimitRate t => time_ok t
  | CacheLookup a _ => address_is_unicast a = true
  | CacheFlush => True
  end.

(** ** Lemmas *)

Lemma min_by_expiry_ok l :
  match min_by_expiry l with
  | Some q => q ∈ l /\ Forall (fun p => nb_expires_at (snd q) <= nb_expires_at (snd p)) l
  | None => l = []
  end.
Proof.
  induction l as [|p l IH]; [done|]. cbn [min_by_expiry]. destruct (min_by_expiry l) as [q|].
  - destruct IH as [Hq Hall]. destruct (Z.ltb_spec (nb_expires_at (snd q)) (nb_expires_at (snd p))) as [Hlt|Hge].
    + split; [by constructor|]. constructor; [lia|done].
    + split; [constructor|]. constructor; [lia|]. eapply Forall_impl; [|exact Hall]. cbn. lia.
  - rewrite IH. split; [constructor|]. constructor; [lia|constructor].
Qed.

Section Lemmas.
Context `{!LinearMap Address Neighbor} {capacity : nat} `{!LinearMapLaws Address Neighbor capacity} (Hcap : (0 < capacity)%nat).
Implicit Types c : Cache.

Abbreviation entries c := (lm_map (ca_storage c)).

(** What a full cache forgets for a new neighbor: one of the entries that expire first. *)
Definition evicted (m m' : gmap Address Neighbor) : Prop :=
  size m = capacity /\ exists old n, m !! old = Some n /\ m' = delete old m /\
    (forall a n', m !! a = Some n' -> nb_expires_at n <= nb_expires_at n').

Lemma cache_fill_with_expiration_ok c a h t :
  address_is_unicast a = true -> hw_ok h ->
  wp (cache_fill_with_expiration c a h t) (fun c' => ca_silent_until c' = ca_silent_until c /\
    exists m, entries c' = <[a := mkNeighbor h t]> m /\
      (m = entries c \/ entries c !! a = None /\ evicted (entries c) m)).
Proof.
  intros Ha Hh. unfold cache_fill_with_expiration. rewrite Ha, Hh. cbn [passert]. ret_step. ret_step. cbn [passert]. ret_step.
  set (st := ca_storage c). set (n := mkNeighbor h t).
  destruct (lm_map st !! a) as [o|] eqn:Eo.
  { destruct (lm_insert_old st a n o Eo) as (st' & -> & Hm). cbn [wp]. split; [done|]. exists (lm_map st). auto. }
  destruct (decide (length (lm_iter st) < capacity)%nat) as [Hl|Hl].
  { destruct (lm_insert_new st a n Eo Hl) as (st' & -> & Hm). cbn [wp]. split; [done|]. exists (lm_map st). auto. }
  assert (Hfull : length (lm_iter st) = capacity) by (pose proof (lm_bounded st); lia).
  destruct (lm_insert_full st a n Eo Hfull) as (st1 & -> & H1).
  pose proof (min_by_expiry_ok (lm_iter st1)) as Hmin. destruct (min_by_expiry (lm_iter st1)) as [[old n0]|].
  2:{ pose proof (lm_length st1) as L. rewrite Hmin, H1, <- lm_length, Hfull in L. cbn in L. lia. }
  destruct Hmin as [Hin Hall]. rewrite lm_iter_in in Hin.
  destruct (lm_remove_map st1 old) as (st2 & E2 & H2). rewrite Hin in E2. rewrite E2. rewrite H1 in *.
  assert (Hs2 : (length (lm_iter st2) < capacity)%nat).
  { rewrite lm_length, H2, map_size_delete_Some by eauto. rewrite <- lm_length. lia. }
  destruct (lm_insert_new st2 a n) as (st3 & E3 & H3); [by rewrite H2, lookup_delete_None; auto|done|]. rewrite E3. cbn [wp].
  split; [done|]. exists (lm_map st2). split; [done|]. right. split; [done|]. split; [by rewrite <- lm_length|].
  exists old, n0. split; [done|]. split; [done|]. intros b nb Hb. rewrite <- H1 in Hb. apply lm_iter_in in Hb.
  rewrite Forall_forall in Hall. apply (Hall (b, nb)). by apply list_elem_of_In.
Qed.

Lemma cache_fill_ok c a h t :
  address_is_unicast a = true -> hw_ok h -> time_ok t ->
  wp (cache_fill c a h t) (fun c' => ca_silent_until c' = ca_silent_until c /\
    exists m, entries c' = <[a := mkNeighbor h (t + ENTRY_LIFETIME)]> m /\
      (m = entries c \/ entries c !! a = None /\ evicted (entries c) m)).
Proof.
  intros Ha Hh Ht. unfold cache_fill. rewrite Ha, Hh. cbn [passert]. ret_step. ret_step. cbn [passert]. ret_step.
  rewrite instant_add_ok by (unfold time_ok, ENTRY_LIFETIME in *; lia). ret_step. by apply cache_fill_with_expiration_ok.
Qed.

(** The bounded cache never holds more than the unbounded one. *)
Definition cache_rel c (s : neighbors) : Prop := entries c ⊆ fst s /\ ca_silent_until c = snd s.

Lemma cache_step_ok c s op :
  cache_rel c s -> cache_op_ok op ->
  wp (cache_step c op) (fun '(c', a) => cache_rel c' (neighbors_step s op) /\
    match op with
    | CacheLookup addr t => exists r, a = Some r /\ answer_le r (neighbors_lookup s addr t)
    | _ => a = None
    end).
Proof.
  intros [Hsub Hsil] Hok. destruct s as [m sil]. cbn [fst snd] in *. destruct op as [a h t|a h t|a t|t|]; cbn [cache_step neighbors_step cache_op_ok fst snd] in *.
  - destruct Hok as (Ha & Hh & Ht). eapply wp_bind_mono; [by apply (cache_fill_ok c a h t)|].
    intros c' (Hs & m0 & Hm & Hcase). cbn [wp]. split; [|done]. split; cbn [fst snd]; [|congruence]. rewrite Hm.
    apply insert_mono. destruct Hcase as [->|(_ & _ & old & n & _ & -> & _)]; [done|]. etrans; [apply delete_subseteq|done].
  - unfold cache_reset_expiry_if_existing. rewrite lm_get_map. destruct (entries c !! a) as [n|] eqn:En.
    + rewrite (lookup_weaken _ _ _ _ En Hsub). case_bool_decide as Hb; [|ret_step; by cbn].
      rewrite instant_add_ok by (unfold time_ok, ENTRY_LIFETIME in *; lia). do 2 ret_step. cbn [wp]. split; [|done].
      split; cbn [fst snd ca_storage ca_silent_until]; [|done]. rewrite lm_set_map by eauto. subst h. by apply insert_mono.
    + ret_step. cbn [wp]. split; [|done]. destruct (m !! a) as [n|] eqn:Em; [|done]. case_bool_decide; [|done].
      split; cbn [fst snd]; [|done]. by apply insert_subseteq_r.
  - unfold cache_lookup. rewrite Hok. cbn [passert]. do 2 ret_step. cbn [wp]. split; [done|]. eexists. split; [done|].
    unfold neighbors_lookup, answer_le. cbn [fst snd]. rewrite lm_get_map, <- Hsil.
    destruct (entries c !! a) as [n|] eqn:En; [rewrite (lookup_weaken _ _ _ _ En Hsub); auto|].
    destruct (m !! a) as [n|]; [|auto]. destruct (t <? nb_expires_at n); [|auto]. right. by destr_if.
  - unfold cache_limit_rate. rewrite instant_add_ok by (unfold time_ok, SILENT_TIME in *; lia). do 2 ret_step. cbn [wp]. by split.
  - cbn [wp]. split; [|done]. split; cbn [fst snd cache_flush ca_storage ca_silent_until]; [|done]. rewrite lm_clear_map. apply map_empty_subseteq.
Qed.

(** ** Properties *)

(** Filling the cache does not panic (the [expect], the [unwrap] and the [unreachable] of the
    eviction included) and stores the mapping with its new expiry; every other entry stays as it
    is, except that a full cache without an entry for the address forgets one of the entries that
    expire first. *)
Theorem cache_fill_spec c a h t :
  address_is_unicast a = true -> hw_ok h -> time_ok t ->
  wp (cache_fill c a h t) (fun c' => ca_silent_until c' = ca_silent_until c /\
    exists m, entries c' = <[a := mkNeighbor h (t + ENTRY_LIFETIME)]> m /\
      (m = entries c \/ entries c !! a = None /\ evicted (entries c) m)).
Proof. apply cache_fill_ok. Qed.

(** C31: Refinement: over any run of fills, renewals, lookups, rate limits and flushes the bounded
    cache, which never panics, gives the answers of a cache without a bound, or does not know
    where that one does: a hardware address that it returns is the one last filled for that
    address, and has not expired. *)
Theorem cache_refines_unbounded (ops : list cache_op) :
  Forall cache_op_ok ops ->
  wp (cache_run cache_new ops) (fun '(_, answers) => Forall2 answer_le answers (neighbors_run (∅, 0) ops)).
Proof.
  assert (Hgen : forall c s, cache_rel c s -> Forall cache_op_ok ops ->
    wp (cache_run c ops) (fun '(_, answers) => Forall2 answer_le answers (neighbors_run s ops))).
  { induction ops as [|op ops IH]; intros c s Hrel Hok; cbn [cache_run neighbors_run]; [constructor|].
    eapply wp_bind_mono; [exact (cache_step_ok c s op Hrel (Forall_inv Hok))|]. intros [c' a] [Hrel' Ha].
    eapply wp_bind_mono; [apply (IH c' _ Hrel' (Forall_inv_tail Hok))|]. intros [c'' l] Hl. cbn [wp].
    destruct op; try (subst a; exact Hl). destruct Ha as (r & -> & Hr). by constructor. }
  intros Hok. apply Hgen; [|done]. split; cbn [fst snd cache_new ca_storage ca_silent_until]; [|done].
  rewrite lm_new_map. apply map_empty_subseteq.
Qed.
End Lemmas.

(** *** Concrete instances *)

Definition ex_hw (n : Z) : HardwareAddress := HardwareEthernet [2; 0; 0; 0; 0; n].
Definition ex_ip (n : Z) : Address := Ipv4 [192; 168; 1; n].

(** Three neighbors in a cache for two; the first one is forgotten. *)
Definition ex_cache_ops : list cache_op :=
  [CacheFill (ex_ip 1) (ex_hw 1) 0; CacheFill (ex_ip 2) (ex_hw 2) 10; CacheLookup (ex_ip 1) 20;
   CacheFill (ex_ip 3) (ex_hw 3) 30; CacheLimitRate 40; CacheLookup (ex_ip 1) 50; CacheLookup (ex_ip 2) 60000009;
   CacheLookup (ex_ip 2) 60000010].

Definition ex_map : LinearMap Address Neighbor := list_map Address Neighbor 2.

Lemma cache_refines_unbounded_witness :
  wp (@cache_run ex_map (@cache_new ex_map) ex_cache_ops) (fun '(_, answers) => Forall2 answer_le answers (neighbors_run (∅, 0) ex_cache_ops)).
Proof.
  apply (@cache_refines_unbounded ex_map 2 (list_map_laws Address Neighbor 2)); [lia|].
  repeat constructor; vm_compute; congruence.
Defined.

Example cache_run_example :
  exists c, @cache_run ex_map (@cache_new ex_map) ex_cache_ops = Ret (c, [Found (ex_hw 1); RateLimited; Found (ex_hw 2); NotFound]) /\
    neighbors_run (∅, 0) ex_cache_ops = [Found (ex_hw 1); Found (ex_hw 1); Found (ex_hw 2); NotFound].
Proof. eexists. split; vm_compute; reflexivity. Qed.

Lemma cache_fill_spec_witness :
  wp (@cache_fill ex_map (@cache_new ex_map) (ex_ip 1) (ex_hw 1) 0) (fun c' =>
    @ca_silent_until ex_map c' = @ca_silent_until ex_map (@cache_new ex_map) /\
    exists m, lm_map (@ca_storage ex_map c') = <[ex_ip 1 := mkNeighbor (ex_hw 1) (0 + ENTRY_LIFETIME)]> m /\
      (m = lm_map (@ca_storage ex_map (@cache_new ex_map)) \/
       lm_map (@ca_storage ex_map (@cache_new ex_map)) !! ex_ip 1 = None /\ @evicted 2 (lm_map (@ca_storage ex_map (@cache_new ex_map))) m)).
Proof.
  apply (@cache_fill_spec ex_map 2 (list_map_laws Address Neighbor 2)); [lia | reflexivity | reflexivity | vm_compute; split; congruence].
Defined.
