(* ===== verification/EthernetArp.v ===== *)
(** * Ethernet frames (wire/ethernet.rs) and ARP packets (wire/arp.rs)

    A frame or packet is the list of its bytes.  The addresses are in [Neighbor]. *)

From stdpp Require Import gmap.
From S2P Require Import Prelude SeqNumber IpTypes ByteOrder Ipv4Wire IfaceContext Neighbor.
#[local] Open Scope wire_scope.

Inductive EtherType : Type := EtherIpv4 | EtherArp | EtherIpv6 | EtherUnknown (id : Z).

Definition ethertype_from (v : Z) : EtherType :=
  if v =? 0x0800 then EtherIpv4 else if v =? 0x0806 then EtherArp else if v =? 0x86dd then EtherIpv6 else EtherUnknown v.
Definition ethertype_into (t : EtherType) : Z :=
  match t with EtherIpv4 => 0x0800 | EtherArp => 0x0806 | EtherIpv6 => 0x86dd | EtherUnknown id => id end.

(** [Address::from_bytes]. *)
Definition ethernet_from_bytes (data : list Z) : res (list Z) := copy_from_slice (replicate 6 0) data.

(** [ethernet::Repr]. *)
Record EthernetRepr : Type := mkEthernetRepr { eth_src : list Z; eth_dst : list Z; eth_type : EtherType }.

Inductive ArpHardware : Type := ArpEthernet | ArpHardwareUnknown (id : Z).
Definition arp_hardware_from (v : Z) : ArpHardware := if v =? 1 then ArpEthernet else ArpHardwareUnknown v.
Definition arp_hardware_into (h : ArpHardware) : Z := match h with ArpEthernet => 1 | ArpHardwareUnknown id => id end.

Inductive ArpOperation : Type := ArpRequest | ArpReply | ArpUnknown (id : Z).
Definition arp_operation_from (v : Z) : ArpOperation :=
  if v =? 1 then ArpRequest else if v =? 2 then ArpReply else ArpUnknown v.
Definition arp_operation_into (o : ArpOperation) : Z := match o with ArpRequest => 1 | ArpReply => 2 | ArpUnknown id => id end.

#[export] Instance ether_type_eq_dec : EqDecision EtherType.
Proof. solve_decision. Defined.
#[export] Instance arp_operation_eq_dec : EqDecision ArpOperation.
Proof. solve_decision. Defined.

(** [arp::Repr], with its only constructor [EthernetIpv4]. *)
Record ArpRepr : Type := mkArpEthernetIpv4 {
  arp_operation : ArpOperation;
  arp_source_hardware_addr : list Z;
  arp_source_protocol_addr : list Z;
  arp_target_hardware_addr : list Z;
  arp_target_protocol_addr : list Z;
}.

(** The ends of the address fields; the starts are the ends of the fields before them. *)
Definition ARP_OPER_END : Z := 8.
Definition arp_sha_end (hardware_len protocol_len : Z) : Z := ARP_OPER_END + hardware_len.
Definition arp_spa_end (hardware_len protocol_len : Z) : Z := arp_sha_end hardware_len protocol_len + protocol_len.
Definition arp_tha_end (hardware_len protocol_len : Z) : Z := arp_spa_end hardware_len protocol_len + hardware_len.
Definition arp_tpa_end (hardware_len protocol_len : Z) : Z := arp_tha_end hardware_len protocol_len + protocol_len.

Section Wire.
Context `{NetworkEndian}.
Implicit Types buffer : list Z.

(** ** Ethernet frames *)

Definition eth_check_len buffer : result unit WireError :=
  if Zlen buffer <? ETHERNET_HEADER_LEN then Err MkWireError else Ok tt.
Definition eth_new_checked buffer : result (list Z) WireError :=
  match eth_check_len buffer with Ok _ => Ok buffer | Err e => Err e end.
Definition eth_buffer_len (payload_len : Z) : res Z := usize_add ETHERNET_HEADER_LEN payload_len.

Definition eth_dst_addr buffer : res (list Z) := d ← slice buffer 0 6; ethernet_from_bytes d.
Definition eth_src_addr buffer : res (list Z) := d ← slice buffer 6 12; ethernet_from_bytes d.
Definition eth_ethertype buffer : res EtherType := raw ← field_read read_u16 buffer 12 14; Ret (ethertype_from raw).
Definition eth_payload buffer : res (list Z) := slice buffer 14 (Zlen buffer).

Definition eth_set_dst_addr buffer (value : list Z) := slice_mut buffer 0 6 (fun d => copy_from_slice d value).
Definition eth_set_src_addr buffer (value : list Z) := slice_mut buffer 6 12 (fun d => copy_from_slice d value).
Definition eth_set_ethertype buffer (value : EtherType) := slice_mut buffer 12 14 (fun d => write_u16 d (ethertype_into value)).
Definition eth_payload_mut buffer (f : list Z -> res (list Z)) := slice_mut buffer 14 (Zlen buffer) f.

Definition eth_parse buffer : res (result EthernetRepr WireError) :=
  match eth_check_len buffer with
  | Err e => Ret (Err e)
  | Ok _ =>
      src_addr ← eth_src_addr buffer;
      dst_addr ← eth_dst_addr buffer;
      ethertype ← eth_ethertype buffer;
      Ret (Ok (mkEthernetRepr src_addr dst_addr ethertype))
  end.

Definition eth_repr_buffer_len : Z := ETHERNET_HEADER_LEN.

Definition eth_emit (r : EthernetRepr) buffer : res (list Z) :=
  _ ← passert (eth_repr_buffer_len <=? Zlen buffer);
  buffer ← eth_set_src_addr buffer (eth_src r);
  buffer ← eth_set_dst_addr buffer (eth_dst r);
  eth_set_ethertype buffer (eth_type r).

(** ** ARP packets *)

Definition arp_hardware_type buffer : res ArpHardware := raw ← field_read read_u16 buffer 0 2; Ret (arp_hardware_from raw).
Definition arp_protocol_type buffer : res EtherType := raw ← field_read read_u16 buffer 2 4; Ret (ethertype_from raw).
Definition arp_hardware_len buffer : res Z := index buffer 4.
Definition arp_protocol_len buffer : res Z := index buffer 5.
Definition arp_get_operation buffer : res ArpOperation := raw ← field_read read_u16 buffer 6 8; Ret (arp_operation_from raw).

Definition arp_check_len buffer : res (result unit WireError) :=
  if Zlen buffer <? ARP_OPER_END then Ret (Err MkWireError)
  else
    hl ← arp_hardware_len buffer;
    pl ← arp_protocol_len buffer;
    if Zlen buffer <? arp_tpa_end hl pl then Ret (Err MkWireError) else Ret (Ok tt).
Definition arp_new_checked buffer : res (result (list Z) WireError) := _ ←? arp_check_len buffer; Ret (Ok buffer).

(** The range of an address field, for the lengths in the packet. *)
Definition arp_field buffer (start end_ : Z -> Z -> Z) : res (Z * Z) :=
  hl ← arp_hardware_len buffer; pl ← arp_protocol_len buffer; Ret (start hl pl, end_ hl pl).
Definition arp_read buffer (start end_ : Z -> Z -> Z) : res (list Z) :=
  '(a, b) ← arp_field buffer start end_; slice buffer a b.
Definition arp_write buffer (start end_ : Z -> Z -> Z) (value : list Z) : res (list Z) :=
  '(a, b) ← arp_field buffer start end_; slice_mut buffer a b (fun d => copy_from_slice d value).

Definition arp_get_sha buffer := arp_read buffer (fun _ _ => ARP_OPER_END) arp_sha_end.
Definition arp_get_spa buffer := arp_read buffer arp_sha_end arp_spa_end.
Definition arp_get_tha buffer := arp_read buffer arp_spa_end arp_tha_end.
Definition arp_get_tpa buffer := arp_read buffer arp_tha_end arp_tpa_end.

Definition arp_set_hardware_type buffer (value : ArpHardware) := slice_mut buffer 0 2 (fun d => write_u16 d (arp_hardware_into value)).
Definition arp_set_protocol_type buffer (value : EtherType) := slice_mut buffer 2 4 (fun d => write_u16 d (ethertype_into value)).
Definition arp_set_hardware_len buffer (value : Z) := index_set buffer 4 value.
Definition arp_set_protocol_len buffer (value : Z) := index_set buffer 5 value.
Definition arp_set_operation buffer (value : ArpOperation) := slice_mut buffer 6 8 (fun d => write_u16 d (arp_operation_into value)).
Definition arp_set_sha buffer (value : list Z) := arp_write buffer (fun _ _ => ARP_OPER_END) arp_sha_end value.
Definition arp_set_spa buffer (value : list Z) := arp_write buffer arp_sha_end arp_spa_end value.
Definition arp_set_tha buffer (value : list Z) := arp_write buffer arp_spa_end arp_tha_end value.
Definition arp_set_tpa buffer (value : list Z) := arp_write buffer arp_tha_end arp_tpa_end value.

Definition arp_parse buffer : res (result ArpRepr WireError) :=
  _ ←? arp_check_len buffer;
  ht ← arp_hardware_type buffer;
  pt ← arp_protocol_type buffer;
  hl ← arp_hardware_len buffer;
  pl ← arp_protocol_len buffer;
  match ht, pt, hl, pl with
  | ArpEthernet, EtherIpv4, 6, 4 =>
      operation ← arp_get_operation buffer;
      d ← arp_get_sha buffer; source_hardware_addr ← ethernet_from_bytes d;
      d ← arp_get_spa buffer; source_protocol_addr ← ipv4_from_bytes d;
      d ← arp_get_tha buffer; target_hardware_addr ← ethernet_from_bytes d;
      d ← arp_get_tpa buffer; target_protocol_addr ← ipv4_from_bytes d;
      Ret (Ok (mkArpEthernetIpv4 operation source_hardware_addr source_protocol_addr target_hardware_addr target_protocol_addr))
  | _, _, _, _ => Ret (Err MkWireError)
  end.

Definition arp_buffer_len (r : ArpRepr) : Z := arp_tpa_end 6 4.

Definition arp_emit (r : ArpRepr) buffer : res (list Z) :=
  buffer ← arp_set_hardware_type buffer ArpEthernet;
  buffer ← arp_set_protocol_type buffer EtherIpv4;
  buffer ← arp_set_hardware_len buffer 6;
  buffer ← arp_set_protocol_len buffer 4;
  buffer ← arp_set_operation buffer (arp_operation r);
  buffer ← arp_set_sha buffer (arp_source_hardware_addr r);
  buffer ← arp_set_spa buffer (arp_source_protocol_addr r);
  buffer ← arp_set_tha buffer (arp_target_hardware_addr r);
  arp_set_tpa buffer (arp_target_protocol_addr r).
End Wire.

(** * What frames and ARP packets carry *)

(** An Ethernet address by its octets. *)
Definition ethernet_addr_ok (a : list Z) : Prop := bytes_ok a /\ length a = 6%nat.

Definition ether_type_ok (t : EtherType) : Prop :=
  in_u16 (ethertype_into t) /\ ethertype_from (ethertype_into t) = t.

Lemma ethertype_from_ok v : in_u16 v -> ethertype_into (ethertype_from v) = v /\ ether_type_ok (ethertype_from v).
Proof.
  intros Hv. unfold ether_type_ok.
  assert (E : ethertype_into (ethertype_from v) = v)
    by (unfold ethertype_from; repeat case_match; cbn; lia).
  by rewrite E.
Qed.

Lemma arp_operation_from_ok v : in_u16 v -> in_u16 (arp_operation_into (arp_operation_from v)) /\
  arp_operation_from (arp_operation_into (arp_operation_from v)) = arp_operation_from v.
Proof.
  intros Hv. assert (E : arp_operation_into (arp_operation_from v) = v)
    by (unfold arp_operation_from; repeat case_match; cbn; lia). by rewrite E.
Qed.

Lemma be_value_eth a : ethernet_addr_ok a -> be_bytes 6 (be_value a) = a.
Proof. intros [Hb Hl]. rewrite <- Hl. by apply be_bytes_value. Qed.
Lemma be_bytes_eth v : ethernet_addr_ok (be_bytes 6 v).
Proof. split; [apply be_bytes_ok|]. pose proof (Zlen_be_bytes 6 v). unfold Zlen in *. lia. Qed.

(** ** Ethernet frames *)

Definition eth_hdr (dst src ty : Z) (rest : list Z) : list Z := layout_bytes [(6%nat, dst); (6%nat, src); (2%nat, ty)] ++ rest.

Lemma Zlen_eth_hdr dst src ty rest : Zlen (eth_hdr dst src ty rest) = 14 + Zlen rest.
Proof. unfold eth_hdr. by rewrite Zlen_app, Zlen_layout_bytes. Qed.

Lemma eth_hdr_view bs :
  bytes_ok bs -> 14 <= Zlen bs -> exists dst src ty rest, bs = eth_hdr dst src ty rest /\ bytes_ok rest /\ in_u16 ty.
Proof.
  intros Hb Hl. destruct (layout_view [6; 6; 2]%nat bs Hb Hl) as (l & rest & Hm & E & Hr & Hf).
  do 3 (destruct l as [|[? ?] l]; [discriminate|]). destruct l; [|discriminate].
  cbn [map fst] in Hm. injection Hm as -> -> ->.
  repeat match goal with H : Forall _ (_ :: _) |- _ => inversion H; clear H; subst end. cbn [fst snd] in *.
  change (256 ^ Z.of_nat 2) with 65536 in *. do 4 eexists. split; [reflexivity|]. split; [done | mlia].
Qed.

Section Frame.
Context `{NetworkEndianLaws}.
Variables dst src ty : Z.
Variable rest : list Z.
Abbreviation h := (eth_hdr dst src ty rest).

Ltac addr_get i := unfold eth_hdr; erewrite (layout_get i) by reflexivity; rewrite bind_Ret;
  apply copy_from_slice_ok; by rewrite Zlen_be_bytes.

Lemma eth_dst_addr_ok : eth_dst_addr h = Ret (be_bytes 6 dst).
Proof. unfold eth_dst_addr. addr_get 0%nat. Qed.
Lemma eth_src_addr_ok : eth_src_addr h = Ret (be_bytes 6 src).
Proof. unfold eth_src_addr. addr_get 1%nat. Qed.
Lemma eth_ethertype_ok : in_u16 ty -> eth_ethertype h = Ret (ethertype_from ty).
Proof. intros. unfold eth_ethertype, eth_hdr. by erewrite (layout_read_u16 2) by (reflexivity || done). Qed.
Lemma eth_payload_ok : eth_payload h = Ret rest.
Proof.
  unfold eth_payload. rewrite Zlen_eth_hdr. unfold eth_hdr. rewrite <- (app_nil_r rest) at 1.
  apply slice_mid; [done | lia].
Qed.
Lemma eth_set_dst_addr_ok a : ethernet_addr_ok a -> eth_set_dst_addr h a = Ret (eth_hdr (be_value a) src ty rest).
Proof. intros [Hb Hl]. unfold eth_set_dst_addr, eth_hdr. by erewrite (layout_copy 0) by (reflexivity || done). Qed.
Lemma eth_set_src_addr_ok a : ethernet_addr_ok a -> eth_set_src_addr h a = Ret (eth_hdr dst (be_value a) ty rest).
Proof. intros [Hb Hl]. unfold eth_set_src_addr, eth_hdr. by erewrite (layout_copy 1) by (reflexivity || done). Qed.
Lemma eth_set_ethertype_ok t : in_u16 (ethertype_into t) -> eth_set_ethertype h t = Ret (eth_hdr dst src (ethertype_into t) rest).
Proof. intros. unfold eth_set_ethertype, eth_hdr. by erewrite (layout_write_u16 2) by (reflexivity || done). Qed.
Lemma eth_payload_mut_ok f rest' : f rest = Ret rest' -> Zlen rest' = Zlen rest -> eth_payload_mut h f = Ret (eth_hdr dst src ty rest').
Proof.
  intros Hf Hl. unfold eth_payload_mut. rewrite Zlen_eth_hdr. unfold eth_hdr.
  rewrite <- (app_nil_r rest), <- (app_nil_r rest').
  apply slice_mut_mid; [done | rewrite ?app_nil_r; lia | by rewrite ?app_nil_r | mlia].
Qed.
End Frame.

Definition ethernet_repr_ok (r : EthernetRepr) : Prop :=
  ethernet_addr_ok (eth_src r) /\ ethernet_addr_ok (eth_dst r) /\ ether_type_ok (eth_type r).

Lemma eth_emit_parse_ok `{NetworkEndianLaws} r buffer :
  ethernet_repr_ok r -> bytes_ok buffer -> 14 <= Zlen buffer ->
  exists bs rest, eth_emit r buffer = Ret bs /\ bs = eth_hdr (be_value (eth_dst r)) (be_value (eth_src r)) (ethertype_into (eth_type r)) rest /\
    Zlen bs = Zlen buffer /\ drop 14 buffer = rest /\ eth_parse bs = Ret (Ok r) /\ eth_payload bs = Ret rest.
Proof.
  intros (Hs & Hd & Ht & Hti) Hb Hl. destruct (eth_hdr_view buffer Hb Hl) as (dst & src & ty & rest & -> & Hr & _).
  eexists _, rest. split.
  { unfold eth_emit, eth_repr_buffer_len, ETHERNET_HEADER_LEN. replace (14 <=? _) with true by lia. unfold passert. ret_step.
    rewrite eth_set_src_addr_ok by done. ret_step. rewrite eth_set_dst_addr_ok by done. ret_step. by rewrite eth_set_ethertype_ok. }
  split; [done|]. split; [by rewrite !Zlen_eth_hdr|]. split; [|split; [|apply eth_payload_ok]].
  { unfold eth_hdr. by apply drop_app_length'. }
  unfold eth_parse, eth_check_len, ETHERNET_HEADER_LEN. rewrite Zlen_eth_hdr. pose proof (Zlen_nonneg rest).
  replace (14 + Zlen rest <? 14) with false by lia. rewrite eth_src_addr_ok, eth_dst_addr_ok, eth_ethertype_ok by done.
  ret_steps. rewrite !be_value_eth by done. rewrite Hti. by destruct r.
Qed.

(** ** ARP packets *)

Definition arp_hdr (ht pt hl pl op sha spa tha tpa : Z) (rest : list Z) : list Z :=
  layout_bytes [(2%nat, ht); (2%nat, pt); (1%nat, hl); (1%nat, pl); (2%nat, op); (6%nat, sha); (4%nat, spa); (6%nat, tha); (4%nat, tpa)] ++ rest.

Lemma Zlen_arp_hdr ht pt hl pl op sha spa tha tpa rest : Zlen (arp_hdr ht pt hl pl op sha spa tha tpa rest) = 28 + Zlen rest.
Proof. unfold arp_hdr. by rewrite Zlen_app, Zlen_layout_bytes. Qed.

Lemma arp_hdr_view bs :
  bytes_ok bs -> 28 <= Zlen bs ->
  exists ht pt hl pl op sha spa tha tpa rest, bs = arp_hdr ht pt hl pl op sha spa tha tpa rest /\ bytes_ok rest /\
    in_u16 ht /\ in_u16 pt /\ in_u8 hl /\ in_u8 pl /\ in_u16 op.
Proof.
  intros Hb Hl. destruct (layout_view [2; 2; 1; 1; 2; 6; 4; 6; 4]%nat bs Hb Hl) as (l & rest & Hm & E & Hr & Hf).
  do 9 (destruct l as [|[? ?] l]; [discriminate|]). destruct l; [|discriminate].
  cbn [map fst] in Hm. injection Hm as -> -> -> -> -> -> -> -> ->.
  repeat match goal with H : Forall _ (_ :: _) |- _ => inversion H; clear H; subst end. cbn [fst snd] in *.
  change (256 ^ Z.of_nat 1) with 256 in *. change (256 ^ Z.of_nat 2) with 65536 in *.
  do 10 eexists. split; [reflexivity|]. split; [done|]. split_and!; mlia.
Qed.

Section Packet.
Context `{NetworkEndianLaws}.
Variables ht pt hl pl op sha spa tha tpa : Z.
Variable rest : list Z.
Abbreviation h := (arp_hdr ht pt hl pl op sha spa tha tpa rest).

Lemma arp_hardware_type_ok : in_u16 ht -> arp_hardware_type h = Ret (arp_hardware_from ht).
Proof. intros. unfold arp_hardware_type, arp_hdr. by erewrite (layout_read_u16 0) by (reflexivity || done). Qed.
Lemma arp_protocol_type_ok : in_u16 pt -> arp_protocol_type h = Ret (ethertype_from pt).
Proof. intros. unfold arp_protocol_type, arp_hdr. by erewrite (layout_read_u16 1) by (reflexivity || done). Qed.
Lemma arp_hardware_len_ok : in_u8 hl -> arp_hardware_len h = Ret hl.
Proof. intros. unfold arp_hardware_len, arp_hdr. by erewrite (layout_index 2) by (reflexivity || done). Qed.
Lemma arp_protocol_len_ok : in_u8 pl -> arp_protocol_len h = Ret pl.
Proof. intros. unfold arp_protocol_len, arp_hdr. by erewrite (layout_index 3) by (reflexivity || done). Qed.
Lemma arp_get_operation_ok : in_u16 op -> arp_get_operation h = Ret (arp_operation_from op).
Proof. intros. unfold arp_get_operation, arp_hdr. by erewrite (layout_read_u16 4) by (reflexivity || done). Qed.

Ltac word_set i := unfold arp_hdr; erewrite (layout_write_u16 i) by (reflexivity || done); reflexivity.
Lemma arp_set_hardware_type_ok v : in_u16 (arp_hardware_into v) ->
  arp_set_hardware_type h v = Ret (arp_hdr (arp_hardware_into v) pt hl pl op sha spa tha tpa rest).
Proof. intros. unfold arp_set_hardware_type. word_set 0%nat. Qed.
Lemma arp_set_protocol_type_ok v : in_u16 (ethertype_into v) ->
  arp_set_protocol_type h v = Ret (arp_hdr ht (ethertype_into v) hl pl op sha spa tha tpa rest).
Proof. intros. unfold arp_set_protocol_type. word_set 1%nat. Qed.
Lemma arp_set_hardware_len_ok v : in_u8 v -> arp_set_hardware_len h v = Ret (arp_hdr ht pt v pl op sha spa tha tpa rest).
Proof. intros. unfold arp_set_hardware_len, arp_hdr. by erewrite (layout_index_set 2) by (reflexivity || done). Qed.
Lemma arp_set_protocol_len_ok v : in_u8 v -> arp_set_protocol_len h v = Ret (arp_hdr ht pt hl v op sha spa tha tpa rest).
Proof. intros. unfold arp_set_protocol_len, arp_hdr. by erewrite (layout_index_set 3) by (reflexivity || done). Qed.
Lemma arp_set_operation_ok v : in_u16 (arp_operation_into v) ->
  arp_set_operation h v = Ret (arp_hdr ht pt hl pl (arp_operation_into v) sha spa tha tpa rest).
Proof. intros. unfold arp_set_operation. word_set 4%nat. Qed.
End Packet.

(** The address fields of a packet with the lengths of Ethernet and IPv4. *)
Section Addresses.
Context `{NetworkEndianLaws}.
Variables ht pt op sha spa tha tpa : Z.
Variable rest : list Z.
Abbreviation h := (arp_hdr ht pt 6 4 op sha spa tha tpa rest).

Lemma arp_field_ok start end_ : arp_field h start end_ = Ret (start 6 4, end_ 6 4).
Proof. unfold arp_field. rewrite arp_hardware_len_ok by mlia. ret_step. rewrite arp_protocol_len_ok by mlia. by ret_step. Qed.

Ltac addr_get i := unfold arp_read; rewrite arp_field_ok; ret_step; unfold arp_hdr; by apply (layout_get i).
Lemma arp_get_sha_ok : arp_get_sha h = Ret (be_bytes 6 sha).
Proof. unfold arp_get_sha. addr_get 5%nat. Qed.
Lemma arp_get_spa_ok : arp_get_spa h = Ret (be_bytes 4 spa).
Proof. unfold arp_get_spa. addr_get 6%nat. Qed.
Lemma arp_get_tha_ok : arp_get_tha h = Ret (be_bytes 6 tha).
Proof. unfold arp_get_tha. addr_get 7%nat. Qed.
Lemma arp_get_tpa_ok : arp_get_tpa h = Ret (be_bytes 4 tpa).
Proof. unfold arp_get_tpa. addr_get 8%nat. Qed.

Ltac addr_set i := intros [Hb Hl]; unfold arp_write; rewrite arp_field_ok; ret_step; unfold arp_hdr;
  by erewrite (layout_copy i) by (reflexivity || done).
Lemma arp_set_sha_ok a : ethernet_addr_ok a -> arp_set_sha h a = Ret (arp_hdr ht pt 6 4 op (be_value a) spa tha tpa rest).
Proof. unfold arp_set_sha. addr_set 5%nat. Qed.
Lemma arp_set_spa_ok a : ipv4_addr_ok a -> arp_set_spa h a = Ret (arp_hdr ht pt 6 4 op sha (be_value a) tha tpa rest).
Proof. unfold arp_set_spa. addr_set 6%nat. Qed.
Lemma arp_set_tha_ok a : ethernet_addr_ok a -> arp_set_tha h a = Ret (arp_hdr ht pt 6 4 op sha spa (be_value a) tpa rest).
Proof. unfold arp_set_tha. addr_set 7%nat. Qed.
Lemma arp_set_tpa_ok a : ipv4_addr_ok a -> arp_set_tpa h a = Ret (arp_hdr ht pt 6 4 op sha spa tha (be_value a) rest).
Proof. unfold arp_set_tpa. addr_set 8%nat. Qed.
End Addresses.

(** What parsing gives: addresses of their lengths. *)
Definition arp_repr_ok (r : ArpRepr) : Prop :=
  in_u16 (arp_operation_into (arp_operation r)) /\ arp_operation_from (arp_operation_into (arp_operation r)) = arp_operation r /\
  ethernet_addr_ok (arp_source_hardware_addr r) /\ ipv4_addr_ok (arp_source_protocol_addr r) /\
  ethernet_addr_ok (arp_target_hardware_addr r) /\ ipv4_addr_ok (arp_target_protocol_addr r).

Section Facts.
Context `{NetworkEndianLaws}.

Lemma arp_check_len_ok bs :
  bytes_ok bs ->
  wp (arp_check_len bs) (fun r => match r with
    | Ok _ => 8 <= Zlen bs /\ exists hl pl, arp_hardware_len bs = Ret hl /\ arp_protocol_len bs = Ret pl /\
                in_u8 hl /\ in_u8 pl /\ 8 + 2 * hl + 2 * pl <= Zlen bs
    | Err _ => True
    end).
Proof.
  intros Hb. unfold arp_check_len, ARP_OPER_END. destruct (Z.ltb_spec (Zlen bs) 8); [done|].
  assert (Hi : forall i, 0 <= i < Zlen bs -> exists x, index bs i = Ret x /\ in_u8 x).
  { intros i Hi. destruct (lookup_lt_is_Some_2 bs (Z.to_nat i)) as [x Hx]; [mlia|]. exists x. split; [apply index_ok; [lia | done]|].
    by apply (Forall_lookup_1 _ _ _ _ Hb Hx). }
  destruct (Hi 4) as (hl & Ehl & ?); [lia|]. destruct (Hi 5) as (pl & Epl & ?); [lia|].
  unfold arp_hardware_len, arp_protocol_len. rewrite Ehl, Epl. do 2 ret_step.
  destr_if; [done|]. cbn [wp]. split; [done|]. exists hl, pl. unfold arp_tpa_end, arp_tha_end, arp_spa_end, arp_sha_end, ARP_OPER_END in *.
  split_and!; try done; mlia.
Qed.

Lemma arp_parse_ok bs : bytes_ok bs -> wp (arp_parse bs) (fun r => match r with Ok r => arp_repr_ok r | Err _ => True end).
Proof.
  intros Hb. unfold arp_parse, try_bind. wp_bind_with (arp_check_len_ok bs Hb). intros [[]|e]; [|done].
  intros (Hl & hl & pl & Ehl & Epl & Hh & Hp & Hlen).
  assert (Hw : forall a b, b = a + 2 -> 0 <= a -> b <= Zlen bs -> exists v, field_read read_u16 bs a b = Ret v /\ in_u16 v).
  { intros a b -> Ha Hb2. unfold field_read. rewrite slice_ok by lia. rewrite bind_Ret, read_u16_law.
    assert (E2 : Zlen (sub bs a (a + 2 - a)) = 2) by (rewrite Zlen_sub; lia).
    rewrite be_read_ok by (rewrite E2; done). eexists. split; [reflexivity|]. rewrite take_ge by mlia.
    apply be_value_u16; [by apply bytes_ok_sub | done]. }
  unfold arp_hardware_type, arp_protocol_type. destruct (Hw 0 2) as (ht & -> & _); [lia..|]. destruct (Hw 2 4) as (pt & -> & _); [lia..|].
  rewrite !bind_Ret, Ehl, Epl. do 2 ret_step.
  destruct (arp_hardware_from ht); [|done]. destruct (ethertype_from pt); try done.
  destruct (Z.eq_dec hl 6) as [->|Hhl]; [|repeat case_match; done || lia].
  destruct (Z.eq_dec pl 4) as [->|Hpl]; [|repeat case_match; done || lia].
  destruct (arp_hdr_view bs Hb ltac:(lia)) as (ht' & pt' & hl' & pl' & op & sha & spa & tha & tpa & rest & -> & Hr & ? & ? & ? & ? & Hop).
  rewrite arp_hardware_len_ok in Ehl by done. injection Ehl as ->. rewrite arp_protocol_len_ok in Epl by done. injection Epl as ->.
  rewrite arp_get_operation_ok by done. ret_step. rewrite arp_get_sha_ok. ret_step. unfold ethernet_from_bytes, ipv4_from_bytes.
  rewrite copy_from_slice_ok by (by rewrite Zlen_be_bytes). ret_step. rewrite arp_get_spa_ok. ret_step.
  rewrite copy_from_slice_ok by (by rewrite Zlen_be_bytes). ret_step. rewrite arp_get_tha_ok. ret_step.
  rewrite copy_from_slice_ok by (by rewrite Zlen_be_bytes). ret_step. rewrite arp_get_tpa_ok. ret_step.
  rewrite copy_from_slice_ok by (by rewrite Zlen_be_bytes). ret_step. cbn [wp]. destruct (arp_operation_from_ok op Hop).
  unfold arp_repr_ok; cbn. split_and!; done || apply be_bytes_eth || apply be_bytes_addr.
Qed.

Lemma arp_emit_parse_ok r buffer :
  arp_repr_ok r -> bytes_ok buffer -> arp_buffer_len r <= Zlen buffer ->
  exists bs, arp_emit r buffer = Ret bs /\ Zlen bs = Zlen buffer /\ bytes_ok bs /\ arp_parse bs = Ret (Ok r).
Proof.
  intros (Ho & Hof & Hsh & Hsp & Hth & Htp) Hb Hl. change (arp_buffer_len r) with 28 in Hl.
  destruct (arp_hdr_view buffer Hb Hl) as (ht & pt & hl & pl & op & sha & spa & tha & tpa & rest & -> & Hr & _).
  eexists. split.
  { unfold arp_emit. rewrite arp_set_hardware_type_ok by (by vm_compute). ret_step. rewrite arp_set_protocol_type_ok by (by vm_compute). ret_step.
    rewrite arp_set_hardware_len_ok by mlia. ret_step. rewrite arp_set_protocol_len_ok by mlia. ret_step.
    rewrite arp_set_operation_ok by done. ret_step. rewrite arp_set_sha_ok by done. ret_step. rewrite arp_set_spa_ok by done. ret_step.
    rewrite arp_set_tha_ok by done. ret_step. by rewrite arp_set_tpa_ok. }
  split; [by rewrite !Zlen_arp_hdr|]. split; [apply bytes_ok_app; split; [apply layout_bytes_ok | done]|].
  pose proof (Zlen_nonneg rest). unfold arp_parse, arp_check_len, try_bind, ARP_OPER_END. rewrite Zlen_arp_hdr. replace (28 + Zlen rest <? 8) with false by lia.
  rewrite arp_hardware_len_ok, arp_protocol_len_ok by mlia. rewrite !bind_Ret. change (arp_tpa_end 6 4) with 28.
  replace (28 + Zlen rest <? 28) with false by lia. ret_step.
  rewrite arp_hardware_type_ok by (by vm_compute). ret_step. rewrite arp_protocol_type_ok by (by vm_compute). ret_steps.
  change (arp_hardware_from (arp_hardware_into ArpEthernet)) with ArpEthernet. change (ethertype_from (ethertype_into EtherIpv4)) with EtherIpv4. cbv iota.
  rewrite arp_get_operation_ok, Hof by done. ret_step. unfold ethernet_from_bytes, ipv4_from_bytes.
  rewrite arp_get_sha_ok, arp_get_spa_ok, arp_get_tha_ok, arp_get_tpa_ok. ret_steps.
  rewrite !be_value_eth, !be_value_addr by done.
  destruct Hsh as [? L1], Hsp as [? L2], Hth as [? L3], Htp as [? L4].
  rewrite (copy_from_slice_ok _ (arp_source_hardware_addr r)) by (unfold Zlen; rewrite L1; done). ret_steps.
  rewrite (copy_from_slice_ok _ (arp_source_protocol_addr r)) by (unfold Zlen; rewrite L2; done). ret_steps.
  rewrite (copy_from_slice_ok _ (arp_target_hardware_addr r)) by (unfold Zlen; rewrite L3; done). ret_steps.
  rewrite (copy_from_slice_ok _ (arp_target_protocol_addr r)) by (unfold Zlen; rewrite L4; done). ret_steps.
  by destruct r.
Qed.
End Facts.

(** An ARP packet that is emitted into a buffer that has room for it, whatever the buffer held,
    is parsed back as it was. *)
Theorem arp_emit_parse `{NetworkEndianLaws} r buffer :
  arp_repr_ok r -> bytes_ok buffer -> arp_buffer_len r <= Zlen buffer ->
  exists bs, arp_emit r buffer = Ret bs /\ Zlen bs = Zlen buffer /\ bytes_ok bs /\ arp_parse bs = Ret (Ok r).
Proof. apply arp_emit_parse_ok. Qed.

Definition ex_arp : ArpRepr :=
  mkArpEthernetIpv4 ArpRequest [0x11; 0x12; 0x13; 0x14; 0x15; 0x16] [0x21; 0x22; 0x23; 0x24]
    [0x31; 0x32; 0x33; 0x34; 0x35; 0x36] [0x41; 0x42; 0x43; 0x44].

Lemma arp_emit_parse_witness :
  exists bs, @arp_emit network_endian ex_arp (replicate 28 0xa5) = Ret bs /\ Zlen bs = Zlen (replicate 28 0xa5) /\
    bytes_ok bs /\ @arp_parse network_endian bs = Ret (Ok ex_arp).
Proof.
  apply (@arp_emit_parse network_endian network_endian_laws); [|byte_list|by vm_compute].
  unfold ex_arp. repeat split; cbn; try (by vm_compute); byte_list.
Defined.
