(* ===== verification/Ipv6Wire.v ===== *)
(** * IPv6 packets on the wire (wire/ipv6.rs)

    Definitions as in [Ipv4Wire]; [Repr] is the [IpHeader] of [IpTypes]. *)

From S2P Require Import Prelude SeqNumber IpTypes ByteOrder Ipv4Wire.
#[local] Open Scope wire_scope.

(** [Address::from_bytes]. *)
Definition ipv6_from_bytes (data : list Z) : res (list Z) := copy_from_slice (replicate 16 0) data.

Section Packet.
Context `{NetworkEndian}.
Implicit Types buffer : list Z.

(** ** Reading fields *)

Definition ip6_header_len : Z := IPV6_HEADER_LEN.
Definition ip6_version buffer : res Z := x ← index buffer 0; Ret (Z.shiftr x 4).
Definition ip6_traffic_class buffer : res Z :=
  x ← field_read read_u16 buffer 0 2; Ret (wrap_u 8 (Z.shiftr (Z.land x 0x0ff0) 4)).
Definition ip6_flow_label buffer : res Z := x ← field_read read_u24 buffer 1 4; Ret (Z.land x 0x000fffff).
Definition ip6_payload_len buffer : res Z := field_read read_u16 buffer 4 6.
Definition ip6_total_len buffer : res Z := n ← ip6_payload_len buffer; usize_add ip6_header_len n.
Definition ip6_next_header buffer : res Z := index buffer 6.
Definition ip6_hop_limit buffer : res Z := index buffer 7.
Definition ip6_src_addr buffer : res (list Z) := d ← slice buffer 8 24; ipv6_from_bytes d.
Definition ip6_dst_addr buffer : res (list Z) := d ← slice buffer 24 40; ipv6_from_bytes d.

Definition ip6_check_len buffer : res (result unit WireError) :=
  let len := Zlen buffer in
  if len <? 40 then Ret (Err MkWireError)
  else
    total_len ← ip6_total_len buffer;
    if len <? total_len then Ret (Err MkWireError) else Ret (Ok tt).

Definition ip6_new_checked buffer : res (result (list Z) WireError) :=
  _ ←? ip6_check_len buffer; Ret (Ok buffer).

Definition ip6_payload buffer : res (list Z) :=
  total_len ← ip6_total_len buffer;
  slice buffer ip6_header_len total_len.

(** ** Writing fields *)

Definition ip6_set_version buffer (value : Z) : res (list Z) :=
  update_byte buffer 0 (fun x => Z.lor (Z.land x 0x0f) (wrap_u 8 (Z.shiftl (Z.land value 0x0f) 4))).
Definition ip6_set_traffic_class buffer (value : Z) : res (list Z) :=
  buffer ← update_byte buffer 0 (fun x => Z.lor (Z.land x 0xf0) (Z.shiftr (Z.land value 0xf0) 4));
  update_byte buffer 1 (fun x => Z.lor (Z.land x 0x0f) (wrap_u 8 (Z.shiftl (Z.land value 0x0f) 4))).
Definition ip6_set_flow_label buffer (value : Z) : res (list Z) :=
  x ← index buffer 1;
  let raw := Z.lor (Z.shiftl (Z.land x 0xf0) 16) (Z.land value 0x0fffff) in
  slice_mut buffer 1 4 (fun d => write_u24 d raw).
Definition ip6_set_payload_len buffer (v : Z) := slice_mut buffer 4 6 (fun d => write_u16 d v).
Definition ip6_set_next_header buffer (v : Z) := index_set buffer 6 v.
Definition ip6_set_hop_limit buffer (v : Z) := index_set buffer 7 v.
Definition ip6_set_src_addr buffer (v : list Z) := slice_mut buffer 8 24 (fun d => copy_from_slice d v).
Definition ip6_set_dst_addr buffer (v : list Z) := slice_mut buffer 24 40 (fun d => copy_from_slice d v).
Definition ip6_payload_mut buffer (f : list Z -> res (list Z)) : res (list Z) :=
  total_len ← ip6_total_len buffer;
  slice_mut buffer ip6_header_len total_len f.

(** ** [Repr] *)

Definition ipv6_parse buffer : res (result IpHeader WireError) :=
  _ ←? ip6_check_len buffer;
  version ← ip6_version buffer;
  if negb (version =? 6) then Ret (Err MkWireError)
  else
    src_addr ← ip6_src_addr buffer;
    dst_addr ← ip6_dst_addr buffer;
    next_header ← ip6_next_header buffer;
    payload_len ← ip6_payload_len buffer;
    hop_limit ← ip6_hop_limit buffer;
    Ret (Ok (mkIpHeader src_addr dst_addr next_header payload_len hop_limit)).

Definition ipv6_buffer_len (r : IpHeader) : Z := 40.

Definition ipv6_emit (r : IpHeader) buffer : res (list Z) :=
  buffer ← ip6_set_version buffer 6;
  buffer ← ip6_set_traffic_class buffer 0;
  buffer ← ip6_set_flow_label buffer 0;
  buffer ← ip6_set_payload_len buffer (wrap_u 16 (iph_payload_len r));
  buffer ← ip6_set_hop_limit buffer (iph_hop_limit r);
  buffer ← ip6_set_next_header buffer (iph_next_header r);
  buffer ← ip6_set_src_addr buffer (iph_src r);
  ip6_set_dst_addr buffer (iph_dst r).
End Packet.

(** * What the IPv6 header carries *)

(** The first four bytes are kept apart: the flow label crosses their fields. *)
Definition ip6_hdr (b0 b1 b2 b3 len nh hop src dst : Z) (rest : list Z) : list Z :=
  layout_bytes [(1%nat, b0); (1%nat, b1); (1%nat, b2); (1%nat, b3); (2%nat, len); (1%nat, nh); (1%nat, hop); (16%nat, src); (16%nat, dst)] ++ rest.

Lemma Zlen_ip6_hdr b0 b1 b2 b3 len nh hop src dst rest : Zlen (ip6_hdr b0 b1 b2 b3 len nh hop src dst rest) = 40 + Zlen rest.
Proof. unfold ip6_hdr. by rewrite Zlen_app, Zlen_layout_bytes. Qed.

Lemma ip6_hdr_bytes_ok b0 b1 b2 b3 len nh hop src dst rest : bytes_ok rest -> bytes_ok (ip6_hdr b0 b1 b2 b3 len nh hop src dst rest).
Proof. intros. apply bytes_ok_app. split; [apply layout_bytes_ok | done]. Qed.

Lemma ip6_hdr_view bs :
  bytes_ok bs -> 40 <= Zlen bs ->
  exists b0 b1 b2 b3 len nh hop src dst rest, bs = ip6_hdr b0 b1 b2 b3 len nh hop src dst rest /\ bytes_ok rest /\
    in_u8 b0 /\ in_u8 b1 /\ in_u16 len /\ in_u8 nh /\ in_u8 hop.
Proof.
  intros Hb Hl. destruct (layout_view [1; 1; 1; 1; 2; 1; 1; 16; 16]%nat bs Hb Hl) as (l & rest & Hm & E & Hr & Hf).
  do 9 (destruct l as [|[? ?] l]; [discriminate|]). destruct l; [|discriminate].
  cbn [map fst] in Hm. injection Hm as -> -> -> -> -> -> -> -> ->.
  repeat match goal with H : Forall _ (_ :: _) |- _ => inversion H; clear H; subst end. cbn [fst snd] in *.
  change (256 ^ Z.of_nat 1) with 256 in *. change (256 ^ Z.of_nat 2) with 65536 in *.
  do 10 eexists. split; [reflexivity|]. split; [done|]. split_and!; mlia.
Qed.

(** An IPv6 address by its octets. *)
Definition ipv6_addr_ok (a : list Z) : Prop := bytes_ok a /\ length a = 16%nat.

Lemma be_bytes_addr6 v : ipv6_addr_ok (be_bytes 16 v).
Proof. split; [apply be_bytes_ok|]. pose proof (Zlen_be_bytes 16 v). unfold Zlen in *. lia. Qed.
Lemma be_value_addr6 a : ipv6_addr_ok a -> be_bytes 16 (be_value a) = a.
Proof. intros [Hb Hl]. rewrite <- Hl. by apply be_bytes_value. Qed.

Section Header.
Context `{NetworkEndianLaws}.
Variables b0 b1 b2 b3 len nh hop src dst : Z.
Variable rest : list Z.
Abbreviation h := (ip6_hdr b0 b1 b2 b3 len nh hop src dst rest).

Ltac byte_get i := intros; unfold ip6_hdr; by erewrite (layout_index i) by (reflexivity || done).
Ltac byte_set i := intros; unfold ip6_hdr; by erewrite (layout_index_set i) by (reflexivity || done).

Lemma ip6_b0_ok : in_u8 b0 -> index h 0 = Ret b0.
Proof. byte_get 0%nat. Qed.
Lemma ip6_b1_ok : in_u8 b1 -> index h 1 = Ret b1.
Proof. byte_get 1%nat. Qed.
Lemma ip6_payload_len_ok : in_u16 len -> ip6_payload_len h = Ret len.
Proof. intros. unfold ip6_payload_len, ip6_hdr. by apply (layout_read_u16 4). Qed.
Lemma ip6_next_header_ok : in_u8 nh -> ip6_next_header h = Ret nh.
Proof. unfold ip6_next_header. byte_get 5%nat. Qed.
Lemma ip6_hop_limit_ok : in_u8 hop -> ip6_hop_limit h = Ret hop.
Proof. unfold ip6_hop_limit. byte_get 6%nat. Qed.
Lemma ip6_src_addr_ok : ip6_src_addr h = Ret (be_bytes 16 src).
Proof.
  unfold ip6_src_addr, ip6_hdr. erewrite (layout_get 7) by reflexivity. rewrite bind_Ret.
  apply copy_from_slice_ok. by rewrite Zlen_be_bytes.
Qed.
Lemma ip6_dst_addr_ok : ip6_dst_addr h = Ret (be_bytes 16 dst).
Proof.
  unfold ip6_dst_addr, ip6_hdr. erewrite (layout_get 8) by reflexivity. rewrite bind_Ret.
  apply copy_from_slice_ok. by rewrite Zlen_be_bytes.
Qed.
Lemma ip6_total_len_ok : in_u16 len -> ip6_total_len h = Ret (40 + len).
Proof. intros. unfold ip6_total_len. rewrite ip6_payload_len_ok by done. rewrite bind_Ret. apply usize_add_ok. unfold ip6_header_len, IPV6_HEADER_LEN. mlia. Qed.

Lemma ip6_update_b0 f : in_u8 b0 -> in_u8 (f b0) -> update_byte h 0 f = Ret (ip6_hdr (f b0) b1 b2 b3 len nh hop src dst rest).
Proof. intros. unfold update_byte. rewrite ip6_b0_ok, bind_Ret by done. byte_set 0%nat. Qed.
Lemma ip6_update_b1 f : in_u8 b1 -> in_u8 (f b1) -> update_byte h 1 f = Ret (ip6_hdr b0 (f b1) b2 b3 len nh hop src dst rest).
Proof. intros. unfold update_byte. rewrite ip6_b1_ok, bind_Ret by done. byte_set 1%nat. Qed.
Lemma ip6_write_flow v : 0 <= v < 2 ^ 24 ->
  slice_mut h 1 4 (fun d => write_u24 d v) = Ret (ip6_hdr b0 (v / 256 / 256) (v / 256) v len nh hop src dst rest).
Proof.
  intros Hv. pose (tail := layout_bytes [(2%nat, len); (1%nat, nh); (1%nat, hop); (16%nat, src); (16%nat, dst)] ++ rest).
  change h with (be_bytes 1 b0 ++ (be_bytes 1 b1 ++ be_bytes 1 b2 ++ be_bytes 1 b3) ++ tail).
  apply (slice_mut_mid (be_bytes 1 b0) _ (be_bytes 3 v) tail); [done | done | | done].
  rewrite write_u24_law by done. by apply be_write_exact.
Qed.
Lemma ip6_set_payload_len_ok v : in_u16 v -> ip6_set_payload_len h v = Ret (ip6_hdr b0 b1 b2 b3 v nh hop src dst rest).
Proof. intros. unfold ip6_set_payload_len, ip6_hdr. by erewrite (layout_write_u16 4) by (reflexivity || done). Qed.
Lemma ip6_set_next_header_ok v : in_u8 v -> ip6_set_next_header h v = Ret (ip6_hdr b0 b1 b2 b3 len v hop src dst rest).
Proof. unfold ip6_set_next_header. byte_set 5%nat. Qed.
Lemma ip6_set_hop_limit_ok v : in_u8 v -> ip6_set_hop_limit h v = Ret (ip6_hdr b0 b1 b2 b3 len nh v src dst rest).
Proof. unfold ip6_set_hop_limit. byte_set 6%nat. Qed.
Lemma ip6_set_src_addr_ok a : ipv6_addr_ok a -> ip6_set_src_addr h a = Ret (ip6_hdr b0 b1 b2 b3 len nh hop (be_value a) dst rest).
Proof. intros [Hb Hl]. unfold ip6_set_src_addr, ip6_hdr. by erewrite (layout_copy 7) by (reflexivity || done). Qed.
Lemma ip6_set_dst_addr_ok a : ipv6_addr_ok a -> ip6_set_dst_addr h a = Ret (ip6_hdr b0 b1 b2 b3 len nh hop src (be_value a) rest).
Proof. intros [Hb Hl]. unfold ip6_set_dst_addr, ip6_hdr. by erewrite (layout_copy 8) by (reflexivity || done). Qed.
End Header.

(** The values that parsing may produce, and those that [emit] can write without a loss. *)
Record ip6_header_ok (r : IpHeader) : Prop := {
  ih6_src : ipv6_addr_ok (iph_src r);
  ih6_dst : ipv6_addr_ok (iph_dst r);
  ih6_next_header : in_u8 (iph_next_header r);
  ih6_payload_len : in_u16 (iph_payload_len r);
  ih6_hop_limit : in_u8 (iph_hop_limit r);
}.

Definition ip6_emitted (r : IpHeader) (rest : list Z) : list Z :=
  ip6_hdr 0x60 0 0 0 (iph_payload_len r) (iph_next_header r) (iph_hop_limit r) (be_value (iph_src r)) (be_value (iph_dst r)) rest.

Lemma low_high_nibble x : in_u8 x -> in_u8 (Z.lor (Z.land x 0x0f) 0x60) /\ Z.lor (Z.land (Z.lor (Z.land x 0x0f) 0x60) 0xf0) 0 = 0x60.
Proof.
  intros Hx. split; [apply in_u8_lor; [by apply in_u8_land_l | by vm_compute]|].
  rewrite Z.lor_0_r, Z.land_lor_distr_l, <- Z.land_assoc. change (Z.land 15 240) with 0. by rewrite Z.land_0_r.
Qed.

Section Facts.
Context `{NetworkEndianLaws}.

Lemma ip6_check_len_ok bs :
  bytes_ok bs ->
  wp (ip6_check_len bs) (fun r => match r with
    | Ok _ => 40 <= Zlen bs /\ exists len, ip6_payload_len bs = Ret len /\ ip6_total_len bs = Ret (40 + len) /\ in_u16 len /\ 40 + len <= Zlen bs
    | Err _ => True
    end).
Proof.
  intros Hb. unfold ip6_check_len. destruct (Z.ltb_spec (Zlen bs) 40); [done|].
  destruct (ip6_hdr_view bs Hb ltac:(done)) as (b0 & b1 & b2 & b3 & len & nh & hop & src & dst & rest & -> & ? & ? & ? & ? & _).
  rewrite ip6_total_len_ok, ip6_payload_len_ok by done. ret_step. destr_if; [done|]. cbn [wp]. split; [done|].
  exists len. split_and!; done || lia.
Qed.

Lemma ipv6_parse_ok bs :
  bytes_ok bs ->
  wp (ipv6_parse bs) (fun r => match r with
    | Ok r => ip6_header_ok r /\ 40 + iph_payload_len r <= Zlen bs /\ ip6_payload bs = Ret (sub bs 40 (iph_payload_len r))
    | Err _ => True
    end).
Proof.
  intros Hb. unfold ipv6_parse, try_bind. wp_bind_with (ip6_check_len_ok bs Hb). intros [[]|e]; [|done].
  intros (Hl & len0 & Epl & Etl & Hu & Hfit).
  assert (Hpay : ip6_payload bs = Ret (sub bs 40 len0)).
  { unfold ip6_payload. rewrite Etl. ret_step. change ip6_header_len with 40. rewrite slice_ok by mlia. f_equal. f_equal. lia. }
  destruct (ip6_hdr_view bs Hb Hl) as (b0 & b1 & b2 & b3 & len & nh & hop & src & dst & rest & -> & ? & ? & ? & ? & ? & ?).
  rewrite ip6_payload_len_ok in Epl by done. injection Epl as <-.
  unfold ip6_version. rewrite ip6_b0_ok by done. do 2 ret_step. destr_if; [done|].
  rewrite ip6_src_addr_ok, ip6_dst_addr_ok, ip6_next_header_ok, ip6_payload_len_ok, ip6_hop_limit_ok by done. ret_steps. cbn [wp].
  split; [constructor; cbn; done || apply be_bytes_addr6|]. by split.
Qed.

Lemma ipv6_emit_ok r bs : bytes_ok bs -> 40 <= Zlen bs -> ip6_header_ok r -> ipv6_emit r bs = Ret (ip6_emitted r (drop 40 bs)).
Proof.
  intros Hb Hl [Hsrc Hdst Hnh Hpl Hhop].
  destruct (ip6_hdr_view bs Hb Hl) as (b0 & b1 & b2 & b3 & len & nh & hop & src & dst & rest & -> & Hr & ? & ? & _).
  assert (E : drop 40 (ip6_hdr b0 b1 b2 b3 len nh hop src dst rest) = rest) by (unfold ip6_hdr; by rewrite drop_app_length').
  rewrite E. clear E. destruct (low_high_nibble b0 ltac:(done)) as [Hv Ht].
  unfold ipv6_emit, ip6_set_version, ip6_set_traffic_class. change (wrap_u 8 (Z.shiftl (Z.land 6 15) 4)) with 0x60.
  change (Z.shiftr (Z.land 0 240) 4) with 0. change (wrap_u 8 (Z.shiftl (Z.land 0 15) 4)) with 0.
  rewrite ip6_update_b0 by done. ret_step. rewrite ip6_update_b0 by (done || by (rewrite Ht; vm_compute)). rewrite Ht. ret_step.
  rewrite ip6_update_b1 by (done || (rewrite Z.lor_0_r; by apply in_u8_land_l)). ret_step.
  assert (Hu : in_u8 (Z.lor (Z.land b1 15) 0)) by (rewrite Z.lor_0_r; by apply in_u8_land_l).
  unfold ip6_set_flow_label. rewrite ip6_b1_ok by done. ret_step.
  assert (Hraw : Z.lor (Z.shiftl (Z.land (Z.lor (Z.land b1 15) 0) 240) 16) (Z.land 0 1048575) = 0).
  { change (Z.land 0 1048575) with 0. rewrite !Z.lor_0_r, <- Z.land_assoc. change (Z.land 15 240) with 0. by rewrite Z.land_0_r. }
  rewrite Hraw. rewrite ip6_write_flow by lia. ret_step. rewrite (wrap_u_id 16) by mlia.
  rewrite ip6_set_payload_len_ok by done. ret_step. rewrite ip6_set_hop_limit_ok by done. ret_step.
  rewrite ip6_set_next_header_ok by done. ret_step. rewrite ip6_set_src_addr_ok by done. ret_step. by rewrite ip6_set_dst_addr_ok.
Qed.

Lemma ipv6_parse_emitted r rest :
  ip6_header_ok r -> iph_payload_len r <= Zlen rest ->
  ipv6_parse (ip6_emitted r rest) = Ret (Ok r) /\ ip6_payload (ip6_emitted r rest) = Ret (sub rest 0 (iph_payload_len r)).
Proof.
  intros [Hsrc Hdst Hnh Hpl Hhop] Hl. unfold ip6_emitted. split.
  - unfold ipv6_parse, ip6_check_len, try_bind. rewrite Zlen_ip6_hdr. replace (40 + Zlen rest <? 40) with false by mlia.
    rewrite ip6_total_len_ok, bind_Ret by done. replace (40 + Zlen rest <? 40 + iph_payload_len r) with false by lia. ret_step.
    unfold ip6_version. rewrite ip6_b0_ok by (by vm_compute). do 2 ret_step. change (Z.shiftr 96 4 =? 6) with true. cbv iota.
    rewrite ip6_src_addr_ok, ip6_dst_addr_ok, ip6_next_header_ok, ip6_payload_len_ok, ip6_hop_limit_ok by done. ret_steps.
    rewrite !be_value_addr6 by done. by destruct r.
  - unfold ip6_payload. rewrite ip6_total_len_ok by done. ret_step. change ip6_header_len with 40.
    rewrite slice_ok by (rewrite ?Zlen_ip6_hdr; mlia). f_equal. rewrite Z.add_simpl_l. unfold ip6_hdr, sub.
    by rewrite drop_app_length'.
Qed.
End Facts.

(** An IPv6 header that is emitted into a buffer with the payload behind it, whatever the
    buffer held, is parsed back as it was, and the payload is the one that follows it. *)
Theorem ipv6_emit_parse `{NetworkEndianLaws} r buffer :
  ip6_header_ok r -> bytes_ok buffer -> 40 + iph_payload_len r <= Zlen buffer ->
  exists bs, ipv6_emit r buffer = Ret bs /\ Zlen bs = Zlen buffer /\ ipv6_parse bs = Ret (Ok r) /\
    ip6_payload bs = Ret (sub buffer 40 (iph_payload_len r)).
Proof.
  intros Hr Hb Hl. assert (Hp : in_u16 (iph_payload_len r)) by apply Hr. exists (ip6_emitted r (drop 40 buffer)).
  assert (Hd : Zlen (drop 40 buffer) = Zlen buffer - 40) by (unfold Zlen; rewrite length_drop; mlia).
  split; [apply ipv6_emit_ok; [done | mlia | done]|]. split; [unfold ip6_emitted; rewrite Zlen_ip6_hdr; lia|].
  destruct (ipv6_parse_emitted r (drop 40 buffer) Hr ltac:(lia)) as [-> ->]. by split.
Qed.

Definition ex_ip6 : IpHeader :=
  mkIpHeader [0xfe; 0x80; 0; 0; 0; 0; 0; 0; 0; 0; 0; 0; 0; 0; 0; 1] [0xff; 2; 0; 0; 0; 0; 0; 0; 0; 0; 0; 0; 0; 0; 0; 1] 17 4 64.

Lemma ipv6_emit_parse_witness :
  exists bs, @ipv6_emit network_endian ex_ip6 (replicate 44 0xa5) = Ret bs /\ Zlen bs = Zlen (replicate 44 0xa5) /\
    @ipv6_parse network_endian bs = Ret (Ok ex_ip6) /\
    @ip6_payload network_endian bs = Ret (sub (replicate 44 0xa5) 40 (iph_payload_len ex_ip6)).
Proof.
  apply (@ipv6_emit_parse network_endian network_endian_laws); [|byte_list|by vm_compute].
  constructor; cbn; try (split; [byte_list | reflexivity]); by vm_compute.
Defined.
