(* ===== verification/Icmpv6Packet.v ===== *)
(** * ICMPv6 messages: the packet (wire/icmpv6.rs)

    Definitions as in [Ipv4Wire].  The accessors of neighbor discovery and listener discovery
    are in [NdiscWire] and [MldWire], the representation in [Icmpv6Wire].  The feature
    [proto-rpl] is off, as in the default build. *)

From S2P Require Import Prelude SeqNumber ByteOrder IpTypes Checksum Ipv4Wire.

Inductive Icmpv6Message : Type :=
| Msg6DstUnreachable | Msg6PktTooBig | Msg6TimeExceeded | Msg6ParamProblem | Msg6EchoRequest | Msg6EchoReply | Msg6MldQuery
| Msg6RouterSolicit | Msg6RouterAdvert | Msg6NeighborSolicit | Msg6NeighborAdvert | Msg6Redirect | Msg6MldReport
| Msg6RplControl | Msg6Unknown (id : Z).

Definition message6_from (v : Z) : Icmpv6Message :=
  match v with
  | 0x01 => Msg6DstUnreachable | 0x02 => Msg6PktTooBig | 0x03 => Msg6TimeExceeded | 0x04 => Msg6ParamProblem
  | 0x80 => Msg6EchoRequest | 0x81 => Msg6EchoReply | 0x82 => Msg6MldQuery | 0x85 => Msg6RouterSolicit
  | 0x86 => Msg6RouterAdvert | 0x87 => Msg6NeighborSolicit | 0x88 => Msg6NeighborAdvert | 0x89 => Msg6Redirect
  | 0x8f => Msg6MldReport | 0x9b => Msg6RplControl | id => Msg6Unknown id
  end.

Definition message6_into (m : Icmpv6Message) : Z :=
  match m with
  | Msg6DstUnreachable => 0x01 | Msg6PktTooBig => 0x02 | Msg6TimeExceeded => 0x03 | Msg6ParamProblem => 0x04
  | Msg6EchoRequest => 0x80 | Msg6EchoReply => 0x81 | Msg6MldQuery => 0x82 | Msg6RouterSolicit => 0x85
  | Msg6RouterAdvert => 0x86 | Msg6NeighborSolicit => 0x87 | Msg6NeighborAdvert => 0x88 | Msg6Redirect => 0x89
  | Msg6MldReport => 0x8f | Msg6RplControl => 0x9b | Msg6Unknown id => id
  end.

Definition message6_is_error (m : Icmpv6Message) : bool := negb (Z.land (message6_into m) 0x80 =? 0x80).
Definition message6_is_ndisc (m : Icmpv6Message) : bool :=
  match m with
  | Msg6RouterSolicit | Msg6RouterAdvert | Msg6NeighborSolicit | Msg6NeighborAdvert | Msg6Redirect => true
  | _ => false
  end.
Definition message6_is_mld (m : Icmpv6Message) : bool := match m with Msg6MldQuery | Msg6MldReport => true | _ => false end.

Inductive Dst6Unreachable : Type :=
| NoRoute | AdminProhibit | BeyondScope | AddrUnreachable | Port6Unreachable | FailedPolicy | RejectRoute | Unreachable6Unknown (id : Z).
Definition dst6_unreachable_from (v : Z) : Dst6Unreachable :=
  match v with
  | 0 => NoRoute | 1 => AdminProhibit | 2 => BeyondScope | 3 => AddrUnreachable | 4 => Port6Unreachable | 5 => FailedPolicy
  | 6 => RejectRoute | id => Unreachable6Unknown id
  end.
Definition dst6_unreachable_into (r : Dst6Unreachable) : Z :=
  match r with
  | NoRoute => 0 | AdminProhibit => 1 | BeyondScope => 2 | AddrUnreachable => 3 | Port6Unreachable => 4 | FailedPolicy => 5
  | RejectRoute => 6 | Unreachable6Unknown id => id
  end.

Inductive Param6Problem : Type := ErroneousHdrField | UnrecognizedNxtHdr | UnrecognizedOption | Problem6Unknown (id : Z).
Definition param6_problem_from (v : Z) : Param6Problem :=
  match v with 0 => ErroneousHdrField | 1 => UnrecognizedNxtHdr | 2 => UnrecognizedOption | id => Problem6Unknown id end.
Definition param6_problem_into (r : Param6Problem) : Z :=
  match r with ErroneousHdrField => 0 | UnrecognizedNxtHdr => 1 | UnrecognizedOption => 2 | Problem6Unknown id => id end.

Inductive Time6Exceeded : Type := HopLimitExceeded | FragReassemExceeded | Exceeded6Unknown (id : Z).
Definition time6_exceeded_from (v : Z) : Time6Exceeded :=
  match v with 0 => HopLimitExceeded | 1 => FragReassemExceeded | id => Exceeded6Unknown id end.
Definition time6_exceeded_into (r : Time6Exceeded) : Z :=
  match r with HopLimitExceeded => 0 | FragReassemExceeded => 1 | Exceeded6Unknown id => id end.

(** [IpProtocol::Icmpv6]. *)
Definition PROTOCOL_ICMPV6 : Z := 58.

(** [header_len] for the type of the message. *)
Definition message6_header_len (m : Icmpv6Message) : Z :=
  match m with
  | Msg6DstUnreachable | Msg6PktTooBig | Msg6TimeExceeded | Msg6ParamProblem => 8
  | Msg6EchoRequest | Msg6EchoReply => 8
  | Msg6RouterSolicit => 8
  | Msg6RouterAdvert => 16
  | Msg6NeighborSolicit | Msg6NeighborAdvert => 24
  | Msg6Redirect => 40
  | Msg6MldQuery => 28
  | Msg6MldReport => 8
  | _ => 4
  end.

Section Packet.
Context `{NetworkEndian}.
Implicit Types buffer : list Z.

Definition icmp6_msg_type buffer : res Icmpv6Message := x ← index buffer 0; Ret (message6_from x).
Definition icmp6_msg_code buffer : res Z := index buffer 1.
Definition icmp6_checksum buffer : res Z := field_read read_u16 buffer 2 4.
Definition icmp6_echo_ident buffer : res Z := field_read read_u16 buffer 4 6.
Definition icmp6_echo_seq_no buffer : res Z := field_read read_u16 buffer 6 8.
Definition icmp6_pkt_too_big_mtu buffer : res Z := field_read read_u32 buffer 4 8.
Definition icmp6_param_problem_ptr buffer : res Z := field_read read_u32 buffer 4 8.
Definition icmp6_header_len buffer : res Z := t ← icmp6_msg_type buffer; Ret (message6_header_len t).

Definition icmp6_check_len buffer : res (result unit WireError) :=
  let len := Zlen buffer in
  if len <? 4 then Ret (Err MkWireError)
  else
    t ← icmp6_msg_type buffer;
    match t with
    | Msg6RplControl | Msg6Unknown _ => Ret (Err MkWireError)
    | _ =>
        if len <? 8 then Ret (Err MkWireError)
        else
          header_len ← icmp6_header_len buffer;
          if len <? header_len then Ret (Err MkWireError) else Ret (Ok tt)
    end.

Definition icmp6_new_checked buffer : res (result (list Z) WireError) :=
  r ← icmp6_check_len buffer; Ret (match r with Ok _ => Ok buffer | Err e => Err e end).

(** The sum of the message and its pseudo header. *)
Definition icmp6_sum buffer (src_addr dst_addr : list Z) : res Z :=
  p ← pseudo_header (Ipv6 src_addr) (Ipv6 dst_addr) PROTOCOL_ICMPV6 (wrap_u 32 (Zlen buffer));
  d ← checksum_data buffer;
  checksum_combine [p; d].

(** The [cfg!(fuzzing)] of the source is false in a normal build. *)
Definition icmp6_verify_checksum buffer (src_addr dst_addr : list Z) : res bool :=
  c ← icmp6_sum buffer src_addr dst_addr; Ret (c =? u16_max).

Definition icmp6_payload buffer : res (list Z) :=
  header_len ← icmp6_header_len buffer; slice buffer header_len (Zlen buffer).

Definition icmp6_set_msg_type buffer (m : Icmpv6Message) := index_set buffer 0 (message6_into m).
Definition icmp6_set_msg_code buffer (v : Z) := index_set buffer 1 v.

Definition icmp6_clear_reserved buffer : res (list Z) :=
  t ← icmp6_msg_type buffer;
  match t with
  | Msg6RouterSolicit | Msg6NeighborSolicit | Msg6NeighborAdvert | Msg6Redirect => slice_mut buffer 4 8 (fun d => write_u32 d 0)
  | Msg6MldQuery =>
      buffer ← slice_mut buffer 6 8 (fun d => write_u16 d 0);
      update_byte buffer 24 (fun x => Z.land x 0xf)
  | Msg6MldReport => slice_mut buffer 4 6 (fun d => write_u16 d 0)
  | _ => Panic
  end.

Definition icmp6_set_checksum buffer (v : Z) := slice_mut buffer 2 4 (fun d => write_u16 d v).
Definition icmp6_set_echo_ident buffer (v : Z) := slice_mut buffer 4 6 (fun d => write_u16 d v).
Definition icmp6_set_echo_seq_no buffer (v : Z) := slice_mut buffer 6 8 (fun d => write_u16 d v).
Definition icmp6_set_pkt_too_big_mtu buffer (v : Z) := slice_mut buffer 4 8 (fun d => write_u32 d v).
Definition icmp6_set_param_problem_ptr buffer (v : Z) := slice_mut buffer 4 8 (fun d => write_u32 d v).

Definition icmp6_fill_checksum buffer (src_addr dst_addr : list Z) : res (list Z) :=
  buffer ← icmp6_set_checksum buffer 0;
  c ← icmp6_sum buffer src_addr dst_addr;
  icmp6_set_checksum buffer (Z.lxor 0xffff c).

Definition icmp6_payload_mut buffer (f : list Z -> res (list Z)) : res (list Z) :=
  header_len ← icmp6_header_len buffer; slice_mut buffer header_len (Zlen buffer) f.
End Packet.
