(* ===== verification/NdiscWire.v ===== *)
(** * Neighbor discovery (wire/ndisc.rs) and its options (wire/ndiscoption.rs)

    Definitions as in [Icmpv6Packet].  A [RawHardwareAddress] (wire/mod.rs) is the list of its
    bytes, at most [MAX_HARDWARE_ADDRESS_LEN]; a set of flags is its bits. *)

From stdpp Require Import gmap.
From S2P Require Import Prelude SeqNumber ByteOrder IpTypes TimeModel Ipv4Wire Ipv6Wire Neighbor EthernetArp Icmpv6Packet.
#[local] Open Scope wire_scope.

(** ** Raw hardware addresses *)

(** With the feature [medium-ieee802154]. *)
Definition MAX_HARDWARE_ADDRESS_LEN : Z := 8.

Abbreviation RawHardwareAddress := (list Z) (only parsing).

Definition raw_from_bytes (addr : list Z) : res RawHardwareAddress :=
  if Zlen addr <=? MAX_HARDWARE_ADDRESS_LEN then Ret addr else Panic.

(** [ieee802154::Address::as_bytes]. *)
Definition ieee802154_as_bytes (a : Ieee802154Address) : list Z :=
  match a with Absent => [] | Short octets | Extended octets => octets end.

Definition hardware_as_bytes (a : HardwareAddress) : res (list Z) :=
  match a with
  | HardwareIp => Panic
  | HardwareEthernet a => Ret a
  | HardwareIeee802154 a => Ret (ieee802154_as_bytes a)
  end.

(** [RawHardwareAddress::from] of a [HardwareAddress]. *)
Definition raw_from_hardware (a : HardwareAddress) : res RawHardwareAddress :=
  bs ← hardware_as_bytes a; raw_from_bytes bs.

(** ** Options *)

Inductive NdiscOptionType : Type :=
| TypeSourceLinkLayerAddr | TypeTargetLinkLayerAddr | TypePrefixInformation | TypeRedirectedHeader | TypeMtu | TypeUnknown (id : Z).
Definition ndisc_type_from (v : Z) : NdiscOptionType :=
  match v with
  | 1 => TypeSourceLinkLayerAddr | 2 => TypeTargetLinkLayerAddr | 3 => TypePrefixInformation | 4 => TypeRedirectedHeader
  | 5 => TypeMtu | id => TypeUnknown id
  end.
Definition ndisc_type_into (t : NdiscOptionType) : Z :=
  match t with
  | TypeSourceLinkLayerAddr => 1 | TypeTargetLinkLayerAddr => 2 | TypePrefixInformation => 3 | TypeRedirectedHeader => 4
  | TypeMtu => 5 | TypeUnknown id => id
  end.

(** [PrefixInfoFlags]: [ON_LINK] and [ADDRCONF]. *)
Definition PREFIX_FLAGS_ALL : Z := 0xc0.

Record PrefixInformation : Type := mkPrefixInformation {
  pi_prefix_len : Z; pi_flags : Z; pi_valid_lifetime : Duration; pi_preferred_lifetime : Duration; pi_prefix : list Z;
}.
Record RedirectedHeader : Type := mkRedirectedHeader { rh_header : IpHeader; rh_data : list Z }.

Inductive NdiscOptionRepr : Type :=
| SourceLinkLayerAddr (addr : RawHardwareAddress)
| TargetLinkLayerAddr (addr : RawHardwareAddress)
| OptPrefixInformation (p : PrefixInformation)
| OptRedirectedHeader (r : RedirectedHeader)
| OptMtu (mtu : Z)
| OptUnknown (type_ length : Z) (data : list Z).

Section Options.
Context `{NetworkEndian}.
Implicit Types buffer : list Z.

Definition opt_option_type buffer : res NdiscOptionType := x ← index buffer 0; Ret (ndisc_type_from x).
Definition opt_data_len buffer : res Z := index buffer 1.

Definition opt_check_len buffer : res (result unit WireError) :=
  let len := Zlen buffer in
  if len <? 8 then Ret (Err MkWireError)
  else
    x ← index buffer 1;
    let data_end := x * 8 in
    if len <? data_end then Ret (Err MkWireError)
    else
      t ← opt_option_type buffer;
      Ret (match t with
           | TypeSourceLinkLayerAddr | TypeTargetLinkLayerAddr | TypeMtu => Ok tt
           | TypePrefixInformation => if 32 <=? data_end then Ok tt else Err MkWireError
           | TypeRedirectedHeader => if 48 <=? data_end then Ok tt else Err MkWireError
           | TypeUnknown _ => Ok tt
           end).

Definition opt_new_checked buffer : res (result (list Z) WireError) :=
  _ ←? opt_check_len buffer;
  n ← opt_data_len buffer;
  if n =? 0 then Ret (Err MkWireError) else Ret (Ok buffer).

Definition opt_link_layer_addr buffer : res RawHardwareAddress :=
  n ← opt_data_len buffer;
  m ← usize_sub (n * 8) 2;
  let len := Z.min MAX_HARDWARE_ADDRESS_LEN m in
  d ← slice buffer 2 (len + 2);
  raw_from_bytes d.
Definition opt_mtu buffer : res Z := field_read read_u32 buffer 4 8.
Definition opt_prefix_len buffer : res Z := index buffer 2.
Definition opt_prefix_flags buffer : res Z := x ← index buffer 3; Ret (Z.land x PREFIX_FLAGS_ALL).
Definition opt_valid_lifetime buffer : res Duration := x ← field_read read_u32 buffer 4 8; duration_from_secs x.
Definition opt_preferred_lifetime buffer : res Duration := x ← field_read read_u32 buffer 8 12; duration_from_secs x.
Definition opt_prefix buffer : res (list Z) := d ← slice buffer 16 32; ipv6_from_bytes d.
Definition opt_data buffer : res (list Z) := n ← opt_data_len buffer; slice buffer 2 (n * 8).

Definition opt_set_option_type buffer (t : NdiscOptionType) := index_set buffer 0 (ndisc_type_into t).
Definition opt_set_data_len buffer (v : Z) := index_set buffer 1 v.
Definition opt_set_link_layer_addr buffer (addr : RawHardwareAddress) :=
  slice_mut buffer 2 (2 + Zlen addr) (fun d => copy_from_slice d addr).
Definition opt_set_mtu buffer (v : Z) := slice_mut buffer 4 8 (fun d => write_u32 d v).
Definition opt_set_prefix_len buffer (v : Z) := index_set buffer 2 v.
Definition opt_set_prefix_flags buffer (flags : Z) := index_set buffer 3 flags.
Definition opt_set_valid_lifetime buffer (t : Duration) := slice_mut buffer 4 8 (fun d => write_u32 d (wrap_u 32 (duration_secs t))).
Definition opt_set_preferred_lifetime buffer (t : Duration) := slice_mut buffer 8 12 (fun d => write_u32 d (wrap_u 32 (duration_secs t))).
Definition opt_clear_prefix_reserved buffer := slice_mut buffer 12 16 (fun d => write_u32 d 0).
Definition opt_set_prefix buffer (addr : list Z) := slice_mut buffer 16 32 (fun d => copy_from_slice d addr).
Definition opt_clear_redirected_reserved buffer := slice_mut buffer 2 8 (fun d => Ret (replicate (length d) 0)).
Definition opt_data_mut buffer (f : list Z -> res (list Z)) : res (list Z) := n ← opt_data_len buffer; slice_mut buffer 2 (n * 8) f.

(** The arm for a redirected header: the packet behind the six reserved octets. *)
Definition opt_parse_redirected buffer : res (result NdiscOptionRepr WireError) :=
  data ← opt_data buffer;
  redirected_packet ← slice data 6 (Zlen data);
  ip_packet ←? ip6_new_checked redirected_packet;
  ip_repr ←? ipv6_parse ip_packet;
  d ← slice redirected_packet (ipv6_buffer_len ip_repr) (Zlen redirected_packet);
  d ← slice d 0 (iph_payload_len ip_repr);
  Ret (Ok (OptRedirectedHeader (mkRedirectedHeader ip_repr d))).

Definition ndisc_option_parse buffer : res (result NdiscOptionRepr WireError) :=
  _ ←? opt_check_len buffer;
  t ← opt_option_type buffer;
  n ← opt_data_len buffer;
  match t with
  | TypeSourceLinkLayerAddr =>
      if 1 <=? n then addr ← opt_link_layer_addr buffer; Ret (Ok (SourceLinkLayerAddr addr)) else Ret (Err MkWireError)
  | TypeTargetLinkLayerAddr =>
      if 1 <=? n then addr ← opt_link_layer_addr buffer; Ret (Ok (TargetLinkLayerAddr addr)) else Ret (Err MkWireError)
  | TypePrefixInformation =>
      if n =? 4 then
        prefix_len ← opt_prefix_len buffer;
        flags ← opt_prefix_flags buffer;
        valid_lifetime ← opt_valid_lifetime buffer;
        preferred_lifetime ← opt_preferred_lifetime buffer;
        prefix ← opt_prefix buffer;
        Ret (Ok (OptPrefixInformation (mkPrefixInformation prefix_len flags valid_lifetime preferred_lifetime prefix)))
      else Ret (Err MkWireError)
  | TypeRedirectedHeader => if n <? 6 then Ret (Err MkWireError) else opt_parse_redirected buffer
  | TypeMtu => if n =? 1 then mtu ← opt_mtu buffer; Ret (Ok (OptMtu mtu)) else Ret (Err MkWireError)
  | TypeUnknown id =>
      if negb (n =? 0) then d ← opt_data buffer; Ret (Ok (OptUnknown id n d)) else Ret (Err MkWireError)
  end.

Definition ndisc_option_buffer_len (r : NdiscOptionRepr) : Z :=
  match r with
  | SourceLinkLayerAddr addr | TargetLinkLayerAddr addr => (2 + Zlen addr + 7) / 8 * 8
  | OptPrefixInformation _ => 32
  | OptRedirectedHeader r => (8 + ipv6_buffer_len (rh_header r) + Zlen (rh_data r) + 7) / 8 * 8
  | OptMtu _ => 8
  | OptUnknown _ length _ => length * 8
  end.

Definition opt_emit_link_layer buffer (t : NdiscOptionType) (addr : RawHardwareAddress) : res (list Z) :=
  buffer ← opt_set_option_type buffer t;
  let nd_opt_len := Zlen addr + 2 in
  buffer ← opt_set_data_len buffer (wrap_u 8 ((nd_opt_len + 7) / 8));
  opt_set_link_layer_addr buffer addr.

Definition ndisc_option_emit (r : NdiscOptionRepr) buffer : res (list Z) :=
  match r with
  | SourceLinkLayerAddr addr => opt_emit_link_layer buffer TypeSourceLinkLayerAddr addr
  | TargetLinkLayerAddr addr => opt_emit_link_layer buffer TypeTargetLinkLayerAddr addr
  | OptPrefixInformation p =>
      buffer ← opt_clear_prefix_reserved buffer;
      buffer ← opt_set_option_type buffer TypePrefixInformation;
      buffer ← opt_set_data_len buffer 4;
      buffer ← opt_set_prefix_len buffer (pi_prefix_len p);
      buffer ← opt_set_prefix_flags buffer (pi_flags p);
      buffer ← opt_set_valid_lifetime buffer (pi_valid_lifetime p);
      buffer ← opt_set_preferred_lifetime buffer (pi_preferred_lifetime p);
      opt_set_prefix buffer (pi_prefix p)
  | OptRedirectedHeader r =>
      buffer ← opt_clear_redirected_reserved buffer;
      buffer ← opt_set_option_type buffer TypeRedirectedHeader;
      buffer ← opt_set_data_len buffer (wrap_u 8 ((8 + ipv6_buffer_len (rh_header r) + Zlen (rh_data r) + 7) / 8));
      opt_data_mut buffer (fun d =>
        slice_mut d 6 (Zlen d) (fun packet =>
          ip_packet ← ipv6_emit (rh_header r) packet;
          ip6_payload_mut ip_packet (fun d => copy_from_slice d (rh_data r))))
  | OptMtu mtu =>
      buffer ← opt_set_option_type buffer TypeMtu;
      buffer ← opt_set_data_len buffer 1;
      opt_set_mtu buffer mtu
  | OptUnknown id length data =>
      buffer ← opt_set_option_type buffer (TypeUnknown id);
      buffer ← opt_set_data_len buffer length;
      opt_data_mut buffer (fun d => copy_from_slice d data)
  end.
End Options.

(** ** Neighbor discovery messages *)

(** [RouterFlags]: [MANAGED] and [OTHER]; [NeighborFlags]: [ROUTER], [SOLICITED] and [OVERRIDE]. *)
Definition ROUTER_FLAGS_ALL : Z := 0xc0.
Definition NEIGHBOR_FLAGS_ALL : Z := 0xe0.

Inductive NdiscRepr : Type :=
| RouterSolicit (lladdr : option RawHardwareAddress)
| RouterAdvert (hop_limit flags : Z) (router_lifetime reachable_time retrans_time : Duration) (lladdr : option RawHardwareAddress)
    (mtu : option Z) (prefix_info : option PrefixInformation)
| NeighborSolicit (target_addr : list Z) (lladdr : option RawHardwareAddress)
| NeighborAdvert (flags : Z) (target_addr : list Z) (lladdr : option RawHardwareAddress)
| NdiscRedirect (target_addr dest_addr : list Z) (lladdr : option RawHardwareAddress) (redirected_hdr : option RedirectedHeader).

(** The options that the loop of [parse] has seen. *)
Record NdiscOptions : Type := mkNdiscOptions {
  no_src_ll_addr : option RawHardwareAddress; no_mtu : option Z; no_prefix_info : option PrefixInformation;
  no_target_ll_addr : option RawHardwareAddress; no_redirected_hdr : option RedirectedHeader;
}.

Definition ndisc_add_option (o : NdiscOptions) (r : NdiscOptionRepr) : NdiscOptions :=
  match r with
  | SourceLinkLayerAddr addr => mkNdiscOptions (Some addr) (no_mtu o) (no_prefix_info o) (no_target_ll_addr o) (no_redirected_hdr o)
  | TargetLinkLayerAddr addr => mkNdiscOptions (no_src_ll_addr o) (no_mtu o) (no_prefix_info o) (Some addr) (no_redirected_hdr o)
  | OptPrefixInformation p => mkNdiscOptions (no_src_ll_addr o) (no_mtu o) (Some p) (no_target_ll_addr o) (no_redirected_hdr o)
  | OptRedirectedHeader r => mkNdiscOptions (no_src_ll_addr o) (no_mtu o) (no_prefix_info o) (no_target_ll_addr o) (Some r)
  | OptMtu m => mkNdiscOptions (no_src_ll_addr o) (Some m) (no_prefix_info o) (no_target_ll_addr o) (no_redirected_hdr o)
  | OptUnknown _ _ _ => o
  end.

Section Ndisc.
Context `{NetworkEndian}.
Implicit Types buffer : list Z.

Definition nd_current_hop_limit buffer : res Z := index buffer 4.
Definition nd_router_flags buffer : res Z := x ← index buffer 5; Ret (Z.land x ROUTER_FLAGS_ALL).
Definition nd_router_lifetime buffer : res Duration := x ← field_read read_u16 buffer 6 8; duration_from_secs x.
Definition nd_reachable_time buffer : res Duration := x ← field_read read_u32 buffer 8 12; duration_from_millis x.
Definition nd_retrans_time buffer : res Duration := x ← field_read read_u32 buffer 12 16; duration_from_millis x.
Definition nd_target_addr buffer : res (list Z) := d ← slice buffer 8 24; ipv6_from_bytes d.
Definition nd_neighbor_flags buffer : res Z := x ← index buffer 4; Ret (Z.land x NEIGHBOR_FLAGS_ALL).
Definition nd_dest_addr buffer : res (list Z) := d ← slice buffer 24 40; ipv6_from_bytes d.

Definition nd_set_current_hop_limit buffer (v : Z) := index_set buffer 4 v.
Definition nd_set_router_flags buffer (flags : Z) := index_set buffer 5 flags.
Definition nd_set_router_lifetime buffer (t : Duration) := slice_mut buffer 6 8 (fun d => write_u16 d (wrap_u 16 (duration_secs t))).
Definition nd_set_reachable_time buffer (t : Duration) := slice_mut buffer 8 12 (fun d => write_u32 d (wrap_u 32 (duration_total_millis t))).
Definition nd_set_retrans_time buffer (t : Duration) := slice_mut buffer 12 16 (fun d => write_u32 d (wrap_u 32 (duration_total_millis t))).
Definition nd_set_target_addr buffer (a : list Z) := slice_mut buffer 8 24 (fun d => copy_from_slice d a).
Definition nd_set_neighbor_flags buffer (flags : Z) := index_set buffer 4 flags.
Definition nd_set_dest_addr buffer (a : list Z) := slice_mut buffer 24 40 (fun d => copy_from_slice d a).

(** The loop over the options of the payload, from [offset] on.  Every turn consumes at least
    eight octets, so that the length of the payload is fuel enough. *)
Fixpoint ndisc_parse_options (fuel : nat) (payload : list Z) (offset : Z) (o : NdiscOptions) : res (result NdiscOptions WireError) :=
  if Zlen payload <=? offset then Ret (Ok o)
  else
    match fuel with
    | O => Panic
    | S fuel =>
        d ← slice payload offset (Zlen payload);
        pkt ←? opt_new_checked d;
        opt ← ndisc_option_parse pkt;
        let o := match opt with Ok opt => ndisc_add_option o opt | Err _ => o end in
        n ← opt_data_len pkt;
        let len := n * 8 in
        if len =? 0 then Ret (Err MkWireError)
        else ndisc_parse_options fuel payload (offset + len) o
    end.

Definition ndisc_parse buffer : res (result NdiscRepr WireError) :=
  _ ←? icmp6_check_len buffer;
  payload ← icmp6_payload buffer;
  o ←? ndisc_parse_options (length payload) payload 0 (mkNdiscOptions None None None None None);
  t ← icmp6_msg_type buffer;
  match t with
  | Msg6RouterSolicit => Ret (Ok (RouterSolicit (no_src_ll_addr o)))
  | Msg6RouterAdvert =>
      hop_limit ← nd_current_hop_limit buffer;
      flags ← nd_router_flags buffer;
      router_lifetime ← nd_router_lifetime buffer;
      reachable_time ← nd_reachable_time buffer;
      retrans_time ← nd_retrans_time buffer;
      Ret (Ok (RouterAdvert hop_limit flags router_lifetime reachable_time retrans_time (no_src_ll_addr o) (no_mtu o) (no_prefix_info o)))
  | Msg6NeighborSolicit =>
      target_addr ← nd_target_addr buffer;
      Ret (Ok (NeighborSolicit target_addr (no_src_ll_addr o)))
  | Msg6NeighborAdvert =>
      flags ← nd_neighbor_flags buffer;
      target_addr ← nd_target_addr buffer;
      Ret (Ok (NeighborAdvert flags target_addr (no_target_ll_addr o)))
  | Msg6Redirect =>
      target_addr ← nd_target_addr buffer;
      dest_addr ← nd_dest_addr buffer;
      Ret (Ok (NdiscRedirect target_addr dest_addr (no_src_ll_addr o) (no_redirected_hdr o)))
  | _ => Ret (Err MkWireError)
  end.

(** The length of an option that may be absent. *)
Definition nd_opt_len {A} (f : A -> NdiscOptionRepr) (o : option A) : Z :=
  match o with Some a => ndisc_option_buffer_len (f a) | None => 0 end.

Definition ndisc_buffer_len (r : NdiscRepr) : Z :=
  match r with
  | RouterSolicit lladdr => 8 + nd_opt_len SourceLinkLayerAddr lladdr
  | RouterAdvert _ _ _ _ _ lladdr mtu prefix_info =>
      16 + (nd_opt_len TargetLinkLayerAddr lladdr + nd_opt_len OptMtu mtu + nd_opt_len OptPrefixInformation prefix_info)
  | NeighborSolicit _ lladdr | NeighborAdvert _ _ lladdr => 24 + nd_opt_len SourceLinkLayerAddr lladdr
  | NdiscRedirect _ _ lladdr redirected_hdr => 40 + nd_opt_len TargetLinkLayerAddr lladdr + nd_opt_len OptRedirectedHeader redirected_hdr
  end.

(** Emit an option, when there is one, at [offset] of the payload. *)
Definition nd_emit_option buffer (offset : Z) (o : option NdiscOptionRepr) : res (list Z) :=
  match o with
  | None => Ret buffer
  | Some r => icmp6_payload_mut buffer (fun p => slice_mut p offset (Zlen p) (ndisc_option_emit r))
  end.

(** Type and code of a message. *)
Definition nd_emit_type buffer (m : Icmpv6Message) : res (list Z) :=
  buffer ← icmp6_set_msg_type buffer m; icmp6_set_msg_code buffer 0.

Definition ndisc_emit (r : NdiscRepr) buffer : res (list Z) :=
  match r with
  | RouterSolicit lladdr =>
      buffer ← nd_emit_type buffer Msg6RouterSolicit;
      buffer ← icmp6_clear_reserved buffer;
      nd_emit_option buffer 0 (SourceLinkLayerAddr <$> lladdr)
  | RouterAdvert hop_limit flags router_lifetime reachable_time retrans_time lladdr mtu prefix_info =>
      buffer ← nd_emit_type buffer Msg6RouterAdvert;
      buffer ← nd_set_current_hop_limit buffer hop_limit;
      buffer ← nd_set_router_flags buffer flags;
      buffer ← nd_set_router_lifetime buffer router_lifetime;
      buffer ← nd_set_reachable_time buffer reachable_time;
      buffer ← nd_set_retrans_time buffer retrans_time;
      buffer ← nd_emit_option buffer 0 (SourceLinkLayerAddr <$> lladdr);
      let offset := nd_opt_len SourceLinkLayerAddr lladdr in
      buffer ← nd_emit_option buffer offset (OptMtu <$> mtu);
      let offset := offset + nd_opt_len OptMtu mtu in
      nd_emit_option buffer offset (OptPrefixInformation <$> prefix_info)
  | NeighborSolicit target_addr lladdr =>
      buffer ← nd_emit_type buffer Msg6NeighborSolicit;
      buffer ← icmp6_clear_reserved buffer;
      buffer ← nd_set_target_addr buffer target_addr;
      nd_emit_option buffer 0 (SourceLinkLayerAddr <$> lladdr)
  | NeighborAdvert flags target_addr lladdr =>
      buffer ← nd_emit_type buffer Msg6NeighborAdvert;
      buffer ← icmp6_clear_reserved buffer;
      buffer ← nd_set_neighbor_flags buffer flags;
      buffer ← nd_set_target_addr buffer target_addr;
      nd_emit_option buffer 0 (TargetLinkLayerAddr <$> lladdr)
  | NdiscRedirect target_addr dest_addr lladdr redirected_hdr =>
      buffer ← nd_emit_type buffer Msg6Redirect;
      buffer ← icmp6_clear_reserved buffer;
      buffer ← nd_set_target_addr buffer target_addr;
      buffer ← nd_set_dest_addr buffer dest_addr;
      buffer ← nd_emit_option buffer 0 (TargetLinkLayerAddr <$> lladdr);
      let offset := nd_opt_len TargetLinkLayerAddr lladdr in
      nd_emit_option buffer offset (OptRedirectedHeader <$> redirected_hdr)
  end.
End Ndisc.
