(* ===== verification/MldWire.v ===== *)
(** * Multicast listener discovery (wire/mld.rs)

    Definitions as in [Icmpv6Packet]. *)

From S2P Require Import Prelude SeqNumber ByteOrder IpTypes IfaceContext Ipv4Wire Ipv6Wire Icmpv6Packet.
#[local] Open Scope wire_scope.

Inductive RecordType : Type :=
| ModeIsInclude | ModeIsExclude | ChangeToInclude | ChangeToExclude | AllowNewSources | BlockOldSources | RecordUnknown (id : Z).
Definition record_type_from (v : Z) : RecordType :=
  match v with
  | 1 => ModeIsInclude | 2 => ModeIsExclude | 3 => ChangeToInclude | 4 => ChangeToExclude | 5 => AllowNewSources
  | 6 => BlockOldSources | id => RecordUnknown id
  end.
Definition record_type_into (t : RecordType) : Z :=
  match t with
  | ModeIsInclude => 1 | ModeIsExclude => 2 | ChangeToInclude => 3 | ChangeToExclude => 4 | AllowNewSources => 5
  | BlockOldSources => 6 | RecordUnknown id => id
  end.

Record AddressRecordRepr : Type := mkAddressRecordRepr {
  ar_record_type : RecordType; ar_aux_data_len : Z; ar_num_srcs : Z; ar_mcast_addr : list Z; ar_payload : list Z;
}.

Definition address_record_new (t : RecordType) (mcast_addr : list Z) : AddressRecordRepr := mkAddressRecordRepr t 0 0 mcast_addr [].

Inductive MldRepr : Type :=
| MldQuery (max_resp_code : Z) (mcast_addr : list Z) (s_flag : bool) (qrv qqic num_srcs : Z) (data : list Z)
| MldReport (nr_mcast_addr_rcrds : Z) (data : list Z)
| MldReportRecords (records : list AddressRecordRepr).

Section Mld.
Context `{NetworkEndian}.
Implicit Types buffer : list Z.

(** ** Queries and reports *)

Definition mld_max_resp_code buffer : res Z := field_read read_u16 buffer 4 6.
Definition mld_mcast_addr buffer : res (list Z) := d ← slice buffer 8 24; ipv6_from_bytes d.
Definition mld_s_flag buffer : res bool := x ← index buffer 24; Ret (negb (Z.land x 0x08 =? 0)).
Definition mld_qrv buffer : res Z := x ← index buffer 24; Ret (Z.land x 0x7).
Definition mld_qqic buffer : res Z := index buffer 25.
Definition mld_num_srcs buffer : res Z := field_read read_u16 buffer 26 28.
Definition mld_nr_mcast_addr_rcrds buffer : res Z := field_read read_u16 buffer 6 8.

Definition mld_set_max_resp_code buffer (v : Z) := slice_mut buffer 4 6 (fun d => write_u16 d v).
Definition mld_set_mcast_addr buffer (a : list Z) := slice_mut buffer 8 24 (fun d => copy_from_slice d a).
Definition mld_set_s_flag buffer := update_byte buffer 24 (fun current => Z.lor 0x8 (Z.land current 0x7)).
Definition mld_clear_s_flag buffer := update_byte buffer 24 (fun x => Z.land x 0x7).
Definition mld_set_qrv buffer (value : Z) : res (list Z) :=
  _ ← passert (value <? 8);
  update_byte buffer 24 (fun x => Z.lor (Z.land x 0x8) (Z.land value 0x7)).
Definition mld_set_qqic buffer (v : Z) := index_set buffer 25 v.
Definition mld_set_num_srcs buffer (v : Z) := slice_mut buffer 26 28 (fun d => write_u16 d v).
Definition mld_set_nr_mcast_addr_rcrds buffer (v : Z) := slice_mut buffer 6 8 (fun d => write_u16 d v).

(** ** Address records *)

Definition ar_check_len buffer : result unit WireError := if Zlen buffer <? 20 then Err MkWireError else Ok tt.
Definition ar_new_checked buffer : result (list Z) WireError :=
  match ar_check_len buffer with Ok _ => Ok buffer | Err e => Err e end.
Definition ar_get_record_type buffer : res RecordType := x ← index buffer 0; Ret (record_type_from x).
Definition ar_get_aux_data_len buffer : res Z := index buffer 1.
Definition ar_get_num_srcs buffer : res Z := field_read read_u16 buffer 2 4.
Definition ar_get_mcast_addr buffer : res (list Z) := d ← slice buffer 4 20; ipv6_from_bytes d.
Definition ar_get_payload buffer : res (list Z) := slice buffer 20 (Zlen buffer).
Definition ar_set_record_type buffer (t : RecordType) := index_set buffer 0 (record_type_into t).
Definition ar_set_aux_data_len buffer (v : Z) := index_set buffer 1 v.
Definition ar_set_num_srcs buffer (v : Z) := slice_mut buffer 2 4 (fun d => write_u16 d v).
Definition ar_set_mcast_addr buffer (a : list Z) : res (list Z) :=
  _ ← passert (v6_is_multicast a);
  slice_mut buffer 4 20 (fun d => copy_from_slice d a).

Definition address_record_parse buffer : res (result AddressRecordRepr WireError) :=
  num_srcs ← ar_get_num_srcs buffer;
  mcast_addr ← ar_get_mcast_addr buffer;
  record_type ← ar_get_record_type buffer;
  aux_data_len ← ar_get_aux_data_len buffer;
  payload ← ar_get_payload buffer;
  Ret (Ok (mkAddressRecordRepr record_type aux_data_len num_srcs mcast_addr payload)).

Definition address_record_buffer_len (r : AddressRecordRepr) : Z := 20.

Definition address_record_emit (r : AddressRecordRepr) buffer : res (list Z) :=
  buffer ← ar_set_record_type buffer (ar_record_type r);
  buffer ← ar_set_aux_data_len buffer (ar_aux_data_len r);
  buffer ← ar_set_num_srcs buffer (ar_num_srcs r);
  ar_set_mcast_addr buffer (ar_mcast_addr r).

(** ** [Repr] *)

Definition mld_parse buffer : res (result MldRepr WireError) :=
  _ ←? icmp6_check_len buffer;
  t ← icmp6_msg_type buffer;
  match t with
  | Msg6MldQuery =>
      max_resp_code ← mld_max_resp_code buffer;
      mcast_addr ← mld_mcast_addr buffer;
      s_flag ← mld_s_flag buffer;
      qrv ← mld_qrv buffer;
      qqic ← mld_qqic buffer;
      num_srcs ← mld_num_srcs buffer;
      data ← icmp6_payload buffer;
      Ret (Ok (MldQuery max_resp_code mcast_addr s_flag qrv qqic num_srcs data))
  | Msg6MldReport =>
      n ← mld_nr_mcast_addr_rcrds buffer;
      data ← icmp6_payload buffer;
      Ret (Ok (MldReport n data))
  | _ => Ret (Err MkWireError)
  end.

Definition mld_buffer_len (r : MldRepr) : Z :=
  match r with
  | MldQuery _ _ _ _ _ _ data => 28 + Zlen data
  | MldReport _ data => 8 + Zlen data
  | MldReportRecords _ => 8
  end.

(** The loop over the records: each is emitted at the front of what is left of the payload. *)
Fixpoint mld_emit_records (records : list AddressRecordRepr) (payload : list Z) : res (list Z) :=
  match records with
  | [] => Ret payload
  | r :: records =>
      payload ← address_record_emit r payload;
      slice_mut payload (address_record_buffer_len r) (Zlen payload) (mld_emit_records records)
  end.

Definition mld_emit (r : MldRepr) buffer : res (list Z) :=
  match r with
  | MldQuery max_resp_code mcast_addr s_flag qrv qqic num_srcs data =>
      buffer ← icmp6_set_msg_type buffer Msg6MldQuery;
      buffer ← icmp6_set_msg_code buffer 0;
      buffer ← icmp6_clear_reserved buffer;
      buffer ← mld_set_max_resp_code buffer max_resp_code;
      buffer ← mld_set_mcast_addr buffer mcast_addr;
      buffer ← (if s_flag then mld_set_s_flag buffer else mld_clear_s_flag buffer);
      buffer ← mld_set_qrv buffer qrv;
      buffer ← mld_set_qqic buffer qqic;
      buffer ← mld_set_num_srcs buffer num_srcs;
      icmp6_payload_mut buffer (fun d => copy_from_slice d data)
  | MldReport n data =>
      buffer ← icmp6_set_msg_type buffer Msg6MldReport;
      buffer ← icmp6_set_msg_code buffer 0;
      buffer ← icmp6_clear_reserved buffer;
      buffer ← mld_set_nr_mcast_addr_rcrds buffer n;
      icmp6_payload_mut buffer (fun d => copy_from_slice d data)
  | MldReportRecords records =>
      buffer ← icmp6_set_msg_type buffer Msg6MldReport;
      buffer ← icmp6_set_msg_code buffer 0;
      buffer ← icmp6_clear_reserved buffer;
      buffer ← mld_set_nr_mcast_addr_rcrds buffer (wrap_u 16 (Zlen records));
      icmp6_payload_mut buffer (mld_emit_records records)
  end.
End Mld.
