(* ===== verification/Icmpv6Wire.v ===== *)
(** * ICMPv6 messages: the representation (wire/icmpv6.rs)

    Definitions as in [Icmpv6Packet]. *)

From stdpp Require Import gmap.
From S2P Require Import Prelude SeqNumber ByteOrder IpTypes Checksum Ipv4Wire Ipv6Wire Icmpv6Packet NdiscWire MldWire.
#[local] Open Scope wire_scope.

Definition IPV6_MIN_MTU : Z := 1280.
Definition MAX_ERROR_PACKET_LEN : Z := IPV6_MIN_MTU - IPV6_HEADER_LEN.

Inductive Icmpv6Repr : Type :=
| Icmpv6DstUnreachable (reason : Dst6Unreachable) (header : IpHeader) (data : list Z)
| Icmpv6PktTooBig (mtu : Z) (header : IpHeader) (data : list Z)
| Icmpv6TimeExceeded (reason : Time6Exceeded) (header : IpHeader) (data : list Z)
| Icmpv6ParamProblem (reason : Param6Problem) (pointer : Z) (header : IpHeader) (data : list Z)
| Icmpv6EchoRequest (ident seq_no : Z) (data : list Z)
| Icmpv6EchoReply (ident seq_no : Z) (data : list Z)
| Icmpv6Ndisc (r : NdiscRepr)
| Icmpv6Mld (r : MldRepr).

Section Repr.
Context `{NetworkEndian}.
Implicit Types buffer : list Z.

(** [create_packet_from_payload]: the quoted header and what follows it; it may be truncated. *)
Definition icmp6_parse_quote buffer : res (result (list Z * IpHeader) WireError) :=
  payload ← icmp6_payload buffer;
  if IPV6_HEADER_LEN <=? Zlen payload then
    let ip_packet := payload in
    data ← slice payload ip6_header_len (Zlen payload);
    src_addr ← ip6_src_addr ip_packet;
    dst_addr ← ip6_dst_addr ip_packet;
    next_header ← ip6_next_header ip_packet;
    payload_len ← ip6_payload_len ip_packet;
    hop_limit ← ip6_hop_limit ip_packet;
    Ret (Ok (data, mkIpHeader src_addr dst_addr next_header payload_len hop_limit))
  else Ret (Err MkWireError).

Definition icmp6_parse_echo buffer : res (Z * Z * list Z) :=
  ident ← icmp6_echo_ident buffer;
  seq_no ← icmp6_echo_seq_no buffer;
  data ← icmp6_payload buffer;
  Ret (ident, seq_no, data).

Definition icmpv6_parse (src_addr dst_addr : list Z) buffer (caps : ChecksumCapabilities) : res (result Icmpv6Repr WireError) :=
  _ ←? icmp6_check_len buffer;
  valid ← (if checksum_rx (caps_icmpv6 caps) then icmp6_verify_checksum buffer src_addr dst_addr else Ret true);
  if negb valid then Ret (Err MkWireError)
  else
    t ← icmp6_msg_type buffer;
    code ← icmp6_msg_code buffer;
    match t, code with
    | Msg6DstUnreachable, code =>
        '(data, header) ←? icmp6_parse_quote buffer;
        Ret (Ok (Icmpv6DstUnreachable (dst6_unreachable_from code) header data))
    | Msg6PktTooBig, 0 =>
        '(data, header) ←? icmp6_parse_quote buffer;
        mtu ← icmp6_pkt_too_big_mtu buffer;
        Ret (Ok (Icmpv6PktTooBig mtu header data))
    | Msg6TimeExceeded, code =>
        '(data, header) ←? icmp6_parse_quote buffer;
        Ret (Ok (Icmpv6TimeExceeded (time6_exceeded_from code) header data))
    | Msg6ParamProblem, code =>
        '(data, header) ←? icmp6_parse_quote buffer;
        pointer ← icmp6_param_problem_ptr buffer;
        Ret (Ok (Icmpv6ParamProblem (param6_problem_from code) pointer header data))
    | Msg6EchoRequest, 0 => '(ident, seq_no, data) ← icmp6_parse_echo buffer; Ret (Ok (Icmpv6EchoRequest ident seq_no data))
    | Msg6EchoReply, 0 => '(ident, seq_no, data) ← icmp6_parse_echo buffer; Ret (Ok (Icmpv6EchoReply ident seq_no data))
    | msg_type, 0 =>
        if message6_is_ndisc msg_type then r ←? ndisc_parse buffer; Ret (Ok (Icmpv6Ndisc r))
        else if message6_is_mld msg_type then r ←? mld_parse buffer; Ret (Ok (Icmpv6Mld r))
        else Ret (Err MkWireError)
    | _, _ => Ret (Err MkWireError)
    end.

Definition icmpv6_buffer_len (r : Icmpv6Repr) : res Z :=
  match r with
  | Icmpv6DstUnreachable _ header data | Icmpv6PktTooBig _ header data | Icmpv6TimeExceeded _ header data
  | Icmpv6ParamProblem _ _ header data =>
      n ← usize_add (8 + ipv6_buffer_len header) (Zlen data); Ret (Z.min n MAX_ERROR_PACKET_LEN)
  | Icmpv6EchoRequest _ _ data | Icmpv6EchoReply _ _ data => usize_add 8 (Zlen data)
  | Icmpv6Ndisc ndisc => Ret (ndisc_buffer_len ndisc)
  | Icmpv6Mld mld => Ret (mld_buffer_len mld)
  end.

(** [emit_contained_packet]. *)
Definition icmp6_emit_quote buffer (header : IpHeader) (data : list Z) : res (list Z) :=
  icmp_header_len ← icmp6_header_len buffer;
  icmp6_payload_mut buffer (fun p =>
    ip_packet ← ipv6_emit header p;
    slice_mut ip_packet (ipv6_buffer_len header) (Zlen ip_packet) (fun payload =>
      let payload_len := Z.min (Zlen data) (MAX_ERROR_PACKET_LEN - icmp_header_len - IPV6_HEADER_LEN) in
      src ← slice data 0 payload_len;
      slice_mut payload 0 payload_len (fun d => copy_from_slice d src))).

Definition icmp6_emit_echo buffer (m : Icmpv6Message) (ident seq_no : Z) (data : list Z) : res (list Z) :=
  buffer ← icmp6_set_msg_type buffer m;
  buffer ← icmp6_set_msg_code buffer 0;
  buffer ← icmp6_set_echo_ident buffer ident;
  buffer ← icmp6_set_echo_seq_no buffer seq_no;
  icmp6_payload_mut buffer (fun d =>
    let data_len := Z.min (Zlen d) (Zlen data) in
    src ← slice data 0 data_len;
    slice_mut d 0 data_len (fun d => copy_from_slice d src)).

(** Type and code of an error message. *)
Definition icmp6_emit_head buffer (m : Icmpv6Message) (code : Z) : res (list Z) :=
  buffer ← icmp6_set_msg_type buffer m; icmp6_set_msg_code buffer code.

Definition icmpv6_emit (r : Icmpv6Repr) (src_addr dst_addr : list Z) buffer (caps : ChecksumCapabilities) : res (list Z) :=
  buffer ← match r with
           | Icmpv6DstUnreachable reason header data =>
               buffer ← icmp6_emit_head buffer Msg6DstUnreachable (dst6_unreachable_into reason);
               icmp6_emit_quote buffer header data
           | Icmpv6PktTooBig mtu header data =>
               buffer ← icmp6_emit_head buffer Msg6PktTooBig 0;
               buffer ← icmp6_set_pkt_too_big_mtu buffer mtu;
               icmp6_emit_quote buffer header data
           | Icmpv6TimeExceeded reason header data =>
               buffer ← icmp6_emit_head buffer Msg6TimeExceeded (time6_exceeded_into reason);
               icmp6_emit_quote buffer header data
           | Icmpv6ParamProblem reason pointer header data =>
               buffer ← icmp6_emit_head buffer Msg6ParamProblem (param6_problem_into reason);
               buffer ← icmp6_set_param_problem_ptr buffer pointer;
               icmp6_emit_quote buffer header data
           | Icmpv6EchoRequest ident seq_no data => icmp6_emit_echo buffer Msg6EchoRequest ident seq_no data
           | Icmpv6EchoReply ident seq_no data => icmp6_emit_echo buffer Msg6EchoReply ident seq_no data
           | Icmpv6Ndisc ndisc => ndisc_emit ndisc buffer
           | Icmpv6Mld mld => mld_emit mld buffer
           end;
  if checksum_tx (caps_icmpv6 caps) then icmp6_fill_checksum buffer src_addr dst_addr
  else icmp6_set_checksum buffer 0.
End Repr.
