(* ===== verification/NdiscWireSpec.v ===== *)
(** * What parsing neighbor discovery messages promises *)

From stdpp Require Import gmap.
From S2P Require Import Prelude SeqNumber TimeModel IpTypes ByteOrder Ipv4Wire Neighbor EthernetArp Ipv6Wire Icmpv6Packet NdiscWire.

(** ** The values that parsing may produce *)

Definition raw_addr_ok (a : list Z) : Prop := bytes_ok a /\ 6 <= Zlen a <= 8.

Record prefix_info_ok (p : PrefixInformation) : Prop := {
  pio_len : in_u8 (pi_prefix_len p);
  pio_flags : Z.land (pi_flags p) PREFIX_FLAGS_ALL = pi_flags p;
  pio_valid : exists s, in_u32 s /\ pi_valid_lifetime p = s * 1000000;
  pio_preferred : exists s, in_u32 s /\ pi_preferred_lifetime p = s * 1000000;
  pio_prefix : ipv6_addr_ok (pi_prefix p);
}.

Definition redirected_ok (r : RedirectedHeader) : Prop :=
  ip6_header_ok (rh_header r) /\ bytes_ok (rh_data r) /\ Zlen (rh_data r) = iph_payload_len (rh_header r).

Definition ndisc_option_ok (r : NdiscOptionRepr) : Prop :=
  match r with
  | SourceLinkLayerAddr a | TargetLinkLayerAddr a => raw_addr_ok a
  | OptPrefixInformation p => prefix_info_ok p
  | OptRedirectedHeader r => redirected_ok r
  | OptMtu mtu => in_u32 mtu
  | OptUnknown id n data => in_u8 id /\ 1 <= n <= u8_max /\ bytes_ok data /\ Zlen data = n * 8 - 2
  end.

Definition opt_holds {A} (P : A -> Prop) (o : option A) : Prop := match o with Some a => P a | None => True end.

Record ndisc_options_ok (o : NdiscOptions) : Prop := {
  noo_src : opt_holds raw_addr_ok (no_src_ll_addr o);
  noo_mtu : opt_holds in_u32 (no_mtu o);
  noo_prefix : opt_holds prefix_info_ok (no_prefix_info o);
  noo_target : opt_holds raw_addr_ok (no_target_ll_addr o);
  noo_redirected : opt_holds redirected_ok (no_redirected_hdr o);
}.

(** A lifetime of whole seconds, or a time of whole milliseconds, that its field can hold. *)
Definition secs_in (m : Z) (d : Duration) : Prop := exists s, 0 <= s <= m /\ d = s * 1000000.
Definition millis_in (m : Z) (d : Duration) : Prop := exists s, 0 <= s <= m /\ d = s * 1000.

Definition ndisc_ok (r : NdiscRepr) : Prop :=
  match r with
  | RouterSolicit lladdr => opt_holds raw_addr_ok lladdr
  | RouterAdvert hop_limit flags router_lifetime reachable_time retrans_time lladdr mtu prefix_info =>
      in_u8 hop_limit /\ Z.land flags ROUTER_FLAGS_ALL = flags /\ secs_in u16_max router_lifetime /\
      millis_in u32_max reachable_time /\ millis_in u32_max retrans_time /\
      opt_holds raw_addr_ok lladdr /\ opt_holds in_u32 mtu /\ opt_holds prefix_info_ok prefix_info
  | NeighborSolicit target_addr lladdr => ipv6_addr_ok target_addr /\ opt_holds raw_addr_ok lladdr
  | NeighborAdvert flags target_addr lladdr =>
      Z.land flags NEIGHBOR_FLAGS_ALL = flags /\ ipv6_addr_ok target_addr /\ opt_holds raw_addr_ok lladdr
  | NdiscRedirect target_addr dest_addr lladdr redirected_hdr =>
      ipv6_addr_ok target_addr /\ ipv6_addr_ok dest_addr /\ opt_holds raw_addr_ok lladdr /\ opt_holds redirected_ok redirected_hdr
  end.

Lemma ipv6_from_bytes_ok d : bytes_ok d -> Zlen d = 16 -> ipv6_from_bytes d = Ret d /\ ipv6_addr_ok d.
Proof.
  intros Hb Hl. split; [apply copy_from_slice_ok; by rewrite Hl|]. split; [done | mlia].
Qed.

(** Masking twice is masking once. *)
Lemma land_twice x m : Z.land (Z.land x m) m = Z.land x m.
Proof. by rewrite <- Z.land_assoc, Z.land_diag. Qed.

Section Parse.
Context `{NetworkEndianLaws}.

Lemma u8_land x m : in_u8 x -> in_u8 (Z.land x m).
Proof. apply in_u8_land_l. Qed.

Lemma duration_from_secs_ok s m : 0 <= s <= m -> m <= u32_max -> duration_from_secs s = Ret (s * 1000000).
Proof. intros. apply checked_ok. mlia. Qed.
Lemma duration_from_millis_u32 s m : 0 <= s <= m -> m <= u32_max -> duration_from_millis s = Ret (s * 1000).
Proof. intros. apply checked_ok. mlia. Qed.

(** A successful check: the option lies inside the buffer. *)
Lemma opt_check_len_ok bs :
  bytes_ok bs ->
  wp (opt_check_len bs) (fun r => match r with
    | Ok _ => 8 <= Zlen bs /\ exists n, index bs 1 = Ret n /\ in_u8 n /\ n * 8 <= Zlen bs
    | Err _ => True
    end).
Proof.
  intros Hb. unfold opt_check_len, opt_option_type. destruct (Z.ltb_spec (Zlen bs) 8); [done|].
  destruct (wp_Ret_inv _ _ (index_byte_wp bs 1 Hb ltac:(lia))) as (n & En & Hn). rewrite En. ret_step. destr_if; [done|].
  read_as t Ht. ret_step. cbn [wp]. repeat case_match; try done; (split; [done|]; exists n; split; [done|]; split; [done | lia]).
Qed.

Lemma opt_new_checked_ok bs :
  bytes_ok bs ->
  wp (opt_new_checked bs) (fun r => match r with
    | Ok pkt => pkt = bs /\ 8 <= Zlen bs /\ exists n, index bs 1 = Ret n /\ 1 <= n <= u8_max /\ n * 8 <= Zlen bs
    | Err _ => True
    end).
Proof.
  intros Hb. unfold opt_new_checked, try_bind, opt_data_len. wp_bind_with (opt_check_len_ok bs Hb). intros [[]|e]; [|done].
  intros (Hl & n & En & Hn & Hf). rewrite En. ret_step. destr_if; [done|]. cbn [wp]. split; [done|]. split; [done|].
  exists n. split; [done|]. mlia.
Qed.

Lemma opt_parse_redirected_ok bs n :
  bytes_ok bs -> index bs 1 = Ret n -> 6 <= n -> n * 8 <= Zlen bs ->
  wp (opt_parse_redirected bs) (fun r => match r with Ok r => ndisc_option_ok r | Err _ => True end).
Proof.
  intros Hb En Hn Hl. unfold opt_parse_redirected, opt_data, opt_data_len, try_bind. rewrite En, bind_Ret.
  read_as data Hd. read_as pkt Hpkt. unfold ip6_new_checked, try_bind. rewrite bind_assoc. wp_bind_with (ip6_check_len_ok pkt ltac:(done)). intros [[]|e]; [|done].
  intros _. ret_step. wp_bind_with (ipv6_parse_ok pkt ltac:(done)). intros [r|e]; [|done]. intros (Hr & Hfit & _).
  assert (Hp : in_u16 (iph_payload_len r)) by apply Hr. unfold ipv6_buffer_len. read_as d1 Hd1. read_as d2 Hd2.
  cbn [wp ndisc_option_ok]. split; [done|]. split; [done | cbn; lia].
Qed.

Lemma opt_link_layer_addr_ok bs n :
  bytes_ok bs -> index bs 1 = Ret n -> 1 <= n -> n * 8 <= Zlen bs -> in_u8 n -> wp (opt_link_layer_addr bs) raw_addr_ok.
Proof.
  intros Hb En Hn Hl H8. unfold opt_link_layer_addr, opt_data_len, raw_from_bytes, MAX_HARDWARE_ADDRESS_LEN. rewrite En, bind_Ret.
  rewrite usize_sub_ok, bind_Ret by mlia. cbv zeta. read_as d Hd.
  match goal with |- context [if ?c then _ else _] => replace c with true by lia end. cbn [wp]. split; [done | lia].
Qed.

Lemma ndisc_option_parse_ok bs :
  bytes_ok bs -> wp (ndisc_option_parse bs) (fun r => match r with Ok r => ndisc_option_ok r | Err _ => True end).
Proof.
  intros Hb. unfold ndisc_option_parse, try_bind. wp_bind_with (opt_check_len_ok bs Hb). intros [[]|e]; [|done].
  intros (Hl & n & En & Hn & Hf). unfold opt_option_type. read_as t Ht. ret_step. unfold opt_data_len. rewrite En. ret_step.
  assert (Hty : ndisc_type_into (ndisc_type_from t) = t) by (unfold ndisc_type_from; repeat case_match; reflexivity).
  destruct (ndisc_type_from t) as [ | | | | | id] eqn:Et.
  - destr_if; [|done]. wp_bind_with (opt_link_layer_addr_ok bs n); [done | done | lia | done | done |]. intros a Ha. done.
  - destr_if; [|done]. wp_bind_with (opt_link_layer_addr_ok bs n); [done | done | lia | done | done |]. intros a Ha. done.
  - destruct (Z.eqb_spec n 4) as [->|]; [|done]. unfold opt_prefix_len, opt_prefix_flags, opt_valid_lifetime, opt_preferred_lifetime, opt_prefix.
    read_as pl Hpl. read_as fl Hfl. ret_step. read_as v Hv. rewrite (duration_from_secs_ok v u32_max) by mlia. ret_step.
    read_as w Hw. rewrite (duration_from_secs_ok w u32_max) by mlia. ret_step. read_as a Ha.
    destruct (ipv6_from_bytes_ok a) as [-> ?]; [done | lia |]. ret_step. cbn [wp ndisc_option_ok].
    constructor; cbn; [done | apply land_twice | by exists v | by exists w | done].
  - destr_if; [done|]. apply (opt_parse_redirected_ok bs n); [done | done | lia | done].
  - destruct (Z.eqb_spec n 1) as [->|]; [|done]. unfold opt_mtu. by read_as mtu Hmtu.
  - destr_if; [|done]. unfold opt_data, opt_data_len. rewrite En, bind_Ret. read_as d Hd. cbn [wp ndisc_option_ok].
    cbn [ndisc_type_into] in Hty. subst id. split; [done|]. split; [mlia|]. split; [done | lia].
Qed.

Lemma ndisc_add_option_ok o r : ndisc_options_ok o -> ndisc_option_ok r -> ndisc_options_ok (ndisc_add_option o r).
Proof. intros [] Hr. destruct r; cbn [ndisc_add_option ndisc_option_ok] in *; constructor; done. Qed.

(** The loop returns: every turn consumes at least eight octets. *)
Lemma ndisc_parse_options_ok fuel payload offset o :
  bytes_ok payload -> 0 <= offset -> Zlen payload - offset <= Z.of_nat fuel -> ndisc_options_ok o ->
  wp (ndisc_parse_options fuel payload offset o) (fun r => match r with Ok o => ndisc_options_ok o | Err _ => True end).
Proof.
  intros Hb. revert offset o. induction fuel as [|fuel IH]; intros offset o Hof Hm Ho; cbn [ndisc_parse_options].
  { replace (Zlen payload <=? offset) with true by lia. done. }
  destr_if; [done|]. read_as d Hd. unfold try_bind. wp_bind_with (opt_new_checked_ok d ltac:(done)).
  intros [pkt|e]; [|done]. intros (-> & Hl & n & En & Hn & Hf). wp_bind_with (ndisc_option_parse_ok d ltac:(done)). intros opt Hopt.
  unfold opt_data_len. rewrite En. ret_steps. destr_if; [done|]. apply IH; [lia | lia |].
  destruct opt; [by apply ndisc_add_option_ok | done].
Qed.

Lemma icmp6_check_len_ok bs :
  bytes_ok bs ->
  wp (icmp6_check_len bs) (fun r => match r with
    | Ok _ => 8 <= Zlen bs /\ exists t, icmp6_msg_type bs = Ret t /\ 4 <= message6_header_len t <= Zlen bs
    | Err _ => True
    end).
Proof.
  intros Hb. unfold icmp6_check_len, icmp6_header_len. destruct (Z.ltb_spec (Zlen bs) 4); [done|].
  assert (E : exists t, icmp6_msg_type bs = Ret t).
  { unfold icmp6_msg_type. destruct (wp_Ret_inv _ _ (index_byte_wp bs 0 Hb ltac:(lia))) as (x & -> & _). rewrite bind_Ret. by eexists. }
  destruct E as (t & E). rewrite E. ret_step.
  assert (Hlen : 4 <= message6_header_len t) by (by destruct t).
  destruct t; try done; destruct (Z.ltb_spec (Zlen bs) 8); try done; rewrite bind_Ret, bind_Ret; (destr_if; [done|]); cbn [wp];
    (split; [done|]; eexists; split; [done|]; lia).
Qed.

Lemma ndisc_parse_ok bs : bytes_ok bs -> wp (ndisc_parse bs) (fun r => match r with Ok r => ndisc_ok r | Err _ => True end).
Proof.
  intros Hb. unfold ndisc_parse, try_bind. wp_bind_with (icmp6_check_len_ok bs Hb). intros [[]|e]; [|done].
  intros (Hl & t & Et & Hh & Hh'). unfold icmp6_payload, icmp6_header_len. rewrite Et, !bind_Ret. read_as payload Hp.
  wp_bind_with (ndisc_parse_options_ok (length payload) payload 0); [done | lia | unfold Zlen; lia | by constructor |].
  intros [o|e] Ho; [|done]. destruct Ho. ret_step.
  assert (Haddr : forall a b, 0 <= a -> b = a + 16 -> b <= Zlen bs -> wp (d ← slice bs a b; ipv6_from_bytes d) ipv6_addr_ok).
  { intros a b ? -> ?. read_as d Hd. destruct (ipv6_from_bytes_ok d) as [-> ?]; [done | lia | done]. }
  unfold nd_target_addr, nd_dest_addr, nd_neighbor_flags, nd_current_hop_limit, nd_router_flags, nd_router_lifetime, nd_reachable_time, nd_retrans_time.
  destruct t; cbn [message6_header_len] in *; try done.
  - read_as hop Hhop. read_as fl Hfl. ret_step. read_as a Ha. rewrite (duration_from_secs_ok a u16_max) by mlia. ret_step.
    read_as b Hb'. rewrite (duration_from_millis_u32 b u32_max) by mlia. ret_step.
    read_as c Hc. rewrite (duration_from_millis_u32 c u32_max) by mlia. ret_step. cbn [wp ndisc_ok].
    split_and!; try done; [apply land_twice | by exists a | by exists b | by exists c].
  - wp_bind_with (Haddr 8 24); [lia | lia | lia |]. intros a Ha. done.
  - read_as fl Hfl. ret_step. wp_bind_with (Haddr 8 24); [lia | lia | lia |]. intros b Hb'. cbn [wp ndisc_ok]. split; [apply land_twice | done].
  - wp_bind_with (Haddr 8 24); [lia | lia | lia |]. intros a Ha. wp_bind_with (Haddr 24 40); [lia | lia | lia |]. intros b Hb'. done.
Qed.
End Parse.
