(* ===== verification/Icmpv6WireSpec.v ===== *)
(** * What parsing and emitting ICMPv6 messages promises *)

From stdpp Require Import gmap.
From S2P Require Import Prelude SeqNumber TimeModel IpTypes ByteOrder Checksum Ipv4Wire Neighbor EthernetArp Ipv6Wire Icmpv6Packet NdiscWire MldWire Icmpv6Wire NdiscWireSpec.

(** ** Parsing *)

Definition mld_ok (r : MldRepr) : Prop :=
  match r with
  | MldQuery max_resp_code mcast_addr s_flag qrv qqic num_srcs data =>
      in_u16 max_resp_code /\ ipv6_addr_ok mcast_addr /\ 0 <= qrv < 8 /\ in_u8 qqic /\ in_u16 num_srcs /\ bytes_ok data
  | MldReport n data => in_u16 n /\ bytes_ok data
  | MldReportRecords records => False
  end.

(** A quoted packet of at most [n] octets, which may be truncated. *)
Definition quote6_ok (n : Z) (header : IpHeader) (data : list Z) : Prop :=
  ip6_header_ok header /\ bytes_ok data /\ 40 + Zlen data <= n.

Definition icmpv6_ok (n : Z) (r : Icmpv6Repr) : Prop :=
  match r with
  | Icmpv6DstUnreachable reason header data =>
      in_u8 (dst6_unreachable_into reason) /\ dst6_unreachable_from (dst6_unreachable_into reason) = reason /\ quote6_ok n header data
  | Icmpv6TimeExceeded reason header data =>
      in_u8 (time6_exceeded_into reason) /\ time6_exceeded_from (time6_exceeded_into reason) = reason /\ quote6_ok n header data
  | Icmpv6PktTooBig mtu header data => in_u32 mtu /\ quote6_ok n header data
  | Icmpv6ParamProblem reason pointer header data =>
      in_u8 (param6_problem_into reason) /\ param6_problem_from (param6_problem_into reason) = reason /\ in_u32 pointer /\
      quote6_ok n header data
  | Icmpv6EchoRequest ident seq_no data | Icmpv6EchoReply ident seq_no data =>
      in_u16 ident /\ in_u16 seq_no /\ bytes_ok data /\ 8 + Zlen data = n
  | Icmpv6Ndisc r => ndisc_ok r
  | Icmpv6Mld r => mld_ok r
  end.

(** The codes of a received message are those of its reason. *)
Lemma dst6_unreachable_code x : dst6_unreachable_into (dst6_unreachable_from x) = x.
Proof. destruct x as [|p|p]; [done | | done]. do 3 (destruct p as [p|p|]; try done). Qed.

Lemma time6_exceeded_code x : time6_exceeded_into (time6_exceeded_from x) = x.
Proof. destruct x as [|p|p]; [done | | done]. by destruct p. Qed.

Lemma param6_problem_code x : param6_problem_into (param6_problem_from x) = x.
Proof. destruct x as [|p|p]; [done | | done]. do 2 (destruct p as [p|p|]; try done). Qed.

Section Parse.
Context `{NetworkEndianLaws}.

Lemma icmp6_sum_ok bs src dst :
  bytes_ok bs -> Zlen bs <= 131070 -> ipv6_addr_ok src -> ipv6_addr_ok dst ->
  exists p, in_u16 p /\ pseudo_header (Ipv6 src) (Ipv6 dst) PROTOCOL_ICMPV6 (wrap_u 32 (Zlen bs)) = Ret p /\
    icmp6_sum bs src dst = Ret (fold16 (p + word_sum bs)).
Proof.
  intros Hb Hl [Hs Hsl] [Hd Hdl].
  destruct (pseudo_header_ok (Ipv6 src) (Ipv6 dst) PROTOCOL_ICMPV6 (wrap_u 32 (Zlen bs))) as (p & Ep & Hp);
    [done | split; [done | unfold Zlen; cbn; lia] | split; [done | unfold Zlen; cbn; lia] | by vm_compute |].
  exists p. split; [done|]. split; [done|]. unfold icmp6_sum. rewrite Ep, bind_Ret. rewrite checksum_data_ok, bind_Ret by done.
  rewrite checksum_combine_ok; [|repeat (constructor; [done || apply fold16_u16|]); constructor | unfold Zlen; cbn; lia].
  cbn [foldr]. f_equal. pose proof (word_sum_bounds bs Hb). rewrite Z.add_0_r. apply fold16_add; mlia.
Qed.

Lemma icmp6_parse_quote_ok bs :
  bytes_ok bs -> (exists t, icmp6_msg_type bs = Ret t /\ 4 <= message6_header_len t <= Zlen bs) ->
  wp (icmp6_parse_quote bs) (fun r => match r with Ok (data, header) => quote6_ok (Zlen bs) header data | Err _ => True end).
Proof.
  intros Hb (t & Et & Hl). unfold icmp6_parse_quote, icmp6_payload, icmp6_header_len, ip6_header_len, IPV6_HEADER_LEN.
  rewrite Et, !bind_Ret. read_as p Hp. destr_if; [|done]. read_as d Hd.
  destruct (ip6_hdr_view p Hp ltac:(lia)) as (b0 & b1 & b2 & b3 & len & nh & hop & src & dst & rest & -> & ? & ? & ? & ? & ? & ?).
  rewrite ip6_src_addr_ok, ip6_dst_addr_ok, ip6_next_header_ok, ip6_payload_len_ok, ip6_hop_limit_ok by done. ret_steps. cbn [wp].
  split; [constructor; cbn; done || apply be_bytes_addr6|]. split; [done | lia].
Qed.

Lemma mld_parse_ok bs : bytes_ok bs -> wp (mld_parse bs) (fun r => match r with Ok r => mld_ok r | Err _ => True end).
Proof.
  intros Hb. unfold mld_parse, try_bind. wp_bind_with (icmp6_check_len_ok bs Hb). intros [[]|e]; [|done].
  intros (Hl & t & Et & Hh & Hh'). unfold icmp6_payload, icmp6_header_len. rewrite Et, !bind_Ret. ret_steps.
  unfold mld_max_resp_code, mld_mcast_addr, mld_s_flag, mld_qrv, mld_qqic, mld_num_srcs, mld_nr_mcast_addr_rcrds.
  destruct t; cbn [message6_header_len] in *; try done.
  - read_as code Hcode. read_as a Ha. destruct (ipv6_from_bytes_ok a) as [-> Haddr]; [done | lia |]. ret_step.
    read_as s Hs. ret_step. read_as q Hq. ret_step. read_as qq Hqq. read_as ns Hns. read_as d Hd. cbn [wp mld_ok].
    split_and!; try done; change 7 with (Z.ones 3); rewrite Z.land_ones by lia; pose proof (Z.mod_pos_bound q (2 ^ 3)); lia.
  - read_as n Hn. by read_as d Hd.
Qed.

Lemma icmpv6_parse_ok src dst bs caps :
  bytes_ok bs -> Zlen bs <= 131070 -> ipv6_addr_ok src -> ipv6_addr_ok dst ->
  wp (icmpv6_parse src dst bs caps) (fun r => match r with Ok r => icmpv6_ok (Zlen bs) r | Err _ => True end).
Proof.
  intros Hb Hlen Hs Hd. unfold icmpv6_parse, try_bind. wp_bind_with (icmp6_check_len_ok bs Hb). intros [[]|e]; [|done].
  intros [Hl Ht]. eapply (wp_bind_mono _ _ (fun _ => True)).
  { destr_if; [|done]. unfold icmp6_verify_checksum. destruct (icmp6_sum_ok bs src dst Hb Hlen Hs Hd) as (p & _ & _ & ->). done. }
  intros valid _. destr_if; [done|].
  assert (Hq := icmp6_parse_quote_ok bs Hb Ht). destruct Ht as (t & Et & Hh). rewrite Et. ret_step.
  unfold icmp6_msg_code. read_as code Hcode.
  assert (Hecho : wp (icmp6_parse_echo bs) (fun '(ident, seq_no, data) =>
    in_u16 ident /\ in_u16 seq_no /\ bytes_ok data /\ Zlen data = Zlen bs - message6_header_len t)).
  { unfold icmp6_parse_echo, icmp6_echo_ident, icmp6_echo_seq_no, icmp6_payload, icmp6_header_len. rewrite Et. rewrite !bind_Ret.
    read_as i Hi. read_as s Hse. by read_as d Hda. }
  assert (Hnd : wp (ndisc_parse bs ≫= (fun r => match r with Ok r => Ret (Ok (Icmpv6Ndisc r)) | Err e => Ret (Err e) end))
    (fun r => match r with Ok r => icmpv6_ok (Zlen bs) r | Err _ => True end)).
  { wp_bind_with (ndisc_parse_ok bs Hb). by intros [r|e]. }
  assert (Hml : wp (mld_parse bs ≫= (fun r => match r with Ok r => Ret (Ok (Icmpv6Mld r)) | Err e => Ret (Err e) end))
    (fun r => match r with Ok r => icmpv6_ok (Zlen bs) r | Err _ => True end)).
  { wp_bind_with (mld_parse_ok bs Hb). by intros [r|e]. }
  unfold icmp6_pkt_too_big_mtu, icmp6_param_problem_ptr.
  destruct t; cbn [message6_header_len message6_is_ndisc message6_is_mld] in *; try (destruct code; done).
  - wp_bind_with Hq. intros [[data header]|e]; [|done]. cbn [wp icmpv6_ok]. by rewrite dst6_unreachable_code.
  - destruct code; try done. wp_bind_with Hq. intros [[data header]|e] Hqq; [|done]. by read_as mtu Hmtu.
  - wp_bind_with Hq. intros [[data header]|e]; [|done]. cbn [wp icmpv6_ok]. by rewrite time6_exceeded_code.
  - wp_bind_with Hq. intros [[data header]|e] Hqq; [|done]. read_as ptr Hptr. cbn [wp icmpv6_ok]. by rewrite param6_problem_code.
  - destruct code; try done. wp_bind_with Hecho. intros [[ident seq_no] data] (? & ? & ? & ?). cbn [wp icmpv6_ok]. split_and!; done || lia.
  - destruct code; try done. wp_bind_with Hecho. intros [[ident seq_no] data] (? & ? & ? & ?). cbn [wp icmpv6_ok]. split_and!; done || lia.
Qed.
End Parse.

(** Parsing an ICMPv6 message never panics, whatever its bytes and its addresses, the options of
    neighbor discovery and the records of listener discovery included: the loop over the options
    ends within the fuel of the payload's length, and a parsed message has the values of its types,
    with a quote that lies within the message. *)
Theorem icmpv6_parse_safe `{NetworkEndianLaws} src dst bs caps :
  bytes_ok bs -> Zlen bs <= 131070 -> ipv6_addr_ok src -> ipv6_addr_ok dst ->
  wp (icmpv6_parse src dst bs caps) (fun r => match r with Ok r => icmpv6_ok (Zlen bs) r | Err _ => True end).
Proof. apply icmpv6_parse_ok. Qed.

(** A neighbor advertisement whose last option is cut off. *)
Definition ex_cut_option : list Z := [136; 0; 0; 0; 0x60; 0; 0; 0] ++ replicate 16 0 ++ [2; 1; 0; 0].

Lemma icmpv6_parse_safe_witness :
  wp (@icmpv6_parse network_endian (replicate 16 0) (replicate 16 0) ex_cut_option caps_ignored) (fun r =>
    match r with Ok r => icmpv6_ok (Zlen ex_cut_option) r | Err _ => True end).
Proof.
  apply (@icmpv6_parse_safe network_endian network_endian_laws);
    [unfold ex_cut_option; byte_list | by vm_compute | split; [byte_list | done] | split; [byte_list | done]].
Defined.

Example icmpv6_parse_cut_option :
  @icmpv6_parse network_endian (replicate 16 0) (replicate 16 0) ex_cut_option caps_ignored = Ret (Err MkWireError).
Proof. by vm_compute. Qed.
