(* ===== verification/NdiscEmitSpec.v ===== *)
(** * What emitting neighbor discovery messages promises

    An emitted option is parsed back whatever follows it ([opt_encodes]), and the loop over the
    options of a message collects those that were emitted. *)

From stdpp Require Import gmap.
From S2P Require Import Prelude SeqNumber TimeModel IpTypes ByteOrder Ipv4Wire Neighbor EthernetArp Ipv6Wire Icmpv6Packet NdiscWire NdiscWireSpec.

(** ** Options that can be written *)

(** The two lengths of hardware addresses that parsing gives back as they were. *)
Definition raw_emit_ok (a : list Z) : Prop := bytes_ok a /\ (Zlen a = 6 \/ Zlen a = 8).

Definition ndisc_option_emit_ok (r : NdiscOptionRepr) : Prop :=
  match r with
  | SourceLinkLayerAddr a | TargetLinkLayerAddr a => raw_emit_ok a
  | OptPrefixInformation p => prefix_info_ok p
  | OptRedirectedHeader r => redirected_ok r /\ 8 + 40 + Zlen (rh_data r) <= 2040
  | OptMtu mtu => in_u32 mtu
  | OptUnknown id n data => 6 <= id <= u8_max /\ 1 <= n <= u8_max /\ bytes_ok data /\ Zlen data = n * 8 - 2
  end.

(** The bytes of an emitted option, in front of any others. *)
Record opt_encodes `{NetworkEndian} (bs : list Z) (r : NdiscOptionRepr) : Prop := {
  oe_len : Zlen bs = ndisc_option_buffer_len r;
  oe_min : 8 <= Zlen bs;
  oe_bytes : bytes_ok bs;
  oe_checked tail : bytes_ok tail -> opt_new_checked (bs ++ tail) = Ret (Ok (bs ++ tail));
  oe_parse tail : bytes_ok tail -> ndisc_option_parse (bs ++ tail) = Ret (Ok r);
  oe_data_len tail : bytes_ok tail -> exists n, opt_data_len (bs ++ tail) = Ret n /\ n * 8 = Zlen bs;
}.

Section Options.
Context `{NetworkEndianLaws}.

(** The first two bytes of an option decide the checks. *)
Lemma opt_checks bs ty n :
  index bs 0 = Ret ty -> index bs 1 = Ret n -> 1 <= n -> n * 8 <= Zlen bs ->
  match ndisc_type_from ty with TypePrefixInformation => 4 <= n | TypeRedirectedHeader => 6 <= n | _ => True end ->
  opt_check_len bs = Ret (Ok tt) /\ opt_new_checked bs = Ret (Ok bs) /\ opt_data_len bs = Ret n /\
  opt_option_type bs = Ret (ndisc_type_from ty).
Proof.
  intros E0 E1 Hn Hl Hty. assert (Hc : opt_check_len bs = Ret (Ok tt)).
  { unfold opt_check_len, opt_option_type. replace (Zlen bs <? 8) with false by lia. rewrite E1, bind_Ret.
    replace (Zlen bs <? n * 8) with false by lia. rewrite E0, !bind_Ret. f_equal.
    destruct (ndisc_type_from ty); try done; [by replace (32 <=? n * 8) with true by lia | by replace (48 <=? n * 8) with true by lia]. }
  split; [done|]. unfold opt_new_checked, try_bind, opt_data_len, opt_option_type. rewrite Hc, E0, E1, !bind_Ret.
  by replace (n =? 0) with false by lia.
Qed.

(** How an option is shown to be encoded by its header and its parse. *)
Lemma opt_encodes_intro bs r ty n :
  bytes_ok bs -> Zlen bs = n * 8 -> ndisc_option_buffer_len r = n * 8 -> 1 <= n ->
  match ndisc_type_from ty with TypePrefixInformation => 4 <= n | TypeRedirectedHeader => 6 <= n | _ => True end ->
  (forall tail, index (bs ++ tail) 0 = Ret ty /\ index (bs ++ tail) 1 = Ret n) ->
  (forall tail, bytes_ok tail -> opt_check_len (bs ++ tail) = Ret (Ok tt) -> opt_data_len (bs ++ tail) = Ret n ->
    opt_option_type (bs ++ tail) = Ret (ndisc_type_from ty) -> ndisc_option_parse (bs ++ tail) = Ret (Ok r)) ->
  opt_encodes bs r.
Proof.
  intros Hb Hl Hr Hn Hty Hi Hp.
  assert (Hc : forall tail, opt_check_len (bs ++ tail) = Ret (Ok tt) /\ opt_new_checked (bs ++ tail) = Ret (Ok (bs ++ tail)) /\
    opt_data_len (bs ++ tail) = Ret n /\ opt_option_type (bs ++ tail) = Ret (ndisc_type_from ty)).
  { intros tail. destruct (Hi tail) as [E0 E1]. apply opt_checks; try done. rewrite Zlen_app. pose proof (Zlen_nonneg tail). lia. }
  constructor; try done; try lia.
  - intros tail _. apply Hc.
  - intros tail Ht. destruct (Hc tail) as (? & _ & ? & ?). by apply Hp.
  - intros tail _. exists n. split; [apply Hc | lia].
Qed.

(** The two options with a hardware address. *)
Definition link_layer_option (t : NdiscOptionType) (a : list Z) (r : NdiscOptionRepr) : Prop :=
  t = TypeSourceLinkLayerAddr /\ r = SourceLinkLayerAddr a \/ t = TypeTargetLinkLayerAddr /\ r = TargetLinkLayerAddr a.

Lemma link_layer_encodes t a r w n pads :
  link_layer_option t a r -> bytes_ok a -> length a = w -> 1 <= n <= 2 -> Z.min 8 (n * 8 - 2) = Z.of_nat w ->
  2 + (Z.of_nat w + layout_len pads) = n * 8 -> (2 + Zlen a + 7) / 8 * 8 = n * 8 ->
  opt_encodes (layout_bytes ([(1%nat, ndisc_type_into t); (1%nat, n); (w, be_value a)] ++ pads)) r.
Proof.
  intros Ht Ha Hw Hn Hmin Hlen Hbl.
  assert (Hty : ndisc_type_from (ndisc_type_into t) = t /\ in_u8 (ndisc_type_into t)) by (destruct Ht as [[-> _]|[-> _]]; by vm_compute).
  destruct Hty as [Hty Hu]. apply (opt_encodes_intro _ _ (ndisc_type_into t) n).
  - apply layout_bytes_ok.
  - rewrite Zlen_layout_bytes. change (1 + (1 + (Z.of_nat w + layout_len pads)) = n * 8). lia.
  - by destruct Ht as [[_ ->]|[_ ->]].
  - lia.
  - rewrite Hty. by destruct Ht as [[-> _]|[-> _]].
  - intros tail. split; [by apply (layout_index 0) | apply (layout_index 1); [done | done | mlia]].
  - intros tail Htl Hc Hd Ho. rewrite Hty in Ho.
    assert (Hll : opt_link_layer_addr (layout_bytes ([(1%nat, ndisc_type_into t); (1%nat, n); (w, be_value a)] ++ pads) ++ tail) = Ret a).
    { unfold opt_link_layer_addr. rewrite Hd. ret_step. rewrite usize_sub_ok, bind_Ret by mlia. cbv zeta.
      change MAX_HARDWARE_ADDRESS_LEN with 8. rewrite Hmin. erewrite (layout_get 2) by (reflexivity || (cbn; lia)). ret_step.
      rewrite <- Hw, be_bytes_value by done. unfold raw_from_bytes, MAX_HARDWARE_ADDRESS_LEN.
      by replace (Zlen a <=? 8) with true by mlia. }
    unfold ndisc_option_parse, try_bind. rewrite Hc, Hd, Ho. ret_steps.
    destruct Ht as [[-> ->]|[-> ->]]; replace (1 <=? n) with true by lia; rewrite Hll; by ret_step.
Qed.

Lemma link_layer_emit_ok t r a p :
  raw_emit_ok a -> link_layer_option t a r -> bytes_ok p -> ndisc_option_buffer_len r <= Zlen p ->
  exists bs rest, opt_emit_link_layer p t a = Ret (bs ++ rest) /\ p = take (length bs) p ++ rest /\ bytes_ok rest /\ opt_encodes bs r.
Proof.
  intros [Ha Hla] Ht Hb Hl. assert (Hu : in_u8 (ndisc_type_into t)) by (destruct Ht as [[-> _]|[-> _]]; by vm_compute).
  assert (Hbl : ndisc_option_buffer_len r = (2 + Zlen a + 7) / 8 * 8) by (destruct Ht as [[_ ->]|[_ ->]]; reflexivity).
  unfold opt_emit_link_layer, opt_set_option_type, opt_set_data_len, opt_set_link_layer_addr.
  destruct Hla as [Hla|Hla]; rewrite Hla in *.
  - change ((2 + 6 + 7) / 8 * 8) with 8 in *. fields [1; 1; 6]%nat p l rest E Hr. rename z into b0, z0 into b1, z1 into v.
    exists (layout_bytes [(1%nat, ndisc_type_into t); (1%nat, 1); (6%nat, be_value a)]), rest. split; [|split; [|split]].
    + erewrite (layout_index_set 0) by (reflexivity || done). ret_step. change (wrap_u 8 ((6 + 2 + 7) / 8)) with 1.
      erewrite (layout_index_set 1) by (reflexivity || mlia). ret_step. by erewrite (layout_copy 2) by (reflexivity || done || (unfold Zlen in *; lia)).
    + by rewrite take_app_length'.
    + done.
    + apply (link_layer_encodes t a r 6 1 []); done || (by rewrite Hla) || (unfold Zlen in *; lia).
  - change ((2 + 8 + 7) / 8 * 8) with 16 in *. fields [1; 1; 8; 6]%nat p l rest E Hr. rename z into b0, z0 into b1, z1 into v, z2 into pad.
    exists (layout_bytes [(1%nat, ndisc_type_into t); (1%nat, 2); (8%nat, be_value a); (6%nat, pad)]), rest. split; [|split; [|split]].
    + erewrite (layout_index_set 0) by (reflexivity || done). ret_step. change (wrap_u 8 ((8 + 2 + 7) / 8)) with 2.
      erewrite (layout_index_set 1) by (reflexivity || mlia). ret_step. by erewrite (layout_copy 2) by (reflexivity || done || (unfold Zlen in *; lia)).
    + by rewrite take_app_length'.
    + done.
    + apply (link_layer_encodes t a r 8 2 [(6%nat, pad)]); done || (by rewrite Hla) || (unfold Zlen in *; lia).
Qed.

Lemma mtu_emit_ok mtu p :
  in_u32 mtu -> bytes_ok p -> 8 <= Zlen p ->
  exists bs rest, ndisc_option_emit (OptMtu mtu) p = Ret (bs ++ rest) /\ p = take (length bs) p ++ rest /\ bytes_ok rest /\ opt_encodes bs (OptMtu mtu).
Proof.
  intros Hm Hb Hl. fields [1; 1; 2; 4]%nat p l rest E Hr. rename z into b0, z0 into b1, z1 into v, z2 into w.
  exists (layout_bytes [(1%nat, 5); (1%nat, 1); (2%nat, v); (4%nat, mtu)]), rest. split; [|split; [|split]].
  - cbn [ndisc_option_emit]. unfold opt_set_option_type, opt_set_data_len, opt_set_mtu.
    erewrite (layout_index_set 0) by (reflexivity || (by vm_compute) || mlia). ret_step. erewrite (layout_index_set 1) by (reflexivity || mlia). ret_step.
    by erewrite (layout_write_u32 3) by (reflexivity || done).
  - by rewrite take_app_length'.
  - done.
  - apply (opt_encodes_intro _ _ 5 1); [apply layout_bytes_ok | by rewrite Zlen_layout_bytes | done | lia | done | |].
    + intros tail. split; [apply (layout_index 0) | apply (layout_index 1)]; done || mlia.
    + intros tail Htl Hc Hd Ho. unfold ndisc_option_parse, try_bind. rewrite Hc, Hd, Ho. ret_steps.
      change (ndisc_type_from 5) with TypeMtu. change (1 =? 1) with true. cbv iota. unfold opt_mtu. erewrite (layout_read_u32 3) by (reflexivity || done). by ret_step.
Qed.

Lemma secs_field s : in_u32 s -> wrap_u 32 (duration_secs (s * 1000000)) = s /\ duration_from_secs s = Ret (s * 1000000).
Proof.
  intros Hs. unfold duration_secs. rewrite Z.div_mul by lia. split; [apply wrap_u_id; mlia|].
  apply (duration_from_secs_ok s u32_max); mlia.
Qed.

Lemma prefix_flags_u8 p : prefix_info_ok p -> in_u8 (pi_flags p).
Proof. intros Hp. rewrite <- (pio_flags p Hp), Z.land_comm. by apply in_u8_land_l. Qed.

Lemma prefix_emit_ok i p :
  prefix_info_ok i -> bytes_ok p -> 32 <= Zlen p ->
  exists bs rest, ndisc_option_emit (OptPrefixInformation i) p = Ret (bs ++ rest) /\ p = take (length bs) p ++ rest /\ bytes_ok rest /\
    opt_encodes bs (OptPrefixInformation i).
Proof.
  intros Hi Hb Hl. pose proof (prefix_flags_u8 i Hi) as Hfl. destruct Hi as [Hlen Hflags (s & Hs & Es) (s' & Hs' & Es') [Hpx Hpl]].
  fields [1; 1; 1; 1; 4; 4; 4; 16]%nat p l rest E Hr. rename z into b0, z0 into b1, z1 into b2, z2 into b3, z3 into v, z4 into w, z5 into x, z6 into y.
  destruct (secs_field s Hs) as [Ew Ed]. destruct (secs_field s' Hs') as [Ew' Ed'].
  exists (layout_bytes [(1%nat, 3); (1%nat, 4); (1%nat, pi_prefix_len i); (1%nat, pi_flags i); (4%nat, s); (4%nat, s'); (4%nat, 0);
    (16%nat, be_value (pi_prefix i))]), rest. split; [|split; [|split]].
  - cbn [ndisc_option_emit]. unfold opt_clear_prefix_reserved, opt_set_option_type, opt_set_data_len, opt_set_prefix_len, opt_set_prefix_flags,
      opt_set_valid_lifetime, opt_set_preferred_lifetime, opt_set_prefix.
    erewrite (layout_write_u32 6) by (reflexivity || mlia). ret_step. erewrite (layout_index_set 0) by (reflexivity || (by vm_compute)). ret_step.
    erewrite (layout_index_set 1) by (reflexivity || mlia). ret_step. erewrite (layout_index_set 2) by (reflexivity || done). ret_step.
    erewrite (layout_index_set 3) by (reflexivity || done). ret_step. rewrite Es, Es', Ew, Ew'.
    erewrite (layout_write_u32 4) by (reflexivity || done). ret_step. erewrite (layout_write_u32 5) by (reflexivity || done). ret_step.
    by erewrite (layout_copy 7) by (reflexivity || done).
  - by rewrite take_app_length'.
  - done.
  - apply (opt_encodes_intro _ _ 3 4); [apply layout_bytes_ok | by rewrite Zlen_layout_bytes | done | lia | by vm_compute | |].
    + intros tail. split; [apply (layout_index 0) | apply (layout_index 1)]; done || mlia.
    + intros tail Htl Hc Hd Ho. unfold ndisc_option_parse, try_bind. rewrite Hc, Hd, Ho. ret_steps.
      change (ndisc_type_from 3) with TypePrefixInformation. change (4 =? 4) with true. cbv iota. unfold opt_prefix_len, opt_prefix_flags, opt_valid_lifetime, opt_preferred_lifetime, opt_prefix.
      erewrite (layout_index 2 _ _ _ 2) by (reflexivity || done). ret_step. erewrite (layout_index 3 _ _ _ 3) by (reflexivity || done). do 2 ret_step. rewrite Hflags.
      erewrite (layout_read_u32 4 _ _ _ 4 8) by (reflexivity || done). ret_step. rewrite Ed. ret_step.
      erewrite (layout_read_u32 5 _ _ _ 8 12) by (reflexivity || done). ret_step. rewrite Ed'. ret_step.
      erewrite (layout_get 7 _ 16) by reflexivity. ret_step.
      assert (Ea : be_bytes 16 (be_value (pi_prefix i)) = pi_prefix i) by (by apply be_value_addr6). rewrite Ea.
      destruct (ipv6_from_bytes_ok (pi_prefix i) Hpx) as [-> _]; [mlia|]. ret_step. destruct i; cbn in *; by subst.
Qed.

Lemma unknown_emit_ok id n data p :
  ndisc_option_emit_ok (OptUnknown id n data) -> bytes_ok p -> n * 8 <= Zlen p ->
  exists bs rest, ndisc_option_emit (OptUnknown id n data) p = Ret (bs ++ rest) /\ p = take (length bs) p ++ rest /\ bytes_ok rest /\
    opt_encodes bs (OptUnknown id n data).
Proof.
  intros (Hid & Hn & Hd & Hl) Hb Hp. fields [1; 1]%nat p l rest E Hr. rename z into b0, z0 into b1.
  rewrite Zlen_app, Zlen_layout_bytes in Hp. change (layout_len _) with 2 in Hp.
  destruct (Zlen_split_at rest (n * 8 - 2)) as (m & tl & -> & Hm); [lia|].
  assert (Hty : ndisc_type_from id = TypeUnknown id).
  { unfold ndisc_type_from. destruct (decide (0 <= id <= 5)); [lia|]. destruct id as [|q|q]; try lia. repeat (destruct q; try reflexivity || lia). }
  assert (Hget : forall m' t, Zlen m' = n * 8 - 2 -> slice ((layout_bytes [(1%nat, id); (1%nat, n)] ++ m') ++ t) 2 (n * 8) = Ret m').
  { intros m' t Hm'. rewrite <- app_assoc. apply slice_mid; [done | lia]. }
  exists (layout_bytes [(1%nat, id); (1%nat, n)] ++ data), tl. split; [|split; [|split]].
  - cbn [ndisc_option_emit]. unfold opt_set_option_type, opt_set_data_len, opt_data_mut, opt_data_len. cbn [ndisc_type_into].
    erewrite (layout_index_set 0) by (reflexivity || (by vm_compute) || mlia). ret_step. erewrite (layout_index_set 1) by (reflexivity || mlia). ret_step.
    erewrite (layout_index 1) by (reflexivity || mlia). ret_step. rewrite <- app_assoc.
    apply (slice_mut_mid (layout_bytes [(1%nat, id); (1%nat, n)]) m data tl); [by rewrite Zlen_layout_bytes | lia | apply copy_from_slice_ok; lia | unfold Zlen in *; lia].
  - rewrite app_assoc. rewrite take_app_length'; [done|]. rewrite !length_app. unfold Zlen in *. cbn. lia.
  - apply bytes_ok_app in Hr as [_ Hr]. exact Hr.
  - apply (opt_encodes_intro _ _ id n).
    + apply bytes_ok_app. split; [apply layout_bytes_ok | done].
    + rewrite Zlen_app, Zlen_layout_bytes. change (layout_len _) with 2. lia.
    + done.
    + lia.
    + by rewrite Hty.
    + intros tail. rewrite <- app_assoc. split; [apply (layout_index 0) | apply (layout_index 1)]; done || mlia.
    + intros tail Htl Hc Hdl Ho. unfold ndisc_option_parse, try_bind. rewrite Hc, Hdl, Ho, Hty. ret_steps.
      replace (negb (n =? 0)) with true by lia. unfold opt_data. rewrite Hdl. ret_step. rewrite Hget by lia. by ret_step.
Qed.

(** The quoted packet of a redirected header: its payload replaces what is behind the header. *)
Lemma redirected_packet_emit r p :
  redirected_ok r -> bytes_ok p -> 40 + Zlen (rh_data r) <= Zlen p ->
  exists pad, (ip_packet ← ipv6_emit (rh_header r) p; ip6_payload_mut ip_packet (fun d => copy_from_slice d (rh_data r))) =
    Ret (ip6_emitted (rh_header r) (rh_data r ++ pad)) /\ bytes_ok pad /\ Zlen p = 40 + Zlen (rh_data r) + Zlen pad.
Proof.
  intros (Hh & Hd & Hl) Hb Hp. rewrite ipv6_emit_ok, bind_Ret by (done || (pose proof (Zlen_nonneg (rh_data r)); lia)).
  assert (Hz : Zlen (drop 40 p) = Zlen p - 40) by (unfold Zlen in *; rewrite length_drop; lia).
  assert (Hbd : bytes_ok (drop 40 p)) by (by apply bytes_ok_drop).
  destruct (Zlen_split_at (drop 40 p) (Zlen (rh_data r))) as (m & pad & E & Hm); [pose proof (Zlen_nonneg (rh_data r)); lia|].
  rewrite E in *. exists pad. apply bytes_ok_app in Hbd as [_ Hpad]. rewrite Zlen_app in Hz. split; [|split; [done | lia]].
  unfold ip6_payload_mut, ip6_emitted. assert (Hu : in_u16 (iph_payload_len (rh_header r))) by apply Hh.
  rewrite ip6_total_len_ok, bind_Ret by done. change ip6_header_len with 40. unfold ip6_hdr.
  apply slice_mut_mid; [by rewrite Zlen_layout_bytes | lia | by apply copy_from_slice_ok | unfold Zlen in *; lia].
Qed.

Lemma redirected_emit_ok r p :
  redirected_ok r -> 8 + 40 + Zlen (rh_data r) <= 2040 -> bytes_ok p -> (8 + 40 + Zlen (rh_data r) + 7) / 8 * 8 <= Zlen p ->
  exists bs rest, ndisc_option_emit (OptRedirectedHeader r) p = Ret (bs ++ rest) /\ p = take (length bs) p ++ rest /\ bytes_ok rest /\
    opt_encodes bs (OptRedirectedHeader r).
Proof.
  intros Hok Hmax Hb Hl. set (n := (8 + 40 + Zlen (rh_data r) + 7) / 8) in *. pose proof (Zlen_nonneg (rh_data r)).
  assert (Hn : 6 <= n <= 255 /\ 48 + Zlen (rh_data r) <= n * 8).
  { pose proof (Z.div_mod (8 + 40 + Zlen (rh_data r) + 7) 8). pose proof (Z.mod_pos_bound (8 + 40 + Zlen (rh_data r) + 7) 8).
    assert (6 <= n) by (apply Z.div_le_lower_bound; lia). assert (n < 256) by (apply Z.div_lt_upper_bound; lia). unfold n in *. lia. }
  fields [1; 1; 6]%nat p l rest E Hr. rename z into b0, z0 into b1, z1 into v.
  rewrite Zlen_app, Zlen_layout_bytes in Hl. change (layout_len _) with 8 in Hl.
  destruct (Zlen_split_at rest (n * 8 - 8)) as (pk & tl & -> & Hpk); [lia|]. apply bytes_ok_app in Hr as [Hbpk Htl].
  destruct (redirected_packet_emit r pk Hok Hbpk ltac:(lia)) as (pad & Hemit & Hpad & Hz).
  pose (hd := layout_bytes [(1%nat, 4); (1%nat, n); (6%nat, 0)]). pose (pk' := ip6_emitted (rh_header r) (rh_data r ++ pad)).
  assert (Hpk' : Zlen pk' = n * 8 - 8) by (unfold pk', ip6_emitted; rewrite Zlen_ip6_hdr, Zlen_app; lia).
  assert (Hdata : forall m t, Zlen m = n * 8 - 8 -> slice (hd ++ m ++ t) 2 (n * 8) = Ret (be_bytes 6 0 ++ m)).
  { intros m t Hm. change (hd ++ m ++ t) with ((be_bytes 1 4 ++ be_bytes 1 n) ++ (be_bytes 6 0 ++ m) ++ t).
    apply slice_mid; [done|]. rewrite Zlen_app, Zlen_be_bytes. lia. }
  exists (hd ++ pk'), tl. split; [|split; [|split; [done|]]].
  - cbn [ndisc_option_emit]. unfold opt_clear_redirected_reserved, opt_set_option_type, opt_set_data_len, opt_data_mut, opt_data_len, ipv6_buffer_len.
    fold n. rewrite (wrap_u_id 8) by lia. rewrite (layout_set 2 _ 6 v 0) by reflexivity. ret_step.
    erewrite (layout_index_set 0) by (reflexivity || (by vm_compute)). ret_step. erewrite (layout_index_set 1) by (reflexivity || mlia). ret_step.
    erewrite (layout_index 1) by (reflexivity || mlia). ret_step.
    change (slice_mut (hd ++ pk ++ tl) 2 (n * 8) (fun d => slice_mut d 6 (Zlen d) (fun packet =>
      ip_packet ← ipv6_emit (rh_header r) packet; ip6_payload_mut ip_packet (fun d => copy_from_slice d (rh_data r)))) = Ret ((hd ++ pk') ++ tl)).
    rewrite <- app_assoc.
    change (hd ++ pk ++ tl) with ((be_bytes 1 4 ++ be_bytes 1 n) ++ (be_bytes 6 0 ++ pk) ++ tl).
    change (hd ++ pk' ++ tl) with ((be_bytes 1 4 ++ be_bytes 1 n) ++ (be_bytes 6 0 ++ pk') ++ tl).
    apply slice_mut_mid; [done | rewrite Zlen_app, Zlen_be_bytes; lia | | rewrite !length_app; unfold Zlen in *; lia].
    rewrite <- (app_nil_r pk), <- (app_nil_r pk'). apply slice_mut_mid; [done | | exact Hemit | unfold Zlen in *; lia].
    rewrite app_nil_r, Zlen_app, Zlen_be_bytes. lia.
  - rewrite app_assoc. rewrite take_app_length'; [done|]. rewrite !length_app. unfold Zlen in *. f_equal. lia.
  - apply (opt_encodes_intro _ _ 4 n).
    + apply bytes_ok_app. split; [apply layout_bytes_ok|]. unfold pk', ip6_emitted. apply ip6_hdr_bytes_ok. apply bytes_ok_app. split; [apply Hok | done].
    + rewrite Zlen_app. change (Zlen hd) with 8. lia.
    + cbn [ndisc_option_buffer_len]. unfold ipv6_buffer_len. by fold n.
    + lia.
    + cbn. lia.
    + intros tail. rewrite <- app_assoc. split; [by apply (layout_index 0) | apply (layout_index 1); [done | done | mlia]].
    + intros tail Ht Hc Hd Ho. unfold ndisc_option_parse, try_bind. rewrite Hc, Hd, Ho. ret_steps. change (ndisc_type_from 4) with TypeRedirectedHeader.
      cbv iota. replace (n <? 6) with false by lia. unfold opt_parse_redirected, opt_data. rewrite Hd. ret_step. rewrite <- app_assoc, Hdata by done. ret_step.
      rewrite <- (app_nil_r (be_bytes 6 0 ++ pk')), <- app_assoc. rewrite slice_mid; [|done | rewrite !Zlen_app, Zlen_be_bytes; change (Zlen []) with 0; lia]. ret_step.
      destruct Hok as (Hh & Hrd & Hrl). destruct (ipv6_parse_emitted (rh_header r) (rh_data r ++ pad) Hh) as [Eparse _]; [rewrite Zlen_app; pose proof (Zlen_nonneg pad); lia|].
      fold pk' in Eparse. unfold try_bind. unfold ip6_new_checked, try_bind.
      assert (Ech : ip6_check_len pk' = Ret (Ok tt)).
      { unfold ip6_check_len. rewrite Hpk'. replace (n * 8 - 8 <? 40) with false by lia. unfold pk', ip6_emitted. rewrite ip6_total_len_ok by apply Hh. ret_step.
        by replace (n * 8 - 8 <? 40 + iph_payload_len (rh_header r)) with false by lia. }
      rewrite Ech. ret_steps. rewrite Eparse. ret_steps. change (ipv6_buffer_len (rh_header r)) with 40.
      assert (E40 : slice pk' 40 (Zlen pk') = Ret (rh_data r ++ pad)).
      { unfold pk', ip6_emitted. rewrite Zlen_ip6_hdr. unfold ip6_hdr. rewrite <- (app_nil_r (rh_data r ++ pad)) at 1. apply slice_mid; [done | lia]. }
      rewrite E40. ret_step. rewrite (slice_mid [] (rh_data r) pad) by (done || (cbn; lia)). ret_step. by destruct r.
Qed.

(** Every option that can be written is parsed back. *)
Lemma ndisc_option_emit_spec r p :
  ndisc_option_emit_ok r -> bytes_ok p -> ndisc_option_buffer_len r <= Zlen p ->
  exists bs rest, ndisc_option_emit r p = Ret (bs ++ rest) /\ p = take (length bs) p ++ rest /\ bytes_ok rest /\ opt_encodes bs r.
Proof.
  intros Hr Hb Hl. destruct r as [a|a|i|rh|mtu|id n data]; cbn [ndisc_option_emit_ok ndisc_option_buffer_len] in *.
  - apply link_layer_emit_ok; [done | by left | done | done].
  - apply link_layer_emit_ok; [done | by right | done | done].
  - by apply prefix_emit_ok.
  - destruct Hr. by apply redirected_emit_ok.
  - by apply mtu_emit_ok.
  - by apply unknown_emit_ok.
Qed.
End Options.

(** ** The loop over the options *)

Lemma ndisc_parse_encoded `{NetworkEndianLaws} bss rs :
  Forall2 opt_encodes bss rs -> forall pre o fuel, (length (concat bss) <= fuel)%nat ->
  ndisc_parse_options fuel (pre ++ concat bss) (Zlen pre) o = Ret (Ok (fold_left ndisc_add_option rs o)).
Proof.
  induction 1 as [|bs r bss rs Hbs Hrest IH]; intros pre o fuel Hf; cbn [concat fold_left] in *.
  { destruct fuel; cbn [ndisc_parse_options]; rewrite app_nil_r; by replace (Zlen pre <=? Zlen pre) with true by lia. }
  destruct Hbs as [Hlen Hmin Hb Hchk Hparse Hdl].
  assert (Htl : bytes_ok (concat bss)).
  { clear - Hrest. induction Hrest as [|b r' bss rs Hb Hr IH]; cbn [concat]; [constructor|]. apply bytes_ok_app. split; [apply Hb | done]. }
  rewrite length_app in Hf. assert (Hz : Zlen (pre ++ bs ++ concat bss) = Zlen pre + Zlen bs + Zlen (concat bss)) by (rewrite !Zlen_app; lia).
  pose proof (Zlen_nonneg (concat bss)).
  destruct fuel as [|fuel]; [unfold Zlen in *; lia|]. cbn [ndisc_parse_options]. rewrite Hz.
  replace (Zlen pre + Zlen bs + Zlen (concat bss) <=? Zlen pre) with false by lia.
  assert (Hs : slice (pre ++ bs ++ concat bss) (Zlen pre) (Zlen pre + Zlen bs + Zlen (concat bss)) = Ret (bs ++ concat bss)).
  { rewrite <- (app_nil_r (bs ++ concat bss)) at 1. apply slice_mid; [done | rewrite Zlen_app; lia]. }
  rewrite Hs. ret_step. unfold try_bind. rewrite Hchk by done. ret_steps. rewrite Hparse by done. ret_step.
  destruct (Hdl (concat bss) Htl) as (n & -> & Hn). ret_steps. replace (n * 8 =? 0) with false by lia. rewrite Hn, <- Zlen_app, app_assoc.
  apply IH. unfold Zlen in *. lia.
Qed.

(** The messages that [emit] can write. *)
Definition ndisc_emit_ok (r : NdiscRepr) : Prop :=
  match r with
  | RouterSolicit lladdr => opt_holds raw_emit_ok lladdr
  | RouterAdvert hop_limit flags router_lifetime reachable_time retrans_time lladdr mtu prefix_info =>
      in_u8 hop_limit /\ Z.land flags ROUTER_FLAGS_ALL = flags /\ secs_in u16_max router_lifetime /\
      millis_in u32_max reachable_time /\ millis_in u32_max retrans_time /\
      opt_holds raw_emit_ok lladdr /\ opt_holds in_u32 mtu /\ opt_holds prefix_info_ok prefix_info
  | NeighborSolicit target_addr lladdr => ipv6_addr_ok target_addr /\ opt_holds raw_emit_ok lladdr
  | NeighborAdvert flags target_addr lladdr =>
      Z.land flags NEIGHBOR_FLAGS_ALL = flags /\ ipv6_addr_ok target_addr /\ opt_holds raw_emit_ok lladdr
  | NdiscRedirect target_addr dest_addr lladdr redirected_hdr =>
      ipv6_addr_ok target_addr /\ ipv6_addr_ok dest_addr /\ opt_holds raw_emit_ok lladdr /\
      opt_holds (fun r => redirected_ok r /\ 8 + 40 + Zlen (rh_data r) <= 2040) redirected_hdr
  end.

(** What is read of a message.  The hardware address of a redirect is written as a target link-layer
    address option, but parsing takes it from the source link-layer address option: it is lost. *)
Definition ndisc_read (r : NdiscRepr) : NdiscRepr :=
  match r with
  | NdiscRedirect target_addr dest_addr _ redirected_hdr => NdiscRedirect target_addr dest_addr None redirected_hdr
  | _ => r
  end.

(** The bytes of a message: type, code, checksum and the rest. *)
Definition icmp6_msg (ty code ck : Z) (body : list Z) : list Z := layout_bytes [(1%nat, ty); (1%nat, code); (2%nat, ck)] ++ body.

Section Messages.
Context `{NetworkEndianLaws}.

(** A header [hd] of a message of type [m], which determines its length. *)
Definition header_of (m : Icmpv6Message) (hd : list Z) : Prop :=
  Zlen hd = message6_header_len m /\ forall rest, icmp6_msg_type (hd ++ rest) = Ret m.

Lemma header6_len_ok m hd rest : header_of m hd -> icmp6_header_len (hd ++ rest) = Ret (Zlen hd).
Proof. intros [Hl Ht]. unfold icmp6_header_len. rewrite Ht, bind_Ret. by rewrite Hl. Qed.

Lemma header_payload_ok m hd rest : header_of m hd -> icmp6_payload (hd ++ rest) = Ret rest.
Proof.
  intros Hh. unfold icmp6_payload. rewrite (header6_len_ok m) by done. rewrite bind_Ret. rewrite <- (app_nil_r rest) at 1.
  apply slice_mid; [done | by rewrite ?app_nil_r, Zlen_app].
Qed.

Lemma header_payload_mut_ok m hd rest rest' f :
  header_of m hd -> f rest = Ret rest' -> length rest' = length rest -> icmp6_payload_mut (hd ++ rest) f = Ret (hd ++ rest').
Proof.
  intros Hh Hf Hl. unfold icmp6_payload_mut. rewrite (header6_len_ok m) by done. rewrite bind_Ret.
  rewrite <- (app_nil_r rest), <- (app_nil_r rest'). apply slice_mut_mid; [done | rewrite !app_nil_r, Zlen_app; lia | done | done].
Qed.

(** Emitting an option behind those that are there. *)
Lemma nd_emit_option_ok m hd front rest o :
  header_of m hd -> opt_holds ndisc_option_emit_ok o -> bytes_ok rest ->
  match o with Some r => ndisc_option_buffer_len r | None => 0 end <= Zlen rest ->
  exists bss rest', nd_emit_option (hd ++ front ++ rest) (Zlen front) o = Ret (hd ++ (front ++ concat bss) ++ rest') /\
    Forall2 opt_encodes bss (option_list o) /\ bytes_ok rest' /\
    Zlen rest' = Zlen rest - match o with Some r => ndisc_option_buffer_len r | None => 0 end /\
    Zlen (concat bss) = match o with Some r => ndisc_option_buffer_len r | None => 0 end.
Proof.
  intros Hh Ho Hb Hl. destruct o as [r|]; cbn [nd_emit_option option_list opt_holds] in *.
  - destruct (ndisc_option_emit_spec r rest Ho Hb Hl) as (bs & rest' & Hem & Ep & Hr & Henc). exists [bs], rest'.
    assert (Hlen : length rest = (length bs + length rest')%nat).
    { pose proof (oe_len _ _ Henc). apply (f_equal length) in Ep. rewrite length_app, length_take in Ep. unfold Zlen in *. lia. }
    cbn [concat]. rewrite app_nil_r. pose proof (oe_len _ _ Henc). split; [|split; [by constructor | split; [done | split; [unfold Zlen in *; lia | done]]]].
    rewrite <- app_assoc. apply (header_payload_mut_ok m); [done | | rewrite !length_app; lia].
    rewrite <- (app_nil_r rest) at 1. rewrite <- (app_nil_r (bs ++ rest')).
    apply slice_mut_mid; [done | rewrite !Zlen_app; change (Zlen []) with 0; rewrite ?app_nil_r; lia | done | rewrite length_app; lia].
  - exists [], rest. cbn [concat]. rewrite app_nil_r. split; [done|]. split; [constructor|]. split; [done|]. split; [lia | done].
Qed.

(** Parsing a message whose payload is encoded options. *)
Lemma ndisc_parse_message m hd bss rs :
  header_of m hd -> message6_is_ndisc m = true -> Forall2 opt_encodes bss rs ->
  ndisc_parse (hd ++ concat bss) =
  (t ← icmp6_msg_type (hd ++ concat bss);
   let o := fold_left ndisc_add_option rs (mkNdiscOptions None None None None None) in
   let buffer := hd ++ concat bss in
   match t with
   | Msg6RouterSolicit => Ret (Ok (RouterSolicit (no_src_ll_addr o)))
   | Msg6RouterAdvert =>
       hop_limit ← nd_current_hop_limit buffer;
       flags ← nd_router_flags buffer;
       router_lifetime ← nd_router_lifetime buffer;
       reachable_time ← nd_reachable_time buffer;
       retrans_time ← nd_retrans_time buffer;
       Ret (Ok (RouterAdvert hop_limit flags router_lifetime reachable_time retrans_time (no_src_ll_addr o) (no_mtu o) (no_prefix_info o)))
   | Msg6NeighborSolicit => target_addr ← nd_target_addr buffer; Ret (Ok (NeighborSolicit target_addr (no_src_ll_addr o)))
   | Msg6NeighborAdvert =>
       flags ← nd_neighbor_flags buffer;
       target_addr ← nd_target_addr buffer;
       Ret (Ok (NeighborAdvert flags target_addr (no_target_ll_addr o)))
   | Msg6Redirect =>
       target_addr ← nd_target_addr buffer;
       dest_addr ← nd_dest_addr buffer;
       Ret (Ok (NdiscRedirect target_addr dest_addr (no_src_ll_addr o) (no_redirected_hdr o)))
   | _ => Ret (Err MkWireError)
   end).
Proof.
  intros Hh Hm Hbs. unfold ndisc_parse. assert (Hc : icmp6_check_len (hd ++ concat bss) = Ret (Ok tt)).
  { unfold icmp6_check_len. rewrite (header6_len_ok m) by done. destruct Hh as [Hl Ht]. rewrite Ht, Zlen_app, Hl. pose proof (Zlen_nonneg (concat bss)).
    assert (8 <= message6_header_len m) by (by destruct m). replace (message6_header_len m + Zlen (concat bss) <? 4) with false by lia. rewrite !bind_Ret.
    replace (message6_header_len m + Zlen (concat bss) <? 8) with false by lia.
    replace (message6_header_len m + Zlen (concat bss) <? message6_header_len m) with false by lia. by destruct m. }
  unfold try_bind at 1. rewrite Hc, bind_Ret. rewrite (header_payload_ok m) by done. rewrite bind_Ret. unfold try_bind.
  pose proof (ndisc_parse_encoded bss rs Hbs [] (mkNdiscOptions None None None None None) (length (concat bss)) ltac:(done)) as E.
  rewrite app_nil_l in E. change (Zlen []) with 0 in E. by rewrite E, bind_Ret.
Qed.

Lemma header_of_layout m ty code ck fields :
  message6_from ty = m -> in_u8 ty -> layout_len ([(1%nat, ty); (1%nat, code); (2%nat, ck)] ++ fields) = message6_header_len m ->
  header_of m (layout_bytes ([(1%nat, ty); (1%nat, code); (2%nat, ck)] ++ fields)).
Proof.
  intros Hm Hty Hl. split; [by rewrite Zlen_layout_bytes|]. intros rest. unfold icmp6_msg_type.
  rewrite (layout_index 0 _ ty) by done. by rewrite bind_Ret, Hm.
Qed.

Lemma msg_type_layout m ty l rest : l !! 0%nat = Some (1%nat, ty) -> message6_from ty = m -> in_u8 ty ->
  icmp6_msg_type (layout_bytes l ++ rest) = Ret m.
Proof. intros Hl Hm Hty. unfold icmp6_msg_type. rewrite (layout_index 0 _ ty) by done. by rewrite bind_Ret, Hm. Qed.

(** What emitting promises: the message, whatever its checksum becomes, is parsed back. *)
Definition ndisc_emitted (r : NdiscRepr) (buffer : list Z) : Prop :=
  exists ty ck body, ndisc_emit r buffer = Ret (icmp6_msg ty 0 ck body) /\ in_u8 ty /\ bytes_ok body /\ 4 + Zlen body = Zlen buffer /\
    message6_is_ndisc (message6_from ty) = true /\ forall ck', ndisc_parse (icmp6_msg ty 0 ck' body) = Ret (Ok (ndisc_read r)).

(** A message that ends with encoded options. *)
Lemma ndisc_emitted_intro r buffer ty ck fields bss rs m :
  (forall ck, layout_bytes ([(1%nat, ty); (1%nat, 0); (2%nat, ck)] ++ fields) = icmp6_msg ty 0 ck (layout_bytes fields)) ->
  ndisc_emit r buffer = Ret (layout_bytes ([(1%nat, ty); (1%nat, 0); (2%nat, ck)] ++ fields) ++ concat bss) ->
  Forall2 opt_encodes bss rs -> message6_from ty = m -> in_u8 ty -> message6_is_ndisc m = true ->
  message6_header_len m = 4 + layout_len fields -> Zlen buffer = message6_header_len m + Zlen (concat bss) ->
  (forall ck', ndisc_parse (layout_bytes ([(1%nat, ty); (1%nat, 0); (2%nat, ck')] ++ fields) ++ concat bss) = Ret (Ok (ndisc_read r))) ->
  ndisc_emitted r buffer.
Proof.
  intros Hsplit Hem Hbs Hm Hty Hnd Hlen Hbuf Hp. exists ty, ck, (layout_bytes fields ++ concat bss).
  assert (E : forall ck', icmp6_msg ty 0 ck' (layout_bytes fields ++ concat bss) =
    layout_bytes ([(1%nat, ty); (1%nat, 0); (2%nat, ck')] ++ fields) ++ concat bss).
  { intros ck'. rewrite Hsplit. unfold icmp6_msg. by rewrite <- app_assoc. }
  rewrite E. split; [done|]. split; [done|]. split.
  { apply bytes_ok_app. split; [apply layout_bytes_ok|]. clear - Hbs.
    induction Hbs as [|b r' bss rs Hb Hr IH]; cbn [concat]; [constructor|]. apply bytes_ok_app. split; [apply Hb | done]. }
  split; [rewrite Zlen_app, Zlen_layout_bytes; lia|]. split; [by rewrite Hm|]. intros ck'. rewrite E. apply Hp.
Qed.

Lemma zlen_zero {A} (l : list A) : Zlen l = 0 -> l = [].
Proof. destruct l; [done|]. rewrite Zlen_cons. pose proof (Zlen_nonneg l). lia. Qed.

(** The only option of a message. *)
Lemma nd_last_option m hd rest o :
  header_of m hd -> opt_holds ndisc_option_emit_ok o -> bytes_ok rest ->
  Zlen rest = match o with Some r => ndisc_option_buffer_len r | None => 0 end ->
  exists bss, nd_emit_option (hd ++ rest) 0 o = Ret (hd ++ concat bss) /\ Forall2 opt_encodes bss (option_list o) /\ Zlen (concat bss) = Zlen rest.
Proof.
  intros Hh Ho Hb Hl. destruct (nd_emit_option_ok m hd [] rest o Hh Ho Hb ltac:(lia)) as (bss & rest' & Hem & Hbs & _ & Hz & Hc).
  exists bss. rewrite (zlen_zero rest') in Hem by lia. rewrite app_nil_r in Hem. split; [exact Hem|]. split; [done | lia].
Qed.

Lemma nd_opt_len_fmap {A} (f : A -> NdiscOptionRepr) (o : option A) :
  nd_opt_len f o = match f <$> o with Some r => ndisc_option_buffer_len r | None => 0 end.
Proof. by destruct o. Qed.

Lemma opt_holds_fmap {A} (f : A -> NdiscOptionRepr) (P : A -> Prop) (o : option A) :
  (forall a, P a -> ndisc_option_emit_ok (f a)) -> opt_holds P o -> opt_holds ndisc_option_emit_ok (f <$> o).
Proof. intros Hf. destruct o; cbn; auto. Qed.

Lemma router_solicit_emitted lladdr buffer :
  ndisc_emit_ok (RouterSolicit lladdr) -> bytes_ok buffer -> Zlen buffer = ndisc_buffer_len (RouterSolicit lladdr) ->
  ndisc_emitted (RouterSolicit lladdr) buffer.
Proof.
  intros Hok Hb Hl. cbn [ndisc_emit_ok ndisc_buffer_len] in *. rewrite nd_opt_len_fmap in Hl.
  assert (0 <= Zlen buffer - 8) by (destruct lladdr as [a|]; cbn in *; [pose proof (Z.div_pos (2 + Zlen a + 7) 8 ltac:(unfold Zlen; lia)); lia | lia]).
  fields [1; 1; 2; 4]%nat buffer l rest E Hr. rename z into b0, z0 into b1, z1 into ck, z2 into w.
  rewrite Zlen_app, Zlen_layout_bytes in Hl. change (layout_len _) with 8 in Hl.
  destruct (nd_last_option Msg6RouterSolicit (layout_bytes ([(1%nat, 0x85); (1%nat, 0); (2%nat, ck)] ++ [(4%nat, 0)])) rest (SourceLinkLayerAddr <$> lladdr))
    as (bss & Hem & Hbs & Hz); [by apply header_of_layout | by apply (opt_holds_fmap _ raw_emit_ok) | done | lia |].
  apply (ndisc_emitted_intro _ _ 0x85 ck [(4%nat, 0)] bss (option_list (SourceLinkLayerAddr <$> lladdr)) Msg6RouterSolicit); try done.
  - rewrite <- Hem. cbn [ndisc_emit]. unfold nd_emit_type, icmp6_set_msg_type, icmp6_set_msg_code, icmp6_clear_reserved.
    erewrite (layout_index_set 0) by (reflexivity || (by vm_compute)). ret_step. erewrite (layout_index_set 1) by (reflexivity || mlia). ret_step.
    rewrite (msg_type_layout Msg6RouterSolicit 0x85) by done. ret_steps. by erewrite (layout_write_u32 3) by (reflexivity || mlia).
  - rewrite Zlen_app, Zlen_layout_bytes, Hz. done.
  - intros ck'. rewrite (ndisc_parse_message Msg6RouterSolicit _ _ (option_list (SourceLinkLayerAddr <$> lladdr))); [|by apply header_of_layout | done | done].
    rewrite (msg_type_layout Msg6RouterSolicit 0x85) by done. ret_steps. by destruct lladdr.
Qed.

Lemma nd_opt_len_nonneg {A} (f : A -> NdiscOptionRepr) (P : A -> Prop) (o : option A) :
  (forall a, P a -> ndisc_option_emit_ok (f a)) -> opt_holds P o -> 0 <= nd_opt_len f o.
Proof.
  intros Hf Ho. destruct o as [a|]; cbn [nd_opt_len opt_holds] in *; [|lia]. pose proof (Hf a Ho) as Ha.
  destruct (f a); cbn [ndisc_option_emit_ok ndisc_option_buffer_len] in *; try lia; unfold ipv6_buffer_len;
    match goal with |- 0 <= ?x / 8 * 8 => pose proof (Z.div_pos x 8 ltac:(unfold Zlen; lia) ltac:(lia)); lia end.
Qed.

Lemma neighbor_solicit_emitted target lladdr buffer :
  ndisc_emit_ok (NeighborSolicit target lladdr) -> bytes_ok buffer -> Zlen buffer = ndisc_buffer_len (NeighborSolicit target lladdr) ->
  ndisc_emitted (NeighborSolicit target lladdr) buffer.
Proof.
  intros [Htg Hok] Hb Hl. cbn [ndisc_buffer_len] in *. pose proof (nd_opt_len_nonneg SourceLinkLayerAddr raw_emit_ok lladdr ltac:(done) Hok).
  rewrite nd_opt_len_fmap in *. fields [1; 1; 2; 4; 16]%nat buffer l rest E Hr. rename z into b0, z0 into b1, z1 into ck, z2 into w, z3 into v.
  rewrite Zlen_app, Zlen_layout_bytes in Hl. change (layout_len _) with 24 in Hl.
  set (tv := be_value target). assert (Et : be_bytes 16 tv = target) by (by apply be_value_addr6). destruct Htg as [Htb Htl].
  destruct (nd_last_option Msg6NeighborSolicit (layout_bytes ([(1%nat, 0x87); (1%nat, 0); (2%nat, ck)] ++ [(4%nat, 0); (16%nat, tv)])) rest (SourceLinkLayerAddr <$> lladdr))
    as (bss & Hem & Hbs & Hz); [by apply header_of_layout | by apply (opt_holds_fmap _ raw_emit_ok) | done | lia |].
  apply (ndisc_emitted_intro _ _ 0x87 ck [(4%nat, 0); (16%nat, tv)] bss (option_list (SourceLinkLayerAddr <$> lladdr)) Msg6NeighborSolicit); try done.
  - rewrite <- Hem. cbn [ndisc_emit]. unfold nd_emit_type, icmp6_set_msg_type, icmp6_set_msg_code, icmp6_clear_reserved, nd_set_target_addr.
    erewrite (layout_index_set 0) by (reflexivity || (by vm_compute)). ret_step. erewrite (layout_index_set 1) by (reflexivity || mlia). ret_step.
    rewrite (msg_type_layout Msg6NeighborSolicit 0x87) by done. ret_steps. erewrite (layout_write_u32 3) by (reflexivity || mlia). ret_step.
    by erewrite (layout_copy 4) by (reflexivity || done).
  - rewrite Zlen_app, Zlen_layout_bytes, Hz. done.
  - intros ck'. rewrite (ndisc_parse_message Msg6NeighborSolicit _ _ (option_list (SourceLinkLayerAddr <$> lladdr))); [|by apply header_of_layout | done | done].
    rewrite (msg_type_layout Msg6NeighborSolicit 0x87) by done. ret_steps. unfold nd_target_addr. erewrite (layout_get 4) by reflexivity. ret_step. rewrite Et.
    destruct (ipv6_from_bytes_ok target Htb) as [-> _]; [mlia|]. ret_step. by destruct lladdr.
Qed.

Lemma neighbor_advert_emitted flags target lladdr buffer :
  ndisc_emit_ok (NeighborAdvert flags target lladdr) -> bytes_ok buffer -> Zlen buffer = ndisc_buffer_len (NeighborAdvert flags target lladdr) ->
  ndisc_emitted (NeighborAdvert flags target lladdr) buffer.
Proof.
  intros (Hf & Htg & Hok) Hb Hl. cbn [ndisc_buffer_len] in *. pose proof (nd_opt_len_nonneg TargetLinkLayerAddr raw_emit_ok lladdr ltac:(done) Hok).
  change (nd_opt_len SourceLinkLayerAddr lladdr) with (nd_opt_len TargetLinkLayerAddr lladdr) in Hl.
  assert (Hf8 : in_u8 flags) by (rewrite <- Hf, Z.land_comm; by apply in_u8_land_l).
  rewrite nd_opt_len_fmap in *. fields [1; 1; 2; 1; 3; 16]%nat buffer l rest E Hr. rename z into b0, z0 into b1, z1 into ck, z2 into w, z3 into u, z4 into v.
  rewrite Zlen_app, Zlen_layout_bytes in Hl. change (layout_len _) with 24 in Hl.
  set (tv := be_value target). assert (Et : be_bytes 16 tv = target) by (by apply be_value_addr6). destruct Htg as [Htb Htl].
  destruct (nd_last_option Msg6NeighborAdvert (layout_bytes ([(1%nat, 0x88); (1%nat, 0); (2%nat, ck)] ++ [(1%nat, flags); (3%nat, 0); (16%nat, tv)])) rest (TargetLinkLayerAddr <$> lladdr))
    as (bss & Hem & Hbs & Hz); [by apply header_of_layout | by apply (opt_holds_fmap _ raw_emit_ok) | done | lia |].
  apply (ndisc_emitted_intro _ _ 0x88 ck [(1%nat, flags); (3%nat, 0); (16%nat, tv)] bss (option_list (TargetLinkLayerAddr <$> lladdr)) Msg6NeighborAdvert); try done.
  - rewrite <- Hem. cbn [ndisc_emit]. unfold nd_emit_type, icmp6_set_msg_type, icmp6_set_msg_code, icmp6_clear_reserved, nd_set_neighbor_flags, nd_set_target_addr.
    erewrite (layout_index_set 0) by (reflexivity || (by vm_compute)). ret_step. erewrite (layout_index_set 1) by (reflexivity || mlia). ret_step.
    rewrite (msg_type_layout Msg6NeighborAdvert 0x88) by done. ret_steps.
    assert (Hres : slice_mut (layout_bytes [(1%nat, 0x88); (1%nat, 0); (2%nat, ck); (1%nat, w); (3%nat, u); (16%nat, v)] ++ rest) 4 8 (fun d => write_u32 d 0) =
      Ret (layout_bytes [(1%nat, 0x88); (1%nat, 0); (2%nat, ck); (1%nat, 0); (3%nat, 0); (16%nat, v)] ++ rest)).
    { change (layout_bytes [(1%nat, 0x88); (1%nat, 0); (2%nat, ck); (1%nat, w); (3%nat, u); (16%nat, v)] ++ rest)
        with (layout_bytes [(1%nat, 0x88); (1%nat, 0); (2%nat, ck)] ++ (be_bytes 1 w ++ be_bytes 3 u) ++ (be_bytes 16 v ++ rest)).
      change (layout_bytes [(1%nat, 0x88); (1%nat, 0); (2%nat, ck); (1%nat, 0); (3%nat, 0); (16%nat, v)] ++ rest)
        with (layout_bytes [(1%nat, 0x88); (1%nat, 0); (2%nat, ck)] ++ be_bytes 4 0 ++ (be_bytes 16 v ++ rest)).
      apply slice_mut_mid; [done | done | by apply write_u32_exact | done]. }
    match goal with |- slice_mut ?b 4 8 _ ≫= _ = _ =>
      change b with (layout_bytes [(1%nat, 0x88); (1%nat, 0); (2%nat, ck); (1%nat, w); (3%nat, u); (16%nat, v)] ++ rest) end.
    rewrite Hres. ret_step. erewrite (layout_index_set 3) by (reflexivity || done). ret_step. by erewrite (layout_copy 5) by (reflexivity || done).
  - rewrite Zlen_app, Zlen_layout_bytes, Hz. done.
  - intros ck'. rewrite (ndisc_parse_message Msg6NeighborAdvert _ _ (option_list (TargetLinkLayerAddr <$> lladdr))); [|by apply header_of_layout | done | done].
    rewrite (msg_type_layout Msg6NeighborAdvert 0x88) by done. ret_steps. unfold nd_neighbor_flags, nd_target_addr.
    erewrite (layout_index 3) by (reflexivity || done). do 2 ret_step. rewrite Hf. erewrite (layout_get 5) by reflexivity. ret_step. rewrite Et.
    destruct (ipv6_from_bytes_ok target Htb) as [-> _]; [mlia|]. ret_step. by destruct lladdr.
Qed.

Lemma millis_field s : in_u32 s -> wrap_u 32 (duration_total_millis (s * 1000)) = s /\ duration_from_millis s = Ret (s * 1000).
Proof.
  intros Hs. unfold duration_total_millis. rewrite Z.div_mul by lia. split; [apply wrap_u_id; mlia|].
  apply (duration_from_millis_u32 s u32_max); mlia.
Qed.

(** Three options in a row. *)
Lemma nd_emit_three m hd rest o1 o2 o3 n1 n2 :
  header_of m hd -> opt_holds ndisc_option_emit_ok o1 -> opt_holds ndisc_option_emit_ok o2 -> opt_holds ndisc_option_emit_ok o3 ->
  bytes_ok rest -> let len o := match o with Some r => ndisc_option_buffer_len r | None => 0 end in
  n1 = len o1 -> n2 = n1 + len o2 -> Zlen rest = n2 + len o3 -> 0 <= len o1 -> 0 <= len o2 -> 0 <= len o3 ->
  exists bss, (b ← nd_emit_option (hd ++ rest) 0 o1; b ← nd_emit_option b n1 o2; nd_emit_option b n2 o3) = Ret (hd ++ concat bss) /\
    Forall2 opt_encodes bss (option_list o1 ++ option_list o2 ++ option_list o3) /\ Zlen (concat bss) = Zlen rest.
Proof.
  intros Hh H1 H2 H3 Hb len E1 E2 El L1 L2 L3. fold (len o1) in E1.
  destruct (nd_emit_option_ok m hd [] rest o1 Hh H1 Hb) as (b1 & r1 & Em1 & F1 & Hb1 & Z1 & C1); [fold (len o1); lia|]. fold (len o1) in Z1, C1.
  destruct (nd_emit_option_ok m hd (concat b1) r1 o2 Hh H2 Hb1) as (b2 & r2 & Em2 & F2 & Hb2 & Z2 & C2); [fold (len o2); lia|]. fold (len o2) in Z2, C2.
  destruct (nd_emit_option_ok m hd (concat b1 ++ concat b2) r2 o3 Hh H3 Hb2) as (b3 & r3 & Em3 & F3 & Hb3 & Z3 & C3); [fold (len o3); lia|].
  fold (len o3) in Z3, C3. rewrite (zlen_zero r3), app_nil_r in Em3 by lia. rewrite app_nil_l in Em1. change (Zlen []) with 0 in Em1.
  exists (b1 ++ b2 ++ b3). rewrite app_nil_l in Em1. rewrite Em1. ret_step. rewrite E1, <- C1, Em2. ret_step.
  replace n2 with (Zlen (concat b1 ++ concat b2)) by (rewrite Zlen_app; lia). rewrite Em3, !concat_app, <- !app_assoc.
  split; [done|]. split; [by repeat apply Forall2_app | rewrite !Zlen_app; lia].
Qed.

(** Two options in a row. *)
Lemma nd_emit_two m hd rest o1 o2 n1 :
  header_of m hd -> opt_holds ndisc_option_emit_ok o1 -> opt_holds ndisc_option_emit_ok o2 ->
  bytes_ok rest -> let len o := match o with Some r => ndisc_option_buffer_len r | None => 0 end in
  n1 = len o1 -> Zlen rest = n1 + len o2 -> 0 <= len o1 -> 0 <= len o2 ->
  exists bss, (b ← nd_emit_option (hd ++ rest) 0 o1; nd_emit_option b n1 o2) = Ret (hd ++ concat bss) /\
    Forall2 opt_encodes bss (option_list o1 ++ option_list o2) /\ Zlen (concat bss) = Zlen rest.
Proof.
  intros Hh H1 H2 Hb len E1 El L1 L2.
  destruct (nd_emit_three m hd rest o1 o2 None n1 (n1 + len o2) Hh H1 H2 I Hb E1 eq_refl) as (bss & Hem & Hbs & Hz); [fold (len o2); lia | done | done | done |].
  exists bss. rewrite app_nil_r in Hbs. split; [|done]. destruct (nd_emit_option (hd ++ rest) 0 o1) as [b|]; [|done].
  rewrite bind_Ret in Hem |- *. destruct (nd_emit_option b n1 o2); [|done]. rewrite bind_Ret in Hem. exact Hem.
Qed.

Lemma redirect_emitted target dest lladdr redirected buffer :
  ndisc_emit_ok (NdiscRedirect target dest lladdr redirected) -> bytes_ok buffer -> Zlen buffer = ndisc_buffer_len (NdiscRedirect target dest lladdr redirected) ->
  ndisc_emitted (NdiscRedirect target dest lladdr redirected) buffer.
Proof.
  intros (Htg & Hds & Hll & Hok) Hb Hl. cbn [ndisc_buffer_len] in *.
  pose proof (nd_opt_len_nonneg TargetLinkLayerAddr raw_emit_ok lladdr (fun _ h => h) Hll).
  pose proof (nd_opt_len_nonneg OptRedirectedHeader _ redirected (fun _ h => h) Hok).
  fields [1; 1; 2; 4; 16; 16]%nat buffer l rest E Hr. rename z into b0, z0 into b1, z1 into ck, z2 into w, z3 into u, z4 into v.
  rewrite Zlen_app, Zlen_layout_bytes in Hl. change (layout_len _) with 40 in Hl.
  set (tv := be_value target). assert (Et : be_bytes 16 tv = target) by (by apply be_value_addr6). destruct Htg as [Htb Htl].
  set (dv := be_value dest). assert (Ed : be_bytes 16 dv = dest) by (by apply be_value_addr6). destruct Hds as [Hdb Hdl].
  pose (fs := [(4%nat, 0); (16%nat, tv); (16%nat, dv)]).
  destruct (nd_emit_two Msg6Redirect (layout_bytes ([(1%nat, 0x89); (1%nat, 0); (2%nat, ck)] ++ fs)) rest
    (TargetLinkLayerAddr <$> lladdr) (OptRedirectedHeader <$> redirected) (nd_opt_len TargetLinkLayerAddr lladdr))
    as (bss & Hem & Hbs & Hz); [by apply header_of_layout | exact (opt_holds_fmap TargetLinkLayerAddr raw_emit_ok lladdr (fun _ h => h) Hll) |
      exact (opt_holds_fmap OptRedirectedHeader _ redirected (fun _ h => h) Hok) | done | rewrite <- ?nd_opt_len_fmap; lia .. |].
  apply (ndisc_emitted_intro _ _ 0x89 ck fs bss
    (option_list (TargetLinkLayerAddr <$> lladdr) ++ option_list (OptRedirectedHeader <$> redirected)) Msg6Redirect); try done.
  - rewrite <- Hem. cbn [ndisc_emit]. unfold nd_emit_type, icmp6_set_msg_type, icmp6_set_msg_code, icmp6_clear_reserved, nd_set_target_addr, nd_set_dest_addr.
    erewrite (layout_index_set 0) by (reflexivity || (by vm_compute)). ret_step. erewrite (layout_index_set 1) by (reflexivity || mlia). ret_step.
    rewrite (msg_type_layout Msg6Redirect 0x89) by done. ret_steps. erewrite (layout_write_u32 3) by (reflexivity || mlia). ret_step.
    erewrite (layout_copy 4) by (reflexivity || done). ret_step. by erewrite (layout_copy 5) by (reflexivity || done).
  - rewrite Zlen_app, Zlen_layout_bytes, Hz. done.
  - intros ck'. erewrite (ndisc_parse_message Msg6Redirect); [|by apply header_of_layout | done | exact Hbs].
    rewrite (msg_type_layout Msg6Redirect 0x89) by done. ret_steps. unfold nd_target_addr, nd_dest_addr, fs.
    rewrite (layout_get 4 _ 16 tv _ 8 24) by done. ret_step. rewrite Et. destruct (ipv6_from_bytes_ok target Htb) as [-> _]; [mlia|]. ret_step.
    rewrite (layout_get 5 _ 16 dv _ 24 40) by done. ret_step. rewrite Ed. destruct (ipv6_from_bytes_ok dest Hdb) as [-> _]; [mlia|]. ret_step.
    by destruct lladdr, redirected.
Qed.

Lemma router_advert_emitted hop_limit flags router_lifetime reachable_time retrans_time lladdr mtu prefix_info buffer :
  let r := RouterAdvert hop_limit flags router_lifetime reachable_time retrans_time lladdr mtu prefix_info in
  ndisc_emit_ok r -> bytes_ok buffer -> Zlen buffer = ndisc_buffer_len r -> ndisc_emitted r buffer.
Proof.
  intros r (Hhop & Hf & (s & Hs & ->) & (t & Ht & ->) & (t' & Ht' & ->) & Hll & Hmtu & Hpi) Hb Hl. cbn [ndisc_buffer_len r] in Hl.
  change (nd_opt_len TargetLinkLayerAddr lladdr) with (nd_opt_len SourceLinkLayerAddr lladdr) in Hl.
  pose proof (nd_opt_len_nonneg SourceLinkLayerAddr raw_emit_ok lladdr (fun _ h => h) Hll).
  pose proof (nd_opt_len_nonneg OptMtu in_u32 mtu (fun _ h => h) Hmtu).
  pose proof (nd_opt_len_nonneg OptPrefixInformation prefix_info_ok prefix_info (fun _ h => h) Hpi).
  assert (Hf8 : in_u8 flags) by (rewrite <- Hf, Z.land_comm; by apply in_u8_land_l).
  assert (Hsec : wrap_u 16 (duration_secs (s * 1000000)) = s /\ duration_from_secs s = Ret (s * 1000000)).
  { unfold duration_secs. rewrite Z.div_mul by lia. split; [apply wrap_u_id; mlia | apply (duration_from_secs_ok s u32_max); mlia]. }
  destruct Hsec as [Ew Ed]. destruct (millis_field t Ht) as [Ew1 Ed1]. destruct (millis_field t' Ht') as [Ew2 Ed2].
  fields [1; 1; 2; 1; 1; 2; 4; 4]%nat buffer l rest E Hr. rename z into b0, z0 into b1, z1 into ck, z2 into b2, z3 into b3, z4 into w, z5 into u, z6 into v.
  rewrite Zlen_app, Zlen_layout_bytes in Hl. change (layout_len _) with 16 in Hl.
  pose (fs := [(1%nat, hop_limit); (1%nat, flags); (2%nat, s); (4%nat, t); (4%nat, t')]).
  destruct (nd_emit_three Msg6RouterAdvert (layout_bytes ([(1%nat, 0x86); (1%nat, 0); (2%nat, ck)] ++ fs)) rest
    (SourceLinkLayerAddr <$> lladdr) (OptMtu <$> mtu) (OptPrefixInformation <$> prefix_info)
    (nd_opt_len SourceLinkLayerAddr lladdr) (nd_opt_len SourceLinkLayerAddr lladdr + nd_opt_len OptMtu mtu))
    as (bss & Hem & Hbs & Hz); [by apply header_of_layout | exact (opt_holds_fmap SourceLinkLayerAddr raw_emit_ok lladdr (fun _ h => h) Hll) |
      exact (opt_holds_fmap OptMtu in_u32 mtu (fun _ h => h) Hmtu) | exact (opt_holds_fmap OptPrefixInformation prefix_info_ok prefix_info (fun _ h => h) Hpi) | done |
      rewrite <- ?nd_opt_len_fmap; lia .. |].
  apply (ndisc_emitted_intro _ _ 0x86 ck fs bss
    (option_list (SourceLinkLayerAddr <$> lladdr) ++ option_list (OptMtu <$> mtu) ++ option_list (OptPrefixInformation <$> prefix_info)) Msg6RouterAdvert); try done.
  - rewrite <- Hem. cbn [ndisc_emit r]. unfold nd_emit_type, icmp6_set_msg_type, icmp6_set_msg_code, nd_set_current_hop_limit, nd_set_router_flags,
      nd_set_router_lifetime, nd_set_reachable_time, nd_set_retrans_time.
    erewrite (layout_index_set 0) by (reflexivity || (by vm_compute)). ret_step. erewrite (layout_index_set 1) by (reflexivity || mlia). ret_step.
    erewrite (layout_index_set 3) by (reflexivity || done). ret_step. erewrite (layout_index_set 4) by (reflexivity || done). ret_step.
    rewrite ?Ew, ?Ew1, ?Ew2. erewrite (layout_write_u16 5) by (reflexivity || mlia). ret_step.
    erewrite (layout_write_u32 6) by (reflexivity || mlia). ret_step. by erewrite (layout_write_u32 7) by (reflexivity || mlia).
  - rewrite Zlen_app, Zlen_layout_bytes, Hz. done.
  - intros ck'. erewrite (ndisc_parse_message Msg6RouterAdvert); [|by apply header_of_layout | done | exact Hbs].
    rewrite (msg_type_layout Msg6RouterAdvert 0x86) by done. ret_steps.
    unfold nd_current_hop_limit, nd_router_flags, nd_router_lifetime, nd_reachable_time, nd_retrans_time, fs.
    rewrite (layout_index 3 _ hop_limit _ 4) by done. ret_step. rewrite (layout_index 4 _ flags _ 5) by done. do 2 ret_step. rewrite Hf.
    rewrite (layout_read_u16 5 _ s _ 6 8) by (done || mlia). ret_step. rewrite Ed. ret_step.
    rewrite (layout_read_u32 6 _ t _ 8 12) by (done || mlia). ret_step. rewrite Ed1. ret_step.
    rewrite (layout_read_u32 7 _ t' _ 12 16) by (done || mlia). ret_step. rewrite Ed2. ret_step.
    by destruct lladdr, mtu, prefix_info.
Qed.

Lemma ndisc_emitted_ok r buffer :
  ndisc_emit_ok r -> bytes_ok buffer -> Zlen buffer = ndisc_buffer_len r -> ndisc_emitted r buffer.
Proof.
  intros Hr. destruct r as [lladdr|hop_limit flags lt rt rtt lladdr mtu pi|ta lladdr|flags ta lladdr|ta da lladdr rh].
  - by apply router_solicit_emitted.
  - by apply router_advert_emitted.
  - by apply neighbor_solicit_emitted.
  - by apply neighbor_advert_emitted.
  - by apply redirect_emitted.
Qed.
End Messages.
