(* ===== verification/Icmpv6EmitSpec.v ===== *)
(** * What emitting ICMPv6 messages promises

    An echo message, an error message with its quote, a neighbor discovery message and a listener
    query or report that are emitted are parsed back; a redirect loses its hardware address. *)

From stdpp Require Import gmap.
From S2P Require Import Prelude SeqNumber TimeModel IpTypes ByteOrder Checksum Ipv4Wire IfaceContext Neighbor EthernetArp Ipv6Wire Icmpv6Packet NdiscWire MldWire Icmpv6Wire NdiscWireSpec Icmpv6WireSpec NdiscEmitSpec.

Definition quote6_emit_ok (header : IpHeader) (data : list Z) : Prop := ip6_header_ok header /\ bytes_ok data.

(** [emit] cuts the quote of an error message to the size that the message may have, and a redirect
    is read without its hardware address. *)
Definition quote_cut (data : list Z) : list Z := take (Z.to_nat (MAX_ERROR_PACKET_LEN - 48)) data.

Definition icmpv6_cut (r : Icmpv6Repr) : Icmpv6Repr :=
  match r with
  | Icmpv6DstUnreachable reason header data => Icmpv6DstUnreachable reason header (quote_cut data)
  | Icmpv6PktTooBig mtu header data => Icmpv6PktTooBig mtu header (quote_cut data)
  | Icmpv6TimeExceeded reason header data => Icmpv6TimeExceeded reason header (quote_cut data)
  | Icmpv6ParamProblem reason pointer header data => Icmpv6ParamProblem reason pointer header (quote_cut data)
  | Icmpv6Ndisc ndisc => Icmpv6Ndisc (ndisc_read ndisc)
  | _ => r
  end.

Lemma Zlen_quote_cut data : Zlen (quote_cut data) = Z.min (Zlen data) (MAX_ERROR_PACKET_LEN - 48).
Proof. unfold quote_cut, Zlen. rewrite length_take. unfold MAX_ERROR_PACKET_LEN, IPV6_MIN_MTU, IPV6_HEADER_LEN. lia. Qed.

Lemma quote_cut_short data : Zlen data <= MAX_ERROR_PACKET_LEN - 48 -> quote_cut data = data.
Proof. intros Hl. unfold quote_cut. apply take_ge. unfold Zlen in Hl. lia. Qed.

(** The listener messages that are parsed back; a report given by its records is [mld_report_parse]. *)
Definition mld_emit_ok (r : MldRepr) : Prop :=
  match r with
  | MldQuery max_resp_code mcast_addr _ qrv qqic num_srcs data =>
      in_u16 max_resp_code /\ ipv6_addr_ok mcast_addr /\ 0 <= qrv < 8 /\ in_u8 qqic /\ in_u16 num_srcs /\ bytes_ok data
  | MldReport n data => in_u16 n /\ bytes_ok data
  | MldReportRecords _ => False
  end.

(** The messages that are parsed back. *)
Definition icmpv6_emit_ok (r : Icmpv6Repr) : Prop :=
  match r with
  | Icmpv6DstUnreachable reason header data =>
      in_u8 (dst6_unreachable_into reason) /\ dst6_unreachable_from (dst6_unreachable_into reason) = reason /\ quote6_emit_ok header data
  | Icmpv6PktTooBig mtu header data => in_u32 mtu /\ quote6_emit_ok header data
  | Icmpv6TimeExceeded reason header data =>
      in_u8 (time6_exceeded_into reason) /\ time6_exceeded_from (time6_exceeded_into reason) = reason /\ quote6_emit_ok header data
  | Icmpv6ParamProblem reason pointer header data =>
      in_u8 (param6_problem_into reason) /\ param6_problem_from (param6_problem_into reason) = reason /\ in_u32 pointer /\
      quote6_emit_ok header data
  | Icmpv6EchoRequest ident seq_no data | Icmpv6EchoReply ident seq_no data =>
      in_u16 ident /\ in_u16 seq_no /\ bytes_ok data
  | Icmpv6Ndisc r => ndisc_emit_ok r
  | Icmpv6Mld r => mld_emit_ok r
  end.

Section Emit.
Context `{NetworkEndianLaws}.

(** ** The checksum *)

Lemma icmp6_set_checksum_ok ty code ck body v :
  in_u16 v -> icmp6_set_checksum (icmp6_msg ty code ck body) v = Ret (icmp6_msg ty code v body).
Proof. intros Hv. unfold icmp6_set_checksum, icmp6_msg. by erewrite (layout_write_u16 2) by (reflexivity || done). Qed.

Lemma icmp6_msg_bytes_ok ty code ck body : bytes_ok body -> bytes_ok (icmp6_msg ty code ck body).
Proof. intros Hb. apply bytes_ok_app. split; [apply layout_bytes_ok | done]. Qed.

Lemma Zlen_icmp6_msg ty code ck body : Zlen (icmp6_msg ty code ck body) = 4 + Zlen body.
Proof. unfold icmp6_msg. by rewrite Zlen_app, Zlen_layout_bytes. Qed.

Lemma icmp6_word_sum ty code ck body :
  in_u16 ck -> word_sum (icmp6_msg ty code ck body) = ck + word_sum (icmp6_msg ty code 0 body).
Proof.
  intros Hck. assert (E : forall v, icmp6_msg ty code v body = layout_bytes [(1%nat, ty); (1%nat, code)] ++ be_bytes 2 v ++ body) by done.
  rewrite !E. apply word_sum_field; [by exists 1%nat | done].
Qed.

(** The last step of [emit]: the checksum, or zero. *)
Lemma icmp6_finish_ok ty code ck body src dst caps :
  bytes_ok body -> Zlen body <= 131066 -> ipv6_addr_ok src -> ipv6_addr_ok dst ->
  exists ck', in_u16 ck' /\
    (if checksum_tx (caps_icmpv6 caps) then icmp6_fill_checksum (icmp6_msg ty code ck body) src dst
     else icmp6_set_checksum (icmp6_msg ty code ck body) 0) = Ret (icmp6_msg ty code ck' body) /\
    (checksum_tx (caps_icmpv6 caps) = true -> icmp6_verify_checksum (icmp6_msg ty code ck' body) src dst = Ret true).
Proof.
  intros Hb Hl Hs Hd. destruct (checksum_tx (caps_icmpv6 caps)); [|exists 0; rewrite icmp6_set_checksum_ok by mlia; split; [mlia | by split]].
  assert (Hsum : forall c, exists p, in_u16 p /\
    pseudo_header (Ipv6 src) (Ipv6 dst) PROTOCOL_ICMPV6 (wrap_u 32 (4 + Zlen body)) = Ret p /\
    icmp6_sum (icmp6_msg ty code c body) src dst = Ret (fold16 (p + word_sum (icmp6_msg ty code c body)))).
  { intros c. rewrite <- (Zlen_icmp6_msg ty code c body). apply icmp6_sum_ok; [by apply icmp6_msg_bytes_ok | rewrite Zlen_icmp6_msg; lia | done | done]. }
  destruct (Hsum 0) as (p & Hp & Ep & E0).
  set (s := word_sum (icmp6_msg ty code 0 body)) in *. assert (Hsb : 0 <= s) by (apply word_sum_bounds; by apply icmp6_msg_bytes_ok).
  pose proof (fold16_range (p + s)). exists (65535 - fold16 (p + s)). split; [mlia|]. split.
  - unfold icmp6_fill_checksum. rewrite icmp6_set_checksum_ok by mlia. ret_step. rewrite E0. ret_step.
    rewrite u16_not by mlia. apply icmp6_set_checksum_ok. mlia.
  - intros _. unfold icmp6_verify_checksum. destruct (Hsum (65535 - fold16 (p + s))) as (p' & Hp' & Ep' & ->). ret_step.
    assert (p' = p) as -> by congruence. rewrite icmp6_word_sum by mlia. fold s. f_equal. apply Z.eqb_eq. unfold u16_max.
    transitivity (fold16 (p + s + (65535 - fold16 (p + s)))); [f_equal; lia | apply fold16_complement; mlia].
Qed.

(** ** The messages before their checksum *)

Definition icmpv6_emit_body (r : Icmpv6Repr) (buffer : list Z) : res (list Z) :=
  match r with
  | Icmpv6DstUnreachable reason header data =>
      icmp6_emit_head buffer Msg6DstUnreachable (dst6_unreachable_into reason) ≫= fun buffer => icmp6_emit_quote buffer header data
  | Icmpv6PktTooBig mtu header data =>
      icmp6_emit_head buffer Msg6PktTooBig 0 ≫= fun buffer => icmp6_set_pkt_too_big_mtu buffer mtu ≫= fun buffer => icmp6_emit_quote buffer header data
  | Icmpv6TimeExceeded reason header data =>
      icmp6_emit_head buffer Msg6TimeExceeded (time6_exceeded_into reason) ≫= fun buffer => icmp6_emit_quote buffer header data
  | Icmpv6ParamProblem reason pointer header data =>
      icmp6_emit_head buffer Msg6ParamProblem (param6_problem_into reason) ≫= fun buffer =>
      icmp6_set_param_problem_ptr buffer pointer ≫= fun buffer => icmp6_emit_quote buffer header data
  | Icmpv6EchoRequest ident seq_no data => icmp6_emit_echo buffer Msg6EchoRequest ident seq_no data
  | Icmpv6EchoReply ident seq_no data => icmp6_emit_echo buffer Msg6EchoReply ident seq_no data
  | Icmpv6Ndisc ndisc => ndisc_emit ndisc buffer
  | Icmpv6Mld mld => mld_emit mld buffer
  end.

Lemma icmpv6_emit_split r src dst buffer caps :
  icmpv6_emit r src dst buffer caps = (b ← icmpv6_emit_body r buffer;
    if checksum_tx (caps_icmpv6 caps) then icmp6_fill_checksum b src dst else icmp6_set_checksum b 0).
Proof. by destruct r. Qed.

(** The message is parsed back whatever its checksum becomes, when that is accepted. *)
Definition icmpv6_emitted (r : Icmpv6Repr) (buffer : list Z) : Prop :=
  exists ty code ck body, icmpv6_emit_body r buffer = Ret (icmp6_msg ty code ck body) /\ bytes_ok body /\ 4 + Zlen body = Zlen buffer /\
    forall ck' src dst caps,
      (checksum_rx (caps_icmpv6 caps) = true -> icmp6_verify_checksum (icmp6_msg ty code ck' body) src dst = Ret true) ->
      icmpv6_parse src dst (icmp6_msg ty code ck' body) caps = Ret (Ok (icmpv6_cut r)).

(** The first steps of parsing a message. *)
Lemma icmp6_msg_reads ty code ck body m :
  message6_from ty = m -> in_u8 ty -> in_u8 code -> 8 <= message6_header_len m <= 4 + Zlen body ->
  icmp6_check_len (icmp6_msg ty code ck body) = Ret (Ok tt) /\ icmp6_msg_type (icmp6_msg ty code ck body) = Ret m /\
  icmp6_msg_code (icmp6_msg ty code ck body) = Ret code.
Proof.
  intros Hm Hty Hco Hl. assert (Ht : icmp6_msg_type (icmp6_msg ty code ck body) = Ret m).
  { unfold icmp6_msg. by rewrite (msg_type_layout m ty). }
  split; [|split; [done | unfold icmp6_msg_code, icmp6_msg; by apply (layout_index 1)]].
  unfold icmp6_check_len, icmp6_header_len. rewrite Ht, Zlen_icmp6_msg. ret_steps.
  replace (4 + Zlen body <? 4) with false by lia. replace (4 + Zlen body <? 8) with false by lia.
  assert (E : (4 + Zlen body <? message6_header_len m) = false) by lia.
  destruct m; rewrite ?bind_Ret, ?E; done || (exfalso; cbn in Hl; lia).
Qed.

Lemma icmpv6_verify_start buffer src dst caps :
  (checksum_rx (caps_icmpv6 caps) = true -> icmp6_verify_checksum buffer src dst = Ret true) ->
  (if checksum_rx (caps_icmpv6 caps) then icmp6_verify_checksum buffer src dst else Ret true) = Ret true.
Proof. intros Hv. destruct (checksum_rx (caps_icmpv6 caps)); auto. Qed.

(** *** Echo messages *)

Lemma echo_emitted m ty ident seq_no data buffer r :
  ty = message6_into m -> message6_from ty = m -> m = Msg6EchoRequest /\ r = Icmpv6EchoRequest ident seq_no data \/ m = Msg6EchoReply /\ r = Icmpv6EchoReply ident seq_no data ->
  in_u16 ident -> in_u16 seq_no -> bytes_ok data -> bytes_ok buffer -> Zlen buffer = 8 + Zlen data -> icmpv6_emitted r buffer.
Proof.
  intros -> Hm Hr Hi Hs Hd Hb Hl. pose proof (Zlen_nonneg data). assert (Hu : in_u8 (message6_into m)) by (destruct Hr as [[-> _]|[-> _]]; by vm_compute).
  assert (Hlen : message6_header_len m = 8) by (by destruct Hr as [[-> _]|[-> _]]).
  fields [1; 1; 2; 2; 2]%nat buffer l rest E Hrest. rename z into b0, z0 into b1, z1 into ck, z2 into w, z3 into u.
  rewrite Zlen_app, Zlen_layout_bytes in Hl. change (layout_len _) with 8 in Hl.
  set (ty := message6_into m) in *. set (body := layout_bytes [(2%nat, ident); (2%nat, seq_no)] ++ data).
  assert (Hbody : forall ck, icmp6_msg ty 0 ck body = layout_bytes [(1%nat, ty); (1%nat, 0); (2%nat, ck); (2%nat, ident); (2%nat, seq_no)] ++ data) by done.
  assert (Hh : forall ck, header_of m (layout_bytes [(1%nat, ty); (1%nat, 0); (2%nat, ck); (2%nat, ident); (2%nat, seq_no)])).
  { intros ck'. apply (header_of_layout m ty 0 ck' [(2%nat, ident); (2%nat, seq_no)]); [done | done | by rewrite Hlen]. }
  assert (Hz : Zlen body = 4 + Zlen data) by (unfold body; by rewrite Zlen_app, Zlen_layout_bytes).
  exists ty, 0, ck, body. split; [|split; [|split]].
  - assert (Hem : icmp6_emit_echo (layout_bytes [(1%nat, b0); (1%nat, b1); (2%nat, ck); (2%nat, w); (2%nat, u)] ++ rest) m ident seq_no data =
      Ret (icmp6_msg ty 0 ck body)); [|by destruct Hr as [[-> ->]|[-> ->]]].
    rewrite Hbody. unfold icmp6_emit_echo, icmp6_set_msg_type, icmp6_set_msg_code, icmp6_set_echo_ident, icmp6_set_echo_seq_no. fold ty.
    erewrite (layout_index_set 0) by (reflexivity || done). ret_step. erewrite (layout_index_set 1) by (reflexivity || mlia). ret_step.
    erewrite (layout_write_u16 3) by (reflexivity || done). ret_step. erewrite (layout_write_u16 4) by (reflexivity || done). ret_step.
    apply (header_payload_mut_ok m); [apply Hh | | unfold Zlen in *; lia]. cbv zeta. replace (Z.min (Zlen rest) (Zlen data)) with (Zlen data) by lia.
    rewrite <- (app_nil_r data) at 1. rewrite (slice_mid [] data []) by (done || lia). ret_step.
    rewrite <- (app_nil_r rest), <- (app_nil_r data). apply (slice_mut_mid [] rest data []); [done | rewrite ?app_nil_r; lia | rewrite app_nil_r; apply copy_from_slice_ok; lia | unfold Zlen in *; lia].
  - apply bytes_ok_app. split; [apply layout_bytes_ok | done].
  - rewrite Zlen_app, Zlen_layout_bytes, Hz. change (layout_len _) with 8. lia.
  - intros ck' src dst caps Hv. destruct (icmp6_msg_reads ty 0 ck' body m Hm Hu ltac:(mlia) ltac:(lia)) as (Ec & Et & Eco).
    unfold icmpv6_parse, try_bind. rewrite Ec. ret_steps. rewrite icmpv6_verify_start by done. ret_step. change (negb true) with false. cbv iota.
    rewrite Et, Eco. ret_steps.
    assert (Ee : icmp6_parse_echo (icmp6_msg ty 0 ck' body) = Ret (ident, seq_no, data)).
    { rewrite Hbody. unfold icmp6_parse_echo, icmp6_echo_ident, icmp6_echo_seq_no. rewrite (layout_read_u16 3 _ ident _ 4 6) by done. ret_step.
      rewrite (layout_read_u16 4 _ seq_no _ 6 8) by done. ret_step. rewrite (header_payload_ok m) by apply Hh. by ret_step. }
    rewrite Ee. by destruct Hr as [[-> ->]|[-> ->]].
Qed.
(** *** Error messages *)

(** A copy over the whole of what is behind a header. *)
Lemma copy_tail hd rest data n :
  n = Zlen hd -> Zlen rest = Zlen data -> slice_mut (hd ++ rest) n (n + Zlen data) (fun payload =>
    src ← slice data 0 (Zlen data); slice_mut payload 0 (Zlen data) (fun d => copy_from_slice d src)) = Ret (hd ++ data).
Proof.
  intros -> Hl. assert (length data = length rest) by (unfold Zlen in *; lia).
  pose proof (slice_mid [] data [] 0 (Zlen data) eq_refl ltac:(lia)) as Es. rewrite app_nil_r in Es. cbn [app] in Es.
  pose proof (slice_mut_mid hd rest data [] (Zlen hd) (Zlen hd + Zlen data)) as Em. rewrite !app_nil_r in Em.
  apply Em; [done | lia | | done]. rewrite Es. ret_step.
  pose proof (slice_mut_mid [] rest data [] 0 (Zlen data)) as Ei. rewrite !app_nil_r in Ei. cbn [app] in Ei.
  apply Ei; [done | lia | by apply copy_from_slice_ok | done].
Qed.

Lemma emit_quote_ok m hd rest header data :
  header_of m hd -> Zlen hd = 8 -> quote6_emit_ok header data -> bytes_ok rest -> Zlen rest = 40 + Zlen (quote_cut data) ->
  icmp6_emit_quote (hd ++ rest) header data = Ret (hd ++ ip6_emitted header (quote_cut data)).
Proof.
  intros Hh H8 (Hhd & Hd) Hb Hl. pose proof (Zlen_nonneg data). pose proof (Zlen_quote_cut data) as Hcut. pose proof (Zlen_nonneg (quote_cut data)).
  unfold icmp6_emit_quote. rewrite (header6_len_ok m) by done. ret_step.
  assert (Hz : Zlen (drop 40 rest) = Zlen (quote_cut data)) by (unfold Zlen in *; rewrite length_drop; lia).
  assert (Hz6 : forall d, Zlen (ip6_emitted header d) = 40 + Zlen d) by (intros; unfold ip6_emitted; by rewrite Zlen_ip6_hdr).
  apply (header_payload_mut_ok m); [done | |].
  - rewrite ipv6_emit_ok by (done || lia). ret_step. cbv zeta. rewrite H8, Hz6, Hz. unfold MAX_ERROR_PACKET_LEN, IPV6_MIN_MTU, IPV6_HEADER_LEN in Hcut |- *.
    replace (Z.min (Zlen data) (1280 - 40 - 8 - 40)) with (Zlen (quote_cut data)) by lia. change (ipv6_buffer_len header) with 40.
    assert (Es : slice data 0 (Zlen (quote_cut data)) = slice (quote_cut data) 0 (Zlen (quote_cut data))).
    { destruct (Z_le_gt_dec (Zlen data) (1280 - 40 - 48)) as [?|Hgt]; [by rewrite quote_cut_short|].
      rewrite (slice_ok data), (slice_ok (quote_cut data)) by lia. f_equal. unfold sub. rewrite !Z.sub_0_r. cbn [Z.to_nat drop].
      rewrite (take_ge (quote_cut data)) by (unfold Zlen; lia). unfold quote_cut at 2. f_equal. rewrite Hcut. unfold MAX_ERROR_PACKET_LEN, IPV6_MIN_MTU, IPV6_HEADER_LEN. f_equal. lia. }
    rewrite Es. by apply copy_tail.
  - specialize (Hz6 (quote_cut data)). unfold Zlen in *. lia.
Qed.

Lemma parse_quote_ok m hd header data :
  header_of m hd -> ip6_header_ok header -> icmp6_parse_quote (hd ++ ip6_emitted header data) = Ret (Ok (data, header)).
Proof.
  intros Hh [Hsrc Hdst Hnh Hpl Hhop]. unfold icmp6_parse_quote. rewrite (header_payload_ok m) by done. ret_step.
  unfold ip6_emitted, ip6_header_len. rewrite Zlen_ip6_hdr. unfold IPV6_HEADER_LEN. pose proof (Zlen_nonneg data).
  replace (40 <=? 40 + Zlen data) with true by lia.
  assert (Es : forall b0 b1 b2 b3 len nh hop src dst, slice (ip6_hdr b0 b1 b2 b3 len nh hop src dst data) 40 (40 + Zlen data) = Ret data).
  { intros. unfold ip6_hdr. rewrite <- (app_nil_r data) at 1. apply slice_mid; [done | lia]. }
  rewrite Es. ret_step. rewrite ip6_src_addr_ok, ip6_dst_addr_ok, ip6_next_header_ok, ip6_payload_len_ok, ip6_hop_limit_ok by done. ret_steps.
  rewrite !be_value_addr6 by done. by destruct header.
Qed.

(** The error messages: [w] is the field behind the checksum, which only two of them write. *)
Definition error6 (m : Icmpv6Message) (code w : Z) (r : Icmpv6Repr) (header : IpHeader) (data : list Z) : Prop :=
  match m with
  | Msg6DstUnreachable => code = dst6_unreachable_into (dst6_unreachable_from code) /\ r = Icmpv6DstUnreachable (dst6_unreachable_from code) header data
  | Msg6PktTooBig => code = 0 /\ r = Icmpv6PktTooBig w header data
  | Msg6TimeExceeded => code = time6_exceeded_into (time6_exceeded_from code) /\ r = Icmpv6TimeExceeded (time6_exceeded_from code) header data
  | Msg6ParamProblem => code = param6_problem_into (param6_problem_from code) /\ r = Icmpv6ParamProblem (param6_problem_from code) w header data
  | _ => False
  end.

Lemma error_emitted m code w r header data buffer :
  error6 m code w r header data -> in_u8 code -> in_u32 w -> quote6_emit_ok header data ->
  bytes_ok buffer -> Zlen buffer = 48 + Zlen (quote_cut data) -> icmpv6_emitted r buffer.
Proof.
  intros Hr Hcode Hw Hq Hb Hl. pose proof (Zlen_nonneg (quote_cut data)). set (cut := quote_cut data) in *.
  fields [1; 1; 2; 4]%nat buffer l rest E Hrest. rename z into b0, z0 into b1, z1 into ck, z2 into w0. set (ty := message6_into m).
  assert (Hm : message6_from ty = m /\ in_u8 ty /\ message6_header_len m = 8) by (by destruct m).
  destruct Hm as (Hm & Hty & Hlen).
  rewrite Zlen_app, Zlen_layout_bytes in Hl. change (layout_len _) with 8 in Hl.
  assert (Hh : forall ck w, header_of m (layout_bytes [(1%nat, ty); (1%nat, code); (2%nat, ck); (4%nat, w)])).
  { intros ck' w'. apply (header_of_layout m ty code ck' [(4%nat, w')]); [done | done | by rewrite Hlen]. }
  assert (Hhead : icmp6_emit_head (layout_bytes [(1%nat, b0); (1%nat, b1); (2%nat, ck); (4%nat, w0)] ++ rest) m code =
    Ret (layout_bytes [(1%nat, ty); (1%nat, code); (2%nat, ck); (4%nat, w0)] ++ rest)).
  { unfold icmp6_emit_head, icmp6_set_msg_type, icmp6_set_msg_code. fold ty.
    erewrite (layout_index_set 0) by (reflexivity || done). ret_step. by erewrite (layout_index_set 1) by (reflexivity || mlia). }
  assert (Hset : slice_mut (layout_bytes [(1%nat, ty); (1%nat, code); (2%nat, ck); (4%nat, w0)] ++ rest) 4 8 (fun d => write_u32 d w) =
    Ret (layout_bytes [(1%nat, ty); (1%nat, code); (2%nat, ck); (4%nat, w)] ++ rest)) by (by erewrite (layout_write_u32 3) by (reflexivity || done)).
  assert (Hquote : forall w, icmp6_emit_quote (layout_bytes [(1%nat, ty); (1%nat, code); (2%nat, ck); (4%nat, w)] ++ rest) header data =
    Ret (layout_bytes [(1%nat, ty); (1%nat, code); (2%nat, ck); (4%nat, w)] ++ ip6_emitted header cut)) by (intros; eapply (emit_quote_ok m); [apply Hh | by rewrite Zlen_layout_bytes | done | done | fold cut; lia]).
  set (w' := match m with Msg6PktTooBig | Msg6ParamProblem => w | _ => w0 end).
  exists ty, code, ck, (layout_bytes [(4%nat, w')] ++ ip6_emitted header cut).
  assert (Hbody : forall ck, icmp6_msg ty code ck (layout_bytes [(4%nat, w')] ++ ip6_emitted header cut) =
    layout_bytes [(1%nat, ty); (1%nat, code); (2%nat, ck); (4%nat, w')] ++ ip6_emitted header cut) by done.
  destruct Hq as (Hhd & Hd). assert (Hdc : bytes_ok cut) by (by apply bytes_ok_take). assert (Hz : Zlen (layout_bytes [(4%nat, w')] ++ ip6_emitted header cut) = 44 + Zlen cut).
  { rewrite Zlen_app, Zlen_layout_bytes. unfold ip6_emitted. rewrite Zlen_ip6_hdr. change (layout_len _) with 4. lia. }
  split; [|split; [|split]].
  - rewrite Hbody. destruct m; try done; cbn [error6] in Hr; destruct Hr as [Hc ->]; cbn [icmpv6_emit_body]; rewrite <- ?Hc; rewrite Hhead; ret_step;
      unfold icmp6_set_pkt_too_big_mtu, icmp6_set_param_problem_ptr; rewrite ?Hset; ret_steps; rewrite ?Hquote; try done;
      subst code; rewrite Hhead; ret_step; rewrite Hset; ret_step; apply Hquote.
  - apply bytes_ok_app. split; [apply layout_bytes_ok|]. unfold ip6_emitted. by apply ip6_hdr_bytes_ok.
  - rewrite Hz, Zlen_app, Zlen_layout_bytes. change (layout_len _) with 8. lia.
  - intros ck' src dst caps Hv. destruct (icmp6_msg_reads ty code ck' (layout_bytes [(4%nat, w')] ++ ip6_emitted header cut) m Hm Hty Hcode ltac:(lia)) as (Ec & Et & Eco).
    unfold icmpv6_parse, try_bind. rewrite Ec. ret_steps. rewrite icmpv6_verify_start by done. ret_step. change (negb true) with false. cbv iota.
    rewrite Et, Eco. ret_steps. rewrite Hbody. unfold icmp6_pkt_too_big_mtu, icmp6_param_problem_ptr.
    destruct m; try done; cbn [error6] in Hr; destruct Hr as [Hc ->]; try (destruct code; try lia); 
      rewrite (parse_quote_ok _ _ header cut (Hh ck' w') Hhd); ret_steps; rewrite ?(layout_read_u32 3 _ w _ 4 8) by done; by ret_steps.
Qed.
(** *** Neighbor discovery *)

Lemma ndisc_body_emitted r buffer :
  ndisc_emit_ok r -> bytes_ok buffer -> Zlen buffer = ndisc_buffer_len r -> icmpv6_emitted (Icmpv6Ndisc r) buffer.
Proof.
  intros Hr Hb Hl. destruct (ndisc_emitted_ok r buffer Hr Hb Hl) as (ty & ck & body & Hem & Hty & Hbo & Hz & Hnd & Hp).
  exists ty, 0, ck, body. split; [done|]. split; [done|]. split; [done|]. intros ck' src dst caps Hv. specialize (Hp ck').
  assert (Hlen : 8 <= message6_header_len (message6_from ty) <= 4 + Zlen body).
  { split; [by destruct (message6_from ty)|]. rewrite <- (Zlen_icmp6_msg ty 0 ck' body).
    pose proof (icmp6_check_len_ok (icmp6_msg ty 0 ck' body) (icmp6_msg_bytes_ok _ _ _ _ Hbo)) as Hc.
    unfold ndisc_parse, try_bind in Hp. destruct (icmp6_check_len (icmp6_msg ty 0 ck' body)) as [[[]|e]|]; [|done|done].
    destruct Hc as (_ & t & Et & Hh). unfold icmp6_msg in Et. rewrite (msg_type_layout (message6_from ty) ty) in Et by done. injection Et as <-. lia. }
  destruct (icmp6_msg_reads ty 0 ck' body (message6_from ty) eq_refl Hty ltac:(mlia) Hlen) as (Ec & Et & Eco).
  unfold icmpv6_parse, try_bind. rewrite Ec. ret_steps. rewrite icmpv6_verify_start by done. ret_step. change (negb true) with false. cbv iota.
  rewrite Et, Eco. ret_steps. destruct (message6_from ty); try done; cbn [message6_is_ndisc]; rewrite Hp; by ret_steps.
Qed.

(** *** Listener discovery *)

(** The data behind the header of a message. *)
Lemma payload_copy m hd rest data :
  header_of m hd -> Zlen rest = Zlen data -> icmp6_payload_mut (hd ++ rest) (fun d => copy_from_slice d data) = Ret (hd ++ data).
Proof.
  intros Hh Hl. apply (header_payload_mut_ok m); [done | by apply copy_from_slice_ok | unfold Zlen in *; lia].
Qed.

(** A listener message whose header is [fields]. *)
Lemma mld_emitted_intro mld buffer m ty ck fields data :
  (forall ck, layout_bytes ([(1%nat, ty); (1%nat, 0); (2%nat, ck)] ++ fields) = icmp6_msg ty 0 ck (layout_bytes fields)) ->
  mld_emit mld buffer = Ret (layout_bytes ([(1%nat, ty); (1%nat, 0); (2%nat, ck)] ++ fields) ++ data) ->
  message6_from ty = m -> in_u8 ty -> message6_is_mld m = true -> message6_header_len m = 4 + layout_len fields -> bytes_ok data ->
  Zlen buffer = message6_header_len m + Zlen data ->
  (forall ck', header_of m (layout_bytes ([(1%nat, ty); (1%nat, 0); (2%nat, ck')] ++ fields)) ->
    icmp6_check_len (layout_bytes ([(1%nat, ty); (1%nat, 0); (2%nat, ck')] ++ fields) ++ data) = Ret (Ok tt) ->
    mld_parse (layout_bytes ([(1%nat, ty); (1%nat, 0); (2%nat, ck')] ++ fields) ++ data) = Ret (Ok mld)) ->
  icmpv6_emitted (Icmpv6Mld mld) buffer.
Proof.
  intros Hsplit Hem Hm Hty Hmld Hlen Hd Hbuf Hp. exists ty, 0, ck, (layout_bytes fields ++ data).
  assert (E : forall ck', icmp6_msg ty 0 ck' (layout_bytes fields ++ data) = layout_bytes ([(1%nat, ty); (1%nat, 0); (2%nat, ck')] ++ fields) ++ data).
  { intros ck'. rewrite Hsplit. unfold icmp6_msg. by rewrite <- app_assoc. }
  rewrite E. split; [done|]. split; [apply bytes_ok_app; split; [apply layout_bytes_ok | done]|].
  split; [rewrite Zlen_app, Zlen_layout_bytes; lia|]. intros ck' src dst caps Hv. pose proof (Zlen_nonneg data).
  assert (H8 : 8 <= message6_header_len m) by (by destruct m).
  destruct (icmp6_msg_reads ty 0 ck' (layout_bytes fields ++ data) m Hm Hty ltac:(mlia)) as (Ec & Et & Eco).
  { rewrite Zlen_app, Zlen_layout_bytes. lia. }
  unfold icmpv6_parse, try_bind. rewrite Ec. ret_steps. rewrite icmpv6_verify_start by done. ret_step. change (negb true) with false. cbv iota.
  rewrite Et, Eco. ret_steps. rewrite E in *. assert (Hh : header_of m (layout_bytes ([(1%nat, ty); (1%nat, 0); (2%nat, ck')] ++ fields))).
  { apply header_of_layout; [done | done |]. rewrite Hlen. change (layout_len (_ ++ _)) with (1 + (1 + (2 + layout_len fields))). lia. }
  destruct m; try done; cbn [message6_is_mld message6_is_ndisc]; rewrite (Hp ck' Hh Ec); by ret_steps.
Qed.

Lemma mld_report_emitted n data buffer :
  mld_emit_ok (MldReport n data) -> bytes_ok buffer -> Zlen buffer = mld_buffer_len (MldReport n data) -> icmpv6_emitted (Icmpv6Mld (MldReport n data)) buffer.
Proof.
  intros (Hn & Hd) Hb Hl. cbn [mld_buffer_len] in Hl. pose proof (Zlen_nonneg data).
  fields [1; 1; 2; 2; 2]%nat buffer l rest E Hrest. rename z1 into ck. rewrite Zlen_app, Zlen_layout_bytes in Hl. change (layout_len _) with 8 in Hl.
  apply (mld_emitted_intro _ _ Msg6MldReport (message6_into Msg6MldReport) ck [(2%nat, 0); (2%nat, n)] data); try done.
  2: { rewrite Zlen_app, Zlen_layout_bytes. change (layout_len _) with 8. change (message6_header_len _) with 8. lia. }
  - cbn [mld_emit]. unfold icmp6_set_msg_type, icmp6_set_msg_code, icmp6_clear_reserved, mld_set_nr_mcast_addr_rcrds.
    erewrite (layout_index_set 0) by (reflexivity || (by vm_compute)). ret_step. erewrite (layout_index_set 1) by (reflexivity || mlia). ret_step.
    rewrite (msg_type_layout Msg6MldReport 0x8f) by done. ret_steps. erewrite (layout_write_u16 3) by (reflexivity || mlia). ret_step.
    erewrite (layout_write_u16 4) by (reflexivity || done). ret_step. apply (payload_copy Msg6MldReport); [by apply header_of_layout | lia].
  - intros ck' Hh Ec. unfold mld_parse, try_bind. rewrite Ec. ret_steps. rewrite (msg_type_layout Msg6MldReport 0x8f) by done. ret_steps.
    unfold mld_nr_mcast_addr_rcrds. rewrite (layout_read_u16 4 _ n _ 6 8) by done. ret_step. rewrite (header_payload_ok Msg6MldReport) by done. by ret_steps.
Qed.

(** The octet of the flag and the robustness variable. *)
Lemma query_octet (s_flag : bool) qrv (b : Z) :
  0 <= qrv < 8 -> let v := if s_flag then 8 + qrv else qrv in
  Z.lor (Z.land (if s_flag then Z.lor 8 (Z.land b 7) else Z.land b 7) 8) (Z.land qrv 7) = v /\ in_u8 v /\
  negb (Z.land v 8 =? 0) = s_flag /\ Z.land v 7 = qrv.
Proof.
  intros Hq v. assert (Hb : Z.land (if s_flag then Z.lor 8 (Z.land b 7) else Z.land b 7) 8 = if s_flag then 8 else 0).
  { destruct s_flag; rewrite ?Z.land_lor_distr_l, <- Z.land_assoc; change (Z.land 7 8) with 0; by rewrite Z.land_0_r. }
  rewrite Hb. unfold v. assert (Hc : qrv = 0 \/ qrv = 1 \/ qrv = 2 \/ qrv = 3 \/ qrv = 4 \/ qrv = 5 \/ qrv = 6 \/ qrv = 7) by lia.
  destruct s_flag; repeat (destruct Hc as [->|Hc]; [by vm_compute|]); subst; by vm_compute.
Qed.

Lemma mld_query_emitted max_resp_code mcast_addr s_flag qrv qqic num_srcs data buffer :
  let r := MldQuery max_resp_code mcast_addr s_flag qrv qqic num_srcs data in
  mld_emit_ok r -> bytes_ok buffer -> Zlen buffer = mld_buffer_len r -> icmpv6_emitted (Icmpv6Mld r) buffer.
Proof.
  intros r (Hmr & [Hgb Hgl] & Hq & Hqq & Hns & Hd) Hb Hl. cbn [mld_buffer_len r] in Hl. pose proof (Zlen_nonneg data).
  fields [1; 1; 2; 2; 2; 16; 1; 1; 2]%nat buffer l rest E Hrest. rename z1 into ck, z2 into w, z3 into u, z4 into g, z5 into b, z6 into c, z7 into d.
  rewrite Zlen_app, Zlen_layout_bytes in Hl. change (layout_len _) with 28 in Hl.
  assert (Hb0 : in_u8 b) by (change (256 ^ Z.of_nat 1) with 256 in *; mlia). assert (Hb8 : in_u8 (Z.land b 0xf)) by (by apply in_u8_land_l).
  destruct (query_octet s_flag qrv (Z.land b 0xf) Hq) as (Ev & Hv & Es & Eq). set (v := if s_flag then 8 + qrv else qrv) in *.
  set (gv := be_value mcast_addr). assert (Eg : be_bytes 16 gv = mcast_addr) by (by apply be_value_addr6).
  apply (mld_emitted_intro _ _ Msg6MldQuery (message6_into Msg6MldQuery) ck
    [(2%nat, max_resp_code); (2%nat, 0); (16%nat, gv); (1%nat, v); (1%nat, qqic); (2%nat, num_srcs)] data); try done.
  2: { rewrite Zlen_app, Zlen_layout_bytes. change (layout_len _) with 28. change (message6_header_len _) with 28. lia. }
  - cbn [mld_emit r]. unfold icmp6_set_msg_type, icmp6_set_msg_code, icmp6_clear_reserved, mld_set_max_resp_code, mld_set_mcast_addr, mld_set_qrv,
      mld_set_qqic, mld_set_num_srcs, update_byte.
    erewrite (layout_index_set 0) by (reflexivity || (by vm_compute)). ret_step. erewrite (layout_index_set 1) by (reflexivity || mlia). ret_step.
    rewrite (msg_type_layout Msg6MldQuery 0x82) by done. ret_steps. erewrite (layout_write_u16 4) by (reflexivity || mlia). ret_step.
    erewrite (layout_index 6) by (reflexivity || done). ret_step. erewrite (layout_index_set 6) by (reflexivity || done). ret_step.
    erewrite (layout_write_u16 3) by (reflexivity || done). ret_step. erewrite (layout_copy 5) by (reflexivity || done). ret_step.
    set (f := if s_flag then Z.lor 8 (Z.land (Z.land b 15) 7) else Z.land (Z.land b 15) 7) in *.
    assert (Hf : in_u8 f).
    { unfold f. destruct s_flag; [apply in_u8_lor; [mlia|]|]; by apply in_u8_land_l. }
    match goal with |- context [if s_flag then mld_set_s_flag ?x else _] => assert (Ef : (if s_flag then mld_set_s_flag x else mld_clear_s_flag x) =
      Ret (layout_bytes [(1%nat, 0x82); (1%nat, 0); (2%nat, ck); (2%nat, max_resp_code); (2%nat, 0); (16%nat, gv); (1%nat, f); (1%nat, c); (2%nat, d)] ++ rest)) end.
    { unfold mld_set_s_flag, mld_clear_s_flag, update_byte, f. destruct s_flag;
        (erewrite (layout_index 6) by (reflexivity || done)); ret_step; by erewrite (layout_index_set 6) by (reflexivity || exact Hf). }
    rewrite Ef. ret_step. replace (qrv <? 8) with true by lia. cbn [passert]. ret_step.
    erewrite (layout_index 6) by (reflexivity || done). ret_step. rewrite Ev. erewrite (layout_index_set 6) by (reflexivity || done). ret_step.
    erewrite (layout_index_set 7) by (reflexivity || done). ret_step. erewrite (layout_write_u16 8) by (reflexivity || done). ret_step.
    apply (payload_copy Msg6MldQuery); [by apply header_of_layout | lia].
  - intros ck' Hh Ec. unfold mld_parse, try_bind. rewrite Ec. ret_steps. rewrite (msg_type_layout Msg6MldQuery 0x82) by done. ret_steps.
    unfold mld_max_resp_code, mld_mcast_addr, mld_s_flag, mld_qrv, mld_qqic, mld_num_srcs.
    rewrite (layout_read_u16 3 _ max_resp_code _ 4 6) by done. ret_step. rewrite (layout_get 5 _ 16 gv _ 8 24) by done. ret_step. rewrite Eg.
    destruct (ipv6_from_bytes_ok mcast_addr Hgb) as [-> _]; [mlia|]. ret_step.
    rewrite !(layout_index 6 _ v _ 24) by done. ret_steps. rewrite (layout_index 7 _ qqic _ 25) by done. ret_step.
    rewrite (layout_read_u16 8 _ num_srcs _ 26 28) by done. ret_step. rewrite (header_payload_ok Msg6MldQuery) by done. ret_steps. by rewrite Es, Eq.
Qed.

Lemma icmpv6_emitted_ok r buffer :
  icmpv6_emit_ok r -> bytes_ok buffer -> icmpv6_buffer_len r = Ret (Zlen buffer) -> Zlen buffer <= 131070 -> icmpv6_emitted r buffer.
Proof.
  intros Hr Hb Hl Hmax.
  assert (Hq : forall header data, quote6_emit_ok header data ->
    (n ← usize_add (8 + ipv6_buffer_len header) (Zlen data); Ret (Z.min n MAX_ERROR_PACKET_LEN)) = Ret (Zlen buffer) -> Zlen buffer = 48 + Zlen (quote_cut data)).
  { intros header data _ E. rewrite Zlen_quote_cut. pose proof (Zlen_nonneg data). unfold MAX_ERROR_PACKET_LEN, IPV6_MIN_MTU, IPV6_HEADER_LEN in *.
    change (ipv6_buffer_len header) with 40 in E. unfold usize_add in E. unfold checked in E. destruct (_ && _) in E; [|done]. rewrite bind_Ret in E. injection E as E. lia. }
  assert (He : forall data : list Z, usize_add 8 (Zlen data) = Ret (Zlen buffer) -> Zlen buffer = 8 + Zlen data).
  { intros data E. unfold usize_add, checked in E. destruct (_ && _) in E; [by injection E as E | done]. }
  destruct r as [reason header data|mtu header data|reason header data|reason pointer header data|ident seq_no data|ident seq_no data|r|r];
    cbn [icmpv6_emit_ok icmpv6_buffer_len] in *.
  - destruct Hr as (Hu & Hinv & Hqo). apply (error_emitted Msg6DstUnreachable (dst6_unreachable_into reason) 0 _ header data); try done; [|by apply (Hq header)].
    cbn [error6]. by rewrite Hinv.
  - destruct Hr as (Hu & Hqo). apply (error_emitted Msg6PktTooBig 0 mtu _ header data); try done. by apply (Hq header).
  - destruct Hr as (Hu & Hinv & Hqo). apply (error_emitted Msg6TimeExceeded (time6_exceeded_into reason) 0 _ header data); try done; [|by apply (Hq header)].
    cbn [error6]. by rewrite Hinv.
  - destruct Hr as (Hu & Hinv & Hp & Hqo). apply (error_emitted Msg6ParamProblem (param6_problem_into reason) pointer _ header data); try done; [|by apply (Hq header)].
    cbn [error6]. by rewrite Hinv.
  - destruct Hr as (Hi & Hs & Hd). apply (echo_emitted Msg6EchoRequest 0x80 ident seq_no data); try done; [by left | by apply He].
  - destruct Hr as (Hi & Hs & Hd). apply (echo_emitted Msg6EchoReply 0x81 ident seq_no data); try done; [by right | by apply He].
  - apply ndisc_body_emitted; [done..|]. by injection Hl.
  - destruct r; [apply mld_query_emitted | apply mld_report_emitted | done]; try done; by injection Hl.
Qed.

Lemma icmpv6_emit_parse_ok r src dst buffer caps :
  icmpv6_emit_ok r -> bytes_ok buffer -> icmpv6_buffer_len r = Ret (Zlen buffer) -> Zlen buffer <= 131070 ->
  ipv6_addr_ok src -> ipv6_addr_ok dst -> (checksum_rx (caps_icmpv6 caps) = true -> checksum_tx (caps_icmpv6 caps) = true) ->
  exists bs, icmpv6_emit r src dst buffer caps = Ret bs /\ Zlen bs = Zlen buffer /\ icmpv6_parse src dst bs caps = Ret (Ok (icmpv6_cut r)) /\ bytes_ok bs.
Proof.
  intros Hr Hb Hl Hmax Hs Hd Hc. destruct (icmpv6_emitted_ok r buffer Hr Hb Hl Hmax) as (ty & code & ck & body & Hem & Hbo & Hz & Hp).
  destruct (icmp6_finish_ok ty code ck body src dst caps Hbo ltac:(lia) Hs Hd) as (ck' & Hck' & Ef & Hv).
  exists (icmp6_msg ty code ck' body). rewrite icmpv6_emit_split, Hem. split; [ret_step; exact Ef|]. rewrite Zlen_icmp6_msg. split; [lia|].
  split; [apply Hp; auto | by apply icmp6_msg_bytes_ok].
Qed.
End Emit.

(** ** Properties *)

(** C37: an ICMPv6 message that is emitted into a buffer of its length, whatever the buffer held, is
    parsed back, with a checksum that is valid for its addresses: echo messages, listener queries and
    reports as they were, neighbor discovery messages with their options, error messages with their
    quote cut to the size that keeps the message within the minimum MTU.  What is not read as it was:
    a redirect loses its hardware address ([ndisc_read]), a defect of the code.  Not covered: hardware
    addresses that do not have six or eight octets (a shorter one would be read with its padding), and
    a report given by its records, which [buffer_len] does not count ([mld_report_parse]). *)
Theorem icmpv6_emit_parse `{NetworkEndianLaws} r src dst buffer caps :
  icmpv6_emit_ok r -> bytes_ok buffer -> icmpv6_buffer_len r = Ret (Zlen buffer) -> Zlen buffer <= 131070 ->
  ipv6_addr_ok src -> ipv6_addr_ok dst -> (checksum_rx (caps_icmpv6 caps) = true -> checksum_tx (caps_icmpv6 caps) = true) ->
  exists bs, icmpv6_emit r src dst buffer caps = Ret bs /\ Zlen bs = Zlen buffer /\ icmpv6_parse src dst bs caps = Ret (Ok (icmpv6_cut r)).
Proof. intros. destruct (icmpv6_emit_parse_ok r src dst buffer caps) as (bs & ? & ? & ? & _); eauto. Qed.

(** *** Concrete instances *)

Definition ex_v6_a : list Z := [0xfe; 0x80; 0; 0; 0; 0; 0; 0; 0; 0; 0; 0; 0; 0; 0; 1].
Definition ex_v6_b : list Z := [0xfe; 0x80; 0; 0; 0; 0; 0; 0; 0; 0; 0; 0; 0; 0; 0; 2].
Definition ex_caps : ChecksumCapabilities := mkChecksumCapabilities CkBoth CkBoth CkBoth CkBoth CkBoth.
Definition ex_advert : Icmpv6Repr := Icmpv6Ndisc (NeighborAdvert 0x60 ex_v6_a (Some [2; 0; 0; 0; 0; 1])).

Lemma icmpv6_emit_parse_witness :
  exists bs, @icmpv6_emit network_endian ex_advert ex_v6_a ex_v6_b (replicate 32 0xa5) ex_caps = Ret bs /\
    Zlen bs = Zlen (replicate 32 0xa5) /\ @icmpv6_parse network_endian ex_v6_a ex_v6_b bs ex_caps = Ret (Ok (icmpv6_cut ex_advert)).
Proof.
  apply (@icmpv6_emit_parse network_endian network_endian_laws);
    [| byte_list | reflexivity | by vm_compute | split; [unfold ex_v6_a; byte_list | done] | split; [unfold ex_v6_b; byte_list | done] | done].
  cbn. split; [reflexivity|]. split; [split; [unfold ex_v6_a; byte_list | done]|]. split; [byte_list | by left].
Defined.

(** The hardware address of a redirect is lost. *)
Example redirect_address_lost :
  icmpv6_cut (Icmpv6Ndisc (NdiscRedirect ex_v6_a ex_v6_b (Some [2; 0; 0; 0; 0; 1]) None)) = Icmpv6Ndisc (NdiscRedirect ex_v6_a ex_v6_b None None).
Proof. reflexivity. Qed.

(** * The listener report that the interface sends *)

Definition record_emit_ok (r : AddressRecordRepr) : Prop :=
  in_u8 (record_type_into (ar_record_type r)) /\ record_type_from (record_type_into (ar_record_type r)) = ar_record_type r /\
  in_u8 (ar_aux_data_len r) /\ in_u16 (ar_num_srcs r) /\ ipv6_addr_ok (ar_mcast_addr r) /\ v6_is_multicast (ar_mcast_addr r) = true.

Definition record_bytes (r : AddressRecordRepr) : list Z :=
  layout_bytes [(1%nat, record_type_into (ar_record_type r)); (1%nat, ar_aux_data_len r); (2%nat, ar_num_srcs r); (16%nat, be_value (ar_mcast_addr r))].

Definition records_bytes (records : list AddressRecordRepr) : list Z := concat (map record_bytes records).

Lemma Zlen_record_bytes r : Zlen (record_bytes r) = 20.
Proof. unfold record_bytes. by rewrite Zlen_layout_bytes. Qed.

Lemma records_bytes_ok records : bytes_ok (records_bytes records) /\ Zlen (records_bytes records) = 20 * Zlen records.
Proof.
  unfold records_bytes. induction records as [|r records [IH1 IH2]]; [by split; [constructor|]|]. cbn [map concat]. split.
  - apply bytes_ok_app. split; [apply layout_bytes_ok | done].
  - rewrite Zlen_app, Zlen_record_bytes, IH2. unfold Zlen. cbn [length]. lia.
Qed.

(** The records of the interface. *)
Lemma record_new_ok t a :
  in_u8 (record_type_into t) -> record_type_from (record_type_into t) = t -> ipv6_addr_ok a -> v6_is_multicast a = true ->
  record_emit_ok (address_record_new t a).
Proof. intros. unfold record_emit_ok, address_record_new. cbn. repeat (split; [done || mlia|]). done. Qed.

Section Emit.
Context `{NetworkEndianLaws}.

Lemma address_record_emit_ok r buffer :
  record_emit_ok r -> bytes_ok buffer -> 20 <= Zlen buffer -> address_record_emit r buffer = Ret (record_bytes r ++ drop 20 buffer).
Proof.
  intros (Ht & _ & Ha & Hn & [Hb6 Hl6] & Hm) Hb Hl. fields [1; 1; 2; 16]%nat buffer l rest E Hrest.
  unfold address_record_emit, ar_set_record_type, ar_set_aux_data_len, ar_set_num_srcs, ar_set_mcast_addr, record_bytes.
  erewrite (layout_index_set 0) by (reflexivity || done). ret_step. erewrite (layout_index_set 1) by (reflexivity || done). ret_step.
  erewrite (layout_write_u16 2) by (reflexivity || done). ret_step. rewrite Hm. cbn [passert]. ret_step.
  erewrite (layout_copy 3) by (reflexivity || done). cbn [list_insert insert].
  by rewrite drop_app_length'.
Qed.

Lemma mld_emit_records_ok records buffer :
  Forall record_emit_ok records -> bytes_ok buffer -> Zlen buffer = 20 * Zlen records -> mld_emit_records records buffer = Ret (records_bytes records).
Proof.
  intros Hr. revert buffer. induction Hr as [|r records Hr Hrs IH]; intros buffer Hb Hl; cbn [mld_emit_records].
  { by destruct buffer. }
  assert (Hl2 : Zlen buffer = 20 + 20 * Zlen records) by (rewrite Hl; unfold Zlen; cbn [length]; lia). pose proof (Zlen_nonneg records).
  rewrite address_record_emit_ok by (done || lia). ret_step. change (address_record_buffer_len r) with 20.
  assert (Hd : Zlen (drop 20 buffer) = 20 * Zlen records) by (unfold Zlen in *; rewrite length_drop; lia).
  rewrite Zlen_app, Zlen_record_bytes. rewrite <- (app_nil_r (drop 20 buffer)).
  erewrite slice_mut_mid; [|by rewrite Zlen_record_bytes | by rewrite app_nil_r | apply IH; [by apply bytes_ok_drop | done] |].
  - by rewrite app_nil_r.
  - destruct (records_bytes_ok records) as [_ Hz]. unfold Zlen in *. lia.
Qed.

(** The report before its checksum. *)
Lemma mld_report_body_ok records buffer :
  Forall record_emit_ok records -> bytes_ok buffer -> Zlen buffer = 8 + 20 * Zlen records -> Zlen records <= u16_max ->
  exists ck, mld_emit (MldReportRecords records) buffer =
    Ret (icmp6_msg (message6_into Msg6MldReport) 0 ck (layout_bytes [(2%nat, 0); (2%nat, Zlen records)] ++ records_bytes records)).
Proof.
  intros Hr Hb Hl Hn. pose proof (Zlen_nonneg records). fields [1; 1; 2; 2; 2]%nat buffer l rest E Hrest. rename z1 into ck. exists ck.
  rewrite Zlen_app, Zlen_layout_bytes in Hl. change (layout_len _) with 8 in Hl.
  set (ty := message6_into Msg6MldReport). assert (Hty : in_u8 ty) by (by vm_compute).
  assert (Hh : forall b ck r n, header_of Msg6MldReport (layout_bytes [(1%nat, ty); (1%nat, b); (2%nat, ck); (2%nat, r); (2%nat, n)])).
  { intros b ck' r n. by apply (header_of_layout Msg6MldReport ty b ck' [(2%nat, r); (2%nat, n)]). }
  cbn [mld_emit]. unfold icmp6_set_msg_type, icmp6_set_msg_code, icmp6_clear_reserved, mld_set_nr_mcast_addr_rcrds. fold ty.
  erewrite (layout_index_set 0) by (reflexivity || done). ret_step. erewrite (layout_index_set 1) by (reflexivity || mlia). ret_step.
  cbn [list_insert insert]. destruct (Hh 0 ck z2 z3) as [_ Ht]. rewrite Ht. rewrite bind_Ret. cbv beta iota.
  erewrite (layout_write_u16 3) by (reflexivity || mlia). ret_step. rewrite wrap_u_id by mlia. erewrite (layout_write_u16 4) by (reflexivity || mlia). ret_step.
  cbn [list_insert insert]. unfold icmp6_msg.
  rewrite (header_payload_mut_ok Msg6MldReport _ rest (records_bytes records)); [done | apply Hh | apply mld_emit_records_ok; [done | done | lia] |].
  destruct (records_bytes_ok records) as [_ Hz]. unfold Zlen in *. lia.
Qed.

(** The report with the checksum [ck]. *)
Definition report_bytes (records : list AddressRecordRepr) (ck : Z) : list Z :=
  icmp6_msg (message6_into Msg6MldReport) 0 ck (layout_bytes [(2%nat, 0); (2%nat, Zlen records)] ++ records_bytes records).

Lemma report_bytes_ok records ck : bytes_ok (report_bytes records ck) /\ Zlen (report_bytes records ck) = 8 + 20 * Zlen records.
Proof.
  destruct (records_bytes_ok records) as [Hb Hl]. unfold report_bytes. split.
  - apply icmp6_msg_bytes_ok, bytes_ok_app. split; [apply layout_bytes_ok | done].
  - rewrite Zlen_icmp6_msg, Zlen_app, Zlen_layout_bytes, Hl. change (layout_len _) with 4. lia.
Qed.

Lemma mld_report_writes records src dst buffer caps :
  Forall record_emit_ok records -> bytes_ok buffer -> Zlen buffer = 8 + 20 * Zlen records -> Zlen records <= 3000 ->
  ipv6_addr_ok src -> ipv6_addr_ok dst ->
  exists ck, in_u16 ck /\ icmpv6_emit (Icmpv6Mld (MldReportRecords records)) src dst buffer caps = Ret (report_bytes records ck) /\
    (checksum_tx (caps_icmpv6 caps) = true -> icmp6_verify_checksum (report_bytes records ck) src dst = Ret true).
Proof.
  intros Hr Hb Hl Hn Hs Hd. pose proof (Zlen_nonneg records). destruct (mld_report_body_ok records buffer Hr Hb Hl ltac:(mlia)) as (ck & Eb).
  destruct (records_bytes_ok records) as [Hrb Hrl]. unfold report_bytes.
  set (body := layout_bytes [(2%nat, 0); (2%nat, Zlen records)] ++ records_bytes records) in *.
  assert (Hbody : bytes_ok body) by (apply bytes_ok_app; split; [apply layout_bytes_ok | done]).
  assert (Hz : Zlen body = 4 + 20 * Zlen records) by (unfold body; rewrite Zlen_app, Zlen_layout_bytes, Hrl; done).
  destruct (icmp6_finish_ok (message6_into Msg6MldReport) 0 ck body src dst caps Hbody ltac:(lia) Hs Hd) as (ck' & Hck' & Ef & Hv).
  exists ck'. split; [done|]. split; [|done]. rewrite icmpv6_emit_split. unfold icmpv6_emit_body. rewrite Eb. ret_step. exact Ef.
Qed.

Lemma mld_report_parse records ck src dst caps :
  Zlen records <= 3000 -> in_u16 ck ->
  (checksum_rx (caps_icmpv6 caps) = true -> icmp6_verify_checksum (report_bytes records ck) src dst = Ret true) ->
  icmpv6_parse src dst (report_bytes records ck) caps = Ret (Ok (Icmpv6Mld (MldReport (Zlen records) (records_bytes records)))).
Proof.
  intros Hn Hck Hv. pose proof (Zlen_nonneg records). destruct (report_bytes_ok records ck) as [_ Hz].
  set (ty := message6_into Msg6MldReport) in *. set (bs := report_bytes records ck) in *.
  assert (Ebs : bs = layout_bytes [(1%nat, ty); (1%nat, 0); (2%nat, ck); (2%nat, 0); (2%nat, Zlen records)] ++ records_bytes records) by done.
  assert (Hh : header_of Msg6MldReport (layout_bytes [(1%nat, ty); (1%nat, 0); (2%nat, ck); (2%nat, 0); (2%nat, Zlen records)])).
  { by apply (header_of_layout Msg6MldReport ty 0 ck [(2%nat, 0); (2%nat, Zlen records)]). }
  assert (Et : icmp6_msg_type bs = Ret Msg6MldReport) by (rewrite Ebs; apply Hh).
  assert (Eh : icmp6_header_len bs = Ret 8) by (rewrite Ebs, (header6_len_ok Msg6MldReport), Zlen_layout_bytes by done; done).
  assert (Ec : icmp6_check_len bs = Ret (Ok tt)).
  { unfold icmp6_check_len. rewrite Hz, Et, Eh. replace (8 + 20 * Zlen records <? 4) with false by lia. rewrite bind_Ret. cbv beta iota. rewrite bind_Ret.
    by replace (8 + 20 * Zlen records <? 8) with false by lia. }
  unfold icmpv6_parse, try_bind. rewrite Ec. ret_steps. rewrite icmpv6_verify_start by done. ret_steps. cbn [negb].
  assert (Eco : icmp6_msg_code bs = Ret 0) by (unfold icmp6_msg_code; rewrite Ebs; by erewrite (layout_index 1) by (reflexivity || mlia)).
  rewrite Et. ret_step. rewrite ?Eco. ret_steps. cbn [message6_is_mld message6_is_ndisc]. cbv iota.
  unfold mld_parse, try_bind. rewrite ?Ec. ret_steps. rewrite ?Et. ret_steps. unfold mld_nr_mcast_addr_rcrds. rewrite Ebs.
  erewrite (layout_read_u16 4) by (reflexivity || mlia). ret_steps. rewrite (header_payload_ok Msg6MldReport) by done. by ret_steps.
Qed.
End Emit.
