(* ===== verification/TcpSocket.v ===== *)
(** * The TCP socket: state and application interface (socket/tcp.rs, socket/waker.rs)

    The fields of [Socket] carry the names of the source with the prefix [sk_]; [upd_f v s]
    is the assignment of [v] to field [f].  This file has the operations an application
    calls; segment processing is in [TcpProcess], transmission in [TcpDispatch]. *)

From S2P Require Import Prelude SeqNumber RingBuffer Assembler TimeModel TcpTimers Congestion IpTypes TcpRepr IfaceContext.

(** Build-time configuration: [ASSEMBLER_MAX_SEGMENT_COUNT] and the two Cargo features that
    choose the default congestion controller. *)
Class BuildConfig : Type := {
  assembler_max_segment_count : nat;
  feature_cubic : bool;
  feature_reno : bool;
}.

(** ** Wakers (socket/waker.rs) *)

(** A task waker, known by the task it wakes; [wr_woken] records the calls of [wake]. *)
Abbreviation Waker := Z (only parsing).

Record WakerRegistration : Type := mkWakerRegistration {
  wr_waker : option Waker;
  wr_woken : list Waker;
}.

Definition waker_new : WakerRegistration := mkWakerRegistration None [].

(** [will_wake] holds when both wake the same task. *)
Definition waker_register (r : WakerRegistration) (w : Waker) : WakerRegistration :=
  match wr_waker r with
  | Some w2 => if w2 =? w then r else mkWakerRegistration (Some w) (wr_woken r)
  | None => mkWakerRegistration (Some w) (wr_woken r)
  end.

Definition waker_wake (r : WakerRegistration) : WakerRegistration :=
  match wr_waker r with
  | Some w => mkWakerRegistration None (wr_woken r ++ [w])
  | None => mkWakerRegistration None (wr_woken r)
  end.

(** ** State *)

Inductive ListenError : Type := ListenInvalidState | ListenUnaddressable.
Inductive ConnectError : Type := ConnectInvalidState | ConnectUnaddressable.
Inductive SendError : Type := SendInvalidState.
Inductive RecvError : Type := RecvInvalidState | RecvFinished.

Inductive State : Type :=
| Closed | Listen | SynSent | SynReceived | Established | FinWait1 | FinWait2 | CloseWait
| Closing | LastAck | TimeWait.

#[export] Instance state_eq_dec : EqDecision State.
Proof. solve_decision. Defined.

Definition state_eqb (a b : State) : bool := bool_decide (a = b).

Record Tuple : Type := mkTuple { tuple_local : Endpoint; tuple_remote : Endpoint }.

(** [CongestionControl], the choice of an application. *)
Inductive CongestionControl : Type := CongestionNone | CongestionReno | CongestionCubic.

Record Socket : Type := mkSocket {
  sk_state : State;
  sk_timer : Timer;
  sk_rtte : RttEstimator;
  sk_assembler : Assembler;
  sk_rx_buffer : RingBuffer Z;
  sk_rx_fin_received : bool;
  sk_tx_buffer : RingBuffer Z;
  sk_timeout : option Duration;
  sk_keep_alive : option Duration;
  sk_hop_limit : option Z;
  sk_listen_endpoint : ListenEndpoint;
  sk_tuple : option Tuple;
  sk_local_seq_no : SeqNumber;
  sk_remote_seq_no : SeqNumber;
  sk_remote_last_seq : SeqNumber;
  sk_remote_last_ack : option SeqNumber;
  sk_remote_last_win : Z;
  sk_remote_win_shift : Z;
  sk_remote_win_len : Z;
  sk_remote_win_scale : option Z;
  sk_remote_has_sack : bool;
  sk_remote_mss : Z;
  sk_remote_last_ts : option Instant;
  sk_local_rx_last_seq : option SeqNumber;
  sk_local_rx_last_ack : option SeqNumber;
  sk_local_rx_dup_acks : Z;
  sk_ack_delay : option Duration;
  sk_ack_delay_timer : AckDelayTimer;
  sk_challenge_ack_timer : Instant;
  sk_nagle : bool;
  sk_congestion_controller : AnyController;
  sk_tsval_generator : option TcpTimestampGenerator;
  sk_last_remote_tsval : Z;
  sk_rx_waker : WakerRegistration;
  sk_tx_waker : WakerRegistration;
  sk_synack_paused : bool;
}.

(** [self.field = v]. *)
Definition upd_state (v : State) (s : Socket) : Socket :=
  mkSocket v (sk_timer s) (sk_rtte s) (sk_assembler s) (sk_rx_buffer s) (sk_rx_fin_received s)
    (sk_tx_buffer s) (sk_timeout s) (sk_keep_alive s) (sk_hop_limit s) (sk_listen_endpoint s)
    (sk_tuple s) (sk_local_seq_no s) (sk_remote_seq_no s) (sk_remote_last_seq s)
    (sk_remote_last_ack s) (sk_remote_last_win s) (sk_remote_win_shift s) (sk_remote_win_len s)
    (sk_remote_win_scale s) (sk_remote_has_sack s) (sk_remote_mss s) (sk_remote_last_ts s)
    (sk_local_rx_last_seq s) (sk_local_rx_last_ack s) (sk_local_rx_dup_acks s) (sk_ack_delay s)
    (sk_ack_delay_timer s) (sk_challenge_ack_timer s) (sk_nagle s) (sk_congestion_controller s)
    (sk_tsval_generator s) (sk_last_remote_tsval s) (sk_rx_waker s) (sk_tx_waker s)
    (sk_synack_paused s).
Definition upd_timer (v : Timer) (s : Socket) : Socket :=
  mkSocket (sk_state s) v (sk_rtte s) (sk_assembler s) (sk_rx_buffer s) (sk_rx_fin_received s)
    (sk_tx_buffer s) (sk_timeout s) (sk_keep_alive s) (sk_hop_limit s) (sk_listen_endpoint s)
    (sk_tuple s) (sk_local_seq_no s) (sk_remote_seq_no s) (sk_remote_last_seq s)
    (sk_remote_last_ack s) (sk_remote_last_win s) (sk_remote_win_shift s) (sk_remote_win_len s)
    (sk_remote_win_scale s) (sk_remote_has_sack s) (sk_remote_mss s) (sk_remote_last_ts s)
    (sk_local_rx_last_seq s) (sk_local_rx_last_ack s) (sk_local_rx_dup_acks s) (sk_ack_delay s)
    (sk_ack_delay_timer s) (sk_challenge_ack_timer s) (sk_nagle s) (sk_congestion_controller s)
    (sk_tsval_generator s) (sk_last_remote_tsval s) (sk_rx_waker s) (sk_tx_waker s)
    (sk_synack_paused s).
Definition upd_rtte (v : RttEstimator) (s : Socket) : Socket :=
  mkSocket (sk_state s) (sk_timer s) v (sk_assembler s) (sk_rx_buffer s) (sk_rx_fin_received s)
    (sk_tx_buffer s) (sk_timeout s) (sk_keep_alive s) (sk_hop_limit s) (sk_listen_endpoint s)
    (sk_tuple s) (sk_local_seq_no s) (sk_remote_seq_no s) (sk_remote_last_seq s)
    (sk_remote_last_ack s) (sk_remote_last_win s) (sk_remote_win_shift s) (sk_remote_win_len s)
    (sk_remote_win_scale s) (sk_remote_has_sack s) (sk_remote_mss s) (sk_remote_last_ts s)
    (sk_local_rx_last_seq s) (sk_local_rx_last_ack s) (sk_local_rx_dup_acks s) (sk_ack_delay s)
    (sk_ack_delay_timer s) (sk_challenge_ack_timer s) (sk_nagle s) (sk_congestion_controller s)
    (sk_tsval_generator s) (sk_last_remote_tsval s) (sk_rx_waker s) (sk_tx_waker s)
    (sk_synack_paused s).
Definition upd_assembler (v : Assembler) (s : Socket) : Socket :=
  mkSocket (sk_state s) (sk_timer s) (sk_rtte s) v (sk_rx_buffer s) (sk_rx_fin_received s)
    (sk_tx_buffer s) (sk_timeout s) (sk_keep_alive s) (sk_hop_limit s) (sk_listen_endpoint s)
    (sk_tuple s) (sk_local_seq_no s) (sk_remote_seq_no s) (sk_remote_last_seq s)
    (sk_remote_last_ack s) (sk_remote_last_win s) (sk_remote_win_shift s) (sk_remote_win_len s)
    (sk_remote_win_scale s) (sk_remote_has_sack s) (sk_remote_mss s) (sk_remote_last_ts s)
    (sk_local_rx_last_seq s) (sk_local_rx_last_ack s) (sk_local_rx_dup_acks s) (sk_ack_delay s)
    (sk_ack_delay_timer s) (sk_challenge_ack_timer s) (sk_nagle s) (sk_congestion_controller s)
    (sk_tsval_generator s) (sk_last_remote_tsval s) (sk_rx_waker s) (sk_tx_waker s)
    (sk_synack_paused s).
Definition upd_rx_buffer (v : RingBuffer Z) (s : Socket) : Socket :=
  mkSocket (sk_state s) (sk_timer s) (sk_rtte s) (sk_assembler s) v (sk_rx_fin_received s)
    (sk_tx_buffer s) (sk_timeout s) (sk_keep_alive s) (sk_hop_limit s) (sk_listen_endpoint s)
    (sk_tuple s) (sk_local_seq_no s) (sk_remote_seq_no s) (sk_remote_last_seq s)
    (sk_remote_last_ack s) (sk_remote_last_win s) (sk_remote_win_shift s) (sk_remote_win_len s)
    (sk_remote_win_scale s) (sk_remote_has_sack s) (sk_remote_mss s) (sk_remote_last_ts s)
    (sk_local_rx_last_seq s) (sk_local_rx_last_ack s) (sk_local_rx_dup_acks s) (sk_ack_delay s)
    (sk_ack_delay_timer s) (sk_challenge_ack_timer s) (sk_nagle s) (sk_congestion_controller s)
    (sk_tsval_generator s) (sk_last_remote_tsval s) (sk_rx_waker s) (sk_tx_waker s)
    (sk_synack_paused s).
Definition upd_rx_fin_received (v : bool) (s : Socket) : Socket :=
  mkSocket (sk_state s) (sk_timer s) (sk_rtte s) (sk_assembler s) (sk_rx_buffer s) v
    (sk_tx_buffer s) (sk_timeout s) (sk_keep_alive s) (sk_hop_limit s) (sk_listen_endpoint s)
    (sk_tuple s) (sk_local_seq_no s) (sk_remote_seq_no s) (sk_remote_last_seq s)
    (sk_remote_last_ack s) (sk_remote_last_win s) (sk_remote_win_shift s) (sk_remote_win_len s)
    (sk_remote_win_scale s) (sk_remote_has_sack s) (sk_remote_mss s) (sk_remote_last_ts s)
    (sk_local_rx_last_seq s) (sk_local_rx_last_ack s) (sk_local_rx_dup_acks s) (sk_ack_delay s)
    (sk_ack_delay_timer s) (sk_challenge_ack_timer s) (sk_nagle s) (sk_congestion_controller s)
    (sk_tsval_generator s) (sk_last_remote_tsval s) (sk_rx_waker s) (sk_tx_waker s)
    (sk_synack_paused s).
Definition upd_tx_buffer (v : RingBuffer Z) (s : Socket) : Socket :=
  mkSocket (sk_state s) (sk_timer s) (sk_rtte s) (sk_assembler s) (sk_rx_buffer s)
    (sk_rx_fin_received s) v (sk_timeout s) (sk_keep_alive s) (sk_hop_limit s)
    (sk_listen_endpoint s) (sk_tuple s) (sk_local_seq_no s) (sk_remote_seq_no s)
    (sk_remote_last_seq s) (sk_remote_last_ack s) (sk_remote_last_win s) (sk_remote_win_shift s)
    (sk_remote_win_len s) (sk_remote_win_scale s) (sk_remote_has_sack s) (sk_remote_mss s)
    (sk_remote_last_ts s) (sk_local_rx_last_seq s) (sk_local_rx_last_ack s)
    (sk_local_rx_dup_acks s) (sk_ack_delay s) (sk_ack_delay_timer s) (sk_challenge_ack_timer s)
    (sk_nagle s) (sk_congestion_controller s) (sk_tsval_generator s) (sk_last_remote_tsval s)
    (sk_rx_waker s) (sk_tx_waker s) (sk_synack_paused s).
Definition upd_timeout (v : option Duration) (s : Socket) : Socket :=
  mkSocket (sk_state s) (sk_timer s) (sk_rtte s) (sk_assembler s) (sk_rx_buffer s)
    (sk_rx_fin_received s) (sk_tx_buffer s) v (sk_keep_alive s) (sk_hop_limit s)
    (sk_listen_endpoint s) (sk_tuple s) (sk_local_seq_no s) (sk_remote_seq_no s)
    (sk_remote_last_seq s) (sk_remote_last_ack s) (sk_remote_last_win s) (sk_remote_win_shift s)
    (sk_remote_win_len s) (sk_remote_win_scale s) (sk_remote_has_sack s) (sk_remote_mss s)
    (sk_remote_last_ts s) (sk_local_rx_last_seq s) (sk_local_rx_last_ack s)
    (sk_local_rx_dup_acks s) (sk_ack_delay s) (sk_ack_delay_timer s) (sk_challenge_ack_timer s)
    (sk_nagle s) (sk_congestion_controller s) (sk_tsval_generator s) (sk_last_remote_tsval s)
    (sk_rx_waker s) (sk_tx_waker s) (sk_synack_paused s).
Definition upd_keep_alive (v : option Duration) (s : Socket) : Socket :=
  mkSocket (sk_state s) (sk_timer s) (sk_rtte s) (sk_assembler s) (sk_rx_buffer s)
    (sk_rx_fin_received s) (sk_tx_buffer s) (sk_timeout s) v (sk_hop_limit s)
    (sk_listen_endpoint s) (sk_tuple s) (sk_local_seq_no s) (sk_remote_seq_no s)
    (sk_remote_last_seq s) (sk_remote_last_ack s) (sk_remote_last_win s) (sk_remote_win_shift s)
    (sk_remote_win_len s) (sk_remote_win_scale s) (sk_remote_has_sack s) (sk_remote_mss s)
    (sk_remote_last_ts s) (sk_local_rx_last_seq s) (sk_local_rx_last_ack s)
    (sk_local_rx_dup_acks s) (sk_ack_delay s) (sk_ack_delay_timer s) (sk_challenge_ack_timer s)
    (sk_nagle s) (sk_congestion_controller s) (sk_tsval_generator s) (sk_last_remote_tsval s)
    (sk_rx_waker s) (sk_tx_waker s) (sk_synack_paused s).
Definition upd_hop_limit (v : option Z) (s : Socket) : Socket :=
  mkSocket (sk_state s) (sk_timer s) (sk_rtte s) (sk_assembler s) (sk_rx_buffer s)
    (sk_rx_fin_received s) (sk_tx_buffer s) (sk_timeout s) (sk_keep_alive s) v
    (sk_listen_endpoint s) (sk_tuple s) (sk_local_seq_no s) (sk_remote_seq_no s)
    (sk_remote_last_seq s) (sk_remote_last_ack s) (sk_remote_last_win s) (sk_remote_win_shift s)
    (sk_remote_win_len s) (sk_remote_win_scale s) (sk_remote_has_sack s) (sk_remote_mss s)
    (sk_remote_last_ts s) (sk_local_rx_last_seq s) (sk_local_rx_last_ack s)
    (sk_local_rx_dup_acks s) (sk_ack_delay s) (sk_ack_delay_timer s) (sk_challenge_ack_timer s)
    (sk_nagle s) (sk_congestion_controller s) (sk_tsval_generator s) (sk_last_remote_tsval s)
    (sk_rx_waker s) (sk_tx_waker s) (sk_synack_paused s).
Definition upd_listen_endpoint (v : ListenEndpoint) (s : Socket) : Socket :=
  mkSocket (sk_state s) (sk_timer s) (sk_rtte s) (sk_assembler s) (sk_rx_buffer s)
    (sk_rx_fin_received s) (sk_tx_buffer s) (sk_timeout s) (sk_keep_alive s) (sk_hop_limit s) v
    (sk_tuple s) (sk_local_seq_no s) (sk_remote_seq_no s) (sk_remote_last_seq s)
    (sk_remote_last_ack s) (sk_remote_last_win s) (sk_remote_win_shift s) (sk_remote_win_len s)
    (sk_remote_win_scale s) (sk_remote_has_sack s) (sk_remote_mss s) (sk_remote_last_ts s)
    (sk_local_rx_last_seq s) (sk_local_rx_last_ack s) (sk_local_rx_dup_acks s) (sk_ack_delay s)
    (sk_ack_delay_timer s) (sk_challenge_ack_timer s) (sk_nagle s) (sk_congestion_controller s)
    (sk_tsval_generator s) (sk_last_remote_tsval s) (sk_rx_waker s) (sk_tx_waker s)
    (sk_synack_paused s).
Definition upd_tuple (v : option Tuple) (s : Socket) : Socket :=
  mkSocket (sk_state s) (sk_timer s) (sk_rtte s) (sk_assembler s) (sk_rx_buffer s)
    (sk_rx_fin_received s) (sk_tx_buffer s) (sk_timeout s) (sk_keep_alive s) (sk_hop_limit s)
    (sk_listen_endpoint s) v (sk_local_seq_no s) (sk_remote_seq_no s) (sk_remote_last_seq s)
    (sk_remote_last_ack s) (sk_remote_last_win s) (sk_remote_win_shift s) (sk_remote_win_len s)
    (sk_remote_win_scale s) (sk_remote_has_sack s) (sk_remote_mss s) (sk_remote_last_ts s)
    (sk_local_rx_last_seq s) (sk_local_rx_last_ack s) (sk_local_rx_dup_acks s) (sk_ack_delay s)
    (sk_ack_delay_timer s) (sk_challenge_ack_timer s) (sk_nagle s) (sk_congestion_controller s)
    (sk_tsval_generator s) (sk_last_remote_tsval s) (sk_rx_waker s) (sk_tx_waker s)
    (sk_synack_paused s).
Definition upd_local_seq_no (v : SeqNumber) (s : Socket) : Socket :=
  mkSocket (sk_state s) (sk_timer s) (sk_rtte s) (sk_assembler s) (sk_rx_buffer s)
    (sk_rx_fin_received s) (sk_tx_buffer s) (sk_timeout s) (sk_keep_alive s) (sk_hop_limit s)
    (sk_listen_endpoint s) (sk_tuple s) v (sk_remote_seq_no s) (sk_remote_last_seq s)
    (sk_remote_last_ack s) (sk_remote_last_win s) (sk_remote_win_shift s) (sk_remote_win_len s)
    (sk_remote_win_scale s) (sk_remote_has_sack s) (sk_remote_mss s) (sk_remote_last_ts s)
    (sk_local_rx_last_seq s) (sk_local_rx_last_ack s) (sk_local_rx_dup_acks s) (sk_ack_delay s)
    (sk_ack_delay_timer s) (sk_challenge_ack_timer s) (sk_nagle s) (sk_congestion_controller s)
    (sk_tsval_generator s) (sk_last_remote_tsval s) (sk_rx_waker s) (sk_tx_waker s)
    (sk_synack_paused s).
Definition upd_remote_seq_no (v : SeqNumber) (s : Socket) : Socket :=
  mkSocket (sk_state s) (sk_timer s) (sk_rtte s) (sk_assembler s) (sk_rx_buffer s)
    (sk_rx_fin_received s) (sk_tx_buffer s) (sk_timeout s) (sk_keep_alive s) (sk_hop_limit s)
    (sk_listen_endpoint s) (sk_tuple s) (sk_local_seq_no s) v (sk_remote_last_seq s)
    (sk_remote_last_ack s) (sk_remote_last_win s) (sk_remote_win_shift s) (sk_remote_win_len s)
    (sk_remote_win_scale s) (sk_remote_has_sack s) (sk_remote_mss s) (sk_remote_last_ts s)
    (sk_local_rx_last_seq s) (sk_local_rx_last_ack s) (sk_local_rx_dup_acks s) (sk_ack_delay s)
    (sk_ack_delay_timer s) (sk_challenge_ack_timer s) (sk_nagle s) (sk_congestion_controller s)
    (sk_tsval_generator s) (sk_last_remote_tsval s) (sk_rx_waker s) (sk_tx_waker s)
    (sk_synack_paused s).
Definition upd_remote_last_seq (v : SeqNumber) (s : Socket) : Socket :=
  mkSocket (sk_state s) (sk_timer s) (sk_rtte s) (sk_assembler s) (sk_rx_buffer s)
    (sk_rx_fin_received s) (sk_tx_buffer s) (sk_timeout s) (sk_keep_alive s) (sk_hop_limit s)
    (sk_listen_endpoint s) (sk_tuple s) (sk_local_seq_no s) (sk_remote_seq_no s) v
    (sk_remote_last_ack s) (sk_remote_last_win s) (sk_remote_win_shift s) (sk_remote_win_len s)
    (sk_remote_win_scale s) (sk_remote_has_sack s) (sk_remote_mss s) (sk_remote_last_ts s)
    (sk_local_rx_last_seq s) (sk_local_rx_last_ack s) (sk_local_rx_dup_acks s) (sk_ack_delay s)
    (sk_ack_delay_timer s) (sk_challenge_ack_timer s) (sk_nagle s) (sk_congestion_controller s)
    (sk_tsval_generator s) (sk_last_remote_tsval s) (sk_rx_waker s) (sk_tx_waker s)
    (sk_synack_paused s).
Definition upd_remote_last_ack (v : option SeqNumber) (s : Socket) : Socket :=
  mkSocket (sk_state s) (sk_timer s) (sk_rtte s) (sk_assembler s) (sk_rx_buffer s)
    (sk_rx_fin_received s) (sk_tx_buffer s) (sk_timeout s) (sk_keep_alive s) (sk_hop_limit s)
    (sk_listen_endpoint s) (sk_tuple s) (sk_local_seq_no s) (sk_remote_seq_no s)
    (sk_remote_last_seq s) v (sk_remote_last_win s) (sk_remote_win_shift s) (sk_remote_win_len s)
    (sk_remote_win_scale s) (sk_remote_has_sack s) (sk_remote_mss s) (sk_remote_last_ts s)
    (sk_local_rx_last_seq s) (sk_local_rx_last_ack s) (sk_local_rx_dup_acks s) (sk_ack_delay s)
    (sk_ack_delay_timer s) (sk_challenge_ack_timer s) (sk_nagle s) (sk_congestion_controller s)
    (sk_tsval_generator s) (sk_last_remote_tsval s) (sk_rx_waker s) (sk_tx_waker s)
    (sk_synack_paused s).
Definition upd_remote_last_win (v : Z) (s : Socket) : Socket :=
  mkSocket (sk_state s) (sk_timer s) (sk_rtte s) (sk_assembler s) (sk_rx_buffer s)
    (sk_rx_fin_received s) (sk_tx_buffer s) (sk_timeout s) (sk_keep_alive s) (sk_hop_limit s)
    (sk_listen_endpoint s) (sk_tuple s) (sk_local_seq_no s) (sk_remote_seq_no s)
    (sk_remote_last_seq s) (sk_remote_last_ack s) v (sk_remote_win_shift s) (sk_remote_win_len s)
    (sk_remote_win_scale s) (sk_remote_has_sack s) (sk_remote_mss s) (sk_remote_last_ts s)
    (sk_local_rx_last_seq s) (sk_local_rx_last_ack s) (sk_local_rx_dup_acks s) (sk_ack_delay s)
    (sk_ack_delay_timer s) (sk_challenge_ack_timer s) (sk_nagle s) (sk_congestion_controller s)
    (sk_tsval_generator s) (sk_last_remote_tsval s) (sk_rx_waker s) (sk_tx_waker s)
    (sk_synack_paused s).
Definition upd_remote_win_shift (v : Z) (s : Socket) : Socket :=
  mkSocket (sk_state s) (sk_timer s) (sk_rtte s) (sk_assembler s) (sk_rx_buffer s)
    (sk_rx_fin_received s) (sk_tx_buffer s) (sk_timeout s) (sk_keep_alive s) (sk_hop_limit s)
    (sk_listen_endpoint s) (sk_tuple s) (sk_local_seq_no s) (sk_remote_seq_no s)
    (sk_remote_last_seq s) (sk_remote_last_ack s) (sk_remote_last_win s) v (sk_remote_win_len s)
    (sk_remote_win_scale s) (sk_remote_has_sack s) (sk_remote_mss s) (sk_remote_last_ts s)
    (sk_local_rx_last_seq s) (sk_local_rx_last_ack s) (sk_local_rx_dup_acks s) (sk_ack_delay s)
    (sk_ack_delay_timer s) (sk_challenge_ack_timer s) (sk_nagle s) (sk_congestion_controller s)
    (sk_tsval_generator s) (sk_last_remote_tsval s) (sk_rx_waker s) (sk_tx_waker s)
    (sk_synack_paused s).
Definition upd_remote_win_len (v : Z) (s : Socket) : Socket :=
  mkSocket (sk_state s) (sk_timer s) (sk_rtte s) (sk_assembler s) (sk_rx_buffer s)
    (sk_rx_fin_received s) (sk_tx_buffer s) (sk_timeout s) (sk_keep_alive s) (sk_hop_limit s)
    (sk_listen_endpoint s) (sk_tuple s) (sk_local_seq_no s) (sk_remote_seq_no s)
    (sk_remote_last_seq s) (sk_remote_last_ack s) (sk_remote_last_win s) (sk_remote_win_shift s)
    v (sk_remote_win_scale s) (sk_remote_has_sack s) (sk_remote_mss s) (sk_remote_last_ts s)
    (sk_local_rx_last_seq s) (sk_local_rx_last_ack s) (sk_local_rx_dup_acks s) (sk_ack_delay s)
    (sk_ack_delay_timer s) (sk_challenge_ack_timer s) (sk_nagle s) (sk_congestion_controller s)
    (sk_tsval_generator s) (sk_last_remote_tsval s) (sk_rx_waker s) (sk_tx_waker s)
    (sk_synack_paused s).
Definition upd_remote_win_scale (v : option Z) (s : Socket) : Socket :=
  mkSocket (sk_state s) (sk_timer s) (sk_rtte s) (sk_assembler s) (sk_rx_buffer s)
    (sk_rx_fin_received s) (sk_tx_buffer s) (sk_timeout s) (sk_keep_alive s) (sk_hop_limit s)
    (sk_listen_endpoint s) (sk_tuple s) (sk_local_seq_no s) (sk_remote_seq_no s)
    (sk_remote_last_seq s) (sk_remote_last_ack s) (sk_remote_last_win s) (sk_remote_win_shift s)
    (sk_remote_win_len s) v (sk_remote_has_sack s) (sk_remote_mss s) (sk_remote_last_ts s)
    (sk_local_rx_last_seq s) (sk_local_rx_last_ack s) (sk_local_rx_dup_acks s) (sk_ack_delay s)
    (sk_ack_delay_timer s) (sk_challenge_ack_timer s) (sk_nagle s) (sk_congestion_controller s)
    (sk_tsval_generator s) (sk_last_remote_tsval s) (sk_rx_waker s) (sk_tx_waker s)
    (sk_synack_paused s).
Definition upd_remote_has_sack (v : bool) (s : Socket) : Socket :=
  mkSocket (sk_state s) (sk_timer s) (sk_rtte s) (sk_assembler s) (sk_rx_buffer s)
    (sk_rx_fin_received s) (sk_tx_buffer s) (sk_timeout s) (sk_keep_alive s) (sk_hop_limit s)
    (sk_listen_endpoint s) (sk_tuple s) (sk_local_seq_no s) (sk_remote_seq_no s)
    (sk_remote_last_seq s) (sk_remote_last_ack s) (sk_remote_last_win s) (sk_remote_win_shift s)
    (sk_remote_win_len s) (sk_remote_win_scale s) v (sk_remote_mss s) (sk_remote_last_ts s)
    (sk_local_rx_last_seq s) (sk_local_rx_last_ack s) (sk_local_rx_dup_acks s) (sk_ack_delay s)
    (sk_ack_delay_timer s) (sk_challenge_ack_timer s) (sk_nagle s) (sk_congestion_controller s)
    (sk_tsval_generator s) (sk_last_remote_tsval s) (sk_rx_waker s) (sk_tx_waker s)
    (sk_synack_paused s).
Definition upd_remote_mss (v : Z) (s : Socket) : Socket :=
  mkSocket (sk_state s) (sk_timer s) (sk_rtte s) (sk_assembler s) (sk_rx_buffer s)
    (sk_rx_fin_received s) (sk_tx_buffer s) (sk_timeout s) (sk_keep_alive s) (sk_hop_limit s)
    (sk_listen_endpoint s) (sk_tuple s) (sk_local_seq_no s) (sk_remote_seq_no s)
    (sk_remote_last_seq s) (sk_remote_last_ack s) (sk_remote_last_win s) (sk_remote_win_shift s)
    (sk_remote_win_len s) (sk_remote_win_scale s) (sk_remote_has_sack s) v (sk_remote_last_ts s)
    (sk_local_rx_last_seq s) (sk_local_rx_last_ack s) (sk_local_rx_dup_acks s) (sk_ack_delay s)
    (sk_ack_delay_timer s) (sk_challenge_ack_timer s) (sk_nagle s) (sk_congestion_controller s)
    (sk_tsval_generator s) (sk_last_remote_tsval s) (sk_rx_waker s) (sk_tx_waker s)
    (sk_synack_paused s).
Definition upd_remote_last_ts (v : option Instant) (s : Socket) : Socket :=
  mkSocket (sk_state s) (sk_timer s) (sk_rtte s) (sk_assembler s) (sk_rx_buffer s)
    (sk_rx_fin_received s) (sk_tx_buffer s) (sk_timeout s) (sk_keep_alive s) (sk_hop_limit s)
    (sk_listen_endpoint s) (sk_tuple s) (sk_local_seq_no s) (sk_remote_seq_no s)
    (sk_remote_last_seq s) (sk_remote_last_ack s) (sk_remote_last_win s) (sk_remote_win_shift s)
    (sk_remote_win_len s) (sk_remote_win_scale s) (sk_remote_has_sack s) (sk_remote_mss s) v
    (sk_local_rx_last_seq s) (sk_local_rx_last_ack s) (sk_local_rx_dup_acks s) (sk_ack_delay s)
    (sk_ack_delay_timer s) (sk_challenge_ack_timer s) (sk_nagle s) (sk_congestion_controller s)
    (sk_tsval_generator s) (sk_last_remote_tsval s) (sk_rx_waker s) (sk_tx_waker s)
    (sk_synack_paused s).
Definition upd_local_rx_last_seq (v : option SeqNumber) (s : Socket) : Socket :=
  mkSocket (sk_state s) (sk_timer s) (sk_rtte s) (sk_assembler s) (sk_rx_buffer s)
    (sk_rx_fin_received s) (sk_tx_buffer s) (sk_timeout s) (sk_keep_alive s) (sk_hop_limit s)
    (sk_listen_endpoint s) (sk_tuple s) (sk_local_seq_no s) (sk_remote_seq_no s)
    (sk_remote_last_seq s) (sk_remote_last_ack s) (sk_remote_last_win s) (sk_remote_win_shift s)
    (sk_remote_win_len s) (sk_remote_win_scale s) (sk_remote_has_sack s) (sk_remote_mss s)
    (sk_remote_last_ts s) v (sk_local_rx_last_ack s) (sk_local_rx_dup_acks s) (sk_ack_delay s)
    (sk_ack_delay_timer s) (sk_challenge_ack_timer s) (sk_nagle s) (sk_congestion_controller s)
    (sk_tsval_generator s) (sk_last_remote_tsval s) (sk_rx_waker s) (sk_tx_waker s)
    (sk_synack_paused s).
Definition upd_local_rx_last_ack (v : option SeqNumber) (s : Socket) : Socket :=
  mkSocket (sk_state s) (sk_timer s) (sk_rtte s) (sk_assembler s) (sk_rx_buffer s)
    (sk_rx_fin_received s) (sk_tx_buffer s) (sk_timeout s) (sk_keep_alive s) (sk_hop_limit s)
    (sk_listen_endpoint s) (sk_tuple s) (sk_local_seq_no s) (sk_remote_seq_no s)
    (sk_remote_last_seq s) (sk_remote_last_ack s) (sk_remote_last_win s) (sk_remote_win_shift s)
    (sk_remote_win_len s) (sk_remote_win_scale s) (sk_remote_has_sack s) (sk_remote_mss s)
    (sk_remote_last_ts s) (sk_local_rx_last_seq s) v (sk_local_rx_dup_acks s) (sk_ack_delay s)
    (sk_ack_delay_timer s) (sk_challenge_ack_timer s) (sk_nagle s) (sk_congestion_controller s)
    (sk_tsval_generator s) (sk_last_remote_tsval s) (sk_rx_waker s) (sk_tx_waker s)
    (sk_synack_paused s).
Definition upd_local_rx_dup_acks (v : Z) (s : Socket) : Socket :=
  mkSocket (sk_state s) (sk_timer s) (sk_rtte s) (sk_assembler s) (sk_rx_buffer s)
    (sk_rx_fin_received s) (sk_tx_buffer s) (sk_timeout s) (sk_keep_alive s) (sk_hop_limit s)
    (sk_listen_endpoint s) (sk_tuple s) (sk_local_seq_no s) (sk_remote_seq_no s)
    (sk_remote_last_seq s) (sk_remote_last_ack s) (sk_remote_last_win s) (sk_remote_win_shift s)
    (sk_remote_win_len s) (sk_remote_win_scale s) (sk_remote_has_sack s) (sk_remote_mss s)
    (sk_remote_last_ts s) (sk_local_rx_last_seq s) (sk_local_rx_last_ack s) v (sk_ack_delay s)
    (sk_ack_delay_timer s) (sk_challenge_ack_timer s) (sk_nagle s) (sk_congestion_controller s)
    (sk_tsval_generator s) (sk_last_remote_tsval s) (sk_rx_waker s) (sk_tx_waker s)
    (sk_synack_paused s).
Definition upd_ack_delay (v : option Duration) (s : Socket) : Socket :=
  mkSocket (sk_state s) (sk_timer s) (sk_rtte s) (sk_assembler s) (sk_rx_buffer s)
    (sk_rx_fin_received s) (sk_tx_buffer s) (sk_timeout s) (sk_keep_alive s) (sk_hop_limit s)
    (sk_listen_endpoint s) (sk_tuple s) (sk_local_seq_no s) (sk_remote_seq_no s)
    (sk_remote_last_seq s) (sk_remote_last_ack s) (sk_remote_last_win s) (sk_remote_win_shift s)
    (sk_remote_win_len s) (sk_remote_win_scale s) (sk_remote_has_sack s) (sk_remote_mss s)
    (sk_remote_last_ts s) (sk_local_rx_last_seq s) (sk_local_rx_last_ack s)
    (sk_local_rx_dup_acks s) v (sk_ack_delay_timer s) (sk_challenge_ack_timer s) (sk_nagle s)
    (sk_congestion_controller s) (sk_tsval_generator s) (sk_last_remote_tsval s) (sk_rx_waker s)
    (sk_tx_waker s) (sk_synack_paused s).
Definition upd_ack_delay_timer (v : AckDelayTimer) (s : Socket) : Socket :=
  mkSocket (sk_state s) (sk_timer s) (sk_rtte s) (sk_assembler s) (sk_rx_buffer s)
    (sk_rx_fin_received s) (sk_tx_buffer s) (sk_timeout s) (sk_keep_alive s) (sk_hop_limit s)
    (sk_listen_endpoint s) (sk_tuple s) (sk_local_seq_no s) (sk_remote_seq_no s)
    (sk_remote_last_seq s) (sk_remote_last_ack s) (sk_remote_last_win s) (sk_remote_win_shift s)
    (sk_remote_win_len s) (sk_remote_win_scale s) (sk_remote_has_sack s) (sk_remote_mss s)
    (sk_remote_last_ts s) (sk_local_rx_last_seq s) (sk_local_rx_last_ack s)
    (sk_local_rx_dup_acks s) (sk_ack_delay s) v (sk_challenge_ack_timer s) (sk_nagle s)
    (sk_congestion_controller s) (sk_tsval_generator s) (sk_last_remote_tsval s) (sk_rx_waker s)
    (sk_tx_waker s) (sk_synack_paused s).
Definition upd_challenge_ack_timer (v : Instant) (s : Socket) : Socket :=
  mkSocket (sk_state s) (sk_timer s) (sk_rtte s) (sk_assembler s) (sk_rx_buffer s)
    (sk_rx_fin_received s) (sk_tx_buffer s) (sk_timeout s) (sk_keep_alive s) (sk_hop_limit s)
    (sk_listen_endpoint s) (sk_tuple s) (sk_local_seq_no s) (sk_remote_seq_no s)
    (sk_remote_last_seq s) (sk_remote_last_ack s) (sk_remote_last_win s) (sk_remote_win_shift s)
    (sk_remote_win_len s) (sk_remote_win_scale s) (sk_remote_has_sack s) (sk_remote_mss s)
    (sk_remote_last_ts s) (sk_local_rx_last_seq s) (sk_local_rx_last_ack s)
    (sk_local_rx_dup_acks s) (sk_ack_delay s) (sk_ack_delay_timer s) v (sk_nagle s)
    (sk_congestion_controller s) (sk_tsval_generator s) (sk_last_remote_tsval s) (sk_rx_waker s)
    (sk_tx_waker s) (sk_synack_paused s).
Definition upd_nagle (v : bool) (s : Socket) : Socket :=
  mkSocket (sk_state s) (sk_timer s) (sk_rtte s) (sk_assembler s) (sk_rx_buffer s)
    (sk_rx_fin_received s) (sk_tx_buffer s) (sk_timeout s) (sk_keep_alive s) (sk_hop_limit s)
    (sk_listen_endpoint s) (sk_tuple s) (sk_local_seq_no s) (sk_remote_seq_no s)
    (sk_remote_last_seq s) (sk_remote_last_ack s) (sk_remote_last_win s) (sk_remote_win_shift s)
    (sk_remote_win_len s) (sk_remote_win_scale s) (sk_remote_has_sack s) (sk_remote_mss s)
    (sk_remote_last_ts s) (sk_local_rx_last_seq s) (sk_local_rx_last_ack s)
    (sk_local_rx_dup_acks s) (sk_ack_delay s) (sk_ack_delay_timer s) (sk_challenge_ack_timer s) v
    (sk_congestion_controller s) (sk_tsval_generator s) (sk_last_remote_tsval s) (sk_rx_waker s)
    (sk_tx_waker s) (sk_synack_paused s).
Definition upd_congestion_controller (v : AnyController) (s : Socket) : Socket :=
  mkSocket (sk_state s) (sk_timer s) (sk_rtte s) (sk_assembler s) (sk_rx_buffer s)
    (sk_rx_fin_received s) (sk_tx_buffer s) (sk_timeout s) (sk_keep_alive s) (sk_hop_limit s)
    (sk_listen_endpoint s) (sk_tuple s) (sk_local_seq_no s) (sk_remote_seq_no s)
    (sk_remote_last_seq s) (sk_remote_last_ack s) (sk_remote_last_win s) (sk_remote_win_shift s)
    (sk_remote_win_len s) (sk_remote_win_scale s) (sk_remote_has_sack s) (sk_remote_mss s)
    (sk_remote_last_ts s) (sk_local_rx_last_seq s) (sk_local_rx_last_ack s)
    (sk_local_rx_dup_acks s) (sk_ack_delay s) (sk_ack_delay_timer s) (sk_challenge_ack_timer s)
    (sk_nagle s) v (sk_tsval_generator s) (sk_last_remote_tsval s) (sk_rx_waker s)
    (sk_tx_waker s) (sk_synack_paused s).
Definition upd_tsval_generator (v : option TcpTimestampGenerator) (s : Socket) : Socket :=
  mkSocket (sk_state s) (sk_timer s) (sk_rtte s) (sk_assembler s) (sk_rx_buffer s)
    (sk_rx_fin_received s) (sk_tx_buffer s) (sk_timeout s) (sk_keep_alive s) (sk_hop_limit s)
    (sk_listen_endpoint s) (sk_tuple s) (sk_local_seq_no s) (sk_remote_seq_no s)
    (sk_remote_last_seq s) (sk_remote_last_ack s) (sk_remote_last_win s) (sk_remote_win_shift s)
    (sk_remote_win_len s) (sk_remote_win_scale s) (sk_remote_has_sack s) (sk_remote_mss s)
    (sk_remote_last_ts s) (sk_local_rx_last_seq s) (sk_local_rx_last_ack s)
    (sk_local_rx_dup_acks s) (sk_ack_delay s) (sk_ack_delay_timer s) (sk_challenge_ack_timer s)
    (sk_nagle s) (sk_congestion_controller s) v (sk_last_remote_tsval s) (sk_rx_waker s)
    (sk_tx_waker s) (sk_synack_paused s).
Definition upd_last_remote_tsval (v : Z) (s : Socket) : Socket :=
  mkSocket (sk_state s) (sk_timer s) (sk_rtte s) (sk_assembler s) (sk_rx_buffer s)
    (sk_rx_fin_received s) (sk_tx_buffer s) (sk_timeout s) (sk_keep_alive s) (sk_hop_limit s)
    (sk_listen_endpoint s) (sk_tuple s) (sk_local_seq_no s) (sk_remote_seq_no s)
    (sk_remote_last_seq s) (sk_remote_last_ack s) (sk_remote_last_win s) (sk_remote_win_shift s)
    (sk_remote_win_len s) (sk_remote_win_scale s) (sk_remote_has_sack s) (sk_remote_mss s)
    (sk_remote_last_ts s) (sk_local_rx_last_seq s) (sk_local_rx_last_ack s)
    (sk_local_rx_dup_acks s) (sk_ack_delay s) (sk_ack_delay_timer s) (sk_challenge_ack_timer s)
    (sk_nagle s) (sk_congestion_controller s) (sk_tsval_generator s) v (sk_rx_waker s)
    (sk_tx_waker s) (sk_synack_paused s).
Definition upd_rx_waker (v : WakerRegistration) (s : Socket) : Socket :=
  mkSocket (sk_state s) (sk_timer s) (sk_rtte s) (sk_assembler s) (sk_rx_buffer s)
    (sk_rx_fin_received s) (sk_tx_buffer s) (sk_timeout s) (sk_keep_alive s) (sk_hop_limit s)
    (sk_listen_endpoint s) (sk_tuple s) (sk_local_seq_no s) (sk_remote_seq_no s)
    (sk_remote_last_seq s) (sk_remote_last_ack s) (sk_remote_last_win s) (sk_remote_win_shift s)
    (sk_remote_win_len s) (sk_remote_win_scale s) (sk_remote_has_sack s) (sk_remote_mss s)
    (sk_remote_last_ts s) (sk_local_rx_last_seq s) (sk_local_rx_last_ack s)
    (sk_local_rx_dup_acks s) (sk_ack_delay s) (sk_ack_delay_timer s) (sk_challenge_ack_timer s)
    (sk_nagle s) (sk_congestion_controller s) (sk_tsval_generator s) (sk_last_remote_tsval s) v
    (sk_tx_waker s) (sk_synack_paused s).
Definition upd_tx_waker (v : WakerRegistration) (s : Socket) : Socket :=
  mkSocket (sk_state s) (sk_timer s) (sk_rtte s) (sk_assembler s) (sk_rx_buffer s)
    (sk_rx_fin_received s) (sk_tx_buffer s) (sk_timeout s) (sk_keep_alive s) (sk_hop_limit s)
    (sk_listen_endpoint s) (sk_tuple s) (sk_local_seq_no s) (sk_remote_seq_no s)
    (sk_remote_last_seq s) (sk_remote_last_ack s) (sk_remote_last_win s) (sk_remote_win_shift s)
    (sk_remote_win_len s) (sk_remote_win_scale s) (sk_remote_has_sack s) (sk_remote_mss s)
    (sk_remote_last_ts s) (sk_local_rx_last_seq s) (sk_local_rx_last_ack s)
    (sk_local_rx_dup_acks s) (sk_ack_delay s) (sk_ack_delay_timer s) (sk_challenge_ack_timer s)
    (sk_nagle s) (sk_congestion_controller s) (sk_tsval_generator s) (sk_last_remote_tsval s)
    (sk_rx_waker s) v (sk_synack_paused s).
Definition upd_synack_paused (v : bool) (s : Socket) : Socket :=
  mkSocket (sk_state s) (sk_timer s) (sk_rtte s) (sk_assembler s) (sk_rx_buffer s)
    (sk_rx_fin_received s) (sk_tx_buffer s) (sk_timeout s) (sk_keep_alive s) (sk_hop_limit s)
    (sk_listen_endpoint s) (sk_tuple s) (sk_local_seq_no s) (sk_remote_seq_no s)
    (sk_remote_last_seq s) (sk_remote_last_ack s) (sk_remote_last_win s) (sk_remote_win_shift s)
    (sk_remote_win_len s) (sk_remote_win_scale s) (sk_remote_has_sack s) (sk_remote_mss s)
    (sk_remote_last_ts s) (sk_local_rx_last_seq s) (sk_local_rx_last_ack s)
    (sk_local_rx_dup_acks s) (sk_ack_delay s) (sk_ack_delay_timer s) (sk_challenge_ack_timer s)
    (sk_nagle s) (sk_congestion_controller s) (sk_tsval_generator s) (sk_last_remote_tsval s)
    (sk_rx_waker s) (sk_tx_waker s) v.

(** Evaluate projections of updated sockets. *)
Ltac sk_simpl :=
  cbn [sk_state sk_timer sk_rtte sk_assembler sk_rx_buffer sk_rx_fin_received sk_tx_buffer
    sk_timeout sk_keep_alive sk_hop_limit sk_listen_endpoint sk_tuple sk_local_seq_no
    sk_remote_seq_no sk_remote_last_seq sk_remote_last_ack sk_remote_last_win
    sk_remote_win_shift sk_remote_win_len sk_remote_win_scale sk_remote_has_sack sk_remote_mss
    sk_remote_last_ts sk_local_rx_last_seq sk_local_rx_last_ack sk_local_rx_dup_acks
    sk_ack_delay sk_ack_delay_timer sk_challenge_ack_timer sk_nagle sk_congestion_controller
    sk_tsval_generator sk_last_remote_tsval sk_rx_waker sk_tx_waker sk_synack_paused upd_state
    upd_timer upd_rtte upd_assembler upd_rx_buffer upd_rx_fin_received upd_tx_buffer
    upd_timeout upd_keep_alive upd_hop_limit upd_listen_endpoint upd_tuple upd_local_seq_no
    upd_remote_seq_no upd_remote_last_seq upd_remote_last_ack upd_remote_last_win
    upd_remote_win_shift upd_remote_win_len upd_remote_win_scale upd_remote_has_sack
    upd_remote_mss upd_remote_last_ts upd_local_rx_last_seq upd_local_rx_last_ack
    upd_local_rx_dup_acks upd_ack_delay upd_ack_delay_timer upd_challenge_ack_timer upd_nagle
    upd_congestion_controller upd_tsval_generator upd_last_remote_tsval upd_rx_waker
    upd_tx_waker upd_synack_paused].

Tactic Notation "sk_simpl" "in" "*" :=
  cbn [sk_state sk_timer sk_rtte sk_assembler sk_rx_buffer sk_rx_fin_received sk_tx_buffer
    sk_timeout sk_keep_alive sk_hop_limit sk_listen_endpoint sk_tuple sk_local_seq_no
    sk_remote_seq_no sk_remote_last_seq sk_remote_last_ack sk_remote_last_win
    sk_remote_win_shift sk_remote_win_len sk_remote_win_scale sk_remote_has_sack sk_remote_mss
    sk_remote_last_ts sk_local_rx_last_seq sk_local_rx_last_ack sk_local_rx_dup_acks
    sk_ack_delay sk_ack_delay_timer sk_challenge_ack_timer sk_nagle sk_congestion_controller
    sk_tsval_generator sk_last_remote_tsval sk_rx_waker sk_tx_waker sk_synack_paused upd_state
    upd_timer upd_rtte upd_assembler upd_rx_buffer upd_rx_fin_received upd_tx_buffer
    upd_timeout upd_keep_alive upd_hop_limit upd_listen_endpoint upd_tuple upd_local_seq_no
    upd_remote_seq_no upd_remote_last_seq upd_remote_last_ack upd_remote_last_win
    upd_remote_win_shift upd_remote_win_len upd_remote_win_scale upd_remote_has_sack
    upd_remote_mss upd_remote_last_ts upd_local_rx_last_seq upd_local_rx_last_ack
    upd_local_rx_dup_acks upd_ack_delay upd_ack_delay_timer upd_challenge_ack_timer upd_nagle
    upd_congestion_controller upd_tsval_generator upd_last_remote_tsval upd_rx_waker
    upd_tx_waker upd_synack_paused] in *.

Definition DEFAULT_MSS : Z := 536.

(** [usize] shifts by an 8-bit amount: panic from 64 on. *)
Definition usize_shr (x n : Z) : res Z := if n <? 64 then Ret (Z.shiftr x n) else Panic.
Definition usize_shl (x n : Z) : res Z := if n <? 64 then Ret (wrap_u 64 (Z.shiftl x n)) else Panic.

(** [u16::try_from(x).unwrap_or(u16::MAX)]. *)
Definition u16_try_from_or_max (x : Z) : Z := if x <=? u16_max then x else u16_max.

(** [size_of::<usize>() * 8 - x.leading_zeros()]: the number of significant bits. *)
Definition bit_length (x : Z) : Z := if x =? 0 then 0 else Z.log2 x + 1.

(** [rx_cap_log2.saturating_sub(16) as u8]. *)
Definition win_shift_for (capacity : Z) : Z := Z.max 0 (bit_length capacity - 16).

Section Socket.
Context {cfg : BuildConfig}.
Implicit Types s : Socket.

Definition socket_new (rx_buffer tx_buffer : RingBuffer Z) : res Socket :=
  let rx_capacity := rb_capacity rx_buffer in
  if 2 ^ 30 <? rx_capacity then Panic
  else Ret {|
    sk_state := Closed;
    sk_timer := timer_new;
    sk_rtte := rtte_default;
    sk_assembler := asm_new assembler_max_segment_count;
    sk_tx_buffer := tx_buffer;
    sk_rx_buffer := rx_buffer;
    sk_rx_fin_received := false;
    sk_timeout := None;
    sk_keep_alive := None;
    sk_hop_limit := None;
    sk_listen_endpoint := listen_endpoint_default;
    sk_tuple := None;
    sk_local_seq_no := 0;
    sk_remote_seq_no := 0;
    sk_remote_last_seq := 0;
    sk_remote_last_ack := None;
    sk_remote_last_win := 0;
    sk_remote_win_len := 0;
    sk_remote_win_shift := win_shift_for rx_capacity;
    sk_remote_win_scale := None;
    sk_remote_has_sack := false;
    sk_remote_mss := DEFAULT_MSS;
    sk_remote_last_ts := None;
    sk_local_rx_last_ack := None;
    sk_local_rx_last_seq := None;
    sk_local_rx_dup_acks := 0;
    sk_ack_delay := Some ACK_DELAY_DEFAULT;
    sk_ack_delay_timer := AckIdle;
    sk_challenge_ack_timer := 0;
    sk_nagle := true;
    sk_tsval_generator := None;
    sk_last_remote_tsval := 0;
    sk_congestion_controller := any_new feature_cubic feature_reno;
    sk_rx_waker := waker_new;
    sk_tx_waker := waker_new;
    sk_synack_paused := false;
  |}.

(** *** Settings *)

Definition set_tsval_generator s generator : Socket := upd_tsval_generator generator s.
Definition timestamp_enabled s : bool := if sk_tsval_generator s is Some _ then true else false.

Definition set_congestion_control s (congestion_control : CongestionControl) : Socket :=
  upd_congestion_controller (match congestion_control with
    | CongestionNone => AnyNone mkNoControl
    | CongestionReno => AnyReno reno_new
    | CongestionCubic => AnyCubic cubic_new
    end) s.

Definition congestion_control s : CongestionControl :=
  match sk_congestion_controller s with
  | AnyNone _ => CongestionNone | AnyReno _ => CongestionReno | AnyCubic _ => CongestionCubic
  end.

Definition register_recv_waker s (w : Waker) : Socket := upd_rx_waker (waker_register (sk_rx_waker s) w) s.
Definition register_send_waker s (w : Waker) : Socket := upd_tx_waker (waker_register (sk_tx_waker s) w) s.

Definition nagle_enabled s : bool := sk_nagle s.
Definition pause_synack s (pause : bool) : Socket := upd_synack_paused pause s.

Definition set_timeout s (duration : option Duration) : Socket := upd_timeout duration s.
Definition set_ack_delay s (duration : option Duration) : Socket := upd_ack_delay duration s.
Definition set_nagle_enabled s (enabled : bool) : Socket := upd_nagle enabled s.

Definition set_keep_alive s (interval : option Duration) : Socket :=
  let s := upd_keep_alive interval s in
  match interval with
  | Some _ => upd_timer (timer_set_keep_alive (sk_timer s)) s
  | None => s
  end.

Definition set_hop_limit s (hop_limit : option Z) : res Socket :=
  match hop_limit with
  | Some 0 => Panic
  | _ => Ret (upd_hop_limit hop_limit s)
  end.

Definition local_endpoint s : option Endpoint := option_map tuple_local (sk_tuple s).
Definition remote_endpoint s : option Endpoint := option_map tuple_remote (sk_tuple s).

(** *** Window fields *)

Definition scaled_window s : res Z :=
  w ← rb_window (sk_rx_buffer s);
  w ← usize_shr w (sk_remote_win_shift s);
  Ret (u16_try_from_or_max w).

Definition last_scaled_window s : res (option Z) :=
  match sk_remote_last_ack s with
  | None => Ret None
  | Some last_ack =>
      next_ack ← seq_add (sk_remote_seq_no s) (rb_len (sk_rx_buffer s));
      last_win ← usize_shl (sk_remote_last_win s) (sk_remote_win_shift s);
      edge ← seq_add last_ack last_win;
      last_win_adjusted ← seq_sub edge next_ack;
      w ← usize_shr last_win_adjusted (sk_remote_win_shift s);
      Ret (Some (u16_try_from_or_max w))
  end.

(** *** Opening and closing *)

(** Every change of state wakes both wakers. *)
Definition set_state (st : State) s : Socket :=
  let s := upd_state st s in
  let s := upd_rx_waker (waker_wake (sk_rx_waker s)) s in
  upd_tx_waker (waker_wake (sk_tx_waker s)) s.

(** The fields that [reset] does not assign keep their values. *)
Definition reset s : Socket := {|
  sk_state := Closed;
  sk_timer := timer_new;
  sk_rtte := rtte_default;
  sk_assembler := asm_new assembler_max_segment_count;
  sk_rx_buffer := rb_clear (sk_rx_buffer s);
  sk_rx_fin_received := false;
  sk_tx_buffer := rb_clear (sk_tx_buffer s);
  sk_listen_endpoint := listen_endpoint_default;
  sk_tuple := None;
  sk_local_seq_no := 0;
  sk_remote_seq_no := 0;
  sk_remote_last_seq := 0;
  sk_remote_last_ack := None;
  sk_remote_last_win := 0;
  sk_remote_win_shift := win_shift_for (rb_capacity (sk_rx_buffer s));
  sk_remote_win_len := 0;
  sk_remote_win_scale := None;
  sk_remote_mss := DEFAULT_MSS;
  sk_remote_last_ts := None;
  sk_ack_delay_timer := AckIdle;
  sk_challenge_ack_timer := 0;
  sk_rx_waker := waker_wake (sk_rx_waker s);
  sk_tx_waker := waker_wake (sk_tx_waker s);
  sk_timeout := sk_timeout s;
  sk_keep_alive := sk_keep_alive s;
  sk_hop_limit := sk_hop_limit s;
  sk_remote_has_sack := sk_remote_has_sack s;
  sk_local_rx_last_seq := sk_local_rx_last_seq s;
  sk_local_rx_last_ack := sk_local_rx_last_ack s;
  sk_local_rx_dup_acks := sk_local_rx_dup_acks s;
  sk_ack_delay := sk_ack_delay s;
  sk_nagle := sk_nagle s;
  sk_congestion_controller := sk_congestion_controller s;
  sk_tsval_generator := sk_tsval_generator s;
  sk_last_remote_tsval := sk_last_remote_tsval s;
  sk_synack_paused := sk_synack_paused s;
|}.

Definition is_listening s : bool := match sk_state s with Listen => true | _ => false end.

Definition is_open s : bool :=
  match sk_state s with Closed => false | TimeWait => false | _ => true end.

Definition is_active s : bool :=
  match sk_state s with Closed => false | TimeWait => false | Listen => false | _ => true end.

Definition listen s (local_endpoint : ListenEndpoint) : Socket * result unit ListenError :=
  if lep_port local_endpoint =? 0 then (s, Err ListenUnaddressable)
  else if is_open s then
    if state_eqb (sk_state s) Listen && bool_decide (sk_listen_endpoint s = local_endpoint)
    then (s, Ok tt) else (s, Err ListenInvalidState)
  else
    let s := reset s in
    let s := upd_listen_endpoint local_endpoint s in
    let s := upd_tuple None s in
    (set_state Listen s, Ok tt).

Definition random_seq_no (cx : Context) : Context * SeqNumber :=
  let '(st, n) := rand_u32 (cx_rand cx) in (cx_set_rand cx st, wrap_i 32 n).

(** The address a connection starts from, or the error [connect] returns. *)
Definition connect_local_addr (cx : Context) (remote_endpoint : Endpoint) (local_endpoint : ListenEndpoint)
  : res (result Address ConnectError) :=
  match lep_addr local_endpoint with
  | Some addr =>
      Ret (if address_is_unspecified addr then Err ConnectUnaddressable else Ok addr)
  | None =>
      a ← get_source_address cx (ep_addr remote_endpoint);
      Ret (match a with Some addr => Ok addr | None => Err ConnectUnaddressable end)
  end.

Definition connect (cx : Context) s (remote_endpoint : Endpoint) (local_endpoint : ListenEndpoint)
  : res (Context * Socket * result unit ConnectError) :=
  if is_open s then Ret (cx, s, Err ConnectInvalidState)
  else if (ep_port remote_endpoint =? 0) || address_is_unspecified (ep_addr remote_endpoint) then
    Ret (cx, s, Err ConnectUnaddressable)
  else if lep_port local_endpoint =? 0 then Ret (cx, s, Err ConnectUnaddressable)
  else
    r ← connect_local_addr cx remote_endpoint local_endpoint;
    match r with
    | Err e => Ret (cx, s, Err e)
    | Ok addr =>
        let local_endpoint := mkEndpoint addr (lep_port local_endpoint) in
        if negb (version_eqb (address_version (ep_addr local_endpoint))
                             (address_version (ep_addr remote_endpoint)))
        then Ret (cx, s, Err ConnectUnaddressable)
        else
          let s := reset s in
          let s := upd_tuple (Some (mkTuple local_endpoint remote_endpoint)) s in
          let s := set_state SynSent s in
          let '(cx, seq) := random_seq_no cx in
          let s := upd_local_seq_no seq s in
          let s := upd_remote_last_seq seq s in
          Ret (cx, s, Ok tt)
    end.

Definition close s : Socket :=
  match sk_state s with
  | Listen => set_state Closed s
  | SynSent => set_state Closed s
  | SynReceived | Established => set_state FinWait1 s
  | CloseWait => set_state LastAck s
  | FinWait1 | FinWait2 | Closing | TimeWait | LastAck | Closed => s
  end.

Definition abort s : Socket := set_state Closed s.

(** *** Sending and receiving *)

Definition may_send s : bool :=
  match sk_state s with Established => true | CloseWait => true | _ => false end.

Definition may_recv s : bool :=
  match sk_state s with
  | Established => true
  | FinWait1 | FinWait2 => true
  | _ => negb (rb_is_empty (sk_rx_buffer s))
  end.

Definition can_send s : res bool :=
  if negb (may_send s) then Ret false
  else full ← rb_is_full (sk_tx_buffer s); Ret (negb full).

Definition recv_capacity s : Z := rb_capacity (sk_rx_buffer s).
Definition send_capacity s : Z := rb_capacity (sk_tx_buffer s).

Definition can_recv s : bool :=
  if negb (may_recv s) then false else negb (rb_is_empty (sk_rx_buffer s)).

(** What [send_impl] does once [f] has put [size] octets into the transmit buffer. *)
Definition after_send s (old_length size : Z) : res Socket :=
  if 0 <? size then
    let s := if old_length =? 0 then upd_remote_last_ts None s else s in
    if (sk_remote_win_len s =? 0) && timer_is_idle (sk_timer s) then
      delay ← rtte_retransmission_timeout (sk_rtte s);
      t ← timer_set_for_zero_window_probe 0 delay;
      Ret (upd_timer t s)
    else Ret s
  else Ret s.

Definition send_impl {R} s (f : RingBuffer Z -> res (RingBuffer Z * Z * R))
  : res (Socket * result R SendError) :=
  if negb (may_send s) then Ret (s, Err SendInvalidState)
  else
    let old_length := rb_len (sk_tx_buffer s) in
    '(tx, size, result_) ← f (sk_tx_buffer s);
    let s := upd_tx_buffer tx s in
    s ← after_send s old_length size;
    Ret (s, Ok result_).

(** [f] gets the position and contents of the free slice, and returns the slice filled and
    how much of it to enqueue. *)
Definition send {R} s (f : Z -> list Z -> res (list Z * Z * R)) : res (Socket * result R SendError) :=
  send_impl s (fun tx_buffer => rb_enqueue_many_with tx_buffer f).

Definition send_slice s (data : list Z) : res (Socket * result Z SendError) :=
  send_impl s (fun tx_buffer =>
    '(tx, size) ← rb_enqueue_slice tx_buffer data; Ret (tx, size, size)).

Definition recv_error_check s : result unit RecvError :=
  if negb (may_recv s) then
    if sk_rx_fin_received s then Err RecvFinished else Err RecvInvalidState
  else Ok tt.

Definition recv_impl {R} s (f : RingBuffer Z -> res (RingBuffer Z * Z * R))
  : res (Socket * result R RecvError) :=
  match recv_error_check s with
  | Err e => Ret (s, Err e)
  | Ok _ =>
      '(rx, size, result_) ← f (sk_rx_buffer s);
      let s := upd_rx_buffer rx s in
      n ← seq_add (sk_remote_seq_no s) size;
      Ret (upd_remote_seq_no n s, Ok result_)
  end.

Definition recv {R} s (f : Z -> list Z -> res (list Z * Z * R)) : res (Socket * result R RecvError) :=
  recv_impl s (fun rx_buffer => rb_dequeue_many_with rx_buffer f).

(** Returns the octets copied to a destination of [data_len] octets. *)
Definition recv_slice s (data_len : Z) : res (Socket * result (list Z) RecvError) :=
  recv_impl s (fun rx_buffer =>
    '(rx, data, size) ← rb_dequeue_slice rx_buffer data_len; Ret (rx, size, data)).

Definition peek s (size : Z) : res (result (list Z) RecvError) :=
  match recv_error_check s with
  | Err e => Ret (Err e)
  | Ok _ => buffer ← rb_get_allocated (sk_rx_buffer s) 0 size; Ret (Ok buffer)
  end.

Definition peek_slice s (data_len : Z) : res (result (list Z * Z) RecvError) :=
  r ← rb_read_allocated (sk_rx_buffer s) 0 data_len; Ret (Ok r).

Definition send_queue s : Z := rb_len (sk_tx_buffer s).
Definition recv_queue s : Z := rb_len (sk_rx_buffer s).

(** [fmt::Write]: an error unless the whole string was queued. *)
Definition write_str s (slice : list Z) : res (Socket * result unit unit) :=
  '(s, r) ← send_slice s slice;
  Ret (s, match r with Ok n => if n =? Zlen slice then Ok tt else Err tt | Err _ => Err tt end).
End Socket.
