(* ===== verification/UdpSocket.v ===== *)
(** * The UDP socket (socket/udp.rs)

    The state, the errors and the operations of the socket; the buffers are the packet
    buffers of [PacketBuffer] with [UdpMetadata] as their headers.  [dispatch] takes the
    function that hands a datagram to the interface. *)

From S2P Require Import Prelude RingBuffer PacketBuffer TimeModel TcpTimers IpTypes UdpWire IfaceContext Ipv4Addr TcpSocket.

(** [PacketMeta], with the feature [packetmeta-id]: the identifier. *)
Abbreviation PacketMeta := Z (only parsing).

Record UdpMetadata : Type := mkUdpMetadata {
  um_endpoint : Endpoint;
  um_local_address : option Address;
  um_meta : PacketMeta;
}.

Inductive UdpBindError : Type := UdpBindInvalidState | UdpBindUnaddressable.
Inductive UdpSendError : Type := UdpSendUnaddressable | UdpSendBufferFull.
Inductive UdpRecvError : Type := UdpRecvExhausted | UdpRecvTruncated.

Record UdpSocket : Type := mkUdpSocket {
  us_endpoint : ListenEndpoint;
  us_rx_buffer : PacketBuffer UdpMetadata;
  us_tx_buffer : PacketBuffer UdpMetadata;
  us_hop_limit : option Z;
  us_rx_waker : WakerRegistration;
  us_tx_waker : WakerRegistration;
}.

Definition udp_new (rx_buffer tx_buffer : PacketBuffer UdpMetadata) : UdpSocket :=
  mkUdpSocket listen_endpoint_default rx_buffer tx_buffer None waker_new waker_new.

(** Field updates. *)
Definition us_set_endpoint (s : UdpSocket) (e : ListenEndpoint) : UdpSocket :=
  mkUdpSocket e (us_rx_buffer s) (us_tx_buffer s) (us_hop_limit s) (us_rx_waker s) (us_tx_waker s).
Definition us_set_rx (s : UdpSocket) (b : PacketBuffer UdpMetadata) : UdpSocket :=
  mkUdpSocket (us_endpoint s) b (us_tx_buffer s) (us_hop_limit s) (us_rx_waker s) (us_tx_waker s).
Definition us_set_tx (s : UdpSocket) (b : PacketBuffer UdpMetadata) : UdpSocket :=
  mkUdpSocket (us_endpoint s) (us_rx_buffer s) b (us_hop_limit s) (us_rx_waker s) (us_tx_waker s).
Definition us_set_rx_waker (s : UdpSocket) (w : WakerRegistration) : UdpSocket :=
  mkUdpSocket (us_endpoint s) (us_rx_buffer s) (us_tx_buffer s) (us_hop_limit s) w (us_tx_waker s).
Definition us_set_tx_waker (s : UdpSocket) (w : WakerRegistration) : UdpSocket :=
  mkUdpSocket (us_endpoint s) (us_rx_buffer s) (us_tx_buffer s) (us_hop_limit s) (us_rx_waker s) w.

Definition us_wake_rx (s : UdpSocket) : UdpSocket := us_set_rx_waker s (waker_wake (us_rx_waker s)).
Definition us_wake_tx (s : UdpSocket) : UdpSocket := us_set_tx_waker s (waker_wake (us_tx_waker s)).

Section UdpSocket.
Implicit Types s : UdpSocket.

Definition udp_register_recv_waker s (w : Waker) : UdpSocket := us_set_rx_waker s (waker_register (us_rx_waker s) w).
Definition udp_register_send_waker s (w : Waker) : UdpSocket := us_set_tx_waker s (waker_register (us_tx_waker s) w).

Definition udp_set_hop_limit s (hop_limit : option Z) : res UdpSocket :=
  if bool_decide (hop_limit = Some 0) then Panic
  else Ret (mkUdpSocket (us_endpoint s) (us_rx_buffer s) (us_tx_buffer s) hop_limit (us_rx_waker s) (us_tx_waker s)).

Definition udp_is_open s : bool := negb (lep_port (us_endpoint s) =? 0).

Definition udp_bind s (endpoint : ListenEndpoint) : UdpSocket * result unit UdpBindError :=
  if lep_port endpoint =? 0 then (s, Err UdpBindUnaddressable)
  else if udp_is_open s then (s, Err UdpBindInvalidState)
  else (us_wake_tx (us_wake_rx (us_set_endpoint s endpoint)), Ok tt).

Definition udp_close s : UdpSocket :=
  let s := us_set_endpoint s listen_endpoint_default in
  let s := us_set_tx s (pb_reset (us_tx_buffer s)) in
  let s := us_set_rx s (pb_reset (us_rx_buffer s)) in
  us_wake_tx (us_wake_rx s).

Definition udp_can_send s : res bool := full ← pb_is_full (us_tx_buffer s); Ret (negb full).
Definition udp_can_recv s : bool := negb (pb_is_empty (us_rx_buffer s)).
Definition udp_packet_recv_capacity s : Z := pb_packet_capacity (us_rx_buffer s).
Definition udp_packet_send_capacity s : Z := pb_packet_capacity (us_tx_buffer s).
Definition udp_payload_recv_capacity s : Z := pb_payload_capacity (us_rx_buffer s).
Definition udp_payload_send_capacity s : Z := pb_payload_capacity (us_tx_buffer s).
Definition udp_send_queue s : Z := pb_payload_bytes_count (us_tx_buffer s).
Definition udp_recv_queue s : Z := pb_payload_bytes_count (us_rx_buffer s).

(** The three checks that [send] and [send_with] start with. *)
Definition udp_addressable s (meta : UdpMetadata) : bool :=
  negb (lep_port (us_endpoint s) =? 0) &&
  negb (address_is_unspecified (ep_addr (um_endpoint meta))) &&
  negb (ep_port (um_endpoint meta) =? 0).

(** The slice is its position and length in the storage of the transmit buffer. *)
Definition udp_send s (size : Z) (meta : UdpMetadata) : res (UdpSocket * result (Z * Z) UdpSendError) :=
  if negb (udp_addressable s meta) then Ret (s, Err UdpSendUnaddressable)
  else
    '(tx, r) ← pb_enqueue (us_tx_buffer s) size meta;
    Ret (us_set_tx s tx, match r with Ok range => Ok range | Err _ => Err UdpSendBufferFull end).

Definition udp_send_with s (max_size : Z) (meta : UdpMetadata) (f : list Z -> list Z * Z)
  : res (UdpSocket * result Z UdpSendError) :=
  if negb (udp_addressable s meta) then Ret (s, Err UdpSendUnaddressable)
  else
    '(tx, r) ← pb_enqueue_with_infallible (us_tx_buffer s) max_size meta f;
    Ret (us_set_tx s tx, match r with Ok size => Ok size | Err _ => Err UdpSendBufferFull end).

(** [copy_from_slice] to a slice of the payload storage of a packet buffer. *)
Definition pb_copy {H} (pb : PacketBuffer H) (range : Z * Z) (data : list Z) : res (PacketBuffer H) :=
  _ ← passert (snd range =? Zlen data);
  payload ← rb_fill (payload_ring pb) (fst range) data;
  Ret (mkPacketBuffer (metadata_ring pb) payload).

Definition udp_send_slice s (data : list Z) (meta : UdpMetadata) : res (UdpSocket * result unit UdpSendError) :=
  '(s, r) ← udp_send s (Zlen data) meta;
  match r with
  | Err e => Ret (s, Err e)
  | Ok range => tx ← pb_copy (us_tx_buffer s) range data; Ret (us_set_tx s tx, Ok tt)
  end.

Definition udp_recv s : res (UdpSocket * result (list Z * UdpMetadata) UdpRecvError) :=
  '(rx, r) ← pb_dequeue (us_rx_buffer s);
  Ret (us_set_rx s rx, match r with Ok (m, payload) => Ok (payload, m) | Err _ => Err UdpRecvExhausted end).

(** [data[..length].copy_from_slice(&buffer[..length])] for the shorter length; the result
    also holds what the caller's slice holds then. *)
Definition udp_copy_out (data buffer : list Z) : res (list Z * Z) :=
  let length := Z.min (Zlen data) (Zlen buffer) in
  src ← slice buffer 0 length;
  data ← copy_into data 0 src;
  Ret (data, length).

Definition udp_recv_slice s (data : list Z) : res (UdpSocket * list Z * result (Z * UdpMetadata) UdpRecvError) :=
  '(s, r) ← udp_recv s;
  match r with
  | Err _ => Ret (s, data, Err UdpRecvExhausted)
  | Ok (buffer, endpoint) =>
      if Zlen data <? Zlen buffer then Ret (s, data, Err UdpRecvTruncated)
      else '(data, length) ← udp_copy_out data buffer; Ret (s, data, Ok (length, endpoint))
  end.

Definition udp_peek s : res (UdpSocket * result (list Z * UdpMetadata) UdpRecvError) :=
  '(rx, r) ← pb_peek (us_rx_buffer s);
  Ret (us_set_rx s rx, match r with Ok (m, payload) => Ok (payload, m) | Err _ => Err UdpRecvExhausted end).

Definition udp_peek_slice s (data : list Z) : res (UdpSocket * list Z * result (Z * UdpMetadata) UdpRecvError) :=
  '(s, r) ← udp_peek s;
  match r with
  | Err e => Ret (s, data, Err e)
  | Ok (buffer, endpoint) =>
      if Zlen data <? Zlen buffer then Ret (s, data, Err UdpRecvTruncated)
      else '(data, length) ← udp_copy_out data buffer; Ret (s, data, Ok (length, endpoint))
  end.

(** ** The interface's side *)

Definition udp_accepts s (cx : Context) (ip_repr : IpRepr) (repr : UdpRepr) : res bool :=
  if negb (lep_port (us_endpoint s) =? udp_dst_port repr) then Ret false
  else
    match lep_addr (us_endpoint s) with
    | None => Ret true
    | Some addr =>
        if bool_decide (addr = ip_dst_addr ip_repr) then Ret true
        else
          b ← cx_is_broadcast cx (ip_dst_addr ip_repr);
          Ret ((b : bool) || address_is_multicast (ip_dst_addr ip_repr))
    end.

(** The header that the socket keeps with a received datagram. *)
Definition udp_rx_metadata (meta : PacketMeta) (ip_repr : IpRepr) (repr : UdpRepr) : UdpMetadata :=
  mkUdpMetadata (mkEndpoint (ip_src_addr ip_repr) (udp_src_port repr)) (Some (ip_dst_addr ip_repr)) meta.

Definition udp_process s (cx : Context) (meta : PacketMeta) (ip_repr : IpRepr) (repr : UdpRepr) (payload : list Z)
  : res UdpSocket :=
  a ← udp_accepts s cx ip_repr repr;
  _ ← passert a;
  '(rx, r) ← pb_enqueue (us_rx_buffer s) (Zlen payload) (udp_rx_metadata meta ip_repr repr);
  rx ← match r with
       | Ok range => pb_copy rx range payload
       | Err _ => Ret rx
       end;
  Ret (us_wake_rx (us_set_rx s rx)).

(** The source address of a datagram: the one given with it, the bound one, or the
    interface's choice. *)
Definition udp_source (cx : Context) (endpoint : ListenEndpoint) (packet_meta : UdpMetadata) : res (option Address) :=
  match um_local_address packet_meta with
  | Some src => Ret (Some src)
  | None =>
      match lep_addr endpoint with
      | Some addr => Ret (Some addr)
      | None => get_source_address cx (ep_addr (um_endpoint packet_meta))
      end
  end.

Section Dispatch.
Context {C : Type} `{HasContext C} {E : Type} (emit : C -> PacketMeta -> IpRepr * UdpRepr * list Z -> res (C * result unit E)).

(** The closure of [dequeue_with]; the context it borrows is part of its result. *)
Definition udp_emit_packet (cx : C) (endpoint : ListenEndpoint) (hop_limit : Z)
    (packet_meta : UdpMetadata) (payload_buf : list Z)
  : res (UdpMetadata * list Z * result C (C * E)) :=
  src ← udp_source (the_context cx) endpoint packet_meta;
  match src with
  | None => Ret (packet_meta, payload_buf, Ok cx)
  | Some src_addr =>
      let repr := mkUdpRepr (lep_port endpoint) (ep_port (um_endpoint packet_meta)) in
      len ← usize_add (udp_header_len repr) (Zlen payload_buf);
      ip_repr ← ip_repr_new src_addr (ep_addr (um_endpoint packet_meta)) PROTOCOL_UDP len hop_limit;
      '(cx, r) ← emit cx (um_meta packet_meta) (ip_repr, repr, payload_buf);
      Ret (packet_meta, payload_buf, match r with Ok _ => Ok cx | Err e => Err (cx, e) end)
  end.

Definition udp_dispatch s (cx : C) : res (UdpSocket * C * result unit E) :=
  let endpoint := us_endpoint s in
  let hop_limit := default 64 (us_hop_limit s) in
  '(tx, r) ← pb_dequeue_with (us_tx_buffer s) (udp_emit_packet cx endpoint hop_limit);
  let s := us_set_tx s tx in
  match r with
  | Err _ => Ret (s, cx, Ok tt)
  | Ok (Err (cx, e)) => Ret (s, cx, Err e)
  | Ok (Ok cx) => Ret (us_wake_tx s, cx, Ok tt)
  end.
End Dispatch.

Definition udp_poll_at s : PollAt :=
  if pb_is_empty (us_tx_buffer s) then PollIngress else PollNow.
End UdpSocket.
