(* ===== verification/UdpSocketSpec.v ===== *)
(** * The UDP socket: a pair of datagram queues

    The abstract socket ([udp_spec]) is its endpoint, its hop limit and two bounded lists of
    datagrams.  [udp_spec_step] says what every call does to it; [udp_step], the calls on the
    socket itself, implements that relation. *)

From S2P Require Import Prelude RingBuffer PacketBuffer PacketRoom TimeModel TcpTimers IpTypes UdpWire IfaceContext Ipv4Addr TcpSocket UdpSocket.

Definition Datagram : Type := UdpMetadata * list Z.

(** A queue: its slots and octets, whether nothing at all is stored, and its datagrams. *)
Record udp_queue : Type := mkUdpQueue { q_room : Z * Z; q_idle : bool; q_list : list Datagram }.

Record udp_spec : Type := mkUdpSpec {
  sp_endpoint : ListenEndpoint;
  sp_hop_limit : option Z;
  sp_rxq : udp_queue;
  sp_txq : udp_queue;
}.

Definition pb_queue (pb : PacketBuffer UdpMetadata) : udp_queue := mkUdpQueue (pb_room pb) (pb_is_empty pb) (pb_packets pb).
Definition sp_rx (st : udp_spec) : list Datagram := q_list (sp_rxq st).
Definition sp_tx (st : udp_spec) : list Datagram := q_list (sp_txq st).

(** A queue takes a datagram of [size] octets at least when it is idle and large enough. *)
Definition q_takes (q : udp_queue) (size : Z) : Prop := q_idle q = true /\ fits (q_room q) size.

(** The queue with other datagrams. *)
Definition q_with (q : udp_queue) (idle : bool) (l : list Datagram) : udp_queue := mkUdpQueue (q_room q) idle l.

Definition udp_abs (s : UdpSocket) : udp_spec :=
  mkUdpSpec (us_endpoint s) (us_hop_limit s) (pb_queue (us_rx_buffer s)) (pb_queue (us_tx_buffer s)).

Section Calls.
Context {Er : Type}.

(** The calls of the application that change the socket, a datagram that the interface delivers (to a
    socket that accepts it, as [process_udp] does), and the interface's request for one to transmit.
    ([send], whose caller fills the slice it returns, is [send_slice] with what it was filled with.) *)
Inductive udp_op : Type :=
| UdpBind (endpoint : ListenEndpoint)
| UdpClose
| UdpSetHopLimit (hop_limit : option Z)
| UdpSendSlice (data : list Z) (meta : UdpMetadata)
| UdpSendWith (max_size : Z) (meta : UdpMetadata) (f : list Z -> list Z * Z)
| UdpRecv
| UdpRecvSlice (data : list Z)
| UdpPeek
| UdpPeekSlice (data : list Z)
| UdpRegisterRecvWaker (w : Waker)
| UdpRegisterSendWaker (w : Waker)
| UdpArrives (cx : Context) (meta : PacketMeta) (ip_repr : IpRepr) (repr : UdpRepr) (payload : list Z)
| UdpDispatch (cx : Context) (emit : Context -> PacketMeta -> IpRepr * UdpRepr * list Z -> res (Context * result unit Er)).

Inductive udp_out : Type :=
| UdpDone
| UdpBound (r : result unit UdpBindError)
| UdpSent (r : result unit UdpSendError)
| UdpSentSize (r : result Z UdpSendError)
| UdpReceived (r : result (list Z * UdpMetadata) UdpRecvError)
| UdpReceivedIn (data : list Z) (r : result (Z * UdpMetadata) UdpRecvError)
| UdpDispatched (cx : Context) (r : result unit Er).

Definition udp_step (s : UdpSocket) (op : udp_op) : res (UdpSocket * udp_out) :=
  match op with
  | UdpBind endpoint => let '(s, r) := udp_bind s endpoint in Ret (s, UdpBound r)
  | UdpClose => Ret (udp_close s, UdpDone)
  | UdpSetHopLimit hop_limit => s ← udp_set_hop_limit s hop_limit; Ret (s, UdpDone)
  | UdpSendSlice data meta => '(s, r) ← udp_send_slice s data meta; Ret (s, UdpSent r)
  | UdpSendWith max_size meta f => '(s, r) ← udp_send_with s max_size meta f; Ret (s, UdpSentSize r)
  | UdpRecv => '(s, r) ← udp_recv s; Ret (s, UdpReceived r)
  | UdpRecvSlice data => '(s, data, r) ← udp_recv_slice s data; Ret (s, UdpReceivedIn data r)
  | UdpPeek => '(s, r) ← udp_peek s; Ret (s, UdpReceived r)
  | UdpPeekSlice data => '(s, data, r) ← udp_peek_slice s data; Ret (s, UdpReceivedIn data r)
  | UdpRegisterRecvWaker w => Ret (udp_register_recv_waker s w, UdpDone)
  | UdpRegisterSendWaker w => Ret (udp_register_send_waker s w, UdpDone)
  | UdpArrives cx meta ip_repr repr payload =>
      a ← udp_accepts s cx ip_repr repr;
      if (a : bool) then s ← udp_process s cx meta ip_repr repr payload; Ret (s, UdpDone)
      else Ret (s, UdpDone)
  | UdpDispatch cx emit => '(s, cx, r) ← udp_dispatch emit s cx; Ret (s, UdpDispatched cx r)
  end.

Definition sp_set_rx (st : udp_spec) idle rx : udp_spec := mkUdpSpec (sp_endpoint st) (sp_hop_limit st) (q_with (sp_rxq st) idle rx) (sp_txq st).
Definition sp_set_tx (st : udp_spec) idle tx : udp_spec := mkUdpSpec (sp_endpoint st) (sp_hop_limit st) (sp_rxq st) (q_with (sp_txq st) idle tx).

(** Which destinations can be sent to. *)
Definition udp_sendable (st : udp_spec) (meta : UdpMetadata) : Prop :=
  lep_port (sp_endpoint st) <> 0 /\ ep_port (um_endpoint meta) <> 0 /\
  address_is_unspecified (ep_addr (um_endpoint meta)) = false.

(** A caller's slice of [Zlen data] bytes gets the payload at its front, if it is long enough. *)
Definition udp_copied (data : list Z) (d : Datagram) : list Z * result (Z * UdpMetadata) UdpRecvError :=
  if Zlen data <? Zlen (snd d) then (data, Err UdpRecvTruncated)
  else (snd d ++ drop (length (snd d)) data, Ok (Zlen (snd d), fst d)).

(** The datagram as the interface gets it. *)
Definition udp_outgoing (st : udp_spec) (src : Address) (d : Datagram) (ip_repr : IpRepr) : Prop :=
  ip_src_addr ip_repr = src /\ ip_dst_addr ip_repr = ep_addr (um_endpoint (fst d)) /\
  ip_next_header ip_repr = PROTOCOL_UDP /\ ip_payload_len ip_repr = UDP_HEADER_LEN + Zlen (snd d) /\
  ip_hop_limit ip_repr = default 64 (sp_hop_limit st).

(** A bound address restricts the destination to itself, broadcast and multicast addresses. *)
Definition udp_listens (st : udp_spec) (cx : Context) (ip_repr : IpRepr) (repr : UdpRepr) : Prop :=
  lep_port (sp_endpoint st) = udp_dst_port repr /\
  match lep_addr (sp_endpoint st) with
  | None => True
  | Some addr => addr = ip_dst_addr ip_repr \/ cx_is_broadcast cx (ip_dst_addr ip_repr) = Ret true \/
                 address_is_multicast (ip_dst_addr ip_repr) = true
  end.

(** Nothing is refused or dropped without need: a datagram that fits is taken by an idle queue, as
    it is at first, after [close], and after a call that found no datagram. *)
Inductive udp_spec_step (st : udp_spec) : udp_op -> udp_out -> udp_spec -> Prop :=
| SpecBind endpoint :
    lep_port endpoint <> 0 -> lep_port (sp_endpoint st) = 0 ->
    udp_spec_step st (UdpBind endpoint) (UdpBound (Ok tt)) (mkUdpSpec endpoint (sp_hop_limit st) (sp_rxq st) (sp_txq st))
| SpecBindPort endpoint :
    lep_port endpoint = 0 -> udp_spec_step st (UdpBind endpoint) (UdpBound (Err UdpBindUnaddressable)) st
| SpecBindOpen endpoint :
    lep_port endpoint <> 0 -> lep_port (sp_endpoint st) <> 0 ->
    udp_spec_step st (UdpBind endpoint) (UdpBound (Err UdpBindInvalidState)) st
| SpecClose : udp_spec_step st UdpClose UdpDone
    (mkUdpSpec listen_endpoint_default (sp_hop_limit st) (q_with (sp_rxq st) true []) (q_with (sp_txq st) true []))
| SpecHopLimit h : h <> Some 0 -> udp_spec_step st (UdpSetHopLimit h) UdpDone (mkUdpSpec (sp_endpoint st) h (sp_rxq st) (sp_txq st))
| SpecSend data meta :
    udp_sendable st meta ->
    udp_spec_step st (UdpSendSlice data meta) (UdpSent (Ok tt)) (sp_set_tx st false (sp_tx st ++ [(meta, data)]))
| SpecSendFull data meta :
    udp_sendable st meta -> ~ q_takes (sp_txq st) (Zlen data) ->
    udp_spec_step st (UdpSendSlice data meta) (UdpSent (Err UdpSendBufferFull)) st
| SpecSendAddress data meta :
    ~ udp_sendable st meta -> udp_spec_step st (UdpSendSlice data meta) (UdpSent (Err UdpSendUnaddressable)) st
| SpecSendWith max_size meta f d :
    udp_sendable st meta -> Zlen d = max_size ->
    udp_spec_step st (UdpSendWith max_size meta f) (UdpSentSize (Ok (snd (f d))))
      (sp_set_tx st false (sp_tx st ++ [(meta, take (Z.to_nat (snd (f d))) (fst (f d)))]))
| SpecSendWithFull max_size meta f :
    udp_sendable st meta -> ~ q_takes (sp_txq st) (2 * max_size - 1) ->
    udp_spec_step st (UdpSendWith max_size meta f) (UdpSentSize (Err UdpSendBufferFull)) st
| SpecSendWithAddress max_size meta f :
    ~ udp_sendable st meta -> udp_spec_step st (UdpSendWith max_size meta f) (UdpSentSize (Err UdpSendUnaddressable)) st
| SpecRecvWaker w : udp_spec_step st (UdpRegisterRecvWaker w) UdpDone st
| SpecSendWaker w : udp_spec_step st (UdpRegisterSendWaker w) UdpDone st
| SpecRecv d rx idle : sp_rx st = d :: rx ->
    udp_spec_step st UdpRecv (UdpReceived (Ok (snd d, fst d))) (sp_set_rx st idle rx)
| SpecRecvEmpty : sp_rx st = [] -> udp_spec_step st UdpRecv (UdpReceived (Err UdpRecvExhausted)) (sp_set_rx st true [])
| SpecRecvSlice data d rx idle : sp_rx st = d :: rx ->
    udp_spec_step st (UdpRecvSlice data) (UdpReceivedIn (fst (udp_copied data d)) (snd (udp_copied data d))) (sp_set_rx st idle rx)
| SpecRecvSliceEmpty data : sp_rx st = [] ->
    udp_spec_step st (UdpRecvSlice data) (UdpReceivedIn data (Err UdpRecvExhausted)) (sp_set_rx st true [])
| SpecPeek d rx : sp_rx st = d :: rx ->
    udp_spec_step st UdpPeek (UdpReceived (Ok (snd d, fst d))) st
| SpecPeekEmpty : sp_rx st = [] -> udp_spec_step st UdpPeek (UdpReceived (Err UdpRecvExhausted)) (sp_set_rx st true [])
| SpecPeekSlice data d rx : sp_rx st = d :: rx ->
    udp_spec_step st (UdpPeekSlice data) (UdpReceivedIn (fst (udp_copied data d)) (snd (udp_copied data d))) st
| SpecPeekSliceEmpty data : sp_rx st = [] ->
    udp_spec_step st (UdpPeekSlice data) (UdpReceivedIn data (Err UdpRecvExhausted)) (sp_set_rx st true [])
| SpecArrives cx meta ip_repr repr payload :
    udp_listens st cx ip_repr repr ->
    udp_spec_step st (UdpArrives cx meta ip_repr repr payload) UdpDone
      (sp_set_rx st false (sp_rx st ++ [(udp_rx_metadata meta ip_repr repr, payload)]))
| SpecIgnore cx meta ip_repr repr payload :
    ~ udp_listens st cx ip_repr repr -> udp_spec_step st (UdpArrives cx meta ip_repr repr payload) UdpDone st
| SpecDrop cx meta ip_repr repr payload :
    udp_listens st cx ip_repr repr -> ~ q_takes (sp_rxq st) (Zlen payload) ->
    udp_spec_step st (UdpArrives cx meta ip_repr repr payload) UdpDone st
| SpecDispatchEmpty cx emit : sp_tx st = [] ->
    udp_spec_step st (UdpDispatch cx emit) (UdpDispatched cx (Ok tt)) (sp_set_tx st true [])
| SpecDispatchNoSource cx emit d tx idle : sp_tx st = d :: tx ->
    udp_source cx (sp_endpoint st) (fst d) = Ret None ->
    udp_spec_step st (UdpDispatch cx emit) (UdpDispatched cx (Ok tt)) (sp_set_tx st idle tx)
| SpecDispatch cx emit d tx src ip_repr cx' r idle : sp_tx st = d :: tx ->
    udp_source cx (sp_endpoint st) (fst d) = Ret (Some src) ->
    udp_outgoing st src d ip_repr ->
    emit cx (um_meta (fst d))
      (ip_repr, mkUdpRepr (lep_port (sp_endpoint st)) (ep_port (um_endpoint (fst d))), snd d) = Ret (cx', r) ->
    udp_spec_step st (UdpDispatch cx emit) (UdpDispatched cx' r) (if is_ok r then sp_set_tx st idle tx else st).

(** The calls that panic: [set_hop_limit] with 0, as documented, and [dispatch] when the first
    datagram's source address, given or chosen, is of another family than its destination. *)
Inductive udp_spec_panics (st : udp_spec) : udp_op -> Prop :=
| PanicHopLimit : udp_spec_panics st (UdpSetHopLimit (Some 0))
| PanicMixed cx emit d tx src : sp_tx st = d :: tx ->
    udp_source cx (sp_endpoint st) (fst d) = Ret (Some src) ->
    address_version src <> address_version (ep_addr (um_endpoint (fst d))) ->
    udp_spec_panics st (UdpDispatch cx emit).

(** ** Runs *)

Fixpoint udp_run (s : UdpSocket) (ops : list udp_op) : res (UdpSocket * list udp_out) :=
  match ops with
  | [] => Ret (s, [])
  | op :: ops => '(s, out) ← udp_step s op; '(s, outs) ← udp_run s ops; Ret (s, out :: outs)
  end.

Inductive udp_spec_run : udp_spec -> list udp_op -> list udp_out -> udp_spec -> Prop :=
| SpecRunNil st : udp_spec_run st [] [] st
| SpecRunCons st op out st' ops outs st'' :
    udp_spec_step st op out st' -> udp_spec_run st' ops outs st'' ->
    udp_spec_run st (op :: ops) (out :: outs) st''.

(** ** Invariant *)

(** A queued datagram has a specified destination. *)
Definition udp_tx_ok (d : Datagram) : Prop := address_is_unspecified (ep_addr (um_endpoint (fst d))) = false.

(** A socket that is not open has nothing to transmit, so that [bind] cannot change the
    source address of a queued datagram. *)
Definition udp_wf (s : UdpSocket) : Prop :=
  pb_wf (us_rx_buffer s) /\ pb_wf (us_tx_buffer s) /\
  (lep_port (us_endpoint s) = 0 -> pb_packets (us_tx_buffer s) = []) /\
  Forall udp_tx_ok (pb_packets (us_tx_buffer s)).

(** What a caller has to respect: prefix lengths in range; the function given to [dispatch] does not
    panic, and the one given to [send_with] fills the slice it gets and takes no more than it;
    and [send_with] is not called when it needs a padding and one slot of metadata is free
    ([pb_slots_ok]; [pb_infallible_orphans] shows what happens then). *)
Definition udp_op_ok (s : UdpSocket) (op : udp_op) : Prop :=
  match op with
  | UdpSendWith max_size _ f => 0 <= max_size /\ fills_at_most max_size f /\ pb_slots_ok (us_tx_buffer s) max_size
  | UdpArrives cx _ _ _ _ => Forall cidr_ok (cx_ip_addrs cx)
  | UdpDispatch _ emit => forall cx m p, wp (emit cx m p) (fun _ => True)
  | _ => True
  end.

Fixpoint udp_run_ok (s : UdpSocket) (ops : list udp_op) : Prop :=
  match ops with
  | [] => True
  | op :: ops => udp_op_ok s op /\ forall s' out, udp_step s op = Ret (s', out) -> udp_run_ok s' ops
  end.

(** ** Lemmas *)

Lemma pb_copy_ok {H} (pb : PacketBuffer H) pos data :
  (exists payload', rb_fill (payload_ring pb) pos data = Ret payload') ->
  exists payload', rb_fill (payload_ring pb) pos data = Ret payload' /\
    pb_copy pb (pos, Zlen data) data = Ret (mkPacketBuffer (metadata_ring pb) payload').
Proof.
  intros [payload' E]. exists payload'. split; [done|]. unfold pb_copy. cbn [fst snd].
  rewrite Z.eqb_refl. cbn [passert]. ret_step. rewrite E. by ret_step.
Qed.

Lemma pb_copy_room {H} (pb : PacketBuffer H) range data : wlp (pb_copy pb range data) (fun pb' => pb_room pb' = pb_room pb).
Proof. unfold pb_copy. skip. eapply wlp_bind; [apply rb_fill_cap|]. intros payload E. by apply pb_room_eq. Qed.

(** [enqueue] and the copy into the slice it returns. *)
Lemma pb_enqueue_copy_ok {H} (pb : PacketBuffer H) (h : H) data :
  pb_wf pb ->
  wp (pb_enqueue pb (Zlen data) h) (fun '(pb', r) =>
    match r with
    | Ok range => exists pb'', pb_copy pb' range data = Ret pb'' /\ pb_wf pb'' /\ pb_packets pb'' = pb_packets pb ++ [(h, data)]
    | Err _ => pb_wf pb' /\ pb_packets pb' = pb_packets pb
    end).
Proof.
  intros Hwf. eapply wp_mono; [apply (pb_enqueue_ok pb (Zlen data) h Hwf (Zlen_nonneg data))|]. intros [pb' [[pos len]|e]]; [|done].
  intros (_ & -> & _ & _ & Hfill). destruct (Hfill data eq_refl) as (payload' & E & Hwf' & Hpk).
  destruct (pb_copy_ok pb' pos data ltac:(eauto)) as (p2 & E2 & ->). assert (p2 = payload') as -> by congruence. eauto.
Qed.

(** The same, as queues. *)
Lemma pb_enqueue_queue (pb : PacketBuffer UdpMetadata) h data :
  pb_wf pb ->
  wp (pb_enqueue pb (Zlen data) h) (fun '(pb', r) =>
    match r with
    | Ok range => exists pb'', pb_copy pb' range data = Ret pb'' /\ pb_wf pb'' /\
        pb_packets pb'' = pb_packets pb ++ [(h, data)] /\ pb_queue pb'' = q_with (pb_queue pb) false (pb_packets pb ++ [(h, data)])
    | Err _ => pb_wf pb' /\ pb_queue pb' = pb_queue pb /\ ~ q_takes (pb_queue pb) (Zlen data)
    end).
Proof.
  intros Hwf. eapply wp_mono; [apply wp_and_wlp; [exact (pb_enqueue_copy_ok pb h data Hwf)|]|].
  { apply wlp_and; [exact (pb_enqueue_grows pb (Zlen data) h) | exact (pb_enqueue_idle pb (Zlen data) h Hwf (Zlen_nonneg data))]. }
  intros [pb' [range|e]] [Hq [[Hr _] Hi]].
  - destruct Hq as (pb'' & E & Hwf' & Hpk). exists pb''. split; [done|]. split; [done|]. split; [done|].
    pose proof (wlp_Ret_inv _ _ _ (pb_copy_room pb' range data) E) as Hr'. unfold pb_queue, q_with. cbn [q_room].
    rewrite Hr', Hr, Hpk, (pb_packets_idle pb'') by (try done; rewrite Hpk; by destruct (pb_packets pb)). done.
  - destruct Hq as (Hwf' & Hpk). destruct (Hi eq_refl) as [Hi1 Hi2]. split; [done|]. unfold pb_queue, q_takes. cbn [q_idle q_room].
    rewrite Hr, Hpk, Hi1. split; [done|]. intros [Hid Hf]. by apply Hi2.
Qed.

Lemma pb_reset_queue (pb : PacketBuffer UdpMetadata) : pb_wf pb -> pb_queue (pb_reset pb) = q_with (pb_queue pb) true [].
Proof. intros Hwf. destruct (pb_reset_ok pb Hwf) as [_ E]. unfold pb_queue. by rewrite E. Qed.

(** [dequeue] and [peek], as queues. *)
Lemma pb_dequeue_queue (pb : PacketBuffer UdpMetadata) :
  pb_wf pb ->
  wp (pb_dequeue pb) (fun '(pb', r) => pb_wf pb' /\
    match r with
    | Ok d => exists idle rest, pb_packets pb = d :: rest /\ pb_queue pb' = q_with (pb_queue pb) idle rest
    | Err _ => pb_packets pb = [] /\ pb_queue pb' = q_with (pb_queue pb) true []
    end).
Proof.
  intros Hwf. eapply wp_mono; [apply wp_and_wlp; [exact (pb_dequeue_ok pb Hwf) | exact (pb_dequeue_room pb)]|].
  intros [pb' [[h bs]|e]] [[Hwf' Hq] [Hr Hi]]; (split; [done|]); unfold pb_queue, q_with; cbn [q_room]; rewrite Hr.
  - by exists (pb_is_empty pb'), (pb_packets pb').
  - destruct Hq as [E ->]. by rewrite (Hi eq_refl).
Qed.

Lemma pb_peek_queue (pb : PacketBuffer UdpMetadata) :
  pb_wf pb ->
  wp (pb_peek pb) (fun '(pb', r) => pb_wf pb' /\
    match r with
    | Ok d => (exists rest, pb_packets pb = d :: rest) /\ pb_queue pb' = pb_queue pb
    | Err _ => pb_packets pb = [] /\ pb_queue pb' = q_with (pb_queue pb) true []
    end).
Proof.
  intros Hwf. pose proof (pb_peek_idle pb Hwf) as Hi. eapply wp_mono; [apply wp_and_wlp; [exact (pb_peek_ok pb Hwf)|]|].
  { apply wlp_and; [exact (pb_peek_room pb) | exact (wp_wlp _ _ Hi)]. }
  intros [pb' [d|e]] [(Hwf' & Hpk & Hd) [Hr Hi']]; (split; [done|]); unfold pb_queue, q_with; cbn [q_room]; rewrite Hr, Hpk.
  - destruct (pb_packets pb) as [|d' rest] eqn:E; [done|]. injection Hd as ->. split; [by exists rest|].
    rewrite !pb_packets_idle; rewrite ?Hpk, ?E; done.
  - rewrite Hd, (Hi' eq_refl). done.
Qed.

Lemma udp_copy_out_ok data buffer :
  Zlen buffer <= Zlen data -> udp_copy_out data buffer = Ret (buffer ++ drop (length buffer) data, Zlen buffer).
Proof.
  intros Hl. unfold udp_copy_out. pose proof (Zlen_nonneg buffer). rewrite Z.min_r by lia.
  rewrite slice_ok by lia. ret_step. rewrite Z.sub_0_r, sub_all. rewrite copy_into_ok by lia. ret_step.
  unfold splice. cbn [Z.to_nat take app]. do 3 f_equal.
Qed.

Lemma udp_accepts_ok s cx ip_repr repr :
  Forall cidr_ok (cx_ip_addrs cx) ->
  exists a, udp_accepts s cx ip_repr repr = Ret a /\ (a = true <-> udp_listens (udp_abs s) cx ip_repr repr).
Proof.
  intros Hc. unfold udp_accepts, udp_listens, udp_abs. cbn [sp_endpoint].
  destruct (Z.eqb_spec (lep_port (us_endpoint s)) (udp_dst_port repr)) as [E|E]; cbn [negb].
  2:{ eexists. split; [done|]. split; [done|]. by intros []. }
  destruct (lep_addr (us_endpoint s)) as [addr|]; [|by eexists].
  case_bool_decide as Ha; [eexists; split; [done|]; split; auto|].
  destruct (wp_Ret_inv _ _ (cx_is_broadcast_ok cx (ip_dst_addr ip_repr) Hc)) as (b & Eb & _). 
  eexists. split; [rewrite Eb; ret_step; reflexivity|]. rewrite orb_true_iff. split.
  - intros [-> | ?]; auto.
  - rewrite Eb. intros (_ & [?|[[=]|?]]); [done | by left | by right].
Qed.

(** What [dispatch]'s closure does with a queued datagram. *)
Lemma udp_emit_packet_ok s (cx : Context) emit (d : Datagram) :
  (forall cx m p, wp (emit cx m p) (fun _ => True)) ->
  udp_tx_ok d -> Zlen (snd d) <= isize_max ->
  let st := udp_abs s in
  match udp_emit_packet (E := Er) emit cx (us_endpoint s) (default 64 (us_hop_limit s)) (fst d) (snd d) with
  | Ret (h', d', r) =>
      h' = fst d /\ d' = snd d /\
      (udp_source cx (sp_endpoint st) (fst d) = Ret None /\ r = Ok cx \/
       exists src ip_repr cx' r', udp_source cx (sp_endpoint st) (fst d) = Ret (Some src) /\
         udp_outgoing st src d ip_repr /\
         emit cx (um_meta (fst d))
           (ip_repr, mkUdpRepr (lep_port (sp_endpoint st)) (ep_port (um_endpoint (fst d))), snd d) = Ret (cx', r') /\
         r = match r' with Ok _ => Ok cx' | Err e => Err (cx', e) end)
  | Panic => exists src, udp_source cx (sp_endpoint st) (fst d) = Ret (Some src) /\
      address_version src <> address_version (ep_addr (um_endpoint (fst d)))
  end.
Proof.
  intros Hemit Hu Hl. destruct d as [m payload]. unfold udp_tx_ok in Hu. cbn [fst snd udp_abs sp_endpoint sp_hop_limit] in *.
  unfold udp_emit_packet, the_context, context_self.
  assert (Hs : wp (udp_source cx (us_endpoint s) m) (fun _ => True)).
  { unfold udp_source. destruct (um_local_address m); [done|].
    destruct (lep_addr (us_endpoint s)); [done|]. eapply wp_mono; [by apply get_source_address_ok|]. done. }
  destruct (wp_Ret_inv _ _ Hs) as ([src|] & Es & _); rewrite Es, bind_Ret; [|cbn; auto].
  pose proof (Zlen_nonneg payload). unfold usize_add, udp_header_len, UDP_HEADER_LEN.
  rewrite checked_ok, bind_Ret by mlia.
  destruct (decide (address_version src = address_version (ep_addr (um_endpoint m)))) as [Hv|Hv].
  2: { rewrite ip_repr_new_mixed by done. by exists src. }
  destruct (ip_repr_new_ok src (ep_addr (um_endpoint m)) PROTOCOL_UDP (8 + Zlen payload) (default 64 (us_hop_limit s)) Hv)
    as (ip & Eip & Hip & Hdst & Hnh & Hpl & Hhl & _). rewrite Eip, bind_Ret.
  match goal with |- context [emit ?a ?b ?c] => destruct (wp_Ret_inv _ _ (Hemit a b c)) as ([cx' r] & Ee & _) end.
  rewrite Ee, bind_Ret. split; [done|]. split; [done|]. right. exists src, ip, cx', r.
  split; [done|]. split; [|by destruct r]. unfold udp_outgoing. cbn. unfold UDP_HEADER_LEN. auto.
Qed.

(** A call does what the abstract socket does, panics included. *)
Definition step_ok (s : UdpSocket) (op : udp_op) : Prop :=
  match udp_step s op with
  | Ret (s', out) => udp_wf s' /\ udp_spec_step (udp_abs s) op out (udp_abs s')
  | Panic => udp_spec_panics (udp_abs s) op
  end.

Lemma step_ok_wp s op :
  wp (udp_step s op) (fun '(s', out) => udp_wf s' /\ udp_spec_step (udp_abs s) op out (udp_abs s')) -> step_ok s op.
Proof. unfold step_ok. by destruct (udp_step s op). Qed.

(** The fields of an updated socket, and of its abstract value. *)
Ltac us_cbn := cbn [udp_abs us_endpoint us_rx_buffer us_tx_buffer us_hop_limit us_set_tx us_set_rx us_set_endpoint
  us_set_rx_waker us_set_tx_waker us_wake_rx us_wake_tx sp_endpoint sp_hop_limit sp_rxq sp_txq sp_rx sp_tx sp_set_rx sp_set_tx q_list q_with q_room pb_queue].

(** Replacing the buffers of a socket. *)
Lemma udp_wf_rx s rx : udp_wf s -> pb_wf rx -> udp_wf (us_set_rx s rx).
Proof. unfold udp_wf. us_cbn. by intros (_ & ? & ? & ?). Qed.

Lemma udp_wf_tx s tx :
  udp_wf s -> pb_wf tx -> (lep_port (us_endpoint s) = 0 -> pb_packets tx = []) ->
  Forall udp_tx_ok (pb_packets tx) -> udp_wf (us_set_tx s tx).
Proof. unfold udp_wf. us_cbn. by intros (? & _). Qed.

Lemma udp_abs_tx s tx idle q :
  pb_queue tx = q_with (pb_queue (us_tx_buffer s)) idle q -> udp_abs (us_set_tx s tx) = sp_set_tx (udp_abs s) idle q.
Proof. unfold udp_abs, sp_set_tx. us_cbn. by intros ->. Qed.

Lemma udp_abs_rx s rx idle q :
  pb_queue rx = q_with (pb_queue (us_rx_buffer s)) idle q -> udp_abs (us_set_rx s rx) = sp_set_rx (udp_abs s) idle q.
Proof. unfold udp_abs, sp_set_rx. us_cbn. by intros ->. Qed.

(** [dispatch] panics on a datagram of mixed families, and only then. *)
Lemma udp_dispatch_mixed {C} `{HasContext C} s (cx : C) (emit : C -> PacketMeta -> IpRepr * UdpRepr * list Z -> res (C * result unit Er)) d tx src :
  pb_wf (us_tx_buffer s) -> pb_packets (us_tx_buffer s) = d :: tx ->
  udp_source (the_context cx) (us_endpoint s) (fst d) = Ret (Some src) ->
  address_version src <> address_version (ep_addr (um_endpoint (fst d))) -> udp_dispatch emit s cx = Panic.
Proof.
  intros Hwf Hpk Hs Hv. destruct d as [m payload]. cbn [fst] in *. unfold udp_dispatch. erewrite pb_dequeue_with_panic; [done..|].
  unfold udp_emit_packet. rewrite Hs, bind_Ret. destruct (usize_add _ _); [|done]. rewrite bind_Ret. by rewrite ip_repr_new_mixed.
Qed.

Lemma udp_dispatch_step s cx emit :
  udp_wf s -> udp_op_ok s (UdpDispatch cx emit) -> step_ok s (UdpDispatch cx emit).
Proof.
  intros Hwfs Hok. pose proof Hwfs as (Hr & Ht & Hp & Htx). unfold step_ok. cbn [udp_step udp_op_ok] in *.
  pose proof (pb_dequeue_with_ok (us_tx_buffer s) (udp_emit_packet emit cx (us_endpoint s) (default 64 (us_hop_limit s))) Ht) as Hd.
  pose proof (pb_packets_bound _ Ht) as Hb.
  pose proof (pb_dequeue_with_room (us_tx_buffer s) (udp_emit_packet emit cx (us_endpoint s) (default 64 (us_hop_limit s)))) as Hroom.
  destruct (pb_packets (us_tx_buffer s)) as [|[m payload] rest] eqn:Eq.
  { unfold udp_dispatch. destruct (wp_Ret_inv _ _ Hd) as ([tx r] & E & Hwf & Hpk & ->). rewrite E. ret_steps.
    split; [apply udp_wf_tx; rewrite ?Hpk; auto|]. destruct (wlp_Ret_inv _ _ _ Hroom E) as [Hrm Hi].
    rewrite (udp_abs_tx s tx true []); [by apply SpecDispatchEmpty|]. unfold pb_queue, q_with. cbn [q_room]. by rewrite Hrm, Hpk, (Hi eq_refl). }
  pose proof (udp_emit_packet_ok s cx emit (m, payload) Hok (Forall_inv Htx) (Forall_inv Hb)) as He. cbv zeta in He. cbn [fst snd] in He.
  destruct (udp_emit_packet _ _ _ _ m payload) as [[[h' d'] r]|] eqn:Ee.
  2: { destruct He as (src & Hs & Hv). rewrite (udp_dispatch_mixed s cx emit (m, payload) rest src) by done.
       by eapply (PanicMixed (udp_abs s) cx emit (m, payload) rest src). }
  destruct He as (-> & -> & Hcase). unfold udp_dispatch.
  destruct Hd as [Hd|Hd]; [|congruence]. cbn [wp] in Hd. specialize (Hd eq_refl).
  destruct (wp_Ret_inv _ _ Hd) as ([tx r'] & E & Hwf & -> & Hpk). rewrite E. destruct (wlp_Ret_inv _ _ _ Hroom E) as [Hrm _]. clear Hd E Ee Hroom.
  assert (Hq : pb_queue tx = q_with (pb_queue (us_tx_buffer s)) (pb_is_empty tx) (if is_ok r then rest else (m, payload) :: rest))
    by (unfold pb_queue, q_with; cbn [q_room]; by rewrite Hrm, Hpk).
  assert (Hwf' : udp_wf (us_set_tx s tx)).
  { apply udp_wf_tx; auto; rewrite Hpk; [intros Hp0; by specialize (Hp Hp0)|].
    destruct r; [by apply Forall_inv_tail in Htx|done]. }
  destruct Hcase as [(Hsrc & ->)|(src & ip & cx' & r' & Hsrc & Ho & Hem & ->)].
  - ret_steps. cbn [is_ok] in *. split; [exact Hwf'|].
    change (udp_abs (us_wake_tx (us_set_tx s tx))) with (udp_abs (us_set_tx s tx)). rewrite (udp_abs_tx s tx _ _ Hq).
    eapply (SpecDispatchNoSource (udp_abs s) cx emit (m, payload)); [exact Eq|exact Hsrc].
  - assert (Hst : udp_spec_step (udp_abs s) (UdpDispatch cx emit) (UdpDispatched cx' r') (udp_abs (us_set_tx s tx))).
    { replace (udp_abs (us_set_tx s tx)) with (if is_ok r' then sp_set_tx (udp_abs s) (pb_is_empty tx) rest else udp_abs s).
      - eapply SpecDispatch; [exact Eq|exact Hsrc|exact Ho|exact Hem].
      - destruct r'; cbn [is_ok] in *; [by rewrite (udp_abs_tx s tx _ _ Hq)|]. unfold udp_abs. us_cbn. f_equal.
        unfold pb_queue. rewrite Hrm, Hpk, Eq, !pb_packets_idle; try done; by rewrite ?Hpk, ?Eq. }
    destruct r' as [[]|e]; ret_steps; (split; [exact Hwf'|exact Hst]).
Qed.

(** The checks of [send] and [send_with]. *)
Lemma udp_addressable_cases s meta :
  (udp_addressable s meta = true /\ udp_sendable (udp_abs s) meta) \/ (udp_addressable s meta = false /\ ~ udp_sendable (udp_abs s) meta).
Proof.
  unfold udp_addressable, udp_sendable. us_cbn. destruct (Z.eqb_spec (lep_port (us_endpoint s)) 0), (address_is_unspecified _) eqn:?,
    (Z.eqb_spec (ep_port (um_endpoint meta)) 0); cbn [negb andb]; (left; by split_and!) || (right; split; [done|]; by intros (? & ? & ?)).
Qed.

(** A datagram is queued behind the others. *)
Lemma udp_queued_wf s meta data tx :
  udp_wf s -> lep_port (us_endpoint s) <> 0 -> address_is_unspecified (ep_addr (um_endpoint meta)) = false ->
  pb_wf tx -> pb_packets tx = pb_packets (us_tx_buffer s) ++ [(meta, data)] -> udp_wf (us_set_tx s tx).
Proof.
  intros Hwfs Hp Hu Hwf Hpk. apply udp_wf_tx; auto; [by intros ?|]. destruct Hwfs as (_ & _ & _ & Htx). rewrite Hpk.
  apply Forall_app_2; [done|]. by repeat constructor.
Qed.

(** Nothing is queued. *)
Lemma udp_unqueued_ok s tx : udp_wf s -> pb_wf tx -> pb_queue tx = pb_queue (us_tx_buffer s) ->
  udp_wf (us_set_tx s tx) /\ udp_abs (us_set_tx s tx) = udp_abs s.
Proof.
  intros Hwfs Hwf Hq. pose proof Hwfs as (_ & _ & Hp & Htx). assert (Hpk : pb_packets tx = pb_packets (us_tx_buffer s)) by (by injection Hq).
  split; [apply udp_wf_tx; rewrite ?Hpk; auto|]. unfold udp_abs. us_cbn. by rewrite Hq.
Qed.

Lemma udp_spec_sent st data meta st' :
  udp_spec_step st (UdpSendSlice data meta) (UdpSent (Ok tt)) st' -> st' = sp_set_tx st false (sp_tx st ++ [(meta, data)]).
Proof. by inversion 1. Qed.

Lemma udp_send_step s data meta : udp_wf s -> step_ok s (UdpSendSlice data meta).
Proof.
  intros Hwfs. pose proof Hwfs as (_ & Ht & Hp & Htx). apply step_ok_wp. cbn [udp_step]. unfold udp_send_slice, udp_send.
  destruct (udp_addressable_cases s meta) as [(-> & Hs)|(-> & Hno)]; cbn [negb].
  2: { ret_steps. cbn [wp]. split; [done|]. by apply SpecSendAddress. }
  pose proof Hs as (E1 & _ & E2).
  destruct (wp_Ret_inv _ _ (pb_enqueue_queue (us_tx_buffer s) meta data Ht)) as ([tx [range|e]] & E & Hq);
    rewrite E; ret_steps.
  - destruct Hq as (tx' & Ec & Hwf & Hpk & Hqu). change (us_tx_buffer (us_set_tx s tx)) with tx. rewrite Ec. ret_steps.
    change (us_set_tx (us_set_tx s tx) tx') with (us_set_tx s tx'). cbn [wp]. split.
    + by apply (udp_queued_wf s meta data).
    + rewrite (udp_abs_tx s tx' _ _ Hqu). by apply (SpecSend (udp_abs s)).
  - destruct Hq as (Hwf & Hqu & Hfull). cbn [wp]. destruct (udp_unqueued_ok s tx Hwfs Hwf Hqu) as [? ->]. split; [done|]. by apply SpecSendFull.
Qed.

Lemma udp_send_with_step s max_size meta f :
  udp_wf s -> udp_op_ok s (UdpSendWith max_size meta f) -> step_ok s (UdpSendWith max_size meta f).
Proof.
  intros Hwfs (Hm & Hf & Hslots). pose proof Hwfs as (_ & Ht & Hp & Htx). apply step_ok_wp. cbn [udp_step]. unfold udp_send_with.
  destruct (udp_addressable_cases s meta) as [(-> & Hs)|(-> & Hno)]; cbn [negb].
  2: { ret_steps. cbn [wp]. split; [done|]. by apply SpecSendWithAddress. }
  pose proof Hs as (E1 & _ & E2). pose proof (pb_enqueue_with_infallible_room (us_tx_buffer s) max_size meta f) as Hroom.
  destruct (wp_Ret_inv _ _ (pb_enqueue_with_infallible_ok (us_tx_buffer s) max_size meta f Ht Hm Hslots Hf)) as ([tx [n|e]] & E & Hwf & Hq);
    pose proof (wlp_Ret_inv _ _ _ Hroom E) as Hr; rewrite E; ret_steps; cbn [wp].
  - destruct Hq as (d & Hd & -> & Hpk). split; [by eapply udp_queued_wf|].
    rewrite (udp_abs_tx s tx false (pb_packets (us_tx_buffer s) ++ [(meta, take (Z.to_nat (snd (f d))) (fst (f d)))])); [by apply (SpecSendWith (udp_abs s))|].
    unfold pb_queue, q_with. cbn [q_room]. rewrite Hr, Hpk, (pb_packets_idle tx); [done| |done]. rewrite Hpk. by destruct (pb_packets (us_tx_buffer s)).
  - destruct Hq as (-> & Hfull). destruct (udp_unqueued_ok s _ Hwfs Hwf eq_refl) as [? ->]. split; [done|]. apply SpecSendWithFull; [done|].
    intros [Hi [H0 H1]]. unfold udp_abs in *. us_cbn. cbn in *. specialize (Hfull Hi). unfold pb_room in *. cbn [fst snd] in *. lia.
Qed.

Lemma udp_arrives_step s cx meta ip_repr repr payload :
  udp_wf s -> Forall cidr_ok (cx_ip_addrs cx) ->
  wp (udp_step s (UdpArrives cx meta ip_repr repr payload)) (fun '(s', out) =>
    udp_wf s' /\ udp_spec_step (udp_abs s) (UdpArrives cx meta ip_repr repr payload) out (udp_abs s')).
Proof.
  intros Hwfs Hc. pose proof Hwfs as (Hr & _). cbn [udp_step]. unfold udp_process.
  destruct (udp_accepts_ok s cx ip_repr repr Hc) as ([|] & Ea & Hl); rewrite Ea; ret_steps; cbn [passert]; ret_steps; cycle 1.
  { cbn [wp]. split; [done|]. apply SpecIgnore. intros H%Hl. done. }
  destruct (wp_Ret_inv _ _ (pb_enqueue_queue (us_rx_buffer s) (udp_rx_metadata meta ip_repr repr) payload Hr))
    as ([rx [range|e]] & E & Hq); rewrite E; ret_steps.
  - destruct Hq as (rx' & Ec & Hwf & Hpk & Hqu). rewrite Ec. ret_steps. cbn [wp].
    change (udp_abs (us_wake_rx (us_set_rx s rx'))) with (udp_abs (us_set_rx s rx')).
    split; [by apply udp_wf_rx|]. rewrite (udp_abs_rx s rx' _ _ Hqu). apply (SpecArrives (udp_abs s)). by apply Hl.
  - destruct Hq as (Hwf & Hqu & Hfull). cbn [wp].
    change (udp_abs (us_wake_rx (us_set_rx s rx))) with (udp_abs (us_set_rx s rx)).
    split; [by apply udp_wf_rx|]. replace (udp_abs (us_set_rx s rx)) with (udp_abs s) by (unfold udp_abs; us_cbn; by rewrite Hqu).
    apply SpecDrop; [by apply Hl | done].
Qed.

(** [recv] and [peek]. *)
Lemma udp_recv_ok s :
  udp_wf s ->
  wp (udp_recv s) (fun '(s', r) => udp_wf s' /\
    match sp_rx (udp_abs s) with
    | [] => r = Err UdpRecvExhausted /\ udp_abs s' = sp_set_rx (udp_abs s) true []
    | d :: rx => r = Ok (snd d, fst d) /\ exists idle, udp_abs s' = sp_set_rx (udp_abs s) idle rx
    end).
Proof.
  intros Hwfs. pose proof Hwfs as (Hr & _). unfold udp_recv.
  destruct (wp_Ret_inv _ _ (pb_dequeue_queue (us_rx_buffer s) Hr)) as ([rx [[m bs]|e]] & E & Hwf & Hpk); rewrite E; ret_steps;
    cbn [wp]; (split; [by apply udp_wf_rx|]); change (sp_rx (udp_abs s)) with (pb_packets (us_rx_buffer s)).
  - destruct Hpk as (idle & rest & -> & Hq). split; [done|]. exists idle. by apply udp_abs_rx.
  - destruct Hpk as [-> Hq]. split; [done|]. by apply udp_abs_rx.
Qed.

Lemma udp_peek_ok s :
  udp_wf s ->
  wp (udp_peek s) (fun '(s', r) => udp_wf s' /\
    match sp_rx (udp_abs s) with
    | [] => r = Err UdpRecvExhausted /\ udp_abs s' = sp_set_rx (udp_abs s) true []
    | d :: _ => r = Ok (snd d, fst d) /\ udp_abs s' = udp_abs s
    end).
Proof.
  intros Hwfs. pose proof Hwfs as (Hr & _). unfold udp_peek.
  destruct (wp_Ret_inv _ _ (pb_peek_queue (us_rx_buffer s) Hr)) as ([rx [[m bs]|e]] & E & Hwf & Hpk); rewrite E; ret_steps;
    cbn [wp]; (split; [by apply udp_wf_rx|]); change (sp_rx (udp_abs s)) with (pb_packets (us_rx_buffer s)).
  - destruct Hpk as ((rest & ->) & Hq). split; [done|]. unfold udp_abs. us_cbn. by rewrite Hq.
  - destruct Hpk as [-> Hq]. split; [done|]. by apply udp_abs_rx.
Qed.

Lemma udp_step_ok s op : udp_wf s -> udp_op_ok s op -> step_ok s op.
Proof.
  intros Hwf Hok. destruct op.
  1: { apply step_ok_wp. cbn [udp_step]. unfold udp_bind, udp_is_open. destruct (Z.eqb_spec (lep_port endpoint) 0) as [E|E].
    { split; [done|]. by apply SpecBindPort. }
    destruct (Z.eqb_spec (lep_port (us_endpoint s)) 0) as [E2|E2]; cbn [negb wp].
    - split; [|by apply (SpecBind (udp_abs s))]. destruct Hwf as (? & ? & Hp & _). unfold udp_wf. us_cbn.
      rewrite (Hp E2). auto.
    - split; [done|]. by apply SpecBindOpen. }
  1: { destruct Hwf as (Hr & Ht & _). destruct (pb_reset_ok _ Hr) as [Hr' Erx]. destruct (pb_reset_ok _ Ht) as [Ht' Et].
    unfold step_ok. cbn [udp_step]. unfold udp_close. split.
    - unfold udp_wf. us_cbn. rewrite Et. auto.
    - pose proof (SpecClose (udp_abs s)) as Hs. change (sp_rxq (udp_abs s)) with (pb_queue (us_rx_buffer s)) in Hs.
      change (sp_txq (udp_abs s)) with (pb_queue (us_tx_buffer s)) in Hs. rewrite <- !pb_reset_queue in Hs by done. exact Hs. }
  1: { unfold step_ok. cbn [udp_step udp_op_ok] in *. unfold udp_set_hop_limit. case_bool_decide as Hh; [subst; apply PanicHopLimit|].
    ret_steps. split; [exact Hwf|]. by apply (SpecHopLimit (udp_abs s)). }
  1: by apply udp_send_step.
  1: by apply udp_send_with_step.
  5: { split; [exact Hwf|]. apply (SpecRecvWaker (udp_abs s)). }
  5: { split; [exact Hwf|]. apply (SpecSendWaker (udp_abs s)). }
  5: by apply step_ok_wp, udp_arrives_step.
  5: by apply udp_dispatch_step.
  all: apply step_ok_wp.
  all: cbn [udp_step]; unfold udp_recv_slice, udp_peek_slice.
  - destruct (wp_Ret_inv _ _ (udp_recv_ok s Hwf)) as ([s' r] & E & Hwf' & Hq). rewrite E. ret_steps. cbn [wp]. split; [done|].
    destruct (sp_rx (udp_abs s)) as [|d rx] eqn:Eq; [destruct Hq as [-> ->]; by apply SpecRecvEmpty|].
    destruct Hq as (-> & idle & ->). by apply SpecRecv.
  - destruct (wp_Ret_inv _ _ (udp_recv_ok s Hwf)) as ([s' r] & E & Hwf' & Hq). rewrite E. ret_steps.
    destruct (sp_rx (udp_abs s)) as [|d rx] eqn:Eq.
    { destruct Hq as [-> Ha]. cbv beta iota. ret_steps. cbn [wp]. split; [done|]. rewrite Ha. by apply SpecRecvSliceEmpty. }
    destruct Hq as (-> & idle & Ha). cbv beta iota.
    pose proof (SpecRecvSlice (udp_abs s) data d rx idle Eq) as Hs. rewrite <- Ha in Hs. unfold udp_copied in Hs.
    destruct (Z.ltb_spec (Zlen data) (Zlen (snd d))).
    + ret_steps. by cbn [wp].
    + rewrite udp_copy_out_ok by done. ret_steps. by cbn [wp].
  - destruct (wp_Ret_inv _ _ (udp_peek_ok s Hwf)) as ([s' r] & E & Hwf' & Hq). rewrite E. ret_steps. cbn [wp]. split; [done|].
    destruct (sp_rx (udp_abs s)) as [|d rx] eqn:Eq; destruct Hq as [-> ->]; [by apply SpecPeekEmpty|by eapply SpecPeek].
  - destruct (wp_Ret_inv _ _ (udp_peek_ok s Hwf)) as ([s' r] & E & Hwf' & Hq). rewrite E. ret_steps.
    destruct (sp_rx (udp_abs s)) as [|d rx] eqn:Eq; destruct Hq as [-> Ha]; cbv beta iota.
    { ret_steps. cbn [wp]. split; [done|]. rewrite Ha. by apply SpecPeekSliceEmpty. }
    pose proof (SpecPeekSlice (udp_abs s) data d rx Eq) as Hs. rewrite <- Ha in Hs at 2. unfold udp_copied in Hs.
    destruct (Z.ltb_spec (Zlen data) (Zlen (snd d))).
    + ret_steps. by cbn [wp].
    + rewrite udp_copy_out_ok by done. ret_steps. by cbn [wp].
Qed.

(** What a run of the socket is to a run of the abstract socket. *)
Definition udp_refines (s : UdpSocket) (ops : list udp_op) : Prop :=
  match udp_run s ops with
  | Ret (s', outs) => udp_wf s' /\ udp_spec_run (udp_abs s) ops outs (udp_abs s')
  | Panic => exists ops1 op ops2 outs st,
      ops = ops1 ++ op :: ops2 /\ udp_spec_run (udp_abs s) ops1 outs st /\ udp_spec_panics st op
  end.

Lemma udp_run_refines s ops : udp_wf s -> udp_run_ok s ops -> udp_refines s ops.
Proof.
  unfold udp_refines. revert s. induction ops as [|op ops IH]; intros s Hwf Hok; cbn [udp_run udp_run_ok] in *.
  { split; [done|constructor]. }
  destruct Hok as [Hop Hrest]. pose proof (udp_step_ok s op Hwf Hop) as Hst. unfold step_ok in Hst.
  destruct (udp_step s op) as [[s1 out]|]; [rewrite bind_Ret|exists [], op, ops, [], (udp_abs s); split; [done|]; split; [constructor|done]].
  destruct Hst as [Hwf1 Hst]. specialize (IH s1 Hwf1 (Hrest _ _ eq_refl)).
  destruct (udp_run s1 ops) as [[s2 outs]|].
  - ret_steps. destruct IH. split; [done|]. by econstructor.
  - destruct IH as (ops1 & op' & ops2 & outs & st & -> & Hr & Hp). exists (op :: ops1), op', ops2, (out :: outs), st.
    split; [done|]. split; [by econstructor|done].
Qed.

(** ** What the application receives *)

(** The datagrams that a call hands to the application, and those offered to the socket. *)
Definition udp_taken (op : udp_op) (out : udp_out) : list Datagram :=
  match op, out with
  | UdpRecv, UdpReceived (Ok (payload, m)) => [(m, payload)]
  | UdpRecvSlice _, UdpReceivedIn data (Ok (n, m)) => [(m, take (Z.to_nat n) data)]
  | _, _ => []
  end.

Definition udp_offered (op : udp_op) : list Datagram :=
  match op with UdpArrives _ meta ip_repr repr payload => [(udp_rx_metadata meta ip_repr repr, payload)] | _ => [] end.

Definition udp_all_taken (ops : list udp_op) (outs : list udp_out) : list Datagram := concat (zip_with udp_taken ops outs).

Lemma udp_spec_step_received st op out st' :
  udp_spec_step st op out st' ->
  sublist (udp_taken op out ++ sp_rx st') (sp_rx st ++ udp_offered op).
Proof.
  assert (Hrefl : forall l : list Datagram, sublist ([] ++ l) (l ++ [])) by (intros l; by rewrite app_nil_r).
  destruct 1; unfold sp_rx in *; cbn [udp_taken udp_offered sp_rxq sp_set_rx sp_set_tx q_list q_with] in *; try apply Hrefl.
  1: apply sublist_nil_l.
  1,3: destruct d as [m p].
  all: match goal with E : q_list _ = _ |- _ => rewrite E, ?app_nil_r | _ => idtac end; try done.
  - unfold udp_copied. cbn [fst snd]. destr_if; cbn [fst snd].
    + by apply sublist_cons.
    + unfold Zlen. rewrite Nat2Z.id, take_app_length. done.
  - by apply sublist_inserts_r.
  - by apply sublist_inserts_r.
  - destruct r; cbn [is_ok]; cbn [sp_rxq]; apply Hrefl.
Qed.

Lemma udp_spec_run_received st ops outs st' :
  udp_spec_run st ops outs st' ->
  sublist (udp_all_taken ops outs ++ sp_rx st') (sp_rx st ++ (ops ≫= udp_offered)).
Proof.
  induction 1 as [st|st op out st1 ops outs st2 Hs Hr IH]; [by rewrite app_nil_r|].
  apply udp_spec_step_received in Hs. unfold udp_all_taken in *. cbn [zip_with concat mbind list_bind]. rewrite <- !app_assoc.
  etrans; [apply sublist_app; [done|exact IH]|]. rewrite !app_assoc. by apply sublist_app.
Qed.
End Calls.
Arguments udp_op : clear implicits.
Arguments udp_out : clear implicits.

(** ** Properties *)

(** C29: Refinement: from a well-formed socket, any sequence of calls ([bind], [close], [set_hop_limit],
    [send_slice] and [send_with] to destinations of any family, [recv], [peek] and their slice
    versions, wakers, datagrams that arrive and requests of the interface to transmit) gives the results of the
    abstract socket, a pair of bounded queues of datagrams: [send_slice] and [send_with] append to the one,
    [dispatch] hands its first datagram to the interface with the addresses, ports and hop
    limit of the socket and takes it off unless that failed; an accepted datagram is appended
    to the other as a whole or dropped, and [recv] and [peek] return its first.  A datagram is refused or
    dropped only by a queue that holds something or is too small for it (for [send_with], not
    large enough for twice its size).  The run panics only
    where the abstract socket does ([udp_spec_panics]): at a hop limit of 0, as documented, or when a
    datagram is to be transmitted whose source address is of another family than its destination.
    Asked of the calls: prefix lengths in range, a closure for [dispatch] that does not panic, one for
    [send_with] that takes no more than the slice it is lent; and excluded is a [send_with] that needs
    a padding while exactly one slot of metadata is free, which corrupts the queue
    ([pb_infallible_orphans]). *)
Theorem udp_socket_refines {Er : Type} (s : UdpSocket) (ops : list (udp_op Er)) :
  udp_wf s -> udp_run_ok s ops ->
  match udp_run s ops with
  | Ret (s', outs) => udp_wf s' /\ udp_spec_run (udp_abs s) ops outs (udp_abs s')
  | Panic => exists ops1 op ops2 outs st,
      ops = ops1 ++ op :: ops2 /\ udp_spec_run (udp_abs s) ops1 outs st /\ udp_spec_panics st op
  end.
Proof. apply udp_run_refines. Qed.

(** Safety of reception: starting from a new socket over well-formed empty buffers, the
    datagrams that the application received by a run of calls are a sublist of those the
    interface offered: none is made up, altered, duplicated or delivered out of order, and each
    comes with the addresses and the port of its own packet. *)
Theorem udp_received_in_order {Er : Type} (rx tx : PacketBuffer UdpMetadata) (ops : list (udp_op Er)) :
  pb_wf rx -> pb_wf tx -> pb_packets rx = [] -> pb_packets tx = [] -> udp_run_ok (udp_new rx tx) ops ->
  wlp (udp_run (udp_new rx tx) ops) (fun '(s', outs) =>
    sublist (udp_all_taken ops outs) (ops ≫= udp_offered)).
Proof.
  intros Hr Ht Er0 Et Hok. assert (Hwf : udp_wf (udp_new rx tx)).
  { unfold udp_wf, udp_new. cbn [us_rx_buffer us_tx_buffer us_endpoint]. rewrite Et. auto. }
  pose proof (udp_run_refines _ ops Hwf Hok) as Href. unfold udp_refines in Href.
  destruct (udp_run _ ops) as [[s' outs]|]; [|done]. destruct Href as [_ Hrun]. cbn [wlp].
  apply udp_spec_run_received in Hrun. change (sp_rx (udp_abs (udp_new rx tx))) with (pb_packets rx) in Hrun.
  rewrite Er0 in Hrun. etrans; [|exact Hrun]. by apply sublist_inserts_r.
Qed.

(** C40: [dispatch] panics, in the interface's poll, on a datagram whose source address, bound, given or
    chosen, is of another IP version than its destination, whatever the interface and the function that
    sends the packet are; and on no other datagram, if that function does not panic.  [send_slice] does
    not look at the versions: after it took a datagram of mixed versions as the first of
    its queue, the next [dispatch] panics. *)
Theorem udp_mixed_family_panics {Er : Type} (s : UdpSocket) (cx : Context)
    (emit : Context -> PacketMeta -> IpRepr * UdpRepr * list Z -> res (Context * result unit Er)) :
  udp_wf s ->
  ((exists d tx src, pb_packets (us_tx_buffer s) = d :: tx /\ udp_source cx (us_endpoint s) (fst d) = Ret (Some src) /\
      address_version src <> address_version (ep_addr (um_endpoint (fst d)))) ->
   udp_dispatch emit s cx = Panic) /\
  ((forall cx m p, wp (emit cx m p) (fun _ => True)) -> udp_dispatch emit s cx = Panic ->
   exists d tx src, pb_packets (us_tx_buffer s) = d :: tx /\ udp_source cx (us_endpoint s) (fst d) = Ret (Some src) /\
     address_version src <> address_version (ep_addr (um_endpoint (fst d)))) /\
  (forall data meta addr, pb_packets (us_tx_buffer s) = [] -> lep_addr (us_endpoint s) = Some addr -> um_local_address meta = None ->
   address_version addr <> address_version (ep_addr (um_endpoint meta)) ->
   wp (udp_send_slice s data meta) (fun '(s', r) => r = Ok tt -> udp_dispatch emit s' cx = Panic)).
Proof.
  intros Hwf. pose proof Hwf as (_ & Ht & _). split; [|split].
  - intros (d & tx & src & Hp & Hs & Hv). by eapply udp_dispatch_mixed.
  - intros He E. pose proof (udp_dispatch_step s cx emit Hwf He) as Hst. unfold step_ok in Hst. cbn [udp_step] in Hst.
    rewrite E in Hst. cbn in Hst. inversion Hst. by exists d, tx, src.
  - intros data meta addr Hp Ha Hm Hv. pose proof (udp_send_step (Er := Er) s data meta Hwf) as Hst. unfold step_ok in Hst. cbn [udp_step] in Hst.
    destruct (udp_send_slice s data meta) as [[s' r]|]; [|by inversion Hst]. cbn in Hst. destruct Hst as [(_ & Ht' & _) Hst].
    cbn [wp]. intros ->. apply udp_spec_sent in Hst.
    pose proof (f_equal sp_endpoint Hst) as E3. pose proof (f_equal sp_tx Hst) as E4.
    change (pb_packets (us_tx_buffer s') = pb_packets (us_tx_buffer s) ++ [(meta, data)]) in E4.
    change (us_endpoint s' = us_endpoint s) in E3.
    rewrite Hp in E4. apply (udp_dispatch_mixed s' cx emit (meta, data) [] addr); [done..| |done].
    cbn [fst the_context context_self]. unfold udp_source. by rewrite Hm, E3, Ha.
Qed.

(** ** A concrete socket *)

Definition udp_buffer_example : PacketBuffer UdpMetadata := pb_new (replicate 2 pm_empty) (replicate 8 0).
Definition udp_ip_example : IpRepr := Ipv4Repr (mkIpHeader [10; 0; 0; 2] [10; 0; 0; 1] PROTOCOL_UDP 11 64).
Definition udp_cx_example : Context := mkContext 0 1 MediumIp 1500 [CidrV4 [10; 0; 0; 1] 24] (fun _ => 0).
Definition udp_emit_example (cx : Context) (_ : PacketMeta) (_ : IpRepr * UdpRepr * list Z) : res (Context * result unit unit) :=
  Ret (cx, Ok tt).
Definition udp_peer_example : UdpMetadata := mkUdpMetadata (mkEndpoint (Ipv4 [10; 0; 0; 2]) 53) None 0.

(** The closure of [send_with]: sixes, two of which are sent. *)
Definition udp_fill_example (d : list Z) : list Z * Z := (replicate (length d) 6, 2).

(** Two datagrams of which the second fits into no buffer, a peek, a reception and two replies. *)
Definition udp_ops_example : list (udp_op unit) :=
  [UdpBind (mkListenEndpoint None 7);
   UdpArrives udp_cx_example 5 udp_ip_example (mkUdpRepr 53 7) [1; 2; 3];
   UdpArrives udp_cx_example 6 udp_ip_example (mkUdpRepr 53 7) (replicate 9 0);
   UdpPeek; UdpRecvSlice [0; 0; 0; 0]; UdpRecv;
   UdpSendSlice [4; 5] udp_peer_example; UdpSendWith 3 udp_peer_example udp_fill_example;
   UdpDispatch udp_cx_example udp_emit_example].

Lemma udp_buffer_example_wf : pb_wf udp_buffer_example.
Proof. apply pb_new_wf; vm_compute; discriminate. Qed.

Lemma udp_ops_example_ok : udp_run_ok (udp_new udp_buffer_example udp_buffer_example) udp_ops_example.
Proof.
  assert (Hc : Forall cidr_ok (cx_ip_addrs udp_cx_example)).
  { repeat constructor; try (vm_compute; congruence). }
  assert (Hf : fills_at_most 3 udp_fill_example).
  { intros d Hd. unfold udp_fill_example, Zlen. cbn [fst snd]. rewrite length_replicate. unfold Zlen in Hd. lia. }
  unfold udp_ops_example.
  repeat (cbn [udp_run_ok]; split; [cbn [udp_op_ok]; try done; try (split; [lia|]; split; [done|]; unfold pb_slots_ok; vm_compute; congruence)|
    let s := fresh "s" in let out := fresh "out" in let E := fresh "E" in
    intros s out E; vm_compute in E; injection E as <- <-]); done.
Qed.

(** The results: the small datagram is peeked at and received, the large one was dropped. *)
Example udp_run_example :
  exists s, udp_run (udp_new udp_buffer_example udp_buffer_example) udp_ops_example =
    Ret (s, [UdpBound (Ok tt); UdpDone; UdpDone;
             UdpReceived (Ok ([1; 2; 3], mkUdpMetadata (mkEndpoint (Ipv4 [10; 0; 0; 2]) 53) (Some (Ipv4 [10; 0; 0; 1])) 5));
             UdpReceivedIn [1; 2; 3; 0] (Ok (3, mkUdpMetadata (mkEndpoint (Ipv4 [10; 0; 0; 2]) 53) (Some (Ipv4 [10; 0; 0; 1])) 5));
             UdpReceived (Err UdpRecvExhausted); UdpSent (Ok tt); UdpSentSize (Ok 2); UdpDispatched udp_cx_example (Ok tt)]).
Proof. eexists. vm_compute. reflexivity. Qed.

Lemma udp_socket_refines_witness :
  match udp_run (udp_new udp_buffer_example udp_buffer_example) udp_ops_example with
  | Ret (s', outs) => udp_wf s' /\ udp_spec_run (udp_abs (udp_new udp_buffer_example udp_buffer_example)) udp_ops_example outs (udp_abs s')
  | Panic => exists ops1 op ops2 outs st,
      udp_ops_example = ops1 ++ op :: ops2 /\
      udp_spec_run (udp_abs (udp_new udp_buffer_example udp_buffer_example)) ops1 outs st /\ udp_spec_panics st op
  end.
Proof.
  apply (udp_socket_refines (udp_new udp_buffer_example udp_buffer_example) udp_ops_example); [|exact udp_ops_example_ok].
  split; [exact udp_buffer_example_wf|]. split; [exact udp_buffer_example_wf|]. split; [reflexivity|constructor].
Defined.

Lemma udp_received_in_order_witness :
  wlp (udp_run (udp_new udp_buffer_example udp_buffer_example) udp_ops_example) (fun '(s', outs) =>
    sublist (udp_all_taken udp_ops_example outs) (udp_ops_example ≫= udp_offered)).
Proof.
  apply (udp_received_in_order udp_buffer_example udp_buffer_example udp_ops_example);
    [exact udp_buffer_example_wf | exact udp_buffer_example_wf | reflexivity | reflexivity | exact udp_ops_example_ok].
Defined.

(** *** A socket bound to an IPv4 address *)

Definition udp_bound_example : UdpSocket :=
  fst (udp_bind (udp_new udp_buffer_example udp_buffer_example) (mkListenEndpoint (Some (Ipv4 [10; 0; 0; 1])) 7)).

Definition udp_mixed_example : UdpMetadata := mkUdpMetadata (mkEndpoint (Ipv6 v6_localhost) 53) None 0.

(** [send_slice] takes a datagram for an IPv6 address. *)
Example udp_mixed_sent : exists s', udp_send_slice udp_bound_example [4; 5] udp_mixed_example = Ret (s', Ok tt).
Proof. eexists. vm_compute. reflexivity. Qed.

Lemma udp_mixed_family_panics_witness :
  wp (udp_send_slice udp_bound_example [4; 5] udp_mixed_example) (fun '(s', r) => r = Ok tt -> udp_dispatch udp_emit_example s' udp_cx_example = Panic).
Proof.
  apply (udp_mixed_family_panics udp_bound_example udp_cx_example udp_emit_example) with (addr := Ipv4 [10; 0; 0; 1]); [|reflexivity|reflexivity|reflexivity|discriminate].
  split; [exact udp_buffer_example_wf|]. split; [exact udp_buffer_example_wf|]. split; [reflexivity|constructor].
Defined.
