(* ===== verification/IgmpWire.v ===== *)
(** * IGMP packets (wire/igmp.rs)

    Definitions as in [Icmpv4Wire]; the times are numbers of microseconds. *)

From S2P Require Import Prelude SeqNumber ByteOrder IpTypes Checksum TimeModel Ipv4Wire IfaceContext Ipv4Addr.
#[local] Open Scope wire_scope.

Inductive IgmpMessage : Type :=
| MembershipQueryMsg | MembershipReportV2Msg | LeaveGroupMsg | MembershipReportV1Msg | IgmpUnknown (id : Z).

Definition igmp_message_from (v : Z) : IgmpMessage :=
  match v with
  | 0x11 => MembershipQueryMsg | 0x16 => MembershipReportV2Msg | 0x17 => LeaveGroupMsg | 0x12 => MembershipReportV1Msg
  | id => IgmpUnknown id
  end.

Definition igmp_message_into (m : IgmpMessage) : Z :=
  match m with
  | MembershipQueryMsg => 0x11 | MembershipReportV2Msg => 0x16 | LeaveGroupMsg => 0x17 | MembershipReportV1Msg => 0x12
  | IgmpUnknown id => id
  end.

Inductive IgmpVersion : Type := IgmpVersion1 | IgmpVersion2.

Inductive IgmpRepr : Type :=
| MembershipQuery (max_resp_time : Duration) (group_addr : list Z) (version : IgmpVersion)
| MembershipReport (group_addr : list Z) (version : IgmpVersion)
| LeaveGroup (group_addr : list Z).

Definition IGMP_GROUP_ADDRESS_END : Z := 8.

(** The floating-point code of a response time, in tenths of a second. *)
Definition resp_decisecs (value : Z) : Z :=
  if value <? 128 then value
  else
    let mant := Z.land value 0xf in
    let exp := Z.land (Z.shiftr value 4) 0x7 in
    Z.shiftl (Z.lor mant 0x10) (exp + 3).

Definition max_resp_code_to_duration (value : Z) : res Duration := duration_from_millis (resp_decisecs value * 100).

(** The loop of [duration_to_max_resp_code]; [exp] counts its at most eight rounds. *)
Fixpoint resp_mantissa (fuel : nat) (mant exp : Z) : Z * Z :=
  match fuel with
  | O => (mant, exp)
  | S fuel => if (0x1f <? mant) && (exp <? 0x8) then resp_mantissa fuel (Z.shiftr mant 1) (exp + 1) else (mant, exp)
  end.

Definition duration_to_max_resp_code (duration : Duration) : Z :=
  let decisecs := duration_total_millis duration / 100 in
  if decisecs <? 128 then wrap_u 8 decisecs
  else if decisecs <? 31744 then
    let '(mant, exp) := resp_mantissa 8 (Z.shiftr decisecs 3) 0 in
    Z.lor (Z.lor 0x80 (wrap_u 8 (Z.shiftl exp 4))) (Z.land (wrap_u 8 mant) 0xf)
  else 0xff.

Section Packet.
Context `{NetworkEndian}.
Implicit Types buffer : list Z.

Definition igmp_check_len buffer : result unit WireError :=
  if Zlen buffer <? IGMP_GROUP_ADDRESS_END then Err MkWireError else Ok tt.
Definition igmp_new_checked buffer : result (list Z) WireError :=
  match igmp_check_len buffer with Ok _ => Ok buffer | Err e => Err e end.

Definition igmp_msg_type buffer : res IgmpMessage := x ← index buffer 0; Ret (igmp_message_from x).
Definition igmp_max_resp_code buffer : res Z := index buffer 1.
Definition igmp_checksum buffer : res Z := field_read read_u16 buffer 2 4.
Definition igmp_group_addr buffer : res (list Z) := d ← slice buffer 4 8; ipv4_from_bytes d.

(** The [cfg!(fuzzing)] of the source is false in a normal build. *)
Definition igmp_verify_checksum buffer : res bool := c ← checksum_data buffer; Ret (c =? u16_max).

Definition igmp_set_msg_type buffer (m : IgmpMessage) := index_set buffer 0 (igmp_message_into m).
Definition igmp_set_max_resp_code buffer (v : Z) := index_set buffer 1 v.
Definition igmp_set_checksum buffer (v : Z) := slice_mut buffer 2 4 (fun d => write_u16 d v).
Definition igmp_set_group_address buffer (a : list Z) := slice_mut buffer 4 8 (fun d => copy_from_slice d a).

Definition igmp_fill_checksum buffer : res (list Z) :=
  buffer ← igmp_set_checksum buffer 0;
  c ← checksum_data buffer;
  igmp_set_checksum buffer (Z.lxor 0xffff c).

Definition igmp_parse buffer : res (result IgmpRepr WireError) :=
  match igmp_check_len buffer with
  | Err e => Ret (Err e)
  | Ok _ =>
      addr ← igmp_group_addr buffer;
      if negb (v4_is_unspecified addr) && negb (v4_is_multicast addr) then Ret (Err MkWireError)
      else
        t ← igmp_msg_type buffer;
        match t with
        | MembershipQueryMsg =>
            code ← igmp_max_resp_code buffer;
            max_resp_time ← max_resp_code_to_duration code;
            Ret (Ok (MembershipQuery max_resp_time addr (if code =? 0 then IgmpVersion1 else IgmpVersion2)))
        | MembershipReportV2Msg => a ← igmp_group_addr buffer; Ret (Ok (MembershipReport a IgmpVersion2))
        | LeaveGroupMsg => a ← igmp_group_addr buffer; Ret (Ok (LeaveGroup a))
        | MembershipReportV1Msg => a ← igmp_group_addr buffer; Ret (Ok (MembershipReport a IgmpVersion1))
        | IgmpUnknown _ => Ret (Err MkWireError)
        end
  end.

Definition igmp_buffer_len (r : IgmpRepr) : Z := IGMP_GROUP_ADDRESS_END.

Definition igmp_emit (r : IgmpRepr) buffer : res (list Z) :=
  buffer ← match r with
           | MembershipQuery max_resp_time group_addr version =>
               buffer ← igmp_set_msg_type buffer MembershipQueryMsg;
               buffer ← (match version with
                         | IgmpVersion1 => igmp_set_max_resp_code buffer 0
                         | IgmpVersion2 => igmp_set_max_resp_code buffer (duration_to_max_resp_code max_resp_time)
                         end);
               igmp_set_group_address buffer group_addr
           | MembershipReport group_addr version =>
               buffer ← (match version with
                         | IgmpVersion1 => igmp_set_msg_type buffer MembershipReportV1Msg
                         | IgmpVersion2 => igmp_set_msg_type buffer MembershipReportV2Msg
                         end);
               buffer ← igmp_set_max_resp_code buffer 0;
               igmp_set_group_address buffer group_addr
           | LeaveGroup group_addr =>
               buffer ← igmp_set_msg_type buffer LeaveGroupMsg;
               igmp_set_group_address buffer group_addr
           end;
  igmp_fill_checksum buffer.
End Packet.

(** ** Lemmas *)

Definition igmp_hdr (ty code ck group : Z) (rest : list Z) : list Z :=
  layout_bytes [(1%nat, ty); (1%nat, code); (2%nat, ck); (4%nat, group)] ++ rest.

(** The messages that are parsed back as they were: a response time that the code can express. *)
Definition igmp_ok (r : IgmpRepr) : Prop :=
  match r with
  | MembershipQuery t a v => v4_ok a /\ (v4_is_unspecified a = true \/ v4_is_multicast a = true) /\
      (exists code, in_u8 code /\ max_resp_code_to_duration code = Ret t /\ (v = IgmpVersion1 <-> code = 0))
  | MembershipReport a _ | LeaveGroup a => v4_ok a /\ (v4_is_unspecified a = true \/ v4_is_multicast a = true)
  end.

(** Every octet is the code of the response time that it stands for. *)
Definition resp_code_kept (code : Z) : bool :=
  match max_resp_code_to_duration code with Ret t => duration_to_max_resp_code t =? code | Panic => false end.

Lemma resp_code_kept_all : forallb resp_code_kept (seqZ 0 256) = true.
Proof. by vm_compute. Qed.

Lemma resp_code_roundtrip_ok code t : in_u8 code -> max_resp_code_to_duration code = Ret t -> duration_to_max_resp_code t = code.
Proof.
  intros Hc E. pose proof resp_code_kept_all as Ha. rewrite forallb_forall in Ha.
  specialize (Ha code ltac:(apply list_elem_of_In, elem_of_seqZ; mlia)). unfold resp_code_kept in Ha. rewrite E in Ha. lia.
Qed.

Lemma max_resp_code_total code : in_u8 code -> exists t, max_resp_code_to_duration code = Ret t.
Proof.
  intros Hc. pose proof resp_code_kept_all as Ha. rewrite forallb_forall in Ha.
  specialize (Ha code ltac:(apply list_elem_of_In, elem_of_seqZ; mlia)). unfold resp_code_kept in Ha.
  destruct (max_resp_code_to_duration code) as [t|]; [by eexists | done].
Qed.

Section Facts.
Context `{NetworkEndianLaws}.

Lemma igmp_hdr_view bs : bytes_ok bs -> 8 <= Zlen bs ->
  exists ty code ck g rest, bs = igmp_hdr ty code ck g rest /\ bytes_ok rest /\ in_u8 ty /\ in_u8 code /\ in_u16 ck /\ Zlen bs = 8 + Zlen rest.
Proof.
  intros Hb Hl. fields [1; 1; 2; 4]%nat bs l rest E Hr. do 5 eexists. split; [reflexivity|].
  split; [done|]. rewrite Zlen_app, Zlen_layout_bytes. change (layout_len _) with 8. split_and!; mlia.
Qed.

Lemma igmp_hdr_bytes_ok ty code ck g rest : bytes_ok rest -> bytes_ok (igmp_hdr ty code ck g rest).
Proof. intros. apply bytes_ok_app. split; [apply layout_bytes_ok | done]. Qed.

Lemma Zlen_igmp_hdr ty code ck g rest : Zlen (igmp_hdr ty code ck g rest) = 8 + Zlen rest.
Proof. unfold igmp_hdr. by rewrite Zlen_app, Zlen_layout_bytes. Qed.

Section Header.
Variables ty code ck g : Z.
Variable rest : list Z.
Abbreviation h := (igmp_hdr ty code ck g rest).

Lemma igmp_msg_type_ok : in_u8 ty -> igmp_msg_type h = Ret (igmp_message_from ty).
Proof. intros. unfold igmp_msg_type, igmp_hdr. by erewrite (layout_index 0) by (reflexivity || done). Qed.
Lemma igmp_max_resp_code_ok : in_u8 code -> igmp_max_resp_code h = Ret code.
Proof. intros. unfold igmp_max_resp_code, igmp_hdr. by erewrite (layout_index 1) by (reflexivity || done). Qed.
Lemma igmp_group_addr_ok : igmp_group_addr h = Ret (be_bytes 4 g).
Proof.
  unfold igmp_group_addr, igmp_hdr. erewrite (layout_get 3) by reflexivity. rewrite bind_Ret.
  unfold ipv4_from_bytes. apply copy_from_slice_ok. by rewrite Zlen_be_bytes.
Qed.
Lemma igmp_set_msg_type_ok m : in_u8 (igmp_message_into m) -> igmp_set_msg_type h m = Ret (igmp_hdr (igmp_message_into m) code ck g rest).
Proof. intros. unfold igmp_set_msg_type, igmp_hdr. by erewrite (layout_index_set 0) by (reflexivity || done). Qed.
Lemma igmp_set_max_resp_code_ok v : in_u8 v -> igmp_set_max_resp_code h v = Ret (igmp_hdr ty v ck g rest).
Proof. intros. unfold igmp_set_max_resp_code, igmp_hdr. by erewrite (layout_index_set 1) by (reflexivity || done). Qed.
Lemma igmp_set_checksum_ok v : in_u16 v -> igmp_set_checksum h v = Ret (igmp_hdr ty code v g rest).
Proof. intros. unfold igmp_set_checksum, igmp_hdr. by erewrite (layout_write_u16 2) by (reflexivity || done). Qed.
Lemma igmp_set_group_ok a : v4_ok a -> igmp_set_group_address h a = Ret (igmp_hdr ty code ck (be_value a) rest).
Proof.
  intros [Hb Hl]. unfold igmp_set_group_address, igmp_hdr.
  by erewrite (layout_copy 3) by (reflexivity || done || (unfold Zlen in *; lia)).
Qed.
End Header.

Lemma igmp_fill_checksum_ok ty code c g rest :
  bytes_ok rest -> Zlen rest <= 65535 ->
  exists ck, in_u16 ck /\ igmp_fill_checksum (igmp_hdr ty code c g rest) = Ret (igmp_hdr ty code ck g rest) /\
    igmp_verify_checksum (igmp_hdr ty code ck g rest) = Ret true.
Proof.
  intros Hr Hl. assert (Hb : forall ck, bytes_ok (igmp_hdr ty code ck g rest)) by (intros; by apply igmp_hdr_bytes_ok).
  assert (Hz : forall ck, Zlen (igmp_hdr ty code ck g rest) <= 131070) by (intros; rewrite Zlen_igmp_hdr; lia).
  assert (Hsum : forall ck, in_u16 ck -> word_sum (igmp_hdr ty code ck g rest) = ck + word_sum (igmp_hdr ty code 0 g rest)).
  { intros ck Hck. assert (E : forall c', igmp_hdr ty code c' g rest =
      layout_bytes [(1%nat, ty); (1%nat, code)] ++ be_bytes 2 c' ++ layout_bytes [(4%nat, g)] ++ rest).
    { intros c'. apply (layout_split [(1%nat, ty); (1%nat, code)]). }
    rewrite !E. apply word_sum_field; [by exists 1%nat | done]. }
  set (s := word_sum (igmp_hdr ty code 0 g rest)) in *. assert (Hs : 0 <= s) by (apply word_sum_bounds, Hb).
  pose proof (fold16_range s). exists (65535 - fold16 s). split; [mlia|].
  unfold igmp_fill_checksum, igmp_verify_checksum. rewrite igmp_set_checksum_ok by mlia. split.
  - ret_step. rewrite checksum_data_ok by auto. ret_step. fold s. rewrite u16_not by mlia. apply igmp_set_checksum_ok. mlia.
  - rewrite checksum_data_ok by auto. ret_step. rewrite Hsum by mlia. by rewrite Z.add_comm, fold16_complement.
Qed.

Lemma igmp_parse_ok bs : bytes_ok bs -> wp (igmp_parse bs) (fun r => match r with Ok r => igmp_ok r | Err _ => True end).
Proof.
  intros Hb. unfold igmp_parse, igmp_check_len, IGMP_GROUP_ADDRESS_END. destruct (Z.ltb_spec (Zlen bs) 8); [done|].
  destruct (igmp_hdr_view bs Hb ltac:(done)) as (ty & code & ck & g & rest & -> & Hr & Hty & Hco & Hck & _).
  rewrite igmp_group_addr_ok. ret_step. pose proof (be_bytes_v4 g) as Ha. destr_if; [done|].
  assert (Hu : v4_is_unspecified (be_bytes 4 g) = true \/ v4_is_multicast (be_bytes 4 g) = true).
  { destruct (v4_is_unspecified _); [by left|]. right. by destruct (v4_is_multicast _). }
  rewrite igmp_msg_type_ok by done. ret_step. destruct (igmp_message_from ty); ret_steps; cbn [wp igmp_ok]; try done.
  rewrite igmp_max_resp_code_ok by done. ret_step. destruct (max_resp_code_total code Hco) as (t & Et). rewrite Et. ret_step. cbn [wp igmp_ok].
  split; [done|]. split; [done|]. exists code. split; [done|]. split; [done|]. destruct (Z.eqb_spec code 0); split; done.
Qed.

Lemma igmp_parse_hdr ty code ck g rest :
  in_u8 ty -> in_u8 code -> v4_is_unspecified (be_bytes 4 g) = true \/ v4_is_multicast (be_bytes 4 g) = true ->
  igmp_parse (igmp_hdr ty code ck g rest) =
  match igmp_message_from ty with
  | MembershipQueryMsg =>
      max_resp_time ← max_resp_code_to_duration code;
      Ret (Ok (MembershipQuery max_resp_time (be_bytes 4 g) (if code =? 0 then IgmpVersion1 else IgmpVersion2)))
  | MembershipReportV2Msg => Ret (Ok (MembershipReport (be_bytes 4 g) IgmpVersion2))
  | LeaveGroupMsg => Ret (Ok (LeaveGroup (be_bytes 4 g)))
  | MembershipReportV1Msg => Ret (Ok (MembershipReport (be_bytes 4 g) IgmpVersion1))
  | IgmpUnknown _ => Ret (Err MkWireError)
  end.
Proof.
  intros Hty Hco Hu. unfold igmp_parse, igmp_check_len, IGMP_GROUP_ADDRESS_END. rewrite Zlen_igmp_hdr. pose proof (Zlen_nonneg rest).
  replace (8 + Zlen rest <? 8) with false by lia. rewrite igmp_group_addr_ok. ret_step.
  replace (negb (v4_is_unspecified (be_bytes 4 g)) && negb (v4_is_multicast (be_bytes 4 g))) with false
    by (destruct Hu as [-> | ->]; [done | by rewrite andb_false_r]).
  rewrite igmp_msg_type_ok by done. ret_step. destruct (igmp_message_from ty); ret_steps; try done.
  rewrite igmp_max_resp_code_ok by done. by ret_step.
Qed.

Lemma igmp_emit_parse_ok r buffer :
  igmp_ok r -> bytes_ok buffer -> Zlen buffer = igmp_buffer_len r ->
  exists bs, igmp_emit r buffer = Ret bs /\ Zlen bs = Zlen buffer /\ bytes_ok bs /\ igmp_verify_checksum bs = Ret true /\
    igmp_parse bs = Ret (Ok r).
Proof.
  intros Hr Hb Hl. unfold igmp_buffer_len, IGMP_GROUP_ADDRESS_END in Hl.
  destruct (igmp_hdr_view buffer Hb ltac:(lia)) as (ty & code & ck & g & rest & -> & Hrest & Hty & Hco & Hck & Hz).
  assert (Hfin : forall ty' code' a, v4_ok a -> v4_is_unspecified a = true \/ v4_is_multicast a = true -> in_u8 ty' -> in_u8 code' ->
    (forall ck', igmp_parse (igmp_hdr ty' code' ck' (be_value a) rest) = Ret (Ok r)) ->
    exists bs, igmp_fill_checksum (igmp_hdr ty' code' ck (be_value a) rest) = Ret bs /\ Zlen bs = Zlen (igmp_hdr ty code ck g rest) /\
      bytes_ok bs /\ igmp_verify_checksum bs = Ret true /\ igmp_parse bs = Ret (Ok r)).
  { intros ty' code' a Ha Hu Hty' Hco' Hp. destruct (igmp_fill_checksum_ok ty' code' ck (be_value a) rest Hrest ltac:(lia)) as (ck' & Hck' & E & Hv).
    exists (igmp_hdr ty' code' ck' (be_value a) rest). rewrite !Zlen_igmp_hdr. split; [done|]. split; [done|]. split; [by apply igmp_hdr_bytes_ok|]. split; [done | apply Hp]. }
  unfold igmp_emit. destruct r as [t a v|a v|a]; cbn [igmp_ok] in Hr.
  - destruct Hr as (Ha & Hu & code' & Hco' & Et & Hv). rewrite igmp_set_msg_type_ok by done. rewrite bind_Ret.
    assert (Ec : (match v with IgmpVersion1 => igmp_set_max_resp_code (igmp_hdr (igmp_message_into MembershipQueryMsg) code ck g rest) 0
      | IgmpVersion2 => igmp_set_max_resp_code (igmp_hdr (igmp_message_into MembershipQueryMsg) code ck g rest) (duration_to_max_resp_code t) end) =
      Ret (igmp_hdr 0x11 code' ck g rest)).
    { rewrite (resp_code_roundtrip_ok code' t) by done. destruct v; rewrite igmp_set_max_resp_code_ok by (done || mlia); [|done].
      destruct Hv as [Hv _]. by rewrite Hv. }
    rewrite Ec. rewrite bind_Ret. rewrite igmp_set_group_ok by done. rewrite bind_Ret. apply (Hfin 0x11 code' a Ha Hu); [mlia | done |]. intros ck'.
    rewrite igmp_parse_hdr by (mlia || done || by rewrite be_value_v4). cbn [igmp_message_from]. rewrite Et. rewrite bind_Ret. rewrite be_value_v4 by done.
    do 3 f_equal. destruct (Z.eqb_spec code' 0) as [->|Hn], v; try done; [by destruct Hv as [_ Hv]; specialize (Hv eq_refl) | by destruct Hv as [Hv _]; specialize (Hv eq_refl)].
  - destruct Hr as [Ha Hu]. set (ty' := match v with IgmpVersion1 => 0x12 | IgmpVersion2 => 0x16 end).
    assert (Em : (match v with IgmpVersion1 => igmp_set_msg_type (igmp_hdr ty code ck g rest) MembershipReportV1Msg
      | IgmpVersion2 => igmp_set_msg_type (igmp_hdr ty code ck g rest) MembershipReportV2Msg end) = Ret (igmp_hdr ty' code ck g rest))
      by (by destruct v; rewrite igmp_set_msg_type_ok by (by vm_compute)).
    rewrite Em. rewrite bind_Ret. rewrite igmp_set_max_resp_code_ok by mlia. rewrite bind_Ret. rewrite igmp_set_group_ok by done. rewrite bind_Ret.
    apply (Hfin ty' 0 a Ha Hu); [by destruct v | mlia |]. intros ck'.
    rewrite igmp_parse_hdr by (mlia || (by destruct v) || by rewrite be_value_v4). rewrite be_value_v4 by done. by destruct v.
  - destruct Hr as [Ha Hu]. rewrite igmp_set_msg_type_ok by (by vm_compute). rewrite bind_Ret. rewrite igmp_set_group_ok by done. rewrite bind_Ret.
    apply (Hfin 0x17 code a Ha Hu); [mlia | done |]. intros ck'.
    rewrite igmp_parse_hdr by (mlia || done || by rewrite be_value_v4). by rewrite be_value_v4.
Qed.
End Facts.

(** ** Properties *)

(** An IGMP message that is emitted into a buffer of its length, whatever the buffer held, gets a
    valid checksum and is parsed back as it was, the response time of a query included: every
    octet is the code of the time that it stands for. *)
Theorem igmp_emit_parse `{NetworkEndianLaws} r buffer :
  igmp_ok r -> bytes_ok buffer -> Zlen buffer = igmp_buffer_len r ->
  exists bs, igmp_emit r buffer = Ret bs /\ Zlen bs = Zlen buffer /\ igmp_verify_checksum bs = Ret true /\ igmp_parse bs = Ret (Ok r).
Proof. intros. destruct (igmp_emit_parse_ok r buffer) as (bs & ? & ? & _ & ? & ?); eauto. Qed.

Definition igmp_query_example : IgmpRepr := MembershipQuery 3174400000 [224; 0; 0; 22] IgmpVersion2.

Lemma igmp_emit_parse_witness :
  exists bs, @igmp_emit network_endian igmp_query_example (replicate 8 0xa5) = Ret bs /\ Zlen bs = Zlen (replicate 8 0xa5) /\
    @igmp_verify_checksum network_endian bs = Ret true /\ igmp_parse bs = Ret (Ok igmp_query_example).
Proof.
  apply (@igmp_emit_parse network_endian network_endian_laws); [|byte_list | done].
  split; [split; [byte_list | done]|]. split; [by right|]. exists 0xff. split; [mlia|]. split; [reflexivity | done].
Defined.

(** Parsing looks at no octet of the checksum: a message with a wrong checksum is accepted. *)
Lemma igmp_checksum_ignored `{NetworkEndianLaws} ty code ck ck' g rest :
  in_u8 ty -> in_u8 code -> in_u16 ck -> in_u16 ck' -> igmp_parse (igmp_hdr ty code ck g rest) = igmp_parse (igmp_hdr ty code ck' g rest).
Proof.
  intros Hty Hco Hck Hck'. unfold igmp_parse, igmp_check_len. rewrite !Zlen_igmp_hdr, !igmp_group_addr_ok.
  destruct (_ <? _); [done|]. rewrite !bind_Ret. destruct (_ && _); [done|]. rewrite !igmp_msg_type_ok, !bind_Ret by done.
  destruct (igmp_message_from ty); try done; by rewrite !igmp_max_resp_code_ok by done.
Qed.
