(* ===== verification/DhcpWire.v ===== *)
(** * DHCP packets (wire/dhcpv4.rs)

    A [Packet] is the list of its bytes, as in [TcpWire].  The vector of the name servers is that
    of the heapless crate.  At the end: what is emitted is parsed back, and parsing never panics. *)

From stdpp Require Import gmap.
From S2P Require Import Prelude SeqNumber IpTypes ByteOrder Ipv4Wire IfaceContext Ipv4Addr Heapless Neighbor EthernetArp.
#[local] Open Scope wire_scope.

Definition DHCP_SERVER_PORT : Z := 67.
Definition DHCP_CLIENT_PORT : Z := 68.
Definition MAX_DNS_SERVER_COUNT : nat := 3.
Definition DHCP_MAGIC_NUMBER : Z := 0x63825363.

Inductive DhcpOpCode : Type := DhcpOpRequest | DhcpOpReply | DhcpOpUnknown (id : Z).

Definition dhcp_opcode_from (v : Z) : DhcpOpCode := match v with 1 => DhcpOpRequest | 2 => DhcpOpReply | id => DhcpOpUnknown id end.
Definition dhcp_opcode_into (o : DhcpOpCode) : Z := match o with DhcpOpRequest => 1 | DhcpOpReply => 2 | DhcpOpUnknown id => id end.

Inductive DhcpMessageType : Type :=
| DhcpDiscover | DhcpOffer | DhcpRequest | DhcpDecline | DhcpAck | DhcpNak | DhcpRelease | DhcpInform | DhcpMsgUnknown (id : Z).

Definition dhcp_message_from (v : Z) : DhcpMessageType :=
  match v with
  | 1 => DhcpDiscover | 2 => DhcpOffer | 3 => DhcpRequest | 4 => DhcpDecline | 5 => DhcpAck | 6 => DhcpNak | 7 => DhcpRelease
  | 8 => DhcpInform | id => DhcpMsgUnknown id
  end.
Definition dhcp_message_into (m : DhcpMessageType) : Z :=
  match m with
  | DhcpDiscover => 1 | DhcpOffer => 2 | DhcpRequest => 3 | DhcpDecline => 4 | DhcpAck => 5 | DhcpNak => 6 | DhcpRelease => 7
  | DhcpInform => 8 | DhcpMsgUnknown id => id
  end.

#[export] Instance dhcp_opcode_eq_dec : EqDecision DhcpOpCode.
Proof. solve_decision. Defined.
#[export] Instance dhcp_message_eq_dec : EqDecision DhcpMessageType.
Proof. solve_decision. Defined.
#[export] Instance arp_hardware_eq_dec : EqDecision ArpHardware.
Proof. solve_decision. Defined.

Definition dhcp_message_opcode (m : DhcpMessageType) : DhcpOpCode :=
  match m with
  | DhcpDiscover | DhcpInform | DhcpRequest | DhcpDecline | DhcpRelease => DhcpOpRequest
  | DhcpOffer | DhcpAck | DhcpNak => DhcpOpReply
  | DhcpMsgUnknown _ => DhcpOpUnknown 0
  end.

(** [Flags], by its bits; [from_bits_truncate] keeps the only flag. *)
Definition DHCP_BROADCAST : Z := 0x8000.
Definition dhcp_flags_truncate (bits : Z) : Z := Z.land bits DHCP_BROADCAST.
Definition dhcp_flags_contains (flags flag : Z) : bool := Z.land flags flag =? flag.

(** ** Options *)

Definition DHCP_OPT_END : Z := 255.
Definition OPT_PAD : Z := 0.
Definition OPT_SUBNET_MASK : Z := 1.
Definition OPT_ROUTER : Z := 3.
Definition OPT_DOMAIN_NAME_SERVER : Z := 6.
Definition OPT_REQUESTED_IP : Z := 50.
Definition OPT_IP_LEASE_TIME : Z := 51.
Definition OPT_DHCP_MESSAGE_TYPE : Z := 53.
Definition OPT_SERVER_IDENTIFIER : Z := 54.
Definition OPT_PARAMETER_REQUEST_LIST : Z := 55.
Definition OPT_MAX_DHCP_MESSAGE_SIZE : Z := 57.
Definition OPT_RENEWAL_TIME_VALUE : Z := 58.
Definition OPT_REBINDING_TIME_VALUE : Z := 59.
Definition OPT_CLIENT_ID : Z := 61.

Record DhcpOption : Type := mkDhcpOption { do_kind : Z; do_data : list Z }.

(** [DhcpOptionWriter]: what was written of the slice, and its rest, the field [buffer]. *)
Record DhcpOptionWriter : Type := mkDhcpOptionWriter { ow_written : list Z; ow_buffer : list Z }.

Definition option_writer_new (buffer : list Z) : DhcpOptionWriter := mkDhcpOptionWriter [] buffer.

Definition option_writer_emit (w : DhcpOptionWriter) (option : DhcpOption) : res (result DhcpOptionWriter WireError) :=
  if u8_max <? Zlen (do_data option) then Ret (Err MkWireError)
  else
    total_len ← usize_add 2 (Zlen (do_data option));
    if Zlen (ow_buffer w) <? total_len then Ret (Err MkWireError)
    else
      buf ← slice (ow_buffer w) 0 total_len;
      rest ← slice (ow_buffer w) total_len (Zlen (ow_buffer w));
      buf ← index_set buf 0 (do_kind option);
      buf ← index_set buf 1 (wrap_u 8 (Zlen (do_data option)));
      buf ← slice_mut buf 2 (Zlen buf) (fun d => copy_from_slice d (do_data option));
      Ret (Ok (mkDhcpOptionWriter (ow_written w ++ buf) rest)).

Definition option_writer_end (w : DhcpOptionWriter) : res (result DhcpOptionWriter WireError) :=
  if bool_decide (ow_buffer w = []) then Ret (Err MkWireError)
  else buf ← index_set (ow_buffer w) 0 DHCP_OPT_END; Ret (Ok (mkDhcpOptionWriter (ow_written w ++ buf) [])).

(** The closure of [options]: the next option, and the rest of the buffer. *)
Fixpoint dhcp_option_next (buf : list Z) : option (DhcpOption * list Z) :=
  match buf with
  | [] => None
  | kind :: rest =>
      if kind =? DHCP_OPT_END then None
      else if kind =? OPT_PAD then dhcp_option_next rest
      else
        match rest with
        | [] => None
        | len :: data => if Zlen buf <? 2 + len then None else Some (mkDhcpOption kind (sub data 0 len), drop (Z.to_nat len) data)
        end
  end.

(** The options, by the number of octets that are left. *)
Fixpoint dhcp_options_fuel (fuel : nat) (buf : list Z) : res (list DhcpOption) :=
  match dhcp_option_next buf with
  | None => Ret []
  | Some (option, rest) =>
      match fuel with
      | O => Panic
      | S fuel => options ← dhcp_options_fuel fuel rest; Ret (option :: options)
      end
  end.

(** [core::str::from_utf8]: the octets are well-formed UTF-8 (Unicode, table 3-7). *)
Definition utf8_cont (lo hi b : Z) : bool := (lo <=? b) && (b <=? hi).
Fixpoint utf8_ok (bs : list Z) : bool :=
  match bs with
  | [] => true
  | b :: bs =>
      if b <? 0x80 then utf8_ok bs
      else
        match bs with
        | [] => false
        | c :: bs =>
            if utf8_cont 0xc2 0xdf b then utf8_cont 0x80 0xbf c && utf8_ok bs
            else
              match bs with
              | [] => false
              | d :: bs =>
                  let lo := if b =? 0xe0 then 0xa0 else 0x80 in
                  let hi := if b =? 0xed then 0x9f else 0xbf in
                  if utf8_cont 0xe0 0xef b then utf8_cont lo hi c && utf8_cont 0x80 0xbf d && utf8_ok bs
                  else
                    match bs with
                    | [] => false
                    | e :: bs =>
                        let lo := if b =? 0xf0 then 0x90 else 0x80 in
                        let hi := if b =? 0xf4 then 0x8f else 0xbf in
                        utf8_cont 0xf0 0xf4 b && utf8_cont lo hi c && utf8_cont 0x80 0xbf d && utf8_cont 0x80 0xbf e && utf8_ok bs
                    end
              end
        end
  end.

Section Wire.
Context `{NetworkEndian} `{HeaplessVec (list Z)}.
Implicit Types buffer : list Z.

(** ** Packets *)

Definition dhcp_check_len buffer : result unit WireError := if Zlen buffer <? 240 then Err MkWireError else Ok tt.
Definition dhcp_new_checked buffer : result (list Z) WireError := match dhcp_check_len buffer with Ok _ => Ok buffer | Err e => Err e end.

Definition dhcp_opcode buffer : res DhcpOpCode := x ← index buffer 0; Ret (dhcp_opcode_from x).
Definition dhcp_hardware_type buffer : res ArpHardware := x ← index buffer 1; Ret (arp_hardware_from x).
Definition dhcp_hardware_len buffer : res Z := index buffer 2.
Definition dhcp_hops buffer : res Z := index buffer 3.
Definition dhcp_transaction_id buffer : res Z := field_read read_u32 buffer 4 8.
Definition dhcp_secs buffer : res Z := field_read read_u16 buffer 8 10.
Definition dhcp_flags buffer : res Z := bits ← field_read read_u16 buffer 10 12; Ret (dhcp_flags_truncate bits).
Definition dhcp_client_ip buffer : res (list Z) := d ← slice buffer 12 16; ipv4_from_bytes d.
Definition dhcp_your_ip buffer : res (list Z) := d ← slice buffer 16 20; ipv4_from_bytes d.
Definition dhcp_server_ip buffer : res (list Z) := d ← slice buffer 20 24; ipv4_from_bytes d.
Definition dhcp_relay_agent_ip buffer : res (list Z) := d ← slice buffer 24 28; ipv4_from_bytes d.
Definition dhcp_client_hardware_address buffer : res (list Z) := d ← slice buffer 28 34; ethernet_from_bytes d.
Definition dhcp_magic_number buffer : res Z := field_read read_u32 buffer 236 240.
Definition dhcp_options buffer : res (list DhcpOption) :=
  buf ← slice buffer 240 (Zlen buffer); dhcp_options_fuel (length buf) buf.

(** A text that ends at the first zero octet; the texts are octets here. *)
Definition dhcp_get_text (data : list Z) : res (result (list Z) WireError) :=
  match list_find (fun x => x = 0) data with
  | None => Ret (Err MkWireError)
  | Some (len, _) =>
      if (len =? 0)%nat then Ret (Err MkWireError)
      else data ← slice data 0 (Z.of_nat len); Ret (if utf8_ok data then Ok data else Err MkWireError)
  end.
Definition dhcp_get_sname buffer : res (result (list Z) WireError) := data ← slice buffer 34 108; dhcp_get_text data.
Definition dhcp_get_boot_file buffer : res (result (list Z) WireError) := data ← slice buffer 108 236; dhcp_get_text data.

Definition dhcp_set_sname_and_boot_file_to_zero buffer : res (list Z) :=
  buffer ← slice_mut buffer 34 108 (fun d => Ret (replicate (length d) 0));
  slice_mut buffer 108 236 (fun d => Ret (replicate (length d) 0)).
Definition dhcp_set_opcode buffer (v : DhcpOpCode) := index_set buffer 0 (dhcp_opcode_into v).
Definition dhcp_set_hardware_type buffer (v : ArpHardware) : res (list Z) :=
  let number := arp_hardware_into v in _ ← passert (number <=? u8_max); index_set buffer 1 (wrap_u 8 number).
Definition dhcp_set_hardware_len buffer (v : Z) := index_set buffer 2 v.
Definition dhcp_set_hops buffer (v : Z) := index_set buffer 3 v.
Definition dhcp_set_transaction_id buffer (v : Z) := slice_mut buffer 4 8 (fun d => write_u32 d v).
Definition dhcp_set_secs buffer (v : Z) := slice_mut buffer 8 10 (fun d => write_u16 d v).
Definition dhcp_set_flags buffer (v : Z) := slice_mut buffer 10 12 (fun d => write_u16 d v).
Definition dhcp_set_client_ip buffer (a : list Z) := slice_mut buffer 12 16 (fun d => copy_from_slice d a).
Definition dhcp_set_your_ip buffer (a : list Z) := slice_mut buffer 16 20 (fun d => copy_from_slice d a).
Definition dhcp_set_server_ip buffer (a : list Z) := slice_mut buffer 20 24 (fun d => copy_from_slice d a).
Definition dhcp_set_relay_agent_ip buffer (a : list Z) := slice_mut buffer 24 28 (fun d => copy_from_slice d a).
Definition dhcp_set_client_hardware_address buffer (a : list Z) := slice_mut buffer 28 34 (fun d => copy_from_slice d a).
Definition dhcp_set_magic_number buffer (v : Z) := slice_mut buffer 236 240 (fun d => write_u32 d v).

(** [options_mut], with what is done to the writer. *)
Definition dhcp_options_mut buffer (f : DhcpOptionWriter -> res (result DhcpOptionWriter WireError)) : res (result (list Z) WireError) :=
  front ← slice buffer 0 240;
  options ← slice buffer 240 (Zlen buffer);
  w ←? f (option_writer_new options);
  Ret (Ok (front ++ ow_written w ++ ow_buffer w)).

(** ** The representation *)

Record DhcpRepr : Type := mkDhcpRepr {
  dr_message_type : DhcpMessageType;
  dr_transaction_id : Z;
  dr_secs : Z;
  dr_client_hardware_address : list Z;
  dr_client_ip : list Z;
  dr_your_ip : list Z;
  dr_server_ip : list Z;
  dr_router : option (list Z);
  dr_subnet_mask : option (list Z);
  dr_relay_agent_ip : list Z;
  dr_broadcast : bool;
  dr_requested_ip : option (list Z);
  dr_client_identifier : option (list Z);
  dr_server_identifier : option (list Z);
  dr_parameter_request_list : option (list Z);
  dr_dns_servers : option (hvec (list Z));
  dr_max_size : option Z;
  dr_lease_duration : option Z;
  dr_renew_duration : option Z;
  dr_rebind_duration : option Z;
  dr_additional_options : list DhcpOption;
}.
(** Assignments to a field. *)
Definition dr_set_message_type (r : DhcpRepr) (x : DhcpMessageType) : DhcpRepr :=
  mkDhcpRepr x (dr_transaction_id r) (dr_secs r) (dr_client_hardware_address r) (dr_client_ip r) (dr_your_ip r) (dr_server_ip
    r) (dr_router r) (dr_subnet_mask r) (dr_relay_agent_ip r) (dr_broadcast r) (dr_requested_ip r) (dr_client_identifier r)
    (dr_server_identifier r) (dr_parameter_request_list r) (dr_dns_servers r) (dr_max_size r) (dr_lease_duration r)
    (dr_renew_duration r) (dr_rebind_duration r) (dr_additional_options r).
Definition dr_set_client_ip (r : DhcpRepr) (x : list Z) : DhcpRepr :=
  mkDhcpRepr (dr_message_type r) (dr_transaction_id r) (dr_secs r) (dr_client_hardware_address r) x (dr_your_ip r)
    (dr_server_ip r) (dr_router r) (dr_subnet_mask r) (dr_relay_agent_ip r) (dr_broadcast r) (dr_requested_ip r)
    (dr_client_identifier r) (dr_server_identifier r) (dr_parameter_request_list r) (dr_dns_servers r) (dr_max_size r)
    (dr_lease_duration r) (dr_renew_duration r) (dr_rebind_duration r) (dr_additional_options r).
Definition dr_set_router (r : DhcpRepr) (x : option (list Z)) : DhcpRepr :=
  mkDhcpRepr (dr_message_type r) (dr_transaction_id r) (dr_secs r) (dr_client_hardware_address r) (dr_client_ip r)
    (dr_your_ip r) (dr_server_ip r) x (dr_subnet_mask r) (dr_relay_agent_ip r) (dr_broadcast r) (dr_requested_ip r)
    (dr_client_identifier r) (dr_server_identifier r) (dr_parameter_request_list r) (dr_dns_servers r) (dr_max_size r)
    (dr_lease_duration r) (dr_renew_duration r) (dr_rebind_duration r) (dr_additional_options r).
Definition dr_set_subnet_mask (r : DhcpRepr) (x : option (list Z)) : DhcpRepr :=
  mkDhcpRepr (dr_message_type r) (dr_transaction_id r) (dr_secs r) (dr_client_hardware_address r) (dr_client_ip r)
    (dr_your_ip r) (dr_server_ip r) (dr_router r) x (dr_relay_agent_ip r) (dr_broadcast r) (dr_requested_ip r)
    (dr_client_identifier r) (dr_server_identifier r) (dr_parameter_request_list r) (dr_dns_servers r) (dr_max_size r)
    (dr_lease_duration r) (dr_renew_duration r) (dr_rebind_duration r) (dr_additional_options r).
Definition dr_set_requested_ip (r : DhcpRepr) (x : option (list Z)) : DhcpRepr :=
  mkDhcpRepr (dr_message_type r) (dr_transaction_id r) (dr_secs r) (dr_client_hardware_address r) (dr_client_ip r)
    (dr_your_ip r) (dr_server_ip r) (dr_router r) (dr_subnet_mask r) (dr_relay_agent_ip r) (dr_broadcast r) x
    (dr_client_identifier r) (dr_server_identifier r) (dr_parameter_request_list r) (dr_dns_servers r) (dr_max_size r)
    (dr_lease_duration r) (dr_renew_duration r) (dr_rebind_duration r) (dr_additional_options r).
Definition dr_set_client_identifier (r : DhcpRepr) (x : option (list Z)) : DhcpRepr :=
  mkDhcpRepr (dr_message_type r) (dr_transaction_id r) (dr_secs r) (dr_client_hardware_address r) (dr_client_ip r)
    (dr_your_ip r) (dr_server_ip r) (dr_router r) (dr_subnet_mask r) (dr_relay_agent_ip r) (dr_broadcast r) (dr_requested_ip
    r) x (dr_server_identifier r) (dr_parameter_request_list r) (dr_dns_servers r) (dr_max_size r) (dr_lease_duration r)
    (dr_renew_duration r) (dr_rebind_duration r) (dr_additional_options r).
Definition dr_set_server_identifier (r : DhcpRepr) (x : option (list Z)) : DhcpRepr :=
  mkDhcpRepr (dr_message_type r) (dr_transaction_id r) (dr_secs r) (dr_client_hardware_address r) (dr_client_ip r)
    (dr_your_ip r) (dr_server_ip r) (dr_router r) (dr_subnet_mask r) (dr_relay_agent_ip r) (dr_broadcast r) (dr_requested_ip
    r) (dr_client_identifier r) x (dr_parameter_request_list r) (dr_dns_servers r) (dr_max_size r) (dr_lease_duration r)
    (dr_renew_duration r) (dr_rebind_duration r) (dr_additional_options r).
Definition dr_set_parameter_request_list (r : DhcpRepr) (x : option (list Z)) : DhcpRepr :=
  mkDhcpRepr (dr_message_type r) (dr_transaction_id r) (dr_secs r) (dr_client_hardware_address r) (dr_client_ip r)
    (dr_your_ip r) (dr_server_ip r) (dr_router r) (dr_subnet_mask r) (dr_relay_agent_ip r) (dr_broadcast r) (dr_requested_ip
    r) (dr_client_identifier r) (dr_server_identifier r) x (dr_dns_servers r) (dr_max_size r) (dr_lease_duration r)
    (dr_renew_duration r) (dr_rebind_duration r) (dr_additional_options r).
Definition dr_set_dns_servers (r : DhcpRepr) (x : option (hvec (list Z))) : DhcpRepr :=
  mkDhcpRepr (dr_message_type r) (dr_transaction_id r) (dr_secs r) (dr_client_hardware_address r) (dr_client_ip r)
    (dr_your_ip r) (dr_server_ip r) (dr_router r) (dr_subnet_mask r) (dr_relay_agent_ip r) (dr_broadcast r) (dr_requested_ip
    r) (dr_client_identifier r) (dr_server_identifier r) (dr_parameter_request_list r) x (dr_max_size r) (dr_lease_duration
    r) (dr_renew_duration r) (dr_rebind_duration r) (dr_additional_options r).
Definition dr_set_max_size (r : DhcpRepr) (x : option Z) : DhcpRepr :=
  mkDhcpRepr (dr_message_type r) (dr_transaction_id r) (dr_secs r) (dr_client_hardware_address r) (dr_client_ip r)
    (dr_your_ip r) (dr_server_ip r) (dr_router r) (dr_subnet_mask r) (dr_relay_agent_ip r) (dr_broadcast r) (dr_requested_ip
    r) (dr_client_identifier r) (dr_server_identifier r) (dr_parameter_request_list r) (dr_dns_servers r) x
    (dr_lease_duration r) (dr_renew_duration r) (dr_rebind_duration r) (dr_additional_options r).
Definition dr_set_lease_duration (r : DhcpRepr) (x : option Z) : DhcpRepr :=
  mkDhcpRepr (dr_message_type r) (dr_transaction_id r) (dr_secs r) (dr_client_hardware_address r) (dr_client_ip r)
    (dr_your_ip r) (dr_server_ip r) (dr_router r) (dr_subnet_mask r) (dr_relay_agent_ip r) (dr_broadcast r) (dr_requested_ip
    r) (dr_client_identifier r) (dr_server_identifier r) (dr_parameter_request_list r) (dr_dns_servers r) (dr_max_size r) x
    (dr_renew_duration r) (dr_rebind_duration r) (dr_additional_options r).
Definition dr_set_renew_duration (r : DhcpRepr) (x : option Z) : DhcpRepr :=
  mkDhcpRepr (dr_message_type r) (dr_transaction_id r) (dr_secs r) (dr_client_hardware_address r) (dr_client_ip r)
    (dr_your_ip r) (dr_server_ip r) (dr_router r) (dr_subnet_mask r) (dr_relay_agent_ip r) (dr_broadcast r) (dr_requested_ip
    r) (dr_client_identifier r) (dr_server_identifier r) (dr_parameter_request_list r) (dr_dns_servers r) (dr_max_size r)
    (dr_lease_duration r) x (dr_rebind_duration r) (dr_additional_options r).
Definition dr_set_rebind_duration (r : DhcpRepr) (x : option Z) : DhcpRepr :=
  mkDhcpRepr (dr_message_type r) (dr_transaction_id r) (dr_secs r) (dr_client_hardware_address r) (dr_client_ip r)
    (dr_your_ip r) (dr_server_ip r) (dr_router r) (dr_subnet_mask r) (dr_relay_agent_ip r) (dr_broadcast r) (dr_requested_ip
    r) (dr_client_identifier r) (dr_server_identifier r) (dr_parameter_request_list r) (dr_dns_servers r) (dr_max_size r)
    (dr_lease_duration r) (dr_renew_duration r) x (dr_additional_options r).

Definition dhcp_buffer_len (r : DhcpRepr) : Z :=
  let if_some {A} (o : option A) (n : Z) := match o with Some _ => n | None => 0 end in
  240 + (3 + 1) + if_some (dr_requested_ip r) 6 + if_some (dr_client_identifier r) 9 + if_some (dr_server_identifier r) 6
  + if_some (dr_max_size r) 4 + if_some (dr_router r) 6 + if_some (dr_subnet_mask r) 6 + if_some (dr_lease_duration r) 6
  + match dr_dns_servers r with Some servers => 2 + Zlen (hv_elems servers) * 4 | None => 0 end
  + match dr_parameter_request_list r with Some list => Zlen list + 2 | None => 0 end
  + foldr (fun opt len => 2 + Zlen (do_data opt) + len) 0 (dr_additional_options r).

(** *** Parsing *)

Definition dhcp_data_u32 (data : list Z) : res Z :=
  a ← index data 0; b ← index data 1; c ← index data 2; d ← index data 3; Ret (be_value [a; b; c; d]).

(** [data.chunks_exact(4)], each pushed on the vector when there is room. *)
Fixpoint dhcp_push_servers (data : list Z) (servers : hvec (list Z)) : res (hvec (list Z)) :=
  match data with
  | a :: b :: c :: d :: data => chunk ← ipv4_from_bytes [a; b; c; d]; dhcp_push_servers data (fst (hv_push servers chunk))
  | _ => Ret servers
  end.

(** The body of the loop over the options: the variable [message_type], and the others as fields
    of the representation. *)
Definition dhcp_parse_option buffer (acc : option DhcpMessageType * DhcpRepr) (opt : DhcpOption)
  : res (result (option DhcpMessageType * DhcpRepr) WireError) :=
  let '(message_type, r) := acc in
  let data := do_data opt in
  let has kind len := (do_kind opt =? kind) && (Zlen data =? len) in
  let address set := a ← ipv4_from_bytes data; Ret (Ok (message_type, set r (Some a))) in
  let duration set := d ← dhcp_data_u32 data; Ret (Ok (message_type, set r (Some d))) in
  if has OPT_DHCP_MESSAGE_TYPE 1 then
    x ← index data 0;
    let value := dhcp_message_from x in
    opcode ← dhcp_opcode buffer;
    Ret (Ok (if bool_decide (dhcp_message_opcode value = opcode) then Some value else message_type, r))
  else if has OPT_REQUESTED_IP 4 then address dr_set_requested_ip
  else if has OPT_CLIENT_ID 7 then
    x ← index data 0;
    if bool_decide (arp_hardware_from x <> ArpEthernet) then Ret (Err MkWireError)
    else d ← slice data 1 (Zlen data); a ← ethernet_from_bytes d; Ret (Ok (message_type, dr_set_client_identifier r (Some a)))
  else if has OPT_SERVER_IDENTIFIER 4 then address dr_set_server_identifier
  else if has OPT_ROUTER 4 then address dr_set_router
  else if has OPT_SUBNET_MASK 4 then address dr_set_subnet_mask
  else if has OPT_MAX_DHCP_MESSAGE_SIZE 2 then
    a ← index data 0; b ← index data 1; Ret (Ok (message_type, dr_set_max_size r (Some (be_value [a; b]))))
  else if has OPT_RENEWAL_TIME_VALUE 4 then duration dr_set_renew_duration
  else if has OPT_REBINDING_TIME_VALUE 4 then duration dr_set_rebind_duration
  else if has OPT_IP_LEASE_TIME 4 then duration dr_set_lease_duration
  else if do_kind opt =? OPT_PARAMETER_REQUEST_LIST then Ret (Ok (message_type, dr_set_parameter_request_list r (Some data)))
  else if do_kind opt =? OPT_DOMAIN_NAME_SERVER then
    servers ← dhcp_push_servers data hv_new; Ret (Ok (message_type, dr_set_dns_servers r (Some servers)))
  else Ret (Ok acc).

Fixpoint dhcp_parse_options buffer (acc : option DhcpMessageType * DhcpRepr) (options : list DhcpOption)
  : res (result (option DhcpMessageType * DhcpRepr) WireError) :=
  match options with
  | [] => Ret (Ok acc)
  | option :: options => acc ←? dhcp_parse_option buffer acc option; dhcp_parse_options buffer acc options
  end.

Definition dhcp_parse buffer : res (result DhcpRepr WireError) :=
  match dhcp_check_len buffer with
  | Err e => Ret (Err e)
  | Ok _ =>
      transaction_id ← dhcp_transaction_id buffer;
      client_hardware_address ← dhcp_client_hardware_address buffer;
      client_ip ← dhcp_client_ip buffer;
      your_ip ← dhcp_your_ip buffer;
      server_ip ← dhcp_server_ip buffer;
      relay_agent_ip ← dhcp_relay_agent_ip buffer;
      secs ← dhcp_secs buffer;
      hardware_type ← dhcp_hardware_type buffer;
      match hardware_type with
      | ArpEthernet =>
          hardware_len ← dhcp_hardware_len buffer;
          if negb (hardware_len =? 6) then Ret (Err MkWireError)
          else
            magic_number ← dhcp_magic_number buffer;
            if negb (magic_number =? DHCP_MAGIC_NUMBER) then Ret (Err MkWireError)
            else
              options ← dhcp_options buffer;
              flags ← dhcp_flags buffer;
              let r := mkDhcpRepr (DhcpMsgUnknown 0) transaction_id secs client_hardware_address client_ip your_ip server_ip None None
                         relay_agent_ip (dhcp_flags_contains flags DHCP_BROADCAST) None None None None None None None None None [] in
              acc ←? dhcp_parse_options buffer (None, r) options;
              let '(message_type, r) := acc in
              match message_type with
              | Some message_type => Ret (Ok (dr_set_message_type r message_type))
              | None => Ret (Err MkWireError)
              end
      | ArpHardwareUnknown _ => Ret (Err MkWireError)
      end
  end.

(** *** Emitting *)

(** The addresses of the name servers, one after the other in the array [servers]. *)
Fixpoint dhcp_copy_servers (i : Z) (addrs : list (list Z)) (servers : list Z) : res (list Z) :=
  match addrs with
  | [] => Ret servers
  | ip :: addrs => servers ← slice_mut servers (i * 4) ((i + 1) * 4) (fun d => copy_from_slice d ip); dhcp_copy_servers (i + 1) addrs servers
  end.

Fixpoint dhcp_emit_additional (options : list DhcpOption) (w : DhcpOptionWriter) : res (result DhcpOptionWriter WireError) :=
  match options with
  | [] => Ret (Ok w)
  | option :: options => w ←? option_writer_emit w option; dhcp_emit_additional options w
  end.

(** An option that is emitted when there is a value for it. *)
Definition dhcp_emit_some {A} (o : option A) (kind : Z) (data : A -> res (list Z)) (w : DhcpOptionWriter)
  : res (result DhcpOptionWriter WireError) :=
  match o with
  | Some val => d ← data val; option_writer_emit w (mkDhcpOption kind d)
  | None => Ret (Ok w)
  end.

Definition dhcp_client_id_data (val : list Z) : res (list Z) :=
  data ← index_set (replicate 7 0) 0 (wrap_u 8 (arp_hardware_into ArpEthernet));
  slice_mut data 1 (Zlen data) (fun d => copy_from_slice d val).

Definition dhcp_servers_data (dns_servers : hvec (list Z)) : res (list Z) :=
  servers ← dhcp_copy_servers 0 (hv_elems dns_servers) (replicate (MAX_DNS_SERVER_COUNT * 4) 0);
  slice servers 0 (Zlen (hv_elems dns_servers) * 4).

Definition dhcp_emit_options (r : DhcpRepr) (options : DhcpOptionWriter) : res (result DhcpOptionWriter WireError) :=
  options ←? option_writer_emit options (mkDhcpOption OPT_DHCP_MESSAGE_TYPE [dhcp_message_into (dr_message_type r)]);
  options ←? dhcp_emit_some (dr_client_identifier r) OPT_CLIENT_ID dhcp_client_id_data options;
  options ←? dhcp_emit_some (dr_server_identifier r) OPT_SERVER_IDENTIFIER Ret options;
  options ←? dhcp_emit_some (dr_router r) OPT_ROUTER Ret options;
  options ←? dhcp_emit_some (dr_subnet_mask r) OPT_SUBNET_MASK Ret options;
  options ←? dhcp_emit_some (dr_requested_ip r) OPT_REQUESTED_IP Ret options;
  options ←? dhcp_emit_some (dr_max_size r) OPT_MAX_DHCP_MESSAGE_SIZE (fun val => Ret (be_bytes 2 val)) options;
  options ←? dhcp_emit_some (dr_lease_duration r) OPT_IP_LEASE_TIME (fun val => Ret (be_bytes 4 val)) options;
  options ←? dhcp_emit_some (dr_parameter_request_list r) OPT_PARAMETER_REQUEST_LIST Ret options;
  options ←? dhcp_emit_some (dr_dns_servers r) OPT_DOMAIN_NAME_SERVER dhcp_servers_data options;
  options ←? dhcp_emit_additional (dr_additional_options r) options;
  option_writer_end options.

Definition dhcp_emit_header (r : DhcpRepr) buffer : res (list Z) :=
  buffer ← dhcp_set_sname_and_boot_file_to_zero buffer;
  buffer ← dhcp_set_opcode buffer (dhcp_message_opcode (dr_message_type r));
  buffer ← dhcp_set_hardware_type buffer ArpEthernet;
  buffer ← dhcp_set_hardware_len buffer 6;
  buffer ← dhcp_set_transaction_id buffer (dr_transaction_id r);
  buffer ← dhcp_set_client_hardware_address buffer (dr_client_hardware_address r);
  buffer ← dhcp_set_hops buffer 0;
  buffer ← dhcp_set_secs buffer (dr_secs r);
  buffer ← dhcp_set_magic_number buffer 0x63825363;
  buffer ← dhcp_set_client_ip buffer (dr_client_ip r);
  buffer ← dhcp_set_your_ip buffer (dr_your_ip r);
  buffer ← dhcp_set_server_ip buffer (dr_server_ip r);
  buffer ← dhcp_set_relay_agent_ip buffer (dr_relay_agent_ip r);
  dhcp_set_flags buffer (if dr_broadcast r then DHCP_BROADCAST else 0).

Definition dhcp_emit (r : DhcpRepr) buffer : res (result (list Z) WireError) :=
  buffer ← dhcp_emit_header r buffer;
  dhcp_options_mut buffer (dhcp_emit_options r).
End Wire.

(** ** Options *)

Definition option_bytes (o : DhcpOption) : list Z := do_kind o :: Zlen (do_data o) :: do_data o.

(** An option that fits its length field; one that the iterator shows. *)
Definition option_fits (o : DhcpOption) : Prop := in_u8 (do_kind o) /\ bytes_ok (do_data o) /\ Zlen (do_data o) <= 255.
Definition option_shown (o : DhcpOption) : Prop := option_fits o /\ do_kind o <> OPT_PAD /\ do_kind o <> DHCP_OPT_END.

Definition options_bytes (l : list DhcpOption) : list Z := l ≫= option_bytes.

Lemma Zlen_option_bytes o : Zlen (option_bytes o) = 2 + Zlen (do_data o).
Proof. unfold option_bytes. rewrite !Zlen_cons. lia. Qed.

Lemma options_bytes_ok l : Forall option_fits l -> bytes_ok (options_bytes l).
Proof.
  induction 1 as [|o l (Hk & Hd & Hl) _ IH]; [constructor|]. unfold options_bytes. cbn. apply bytes_ok_cons. split; [done|]. apply bytes_ok_cons.
  split; [pose proof (Zlen_nonneg (do_data o)); mlia|]. by apply bytes_ok_app.
Qed.

Lemma option_writer_emit_ok w o :
  option_fits o -> 2 + Zlen (do_data o) <= Zlen (ow_buffer w) ->
  option_writer_emit w o = Ret (Ok (mkDhcpOptionWriter (ow_written w ++ option_bytes o) (drop (length (option_bytes o)) (ow_buffer w)))).
Proof.
  intros (Hk & Hd & Hl) Hn. pose proof (Zlen_nonneg (do_data o)). unfold option_writer_emit. replace (u8_max <? Zlen (do_data o)) with false by mlia.
  rewrite usize_add_ok by mlia. ret_step. replace (Zlen (ow_buffer w) <? 2 + Zlen (do_data o)) with false by lia.
  destruct (Zlen_split_at (ow_buffer w) (2 + Zlen (do_data o)) ltac:(lia)) as (front & rest & E & Hf). rewrite E.
  assert (E1 : slice (front ++ rest) 0 (2 + Zlen (do_data o)) = Ret front) by (apply (slice_mid [] front rest); [done | lia]).
  assert (E2 : slice (front ++ rest) (2 + Zlen (do_data o)) (Zlen (front ++ rest)) = Ret rest).
  { pose proof (slice_mid front rest [] (2 + Zlen (do_data o)) (Zlen (front ++ rest)) ltac:(lia) ltac:(rewrite Zlen_app; lia)) as Hs. by rewrite app_nil_r in Hs. }
  rewrite E1. ret_step. rewrite E2. ret_step.
  destruct front as [|x [|y front]]; [change (Zlen []) with 0 in Hf; lia | change (Zlen [x]) with 1 in Hf; lia|]. rewrite !Zlen_cons in Hf.
  assert (E3 : index_set (x :: y :: front) 0 (do_kind o) = Ret (do_kind o :: y :: front)) by (apply (index_set_app []); done).
  assert (E4 : forall v, index_set (do_kind o :: y :: front) 1 v = Ret (do_kind o :: v :: front)) by (intros v; apply (index_set_app [do_kind o]); done).
  rewrite E3. ret_step. rewrite E4. ret_step.
  rewrite wrap_u_id by mlia.
  pose proof (slice_mut_mid [do_kind o; Zlen (do_data o)] front (do_data o) [] 2 (2 + Zlen front) (fun d => copy_from_slice d (do_data o))
    eq_refl eq_refl ltac:(apply copy_from_slice_ok; lia) ltac:(mlia)) as E5. rewrite !app_nil_r in E5. cbn [app] in E5.
  rewrite !Zlen_cons. replace (1 + (1 + Zlen front)) with (2 + Zlen front) by lia. rewrite E5. ret_step.
  do 3 f_equal. symmetry. apply (drop_app_length' (x :: y :: front)). cbn. unfold Zlen in *. lia.
Qed.

Lemma dhcp_option_next_ok o rest : option_shown o -> dhcp_option_next (option_bytes o ++ rest) = Some (o, rest).
Proof.
  intros ((Hk & Hd & Hl) & Hp & He). unfold option_bytes. cbn [app dhcp_option_next].
  replace (do_kind o =? DHCP_OPT_END) with false by lia. replace (do_kind o =? OPT_PAD) with false by lia.
  rewrite !Zlen_cons, Zlen_app. pose proof (Zlen_nonneg rest). replace (_ <? _) with false by lia.
  rewrite (sub_mid [] (do_data o) rest : sub (do_data o ++ rest) 0 _ = _). unfold Zlen. rewrite Nat2Z.id, drop_app_length. by destruct o.
Qed.

(** What was emitted is what the iterator shows, up to the end option. *)
Lemma dhcp_options_fuel_ok l rest : forall fuel, Forall option_shown l -> (length l <= fuel)%nat ->
  dhcp_options_fuel fuel (options_bytes l ++ DHCP_OPT_END :: rest) = Ret l.
Proof.
  induction l as [|o l IH]; intros fuel Hl Hf.
  { destruct fuel; reflexivity. }
  apply Forall_cons_iff in Hl as [Ho Hl]. change (options_bytes (o :: l)) with (option_bytes o ++ options_bytes l). rewrite <- app_assoc.
  cbn [length] in Hf. destruct fuel as [|fuel]; [lia|]. cbn [dhcp_options_fuel]. rewrite dhcp_option_next_ok by done. by rewrite IH by (done || lia).
Qed.

Lemma options_bytes_length l : (length l <= length (options_bytes l))%nat.
Proof. induction l as [|o l IH]; [done|]. change (options_bytes (o :: l)) with (option_bytes o ++ options_bytes l). rewrite length_app. cbn. lia. Qed.

(** Whatever the octets are, the iterator ends, and its options have octets as they should. *)
Lemma dhcp_option_next_wp buf : bytes_ok buf ->
  match dhcp_option_next buf with
  | Some (o, rest) => option_shown o /\ bytes_ok rest /\ (length rest < length buf)%nat
  | None => True
  end.
Proof.
  induction buf as [|kind buf IH]; intros Hb; [done|]. cbn [dhcp_option_next]. apply bytes_ok_cons in Hb as [Hk Hb].
  destruct (Z.eqb_spec kind DHCP_OPT_END); [done|]. destruct (Z.eqb_spec kind OPT_PAD).
  - specialize (IH Hb). destruct (dhcp_option_next buf) as [[o rest]|]; [|done]. destruct IH as (Ho & Hr & Hl). split; [done|]. split; [done|]. cbn. lia.
  - destruct buf as [|len data]; [done|]. apply bytes_ok_cons in Hb as [Hlen Hd]. destr_if; [done|]. rewrite !Zlen_cons in Hif.
    assert (Hz : Zlen (sub data 0 len) = len) by (rewrite Zlen_sub; mlia).
    split; [split; [split; [done|split; [by apply bytes_ok_sub | cbn [do_data]; rewrite Hz; mlia]] | by split]|].
    split; [by apply bytes_ok_drop|]. cbn. rewrite length_drop. lia.
Qed.

Lemma dhcp_options_fuel_wp fuel : forall buf, bytes_ok buf -> (length buf <= fuel)%nat -> wp (dhcp_options_fuel fuel buf) (Forall option_shown).
Proof.
  induction fuel as [|fuel IH]; intros buf Hb Hf; cbn [dhcp_options_fuel]; pose proof (dhcp_option_next_wp buf Hb) as Hn.
  - destruct (dhcp_option_next buf) as [[o rest]|]; [lia | constructor].
  - destruct (dhcp_option_next buf) as [[o rest]|]; [|constructor]. destruct Hn as (Ho & Hr & Hl).
    wp_bind_with IH; [done | lia |]. intros l Hl'. by constructor.
Qed.

(** ** Well-formed representations *)

Section Facts.
Context `{NetworkEndianLaws} `{!HeaplessVec (list Z)} `{!HeaplessVecLaws (list Z) MAX_DNS_SERVER_COUNT}.
Implicit Types (r : DhcpRepr) (buffer : list Z).

(** The kinds that parsing reads, padding and the end. *)
Definition dhcp_known_kinds : list Z := [0; 255; 53; 50; 61; 54; 3; 1; 57; 58; 59; 51; 55; 6].

Definition message_type_ok (m : DhcpMessageType) : Prop := in_u8 (dhcp_message_into m) /\ dhcp_message_from (dhcp_message_into m) = m.

Record dhcp_repr_ok r : Prop := {
  dro_message_type : message_type_ok (dr_message_type r);
  dro_transaction_id : in_u32 (dr_transaction_id r);
  dro_secs : in_u16 (dr_secs r);
  dro_client_hardware_address : ethernet_addr_ok (dr_client_hardware_address r);
  dro_client_ip : v4_ok (dr_client_ip r);
  dro_your_ip : v4_ok (dr_your_ip r);
  dro_server_ip : v4_ok (dr_server_ip r);
  dro_relay_agent_ip : v4_ok (dr_relay_agent_ip r);
  dro_router : opt_prop v4_ok (dr_router r);
  dro_subnet_mask : opt_prop v4_ok (dr_subnet_mask r);
  dro_requested_ip : opt_prop v4_ok (dr_requested_ip r);
  dro_client_identifier : opt_prop ethernet_addr_ok (dr_client_identifier r);
  dro_server_identifier : opt_prop v4_ok (dr_server_identifier r);
  dro_parameter_request_list : opt_prop (fun l => bytes_ok l /\ Zlen l <= 255) (dr_parameter_request_list r);
  dro_dns_servers : opt_prop (fun v => Forall v4_ok (hv_elems v)) (dr_dns_servers r);
  dro_max_size : opt_prop in_u16 (dr_max_size r);
  dro_lease_duration : opt_prop in_u32 (dr_lease_duration r);
  dro_renew_duration : opt_prop in_u32 (dr_renew_duration r);
  dro_rebind_duration : opt_prop in_u32 (dr_rebind_duration r);
}.

(** ** The header *)

Definition dhcp_hdr (op ht hl hops xid secs flags ci yi si gi ch sname file magic : Z) (rest : list Z) : list Z :=
  layout_bytes [(1%nat, op); (1%nat, ht); (1%nat, hl); (1%nat, hops); (4%nat, xid); (2%nat, secs); (2%nat, flags); (4%nat, ci); (4%nat, yi);
    (4%nat, si); (4%nat, gi); (6%nat, ch); (74%nat, sname); (128%nat, file); (4%nat, magic)] ++ rest.

Lemma Zlen_dhcp_hdr op ht hl hops xid secs flags ci yi si gi ch sname file magic rest :
  Zlen (dhcp_hdr op ht hl hops xid secs flags ci yi si gi ch sname file magic rest) = 240 + Zlen rest.
Proof. unfold dhcp_hdr. by rewrite Zlen_app, Zlen_layout_bytes. Qed.

Lemma dhcp_hdr_view bs : bytes_ok bs -> 240 <= Zlen bs ->
  exists op ht hl hops xid secs flags ci yi si gi ch sname file magic rest,
    bs = dhcp_hdr op ht hl hops xid secs flags ci yi si gi ch sname file magic rest /\ bytes_ok rest /\
    in_u8 op /\ in_u8 ht /\ in_u8 hl /\ in_u32 xid /\ in_u16 secs /\ in_u16 flags /\ in_u32 magic.
Proof.
  intros Hb Hl. fields [1; 1; 1; 1; 4; 2; 2; 4; 4; 4; 4; 6; 74; 128; 4]%nat bs l rest E Hr.
  do 16 eexists. split; [reflexivity|]. split; [done|]. change (256 ^ Z.of_nat 4) with (2 ^ 32) in *. split_and!; mlia.
Qed.

Lemma be_bytes_zero n : be_bytes n 0 = replicate n 0.
Proof.
  induction n as [|n IH]; [done|]. cbn [be_bytes]. change (0 / 256) with 0. change (0 mod 256) with 0. rewrite IH.
  change [0] with (replicate 1 0). rewrite <- replicate_add. by rewrite Nat.add_comm.
Qed.

Section Header.
Variables op ht hl hops xid secs flags ci yi si gi ch sname file magic : Z.
Variable rest : list Z.
Abbreviation h := (dhcp_hdr op ht hl hops xid secs flags ci yi si gi ch sname file magic rest).

Ltac byte_get i := intros; unfold dhcp_hdr; by erewrite (layout_index i) by (reflexivity || done).
Ltac addr_get i := unfold dhcp_hdr; erewrite (layout_get i) by reflexivity; rewrite bind_Ret; apply copy_from_slice_ok; by rewrite Zlen_be_bytes.

Lemma dhcp_opcode_ok : in_u8 op -> dhcp_opcode h = Ret (dhcp_opcode_from op).
Proof. unfold dhcp_opcode. byte_get 0%nat. Qed.
Lemma dhcp_hardware_type_ok : in_u8 ht -> dhcp_hardware_type h = Ret (arp_hardware_from ht).
Proof. unfold dhcp_hardware_type. byte_get 1%nat. Qed.
Lemma dhcp_hardware_len_ok : in_u8 hl -> dhcp_hardware_len h = Ret hl.
Proof. unfold dhcp_hardware_len. byte_get 2%nat. Qed.
Lemma dhcp_transaction_id_ok : in_u32 xid -> dhcp_transaction_id h = Ret xid.
Proof. intros. unfold dhcp_transaction_id, dhcp_hdr. by erewrite (layout_read_u32 4) by (reflexivity || done). Qed.
Lemma dhcp_secs_ok : in_u16 secs -> dhcp_secs h = Ret secs.
Proof. intros. unfold dhcp_secs, dhcp_hdr. by erewrite (layout_read_u16 5) by (reflexivity || done). Qed.
Lemma dhcp_flags_ok : in_u16 flags -> dhcp_flags h = Ret (dhcp_flags_truncate flags).
Proof. intros. unfold dhcp_flags, dhcp_hdr. by erewrite (layout_read_u16 6) by (reflexivity || done). Qed.
Lemma dhcp_client_ip_ok : dhcp_client_ip h = Ret (be_bytes 4 ci).
Proof. unfold dhcp_client_ip. addr_get 7%nat. Qed.
Lemma dhcp_your_ip_ok : dhcp_your_ip h = Ret (be_bytes 4 yi).
Proof. unfold dhcp_your_ip. addr_get 8%nat. Qed.
Lemma dhcp_server_ip_ok : dhcp_server_ip h = Ret (be_bytes 4 si).
Proof. unfold dhcp_server_ip. addr_get 9%nat. Qed.
Lemma dhcp_relay_agent_ip_ok : dhcp_relay_agent_ip h = Ret (be_bytes 4 gi).
Proof. unfold dhcp_relay_agent_ip. addr_get 10%nat. Qed.
Lemma dhcp_client_hardware_address_ok : dhcp_client_hardware_address h = Ret (be_bytes 6 ch).
Proof. unfold dhcp_client_hardware_address. addr_get 11%nat. Qed.
Lemma dhcp_magic_number_ok : in_u32 magic -> dhcp_magic_number h = Ret magic.
Proof. intros. unfold dhcp_magic_number, dhcp_hdr. by erewrite (layout_read_u32 14) by (reflexivity || done). Qed.
Lemma dhcp_options_ok : dhcp_options h = dhcp_options_fuel (length rest) rest.
Proof.
  unfold dhcp_options. assert (E : slice h 240 (Zlen h) = Ret rest); [|by rewrite E].
  rewrite Zlen_dhcp_hdr. unfold dhcp_hdr. rewrite <- (app_nil_r rest) at 1. apply slice_mid; [done | lia].
Qed.
End Header.

(** Emitting writes every field of the header. *)
Lemma dhcp_emit_header_ok r buffer :
  dhcp_repr_ok r -> bytes_ok buffer -> 240 <= Zlen buffer ->
  dhcp_emit_header r buffer = Ret (dhcp_hdr (dhcp_opcode_into (dhcp_message_opcode (dr_message_type r))) 1 6 0 (dr_transaction_id r) (dr_secs r)
    (if dr_broadcast r then DHCP_BROADCAST else 0) (be_value (dr_client_ip r)) (be_value (dr_your_ip r)) (be_value (dr_server_ip r))
    (be_value (dr_relay_agent_ip r)) (be_value (dr_client_hardware_address r)) 0 0 DHCP_MAGIC_NUMBER (drop 240 buffer)).
Proof.
  intros Hr Hb Hl. destruct (dhcp_hdr_view buffer Hb Hl) as (op & ht & hl & hops & xid & secs & flags & ci & yi & si & gi & ch & sname & file & magic & rest & -> & _).
  assert (Hd : drop 240 (dhcp_hdr op ht hl hops xid secs flags ci yi si gi ch sname file magic rest) = rest).
  { unfold dhcp_hdr. apply drop_app_length'. pose proof (Zlen_layout_bytes [(1%nat, op); (1%nat, ht); (1%nat, hl); (1%nat, hops); (4%nat, xid); (2%nat, secs);
      (2%nat, flags); (4%nat, ci); (4%nat, yi); (4%nat, si); (4%nat, gi); (6%nat, ch); (74%nat, sname); (128%nat, file); (4%nat, magic)]) as Hz.
    change (layout_len _) with 240 in Hz. unfold Zlen in Hz. lia. }
  rewrite Hd. unfold dhcp_emit_header, dhcp_set_sname_and_boot_file_to_zero.
  assert (Hz : forall n v, (fun d : list Z => Ret (replicate (length d) 0) : res (list Z)) (be_bytes n v) = Ret (be_bytes n 0)).
  { intros n v. rewrite be_bytes_zero. pose proof (Zlen_be_bytes n v). unfold Zlen in *. do 2 f_equal. lia. }
  pose proof (dro_message_type _ Hr) as [Hm1 Hm2]. destruct Hr as [_ Hx Hs [Hc1 Hc2] [Hi1 Hi2] [Hy1 Hy2] [Hsi1 Hsi2] [Hg1 Hg2] _ _ _ _ _ _ _ _ _ _ _].
  unfold Zlen in Hi2, Hy2, Hsi2, Hg2. unfold dhcp_hdr.
  erewrite (layout_set 12) by (reflexivity || apply Hz). rewrite bind_Ret. erewrite (layout_set 13) by (reflexivity || apply Hz). rewrite bind_Ret.
  assert (Ho : in_u8 (dhcp_opcode_into (dhcp_message_opcode (dr_message_type r)))) by (destruct (dr_message_type r); by vm_compute).
  unfold dhcp_set_opcode. erewrite (layout_index_set 0) by (reflexivity || done). rewrite bind_Ret.
  unfold dhcp_set_hardware_type. cbv zeta. change (arp_hardware_into ArpEthernet) with 1. cbn [passert Z.leb u8_max Z.compare Pos.compare Pos.compare_cont].
  rewrite bind_Ret. change (wrap_u 8 1) with 1. erewrite (layout_index_set 1) by (reflexivity || mlia). rewrite bind_Ret.
  unfold dhcp_set_hardware_len. erewrite (layout_index_set 2) by (reflexivity || mlia). rewrite bind_Ret.
  unfold dhcp_set_transaction_id. erewrite (layout_write_u32 4) by (reflexivity || done). rewrite bind_Ret.
  unfold dhcp_set_client_hardware_address. erewrite (layout_copy 11) by (reflexivity || done). rewrite bind_Ret.
  unfold dhcp_set_hops. erewrite (layout_index_set 3) by (reflexivity || mlia). rewrite bind_Ret.
  unfold dhcp_set_secs. erewrite (layout_write_u16 5) by (reflexivity || done). rewrite bind_Ret.
  unfold dhcp_set_magic_number. erewrite (layout_write_u32 14) by (reflexivity || mlia). rewrite bind_Ret.
  unfold dhcp_set_client_ip. erewrite (layout_copy 7) by (reflexivity || done || lia). rewrite bind_Ret.
  unfold dhcp_set_your_ip. erewrite (layout_copy 8) by (reflexivity || done || lia). rewrite bind_Ret.
  unfold dhcp_set_server_ip. erewrite (layout_copy 9) by (reflexivity || done || lia). rewrite bind_Ret.
  unfold dhcp_set_relay_agent_ip. erewrite (layout_copy 10) by (reflexivity || done || lia). rewrite bind_Ret.
  unfold dhcp_set_flags. assert (Hf : in_u16 (if dr_broadcast r then DHCP_BROADCAST else 0)) by (destruct (dr_broadcast r); by vm_compute).
  erewrite (layout_write_u16 6) by (reflexivity || done). reflexivity.
Qed.

(** ** Emitting the options *)

Definition option_list {A} (kind : Z) (data : A -> list Z) (o : option A) : list DhcpOption :=
  match o with Some val => [mkDhcpOption kind (data val)] | None => [] end.

(** What is emitted, in order. *)
Definition dhcp_options_of r : list DhcpOption :=
  mkDhcpOption OPT_DHCP_MESSAGE_TYPE [dhcp_message_into (dr_message_type r)]
  :: option_list OPT_CLIENT_ID (cons 1) (dr_client_identifier r)
  ++ option_list OPT_SERVER_IDENTIFIER id (dr_server_identifier r) ++ option_list OPT_ROUTER id (dr_router r)
  ++ option_list OPT_SUBNET_MASK id (dr_subnet_mask r) ++ option_list OPT_REQUESTED_IP id (dr_requested_ip r)
  ++ option_list OPT_MAX_DHCP_MESSAGE_SIZE (be_bytes 2) (dr_max_size r) ++ option_list OPT_IP_LEASE_TIME (be_bytes 4) (dr_lease_duration r)
  ++ option_list OPT_PARAMETER_REQUEST_LIST id (dr_parameter_request_list r)
  ++ option_list OPT_DOMAIN_NAME_SERVER (fun v => concat (hv_elems v)) (dr_dns_servers r)
  ++ dr_additional_options r.

Lemma emit_additional_app l1 l2 w :
  dhcp_emit_additional (l1 ++ l2) w = (w ←? dhcp_emit_additional l1 w; dhcp_emit_additional l2 w).
Proof.
  revert w. induction l1 as [|o l1 IH]; intros w; [done|]. cbn [app dhcp_emit_additional]. unfold try_bind.
  destruct (option_writer_emit w o) as [[w'|e]|]; cbn; [apply IH | done | done].
Qed.

Lemma emit_some_ok {A} (o : option A) kind (data : A -> res (list Z)) (bytes : A -> list Z) w :
  opt_prop (fun val => data val = Ret (bytes val)) o ->
  dhcp_emit_some o kind data w = dhcp_emit_additional (option_list kind bytes o) w.
Proof.
  intros Hd. unfold dhcp_emit_some. destruct o as [val|]; [|done]. cbn in Hd. rewrite Hd. cbn [option_list dhcp_emit_additional]. unfold try_bind.
  rewrite bind_Ret. by destruct (option_writer_emit w _) as [[w'|e]|].
Qed.

Lemma client_id_data_ok a : ethernet_addr_ok a -> dhcp_client_id_data a = Ret (1 :: a).
Proof.
  intros [Hb Hl]. unfold dhcp_client_id_data. change (wrap_u 8 _) with 1. change (index_set (replicate 7 0) 0 1) with (Ret (1 :: replicate 6 0) : res (list Z)).
  rewrite bind_Ret. pose proof (slice_mut_mid [1] (replicate 6 0) a [] 1 7 (fun d => copy_from_slice d a) eq_refl eq_refl) as E.
  rewrite !app_nil_r in E. apply E; [apply copy_from_slice_ok; unfold Zlen; by rewrite Hl | done].
Qed.

Lemma copy_servers_ok addrs : forall prev n,
  Forall v4_ok addrs -> length prev = (4 * Z.to_nat n)%nat -> 0 <= n ->
  forall rest, length rest = (4 * length addrs)%nat -> forall tail,
  dhcp_copy_servers n addrs (prev ++ rest ++ tail) = Ret (prev ++ concat addrs ++ tail).
Proof.
  induction addrs as [|a addrs IH]; intros prev n Ha Hp Hn rest Hr tail; cbn [dhcp_copy_servers concat].
  { destruct rest; [done | cbn in Hr; lia]. }
  apply Forall_cons_iff in Ha as [[Hb Hl] Ha]. unfold Zlen in Hl.
  rewrite <- (take_drop 4 rest). rewrite <- !app_assoc.
  assert (Ht : length (take 4 rest) = 4%nat) by (cbn [length] in Hr; rewrite length_take; lia).
  rewrite (slice_mut_mid prev (take 4 rest) a); [| unfold Zlen; lia | unfold Zlen; lia | apply copy_from_slice_ok; unfold Zlen; lia | lia].
  rewrite bind_Ret, (app_assoc prev a). rewrite IH; [by rewrite <- app_assoc | done | rewrite length_app; lia | lia |].
  cbn [length] in Hr. rewrite length_drop. lia.
Qed.

Lemma concat_length4 (l : list (list Z)) : Forall v4_ok l -> length (concat l) = (4 * length l)%nat.
Proof. induction 1 as [|a l [_ Ha] _ IH]; [done|]. cbn [concat length]. rewrite length_app, IH. unfold Zlen in Ha. lia. Qed.

Lemma servers_data_ok v : Forall v4_ok (hv_elems v) -> dhcp_servers_data v = Ret (concat (hv_elems v)).
Proof.
  intros Hv. pose proof (hv_bounded (capacity := MAX_DNS_SERVER_COUNT) v) as Hb. unfold MAX_DNS_SERVER_COUNT in Hb. unfold dhcp_servers_data.
  assert (Er : replicate (MAX_DNS_SERVER_COUNT * 4) 0 = replicate (4 * length (hv_elems v)) 0 ++ replicate (12 - 4 * length (hv_elems v)) 0)
    by (rewrite <- replicate_add; f_equal; unfold MAX_DNS_SERVER_COUNT; lia).
  pose proof (copy_servers_ok (hv_elems v) [] 0 Hv eq_refl ltac:(lia) (replicate (4 * length (hv_elems v)) 0) (length_replicate _ _)
    (replicate (12 - 4 * length (hv_elems v)) 0)) as Ec. cbn [app] in Ec. rewrite Er, Ec, bind_Ret.
  apply (slice_mid [] (concat (hv_elems v))); [done|]. unfold Zlen. rewrite concat_length4 by done. lia.
Qed.

Lemma try_bind_assoc {A B C} (m : res (result A WireError)) (f : A -> res (result B WireError)) (g : B -> res (result C WireError)) :
  try_bind (try_bind m f) g = try_bind m (fun a => try_bind (f a) g).
Proof. unfold try_bind. by destruct m as [[a|e]|]. Qed.

Lemma try_bind_ext {A B} (m m' : res (result A WireError)) (f f' : A -> res (result B WireError)) :
  m = m' -> (forall a, f a = f' a) -> try_bind m f = try_bind m' f'.
Proof. intros <- Hf. unfold try_bind. destruct m as [[a|e]|]; cbn; [apply Hf | done | done]. Qed.

(** The options are emitted one after the other. *)
Lemma dhcp_emit_options_list r w :
  dhcp_repr_ok r -> dhcp_emit_options r w = (w ←? dhcp_emit_additional (dhcp_options_of r) w; option_writer_end w).
Proof.
  intros Hr. unfold dhcp_options_of, dhcp_emit_options. cbn [dhcp_emit_additional]. rewrite try_bind_assoc. apply try_bind_ext; [done|]. clear w. intros w.
  rewrite emit_additional_app, try_bind_assoc. apply try_bind_ext.
  { apply emit_some_ok. pose proof (dro_client_identifier _ Hr). destruct (dr_client_identifier r); [by apply client_id_data_ok | done]. }
  clear w. intros w. do 7 (rewrite emit_additional_app, try_bind_assoc; apply try_bind_ext; [apply emit_some_ok; by case_match || by destruct (_ : option _)|];
    clear w; intros w).
  rewrite emit_additional_app, try_bind_assoc. apply try_bind_ext; [|done].
  apply emit_some_ok. pose proof (dro_dns_servers _ Hr). destruct (dr_dns_servers r); [by apply servers_data_ok | done].
Qed.

(** An option whose kind is none that parsing knows. *)
Definition option_foreign (o : DhcpOption) : Prop := option_fits o /\ (do_kind o ∉ dhcp_known_kinds).

Lemma option_foreign_shown o : option_foreign o -> option_shown o.
Proof.
  intros [Hf Hk]. split; [done|]. split; intros E; apply Hk; rewrite E; unfold dhcp_known_kinds; [by left | by right; left].
Qed.

Lemma option_list_shown {A} kind (data : A -> list Z) (o : option A) :
  in_u8 kind -> kind <> OPT_PAD -> kind <> DHCP_OPT_END -> opt_prop (fun v => bytes_ok (data v) /\ Zlen (data v) <= 255) o ->
  Forall option_shown (option_list kind data o).
Proof. intros Hk Hp He Ho. destruct o as [v|]; [|constructor]. destruct Ho as [Hb Hl]. constructor; [|constructor]. by split. Qed.

Lemma v4_data a : v4_ok a -> bytes_ok (id a) /\ Zlen (id a) <= 255.
Proof. intros [Hb Hl]. unfold id. rewrite Hl. by split. Qed.

Lemma concat_bytes_ok (l : list (list Z)) : Forall v4_ok l -> bytes_ok (concat l).
Proof. induction 1 as [|a l [Ha _] _ IH]; [constructor|]. cbn. by apply bytes_ok_app. Qed.

Lemma dhcp_options_shown r : dhcp_repr_ok r -> Forall option_foreign (dr_additional_options r) -> Forall option_shown (dhcp_options_of r).
Proof.
  intros Hr Ha. unfold dhcp_options_of.
  assert (Hkind : forall kind, in_u8 kind /\ kind <> OPT_PAD /\ kind <> DHCP_OPT_END -> in_u8 kind /\ kind <> OPT_PAD /\ kind <> DHCP_OPT_END) by done.
  constructor; [split; [split; [by vm_compute|split; [constructor; [apply Hr | constructor] | by vm_compute]] | by split]|].
  repeat (apply Forall_app; split); try (apply option_list_shown; [by vm_compute | done | done |]).
  - eapply opt_prop_mono; [apply (dro_client_identifier _ Hr)|]. intros a [Hb Hl]. cbn. split; [by apply bytes_ok_cons|]. rewrite Zlen_cons. unfold Zlen. rewrite Hl. done.
  - eapply opt_prop_mono; [apply (dro_server_identifier _ Hr) | exact v4_data].
  - eapply opt_prop_mono; [apply (dro_router _ Hr) | exact v4_data].
  - eapply opt_prop_mono; [apply (dro_subnet_mask _ Hr) | exact v4_data].
  - eapply opt_prop_mono; [apply (dro_requested_ip _ Hr) | exact v4_data].
  - eapply opt_prop_mono; [apply (dro_max_size _ Hr)|]. intros v _. split; [apply be_bytes_ok | by rewrite Zlen_be_bytes].
  - eapply opt_prop_mono; [apply (dro_lease_duration _ Hr)|]. intros v _. split; [apply be_bytes_ok | by rewrite Zlen_be_bytes].
  - apply (dro_parameter_request_list _ Hr).
  - eapply opt_prop_mono; [apply (dro_dns_servers _ Hr)|]. intros v Hv. split; [by apply concat_bytes_ok|].
    pose proof (hv_bounded (capacity := MAX_DNS_SERVER_COUNT) v) as Hb. unfold MAX_DNS_SERVER_COUNT in Hb. unfold Zlen. rewrite concat_length4 by done. lia.
  - eapply Forall_impl; [exact option_foreign_shown | exact Ha].
Qed.

Lemma options_shown_fit l : Forall option_shown l -> Forall option_fits l.
Proof. intros Hl. eapply Forall_impl; [|exact Hl]. by intros o [Ho _]. Qed.

(** Options that fit are written one after the other. *)
Lemma emit_additional_ok l : forall w, Forall option_fits l -> Zlen (options_bytes l) <= Zlen (ow_buffer w) ->
  dhcp_emit_additional l w = Ret (Ok (mkDhcpOptionWriter (ow_written w ++ options_bytes l) (drop (length (options_bytes l)) (ow_buffer w)))).
Proof.
  induction l as [|o l IH]; intros w Hl Hz; cbn [dhcp_emit_additional].
  { unfold options_bytes. cbn. rewrite app_nil_r. by destruct w. }
  apply Forall_cons_iff in Hl as [Ho Hl]. change (options_bytes (o :: l)) with (option_bytes o ++ options_bytes l) in *.
  rewrite Zlen_app, Zlen_option_bytes in Hz. pose proof (Zlen_nonneg (options_bytes l)). unfold try_bind.
  rewrite option_writer_emit_ok by (done || lia). rewrite bind_Ret. rewrite IH; cbn [ow_buffer ow_written]; [|done|].
  - do 3 f_equal; [by rewrite <- app_assoc|]. by rewrite drop_drop, length_app.
  - pose proof (Zlen_option_bytes o). unfold Zlen in *. rewrite length_drop. lia.
Qed.

Lemma Zlen_options_bytes_cons o l : Zlen (options_bytes (o :: l)) = 2 + Zlen (do_data o) + Zlen (options_bytes l).
Proof. change (options_bytes (o :: l)) with (option_bytes o ++ options_bytes l). by rewrite Zlen_app, Zlen_option_bytes. Qed.

Lemma Zlen_options_bytes_app l1 l2 : Zlen (options_bytes (l1 ++ l2)) = Zlen (options_bytes l1) + Zlen (options_bytes l2).
Proof. unfold options_bytes. by rewrite bind_app, Zlen_app. Qed.

Lemma Zlen_option_list {A} kind (data : A -> list Z) (o : option A) (n : A -> Z) :
  opt_prop (fun v => 2 + Zlen (data v) = n v) o ->
  Zlen (options_bytes (option_list kind data o)) = match o with Some v => n v | None => 0 end.
Proof.
  intros Ho. destruct o as [v|]; [|done]. cbn [option_list]. rewrite Zlen_options_bytes_cons. cbn [do_data]. rewrite Ho.
  change (Zlen (options_bytes [])) with 0. lia.
Qed.

Lemma v4_option_len (o : option (list Z)) : opt_prop v4_ok o -> opt_prop (fun v => 2 + Zlen (id v) = 6) o.
Proof. intros Ho. eapply opt_prop_mono; [exact Ho|]. intros a [_ Hz]. unfold id. lia. Qed.

(** The length that is promised is that of the header, the options and the end option. *)
Lemma dhcp_buffer_len_ok r : dhcp_repr_ok r -> dhcp_buffer_len r = 240 + Zlen (options_bytes (dhcp_options_of r)) + 1.
Proof.
  intros Hr. unfold dhcp_options_of. rewrite Zlen_options_bytes_cons, !Zlen_options_bytes_app. cbn [do_data].
  assert (Ha : forall l, foldr (fun opt len => 2 + Zlen (do_data opt) + len) 0 l = Zlen (options_bytes l)).
  { induction l as [|o l IH]; [done|]. cbn [foldr]. by rewrite IH, Zlen_options_bytes_cons. }
  rewrite (Zlen_option_list _ _ (dr_client_identifier r) (fun _ => 9)), (Zlen_option_list _ _ (dr_parameter_request_list r) (fun l => Zlen l + 2)),
    !(Zlen_option_list _ id _ (fun _ => 6)), (Zlen_option_list _ _ (dr_max_size r) (fun _ => 4)),
    (Zlen_option_list _ _ (dr_lease_duration r) (fun _ => 6)), (Zlen_option_list _ _ (dr_dns_servers r) (fun v => 2 + Zlen (hv_elems v) * 4)).
  - unfold dhcp_buffer_len. rewrite Ha. change (Zlen [dhcp_message_into (dr_message_type r)]) with 1. cbv zeta. lia.
  - eapply opt_prop_mono; [apply (dro_dns_servers _ Hr)|]. intros v Hv. unfold Zlen. rewrite concat_length4 by done. lia.
  - destruct (dr_lease_duration r); [cbn [opt_prop]; by rewrite Zlen_be_bytes | done].
  - destruct (dr_max_size r); [cbn [opt_prop]; by rewrite Zlen_be_bytes | done].
  - apply v4_option_len, (dro_requested_ip _ Hr).
  - apply v4_option_len, (dro_subnet_mask _ Hr).
  - apply v4_option_len, (dro_router _ Hr).
  - apply v4_option_len, (dro_server_identifier _ Hr).
  - destruct (dr_parameter_request_list r); [cbn [opt_prop]; unfold id; lia | done].
  - eapply opt_prop_mono; [apply (dro_client_identifier _ Hr)|]. intros a [_ Hz]. rewrite Zlen_cons. unfold Zlen. rewrite Hz. lia.
Qed.

(** A packet: the header, the options, the end option and what follows in the buffer. *)
Lemma dhcp_emit_ok r buffer :
  dhcp_repr_ok r -> Forall option_foreign (dr_additional_options r) -> bytes_ok buffer -> dhcp_buffer_len r <= Zlen buffer ->
  dhcp_emit r buffer = Ret (Ok (dhcp_hdr (dhcp_opcode_into (dhcp_message_opcode (dr_message_type r))) 1 6 0 (dr_transaction_id r) (dr_secs r)
    (if dr_broadcast r then DHCP_BROADCAST else 0) (be_value (dr_client_ip r)) (be_value (dr_your_ip r)) (be_value (dr_server_ip r))
    (be_value (dr_relay_agent_ip r)) (be_value (dr_client_hardware_address r)) 0 0 DHCP_MAGIC_NUMBER
    (options_bytes (dhcp_options_of r) ++ DHCP_OPT_END :: drop (Z.to_nat (dhcp_buffer_len r)) buffer))).
Proof.
  intros Hr Ha Hb Hl. pose proof (dhcp_buffer_len_ok r Hr) as El. pose proof (Zlen_nonneg (options_bytes (dhcp_options_of r))) as Hz.
  unfold dhcp_emit. rewrite dhcp_emit_header_ok by (done || lia). rewrite bind_Ret. unfold dhcp_options_mut, dhcp_hdr.
  set (front := layout_bytes _). assert (Hf : Zlen front = 240) by apply Zlen_layout_bytes.
  set (rest := drop 240 buffer). assert (Hrest : Zlen rest = Zlen buffer - 240) by (unfold rest, Zlen in *; rewrite length_drop; lia).
  rewrite (slice_mid [] front rest 0 240 eq_refl ltac:(lia) : slice (front ++ rest) 0 240 = _), bind_Ret.
  pose proof (slice_mid front rest [] 240 (Zlen (front ++ rest)) ltac:(lia) ltac:(rewrite Zlen_app; lia)) as E. rewrite app_nil_r in E. rewrite E, bind_Ret.
  rewrite dhcp_emit_options_list, try_bind_assoc by done. unfold try_bind at 1.
  rewrite emit_additional_ok; [|by apply options_shown_fit, dhcp_options_shown | cbn [ow_buffer option_writer_new]; lia].
  rewrite bind_Ret. cbn [ow_written ow_buffer option_writer_new app]. unfold option_writer_end. cbn [ow_buffer ow_written].
  set (n := length (options_bytes (dhcp_options_of r))).
  assert (Hn : (n < length rest)%nat) by (unfold n, Zlen in *; lia).
  destruct (drop n rest) as [|x tail] eqn:Ed; [apply (f_equal length) in Ed; rewrite length_drop in Ed; cbn [length] in Ed; lia|].
  rewrite bool_decide_false by done. rewrite (index_set_app [] x tail DHCP_OPT_END 0 eq_refl : index_set (x :: tail) 0 DHCP_OPT_END = _), bind_Ret. unfold try_bind.
  rewrite bind_Ret. cbn [ow_written ow_buffer app]. rewrite app_nil_r. do 4 f_equal. f_equal.
  apply (f_equal (drop 1)) in Ed. change (drop 1 (x :: tail)) with tail in Ed. rewrite drop_drop in Ed. rewrite <- Ed. unfold rest. rewrite drop_drop. f_equal. unfold n, Zlen in *. lia.
Qed.

(** ** Parsing what was emitted *)

Lemma parse_options_app buffer l1 l2 acc :
  dhcp_parse_options buffer acc (l1 ++ l2) = (acc ←? dhcp_parse_options buffer acc l1; dhcp_parse_options buffer acc l2).
Proof.
  revert acc. induction l1 as [|o l1 IH]; intros acc; [done|]. cbn [app dhcp_parse_options]. unfold try_bind.
  destruct (dhcp_parse_option buffer acc o) as [[acc'|e]|]; cbn; [apply IH | done | done].
Qed.

(** An option that may be there sets its field, which was not set before. *)
Lemma parse_field {A} (P : A -> Prop) kind (data : A -> list Z) (set_field : DhcpRepr -> option A -> DhcpRepr) (get : DhcpRepr -> option A)
    (o : option A) buffer m r rest :
  (forall v, P v -> dhcp_parse_option buffer (m, r) (mkDhcpOption kind (data v)) = Ret (Ok (m, set_field r (Some v)))) ->
  opt_prop P o -> set_field r (get r) = r -> get r = None ->
  dhcp_parse_options buffer (m, r) (option_list kind data o ++ rest) = dhcp_parse_options buffer (m, set_field r o) rest.
Proof.
  intros Hp Ho Hs Hg. rewrite Hg in Hs. destruct o as [v|]; [|by rewrite Hs].
  cbn [option_list app dhcp_parse_options]. unfold try_bind. by rewrite Hp.
Qed.

Lemma v4_octets a : v4_ok a -> exists w x y z, a = [w; x; y; z].
Proof. intros [_ Hl]. unfold Zlen in Hl. destruct a as [|w [|x [|y [|z [|]]]]]; cbn in Hl; try lia. by exists w, x, y, z. Qed.

Lemma parse_address_option set_field kind buffer m r a :
  (kind, set_field) ∈ [(OPT_REQUESTED_IP, dr_set_requested_ip); (OPT_SERVER_IDENTIFIER, dr_set_server_identifier); (OPT_ROUTER, dr_set_router);
    (OPT_SUBNET_MASK, dr_set_subnet_mask)] ->
  v4_ok a -> dhcp_parse_option buffer (m, r) (mkDhcpOption kind (id a)) = Ret (Ok (m, set_field r (Some a))).
Proof.
  intros Hk Ha. destruct (v4_octets a Ha) as (w & x & y & z & ->).
  repeat (apply elem_of_cons in Hk as [[= -> ->]|Hk]; [reflexivity|]). by apply elem_of_nil in Hk.
Qed.

Lemma parse_client_option buffer m r a : ethernet_addr_ok a ->
  dhcp_parse_option buffer (m, r) (mkDhcpOption OPT_CLIENT_ID (1 :: a)) = Ret (Ok (m, dr_set_client_identifier r (Some a))).
Proof. intros [_ Hl]. do 6 (destruct a as [|? a]; [discriminate|]). by destruct a. Qed.

Lemma be_value_2 v : in_u16 v -> be_value (be_bytes 2 v) = v.
Proof. intros Hv. rewrite be_value_bytes. apply Z.mod_small. change (256 ^ Z.of_nat 2) with 65536. mlia. Qed.
Lemma be_value_4 v : in_u32 v -> be_value (be_bytes 4 v) = v.
Proof. intros Hv. rewrite be_value_bytes. apply Z.mod_small. change (256 ^ Z.of_nat 4) with (2 ^ 32). mlia. Qed.

Lemma parse_max_size_option buffer m r v : in_u16 v ->
  dhcp_parse_option buffer (m, r) (mkDhcpOption OPT_MAX_DHCP_MESSAGE_SIZE (be_bytes 2 v)) = Ret (Ok (m, dr_set_max_size r (Some v))).
Proof. intros Hv. transitivity (Ret (Ok (m, dr_set_max_size r (Some (be_value (be_bytes 2 v))))) : res (result _ WireError)); [reflexivity | by rewrite be_value_2]. Qed.

Lemma parse_lease_option buffer m r v : in_u32 v ->
  dhcp_parse_option buffer (m, r) (mkDhcpOption OPT_IP_LEASE_TIME (be_bytes 4 v)) = Ret (Ok (m, dr_set_lease_duration r (Some v))).
Proof. intros Hv. transitivity (Ret (Ok (m, dr_set_lease_duration r (Some (be_value (be_bytes 4 v))))) : res (result _ WireError)); [reflexivity | by rewrite be_value_4]. Qed.

Lemma parse_list_option buffer m r l :
  dhcp_parse_option buffer (m, r) (mkDhcpOption OPT_PARAMETER_REQUEST_LIST (id l)) = Ret (Ok (m, dr_set_parameter_request_list r (Some l))).
Proof. reflexivity. Qed.

Lemma push_servers_ok l : forall v, Forall v4_ok l -> (length (hv_elems v) + length l <= MAX_DNS_SERVER_COUNT)%nat ->
  exists v', dhcp_push_servers (concat l) v = Ret v' /\ hv_elems v' = hv_elems v ++ l.
Proof.
  induction l as [|a l IH]; intros v Hl Hn; [exists v; by rewrite app_nil_r|]. apply Forall_cons_iff in Hl as [Ha Hl].
  destruct (v4_octets a Ha) as (w & x & y & z & ->). cbn [length] in Hn.
  destruct (hv_push_ok (capacity := MAX_DNS_SERVER_COUNT) v [w; x; y; z] ltac:(lia)) as (v1 & Ev & E1).
  destruct (IH v1 Hl ltac:(rewrite E1, length_app; cbn; lia)) as (v2 & E2 & Hv2). exists v2.
  split; [|by rewrite Hv2, E1, <- app_assoc]. transitivity (dhcp_push_servers (concat l) (fst (hv_push v [w; x; y; z]))); [reflexivity|]. by rewrite Ev.
Qed.

Lemma parse_servers_option buffer m r (o : option (hvec (list Z))) : opt_prop (fun v => Forall v4_ok (hv_elems v)) o -> dr_dns_servers r = None ->
  exists servers, dhcp_parse_options buffer (m, r) (option_list OPT_DOMAIN_NAME_SERVER (fun v => concat (hv_elems v)) o) = Ret (Ok (m, dr_set_dns_servers r servers)) /\
    option_map hv_elems servers = option_map hv_elems o.
Proof.
  intros Ho Hr. destruct o as [v|]; [|exists None; split; [|done]; destruct r; cbn in Hr; by subst].
  destruct (push_servers_ok (hv_elems v) hv_new Ho) as (v' & Ev & E'); [rewrite hv_new_elems; apply hv_bounded|]. rewrite hv_new_elems in E'.
  exists (Some v'). split; [|cbn; by rewrite E'].
  transitivity (acc ←? (servers ← dhcp_push_servers (concat (hv_elems v)) hv_new; Ret (Ok (m, dr_set_dns_servers r (Some servers)))); Ret (Ok acc) : res (result _ WireError));
    [reflexivity | by rewrite Ev].
Qed.

Lemma parse_foreign_options buffer acc l : Forall option_foreign l -> dhcp_parse_options buffer acc l = Ret (Ok acc).
Proof.
  induction 1 as [|o l [_ Hk] _ IH]; [done|]. cbn [dhcp_parse_options].
  assert (E : forall c, c ∈ dhcp_known_kinds -> (do_kind o =? c) = false) by (intros c Hc; apply Z.eqb_neq; intros <-; done).
  unfold dhcp_parse_option. destruct acc as [m r]. cbv zeta. unfold dhcp_known_kinds in E.
  rewrite !E by (rewrite !elem_of_cons; tauto). cbn [andb]. exact IH.
Qed.

(** What parsing gives for a packet that was emitted: the times of renewal are not emitted. *)
Definition dhcp_parsed r (servers : option (hvec (list Z))) : DhcpRepr :=
  mkDhcpRepr (dr_message_type r) (dr_transaction_id r) (dr_secs r) (dr_client_hardware_address r) (dr_client_ip r) (dr_your_ip r)
    (dr_server_ip r) (dr_router r) (dr_subnet_mask r) (dr_relay_agent_ip r) (dr_broadcast r) (dr_requested_ip r)
    (dr_client_identifier r) (dr_server_identifier r) (dr_parameter_request_list r) servers (dr_max_size r) (dr_lease_duration r)
    None None [].

(** Nothing was read from the options yet. *)
Record options_unset r : Prop := {
  ou_router : dr_router r = None;
  ou_subnet_mask : dr_subnet_mask r = None;
  ou_requested_ip : dr_requested_ip r = None;
  ou_client_identifier : dr_client_identifier r = None;
  ou_server_identifier : dr_server_identifier r = None;
  ou_parameter_request_list : dr_parameter_request_list r = None;
  ou_dns_servers : dr_dns_servers r = None;
  ou_max_size : dr_max_size r = None;
  ou_lease_duration : dr_lease_duration r = None;
}.

(** The fields that parsing sets, from those of [r]. *)
Definition options_set r0 r (servers : option (hvec (list Z))) : DhcpRepr :=
  dr_set_dns_servers (dr_set_parameter_request_list (dr_set_lease_duration (dr_set_max_size (dr_set_requested_ip (dr_set_subnet_mask (dr_set_router
    (dr_set_server_identifier (dr_set_client_identifier r0 (dr_client_identifier r)) (dr_server_identifier r)) (dr_router r)) (dr_subnet_mask r))
    (dr_requested_ip r)) (dr_max_size r)) (dr_lease_duration r)) (dr_parameter_request_list r)) servers.

(** An element of a list that is written out. *)
Ltac listed := first [left | right; listed].

Lemma parse_known_options r r0 buffer m :
  dhcp_repr_ok r -> Forall option_foreign (dr_additional_options r) -> options_unset r0 ->
  exists servers, dhcp_parse_options buffer (m, r0) (tail (dhcp_options_of r)) = Ret (Ok (m, options_set r0 r servers)) /\
    option_map hv_elems servers = option_map hv_elems (dr_dns_servers r).
Proof.
  intros Hr Ha Hu. unfold dhcp_options_of, options_set. cbn [tail].
  assert (Hset : forall r', dr_set_client_identifier r' (dr_client_identifier r') = r' /\ dr_set_server_identifier r' (dr_server_identifier r') = r' /\
    dr_set_router r' (dr_router r') = r' /\ dr_set_subnet_mask r' (dr_subnet_mask r') = r' /\ dr_set_requested_ip r' (dr_requested_ip r') = r' /\
    dr_set_max_size r' (dr_max_size r') = r' /\ dr_set_lease_duration r' (dr_lease_duration r') = r' /\
    dr_set_parameter_request_list r' (dr_parameter_request_list r') = r') by (by intros []).
  rewrite (parse_field ethernet_addr_ok _ _ dr_set_client_identifier dr_client_identifier);
    [|intros; by apply parse_client_option | apply Hr | apply Hset | apply Hu]. set (r1 := dr_set_client_identifier r0 _).
  rewrite (parse_field v4_ok _ _ dr_set_server_identifier dr_server_identifier);
    [|intros; apply parse_address_option; [listed | done] | apply Hr | apply Hset | apply Hu]. set (r2 := dr_set_server_identifier r1 _).
  rewrite (parse_field v4_ok _ _ dr_set_router dr_router);
    [|intros; apply parse_address_option; [listed | done] | apply Hr | apply Hset | apply Hu]. set (r3 := dr_set_router r2 _).
  rewrite (parse_field v4_ok _ _ dr_set_subnet_mask dr_subnet_mask);
    [|intros; apply parse_address_option; [listed | done] | apply Hr | apply Hset | apply Hu]. set (r4 := dr_set_subnet_mask r3 _).
  rewrite (parse_field v4_ok _ _ dr_set_requested_ip dr_requested_ip);
    [|intros; apply parse_address_option; [listed | done] | apply Hr | apply Hset | apply Hu]. set (r5 := dr_set_requested_ip r4 _).
  rewrite (parse_field in_u16 _ _ dr_set_max_size dr_max_size);
    [|intros; by apply parse_max_size_option | apply Hr | apply Hset | apply Hu]. set (r6 := dr_set_max_size r5 _).
  rewrite (parse_field in_u32 _ _ dr_set_lease_duration dr_lease_duration);
    [|intros; by apply parse_lease_option | apply Hr | apply Hset | apply Hu]. set (r7 := dr_set_lease_duration r6 _).
  rewrite (parse_field (fun l => bytes_ok l /\ Zlen l <= 255) _ _ dr_set_parameter_request_list dr_parameter_request_list);
    [|intros; apply parse_list_option | apply Hr | apply Hset | apply Hu]. set (r8 := dr_set_parameter_request_list r7 _).
  rewrite parse_options_app. destruct (parse_servers_option buffer m r8 (dr_dns_servers r) (dro_dns_servers _ Hr)) as (servers & Es & Hs); [apply Hu|].
  rewrite Es. unfold try_bind at 1. rewrite bind_Ret, parse_foreign_options by done. by exists servers.
Qed.

Lemma parse_message_option r r0 buffer :
  dhcp_repr_ok r -> dhcp_opcode buffer = Ret (dhcp_message_opcode (dr_message_type r)) ->
  dhcp_parse_options buffer (None, r0) (dhcp_options_of r) = dhcp_parse_options buffer (Some (dr_message_type r), r0) (tail (dhcp_options_of r)).
Proof.
  intros Hr Hop. unfold dhcp_options_of. cbn [dhcp_parse_options tail].
  assert (Em : dhcp_parse_option buffer (None, r0) (mkDhcpOption OPT_DHCP_MESSAGE_TYPE [dhcp_message_into (dr_message_type r)]) =
    Ret (Ok (Some (dr_message_type r), r0))); [|rewrite Em; reflexivity].
  transitivity (opcode ← dhcp_opcode buffer; let value := dhcp_message_from (dhcp_message_into (dr_message_type r)) in
    Ret (Ok (if bool_decide (dhcp_message_opcode value = opcode) then Some value else None, r0)) : res (result _ WireError)); [reflexivity|].
  rewrite Hop, bind_Ret. cbv zeta. destruct (dro_message_type _ Hr) as [_ ->]. by rewrite bool_decide_true.
Qed.

Lemma Zlen_drop {A} n (l : list A) : (n <= length l)%nat -> Zlen (drop n l) = Zlen l - Z.of_nat n.
Proof. unfold Zlen. rewrite length_drop. lia. Qed.

Lemma dhcp_emit_parse_ok r buffer :
  dhcp_repr_ok r -> Forall option_foreign (dr_additional_options r) -> bytes_ok buffer -> dhcp_buffer_len r <= Zlen buffer ->
  exists bs servers, dhcp_emit r buffer = Ret (Ok bs) /\ Zlen bs = Zlen buffer /\ dhcp_parse bs = Ret (Ok (dhcp_parsed r servers)) /\
    option_map hv_elems servers = option_map hv_elems (dr_dns_servers r).
Proof.
  intros Hr Ha Hb Hl. pose proof (dhcp_buffer_len_ok r Hr) as El. pose proof (Zlen_nonneg (options_bytes (dhcp_options_of r))) as Hz.
  rewrite dhcp_emit_ok by done. set (tail := drop _ buffer). set (op := dhcp_opcode_into _). set (flags := if dr_broadcast r then _ else _).
  set (rest := options_bytes (dhcp_options_of r) ++ DHCP_OPT_END :: tail). set (bs := dhcp_hdr _ _ _ _ _ _ _ _ _ _ _ _ _ _ _ rest).
  assert (Hop : in_u8 op) by (unfold op; destruct (dr_message_type r); by vm_compute).
  assert (Hfl : in_u16 flags) by (unfold flags; destruct (dr_broadcast r); by vm_compute).
  set (r0 := mkDhcpRepr (DhcpMsgUnknown 0) (dr_transaction_id r) (dr_secs r) (dr_client_hardware_address r) (dr_client_ip r) (dr_your_ip r)
    (dr_server_ip r) None None (dr_relay_agent_ip r) (dr_broadcast r) None None None None None None None None None []).
  assert (Hopc : dhcp_opcode bs = Ret (dhcp_message_opcode (dr_message_type r))).
  { unfold bs. rewrite dhcp_opcode_ok by done. unfold op. by destruct (dr_message_type r). }
  destruct (parse_known_options r r0 bs (Some (dr_message_type r)) Hr Ha) as (servers & Es & Hs); [by split|]. rewrite <- (parse_message_option r r0 bs Hr Hopc) in Es.
  exists bs, servers. split; [done|]. split; [|split; [|done]].
  { unfold bs, rest. rewrite Zlen_dhcp_hdr, Zlen_app, Zlen_cons. unfold tail. rewrite Zlen_drop by (unfold Zlen in *; lia). unfold Zlen in *. lia. }
  unfold dhcp_parse, dhcp_check_len. unfold bs at 1. rewrite Zlen_dhcp_hdr. pose proof (Zlen_nonneg rest). replace (240 + Zlen rest <? 240) with false by lia.
  unfold bs. rewrite dhcp_transaction_id_ok, bind_Ret by apply Hr. rewrite dhcp_client_hardware_address_ok, bind_Ret.
  rewrite dhcp_client_ip_ok, bind_Ret, dhcp_your_ip_ok, bind_Ret, dhcp_server_ip_ok, bind_Ret, dhcp_relay_agent_ip_ok, bind_Ret.
  rewrite dhcp_secs_ok, bind_Ret by apply Hr. rewrite dhcp_hardware_type_ok, bind_Ret by mlia. change (arp_hardware_from 1) with ArpEthernet. cbv iota.
  rewrite dhcp_hardware_len_ok, bind_Ret by mlia. cbn [Z.eqb Pos.eqb negb]. rewrite dhcp_magic_number_ok, bind_Ret by (by vm_compute). rewrite Z.eqb_refl. cbn [negb].
  assert (Eo : dhcp_options_fuel (length rest) rest = Ret (dhcp_options_of r)).
  { apply dhcp_options_fuel_ok; [by apply dhcp_options_shown|]. pose proof (options_bytes_length (dhcp_options_of r)). unfold rest. rewrite length_app. lia. }
  rewrite dhcp_options_ok, Eo, bind_Ret, dhcp_flags_ok, bind_Ret by done. cbv zeta.
  pose proof (dro_client_hardware_address _ Hr) as [Hc1 Hc2]. rewrite !be_value_v4 by apply Hr.
  rewrite <- Hc2 at 1. rewrite be_bytes_value by done.
  assert (Ef : dhcp_flags_contains (dhcp_flags_truncate flags) DHCP_BROADCAST = dr_broadcast r) by (unfold flags; by destruct (dr_broadcast r)).
  rewrite Ef. fold bs r0. rewrite Es. reflexivity.
Qed.

(** ** Parsing any octets *)

Definition dhcp_acc_ok (acc : option DhcpMessageType * DhcpRepr) : Prop :=
  opt_prop message_type_ok acc.1 /\ dhcp_repr_ok acc.2 /\ dr_additional_options acc.2 = [].

Lemma message_type_from_ok v : in_u8 v -> message_type_ok (dhcp_message_from v).
Proof.
  intros Hv. unfold message_type_ok, dhcp_message_from, dhcp_message_into. destruct v as [|p|p]; [done| |done].
  do 4 (destruct p as [p|p|]; try done).
Qed.

Lemma bytes_v4_ok d : bytes_ok d -> Zlen d = 4 -> wp (ipv4_from_bytes d) v4_ok.
Proof.
  intros Hb Hl. unfold ipv4_from_bytes. rewrite copy_from_slice_ok by (by rewrite Hl). done.
Qed.

Lemma bytes_eth_ok d : bytes_ok d -> Zlen d = 6 -> wp (ethernet_from_bytes d) ethernet_addr_ok.
Proof.
  intros Hb Hl. unfold ethernet_from_bytes. rewrite copy_from_slice_ok by (by rewrite Hl). split; [done|]. unfold Zlen in Hl. lia.
Qed.

Lemma data_u32_wp d : bytes_ok d -> Zlen d = 4 -> wp (dhcp_data_u32 d) in_u32.
Proof.
  intros Hb Hl. unfold dhcp_data_u32. read_as x Hx. read_as y Hy. read_as z Hz. read_as w Hw. apply (be_value_u32 [x; y; z; w]); [|done]. unfold bytes_ok. rewrite !Forall_cons_iff. done.
Qed.

Lemma push_servers_wp n : forall data v, (length data <= n)%nat -> bytes_ok data -> Forall v4_ok (hv_elems v) ->
  wp (dhcp_push_servers data v) (fun v => Forall v4_ok (hv_elems v)).
Proof.
  induction n as [|n IH]; intros data v Hn Hb Hv; (destruct data as [|a [|b [|c [|d data]]]]; [done..|]); cbn [length] in Hn; [lia|].
  apply bytes_ok_cons in Hb as [Ha Hb]. apply bytes_ok_cons in Hb as [Hb Hc]. apply bytes_ok_cons in Hc as [Hc Hd]. apply bytes_ok_cons in Hd as [Hd Hdata].
  cbn [dhcp_push_servers]. assert (Hx : v4_ok [a; b; c; d]) by (split; [unfold bytes_ok; by rewrite !Forall_cons_iff | done]).
  wp_bind_with bytes_v4_ok; [apply Hx | done |]. intros x Hx'. apply IH; [lia | done |].
  destruct (decide (length (hv_elems v) < MAX_DNS_SERVER_COUNT)%nat) as [Hf|Hf].
  - destruct (hv_push_ok (capacity := MAX_DNS_SERVER_COUNT) v x Hf) as (v' & -> & E). cbn [fst]. rewrite E. apply Forall_app. by rewrite Forall_singleton.
  - destruct (hv_push_full (capacity := MAX_DNS_SERVER_COUNT) v x) as (v' & -> & E); [|cbn [fst]; by rewrite E].
    pose proof (hv_bounded (capacity := MAX_DNS_SERVER_COUNT) v). lia.
Qed.

(** The next case of the options, with the length [E] of its data. *)
Ltac option_case E :=
  match goal with
  | |- wp (if ?b && (?x =? ?len) then _ else _) _ =>
      destruct (b && (x =? len)) eqn:E; [apply andb_true_iff in E as [_ E]; apply Z.eqb_eq in E | clear E]
  end.

(** A representation with a new value of a field. *)
Ltac set_field := match goal with Hr : dhcp_repr_ok ?r |- _ => destruct r, Hr; split; [assumption|]; split; [constructor; done | done] end.

(** The body of the loop keeps the values in their ranges. *)
Lemma parse_option_wp buffer acc o : bytes_ok buffer -> 240 <= Zlen buffer -> dhcp_acc_ok acc -> option_shown o ->
  wp (dhcp_parse_option buffer acc o) (fun x => match x with Ok acc => dhcp_acc_ok acc | Err _ => True end).
Proof.
  intros Hb Hl Hacc Ho. destruct acc as [m r]. destruct Hacc as (Hm & Hr & Ha). destruct Ho as [(Hk & Hd & Hn) _]. cbn [fst snd] in *.
  unfold dhcp_parse_option. cbv zeta.
  option_case E; [|option_case E; [|option_case E; [|option_case E; [|option_case E; [|option_case E; [|option_case E; [|option_case E; [|option_case E; [|option_case E]]]]]]]]].
  - read_as x Hx. unfold dhcp_opcode. rewrite bind_assoc. read_as op Hop. rewrite bind_Ret. cbn [wp]. split; [|done]. cbn [fst]. destr_if; [by apply message_type_from_ok | done].
  - wp_bind_with bytes_v4_ok; [done | done |]. intros a Hv. set_field.
  - read_as x Hx. destr_if; [done|]. read_as d Hd'. wp_bind_with bytes_eth_ok; [done | lia |]. intros a Hv. set_field.
  - wp_bind_with bytes_v4_ok; [done | done |]. intros a Hv. set_field.
  - wp_bind_with bytes_v4_ok; [done | done |]. intros a Hv. set_field.
  - wp_bind_with bytes_v4_ok; [done | done |]. intros a Hv. set_field.
  - read_as x Hx. read_as y Hy. assert (Hv : in_u16 (be_value [x; y])); [|set_field].
    apply be_value_u16; [|done]. unfold bytes_ok. by rewrite !Forall_cons_iff.
  - wp_bind_with data_u32_wp; [done | done |]. intros a Hv. set_field.
  - wp_bind_with data_u32_wp; [done | done |]. intros a Hv. set_field.
  - wp_bind_with data_u32_wp; [done | done |]. intros a Hv. set_field.
  - destr_if; [set_field|]. destr_if; [|done]. wp_bind_with (push_servers_wp (length (do_data o))); [done | done | by rewrite hv_new_elems |].
    intros v Hv. set_field.
Qed.

Lemma dhcp_parse_options_wp buffer l : forall acc, bytes_ok buffer -> 240 <= Zlen buffer -> dhcp_acc_ok acc -> Forall option_shown l ->
  wp (dhcp_parse_options buffer acc l) (fun x => match x with Ok acc => dhcp_acc_ok acc | Err _ => True end).
Proof.
  induction l as [|o l IH]; intros acc Hb Hl Hacc Ho; [done|]. apply Forall_cons_iff in Ho as [Ho Hos]. cbn [dhcp_parse_options].
  unfold try_bind. wp_bind_with parse_option_wp; [done..|]. intros [acc'|e] Hacc'; [by apply IH | done].
Qed.

Lemma dhcp_parse_wp buffer : bytes_ok buffer ->
  wp (dhcp_parse buffer) (fun x => match x with Ok r => dhcp_repr_ok r /\ dr_additional_options r = [] /\ 240 <= Zlen buffer | Err _ => True end).
Proof.
  intros Hb. unfold dhcp_parse, dhcp_check_len. destr_if; [done|]. assert (Hl : 240 <= Zlen buffer) by lia.
  unfold dhcp_transaction_id. read_as xid Hxid.
  unfold dhcp_client_hardware_address, dhcp_client_ip, dhcp_your_ip, dhcp_server_ip, dhcp_relay_agent_ip.
  read_as d1 Hd1. wp_bind_with bytes_eth_ok; [done..|]. intros ch Hch.
  read_as d2 Hd2. wp_bind_with bytes_v4_ok; [done..|]. intros ci Hci.
  read_as d3 Hd3. wp_bind_with bytes_v4_ok; [done..|]. intros yi Hyi.
  read_as d4 Hd4. wp_bind_with bytes_v4_ok; [done..|]. intros si Hsi.
  read_as d5 Hd5. wp_bind_with bytes_v4_ok; [done..|]. intros gi Hgi.
  unfold dhcp_secs. read_as secs Hsecs. unfold dhcp_hardware_type. rewrite bind_assoc. read_as ht Hht. rewrite bind_Ret. case_match; [|done].
  unfold dhcp_hardware_len. read_as hl Hhl. destr_if; [done|]. unfold dhcp_magic_number. read_as magic Hmagic. destr_if; [done|].
  unfold dhcp_options. read_as data Hdata. wp_bind_with dhcp_options_fuel_wp; [done | done |]. intros options Ho.
  unfold dhcp_flags. rewrite bind_assoc. read_as flags Hflags. rewrite bind_Ret. cbv zeta. unfold try_bind.
  wp_bind_with dhcp_parse_options_wp; [done | done | | done |].
  { split; [done|]. split; [|done]. by constructor. }
  intros [[[m|] r]|e] Hacc; [|done..]. destruct Hacc as (Hm & Hr & Ha). cbn [fst snd opt_prop wp] in *. destruct r, Hr. cbn. split; [by constructor | done].
Qed.

(** ** Properties *)

(** C35: A DHCP message that is emitted and parsed again is the same message: for every
    representation whose fields are in the ranges of their types, with additional options that are
    none of those the parser knows, emission into any buffer of [buffer_len] octets at least neither
    panics nor fails, keeps the length of the buffer, and the parser reads back every field.  The
    times of renewal and rebinding are not emitted, and additional options are not read. *)
Theorem dhcp_emit_parse r buffer :
  dhcp_repr_ok r -> Forall option_foreign (dr_additional_options r) -> bytes_ok buffer -> dhcp_buffer_len r <= Zlen buffer ->
  exists bs servers, dhcp_emit r buffer = Ret (Ok bs) /\ Zlen bs = Zlen buffer /\ dhcp_parse bs = Ret (Ok (dhcp_parsed r servers)) /\
    option_map hv_elems servers = option_map hv_elems (dr_dns_servers r).
Proof. apply dhcp_emit_parse_ok. Qed.

(** C36: The DHCP parser accepts every sequence of octets without a panic: it ends, reports an error
    for a message shorter than its fixed part, and what it returns has every field in the range of
    its type, so that it can be emitted again, which gives a message that is parsed as the same one
    (without the times of renewal and rebinding, which [emit] does not write). *)
Theorem dhcp_parse_safe buffer : bytes_ok buffer ->
  wp (dhcp_parse buffer) (fun x =>
    match x with
    | Ok r =>
        240 <= Zlen buffer /\ dhcp_repr_ok r /\
        forall out, bytes_ok out -> dhcp_buffer_len r <= Zlen out ->
          wp (dhcp_emit r out) (fun y => exists bs servers, y = Ok bs /\ dhcp_parse bs = Ret (Ok (dhcp_parsed r servers)) /\
            option_map hv_elems servers = option_map hv_elems (dr_dns_servers r))
    | Err _ => True
    end) /\
  (Zlen buffer < 240 -> dhcp_parse buffer = Ret (Err MkWireError)).
Proof.
  intros Hb. split.
  - eapply wp_mono; [by apply dhcp_parse_wp|]. intros [r|e]; [|done]. intros (Hr & Ha & Hl). split; [done|]. split; [done|]. intros out Ho Hn.
    destruct (dhcp_emit_parse_ok r out) as (bs & servers & -> & _ & Ep & Es); [done | by rewrite Ha | done | done |]. by exists bs, servers.
  - intros Hl. unfold dhcp_parse, dhcp_check_len. by replace (Zlen buffer <? 240) with true by lia.
Qed.
End Facts.

(** ** Examples *)

Section Examples.
#[local] Instance example_endian : NetworkEndian := network_endian.
#[local] Instance example_endian_laws : NetworkEndianLaws := network_endian_laws.
#[local] Instance example_servers : HeaplessVec (list Z) := list_vec (list Z) MAX_DNS_SERVER_COUNT.
#[local] Instance example_servers_laws : HeaplessVecLaws (list Z) MAX_DNS_SERVER_COUNT := list_vec_laws (list Z) MAX_DNS_SERVER_COUNT.

Definition dhcp_example : DhcpRepr :=
  mkDhcpRepr DhcpAck 0x12345678 3 [2; 2; 2; 2; 2; 2] [0; 0; 0; 0] [192; 168; 1; 42] [192; 168; 1; 1] (Some [192; 168; 1; 1])
    (Some [255; 255; 255; 0]) [0; 0; 0; 0] true None (Some [2; 2; 2; 2; 2; 2]) (Some [192; 168; 1; 1]) (Some [1; 3; 6])
    (Some (fst (hv_push hv_new [8; 8; 8; 8]))) (Some 1432) (Some 3600) (Some 900) None [mkDhcpOption 12 [0x61; 0x62]].

Lemma dhcp_example_ok : dhcp_repr_ok dhcp_example.
Proof. split; vm_compute; repeat split; repeat constructor; discriminate. Qed.

Lemma dhcp_emit_parse_witness :
  exists bs servers, dhcp_emit dhcp_example (replicate 300 7) = Ret (Ok bs) /\ Zlen bs = Zlen (replicate 300 7) /\
    dhcp_parse bs = Ret (Ok (dhcp_parsed dhcp_example servers)) /\ option_map hv_elems servers = option_map hv_elems (dr_dns_servers dhcp_example).
Proof.
  apply (dhcp_emit_parse dhcp_example (replicate 300 7)).
  - apply dhcp_example_ok.
  - repeat constructor; vm_compute; try discriminate. intros Hk. repeat (inversion Hk as [|? ? ? Hk']; subst; clear Hk; rename Hk' into Hk).
  - by apply Forall_replicate.
  - by vm_compute.
Defined.

Definition dhcp_example_bytes : list Z := match dhcp_emit dhcp_example (replicate 300 7) with Ret (Ok bs) => bs | _ => [] end.

Lemma dhcp_parse_safe_witness :
  wp (dhcp_parse (dhcp_example_bytes)) (fun x =>
    match x with
    | Ok r =>
        240 <= Zlen (dhcp_example_bytes) /\ dhcp_repr_ok r /\
        forall out, bytes_ok out -> dhcp_buffer_len r <= Zlen out ->
          wp (dhcp_emit r out) (fun y => exists bs servers, y = Ok bs /\ dhcp_parse bs = Ret (Ok (dhcp_parsed r servers)) /\
            option_map hv_elems servers = option_map hv_elems (dr_dns_servers r))
    | Err _ => True
    end) /\
  (Zlen (dhcp_example_bytes) < 240 -> dhcp_parse (dhcp_example_bytes) = Ret (Err MkWireError)).
Proof. apply (dhcp_parse_safe (dhcp_example_bytes)). vm_compute; repeat constructor; discriminate. Defined.
End Examples.
