(* ===== verification/Ipv6ExtWire.v ===== *)
(** * IPv6 extension headers, their options and the hop-by-hop header
      (wire/ipv6ext_header.rs, wire/ipv6option.rs, wire/ipv6hbh.rs)

    Definitions as in [Ipv6Wire]; the vector of the options of a hop-by-hop header is that of
    the heapless crate.  The option of RPL is read as an unknown one, as without its feature. *)

From stdpp Require Import gmap.
From S2P Require Import Prelude SeqNumber IpTypes ByteOrder Ipv4Wire Heapless.
#[local] Open Scope wire_scope.

(** ** The extension header *)

Definition EXT_MIN_HEADER_SIZE : Z := 8.

Record Ipv6ExtRepr : Type := mkIpv6ExtRepr { ext_next_header : Z; ext_length : Z; ext_data : list Z }.

Section Ext.
Implicit Types buffer : list Z.

Definition ext_payload_end (length_field : Z) : Z := length_field * 8 + 8.

Definition ext_check_len buffer : res (result unit WireError) :=
  let len := Zlen buffer in
  if len <? EXT_MIN_HEADER_SIZE then Ret (Err MkWireError)
  else
    n ← index buffer 1;
    Ret (if len <? ext_payload_end n then Err MkWireError else Ok tt).

Definition ext_new_checked buffer : res (result (list Z) WireError) :=
  _ ←? ext_check_len buffer; Ret (Ok buffer).

Definition ext_hdr_next_header buffer : res Z := index buffer 0.
Definition ext_hdr_len buffer : res Z := index buffer 1.
Definition ext_payload buffer : res (list Z) := n ← index buffer 1; slice buffer 2 (ext_payload_end n).

Definition ext_set_next_header buffer (v : Z) := index_set buffer 0 v.
Definition ext_set_header_len buffer (v : Z) := index_set buffer 1 v.
Definition ext_payload_mut buffer (f : list Z -> res (list Z)) : res (list Z) :=
  n ← index buffer 1; slice_mut buffer 2 (ext_payload_end n) f.

Definition ext_parse buffer : res (result Ipv6ExtRepr WireError) :=
  _ ←? ext_check_len buffer;
  next_header ← ext_hdr_next_header buffer;
  length ← ext_hdr_len buffer;
  data ← ext_payload buffer;
  Ret (Ok (mkIpv6ExtRepr next_header length data)).

Definition ext_header_len (r : Ipv6ExtRepr) : Z := 2.

Definition ext_emit (r : Ipv6ExtRepr) buffer : res (list Z) :=
  buffer ← ext_set_next_header buffer (ext_next_header r);
  ext_set_header_len buffer (ext_length r).
End Ext.

(** ** Options *)

Inductive Ipv6OptionType : Type := TypePad1 | TypePadN | TypeRouterAlert | TypeRpl | Type6Unknown (id : Z).

Definition option6_type_from (v : Z) : Ipv6OptionType :=
  match v with 0 => TypePad1 | 1 => TypePadN | 5 => TypeRouterAlert | 0x63 => TypeRpl | id => Type6Unknown id end.
Definition option6_type_into (t : Ipv6OptionType) : Z :=
  match t with TypePad1 => 0 | TypePadN => 1 | TypeRouterAlert => 5 | TypeRpl => 0x63 | Type6Unknown id => id end.

Inductive RouterAlert : Type := MulticastListenerDiscovery | Rsvp | ActiveNetworks | AlertUnknown (id : Z).

Definition router_alert_from (v : Z) : RouterAlert :=
  match v with 0 => MulticastListenerDiscovery | 1 => Rsvp | 2 => ActiveNetworks | id => AlertUnknown id end.
Definition router_alert_into (r : RouterAlert) : Z :=
  match r with MulticastListenerDiscovery => 0 | Rsvp => 1 | ActiveNetworks => 2 | AlertUnknown id => id end.

Definition ROUTER_ALERT_DATA_LEN : Z := 2.

Inductive FailureType : Type := FailSkip | FailDiscard | FailDiscardSendAll | FailDiscardSendUnicast.

(** The last arm of the source is unreachable. *)
Definition failure_type_from (value : Z) : res FailureType :=
  match Z.land value 0xc0 with
  | 0x00 => Ret FailSkip | 0x40 => Ret FailDiscard | 0x80 => Ret FailDiscardSendAll | 0xc0 => Ret FailDiscardSendUnicast
  | _ => Panic
  end.

Definition failure_type_into (t : FailureType) : Z :=
  match t with FailSkip => 0x00 | FailDiscard => 0x40 | FailDiscardSendAll => 0x80 | FailDiscardSendUnicast => 0xc0 end.

Definition failure_type_of (t : Ipv6OptionType) : res FailureType := failure_type_from (Z.land (option6_type_into t) 0xc0).

Inductive Ipv6OptionRepr : Type :=
| OptPad1
| OptPadN (length : Z)
| OptRouterAlert (r : RouterAlert)
| OptUnknown6 (type_ : Ipv6OptionType) (length : Z) (data : list Z).

Section Options.
Context `{NetworkEndian}.
Implicit Types buffer : list Z.

(** [DATA(length).end]. *)
Definition option6_data_end (length : Z) : Z := length + 2.

Definition option6_type buffer : res Ipv6OptionType := x ← index buffer 0; Ret (option6_type_from x).
Definition option6_data_len buffer : res Z := index buffer 1.

Definition option6_check_len buffer : res (result unit WireError) :=
  let len := Zlen buffer in
  if len <? 1 then Ret (Err MkWireError)
  else
    t ← option6_type buffer;
    match t with
    | TypePad1 => Ret (Ok tt)
    | _ =>
        if len =? 1 then Ret (Err MkWireError)
        else n ← index buffer 1; Ret (if len <? option6_data_end n then Err MkWireError else Ok tt)
    end.

Definition option6_new_checked buffer : res (result (list Z) WireError) :=
  _ ←? option6_check_len buffer; Ret (Ok buffer).

Definition option6_data buffer : res (list Z) := n ← option6_data_len buffer; slice buffer 2 (option6_data_end n).

Definition option6_set_type buffer (t : Ipv6OptionType) := index_set buffer 0 (option6_type_into t).
Definition option6_set_data_len buffer (v : Z) := index_set buffer 1 v.
Definition option6_data_mut buffer (f : list Z -> res (list Z)) : res (list Z) :=
  n ← option6_data_len buffer; slice_mut buffer 2 (option6_data_end n) f.

Definition option6_parse buffer : res (result Ipv6OptionRepr WireError) :=
  _ ←? option6_check_len buffer;
  t ← option6_type buffer;
  match t with
  | TypePad1 => Ret (Ok OptPad1)
  | TypePadN => n ← option6_data_len buffer; Ret (Ok (OptPadN n))
  | TypeRouterAlert =>
      n ← option6_data_len buffer;
      if n =? ROUTER_ALERT_DATA_LEN then
        d ← option6_data buffer; raw ← read_u16 d; Ret (Ok (OptRouterAlert (router_alert_from raw)))
      else Ret (Err MkWireError)
  | TypeRpl | Type6Unknown _ => n ← option6_data_len buffer; d ← option6_data buffer; Ret (Ok (OptUnknown6 t n d))
  end.

Definition option6_buffer_len (r : Ipv6OptionRepr) : Z :=
  match r with
  | OptPad1 => 1
  | OptPadN length => option6_data_end length
  | OptRouterAlert _ => option6_data_end ROUTER_ALERT_DATA_LEN
  | OptUnknown6 _ length _ => option6_data_end length
  end.

Definition option6_emit (r : Ipv6OptionRepr) buffer : res (list Z) :=
  match r with
  | OptPad1 => option6_set_type buffer TypePad1
  | OptPadN len =>
      buffer ← option6_set_type buffer TypePadN;
      buffer ← option6_set_data_len buffer len;
      option6_data_mut buffer (fun d => Ret (replicate (length d) 0))
  | OptRouterAlert router_alert =>
      buffer ← option6_set_type buffer TypeRouterAlert;
      buffer ← option6_set_data_len buffer ROUTER_ALERT_DATA_LEN;
      option6_data_mut buffer (fun d => write_u16 d (router_alert_into router_alert))
  | OptUnknown6 type_ length data =>
      buffer ← option6_set_type buffer type_;
      buffer ← option6_set_data_len buffer length;
      option6_data_mut buffer (fun d => src ← slice data 0 length; copy_from_slice d src)
  end.

(** [Ipv6OptionsIterator]; its [length] is the length of [data]. *)
Record OptionsIterator : Type := mkOptionsIterator { it_pos : Z; it_data : list Z; it_hit_error : bool }.

Definition iterator_new (data : list Z) : OptionsIterator := mkOptionsIterator 0 data false.

Definition iterator_next (it : OptionsIterator) : res (OptionsIterator * option (result Ipv6OptionRepr WireError)) :=
  if (it_pos it <? Zlen (it_data it)) && negb (it_hit_error it) then
    rest ← slice (it_data it) (it_pos it) (Zlen (it_data it));
    hdr ← option6_new_checked rest;
    r ← match hdr with Ok hdr => option6_parse hdr | Err e => Ret (Err e) end;
    match r with
    | Ok repr => pos ← usize_add (it_pos it) (option6_buffer_len repr); Ret (mkOptionsIterator pos (it_data it) false, Some (Ok repr))
    | Err e => Ret (mkOptionsIterator (it_pos it) (it_data it) true, Some (Err e))
    end
  else Ret (it, None).

(** ** The hop-by-hop header *)

Section HopByHop.
Context `{HeaplessVec Ipv6OptionRepr}.

(** [Repr] of the header: its vector of options. *)
Abbreviation HopByHopRepr := (hvec Ipv6OptionRepr) (only parsing).

Definition hbh_check_len buffer : result unit WireError := if Zlen buffer =? 0 then Err MkWireError else Ok tt.
Definition hbh_new_checked buffer : result (list Z) WireError := match hbh_check_len buffer with Ok _ => Ok buffer | Err e => Err e end.

(** The loop of [parse]: it ends at the end of the octets, at an option that is malformed, and
    when the vector is full. *)
Fixpoint hbh_parse_loop (fuel : nat) (it : OptionsIterator) (options : HopByHopRepr) : res (result HopByHopRepr WireError) :=
  match fuel with
  | O => Panic
  | S fuel =>
      '(it, item) ← iterator_next it;
      match item with
      | None => Ret (Ok options)
      | Some (Err e) => Ret (Err e)
      | Some (Ok repr) =>
          match hv_push options repr with
          | (options, Ok _) => hbh_parse_loop fuel it options
          | (options, Err _) => Ret (Ok options)
          end
      end
  end.

(** An option has at least one octet. *)
Definition hbh_parse buffer : res (result HopByHopRepr WireError) :=
  match hbh_check_len buffer with
  | Err e => Ret (Err e)
  | Ok _ => hbh_parse_loop (S (length buffer)) (iterator_new buffer) hv_new
  end.

Definition hbh_buffer_len (r : HopByHopRepr) : Z := foldr (fun o n => option6_buffer_len o + n) 0 (hv_elems r).

(** The loop of [emit]: each option into the front of what is left of the buffer. *)
Fixpoint hbh_emit_options (options : list Ipv6OptionRepr) buffer : res (list Z) :=
  match options with
  | [] => Ret buffer
  | opt :: options =>
      buffer ← slice_mut buffer 0 (option6_buffer_len opt) (option6_emit opt);
      slice_mut buffer (option6_buffer_len opt) (Zlen buffer) (hbh_emit_options options)
  end.

Definition hbh_emit (r : HopByHopRepr) buffer : res (list Z) := hbh_emit_options (hv_elems r) buffer.

Definition hbh_push (r : HopByHopRepr) (o : Ipv6OptionRepr) : res HopByHopRepr :=
  match hv_push r o with (r, Ok _) => Ret r | (_, Err _) => Panic end.

Definition hbh_mldv2_router_alert : res HopByHopRepr := hbh_push hv_new (OptRouterAlert MulticastListenerDiscovery).
Definition hbh_push_padn_option (r : HopByHopRepr) (n : Z) : res HopByHopRepr := hbh_push r (OptPadN n).
End HopByHop.
End Options.

(** * Parsing and emitting the headers and options *)

(** An option that can be emitted. *)
Definition option6_ok (r : Ipv6OptionRepr) : Prop :=
  match r with
  | OptPad1 => True
  | OptPadN n => in_u8 n
  | OptRouterAlert r => in_u16 (router_alert_into r) /\ router_alert_from (router_alert_into r) = r
  | OptUnknown6 t n d => in_u8 n /\ bytes_ok d /\ Zlen d = n /\ in_u8 (option6_type_into t) /\
      option6_type_from (option6_type_into t) = t /\ match t with TypeRpl | Type6Unknown _ => True | _ => False end
  end.

Definition option6_head (t n : Z) : list Z := layout_bytes [(1%nat, t); (1%nat, n)].

Definition option6_bytes (r : Ipv6OptionRepr) : list Z :=
  match r with
  | OptPad1 => layout_bytes [(1%nat, 0)]
  | OptPadN n => option6_head 1 n ++ replicate (Z.to_nat n) 0
  | OptRouterAlert r => option6_head 5 2 ++ be_bytes 2 (router_alert_into r)
  | OptUnknown6 t n d => option6_head (option6_type_into t) n ++ d
  end.

Section Options.
Context `{NetworkEndianLaws}.

Lemma replicate0_ok n : bytes_ok (replicate n 0).
Proof. apply Forall_replicate. mlia. Qed.

Lemma option6_bytes_ok r : option6_ok r -> bytes_ok (option6_bytes r) /\ Zlen (option6_bytes r) = option6_buffer_len r /\ 1 <= Zlen (option6_bytes r).
Proof.
  assert (Hh : forall t n d, bytes_ok d -> bytes_ok (option6_head t n ++ d)) by (intros; apply bytes_ok_app; split; [apply layout_bytes_ok | done]).
  assert (Hz : forall t n d, Zlen (option6_head t n ++ d) = 2 + Zlen d) by (intros; unfold option6_head; by rewrite Zlen_app, Zlen_layout_bytes).
  unfold option6_data_end in *. destruct r as [|n|r|t n d]; cbn [option6_ok option6_bytes option6_buffer_len]; unfold option6_data_end.
  - intros _. split; [apply layout_bytes_ok|]. by rewrite Zlen_layout_bytes.
  - intros Hn. rewrite Hz. assert (Zlen (replicate (Z.to_nat n) 0) = n) by (unfold Zlen; rewrite length_replicate; mlia).
    split; [apply Hh, replicate0_ok | mlia].
  - intros _. rewrite Hz, Zlen_be_bytes. split; [apply Hh, be_bytes_ok | done].
  - intros (Hn & Hd & Hl & _). rewrite Hz. split; [by apply Hh | mlia].
Qed.

(** The checks of an option of two octets and more. *)
Lemma option6_checks t n d tail :
  in_u8 t -> in_u8 n -> Zlen d = n -> option6_type_from t <> TypePad1 ->
  let b := (option6_head t n ++ d) ++ tail in
  option6_check_len b = Ret (Ok tt) /\ option6_type b = Ret (option6_type_from t) /\ option6_data_len b = Ret n /\ option6_data b = Ret d.
Proof.
  intros Ht Hn Hd Hp b. assert (Eb : b = layout_bytes [(1%nat, t); (1%nat, n)] ++ (d ++ tail)) by (unfold b, option6_head; by rewrite <- app_assoc).
  assert (Et : option6_type b = Ret (option6_type_from t)) by (rewrite Eb; unfold option6_type; by erewrite (layout_index 0) by (reflexivity || done)).
  assert (En : option6_data_len b = Ret n) by (rewrite Eb; unfold option6_data_len; by erewrite (layout_index 1) by (reflexivity || done)).
  assert (Hz : Zlen b = 2 + n + Zlen tail) by (rewrite Eb, !Zlen_app, Zlen_layout_bytes; change (layout_len _) with 2; lia).
  pose proof (Zlen_nonneg tail). split_and!; [| done | done |].
  - unfold option6_check_len. replace (Zlen b <? 1) with false by mlia. rewrite Et, bind_Ret. destruct (option6_type_from t); try done;
      (replace (Zlen b =? 1) with false by mlia; unfold option6_data_len in En; rewrite En, bind_Ret; unfold option6_data_end;
       by replace (Zlen b <? n + 2) with false by mlia).
  - unfold option6_data. rewrite En, bind_Ret. rewrite Eb. apply slice_mid; [done | unfold option6_data_end; lia].
Qed.

Lemma option6_parse_bytes r tail :
  option6_ok r -> option6_new_checked (option6_bytes r ++ tail) = Ret (Ok (option6_bytes r ++ tail)) /\
    option6_parse (option6_bytes r ++ tail) = Ret (Ok r).
Proof.
  assert (Hgo : forall t n d, in_u8 t -> in_u8 n -> Zlen d = n -> option6_type_from t <> TypePad1 ->
    option6_new_checked ((option6_head t n ++ d) ++ tail) = Ret (Ok ((option6_head t n ++ d) ++ tail)) /\
    option6_parse ((option6_head t n ++ d) ++ tail) = match option6_type_from t with
      | TypePad1 => Ret (Ok OptPad1) | TypePadN => Ret (Ok (OptPadN n))
      | TypeRouterAlert => if n =? 2 then raw ← read_u16 d; Ret (Ok (OptRouterAlert (router_alert_from raw))) else Ret (Err MkWireError)
      | _ => Ret (Ok (OptUnknown6 (option6_type_from t) n d)) end).
  { intros t n d Ht Hn Hd Hp. destruct (option6_checks t n d tail Ht Hn Hd Hp) as (Ec & Et & En & Ed). unfold option6_new_checked, option6_parse, try_bind.
    rewrite Ec, !bind_Ret, Et, bind_Ret, En, Ed. split; [done|]. destruct (option6_type_from t); rewrite ?bind_Ret; done. }
  destruct r as [|n|r|t n d]; cbn [option6_ok option6_bytes].
  - intros _. unfold option6_new_checked, option6_parse, option6_check_len, try_bind. rewrite Zlen_app, Zlen_layout_bytes. pose proof (Zlen_nonneg tail).
    change (layout_len _) with 1. replace (1 + Zlen tail <? 1) with false by lia.
    assert (Et : option6_type (layout_bytes [(1%nat, 0)] ++ tail) = Ret TypePad1) by done. rewrite Et. done.
  - intros Hn. apply (Hgo 1); try done. unfold Zlen. rewrite length_replicate. mlia.
  - intros [Hr Hi]. destruct (Hgo 5 2 (be_bytes 2 (router_alert_into r)) ltac:(done) ltac:(done) ltac:(by rewrite Zlen_be_bytes) ltac:(done)) as [E1 E2].
    split; [done|]. rewrite E2. cbn [option6_type_from]. change (2 =? 2) with true. rewrite read_u16_exact by done. rewrite bind_Ret. by rewrite Hi.
  - intros (Hn & Hd & Hl & Ht & Hi & Hk). destruct (Hgo (option6_type_into t) n d Ht Hn Hl) as [E1 E2]; [by rewrite Hi; destruct t|].
    split; [done|]. rewrite E2, Hi. by destruct t.
Qed.

Lemma option6_emit_ok r buffer :
  option6_ok r -> bytes_ok buffer -> Zlen buffer = option6_buffer_len r -> option6_emit r buffer = Ret (option6_bytes r).
Proof.
  intros Hr Hb Hl.
  assert (Hgo : forall t n d f, in_u8 (option6_type_into t) -> in_u8 n -> Zlen d = n -> Zlen buffer = n + 2 ->
    (forall d0, bytes_ok d0 -> Zlen d0 = n -> f d0 = Ret d) ->
    (buffer ← option6_set_type buffer t; buffer ← option6_set_data_len buffer n; option6_data_mut buffer f) = Ret (option6_head (option6_type_into t) n ++ d)).
  { clear Hr Hl. intros t n d f Ht Hn Hd Hl Hf. assert (0 <= n) by mlia. fields [1; 1]%nat buffer l rest E Hrest.
    rewrite Zlen_app, Zlen_layout_bytes in Hl. change (layout_len _) with 2 in Hl.
    unfold option6_set_type, option6_set_data_len. erewrite (layout_index_set 0) by (reflexivity || done). ret_step.
    erewrite (layout_index_set 1) by (reflexivity || done). ret_step. unfold option6_data_mut, option6_data_len, option6_head, option6_data_end.
    erewrite (layout_index 1) by (reflexivity || done). ret_step.
    pose proof (slice_mut_mid (layout_bytes [(1%nat, option6_type_into t); (1%nat, Zlen d)]) rest d [] 2 (Zlen d + 2) f) as E2. rewrite !app_nil_r in E2. apply E2;
      [by rewrite Zlen_layout_bytes | lia | apply Hf; [done | lia] | mlia]. }
  destruct r as [|n|r|t n d]; cbn [option6_ok option6_emit option6_bytes option6_buffer_len] in *; unfold option6_data_end in Hl.
  - destruct buffer as [|x buffer]; [done|]. destruct buffer; [done|]. unfold Zlen in Hl. cbn in Hl. lia.
  - apply (Hgo TypePadN n (replicate (Z.to_nat n) 0)); try done; [unfold Zlen; rewrite length_replicate; mlia|].
    intros d0 _ Hd0. unfold Zlen in Hd0. by rewrite <- Hd0, Nat2Z.id.
  - destruct Hr as [Hr _]. apply (Hgo TypeRouterAlert 2 (be_bytes 2 (router_alert_into r))); try done.
    intros d0 _ Hd0. by apply write_u16_exact.
  - destruct Hr as (Hn & Hd & Hz & Ht & _). apply (Hgo t n d); try done. intros d0 _ Hd0. rewrite slice_ok by mlia. rewrite Z.sub_0_r, <- Hz, sub_all. ret_step.
    by apply copy_from_slice_ok; lia.
Qed.

(** *** Parsing any octets *)

Lemma option6_type_from_ok v : in_u8 v -> option6_type_into (option6_type_from v) = v.
Proof. intros Hv. unfold option6_type_from. repeat case_match; cbn; lia. Qed.

Lemma router_alert_from_ok v : in_u16 v -> router_alert_into (router_alert_from v) = v.
Proof. intros Hv. unfold router_alert_from. repeat case_match; cbn; lia. Qed.

Lemma option6_check_ok bs : bytes_ok bs ->
  wp (option6_check_len bs) (fun r => match r with
    | Ok _ => exists t, index bs 0 = Ret t /\ in_u8 t /\ 1 <= Zlen bs /\
        (option6_type_from t = TypePad1 \/ exists n, index bs 1 = Ret n /\ in_u8 n /\ n + 2 <= Zlen bs)
    | Err _ => True
    end).
Proof.
  intros Hb. unfold option6_check_len. destruct (Z.ltb_spec (Zlen bs) 1); [done|]. unfold option6_type.
  destruct (wp_Ret_inv _ _ (index_byte_wp bs 0 Hb ltac:(lia))) as (t & Et & Ht). rewrite Et. rewrite !bind_Ret.
  destruct (option6_type_from t) eqn:Ety; [cbn [wp]; exists t; auto|..];
    (destruct (Z.eqb_spec (Zlen bs) 1); [done|]; destruct (wp_Ret_inv _ _ (index_byte_wp bs 1 Hb ltac:(lia))) as (n' & En & Hn);
     rewrite En; rewrite bind_Ret; cbn [wp]; unfold option6_data_end; destruct (Z.ltb_spec (Zlen bs) (n' + 2)); [done|];
     exists t; split; [done|]; split; [done|]; split; [lia|]; right; by exists n').
Qed.

Lemma option6_parse_ok bs : bytes_ok bs ->
  wp (option6_parse bs) (fun r => match r with Ok r => option6_ok r /\ option6_buffer_len r <= Zlen bs | Err _ => True end).
Proof.
  intros Hb. unfold option6_parse, try_bind. wp_bind_with (option6_check_ok bs Hb). intros [[]|e]; [|done].
  intros (t & Et & Ht & Hl & Hn). unfold option6_type, option6_data, option6_data_len. rewrite Et. rewrite !bind_Ret.
  destruct (option6_type_from t) eqn:Ety; [cbn; lia|..]; (destruct Hn as [Hn|(n & En & Hn & Hl2)]; [done|]); rewrite En; rewrite !bind_Ret; cbn [wp option6_ok option6_buffer_len];
    unfold option6_data_end, ROUTER_ALERT_DATA_LEN; try done.
  - destruct (Z.eqb_spec n 2); [|done]. destruct (wp_Ret_inv _ _ (slice_wp bs 2 (n + 2) Hb ltac:(mlia) Hl2)) as (d & -> & Hd & Hz). ret_step.
    rewrite read_u16_law, be_read_ok by lia. ret_step. cbn [wp option6_ok option6_buffer_len]. unfold option6_data_end, ROUTER_ALERT_DATA_LEN.
    rewrite router_alert_from_ok; [split; [split; [|done] | lia]|]; rewrite take_ge by mlia; apply be_value_u16; done || lia.
  - destruct (wp_Ret_inv _ _ (slice_wp bs 2 (n + 2) Hb ltac:(mlia) Hl2)) as (d & -> & Hd & Hz). ret_step.
    cbn [wp option6_ok option6_buffer_len]. unfold option6_data_end. split; [|done]. split_and!; try done; lia.
  - destruct (wp_Ret_inv _ _ (slice_wp bs 2 (n + 2) Hb ltac:(mlia) Hl2)) as (d & -> & Hd & Hz). ret_step.
    cbn [wp option6_ok option6_buffer_len]. unfold option6_data_end. split; [|done]. rewrite <- Ety, option6_type_from_ok by done. rewrite Ety. split_and!; try done; lia.
Qed.

(** ** The hop-by-hop header *)

Context `{HeaplessVec Ipv6OptionRepr} {max_options : nat} `{!HeaplessVecLaws Ipv6OptionRepr max_options}.

Definition iterator_at (data : list Z) (pos : Z) : OptionsIterator := mkOptionsIterator pos data false.

Lemma iterator_next_ok data pos :
  bytes_ok data -> 0 <= pos <= Zlen data -> Zlen data <= isize_max ->
  wp (iterator_next (iterator_at data pos)) (fun '(it, item) => match item with
    | None => pos = Zlen data
    | Some (Ok r) => option6_ok r /\ exists pos', it = iterator_at data pos' /\ pos' = pos + option6_buffer_len r /\ pos < pos' <= Zlen data
    | Some (Err _) => True
    end).
Proof.
  intros Hb Hp Hmax. unfold iterator_next. cbn [it_pos it_data it_hit_error iterator_at]. destruct (Z.ltb_spec pos (Zlen data)); cbn [negb andb]; [|cbn; lia].
  destruct (wp_Ret_inv _ _ (slice_wp data pos (Zlen data) Hb ltac:(lia) ltac:(lia))) as (rest & -> & Hr & Hz). ret_step.
  unfold option6_new_checked, try_bind. rewrite bind_assoc. wp_bind_with (option6_check_ok rest Hr). intros [[]|e] Hc; [|by ret_steps]. ret_step.
  wp_bind_with (option6_parse_ok rest Hr). intros [r|e]; [|done]. intros [Hok Hlen]. destruct (option6_bytes_ok r Hok) as (_ & Hbl & Hge).
  unfold usize_add. rewrite checked_ok by mlia. ret_step. cbn [wp]. split; [done|]. eexists. split; [reflexivity|]. lia.
Qed.

Lemma hbh_parse_loop_ok fuel data pos (v : hvec Ipv6OptionRepr) :
  bytes_ok data -> 0 <= pos <= Zlen data -> Zlen data <= isize_max -> Zlen data - pos < Z.of_nat fuel -> Forall option6_ok (hv_elems v) ->
  wp (hbh_parse_loop fuel (iterator_at data pos) v) (fun r => match r with Ok v => Forall option6_ok (hv_elems v) | Err _ => True end).
Proof.
  intros Hb. revert pos v. induction fuel as [|fuel IH]; intros pos v Hp Hmax Hf Hv; [lia|]. cbn [hbh_parse_loop].
  wp_bind_with (iterator_next_ok data pos Hb Hp Hmax). intros [it [[r|e]|]]; [|done..]. intros (Hr & pos' & -> & _ & Hpos).
  pose proof (hv_bounded v). destruct (decide (length (hv_elems v) = max_options)) as [Hfull|Hroom].
  - destruct (hv_push_full v r Hfull) as (v' & -> & E). cbn [wp]. by rewrite E.
  - destruct (hv_push_ok v r) as (v' & -> & E); [lia|]. apply IH; [lia | done | lia |]. rewrite E. by apply Forall_app_2; [|constructor].
Qed.

Lemma hbh_parse_ok bs : bytes_ok bs -> Zlen bs <= isize_max ->
  wp (hbh_parse bs) (fun r => match r with Ok v => Forall option6_ok (hv_elems v) | Err _ => True end).
Proof.
  intros Hb Hl. unfold hbh_parse, hbh_check_len. destruct (Z.eqb_spec (Zlen bs) 0); [done|]. pose proof (Zlen_nonneg bs).
  apply hbh_parse_loop_ok; [done | lia | done | unfold Zlen; lia |]. rewrite hv_new_elems. constructor.
Qed.

(** The options of a header, one after the other, are read in their order, as many as the vector holds. *)
Lemma iterator_next_bytes p r rest :
  option6_ok r -> Zlen (p ++ option6_bytes r ++ rest) <= isize_max ->
  iterator_next (iterator_at (p ++ option6_bytes r ++ rest) (Zlen p)) =
    Ret (iterator_at (p ++ option6_bytes r ++ rest) (Zlen (p ++ option6_bytes r)), Some (Ok r)).
Proof.
  intros Hr Hmax. destruct (option6_bytes_ok r Hr) as (_ & Hbl & Hge). rewrite !Zlen_app in Hmax.
  pose proof (Zlen_nonneg p). pose proof (Zlen_nonneg rest).
  unfold iterator_next, iterator_at. cbn [it_pos it_data it_hit_error]. rewrite !Zlen_app.
  replace (Zlen p <? Zlen p + (Zlen (option6_bytes r) + Zlen rest)) with true by lia. cbn [negb andb].
  assert (Es : slice (p ++ option6_bytes r ++ rest) (Zlen p) (Zlen p + (Zlen (option6_bytes r) + Zlen rest)) = Ret (option6_bytes r ++ rest)).
  { rewrite <- (app_nil_r (option6_bytes r ++ rest)) at 1. apply slice_mid; [done | by rewrite Zlen_app]. }
  rewrite Es. ret_step. destruct (option6_parse_bytes r rest Hr) as [E1 E2]. rewrite E1. ret_step. cbv iota. rewrite E2. ret_step. cbv iota.
  unfold usize_add. rewrite checked_ok by mlia. ret_step. by rewrite Hbl.
Qed.

Lemma hbh_parse_loop_bytes fuel p os (v : hvec Ipv6OptionRepr) :
  Forall option6_ok os -> Zlen (p ++ concat (map option6_bytes os)) <= isize_max -> (length os < fuel)%nat ->
  exists v', hbh_parse_loop fuel (iterator_at (p ++ concat (map option6_bytes os)) (Zlen p)) v = Ret (Ok v') /\
    hv_elems v' = take max_options (hv_elems v ++ os).
Proof.
  intros Hos. revert fuel p v. induction Hos as [|r os Hr Hos IH]; intros fuel p v Hmax Hf; (destruct fuel as [|fuel]; [lia|]); cbn [hbh_parse_loop map concat].
  - unfold iterator_next, iterator_at. cbn [it_pos it_data it_hit_error]. rewrite app_nil_r, Z.ltb_irrefl. cbn [andb]. exists v. split; [done|].
    rewrite app_nil_r, take_ge; [done | apply hv_bounded].
  - cbn [map concat] in Hmax. rewrite iterator_next_bytes by done. rewrite bind_Ret.
    pose proof (hv_bounded v). destruct (decide (length (hv_elems v) = max_options)) as [Hfull|Hroom].
    + destruct (hv_push_full v r Hfull) as (v' & -> & E). exists v'. split; [done|]. rewrite E. rewrite take_app_le by lia. by rewrite take_ge by lia.
    + destruct (hv_push_ok v r) as (v' & -> & E); [lia|]. destruct (IH fuel (p ++ option6_bytes r) v') as (v2 & E1 & E2);
        [by rewrite <- app_assoc | cbn in Hf; lia |]. rewrite <- app_assoc in E1. exists v2. split; [exact E1|]. by rewrite E2, E, <- app_assoc.
Qed.

Lemma options_len os : Forall option6_ok os ->
  Zlen (concat (map option6_bytes os)) = foldr (fun o n => option6_buffer_len o + n) 0 os /\
  Z.of_nat (length os) <= Zlen (concat (map option6_bytes os)).
Proof.
  induction 1 as [|o os Ho Hos [IH1 IH2]]; [done|]. cbn [map concat foldr length]. rewrite Zlen_app.
  destruct (option6_bytes_ok o Ho) as (_ & ? & ?). lia.
Qed.

Lemma hbh_emit_options_ok os buffer :
  Forall option6_ok os -> bytes_ok buffer -> foldr (fun o n => option6_buffer_len o + n) 0 os <= Zlen buffer ->
  hbh_emit_options os buffer = Ret (concat (map option6_bytes os) ++ drop (Z.to_nat (foldr (fun o n => option6_buffer_len o + n) 0 os)) buffer).
Proof.
  intros Hos. revert buffer. induction Hos as [|r os Hr Hos IH]; intros buffer Hb Hl; cbn [hbh_emit_options map concat foldr] in *; [done|].
  destruct (option6_bytes_ok r Hr) as (Hbr & Hbl & Hge). set (n := foldr _ 0 os) in *.
  destruct (options_len os Hos) as [Hz Hlen]. fold n in Hz. assert (Hn : 0 <= n) by lia.
  destruct (Zlen_split_at buffer (option6_buffer_len r)) as (hd & tl & -> & Hhd); [lia|]. apply bytes_ok_app in Hb as [Hbh Hbt]. rewrite Zlen_app in Hl.
  pose proof (slice_mut_mid [] hd (option6_bytes r) tl 0 (option6_buffer_len r) (option6_emit r)) as E. cbn [app] in E.
  rewrite E; [|done | lia | apply option6_emit_ok; [done | done | lia] | unfold Zlen in *; lia]. ret_step.
  pose proof (slice_mut_mid (option6_bytes r) tl (concat (map option6_bytes os) ++ drop (Z.to_nat n) tl) [] (option6_buffer_len r)
    (Zlen (option6_bytes r ++ tl)) (hbh_emit_options os)) as E2. rewrite !app_nil_r in E2. rewrite E2; [| lia | rewrite Zlen_app; lia | apply IH; [done | lia] |].
  - rewrite <- app_assoc. do 3 f_equal. rewrite drop_app_ge by (unfold Zlen in *; lia). f_equal. unfold Zlen in *. lia.
  - rewrite length_app, length_drop. unfold Zlen in *. lia.
Qed.

Lemma hbh_emit_parse_ok (r : hvec Ipv6OptionRepr) buffer :
  Forall option6_ok (hv_elems r) -> hv_elems r <> [] -> bytes_ok buffer -> Zlen buffer = hbh_buffer_len r -> Zlen buffer <= isize_max ->
  exists bs v, hbh_emit r buffer = Ret bs /\ Zlen bs = Zlen buffer /\ hbh_parse bs = Ret (Ok v) /\ hv_elems v = hv_elems r.
Proof.
  intros Hr Hne Hb Hl Hmax. unfold hbh_emit, hbh_buffer_len in *. rewrite hbh_emit_options_ok by (done || lia).
  rewrite drop_ge by (unfold Zlen in *; lia). rewrite app_nil_r.
  destruct (options_len _ Hr) as [Hz1 Hz2]. set (bs := concat (map option6_bytes (hv_elems r))) in *.
  destruct (hbh_parse_loop_bytes (S (length bs)) [] (hv_elems r) hv_new Hr) as (v & E1 & E2); [cbn [app]; fold bs; lia | unfold Zlen in Hz2; lia |].
  exists bs, v. split; [done|]. split; [lia|]. rewrite hv_new_elems in E2. cbn [app] in E1, E2. fold bs in E1. split.
  - unfold hbh_parse, hbh_check_len. destruct (Z.eqb_spec (Zlen bs) 0); [|exact E1]. assert (length (hv_elems r) <> 0%nat) by (by destruct (hv_elems r)). lia.
  - rewrite E2. apply take_ge, hv_bounded.
Qed.
End Options.

(** ** Properties *)

(** Parsing the options of a hop-by-hop header never panics, whatever its octets: the loop ends
    within the fuel of their number, and every option that is read is one that can be emitted. *)
Theorem hbh_parse_safe `{NetworkEndianLaws} `{HeaplessVec Ipv6OptionRepr} {max_options} `{!HeaplessVecLaws Ipv6OptionRepr max_options} bs :
  bytes_ok bs -> Zlen bs <= isize_max ->
  wp (hbh_parse bs) (fun r => match r with Ok v => Forall option6_ok (hv_elems v) | Err _ => True end).
Proof. apply (hbh_parse_ok (max_options := max_options)). Qed.

(** A hop-by-hop header that is emitted into a buffer of its length, whatever the buffer held, is
    parsed back with all its options, in their order. *)
Theorem hbh_emit_parse `{NetworkEndianLaws} `{HeaplessVec Ipv6OptionRepr} {max_options} `{!HeaplessVecLaws Ipv6OptionRepr max_options}
    (r : hvec Ipv6OptionRepr) buffer :
  Forall option6_ok (hv_elems r) -> hv_elems r <> [] -> bytes_ok buffer -> Zlen buffer = hbh_buffer_len r -> Zlen buffer <= isize_max ->
  exists bs v, hbh_emit r buffer = Ret bs /\ Zlen bs = Zlen buffer /\ hbh_parse bs = Ret (Ok v) /\ hv_elems v = hv_elems r.
Proof. apply hbh_emit_parse_ok. Qed.

(** An option behind as many as the vector holds is not looked at: here one that asks for the
    packet to be discarded. *)
Theorem hbh_options_beyond_capacity `{NetworkEndianLaws} `{HeaplessVec Ipv6OptionRepr} {max_options} `{!HeaplessVecLaws Ipv6OptionRepr max_options} :
  (0 < max_options)%nat -> Z.of_nat max_options + 2 <= isize_max ->
  exists v, hbh_parse (concat (map option6_bytes (replicate max_options OptPad1 ++ [OptUnknown6 (Type6Unknown 0x40) 0 []]))) = Ret (Ok v) /\
    hv_elems v = replicate max_options OptPad1.
Proof.
  intros Hm Hmax. set (os := replicate max_options OptPad1 ++ _).
  assert (Hos : Forall option6_ok os).
  { apply Forall_app. split; [by apply Forall_replicate|]. constructor; [|constructor]. cbn [option6_ok]. split_and!; try done; constructor. }
  destruct (options_len os Hos) as [Hz Hl]. set (bs := concat (map option6_bytes os)) in *.
  assert (Hlen : Zlen bs = Z.of_nat max_options + 2).
  { rewrite Hz. unfold os. clear. induction max_options as [|n IH]; [done|]. cbn [replicate app foldr]. rewrite IH. cbn [option6_buffer_len]. lia. }
  destruct (hbh_parse_loop_bytes (S (length bs)) [] os hv_new Hos) as (v & E1 & E2); [cbn [app]; fold bs; lia | unfold Zlen in Hl; lia |].
  exists v. cbn [app] in E1. fold bs in E1. split.
  - unfold hbh_parse, hbh_check_len. destruct (Z.eqb_spec (Zlen bs) 0); [lia | exact E1].
  - rewrite E2, hv_new_elems. cbn [app]. unfold os. rewrite take_app_le by (rewrite length_replicate; lia). apply take_ge. by rewrite length_replicate.
Qed.

(** *** Concrete instances *)

Definition hbh_example : list Ipv6OptionRepr := [OptRouterAlert MulticastListenerDiscovery; OptPadN 0].

Lemma hbh_parse_safe_witness :
  wp (@hbh_parse network_endian (list_vec Ipv6OptionRepr 4) [5; 2; 0; 0; 0x40; 9; 1]) (fun r =>
    match r with Ok v => Forall option6_ok (@hv_elems _ (list_vec Ipv6OptionRepr 4) v) | Err _ => True end).
Proof.
  apply (@hbh_parse_safe network_endian network_endian_laws (list_vec Ipv6OptionRepr 4) 4 (list_vec_laws Ipv6OptionRepr 4)); [byte_list | vm_compute; congruence].
Defined.

Definition hbh_example_vec : @hvec Ipv6OptionRepr (list_vec Ipv6OptionRepr 4) :=
  match hbh_mldv2_router_alert with Ret r => match hbh_push_padn_option r 0 with Ret r => r | Panic => hv_new end | Panic => hv_new end.

Lemma hbh_emit_parse_witness :
  exists bs v, @hbh_emit network_endian (list_vec Ipv6OptionRepr 4) hbh_example_vec (replicate 6 0xa5) = Ret bs /\ Zlen bs = Zlen (replicate 6 0xa5) /\
    @hbh_parse network_endian (list_vec Ipv6OptionRepr 4) bs = Ret (Ok v) /\
    @hv_elems _ (list_vec Ipv6OptionRepr 4) v = @hv_elems _ (list_vec Ipv6OptionRepr 4) hbh_example_vec.
Proof.
  apply (@hbh_emit_parse network_endian network_endian_laws (list_vec Ipv6OptionRepr 4) 4 (list_vec_laws Ipv6OptionRepr 4));
    [change (Forall option6_ok hbh_example); constructor; [split; [by vm_compute | done] | constructor; [by vm_compute | constructor]] | done | byte_list | done | vm_compute; congruence].
Defined.
