(* ===== verification/IpWire.v ===== *)
(** * Packets of either IP version (wire/ip.rs)

    The version of a packet and the emission of an [IpRepr]. *)

From S2P Require Import Prelude IpTypes ByteOrder Checksum Ipv4Wire Ipv6Wire.

(** [Version::of_packet]. *)
Definition version_of_packet (data : list Z) : res (result Version WireError) :=
  b ← index data 0;
  Ret (match Z.shiftr b 4 with 4 => Ok Ipv4Version | 6 => Ok Ipv6Version | _ => Err MkWireError end).

Section IpWire.
Context `{NetworkEndian}.

(** [Repr::emit]. *)
Definition ip_repr_emit (r : IpRepr) (buffer : list Z) (caps : ChecksumCapabilities) : res (list Z) :=
  match r with
  | Ipv4Repr h => ipv4_emit h buffer caps
  | Ipv6Repr h => ipv6_emit h buffer
  end.
End IpWire.

(** A header that can be emitted. *)
Definition ip_repr_ok (r : IpRepr) : Prop :=
  match r with Ipv4Repr h => ip_emit_ok h | Ipv6Repr h => ip6_header_ok h end.

(** The packet [bs] has the header [r] in front of [payload]. *)
Definition ip_packet_of `{NetworkEndian} (r : IpRepr) (payload : list Z) (caps : ChecksumCapabilities) (bs : list Z) : Prop :=
  match r with
  | Ipv4Repr h => exists ck, in_u16 ck /\ bs = ip4_emitted h ck payload /\
      (checksum_tx (caps_ipv4 caps) = true -> ip4_verify_checksum bs = Ret true)
  | Ipv6Repr h => bs = ip6_emitted h payload
  end.

Section IpWireLemmas.
Context `{NetworkEndianLaws}.

Lemma version_of_packet_ok data :
  bytes_ok data -> data <> [] -> exists v, version_of_packet data = Ret v.
Proof. intros Hb Hd. destruct data as [|b data]; [done|]. by eexists. Qed.

(** Emitting writes a header over the front of the buffer, whatever it held. *)
Lemma ip_repr_emit_ok r buffer caps :
  ip_repr_ok r -> bytes_ok buffer -> ip_header_len r <= Zlen buffer ->
  exists hdr, ip_repr_emit r buffer caps = Ret (hdr ++ drop (Z.to_nat (ip_header_len r)) buffer) /\
    Zlen hdr = ip_header_len r /\ bytes_ok hdr /\
    forall rest, bytes_ok rest -> ip_packet_of r rest caps (hdr ++ rest).
Proof.
  intros Hr Hb Hl. destruct r as [h|h]; cbn [ip_repr_emit ip_header_len ip_repr_ok ip_packet_of] in *; unfold IPV4_HEADER_LEN, IPV6_HEADER_LEN in *.
  - destruct (ipv4_emit_ok h buffer caps Hb Hl Hr) as (ck & Hck & -> & Hv).
    assert (E : forall rest, ip4_emitted h ck rest = ip4_emitted h ck [] ++ rest) by (intros; unfold ip4_emitted, ip4_hdr; by rewrite app_nil_r).
    exists (ip4_emitted h ck []). split; [by rewrite E|]. split; [unfold ip4_emitted; by rewrite Zlen_ip4_hdr|].
    split; [unfold ip4_emitted; apply ip4_hdr_bytes_ok; constructor|]. intros rest Hrest. exists ck. split; [done|]. split; [by rewrite <- E|].
    intros Htx. specialize (Hv Htx). rewrite <- E. revert Hv. unfold ip4_emitted, ip4_verify_checksum. destruct Hr as [[Hsrc Hdst Hnh Hpl Hhop] Hmax].
    assert (Hh : forall t, ip4_header_len (ip4_hdr 0x45 0 (20 + iph_payload_len h) 0 0x4000 (iph_hop_limit h) (iph_next_header h) ck
      (be_value (iph_src h)) (be_value (iph_dst h)) t) = Ret 20).
    { intros t. by destruct (ip4_header_len_ok 0x45 0 (20 + iph_payload_len h) 0 0x4000 (iph_hop_limit h) (iph_next_header h) ck
        (be_value (iph_src h)) (be_value (iph_dst h)) t ltac:(by vm_compute)) as [-> _]. }
    rewrite !Hh. rewrite !bind_Ret. by rewrite !ip4_header_slice.
  - rewrite ipv6_emit_ok by done. assert (E : forall rest, ip6_emitted h rest = ip6_emitted h [] ++ rest) by (intros; unfold ip6_emitted, ip6_hdr; by rewrite app_nil_r).
    exists (ip6_emitted h []). split; [by rewrite E|]. split; [unfold ip6_emitted; by rewrite Zlen_ip6_hdr|].
    split; [unfold ip6_emitted; apply ip6_hdr_bytes_ok; constructor|]. intros rest _. by rewrite <- E.
Qed.
End IpWireLemmas.
