(* ===== verification/PacketQueue.v ===== *)
(** * Packet buffers that hold bytes

    The raw and the ICMP socket write a packet in place, over the bytes that the payload
    storage held before.  [pb_write] is such a write through the slice that [enqueue]
    returned; the lemmas keep track of the storage being bytes ([pbb_wf]). *)

From S2P Require Import Prelude RingBuffer PacketBuffer PacketRoom ByteOrder UdpSocket UdpSocketSpec.

(** A function that writes to the slice [range] of the payload storage. *)
Definition pb_write {H} (pb : PacketBuffer H) (range : Z * Z) (f : list Z -> res (list Z)) : res (PacketBuffer H) :=
  st ← slice_mut (rb_storage (payload_ring pb)) (fst range) (fst range + snd range) f;
  Ret (mkPacketBuffer (metadata_ring pb) (mkRingBuffer st (rb_read_at (payload_ring pb)) (rb_length (payload_ring pb)))).

Definition pb_bytes {H} (pb : PacketBuffer H) : list Z := rb_storage (payload_ring pb).

(** A well-formed packet buffer over bytes. *)
Definition pbb_wf {H} (pb : PacketBuffer H) : Prop := pb_wf pb /\ bytes_ok (pb_bytes pb).

Lemma bytes_ok_splice bs k d : bytes_ok bs -> bytes_ok d -> bytes_ok (splice bs k d).
Proof. intros. unfold splice. rewrite !bytes_ok_app. auto using bytes_ok_take, bytes_ok_drop. Qed.

(** ** The bytes are kept *)

Section Bytes.
Context {H : Type}.
Implicit Types pb : PacketBuffer H.

Lemma rb_enqueue_many_with_bytes {R} (rb : RingBuffer Z) (f : Z -> list Z -> res (list Z * Z * R)) :
  bytes_ok (rb_storage rb) -> (forall p d, bytes_ok d -> wlp (f p d) (fun '(d', _, _) => bytes_ok d')) ->
  wlp (rb_enqueue_many_with rb f) (fun '(rb', _, _) => bytes_ok (rb_storage rb')).
Proof.
  intros Hb Hf. unfold rb_enqueue_many_with. set (rb0 := if rb_length rb =? 0 then _ else rb).
  assert (E : rb_storage rb0 = rb_storage rb) by (unfold rb0; by destr_if).
  do 3 (eapply wlp_bind; [apply wlp_any|]; intros ? _). eapply wlp_bind; [apply wlp_slice|]. intros d ->.
  eapply wlp_bind; [apply Hf; rewrite E; by apply bytes_ok_sub|]. intros [[d' size] r] Hd.
  eapply wlp_bind; [apply wlp_copy_into|]. intros st ->. do 2 (eapply wlp_bind; [apply wlp_any|]; intros ? _).
  cbn. rewrite E. by apply bytes_ok_splice.
Qed.

Lemma rb_dequeue_many_with_bytes {R} (rb : RingBuffer Z) (f : Z -> list Z -> res (list Z * Z * R)) :
  bytes_ok (rb_storage rb) -> (forall p d, bytes_ok d -> wlp (f p d) (fun '(d', _, _) => bytes_ok d')) ->
  wlp (rb_dequeue_many_with rb f) (fun '(rb', _, _) => bytes_ok (rb_storage rb')).
Proof.
  intros Hb Hf. unfold rb_dequeue_many_with.
  do 2 (eapply wlp_bind; [apply wlp_any|]; intros ? _). eapply wlp_bind; [apply wlp_slice|]. intros d ->.
  eapply wlp_bind; [apply Hf; by apply bytes_ok_sub|]. intros [[d' size] r] Hd.
  eapply wlp_bind; [apply wlp_copy_into|]. intros st ->. do 3 (eapply wlp_bind; [apply wlp_any|]; intros ? _).
  cbn. by apply bytes_ok_splice.
Qed.

Lemma rb_enqueue_many_bytes (rb : RingBuffer Z) n :
  bytes_ok (rb_storage rb) -> wlp (rb_enqueue_many rb n) (fun '(rb', _) => bytes_ok (rb_storage rb')).
Proof.
  intros Hb. unfold rb_enqueue_many. eapply wlp_bind; [by apply rb_enqueue_many_with_bytes|]. by intros [[rb' ?] r].
Qed.

Lemma rb_dequeue_many_bytes (rb : RingBuffer Z) n :
  bytes_ok (rb_storage rb) -> wlp (rb_dequeue_many rb n) (fun '(rb', _) => bytes_ok (rb_storage rb')).
Proof.
  intros Hb. unfold rb_dequeue_many. eapply wlp_bind; [by apply rb_dequeue_many_with_bytes|]. by intros [[rb' ?] r].
Qed.

Lemma pb_push_metadata_bytes pb m : wlp (pb_push_metadata pb m) (fun '(pb', _) => payload_ring pb' = payload_ring pb).
Proof.
  unfold pb_push_metadata. eapply wlp_bind; [apply wlp_any|]. intros [meta [pos|e]] _; [|done].
  eapply wlp_bind; [apply wlp_any|]. by intros.
Qed.

Lemma pb_enqueue_bytes pb n (h : H) :
  bytes_ok (pb_bytes pb) -> wlp (pb_enqueue pb n h) (fun '(pb', _) => bytes_ok (pb_bytes pb')).
Proof.
  unfold pb_bytes. intros Hb. unfold pb_enqueue. eapply wlp_bind; [apply wlp_any|]. intros full _. destr_if; [done|].
  set (pb0 := if rb_is_empty _ then _ else pb).
  assert (E : rb_storage (payload_ring pb0) = rb_storage (payload_ring pb)) by (unfold pb0; by destr_if).
  eapply (wlp_bind _ _ (fun '(pb', _) => bytes_ok (rb_storage (payload_ring pb')))).
  { unfold pb_make_room. do 2 (eapply wlp_bind; [apply wlp_any|]; intros ? _).
    destr_if; [cbn; by rewrite E|]. destr_if; [|cbn; by rewrite E]. eapply wlp_bind; [apply wlp_any|]. intros w _.
    destr_if; [cbn; by rewrite E|]. eapply wlp_bind; [apply pb_push_metadata_bytes|]. intros [pb1 [?|?]] E1; [|cbn; by rewrite E1, E].
    eapply wlp_bind; [apply rb_enqueue_many_bytes; by rewrite E1, E|]. by intros [payload ?]. }
  intros [pb1 [?|?]] Hb1; [|done]. eapply wlp_bind; [apply pb_push_metadata_bytes|]. intros [pb2 [?|?]] E2; [|cbn; by rewrite E2].
  eapply wlp_bind; [apply rb_enqueue_many_bytes; by rewrite E2|]. intros [payload [pos len]] Hp.
  eapply wlp_bind; [apply wlp_any|]. by intros.
Qed.

Lemma pb_dequeue_padding_bytes pb :
  bytes_ok (pb_bytes pb) -> wlp (pb_dequeue_padding pb) (fun pb' => bytes_ok (pb_bytes pb')).
Proof.
  unfold pb_bytes. intros Hb. unfold pb_dequeue_padding. eapply wlp_bind.
  - apply (rb_dequeue_one_with_cap _ _ (fun r : result (RingBuffer Z) unit => match r with Ok payload => bytes_ok (rb_storage payload) | Err _ => True end)).
    intros p m. destr_if; [|done]. eapply wlp_bind; [by apply rb_dequeue_many_bytes|]. by intros [payload ?].
  - intros [meta [[payload|e]|e]] [_ Hr]; done.
Qed.

Lemma pb_dequeue_bytes pb : bytes_ok (pb_bytes pb) -> wlp (pb_dequeue pb) (fun '(pb', _) => bytes_ok (pb_bytes pb')).
Proof.
  intros Hb. unfold pb_dequeue. eapply wlp_bind; [by apply pb_dequeue_padding_bytes|]. intros pb1 Hb1. unfold pb_bytes in *.
  eapply wlp_bind; [apply wlp_any|]. intros [meta [mpos|e]] _; [|done]. eapply wlp_bind; [apply wlp_any|]. intros m _.
  eapply wlp_bind; [by apply rb_dequeue_many_bytes|]. intros [payload [pos len]] Hp. eapply wlp_bind; [apply wlp_any|]. intros _ _.
  destruct (pm_header m); [|done]. do 2 (eapply wlp_bind; [apply wlp_any|]; intros ? _). done.
Qed.

Lemma pb_peek_bytes pb : bytes_ok (pb_bytes pb) -> wlp (pb_peek pb) (fun '(pb', _) => bytes_ok (pb_bytes pb')).
Proof.
  intros Hb. unfold pb_peek. eapply wlp_bind; [by apply pb_dequeue_padding_bytes|]. intros pb1 Hb1.
  eapply wlp_bind; [apply wlp_any|]. intros [|m ms] _; [done|]. destruct (pm_header m); [|done].
  eapply wlp_bind; [apply wlp_any|]. by intros.
Qed.

Lemma pb_dequeue_with_bytes {R E} pb (f : H -> list Z -> res (H * list Z * result R E)) :
  bytes_ok (pb_bytes pb) -> (forall h d, bytes_ok d -> wlp (f h d) (fun '(_, d', _) => bytes_ok d')) ->
  wlp (pb_dequeue_with pb f) (fun '(pb', _) => bytes_ok (pb_bytes pb')).
Proof.
  intros Hb Hf. unfold pb_dequeue_with. eapply wlp_bind; [by apply pb_dequeue_padding_bytes|]. intros pb1 Hb1. unfold pb_bytes in *.
  eapply wlp_bind.
  - apply (rb_dequeue_one_with_cap _ _ (fun r : result (R * RingBuffer Z) (E * RingBuffer Z) => match r with
      | Ok (_, payload) => bytes_ok (rb_storage payload) | Err (_, payload) => bytes_ok (rb_storage payload) end)).
    intros p m. eapply wlp_bind.
    + apply (rb_dequeue_many_with_bytes (payload_ring pb1)); [done|]. intros q d Hd. eapply wlp_bind; [apply wlp_any|]. intros _ _.
      destruct (pm_header m) as [h|]; [|done]. eapply wlp_bind; [apply wlp_slice|]. intros d0 ->.
      eapply wlp_bind; [apply Hf; by apply bytes_ok_sub|]. intros [[h' d'] r] Hd'. cbn. by apply bytes_ok_splice.
    + intros [[payload ?] [h' r]] Hp. by destruct r.
  - by intros [meta [[[v payload]|[e payload]]|e]] [_ Hr].
Qed.
End Bytes.

(** ** The operations of a packet buffer over bytes *)

Section Queue.
Context {H : Type}.
Implicit Types pb : PacketBuffer H.

Lemma pb_split_bytes (ms : list (PacketMetadata H)) bs : bytes_ok bs -> Forall (fun p => bytes_ok (snd p)) (pb_split ms bs).
Proof.
  revert bs. induction ms as [|m ms IH]; intros bs Hb; cbn [pb_split]; [constructor|].
  destruct (pm_header m); [|by apply IH, bytes_ok_drop]. constructor; [by apply bytes_ok_take | by apply IH, bytes_ok_drop].
Qed.

Lemma pb_packets_bytes pb : pbb_wf pb -> Forall (fun p => bytes_ok (snd p)) (pb_packets pb).
Proof.
  intros [_ Hb]. apply pb_split_bytes. unfold rb_contents, rb_view. apply bytes_ok_take, bytes_ok_app.
  auto using bytes_ok_take, bytes_ok_drop.
Qed.

Lemma pb_write_copy pb pos len f d data :
  0 <= pos -> pos + len <= Zlen (pb_bytes pb) -> 0 <= len -> sub (pb_bytes pb) pos len = d -> f d = Ret data -> Zlen data = len ->
  pb_write pb (pos, len) f = pb_copy pb (pos, len) data.
Proof.
  intros Hp Hl Hn Hd Hf Hz. unfold pb_write, pb_copy, pb_bytes, slice_mut, rb_fill in *. cbn [fst snd].
  rewrite slice_ok by lia. rewrite Z.add_simpl_l, Hd. cbn [mbind res_bind]. rewrite Hf. cbn [mbind res_bind].
  rewrite Hz, Z.eqb_refl. cbn [passert mbind res_bind]. by rewrite copy_into_ok by lia.
Qed.

(** [enqueue] and a write through the slice it returns. *)
Lemma queue_write_ok pb (h : H) size f (P : list Z -> Prop) :
  pbb_wf pb -> 0 <= size ->
  (forall d, bytes_ok d -> Zlen d = size -> wp (f d) (fun d' => Zlen d' = size /\ bytes_ok d' /\ P d')) ->
  wp (pb_enqueue pb size h) (fun '(pb', r) =>
    match r with
    | Ok range => wp (pb_write pb' range f) (fun pb'' =>
        pbb_wf pb'' /\ exists data, P data /\ Zlen data = size /\ bytes_ok data /\ pb_packets pb'' = pb_packets pb ++ [(h, data)])
    | Err _ => pbb_wf pb' /\ pb_packets pb' = pb_packets pb
    end).
Proof.
  intros [Hwf Hb] Hs Hf. eapply wp_mono; [apply wp_and_wlp; [by apply (pb_enqueue_ok pb size h) | by apply (pb_enqueue_bytes pb size h)]|].
  intros [pb' [[pos len]|e]] [Hq Hb']; [|destruct Hq; by split]. destruct Hq as (_ & -> & Hp & Hl & Hfill).
  assert (Hd : bytes_ok (sub (pb_bytes pb') pos size) /\ Zlen (sub (pb_bytes pb') pos size) = size).
  { split; [by apply bytes_ok_sub | apply Zlen_sub; unfold pb_bytes; lia]. }
  destruct Hd as [Hbd Hzd]. destruct (wp_Ret_inv _ _ (Hf _ Hbd Hzd)) as (data & Ef & Hz & Hbdata & HP).
  destruct (Hfill data Hz) as (payload' & E & Hwf' & Hpk).
  rewrite (pb_write_copy pb' pos size f _ data Hp Hl Hs eq_refl Ef Hz). destruct (pb_copy_ok pb' pos data) as (p2 & E2 & Ec); [eauto|].
  rewrite Hz in Ec. rewrite Ec. assert (p2 = payload') as -> by congruence. cbn [wp]. split; [split; [done|]|by exists data].
  unfold rb_fill in E. rewrite copy_into_ok in E by lia. injection E as <-. unfold pb_bytes in *. cbn. by apply bytes_ok_splice.
Qed.

Lemma queue_copy_ok pb (h : H) data :
  pbb_wf pb -> bytes_ok data ->
  wp (pb_enqueue pb (Zlen data) h) (fun '(pb', r) =>
    match r with
    | Ok range => wp (pb_copy pb' range data) (fun pb'' => pbb_wf pb'' /\ pb_packets pb'' = pb_packets pb ++ [(h, data)])
    | Err _ => pbb_wf pb' /\ pb_packets pb' = pb_packets pb
    end).
Proof.
  intros [Hwf Hb] Hbd. eapply wp_mono.
  { apply wp_and_wlp; [exact (pb_enqueue_copy_ok pb h data Hwf) | exact (pb_enqueue_bytes pb (Zlen data) h Hb)]. }
  intros [pb' [range|e]] [Hq Hb']; [|destruct Hq; by split]. destruct Hq as (pb'' & E & Hwf' & Hpk). rewrite E. cbn [wp].
  split; [split; [done|]|done]. revert E. unfold pb_copy, rb_fill. destruct (passert _); [|done]. cbn [mbind res_bind].
  unfold copy_into. destruct (_ && _); [|done]. cbn [mbind res_bind]. intros [= <-]. unfold pb_bytes in *. cbn. by apply bytes_ok_splice.
Qed.

Lemma queue_dequeue_ok pb :
  pbb_wf pb ->
  wp (pb_dequeue pb) (fun '(pb', r) => pbb_wf pb' /\
    match r with
    | Ok (h, bytes) => pb_packets pb = (h, bytes) :: pb_packets pb'
    | Err _ => pb_packets pb = [] /\ pb_packets pb' = []
    end).
Proof.
  intros [Hwf Hb]. eapply wp_mono; [apply wp_and_wlp; [by apply pb_dequeue_ok | by apply pb_dequeue_bytes]|].
  intros [pb' r] [[Hwf' Hq] Hb']. split; [by split | done].
Qed.

Lemma queue_peek_ok pb :
  pbb_wf pb ->
  wp (pb_peek pb) (fun '(pb', r) => pbb_wf pb' /\ pb_packets pb' = pb_packets pb /\
    r = match pb_packets pb with [] => Err EmptyErr | p :: _ => Ok p end).
Proof.
  intros [Hwf Hb]. eapply wp_mono; [apply wp_and_wlp; [by apply pb_peek_ok | by apply pb_peek_bytes]|].
  intros [pb' [[h bs]|e]] [(Hwf' & Hpk & Hq) Hb']; (split; [by split|]); (split; [done|]).
  - destruct (pb_packets pb); cbn in Hq; [done|]. by injection Hq as ->.
  - destruct e. by rewrite Hq.
Qed.

(** The first packet, handed to [f]: it leaves the queue when [f] succeeds, and keeps what [f]
    wrote to it otherwise. *)
Lemma queue_dequeue_with_ok {R E} pb (f : H -> list Z -> res (H * list Z * result R E)) (P : H -> list Z -> H -> list Z -> result R E -> Prop) :
  pbb_wf pb ->
  (forall h d, bytes_ok d -> head (pb_packets pb) = Some (h, d) ->
    wp (f h d) (fun '(h', d', r) => Zlen d' = Zlen d /\ P h d h' d' r)) ->
  (forall h d, bytes_ok d -> wlp (f h d) (fun '(_, d', _) => bytes_ok d')) ->
  wp (pb_dequeue_with pb f) (fun '(pb', r) => pbb_wf pb' /\ match pb_packets pb with
    | [] => r = Err EmptyErr /\ pb_packets pb' = []
    | (h, d) :: rest => exists h' d' r', r = Ok r' /\ P h d h' d' r' /\ pb_packets pb' = if is_ok r' then rest else (h', d') :: rest
    end).
Proof.
  intros Hq Hf Hf'. pose proof Hq as [Hwf Hb]. pose proof (pb_dequeue_with_ok pb f Hwf) as Hd. pose proof (pb_packets_bytes pb Hq) as Hpb.
  destruct (pb_packets pb) as [|[h d] rest] eqn:Ep.
  - eapply wp_mono; [apply wp_and_wlp; [exact Hd | by apply pb_dequeue_with_bytes]|]. intros [pb' r] [(Hwf' & Hpk & ->) Hb']. split; [by split | by split].
  - inversion Hpb as [|? ? Hbd Hrest]; subst. cbn [snd] in Hbd. pose proof (Hf h d Hbd eq_refl) as Hfd.
    destruct (wp_Ret_inv _ _ Hfd) as ([[h' d'] r] & Ef & Hz & HP). destruct Hd as [Hd|Hd]; [|congruence].
    rewrite Ef in Hd. specialize (Hd Hz). eapply wp_mono; [apply wp_and_wlp; [exact Hd | by apply pb_dequeue_with_bytes]|].
    intros [pb' r'] [(Hwf' & -> & Hpk) Hb']. split; [by split|]. exists h', d', r. by rewrite Hpk.
Qed.

Lemma queue_new_ok (ms : list (PacketMetadata H)) bs :
  Zlen ms <= isize_max -> Zlen bs <= isize_max -> bytes_ok bs -> pbb_wf (pb_new ms bs) /\ pb_packets (pb_new ms bs) = [].
Proof. intros. split; [split; [by apply pb_new_wf | done]|]. done. Qed.
End Queue.
