(* ===== verification/RawSocket.v ===== *)
(** * The raw socket (socket/raw.rs)

    A raw socket exchanges whole IP packets with the application; [caps] stands for the
    checksum capabilities of the context.  [dispatch] takes the function that hands a packet to
    the interface. *)

From S2P Require Import Prelude RingBuffer PacketBuffer TimeModel TcpTimers IpTypes ByteOrder Checksum Ipv4Wire IfaceContext Ipv6Wire TcpSocket UdpSocket UdpSocketSpec IpWire PacketRoom PacketQueue.

Inductive RawSendError : Type := RawSendBufferFull.
Inductive RawRecvError : Type := RawRecvExhausted | RawRecvTruncated.

Record RawSocket : Type := mkRawSocket {
  rs_ip_version : option Version;
  rs_ip_protocol : option Z;
  rs_rx_buffer : PacketBuffer unit;
  rs_tx_buffer : PacketBuffer unit;
  rs_rx_waker : WakerRegistration;
  rs_tx_waker : WakerRegistration;
}.

Definition raw_new (ip_version : option Version) (ip_protocol : option Z) (rx_buffer tx_buffer : PacketBuffer unit) : RawSocket :=
  mkRawSocket ip_version ip_protocol rx_buffer tx_buffer waker_new waker_new.

(** Field updates. *)
Definition rs_set_rx (s : RawSocket) (b : PacketBuffer unit) : RawSocket :=
  mkRawSocket (rs_ip_version s) (rs_ip_protocol s) b (rs_tx_buffer s) (rs_rx_waker s) (rs_tx_waker s).
Definition rs_set_tx (s : RawSocket) (b : PacketBuffer unit) : RawSocket :=
  mkRawSocket (rs_ip_version s) (rs_ip_protocol s) (rs_rx_buffer s) b (rs_rx_waker s) (rs_tx_waker s).
Definition rs_set_rx_waker (s : RawSocket) (w : WakerRegistration) : RawSocket :=
  mkRawSocket (rs_ip_version s) (rs_ip_protocol s) (rs_rx_buffer s) (rs_tx_buffer s) w (rs_tx_waker s).
Definition rs_set_tx_waker (s : RawSocket) (w : WakerRegistration) : RawSocket :=
  mkRawSocket (rs_ip_version s) (rs_ip_protocol s) (rs_rx_buffer s) (rs_tx_buffer s) (rs_rx_waker s) w.

Section RawSocket.
Context `{NetworkEndian}.
Implicit Types s : RawSocket.

Definition raw_register_recv_waker s (w : Waker) : RawSocket := rs_set_rx_waker s (waker_register (rs_rx_waker s) w).
Definition raw_register_send_waker s (w : Waker) : RawSocket := rs_set_tx_waker s (waker_register (rs_tx_waker s) w).

Definition raw_can_send s : res bool := full ← pb_is_full (rs_tx_buffer s); Ret (negb full).
Definition raw_can_recv s : bool := negb (pb_is_empty (rs_rx_buffer s)).
Definition raw_packet_recv_capacity s : Z := pb_packet_capacity (rs_rx_buffer s).
Definition raw_packet_send_capacity s : Z := pb_packet_capacity (rs_tx_buffer s).
Definition raw_payload_recv_capacity s : Z := pb_payload_capacity (rs_rx_buffer s).
Definition raw_payload_send_capacity s : Z := pb_payload_capacity (rs_tx_buffer s).
Definition raw_send_queue s : Z := pb_payload_bytes_count (rs_tx_buffer s).
Definition raw_recv_queue s : Z := pb_payload_bytes_count (rs_rx_buffer s).

(** The slice is its position and length in the storage of the transmit buffer. *)
Definition raw_send s (size : Z) : res (RawSocket * result (Z * Z) RawSendError) :=
  '(tx, r) ← pb_enqueue (rs_tx_buffer s) size tt;
  Ret (rs_set_tx s tx, match r with Ok range => Ok range | Err _ => Err RawSendBufferFull end).

Definition raw_send_with s (max_size : Z) (f : list Z -> list Z * Z) : res (RawSocket * result Z RawSendError) :=
  '(tx, r) ← pb_enqueue_with_infallible (rs_tx_buffer s) max_size tt f;
  Ret (rs_set_tx s tx, match r with Ok size => Ok size | Err _ => Err RawSendBufferFull end).

Definition raw_send_slice s (data : list Z) : res (RawSocket * result unit RawSendError) :=
  '(s, r) ← raw_send s (Zlen data);
  match r with
  | Err e => Ret (s, Err e)
  | Ok range => tx ← pb_copy (rs_tx_buffer s) range data; Ret (rs_set_tx s tx, Ok tt)
  end.

Definition raw_recv s : res (RawSocket * result (list Z) RawRecvError) :=
  '(rx, r) ← pb_dequeue (rs_rx_buffer s);
  Ret (rs_set_rx s rx, match r with Ok (_, packet) => Ok packet | Err _ => Err RawRecvExhausted end).

Definition raw_recv_slice s (data : list Z) : res (RawSocket * list Z * result Z RawRecvError) :=
  '(s, r) ← raw_recv s;
  match r with
  | Err e => Ret (s, data, Err e)
  | Ok buffer =>
      if Zlen data <? Zlen buffer then Ret (s, data, Err RawRecvTruncated)
      else '(data, length) ← udp_copy_out data buffer; Ret (s, data, Ok length)
  end.

Definition raw_peek s : res (RawSocket * result (list Z) RawRecvError) :=
  '(rx, r) ← pb_peek (rs_rx_buffer s);
  Ret (rs_set_rx s rx, match r with Ok (_, packet) => Ok packet | Err _ => Err RawRecvExhausted end).

Definition raw_peek_slice s (data : list Z) : res (RawSocket * list Z * result Z RawRecvError) :=
  '(s, r) ← raw_peek s;
  match r with
  | Err e => Ret (s, data, Err e)
  | Ok buffer =>
      if Zlen data <? Zlen buffer then Ret (s, data, Err RawRecvTruncated)
      else '(data, length) ← udp_copy_out data buffer; Ret (s, data, Ok length)
  end.

(** ** The interface's side *)

Definition raw_accepts s (ip_repr : IpRepr) : bool :=
  if match rs_ip_version s with Some version => negb (version_eqb version (ip_version ip_repr)) | None => false end then false
  else if match rs_ip_protocol s with Some next_header => negb (next_header =? ip_next_header ip_repr) | None => false end then false
  else true.

(** The header over the front of the slice, the payload behind it. *)
Definition raw_fill (caps : ChecksumCapabilities) (ip_repr : IpRepr) (payload : list Z) (buf : list Z) : res (list Z) :=
  let header_len := ip_header_len ip_repr in
  buf ← slice_mut buf 0 header_len (fun d => ip_repr_emit ip_repr d caps);
  slice_mut buf header_len (Zlen buf) (fun d => copy_from_slice d payload).

Definition raw_process s (caps : ChecksumCapabilities) (ip_repr : IpRepr) (payload : list Z) : res RawSocket :=
  _ ← passert (raw_accepts s ip_repr);
  total_len ← usize_add (ip_header_len ip_repr) (Zlen payload);
  '(rx, r) ← pb_enqueue (rs_rx_buffer s) total_len tt;
  rx ← match r with
       | Ok range => pb_write rx range (raw_fill caps ip_repr payload)
       | Err _ => Ret rx
       end;
  Ret (rs_set_rx_waker (rs_set_rx s rx) (waker_wake (rs_rx_waker s))).

Section Dispatch.
Context {C E : Type} (emit : C -> IpRepr * list Z -> res (C * result unit E)).

(** [emit] with the context that the closure borrows; a packet dropped leaves it as it is. *)
Definition raw_emit (cx : C) (ip_repr : IpRepr) (payload buffer : list Z) : res (unit * list Z * result C (C * E)) :=
  '(cx, r) ← emit cx (ip_repr, payload);
  Ret (tt, buffer, match r with Ok _ => Ok cx | Err e => Err (cx, e) end).

(** A protocol other than that of the socket. *)
Definition raw_wrong_protocol (ip_protocol : option Z) (next_header : Z) : bool :=
  match ip_protocol with Some p => negb (p =? next_header) | None => false end.

Definition raw_emit_v4 (cx : C) (caps : ChecksumCapabilities) (ip_protocol : option Z) (buffer : list Z)
  : res (unit * list Z * result C (C * E)) :=
  r ← ip4_new_checked buffer;
  match r with
  | Err _ => Ret (tt, buffer, Ok cx)
  | Ok packet =>
      next_header ← ip4_next_header packet;
      if raw_wrong_protocol ip_protocol next_header then Ret (tt, buffer, Ok cx)
      else
        packet ← (if checksum_tx (caps_ipv4 caps) then ip4_fill_checksum packet else ip4_set_checksum packet 0);
        r ← ipv4_parse packet caps;
        match r with
        | Err _ => Ret (tt, packet, Ok cx)
        | Ok ipv4_repr => payload ← ip4_payload packet; raw_emit cx (Ipv4Repr ipv4_repr) payload packet
        end
  end.

Definition raw_emit_v6 (cx : C) (ip_protocol : option Z) (buffer : list Z)
  : res (unit * list Z * result C (C * E)) :=
  r ← ip6_new_checked buffer;
  match r with
  | Err _ => Ret (tt, buffer, Ok cx)
  | Ok packet =>
      next_header ← ip6_next_header packet;
      if raw_wrong_protocol ip_protocol next_header then Ret (tt, buffer, Ok cx)
      else
        r ← ipv6_parse packet;
        match r with
        | Err _ => Ret (tt, packet, Ok cx)
        | Ok ipv6_repr => payload ← ip6_payload packet; raw_emit cx (Ipv6Repr ipv6_repr) payload packet
        end
  end.

(** The closure of [dequeue_with]. *)
Definition raw_emit_packet (cx : C) (caps : ChecksumCapabilities) (ip_protocol : option Z) (_ : unit) (buffer : list Z)
  : res (unit * list Z * result C (C * E)) :=
  version ← version_of_packet buffer;
  match version with
  | Ok Ipv4Version => raw_emit_v4 cx caps ip_protocol buffer
  | Ok Ipv6Version => raw_emit_v6 cx ip_protocol buffer
  | Err _ => Ret (tt, buffer, Ok cx)
  end.

Definition raw_dispatch s (cx : C) (caps : ChecksumCapabilities) : res (RawSocket * C * result unit E) :=
  '(tx, r) ← pb_dequeue_with (rs_tx_buffer s) (raw_emit_packet cx caps (rs_ip_protocol s));
  let s := rs_set_tx s tx in
  match r with
  | Err _ => Ret (s, cx, Ok tt)
  | Ok (Err (cx, e)) => Ret (s, cx, Err e)
  | Ok (Ok cx) => Ret (rs_set_tx_waker s (waker_wake (rs_tx_waker s)), cx, Ok tt)
  end.
End Dispatch.

Definition raw_poll_at s : PollAt := if pb_is_empty (rs_tx_buffer s) then PollIngress else PollNow.
End RawSocket.

(** * What the raw socket promises *)

Definition raw_wf (s : RawSocket) : Prop := pbb_wf (rs_rx_buffer s) /\ pbb_wf (rs_tx_buffer s).

(** The packets in the queues of a socket. *)
Definition raw_rx (s : RawSocket) : list (list Z) := map snd (pb_packets (rs_rx_buffer s)).
Definition raw_tx (s : RawSocket) : list (list Z) := map snd (pb_packets (rs_tx_buffer s)).

(** The length of a payload is the one its header announces. *)
Definition ip_payload_ok (r : IpRepr) (payload : list Z) : Prop := bytes_ok payload /\ ip_payload_len r = Zlen payload.

Section Raw.
Context `{NetworkEndianLaws}.

(** ** Receiving *)

Lemma raw_fill_ok caps r payload d :
  ip_repr_ok r -> bytes_ok payload -> bytes_ok d -> Zlen d = ip_header_len r + Zlen payload ->
  wp (raw_fill caps r payload d) (fun d' => Zlen d' = Zlen d /\ bytes_ok d' /\ ip_packet_of r payload caps d').
Proof.
  intros Hr Hp Hd Hl. pose proof (Zlen_nonneg payload). assert (Hh : 0 <= ip_header_len r) by (by destruct r).
  destruct (Zlen_split_at d (ip_header_len r)) as (d1 & d2 & -> & Hd1); [lia|]. apply bytes_ok_app in Hd as [Hb1 Hb2]. rewrite Zlen_app in Hl.
  destruct (ip_repr_emit_ok r d1 caps Hr Hb1 ltac:(lia)) as (hdr & Eem & Hzh & Hbh & Hpk).
  assert (Edrop : drop (Z.to_nat (ip_header_len r)) d1 = []) by (apply drop_ge; unfold Zlen in *; lia).
  rewrite Edrop, app_nil_r in Eem. unfold raw_fill.
  pose proof (slice_mut_mid [] d1 hdr d2 0 (ip_header_len r) (fun d => ip_repr_emit r d caps)) as E1. cbn [app] in E1.
  rewrite E1 by (done || lia || (unfold Zlen in *; lia)). ret_step.
  pose proof (slice_mut_mid hdr d2 payload [] (ip_header_len r) (Zlen (hdr ++ d2)) (fun d => copy_from_slice d payload)) as E2.
  rewrite !app_nil_r in E2. rewrite E2 by ((rewrite ?Zlen_app; lia) || (apply copy_from_slice_ok; lia) || (unfold Zlen in *; lia)).
  cbn [wp]. rewrite !Zlen_app, bytes_ok_app. split; [lia|]. split; [done|]. by apply Hpk.
Qed.

Lemma raw_process_ok s caps r payload :
  raw_wf s -> raw_accepts s r = true -> ip_repr_ok r -> bytes_ok payload -> Zlen payload <= isize_max - 40 ->
  wp (raw_process s caps r payload) (fun s' => raw_wf s' /\ rs_tx_buffer s' = rs_tx_buffer s /\
    (raw_rx s' = raw_rx s \/ exists packet, raw_rx s' = raw_rx s ++ [packet] /\ ip_packet_of r payload caps packet)).
Proof.
  intros [Hrx Htx] Ha Hr Hp Hl. unfold raw_process. rewrite Ha. cbn [passert]. ret_step. pose proof (Zlen_nonneg payload).
  assert (Hh : 20 <= ip_header_len r <= 40) by (destruct r; cbn; unfold IPV4_HEADER_LEN, IPV6_HEADER_LEN; lia).
  unfold usize_add. rewrite checked_ok by mlia. ret_step.
  wp_bind_with (queue_write_ok (rs_rx_buffer s) tt (ip_header_len r + Zlen payload) (raw_fill caps r payload) (ip_packet_of r payload caps) Hrx).
  - lia.
  - intros d Hd Hz. eapply wp_mono; [by apply raw_fill_ok|]. cbv beta. intros d' (? & ? & ?). split; [lia | done].
  - intros [rx [range|e]] Hq.
    + wp_bind_with Hq. intros rx' (Hwf & data & HP & _ & _ & Hpk). cbn [wp]. split; [by split|]. split; [done|]. right. exists data.
      split; [|done]. unfold raw_rx. cbn. by rewrite Hpk, map_app.
    + ret_step. cbn [wp]. destruct Hq as [Hwf Hpk]. split; [by split|]. split; [done|]. left. unfold raw_rx. cbn. by rewrite Hpk.
Qed.

(** ** Sending *)

Lemma ip4_set_checksum_any bs v :
  bytes_ok bs -> 20 <= Zlen bs -> in_u16 v -> exists bs', ip4_set_checksum bs v = Ret bs' /\ bytes_ok bs' /\ Zlen bs' = Zlen bs /\
    ip4_header_len bs' = ip4_header_len bs /\ ip4_next_header bs' = ip4_next_header bs.
Proof.
  intros Hb Hl Hv. destruct (ip4_hdr_view bs Hb Hl) as (vi & de & len & id & fo & ttl & proto & ck & src & dst & rest & -> & Hr & Hvi & ? & ? & ? & ? & ? & Hpr & _).
  exists (ip4_hdr vi de len id fo ttl proto v src dst rest). rewrite ip4_set_checksum_ok by done. split; [done|].
  split; [by apply ip4_hdr_bytes_ok|]. split; [by rewrite !Zlen_ip4_hdr|].
  destruct (ip4_header_len_ok vi de len id fo ttl proto ck src dst rest Hvi) as [-> _].
  destruct (ip4_header_len_ok vi de len id fo ttl proto v src dst rest Hvi) as [-> _]. split; [done|]. by rewrite !ip4_next_header_ok.
Qed.

Lemma ip4_fill_checksum_any bs :
  bytes_ok bs -> 20 <= Zlen bs -> ip4_len_ok bs ->
  wp (ip4_fill_checksum bs) (fun bs' => bytes_ok bs' /\ Zlen bs' = Zlen bs /\ ip4_next_header bs' = ip4_next_header bs).
Proof.
  intros Hb Hl (hl & tl & Eh & _ & Hh & Ht & Hm). unfold ip4_fill_checksum.
  destruct (ip4_set_checksum_any bs 0 Hb Hl ltac:(mlia)) as (bs1 & -> & Hb1 & Hz1 & Eh1 & En1). ret_step. rewrite Eh1, Eh. ret_step.
  rewrite slice_ok by lia. ret_step. rewrite checksum_data_ok; [|by apply bytes_ok_sub | pose proof (Zlen_sub_le bs1 0 (hl - 0)); mlia]. ret_step.
  pose proof (fold16_range (word_sum (sub bs1 0 (hl - 0)))). rewrite u16_not by mlia.
  destruct (ip4_set_checksum_any bs1 (65535 - fold16 (word_sum (sub bs1 0 (hl - 0)))) Hb1 ltac:(lia) ltac:(mlia)) as (bs2 & -> & Hb2 & Hz2 & _ & En2).
  cbn [wp]. split; [done|]. split; [lia | congruence].
Qed.

Lemma ipv4_parse_next_header bs caps :
  wlp (ipv4_parse bs caps) (fun r => match r with Ok h => ip4_next_header bs = Ret (iph_next_header h) | Err _ => True end).
Proof.
  unfold ipv4_parse, try_bind. eapply wlp_bind; [apply wlp_any|]. intros [[]|e] _; [|done].
  eapply wlp_bind; [apply wlp_any|]. intros v _. destr_if; [done|]. eapply wlp_bind; [apply wlp_any|]. intros v' _. destr_if; [done|].
  do 5 (eapply wlp_bind; [apply wlp_any|]; intros ? _). destruct (ip4_next_header bs) as [nh|]; [|done]. cbn [mbind res_bind].
  eapply wlp_bind; [apply wlp_any|]. by intros.
Qed.

Lemma ipv6_parse_next_header bs :
  wlp (ipv6_parse bs) (fun r => match r with Ok h => ip6_next_header bs = Ret (iph_next_header h) | Err _ => True end).
Proof.
  unfold ipv6_parse, try_bind. eapply wlp_bind; [apply wlp_any|]. intros [[]|e] _; [|done].
  eapply wlp_bind; [apply wlp_any|]. intros v _. destr_if; [done|].
  do 2 (eapply wlp_bind; [apply wlp_any|]; intros ? _). destruct (ip6_next_header bs) as [nh|]; [|done]. cbn [mbind res_bind].
  do 2 (eapply wlp_bind; [apply wlp_any|]; intros ? _). by intros.
Qed.

Context {C Er : Type} (emit : C -> IpRepr * list Z -> res (C * result unit Er)).
Hypothesis emit_returns : forall cx p, wp (emit cx p) (fun _ => True).

(** The packet was dropped, or handed to the interface: one of the socket's protocol. *)
Definition raw_handled (cx : C) (proto : option Z) (r : result C (C * Er)) : Prop :=
  r = Ok cx \/
  exists ip payload cx' r', emit cx (ip, payload) = Ret (cx', r') /\ r = match r' with Ok _ => Ok cx' | Err e => Err (cx', e) end /\
    ip_payload_ok ip payload /\ match ip with Ipv4Repr h => ip_header_ok h | Ipv6Repr h => ip6_header_ok h end /\
    (forall p, proto = Some p -> ip_next_header ip = p).

Lemma raw_emit_ok cx proto ip payload buffer :
  ip_payload_ok ip payload -> match ip with Ipv4Repr h => ip_header_ok h | Ipv6Repr h => ip6_header_ok h end ->
  raw_wrong_protocol proto (ip_next_header ip) = false ->
  wp (raw_emit emit cx ip payload buffer) (fun '(_, d', r) => d' = buffer /\ raw_handled cx proto r).
Proof.
  intros Hp Hh Hpr. unfold raw_emit. destruct (wp_Ret_inv _ _ (emit_returns cx (ip, payload))) as ([cx' r'] & E & _). rewrite E. ret_step.
  cbn [wp]. split; [done|]. right. exists ip, payload, cx', r'. split; [done|]. split; [done|]. split; [done|]. split; [done|].
  intros p ->. cbn in Hpr. lia.
Qed.

Lemma raw_emit_packet_ok cx caps proto d :
  bytes_ok d -> d <> [] ->
  wp (raw_emit_packet emit cx caps proto tt d) (fun '(_, d', r) => Zlen d' = Zlen d /\ bytes_ok d' /\ raw_handled cx proto r).
Proof.
  intros Hb Hd.
  assert (Hdrop : wp (Ret (tt, d, Ok cx)) (fun '(_, d', r) => Zlen d' = Zlen d /\ bytes_ok d' /\ raw_handled cx proto r)) by (cbn; split; [done | split; [done | by left]]).
  unfold raw_emit_packet. destruct (version_of_packet_ok d Hb Hd) as ([[]|] & ->); ret_step; [| |exact Hdrop].
  - unfold raw_emit_v4, ip4_new_checked, try_bind. rewrite bind_assoc. wp_bind_with (ip4_check_len_ok d Hb). intros [[]|e]; [|intros _; ret_step; exact Hdrop].
    intros [Hl Hlen]. ret_step. destruct (ip4_accessors_ok d Hb Hl) as (_ & _ & _ & Hn & _).
    destruct (wp_Ret_inv _ _ Hn) as (nh & En & Hnh). rewrite En. ret_step. destruct (raw_wrong_protocol proto nh) eqn:Epr; [exact Hdrop|].
    assert (Hck : wp (if checksum_tx (caps_ipv4 caps) then ip4_fill_checksum d else ip4_set_checksum d 0) (fun d' => bytes_ok d' /\ Zlen d' = Zlen d /\ ip4_next_header d' = Ret nh)).
    { rewrite <- En. destr_if; [by apply ip4_fill_checksum_any|]. destruct (ip4_set_checksum_any d 0 Hb Hl ltac:(mlia)) as (d1 & -> & ? & ? & _ & ?). done. }
    wp_bind_with Hck. intros d' (Hb' & Hz' & En'). eapply wp_bind_mono; [apply wp_and_wlp; [by apply (ipv4_parse_ok d' caps) | apply ipv4_parse_next_header]|].
    intros [h|e]; [|intros _; cbn; split; [lia | split; [done | by left]]].
    intros [(Hh & hl & _ & Hhl & _ & Epl & Hfit) Enh]. rewrite Epl. ret_step. rewrite En' in Enh. injection Enh as ->. eapply wp_mono; [apply (raw_emit_ok cx proto)|].
    + split; [by apply bytes_ok_sub|]. assert (in_u16 (iph_payload_len h)) by apply Hh. cbn. rewrite Zlen_sub by mlia. done.
    + done.
    + done.
    + intros [[[] d2] r] [-> Hr]. done.
  - unfold raw_emit_v6, ip6_new_checked, try_bind. rewrite bind_assoc. wp_bind_with (ip6_check_len_ok d Hb). intros [[]|e]; [|intros _; ret_step; exact Hdrop].
    intros (Hl & _). ret_step. assert (Hn : exists nh, ip6_next_header d = Ret nh).
    { destruct (ip6_hdr_view d Hb Hl) as (b0 & b1 & b2 & b3 & len & nh & hop & src & dst & rest & -> & ? & ? & ? & ? & ? & ?).
      exists nh. by apply ip6_next_header_ok. }
    destruct Hn as (nh & En). rewrite En. ret_step. destruct (raw_wrong_protocol proto nh) eqn:Epr; [exact Hdrop|].
    eapply wp_bind_mono; [apply wp_and_wlp; [by apply (ipv6_parse_ok d) | apply ipv6_parse_next_header]|]. intros [h|e]; [|intros _; exact Hdrop].
    intros [(Hh & Hfit & Epl) Enh]. rewrite Epl. ret_step. rewrite En in Enh. injection Enh as ->. eapply wp_mono; [apply (raw_emit_ok cx proto)|].
    + split; [by apply bytes_ok_sub|]. assert (in_u16 (iph_payload_len h)) by apply Hh. cbn. rewrite Zlen_sub by mlia. done.
    + done.
    + done.
    + intros [[[] d2] r] [-> Hr]. done.
Qed.

(** A packet with a header that can be emitted reaches the interface as it is. *)
Lemma raw_emit_packet_wf cx caps proto ip payload d :
  ip_repr_ok ip -> ip_payload_ok ip payload -> raw_wrong_protocol proto (ip_next_header ip) = false ->
  match ip with Ipv4Repr h => exists ck, in_u16 ck /\ d = ip4_emitted h ck payload | Ipv6Repr h => d = ip6_emitted h payload end ->
  (checksum_rx (caps_ipv4 caps) = true -> checksum_tx (caps_ipv4 caps) = true) ->
  exists d', raw_emit_packet emit cx caps proto tt d = raw_emit emit cx ip payload d'.
Proof.
  intros Hok [Hb Hlen] Hpr Hd Hc. unfold raw_emit_packet. destruct ip as [h|h]; cbn [ip_repr_ok] in *; unfold ip_payload_len, ip_header in Hlen; unfold ip_next_header, ip_header in Hpr.
  - destruct Hd as (ck & Hck & ->). pose proof Hok as [[Hsrc Hdst Hnh Hpl Hhop] Hmax].
    assert (Ev : version_of_packet (ip4_emitted h ck payload) = Ret (Ok Ipv4Version)).
    { unfold version_of_packet, ip4_emitted. rewrite ip4_vi_ok by (by vm_compute). by ret_step. }
    assert (Hchk : ip4_check_len (ip4_emitted h ck payload) = Ret (Ok tt)).
    { unfold ip4_check_len, ip4_emitted. rewrite Zlen_ip4_hdr. unfold IPV4_HEADER_LEN. pose proof (Zlen_nonneg payload). replace (20 + Zlen payload <? 20) with false by lia.
      destruct (ip4_header_len_ok 0x45 0 (20 + iph_payload_len h) 0 0x4000 (iph_hop_limit h) (iph_next_header h) ck (be_value (iph_src h)) (be_value (iph_dst h)) payload ltac:(by vm_compute)) as [-> _].
      ret_step. change (Z.land 69 15 * 4) with 20. replace (20 + Zlen payload <? 20) with false by lia. rewrite ip4_total_len_ok by mlia. ret_step.
      replace (20 + iph_payload_len h <? 20) with false by mlia. by replace (20 + Zlen payload <? 20 + iph_payload_len h) with false by lia. }
    assert (Hset : exists ck', in_u16 ck' /\ (if checksum_tx (caps_ipv4 caps)
      then ip4_fill_checksum (ip4_emitted h ck payload) else ip4_set_checksum (ip4_emitted h ck payload) 0) = Ret (ip4_emitted h ck' payload) /\
      (checksum_tx (caps_ipv4 caps) = true -> ip4_verify_checksum (ip4_emitted h ck' payload) = Ret true)).
    { unfold ip4_emitted. destruct (checksum_tx (caps_ipv4 caps)).
      - destruct (ip4_fill_checksum_ok (20 + iph_payload_len h) 0 0x4000 (iph_hop_limit h) (iph_next_header h) ck (be_value (iph_src h)) (be_value (iph_dst h)) payload Hb)
          as (ck' & ? & ? & ?). by exists ck'.
      - exists 0. rewrite ip4_set_checksum_ok by mlia. split; [mlia | by split]. }
    destruct Hset as (ck' & Hck' & Eset & Hv). exists (ip4_emitted h ck' payload). rewrite Ev. ret_step.
    unfold raw_emit_v4, ip4_new_checked, try_bind. rewrite Hchk. ret_steps. 
    assert (En : ip4_next_header (ip4_emitted h ck payload) = Ret (iph_next_header h)) by (unfold ip4_emitted; by rewrite ip4_next_header_ok).
    rewrite En. ret_step. rewrite Hpr, Eset. ret_step.
    destruct (ipv4_parse_emitted h ck' payload caps Hok Hck' ltac:(lia)) as (Epar & Epl & _); [auto|]. rewrite Epar. ret_step. rewrite Epl. ret_step.
    by rewrite Hlen, sub_all.
  - subst d. pose proof Hok as [Hsrc Hdst Hnh Hpl Hhop]. exists (ip6_emitted h payload).
    assert (Ev : version_of_packet (ip6_emitted h payload) = Ret (Ok Ipv6Version)).
    { unfold version_of_packet, ip6_emitted. rewrite ip6_b0_ok by (by vm_compute). by ret_step. }
    rewrite Ev. ret_step. destruct (ipv6_parse_emitted h payload Hok ltac:(lia)) as [Epar Epl].
    assert (Hchk : ip6_check_len (ip6_emitted h payload) = Ret (Ok tt)).
    { unfold ip6_check_len, ip6_emitted. rewrite Zlen_ip6_hdr. pose proof (Zlen_nonneg payload). replace (40 + Zlen payload <? 40) with false by lia.
      rewrite ip6_total_len_ok by done. ret_step. by replace (40 + Zlen payload <? 40 + iph_payload_len h) with false by lia. }
    unfold raw_emit_v6, ip6_new_checked, try_bind. rewrite Hchk. ret_steps. 
    assert (En : ip6_next_header (ip6_emitted h payload) = Ret (iph_next_header h)) by (unfold ip6_emitted; by rewrite ip6_next_header_ok).
    rewrite En. ret_step. rewrite Hpr.
    rewrite Epar. ret_step. rewrite Epl. ret_step. by rewrite Hlen, sub_all.
Qed.

Lemma raw_dispatch_ok s cx caps :
  raw_wf s -> Forall (fun p => p <> []) (raw_tx s) ->
  wp (raw_dispatch emit s cx caps) (fun '(s', cx', r) => raw_wf s' /\ rs_rx_buffer s' = rs_rx_buffer s /\
    match raw_tx s with
    | [] => cx' = cx /\ r = Ok tt /\ raw_tx s' = []
    | d :: rest => exists d' r0, raw_handled cx (rs_ip_protocol s) r0 /\ Zlen d' = Zlen d /\
        (exists d0, raw_emit_packet emit cx caps (rs_ip_protocol s) tt d = Ret (tt, d0, r0)) /\
        match r0 with
        | Ok cx0 => cx' = cx0 /\ r = Ok tt /\ raw_tx s' = rest
        | Err (cx0, e) => cx' = cx0 /\ r = Err e /\ raw_tx s' = d' :: rest
        end
    end).
Proof.
  intros [Hrx Htx] Hne. unfold raw_dispatch.
  wp_bind_with (queue_dequeue_with_ok (rs_tx_buffer s) (raw_emit_packet emit cx caps (rs_ip_protocol s))
    (fun _ d _ d' r => raw_handled cx (rs_ip_protocol s) r /\ Zlen d' = Zlen d /\ exists d0, raw_emit_packet emit cx caps (rs_ip_protocol s) tt d = Ret (tt, d0, r)) Htx).
  - intros [] d Hb Hhd. assert (Hd : d <> []).
    { unfold raw_tx in Hne. destruct (pb_packets (rs_tx_buffer s)) as [|p l]; [done|]. cbn in Hhd. injection Hhd as ->. by inversion Hne. }
    destruct (wp_Ret_inv _ _ (raw_emit_packet_ok cx caps (rs_ip_protocol s) d Hb Hd)) as ([[[] d'] r] & E & Hz & _ & Hh). rewrite E. cbn [wp]. eauto 6.
  - intros [] d Hb. destruct (decide (d = [])) as [->|Hd]; [done|]. apply wp_wlp. eapply wp_mono; [by apply raw_emit_packet_ok|]. by intros [[? ?] ?] (_ & ? & _).
  - unfold raw_tx. intros [tx r] [Hwf Hq]. destruct (pb_packets (rs_tx_buffer s)) as [|[[] d] rest]; cbn [map snd].
    + destruct Hq as [-> Hpk]. cbn [wp]. split; [by split|]. split; [done|]. split; [done|]. split; [done|]. cbn. by rewrite Hpk.
    + destruct Hq as ([] & d' & r0 & -> & (Hh & Hz & Hd0) & Hpk). destruct r0 as [cx0|[cx0 e]]; cbn [wp]; (split; [by split|]); (split; [done|]);
        eexists d', _; (split; [exact Hh|]); (split; [done|]); (split; [done|]); (split; [done|]); (split; [done|]); cbn; by rewrite Hpk.
Qed.
End Raw.

(** ** Properties *)

(** A received packet that a raw socket accepts is appended to its receive queue as a whole, its
    header emitted anew in front of the payload with a valid checksum, or dropped when it does not
    fit; nothing else in the socket changes, whatever the storage held before. *)
Theorem raw_process_queues `{NetworkEndianLaws} s caps r payload :
  raw_wf s -> raw_accepts s r = true -> ip_repr_ok r -> bytes_ok payload -> Zlen payload <= isize_max - 40 ->
  wp (raw_process s caps r payload) (fun s' => raw_wf s' /\ rs_tx_buffer s' = rs_tx_buffer s /\
    (raw_rx s' = raw_rx s \/ exists packet, raw_rx s' = raw_rx s ++ [packet] /\ ip_packet_of r payload caps packet)).
Proof. apply raw_process_ok. Qed.

(** Dispatching a raw socket whose queued packets are not empty never panics, whatever their bytes;
    the first packet is dropped or handed to the interface with the socket's protocol, and a packet with a header that can be emitted
    is handed over with exactly its header and its payload.  It stays in the queue when the
    interface refuses it. *)
Theorem raw_dispatch_hands_over `{NetworkEndianLaws} {C Er : Type} (emit : C -> IpRepr * list Z -> res (C * result unit Er)) s cx caps ip payload d rest :
  (forall cx p, wp (emit cx p) (fun _ => True)) ->
  raw_wf s -> Forall (fun p => p <> []) (raw_tx s) -> raw_tx s = d :: rest ->
  wp (raw_dispatch emit s cx caps) (fun '(s', cx', r) => raw_wf s' /\ rs_rx_buffer s' = rs_rx_buffer s /\
    (raw_tx s' = rest \/ exists d', raw_tx s' = d' :: rest /\ is_ok r = false) /\
    (ip_repr_ok ip -> ip_payload_ok ip payload -> raw_wrong_protocol (rs_ip_protocol s) (ip_next_header ip) = false ->
     match ip with Ipv4Repr h => exists ck, in_u16 ck /\ d = ip4_emitted h ck payload | Ipv6Repr h => d = ip6_emitted h payload end ->
     (checksum_rx (caps_ipv4 caps) = true -> checksum_tx (caps_ipv4 caps) = true) ->
     emit cx (ip, payload) = Ret (cx', r) /\ (is_ok r = true -> raw_tx s' = rest))).
Proof.
  intros Hem Hwf Hne Htx. eapply wp_mono; [by apply raw_dispatch_ok|]. intros [[s' cx'] r] (Hwf' & Hrx & Hq). rewrite Htx in Hq.
  destruct Hq as (d' & r0 & Hh & Hz & (d0 & E) & Hq). split; [done|]. split; [done|]. split.
  { destruct r0 as [cx0|[cx0 e]]; destruct Hq as (-> & -> & ->); [by left | right; by exists d']. }
  intros Hok Hp Hpr Hd Hc. destruct (raw_emit_packet_wf emit cx caps (rs_ip_protocol s) ip payload d Hok Hp Hpr Hd Hc) as (d1 & E1).
  rewrite E1 in E. unfold raw_emit in E. destruct (wp_Ret_inv _ _ (Hem cx (ip, payload))) as ([cx1 r1] & Ee & _). rewrite Ee in E |- *.
  cbn [mbind res_bind] in E. destruct r1 as [[]|e1]; injection E as <- <-; destruct Hq as (-> & -> & ->); by split.
Qed.

(** *** Concrete instances *)

Definition raw_buffer_example : PacketBuffer unit := pb_new (replicate 2 pm_empty) (replicate 64 0xff).
Definition raw_socket_example : RawSocket := raw_new (Some Ipv4Version) (Some 63) raw_buffer_example raw_buffer_example.
Definition raw_header_example : IpHeader := mkIpHeader [10; 0; 0; 1] [10; 0; 0; 2] 63 4 64.
Definition raw_payload_example : list Z := [0xaa; 0; 0; 0xff].
Definition raw_caps_example : ChecksumCapabilities := mkChecksumCapabilities CkBoth CkBoth CkBoth CkBoth CkBoth.
Definition raw_cx_example : Context := mkContext 0 1 MediumIp 1500 [CidrV4 [10; 0; 0; 1] 24] (fun _ => 0).
Definition raw_emit_example (cx : Context) (_ : IpRepr * list Z) : res (Context * result unit unit) := Ret (cx, Ok tt).

Lemma raw_buffer_example_wf : pbb_wf raw_buffer_example.
Proof. split; [by apply pb_new_wf | byte_list]. Qed.

Lemma raw_header_example_ok : ip_repr_ok (Ipv4Repr raw_header_example).
Proof. split; [constructor; cbn; try (split; [byte_list | reflexivity]); by vm_compute | by vm_compute]. Qed.

Lemma raw_process_queues_witness :
  wp (@raw_process network_endian raw_socket_example raw_caps_example (Ipv4Repr raw_header_example) raw_payload_example) (fun s' =>
    raw_wf s' /\ rs_tx_buffer s' = rs_tx_buffer raw_socket_example /\
    (raw_rx s' = raw_rx raw_socket_example \/ exists packet, raw_rx s' = raw_rx raw_socket_example ++ [packet] /\
      @ip_packet_of network_endian (Ipv4Repr raw_header_example) raw_payload_example raw_caps_example packet)).
Proof.
  apply (@raw_process_queues network_endian network_endian_laws);
    [split; apply raw_buffer_example_wf | reflexivity | apply raw_header_example_ok | unfold raw_payload_example; byte_list | vm_compute; congruence].
Defined.

(** The socket with one packet that the application queued. *)
Definition raw_sent_example (packet : list Z) : RawSocket :=
  match raw_send_slice raw_socket_example packet with Ret (s, _) => s | Panic => raw_socket_example end.

Definition raw_packet_example : list Z := @ip4_emitted raw_header_example 0 raw_payload_example.

Lemma raw_sent_example_wf : raw_wf (raw_sent_example raw_packet_example) /\ raw_tx (raw_sent_example raw_packet_example) = [raw_packet_example].
Proof.
  unfold raw_sent_example, raw_send_slice, raw_send. split; [|by vm_compute].
  assert (Hb : bytes_ok raw_packet_example) by (unfold raw_packet_example, ip4_emitted; apply ip4_hdr_bytes_ok; unfold raw_payload_example; byte_list).
  destruct (wp_Ret_inv _ _ (queue_copy_ok (rs_tx_buffer raw_socket_example) tt raw_packet_example raw_buffer_example_wf Hb)) as ([tx [range|e]] & E & Hq);
    rewrite E; cbn [mbind res_bind].
  - change (rs_tx_buffer (rs_set_tx raw_socket_example tx)) with tx. destruct (wp_Ret_inv _ _ Hq) as (tx' & E2 & Hwf & _). rewrite E2. cbn [mbind res_bind].
    split; [apply raw_buffer_example_wf | exact Hwf].
  - split; [apply raw_buffer_example_wf | apply Hq].
Qed.

Lemma raw_dispatch_hands_over_witness :
  wp (@raw_dispatch network_endian Context unit raw_emit_example (raw_sent_example raw_packet_example) raw_cx_example raw_caps_example) (fun '(s', cx', r) =>
    raw_wf s' /\ rs_rx_buffer s' = rs_rx_buffer (raw_sent_example raw_packet_example) /\
    (raw_tx s' = [] \/ exists d', raw_tx s' = d' :: [] /\ is_ok r = false) /\
    (ip_repr_ok (Ipv4Repr raw_header_example) -> ip_payload_ok (Ipv4Repr raw_header_example) raw_payload_example ->
     raw_wrong_protocol (rs_ip_protocol (raw_sent_example raw_packet_example)) (ip_next_header (Ipv4Repr raw_header_example)) = false ->
     (exists ck, in_u16 ck /\ raw_packet_example = @ip4_emitted raw_header_example ck raw_payload_example) ->
     (checksum_rx (caps_ipv4 raw_caps_example) = true -> checksum_tx (caps_ipv4 raw_caps_example) = true) ->
     raw_emit_example raw_cx_example (Ipv4Repr raw_header_example, raw_payload_example) = Ret (cx', r) /\ (is_ok r = true -> raw_tx s' = []))).
Proof.
  apply (@raw_dispatch_hands_over network_endian network_endian_laws Context unit raw_emit_example (raw_sent_example raw_packet_example) raw_cx_example raw_caps_example
    (Ipv4Repr raw_header_example) raw_payload_example raw_packet_example []);
    [done | apply raw_sent_example_wf | by repeat constructor | apply raw_sent_example_wf].
Defined.

(** ** Behaviours the documentation does not state *)

(** An application that sends an empty slice makes the next [dispatch] panic: [of_packet] reads the
    first octet of the packet before any check. *)
Lemma raw_empty_packet_panics {C Er : Type} (emit : C -> IpRepr * list Z -> res (C * result unit Er)) cx caps :
  (exists s, raw_send_slice raw_socket_example [] = Ret (s, Ok tt)) /\
  @raw_dispatch network_endian C Er emit (raw_sent_example []) cx caps = Panic.
Proof. split; [eexists; vm_compute; reflexivity | vm_compute; reflexivity]. Qed.

(** With the checksum of IPv4 left to the device on transmission only, [dispatch] clears the
    checksum and then verifies it: a valid packet is dropped and [emit] is never called. *)
Lemma raw_offload_drops {C Er : Type} (emit : C -> IpRepr * list Z -> res (C * result unit Er)) cx :
  let caps := mkChecksumCapabilities CkRx CkBoth CkBoth CkBoth CkBoth in
  raw_tx (raw_sent_example raw_packet_example) = [raw_packet_example] /\
  exists s, @raw_dispatch network_endian C Er emit (raw_sent_example raw_packet_example) cx caps = Ret (s, cx, Ok tt) /\ raw_tx s = [].
Proof. split; [apply raw_sent_example_wf|]. eexists. split; vm_compute; reflexivity. Qed.

(** A socket bound to IPv4 whose application queues an IPv6 packet hands it to the interface. *)
Definition raw_header6_example : IpHeader := mkIpHeader (replicate 15 0 ++ [1]) (replicate 15 0 ++ [2]) 63 4 64.

Definition raw_emit_seen (cx : Context) (p : IpRepr * list Z) : res (Context * result unit (IpRepr * list Z)) := Ret (cx, Err p).

Lemma raw_version_unchecked :
  rs_ip_version (raw_sent_example (ip6_emitted raw_header6_example raw_payload_example)) = Some Ipv4Version /\
  exists s cx, @raw_dispatch network_endian _ _ raw_emit_seen (raw_sent_example (@ip6_emitted raw_header6_example raw_payload_example)) raw_cx_example raw_caps_example
    = Ret (s, cx, Err (Ipv6Repr raw_header6_example, raw_payload_example)).
Proof. split; [reflexivity|]. eexists _, _. vm_compute. reflexivity. Qed.
