(* ===== verification/IcmpSocket.v ===== *)
(** * The ICMP socket (socket/icmp.rs)

    The socket is bound to an identifier of echo messages, or to a UDP port whose error
    messages it collects.  It keeps whole ICMP messages with the address they came from or go
    to; [caps] stands for the checksum capabilities of the context. *)

From stdpp Require Import gmap.
From S2P Require Import Prelude SeqNumber RingBuffer PacketBuffer TimeModel TcpTimers IpTypes ByteOrder Checksum Ipv4Wire Icmpv4Wire UdpWire IfaceContext Ipv6Wire Icmpv6Packet NdiscWire MldWire Icmpv6Wire NdiscWireSpec Icmpv6WireSpec NdiscEmitSpec Icmpv6EmitSpec TcpSocket UdpSocket UdpSocketSpec PacketRoom PacketQueue.

(** [IpProtocol::Icmp]. *)
Definition PROTOCOL_ICMP : Z := 1.

Inductive IcmpBindError : Type := IcmpBindInvalidState | IcmpBindUnaddressable.
Inductive IcmpSendError : Type := IcmpSendUnaddressable | IcmpSendBufferFull.
Inductive IcmpRecvError : Type := IcmpRecvExhausted | IcmpRecvTruncated.

Inductive IcmpEndpoint : Type :=
| IcmpUnspecified
| IcmpIdent (ident : Z)
| IcmpUdp (endpoint : ListenEndpoint).

#[export] Instance icmp_endpoint_eq_dec : EqDecision IcmpEndpoint.
Proof. solve_decision. Defined.

Definition icmp_is_specified (e : IcmpEndpoint) : bool :=
  match e with
  | IcmpIdent _ => true
  | IcmpUdp endpoint => negb (lep_port endpoint =? 0)
  | IcmpUnspecified => false
  end.

(** [wire::icmp::Repr]. *)
Inductive IcmpRepr : Type :=
| IcmpV4 (r : Icmpv4Repr)
| IcmpV6 (r : Icmpv6Repr).

Record IcmpSocket : Type := mkIcmpSocket {
  is_rx_buffer : PacketBuffer Address;
  is_tx_buffer : PacketBuffer Address;
  is_endpoint : IcmpEndpoint;
  is_hop_limit : option Z;
  is_rx_waker : WakerRegistration;
  is_tx_waker : WakerRegistration;
}.

Definition icmp_new (rx_buffer tx_buffer : PacketBuffer Address) : IcmpSocket :=
  mkIcmpSocket rx_buffer tx_buffer IcmpUnspecified None waker_new waker_new.

(** Field updates. *)
Definition is_set_rx (s : IcmpSocket) (b : PacketBuffer Address) : IcmpSocket :=
  mkIcmpSocket b (is_tx_buffer s) (is_endpoint s) (is_hop_limit s) (is_rx_waker s) (is_tx_waker s).
Definition is_set_tx (s : IcmpSocket) (b : PacketBuffer Address) : IcmpSocket :=
  mkIcmpSocket (is_rx_buffer s) b (is_endpoint s) (is_hop_limit s) (is_rx_waker s) (is_tx_waker s).
Definition is_set_endpoint (s : IcmpSocket) (e : IcmpEndpoint) : IcmpSocket :=
  mkIcmpSocket (is_rx_buffer s) (is_tx_buffer s) e (is_hop_limit s) (is_rx_waker s) (is_tx_waker s).
Definition is_set_rx_waker (s : IcmpSocket) (w : WakerRegistration) : IcmpSocket :=
  mkIcmpSocket (is_rx_buffer s) (is_tx_buffer s) (is_endpoint s) (is_hop_limit s) w (is_tx_waker s).
Definition is_set_tx_waker (s : IcmpSocket) (w : WakerRegistration) : IcmpSocket :=
  mkIcmpSocket (is_rx_buffer s) (is_tx_buffer s) (is_endpoint s) (is_hop_limit s) (is_rx_waker s) w.

Definition is_wake_rx (s : IcmpSocket) : IcmpSocket := is_set_rx_waker s (waker_wake (is_rx_waker s)).
Definition is_wake_tx (s : IcmpSocket) : IcmpSocket := is_set_tx_waker s (waker_wake (is_tx_waker s)).

(** [ChecksumCapabilities::default]. *)
Definition caps_default : ChecksumCapabilities := mkChecksumCapabilities CkBoth CkBoth CkBoth CkBoth CkBoth.

Section IcmpSocket.
Context `{NetworkEndian}.
Implicit Types s : IcmpSocket.

Definition icmp_register_recv_waker s (w : Waker) : IcmpSocket := is_set_rx_waker s (waker_register (is_rx_waker s) w).
Definition icmp_register_send_waker s (w : Waker) : IcmpSocket := is_set_tx_waker s (waker_register (is_tx_waker s) w).

Definition icmp_set_hop_limit s (hop_limit : option Z) : res IcmpSocket :=
  if bool_decide (hop_limit = Some 0) then Panic
  else Ret (mkIcmpSocket (is_rx_buffer s) (is_tx_buffer s) (is_endpoint s) hop_limit (is_rx_waker s) (is_tx_waker s)).

Definition icmp_is_open s : bool := negb (bool_decide (is_endpoint s = IcmpUnspecified)).

Definition icmp_bind s (endpoint : IcmpEndpoint) : IcmpSocket * result unit IcmpBindError :=
  if negb (icmp_is_specified endpoint) then (s, Err IcmpBindUnaddressable)
  else if icmp_is_open s then (s, Err IcmpBindInvalidState)
  else (is_wake_tx (is_wake_rx (is_set_endpoint s endpoint)), Ok tt).

Definition icmp_can_send s : res bool := full ← pb_is_full (is_tx_buffer s); Ret (negb full).
Definition icmp_can_recv s : bool := negb (pb_is_empty (is_rx_buffer s)).
Definition icmp_packet_recv_capacity s : Z := pb_packet_capacity (is_rx_buffer s).
Definition icmp_packet_send_capacity s : Z := pb_packet_capacity (is_tx_buffer s).
Definition icmp_payload_recv_capacity s : Z := pb_payload_capacity (is_rx_buffer s).
Definition icmp_payload_send_capacity s : Z := pb_payload_capacity (is_tx_buffer s).
Definition icmp_send_queue s : Z := pb_payload_bytes_count (is_tx_buffer s).
Definition icmp_recv_queue s : Z := pb_payload_bytes_count (is_rx_buffer s).

(** The slice is its position and length in the storage of the transmit buffer. *)
Definition icmp_send s (size : Z) (endpoint : Address) : res (IcmpSocket * result (Z * Z) IcmpSendError) :=
  if address_is_unspecified endpoint then Ret (s, Err IcmpSendUnaddressable)
  else
    '(tx, r) ← pb_enqueue (is_tx_buffer s) size endpoint;
    Ret (is_set_tx s tx, match r with Ok range => Ok range | Err _ => Err IcmpSendBufferFull end).

Definition icmp_send_with s (max_size : Z) (endpoint : Address) (f : list Z -> list Z * Z) : res (IcmpSocket * result Z IcmpSendError) :=
  if address_is_unspecified endpoint then Ret (s, Err IcmpSendUnaddressable)
  else
    '(tx, r) ← pb_enqueue_with_infallible (is_tx_buffer s) max_size endpoint f;
    Ret (is_set_tx s tx, match r with Ok size => Ok size | Err _ => Err IcmpSendBufferFull end).

Definition icmp_send_slice s (data : list Z) (endpoint : Address) : res (IcmpSocket * result unit IcmpSendError) :=
  '(s, r) ← icmp_send s (Zlen data) endpoint;
  match r with
  | Err e => Ret (s, Err e)
  | Ok range => tx ← pb_copy (is_tx_buffer s) range data; Ret (is_set_tx s tx, Ok tt)
  end.

Definition icmp_recv s : res (IcmpSocket * result (list Z * Address) IcmpRecvError) :=
  '(rx, r) ← pb_dequeue (is_rx_buffer s);
  Ret (is_set_rx s rx, match r with Ok (endpoint, packet) => Ok (packet, endpoint) | Err _ => Err IcmpRecvExhausted end).

Definition icmp_recv_slice s (data : list Z) : res (IcmpSocket * list Z * result (Z * Address) IcmpRecvError) :=
  '(s, r) ← icmp_recv s;
  match r with
  | Err e => Ret (s, data, Err e)
  | Ok (buffer, endpoint) =>
      if Zlen data <? Zlen buffer then Ret (s, data, Err IcmpRecvTruncated)
      else '(data, length) ← udp_copy_out data buffer; Ret (s, data, Ok (length, endpoint))
  end.

(** ** The interface's side *)

(** The message quotes a UDP datagram that the bound port sent. *)
Definition icmp_quotes_port (port : Z) (src dst : Address) (data : list Z) (caps : ChecksumCapabilities) : res bool :=
  r ← udp_parse data src dst caps;
  Ret (match r with Ok repr => port =? udp_src_port repr | Err _ => false end).

(** The guard of the UDP arm. *)
Definition icmp_bound_to (endpoint : ListenEndpoint) (dst : Address) : bool :=
  match lep_addr endpoint with None => true | Some addr => bool_decide (addr = dst) end.

Definition icmp_accepts_v4 s (caps : ChecksumCapabilities) (ip_repr : IpHeader) (icmp_repr : Icmpv4Repr) : res bool :=
  match is_endpoint s, icmp_repr with
  | IcmpUdp endpoint, (Icmpv4DstUnreachable _ header data | Icmpv4TimeExceeded _ header data) =>
      if icmp_bound_to endpoint (Ipv4 (iph_dst ip_repr)) then
        icmp_quotes_port (lep_port endpoint) (Ipv4 (iph_src header)) (Ipv4 (iph_dst header)) data caps
      else Ret false
  | IcmpIdent bound_ident, (Icmpv4EchoRequest ident _ _ | Icmpv4EchoReply ident _ _) => Ret (ident =? bound_ident)
  | _, _ => Ret false
  end.

Definition icmp_accepts_v6 s (caps : ChecksumCapabilities) (ip_repr : IpHeader) (icmp_repr : Icmpv6Repr) : res bool :=
  match is_endpoint s, icmp_repr with
  | IcmpUdp endpoint, (Icmpv6DstUnreachable _ header data | Icmpv6TimeExceeded _ header data) =>
      if icmp_bound_to endpoint (Ipv6 (iph_dst ip_repr)) then
        icmp_quotes_port (lep_port endpoint) (Ipv6 (iph_src header)) (Ipv6 (iph_dst header)) data caps
      else Ret false
  | IcmpIdent bound_ident, (Icmpv6EchoRequest ident _ _ | Icmpv6EchoReply ident _ _) => Ret (ident =? bound_ident)
  | _, _ => Ret false
  end.

(** Room for [size] octets, and the message written to it by [f]. *)
Definition icmp_enqueue s (size : Z) (src : Address) (f : list Z -> res (list Z)) : res IcmpSocket :=
  '(rx, r) ← pb_enqueue (is_rx_buffer s) size src;
  rx ← match r with
       | Ok range => pb_write rx range f
       | Err _ => Ret rx
       end;
  Ret (is_wake_rx (is_set_rx s rx)).

Definition icmp_process_v4 s (ip_repr : IpHeader) (icmp_repr : Icmpv4Repr) : res IcmpSocket :=
  size ← icmpv4_buffer_len icmp_repr;
  icmp_enqueue s size (Ipv4 (iph_src ip_repr)) (fun packet_buf => icmpv4_emit icmp_repr packet_buf caps_default).

Definition icmp_process_v6 s (ip_repr : IpHeader) (icmp_repr : Icmpv6Repr) : res IcmpSocket :=
  size ← icmpv6_buffer_len icmp_repr;
  icmp_enqueue s size (Ipv6 (iph_src ip_repr)) (fun packet_buf =>
    icmpv6_emit icmp_repr (iph_src ip_repr) (iph_dst ip_repr) packet_buf caps_default).

Section Dispatch.
Context {C : Type} `{HasContext C} {E : Type} (emit : C -> IpRepr * IcmpRepr -> res (C * result unit E)).

(** [emit] with the context that the closure borrows. *)
Definition icmp_emit (cx : C) (remote : Address) (packet_buf : list Z) (ip_repr : IpRepr) (icmp_repr : IcmpRepr)
  : res (Address * list Z * result C (C * E)) :=
  '(cx, r) ← emit cx (ip_repr, icmp_repr);
  Ret (remote, packet_buf, match r with Ok _ => Ok cx | Err e => Err (cx, e) end).

Definition icmp_emit_v4 (cx : C) (hop_limit : Z) (dst_addr packet_buf : list Z)
  : res (Address * list Z * result C (C * E)) :=
  match get_source_address_ipv4 (the_context cx) dst_addr with
  | None => Ret (Ipv4 dst_addr, packet_buf, Ok cx)
  | Some src_addr =>
      r ← icmpv4_parse packet_buf caps_ignored;
      match r with
      | Err _ => Ret (Ipv4 dst_addr, packet_buf, Ok cx)
      | Ok repr =>
          payload_len ← icmpv4_buffer_len repr;
          icmp_emit cx (Ipv4 dst_addr) packet_buf (Ipv4Repr (mkIpHeader src_addr dst_addr PROTOCOL_ICMP payload_len hop_limit)) (IcmpV4 repr)
      end
  end.

Definition icmp_emit_v6 (cx : C) (hop_limit : Z) (dst_addr packet_buf : list Z)
  : res (Address * list Z * result C (C * E)) :=
  src_addr ← get_source_address_ipv6 (the_context cx) dst_addr;
  r ← icmpv6_parse src_addr dst_addr packet_buf caps_ignored;
  match r with
  | Err _ => Ret (Ipv6 dst_addr, packet_buf, Ok cx)
  | Ok repr =>
      payload_len ← icmpv6_buffer_len repr;
      icmp_emit cx (Ipv6 dst_addr) packet_buf (Ipv6Repr (mkIpHeader src_addr dst_addr PROTOCOL_ICMPV6 payload_len hop_limit)) (IcmpV6 repr)
  end.

(** The closure of [dequeue_with]. *)
Definition icmp_emit_packet (cx : C) (hop_limit : Z) (remote_endpoint : Address) (packet_buf : list Z)
  : res (Address * list Z * result C (C * E)) :=
  match remote_endpoint with
  | Ipv4 dst_addr => icmp_emit_v4 cx hop_limit dst_addr packet_buf
  | Ipv6 dst_addr => icmp_emit_v6 cx hop_limit dst_addr packet_buf
  end.

Definition icmp_dispatch s (cx : C) : res (IcmpSocket * C * result unit E) :=
  let hop_limit := default 64 (is_hop_limit s) in
  '(tx, r) ← pb_dequeue_with (is_tx_buffer s) (icmp_emit_packet cx hop_limit);
  let s := is_set_tx s tx in
  match r with
  | Err _ => Ret (s, cx, Ok tt)
  | Ok (Err (cx, e)) => Ret (s, cx, Err e)
  | Ok (Ok cx) => Ret (is_wake_tx s, cx, Ok tt)
  end.
End Dispatch.

Definition icmp_poll_at s : PollAt := if pb_is_empty (is_tx_buffer s) then PollIngress else PollNow.
End IcmpSocket.

(** * What the ICMP socket promises *)

(** An address that a message can be sent to. *)
Definition remote_ok (a : Address) : Prop :=
  address_is_unspecified a = false /\ match a with Ipv4 _ => True | Ipv6 o => ipv6_addr_ok o end.

Definition icmp_wf (s : IcmpSocket) : Prop := pbb_wf (is_rx_buffer s) /\ pbb_wf (is_tx_buffer s).

Definition icmp_rx (s : IcmpSocket) : list (Address * list Z) := pb_packets (is_rx_buffer s).
Definition icmp_tx (s : IcmpSocket) : list (Address * list Z) := pb_packets (is_tx_buffer s).

(** The interface's IPv6 addresses have sixteen octets. *)
Definition cx_addrs_ok (cx : Context) : Prop :=
  Forall (fun c => match c with CidrV4 _ _ => True | CidrV6 a _ => ipv6_addr_ok a end) (cx_ip_addrs cx).

(** The message that the octets of a packet stand for, and the message that the interface gets. *)
Definition icmp_message `{NetworkEndian} (src dst : Address) (bs : list Z) (r : IcmpRepr) : Prop :=
  match src, dst, r with
  | Ipv4 _, Ipv4 _, IcmpV4 r => icmpv4_parse bs caps_ignored = Ret (Ok r)
  | Ipv6 src, Ipv6 dst, IcmpV6 r => icmpv6_parse src dst bs caps_ignored = Ret (Ok r)
  | _, _, _ => False
  end.

Definition icmp_buffer_len (r : IcmpRepr) : res Z :=
  match r with IcmpV4 r => icmpv4_buffer_len r | IcmpV6 r => icmpv6_buffer_len r end.

Definition icmp_protocol (a : Address) : Z := match a with Ipv4 _ => PROTOCOL_ICMP | Ipv6 _ => PROTOCOL_ICMPV6 end.

Definition icmp_outgoing `{NetworkEndian} (cx : Context) (hop_limit : Z) (d : Address * list Z) (p : IpRepr * IcmpRepr) : Prop :=
  exists src n, get_source_address cx (fst d) = Ret (Some src) /\ icmp_message src (fst d) (snd d) (snd p) /\
    icmp_buffer_len (snd p) = Ret n /\ ip_repr_new src (fst d) (icmp_protocol (fst d)) n hop_limit = Ret (fst p).

(** No message is handed over: there is no source address, or the octets are not a message. *)
Definition icmp_unsendable `{NetworkEndian} (cx : Context) (d : Address * list Z) : Prop :=
  get_source_address cx (fst d) = Ret None \/
  exists src, get_source_address cx (fst d) = Ret (Some src) /\
    match src, fst d with
    | Ipv4 _, Ipv4 _ => icmpv4_parse (snd d) caps_ignored = Ret (Err MkWireError)
    | Ipv6 s, Ipv6 dst => icmpv6_parse s dst (snd d) caps_ignored = Ret (Err MkWireError)
    | _, _ => False
    end.

Section Icmp.
Context `{NetworkEndianLaws}.

Lemma source_v6_ok cx dst : cx_addrs_ok cx -> ipv6_addr_ok dst -> address_is_unspecified (Ipv6 dst) = false ->
  exists src, get_source_address_ipv6 cx dst = Ret src /\ ipv6_addr_ok src.
Proof.
  intros Hcx Hd Hu. assert (Hl : ipv6_addr_ok v6_localhost) by (split; [unfold v6_localhost; byte_list | done]).
  assert (Ha : Forall (fun c => ipv6_addr_ok (fst c)) (omap cidr_v6 (cx_ip_addrs cx))).
  { apply Forall_forall. intros [a p] Hin%list_elem_of_In%list_elem_of_omap. destruct Hin as ([|a' p'] & Hin & [= -> ->]).
    unfold cx_addrs_ok in Hcx. rewrite Forall_forall in Hcx. apply list_elem_of_In in Hin. apply (Hcx _ Hin). }
  unfold get_source_address_ipv6, v6_is_unspecified. change (forallb (Z.eqb 0) dst) with (address_is_unspecified (Ipv6 dst)). rewrite Hu.
  cbn [negb passert]. rewrite bind_Ret. destruct (omap cidr_v6 (cx_ip_addrs cx)) as [|c l] eqn:E; [by eexists|]. destr_if; [by eexists|].
  eexists. split; [done|]. rewrite Forall_forall in Ha. apply Ha, list_elem_of_In.
  destruct (select_fold_in dst (c :: l) c) as [-> |?]; [constructor | done].
Qed.

Lemma quote4_len n header (data : list Z) : ip_header_ok header -> 8 + Zlen data <= n -> n <= u16_max ->
  exists m, (k ← usize_add 8 (ipv4_buffer_len header); usize_add k (Zlen data)) = Ret m.
Proof.
  intros Hh Hd Hn. pose proof (Zlen_nonneg data). unfold ipv4_buffer_len, IPV4_HEADER_LEN, usize_add.
  rewrite checked_ok by mlia. rewrite bind_Ret. rewrite checked_ok by mlia. by eexists.
Qed.

Lemma icmpv4_len n r : icmpv4_ok n r -> n <= u16_max -> exists m, icmpv4_buffer_len r = Ret m.
Proof.
  intros Hr Hn. destruct r as [i q data|i q data|re he data|re he data]; cbn [icmpv4_ok icmpv4_buffer_len] in *.
  1-2: pose proof (Zlen_nonneg data); unfold usize_add; rewrite checked_ok by mlia; by eexists.
  all: destruct Hr as (_ & _ & Hh & _ & _ & _ & Hd); by apply (quote4_len n).
Qed.

Lemma icmpv6_len n r : icmpv6_ok n r -> n <= u16_max -> exists m, icmpv6_buffer_len r = Ret m.
Proof.
  intros Hr Hn. assert (Hq : forall h data, quote6_ok n h data ->
    exists m, (k ← usize_add (8 + ipv6_buffer_len h) (Zlen data); Ret (Z.min k MAX_ERROR_PACKET_LEN)) = Ret m).
  { intros h data (_ & _ & Hz). pose proof (Zlen_nonneg data). change (ipv6_buffer_len h) with 40. unfold usize_add. rewrite checked_ok by mlia. rewrite bind_Ret. by eexists. }
  destruct r as [re h data|mtu h data|re h data|re ptr h data|i q data|i q data|r|r]; cbn [icmpv6_ok icmpv6_buffer_len] in *;
    try (apply Hq; tauto); try by eexists.
  all: pose proof (Zlen_nonneg data); unfold usize_add; rewrite checked_ok by mlia; by eexists.
Qed.

(** ** Messages from the application *)

Section Dispatch.
Context {C : Type} `{HasContext C} {Er : Type} (emit : C -> IpRepr * IcmpRepr -> res (C * result unit Er)).
Hypothesis emit_ok : forall cx p, wp (emit cx p) (fun _ => True).

(** What the closure of [dequeue_with] does with a message. *)
Definition icmp_handled (cx : C) (hop_limit : Z) (d : Address * list Z) (r : result C (C * Er)) : Prop :=
  (icmp_unsendable (the_context cx) d /\ r = Ok cx) \/
  exists p cx' r', icmp_outgoing (the_context cx) hop_limit d p /\ emit cx p = Ret (cx', r') /\
    r = match r' with Ok _ => Ok cx' | Err e => Err (cx', e) end.

Lemma icmp_emit_ok cx remote bs ip r :
  wp (icmp_emit emit cx remote bs ip r) (fun '(remote', bs', r0) => remote' = remote /\ bs' = bs /\
    exists cx' r', emit cx (ip, r) = Ret (cx', r') /\ r0 = match r' with Ok _ => Ok cx' | Err e => Err (cx', e) end).
Proof.
  unfold icmp_emit. destruct (wp_Ret_inv _ _ (emit_ok cx (ip, r))) as ([cx' r'] & -> & _). ret_step. cbn [wp]. eauto 6.
Qed.

Lemma icmp_emit_packet_ok cx hop d :
  cx_addrs_ok (the_context cx) -> remote_ok (fst d) -> bytes_ok (snd d) -> Zlen (snd d) <= u16_max ->
  wp (icmp_emit_packet emit cx hop (fst d) (snd d)) (fun '(remote, bs, r) => remote = fst d /\ bs = snd d /\ icmp_handled cx hop d r).
Proof.
  destruct d as [[dst|dst] bs]; cbn [fst snd]; intros Hcx [Hu Hdst] Hb Hl; unfold icmp_emit_packet, icmp_handled, icmp_unsendable, icmp_outgoing; cbn [fst snd].
  - unfold icmp_emit_v4, get_source_address. destruct (get_source_address_ipv4 (the_context cx) dst) as [src|]; cbn [option_map]; [|cbn; auto 6].
    destruct (wp_Ret_inv _ _ (icmpv4_parse_ok bs caps_ignored Hb Hl)) as ([r|[]] & Ep & Hr); rewrite Ep; ret_step; [|cbn [wp]; split; [done|]; split; [done|]; left; split; [right; eexists; split; [reflexivity | by rewrite ?Ep] | done]].
    destruct (icmpv4_len _ r Hr Hl) as (n & En). rewrite En. ret_step. eapply wp_mono; [apply icmp_emit_ok|].
    intros [[remote bs'] r0] (-> & -> & cx' & r' & Em & ->). split; [done|]. split; [done|]. right. eexists _, _, _.
    split; [|by split]. exists (Ipv4 src), n. by cbn.
  - unfold icmp_emit_v6, get_source_address. destruct (source_v6_ok (the_context cx) dst Hcx Hdst Hu) as (src & Es & Hs). rewrite Es. ret_steps.
    destruct (wp_Ret_inv _ _ (icmpv6_parse_ok src dst bs caps_ignored Hb ltac:(mlia) Hs Hdst)) as ([r|[]] & Ep & Hr); rewrite Ep; ret_step; [|cbn [wp]; split; [done|]; split; [done|]; left; split; [right; eexists; split; [reflexivity | by rewrite ?Ep] | done]].
    destruct (icmpv6_len _ r Hr Hl) as (n & En). rewrite En. ret_step. eapply wp_mono; [apply icmp_emit_ok|].
    intros [[remote bs'] r0] (-> & -> & cx' & r' & Em & ->). split; [done|]. split; [done|]. right. eexists _, _, _.
    split; [|by split]. exists (Ipv6 src), n. by cbn.
Qed.

Lemma icmp_emit_bytes cx remote bs ip r : bytes_ok bs -> wlp (icmp_emit emit cx remote bs ip r) (fun '(_, bs', _) => bytes_ok bs').
Proof. intros Hb. unfold icmp_emit. eapply wlp_bind; [apply wlp_any|]. by intros [cx' r'] _. Qed.

Lemma icmp_emit_packet_bytes cx hop remote bs :
  bytes_ok bs -> wlp (icmp_emit_packet emit cx hop remote bs) (fun '(_, bs', _) => bytes_ok bs').
Proof.
  intros Hb. destruct remote as [dst|dst]; cbn [icmp_emit_packet].
  - unfold icmp_emit_v4. case_match; [|done]. eapply wlp_bind; [apply wlp_any|]. intros [r|e] _; [|done].
    eapply wlp_bind; [apply wlp_any|]. intros n _. by apply icmp_emit_bytes.
  - unfold icmp_emit_v6. do 2 (eapply wlp_bind; [apply wlp_any|]; intros ? _). case_match; [|done].
    eapply wlp_bind; [apply wlp_any|]. intros n _. by apply icmp_emit_bytes.
Qed.

Lemma icmp_dispatch_ok s cx :
  icmp_wf s -> cx_addrs_ok (the_context cx) -> Forall (fun d => remote_ok (fst d) /\ Zlen (snd d) <= u16_max) (icmp_tx s) ->
  wp (icmp_dispatch emit s cx) (fun '(s', cx', r) => icmp_wf s' /\ is_rx_buffer s' = is_rx_buffer s /\
    match icmp_tx s with
    | [] => cx' = cx /\ r = Ok tt /\ icmp_tx s' = []
    | d :: rest =>
        (icmp_unsendable (the_context cx) d /\ cx' = cx /\ r = Ok tt /\ icmp_tx s' = rest) \/
        exists p, icmp_outgoing (the_context cx) (default 64 (is_hop_limit s)) d p /\ emit cx p = Ret (cx', r) /\
          icmp_tx s' = if is_ok r then rest else d :: rest
    end).
Proof.
  intros [Hrx Htx] Hcx Hq. unfold icmp_dispatch, icmp_tx in *. set (hop := default 64 (is_hop_limit s)).
  wp_bind_with (queue_dequeue_with_ok (is_tx_buffer s) (icmp_emit_packet emit cx hop)
    (fun remote d remote' d' r => remote' = remote /\ d' = d /\ icmp_handled cx hop (remote, d) r) Htx).
  - intros remote d Hb Hhd. assert (Hd : remote_ok remote /\ Zlen d <= u16_max).
    { destruct (pb_packets (is_tx_buffer s)) as [|p l]; [done|]. cbn in Hhd. injection Hhd as ->. by inversion Hq. }
    destruct Hd as [Hr Hz]. eapply wp_mono; [apply (icmp_emit_packet_ok cx hop (remote, d) Hcx Hr Hb Hz)|].
    intros [[remote' d'] r] (-> & -> & Hh). done.
  - intros. by apply icmp_emit_packet_bytes.
  - intros [tx r] [Hwf Hp]. destruct (pb_packets (is_tx_buffer s)) as [|[remote d] rest].
    + destruct Hp as [-> Hp]. cbn [wp]. split; [by split|]. split; [done|]. split; [done|]. by split.
    + destruct Hp as (remote' & d' & r0 & -> & (-> & -> & Hh) & Hp). destruct Hh as [[Hu ->]|(p & cx' & r' & Ho & He & ->)].
      { cbn [wp]. split; [by split|]. split; [done|]. left. by split. }
      destruct r' as [[]|e]; cbn [wp]; (split; [by split|]); (split; [done|]); right; exists p; (split; [done|]); (split; [done|]); exact Hp.
Qed.
End Dispatch.

(** ** Messages for the application *)

Lemma icmp_enqueue_ok s size src f (P : list Z -> Prop) :
  icmp_wf s -> 0 <= size ->
  (forall d, bytes_ok d -> Zlen d = size -> wp (f d) (fun d' => Zlen d' = size /\ bytes_ok d' /\ P d')) ->
  wp (icmp_enqueue s size src f) (fun s' => icmp_wf s' /\ is_tx_buffer s' = is_tx_buffer s /\ is_endpoint s' = is_endpoint s /\
    (icmp_rx s' = icmp_rx s \/ exists bs, P bs /\ Zlen bs = size /\ icmp_rx s' = icmp_rx s ++ [(src, bs)])).
Proof.
  intros [Hrx Htx] Hs Hf. unfold icmp_enqueue. wp_bind_with (queue_write_ok (is_rx_buffer s) src size f P Hrx Hs Hf).
  intros [rx [range|e]] Hq; [|cbn; destruct Hq as [? ?]; split; [by split | auto]].
  wp_bind_with Hq. intros rx' (Hwf & bs & HP & Hz & _ & Hpk). cbn. split; [by split|]. split; [done|]. split; [done|]. right. by exists bs.
Qed.

Definition icmp_delivered (s s' : IcmpSocket) (src : Address) (P : list Z -> Prop) : Prop :=
  icmp_wf s' /\ is_tx_buffer s' = is_tx_buffer s /\ is_endpoint s' = is_endpoint s /\
  (icmp_rx s' = icmp_rx s \/ exists bs, P bs /\ icmp_rx s' = icmp_rx s ++ [(src, bs)]).

Lemma buffer_len_u4 r n : icmpv4_buffer_len r = Ret n -> 0 <= n.
Proof.
  intros E. assert (Hu : forall a b m, usize_add a b = Ret m -> 0 <= m).
  { intros a b m. unfold usize_add, checked. destruct (_ && _) eqn:Hc; [|done]. intros [= <-]. lia. }
  destruct r; cbn [icmpv4_buffer_len] in E; try by apply Hu in E.
  all: apply bind_Ret_inv in E as (k & _ & E); by apply Hu in E.
Qed.

Lemma icmp_process_v4_ok s ip r :
  icmp_wf s -> icmpv4_emit_ok r -> (exists n, icmpv4_buffer_len r = Ret n) ->
  wp (icmp_process_v4 s ip r) (fun s' => icmp_delivered s s' (Ipv4 (iph_src ip)) (fun bs => icmpv4_parse bs caps_default = Ret (Ok r))).
Proof.
  intros Hwf Hr (n & En). unfold icmp_process_v4. rewrite En. ret_step. eapply wp_mono.
  { eapply (icmp_enqueue_ok s n _ _ (fun bs => icmpv4_parse bs caps_default = Ret (Ok r)) Hwf (buffer_len_u4 r n En)).
    intros d Hb Hz. destruct (icmpv4_emit_parse_ok r d caps_default Hr Hb) as (bs & -> & Hl & Hp & Hbb); [by rewrite Hz | done |].
    cbn [wp]. split; [lia | by split]. }
  intros s' (? & ? & ? & Hq). split; [done|]. split; [done|]. split; [done|]. destruct Hq as [|(bs & ? & ? & ?)]; [by left | right; by exists bs].
Qed.

Lemma icmp_process_v6_ok s ip r n :
  icmp_wf s -> icmpv6_emit_ok r -> icmpv6_buffer_len r = Ret n -> 0 <= n <= 131070 -> ipv6_addr_ok (iph_src ip) -> ipv6_addr_ok (iph_dst ip) ->
  wp (icmp_process_v6 s ip r) (fun s' => icmp_delivered s s' (Ipv6 (iph_src ip))
    (fun bs => icmpv6_parse (iph_src ip) (iph_dst ip) bs caps_default = Ret (Ok (icmpv6_cut r)))).
Proof.
  intros Hwf Hr En Hn Hs Hd. unfold icmp_process_v6. rewrite En. ret_step. eapply wp_mono.
  { apply (icmp_enqueue_ok s n _ _ (fun bs => icmpv6_parse (iph_src ip) (iph_dst ip) bs caps_default = Ret (Ok (icmpv6_cut r))) Hwf); [lia|].
    intros d Hb Hz. destruct (icmpv6_emit_parse_ok r (iph_src ip) (iph_dst ip) d caps_default Hr Hb) as (bs & -> & Hl & Hp & Hbb);
      [by rewrite Hz | lia | done.. |]. cbn [wp]. split; [lia | by split]. }
  intros s' (? & ? & ? & Hq). split; [done|]. split; [done|]. split; [done|]. destruct Hq as [|(bs & ? & ? & ?)]; [by left | right; by exists bs].
Qed.

(** A message is accepted by the bound identifier, or by the source port of the datagram that it quotes. *)
Lemma icmp_quotes_port_ok port src dst data caps :
  bytes_ok data -> address_version src = address_version dst -> addr_ok src -> addr_ok dst ->
  wp (icmp_quotes_port port src dst data caps) (fun b => b = true ->
    exists dport ck pl tail, data = udp_hdr port dport (8 + Zlen pl) ck (pl ++ tail)).
Proof.
  intros Hb Hv Hs Hd. unfold icmp_quotes_port. wp_bind_with (udp_parse_ok data src dst caps Hb Hv Hs Hd).
  intros [r|e]; [|by intros]. intros (_ & _ & _ & sp & dp & ck & pl & tail & -> & -> & _). cbn [wp udp_src_port]. intros Hp%Z.eqb_eq. subst. eauto.
Qed.

Lemma udp_parse_truncated bs src dst caps n :
  bytes_ok bs -> 8 <= Zlen bs -> udp_pkt_len bs = Ret n -> Zlen bs < n -> udp_parse bs src dst caps = Ret (Err MkWireError).
Proof.
  intros Hb Hl En Hn. unfold udp_parse, try_bind, udp_check_len, UDP_HEADER_LEN. replace (Zlen bs <? 8) with false by lia.
  rewrite En. rewrite bind_Ret. replace (Zlen bs <? n) with true by lia. done.
Qed.
End Icmp.

(** ** Properties *)

(** Dispatching an ICMP socket never panics, whatever octets its queue holds: the first message is
    dropped when it is malformed or has no source address, and is otherwise handed to the interface
    as it parses, with the protocol of its family, its length and the socket's hop limit; it stays
    in the queue when the interface refuses it, and the receive queue is left alone. *)
Theorem icmp_dispatch_hands_over `{NetworkEndianLaws} {C} `{HasContext C} {Er : Type} (emit : C -> IpRepr * IcmpRepr -> res (C * result unit Er)) s cx :
  (forall cx p, wp (emit cx p) (fun _ => True)) ->
  icmp_wf s -> cx_addrs_ok (the_context cx) -> Forall (fun d => remote_ok (fst d) /\ Zlen (snd d) <= u16_max) (icmp_tx s) ->
  wp (icmp_dispatch emit s cx) (fun '(s', cx', r) => icmp_wf s' /\ is_rx_buffer s' = is_rx_buffer s /\
    match icmp_tx s with
    | [] => cx' = cx /\ r = Ok tt /\ icmp_tx s' = []
    | d :: rest =>
        (icmp_unsendable (the_context cx) d /\ cx' = cx /\ r = Ok tt /\ icmp_tx s' = rest) \/
        exists p, icmp_outgoing (the_context cx) (default 64 (is_hop_limit s)) d p /\ emit cx p = Ret (cx', r) /\
          icmp_tx s' = if is_ok r then rest else d :: rest
    end).
Proof. intros Hem. by apply icmp_dispatch_ok. Qed.

(** A message that the interface delivers to an ICMP socket is appended to its receive queue with
    the address of its sender, as octets that the application parses back to the message (a quote of ICMPv6
    cut to the minimum MTU) with a valid checksum, or is dropped when it does not fit, whatever the storage held before. *)
Theorem icmp_process_delivers `{NetworkEndianLaws} s ip r4 r6 n4 n6 :
  icmp_wf s -> icmpv4_emit_ok r4 -> icmpv4_buffer_len r4 = Ret n4 ->
  icmpv6_emit_ok r6 -> icmpv6_buffer_len r6 = Ret n6 -> 0 <= n6 <= 131070 ->
  ipv6_addr_ok (iph_src ip) -> ipv6_addr_ok (iph_dst ip) ->
  wp (icmp_process_v4 s ip r4) (fun s' => icmp_delivered s s' (Ipv4 (iph_src ip)) (fun bs => icmpv4_parse bs caps_default = Ret (Ok r4))) /\
  wp (icmp_process_v6 s ip r6) (fun s' => icmp_delivered s s' (Ipv6 (iph_src ip))
    (fun bs => icmpv6_parse (iph_src ip) (iph_dst ip) bs caps_default = Ret (Ok (icmpv6_cut r6)))).
Proof. intros Hwf Hr4 H4 Hr6 H6 Hn Hs Hd. split; [apply icmp_process_v4_ok; eauto | by apply (icmp_process_v6_ok s ip r6 n6)]. Qed.

(** An error message that quotes only a part of a UDP datagram is accepted by no socket, although it
    holds the ports of the datagram: the quote is parsed like a received datagram, whose length
    field may not exceed it. *)
Theorem icmp_partial_quote_ignored `{NetworkEndianLaws} s caps ip reason header data len :
  bytes_ok data -> 8 <= Zlen data -> udp_pkt_len data = Ret len -> Zlen data < len ->
  icmp_accepts_v6 s caps ip (Icmpv6DstUnreachable reason header data) = Ret false.
Proof.
  intros Hb Hl El Hlt. unfold icmp_accepts_v6. destruct (is_endpoint s); [done | done |]. case_match; [|done].
  unfold icmp_quotes_port. by rewrite (udp_parse_truncated data _ _ caps len).
Qed.

(** *** Concrete instances *)

Definition icmp_buffer_example : PacketBuffer Address := pb_new (replicate 2 pm_empty) (replicate 64 0xff).
Definition icmp_socket_example : IcmpSocket := fst (icmp_bind (icmp_new icmp_buffer_example icmp_buffer_example) (IcmpIdent 0x1234)).
Definition icmp_cx_example : Context :=
  mkContext 0 1 MediumIp 1500 [CidrV4 [10; 0; 0; 1] 24; CidrV6 (replicate 15 0 ++ [9]) 64] (fun _ => 0).
Definition icmp_emit_example (cx : Context) (_ : IpRepr * IcmpRepr) : res (Context * result unit unit) := Ret (cx, Ok tt).

(** The echo request 0x1234, 1 with the data 0xaa. *)
Definition icmp_echo_example : list Z := [8; 0; 0; 0; 0x12; 0x34; 0; 1; 0xaa].

Lemma icmp_buffer_example_wf : pbb_wf icmp_buffer_example.
Proof. split; [by apply pb_new_wf | byte_list]. Qed.

Definition icmp_sent_example : IcmpSocket :=
  match icmp_send_slice icmp_socket_example icmp_echo_example (Ipv4 [10; 0; 0; 2]) with Ret (s, _) => s | Panic => icmp_socket_example end.

Lemma icmp_sent_example_wf : icmp_wf icmp_sent_example /\ icmp_tx icmp_sent_example = [(Ipv4 [10; 0; 0; 2], icmp_echo_example)].
Proof.
  unfold icmp_sent_example, icmp_send_slice, icmp_send. split; [|by vm_compute].
  change (address_is_unspecified (Ipv4 [10; 0; 0; 2])) with false. cbv iota.
  assert (Hb : bytes_ok icmp_echo_example) by (unfold icmp_echo_example; byte_list).
  destruct (wp_Ret_inv _ _ (queue_copy_ok (is_tx_buffer icmp_socket_example) (Ipv4 [10; 0; 0; 2]) icmp_echo_example icmp_buffer_example_wf Hb)) as ([tx [range|e]] & E & Hq);
    rewrite E; cbn [mbind res_bind].
  - change (is_tx_buffer (is_set_tx icmp_socket_example tx)) with tx. destruct (wp_Ret_inv _ _ Hq) as (tx' & E2 & Hwf & _). rewrite E2. cbn [mbind res_bind].
    split; [apply icmp_buffer_example_wf | exact Hwf].
  - split; [apply icmp_buffer_example_wf | apply Hq].
Qed.

Lemma icmp_dispatch_hands_over_witness :
  wp (@icmp_dispatch network_endian Context context_self unit icmp_emit_example icmp_sent_example icmp_cx_example) (fun '(s', cx', r) =>
    icmp_wf s' /\ is_rx_buffer s' = is_rx_buffer icmp_sent_example /\
    match icmp_tx icmp_sent_example with
    | [] => cx' = icmp_cx_example /\ r = Ok tt /\ icmp_tx s' = []
    | d :: rest =>
        (@icmp_unsendable network_endian icmp_cx_example d /\ cx' = icmp_cx_example /\ r = Ok tt /\ icmp_tx s' = rest) \/
        exists p, @icmp_outgoing network_endian icmp_cx_example (default 64 (is_hop_limit icmp_sent_example)) d p /\
          icmp_emit_example icmp_cx_example p = Ret (cx', r) /\ icmp_tx s' = if is_ok r then rest else d :: rest
    end).
Proof.
  apply (@icmp_dispatch_hands_over network_endian network_endian_laws);
    [done | apply icmp_sent_example_wf | constructor; [done | constructor; [split; [byte_list | done] | constructor]] | ].
  rewrite (proj2 icmp_sent_example_wf). repeat constructor. by vm_compute.
Defined.

Definition icmp_ip_example : IpHeader := mkIpHeader (replicate 15 0 ++ [2]) (replicate 15 0 ++ [9]) 58 9 64.

Lemma icmp_process_delivers_witness :
  wp (@icmp_process_v4 network_endian icmp_socket_example icmp_ip_example (Icmpv4EchoReply 0x1234 1 [0xaa])) (fun s' =>
    icmp_delivered icmp_socket_example s' (Ipv4 (iph_src icmp_ip_example)) (fun bs =>
      @icmpv4_parse network_endian bs caps_default = Ret (Ok (Icmpv4EchoReply 0x1234 1 [0xaa])))) /\
  wp (@icmp_process_v6 network_endian icmp_socket_example icmp_ip_example (Icmpv6EchoReply 0x1234 1 [0xaa])) (fun s' =>
    icmp_delivered icmp_socket_example s' (Ipv6 (iph_src icmp_ip_example)) (fun bs =>
      @icmpv6_parse network_endian (iph_src icmp_ip_example) (iph_dst icmp_ip_example) bs caps_default = Ret (Ok (icmpv6_cut (Icmpv6EchoReply 0x1234 1 [0xaa]))))).
Proof.
  apply (@icmp_process_delivers network_endian network_endian_laws _ _ _ _ 9 9);
    [split; apply icmp_buffer_example_wf | | by vm_compute | | by vm_compute | lia | split; [byte_list | done] | split; [byte_list | done]].
  - split_and!; [mlia | mlia | byte_list | by vm_compute].
  - split_and!; [mlia | mlia | byte_list].
Defined.

Lemma icmp_partial_quote_ignored_witness :
  @icmp_accepts_v6 network_endian (fst (icmp_bind (icmp_new icmp_buffer_example icmp_buffer_example) (IcmpUdp (mkListenEndpoint None 68)))) caps_default
    icmp_ip_example (Icmpv6DstUnreachable Port6Unreachable (mkIpHeader (replicate 15 0 ++ [9]) (replicate 15 0 ++ [2]) 17 1000 64)
      [0; 68; 0; 67; 3; 0xe8; 0; 0; 0xaa]) = Ret false.
Proof.
  apply (@icmp_partial_quote_ignored network_endian network_endian_laws _ _ _ _ _ _ 1000); [byte_list | by vm_compute | by vm_compute | by vm_compute].
Defined.
