(* ===== verification/DhcpSocket.v ===== *)
(** * The DHCP client socket (socket/dhcpv4.rs)

    The client acquires an IPv4 configuration: its state, the answers of the server
    ([dhcp_process]), the messages it sends when they are due ([dhcp_dispatch]), and the events the
    application reads ([dhcp_poll]). *)

From stdpp Require Import gmap.
From S2P Require Import Prelude SeqNumber ByteOrder TimeModel TcpTimers IpTypes Ipv4Wire UdpWire IfaceContext Ipv4Addr Ipv6Addr Heapless Neighbor EthernetArp DhcpWire TcpSocket.

(** ** What the socket needs of the interface *)

(** Besides the [Context], the hardware address, and the state of the random number generator. *)
Class DhcpContext (C : Type) `{HasContext C} : Type := {
  dc_hardware_addr : C -> HardwareAddress;
  dc_set_rand : C -> Z -> C;
}.

Class DhcpContextLaws (C : Type) `{DhcpContext C} : Prop := {
  dc_rand_context c r : the_context (dc_set_rand c r) = cx_set_rand (the_context c) r;
  dc_rand_hardware c r : dc_hardware_addr (dc_set_rand c r) = dc_hardware_addr c;
}.

Definition random_transaction_id {C} `{DhcpContext C} (cx : C) : C * Z :=
  let '(r, n) := rand_u32 (cx_rand (the_context cx)) in (dc_set_rand cx r, n).

(** ** State *)

Definition DEFAULT_LEASE_DURATION : Duration := 120000000.
Definition DEFAULT_PARAMETER_REQUEST_LIST : list Z := [OPT_SUBNET_MASK; OPT_ROUTER; OPT_DOMAIN_NAME_SERVER].
Definition MAX_IPV4_HEADER_LEN : Z := 60.
Definition DURATION_MAX : Duration := u64_max.

Record ServerInfo : Type := mkServerInfo { si_address : list Z; si_identifier : list Z }.

Record RetryConfig : Type := mkRetryConfig {
  rc_discover_timeout : Duration;
  rc_initial_request_timeout : Duration;
  rc_request_retries : Z;
  rc_min_renew_timeout : Duration;
  rc_max_renew_timeout : Duration;
}.

Definition retry_config_default : RetryConfig := mkRetryConfig 10000000 5000000 5 60000000 DURATION_MAX.

#[export] Instance server_info_eq_dec : EqDecision ServerInfo.
Proof. solve_decision. Defined.

Section Socket.
Context `{NetworkEndian} `{!HeaplessVec (list Z)}.

Record Config : Type := mkConfig {
  cf_server : ServerInfo;
  cf_address : Cidr;
  cf_router : option (list Z);
  cf_dns_servers : hvec (list Z);
  cf_packet : option (list Z);
}.

(** The derived equality; vectors are equal when their elements are. *)
Definition config_eqb (a b : Config) : bool :=
  bool_decide (cf_server a = cf_server b) && bool_decide (cf_address a = cf_address b) && bool_decide (cf_router a = cf_router b) &&
  bool_decide (hv_elems (cf_dns_servers a) = hv_elems (cf_dns_servers b)) && bool_decide (cf_packet a = cf_packet b).

Record RequestState : Type := mkRequestState {
  rq_retry_at : Instant;
  rq_retry : Z;
  rq_server : ServerInfo;
  rq_requested_ip : list Z;
}.

Record RenewState : Type := mkRenewState {
  rn_config : Config;
  rn_renew_at : Instant;
  rn_rebind_at : Instant;
  rn_rebinding : bool;
  rn_expires_at : Instant;
}.

Inductive ClientState : Type :=
| Discovering (retry_at : Instant)
| Requesting (state : RequestState)
| Renewing (state : RenewState).

Inductive DhcpEvent : Type :=
| Deconfigured
| Configured (config : Config).

Record DhcpSocket : Type := mkDhcpSocket {
  dh_state : ClientState;
  dh_config_changed : bool;
  dh_transaction_id : Z;
  dh_max_lease_duration : option Duration;
  dh_retry_config : RetryConfig;
  dh_ignore_naks : bool;
  dh_server_port : Z;
  dh_client_port : Z;
  dh_outgoing_options : list DhcpOption;
  dh_parameter_request_list : option (list Z);
  dh_receive_packet_buffer : option (list Z);
  dh_waker : WakerRegistration;
}.
Implicit Types s : DhcpSocket.

Definition dh_set_state s (x : ClientState) : DhcpSocket :=
  mkDhcpSocket x (dh_config_changed s) (dh_transaction_id s) (dh_max_lease_duration s) (dh_retry_config s) (dh_ignore_naks s)
    (dh_server_port s) (dh_client_port s) (dh_outgoing_options s) (dh_parameter_request_list s) (dh_receive_packet_buffer s) (dh_waker s).
Definition dh_set_config_changed s (x : bool) : DhcpSocket :=
  mkDhcpSocket (dh_state s) x (dh_transaction_id s) (dh_max_lease_duration s) (dh_retry_config s) (dh_ignore_naks s)
    (dh_server_port s) (dh_client_port s) (dh_outgoing_options s) (dh_parameter_request_list s) (dh_receive_packet_buffer s) (dh_waker s).
Definition dh_set_transaction_id s (x : Z) : DhcpSocket :=
  mkDhcpSocket (dh_state s) (dh_config_changed s) x (dh_max_lease_duration s) (dh_retry_config s) (dh_ignore_naks s)
    (dh_server_port s) (dh_client_port s) (dh_outgoing_options s) (dh_parameter_request_list s) (dh_receive_packet_buffer s) (dh_waker s).
Definition dh_set_packet_buffer s (x : option (list Z)) : DhcpSocket :=
  mkDhcpSocket (dh_state s) (dh_config_changed s) (dh_transaction_id s) (dh_max_lease_duration s) (dh_retry_config s) (dh_ignore_naks s)
    (dh_server_port s) (dh_client_port s) (dh_outgoing_options s) (dh_parameter_request_list s) x (dh_waker s).
Definition dh_set_waker s (x : WakerRegistration) : DhcpSocket :=
  mkDhcpSocket (dh_state s) (dh_config_changed s) (dh_transaction_id s) (dh_max_lease_duration s) (dh_retry_config s) (dh_ignore_naks s)
    (dh_server_port s) (dh_client_port s) (dh_outgoing_options s) (dh_parameter_request_list s) (dh_receive_packet_buffer s) x.

(** ** Construction and settings *)

Definition dhcp_new : DhcpSocket :=
  mkDhcpSocket (Discovering 0) true 1 None retry_config_default false DHCP_SERVER_PORT DHCP_CLIENT_PORT [] None None waker_new.

Definition dhcp_set_retry_config s (config : RetryConfig) : DhcpSocket :=
  mkDhcpSocket (dh_state s) (dh_config_changed s) (dh_transaction_id s) (dh_max_lease_duration s) config (dh_ignore_naks s)
    (dh_server_port s) (dh_client_port s) (dh_outgoing_options s) (dh_parameter_request_list s) (dh_receive_packet_buffer s) (dh_waker s).
Definition dhcp_set_outgoing_options s (options : list DhcpOption) : DhcpSocket :=
  mkDhcpSocket (dh_state s) (dh_config_changed s) (dh_transaction_id s) (dh_max_lease_duration s) (dh_retry_config s) (dh_ignore_naks s)
    (dh_server_port s) (dh_client_port s) options (dh_parameter_request_list s) (dh_receive_packet_buffer s) (dh_waker s).
Definition dhcp_set_receive_packet_buffer s (buffer : list Z) : DhcpSocket := dh_set_packet_buffer s (Some buffer).
Definition dhcp_set_parameter_request_list s (l : list Z) : DhcpSocket :=
  mkDhcpSocket (dh_state s) (dh_config_changed s) (dh_transaction_id s) (dh_max_lease_duration s) (dh_retry_config s) (dh_ignore_naks s)
    (dh_server_port s) (dh_client_port s) (dh_outgoing_options s) (Some l) (dh_receive_packet_buffer s) (dh_waker s).
Definition dhcp_set_max_lease_duration s (d : option Duration) : DhcpSocket :=
  mkDhcpSocket (dh_state s) (dh_config_changed s) (dh_transaction_id s) d (dh_retry_config s) (dh_ignore_naks s)
    (dh_server_port s) (dh_client_port s) (dh_outgoing_options s) (dh_parameter_request_list s) (dh_receive_packet_buffer s) (dh_waker s).
Definition dhcp_set_ignore_naks s (b : bool) : DhcpSocket :=
  mkDhcpSocket (dh_state s) (dh_config_changed s) (dh_transaction_id s) (dh_max_lease_duration s) (dh_retry_config s) b
    (dh_server_port s) (dh_client_port s) (dh_outgoing_options s) (dh_parameter_request_list s) (dh_receive_packet_buffer s) (dh_waker s).
Definition dhcp_set_ports s (server_port client_port : Z) : DhcpSocket :=
  mkDhcpSocket (dh_state s) (dh_config_changed s) (dh_transaction_id s) (dh_max_lease_duration s) (dh_retry_config s) (dh_ignore_naks s)
    server_port client_port (dh_outgoing_options s) (dh_parameter_request_list s) (dh_receive_packet_buffer s) (dh_waker s).

Definition dhcp_register_waker s (w : Waker) : DhcpSocket := dh_set_waker s (waker_register (dh_waker s) w).

(** The method [config_changed]. *)
Definition dhcp_config_changed s : DhcpSocket :=
  let s := dh_set_config_changed s true in dh_set_waker s (waker_wake (dh_waker s)).

Definition dhcp_reset s : DhcpSocket :=
  let s := match dh_state s with Renewing _ => dhcp_config_changed s | _ => s end in
  dh_set_state s (Discovering 0).

Definition dhcp_poll s : DhcpSocket * option DhcpEvent :=
  if negb (dh_config_changed s) then (s, None)
  else
    match dh_state s with
    | Renewing state =>
        let c := rn_config state in
        (dh_set_config_changed s false,
         Some (Configured (mkConfig (cf_server c) (cf_address c) (cf_router c) (cf_dns_servers c) (dh_receive_packet_buffer s))))
    | _ => (dh_set_config_changed s false, Some Deconfigured)
    end.

Definition dhcp_poll_at s : PollAt :=
  PollTime
    match dh_state s with
    | Discovering retry_at => retry_at
    | Requesting state => rq_retry_at state
    | Renewing state =>
        Z.min (if rn_rebinding state then rn_rebind_at state else Z.min (rn_renew_at state) (rn_rebind_at state)) (rn_expires_at state)
    end.

(** ** The answers of the server *)

(** The choice of the times of renewal and rebinding. *)
Definition dhcp_durations (renew rebind : option Duration) (lease_duration : Duration) : res (Duration * Duration) :=
  let default :=
    renew ← duration_div lease_duration 2; x ← duration_mul lease_duration 7; rebind ← duration_div x 8; Ret (renew, rebind) in
  match renew, rebind with
  | Some renew_duration, Some rebind_duration =>
      if (renew_duration <? rebind_duration) && (rebind_duration <? lease_duration) then Ret (renew_duration, rebind_duration)
      else default
  | Some renew_duration, None =>
      if renew_duration <? lease_duration then
        gap ← duration_sub lease_duration renew_duration;
        x ← duration_mul gap 3; x ← duration_div x 4; rebind ← duration_add renew_duration x;
        Ret (renew_duration, rebind)
      else default
  | None, Some rebind_duration =>
      if rebind_duration <? lease_duration then half ← duration_div lease_duration 2; Ret (Z.min half rebind_duration, rebind_duration)
      else default
  | None, None => default
  end.

Definition option_secs (secs : option Z) : res (option Duration) :=
  match secs with Some d => d ← duration_from_secs d; Ret (Some d) | None => Ret None end.

(** The servers of the list that have unicast addresses; a failing [push] is ignored. *)
Definition dhcp_unicast_servers (dns_servers : option (hvec (list Z))) : hvec (list Z) :=
  let servers := match dns_servers with Some v => hv_elems v | None => [] end in
  fold_left (fun v a => fst (hv_push v a)) (List.filter v4_x_is_unicast servers) hv_new.

Definition dhcp_parse_ack (now : Instant) (dhcp_repr : DhcpRepr) (max_lease_duration : option Duration) (server : ServerInfo)
  : res (option (Config * Instant * Instant * Instant)) :=
  match dr_subnet_mask dhcp_repr with
  | None => Ret None
  | Some subnet_mask =>
      match v4_prefix_len subnet_mask with
      | None => Ret None
      | Some prefix_len =>
          if negb (v4_x_is_unicast (dr_your_ip dhcp_repr)) then Ret None
          else
            lease ← option_secs (dr_lease_duration dhcp_repr);
            let lease_duration := default DEFAULT_LEASE_DURATION lease in
            let lease_duration := match max_lease_duration with Some m => Z.min lease_duration m | None => lease_duration end in
            let dns_servers := dhcp_unicast_servers (dr_dns_servers dhcp_repr) in
            address ← v4cidr_new (dr_your_ip dhcp_repr) prefix_len;
            let config := mkConfig server address (dr_router dhcp_repr) dns_servers None in
            renew ← option_secs (dr_renew_duration dhcp_repr);
            rebind ← option_secs (dr_rebind_duration dhcp_repr);
            '(renew_duration, rebind_duration) ← dhcp_durations renew rebind lease_duration;
            renew_at ← instant_add now renew_duration;
            rebind_at ← instant_add now rebind_duration;
            expires_at ← instant_add now lease_duration;
            Ret (Some (config, renew_at, rebind_at, expires_at))
      end
  end.

(** [buffer.get_mut(..payload.len())] and the copy. *)
Definition dhcp_copy_packet s (payload : list Z) : DhcpSocket :=
  match dh_receive_packet_buffer s with
  | Some buffer => if Zlen payload <=? Zlen buffer then dh_set_packet_buffer s (Some (payload ++ drop (length payload) buffer)) else s
  | None => s
  end.

(** The match on the state and the message type. *)
Definition dhcp_process_message (now : Instant) (src_ip server_identifier : list Z) s (dhcp_repr : DhcpRepr) : res DhcpSocket :=
  match dh_state s, dr_message_type dhcp_repr with
  | Discovering _, DhcpOffer =>
      if negb (v4_x_is_unicast (dr_your_ip dhcp_repr)) then Ret s
      else Ret (dh_set_state s (Requesting (mkRequestState now 0 (mkServerInfo src_ip server_identifier) (dr_your_ip dhcp_repr))))
  | Requesting state, DhcpAck =>
      ack ← dhcp_parse_ack now dhcp_repr (dh_max_lease_duration s) (rq_server state);
      match ack with
      | Some (config, renew_at, rebind_at, expires_at) =>
          Ret (dhcp_config_changed (dh_set_state s (Renewing (mkRenewState config renew_at rebind_at false expires_at))))
      | None => Ret s
      end
  | Requesting _, DhcpNak => Ret (if negb (dh_ignore_naks s) then dhcp_reset s else s)
  | Renewing state, DhcpAck =>
      ack ← dhcp_parse_ack now dhcp_repr (dh_max_lease_duration s) (cf_server (rn_config state));
      match ack with
      | Some (config, renew_at, rebind_at, expires_at) =>
          let changed := negb (config_eqb (rn_config state) config) in
          let s1 := dh_set_state s (Renewing (mkRenewState (if changed then config else rn_config state) renew_at rebind_at false expires_at)) in
          Ret (if changed || bool_decide (is_Some (dh_receive_packet_buffer s)) then dhcp_config_changed s1 else s1)
      | None => Ret s
      end
  | Renewing _, DhcpNak => Ret (if negb (dh_ignore_naks s) then dhcp_reset s else s)
  | _, _ => Ret s
  end.

Definition dhcp_process {C} `{DhcpContext C} (cx : C) s (ip_repr : IpHeader) (repr : UdpRepr) (payload : list Z) : res DhcpSocket :=
  let src_ip := iph_src ip_repr in
  _ ← passert ((udp_src_port repr =? dh_server_port s) && (udp_dst_port repr =? dh_client_port s));
  match dhcp_new_checked payload with
  | Err _ => Ret s
  | Ok dhcp_packet =>
      parsed ← dhcp_parse dhcp_packet;
      match parsed with
      | Err _ => Ret s
      | Ok dhcp_repr =>
          match dc_hardware_addr cx with
          | HardwareEthernet ethernet_addr =>
              if negb (bool_decide (dr_client_hardware_address dhcp_repr = ethernet_addr)) then Ret s
              else if negb (dr_transaction_id dhcp_repr =? dh_transaction_id s) then Ret s
              else
                match dr_server_identifier dhcp_repr with
                | None => Ret s
                | Some server_identifier =>
                    dhcp_process_message (cx_now (the_context cx)) src_ip server_identifier (dhcp_copy_packet s payload) dhcp_repr
                end
          | _ => Panic
          end
      end
  end.

(** ** The messages of the client *)

Section Dispatch.
Context {C : Type} `{DhcpContext C} {E : Type} (emit : C -> IpHeader * UdpRepr * DhcpRepr -> res (C * result unit E)).

(** The representation, the ports and the header that every message starts from. *)
Definition dhcp_message s (ethernet_addr : list Z) (transaction_id max_size : Z) : DhcpRepr :=
  mkDhcpRepr DhcpDiscover transaction_id 0 ethernet_addr [0; 0; 0; 0] [0; 0; 0; 0] [0; 0; 0; 0] None None [0; 0; 0; 0] false None
    (Some ethernet_addr) None (Some (default DEFAULT_PARAMETER_REQUEST_LIST (dh_parameter_request_list s))) None (Some max_size)
    None None None (dh_outgoing_options s).

(** [payload_len] is filled in, and the message is handed over. *)
Definition dhcp_send s (cx : C) (src_addr dst_addr : list Z) (dhcp_repr : DhcpRepr) : res (C * result unit E) :=
  payload_len ← usize_add UDP_HEADER_LEN (dhcp_buffer_len dhcp_repr);
  emit cx (mkIpHeader src_addr dst_addr PROTOCOL_UDP payload_len 64, mkUdpRepr (dh_client_port s) (dh_server_port s), dhcp_repr).

Definition dhcp_dispatch_discover s (cx : C) (next_transaction_id : Z) (dhcp_repr : DhcpRepr) (retry_at : Instant)
  : res (DhcpSocket * C * result unit E) :=
  if cx_now (the_context cx) <? retry_at then Ret (s, cx, Ok tt)
  else
    '(cx, r) ← dhcp_send s cx [0; 0; 0; 0] [255; 255; 255; 255] dhcp_repr;
    match r with
    | Err e => Ret (s, cx, Err e)
    | Ok _ =>
        retry_at ← instant_add (cx_now (the_context cx)) (rc_discover_timeout (dh_retry_config s));
        Ret (dh_set_transaction_id (dh_set_state s (Discovering retry_at)) next_transaction_id, cx, Ok tt)
    end.

Definition dhcp_dispatch_request s (cx : C) (next_transaction_id : Z) (dhcp_repr : DhcpRepr) (state : RequestState)
  : res (DhcpSocket * C * result unit E) :=
  if cx_now (the_context cx) <? rq_retry_at state then Ret (s, cx, Ok tt)
  else if rc_request_retries (dh_retry_config s) <=? rq_retry state then Ret (dhcp_reset s, cx, Ok tt)
  else
    let dhcp_repr := dr_set_message_type dhcp_repr DhcpRequest in
    let dhcp_repr := dr_set_requested_ip dhcp_repr (Some (rq_requested_ip state)) in
    let dhcp_repr := dr_set_server_identifier dhcp_repr (Some (si_identifier (rq_server state))) in
    '(cx, r) ← dhcp_send s cx [0; 0; 0; 0] [255; 255; 255; 255] dhcp_repr;
    match r with
    | Err e => Ret (s, cx, Err e)
    | Ok _ =>
        timeout ← duration_shl (rc_initial_request_timeout (dh_retry_config s)) (rq_retry state / 2);
        retry_at ← instant_add (cx_now (the_context cx)) timeout;
        retry ← checked 0 u16_max (rq_retry state + 1);
        let state := mkRequestState retry_at retry (rq_server state) (rq_requested_ip state) in
        Ret (dh_set_transaction_id (dh_set_state s (Requesting state)) next_transaction_id, cx, Ok tt)
    end.

(** The next time of renewal, or of rebinding. *)
Definition dhcp_renew_again (config : RetryConfig) (now : Instant) (state : RenewState) : res RenewState :=
  if rn_rebinding state then
    remaining ← instant_sub (rn_expires_at state) now;
    half ← duration_div remaining 2;
    rebind_at ← instant_add now (Z.min (Z.max (rc_min_renew_timeout config) half) (rc_max_renew_timeout config));
    Ret (mkRenewState (rn_config state) (rn_renew_at state) rebind_at (rn_rebinding state) (rn_expires_at state))
  else
    remaining ← instant_sub (rn_rebind_at state) now;
    half ← duration_div remaining 2;
    renew_at ← instant_add now (Z.min (Z.min (Z.max (rc_min_renew_timeout config) half) remaining) (rc_max_renew_timeout config));
    Ret (mkRenewState (rn_config state) renew_at (rn_rebind_at state) (rn_rebinding state) (rn_expires_at state)).

Definition dhcp_dispatch_renew s (cx : C) (next_transaction_id : Z) (dhcp_repr : DhcpRepr) (state : RenewState)
  : res (DhcpSocket * C * result unit E) :=
  let now := cx_now (the_context cx) in
  if rn_expires_at state <=? now then Ret (dhcp_reset s, cx, Ok tt)
  else if (now <? rn_renew_at state) || (rn_rebinding state && (now <? rn_rebind_at state)) then Ret (s, cx, Ok tt)
  else
    let state := mkRenewState (rn_config state) (rn_renew_at state) (rn_rebind_at state)
                   (rn_rebinding state || (rn_rebind_at state <=? now)) (rn_expires_at state) in
    let s := dh_set_state s (Renewing state) in
    let address := address_octets (cidr_address (cf_address (rn_config state))) in
    let dst_addr := if rn_rebinding state then [255; 255; 255; 255] else si_address (cf_server (rn_config state)) in
    let dhcp_repr := dr_set_message_type dhcp_repr DhcpRequest in
    let dhcp_repr := dr_set_client_ip dhcp_repr address in
    '(cx, r) ← dhcp_send s cx address dst_addr dhcp_repr;
    match r with
    | Err e => Ret (s, cx, Err e)
    | Ok _ =>
        state ← dhcp_renew_again (dh_retry_config s) now state;
        Ret (dh_set_transaction_id (dh_set_state s (Renewing state)) next_transaction_id, cx, Ok tt)
    end.

Definition dhcp_dispatch s (cx : C) : res (DhcpSocket * C * result unit E) :=
  match dc_hardware_addr cx with
  | HardwareEthernet ethernet_addr =>
      let '(cx, next_transaction_id) := random_transaction_id cx in
      ip_mtu ← cx_ip_mtu (the_context cx);
      n ← usize_sub ip_mtu MAX_IPV4_HEADER_LEN;
      n ← usize_sub n UDP_HEADER_LEN;
      let dhcp_repr := dhcp_message s ethernet_addr next_transaction_id (wrap_u 16 n) in
      match dh_state s with
      | Discovering retry_at => dhcp_dispatch_discover s cx next_transaction_id dhcp_repr retry_at
      | Requesting state => dhcp_dispatch_request s cx next_transaction_id dhcp_repr state
      | Renewing state => dhcp_dispatch_renew s cx next_transaction_id dhcp_repr state
      end
  | _ => Panic
  end.
End Dispatch.
End Socket.
