(* ===== verification/DhcpSocketSpec.v ===== *)
(** * Properties of the DHCP client socket

    Well-formed sockets; what an answer of the server does; when a message is sent and which; and
    what the application knows of the configuration after any sequence of operations. *)

From stdpp Require Import gmap.
From S2P Require Import Prelude SeqNumber ByteOrder TimeModel TcpTimers IpTypes Ipv4Wire UdpWire IfaceContext Ipv4Addr Ipv6Addr Heapless Neighbor EthernetArp DhcpWire TcpSocket DhcpSocket.

(** [lia] with the equations of the quotients. *)
Ltac div_lia := Z.to_euclidean_division_equations; lia.

Section Spec.
Context `{NetworkEndianLaws} `{!HeaplessVec (list Z)} `{!HeaplessVecLaws (list Z) MAX_DNS_SERVER_COUNT}.
Implicit Types s : DhcpSocket.

(** ** Well-formed sockets *)

(** The exponential backoff stays in range: the last of the doubled timeouts is below 2^61
    microseconds, and the shift is by less than the width. *)
Record retry_config_ok (c : RetryConfig) : Prop := {
  rco_discover : 0 < rc_discover_timeout c <= 2 ^ 61;
  rco_initial : 0 < rc_initial_request_timeout c;
  rco_retries : 0 <= rc_request_retries c <= 128;
  rco_backoff : rc_initial_request_timeout c * 2 ^ (rc_request_retries c / 2) <= 2 ^ 61;
  rco_min : 0 < rc_min_renew_timeout c <= 2 ^ 61;
  rco_max : 0 < rc_max_renew_timeout c <= u64_max;
}.

Definition stored_time (t : Instant) : Prop := 0 <= t <= 2 ^ 62.

Record config_ok (c : Config) : Prop := {
  cfo_server : v4_ok (si_address (cf_server c));
  cfo_address : exists a p, cf_address c = CidrV4 a p /\ v4_ok a /\ v4_x_is_unicast a = true /\ 0 <= p <= 32;
  cfo_servers : Forall (fun a => v4_ok a /\ v4_x_is_unicast a = true) (hv_elems (cf_dns_servers c));
  cfo_packet : cf_packet c = None;
}.

Definition state_ok (st : ClientState) : Prop :=
  match st with
  | Discovering retry_at => stored_time retry_at
  | Requesting rq =>
      stored_time (rq_retry_at rq) /\ in_u16 (rq_retry rq) /\ v4_ok (si_address (rq_server rq)) /\ v4_ok (si_identifier (rq_server rq)) /\
      v4_ok (rq_requested_ip rq)
  | Renewing rn =>
      config_ok (rn_config rn) /\ stored_time (rn_renew_at rn) /\ rn_renew_at rn <= rn_rebind_at rn /\ stored_time (rn_rebind_at rn) /\
      stored_time (rn_expires_at rn)
  end.

Record dhcp_wf s : Prop := {
  dw_state : state_ok (dh_state s);
  dw_retry : retry_config_ok (dh_retry_config s);
  dw_max_lease : opt_prop (fun d => 0 <= d <= u64_max) (dh_max_lease_duration s);
  dw_xid : in_u32 (dh_transaction_id s);
  dw_options : Forall option_foreign (dh_outgoing_options s);
  dw_options_len : Zlen (options_bytes (dh_outgoing_options s)) <= 60000;
  dw_list : opt_prop (fun l => bytes_ok l /\ Zlen l <= 255) (dh_parameter_request_list s);
}.

Lemma dhcp_new_wf : dhcp_wf dhcp_new.
Proof. constructor; [| |done| |constructor| |done]; by vm_compute. Qed.

(** A new state keeps the rest. *)
Lemma set_state_wf s st : dhcp_wf s -> state_ok st -> dhcp_wf (dh_set_state s st).
Proof. intros [] ?. by constructor. Qed.
Lemma config_changed_wf s : dhcp_wf s -> dhcp_wf (dhcp_config_changed s).
Proof. intros []. by constructor. Qed.
Lemma copy_packet_wf s payload : dhcp_wf s -> dhcp_wf (dhcp_copy_packet s payload).
Proof. intros Hs. unfold dhcp_copy_packet. repeat case_match; try done; destruct Hs; by constructor. Qed.
Lemma set_xid_wf s x : dhcp_wf s -> in_u32 x -> dhcp_wf (dh_set_transaction_id s x).
Proof. intros [] ?. by constructor. Qed.
Lemma dhcp_reset_wf s : dhcp_wf s -> dhcp_wf (dhcp_reset s).
Proof.
  intros Hs. unfold dhcp_reset. apply set_state_wf; [|by vm_compute]. destruct (dh_state s); [done | done | by apply config_changed_wf].
Qed.

(** ** Acknowledgements *)

Lemma prefix_len_loop_range bits : forall ones n p, prefix_len_loop bits ones n = Some p -> n <= p <= n + Zlen bits.
Proof.
  induction bits as [|b bits IH]; intros ones n p; cbn [prefix_len_loop]; [intros [= ->]; rewrite Zlen_nil; lia|]. rewrite Zlen_cons.
  destruct ones, b; intros E; try discriminate; apply IH in E; lia.
Qed.

Lemma v4_prefix_len_range a p : v4_ok a -> v4_prefix_len a = Some p -> 0 <= p <= 32.
Proof.
  intros Ha E. apply prefix_len_loop_range in E. destruct (v4_octets a Ha) as (w & x & y & z & ->). change (Zlen ([w; x; y; z] ≫= byte_bits)) with 32 in E. lia.
Qed.

Lemma option_secs_ok o : opt_prop in_u32 o -> exists d, option_secs o = Ret d /\ d = option_map (fun x => x * 1000000) o /\
  opt_prop (fun d => 0 <= d <= 2 ^ 53) d.
Proof.
  intros Ho. exists (option_map (fun x => x * 1000000) o). destruct o as [x|]; [|done]. cbn in *. unfold duration_from_secs, u64_chk.
  rewrite checked_ok by mlia. split; [done|]. split; [done|]. mlia.
Qed.

(** The times of renewal and rebinding are in order; when the server gives both in their order, or
    one of them before the end of the lease, they are the server's. *)
Lemma durations_ok renew rebind lease :
  opt_prop (fun d => 0 <= d <= 2 ^ 53) renew -> opt_prop (fun d => 0 <= d <= 2 ^ 53) rebind -> 0 <= lease <= 2 ^ 53 ->
  wp (dhcp_durations renew rebind lease) (fun '(t1, t2) => 0 <= t1 <= t2 /\ t2 <= lease /\
    match renew, rebind with
    | Some r, Some b => r < b < lease -> t1 = r /\ t2 = b
    | Some r, None => r < lease -> t1 = r
    | None, Some b => b < lease -> t2 = b
    | None, None => t1 = lease / 2 /\ t2 = lease * 7 / 8
    end).
Proof.
  intros Hr Hb Hl.
  assert (Hd : (renew ← duration_div lease 2; x ← duration_mul lease 7; rebind ← duration_div x 8; Ret (renew, rebind)) =
    Ret (lease / 2, lease * 7 / 8)).
  { unfold duration_div. cbn [Z.eqb Pos.eqb]. rewrite bind_Ret, duration_mul_ok by mlia. done. }
  assert (Hdef : 0 <= lease / 2 <= lease * 7 / 8 /\ lease * 7 / 8 <= lease).
  { div_lia. }
  unfold dhcp_durations. rewrite Hd. clear Hd. destruct renew as [r|], rebind as [b|]; cbn [opt_prop] in *; [destr_if; cbn [wp]; div_lia | | | cbn [wp]; div_lia].
  - destr_if; [|cbn [wp]; div_lia]. unfold duration_sub, u64_chk. rewrite checked_ok, bind_Ret by mlia. rewrite duration_mul_ok, bind_Ret by mlia.
    unfold duration_div at 1. cbn [Z.eqb Pos.eqb]. rewrite bind_Ret. unfold duration_add, u64_chk. rewrite checked_ok, bind_Ret by (unfold_max; div_lia). cbn [wp]. div_lia.
  - destr_if; [|cbn [wp]; div_lia]. unfold duration_div at 1. cbn [Z.eqb Pos.eqb]. rewrite bind_Ret. cbn [wp]. div_lia.
Qed.

(** The servers that are kept are the unicast addresses of the list, in its order. *)
Lemma unicast_servers_ok o : hv_elems (dhcp_unicast_servers o) = List.filter v4_x_is_unicast (match o with Some v => hv_elems v | None => [] end).
Proof.
  unfold dhcp_unicast_servers. set (l := match o with Some v => hv_elems v | None => [] end).
  assert (Hl : (length l <= MAX_DNS_SERVER_COUNT)%nat) by (subst l; destruct o; [apply hv_bounded | cbn; lia]). clearbody l.
  assert (Hf : (length (List.filter v4_x_is_unicast l) <= MAX_DNS_SERVER_COUNT)%nat).
  { etransitivity; [|exact Hl]. clear. induction l as [|a l IH]; [done|]. cbn. case_match; cbn; lia. }
  assert (Hp : forall f v, (length (hv_elems v) + length f <= MAX_DNS_SERVER_COUNT)%nat ->
    hv_elems (fold_left (fun v a => fst (hv_push v a)) f v) = hv_elems v ++ f).
  { induction f as [|a f IH]; intros v Hn; [by rewrite app_nil_r|]. cbn [length] in Hn. cbn [fold_left].
    destruct (hv_push_ok (capacity := MAX_DNS_SERVER_COUNT) v a ltac:(lia)) as (v' & -> & E). cbn [fst].
    rewrite IH by (rewrite E, length_app; cbn; lia). by rewrite E, <- app_assoc. }
  rewrite Hp; rewrite hv_new_elems; done.
Qed.

(** What an acknowledgement grants: the configuration and the times. *)
Record ack_grants (now : Instant) (r : DhcpRepr) (max_lease : option Duration) (server : ServerInfo) (c : Config) (t1 t2 t3 : Instant) : Prop := {
  ag_unicast : v4_x_is_unicast (dr_your_ip r) = true;
  ag_address : exists mask p, dr_subnet_mask r = Some mask /\ v4_prefix_len mask = Some p /\ 0 <= p <= 32 /\ cf_address c = CidrV4 (dr_your_ip r) p;
  ag_server : cf_server c = server;
  ag_router : cf_router c = dr_router r;
  ag_servers : hv_elems (cf_dns_servers c) = List.filter v4_x_is_unicast (match dr_dns_servers r with Some v => hv_elems v | None => [] end);
  ag_packet : cf_packet c = None;
  ag_expires : t3 = now + (let lease := match dr_lease_duration r with Some d => d * 1000000 | None => DEFAULT_LEASE_DURATION end in
                           match max_lease with Some m => Z.min lease m | None => lease end);
  ag_order : now <= t1 <= t2 /\ t2 <= t3;
  ag_times : match dr_renew_duration r, dr_rebind_duration r with
             | Some d1, Some d2 => d1 < d2 -> now + d2 * 1000000 < t3 -> t1 = now + d1 * 1000000 /\ t2 = now + d2 * 1000000
             | Some d1, None => now + d1 * 1000000 < t3 -> t1 = now + d1 * 1000000
             | None, Some d2 => now + d2 * 1000000 < t3 -> t2 = now + d2 * 1000000
             | None, None => t1 = now + (t3 - now) / 2 /\ t2 = now + (t3 - now) * 7 / 8
             end;
}.

Lemma parse_ack_ok now r max_lease server : dhcp_repr_ok r -> time_ok now -> opt_prop (fun d => 0 <= d <= u64_max) max_lease ->
  wp (dhcp_parse_ack now r max_lease server) (fun o =>
    match o with
    | Some (c, t1, t2, t3) => ack_grants now r max_lease server c t1 t2 t3
    | None => v4_x_is_unicast (dr_your_ip r) = false \/ dr_subnet_mask r ≫= v4_prefix_len = None
    end).
Proof.
  intros Hr Hn Hm. unfold dhcp_parse_ack. destruct (dr_subnet_mask r) as [mask|] eqn:Em; [|cbn; auto].
  destruct (v4_prefix_len mask) as [p|] eqn:Ep; [|cbn [wp]; right; done]. destruct (v4_x_is_unicast (dr_your_ip r)) eqn:Eu; cbn [negb]; [|cbn; auto].
  assert (Hp : 0 <= p <= 32). { apply (v4_prefix_len_range mask); [|done]. pose proof (dro_subnet_mask _ Hr) as Hs. by rewrite Em in Hs. }
  destruct (option_secs_ok (dr_lease_duration r)) as (lease & -> & El & Hlease); [apply Hr|]. rewrite bind_Ret. cbv zeta.
  set (l := match max_lease with Some m => Z.min (default DEFAULT_LEASE_DURATION lease) m | None => default DEFAULT_LEASE_DURATION lease end).
  assert (Hl : 0 <= l <= 2 ^ 53).
  { subst l. assert (0 <= default DEFAULT_LEASE_DURATION lease <= 2 ^ 53) by (destruct lease; [done | by vm_compute]). destruct max_lease; cbn in Hm; lia. }
  unfold v4cidr_new. replace (p <=? 32) with true by lia. cbn [passert]. rewrite !bind_Ret.
  destruct (option_secs_ok (dr_renew_duration r)) as (renew & -> & Er & Hrenew); [apply Hr|]. rewrite bind_Ret.
  destruct (option_secs_ok (dr_rebind_duration r)) as (rebind & -> & Eb & Hrebind); [apply Hr|]. rewrite bind_Ret.
  wp_bind_with durations_ok; [done..|]. intros [d1 d2] (Hd1 & Hd2 & Hd). unfold time_ok in *.
  rewrite !instant_add_ok, !bind_Ret by (unfold time_ok; lia). cbn [wp]. constructor; cbn [cf_server cf_address cf_router cf_dns_servers cf_packet].
  - done.
  - by exists mask, p.
  - done.
  - done.
  - apply unicast_servers_ok.
  - done.
  - subst l lease. by destruct (dr_lease_duration r).
  - lia.
  - subst renew rebind. destruct (dr_renew_duration r), (dr_rebind_duration r); cbn [option_map] in Hd; intros; try (split; lia); try lia.
    replace (now + l - now) with l by lia. lia.
Qed.

Lemma ack_state_ok now r max_lease server c t1 t2 t3 : dhcp_repr_ok r -> time_ok now -> v4_ok (si_address server) ->
  opt_prop (fun d => 0 <= d <= u64_max) max_lease ->
  ack_grants now r max_lease server c t1 t2 t3 -> state_ok (Renewing (mkRenewState c t1 t2 false t3)).
Proof.
  intros Hr Hn Hs Hm [Hu (mask & p & _ & _ & Hp & Ea) Es _ Ed Hk Ht3 [Ht1 Ht2] _]. unfold time_ok, stored_time in *.
  assert (t3 <= now + 2 ^ 53).
  { pose proof (dro_lease_duration _ Hr) as Hl. unfold in_u32 in Hl. destruct (dr_lease_duration r); cbn in Hl; unfold DEFAULT_LEASE_DURATION in *;
      destruct max_lease; cbn in Hm; mlia. }
  cbn [state_ok rn_config rn_renew_at rn_rebind_at rn_expires_at]. unfold stored_time. split; [|lia]. constructor.
  - by rewrite Es.
  - exists (dr_your_ip r), p. split; [done|]. split; [apply Hr|]. by split.
  - rewrite Ed. apply Forall_forall. intros a Ha. apply filter_In in Ha as [Ha Hua]. split; [|done].
    pose proof (dro_dns_servers _ Hr) as Hv. destruct (dr_dns_servers r) as [v|]; [|done]. cbn in Hv. rewrite Forall_forall in Hv. by apply Hv.
  - done.
Qed.

(** ** What an answer does *)

(** An acknowledgement without a unicast address, or without a mask of the form of a prefix. *)
Definition ack_unusable (r : DhcpRepr) : Prop := v4_x_is_unicast (dr_your_ip r) = false \/ dr_subnet_mask r ≫= v4_prefix_len = None.

(** The messages that leave the client in its state: those it does not wait for, and those it waits
    for but cannot use. *)
Definition dhcp_ignores s (r : DhcpRepr) : Prop :=
  match dh_state s, dr_message_type r with
  | Discovering _, DhcpOffer => v4_x_is_unicast (dr_your_ip r) = false
  | Requesting _, DhcpAck | Renewing _, DhcpAck => ack_unusable r
  | Requesting _, DhcpNak | Renewing _, DhcpNak => dh_ignore_naks s = true
  | _, _ => True
  end.

(** The transitions of the client's state on a message [r], the address [src] of whose sender and
    the server identifier [sid] of which are given. *)
Inductive dhcp_transition (now : Instant) (src sid : list Z) (r : DhcpRepr) s : ClientState -> Prop :=
| trans_ignored : dhcp_ignores s r -> dhcp_transition now src sid r s (dh_state s)
| trans_offer retry_at :
    dh_state s = Discovering retry_at -> dr_message_type r = DhcpOffer -> v4_x_is_unicast (dr_your_ip r) = true ->
    dhcp_transition now src sid r s (Requesting (mkRequestState now 0 (mkServerInfo src sid) (dr_your_ip r)))
| trans_granted rq c t1 t2 t3 :
    dh_state s = Requesting rq -> dr_message_type r = DhcpAck -> ack_grants now r (dh_max_lease_duration s) (rq_server rq) c t1 t2 t3 ->
    dhcp_transition now src sid r s (Renewing (mkRenewState c t1 t2 false t3))
| trans_renewed rn c t1 t2 t3 :
    dh_state s = Renewing rn -> dr_message_type r = DhcpAck ->
    ack_grants now r (dh_max_lease_duration s) (cf_server (rn_config rn)) c t1 t2 t3 ->
    dhcp_transition now src sid r s (Renewing (mkRenewState c t1 t2 false t3))
| trans_refused :
    dr_message_type r = DhcpNak -> dh_ignore_naks s = false -> (forall retry_at, dh_state s <> Discovering retry_at) ->
    dhcp_transition now src sid r s (Discovering 0).

(** The message is an answer to this client's last message. *)
Definition dhcp_for_us (hardware : list Z) s (r : DhcpRepr) (sid : list Z) : Prop :=
  dr_client_hardware_address r = hardware /\ dr_transaction_id r = dh_transaction_id s /\ dr_server_identifier r = Some sid.

Lemma config_eqb_eq a b : config_eqb a b = true ->
  cf_server a = cf_server b /\ cf_address a = cf_address b /\ cf_router a = cf_router b /\
  hv_elems (cf_dns_servers a) = hv_elems (cf_dns_servers b) /\ cf_packet a = cf_packet b.
Proof. unfold config_eqb. rewrite !andb_true_iff, !bool_decide_eq_true. tauto. Qed.

(** Granting depends on the elements of the vector only. *)
Lemma ack_grants_same now r max_lease server a b t1 t2 t3 : config_eqb a b = true ->
  ack_grants now r max_lease server b t1 t2 t3 -> ack_grants now r max_lease server a t1 t2 t3.
Proof. intros (E1 & E2 & E3 & E4 & E5)%config_eqb_eq []. constructor; rewrite ?E1, ?E2, ?E3, ?E4, ?E5; done. Qed.

Lemma reset_state s : dh_state (dhcp_reset s) = Discovering 0.
Proof. done. Qed.

Lemma process_message_ok now src sid s r : dhcp_wf s -> dhcp_repr_ok r -> time_ok now -> v4_ok src -> v4_ok sid ->
  wp (dhcp_process_message now src sid s r) (fun s' => dhcp_wf s' /\ dhcp_transition now src sid r s (dh_state s')).
Proof.
  intros Hs Hr Hn Hsrc Hsid. pose proof (dw_state _ Hs) as Hst. pose proof (dw_max_lease _ Hs) as Hm. unfold dhcp_process_message.
  set (P := fun s' => dhcp_wf s' /\ dhcp_transition now src sid r s (dh_state s')).
  assert (Hkeep : dhcp_ignores s r -> wp (Ret s) P) by (split; [done | by constructor]). unfold dhcp_ignores in Hkeep.
  assert (Hnak : (forall t, dh_state s <> Discovering t) -> dr_message_type r = DhcpNak ->
    wp (Ret (if negb (dh_ignore_naks s) then dhcp_reset s else s)) P).
  { intros Hd Ek. destruct (dh_ignore_naks s) eqn:Ei.
    { cbn [negb]. apply Hkeep. rewrite Ek. by destruct (dh_state s). }
    split; [by apply dhcp_reset_wf|]. by apply trans_refused. }
  destruct (dh_state s) as [retry_at|rq|rn] eqn:E; destruct (dr_message_type r) eqn:Ek; try (by apply Hkeep); try (by apply Hnak).
  - destr_if; [apply Hkeep; by apply negb_true_iff|]. apply negb_false_iff in Hif. split; [|by eapply trans_offer].
    apply set_state_wf; [done|]. cbn [state_ok rq_retry_at rq_retry rq_server rq_requested_ip si_address si_identifier].
    unfold time_ok, stored_time in *. split; [lia|]. split; [by vm_compute|]. split; [done|]. split; [done | apply Hr].
  - wp_bind_with parse_ack_ok; [done..|]. intros [[[[c t1] t2] t3]|] Ha; [|by apply Hkeep].
    destruct Hst as (_ & _ & Hsrv & _). split; [|by eapply trans_granted].
    apply config_changed_wf, set_state_wf; [done|]. by eapply ack_state_ok.
  - wp_bind_with parse_ack_ok; [done..|]. intros [[[[c t1] t2] t3]|] Ha; [|by apply Hkeep]. cbv zeta. destruct Hst as (Hc & _).
    assert (Hg : ack_grants now r (dh_max_lease_duration s) (cf_server (rn_config rn))
      (if negb (config_eqb (rn_config rn) c) then c else rn_config rn) t1 t2 t3).
    { destruct (config_eqb (rn_config rn) c) eqn:Eq; [|done]. cbn [negb]. by eapply ack_grants_same. }
    pose proof (ack_state_ok _ _ _ _ _ _ _ _ Hr Hn (cfo_server _ Hc) Hm Hg) as Ho.
    set (c' := if negb _ then c else _) in *. cbn [wp]. destr_if; (split; [|by eapply trans_renewed]); [apply config_changed_wf|]; by apply set_state_wf.
Qed.

Lemma copy_packet_transition now src sid s r st payload :
  dhcp_transition now src sid r (dhcp_copy_packet s payload) st -> dhcp_transition now src sid r s st.
Proof.
  assert (E : dh_state (dhcp_copy_packet s payload) = dh_state s /\ dh_max_lease_duration (dhcp_copy_packet s payload) = dh_max_lease_duration s /\
    dh_ignore_naks (dhcp_copy_packet s payload) = dh_ignore_naks s) by (unfold dhcp_copy_packet; by repeat case_match).
  destruct E as (E1 & E2 & E3). intros [Hg | t Hs | rq c t1 t2 t3 Hs Hk Ha | rn c t1 t2 t3 Hs Hk Ha | Hk Hi Hd]; rewrite ?E1, ?E2, ?E3 in *.
  - constructor. unfold dhcp_ignores in *. by rewrite E1, E3 in Hg.
  - by eapply trans_offer.
  - by eapply trans_granted.
  - by eapply trans_renewed.
  - by eapply trans_refused.
Qed.

Section Process.
Context {C : Type} `{DhcpContext C}.
Implicit Types cx : C.

Lemma dhcp_process_ok cx s hw ip repr payload :
  dhcp_wf s -> dc_hardware_addr cx = HardwareEthernet hw -> time_ok (cx_now (the_context cx)) -> v4_ok (iph_src ip) -> bytes_ok payload ->
  udp_src_port repr = dh_server_port s -> udp_dst_port repr = dh_client_port s ->
  wp (dhcp_process cx s ip repr payload) (fun s' => dhcp_wf s' /\
    match dhcp_parse payload with
    | Ret (Ok r) =>
        (exists sid, dhcp_for_us hw s r sid /\ dhcp_transition (cx_now (the_context cx)) (iph_src ip) sid r s (dh_state s')) \/
        ((forall sid, ~ dhcp_for_us hw s r sid) /\ s' = s)
    | _ => s' = s
    end).
Proof.
  intros Hs Hw Hn Hi Hb Hsp Hdp. unfold dhcp_process. rewrite Hsp, Hdp, !Z.eqb_refl. cbn [andb passert]. rewrite bind_Ret.
  pose proof (dhcp_parse_wp payload Hb) as Hp. unfold dhcp_new_checked.
  destruct (dhcp_check_len payload) eqn:El; [|unfold dhcp_parse; rewrite El; by split]. destruct (dhcp_parse payload) as [[r|e]|] eqn:Ep; [|by split|done].
  cbn [wp] in Hp. rewrite bind_Ret, Hw. destruct Hp as (Hr & _).
  destr_if; [apply negb_true_iff, bool_decide_eq_false in Hif; cbn; split; [done|]; right; split; [|done]; intros sid (E & _); done|].
  apply negb_false_iff, bool_decide_eq_true in Hif. destr_if; [apply negb_true_iff, Z.eqb_neq in Hif0; cbn; split; [done|]; right; split; [|done]; intros sid (_ & E & _); done|].
  apply negb_false_iff, Z.eqb_eq in Hif0. destruct (dr_server_identifier r) as [sid|] eqn:Es;
    [|cbn; split; [done|]; right; split; [|done]; intros sid (_ & _ & E); congruence].
  pose proof (dro_server_identifier _ Hr) as Hsid. rewrite Es in Hsid.
  eapply wp_mono; [by apply process_message_ok; [apply copy_packet_wf|..]|]. intros s' [Hs' Ht]. split; [done|]. left. exists sid.
  split; [by repeat split|]. by eapply copy_packet_transition.
Qed.

(** C14: A datagram from the server never makes the client panic, and has the effects of RFC 2131 and
    no other: whatever its octets are, a socket that is well-formed stays so; a payload that is not a
    DHCP message, or one for another client, for another transaction or without a server identifier
    leaves the socket as it is; of a message for this client, an OFFER of a unicast address makes a
    discovering client request it, an ACK with a unicast address and a mask that is a prefix makes a
    requesting or renewing client use exactly the
    address, the mask, the router and the unicast name servers of the message, with times of renewal,
    rebinding and expiry in this order and at the server's values where these are in order, and a NAK
    makes a requesting or renewing client discover again unless it ignores NAKs; these and only these
    messages change the state, every other leaves it ([dhcp_ignores]). *)
Theorem dhcp_process_transitions cx s hw ip repr payload :
  dhcp_wf s -> dc_hardware_addr cx = HardwareEthernet hw -> time_ok (cx_now (the_context cx)) -> v4_ok (iph_src ip) -> bytes_ok payload ->
  udp_src_port repr = dh_server_port s -> udp_dst_port repr = dh_client_port s ->
  wp (dhcp_process cx s ip repr payload) (fun s' => dhcp_wf s' /\
    match dhcp_parse payload with
    | Ret (Ok r) =>
        (exists sid, dhcp_for_us hw s r sid /\ dhcp_transition (cx_now (the_context cx)) (iph_src ip) sid r s (dh_state s')) \/
        ((forall sid, ~ dhcp_for_us hw s r sid) /\ s' = s)
    | _ => s' = s
    end).
Proof. apply dhcp_process_ok. Qed.
End Process.

(** ** What is sent, and when *)

(** The lease that the socket holds. *)
Definition dhcp_lease s : option Config := match dh_state s with Renewing rn => Some (rn_config rn) | _ => None end.

(** The attempts are used up, or the lease has expired. *)
Definition dhcp_gives_up s (now : Instant) : Prop :=
  match dh_state s with
  | Discovering _ => False
  | Requesting rq => rc_request_retries (dh_retry_config s) <= rq_retry rq
  | Renewing rn => rn_expires_at rn <= now
  end.

(** The message that a socket sends in its state. *)
Record dhcp_packet_for s (hw : list Z) (now : Instant) (xid : Z) (ip : IpHeader) (udp : UdpRepr) (r : DhcpRepr) : Prop := {
  dpf_repr : dhcp_repr_ok r;
  dpf_udp : udp = mkUdpRepr (dh_client_port s) (dh_server_port s);
  dpf_len : iph_payload_len ip = UDP_HEADER_LEN + dhcp_buffer_len r /\ iph_payload_len ip <= 65515;
  dpf_ip : iph_next_header ip = PROTOCOL_UDP /\ iph_hop_limit ip = 64 /\ iph_src ip = dr_client_ip r;
  dpf_client : dr_client_hardware_address r = hw /\ dr_client_identifier r = Some hw /\ dr_transaction_id r = xid;
  dpf_options : dr_additional_options r = dh_outgoing_options s;
  dpf_state :
    match dh_state s with
    | Discovering _ =>
        dr_message_type r = DhcpDiscover /\ dr_client_ip r = [0; 0; 0; 0] /\ dr_requested_ip r = None /\ iph_dst ip = [255; 255; 255; 255]
    | Requesting rq =>
        dr_message_type r = DhcpRequest /\ dr_client_ip r = [0; 0; 0; 0] /\ dr_requested_ip r = Some (rq_requested_ip rq) /\
        dr_server_identifier r = Some (si_identifier (rq_server rq)) /\ iph_dst ip = [255; 255; 255; 255]
    | Renewing rn =>
        dr_message_type r = DhcpRequest /\ Ipv4 (dr_client_ip r) = cidr_address (cf_address (rn_config rn)) /\ dr_requested_ip r = None /\
        iph_dst ip = if rn_rebinding rn || (rn_rebind_at rn <=? now) then [255; 255; 255; 255] else si_address (cf_server (rn_config rn))
    end;
}.

Lemma dhcp_options_len l : foldr (fun opt len => 2 + Zlen (do_data opt) + len) 0 l = Zlen (options_bytes l).
Proof. induction l as [|o l IH]; [done|]. cbn [foldr]. by rewrite IH, Zlen_options_bytes_cons. Qed.

Lemma message_ok s hw xid n : dhcp_wf s -> ethernet_addr_ok hw -> in_u32 xid -> in_u16 n -> dhcp_repr_ok (dhcp_message s hw xid n).
Proof.
  intros Hs Hw Hx Hn. constructor; cbn; try done; try (split; [unfold bytes_ok; by repeat constructor | done]).
  - pose proof (dw_list _ Hs) as Hl. destruct (dh_parameter_request_list s); [done|]. cbn. split; [|done]. unfold bytes_ok, DEFAULT_PARAMETER_REQUEST_LIST. rewrite !Forall_cons_iff. by vm_compute.
Qed.

(** The length of a message that has no router, mask, lease or name servers. *)
Lemma message_len s hw xid n r : dhcp_wf s -> dhcp_repr_ok r -> dr_additional_options r = dh_outgoing_options s ->
  dr_router r = None -> dr_subnet_mask r = None -> dr_lease_duration r = None -> dr_dns_servers r = None ->
  dr_parameter_request_list r = dr_parameter_request_list (dhcp_message s hw xid n) ->
  0 <= dhcp_buffer_len r <= 65507.
Proof.
  intros Hs Hr Ea E1 E2 E3 E4 E5. unfold dhcp_buffer_len. rewrite Ea, E1, E2, E3, E4, dhcp_options_len. pose proof (dw_options_len _ Hs).
  pose proof (Zlen_nonneg (options_bytes (dh_outgoing_options s))). pose proof (dro_parameter_request_list _ Hr) as Hl.
  destruct (dr_parameter_request_list r) as [l|]; [|repeat case_match; lia]. destruct Hl as [_ Hl]. pose proof (Zlen_nonneg l). repeat case_match; lia.
Qed.

Section Dispatch.
Context {C : Type} `{DhcpContextLaws C} {E : Type} (emit : C -> IpHeader * UdpRepr * DhcpRepr -> res (C * result unit E)).
Implicit Types cx : C.

(** Handing a packet to the device takes no time that the clock shows. *)
Definition emit_keeps_clock : Prop :=
  forall cx p, wlp (emit cx p) (fun '(cx', _) => cx_now (the_context cx') = cx_now (the_context cx)).

(** The result of a call that hands over one packet. *)
Definition dhcp_sends (cx : C) (p : IpHeader * UdpRepr * DhcpRepr) (s_ok s_err : DhcpSocket) : res (DhcpSocket * C * result unit E) :=
  '(cx, r) ← emit cx p; Ret (if is_ok r then s_ok else s_err, cx, r).

(** What sending does to a socket [s] at the time [now]. *)
Record dhcp_after_send s (now : Instant) (xid : Z) (s_ok s_err : DhcpSocket) : Prop := {
  das_wf_ok : dhcp_wf s_ok;
  das_wf_err : dhcp_wf s_err;
  das_later : poll_due (dhcp_poll_at s_ok) now = false;
  das_again : poll_due (dhcp_poll_at s_err) now = true;
  das_xid : dh_transaction_id s_ok = xid /\ dh_transaction_id s_err = dh_transaction_id s;
  das_lease : dhcp_lease s_ok = dhcp_lease s /\ dhcp_lease s_err = dhcp_lease s;
}.

Lemma send_message s cx src dst r :
  0 <= dhcp_buffer_len r <= 65507 ->
  dhcp_send emit s cx src dst r =
  emit cx (mkIpHeader src dst PROTOCOL_UDP (UDP_HEADER_LEN + dhcp_buffer_len r) 64, mkUdpRepr (dh_client_port s) (dh_server_port s), r).
Proof. intros Hr. unfold dhcp_send, UDP_HEADER_LEN. rewrite usize_add_ok, bind_Ret by mlia. done. Qed.

Lemma v4_zero_ok : v4_ok [0; 0; 0; 0].
Proof. split; [byte_list | done]. Qed.

(** While discovering. *)
Lemma dispatch_discover_ok s cx xid hw n t : emit_keeps_clock -> dhcp_wf s -> dh_state s = Discovering t -> time_ok (cx_now (the_context cx)) ->
  t <= cx_now (the_context cx) -> ethernet_addr_ok hw -> in_u32 xid -> in_u16 n ->
  exists ip udp r s_ok s_err, dhcp_dispatch_discover emit s cx xid (dhcp_message s hw xid n) t = dhcp_sends cx (ip, udp, r) s_ok s_err /\
    dhcp_packet_for s hw (cx_now (the_context cx)) xid ip udp r /\ dhcp_after_send s (cx_now (the_context cx)) xid s_ok s_err.
Proof.
  intros Hc Hs Est Hn Ht Hw Hx Hu. unfold dhcp_dispatch_discover. replace (_ <? t) with false by lia.
  pose proof (message_ok s hw xid n Hs Hw Hx Hu) as Hr. pose proof (message_len s hw xid n _ Hs Hr eq_refl eq_refl eq_refl eq_refl eq_refl eq_refl) as Hl.
  rewrite send_message by done. set (now := cx_now (the_context cx)) in *. pose proof (rco_discover _ (dw_retry _ Hs)) as Hd.
  set (ip := mkIpHeader _ _ _ _ _). set (udp := mkUdpRepr _ _).
  exists ip, udp, (dhcp_message s hw xid n), (dh_set_transaction_id (dh_set_state s (Discovering (now + rc_discover_timeout (dh_retry_config s)))) xid), s.
  split; [|split].
  - unfold dhcp_sends. pose proof (Hc cx (ip, udp, dhcp_message s hw xid n)) as Hcx. destruct (emit cx _) as [[cx' [[]|e]]|]; [|done..].
    cbn [mbind res_bind wlp] in *. rewrite Hcx. fold now. unfold time_ok in *. rewrite instant_add_ok, bind_Ret by (unfold time_ok; lia). done.
  - constructor; unfold ip; cbn [iph_payload_len iph_src iph_dst iph_next_header iph_hop_limit]; try done; [unfold UDP_HEADER_LEN; lia | by rewrite Est].
  - unfold time_ok in *. constructor; try done.
    + apply set_xid_wf; [|done]. apply set_state_wf; [done|]. cbn. unfold stored_time. lia.
    + cbn. lia.
    + unfold dhcp_poll_at. rewrite Est. cbn. lia.
    + unfold dhcp_lease. rewrite Est. done.
Qed.

(** The doubled timeout does not overflow. *)
Lemma backoff_ok c retry : retry_config_ok c -> 0 <= retry < rc_request_retries c ->
  exists d, duration_shl (rc_initial_request_timeout c) (retry / 2) = Ret d /\ 0 < d <= 2 ^ 61.
Proof.
  intros [_ Hi Hr Hb _ _] Hk. exists (rc_initial_request_timeout c * 2 ^ (retry / 2)).
  assert (Hd : 0 <= retry / 2 <= rc_request_retries c / 2) by (split; [apply Z.div_pos; lia | apply Z.div_le_mono; lia]).
  assert (Hp : 2 ^ (retry / 2) <= 2 ^ (rc_request_retries c / 2)) by (apply Z.pow_le_mono_r; lia).
  pose proof (Z.pow_pos_nonneg 2 (retry / 2) ltac:(lia) ltac:(lia)).
  assert (0 < rc_initial_request_timeout c * 2 ^ (retry / 2) <= 2 ^ 61) by (split; nia). split; [|done].
  unfold duration_shl. assert (retry / 2 < 64) by div_lia. replace (retry / 2 <? 64) with true by lia.
  rewrite Z.shiftl_mul_pow2 by lia. by rewrite wrap_u_id by lia.
Qed.

(** While requesting. *)
Lemma dispatch_request_ok s cx xid hw n rq : emit_keeps_clock -> dhcp_wf s -> dh_state s = Requesting rq -> time_ok (cx_now (the_context cx)) ->
  rq_retry_at rq <= cx_now (the_context cx) -> rq_retry rq < rc_request_retries (dh_retry_config s) -> ethernet_addr_ok hw -> in_u32 xid -> in_u16 n ->
  exists ip udp r s_ok s_err, dhcp_dispatch_request emit s cx xid (dhcp_message s hw xid n) rq = dhcp_sends cx (ip, udp, r) s_ok s_err /\
    dhcp_packet_for s hw (cx_now (the_context cx)) xid ip udp r /\ dhcp_after_send s (cx_now (the_context cx)) xid s_ok s_err.
Proof.
  intros Hc Hs Est Hn Ht Hk Hw Hx Hu. unfold dhcp_dispatch_request. replace (_ <? rq_retry_at rq) with false by lia.
  replace (_ <=? rq_retry rq) with false by lia. cbv zeta. set (r := dr_set_server_identifier _ _).
  pose proof (dw_state _ Hs) as Hst. rewrite Est in Hst. destruct Hst as (_ & [Hrt Hrt'] & Ha & Hi & Hq).
  assert (Hr : dhcp_repr_ok r). { destruct (message_ok s hw xid n Hs Hw Hx Hu). constructor; done. }
  pose proof (message_len s hw xid n r Hs Hr eq_refl eq_refl eq_refl eq_refl eq_refl eq_refl) as Hl.
  rewrite send_message by done. set (now := cx_now (the_context cx)) in *. pose proof (rco_retries _ (dw_retry _ Hs)) as Hrc.
  destruct (backoff_ok _ (rq_retry rq) (dw_retry _ Hs)) as (d & Ed & Hd); [lia|].
  set (ip := mkIpHeader _ _ _ _ _). set (udp := mkUdpRepr _ _).
  exists ip, udp, r, (dh_set_transaction_id (dh_set_state s (Requesting (mkRequestState (now + d) (rq_retry rq + 1) (rq_server rq) (rq_requested_ip rq)))) xid), s.
  split; [|split].
  - unfold dhcp_sends. pose proof (Hc cx (ip, udp, r)) as Hcx. destruct (emit cx _) as [[cx' [[]|e]]|]; [|done..].
    cbn [mbind res_bind wlp] in *. rewrite Hcx. fold now. unfold time_ok in *. rewrite Ed, bind_Ret, instant_add_ok, bind_Ret by (unfold time_ok; lia).
    rewrite checked_ok, bind_Ret by mlia. done.
  - constructor; unfold ip; cbn [iph_payload_len iph_src iph_dst iph_next_header iph_hop_limit]; try done; [unfold UDP_HEADER_LEN; lia | by rewrite Est].
  - unfold time_ok in *. constructor; try done.
    + apply set_xid_wf; [|done]. apply set_state_wf; [done|]. cbn [state_ok rq_retry_at rq_retry rq_server rq_requested_ip].
      unfold stored_time. split; [lia|]. split; [mlia|]. done.
    + cbn. lia.
    + unfold dhcp_poll_at. rewrite Est. cbn. lia.
    + unfold dhcp_lease. rewrite Est. done.
Qed.

(** The next attempt of renewal or rebinding is later. *)
Lemma renew_again_ok c now rn : retry_config_ok c -> state_ok (Renewing rn) -> time_ok now ->
  rn_renew_at rn <= now < rn_expires_at rn -> rn_rebinding rn = (rn_rebind_at rn <=? now) ->
  exists rn', dhcp_renew_again c now rn = Ret rn' /\ state_ok (Renewing rn') /\ rn_config rn' = rn_config rn /\ rn_expires_at rn' = rn_expires_at rn /\
    rn_rebinding rn' = rn_rebinding rn /\ now < (if rn_rebinding rn' then rn_rebind_at rn' else Z.min (rn_renew_at rn') (rn_rebind_at rn')).
Proof.
  intros [_ _ _ _ Hmin Hmax] (Hc & Hre & Ho & Hrb & He) Hn Hd Hb. unfold dhcp_renew_again, stored_time, time_ok in *. rewrite Hb.
  destruct (Z.leb_spec (rn_rebind_at rn) now) as [Hle|Hlt].
  - rewrite instant_sub_ok, bind_Ret by lia. unfold duration_div. cbn [Z.eqb Pos.eqb]. rewrite bind_Ret.
    set (d := Z.min _ _). assert (Hdd : 0 < d <= 2 ^ 61) by (subst d; div_lia). rewrite instant_add_ok, bind_Ret by (unfold time_ok; lia).
    eexists. split; [done|]. cbn. unfold stored_time. split_and!; done || lia.
  - rewrite instant_sub_ok, bind_Ret by lia. unfold duration_div. cbn [Z.eqb Pos.eqb]. rewrite bind_Ret.
    set (d := Z.min _ _). assert (Hdd : 0 < d <= rn_rebind_at rn - now /\ d <= 2 ^ 61) by (subst d; div_lia). rewrite instant_add_ok, bind_Ret by (unfold time_ok; lia).
    eexists. split; [done|]. cbn. unfold stored_time. split_and!; done || lia.
Qed.

(** While renewing. *)
Lemma dispatch_renew_ok s cx xid hw n rn : dhcp_wf s -> dh_state s = Renewing rn -> time_ok (cx_now (the_context cx)) ->
  rn_renew_at rn <= cx_now (the_context cx) < rn_expires_at rn -> (rn_rebinding rn = true -> rn_rebind_at rn <= cx_now (the_context cx)) ->
  ethernet_addr_ok hw -> in_u32 xid -> in_u16 n ->
  exists ip udp r s_ok s_err, dhcp_dispatch_renew emit s cx xid (dhcp_message s hw xid n) rn = dhcp_sends cx (ip, udp, r) s_ok s_err /\
    dhcp_packet_for s hw (cx_now (the_context cx)) xid ip udp r /\ dhcp_after_send s (cx_now (the_context cx)) xid s_ok s_err.
Proof.
  intros Hs Est Hn Ht Hrb Hw Hx Hu. unfold dhcp_dispatch_renew. cbv zeta. set (now := cx_now (the_context cx)) in *.
  replace (rn_expires_at rn <=? now) with false by lia. replace (now <? rn_renew_at rn) with false by lia.
  assert (Eb : rn_rebinding rn || (rn_rebind_at rn <=? now) = (rn_rebind_at rn <=? now)) by (destruct (rn_rebinding rn); [cbn; specialize (Hrb eq_refl); lia | done]).
  replace (rn_rebinding rn && (now <? rn_rebind_at rn)) with false by (destruct (rn_rebinding rn); [cbn; specialize (Hrb eq_refl); lia | done]).
  cbn [orb].
  set (rn1 := mkRenewState (rn_config rn) (rn_renew_at rn) (rn_rebind_at rn) (rn_rebinding rn || (rn_rebind_at rn <=? now)) (rn_expires_at rn)).
  set (s1 := dh_set_state s (Renewing rn1)).
  pose proof (dw_state _ Hs) as Hst. rewrite Est in Hst. assert (Hst1 : state_ok (Renewing rn1)) by exact Hst. destruct Hst as (Hcf & _).
  destruct (cfo_address _ Hcf) as (a & p & Ea & Hva & _). change (rn_config rn1) with (rn_config rn). rewrite Ea. cbn [cidr_address address_octets].
  set (dst := if rn_rebinding rn1 then _ else _). set (r := dr_set_client_ip _ _).
  assert (Hr : dhcp_repr_ok r). { destruct (message_ok s hw xid n Hs Hw Hx Hu). constructor; done. }
  pose proof (message_len s hw xid n r Hs Hr eq_refl eq_refl eq_refl eq_refl eq_refl eq_refl) as Hl.
  rewrite send_message by done. set (ip := mkIpHeader _ _ _ _ _). set (udp := mkUdpRepr _ _).
  destruct (renew_again_ok (dh_retry_config s1) now rn1) as (rn2 & E2 & Hst2 & Ec2 & Ee2 & _ & Hlater); [apply Hs | done | done | done | done |].
  exists ip, udp, r, (dh_set_transaction_id (dh_set_state s1 (Renewing rn2)) xid), s1. split; [|split].
  - unfold dhcp_sends. destruct (emit cx _) as [[cx' [[]|e]]|]; [|done..]. cbn [mbind res_bind]. rewrite E2. done.
  - constructor; unfold ip; cbn [iph_payload_len iph_src iph_dst iph_next_header iph_hop_limit]; try done; [unfold UDP_HEADER_LEN; lia|].
    rewrite Est, Ea. done.
  - constructor.
    + apply set_xid_wf; [|done]. by apply set_state_wf; [apply set_state_wf|].
    + by apply set_state_wf.
    + unfold poll_due, dhcp_poll_at. cbn [dh_state dh_set_transaction_id dh_set_state s1].
      rewrite Ee2. cbn [rn1 rn_expires_at]. destr_if; lia.
    + unfold poll_due, dhcp_poll_at. cbn [dh_state dh_set_state s1 rn1 rn_rebinding rn_rebind_at rn_renew_at rn_expires_at]. rewrite Eb. destr_if; lia.
    + done.
    + unfold dhcp_lease. rewrite Est. cbn. by rewrite Ec2.
Qed.

Lemma dhcp_dispatch_ok cx s hw :
  emit_keeps_clock -> dhcp_wf s -> time_ok (cx_now (the_context cx)) -> dc_hardware_addr cx = HardwareEthernet hw -> ethernet_addr_ok hw ->
  cx_medium (the_context cx) = MediumEthernet -> 82 <= cx_max_transmission_unit (the_context cx) <= u32_max ->
  let now := cx_now (the_context cx) in let '(cx1, xid) := random_transaction_id cx in
  if poll_due (dhcp_poll_at s) now then
    (dhcp_gives_up s now /\ dhcp_dispatch emit s cx = Ret (dhcp_reset s, cx1, Ok tt)) \/
    (~ dhcp_gives_up s now /\ exists ip udp r s_ok s_err,
      dhcp_dispatch emit s cx = dhcp_sends cx1 (ip, udp, r) s_ok s_err /\
      dhcp_packet_for s hw now xid ip udp r /\ dhcp_after_send s now xid s_ok s_err)
  else dhcp_dispatch emit s cx = Ret (s, cx1, Ok tt).
Proof.
  intros Hc Hs Hn Hw He Hm Hmtu. cbv zeta. unfold dhcp_dispatch. rewrite Hw. unfold random_transaction_id.
  pose proof (rand_u32_range (cx_rand (the_context cx))) as Hx. destruct (rand_u32 _) as [rand xid]. cbn [snd] in Hx.
  set (cx1 := dc_set_rand cx rand). assert (Ecx : the_context cx1 = cx_set_rand (the_context cx) rand) by apply dc_rand_context.
  assert (Enow : cx_now (the_context cx1) = cx_now (the_context cx)) by (by rewrite Ecx). rewrite <- Enow in *.
  assert (Emtu : cx_ip_mtu (the_context cx1) = Ret (cx_max_transmission_unit (the_context cx) - 14)).
  { rewrite Ecx. unfold cx_ip_mtu. cbn [cx_set_rand cx_medium cx_max_transmission_unit]. rewrite Hm. apply usize_sub_ok. unfold ETHERNET_HEADER_LEN. mlia. }
  rewrite Emtu, bind_Ret. unfold MAX_IPV4_HEADER_LEN, UDP_HEADER_LEN. rewrite usize_sub_ok, bind_Ret by mlia. rewrite usize_sub_ok, bind_Ret by mlia.
  set (n := wrap_u 16 _). assert (Hu : in_u16 n). { pose proof (wrap_u_range 16 (cx_max_transmission_unit (the_context cx) - 14 - 60 - 8)). subst n. mlia. }
  pose proof (dw_state _ Hs) as Hst. set (now := cx_now (the_context cx1)) in *. unfold poll_due, dhcp_poll_at, dhcp_gives_up. destruct (dh_state s) as [t|rq|rn] eqn:Est.
  - destruct (Z.leb_spec t now).
    + right. split; [tauto|]. by apply dispatch_discover_ok.
    + unfold dhcp_dispatch_discover. fold now. by replace (now <? t) with true by lia.
  - destruct (Z.leb_spec (rq_retry_at rq) now).
    + destruct (Z.leb_spec (rc_request_retries (dh_retry_config s)) (rq_retry rq)).
      * left. split; [done|]. unfold dhcp_dispatch_request. fold now. replace (now <? rq_retry_at rq) with false by lia.
        by replace (_ <=? rq_retry rq) with true by lia.
      * right. split; [lia|]. by apply dispatch_request_ok.
    + unfold dhcp_dispatch_request. fold now. by replace (now <? rq_retry_at rq) with true by lia.
  - destruct Hst as (_ & _ & Ho & _). destruct (Z.leb_spec (Z.min (if rn_rebinding rn then rn_rebind_at rn else Z.min (rn_renew_at rn) (rn_rebind_at rn)) (rn_expires_at rn)) now) as [Hdue|Hdue].
    + destruct (Z.leb_spec (rn_expires_at rn) now).
      * left. split; [done|]. unfold dhcp_dispatch_renew. cbv zeta. fold now. by replace (rn_expires_at rn <=? now) with true by lia.
      * right. split; [lia|]. apply dispatch_renew_ok; try done; fold now; destruct (rn_rebinding rn); lia.
    + unfold dhcp_dispatch_renew. cbv zeta. fold now. replace (rn_expires_at rn <=? now) with false by (destruct (rn_rebinding rn); lia).
      by replace ((now <? rn_renew_at rn) || (rn_rebinding rn && (now <? rn_rebind_at rn))) with true by (destruct (rn_rebinding rn); lia).
Qed.

(** C15: The client sleeps exactly until [poll_at] and then acts.  While the time of [poll_at] is not
    reached, [dispatch] changes nothing but the random number generator.  Once it is reached, either
    the attempts are used up or the lease has expired, and the socket starts discovering again; or it
    hands exactly one message to the interface: a broadcast DISCOVER; a broadcast REQUEST for the
    offered address from the chosen server; or, for a lease, a REQUEST for the address in use, to the
    server before the time of rebinding and broadcast from then on.  Every message has its fields in
    their ranges, so that it can be written.  When the interface takes it, the socket is well-formed,
    waits for the answer to that message, and the next [poll_at] is in the future; when it refuses it,
    the socket will try again at once.  The lease is the same in both cases. *)
Theorem dhcp_dispatch_when_due cx s hw :
  emit_keeps_clock -> dhcp_wf s -> time_ok (cx_now (the_context cx)) -> dc_hardware_addr cx = HardwareEthernet hw -> ethernet_addr_ok hw ->
  cx_medium (the_context cx) = MediumEthernet -> 82 <= cx_max_transmission_unit (the_context cx) <= u32_max ->
  let now := cx_now (the_context cx) in let '(cx1, xid) := random_transaction_id cx in
  if poll_due (dhcp_poll_at s) now then
    (dhcp_gives_up s now /\ dhcp_dispatch emit s cx = Ret (dhcp_reset s, cx1, Ok tt)) \/
    (~ dhcp_gives_up s now /\ exists ip udp r s_ok s_err,
      dhcp_dispatch emit s cx = dhcp_sends cx1 (ip, udp, r) s_ok s_err /\
      dhcp_packet_for s hw now xid ip udp r /\ dhcp_after_send s now xid s_ok s_err)
  else dhcp_dispatch emit s cx = Ret (s, cx1, Ok tt).
Proof. apply dhcp_dispatch_ok. Qed.
End Dispatch.

(** ** What the application knows *)

(** The operations of a socket, with the event that each returns. *)
Inductive dhcp_step s : option DhcpEvent -> DhcpSocket -> Prop :=
| step_process {C} `{DhcpContext C} (cx : C) ip repr payload s' : dhcp_process cx s ip repr payload = Ret s' -> dhcp_step s None s'
| step_dispatch {C} `{DhcpContext C} {E} (emit : C -> IpHeader * UdpRepr * DhcpRepr -> res (C * result unit E)) (cx cx' : C) s' r :
    dhcp_dispatch emit s cx = Ret (s', cx', r) -> dhcp_step s None s'
| step_poll s' o : dhcp_poll s = (s', o) -> dhcp_step s o s'
| step_reset : dhcp_step s None (dhcp_reset s)
| step_set_retry_config c : dhcp_step s None (dhcp_set_retry_config s c)
| step_set_outgoing_options l : dhcp_step s None (dhcp_set_outgoing_options s l)
| step_set_receive_packet_buffer b : dhcp_step s None (dhcp_set_receive_packet_buffer s b)
| step_set_parameter_request_list l : dhcp_step s None (dhcp_set_parameter_request_list s l)
| step_set_max_lease_duration d : dhcp_step s None (dhcp_set_max_lease_duration s d)
| step_set_ignore_naks b : dhcp_step s None (dhcp_set_ignore_naks s b)
| step_set_ports p q : dhcp_step s None (dhcp_set_ports s p q)
| step_register_waker w : dhcp_step s None (dhcp_register_waker s w).

(** The configuration that an application applies: the last one that an event reported. *)
Definition apply_event (known : option Config) (o : option DhcpEvent) : option Config :=
  match o with
  | None => known
  | Some Deconfigured => None
  | Some (Configured c) => Some (mkConfig (cf_server c) (cf_address c) (cf_router c) (cf_dns_servers c) None)
  end.

(** A run of the socket, and what the application knows then. *)
Inductive dhcp_run : option Config -> DhcpSocket -> Prop :=
| run_new : dhcp_run None dhcp_new
| run_step known s o s' : dhcp_run known s -> dhcp_step s o s' -> dhcp_run (apply_event known o) s'.

Definition no_packet s : Prop := opt_prop (fun c => cf_packet c = None) (dhcp_lease s).

(** The lease stays the same, or the change is marked. *)
Definition lease_marked s s' : Prop :=
  no_packet s' /\ (dh_config_changed s' = true \/ dh_config_changed s' = dh_config_changed s /\ dhcp_lease s' = dhcp_lease s).

Lemma lease_same s s' : no_packet s -> dhcp_lease s' = dhcp_lease s -> dh_config_changed s' = dh_config_changed s -> lease_marked s s'.
Proof. unfold lease_marked, no_packet. intros Hp -> ->. auto. Qed.

Lemma reset_marked s : no_packet s -> lease_marked s (dhcp_reset s).
Proof.
  intros Hp. split; [done|]. unfold dhcp_reset, dhcp_lease. destruct (dh_state s); cbn; auto.
Qed.

(** The result of a computation that panics is not looked at. *)
Ltac wlp_steps := repeat match goal with |- wlp (?m ≫= _) _ => destruct m as [?|]; [rewrite bind_Ret; cbv beta | done] | |- wlp (let '(_, _) := ?x in _) _ => destruct x end.

Lemma ack_no_packet now r max_lease server :
  wlp (dhcp_parse_ack now r max_lease server) (opt_prop (fun '(c, _, _, _) => cf_packet c = None)).
Proof.
  unfold dhcp_parse_ack. destruct (dr_subnet_mask r) as [mask|]; [|done]. destruct (v4_prefix_len mask); [|done]. destr_if; [done|].
  wlp_steps. done.
Qed.

Lemma process_message_marked now src sid s r : no_packet s -> wlp (dhcp_process_message now src sid s r) (lease_marked s).
Proof.
  intros Hp. assert (Hkeep : wlp (Ret s) (lease_marked s)) by (by apply lease_same).
  assert (Hnak : wlp (Ret (if negb (dh_ignore_naks s) then dhcp_reset s else s)) (lease_marked s)).
  { destruct (dh_ignore_naks s); [done|]. by apply reset_marked. }
  unfold dhcp_process_message. destruct (dh_state s) as [t|rq|rn] eqn:Est; destruct (dr_message_type r); try done.
  - destr_if; [done|]. apply lease_same; [done | unfold dhcp_lease; by rewrite Est | done].
  - eapply wlp_bind; [apply ack_no_packet|]. intros [[[[c t1] t2] t3]|] Hc; [|done]. split; [exact Hc | by left].
  - eapply wlp_bind; [apply ack_no_packet|]. intros [[[[c t1] t2] t3]|] Hc; [|done]. cbv zeta. cbn [opt_prop] in Hc.
    unfold no_packet, dhcp_lease in Hp. rewrite Est in Hp. cbn in Hp.
    destruct (config_eqb (rn_config rn) c); cbn [negb orb].
    + destr_if; cbn [wlp]; (split; [exact Hp|]); [by left|]. right. split; [done|]. unfold dhcp_lease. by rewrite Est.
    + split; [exact Hc | by left].
Qed.

Lemma copy_packet_same s payload : dh_state (dhcp_copy_packet s payload) = dh_state s /\
  dh_config_changed (dhcp_copy_packet s payload) = dh_config_changed s.
Proof. unfold dhcp_copy_packet. by repeat case_match. Qed.

Lemma process_marked {C} `{DhcpContext C} (cx : C) s ip repr payload : no_packet s -> wlp (dhcp_process cx s ip repr payload) (lease_marked s).
Proof.
  intros Hp. assert (Hkeep : wlp (Ret s) (lease_marked s)) by (by apply lease_same).
  unfold dhcp_process. destruct (passert _); [rewrite bind_Ret | done]. destruct (dhcp_new_checked payload) as [pkt|]; [|done].
  destruct (dhcp_parse pkt) as [[r|]|]; [rewrite bind_Ret | done..]. destruct (dc_hardware_addr cx); try done. destr_if; [done|]. destr_if; [done|].
  destruct (dr_server_identifier r) as [sid|]; [|done]. destruct (copy_packet_same s payload) as [E1 E2].
  eapply wlp_mono; [apply process_message_marked; unfold no_packet, dhcp_lease; by rewrite E1|]. intros s' [Hn Hm]. split; [done|].
  unfold dhcp_lease in *. by rewrite E1, E2 in Hm.
Qed.

Lemma renew_again_config c now rn : wlp (dhcp_renew_again c now rn) (fun rn' => rn_config rn' = rn_config rn).
Proof. unfold dhcp_renew_again. destr_if; wlp_steps; done. Qed.

Lemma dispatch_marked {C} `{DhcpContext C} {E} (emit : C -> IpHeader * UdpRepr * DhcpRepr -> res (C * result unit E)) (cx : C) s : no_packet s ->
  wlp (dhcp_dispatch emit s cx) (fun '(s', _, _) => lease_marked s s').
Proof.
  intros Hp. assert (Hkeep : lease_marked s s) by (by apply lease_same).
  unfold dhcp_dispatch. destruct (dc_hardware_addr cx); try done. destruct (random_transaction_id cx) as [cx1 xid]. wlp_steps.
  destruct (dh_state s) as [t|rq|rn] eqn:Est.
  - unfold dhcp_dispatch_discover. destr_if; [done|]. destruct (dhcp_send _ _ _ _ _ _) as [[cx2 [?|?]]|]; [|done..]. rewrite bind_Ret. wlp_steps.
    apply lease_same; [done | unfold dhcp_lease; by rewrite Est | done].
  - unfold dhcp_dispatch_request. destr_if; [done|]. destr_if; [by apply reset_marked|]. cbv zeta.
    destruct (dhcp_send _ _ _ _ _ _) as [[cx2 [?|?]]|]; [|done..]. rewrite bind_Ret. wlp_steps.
    apply lease_same; [done | unfold dhcp_lease; by rewrite Est | done].
  - unfold dhcp_dispatch_renew. cbv zeta. destr_if; [by apply reset_marked|]. destr_if; [done|].
    destruct (dhcp_send _ _ _ _ _ _) as [[cx2 [?|?]]|]; [|apply lease_same; [done | unfold dhcp_lease; by rewrite Est | done]|done].
    rewrite bind_Ret. eapply wlp_bind; [apply renew_again_config|]. intros rn2 Hrn2. cbn [rn_config] in Hrn2.
    apply lease_same; [done | unfold dhcp_lease; rewrite Est; cbn; by rewrite Hrn2 | done].
Qed.

(** The invariant of runs. *)
Lemma run_known known s : dhcp_run known s -> no_packet s /\ (dh_config_changed s = true \/ known = dhcp_lease s).
Proof.
  induction 1 as [|known s o s' _ [Hp IH] Hstep]; [split; [exact I | by left]|].
  assert (Hmark : forall s', lease_marked s s' -> no_packet s' /\ (dh_config_changed s' = true \/ known = dhcp_lease s')).
  { intros s1 [Hp1 [Hm | [Hm1 Hm2]]]; (split; [done|]); [by left|]. rewrite Hm1, Hm2. exact IH. }
  destruct Hstep as [C ? ? cx ip repr payload s' E | C ? ? Er emit cx cx' s' r E | s' o E | | | | | | | | | ]; cbn [apply_event].
  - apply Hmark. pose proof (process_marked cx s ip repr payload Hp) as Hw. by rewrite E in Hw.
  - apply Hmark. pose proof (dispatch_marked emit cx s Hp) as Hw. by rewrite E in Hw.
  - unfold dhcp_poll in E. destruct (dh_config_changed s) eqn:Ec; cbn [negb] in E.
    + unfold no_packet, dhcp_lease in *. destruct (dh_state s) as [t|rq|rn] eqn:Est; injection E as <- <-; cbn [apply_event dh_state dh_set_config_changed] in *; rewrite Est.
      * by auto.
      * by auto.
      * cbn in *. split; [done|]. right. destruct (rn_config rn); cbn in *. by subst.
    + injection E as <- <-. cbn [apply_event]. rewrite Ec in *. destruct IH as [?|IH]; [done|]. auto.
  - by apply Hmark, reset_marked.
  - by apply Hmark, lease_same.
  - by apply Hmark, lease_same.
  - by apply Hmark, lease_same.
  - by apply Hmark, lease_same.
  - by apply Hmark, lease_same.
  - by apply Hmark, lease_same.
  - by apply Hmark, lease_same.
  - by apply Hmark, lease_same.
Qed.

(** C16: The events keep the application informed: after any sequence of operations of a new socket
    (answers of the server, dispatches with any device, resets, changes of the settings, polls), an
    application that applies every event it polls, and polls now, knows exactly the configuration the
    socket holds: none, or the address, router and name servers of its lease.  In particular, when
    there is no event, the configuration it applied last is the one the socket still holds. *)
Theorem dhcp_events_tell_the_lease known s s' o :
  dhcp_run known s -> dhcp_poll s = (s', o) -> dhcp_lease s' = dhcp_lease s /\ apply_event known o = dhcp_lease s'.
Proof.
  intros Hr E. destruct (run_known _ _ (run_step _ _ _ _ Hr (step_poll _ _ _ E))) as [_ Hk].
  assert (Hs : dhcp_lease s' = dhcp_lease s /\ dh_config_changed s' = false).
  { unfold dhcp_poll in E. destruct (dh_config_changed s) eqn:Ec; cbn [negb] in E; [|by injection E as <- <-].
    unfold dhcp_lease. destruct (dh_state s) eqn:Est; injection E as <- <-; cbn [dh_state dh_set_config_changed]; by rewrite Est. }
  destruct Hs as [Hl Hc]. split; [done|]. destruct Hk as [Hk|Hk]; [congruence | done].
Qed.
End Spec.
