(* ===== verification/IfacePacket.v ===== *)
(** * Packets of the interface (iface/packet.rs)

    What the interface sends: an IP header with the payload that [emit_payload] writes behind it.
    The fields of [PacketV6] for extension headers are left out: they are [None] in every packet
    that is created, and only 6LoWPAN reads them.  The payload of the DHCP socket is not modelled. *)

From stdpp Require Import gmap.
From S2P Require Import Prelude ByteOrder IpTypes Checksum TcpRepr TcpWire UdpWire Heapless Icmpv4Wire IgmpWire Icmpv6Packet NdiscWire MldWire Icmpv6Wire Ipv6ExtWire EthernetArp IfaceContext.

(** [DeviceCapabilities] (phy/mod.rs). *)
Record DeviceCapabilities : Type := mkDeviceCapabilities {
  dc_medium : Medium;
  dc_max_transmission_unit : Z;
  dc_max_burst_size : option Z;
  dc_checksum : ChecksumCapabilities;
}.

Definition dc_ip_mtu (caps : DeviceCapabilities) : res Z :=
  match dc_medium caps with
  | MediumEthernet => usize_sub (dc_max_transmission_unit caps) ETHERNET_HEADER_LEN
  | MediumIp | MediumIeee802154 => Ret (dc_max_transmission_unit caps)
  end.

Section Packet.
Context `{HeaplessVec Ipv6OptionRepr}.

Inductive IpPayload : Type :=
| PayloadIcmpv4 (r : Icmpv4Repr)
| PayloadIgmp (r : IgmpRepr)
| PayloadIcmpv6 (r : Icmpv6Repr)
| PayloadHopByHopIcmpv6 (h : hvec Ipv6OptionRepr) (r : Icmpv6Repr)
| PayloadRaw (raw_packet : list Z)
| PayloadUdp (r : UdpRepr) (inner_payload : list Z)
| PayloadTcp (r : TcpRepr).

(** [PacketV4] and [PacketV6]. *)
Inductive Packet : Type :=
| PacketIpv4 (header : IpHeader) (payload : IpPayload)
| PacketIpv6 (header : IpHeader) (payload : IpPayload).

Inductive EthernetPacket : Type :=
| EthernetArp (r : ArpRepr)
| EthernetIp (p : Packet).

Definition packet_new_ipv4 (ip_repr : IpHeader) (payload : IpPayload) : Packet := PacketIpv4 ip_repr payload.
Definition packet_new_ipv6 (ip_repr : IpHeader) (payload : IpPayload) : Packet := PacketIpv6 ip_repr payload.

Definition packet_new (ip_repr : IpRepr) (payload : IpPayload) : Packet :=
  match ip_repr with
  | Ipv4Repr header => packet_new_ipv4 header payload
  | Ipv6Repr header => packet_new_ipv6 header payload
  end.

Definition packet_ip_repr (p : Packet) : IpRepr :=
  match p with PacketIpv4 h _ => Ipv4Repr h | PacketIpv6 h _ => Ipv6Repr h end.

Definition packet_payload (p : Packet) : IpPayload :=
  match p with PacketIpv4 _ d | PacketIpv6 _ d => d end.

(** The header of an IPv6 packet; an ICMPv6 payload has no other. *)
Definition ipv6_repr_of (r : IpRepr) : res IpHeader :=
  match r with Ipv4Repr _ => Panic | Ipv6Repr h => Ret h end.

Definition tcp_set_window_len (r : TcpRepr) (w : Z) : TcpRepr :=
  mkTcpRepr (src_port r) (dst_port r) (control r) (seq_number r) (ack_number r) w (window_scale r) (max_seg_size r)
    (sack_permitted r) (sack_ranges r) (repr_timestamp r) (payload r).

(** The window of a segment is limited to what the device can receive in a burst. *)
Definition burst_window (ip_repr : IpRepr) (tcp_repr : TcpRepr) (caps : DeviceCapabilities) : res TcpRepr :=
  match dc_max_burst_size caps with
  | Some max_burst_size =>
      max_segment_size ← usize_sub (dc_max_transmission_unit caps) (ip_header_len ip_repr);
      max_segment_size ← usize_sub max_segment_size (tcp_header_len tcp_repr);
      max_window_size ← checked 0 usize_max (max_burst_size * max_segment_size);
      Ret (if max_window_size <? window_len tcp_repr then tcp_set_window_len tcp_repr (wrap_u 16 max_window_size) else tcp_repr)
  | None => Ret tcp_repr
  end.

Context `{NetworkEndian}.

(** The hop-by-hop header, its options and the ICMPv6 message behind them. *)
Definition emit_hop_by_hop (hbh_repr : hvec Ipv6OptionRepr) (icmpv6_repr : Icmpv6Repr) (ipv6_repr : IpHeader)
    (payload : list Z) (caps : DeviceCapabilities) : res (list Z) :=
  let ipv6_ext_hdr := mkIpv6ExtRepr PROTOCOL_ICMPV6 0 [] in
  payload ← slice_mut payload 0 (ext_header_len ipv6_ext_hdr) (ext_emit ipv6_ext_hdr);
  let hbh_start := ext_header_len ipv6_ext_hdr in
  hbh_end ← usize_add hbh_start (hbh_buffer_len hbh_repr);
  payload ← slice_mut payload hbh_start hbh_end (hbh_emit hbh_repr);
  slice_mut payload hbh_end (Zlen payload) (fun d =>
    icmpv6_emit icmpv6_repr (iph_src ipv6_repr) (iph_dst ipv6_repr) d (dc_checksum caps)).

Definition packet_emit_payload (p : Packet) (ip_repr : IpRepr) (payload : list Z) (caps : DeviceCapabilities) : res (list Z) :=
  match packet_payload p with
  | PayloadIcmpv4 icmpv4_repr => icmpv4_emit icmpv4_repr payload (dc_checksum caps)
  | PayloadIgmp igmp_repr => igmp_emit igmp_repr payload
  | PayloadIcmpv6 icmpv6_repr =>
      ipv6_repr ← ipv6_repr_of ip_repr;
      icmpv6_emit icmpv6_repr (iph_src ipv6_repr) (iph_dst ipv6_repr) payload (dc_checksum caps)
  | PayloadHopByHopIcmpv6 hbh_repr icmpv6_repr =>
      ipv6_repr ← ipv6_repr_of ip_repr;
      emit_hop_by_hop hbh_repr icmpv6_repr ipv6_repr payload caps
  | PayloadRaw raw_packet => copy_from_slice payload raw_packet
  | PayloadUdp udp_repr inner_payload =>
      udp_emit udp_repr payload (ip_src_addr ip_repr) (ip_dst_addr ip_repr) (Zlen inner_payload)
        (fun buf => copy_from_slice buf inner_payload) (dc_checksum caps)
  | PayloadTcp tcp_repr =>
      tcp_repr ← burst_window ip_repr tcp_repr caps;
      repr_emit tcp_repr payload (ip_src_addr ip_repr) (ip_dst_addr ip_repr) (dc_checksum caps)
  end.
End Packet.

(** How much of a packet an ICMP error message quotes. *)
Definition icmp_reply_payload_len (len mtu header_len : Z) : res Z :=
  n ← checked 0 usize_max (header_len * 2);
  n ← usize_sub mtu n;
  n ← usize_sub n 8;
  Ret (Z.min len n).
