(* ===== verification/Iface.v ===== *)
(** * The state of the interface (iface/interface/mod.rs, ipv4.rs, ipv6.rs, multicast.rs)

    [InterfaceInner] and the questions about addresses that receiving and sending ask it.  The
    fields that only IEEE 802.15.4 and 6LoWPAN use (the sequence number, the PAN identifier, the
    address contexts and the tag) are left out. *)

From stdpp Require Import gmap.
From S2P Require Import Prelude ByteOrder TimeModel IpTypes Checksum IfaceContext Ipv4Addr Ipv6Addr Heapless Route Neighbor NdiscWire EthernetArp IgmpWire IfacePacket.

(** ** Constants (wire/ipv4.rs, wire/ipv6.rs) *)

Definition IPV4_MIN_MTU : Z := 576.
Definition IPV4_MULTICAST_ALL_SYSTEMS : list Z := [224; 0; 0; 1].
Definition IPV4_MULTICAST_ALL_ROUTERS : list Z := [224; 0; 0; 2].
Definition IPV6_LINK_LOCAL_ALL_NODES : list Z := [0xff; 0x02; 0; 0; 0; 0; 0; 0; 0; 0; 0; 0; 0; 0; 0; 1].
Definition IPV6_LINK_LOCAL_ALL_MLDV2_ROUTERS : list Z := [0xff; 0x02; 0; 0; 0; 0; 0; 0; 0; 0; 0; 0; 0; 0; 0; 0x16].

(** ** Hardware addresses (wire/mod.rs) *)

Definition ethernet_or_panic (a : HardwareAddress) : res (list Z) :=
  match a with HardwareEthernet a => Ret a | HardwareIp | HardwareIeee802154 _ => Panic end.

Definition medium_eqb (a b : Medium) : bool :=
  match a, b with
  | MediumEthernet, MediumEthernet | MediumIp, MediumIp | MediumIeee802154, MediumIeee802154 => true
  | _, _ => false
  end.

Definition hardware_medium (a : HardwareAddress) : Medium :=
  match a with HardwareIp => MediumIp | HardwareEthernet _ => MediumEthernet | HardwareIeee802154 _ => MediumIeee802154 end.

(** [RawHardwareAddress::parse]. *)
Definition raw_hardware_parse (addr : list Z) (medium : Medium) : res (result HardwareAddress WireError) :=
  match medium with
  | MediumEthernet => if Zlen addr =? 6 then Ret (Ok (HardwareEthernet addr)) else Ret (Err MkWireError)
  | MediumIeee802154 => if Zlen addr =? 8 then Ret (Ok (HardwareIeee802154 (Extended addr))) else Ret (Err MkWireError)
  | MediumIp => Panic
  end.

(** ** Multicast groups (multicast.rs) *)

Inductive GroupState : Type := GroupJoining | GroupJoined | GroupLeaving.
#[export] Instance group_state_eq_dec : EqDecision GroupState.
Proof. solve_decision. Defined.

Inductive IgmpReportState : Type :=
| IgmpInactive
| IgmpToGeneralQuery (version : IgmpVersion) (timeout : Instant) (interval : Duration) (next_index : nat)
| IgmpToSpecificQuery (version : IgmpVersion) (timeout : Instant) (group : list Z).

Inductive MldReportState : Type :=
| MldInactive
| MldToGeneralQuery (timeout : Instant)
| MldToSpecificQuery (group : list Z) (timeout : Instant).

Section Iface.
Context `{LinearMap Address GroupState} `{LinearMap Address Neighbor} `{HeaplessVec Route}.

Record MulticastState : Type := mkMulticastState {
  mc_groups : lmap Address GroupState;
  mc_igmp_report_state : IgmpReportState;
  mc_mld_report_state : MldReportState;
}.

Definition mc_new : MulticastState := mkMulticastState lm_new IgmpInactive MldInactive.

Definition mc_has_multicast_group (m : MulticastState) (addr : Address) : bool :=
  match lm_get (mc_groups m) addr with
  | None => false
  | Some GroupJoining => true
  | Some GroupJoined => true
  | Some GroupLeaving => false
  end.

Definition mc_set_groups (m : MulticastState) g : MulticastState := mkMulticastState g (mc_igmp_report_state m) (mc_mld_report_state m).
Definition mc_set_igmp (m : MulticastState) r : MulticastState := mkMulticastState (mc_groups m) r (mc_mld_report_state m).
Definition mc_set_mld (m : MulticastState) r : MulticastState := mkMulticastState (mc_groups m) (mc_igmp_report_state m) r.

(** ** InterfaceInner *)

(** [if_cx] holds the fields [now], [rand], [ip_addrs], and the medium and MTU of [caps]. *)
Record InterfaceInner : Type := mkInterfaceInner {
  if_cx : Context;
  if_max_burst_size : option Z;
  if_checksum : ChecksumCapabilities;
  if_neighbor_cache : Cache;
  if_hardware_addr : HardwareAddress;
  if_ipv4_id : Z;
  if_any_ip : bool;
  if_routes : hvec Route;
  if_multicast : MulticastState;
}.
Implicit Types i : InterfaceInner.

#[export] Instance inner_context : HasContext InterfaceInner := if_cx.

Definition if_caps i : DeviceCapabilities :=
  mkDeviceCapabilities (cx_medium (if_cx i)) (cx_max_transmission_unit (if_cx i)) (if_max_burst_size i) (if_checksum i).

Definition if_now i : Instant := cx_now (if_cx i).
Definition if_ip_mtu i : res Z := dc_ip_mtu (if_caps i).

Definition if_set_cx i cx : InterfaceInner :=
  mkInterfaceInner cx (if_max_burst_size i) (if_checksum i) (if_neighbor_cache i) (if_hardware_addr i) (if_ipv4_id i)
    (if_any_ip i) (if_routes i) (if_multicast i).
Definition if_set_neighbor_cache i c : InterfaceInner :=
  mkInterfaceInner (if_cx i) (if_max_burst_size i) (if_checksum i) c (if_hardware_addr i) (if_ipv4_id i)
    (if_any_ip i) (if_routes i) (if_multicast i).
Definition if_set_hardware_addr i a : InterfaceInner :=
  mkInterfaceInner (if_cx i) (if_max_burst_size i) (if_checksum i) (if_neighbor_cache i) a (if_ipv4_id i)
    (if_any_ip i) (if_routes i) (if_multicast i).
Definition if_set_ipv4_id i n : InterfaceInner :=
  mkInterfaceInner (if_cx i) (if_max_burst_size i) (if_checksum i) (if_neighbor_cache i) (if_hardware_addr i) n
    (if_any_ip i) (if_routes i) (if_multicast i).
Definition if_set_any_ip i b : InterfaceInner :=
  mkInterfaceInner (if_cx i) (if_max_burst_size i) (if_checksum i) (if_neighbor_cache i) (if_hardware_addr i) (if_ipv4_id i)
    b (if_routes i) (if_multicast i).
Definition if_set_multicast i m : InterfaceInner :=
  mkInterfaceInner (if_cx i) (if_max_burst_size i) (if_checksum i) (if_neighbor_cache i) (if_hardware_addr i) (if_ipv4_id i)
    (if_any_ip i) (if_routes i) m.

Definition cx_set_now (cx : Context) (now : Instant) : Context :=
  mkContext now (cx_rand cx) (cx_medium cx) (cx_max_transmission_unit cx) (cx_ip_addrs cx) (cx_call cx).
Definition cx_set_ip_addrs (cx : Context) (addrs : list Cidr) : Context :=
  mkContext (cx_now cx) (cx_rand cx) (cx_medium cx) (cx_max_transmission_unit cx) addrs (cx_call cx).

Definition if_set_now i (now : Instant) : InterfaceInner := if_set_cx i (cx_set_now (if_cx i) now).

(** ** Addresses *)

Definition has_ip_addr i (addr : Address) : bool :=
  existsb (fun probe => bool_decide (cidr_address probe = addr)) (cx_ip_addrs (if_cx i)).

(** [addr.octets()[14..] == cidr.address().octets()[14..]] for an address of the interface other
    than the loopback address. *)
Definition has_solicited_node i (addr : list Z) : bool :=
  existsb (fun cidr =>
    match cidr with
    | CidrV6 a _ => if bool_decide (a <> v6_localhost) then bool_decide (drop 14 addr = drop 14 a) else false
    | CidrV4 _ _ => false
    end) (cx_ip_addrs (if_cx i)).

Definition has_multicast_group i (addr : Address) : bool :=
  if mc_has_multicast_group (if_multicast i) addr then true
  else
    match addr with
    | Ipv4 key => bool_decide (key = IPV4_MULTICAST_ALL_SYSTEMS)
    | Ipv6 key => bool_decide (key = IPV6_LINK_LOCAL_ALL_NODES) || has_solicited_node i key
    end.

Definition ipv4_addr i : option (list Z) := head (omap cidr_v4 (cx_ip_addrs (if_cx i))).
Definition ipv6_addr i : option (list Z) := head (map fst (omap cidr_v6 (cx_ip_addrs (if_cx i)))).
Definition link_local_ipv6_address i : option (list Z) :=
  head (List.filter v6_is_link_local (map fst (omap cidr_v6 (cx_ip_addrs (if_cx i))))).

Definition check_hardware_addr (addr : HardwareAddress) : res unit := b ← hardware_is_unicast addr; passert b.

Fixpoint check_ip_addrs (addrs : list Cidr) : res unit :=
  match addrs with
  | [] => Ret tt
  | cidr :: addrs =>
      if negb (address_is_unicast (cidr_address cidr)) && negb (address_is_unspecified (cidr_address cidr)) then Panic
      else check_ip_addrs addrs
  end.

(** [Interface::set_hardware_addr]. *)
Definition set_hardware_addr i (addr : HardwareAddress) : res InterfaceInner :=
  _ ← passert (negb (medium_eqb (cx_medium (if_cx i)) MediumIp));
  _ ← check_hardware_addr addr;
  Ret (if_set_hardware_addr i addr).

Definition flush_neighbor_cache i : InterfaceInner := if_set_neighbor_cache i (cache_flush (if_neighbor_cache i)).

(** [InterfaceInner::has_neighbor]. *)
Definition if_has_neighbor i (addr : Address) : res bool := has_neighbor (if_cx i) (if_routes i) (if_neighbor_cache i) addr.

(** [InterfaceInner::next_ipv4_frag_ident]. *)
Definition next_ipv4_frag_ident i : InterfaceInner * Z := (if_set_ipv4_id i (wrap_u 16 (if_ipv4_id i + 1)), if_ipv4_id i).
End Iface.
