(* ===== verification/Multicast.v ===== *)
(** * Multicast groups (iface/interface/multicast.rs, ipv6.rs)

    Joining and leaving groups, the groups of the interface's own IPv6 addresses, and the queries of
    IGMP and MLD.  The reports are sent by the polling loop. *)

From stdpp Require Import gmap.
From S2P Require Import Prelude ByteOrder TimeModel IpTypes Checksum IfaceContext Ipv4Addr Ipv6Addr Heapless Route Neighbor IgmpWire Icmpv6Packet MldWire Icmpv6Wire Ipv6ExtWire IcmpSocket IfacePacket Iface.

Inductive MulticastError : Type := GroupTableFull | MulticastUnaddressable.

(** Protocol numbers. *)
Definition PROTOCOL_HOPBYHOP : Z := 0.
Definition PROTOCOL_IGMP : Z := 2.

Section Multicast.
Context `{LinearMap Address GroupState} `{LinearMap Address Neighbor} `{HeaplessVec Route} `{HeaplessVec Ipv6OptionRepr}.
Implicit Types i : InterfaceInner.

Definition if_set_groups i g : InterfaceInner := if_set_multicast i (mc_set_groups (if_multicast i) g).
Definition if_set_igmp i r : InterfaceInner := if_set_multicast i (mc_set_igmp (if_multicast i) r).
Definition if_set_mld i r : InterfaceInner := if_set_multicast i (mc_set_mld (if_multicast i) r).

(** ** Joining and leaving *)

Definition join_multicast_group i (addr : Address) : InterfaceInner * result unit MulticastError :=
  if negb (address_is_multicast addr) then (i, Err MulticastUnaddressable)
  else
    let groups := mc_groups (if_multicast i) in
    match lm_get groups addr with
    | Some state =>
        let state := match state with GroupJoining => GroupJoining | GroupJoined => GroupJoined | GroupLeaving => GroupJoined end in
        (if_set_groups i (lm_set groups addr state), Ok tt)
    | None =>
        match lm_insert groups addr GroupJoining with
        | (groups, Ok _) => (if_set_groups i groups, Ok tt)
        | (groups, Err _) => (if_set_groups i groups, Err GroupTableFull)
        end
    end.

Definition leave_multicast_group i (addr : Address) : InterfaceInner * result unit MulticastError :=
  if negb (address_is_multicast addr) then (i, Err MulticastUnaddressable)
  else
    let groups := mc_groups (if_multicast i) in
    match lm_get groups addr with
    | Some state =>
        let '(state, delete) :=
          match state with GroupJoining => (GroupJoined, true) | GroupJoined => (GroupLeaving, false) | GroupLeaving => (GroupLeaving, false) end in
        let groups := lm_set groups addr state in
        let groups := if (delete : bool) then fst (lm_remove groups addr) else groups in
        (if_set_groups i groups, Ok tt)
    | None => (i, Ok tt)
    end.

(** *** The solicited-node groups of the interface's addresses *)

(** An old group: a solicited-node address that belongs to none of the addresses. *)
Definition stale_group i (a : Address) : bool :=
  match a with Ipv6 a => v6_is_solicited_node_multicast a && negb (has_solicited_node i a) | Ipv4 _ => false end.

Definition leave_groups i (removals : list Address) : InterfaceInner :=
  fold_left (fun i removal => fst (leave_multicast_group i removal)) removals i.

Fixpoint join_solicited_nodes i (cidrs : list Cidr) : res InterfaceInner :=
  match cidrs with
  | [] => Ret i
  | CidrV6 a _ :: cidrs =>
      group ← v6_solicited_node a;
      join_solicited_nodes (fst (join_multicast_group i (Ipv6 group))) cidrs
  | CidrV4 _ _ :: cidrs => join_solicited_nodes i cidrs
  end.

Definition update_solicited_node_groups i : res InterfaceInner :=
  let removals := List.filter (stale_group i) (map fst (lm_iter (mc_groups (if_multicast i)))) in
  let i := leave_groups i removals in
  join_solicited_nodes i (cx_ip_addrs (if_cx i)).

(** [f] is the closure of the caller. *)
Definition update_ip_addrs i (f : list Cidr -> list Cidr) : res InterfaceInner :=
  let i := if_set_cx i (cx_set_ip_addrs (if_cx i) (f (cx_ip_addrs (if_cx i)))) in
  let i := flush_neighbor_cache i in
  _ ← check_ip_addrs (cx_ip_addrs (if_cx i));
  if medium_eqb (cx_medium (if_cx i)) MediumEthernet then update_solicited_node_groups i else Ret i.

(** ** Reports *)

Definition igmp_report_packet i (version : IgmpVersion) (group_addr : list Z) : option Packet :=
  match ipv4_addr i with
  | None => None
  | Some iface_addr =>
      let igmp_repr := MembershipReport group_addr version in
      Some (packet_new_ipv4 (mkIpHeader iface_addr group_addr PROTOCOL_IGMP (igmp_buffer_len igmp_repr) 1) (PayloadIgmp igmp_repr))
  end.

Definition igmp_leave_packet i (group_addr : list Z) : option Packet :=
  option_map (fun iface_addr =>
    let igmp_repr := LeaveGroup group_addr in
    packet_new_ipv4 (mkIpHeader iface_addr IPV4_MULTICAST_ALL_ROUTERS PROTOCOL_IGMP (igmp_buffer_len igmp_repr) 1)
      (PayloadIgmp igmp_repr)) (ipv4_addr i).

Definition records_len (records : list AddressRecordRepr) : Z := foldr (fun r n => address_record_buffer_len r + n) 0 records.

Definition mldv2_report_packet i (records : list AddressRecordRepr) : res (option Packet) :=
  let src_addr := default (replicate 16 0) (link_local_ipv6_address i) in
  let dst_addr := IPV6_LINK_LOCAL_ALL_MLDV2_ROUTERS in
  let dummy_ext_hdr := mkIpv6ExtRepr 0 0 [] in
  hbh_repr ← hbh_mldv2_router_alert;
  hbh_repr ← hbh_push_padn_option hbh_repr 0;
  let mld_repr := MldReportRecords records in
  n ← usize_add (ext_header_len dummy_ext_hdr) (hbh_buffer_len hbh_repr);
  n ← usize_add n (mld_buffer_len mld_repr);
  n ← usize_add n (records_len records);
  Ret (Some (packet_new_ipv6 (mkIpHeader src_addr dst_addr PROTOCOL_HOPBYHOP n 1)
               (PayloadHopByHopIcmpv6 hbh_repr (Icmpv6Mld mld_repr)))).

(** ** Queries *)

Definition is_ipv4 (a : Address) : bool := match a with Ipv4 _ => true | Ipv6 _ => false end.

(** The groups of a family, in the order of the map. *)
Definition groups_of (f : Address -> bool) i : list Address := List.filter f (map fst (lm_iter (mc_groups (if_multicast i)))).

Context `{NetworkEndian}.

(** A query never leads to an answer at once: the packet that the source returns is [None]. *)
Definition process_igmp i (ipv4_repr : IpHeader) (ip_payload : list Z) : res InterfaceInner :=
  match igmp_new_checked ip_payload with
  | Err _ => Ret i
  | Ok igmp_packet =>
      r ← igmp_parse igmp_packet;
      match r with
      | Err _ => Ret i
      | Ok (MembershipQuery max_resp_time group_addr version) =>
          if v4_is_unspecified group_addr && bool_decide (iph_dst ipv4_repr = IPV4_MULTICAST_ALL_SYSTEMS) then
            let ipv4_multicast_group_count := Zlen (groups_of is_ipv4 i) in
            if negb (ipv4_multicast_group_count =? 0) then
              interval ← match version with
                         | IgmpVersion1 => duration_from_millis 100
                         | IgmpVersion2 =>
                             intervals ← u32_chk (wrap_u 32 ipv4_multicast_group_count + 1);
                             duration_div max_resp_time intervals
                         end;
              timeout ← instant_add (if_now i) interval;
              Ret (if_set_igmp i (IgmpToGeneralQuery version timeout interval 0))
            else Ret i
          else if has_multicast_group i (Ipv4 group_addr) && bool_decide (iph_dst ipv4_repr = group_addr) then
            timeout ← duration_div max_resp_time 4;
            timeout ← instant_add (if_now i) timeout;
            Ret (if_set_igmp i (IgmpToSpecificQuery version timeout group_addr))
          else Ret i
      | Ok (MembershipReport _ _ | LeaveGroup _) => Ret i
      end
  end.

(** As [process_igmp]; the random number is drawn when the delay may be positive. *)
Definition process_mldv2 i (ip_repr : IpHeader) (repr : MldRepr) : res InterfaceInner :=
  match repr with
  | MldQuery max_resp_code mcast_addr _ _ _ _ _ =>
      let '(i, delay) :=
        if 0 <? max_resp_code then
          let '(r, n) := rand_u16 (cx_rand (if_cx i)) in (if_set_cx i (cx_set_rand (if_cx i) r), n mod max_resp_code)
        else (i, 0) in
      delay ← duration_from_millis delay;
      i ← (if v6_is_unspecified mcast_addr &&
              (bool_decide (iph_dst ip_repr = IPV6_LINK_LOCAL_ALL_NODES) || has_ip_addr i (Ipv6 (iph_dst ip_repr))) then
             if negb (Zlen (groups_of (fun a => negb (is_ipv4 a)) i) =? 0) then
               timeout ← instant_add (if_now i) delay; Ret (if_set_mld i (MldToGeneralQuery timeout))
             else Ret i
           else Ret i);
      if has_multicast_group i (Ipv6 mcast_addr) && bool_decide (iph_dst ip_repr = mcast_addr) then
        timeout ← instant_add (if_now i) delay; Ret (if_set_mld i (MldToSpecificQuery mcast_addr timeout))
      else Ret i
  | MldReport _ _ | MldReportRecords _ => Ret i
  end.
End Multicast.
