(* ===== verification/IfaceEgress.v ===== *)
(** * Transmission (iface/interface/mod.rs, ethernet.rs, ipv4.rs, iface/fragmentation.rs)

    From a packet to the frames that the device sends: the destination's hardware address, the
    Ethernet header, and the fragments of an IPv4 packet that is longer than the MTU. *)

From stdpp Require Import gmap.
From S2P Require Import Prelude ByteOrder TimeModel IpTypes Checksum IfaceContext Ipv4Addr Ipv6Addr Heapless Route Neighbor Ipv4Wire IpWire Icmpv6Packet NdiscWire Icmpv6Wire Ipv6ExtWire EthernetArp UdpSocket IfacePacket Iface.

(** ** The device's side *)

(** A [TxToken], by the buffer that [consume] hands to its closure: what the buffer of a length
    holds is the device's choice. *)
Definition TxToken : Type := Z -> list Z.

(** The buffer has the length that was asked for. *)
Definition tx_ok (tx : TxToken) : Prop := forall n, 0 <= n -> bytes_ok (tx n) /\ Zlen (tx n) = n.

Definition meta_default : PacketMeta := 0.

(** ** The fragmenter (iface/fragmentation.rs) *)

Record Ipv4Fragmenter : Type := mkIpv4Fragmenter {
  f4_repr : IpHeader;
  f4_dst_hardware_addr : list Z;
  f4_frag_offset : Z;
  f4_ident : Z;
}.

Record SixlowpanFragmenter : Type := mkSixlowpanFragmenter {
  f6_datagram_size : Z;
  f6_datagram_tag : Z;
  f6_datagram_offset : Z;
  f6_fragn_size : Z;
  f6_ll_dst_addr : Ieee802154Address;
  f6_ll_src_addr : Ieee802154Address;
}.

Record Fragmenter : Type := mkFragmenter {
  fg_buffer : list Z;
  fg_packet_len : Z;
  fg_sent_bytes : Z;
  fg_ipv4 : Ipv4Fragmenter;
  fg_sixlowpan : SixlowpanFragmenter;
}.

Definition fragmenter_repr_empty : IpHeader := mkIpHeader [0; 0; 0; 0] [0; 0; 0; 0] 0 0 0.

(** [new], for a buffer of [FRAGMENTATION_BUFFER_SIZE] octets. *)
Definition fragmenter_new (fragmentation_buffer_size : nat) : Fragmenter :=
  mkFragmenter (replicate fragmentation_buffer_size 0) 0 0
    (mkIpv4Fragmenter fragmenter_repr_empty (replicate 6 0) 0 0)
    (mkSixlowpanFragmenter 0 0 0 0 Absent Absent).

Definition fragmenter_finished (f : Fragmenter) : bool := fg_packet_len f =? fg_sent_bytes f.
Definition fragmenter_is_empty (f : Fragmenter) : bool := fg_packet_len f =? 0.

(** The offset and the identifier, and the 6LoWPAN offset, keep their values. *)
Definition fragmenter_reset (f : Fragmenter) : Fragmenter :=
  let f4 := fg_ipv4 f in
  let f6 := fg_sixlowpan f in
  mkFragmenter (fg_buffer f) 0 0
    (mkIpv4Fragmenter fragmenter_repr_empty (replicate 6 0) (f4_frag_offset f4) (f4_ident f4))
    (mkSixlowpanFragmenter 0 0 (f6_datagram_offset f6) 0 Absent Absent).

Inductive DispatchError : Type := DispatchNoRoute | DispatchNeighborPending.

Section Egress.
Context `{NetworkEndian}.
Context `{LinearMap Address GroupState} `{LinearMap Address Neighbor} `{HeaplessVec Route} `{HeaplessVec Ipv6OptionRepr}.
Implicit Types (i : InterfaceInner) (f : Fragmenter) (tx_buffer : list Z).

(** What transmitting changes: the interface, the fragmenter, and the frames that the device was
    given, each with its metadata, in their order. *)
Record Egress : Type := mkEgress {
  eg_inner : InterfaceInner;
  eg_frag : Fragmenter;
  eg_sent : list (PacketMeta * list Z);
}.
Implicit Types e : Egress.

#[export] Instance egress_context : HasContext Egress := fun e => if_cx (eg_inner e).

Definition eg_set_inner e i : Egress := mkEgress i (eg_frag e) (eg_sent e).
Definition eg_set_frag e f : Egress := mkEgress (eg_inner e) f (eg_sent e).

(** [TxToken::consume]: the closure fills the buffer, and the device sends it. *)
Definition tx_consume e (tx_token : TxToken) (meta : PacketMeta) (len : Z) (fill : list Z -> res (list Z)) : res Egress :=
  frame ← fill (tx_token len);
  Ret (mkEgress (eg_inner e) (eg_frag e) (eg_sent e ++ [(meta, frame)])).

(** ** Ethernet *)

(** [dispatch_ethernet]: [fill] writes the rest of the header and the payload. *)
Definition dispatch_ethernet e (tx_token : TxToken) (buffer_len : Z) (fill : list Z -> res (list Z)) : res Egress :=
  tx_len ← eth_buffer_len buffer_len;
  tx_consume e tx_token meta_default tx_len (fun tx_buffer =>
    _ ← passert (Zlen tx_buffer =? tx_len);
    src_addr ← ethernet_or_panic (if_hardware_addr (eg_inner e));
    frame ← eth_set_src_addr tx_buffer src_addr;
    fill frame).

(** An ARP packet, with its destination. *)
Definition dispatch_arp e (tx_token : TxToken) (dst_hardware_addr : list Z) (arp_repr : ArpRepr) : res Egress :=
  dispatch_ethernet e tx_token (arp_buffer_len arp_repr) (fun frame =>
    frame ← eth_set_dst_addr frame dst_hardware_addr;
    frame ← eth_set_ethertype frame EtherArp;
    eth_payload_mut frame (arp_emit arp_repr)).

(** The closure [emit_ethernet] of [dispatch_ip] and of [dispatch_ipv4_frag]. *)
Definition emit_ethernet i (dst_hardware_addr : list Z) (v : Version) tx_buffer : res (list Z) :=
  src_addr ← ethernet_or_panic (if_hardware_addr i);
  frame ← eth_set_src_addr tx_buffer src_addr;
  frame ← eth_set_dst_addr frame dst_hardware_addr;
  eth_set_ethertype frame (match v with Ipv4Version => EtherIpv4 | Ipv6Version => EtherIpv6 end).

(** On Ethernet the IP packet follows the Ethernet header. *)
Definition emit_frame i (dst_hardware_addr : list Z) (v : Version) (emit : list Z -> res (list Z)) tx_buffer : res (list Z) :=
  match cx_medium (if_cx i) with
  | MediumEthernet =>
      tx_buffer ← emit_ethernet i dst_hardware_addr v tx_buffer;
      slice_mut tx_buffer ETHERNET_HEADER_LEN (Zlen tx_buffer) emit
  | _ => emit tx_buffer
  end.

(** The closure [emit_ip]. *)
Definition emit_ip i (packet : Packet) (repr : IpRepr) tx_buffer : res (list Z) :=
  tx_buffer ← ip_repr_emit repr tx_buffer (if_checksum i);
  slice_mut tx_buffer (ip_header_len repr) (Zlen tx_buffer) (fun payload => packet_emit_payload packet repr payload (if_caps i)).

(** ** IPv4 fragments *)

(** The header fields of a fragment. *)
Definition set_fragment i (ident frag_offset : Z) (more_frags : bool) buffer : res (list Z) :=
  buffer ← ip4_set_ident buffer ident;
  buffer ← ip4_set_more_frags buffer more_frags;
  buffer ← ip4_set_dont_frag buffer false;
  buffer ← ip4_set_frag_offset buffer frag_offset;
  if checksum_tx (caps_ipv4 (if_checksum i)) then ip4_fill_checksum buffer else Ret buffer.

(** The part of [dispatch_ip] that starts to fragment a packet: it is emitted as a whole into the
    buffer of the fragmenter, and the first fragment is sent. *)
Definition dispatch_first_fragment e (tx_token : TxToken) (packet : Packet) (repr : IpHeader) (dst_hardware_addr : list Z)
    (ipv4_id total_ip_len : Z) : res Egress :=
  let i := eg_inner e in
  let f := eg_frag e in
  let tx_len := dc_max_transmission_unit (if_caps i) in
  let ip_header_len := ipv4_buffer_len repr in
  first_frag_ip_len ← if_ip_mtu i;
  if Zlen (fg_buffer f) <? total_ip_len then Ret e
  else
    payload_len ← usize_sub first_frag_ip_len (ipv4_buffer_len repr);
    let repr' := set_iph_payload_len repr payload_len in
    buffer ← emit_ip i packet (Ipv4Repr repr') (fg_buffer f);
    buffer ← set_fragment i ipv4_id 0 true buffer;
    frag_offset ← usize_sub first_frag_ip_len ip_header_len;
    let f := mkFragmenter buffer total_ip_len first_frag_ip_len
      (mkIpv4Fragmenter repr dst_hardware_addr (wrap_u 16 frag_offset) ipv4_id) (fg_sixlowpan f) in
    tx_consume (eg_set_frag e f) tx_token meta_default tx_len
      (emit_frame i dst_hardware_addr Ipv4Version (fun tx_buffer =>
        first ← slice buffer 0 first_frag_ip_len;
        slice_mut tx_buffer 0 first_frag_ip_len (fun d => copy_from_slice d first))).

(** [dispatch_ipv4_frag]: the next fragment of the packet in the buffer. *)
Definition dispatch_ipv4_frag e (tx_token : TxToken) : res Egress :=
  let i := eg_inner e in
  let f := eg_frag e in
  let f4 := fg_ipv4 f in
  mtu_max ← if_ip_mtu i;
  rest ← usize_sub (fg_packet_len f) (fg_sent_bytes f);
  ip_len ← usize_add rest (ipv4_buffer_len (f4_repr f4));
  let ip_len := Z.min ip_len mtu_max in
  payload_len ← usize_sub ip_len (ipv4_buffer_len (f4_repr f4));
  let more_frags := negb (rest =? payload_len) in
  let repr := set_iph_payload_len (f4_repr f4) payload_len in
  sent_bytes ← usize_add (fg_sent_bytes f) payload_len;
  tx_len ← match cx_medium (if_cx i) with MediumEthernet => usize_add ip_len ETHERNET_HEADER_LEN | _ => Ret ip_len end;
  frag_offset ← checked 0 u16_max (f4_frag_offset f4 + wrap_u 16 payload_len);
  let f' := mkFragmenter (fg_buffer f) (fg_packet_len f) sent_bytes
    (mkIpv4Fragmenter repr (f4_dst_hardware_addr f4) frag_offset (f4_ident f4)) (fg_sixlowpan f) in
  tx_consume (eg_set_frag e f') tx_token meta_default tx_len
    (emit_frame i (f4_dst_hardware_addr f4) Ipv4Version (fun tx_buffer =>
      tx_buffer ← slice_mut tx_buffer 0 (ipv4_buffer_len repr) (fun packet =>
        packet ← ipv4_emit repr packet (if_checksum i);
        set_fragment i (f4_ident f4) (f4_frag_offset f4) more_frags packet);
      start ← usize_add (f4_frag_offset f4) (ipv4_buffer_len repr);
      stop ← usize_add start payload_len;
      payload ← slice (fg_buffer f) start stop;
      tx_stop ← usize_add (ipv4_buffer_len repr) payload_len;
      slice_mut tx_buffer (ipv4_buffer_len repr) tx_stop (fun d => copy_from_slice d payload))).

(** [ipv4_egress], with what [transmit] of the device returns. *)
Definition ipv4_egress e (transmit : option TxToken) : res Egress :=
  let f := if fragmenter_finished (eg_frag e) then fragmenter_reset (eg_frag e) else eg_frag e in
  let e := eg_set_frag e f in
  if fragmenter_is_empty f then Ret e
  else if fg_sent_bytes f <? fg_packet_len f then
    match transmit with Some tx_token => dispatch_ipv4_frag e tx_token | None => Ret e end
  else Ret e.

(** ** The destination's hardware address *)

(** The address that an IP address of a group stands for on the medium. *)
Definition multicast_hardware_addr (m : Medium) (dst_addr : Address) : res HardwareAddress :=
  match dst_addr, m with
  | Ipv4 b, MediumEthernet => Ret (HardwareEthernet [0x01; 0x00; 0x5e; Z.land (octet b 1) 0x7F; octet b 2; octet b 3])
  | Ipv6 b, MediumEthernet => Ret (HardwareEthernet [0x33; 0x33; octet b 12; octet b 13; octet b 14; octet b 15])
  | Ipv6 _, MediumIeee802154 => Ret (HardwareIeee802154 ieee802154_broadcast)
  | _, _ => Panic
  end.

Definition broadcast_hardware_addr (m : Medium) : res HardwareAddress :=
  match m with
  | MediumEthernet => Ret (HardwareEthernet ethernet_broadcast)
  | MediumIeee802154 => Ret (HardwareIeee802154 ieee802154_broadcast)
  | MediumIp => Panic
  end.

(** The request was sent: no other is sent for a while. *)
Definition discovery_sent e : res (Egress * result HardwareAddress DispatchError) :=
  c ← cache_limit_rate (if_neighbor_cache (eg_inner e)) (if_now (eg_inner e));
  Ret (eg_set_inner e (if_set_neighbor_cache (eg_inner e) c), Err DispatchNeighborPending).

(** The packet that asks for the hardware address of an IPv6 neighbor. *)
Definition neighbor_solicitation i (dst_addr : list Z) : res Packet :=
  raw ← raw_from_hardware (if_hardware_addr i);
  let solicit := Icmpv6Ndisc (NeighborSolicit dst_addr (Some raw)) in
  src_addr ← get_source_address_ipv6 (if_cx i) dst_addr;
  group ← v6_solicited_node dst_addr;
  n ← icmpv6_buffer_len solicit;
  Ret (packet_new_ipv6 (mkIpHeader src_addr group PROTOCOL_ICMPV6 n 0xff) (PayloadIcmpv6 solicit)).

Section Lookup.
(** [dispatch_ip], that sends the neighbor solicitations *)
Variable dispatch_ip_rec : Egress -> TxToken -> PacketMeta -> Packet -> res (Egress * result unit DispatchError).

(** The part of [lookup_hardware_addr] for a neighbor that is not in the cache. *)
Definition ask_neighbor e (tx_token : TxToken) (dst_addr : Address) : res (Egress * result HardwareAddress DispatchError) :=
  let i := eg_inner e in
  match dst_addr, cx_medium (if_cx i) with
  | Ipv4 dst_addr, MediumEthernet =>
      src_hardware_addr ← ethernet_or_panic (if_hardware_addr i);
      match get_source_address_ipv4 (if_cx i) dst_addr with
      | None => Ret (e, Err DispatchNoRoute)
      | Some source_protocol_addr =>
          e ← dispatch_arp e tx_token ethernet_broadcast
            (mkArpEthernetIpv4 ArpRequest src_hardware_addr source_protocol_addr ethernet_broadcast dst_addr);
          discovery_sent e
      end
  | Ipv4 _, _ => discovery_sent e
  | Ipv6 dst_addr, _ =>
      packet ← neighbor_solicitation i dst_addr;
      '(e, r) ← dispatch_ip_rec e tx_token meta_default packet;
      match r with
      | Err _ => Ret (e, Err DispatchNeighborPending)
      | Ok _ => discovery_sent e
      end
  end.

(** [lookup_hardware_addr]; with an address the token was not used. *)
Definition lookup_hardware_addr e (tx_token : TxToken) (dst_addr : Address) : res (Egress * result HardwareAddress DispatchError) :=
  let i := eg_inner e in
  broadcast ← cx_is_broadcast (if_cx i) dst_addr;
  if (broadcast : bool) then a ← broadcast_hardware_addr (cx_medium (if_cx i)); Ret (e, Ok a)
  else if address_is_multicast dst_addr then a ← multicast_hardware_addr (cx_medium (if_cx i)) dst_addr; Ret (e, Ok a)
  else
    r ← iface_route (if_cx i) (if_routes i) dst_addr (if_now i);
    match r with
    | None => Ret (e, Err DispatchNoRoute)
    | Some dst_addr =>
        answer ← cache_lookup (if_neighbor_cache i) dst_addr (if_now i);
        match answer with
        | Found hardware_addr => Ret (e, Ok hardware_addr)
        | RateLimited => Ret (e, Err DispatchNeighborPending)
        | NotFound => ask_neighbor e tx_token dst_addr
        end
    end.
End Lookup.

(** ** IP packets *)

(** The end of [dispatch_ip], on Ethernet and on IP media, with the hardware address. *)
Definition dispatch_packet e (tx_token : TxToken) (meta : PacketMeta) (packet : Packet) (dst_hardware_addr : list Z)
    (ipv4_id total_len : Z) : res Egress :=
  let i := eg_inner e in
  let ip_repr := packet_ip_repr packet in
  total_ip_len ← ip_buffer_len ip_repr;
  ip_mtu ← if_ip_mtu i;
  match ip_repr with
  | Ipv4Repr repr =>
      if ip_mtu <? total_ip_len then dispatch_first_fragment e tx_token packet repr dst_hardware_addr ipv4_id total_ip_len
      else tx_consume e tx_token meta total_len (emit_frame i dst_hardware_addr Ipv4Version (emit_ip i packet ip_repr))
  | Ipv6Repr _ =>
      if ip_mtu <? total_ip_len then Ret e
      else tx_consume e tx_token meta_default total_len (emit_frame i dst_hardware_addr Ipv6Version (emit_ip i packet ip_repr))
  end.

Section Dispatch.
(** [dispatch_ieee802154] *)
Variable dispatch_ieee802154 : Egress -> Ieee802154Address -> TxToken -> PacketMeta -> Packet -> res Egress.

(** [dispatch_ip] calls [lookup_hardware_addr], which calls [dispatch_ip] for a solicitation; its
    destination is a group, so that it looks nothing up. *)
Fixpoint dispatch_ip_fuel (fuel : nat) e (tx_token : TxToken) (meta : PacketMeta) (packet : Packet) : res (Egress * result unit DispatchError) :=
  match fuel with
  | O => Panic
  | S fuel =>
      let lookup := lookup_hardware_addr (dispatch_ip_fuel fuel) in
      let ip_repr := packet_ip_repr packet in
      _ ← passert (negb (address_is_unspecified (ip_dst_addr ip_repr)));
      match cx_medium (if_cx (eg_inner e)) with
      | MediumIeee802154 =>
          '(e, r) ← lookup e tx_token (ip_dst_addr ip_repr);
          match r with
          | Err err => Ret (e, Err err)
          | Ok (HardwareIeee802154 addr) => e ← dispatch_ieee802154 e addr tx_token meta packet; Ret (e, Ok tt)
          | Ok _ => Panic
          end
      | MediumEthernet =>
          let '(i, ipv4_id) := next_ipv4_frag_ident (eg_inner e) in
          total_len ← ip_buffer_len ip_repr;
          total_len ← eth_buffer_len total_len;
          '(e, r) ← lookup (eg_set_inner e i) tx_token (ip_dst_addr ip_repr);
          match r with
          | Err err => Ret (e, Err err)
          | Ok (HardwareEthernet addr) => e ← dispatch_packet e tx_token meta packet addr ipv4_id total_len; Ret (e, Ok tt)
          | Ok _ => Panic
          end
      | MediumIp =>
          let '(i, ipv4_id) := next_ipv4_frag_ident (eg_inner e) in
          total_len ← ip_buffer_len ip_repr;
          e ← dispatch_packet (eg_set_inner e i) tx_token meta packet (replicate 6 0) ipv4_id total_len;
          Ret (e, Ok tt)
      end
  end.

Definition dispatch_ip : Egress -> TxToken -> PacketMeta -> Packet -> res (Egress * result unit DispatchError) := dispatch_ip_fuel 2.

(** [dispatch]. *)
Definition dispatch_ethernet_packet e (tx_token : TxToken) (packet : EthernetPacket) : res (Egress * result unit DispatchError) :=
  match packet with
  | EthernetArp arp_repr => e ← dispatch_arp e tx_token (arp_target_hardware_addr arp_repr) arp_repr; Ret (e, Ok tt)
  | EthernetIp packet => dispatch_ip e tx_token meta_default packet
  end.
End Dispatch.
End Egress.
