(* ===== verification/TcpProcess.v ===== *)
(** * The TCP socket: segment processing (socket/tcp.rs, [accepts] to [process])

    [process] is the composition of stages, each a range of the source function.  A stage
    either returns from [process] ([Done]) or hands its values to the next one ([Go]). *)

From S2P Require Import Prelude SeqNumber RingBuffer Assembler TimeModel TcpTimers Congestion IpTypes TcpRepr IfaceContext TcpSocket.

Abbreviation Reply := (IpRepr * TcpRepr)%type (only parsing).

(** ** Replies *)

(** The acknowledgement of the socket, [ack_number.map(|s| s.0 as usize).unwrap_or(0)]. *)
Definition as_usize (x : Z) : Z := wrap_u 64 x.

(** [Iterator::find] over the blocks of an assembler, mapped to [u32]. *)
Fixpoint iter_find (n : nat) (it : AssemblerIter) (p : Z * Z -> bool) : res (option (Z * Z)) :=
  match n with
  | O => Ret None
  | S n =>
      '(it, r) ← asm_iter_next (S (length (it_assembler it))) it;
      match r with
      | None => Ret None
      | Some (l, r) =>
          let b := (wrap_u 32 l, wrap_u 32 r) in
          if p b then Ret (Some b) else iter_find n it p
      end
  end.

Definition sack_find (a : Assembler) (ack_number : option SeqNumber) (p : Z * Z -> bool)
  : res (option (Z * Z)) :=
  iter_find (S (length a))
    (asm_iter_data a (match ack_number with Some n => as_usize n | None => 0 end)) p.

(** [Socket::reply]: the answer to a segment, before its fields are filled in. *)
Definition reply (ip_repr : IpRepr) (repr : TcpRepr) : res Reply :=
  let reply_repr := {|
    src_port := dst_port repr;
    dst_port := src_port repr;
    control := CtlNone;
    seq_number := 0;
    ack_number := None;
    window_len := 0;
    window_scale := None;
    max_seg_size := None;
    sack_permitted := false;
    sack_ranges := (None, None, None);
    repr_timestamp := None;
    payload := [];
  |} in
  ip_reply_repr ← ip_repr_new (ip_dst_addr ip_repr) (ip_src_addr ip_repr) PROTOCOL_TCP
    (tcp_buffer_len reply_repr) 64;
  Ret (ip_reply_repr, reply_repr).

Definition tcp_set_ack (r : TcpRepr) (c : Control) (seq : SeqNumber) (ack : option SeqNumber) : TcpRepr :=
  mkTcpRepr (src_port r) (dst_port r) c seq ack (window_len r) (window_scale r) (max_seg_size r)
    (sack_permitted r) (sack_ranges r) (repr_timestamp r) (payload r).

Definition rst_reply (ip_repr : IpRepr) (repr : TcpRepr) : res Reply :=
  _ ← passert (negb (control_eqb (control repr) CtlRst));
  '(ip_reply_repr, reply_repr) ← reply ip_repr repr;
  let seq := match ack_number repr with Some n => n | None => 0 end in
  ack ← (if control_eqb (control repr) CtlSyn && (if ack_number repr is None then true else false) then
           n ← seq_add (seq_number repr) (tcp_segment_len repr); Ret (Some n)
         else Ret (ack_number reply_repr));
  Ret (ip_reply_repr, tcp_set_ack reply_repr CtlRst seq ack).

(** The first SACK block of an acknowledgement. *)
Definition ack_reply_sack (s : Socket) (ack_number : option SeqNumber) : res (option (Z * Z)) :=
  r ← match sk_local_rx_last_seq s with
      | Some last =>
          let last_seg_seq := wrap_u 32 last in
          sack_find (sk_assembler s) ack_number (fun '(l, r) =>
            (l <=? last_seg_seq) && (last_seg_seq <=? r))
      | None => Ret None
      end;
  match r with
  | Some b => Ret (Some b)
  | None => sack_find (sk_assembler s) ack_number (fun _ => true)
  end.

Definition ack_reply (cx : Context) (s : Socket) (ip_repr : IpRepr) (repr : TcpRepr)
  : res (Socket * Reply) :=
  '(ip_reply_repr, reply_repr) ← reply ip_repr repr;
  let ts := match repr_timestamp repr with
            | Some tcp_ts => generate_reply (cx_call cx) tcp_ts (sk_tsval_generator s)
            | None => None
            end in
  n ← seq_add (sk_remote_seq_no s) (rb_len (sk_rx_buffer s));
  let s := upd_remote_last_ack (Some n) s in
  w ← scaled_window s;
  let s := upd_remote_last_win w s in
  sack0 ← (if sk_remote_has_sack s then ack_reply_sack s (Some n) else Ret None);
  let reply_repr := mkTcpRepr (src_port reply_repr) (dst_port reply_repr) (control reply_repr)
    (sk_remote_last_seq s) (Some n) w (window_scale reply_repr) (max_seg_size reply_repr)
    (sack_permitted reply_repr) (sack0, None, None) ts (payload reply_repr) in
  Ret (s, (ip_set_payload_len ip_reply_repr (tcp_buffer_len reply_repr), reply_repr)).

Definition challenge_ack_reply (cx : Context) (s : Socket) (ip_repr : IpRepr) (repr : TcpRepr)
  : res (Socket * option Reply) :=
  if cx_now cx <? sk_challenge_ack_timer s then Ret (s, None)
  else
    d ← duration_from_secs 1;
    t ← instant_add (cx_now cx) d;
    let s := upd_challenge_ack_timer t s in
    '(s, r) ← ack_reply cx s ip_repr repr;
    Ret (s, Some r).

(** ** Which segments are for a socket *)

Definition accepts (s : Socket) (ip_repr : IpRepr) (repr : TcpRepr) : bool :=
  if state_eqb (sk_state s) Closed then false
  else if state_eqb (sk_state s) Listen &&
          ((if ack_number repr is Some _ then true else false) || control_eqb (control repr) CtlRst)
  then false
  else
    match sk_tuple s with
    | Some tuple =>
        address_eqb (ip_dst_addr ip_repr) (ep_addr (tuple_local tuple)) &&
        (dst_port repr =? ep_port (tuple_local tuple)) &&
        address_eqb (ip_src_addr ip_repr) (ep_addr (tuple_remote tuple)) &&
        (src_port repr =? ep_port (tuple_remote tuple))
    | None =>
        let addr_ok := match lep_addr (sk_listen_endpoint s) with
                       | Some addr => address_eqb (ip_dst_addr ip_repr) addr
                       | None => true
                       end in
        addr_ok && negb (dst_port repr =? 0) && (dst_port repr =? lep_port (sk_listen_endpoint s))
    end.

(** ** Stages of [process] *)

Inductive flow (A : Type) : Type :=
| Done (cx : Context) (s : Socket) (r : option Reply)
| Go (a : A).
Arguments Done {A} _ _ _.
Arguments Go {A} _.

Definition flow_bind {A} (m : res (flow A)) (k : A -> res (Context * Socket * option Reply))
  : res (Context * Socket * option Reply) :=
  f ← m; match f with Done cx s r => Ret (cx, s, r) | Go a => k a end.

(** [(sent_syn, sent_fin)]. *)
Definition sent_flags (st : State) : bool * bool :=
  match st with
  | SynSent | SynReceived => (true, false)
  | FinWait1 | LastAck | Closing => (false, true)
  | _ => (false, false)
  end.

Definition b2z (b : bool) : Z := if b then 1 else 0.

(** Return an RST, or nothing. *)
Definition done_rst (cx : Context) (s : Socket) (ip_repr : IpRepr) (repr : TcpRepr) : res (flow unit) :=
  r ← rst_reply ip_repr repr; Ret (Done cx s (Some r)).

Definition done_challenge {A} (cx : Context) (s : Socket) (ip_repr : IpRepr) (repr : TcpRepr) : res (flow A) :=
  '(s, r) ← challenge_ack_reply cx s ip_repr repr; Ret (Done cx s r).

(** Every acknowledgement must be for transmitted but unacknowledged data. *)
Definition check_ack_range (cx : Context) (s : Socket) (ip_repr : IpRepr) (repr : TcpRepr)
  (ack_number : SeqNumber) : res (flow unit) :=
  let '(sent_syn, sent_fin) := sent_flags (sk_state s) in
  let control_len := b2z sent_syn + b2z sent_fin in
  unacknowledged ← usize_add (rb_len (sk_tx_buffer s)) control_len;
  ack_max ← seq_add (sk_local_seq_no s) unacknowledged;
  ack_min ← (if sent_syn then seq_add (sk_local_seq_no s) 1 else Ret (sk_local_seq_no s));
  if seq_lt ack_number ack_min then Ret (Done cx s None)
  else if seq_gt ack_number ack_max then done_challenge cx s ip_repr repr
  else Ret (Go tt).

(** Reject unacceptable acknowledgements. *)
Definition process_check_ack (cx : Context) (s : Socket) (ip_repr : IpRepr) (repr : TcpRepr)
  : res (flow unit) :=
  match sk_state s, control repr, ack_number repr with
  | SynSent, CtlRst, None => Ret (Done cx s None)
  | SynSent, CtlRst, Some ack_number =>
      expected ← seq_add (sk_local_seq_no s) 1;
      if negb (ack_number =? expected) then Ret (Done cx s None) else Ret (Go tt)
  | _, CtlRst, _ => Ret (Go tt)
  | Listen, _, None => Ret (Go tt)
  | Listen, _, Some _ => Panic
  | SynSent, CtlSyn, Some ack_number =>
      expected ← seq_add (sk_local_seq_no s) 1;
      if negb (ack_number =? expected) then done_rst cx s ip_repr repr else Ret (Go tt)
  | SynSent, CtlSyn, None => Ret (Go tt)
  | SynSent, CtlNone, Some ack_number =>
      expected ← seq_add (sk_local_seq_no s) 1;
      if ack_number =? expected then Ret (Done cx s None)
      else done_rst cx s ip_repr repr
  | SynSent, _, _ => Ret (Done cx s None)
  | _, _, None => Ret (Done cx s None)
  | SynReceived, _, Some ack_number =>
      expected ← seq_add (sk_local_seq_no s) 1;
      if negb (ack_number =? expected) then done_rst cx s ip_repr repr else Ret (Go tt)
  | _, _, Some ack_number => check_ack_range cx s ip_repr repr ack_number
  end.

(** [window_start], [window_end]. *)
Definition receive_window (s : Socket) : res (SeqNumber * SeqNumber) :=
  window_start ← seq_add (sk_remote_seq_no s) (rb_len (sk_rx_buffer s));
  window_end ← seq_add (sk_remote_seq_no s) (rb_capacity (sk_rx_buffer s));
  Ret (window_start, window_end).

(** The segment acceptability test. *)
Definition segment_in_window (window_start window_end segment_start segment_end : SeqNumber) : res bool :=
  match segment_start =? segment_end, window_start =? window_end with
  | true, zero_window =>
      before ← seq_sub_usize window_start 1;
      if segment_end =? before then Ret false
      else if zero_window then Ret (window_start =? segment_start)
      else Ret (seq_le window_start segment_start && seq_lt segment_start window_end)
  | false, true => Ret false
  | false, false =>
      Ret ((seq_le window_start segment_start && seq_lt segment_start window_end) ||
           (seq_lt window_start segment_end && seq_le segment_end window_end))
  end.

(** The part of the payload inside the window, and its offset. *)
Definition process_window (cx : Context) (s : Socket) (ip_repr : IpRepr) (repr : TcpRepr)
  : res (flow (Socket * list Z * Z)) :=
  '(window_start, window_end) ← receive_window s;
  let segment_start := seq_number repr in
  segment_end ← seq_add (seq_number repr) (Zlen (payload repr));
  match sk_state s with
  | Listen | SynSent => Ret (Go (s, [], 0))
  | _ =>
      in_window ← segment_in_window window_start window_end segment_start segment_end;
      if (in_window : bool) then
        let overlap_start := seq_max window_start segment_start in
        let overlap_end := seq_min window_end segment_end in
        _ ← passert (seq_le overlap_start overlap_end);
        let s := upd_local_rx_last_seq (Some (seq_number repr)) s in
        a ← seq_sub overlap_start segment_start;
        b ← seq_sub overlap_end segment_start;
        data ← slice (payload repr) a b;
        offset ← seq_sub overlap_start window_start;
        Ret (Go (s, data, offset))
      else
        s ← (if state_eqb (sk_state s) TimeWait
             then t ← timer_set_for_close (cx_now cx); Ret (upd_timer t s) else Ret s);
        done_challenge cx s ip_repr repr
  end.

(** The amount of acknowledged octets, SYN and FIN removed: [(ack_len, ack_of_fin, ack_all)]. *)
Definition acknowledged (s : Socket) (ack_number : SeqNumber) : res (Z * bool * bool) :=
  let '(sent_syn, sent_fin) := sent_flags (sk_state s) in
  tx_buffer_start_seq ← seq_add (sk_local_seq_no s) (b2z sent_syn);
  if seq_ge ack_number tx_buffer_start_seq then
    ack_len ← seq_sub ack_number tx_buffer_start_seq;
    l ← usize_add (rb_len (sk_tx_buffer s)) 1;
    let ack_of_fin := sent_fin && (l =? ack_len) in
    ack_len ← (if ack_of_fin then usize_sub ack_len 1 else Ret ack_len);
    Ret (ack_len, ack_of_fin, seq_le (sk_remote_last_seq s) ack_number)
  else Ret (0, false, false).

Definition process_ack_len (cx : Context) (s : Socket) (repr : TcpRepr)
  : res (Socket * Z * bool * bool) :=
  match control repr, ack_number repr with
  | CtlRst, _ | _, None => Ret (s, 0, false, false)
  | _, Some ack_number =>
      '(ack_len, ack_of_fin, ack_all) ← acknowledged s ack_number;
      rtte ← rtte_on_ack (sk_rtte s) (cx_now cx) ack_number;
      let s := upd_rtte rtte s in
      let s := upd_congestion_controller
                 (ctl_on_ack (sk_congestion_controller s) (cx_now cx) ack_len (sk_rtte s)) s in
      Ret (s, ack_len, ack_of_fin, ack_all)
  end.

(** Disregard PSH, and a FIN that does not directly follow the data received. *)
Definition effective_control (window_start : SeqNumber) (repr : TcpRepr) : Control :=
  let control := quash_psh (control repr) in
  if control_eqb control CtlFin && seq_lt window_start (seq_number repr) then CtlNone else control.

(** [max_seg_size] of a SYN: [None] when it is zero and the segment is ignored. *)
Definition apply_mss (s : Socket) (repr : TcpRepr) : option Socket :=
  match max_seg_size repr with
  | Some max_seg_size =>
      if max_seg_size =? 0 then None
      else
        let s := upd_congestion_controller (ctl_set_mss (sk_congestion_controller s) max_seg_size) s in
        Some (upd_remote_mss max_seg_size s)
  | None => Some s
  end.

(** The options of a SYN other than the MSS. *)
Definition apply_syn_options (s : Socket) (repr : TcpRepr) : Socket :=
  let s := upd_remote_has_sack (sack_permitted repr) s in
  let s := upd_remote_win_scale (window_scale repr) s in
  let s := if window_scale repr is None then upd_remote_win_shift 0 s else s in
  if repr_timestamp repr is None then upd_tsval_generator None s else s.

Definition syn_in_listen (cx : Context) (s : Socket) (ip_repr : IpRepr) (repr : TcpRepr)
  : res (flow (Context * Socket)) :=
  match apply_mss s repr with
  | None => Ret (Done cx s None)
  | Some s =>
      let s := upd_tuple (Some (mkTuple (mkEndpoint (ip_dst_addr ip_repr) (dst_port repr))
                                        (mkEndpoint (ip_src_addr ip_repr) (src_port repr)))) s in
      let '(cx, seq) := random_seq_no cx in
      let s := upd_local_seq_no seq s in
      n ← seq_add (seq_number repr) 1;
      let s := upd_remote_seq_no n s in
      let s := upd_remote_last_seq (sk_local_seq_no s) s in
      let s := apply_syn_options s repr in
      let s := set_state SynReceived s in
      t ← timer_set_for_idle (cx_now cx) (sk_keep_alive s);
      Ret (Go (cx, upd_timer t s))
  end.

Definition syn_in_syn_sent (cx : Context) (s : Socket) (repr : TcpRepr) : res (flow (Context * Socket)) :=
  match apply_mss s repr with
  | None => Ret (Done cx s None)
  | Some s =>
      n ← seq_add (seq_number repr) 1;
      let s := upd_remote_seq_no n s in
      n ← seq_add (sk_local_seq_no s) 1;
      let s := upd_remote_last_seq n s in
      let s := upd_remote_last_ack (Some (seq_number repr)) s in
      let s := apply_syn_options s repr in
      Ret (Go (cx, if ack_number repr is Some _ then set_state Established s else set_state SynReceived s))
  end.

(** The FIN of the remote end. *)
Definition receive_fin (s : Socket) : res Socket :=
  n ← seq_add (sk_remote_seq_no s) 1;
  Ret (upd_rx_fin_received true (upd_remote_seq_no n s)).

Definition enter_time_wait (cx : Context) (s : Socket) : res Socket :=
  let s := set_state TimeWait s in
  t ← timer_set_for_close (cx_now cx);
  Ret (upd_timer t s).

(** Validate and update the state. *)
Definition process_transition (cx : Context) (s : Socket) (ip_repr : IpRepr) (repr : TcpRepr)
  (control : Control) (ack_of_fin : bool) : res (flow (Context * Socket)) :=
  match sk_state s, control with
  | Listen, CtlRst => Ret (Done cx s None)
  | _, CtlRst =>
      if state_eqb (sk_state s) SynReceived && negb (lep_port (sk_listen_endpoint s) =? 0) then
        Ret (Done cx (set_state Listen (upd_tuple None s)) None)
      else Ret (Done cx (upd_tuple None (set_state Closed s)) None)
  | Listen, CtlSyn => syn_in_listen cx s ip_repr repr
  | SynReceived, CtlNone => Ret (Go (cx, set_state Established s))
  | SynReceived, CtlFin => s ← receive_fin s; Ret (Go (cx, set_state CloseWait s))
  | SynSent, CtlSyn => syn_in_syn_sent cx s repr
  | Established, CtlNone => Ret (Go (cx, s))
  | Established, CtlFin => s ← receive_fin s; Ret (Go (cx, set_state CloseWait s))
  | FinWait1, CtlNone => Ret (Go (cx, if ack_of_fin then set_state FinWait2 s else s))
  | FinWait1, CtlFin =>
      s ← receive_fin s;
      s ← (if ack_of_fin then enter_time_wait cx s else Ret (set_state Closing s));
      Ret (Go (cx, s))
  | FinWait2, CtlNone => Ret (Go (cx, s))
  | FinWait2, CtlFin => s ← receive_fin s; s ← enter_time_wait cx s; Ret (Go (cx, s))
  | Closing, CtlNone => s ← (if ack_of_fin then enter_time_wait cx s else Ret s); Ret (Go (cx, s))
  | CloseWait, CtlNone => Ret (Go (cx, s))
  | LastAck, CtlNone =>
      Ret (Go (cx, if ack_of_fin then upd_tuple None (set_state Closed s) else s))
  | _, _ => Ret (Done cx s None)
  end.

(** Remote state, and the acknowledged octets leave the transmit buffer: returns
    [is_window_update] too. *)
Definition process_remote (cx : Context) (s : Socket) (repr : TcpRepr) (ack_len : Z)
  : res (Socket * bool) :=
  let s := upd_remote_last_ts (Some (cx_now cx)) s in
  let scale := match control repr with
               | CtlSyn => 0
               | _ => match sk_remote_win_scale s with Some x => x | None => 0 end
               end in
  new_remote_win_len ← usize_shl (window_len repr) scale;
  let is_window_update := negb (new_remote_win_len =? sk_remote_win_len s) in
  let s := upd_remote_win_len new_remote_win_len s in
  let s := upd_congestion_controller
             (ctl_set_remote_window (sk_congestion_controller s) new_remote_win_len) s in
  s ← (if 0 <? ack_len then
         _ ← passert (ack_len <=? rb_len (sk_tx_buffer s));
         tx ← rb_dequeue_allocated (sk_tx_buffer s) ack_len;
         let s := upd_tx_buffer tx s in
         Ret (upd_tx_waker (waker_wake (sk_tx_waker s)) s)
       else Ret s);
  Ret (s, is_window_update).

(** Duplicate acknowledgements, then the local sequence number advances. *)
Definition process_dup_ack (cx : Context) (s : Socket) (repr : TcpRepr) (is_window_update : bool) : Socket :=
  match ack_number repr with
  | None => s
  | Some ack_number =>
      let duplicate := match sk_local_rx_last_ack s with
        | Some last_rx_ack =>
            (if payload repr is [] then true else false) && (last_rx_ack =? ack_number) &&
            seq_lt ack_number (sk_remote_last_seq s) && negb is_window_update
        | None => false
        end in
      let s :=
        if duplicate then
          let s := upd_local_rx_dup_acks (Z.min (sk_local_rx_dup_acks s + 1) u8_max) s in
          let s := upd_congestion_controller
                     (ctl_on_duplicate_ack (sk_congestion_controller s) (cx_now cx)) s in
          if sk_local_rx_dup_acks s =? 3 then upd_timer timer_set_for_fast_retransmit s else s
        else
          let s := if 0 <? sk_local_rx_dup_acks s then upd_local_rx_dup_acks 0 s else s in
          upd_local_rx_last_ack (Some ack_number) s in
      let s := upd_local_seq_no ack_number s in
      if seq_lt (sk_remote_last_seq s) (sk_local_seq_no s)
      then upd_remote_last_seq (sk_local_seq_no s) s else s
  end.

(** Timestamp and timers. *)
Definition process_timers (cx : Context) (s : Socket) (repr : TcpRepr) (ack_len : Z) (ack_all : bool)
  : res Socket :=
  let s := match repr_timestamp repr with
           | Some timestamp => upd_last_remote_tsval (tsval timestamp) s
           | None => s
           end in
  s ← match sk_timer s with
      | TimerRetransmit _ | TimerFastRetransmit =>
          if ack_all then
            t ← timer_set_for_idle (cx_now cx) (sk_keep_alive s); Ret (upd_timer t s)
          else if 0 <? ack_len then
            rto ← rtte_retransmission_timeout (sk_rtte s);
            t ← timer_set_for_retransmit (sk_timer s) (cx_now cx) rto; Ret (upd_timer t s)
          else Ret s
      | TimerIdle _ => t ← timer_set_for_idle (cx_now cx) (sk_keep_alive s); Ret (upd_timer t s)
      | _ => Ret s
      end;
  s ← (if (sk_remote_win_len s =? 0) && negb (rb_is_empty (sk_tx_buffer s)) &&
          (timer_is_idle (sk_timer s) || (0 <? ack_len)) then
         delay ← rtte_retransmission_timeout (sk_rtte s);
         t ← timer_set_for_zero_window_probe (cx_now cx) delay; Ret (upd_timer t s)
       else Ret s);
  if negb (sk_remote_win_len s =? 0) && timer_is_zero_window_probe (sk_timer s) then
    t ← timer_set_for_idle (cx_now cx) (sk_keep_alive s); Ret (upd_timer t s)
  else Ret s.

Definition ack_to_transmit (s : Socket) : res bool :=
  match sk_remote_last_ack s with
  | Some remote_last_ack =>
      n ← seq_add (sk_remote_seq_no s) (rb_len (sk_rx_buffer s));
      Ret (seq_lt remote_last_ack n)
  | None => Ret false
  end.

Definition immediate_ack_to_transmit (s : Socket) : res bool :=
  match sk_remote_last_ack s with
  | Some remote_last_ack =>
      a ← seq_add remote_last_ack (sk_remote_mss s);
      n ← seq_add (sk_remote_seq_no s) (rb_len (sk_rx_buffer s));
      Ret (seq_lt a n)
  | None => Ret false
  end.

(** The delayed-ACK timer after data was received. *)
Definition process_delayed_ack (cx : Context) (s : Socket) : res Socket :=
  match sk_ack_delay s with
  | None => Ret s
  | Some ack_delay =>
      to_transmit ← ack_to_transmit s;
      if (to_transmit : bool) then
        match sk_ack_delay_timer s with
        | AckIdle => t ← instant_add (cx_now cx) ack_delay; Ret (upd_ack_delay_timer (AckWaiting t) s)
        | AckWaiting t =>
            now ← immediate_ack_to_transmit s;
            Ret (upd_ack_delay_timer (if (now : bool) then AckImmediate else AckWaiting t) s)
        | AckImmediate => Ret (upd_ack_delay_timer AckImmediate s)
        end
      else Ret s
  end.

(** Add the payload to the assembler and the receive buffer.  [None]: dropped because the
    assembler has too many holes; otherwise whether the assembler was empty before. *)
Definition process_receive (s : Socket) (data : list Z) (offset : Z) : res (Socket * option bool) :=
  assembler_was_empty ← asm_is_empty (sk_assembler s);
  '(assembler, r) ← asm_add_then_remove_front (sk_assembler s) offset (Zlen data);
  let s := upd_assembler assembler s in
  match r with
  | Err _ => Ret (s, None)
  | Ok contig_len =>
      '(rx, len_written) ← rb_write_unallocated (sk_rx_buffer s) offset data;
      let s := upd_rx_buffer rx s in
      _ ← passert (len_written =? Zlen data);
      s ← (if negb (contig_len =? 0) then
             rx ← rb_enqueue_unallocated (sk_rx_buffer s) contig_len;
             let s := upd_rx_buffer rx s in
             Ret (upd_rx_waker (waker_wake (sk_rx_waker s)) s)
           else Ret s);
      Ret (s, Some assembler_was_empty)
  end.

Definition process_payload (cx : Context) (s : Socket) (ip_repr : IpRepr) (repr : TcpRepr)
  (data : list Z) (offset : Z) : res (Context * Socket * option Reply) :=
  if Zlen data =? 0 then Ret (cx, s, None)
  else
    '(s, r) ← process_receive s data offset;
    match r with
    | None => Ret (cx, s, None)
    | Some assembler_was_empty =>
        s ← process_delayed_ack cx s;
        assembler_is_empty ← asm_is_empty (sk_assembler s);
        if negb assembler_is_empty || negb assembler_was_empty then
          '(s, r) ← ack_reply cx s ip_repr repr; Ret (cx, s, Some r)
        else Ret (cx, s, None)
    end.

(** [Socket::process]. *)
Definition process (cx : Context) (s : Socket) (ip_repr : IpRepr) (repr : TcpRepr)
  : res (Context * Socket * option Reply) :=
  _ ← passert (accepts s ip_repr repr);
  flow_bind (process_check_ack cx s ip_repr repr) (fun _ =>
  flow_bind (process_window cx s ip_repr repr) (fun '(s, data, offset) =>
  '(s, ack_len, ack_of_fin, ack_all) ← process_ack_len cx s repr;
  '(window_start, _) ← receive_window s;
  let control := effective_control window_start repr in
  flow_bind (process_transition cx s ip_repr repr control ack_of_fin) (fun '(cx, s) =>
  '(s, is_window_update) ← process_remote cx s repr ack_len;
  let s := process_dup_ack cx s repr is_window_update in
  s ← process_timers cx s repr ack_len ack_all;
  process_payload cx s ip_repr repr data offset))).
