(* ===== verification/TcpDispatch.v ===== *)
(** * The TCP socket: transmission (socket/tcp.rs, [timed_out] to [poll_at])

    [dispatch] decides whether a segment is due, builds it, hands it to [emit] (the device)
    and, when it was accepted, records that it was sent. *)

From S2P Require Import Prelude SeqNumber RingBuffer Assembler TimeModel TcpTimers Congestion IpTypes TcpRepr IfaceContext TcpSocket TcpProcess.

Section Dispatch.
Context {cfg : BuildConfig}.
Implicit Types s : Socket.

Definition timed_out s (now : Instant) : res bool :=
  match sk_remote_last_ts s, sk_timeout s with
  | Some remote_last_ts, Some timeout =>
      t ← instant_add remote_last_ts timeout; Ret (t <=? now)
  | _, _ => Ret false
  end.

Definition address_header_len (a : Address) : Z :=
  match a with Ipv4 _ => IPV4_HEADER_LEN | Ipv6 _ => IPV6_HEADER_LEN end.

(** [cx.ip_mtu() - ip_header_len - TCP_HEADER_LEN]. *)
Definition local_mss (cx : Context) (ip_header_len : Z) : res Z :=
  mtu ← cx_ip_mtu cx;
  m ← usize_sub mtu ip_header_len;
  usize_sub m TCP_HEADER_LEN.

(** The states in which a FIN has to be sent or was sent. *)
Definition want_fin (st : State) : bool :=
  match st with FinWait1 => true | Closing => true | LastAck => true | _ => false end.

Definition is_syn_state (st : State) : bool :=
  match st with SynSent | SynReceived => true | _ => false end.

(** The octets the remote window leaves room for. *)
Definition max_send s : res Z :=
  max_send_seq ← seq_add (sk_local_seq_no s) (Z.min (sk_remote_win_len s) (rb_len (sk_tx_buffer s)));
  if seq_ge max_send_seq (sk_remote_last_seq s) then seq_sub max_send_seq (sk_remote_last_seq s)
  else Ret 0.

Definition seq_to_transmit (cx : Context) s : res bool :=
  match sk_tuple s with
  | None => Panic
  | Some tuple =>
      local_mss ← local_mss cx (address_header_len (ep_addr (tuple_local tuple)));
      let effective_mss := Z.min local_mss (sk_remote_mss s) in
      let data_in_flight := negb (sk_remote_last_seq s =? sk_local_seq_no s) in
      if is_syn_state (sk_state s) && negb data_in_flight then Ret true
      else
        max_send ← max_send s;
        let max_send := Z.min max_send (ctl_window (sk_congestion_controller s)) in
        let can_send := negb (max_send =? 0) in
        let can_send_full := effective_mss <=? max_send in
        let want_fin := want_fin (sk_state s) in
        let can_send :=
          if sk_nagle s && data_in_flight && negb can_send_full && negb want_fin
          then false else can_send in
        last ← (if want_fin then seq_add (sk_local_seq_no s) (rb_len (sk_tx_buffer s)) else Ret 0);
        let can_fin := want_fin && (sk_remote_last_seq s =? last) in
        Ret (can_send || can_fin)
  end.

Definition delayed_ack_expired s (now : Instant) : bool :=
  match sk_ack_delay_timer s with
  | AckIdle => true
  | AckWaiting t => t <=? now
  | AckImmediate => true
  end.

Definition window_to_update s : res bool :=
  match sk_state s with
  | SynSent | SynReceived | Established | FinWait1 | FinWait2 =>
      new_win ← scaled_window s;
      last_win ← last_scaled_window s;
      Ret (match last_win with
           | Some last_win => (0 <? new_win) && (last_win <=? new_win / 2)
           | None => false
           end)
  | _ => Ret false
  end.

(** *** Stages of [dispatch] *)

(** The timestamp of a socket that was quiet, and the congestion controller. *)
Definition dispatch_start (cx : Context) s : res Socket :=
  let s := match sk_remote_last_ts s with
           | None => upd_remote_last_ts (Some (cx_now cx)) s
           | Some _ => s
           end in
  c ← ctl_pre_transmit (sk_congestion_controller s) (cx_now cx);
  Ret (upd_congestion_controller c s).

(** State changes because of a timer: the connection times out, or is rewound to resend
    from the last acknowledgement on. *)
Definition dispatch_timers (cx : Context) s : res Socket :=
  expired ← timed_out s (cx_now cx);
  if (expired : bool) then Ret (set_state Closed s)
  else
    transmit ← seq_to_transmit cx s;
    if negb transmit && timer_should_retransmit (sk_timer s) (cx_now cx) then
      let s := upd_remote_last_seq (sk_local_seq_no s) s in
      t ← timer_set_for_idle (cx_now cx) (sk_keep_alive s);
      let s := upd_timer t s in
      rtte ← rtte_on_retransmit (sk_rtte s);
      let s := upd_rtte rtte s in
      Ret (upd_congestion_controller (ctl_on_retransmit (sk_congestion_controller s) (cx_now cx)) s)
    else Ret s.

Inductive decision : Type := DoSend | DoReset | DoNothing.

(** Decide whether a segment is sent. *)
Definition dispatch_decide (cx : Context) s : res decision :=
  let now := cx_now cx in
  transmit ← seq_to_transmit cx s;
  if (transmit : bool) then Ret DoSend
  else
    ack ← ack_to_transmit s;
    if ack && delayed_ack_expired s now then Ret DoSend
    else
      update ← window_to_update s;
      if (update : bool) then Ret DoSend
      else if state_eqb (sk_state s) Closed then Ret DoSend
      else if timer_should_keep_alive (sk_timer s) now then Ret DoSend
      else if timer_should_zero_window_probe (sk_timer s) now then Ret DoSend
      else if timer_should_close (sk_timer s) now then Ret DoReset
      else Ret DoNothing.

(** The basic representation, an empty ACK. *)
Definition dispatch_base (cx : Context) s (tuple : Tuple) : res TcpRepr :=
  ack ← seq_add (sk_remote_seq_no s) (rb_len (sk_rx_buffer s));
  w ← scaled_window s;
  Ret {|
    src_port := ep_port (tuple_local tuple);
    dst_port := ep_port (tuple_remote tuple);
    control := CtlNone;
    seq_number := sk_remote_last_seq s;
    ack_number := Some ack;
    window_len := w;
    window_scale := None;
    max_seg_size := None;
    sack_permitted := false;
    sack_ranges := (None, None, None);
    repr_timestamp := generate_reply_with_tsval (cx_call cx) (sk_tsval_generator s) (sk_last_remote_tsval s);
    payload := [];
  |}.

(** A SYN or SYN|ACK. *)
Definition dispatch_syn s (r : TcpRepr) : res TcpRepr :=
  w ← rb_window (sk_rx_buffer s);
  let w := u16_try_from_or_max w in
  Ret (if state_eqb (sk_state s) SynSent then
         mkTcpRepr (src_port r) (dst_port r) CtlSyn (sk_local_seq_no s) None w
           (Some (sk_remote_win_shift s)) (max_seg_size r) true (sack_ranges r) (repr_timestamp r) (payload r)
       else
         mkTcpRepr (src_port r) (dst_port r) CtlSyn (sk_local_seq_no s) (ack_number r) w
           (option_map (fun _ => sk_remote_win_shift s) (sk_remote_win_scale s)) (max_seg_size r)
           (sk_remote_has_sack s) (sack_ranges r) (repr_timestamp r) (payload r)).

Definition tcp_set_data (r : TcpRepr) (c : Control) (seq : SeqNumber) (data : list Z) : TcpRepr :=
  mkTcpRepr (src_port r) (dst_port r) c seq (ack_number r) (window_len r) (window_scale r)
    (max_seg_size r) (sack_permitted r) (sack_ranges r) (repr_timestamp r) data.

(** The limit of the remote window, and whether a zero window is probed. *)
Definition dispatch_win_limit (cx : Context) s : res (Z * bool) :=
  win_right_edge ← seq_add (sk_local_seq_no s) (sk_remote_win_len s);
  win_limit ← (if seq_ge win_right_edge (sk_remote_last_seq s)
               then seq_sub win_right_edge (sk_remote_last_seq s) else Ret 0);
  Ret (if (win_limit =? 0) && timer_should_zero_window_probe (sk_timer s) (cx_now cx)
       then (1, true) else (win_limit, false)).

(** A segment with data from the transmit buffer; whether it probes a zero window. *)
Definition dispatch_data (cx : Context) s (ip_repr : IpRepr) (r : TcpRepr) : res (TcpRepr * bool) :=
  '(win_limit, is_zero_window_probe) ← dispatch_win_limit cx s;
  mss ← local_mss cx (ip_header_len ip_repr);
  let size := Z.min (Z.min win_limit (sk_remote_mss s)) mss in
  offset ← seq_sub (sk_remote_last_seq s) (sk_local_seq_no s);
  data ← rb_get_allocated (sk_tx_buffer s) offset size;
  let control :=
    if offset + Zlen data =? rb_len (sk_tx_buffer s) then
      match sk_state s with
      | FinWait1 | LastAck | Closing => CtlFin
      | Established | CloseWait => if data is [] then control r else CtlPsh
      | _ => control r
      end
    else control r in
  Ret (tcp_set_data r control (seq_number r) data, is_zero_window_probe).

(** The representation by state; [None] in LISTEN, where nothing is transmitted. *)
Definition dispatch_by_state (cx : Context) s (ip_repr : IpRepr) (r : TcpRepr)
  : res (option (TcpRepr * bool)) :=
  match sk_state s with
  | Closed => Ret (Some (tcp_set_data r CtlRst (seq_number r) (payload r), false))
  | Listen => Ret None
  | SynSent | SynReceived => r ← dispatch_syn s r; Ret (Some (r, false))
  | Established | FinWait1 | Closing | CloseWait | LastAck =>
      x ← dispatch_data cx s ip_repr r; Ret (Some x)
  | FinWait2 | TimeWait => Ret (Some (r, false))
  end.

(** A keep-alive carries an octet the remote end has already acknowledged. *)
Definition dispatch_keep_alive (cx : Context) s (r : TcpRepr) : res (TcpRepr * bool) :=
  if timer_should_keep_alive (sk_timer s) (cx_now cx) && tcp_is_empty r then
    seq ← seq_sub_usize (seq_number r) 1;
    Ret (tcp_set_data r (control r) seq [0], true)
  else Ret (r, false).

(** The MSS option of a SYN. *)
Definition dispatch_mss (cx : Context) (ip_repr : IpRepr) (r : TcpRepr) : res TcpRepr :=
  if control_eqb (control r) CtlSyn then
    m ← local_mss cx (ip_header_len ip_repr);
    Ret (mkTcpRepr (src_port r) (dst_port r) (control r) (seq_number r) (ack_number r) (window_len r)
           (window_scale r) (Some (wrap_u 16 m)) (sack_permitted r) (sack_ranges r) (repr_timestamp r)
           (payload r))
  else Ret r.

(** The packet to emit, and whether it is a zero window probe or a keep-alive. *)
Record Outgoing : Type := mkOutgoing {
  out_ip : IpRepr; out_tcp : TcpRepr; out_probe : bool; out_keep_alive : bool;
}.

Definition dispatch_build (cx : Context) s : res (option Outgoing) :=
  match sk_tuple s with
  | None => Panic
  | Some tuple =>
      ip_repr ← ip_repr_new (ep_addr (tuple_local tuple)) (ep_addr (tuple_remote tuple)) PROTOCOL_TCP 0
                  (match sk_hop_limit s with Some h => h | None => 64 end);
      r ← dispatch_base cx s tuple;
      x ← dispatch_by_state cx s ip_repr r;
      match x with
      | None => Ret None
      | Some (r, is_zero_window_probe) =>
          '(r, is_keep_alive) ← dispatch_keep_alive cx s r;
          r ← dispatch_mss cx ip_repr r;
          Ret (Some (mkOutgoing (ip_set_payload_len ip_repr (tcp_buffer_len r)) r
                       is_zero_window_probe is_keep_alive))
      end
  end.

(** A segment that fills sequence space or acknowledges was sent. *)
Definition commit_sent (cx : Context) s (r : TcpRepr) : res Socket :=
  next ← seq_add (seq_number r) (tcp_segment_len r);
  let s := upd_remote_last_seq next s in
  let s := upd_remote_last_ack (ack_number r) s in
  let s := upd_remote_last_win (window_len r) s in
  let s :=
    if 0 <? tcp_segment_len r then
      let s := upd_rtte (rtte_on_send (sk_rtte s) (cx_now cx) next) s in
      upd_congestion_controller
        (ctl_post_transmit (sk_congestion_controller s) (cx_now cx) (tcp_segment_len r)) s
    else s in
  s ← (if (0 <? tcp_segment_len r) && negb (timer_is_retransmit (sk_timer s)) then
         rto ← rtte_retransmission_timeout (sk_rtte s);
         t ← timer_set_for_retransmit (sk_timer s) (cx_now cx) rto; Ret (upd_timer t s)
       else Ret s);
  if state_eqb (sk_state s) Closed then
    let s := upd_tuple None s in
    Ret (upd_tx_waker (waker_wake (sk_tx_waker s)) s)
  else Ret s.

(** What [dispatch] does after [emit] succeeded. *)
Definition dispatch_commit (cx : Context) s (o : Outgoing) : res Socket :=
  t ← timer_rewind_keep_alive (sk_timer s) (cx_now cx) (sk_keep_alive s);
  let s := upd_timer t s in
  let s := upd_ack_delay_timer AckIdle s in
  if out_probe o then
    t ← timer_rewind_zero_window_probe (sk_timer s) (cx_now cx); Ret (upd_timer t s)
  else if out_keep_alive o then Ret s
  else commit_sent cx s (out_tcp o).

(** [Socket::dispatch] up to the call of [emit]: the socket, and the packet if one is due. *)
Definition dispatch_prepare (cx : Context) s : res (Socket * option Outgoing) :=
  match sk_tuple s with
  | None => Ret (s, None)
  | Some _ =>
      s ← dispatch_start cx s;
      s ← dispatch_timers cx s;
      if state_eqb (sk_state s) SynReceived && sk_synack_paused s then Ret (s, None)
      else
        d ← dispatch_decide cx s;
        match d with
        | DoNothing => Ret (s, None)
        | DoReset => Ret (reset s, None)
        | DoSend => o ← dispatch_build cx s; Ret (s, o)
        end
  end.

Definition dispatch {C} `{HasContext C} {E} (cx : C) s (emit : C -> IpRepr * TcpRepr -> res (C * result unit E))
  : res (C * Socket * result unit E) :=
  '(s, o) ← dispatch_prepare (the_context cx) s;
  match o with
  | None => Ret (cx, s, Ok tt)
  | Some o =>
      '(cx, r) ← emit cx (out_ip o, out_tcp o);
      match r with
      | Err e => Ret (cx, s, Err e)
      | Ok _ => s ← dispatch_commit (the_context cx) s o; Ret (cx, s, Ok tt)
      end
  end.

(** *** When to poll the socket again *)

(** [timeout_poll_at]. *)
Definition poll_at_timeout s : res PollAt :=
  match sk_remote_last_ts s, sk_timeout s with
  | Some remote_last_ts, Some timeout => t ← instant_add remote_last_ts timeout; Ret (PollTime t)
  | _, _ => Ret PollIngress
  end.

Definition poll_at_ack s (want_ack : bool) : PollAt :=
  match want_ack, sk_ack_delay_timer s with
  | false, _ => PollIngress
  | true, AckIdle => PollNow
  | true, AckWaiting t => PollTime t
  | true, AckImmediate => PollNow
  end.

Definition poll_at (cx : Context) s : res PollAt :=
  match sk_tuple s with
  | None => Ret PollIngress
  | Some _ =>
      match sk_remote_last_ts s with
      | None => Ret PollNow
      | Some _ =>
          if state_eqb (sk_state s) Closed then Ret PollNow
          else
            transmit ← seq_to_transmit cx s;
            if (transmit : bool) then Ret PollNow
            else
              update ← window_to_update s;
              if (update : bool) then Ret PollNow
              else
                want_ack ← ack_to_transmit s;
                t ← poll_at_timeout s;
                Ret (poll_at_min (poll_at_min (timer_poll_at (sk_timer s)) t) (poll_at_ack s want_ack))
      end
  end.
End Dispatch.
