(* ===== verification/TcpInvariant.v ===== *)
(** * The TCP socket: invariant (socket/tcp.rs)

    [sk_core] is the part of the invariant that does not depend on the connection state,
    [sk_seq] relates the sequence numbers to the transmit buffer.  Together, [sk_wf], they
    are kept by every operation an application can call. *)

From S2P Require Import Prelude SeqNumber RingBuffer Assembler TimeModel TcpTimers Congestion IpTypes TcpRepr IfaceContext TcpSocket.

(** The build configuration has room for one segment. *)
Class BuildConfigOk `{BuildConfig} : Prop := {
  segment_count_pos : (0 < assembler_max_segment_count)%nat;
  segment_count_max : Z.of_nat assembler_max_segment_count <= isize_max;
}.

(** Data the assembler holds lies in the free part of the receive buffer. *)
Definition rx_inv (rx : RingBuffer Z) (a : Assembler) : Prop :=
  rb_wf rx /\ rb_capacity rx <= 2 ^ 30 /\ asm_wf a /\
  forall k, covered a k = true -> k < rb_capacity rx - rb_length rx.

(** The source limits the receive buffer to 1 GiB only; the sequence arithmetic needs the
    same of the transmit buffer. *)
Definition tx_inv (tx : RingBuffer Z) : Prop := rb_wf tx /\ rb_capacity tx <= 2 ^ 30.

Definition tuple_inv (t : Tuple) : Prop :=
  address_version (ep_addr (tuple_local t)) = address_version (ep_addr (tuple_remote t)).

Record sk_core (s : Socket) : Prop := {
  core_rx : rx_inv (sk_rx_buffer s) (sk_assembler s);
  core_tx : tx_inv (sk_tx_buffer s);
  core_rtte : rtte_wf (sk_rtte s);
  core_timer : timer_wf (sk_timer s);
  core_cc : ctl_inv (sk_congestion_controller s);
  core_shift : 0 <= sk_remote_win_shift s <= 15;
  core_scale : opt_prop (fun n => 0 <= n <= 14) (sk_remote_win_scale s);
  core_win : 0 <= sk_remote_win_len s <= 2 ^ 30;
  core_mss : 1 <= sk_remote_mss s <= u16_max;
  core_last_win : 0 <= sk_remote_last_win s <= u16_max;
  core_remote_seq : in_i32 (sk_remote_seq_no s);
  core_last_ack : opt_prop in_i32 (sk_remote_last_ack s);
  core_timeout : interval_ok (sk_timeout s);
  core_keep_alive : interval_ok (sk_keep_alive s);
  core_ack_delay : interval_ok (sk_ack_delay s);
  core_last_ts : opt_prop time_ok (sk_remote_last_ts s);
  core_tuple : opt_prop tuple_inv (sk_tuple s);
}.

(** Whether a control flag can be in flight behind the data. *)
Definition ctl_room (st : State) : Z :=
  match st with Established | CloseWait | FinWait2 | TimeWait => 0 | _ => 1 end.

(** No data is queued before the connection is established. *)
Definition is_opening (st : State) : bool :=
  match st with Listen | SynSent | SynReceived => true | _ => false end.

(** How far [remote_last_seq] is ahead of [local_seq_no]. *)
Definition in_flight (s : Socket) : Z := seq_wrap (sk_remote_last_seq s - sk_local_seq_no s).

Definition seq_inv (st : State) (tx_len local last : Z) : Prop :=
  in_i32 local /\ in_i32 last /\
  0 <= seq_wrap (last - local) <= tx_len + ctl_room st /\
  (is_opening st = true -> tx_len = 0).

(** Nothing is in flight. *)
Lemma seq_inv_same st n l : in_i32 l -> 0 <= n -> (is_opening st = true -> n = 0) -> seq_inv st n l l.
Proof.
  intros. unfold seq_inv. rewrite Z.sub_diag. change (seq_wrap 0) with 0.
  split; [done|]. split; [done|]. split; [|done]. destruct st; cbn; lia.
Qed.

Definition sk_seq (s : Socket) : Prop :=
  seq_inv (sk_state s) (rb_length (sk_tx_buffer s)) (sk_local_seq_no s) (sk_remote_last_seq s).

Definition sk_wf (s : Socket) : Prop := sk_core s /\ sk_seq s.

(** The core of an updated socket follows from the cores of the parts. *)
Ltac core_solve :=
  match goal with H : sk_core _ |- _ => destruct H end; constructor; sk_simpl; auto.

(** ** Lemmas *)

Lemma wake_state st s : sk_core s -> sk_core (set_state st s).
Proof. intros H. unfold set_state. core_solve. Qed.

Lemma u16_try_range x : 0 <= x -> 0 <= u16_try_from_or_max x <= u16_max.
Proof. unfold u16_try_from_or_max. intros. destr_if; mlia. Qed.

Lemma shiftr_range x n : 0 <= x -> 0 <= n -> 0 <= Z.shiftr x n <= x.
Proof.
  intros. rewrite Z.shiftr_div_pow2 by lia. pose proof (Z.pow_pos_nonneg 2 n).
  split; [apply Z.div_pos; lia|]. apply Z.div_le_upper_bound; nia.
Qed.

Lemma scaled_window_ok s :
  sk_core s ->
  exists w, scaled_window s = Ret w /\ 0 <= w <= u16_max /\
    w = u16_try_from_or_max (Z.shiftr (rb_capacity (sk_rx_buffer s) - rb_length (sk_rx_buffer s)) (sk_remote_win_shift s)).
Proof.
  intros [[Hrx _] ]. unfold scaled_window. rewrite rb_window_ok, bind_Ret by done.
  unfold usize_shr. replace (sk_remote_win_shift s <? 64) with true by lia. rewrite bind_Ret.
  eexists. split; [reflexivity|]. split; [|done]. apply u16_try_range, shiftr_range; [|lia].
  destruct Hrx; lia.
Qed.

Lemma bit_length_range x : 0 <= x <= 2 ^ 30 -> 0 <= bit_length x <= 31.
Proof.
  intros. unfold bit_length. destr_if; [lia|]. pose proof (Z.log2_nonneg x).
  pose proof (Z.log2_le_mono x (2 ^ 30)). change (Z.log2 (2 ^ 30)) with 30 in *. lia.
Qed.

Lemma win_shift_range x : 0 <= x <= 2 ^ 30 -> 0 <= Z.max 0 (bit_length x - 16) <= 15.
Proof. intros H. pose proof (bit_length_range x H). lia. Qed.

Lemma rx_len_add s n :
  sk_core s -> 0 <= n <= 2 ^ 30 ->
  seq_add (sk_remote_seq_no s) n = Ret (seq_wrap (sk_remote_seq_no s + n)).
Proof. intros. apply seq_add_ok. mlia. Qed.

Section Operations.
Context {cfg : BuildConfig} {cfg_ok : BuildConfigOk}.
Implicit Types s : Socket.

Lemma rx_inv_clear rx a : rx_inv rx a -> rx_inv (rb_clear rx) (asm_new assembler_max_segment_count).
Proof.
  intros (Hrx & Hc & _). split; [by apply rb_clear_wf|]. split; [exact Hc|].
  split; [apply asm_new_wf; [apply segment_count_pos | apply segment_count_max]|].
  intros k. by rewrite covered_asm_new.
Qed.

Lemma reset_wf s : sk_core s -> sk_wf (reset s).
Proof.
  intros H. split.
  - unfold reset. destruct H. constructor; sk_simpl; auto.
    + by eapply rx_inv_clear.
    + destruct core_tx0. split; [by apply rb_clear_wf | done].
    + apply rtte_default_wf.
    + exact I.
    + destruct core_rx0 as ([? _] & ? & _). apply win_shift_range. lia.
    + exact I.
    + lia.
    + unfold DEFAULT_MSS. mlia.
    + mlia.
    + mlia.
    + exact I.
    + exact I.
    + exact I.
  - unfold sk_seq, reset. sk_simpl. apply seq_inv_same; cbn; done || mlia.
Qed.

Lemma reset_fields s :
  sk_state (reset s) = Closed /\ sk_local_seq_no (reset s) = 0 /\ sk_remote_last_seq (reset s) = 0 /\
  rb_contents (sk_rx_buffer (reset s)) = [] /\ rb_contents (sk_tx_buffer (reset s)) = [] /\
  sk_tuple (reset s) = None /\ rb_length (sk_tx_buffer (reset s)) = 0.
Proof. unfold reset. sk_simpl. done. Qed.

Lemma socket_new_wf rx tx :
  rb_wf rx -> rb_wf tx -> rb_capacity rx <= 2 ^ 30 -> rb_capacity tx <= 2 ^ 30 ->
  wp (socket_new rx tx) sk_wf.
Proof.
  intros Hrx Htx Hc Hc'. unfold socket_new. destr_if; [lia|]. cbn [wp]. split.
  - constructor; sk_simpl; try exact I.
    + split; [done|]. split; [done|]. split; [apply asm_new_wf; [apply segment_count_pos | apply segment_count_max]|].
      intros k. by rewrite covered_asm_new.
    + done.
    + apply rtte_default_wf.
    + apply any_new_inv.
    + apply win_shift_range. destruct Hrx. lia.
    + lia.
    + unfold DEFAULT_MSS. mlia.
    + mlia.
    + mlia.
    + unfold interval_ok, ACK_DELAY_DEFAULT, time_ok. lia.
  - unfold sk_seq. sk_simpl. destruct Htx. apply seq_inv_same; done || mlia.
Qed.

Lemma listen_wf s ep : sk_wf s -> sk_wf (fst (listen s ep)).
Proof.
  intros Hwf. unfold listen. destr_if; [done|]. destr_if; [by destr_if|]. cbn [fst].
  destruct Hwf as [Hcore _]. destruct (reset_wf s Hcore) as [Hc Hs].
  destruct (reset_fields s) as (_ & El & Es & _ & _ & _ & Et).
  set (s0 := reset s) in *. clearbody s0. clear Hcore.
  split; [apply wake_state; core_solve; exact I|].
  unfold sk_seq, set_state. sk_simpl. rewrite El, Es, Et. apply seq_inv_same; done || mlia.
Qed.

Lemma random_seq_no_i32 cx : in_i32 (snd (random_seq_no cx)) /\ same_cx cx (fst (random_seq_no cx)).
Proof.
  unfold random_seq_no. destruct (rand_u32 (cx_rand cx)) as [st n]. cbn. split; [|done].
  apply (seq_wrap_range n).
Qed.

Lemma connect_wf cx s remote local :
  sk_wf s -> wp (connect cx s remote local) (fun '(_, s', r) => sk_wf s' /\
    (is_ok r = false -> s' = s) /\ (is_ok r = true -> sk_state s' = SynSent)).
Proof.
  intros Hwf. unfold connect. destr_if; [done|]. destr_if; [done|]. apply orb_false_iff in Hif0 as [_ Hu].
  destr_if; [done|].
  assert (Hl : exists r, connect_local_addr cx remote local = Ret r).
  { unfold connect_local_addr. destruct (lep_addr local); [eauto|].
    destruct (wp_Ret_inv _ _ (get_source_address_ok cx (ep_addr remote) Hu)) as (r & -> & _). eauto. }
  destruct Hl as [r ->]. rewrite bind_Ret. destruct r as [addr|e]; [|done].
  destr_if; [done|]. destruct Hwf as [Hcore _]. destruct (reset_wf s Hcore) as [Hc Hs].
  destruct (reset_fields s) as (_ & El & Es & _ & _ & _ & Et).
  set (s0 := reset s) in *. clearbody s0. clear Hcore.
  destruct (random_seq_no cx) as [cx' seq] eqn:Er. pose proof (random_seq_no_i32 cx) as [Hseq _].
  rewrite Er in Hseq. cbn [snd] in Hseq. cbn [wp]. split; [split|split; [done|by intros _]].
  - apply negb_false_iff, version_eqb_eq in Hif1. unfold set_state. core_solve.
  - unfold sk_seq, set_state. sk_simpl. rewrite Et. apply seq_inv_same; done || mlia.
Qed.

Lemma set_state_seq st s :
  sk_seq s -> ctl_room (sk_state s) <= ctl_room st -> is_opening st = false -> sk_seq (set_state st s).
Proof.
  unfold sk_seq, seq_inv, set_state. sk_simpl. intros (? & ? & ? & _) ? ->.
  split; [done|]. split; [done|]. split; [lia|done].
Qed.

Lemma close_wf s : sk_wf s -> sk_wf (close s).
Proof.
  intros [Hc Hs]. unfold close. destruct (sk_state s) eqn:E; try done;
  (split; [by apply wake_state | apply set_state_seq; rewrite ?E; cbn; done || lia]).
Qed.

Lemma abort_wf s : sk_wf s -> sk_wf (abort s).
Proof.
  intros [Hc Hs]. unfold abort. split; [by apply wake_state|].
  apply set_state_seq; [done| |done]. by destruct (sk_state s).
Qed.
End Operations.
