(* ===== verification/TcpReplyLemmas.v ===== *)
(** * The TCP socket: replies (socket/tcp.rs, [reply] to [challenge_ack_reply])

    What the replies contain and how building them changes the socket, for the proofs about
    [process]. *)

From S2P Require Import Prelude SeqNumber RingBuffer Assembler TimeModel TcpTimers Congestion IpTypes TcpRepr IfaceContext TcpSocket TcpProcess TcpInvariant.

(** A parsed segment. *)
Definition repr_ok (r : TcpRepr) : Prop :=
  in_i32 (seq_number r) /\ opt_prop in_i32 (ack_number r) /\ in_u16 (window_len r) /\
  opt_prop (fun n => 0 <= n <= 14) (window_scale r) /\ opt_prop in_u16 (max_seg_size r) /\
  Zlen (payload r) <= 131070.

(** The fields by which data flows are unchanged. *)
Record same_flow (s s' : Socket) : Prop := {
  sf_state : sk_state s' = sk_state s;
  sf_rx : sk_rx_buffer s' = sk_rx_buffer s;
  sf_asm : sk_assembler s' = sk_assembler s;
  sf_fin : sk_rx_fin_received s' = sk_rx_fin_received s;
  sf_tx : sk_tx_buffer s' = sk_tx_buffer s;
  sf_local : sk_local_seq_no s' = sk_local_seq_no s;
  sf_remote : sk_remote_seq_no s' = sk_remote_seq_no s;
  sf_last : sk_remote_last_seq s' = sk_remote_last_seq s;
  sf_tuple : sk_tuple s' = sk_tuple s;
  sf_listen : sk_listen_endpoint s' = sk_listen_endpoint s;
  sf_sack : sk_remote_has_sack s' = sk_remote_has_sack s;
}.

#[export] Instance same_flow_refl : Reflexive same_flow.
Proof. intros s. by constructor. Qed.

#[export] Instance same_flow_trans : Transitive same_flow.
Proof. intros a b c [] []. constructor; congruence. Qed.

Lemma same_flow_seq s s' : same_flow s s' -> sk_seq s -> sk_seq s'.
Proof. intros [] H. unfold sk_seq in *. congruence. Qed.

Lemma same_flow_wf s s' : same_flow s s' -> sk_core s' -> sk_wf s -> sk_wf s'.
Proof. intros Hf Hc [_ Hs]. split; [done|]. by eapply same_flow_seq. Qed.

(** ** SACK blocks *)

(** The iterator over a well-formed assembler, not yet at its end. *)
Definition iter_ok (it : AssemblerIter) : Prop :=
  exists pre suf, it_assembler it = pre ++ suf /\ it_index it = Zlen pre /\
    0 <= it_left it /\ 0 <= it_offset it /\
    Forall (fun c => 0 <= hole_size c /\ 0 <= data_size c) suf /\
    it_left it + span suf + it_offset it <= usize_max.

Lemma span_sizes cs : Forall (fun c => 0 <= hole_size c /\ 0 <= data_size c) cs -> 0 <= span cs.
Proof. induction 1; cbn; unfold ctotal in *; lia. Qed.

Lemma asm_iter_next_ok n it :
  iter_ok it ->
  wp (asm_iter_next n it) (fun '(it', _) => iter_ok it' /\ it_assembler it' = it_assembler it).
Proof.
  revert it. induction n as [|n IH]; intros it Hit; [done|]. cbn [asm_iter_next].
  destr_if; [|done]. destruct Hit as (pre & suf & E & Ei & Hl & Ho & Hs & Hsp).
  destruct suf as [|c suf]; [rewrite app_nil_r in E; rewrite E, Ei in Hif; lia|].
  inversion Hs as [|? ? [Hh Hd] Hs']; subst. pose proof (span_sizes _ Hs'). cbn [span] in Hsp. unfold ctotal in Hsp.
  assert (Hc : index (it_assembler it) (it_index it) = Ret c).
  { apply index_ok; [rewrite Ei; apply Zlen_nonneg|]. rewrite E, Ei. unfold Zlen. rewrite Nat2Z.id.
    rewrite lookup_app_r by lia. by rewrite Nat.sub_diag. }
  rewrite Hc, bind_Ret. do 2 arith_step.
  assert (Hnext : forall l, 0 <= l <= it_left it + hole_size c + data_size c ->
    iter_ok (mkAssemblerIter (it_assembler it) (it_offset it) (it_index it + 1) l
              (it_left it + hole_size c + data_size c))).
  { intros l Hl'. exists (pre ++ [c]), suf. cbn. rewrite E, <- app_assoc.
    repeat split; auto; try lia. rewrite Ei, Zlen_app. done. }
  destr_if.
  - do 2 arith_step. cbn [wp].
    split; [apply Hnext; lia|done].
  - eapply wp_mono; [apply IH, Hnext; lia|]. intros [it' r] [? ->]. done.
Qed.

Lemma iter_find_ok n it p : iter_ok it -> wp (iter_find n it p) (fun _ => True).
Proof.
  revert it. induction n as [|n IH]; intros it Hit; [done|]. cbn [iter_find].
  wp_bind_with (asm_iter_next_ok (S (length (it_assembler it))) it Hit).
  intros [it' [[l r]|]] [Hit' _]; [|done]. destr_if; [done|]. by apply IH.
Qed.

(** Contigs that cover nothing from [m] on end there. *)
Lemma span_covered m b cs :
  0 <= m -> contigs_ok b cs -> (forall x, covered cs x = true -> x < m) -> span cs <= m.
Proof.
  revert m b. induction cs as [|c cs IH]; intros m b Hm Hok Hc; cbn [span]; [lia|].
  destruct Hok as (Hh & Hd & Hok). cbn [covered] in Hc.
  assert (H0 : ctotal c <= m).
  { specialize (Hc (ctotal c - 1)). unfold ctotal in *. enough (hole_size c + data_size c - 1 < m) by lia.
    apply Hc. apply orb_true_iff. left. lia. }
  enough (span cs <= m - ctotal c) by lia. apply (IH _ false); [lia|done|]. intros x Hx.
  enough (x + ctotal c < m) by lia. apply Hc. replace (x + ctotal c - ctotal c) with x by lia. rewrite Hx. apply orb_true_r.
Qed.

(** The iterator over the blocks of an assembler that holds data before [m] only does not
    overflow when it starts [m] before the largest number. *)
Lemma sack_find_ok a m n p :
  asm_wf a -> (forall x, covered a x = true -> x < m) -> 0 <= m -> as_usize n + m <= usize_max ->
  wp (sack_find a (Some n) p) (fun _ => True).
Proof.
  intros (cs & k & -> & Hok & Hsp & _ & _) Hm Hm0 Hn. apply iter_find_ok.
  exists [], (pad k cs). cbn. assert (0 <= as_usize n) by (apply (wrap_u_range 64); lia).
  assert (span cs <= m).
  { eapply span_covered; [done..|]. intros x Hx. apply Hm. by rewrite covered_pad. }
  assert (Hs : Forall (fun c => 0 <= hole_size c /\ 0 <= data_size c) (pad k cs)).
  { unfold pad. apply Forall_app. split.
    - clear Hm H0. revert Hok. generalize true. induction cs as [|c cs IH]; intros b Hok; constructor.
      + destruct Hok as (? & ? & _). destruct b; lia.
      + cbn in Hsp. destruct Hok as (? & ? & Hok). unfold ctotal in Hsp.
        apply (IH ltac:(destruct b; lia) false Hok).
    - apply Forall_replicate. cbn. lia. }
  repeat split; auto; try lia. unfold pad. rewrite span_app, span_replicate. mlia.
Qed.

(** ** Replies *)

Lemma reply_ok ip r :
  exists ip', reply ip r = Ret (ip', mkTcpRepr (dst_port r) (src_port r) CtlNone 0 None 0 None None
                                       false (None, None, None) None []) /\
    ip_src_addr ip' = ip_dst_addr ip /\ ip_dst_addr ip' = ip_src_addr ip.
Proof.
  unfold reply. destruct (ip_repr_versions ip) as [Hs Hd].
  destruct (ip_repr_new_ok (ip_dst_addr ip) (ip_src_addr ip) PROTOCOL_TCP
    (tcp_buffer_len (mkTcpRepr (dst_port r) (src_port r) CtlNone 0 None 0 None None
                       false (None, None, None) None [])) 64) as (ip' & -> & ? & ? & _); [congruence|].
  rewrite bind_Ret. eauto.
Qed.

(** A reset answers a segment that is not a reset. *)
Definition is_rst_for (ip : IpRepr) (r : TcpRepr) (p : Reply) : Prop :=
  let '(ip', r') := p in
  ip_src_addr ip' = ip_dst_addr ip /\ ip_dst_addr ip' = ip_src_addr ip /\
  src_port r' = dst_port r /\ dst_port r' = src_port r /\
  control r' = CtlRst /\ payload r' = [] /\
  seq_number r' = match ack_number r with Some n => n | None => 0 end /\
  ack_number r' = if control_eqb (control r) CtlSyn && bool_decide (ack_number r = None)
                  then Some (seq_wrap (seq_number r + Zlen (payload r) + 1)) else None.

Lemma rst_reply_ok ip r :
  repr_ok r -> control r <> CtlRst -> wp (rst_reply ip r) (is_rst_for ip r).
Proof.
  intros (_ & _ & _ & _ & _ & Hp) Hc. unfold rst_reply.
  replace (control_eqb (control r) CtlRst) with false
    by (symmetry; unfold control_eqb; by rewrite bool_decide_eq_false). cbn [negb passert]. rewrite bind_Ret.
  destruct (reply_ok ip r) as (ip' & -> & Hs & Hd). rewrite bind_Ret. cbn [ack_number].
  pose proof (Zlen_nonneg (payload r)). unfold is_rst_for.
  destruct (control_eqb (control r) CtlSyn) eqn:Ec; cbn [andb];
    [|rewrite bind_Ret; cbn [wp]; unfold tcp_set_ack; cbn; auto 10].
  apply control_eqb_eq in Ec. destruct (ack_number r) eqn:Ea.
  { rewrite bind_Ret; cbn [wp]; unfold tcp_set_ack; cbn; auto 10. }
  unfold tcp_segment_len. rewrite Ec. cbn [control_len].
  rewrite seq_add_ok, !bind_Ret by mlia. cbn [wp]. unfold tcp_set_ack. cbn.
  rewrite Z.add_assoc. auto 10.
Qed.

(** SACK numbers are computed without overflow: the acknowledgement is not negative as an
    [i32], or the end of the receive window is still negative. *)
Definition sack_safe (s : Socket) : Prop :=
  sk_remote_has_sack s = true ->
  0 <= sk_remote_seq_no s + rb_length (sk_rx_buffer s) \/
  sk_remote_seq_no s + rb_capacity (sk_rx_buffer s) < 0.

Lemma same_flow_sack s s' : same_flow s s' -> sack_safe s -> sack_safe s'.
Proof.
  intros Hf H. unfold sack_safe in *. by rewrite (sf_sack _ _ Hf), (sf_remote _ _ Hf), (sf_rx _ _ Hf).
Qed.

(** The acknowledgement of everything received in order. *)
Definition next_ack (s : Socket) : SeqNumber :=
  seq_wrap (sk_remote_seq_no s + rb_length (sk_rx_buffer s)).

Definition is_ack_for (s : Socket) (ip : IpRepr) (r : TcpRepr) (p : Reply) : Prop :=
  let '(ip', r') := p in
  ip_src_addr ip' = ip_dst_addr ip /\ ip_dst_addr ip' = ip_src_addr ip /\
  src_port r' = dst_port r /\ dst_port r' = src_port r /\
  control r' = CtlNone /\ payload r' = [] /\
  seq_number r' = sk_remote_last_seq s /\ ack_number r' = Some (next_ack s) /\
  Ret (window_len r') = scaled_window s /\ ip_payload_len ip' = tcp_buffer_len r'.

Lemma as_usize_sign n : in_i32 n -> as_usize n = if n <? 0 then 2 ^ 64 + n else n.
Proof.
  intros. unfold as_usize, wrap_u. destr_if; [|by rewrite Z.mod_small by mlia].
  rewrite <- (Z.mod_add n 1), Z.mod_small by mlia. lia.
Qed.

(** The sign-extended acknowledgement leaves room for the rest of the window. *)
Lemma next_ack_room s :
  in_i32 (sk_remote_seq_no s) -> 0 <= rb_length (sk_rx_buffer s) ->
  0 <= sk_remote_seq_no s + rb_length (sk_rx_buffer s) \/ sk_remote_seq_no s + rb_capacity (sk_rx_buffer s) < 0 ->
  rb_length (sk_rx_buffer s) <= rb_capacity (sk_rx_buffer s) -> rb_capacity (sk_rx_buffer s) <= 2 ^ 30 ->
  as_usize (next_ack s) + (rb_capacity (sk_rx_buffer s) - rb_length (sk_rx_buffer s)) <= usize_max.
Proof.
  intros. rewrite as_usize_sign by apply seq_wrap_range. unfold next_ack.
  destr_if; revert Hif; seq_lia.
Qed.

Lemma ack_reply_sack_ok s :
  sk_core s -> sack_safe s -> sk_remote_has_sack s = true ->
  wp (ack_reply_sack s (Some (next_ack s))) (fun _ => True).
Proof.
  intros Hc Hs Ht. pose proof (core_rx s Hc) as (Hwf & Hcap & Hasm & Hcov). pose proof Hwf as ([? ?] & _).
  set (m := rb_capacity (sk_rx_buffer s) - rb_length (sk_rx_buffer s)) in *.
  assert (Hn : as_usize (next_ack s) + m <= usize_max).
  { apply next_ack_room; [apply Hc|lia|by apply Hs|lia|lia]. }
  assert (Hf : forall p, wp (sack_find (sk_assembler s) (Some (next_ack s)) p) (fun _ => True)).
  { intros p. apply (sack_find_ok _ m); [done..|lia|done]. }
  unfold ack_reply_sack. eapply wp_bind_mono with (P := fun _ => True).
  - by destruct (sk_local_rx_last_seq s).
  - by intros [b|] _.
Qed.

Lemma ack_reply_ok cx s ip r :
  sk_core s -> sack_safe s ->
  wp (ack_reply cx s ip r) (fun '(s', p) =>
    sk_core s' /\ same_flow s s' /\ is_ack_for s ip r p).
Proof.
  intros Hc Hs. unfold ack_reply. destruct (reply_ok ip r) as (ip' & -> & Hsrc & Hdst). rewrite bind_Ret.
  unfold rb_len. rewrite (rx_len_add s) by (auto; destruct (core_rx s Hc) as ([? _] & ? & _); lia).
  rewrite bind_Ret. fold (next_ack s). set (s1 := upd_remote_last_ack _ s).
  assert (Hc1 : sk_core s1) by (unfold s1; core_solve; apply seq_wrap_range).
  destruct (scaled_window_ok s1 Hc1) as (w & Ew & Hw & _). rewrite Ew, bind_Ret.
  set (s2 := upd_remote_last_win w s1).
  assert (Hc2 : sk_core s2) by (unfold s2; clearbody s1; core_solve).
  assert (Hf : same_flow s s2) by (unfold s2, s1; constructor; sk_simpl; done).
  assert (Hn : next_ack s2 = next_ack s) by (unfold next_ack; destruct Hf; congruence).
  assert (Hsw : scaled_window s = Ret w) by (rewrite <- Ew; unfold scaled_window, s1; by sk_simpl).
  assert (Hsl : sk_remote_last_seq s2 = sk_remote_last_seq s) by apply Hf.
  assert (Hs2 : sack_safe s2) by (by eapply same_flow_sack).
  clearbody s2. clear s1 Hc1 Ew.
  eapply wp_bind_mono with (P := fun _ => True).
  { destr_if; [|done]. rewrite <- Hn. by apply ack_reply_sack_ok. }
  intros sack0 _. cbn [wp]. split; [done|]. split; [done|]. unfold is_ack_for.
  cbn [src_port dst_port control payload seq_number ack_number window_len].
  match goal with |- context [ip_set_payload_len ip' ?n] =>
    destruct (ip_set_payload_len_addrs ip' n) as (Ha & Hb & Hd) end.
  split_and!; congruence.
Qed.

Lemma ack_reply_frame cx s ip r s' p :
  ack_reply cx s ip r = Ret (s', p) ->
  exists n w, s' = upd_remote_last_win w (upd_remote_last_ack (Some n) s).
Proof.
  unfold ack_reply. intros E. bind_inv E. destruct x as [ip' r']. do 3 (bind_inv E).
  injection E as <- _. eauto.
Qed.

Lemma challenge_ack_reply_ok cx s ip r :
  sk_core s -> sack_safe s -> time_ok (cx_now cx) ->
  wp (challenge_ack_reply cx s ip r) (fun '(s', o) =>
    sk_core s' /\ same_flow s s' /\
    match o with
    | Some p => sk_challenge_ack_timer s <= cx_now cx /\ is_ack_for s ip r p /\
                sk_challenge_ack_timer s' = cx_now cx + 1000000
    | None => cx_now cx < sk_challenge_ack_timer s /\ s' = s
    end).
Proof.
  intros Hc Hs Hn. unfold challenge_ack_reply. destr_if; [cbn; split; [done|]; split; [done|]; split; [lia|done]|].
  unfold duration_from_secs, u64_chk. rewrite checked_ok, bind_Ret by mlia.
  rewrite instant_add_ok, bind_Ret by (unfold time_ok in *; lia).
  set (s1 := upd_challenge_ack_timer _ s).
  assert (Hc1 : sk_core s1) by (unfold s1; core_solve).
  assert (Hf : same_flow s s1) by (unfold s1; constructor; sk_simpl; done).
  assert (Hs1 : sack_safe s1) by (by eapply same_flow_sack).
  assert (Htm : sk_challenge_ack_timer s1 = cx_now cx + 1000000) by (unfold s1; by sk_simpl).
  assert (Hia : forall p, is_ack_for s1 ip r p -> is_ack_for s ip r p).
  { intros [ip' r']. unfold is_ack_for, next_ack, scaled_window, s1. by sk_simpl. }
  clearbody s1. destruct (wp_Ret_inv _ _ (ack_reply_ok cx s1 ip r Hc1 Hs1)) as ([s2 p] & E & Hc2 & Hf2 & Hp).
  rewrite E, bind_Ret. cbn [wp]. split; [done|]. split; [by transitivity s1|].
  split; [lia|]. split; [auto|]. destruct (ack_reply_frame cx s1 ip r s2 p E) as (n & w & ->). by sk_simpl.
Qed.
