(* ===== verification/TcpProcessLemmas.v ===== *)
(** * The TCP socket: stages of segment processing (socket/tcp.rs, [process])

    One lemma per stage of [process]: it does not panic under the invariant, and its effect
    on the sequence numbers and the buffers. *)

From S2P Require Import Prelude SeqNumber RingBuffer Assembler TimeModel TcpTimers Congestion IpTypes TcpRepr IfaceContext TcpSocket TcpProcess TcpInvariant TcpReplyLemmas.

(** What a reply to a segment looks like: it goes back where the segment came from, carries
    no data, and is no reset in answer to a reset. *)
Definition answers (ip : IpRepr) (r : TcpRepr) (p : Reply) : Prop :=
  let '(ip', r') := p in
  ip_src_addr ip' = ip_dst_addr ip /\ ip_dst_addr ip' = ip_src_addr ip /\
  src_port r' = dst_port r /\ dst_port r' = src_port r /\ payload r' = [] /\
  (control r' = CtlNone \/ (control r' = CtlRst /\ control r <> CtlRst)).

Definition opt_answers (ip : IpRepr) (r : TcpRepr) (o : option Reply) : Prop :=
  opt_prop (answers ip r) o.

Lemma is_rst_answers ip r p : control r <> CtlRst -> is_rst_for ip r p -> answers ip r p.
Proof. destruct p as [ip' r']. unfold is_rst_for, answers. intuition. Qed.

Lemma is_ack_answers s ip r p : is_ack_for s ip r p -> answers ip r p.
Proof. destruct p as [ip' r']. unfold is_ack_for, answers. intuition. Qed.

(** ** Acknowledgement numbers *)

(** The acknowledgement of a segment that passes the first stage. *)
Definition ack_acceptable (s : Socket) (r : TcpRepr) : Prop :=
  control r <> CtlRst ->
  match ack_number r with
  | None => sk_state s = Listen \/ (sk_state s = SynSent /\ control r = CtlSyn)
  | Some a =>
      sk_state s <> Listen /\
      (sk_state s = SynSent -> control r = CtlSyn) /\
      if fst (sent_flags (sk_state s)) then a = seq_wrap (sk_local_seq_no s + 1)
      else 0 <= seq_wrap (a - sk_local_seq_no s) <=
           rb_length (sk_tx_buffer s) + b2z (snd (sent_flags (sk_state s)))
  end.

(** What a segment that is dropped or answered leaves behind. *)
Definition stays (cx : Context) (s : Socket) (ip : IpRepr) (r : TcpRepr)
  (cx' : Context) (s' : Socket) (o : option Reply) : Prop :=
  cx' = cx /\ sk_core s' /\ same_flow s s' /\ opt_answers ip r o.

Lemma stays_refl cx s ip r : sk_core s -> stays cx s ip r cx s None.
Proof. intros. split; [done|]. split; [done|]. split; [reflexivity|exact I]. Qed.

Lemma done_rst_ok cx s ip r :
  sk_core s -> repr_ok r -> control r <> CtlRst ->
  wp (done_rst cx s ip r) (fun f => match f with
    | Done cx' s' o => stays cx s ip r cx' s' o | Go _ => False end).
Proof.
  intros Hc Hr Hn. unfold done_rst. wp_bind_with (rst_reply_ok ip r Hr Hn). intros p Hp. cbn [wp].
  split; [done|]. split; [done|]. split; [reflexivity|]. by apply is_rst_answers.
Qed.

Lemma done_challenge_ok {A} cx s ip r :
  sk_core s -> sack_safe s -> time_ok (cx_now cx) ->
  wp (done_challenge (A := A) cx s ip r) (fun f => match f with
    | Done cx' s' o => stays cx s ip r cx' s' o | Go _ => False end).
Proof.
  intros Hc Hs Hn. unfold done_challenge. wp_bind_with (challenge_ack_reply_ok cx s ip r Hc Hs Hn).
  intros [s' o] (Hc' & Hf & Ho). cbn [wp]. split; [done|]. split; [done|]. split; [done|].
  destruct o; [|done]. eapply is_ack_answers. apply Ho.
Qed.

Lemma accepts_state s ip r :
  accepts s ip r = true ->
  sk_state s <> Closed /\ (sk_state s = Listen -> ack_number r = None /\ control r <> CtlRst).
Proof.
  unfold accepts, state_eqb. intros H. split.
  - intros E. rewrite E in H. by rewrite bool_decide_true in H.
  - intros E. rewrite E in H. cbn in H. destruct (ack_number r); [done|]. split; [done|].
    intros Ec. rewrite Ec in H. done.
Qed.

Lemma check_ack_range_ok cx s ip r a :
  sk_wf s -> sack_safe s -> repr_ok r -> time_ok (cx_now cx) -> in_i32 a ->
  fst (sent_flags (sk_state s)) = false -> sk_state s <> Listen ->
  ack_number r = Some a ->
  wp (check_ack_range cx s ip r a) (fun f => match f with
    | Done cx' s' o => stays cx s ip r cx' s' o | Go _ => ack_acceptable s r end).
Proof.
  intros [Hc Hs] Hsack Hr Hn Ha Hsyn Hl Ea. destruct (core_tx s Hc) as [([? ?] & _) ?].
  destruct Hs as (Hli & _ & _ & _).
  unfold check_ack_range, rb_len. destruct (sent_flags (sk_state s)) as [syn fin] eqn:Ef.
  cbn [fst] in Hsyn. subst syn. cbn [b2z]. rewrite Z.add_0_l.
  assert (0 <= b2z fin <= 1) by (destruct fin; cbn; lia).
  arith_step. cbv iota. seq_step.
  destruct (seq_lt a _) eqn:E1; [cbn [wp]; by apply stays_refl|].
  destruct (seq_gt a _) eqn:E2.
  { eapply wp_mono; [by apply done_challenge_ok|]. by intros []. }
  cbn [wp]. intros Hrst. rewrite Ea, Ef. cbn [fst snd]. split; [done|]. split.
  - intros E. by rewrite E in Ef.
  - set (n := rb_length _ + b2z fin) in *. assert (0 <= n <= 2 ^ 30 + 1) by lia. clearbody n. seq_lia.
Qed.

Lemma ack_expected s :
  seq_add (sk_local_seq_no s) 1 = Ret (seq_wrap (sk_local_seq_no s + 1)).
Proof. apply seq_add_ok. mlia. Qed.

Lemma process_check_ack_ok cx s ip r :
  sk_wf s -> sack_safe s -> repr_ok r -> time_ok (cx_now cx) -> accepts s ip r = true ->
  wp (process_check_ack cx s ip r) (fun f => match f with
    | Done cx' s' o => stays cx s ip r cx' s' o | Go _ => ack_acceptable s r end).
Proof.
  intros Hwf Hsack Hr Hn Hacc. pose proof Hwf as [Hc _]. destruct (accepts_state s ip r Hacc) as [Hcl Hli].
  pose proof Hr as (_ & Ha & _). unfold process_check_ack.
  pose proof (done_rst_ok cx s ip r Hc Hr) as Hrst.
  pose proof (stays_refl cx s ip r Hc) as Hstay.
  assert (Hrange : forall a, ack_number r = Some a -> fst (sent_flags (sk_state s)) = false ->
    sk_state s <> Listen -> wp (check_ack_range cx s ip r a) (fun f => match f with
      | Done cx' s' o => stays cx s ip r cx' s' o | Go _ => ack_acceptable s r end)).
  { intros a Ea Hf Hl. rewrite Ea in Ha. by apply check_ack_range_ok. }
  unfold ack_acceptable in *.
  destruct (sk_state s) eqn:Est, (control r) eqn:Ect, (ack_number r) as [a|] eqn:Eack;
    rewrite ?ack_expected, ?bind_Ret; cbn [wp]; try done; try (by apply Hrange);
    try (by destruct (Hli eq_refl)); try (intros; by left);
    try (destruct (Z.eqb_spec a (seq_wrap (sk_local_seq_no s + 1))) as [->|]; cbn [negb];
         [ | try done; try (eapply wp_mono; [apply Hrst; congruence|]; by intros []) ]; cbn [wp];
         try done; try (intros _; cbn; by repeat split)).
  all: try (intros _; by right).
Qed.

(** ** The receive window *)

(** The overlap of a segment with the window, by distances: [a] octets are cut off at the
    front, [n] remain, and they belong [off] octets behind the data received in order. *)
Lemma window_overlap rsn len cap ss plen :
  in_i32 ss -> 0 <= len <= cap -> cap <= 2 ^ 30 -> 0 <= plen <= 131070 ->
  let ws := seq_wrap (rsn + len) in
  let we := seq_wrap (rsn + cap) in
  let se := seq_wrap (ss + plen) in
  segment_in_window ws we ss se = Ret true ->
  exists a n off,
    seq_le (seq_max ws ss) (seq_min we se) = true /\
    seq_sub (seq_max ws ss) ss = Ret a /\ seq_sub (seq_min we se) ss = Ret (a + n) /\
    seq_sub (seq_max ws ss) ws = Ret off /\
    0 <= a /\ 0 <= n /\ a + n <= plen /\ 0 <= off /\ off + n <= cap - len /\
    off = seq_wrap (ss - ws) + a.
Proof.
  intros Hss Hlen Hcap Hp ws we se Hin.
  set (w := cap - len). set (d := seq_wrap (ss - ws)).
  assert (Ewe : we = seq_wrap (ws + w)) by (unfold we, ws, w; seq_lia).
  assert (Ess : ss = seq_wrap (ws + d)) by (unfold d; apply seq_decompose; done).
  assert (Hd : - 2 ^ 31 <= d < 2 ^ 31) by (unfold d; seq_lia).
  assert (Ese : se = seq_wrap (ws + (d + plen))) by (unfold se; rewrite Ess; seq_lia).
  assert (Hws : ws = seq_wrap (ws + 0)) by (unfold ws; seq_lia).
  assert (Hw : 0 <= w <= 2 ^ 30) by lia.
  assert (Hwin : (0 <= d /\ d < w) \/ (0 < d + plen /\ d + plen <= w) \/ (d = 0 /\ plen = 0 /\ w = 0)).
  { revert Hin. unfold segment_in_window. rewrite (seq_sub_usize_ok ws 1) by mlia.
    clearbody ws we se d w. subst we se ss. clear -Hws Hd Hw Hp. unfold_max.
    repeat case_match; rewrite ?bind_Ret; repeat case_match; intros [= Hb]; seq_lia. }
  exists (Z.max 0 (- d)), (Z.min w (d + plen) - Z.max 0 d), (Z.max 0 d).
  assert (Hmax : seq_max ws ss = seq_wrap (ws + Z.max 0 d)).
  { unfold seq_max. rewrite Ess. destr_if; clear -Hif Hd Hws Hwin Hw Hp; seq_lia. }
  assert (Hmin : seq_min we se = seq_wrap (ws + Z.min w (d + plen))).
  { unfold seq_min. rewrite Ewe, Ese. destr_if; clear -Hif Hd Hwin Hw Hp; seq_lia. }
  rewrite Hmax, Hmin. clearbody ws we se d w. subst ss. clear -Hd Hws Hw Hp Hwin.
  split; [seq_lia|].
  rewrite !seq_sub_ok by seq_lia.
  split; [f_equal; seq_lia|]. split; [f_equal; seq_lia|]. split; [f_equal; seq_lia|]. mlia.
Qed.

(** The part of a segment that goes to the receive buffer: [data], at [offset] behind the
    data received in order, is what is left of the payload behind its first [a] octets. *)
Definition seg_data (s : Socket) (r : TcpRepr) (data : list Z) (offset : Z) : Prop :=
  0 <= offset /\
  offset + Zlen data <= rb_capacity (sk_rx_buffer s) - rb_length (sk_rx_buffer s) /\
  (data <> [] -> sk_state s <> Listen /\ sk_state s <> SynSent /\
   exists a, 0 <= a /\ a + Zlen data <= Zlen (payload r) /\ data = sub (payload r) a (Zlen data) /\
     offset = seq_wrap (seq_number r - next_ack s) + a).

Lemma receive_window_ok s :
  sk_core s ->
  receive_window s = Ret (next_ack s, seq_wrap (sk_remote_seq_no s + rb_capacity (sk_rx_buffer s))).
Proof.
  intros Hc. destruct (core_rx s Hc) as ([? _] & ? & _). unfold receive_window, rb_len.
  seq_step. seq_step. done.
Qed.

Lemma process_window_ok cx s ip r :
  sk_wf s -> sack_safe s -> repr_ok r -> time_ok (cx_now cx) ->
  wp (process_window cx s ip r) (fun f => match f with
    | Done cx' s' o => stays cx s ip r cx' s' o
    | Go (s1, data, offset) =>
        sk_core s1 /\ same_flow s s1 /\ sk_rtte s1 = sk_rtte s /\ seg_data s r data offset
    end).
Proof.
  intros [Hc Hs] Hsack Hr Hn. pose proof Hr as (Hss & _ & _ & _ & _ & Hp).
  pose proof (Zlen_nonneg (payload r)). destruct (core_rx s Hc) as ([Hl _] & Hcap & _).
  unfold process_window. rewrite receive_window_ok, bind_Ret by done. seq_step.
  set (we := seq_wrap (_ + rb_capacity _)). set (se := seq_wrap (seq_number r + _)).
  assert (Hnil : seg_data s r [] 0).
  { split; [lia|]. split; [change (Zlen (@nil Z)) with 0; lia|done]. }
  assert (Hmain : sk_state s <> Listen -> sk_state s <> SynSent ->
    wp (in_window ← segment_in_window (next_ack s) we (seq_number r) se;
        if (in_window : bool) then
          _ ← passert (seq_le (seq_max (next_ack s) (seq_number r)) (seq_min we se));
          let s := upd_local_rx_last_seq (Some (seq_number r)) s in
          a ← seq_sub (seq_max (next_ack s) (seq_number r)) (seq_number r);
          b ← seq_sub (seq_min we se) (seq_number r);
          data ← slice (payload r) a b;
          offset ← seq_sub (seq_max (next_ack s) (seq_number r)) (next_ack s);
          Ret (Go (s, data, offset))
        else
          s ← (if state_eqb (sk_state s) TimeWait
               then t ← timer_set_for_close (cx_now cx); Ret (upd_timer t s) else Ret s);
          done_challenge cx s ip r) (fun f => match f with
      | Done cx' s' o => stays cx s ip r cx' s' o
      | Go (s1, data, offset) =>
        sk_core s1 /\ same_flow s s1 /\ sk_rtte s1 = sk_rtte s /\ seg_data s r data offset
      end)).
  { intros Hl1 Hl2. destruct (segment_in_window _ _ _ _) as [[|]|] eqn:Ew.
    - rewrite bind_Ret. cbv zeta.
      destruct (window_overlap (sk_remote_seq_no s) (rb_length (sk_rx_buffer s)) (rb_capacity (sk_rx_buffer s))
        (seq_number r) (Zlen (payload r)) Hss Hl Hcap ltac:(mlia) Ew)
        as (a & n & off & E1 & E2 & E3 & E4 & Ha & Hn' & Han & Hoff & Hon & Eoff).
      fold (next_ack s) we se in E1, E2, E3, E4, Eoff. rewrite E1. cbn [passert]. rewrite bind_Ret.
      change (next_ack (upd_local_rx_last_seq _ s)) with (next_ack s).
      rewrite E2, bind_Ret, E3, bind_Ret. rewrite slice_ok, bind_Ret by lia. rewrite E4, bind_Ret. cbn [wp].
      rewrite Z.add_simpl_l. assert (Hz : Zlen (sub (payload r) a n) = n) by (apply Zlen_sub; lia).
      split; [core_solve|]. split; [constructor; by sk_simpl|]. split; [by sk_simpl|].
      unfold seg_data. rewrite Hz. split; [done|]. split; [lia|]. intros _. split; [done|]. split; [done|].
      exists a. auto.
    - rewrite bind_Ret. destr_if.
      + rewrite timer_set_for_close_ok, !bind_Ret by done.
        set (s1 := upd_timer _ s). assert (Hf : same_flow s s1) by (unfold s1; constructor; by sk_simpl).
        assert (Hc1 : sk_core s1) by (unfold s1; core_solve; exact I).
        eapply wp_mono; [apply done_challenge_ok; auto; by eapply same_flow_sack|].
        intros [cx' s' o|]; [|done]. intros (-> & Hc' & Hf' & Ho). split; [done|]. split; [done|].
        split; [by transitivity s1|done].
      + rewrite bind_Ret. eapply wp_mono; [by apply done_challenge_ok|]. by intros [].
    - exfalso. revert Ew. unfold segment_in_window. rewrite (seq_sub_usize_ok (next_ack s) 1) by mlia.
      rewrite bind_Ret. by repeat case_match. }
  destruct (sk_state s) eqn:Est; try (by apply Hmain);
  cbn [wp]; (split; [done|]; split; [reflexivity|]; split; done).
Qed.

(** ** Acknowledged octets *)

(** The octets acknowledged, and whether the FIN is. *)
Definition ack_facts (s : Socket) (r : TcpRepr) (ack_len : Z) (ack_of_fin : bool) : Prop :=
  0 <= ack_len <= rb_length (sk_tx_buffer s) /\
  (ack_of_fin = true -> snd (sent_flags (sk_state s)) = true /\ ack_len = rb_length (sk_tx_buffer s)) /\
  match control r, ack_number r with
  | CtlRst, _ | _, None => ack_len = 0 /\ ack_of_fin = false
  | _, Some a =>
      seq_wrap (a - sk_local_seq_no s) = ack_len + b2z (fst (sent_flags (sk_state s))) + b2z ack_of_fin
  end.

Lemma ack_acceptable_flow s s' r : same_flow s s' -> ack_acceptable s r -> ack_acceptable s' r.
Proof.
  intros Hf H. unfold ack_acceptable in *.
  by rewrite (sf_state _ _ Hf), (sf_local _ _ Hf), (sf_tx _ _ Hf).
Qed.

Lemma acknowledged_ok s a :
  sk_wf s -> in_i32 a ->
  (if fst (sent_flags (sk_state s)) then a = seq_wrap (sk_local_seq_no s + 1)
   else 0 <= seq_wrap (a - sk_local_seq_no s) <=
        rb_length (sk_tx_buffer s) + b2z (snd (sent_flags (sk_state s)))) ->
  exists al fin all, acknowledged s a = Ret (al, fin, all) /\
    0 <= al <= rb_length (sk_tx_buffer s) /\
    (fin = true -> snd (sent_flags (sk_state s)) = true /\ al = rb_length (sk_tx_buffer s)) /\
    seq_wrap (a - sk_local_seq_no s) = al + b2z (fst (sent_flags (sk_state s))) + b2z fin.
Proof.
  intros [Hc Hs] Ha H. destruct (core_tx s Hc) as [([? ?] & _) ?]. destruct Hs as (Hli & _ & _ & Hop).
  unfold acknowledged, rb_len. destruct (sent_flags (sk_state s)) as [syn fin] eqn:Ef. cbn [fst snd] in *.
  destruct syn.
  - assert (fin = false) as -> by (destruct (sk_state s); cbn in Ef; congruence).
    assert (Ht : rb_length (sk_tx_buffer s) = 0) by (apply Hop; destruct (sk_state s); done || (cbn in Ef; congruence)).
    cbn [b2z]. seq_step. rewrite <- H. unfold seq_ge, seq_sub. rewrite Z.sub_diag. change (seq_wrap 0) with 0. cbn [Z.leb Z.ltb Z.compare].
    rewrite bind_Ret.
    rewrite usize_add_ok, bind_Ret by mlia. cbn [andb]. rewrite bind_Ret.
    exists 0, false, (seq_le (sk_remote_last_seq s) a). split; [done|]. split; [lia|]. split; [done|]. subst a. cbn. clear -Hli. seq_lia.
  - cbn [b2z]. seq_step. rewrite Z.add_0_r, (seq_wrap_id (sk_local_seq_no s)) by done.
    unfold seq_ge. replace (0 <=? seq_wrap (a - sk_local_seq_no s)) with true by lia.
    rewrite seq_sub_ok, bind_Ret by lia. set (d := seq_wrap (a - sk_local_seq_no s)) in *.
    rewrite usize_add_ok, bind_Ret by mlia. destruct fin; cbn [andb b2z] in *.
    + destruct (Z.eqb_spec (rb_length (sk_tx_buffer s) + 1) d) as [E|E].
      * rewrite usize_sub_ok, bind_Ret by mlia. do 3 eexists. split; [reflexivity|].
        split; [lia|]. split; [split; [done|lia]|cbn; lia].
      * rewrite bind_Ret. do 3 eexists. split; [reflexivity|]. split; [lia|]. split; [done|cbn; lia].
    + rewrite bind_Ret. do 3 eexists. split; [reflexivity|]. split; [lia|]. split; [done|cbn; lia].
Qed.

Lemma process_ack_len_ok cx s r :
  sk_wf s -> repr_ok r -> time_ok (cx_now cx) -> rtte_fresh (sk_rtte s) (cx_now cx) ->
  ack_acceptable s r ->
  wp (process_ack_len cx s r) (fun '(s', ack_len, ack_of_fin, ack_all) =>
    sk_core s' /\ same_flow s s' /\ ack_facts s r ack_len ack_of_fin).
Proof.
  intros Hwf Hr Hn Hf Hack. pose proof Hwf as [Hc _]. pose proof Hr as (_ & Ha & _).
  destruct (core_tx s Hc) as [([? ?] & _) ?].
  assert (Hzero : (control r = CtlRst \/ ack_number r = None) ->
    sk_core s /\ same_flow s s /\ ack_facts s r 0 false).
  { intros Hz. split; [done|]. split; [reflexivity|]. split; [lia|]. split; [done|].
    destruct Hz as [-> | ->]; [done|]. by destruct (control r). }
  unfold process_ack_len. destruct (ack_number r) as [a|] eqn:Ea; [|destruct (control r); apply Hzero; auto].
  destruct (decide (control r = CtlRst)) as [E|E]; [rewrite E; apply Hzero; auto|].
  unfold ack_acceptable in Hack. rewrite Ea in Hack. destruct (Hack E) as (_ & _ & Hrange).
  destruct (acknowledged_ok s a Hwf Ha Hrange) as (al & fin & all & Eal & Hal & Hfin & Heq).
  assert (Hgoal : wp
    ('(ack_len, ack_of_fin, ack_all) ← acknowledged s a;
     rtte ← rtte_on_ack (sk_rtte s) (cx_now cx) a;
     let s := upd_rtte rtte s in
     let s := upd_congestion_controller
                (ctl_on_ack (sk_congestion_controller s) (cx_now cx) ack_len (sk_rtte s)) s in
     Ret (s, ack_len, ack_of_fin, ack_all)) (fun '(s', ack_len, ack_of_fin, ack_all) =>
    sk_core s' /\ same_flow s s' /\ ack_facts s r ack_len ack_of_fin)).
  { rewrite Eal, bind_Ret.
    wp_bind_with (rtte_on_ack_ok (sk_rtte s) (cx_now cx) a (core_rtte s Hc) Hf Hn).
    intros rtte [Hrt _]. cbn [wp]. split; [core_solve; apply law_on_ack; auto; lia|].
    split; [constructor; by sk_simpl|]. split; [done|]. split; [done|].
    rewrite Ea. by destruct (control r). }
  destruct (control r); done.
Qed.
