(* ===== verification/TcpTransitionLemmas.v ===== *)
(** * The TCP socket: state changes by a segment (socket/tcp.rs, [process])

    The edges of the TCP state diagram a segment can take, and the stage of [process] that
    takes them. *)

From S2P Require Import Prelude SeqNumber RingBuffer Assembler TimeModel TcpTimers Congestion IpTypes TcpRepr IfaceContext TcpSocket TcpProcess TcpInvariant TcpReplyLemmas TcpProcessLemmas.

(** Edges of the state diagram (RFC 9293, figure 5, with the transition of SYN-RECEIVED on a
    FIN and resets), by the control flag of the segment. *)
Inductive segment_edge : Control -> State -> State -> Prop :=
| edge_listen_syn : segment_edge CtlSyn Listen SynReceived
| edge_syn_sent_syn_ack : segment_edge CtlSyn SynSent Established
| edge_syn_sent_syn : segment_edge CtlSyn SynSent SynReceived
| edge_syn_received_ack : segment_edge CtlNone SynReceived Established
| edge_syn_received_fin : segment_edge CtlFin SynReceived CloseWait
| edge_established_fin : segment_edge CtlFin Established CloseWait
| edge_fin_wait_1_ack : segment_edge CtlNone FinWait1 FinWait2
| edge_fin_wait_1_fin : segment_edge CtlFin FinWait1 Closing
| edge_fin_wait_1_fin_ack : segment_edge CtlFin FinWait1 TimeWait
| edge_fin_wait_2_fin : segment_edge CtlFin FinWait2 TimeWait
| edge_closing_ack : segment_edge CtlNone Closing TimeWait
| edge_last_ack_ack : segment_edge CtlNone LastAck Closed
| edge_syn_received_rst : segment_edge CtlRst SynReceived Listen
| edge_rst st : st <> Listen -> segment_edge CtlRst st Closed.

Definition state_moves (c : Control) (st st' : State) : Prop := st' = st \/ segment_edge c st st'.

Create HintDb tcp.

#[export] Hint Constructors segment_edge : tcp.
#[export] Hint Unfold state_moves : tcp.

(** The buffers are unchanged. *)
Definition data_same (s s' : Socket) : Prop :=
  sk_rx_buffer s' = sk_rx_buffer s /\ sk_assembler s' = sk_assembler s /\ sk_tx_buffer s' = sk_tx_buffer s.

(** Between the transition and the update of [local_seq_no]: the acknowledgement leaves no
    more in flight than the transmit buffer will hold. *)
Definition seq_mid (s : Socket) (r : TcpRepr) (ack_len : Z) : Prop :=
  0 <= ack_len <= rb_length (sk_tx_buffer s) /\
  match ack_number r with
  | Some a =>
      in_i32 (sk_local_seq_no s) /\ in_i32 (sk_remote_last_seq s) /\
      0 <= in_flight s <= 2 ^ 30 + 1 /\
      0 <= seq_wrap (a - sk_local_seq_no s) <= 2 ^ 30 + 1 /\
      in_flight s - seq_wrap (a - sk_local_seq_no s) <=
        rb_length (sk_tx_buffer s) - ack_len + ctl_room (sk_state s) /\
      (is_opening (sk_state s) = true -> rb_length (sk_tx_buffer s) = 0)
  | None => ack_len = 0 /\ sk_seq s
  end.

(** What the transition does to the reception side, once synchronized. *)
Definition remote_moves (c : Control) (s s' : Socket) : Prop :=
  sk_state s <> Listen -> sk_state s <> SynSent ->
  sk_remote_has_sack s' = sk_remote_has_sack s /\
  (sk_remote_seq_no s' = sk_remote_seq_no s /\ sk_rx_fin_received s' = sk_rx_fin_received s \/
   c = CtlFin /\ sk_remote_seq_no s' = seq_wrap (sk_remote_seq_no s + 1) /\ sk_rx_fin_received s' = true).

Definition transition_post (cx : Context) (s : Socket) (r : TcpRepr) (c : Control) (ack_len : Z)
  (f : flow (Context * Socket)) : Prop :=
  match f with
  | Done cx' s' o =>
      cx' = cx /\ o = None /\ sk_wf s' /\ data_same s s' /\ remote_moves c s s' /\
      state_moves c (sk_state s) (sk_state s') /\
      (sk_state s' <> sk_state s -> c = CtlRst) /\
      (sk_state s <> Listen -> sk_local_seq_no s' = sk_local_seq_no s)
  | Go (cx', s') =>
      same_cx cx cx' /\ sk_core s' /\ data_same s s' /\ seq_mid s' r ack_len /\
      remote_moves c s s' /\ state_moves c (sk_state s) (sk_state s') /\ c <> CtlRst /\
      (sk_state s <> Listen -> sk_local_seq_no s' = sk_local_seq_no s)
  end.

(** A state change by [set_state] that makes no more room than the acknowledged flags free. *)
Lemma seq_mid_keep s s' r al fin :
  sk_wf s -> control r <> CtlRst -> ack_acceptable s r -> ack_facts s r al fin ->
  sk_state s <> Listen -> sk_state s <> SynSent ->
  sk_tx_buffer s' = sk_tx_buffer s -> sk_local_seq_no s' = sk_local_seq_no s ->
  sk_remote_last_seq s' = sk_remote_last_seq s ->
  ctl_room (sk_state s) <= ctl_room (sk_state s') + b2z (fst (sent_flags (sk_state s))) + b2z fin ->
  is_opening (sk_state s') = false ->
  seq_mid s' r al.
Proof.
  intros [Hc Hs] Hr Hack (Hal & _ & Hf) Hl1 Hl2 Htx Hlo Hla Hroom Hop.
  destruct (core_tx s Hc) as [([? ?] & _) ?]. destruct Hs as (Hli & Hlast & Hfl & _).
  specialize (Hack Hr). unfold seq_mid. rewrite Htx, Hlo, Hla, Hop. split; [done|].
  destruct (ack_number r) as [a|]; [|destruct Hack as [|[]]; done].
  assert (Heq : seq_wrap (a - sk_local_seq_no s) =
    al + b2z (fst (sent_flags (sk_state s))) + b2z fin) by (by destruct (control r)).
  unfold in_flight. rewrite Hlo, Hla, Heq.
  assert (0 <= b2z (fst (sent_flags (sk_state s))) <= 1) by (destruct (sent_flags _) as [[] ?]; cbn; lia).
  assert (0 <= b2z fin <= 1) by (destruct fin; cbn; lia).
  assert (ctl_room (sk_state s) <= 1) by (destruct (sk_state s); cbn; lia).
  assert (Hb : 0 <= seq_wrap (a - sk_local_seq_no s) <= 2 ^ 30 + 1).
  { destruct Hack as (_ & _ & Hack). destruct (sent_flags (sk_state s)) as [[] []] eqn:Ef; cbn [fst snd b2z] in *;
    try lia; subst a; clear -Hli; seq_lia. }
  split; [done|]. split; [done|]. split; [lia|]. split; [lia|]. split; [lia|done].
Qed.

Lemma effective_control_cases ws r :
  (effective_control ws r = CtlRst <-> control r = CtlRst) /\
  (effective_control ws r = CtlSyn <-> control r = CtlSyn) /\
  (effective_control ws r = CtlFin -> control r = CtlFin) /\
  effective_control ws r <> CtlPsh.
Proof.
  unfold effective_control. destruct (control r); cbn; try by repeat split.
  destruct (seq_lt _ _); by repeat split.
Qed.

Lemma receive_fin_ok s :
  receive_fin s = Ret (upd_rx_fin_received true (upd_remote_seq_no (seq_wrap (sk_remote_seq_no s + 1)) s)).
Proof. unfold receive_fin. by seq_step. Qed.

Lemma enter_time_wait_ok cx s :
  time_ok (cx_now cx) ->
  enter_time_wait cx s = Ret (upd_timer (TimerClose (cx_now cx + CLOSE_DELAY)) (set_state TimeWait s)).
Proof. intros. unfold enter_time_wait. by rewrite timer_set_for_close_ok, bind_Ret. Qed.

(** The options of a SYN keep the core, and touch nothing data flows by. *)
Definition syn_same (s s' : Socket) : Prop :=
  data_same s s' /\ sk_state s' = sk_state s /\ sk_local_seq_no s' = sk_local_seq_no s /\
  sk_remote_last_seq s' = sk_remote_last_seq s /\ sk_tuple s' = sk_tuple s /\
  sk_keep_alive s' = sk_keep_alive s /\ sk_remote_seq_no s' = sk_remote_seq_no s /\
  sk_rx_fin_received s' = sk_rx_fin_received s.

Lemma apply_mss_ok s r :
  sk_core s -> repr_ok r -> opt_prop (fun s' => sk_core s' /\ syn_same s s') (apply_mss s r).
Proof.
  intros Hc (_ & _ & _ & _ & Hm & _). unfold apply_mss. destruct (max_seg_size r) as [m|]; cbn [opt_prop] in *.
  - destr_if; [exact I|]. cbn [opt_prop]. split; [|unfold syn_same, data_same; by sk_simpl].
    core_solve; [apply law_set_mss; auto|]; mlia.
  - split; [done|]. unfold syn_same, data_same. done.
Qed.

Lemma apply_syn_options_ok s r :
  sk_core s -> repr_ok r -> sk_core (apply_syn_options s r) /\ syn_same s (apply_syn_options s r).
Proof.
  intros Hc (_ & _ & _ & Hw & _ & _). unfold apply_syn_options, syn_same, data_same.
  destruct (window_scale r), (repr_timestamp r); sk_simpl; (split; [core_solve; lia|by repeat split]).
Qed.

(** ** The transition *)

Lemma transition_drop_ok cx s r c al : sk_wf s -> transition_post cx s r c al (Done cx s None).
Proof.
  intros Hwf. cbn [transition_post]. split; [done|]. split; [done|]. split; [done|].
  split; [done|]. split; [intros _ _; split; [done|by left]|]. split; [by left|]. split; done.
Qed.

Lemma transition_rst_ok cx s r al :
  sk_wf s -> sk_state s <> Listen ->
  wp (if state_eqb (sk_state s) SynReceived && negb (lep_port (sk_listen_endpoint s) =? 0)
      then Ret (Done cx (set_state Listen (upd_tuple None s)) None)
      else Ret (Done cx (upd_tuple None (set_state Closed s)) None))
    (transition_post cx s r CtlRst al).
Proof.
  intros [Hc Hs] Hl. unfold state_eqb. case_bool_decide as E; cbn [andb]; [destr_if|];
    cbn [wp transition_post]; (split; [done|]; split; [done|]; split;
      [split; [unfold set_state; core_solve; exact I|]|split; [done|split]]).
  all: try (unfold remote_moves; intros; split; [done|by left]).
  all: try (unfold set_state, state_moves; sk_simpl; split; [right; rewrite ?E; eauto using segment_edge|split; done]).
  - unfold sk_seq, seq_inv, set_state in *. sk_simpl. rewrite E in Hs. exact Hs.
  - unfold sk_seq, seq_inv, set_state in *. sk_simpl. destruct Hs as (? & ? & ? & _).
    split; [done|]. split; [done|]. split; [|done]. destruct (sk_state s); cbn in *; lia.
  - unfold sk_seq, seq_inv, set_state in *. sk_simpl. destruct Hs as (? & ? & ? & _).
    split; [done|]. split; [done|]. split; [|done]. destruct (sk_state s); cbn in *; lia.
Qed.

Lemma syn_in_listen_ok cx s ip r al :
  sk_wf s -> repr_ok r -> time_ok (cx_now cx) -> sk_state s = Listen -> ack_number r = None -> al = 0 ->
  wp (syn_in_listen cx s ip r) (transition_post cx s r CtlSyn al).
Proof.
  intros [Hc Hs] Hr Hn El Ea ->. unfold syn_in_listen.
  pose proof (apply_mss_ok s r Hc Hr) as Hm. destruct (apply_mss s r) as [s1|]; cbn [opt_prop] in Hm.
  2: by apply transition_drop_ok.
  destruct Hm as [Hc1 ((E1 & E2 & E3) & _)].
  destruct (random_seq_no cx) as [cx' seq] eqn:Er. destruct (random_seq_no_i32 cx) as [Hseq Hnow].
  rewrite Er in Hseq, Hnow. cbn [fst snd] in Hseq, Hnow.
  set (s2 := upd_tuple _ s1).
  assert (Hc2 : sk_core s2).
  { destruct (ip_repr_versions ip) as [Hsrc Hdst]. unfold s2. core_solve. cbn. unfold tuple_inv. cbn. congruence. }
  set (s3 := upd_local_seq_no seq s2). seq_step. cbv zeta.
  set (s4 := upd_remote_last_seq _ _).
  assert (Hc4 : sk_core s4) by (unfold s4, s3; clearbody s2; core_solve; apply seq_wrap_range).
  assert (H4 : data_same s s4 /\ sk_local_seq_no s4 = seq /\ sk_remote_last_seq s4 = seq)
    by (unfold data_same, s4, s3, s2; by sk_simpl).
  clearbody s4. destruct H4 as [Hd4 [E4 E4']].
  destruct (apply_syn_options_ok s4 r Hc4 Hr) as [Hc5 (Hd5 & _ & E5 & E5' & _)].
  set (s5 := apply_syn_options s4 r) in *. clearbody s5.
  pose proof (wake_state SynReceived s5 Hc5) as Hc6.
  set (s6 := set_state SynReceived s5) in *.
  assert (H6 : sk_state s6 = SynReceived /\ sk_local_seq_no s6 = seq /\ sk_remote_last_seq s6 = seq /\ data_same s s6).
  { unfold data_same, s6, set_state in *. sk_simpl. intuition congruence. }
  clearbody s6. destruct H6 as (Est & Elo & Ela & Hd).
  rewrite (proj1 Hnow), timer_set_for_idle_ok, bind_Ret by (done || apply (core_keep_alive s6 Hc6)).
  cbn [wp transition_post]. split; [done|]. split; [core_solve; exact I|]. split; [exact Hd|].
  assert (Hzero : rb_length (sk_tx_buffer s) = 0) by (apply Hs; by rewrite El).
  assert (Htx : sk_tx_buffer s6 = sk_tx_buffer s) by apply Hd.
  split; [unfold seq_mid; rewrite Ea; sk_simpl; rewrite Htx; split; [lia|split; [done|]]|].
  { unfold sk_seq. sk_simpl. rewrite Est, Elo, Ela, Htx. apply seq_inv_same; auto; lia. }
  split; [done|]. sk_simpl. rewrite Est, El. split; [right; constructor|]. split; [done|intros ?; done].
Qed.

Lemma syn_in_syn_sent_ok cx s r al fin :
  sk_wf s -> repr_ok r -> sk_state s = SynSent -> control r = CtlSyn ->
  ack_acceptable s r -> ack_facts s r al fin ->
  wp (syn_in_syn_sent cx s r) (transition_post cx s r CtlSyn al).
Proof.
  intros [Hc Hs] Hr El Ect Hack (Hal & _ & Hf). unfold syn_in_syn_sent.
  pose proof (apply_mss_ok s r Hc Hr) as Hm. destruct (apply_mss s r) as [s1|]; cbn [opt_prop] in Hm.
  2: by apply transition_drop_ok.
  destruct Hm as [Hc1 ((E1 & E2 & E3) & Est1 & Elo1 & _)].
  seq_step. seq_step. cbv zeta. set (s4 := upd_remote_last_ack _ _).
  assert (Hc4 : sk_core s4).
  { unfold s4. core_solve; [apply seq_wrap_range|]. apply Hr. }
  assert (H4 : data_same s s4 /\ sk_local_seq_no s4 = sk_local_seq_no s /\
    sk_remote_last_seq s4 = seq_wrap (sk_local_seq_no s + 1))
    by (unfold data_same, s4; sk_simpl; rewrite Elo1; done).
  clearbody s4. destruct H4 as [Hd4 [E4 E4']].
  destruct (apply_syn_options_ok s4 r Hc4 Hr) as [Hc5 (Hd5 & _ & E5 & E5' & _)].
  set (s5 := apply_syn_options s4 r) in *. clearbody s5.
  assert (Hzero : rb_length (sk_tx_buffer s) = 0) by (apply Hs; by rewrite El).
  destruct Hs as (Hli & _). specialize (Hack ltac:(congruence)).
  assert (Hfl : seq_wrap (seq_wrap (sk_local_seq_no s + 1) - sk_local_seq_no s) = 1) by (clear -Hli; seq_lia).
  cbn [wp transition_post]. split; [done|]. split; [destruct (ack_number r); by apply wake_state|].
  assert (Hd : data_same s s5) by (unfold data_same in *; intuition congruence).
  split; [destruct (ack_number r); exact Hd|].
  assert (Htx : sk_tx_buffer s5 = sk_tx_buffer s) by apply Hd.
  split; [|split; [done|split; [rewrite El; destruct (ack_number r); right; constructor|]]].
  2: { split; [done|]. intros _. destruct (ack_number r); unfold set_state; sk_simpl; congruence. }
  unfold seq_mid. destruct (ack_number r) as [a|] eqn:Ea; unfold set_state, in_flight; sk_simpl;
    rewrite Htx, Hzero; (split; [lia|]).
  - rewrite E5, E5', E4, E4', Hfl. destruct Hack as (_ & _ & Hack). rewrite El in Hack. cbn in Hack.
    subst a. rewrite Hfl. cbn. split; [done|]. split; [apply seq_wrap_range|]. split; [lia|]. split; [lia|].
    split; [lia|done].
  - split; [lia|]. unfold sk_seq, seq_inv. sk_simpl. rewrite Htx, Hzero, E5, E5', E4, E4', Hfl. cbn.
    split; [done|]. split; [apply seq_wrap_range|]. split; [lia|done].
Qed.

(** A change of state with the buffers and sequence numbers kept. *)
Lemma transition_state_ok cx s s' r c al fin :
  sk_wf s -> control r <> CtlRst -> c <> CtlRst -> ack_acceptable s r -> ack_facts s r al fin ->
  sk_state s <> Listen -> sk_state s <> SynSent ->
  sk_core s' -> data_same s s' -> sk_local_seq_no s' = sk_local_seq_no s ->
  sk_remote_last_seq s' = sk_remote_last_seq s -> remote_moves c s s' ->
  ctl_room (sk_state s) <= ctl_room (sk_state s') + b2z (fst (sent_flags (sk_state s))) + b2z fin ->
  is_opening (sk_state s') = false -> state_moves c (sk_state s) (sk_state s') ->
  transition_post cx s r c al (Go (cx, s')).
Proof.
  intros. cbn [transition_post]. split; [done|]. split; [done|]. split; [done|].
  split; [|by split_and!]. eapply seq_mid_keep; eauto. unfold data_same in *. tauto.
Qed.

Lemma receive_fin_core s : sk_core s ->
  let s' := upd_rx_fin_received true (upd_remote_seq_no (seq_wrap (sk_remote_seq_no s + 1)) s) in
  sk_core s'.
Proof. intros Hc s'. unfold s'. core_solve. apply seq_wrap_range. Qed.

(** The premises of [transition_state_ok] for a concrete new state. *)
Ltac transition_goal :=
  unfold set_state; sk_simpl; repeat match goal with H : sk_state _ = _ |- _ => rewrite H end;
  lazymatch goal with
  | |- sk_core _ => core_solve; first [exact I | apply seq_wrap_range]
  | |- data_same _ _ => unfold data_same; by sk_simpl
  | |- remote_moves _ _ _ => unfold remote_moves; sk_simpl; intros _ _; auto
  | |- _ <= _ => repeat match goal with b : bool |- _ => destruct b end; cbn; lia
  | |- state_moves _ _ _ => auto with tcp
  | |- _ => first [done | congruence | eassumption]
  end.

Ltac transition_state := eapply transition_state_ok; [ .. | transition_goal ]; transition_goal.

Lemma transition_none_ok cx s ip r al fin :
  sk_wf s -> control r <> CtlRst -> time_ok (cx_now cx) -> ack_acceptable s r -> ack_facts s r al fin ->
  wp (process_transition cx s ip r CtlNone fin) (transition_post cx s r CtlNone al).
Proof.
  intros Hwf Hr Hn Hack Hfacts. pose proof Hwf as [Hc Hs]. unfold process_transition.
  assert (Hdone : transition_post cx s r CtlNone al (Done cx s None))
    by (by apply transition_drop_ok).
  destruct (sk_state s) eqn:Est; try exact Hdone; cbn [wp].
  - transition_state.
  - transition_state.
  - destruct fin; transition_state.
  - transition_state.
  - transition_state.
  - destruct fin; [rewrite enter_time_wait_ok by done|]; rewrite bind_Ret; cbn [wp]; transition_state.
  - destruct fin; transition_state.
Qed.

Lemma transition_fin_ok cx s ip r al fin :
  sk_wf s -> control r <> CtlRst -> time_ok (cx_now cx) -> ack_acceptable s r -> ack_facts s r al fin ->
  wp (process_transition cx s ip r CtlFin fin) (transition_post cx s r CtlFin al).
Proof.
  intros Hwf Hr Hn Hack Hfacts. pose proof Hwf as [Hc Hs]. unfold process_transition.
  assert (Hdone : transition_post cx s r CtlFin al (Done cx s None))
    by (by apply transition_drop_ok).
  rewrite receive_fin_ok, !bind_Ret.
  destruct (sk_state s) eqn:Est; try exact Hdone; cbn [wp].
  - transition_state.
  - transition_state.
  - destruct fin; [rewrite enter_time_wait_ok by done|]; rewrite bind_Ret; cbn [wp]; transition_state.
  - rewrite enter_time_wait_ok, bind_Ret by done; cbn [wp]; transition_state.
Qed.

Lemma process_transition_ok cx s ip r al fin ws :
  sk_wf s -> repr_ok r -> time_ok (cx_now cx) -> ack_acceptable s r -> ack_facts s r al fin ->
  (sk_state s = Listen -> control r <> CtlRst) ->
  let c := effective_control ws r in
  wp (process_transition cx s ip r c fin) (transition_post cx s r c al).
Proof.
  intros Hwf Hr Hn Hack Hfacts Hl c. pose proof Hwf as [Hc Hs].
  destruct (effective_control_cases ws r) as (Erst & Esyn & Efin & Epsh). fold c in Erst, Esyn, Efin, Epsh.
  assert (Hnr : c <> CtlRst -> control r <> CtlRst) by (intros ??; tauto).
  destruct c eqn:Ec; [| done | | |].
  - apply transition_none_ok; auto; by apply Hnr.
  - assert (Hsyn : control r = CtlSyn) by tauto. unfold process_transition.
    assert (Hdone : transition_post cx s r CtlSyn al (Done cx s None))
    by (by apply transition_drop_ok).
    destruct (sk_state s) eqn:Est; try exact Hdone.
    + specialize (Hack ltac:(congruence)). destruct Hfacts as (_ & _ & Hf).
      destruct (ack_number r) eqn:Ea; [by destruct Hack|].
      apply syn_in_listen_ok; auto. rewrite Hsyn in Hf. tauto.
    + by eapply syn_in_syn_sent_ok.
  - apply transition_fin_ok; auto; by apply Hnr.
  - assert (Hnl : sk_state s <> Listen) by (intros E; apply Hl; tauto).
    unfold process_transition. pose proof (transition_rst_ok cx s r al Hwf Hnl) as H.
    destruct (sk_state s); done.
Qed.
