(* ===== verification/TcpReceiveLemmas.v ===== *)
(** * The TCP socket: remote state, timers and payload (socket/tcp.rs, [process])

    The stages of [process] behind the state change, and how the receive buffer grows with
    the stream of the remote end. *)

From S2P Require Import Prelude SeqNumber RingBuffer Assembler TimeModel TcpTimers Congestion IpTypes TcpRepr IfaceContext TcpSocket TcpProcess TcpInvariant TcpReplyLemmas TcpProcessLemmas TcpTransitionLemmas.

(** ** The acknowledged octets leave the transmit buffer *)

(** The fields of the reception side and of the connection are unchanged. *)
Definition rx_same (s s' : Socket) : Prop :=
  sk_state s' = sk_state s /\ sk_rx_buffer s' = sk_rx_buffer s /\ sk_assembler s' = sk_assembler s /\
  sk_rx_fin_received s' = sk_rx_fin_received s /\ sk_remote_seq_no s' = sk_remote_seq_no s /\
  sk_remote_has_sack s' = sk_remote_has_sack s.

#[export] Instance rx_same_trans : Transitive rx_same.
Proof. intros a b c. unfold rx_same. intuition congruence. Qed.

Lemma same_flow_rx s s' : same_flow s s' -> rx_same s s'.
Proof. intros []. by repeat split. Qed.

Lemma window_shl_ok w n :
  in_u16 w -> 0 <= n <= 14 -> exists x, usize_shl w n = Ret x /\ 0 <= x <= 2 ^ 30 /\ x = w * 2 ^ n.
Proof.
  intros Hw Hn. unfold usize_shl. replace (n <? 64) with true by lia.
  assert (2 ^ n <= 2 ^ 14) by (apply Z.pow_le_mono_r; lia). assert (0 < 2 ^ n) by (apply Z.pow_pos_nonneg; lia).
  rewrite Z.shiftl_mul_pow2 by lia. assert (0 <= w * 2 ^ n <= 2 ^ 30) by (unfold_max; nia).
  rewrite wrap_u_id by lia. eauto.
Qed.

Definition remote_post (s s' : Socket) (ack_len : Z) : Prop :=
  sk_core s' /\ rx_same s s' /\ sk_local_seq_no s' = sk_local_seq_no s /\
  sk_remote_last_seq s' = sk_remote_last_seq s /\
  rb_length (sk_tx_buffer s') = rb_length (sk_tx_buffer s) - ack_len /\
  rb_contents (sk_tx_buffer s') = drop (Z.to_nat ack_len) (rb_contents (sk_tx_buffer s)).

Lemma remote_win_ok s now w :
  sk_core s -> time_ok now -> 0 <= w <= 2 ^ 30 ->
  let s' := upd_congestion_controller (ctl_set_remote_window (sk_congestion_controller s) w)
              (upd_remote_win_len w (upd_remote_last_ts (Some now) s)) in
  sk_core s' /\ same_flow s s'.
Proof.
  intros Hc Hn Hw s'. unfold s'. split; [|constructor; by sk_simpl].
  core_solve. apply law_set_remote_window; [done|mlia].
Qed.

Lemma process_remote_ok cx s r al :
  sk_core s -> repr_ok r -> time_ok (cx_now cx) -> 0 <= al <= rb_length (sk_tx_buffer s) ->
  wp (process_remote cx s r al) (fun '(s', _) => remote_post s s' al).
Proof.
  intros Hc (_ & _ & Hw & _) Hn Hal. destruct (core_tx s Hc) as [Htx Hcap].
  unfold process_remote. cbv zeta.
  set (n := match control r with CtlSyn => 0 | _ => _ end).
  assert (Hs : 0 <= n <= 14).
  { unfold n. sk_simpl. pose proof (core_scale s Hc). destruct (control r); try lia;
      destruct (sk_remote_win_scale s); cbn in *; lia. }
  destruct (window_shl_ok (window_len r) n Hw Hs) as (x & -> & Hx & _). rewrite bind_Ret.
  destruct (remote_win_ok s (cx_now cx) x Hc Hn Hx) as [Hc1 Hf].
  change (sk_congestion_controller (upd_remote_win_len x (upd_remote_last_ts (Some (cx_now cx)) s)))
    with (sk_congestion_controller s).
  set (s1 := upd_congestion_controller _ _) in *. clearbody s1.
  destruct (Z.ltb_spec 0 al) as [Hpos|Hz].
  - rewrite (sf_tx _ _ Hf). unfold rb_len. replace (al <=? rb_length (sk_tx_buffer s)) with true by lia.
    cbn [passert]. rewrite bind_Ret, rb_dequeue_allocated_ok, !bind_Ret by done.
    destruct (rb_advance_contents (sk_tx_buffer s) al Htx Hal) as (Hwf' & Hcont & _).
    set (tx := mkRingBuffer _ _ _) in *. cbn [wp].
    assert (Hf' := same_flow_rx _ _ Hf).
    split; [core_solve; by split|]. split; [unfold rx_same in *; sk_simpl; tauto|]. sk_simpl.
    split; [apply (sf_local _ _ Hf)|]. split; [apply (sf_last _ _ Hf)|]. split; [|done]. reflexivity.
  - rewrite bind_Ret. cbn [wp]. assert (al = 0) as -> by lia. split; [done|].
    split; [by apply same_flow_rx|]. split; [apply (sf_local _ _ Hf)|]. split; [apply (sf_last _ _ Hf)|].
    rewrite (sf_tx _ _ Hf), drop_0. split; [lia|done].
Qed.

(** ** Duplicate acknowledgements *)


Lemma dup_ack_counters_ok cx s r w a :
  sk_core s -> time_ok (cx_now cx) -> ack_number r = Some a ->
  exists s1, sk_core s1 /\ same_flow s s1 /\
    process_dup_ack cx s r w =
      (let s2 := upd_local_seq_no a s1 in
       if seq_lt (sk_remote_last_seq s2) (sk_local_seq_no s2)
       then upd_remote_last_seq (sk_local_seq_no s2) s2 else s2).
Proof.
  intros Hc Hn Ha. unfold process_dup_ack. rewrite Ha. cbv zeta.
  match goal with |- context [upd_local_seq_no a ?s1] => exists s1 end.
  split; [|split; [|done]].
  - destr_if.
    + set (s2 := upd_congestion_controller _ _).
      assert (Hc2 : sk_core s2) by (unfold s2; core_solve; apply law_on_duplicate_ack; auto).
      destr_if; [|done]. clearbody s2. clear Hc. core_solve. exact I.
    + destr_if; core_solve.
  - destr_if; destr_if; constructor; by sk_simpl.
Qed.

Definition dup_ack_post (s s' : Socket) (r : TcpRepr) : Prop :=
  sk_core s' /\ rx_same s s' /\ sk_tx_buffer s' = sk_tx_buffer s /\ sk_seq s' /\
  sk_local_seq_no s' = match ack_number r with Some a => a | None => sk_local_seq_no s end.

(** [s0] is the socket before the acknowledged octets were removed. *)
Lemma process_dup_ack_ok cx s0 s r al w :
  seq_mid s0 r al -> remote_post s0 s al -> repr_ok r -> time_ok (cx_now cx) ->
  dup_ack_post s (process_dup_ack cx s r w) r.
Proof.
  intros (Hal & Hmid) (Hc & Hrx & Hlo & Hla & Hlen & Hcont) (_ & Ha & _) Hn.
  destruct (ack_number r) as [a|] eqn:Ea; cbn [opt_prop] in Ha.
  2: { unfold process_dup_ack. rewrite Ea. destruct Hmid as [-> Hs]. split; [done|]. split; [done|].
       split; [done|]. split; [|by rewrite Ea]. unfold sk_seq in *. destruct Hrx as (-> & _).
       rewrite Hlo, Hla, Hlen, Z.sub_0_r. done. }
  destruct (dup_ack_counters_ok cx s r w a Hc Hn Ea) as (s1 & Hc1 & Hf & ->). cbv zeta. sk_simpl.
  assert (Hst : sk_state s1 = sk_state s0) by (rewrite (sf_state _ _ Hf); apply Hrx).
  destruct Hmid as (Hi & Hi' & Hfl & Hack & Hroom & Hop). unfold in_flight in *.
  rewrite (sf_last _ _ Hf), Hla. destruct (core_tx s Hc) as [([? _] & _) _].
  assert (Hpost : forall l, in_i32 l -> 0 <= seq_wrap (l - a) ->
    (seq_wrap (l - a) = 0 \/ l = sk_remote_last_seq s0) ->
    dup_ack_post s (upd_remote_last_seq l (upd_local_seq_no a s1)) r).
  { intros l Hl Hl0 Hl'. split; [core_solve|]. pose proof (same_flow_rx _ _ Hf) as Hr1.
    split; [unfold rx_same in *; by sk_simpl|]. split; [sk_simpl; apply Hf|].
    split; [|rewrite Ea; by sk_simpl].
    unfold sk_seq, seq_inv. sk_simpl. rewrite (sf_tx _ _ Hf), Hst, Hlen. split; [done|]. split; [done|].
    split; [|intros; rewrite Hop by done; specialize (Hop H0); lia]. split; [done|].
    assert (0 <= ctl_room (sk_state s0)) by (destruct (sk_state s0); cbn; lia).
    destruct Hl' as [->| ->]; [lia|]. clear -Hl0 Hfl Hack Hroom Hi Hi' Ha. seq_lia. }
  destr_if.
  - apply Hpost; [done| |left]; rewrite Z.sub_diag; by vm_compute.
  - pose proof (Hpost (sk_remote_last_seq s0) Hi') as H'.
    replace (upd_local_seq_no a s1) with (upd_remote_last_seq (sk_remote_last_seq s0) (upd_local_seq_no a s1)).
    + apply H'; [unfold seq_lt in Hif; lia | by right].
    + rewrite <- Hla, <- (sf_last _ _ Hf). by destruct s1.
Qed.

(** ** Timers *)

Lemma upd_timer_ok t s : sk_core s -> timer_wf t -> sk_core (upd_timer t s) /\ same_flow s (upd_timer t s).
Proof. intros Hc Ht. split; [core_solve | constructor; by sk_simpl]. Qed.

Lemma idle_timer_ok cx s :
  sk_core s -> time_ok (cx_now cx) ->
  wp (t ← timer_set_for_idle (cx_now cx) (sk_keep_alive s); Ret (upd_timer t s))
    (fun s' => sk_core s' /\ same_flow s s').
Proof.
  intros Hc Hn. rewrite timer_set_for_idle_ok, bind_Ret by (done || apply (core_keep_alive s Hc)).
  cbn [wp]. by apply upd_timer_ok.
Qed.

Lemma rto_time_ok s : sk_core s -> time_ok (rto (sk_rtte s) * 1000) /\ 0 <= rto (sk_rtte s) * 1000 <= RTTE_MAX_RTO * 1000.
Proof. intros Hc. destruct (core_rtte s Hc) as (_ & _ & ? & _). unfold_rtte. lia. Qed.

Lemma process_timers_ok cx s r al all :
  sk_core s -> time_ok (cx_now cx) ->
  wp (process_timers cx s r al all) (fun s' => sk_core s' /\ same_flow s s').
Proof.
  intros Hc Hn. unfold process_timers.
  set (s1 := match repr_timestamp r with Some _ => _ | None => s end).
  assert (H1 : sk_core s1 /\ same_flow s s1).
  { unfold s1. destruct (repr_timestamp r); [|by split]. split; [core_solve|constructor; by sk_simpl]. }
  clearbody s1. destruct H1 as [Hc1 Hf1]. cbv zeta.
  assert (Hid : forall x, sk_core x -> wp (Ret x) (fun s' => sk_core s' /\ same_flow x s')) by (by intros x ?; cbn).
  eapply wp_bind_mono with (P := fun s' => sk_core s' /\ same_flow s1 s').
  { pose proof (rto_time_ok s1 Hc1) as [? _].
    destruct (sk_timer s1) eqn:Et; try (by apply Hid); [by apply idle_timer_ok| |];
      (destr_if; [by apply idle_timer_ok|]; destr_if; [|by apply Hid]);
      rewrite rtte_timeout_ok, bind_Ret by apply (core_rtte s1 Hc1);
      rewrite timer_set_for_retransmit_ok, bind_Ret by done; cbn [wp]; by apply upd_timer_ok. }
  intros s2 [Hc2 Hf2].
  eapply wp_bind_mono with (P := fun s' => sk_core s' /\ same_flow s2 s').
  { pose proof (rto_time_ok s2 Hc2) as [? ?]. destr_if; [|by apply Hid].
    rewrite rtte_timeout_ok, bind_Ret by apply (core_rtte s2 Hc2).
    rewrite timer_set_for_zero_window_probe_ok, bind_Ret by done. cbn [wp]. by apply upd_timer_ok. }
  intros s3 [Hc3 Hf3].
  assert (Hf : same_flow s s3) by (by do 2 (etransitivity; [eassumption|])).
  destr_if; [|done]. eapply wp_mono; [by apply idle_timer_ok|]. intros s4 [? ?]. split; [done|].
  by transitivity s3.
Qed.

(** ** The stream of the remote end *)

(** [data] are the octets of the stream [S] from position [b] on. *)
Definition data_at (S : Z -> Z) (b : Z) (data : list Z) : Prop :=
  forall i, 0 <= i < Zlen data -> data !! Z.to_nat i = Some (S (b + i)).

(** The receive buffer and the assembler hold octets of the stream [S], the first octet of
    the buffer the one at position [b]. *)
Definition stream_at (S : Z -> Z) (b : Z) (rx : RingBuffer Z) (a : Assembler) : Prop :=
  forall k, 0 <= k < rb_capacity rx ->
  k < rb_length rx \/ covered a (k - rb_length rx) = true ->
  rb_view rx !! Z.to_nat k = Some (S (b + k)).

Lemma stream_contents S b rx a : rb_wf rx -> stream_at S b rx a -> data_at S b (rb_contents rx).
Proof.
  intros Hwf Hs i Hi. rewrite Zlen_contents in Hi by done. unfold rb_contents. rewrite lookup_take_lt by lia.
  apply Hs; [destruct Hwf; lia|left; lia].
Qed.

(** Writing octets of the stream where they belong, and moving the run at the front of the
    assembler to the buffer, keeps the stream. *)
Lemma stream_receive S b rx a a' n data offset st :
  rb_wf rx -> 0 <= offset -> offset + Zlen data <= rb_capacity rx - rb_length rx ->
  Zlen st = rb_capacity rx ->
  rb_view (mkRingBuffer st (rb_read_at rx) (rb_length rx)) = splice (rb_view rx) (rb_length rx + offset) data ->
  front_run (fun x => covered a x || ((offset <=? x) && (x <? offset + Zlen data))) n a' ->
  data_at S (b + rb_length rx + offset) data -> stream_at S b rx a ->
  stream_at S b (mkRingBuffer st (rb_read_at rx) (rb_length rx + n)) a'.
Proof.
  intros Hwf Ho Hfit Hst Hv (Hn & Hrun & _ & Hcov) Hd Hs k Hk Hin.
  change (rb_view (mkRingBuffer st (rb_read_at rx) (rb_length rx + n)))
    with (rb_view (mkRingBuffer st (rb_read_at rx) (rb_length rx))). rewrite Hv.
  unfold rb_capacity in Hk. cbn [rb_storage rb_length] in *. rewrite Hst in Hk.
  pose proof (Zlen_rb_view rx Hwf) as Hvl. pose proof Hwf as ([? ?] & _). pose proof (Zlen_nonneg data).
  assert (Hu : k < rb_length rx \/ covered a (k - rb_length rx) = true \/
    offset <= k - rb_length rx < offset + Zlen data).
  { destruct (Z.lt_ge_cases k (rb_length rx + n)) as [Hlt|Hge].
    - destruct (Z.lt_ge_cases k (rb_length rx)); [by left|]. right.
      specialize (Hrun (k - rb_length rx) ltac:(lia)). destruct (covered a _); [by left|right; lia].
    - destruct Hin as [?|Hin]; [lia|]. rewrite Hcov in Hin by lia.
      replace (k - (rb_length rx + n) + n) with (k - rb_length rx) in Hin by lia. right.
      destruct (covered a _); [by left|right; lia]. }
  destruct (decide (offset <= k - rb_length rx < offset + Zlen data)) as [Hr|Hr].
  - rewrite splice_lookup_in by lia. rewrite Hd by lia. do 2 f_equal. lia.
  - rewrite splice_lookup_out by lia. apply Hs; [lia|]. tauto.
Qed.

(** What [process_receive] leaves unchanged. *)
Definition rest_same (s s' : Socket) : Prop :=
  sk_state s' = sk_state s /\ sk_rx_fin_received s' = sk_rx_fin_received s /\
  sk_tx_buffer s' = sk_tx_buffer s /\ sk_local_seq_no s' = sk_local_seq_no s /\
  sk_remote_seq_no s' = sk_remote_seq_no s /\ sk_remote_last_seq s' = sk_remote_last_seq s /\
  sk_remote_has_sack s' = sk_remote_has_sack s /\
  rb_capacity (sk_rx_buffer s') = rb_capacity (sk_rx_buffer s).

#[export] Instance rest_same_trans : Transitive rest_same.
Proof. intros a b c. unfold rest_same. intuition congruence. Qed.

Lemma same_flow_rest s s' : same_flow s s' -> rest_same s s'.
Proof. intros []. unfold rest_same. split_and!; congruence. Qed.

(** The reception side moves on: the run at the front of what is present becomes readable,
    and the stream is kept. *)
Definition rx_moves (s s' : Socket) (data : list Z) (offset : Z) : Prop :=
  (exists n, rb_length (sk_rx_buffer s') = rb_length (sk_rx_buffer s) + n /\
    front_run (fun x => covered (sk_assembler s) x || ((offset <=? x) && (x <? offset + Zlen data))) n
      (sk_assembler s')) /\
  forall S b, data_at S (b + rb_length (sk_rx_buffer s) + offset) data ->
    stream_at S b (sk_rx_buffer s) (sk_assembler s) -> stream_at S b (sk_rx_buffer s') (sk_assembler s').

Lemma rx_inv_receive rx a a' n (data st : list Z) offset :
  rx_inv rx a -> asm_wf a' -> 0 <= offset -> offset + Zlen data <= rb_capacity rx - rb_length rx ->
  Zlen st = rb_capacity rx ->
  front_run (fun x => covered a x || ((offset <=? x) && (x <? offset + Zlen data))) n a' ->
  n <= rb_capacity rx - rb_length rx /\
  rx_inv (mkRingBuffer st (rb_read_at rx) (rb_length rx + n)) a'.
Proof.
  intros (Hwf & Hcap & Ha & Hcov) Ha' Ho Hfit Hst (Hn & Hrun & _ & Hc').
  pose proof Hwf as ([? ?] & ? & ? & ?).
  assert (Hu : forall x, covered a x || ((offset <=? x) && (x <? offset + Zlen data)) = true ->
    x < rb_capacity rx - rb_length rx).
  { intros x Hx. destruct (covered a x) eqn:E; [by apply Hcov|lia]. }
  assert (Hmax : n <= rb_capacity rx - rb_length rx).
  { destruct (Z.eq_dec n 0); [lia|]. specialize (Hu (n - 1) (Hrun (n - 1) ltac:(lia))). lia. }
  split; [done|]. unfold rx_inv, rb_wf. unfold rb_capacity in *. cbn [rb_storage rb_length rb_read_at]. rewrite Hst.
  split_and!; try done; try lia. intros k Hk. destruct (Z.lt_ge_cases k 0); [lia|].
  rewrite Hc' in Hk by done. specialize (Hu _ Hk). lia.
Qed.

Lemma process_receive_ok s data offset :
  sk_core s -> 0 <= offset ->
  offset + Zlen data <= rb_capacity (sk_rx_buffer s) - rb_length (sk_rx_buffer s) ->
  wp (process_receive s data offset) (fun '(s', o) =>
    sk_core s' /\ rest_same s s' /\
    match o with
    | Some _ => rx_moves s s' data offset
    | None => sk_rx_buffer s' = sk_rx_buffer s /\ sk_assembler s' = sk_assembler s
    end).
Proof.
  intros Hc Ho Hfit. pose proof (core_rx s Hc) as Hrx. pose proof Hrx as (Hwf & Hcap & Ha & Hcov).
  pose proof (Zlen_nonneg data). pose proof Hwf as ([? ?] & _).
  unfold process_receive. eapply wp_bind_mono with (P := fun _ => True).
  { by apply asm_is_empty_ok. }
  intros was _. wp_bind_with (asm_add_then_remove_front_ok (sk_assembler s) offset (Zlen data) Ha Ho ltac:(lia) ltac:(mlia)).
  intros [a' [n|e]] (Ha' & _ & Hrun).
  2: { destruct Hrun as [-> _]. cbn [wp]. split; [core_solve|]. split; [unfold rest_same; by sk_simpl|by sk_simpl]. }
  cbv zeta. sk_simpl.
  destruct (rb_write_unallocated_ok (sk_rx_buffer s) offset data Hwf ltac:(lia)) as (st & Hst & Ew & Hwf1 & Hv).
  replace (Z.min _ _) with (Zlen data) in * by lia. rewrite Ew, bind_Ret, Z.eqb_refl. cbn [passert]. rewrite bind_Ret.
  unfold Zlen in Hv. rewrite Nat2Z.id, firstn_all in Hv.
  destruct (rx_inv_receive _ _ a' n data st offset Hrx Ha' Ho Hfit Hst Hrun) as [Hn Hrx'].
  assert (Hnn : 0 <= n) by apply Hrun.
  assert (Hfin : forall s', sk_core s' -> rest_same s s' -> sk_assembler s' = a' ->
    sk_rx_buffer s' = mkRingBuffer st (rb_read_at (sk_rx_buffer s)) (rb_length (sk_rx_buffer s) + n) ->
    sk_core s' /\ rest_same s s' /\ rx_moves s s' data offset).
  { intros s' Hc' Hr' Ea Er. split; [done|]. split; [done|]. unfold rx_moves. rewrite Ea, Er. split; [by exists n|].
    intros S b. by apply stream_receive. }
  destruct (Z.eqb_spec n 0) as [->|Hn0]; cbn [negb].
  - rewrite bind_Ret. cbn [wp]. rewrite Z.add_0_r in *. apply Hfin; sk_simpl; try done. core_solve.
  - match goal with |- context [rb_enqueue_unallocated ?rb n] => destruct (rb_enqueue_unallocated_ok rb n Hwf1) as (Ee & _) end.
    { unfold rb_capacity at 1. cbn [rb_storage rb_length]. lia. }
    rewrite Ee, !bind_Ret. cbn [wp]. apply Hfin; sk_simpl; try done. core_solve.
Qed.

(** ** Acknowledging received data *)

Lemma process_delayed_ack_ok cx s :
  sk_core s -> time_ok (cx_now cx) ->
  wp (process_delayed_ack cx s) (fun s' => sk_core s' /\ same_flow s s').
Proof.
  intros Hc Hn. unfold process_delayed_ack. destruct (sk_ack_delay s) as [d|] eqn:Ed; [|by cbn].
  pose proof (core_ack_delay s Hc) as Hd. rewrite Ed in Hd. cbn in Hd.
  assert (Hlen : 0 <= rb_len (sk_rx_buffer s) <= 2 ^ 30)
    by (unfold rb_len; destruct (core_rx s Hc) as ([? _] & ? & _); lia).
  eapply wp_bind_mono with (P := fun _ => True).
  { unfold ack_to_transmit. destruct (sk_remote_last_ack s); [|done]. by rewrite rx_len_add, bind_Ret. }
  intros b _. destruct b; [|by cbn].
  assert (Hset : forall t, sk_core (upd_ack_delay_timer t s) /\ same_flow s (upd_ack_delay_timer t s)).
  { intros t. split; [core_solve|constructor; by sk_simpl]. }
  destruct (sk_ack_delay_timer s) as [|t|]; [| |apply Hset].
  - rewrite instant_add_ok, bind_Ret by (unfold time_ok in *; lia). apply Hset.
  - eapply wp_bind_mono with (P := fun _ => True); [|intros; apply Hset].
    unfold immediate_ack_to_transmit. destruct (sk_remote_last_ack s); [|done].
    pose proof (core_mss s Hc). seq_step. by rewrite rx_len_add, bind_Ret.
Qed.

Lemma rest_same_sack s s' :
  rest_same s s' -> rb_length (sk_rx_buffer s) <= rb_length (sk_rx_buffer s') -> sack_safe s -> sack_safe s'.
Proof.
  intros (_ & _ & _ & _ & E1 & _ & E2 & E3) Hl H. unfold sack_safe in *. rewrite E1, E2, E3. intros Hs.
  destruct (H Hs); [left; lia|by right].
Qed.

Lemma rest_same_seq s s' : rest_same s s' -> sk_seq s -> sk_seq s'.
Proof. intros (E1 & _ & E2 & E3 & _ & E4 & _) H. unfold sk_seq in *. by rewrite E1, E2, E3, E4. Qed.

Lemma rx_moves_flow s s1 s' data offset :
  sk_rx_buffer s' = sk_rx_buffer s1 -> sk_assembler s' = sk_assembler s1 ->
  rx_moves s s1 data offset -> rx_moves s s' data offset.
Proof. intros E1 E2 H. unfold rx_moves in *. by rewrite E1, E2. Qed.

Definition payload_post (s s' : Socket) (data : list Z) (offset : Z) : Prop :=
  sk_core s' /\ rest_same s s' /\
  (sk_rx_buffer s' = sk_rx_buffer s /\ sk_assembler s' = sk_assembler s \/ rx_moves s s' data offset).

Lemma process_payload_ok cx s ip r data offset :
  sk_core s -> time_ok (cx_now cx) -> (data <> [] -> sack_safe s) -> 0 <= offset ->
  offset + Zlen data <= rb_capacity (sk_rx_buffer s) - rb_length (sk_rx_buffer s) ->
  wp (process_payload cx s ip r data offset) (fun '(cx', s', o) =>
    cx' = cx /\ payload_post s s' data offset /\ opt_answers ip r o).
Proof.
  intros Hc Hn Hsack Ho Hfit. unfold process_payload. destruct (Z.eqb_spec (Zlen data) 0) as [Hz|Hz].
  { cbn [wp]. split; [done|]. split; [split; [done|]; split; [by repeat split|by left]|exact I]. }
  assert (Hne : data <> []) by (intros ->; done). specialize (Hsack Hne). clear Hne Hz.
  wp_bind_with (process_receive_ok s data offset Hc Ho Hfit). intros [s1 o] (Hc1 & Hr1 & Hx).
  destruct o as [was|].
  2: { cbn [wp]. split; [done|]. split; [|exact I]. split; [done|]. split; [done|by left]. }
  assert (Hgrow : rb_length (sk_rx_buffer s) <= rb_length (sk_rx_buffer s1)).
  { destruct Hx as [(n & -> & [? _]) _]. lia. }
  pose proof (rest_same_sack _ _ Hr1 Hgrow Hsack) as Hs1.
  wp_bind_with (process_delayed_ack_ok cx s1 Hc1 Hn). intros s2 [Hc2 Hf2].
  pose proof (same_flow_sack _ _ Hf2 Hs1) as Hs2.
  assert (Hpost : forall s3, sk_core s3 -> same_flow s2 s3 -> payload_post s s3 data offset).
  { intros s3 Hc3 Hf3. assert (Hf : same_flow s1 s3) by (by transitivity s2).
    split; [done|]. split; [transitivity s1; [done|by apply same_flow_rest]|]. right.
    eapply rx_moves_flow; [apply Hf|apply Hf|done]. }
  eapply wp_bind_mono with (P := fun _ => True).
  { by apply asm_is_empty_ok, (core_rx s2 Hc2). }
  intros empty _. destr_if.
  - wp_bind_with (ack_reply_ok cx s2 ip r Hc2 Hs2). intros [s3 p] (Hc3 & Hf3 & Hp). cbn [wp].
    split; [done|]. split; [by apply Hpost|]. by eapply is_ack_answers.
  - cbn [wp]. split; [done|]. split; [by apply Hpost|exact I].
Qed.
