(* ===== verification/TcpExample.v ===== *)
(** * The TCP socket: a concrete connection

    An established connection, the segments it may receive and the proof of its invariant:
    the instance at which the properties of the socket are evaluated. *)

From S2P Require Import Prelude SeqNumber RingBuffer Assembler TimeModel TcpTimers Congestion IpTypes TcpRepr IfaceContext TcpSocket TcpProcess TcpInvariant TcpReplyLemmas.

#[export] Instance ex_config : BuildConfig := {|
  assembler_max_segment_count := 4;
  feature_cubic := false;
  feature_reno := false;
|}.

#[export] Instance ex_config_ok : BuildConfigOk.
Proof. split; vm_compute; [lia|discriminate]. Qed.

Definition ex_local : Endpoint := mkEndpoint (Ipv4 [192; 168; 1; 1]) 80.
Definition ex_remote : Endpoint := mkEndpoint (Ipv4 [192; 168; 1; 2]) 5000.

(** An established connection with the octets [rx] received and [tx] to be sent, [flight] of
    them in flight. *)
Definition ex_socket (st : State) (rx tx : list Z) (flight : Z) : Socket := {|
  sk_state := st;
  sk_timer := timer_new;
  sk_rtte := rtte_default;
  sk_assembler := asm_new 4;
  sk_rx_buffer := mkRingBuffer (rx ++ replicate (16 - length rx) 0) 0 (Zlen rx);
  sk_rx_fin_received := false;
  sk_tx_buffer := mkRingBuffer (tx ++ replicate (16 - length tx) 0) 0 (Zlen tx);
  sk_timeout := None;
  sk_keep_alive := None;
  sk_hop_limit := None;
  sk_listen_endpoint := mkListenEndpoint None 80;
  sk_tuple := Some (mkTuple ex_local ex_remote);
  sk_local_seq_no := 100;
  sk_remote_seq_no := 200;
  sk_remote_last_seq := 100 + flight;
  sk_remote_last_ack := Some (200 + Zlen rx);
  sk_remote_last_win := 16 - Zlen rx;
  sk_remote_win_shift := 0;
  sk_remote_win_len := 64;
  sk_remote_win_scale := None;
  sk_remote_has_sack := false;
  sk_remote_mss := 536;
  sk_remote_last_ts := Some 0;
  sk_local_rx_last_seq := None;
  sk_local_rx_last_ack := None;
  sk_local_rx_dup_acks := 0;
  sk_ack_delay := Some ACK_DELAY_DEFAULT;
  sk_ack_delay_timer := AckIdle;
  sk_challenge_ack_timer := 0;
  sk_nagle := true;
  sk_congestion_controller := AnyNone mkNoControl;
  sk_tsval_generator := None;
  sk_last_remote_tsval := 0;
  sk_rx_waker := mkWakerRegistration (Some 1) [];
  sk_tx_waker := mkWakerRegistration (Some 2) [];
  sk_synack_paused := false;
|}.

(** A segment of the remote end: sequence and acknowledgement number, flag and octets. *)
Definition ex_segment (seq : Z) (ack : option Z) (c : Control) (data : list Z) : TcpRepr :=
  mkTcpRepr 5000 80 c seq ack 64 None None false (None, None, None) None data.

Definition ex_ip : IpRepr := Ipv4Repr (mkIpHeader [192; 168; 1; 2] [192; 168; 1; 1] PROTOCOL_TCP 20 64).

Lemma ex_rx_wf (l : list Z) : (length l <= 16)%nat ->
  rb_wf (mkRingBuffer (l ++ replicate (16 - length l) 0) 0 (Zlen l)).
Proof.
  intros Hl. unfold rb_wf, rb_capacity. cbn [rb_storage rb_length rb_read_at].
  unfold Zlen. rewrite length_app, length_replicate. mlia.
Qed.

Lemma ex_capacity (l : list Z) : (length l <= 16)%nat ->
  rb_capacity (mkRingBuffer (l ++ replicate (16 - length l) 0) 0 (Zlen l)) = 16.
Proof. intros Hl. unfold rb_capacity, Zlen. cbn. rewrite length_app, length_replicate. lia. Qed.

Lemma ex_wf st rx tx flight :
  (length rx <= 16)%nat -> (length tx <= 16)%nat -> 0 <= flight <= Zlen tx + ctl_room st ->
  (is_opening st = true -> tx = []) -> sk_wf (ex_socket st rx tx flight).
Proof.
  intros Hr Ht Hf Hop. unfold Zlen in Hf.
  assert (ctl_room st <= 1) by (destruct st; cbn; lia). split.
  - constructor; cbn [ex_socket sk_rx_buffer sk_assembler sk_tx_buffer sk_rtte sk_timer sk_congestion_controller
      sk_remote_win_shift sk_remote_win_scale sk_remote_win_len sk_remote_mss sk_remote_last_win
      sk_remote_seq_no sk_remote_last_ack sk_timeout sk_keep_alive sk_ack_delay sk_remote_last_ts sk_tuple
      opt_prop interval_ok timer_wf timer_new]; try exact I; try mlia.
    + split; [by apply ex_rx_wf|]. rewrite ex_capacity by done. split; [lia|].
      split; [apply asm_new_wf; [lia|mlia]|]. intros k. by rewrite covered_asm_new.
    + split; [by apply ex_rx_wf|]. rewrite ex_capacity by done. lia.
    + apply rtte_default_wf.
    + unfold time_ok, ACK_DELAY_DEFAULT. lia.
    + unfold time_ok. lia.
    + reflexivity.
  - unfold sk_seq, seq_inv. cbn [ex_socket sk_state sk_tx_buffer sk_local_seq_no sk_remote_last_seq rb_length].
    unfold Zlen. split; [mlia|]. split; [mlia|]. rewrite seq_wrap_id by mlia.
    split; [lia|]. intros E. by rewrite Hop.
Qed.

Lemma ex_repr_ok seq ack c data :
  in_i32 seq -> opt_prop in_i32 ack -> Zlen data <= 131070 -> repr_ok (ex_segment seq ack c data).
Proof. intros. unfold repr_ok. cbn. split_and!; auto; mlia. Qed.
