(* ===== verification/TcpProcessSpec.v ===== *)
(** * The TCP socket: what [process] does (socket/tcp.rs)

    The lemmas on the stages composed: [process] does not panic, keeps the invariant, moves
    along the state diagram, removes exactly the acknowledged octets from the transmit buffer
    and adds octets of the stream of the remote end to the receive buffer. *)

From S2P Require Import Prelude SeqNumber RingBuffer Assembler TimeModel TcpTimers Congestion IpTypes TcpRepr IfaceContext TcpSocket TcpProcess TcpInvariant TcpReplyLemmas TcpProcessLemmas TcpTransitionLemmas TcpReceiveLemmas TcpExample.

(** With SACK, the receive window does not lie across the sequence number 0: the next number
    expected is 0 or behind it, or the window and a FIN behind it end before it, as signed
    numbers.  Across it, [ack_reply] overflows on data out of order ([sack_near_wrap_panics]). *)
Definition sack_room (s : Socket) : Prop :=
  sk_remote_has_sack s = true ->
  0 <= sk_remote_seq_no s + rb_length (sk_rx_buffer s) \/
  sk_remote_seq_no s + rb_capacity (sk_rx_buffer s) + 1 < 0.

(** A parsed segment for the socket, at a time its timers can work with: a clock up to 2^61
    microseconds, and a round-trip measurement that has not run for more than 2^28 ms. *)
Record process_pre (cx : Context) (s : Socket) (ip : IpRepr) (r : TcpRepr) : Prop := {
  pre_wf : sk_wf s;
  pre_sack : sack_room s;
  pre_repr : repr_ok r;
  pre_now : time_ok (cx_now cx);
  pre_fresh : rtte_fresh (sk_rtte s) (cx_now cx);
  pre_accepts : accepts s ip r = true;
}.

(** The transmit side: exactly the octets the segment acknowledges have left. *)
Definition tx_moves (s s' : Socket) (r : TcpRepr) : Prop :=
  exists al,
    0 <= al <= rb_length (sk_tx_buffer s) /\
    rb_contents (sk_tx_buffer s') = drop (Z.to_nat al) (rb_contents (sk_tx_buffer s)) /\
    rb_length (sk_tx_buffer s') = rb_length (sk_tx_buffer s) - al /\
    (al = 0 /\ (sk_state s <> Listen -> sk_local_seq_no s' = sk_local_seq_no s) \/
     exists a fin, ack_number r = Some a /\ control r <> CtlRst /\ sk_local_seq_no s' = a /\
       (fin = true -> snd (sent_flags (sk_state s)) = true /\ al = rb_length (sk_tx_buffer s)) /\
       seq_wrap (a - sk_local_seq_no s) = al + b2z (fst (sent_flags (sk_state s))) + b2z fin).

(** The receive side: unchanged, or the part of the payload that is in the window was added. *)
Definition rx_step (s s' : Socket) (r : TcpRepr) : Prop :=
  rb_capacity (sk_rx_buffer s') = rb_capacity (sk_rx_buffer s) /\
  (sk_rx_buffer s' = sk_rx_buffer s /\ sk_assembler s' = sk_assembler s \/
   exists data offset, seg_data s r data offset /\ rx_moves s s' data offset).

Record process_post (cx : Context) (s : Socket) (ip : IpRepr) (r : TcpRepr)
  (cx' : Context) (s' : Socket) (o : option Reply) : Prop := {
  post_wf : sk_wf s';
  post_now : same_cx cx cx';
  post_reply : opt_answers ip r o;
  post_state : state_moves (effective_control (next_ack s) r) (sk_state s) (sk_state s');
  post_remote : remote_moves (effective_control (next_ack s) r) s s';
  post_rx : rx_step s s' r;
  post_tx : tx_moves s s' r;
}.

Lemma sack_room_safe s : sack_room s -> sack_safe s.
Proof. intros H Hs. destruct (H Hs); [by left|right; lia]. Qed.

Lemma tx_moves_none s s' r :
  sk_wf s -> sk_tx_buffer s' = sk_tx_buffer s ->
  (sk_state s <> Listen -> sk_local_seq_no s' = sk_local_seq_no s) -> tx_moves s s' r.
Proof.
  intros [Hc _] Htx Hl. destruct (core_tx s Hc) as [([? ?] & _) _]. exists 0. rewrite Htx, drop_0.
  split; [lia|]. split; [done|]. split; [lia|by left].
Qed.

Lemma remote_moves_same c s s' : rest_same s s' -> remote_moves c s s'.
Proof. intros (_ & ? & _ & _ & ? & _ & ? & _) _ _. split; [done|by left]. Qed.

Lemma stays_post cx s ip r cx' s' o :
  sk_wf s -> stays cx s ip r cx' s' o -> process_post cx s ip r cx' s' o.
Proof.
  intros Hwf (-> & Hc & Hf & Ho). pose proof (same_flow_rest _ _ Hf) as Hr. constructor; try done.
  - by eapply same_flow_wf.
  - left. apply Hf.
  - by apply remote_moves_same.
  - split; [by rewrite (sf_rx _ _ Hf)|]. left. split; apply Hf.
  - apply tx_moves_none; [done|apply Hf|intros _; apply Hf].
Qed.

(** The sockets between the stages: [s2] before and [s3] behind the transition, [s4] without
    the acknowledged octets, [s5] with the new [local_seq_no], [s6] with its timers set. *)
Lemma tx_moves_ok s s2 s3 s4 s5 s6 s7 r al fin :
  sk_wf s -> same_flow s s2 -> ack_facts s r al fin -> data_same s2 s3 -> remote_post s3 s4 al ->
  (sk_state s <> Listen -> sk_local_seq_no s4 = sk_local_seq_no s) ->
  control r <> CtlRst ->
  dup_ack_post s4 s5 r ->
  same_flow s5 s6 -> rest_same s6 s7 -> tx_moves s s7 r.
Proof.
  intros Hwf Hf (Hal & Hfin & Heq) (_ & _ & Htx3) (_ & _ & _ & _ & Hlen & Hcont) Hloc Hr
    (_ & _ & Htx5 & _ & Ha5) Hf6 (_ & _ & Htx7 & Hlo7 & _).
  exists al. split; [done|].
  assert (Htx : sk_tx_buffer s7 = sk_tx_buffer s4) by (rewrite Htx7, (sf_tx _ _ Hf6); exact Htx5).
  rewrite Htx, Hlen, Hcont, Htx3, (sf_tx _ _ Hf). split; [done|]. split; [done|].
  assert (Hlo : sk_local_seq_no s7 = sk_local_seq_no s5) by (rewrite Hlo7; apply Hf6).
  destruct (ack_number r) as [a|] eqn:Ea.
  - right. exists a, fin. split; [done|]. split; [done|]. rewrite Hlo. split; [done|]. split; [done|].
    by destruct (control r).
  - left. split; [destruct (control r); tauto|]. intros Hl. rewrite Hlo, Ha5. by apply Hloc.
Qed.

Lemma rx_moves_src s s1 s' data offset :
  sk_rx_buffer s1 = sk_rx_buffer s -> sk_assembler s1 = sk_assembler s ->
  rx_moves s1 s' data offset -> rx_moves s s' data offset.
Proof. intros E1 E2 H. unfold rx_moves in *. by rewrite <- E1, <- E2. Qed.

Lemma remote_moves_trans c s s1 s2 s' :
  sk_state s1 = sk_state s -> sk_remote_seq_no s1 = sk_remote_seq_no s ->
  sk_rx_fin_received s1 = sk_rx_fin_received s -> sk_remote_has_sack s1 = sk_remote_has_sack s ->
  remote_moves c s1 s2 -> rest_same s2 s' \/ rx_same s2 s' -> remote_moves c s s'.
Proof.
  intros E1 E2 E3 E4 H Hs. unfold remote_moves in *. rewrite E1, E2, E3, E4 in H. intros Hl1 Hl2.
  destruct (H Hl1 Hl2) as [Ha Hb].
  destruct Hs as [(_ & F1 & _ & _ & F2 & _ & F3 & _)|(_ & _ & _ & F1 & F2 & F3)]; by rewrite F1, F2, F3.
Qed.

Lemma rx_same_state s s' : rx_same s s' -> sk_state s' = sk_state s.
Proof. by intros []. Qed.

Lemma sack_safe_transition c s s3 s6 :
  sack_room s -> in_i32 (sk_remote_seq_no s) -> 0 <= rb_length (sk_rx_buffer s) ->
  rb_capacity (sk_rx_buffer s) <= 2 ^ 30 ->
  sk_state s <> Listen -> sk_state s <> SynSent -> remote_moves c s s3 ->
  sk_rx_buffer s3 = sk_rx_buffer s -> rx_same s3 s6 -> sack_safe s6.
Proof.
  intros Hroom Hi H0 Hc Hl1 Hl2 Hm Hrx (_ & E1 & _ & _ & E2 & E3) Hs. rewrite E1, E2, Hrx.
  destruct (Hm Hl1 Hl2) as [F1 F2]. pose proof (Hroom ltac:(congruence)) as Hr.
  destruct F2 as [[-> _]|(_ & -> & _)]; [lia|]. revert Hr Hi. seq_lia.
Qed.

Lemma ack_facts_flow s s' r al fin : same_flow s s' -> ack_facts s' r al fin <-> ack_facts s r al fin.
Proof. intros Hf. unfold ack_facts. by rewrite (sf_tx _ _ Hf), (sf_state _ _ Hf), (sf_local _ _ Hf). Qed.

(** The stages behind the transition. *)
Definition process_tail (cx : Context) (s : Socket) (ip : IpRepr) (r : TcpRepr) (data : list Z)
  (offset al : Z) (all : bool) : res (Context * Socket * option Reply) :=
  '(s, is_window_update) ← process_remote cx s r al;
  let s := process_dup_ack cx s r is_window_update in
  s ← process_timers cx s r al all;
  process_payload cx s ip r data offset.

Definition tail_post (cx : Context) (s3 : Socket) (ip : IpRepr) (r : TcpRepr) (data : list Z) (offset al : Z)
  (cx' : Context) (s7 : Socket) (o : option Reply) : Prop :=
  exists s4 s5 s6, remote_post s3 s4 al /\ dup_ack_post s4 s5 r /\ same_flow s5 s6 /\
    cx' = cx /\ payload_post s6 s7 data offset /\ opt_answers ip r o.

Lemma process_tail_ok cx s3 ip r data offset al all :
  sk_core s3 -> repr_ok r -> time_ok (cx_now cx) -> seq_mid s3 r al ->
  (forall s6, data <> [] -> rx_same s3 s6 -> sack_safe s6) -> 0 <= offset ->
  offset + Zlen data <= rb_capacity (sk_rx_buffer s3) - rb_length (sk_rx_buffer s3) ->
  wp (process_tail cx s3 ip r data offset al all) (fun '(cx', s7, o) =>
    tail_post cx s3 ip r data offset al cx' s7 o).
Proof.
  intros Hc Hr Hn Hmid Hsack Ho Hfit. unfold process_tail.
  wp_bind_with (process_remote_ok cx s3 r al Hc Hr Hn ltac:(apply Hmid)). intros [s4 w] H4.
  pose proof (process_dup_ack_ok cx s3 s4 r al w Hmid H4 Hr Hn) as H5.
  set (s5 := process_dup_ack cx s4 r w) in *. clearbody s5. cbv zeta. pose proof H5 as (Hc5 & Hrx5 & _).
  wp_bind_with (process_timers_ok cx s5 r al all Hc5 Hn). intros s6 [Hc6 Hf6].
  assert (Hrx6 : rx_same s3 s6).
  { transitivity s4; [apply H4|]. transitivity s5; [done|by apply same_flow_rx]. }
  assert (Hfit6 : offset + Zlen data <= rb_capacity (sk_rx_buffer s6) - rb_length (sk_rx_buffer s6))
    by (by destruct Hrx6 as (_ & -> & _)).
  eapply wp_mono; [apply (process_payload_ok cx s6 ip r data offset); auto|].
  - intros [[cx' s7] o] (-> & Hp & Hrep). exists s4, s5, s6. auto 10.
Qed.

Lemma process_tail_post cx cx3 s s1 s2 s3 ip r data offset al fin cx' s7 o :
  sk_wf s -> control r <> CtlRst -> same_flow s s1 -> same_flow s1 s2 -> seg_data s r data offset ->
  ack_facts s1 r al fin ->
  let c := effective_control (next_ack s) r in
  transition_post cx s2 r c al (Go (cx3, s3)) ->
  tail_post cx3 s3 ip r data offset al cx' s7 o ->
  process_post cx s ip r cx' s7 o.
Proof.
  intros Hwf Hrst Hf1 Hf2 Hseg Hfacts c (Hnow & Hc3 & Hd3 & Hmid & Hrm & Hst & _ & Hlo)
    (s4 & s5 & s6 & H4 & H5 & Hf6 & -> & Hp & Ho).
  assert (Hf : same_flow s s2) by (by transitivity s1).
  pose proof H4 as (_ & Hrx4 & Hlo4 & _). pose proof H5 as (_ & Hrx5 & _ & Hseq5 & _).
  pose proof Hp as (Hc7 & Hr7 & Hrx7). pose proof Hd3 as (Erx & Ea & _).
  assert (Hrx : rx_same s3 s6).
  { transitivity s4; [done|]. transitivity s5; [done|by apply same_flow_rx]. }
  assert (Hst7 : sk_state s7 = sk_state s3) by (destruct Hr7 as [-> _]; by apply rx_same_state).
  assert (E6 : sk_rx_buffer s6 = sk_rx_buffer s /\ sk_assembler s6 = sk_assembler s).
  { destruct Hrx as (_ & -> & -> & _). rewrite Erx, Ea. split; apply Hf. }
  constructor; auto.
  - split; [done|]. eapply rest_same_seq; [done|]. by eapply same_flow_seq.
  - rewrite Hst7, <- (sf_state _ _ Hf). done.
  - eapply remote_moves_trans; [apply Hf..| |left; exact Hr7].
    eapply remote_moves_trans; [reflexivity..|exact Hrm|by right].
  - destruct E6 as [E6 E6']. unfold rx_step. destruct Hr7 as (_ & _ & _ & _ & _ & _ & _ & ->). rewrite E6.
    split; [done|]. destruct Hrx7 as [[-> ->]|Hm]; [left; by rewrite E6, E6'|].
    right. exists data, offset. split; [done|]. by eapply rx_moves_src.
  - eapply (tx_moves_ok s s2 s3 s4 s5 s6 s7 r al fin); auto.
    + by apply (ack_facts_flow s s1).
    + intros Hl. rewrite Hlo4, Hlo, (sf_local _ _ Hf); [done|]. by rewrite (sf_state _ _ Hf).
Qed.

Lemma process_ok cx s ip r :
  process_pre cx s ip r ->
  wp (process cx s ip r) (fun '(cx', s', o) => process_post cx s ip r cx' s' o).
Proof.
  intros [Hwf Hroom Hr Hn Hfresh Hacc]. pose proof (sack_room_safe s Hroom) as Hsack.
  unfold process. rewrite Hacc. cbn [passert]. rewrite bind_Ret. unfold flow_bind at 1.
  wp_bind_with (process_check_ack_ok cx s ip r Hwf Hsack Hr Hn Hacc).
  intros [cx' s' o|[]] Hack; [by apply stays_post|]. unfold flow_bind at 1.
  wp_bind_with (process_window_ok cx s ip r Hwf Hsack Hr Hn).
  intros [cx' s' o|[[s1 data] offset]] H1; [by apply stays_post|]. destruct H1 as (Hc1 & Hf1 & Hrt1 & Hseg).
  pose proof (same_flow_wf _ _ Hf1 Hc1 Hwf) as Hwf1. pose proof (ack_acceptable_flow _ _ _ Hf1 Hack) as Hack1.
  wp_bind_with (process_ack_len_ok cx s1 r Hwf1 Hr Hn ltac:(by rewrite Hrt1) Hack1).
  intros [[[s2 al] fin] all] (Hc2 & Hf2 & Hfacts).
  assert (Hf : same_flow s s2) by (by transitivity s1).
  pose proof (same_flow_wf _ _ Hf Hc2 Hwf) as Hwf2.
  rewrite receive_window_ok, bind_Ret by done.
  assert (next_ack s2 = next_ack s) as -> by (unfold next_ack; by rewrite (sf_remote _ _ Hf), (sf_rx _ _ Hf)).
  unfold flow_bind.
  destruct (accepts_state s ip r Hacc) as [_ Hli].
  wp_bind_with (process_transition_ok cx s2 ip r al fin (next_ack s) Hwf2 Hr Hn
    (ack_acceptable_flow _ _ _ Hf2 Hack1) ltac:(by apply (ack_facts_flow s1 s2))
    ltac:(rewrite (sf_state _ _ Hf); intros E; by apply Hli)).
  intros [cx' s' o|[cx3 s3]] H3.
  - destruct H3 as (-> & -> & Hwf' & Hd & Hrm & Hst & _ & Hlo). rewrite (sf_state _ _ Hf) in Hst, Hlo.
    pose proof Hd as (Erx & Ea & Etx). constructor; try done.
    + eapply remote_moves_trans; [apply Hf..|exact Hrm|left; by repeat split].
    + unfold rx_step. rewrite Erx, Ea. split; [by rewrite (sf_rx _ _ Hf)|]. left. split; apply Hf.
    + apply tx_moves_none; [done|by rewrite Etx, (sf_tx _ _ Hf)|]. intros Hl. rewrite Hlo by done. apply Hf.
  - pose proof H3 as (Hnow & Hc3 & (Erx & _) & Hmid & Hrm & _ & Hnr & _).
    assert (Hrst : control r <> CtlRst).
    { intros E. apply Hnr. by apply (effective_control_cases (next_ack s) r). }
    destruct Hseg as (Ho & Hfit & Hd). pose proof Hwf as [Hc _]. destruct (core_rx s Hc) as ([? _] & _).
    change (wp (process_tail cx3 s3 ip r data offset al all) (fun '(cx', s', o) => process_post cx s ip r cx' s' o)).
    eapply wp_mono; [apply (process_tail_ok cx3 s3 ip r data offset al all); auto|].
    + by rewrite (proj1 Hnow).
    + intros s6 Hne Hrx6. destruct (Hd Hne) as (Hl1 & Hl2 & _).
      eapply (sack_safe_transition _ s s3 s6); eauto; [apply core_remote_seq; done|lia|apply (core_rx s Hc)| |].
      * eapply remote_moves_trans; [apply Hf..|exact Hrm|left; by repeat split].
      * by rewrite Erx, (sf_rx _ _ Hf).
    + by rewrite Erx, (sf_rx _ _ Hf).
    + intros [[cx' s7] o] Ht. by eapply (process_tail_post cx cx3 s s1 s2 s3).
Qed.

(** ** The stream, segment by segment *)

(** The payload of [r] are octets of the stream [S] of which the receive buffer of [s] starts
    at position [b]; only the part not behind [remote_seq_no] matters. *)
Definition seg_agrees (S : Z -> Z) (b : Z) (s : Socket) (r : TcpRepr) : Prop :=
  let d := seq_wrap (seq_number r - sk_remote_seq_no s) in
  forall j, 0 <= j < Zlen (payload r) -> 0 <= d + j -> payload r !! Z.to_nat j = Some (S (b + d + j)).

Lemma seg_data_stream S b s r data offset :
  sk_core s -> Zlen (payload r) <= 131070 -> seg_data s r data offset -> seg_agrees S b s r ->
  data_at S (b + rb_length (sk_rx_buffer s) + offset) data.
Proof.
  intros Hc Hp (Ho & Hfit & Hd) Hag i Hi. destruct (core_rx s Hc) as ([? _] & ? & _).
  destruct (decide (data = [])) as [->|Hne]; [change (Zlen []) with 0 in Hi; lia|].
  destruct (Hd Hne) as (_ & _ & a & Ha & Hap & Hdata & Hoff).
  set (d := seq_wrap (seq_number r - sk_remote_seq_no s)) in *.
  assert (Hdist : seq_wrap (seq_number r - next_ack s) + rb_length (sk_rx_buffer s) = d).
  { unfold next_ack in *. set (n := rb_length (sk_rx_buffer s)) in *.
    set (w := seq_wrap (seq_number r - seq_wrap (sk_remote_seq_no s + n))) in *.
    assert (Hw : - 131070 <= w <= 2 ^ 30) by lia.
    assert (Hd' : d = seq_wrap (w + n)) by (unfold d, w; clear; seq_lia).
    rewrite Hd', seq_wrap_id; mlia. }
  pose proof (sub_lookup (payload r) a (Zlen data) i ltac:(lia) Hi) as Hlk. rewrite <- Hdata in Hlk.
  rewrite Hlk, Hag by (fold d; lia). f_equal. f_equal. fold d. lia.
Qed.

(** Receiving a segment of the stream keeps the stream and only appends to what is readable. *)
Lemma rx_step_stream S b s s' r :
  sk_core s -> Zlen (payload r) <= 131070 -> rx_step s s' r -> seg_agrees S b s r ->
  stream_at S b (sk_rx_buffer s) (sk_assembler s) ->
  stream_at S b (sk_rx_buffer s') (sk_assembler s') /\
  rb_length (sk_rx_buffer s) <= rb_length (sk_rx_buffer s').
Proof.
  intros Hc Hp [_ [[-> ->]|(data & offset & Hseg & (n & Hn & Hrun) & Hst)]] Hag Hs; [done|].
  split; [|destruct Hrun; lia]. apply Hst; [|done]. by eapply seg_data_stream.
Qed.

(** ** Properties *)

(** C21: [process] does not panic on a parsed segment that the socket accepts, and keeps the
    invariant of the socket: the buffers and the assembler are well formed, the out-of-order data
    fits the free part of the receive buffer, no more is in flight than the transmit buffer and a
    control flag account for, and the timers stay in range.  Of the context only the random
    number generator changes.  Two states within the invariant are excluded ([process_pre]): with SACK negotiated,
    a receive window that lies across the sequence number 0, in which a segment out of order
    does panic ([sack_near_wrap_panics]), and a running round-trip measurement older than 2^28 ms. *)
Theorem process_keeps_invariant cx s ip r :
  process_pre cx s ip r ->
  wp (process cx s ip r) (fun '(cx', s', _) => sk_wf s' /\ same_cx cx cx').
Proof. intros H. eapply wp_mono; [by apply process_ok|]. intros [[cx' s'] o] []. done. Qed.

(** C22: whatever parsed segment a socket accepts, its state stays or moves along an edge of the
    TCP state diagram labelled with the control flag of the segment; a FIN that does not
    directly follow the data received counts as no flag.  Once the connection is
    synchronized, the FIN of the remote end is recorded exactly when the expected sequence
    number advances by one for it.  (As for the invariant, the socket's window does not lie across
    the sequence number 0 when SACK was negotiated, where the code panics
    ([sack_near_wrap_panics]), and its round-trip measurement is at most 2^28 ms old.) *)
Theorem process_follows_diagram cx s ip r :
  process_pre cx s ip r ->
  wp (process cx s ip r) (fun '(_, s', _) =>
    let c := effective_control (next_ack s) r in
    state_moves c (sk_state s) (sk_state s') /\ remote_moves c s s').
Proof. intros H. eapply wp_mono; [by apply process_ok|]. intros [[cx' s'] o] []. done. Qed.


(** An answer of [process] goes back to the sender of the segment, from the endpoint it
    was sent to, carries no data, and is an acknowledgement or a reset, never a reset in
    answer to a reset. *)
Theorem process_answers cx s ip r :
  process_pre cx s ip r -> wp (process cx s ip r) (fun '(_, _, o) => opt_answers ip r o).
Proof. intros H. eapply wp_mono; [by apply process_ok|]. intros [[cx' s'] o] []. done. Qed.

(** C3: segments that carry octets of the remote end's stream at their sequence numbers, in
    any order, overlapping, repeated or cut off by the window, leave the receive buffer and
    the assembler holding octets of the stream at their positions; what was readable before
    stays readable and is only appended to.  (Of the segments that the socket accepts, with SACK those
    are excluded that arrive while the receive window lies across the sequence number 0, where
    the code panics on data out of order ([sack_near_wrap_panics]); and the running round-trip
    measurement is at most 2^28 ms old.) *)
Theorem process_receives_stream S b cx s ip r :
  process_pre cx s ip r -> seg_agrees S b s r ->
  stream_at S b (sk_rx_buffer s) (sk_assembler s) ->
  wp (process cx s ip r) (fun '(_, s', _) =>
    stream_at S b (sk_rx_buffer s') (sk_assembler s') /\
    data_at S b (rb_contents (sk_rx_buffer s')) /\
    rb_length (sk_rx_buffer s) <= rb_length (sk_rx_buffer s')).
Proof.
  intros H Hag Hs. pose proof H as [[Hc _] _ (_ & _ & _ & _ & _ & Hp) _ _ _].
  eapply wp_mono; [by apply process_ok|]. intros [[cx' s'] o] [[Hc' _] _ _ _ _ Hrx _].
  destruct (rx_step_stream S b s s' r Hc Hp Hrx Hag Hs) as [Hs' Hl].
  split; [done|]. split; [|done]. eapply stream_contents; [|done]. apply (core_rx s' Hc').
Qed.

(** Challenge acknowledgements are rate limited (RFC 5961): after one is sent, no other is
    for a second, and asking for one changes nothing. *)
Theorem challenge_ack_rate_limit cx s ip r cx' ip' r' :
  sk_core s -> sack_safe s -> time_ok (cx_now cx) -> cx_now cx' < cx_now cx + 1000000 ->
  wp (challenge_ack_reply cx s ip r) (fun '(s', o) =>
    o <> None -> challenge_ack_reply cx' s' ip' r' = Ret (s', None)).
Proof.
  intros Hc Hs Hn Hlt. eapply wp_mono; [by apply challenge_ack_reply_ok|].
  intros [s' [p|]] (_ & _ & H); [|done]. destruct H as (_ & _ & Ht). intros _. unfold challenge_ack_reply.
  rewrite Ht. by replace (cx_now cx' <? _) with true by lia.
Qed.

(** ** Witnesses *)

Definition ex_received : Socket := ex_socket Established [1; 2] [7; 8; 9] 3.

(** The next two octets and a FIN, with the acknowledgement of two octets. *)
Definition ex_fin : TcpRepr := ex_segment 202 (Some 102) CtlFin [3; 4].

Lemma ex_pre st rx tx flight seq ack c data :
  (length rx <= 16)%nat -> (length tx <= 16)%nat -> 0 <= flight <= Zlen tx + ctl_room st ->
  (is_opening st = true -> tx = []) -> in_i32 seq -> opt_prop in_i32 ack -> Zlen data <= 131070 ->
  accepts (ex_socket st rx tx flight) ex_ip (ex_segment seq ack c data) = true ->
  process_pre cx_example (ex_socket st rx tx flight) ex_ip (ex_segment seq ack c data).
Proof.
  intros. constructor; [by apply ex_wf|done|by apply ex_repr_ok|unfold time_ok; cbn; lia|exact I|done].
Qed.

Lemma process_keeps_invariant_witness :
  wp (process cx_example ex_received ex_ip ex_fin) (fun '(cx', s', _) =>
    sk_wf s' /\ same_cx cx_example cx').
Proof.
  apply process_keeps_invariant. apply ex_pre; vm_compute; intuition (try discriminate; lia).
Defined.

Lemma process_follows_diagram_witness :
  wp (process cx_example ex_received ex_ip ex_fin) (fun '(_, s', _) =>
    let c := effective_control (next_ack ex_received) ex_fin in
    state_moves c (sk_state ex_received) (sk_state s') /\ remote_moves c ex_received s').
Proof.
  apply process_follows_diagram. apply ex_pre; vm_compute; intuition (try discriminate; lia).
Defined.


Lemma process_answers_witness :
  wp (process cx_example ex_received ex_ip ex_fin) (fun '(_, _, o) => opt_answers ex_ip ex_fin o).
Proof. apply process_answers. apply ex_pre; vm_compute; intuition (try discriminate; lia). Defined.

Lemma process_receives_stream_witness :
  wp (process cx_example ex_received ex_ip ex_fin) (fun '(_, s', _) =>
    stream_at (fun p => p + 1) 0 (sk_rx_buffer s') (sk_assembler s') /\
    data_at (fun p => p + 1) 0 (rb_contents (sk_rx_buffer s')) /\
    rb_length (sk_rx_buffer ex_received) <= rb_length (sk_rx_buffer s')).
Proof.
  apply process_receives_stream.
  - apply ex_pre; vm_compute; intuition (try discriminate; lia).
  - intros j Hj _. change (Zlen (payload ex_fin)) with 2 in Hj.
    assert (j = 0 \/ j = 1) as [-> | ->] by lia; reflexivity.
  - intros k Hk [H|H]; [|exfalso; revert H; unfold ex_received, ex_socket; cbn [sk_assembler]; by rewrite covered_asm_new].
    change (rb_length (sk_rx_buffer ex_received)) with 2 in H.
    assert (k = 0 \/ k = 1) as [-> | ->] by lia; reflexivity.
Defined.

Lemma challenge_ack_rate_limit_witness :
  wp (challenge_ack_reply cx_example ex_received ex_ip ex_fin) (fun '(s', o) =>
    o <> None -> challenge_ack_reply cx_example s' ex_ip ex_fin = Ret (s', None)).
Proof.
  apply (challenge_ack_rate_limit cx_example ex_received ex_ip ex_fin cx_example ex_ip ex_fin).
  - apply ex_wf; vm_compute; intuition (try discriminate; lia).
  - done.
  - unfold time_ok. cbn. lia.
  - cbn. lia.
Defined.
