(* ===== verification/TcpApp.v ===== *)
(** * The TCP socket: what an application sees (socket/tcp.rs)

    Sending queues octets behind the ones queued, receiving takes them off the stream of the
    remote end; both keep the invariant.  The last part follows the stream over any sequence
    of received segments and reads. *)

From S2P Require Import Prelude SeqNumber RingBuffer Assembler TimeModel TcpTimers Congestion IpTypes TcpRepr IfaceContext TcpSocket TcpProcess TcpInvariant TcpReplyLemmas TcpProcessLemmas TcpTransitionLemmas TcpReceiveLemmas TcpExample TcpProcessSpec.

(** ** Settings *)

Lemma setting_wf s s' : sk_core s' -> same_flow s s' -> sk_wf s -> sk_wf s'.
Proof. intros. by eapply same_flow_wf. Qed.

Lemma set_timeout_wf s d : sk_wf s -> interval_ok d -> sk_wf (set_timeout s d).
Proof.
  intros Hwf Hd. unfold set_timeout. eapply setting_wf; [|constructor; by sk_simpl|done].
  destruct Hwf as [Hc _]. core_solve.
Qed.

Lemma set_ack_delay_wf s d : sk_wf s -> interval_ok d -> sk_wf (set_ack_delay s d).
Proof.
  intros Hwf Hd. unfold set_ack_delay. eapply setting_wf; [|constructor; by sk_simpl|done].
  destruct Hwf as [Hc _]. core_solve.
Qed.

Lemma set_keep_alive_wf s d : sk_wf s -> interval_ok d -> sk_wf (set_keep_alive s d).
Proof.
  intros Hwf Hd. pose proof Hwf as [Hc _]. unfold set_keep_alive.
  destruct d; (eapply setting_wf; [|constructor; by sk_simpl|done]); core_solve.
  destruct (sk_timer s) as [[]| | | |]; done.
Qed.

Lemma set_hop_limit_wf s h :
  sk_wf s -> wlp (set_hop_limit s h) (fun s' => sk_wf s' /\ sk_hop_limit s' = h).
Proof.
  intros Hwf. unfold set_hop_limit.
  assert (H : sk_wf (upd_hop_limit h s) /\ sk_hop_limit (upd_hop_limit h s) = h).
  { split; [|by sk_simpl]. eapply setting_wf; [|constructor; by sk_simpl|done]. destruct Hwf as [Hc _]. core_solve. }
  destruct h as [[| |]|]; done.
Qed.

(** The settings that no other field depends on. *)
Lemma plain_settings_wf s g b p w :
  sk_wf s ->
  sk_wf (set_tsval_generator s g) /\ sk_wf (set_nagle_enabled s b) /\ sk_wf (pause_synack s p) /\
  sk_wf (register_recv_waker s w) /\ sk_wf (register_send_waker s w).
Proof.
  intros Hwf. unfold set_tsval_generator, set_nagle_enabled, pause_synack, register_recv_waker, register_send_waker.
  pose proof Hwf as [Hc _]. split_and!; (eapply setting_wf; [|constructor; by sk_simpl|done]); core_solve.
Qed.

Lemma set_congestion_control_wf s c : sk_wf s -> sk_wf (set_congestion_control s c).
Proof.
  intros Hwf. unfold set_congestion_control. eapply setting_wf; [|constructor; by sk_simpl|done].
  destruct Hwf as [Hc _]. core_solve. destruct c; vm_compute; intuition discriminate.
Qed.

(** ** Sending *)

Lemma after_send_ok s n size :
  sk_core s -> wp (after_send s n size) (fun s' => sk_core s' /\ same_flow s s').
Proof.
  intros Hc. unfold after_send. destr_if; [|by cbn].
  set (s1 := if n =? 0 then _ else s).
  assert (H1 : sk_core s1 /\ same_flow s s1).
  { unfold s1. destr_if; [|done]. split; [core_solve; exact I|constructor; by sk_simpl]. }
  clearbody s1. destruct H1 as [Hc1 Hf1]. destr_if; [|by cbn].
  pose proof (rto_time_ok s1 Hc1) as [? ?].
  rewrite rtte_timeout_ok, bind_Ret by apply (core_rtte s1 Hc1).
  rewrite timer_set_for_zero_window_probe_ok, bind_Ret by (done || (unfold time_ok; lia)). cbn [wp].
  destruct (upd_timer_ok (TimerZeroWindowProbe (0 + rto (sk_rtte s1) * 1000) (rto (sk_rtte s1) * 1000)) s1 Hc1)
    as [? ?]; [done|]. split; [done|]. by transitivity s1.
Qed.

Lemma send_slice_ok s data :
  sk_wf s ->
  wp (send_slice s data) (fun '(s', r) =>
    sk_wf s' /\
    match r with
    | Ok n =>
        may_send s = true /\ sk_state s' = sk_state s /\
        n = Z.min (rb_capacity (sk_tx_buffer s) - rb_length (sk_tx_buffer s)) (Zlen data) /\
        rb_contents (sk_tx_buffer s') = rb_contents (sk_tx_buffer s) ++ take (Z.to_nat n) data /\
        sk_rx_buffer s' = sk_rx_buffer s /\ sk_local_seq_no s' = sk_local_seq_no s
    | Err _ => may_send s = false /\ s' = s
    end).
Proof.
  intros [Hc Hs]. destruct (core_tx s Hc) as [Htx Hcap]. unfold send_slice, send_impl.
  destruct (may_send s) eqn:Em; cbn [negb]; [|by cbn]. cbv zeta. rewrite bind_assoc.
  wp_bind_with (rb_enqueue_slice_ok (sk_tx_buffer s) data Htx). intros [tx n] (Hwf & Hcap' & Hn & Hcont).
  rewrite bind_Ret. set (s1 := upd_tx_buffer tx s).
  assert (Hc1 : sk_core s1) by (unfold s1; core_solve; split; [done|lia]).
  wp_bind_with (after_send_ok s1 (rb_len (sk_tx_buffer s)) n Hc1). intros s2 [Hc2 Hf2]. cbn [wp].
  pose proof (Zlen_nonneg data). pose proof Htx as ([? ?] & _).
  assert (Hlen : rb_length tx = rb_length (sk_tx_buffer s) + n).
  { rewrite <- (Zlen_contents tx Hwf), Hcont, Zlen_app, Zlen_contents by done. unfold Zlen in *.
    rewrite length_take. lia. }
  split.
  - eapply same_flow_wf; [done|done|]. split; [done|]. unfold sk_seq, seq_inv, s1 in *. sk_simpl.
    destruct Hs as (? & ? & ? & _). split; [done|]. split; [done|]. split; [lia|].
    intros E. unfold may_send in Em. by destruct (sk_state s).
  - split; [done|]. split; [apply Hf2|]. split; [done|]. rewrite (sf_tx _ _ Hf2).
    split; [done|]. split; apply Hf2.
Qed.

(** ** Receiving *)

(** Taking [n] octets off the front. *)
Lemma stream_dequeue S b rx a n :
  rx_inv rx a -> 0 <= n <= rb_length rx ->
  let rx' := mkRingBuffer (rb_storage rx) (rb_pos rx n) (rb_length rx - n) in
  rx_inv rx' a /\ (stream_at S b rx a -> stream_at S (b + n) rx' a).
Proof.
  intros (Hwf & Hcap & Ha & Hcov) Hn rx'. destruct (rb_advance_contents rx n Hwf Hn) as (Hwf' & _ & Hv).
  fold rx' in Hwf', Hv. pose proof Hwf as ([? ?] & _). change (rb_capacity rx') with (rb_capacity rx) in *.
  split.
  - split; [done|]. split; [done|]. split; [done|]. intros k Hk. specialize (Hcov k Hk).
    change (rb_capacity rx') with (rb_capacity rx). unfold rx'. cbn [rb_length]. lia.
  - intros Hs k Hk Hin. change (rb_capacity rx') with (rb_capacity rx) in Hk. unfold rx' in Hin. cbn [rb_length] in Hin.
    rewrite Hv by lia. pose proof (Zlen_rb_view rx Hwf) as Hvl. unfold Zlen in Hvl.
    assert (Hlt : k + n < rb_capacity rx).
    { destruct Hin as [?|Hin]; [lia|]. specialize (Hcov _ Hin). lia. }
    rewrite lookup_app_l by (rewrite length_drop; lia). rewrite lookup_drop.
    replace (Z.to_nat n + Z.to_nat k)%nat with (Z.to_nat (k + n)) by lia.
    rewrite Hs; [do 2 f_equal; lia|lia|]. destruct Hin as [?|Hin]; [left; lia|right].
    by replace (k + n - rb_length rx) with (k - (rb_length rx - n)) by lia.
Qed.

Lemma recv_slice_ok s data_len :
  sk_wf s -> 0 <= data_len <= usize_max ->
  wp (recv_slice s data_len) (fun '(s', r) =>
    sk_wf s' /\
    match r with
    | Ok data =>
        let n := Z.min (rb_length (sk_rx_buffer s)) data_len in
        data = take (Z.to_nat n) (rb_contents (sk_rx_buffer s)) /\
        rb_contents (sk_rx_buffer s') = drop (Z.to_nat n) (rb_contents (sk_rx_buffer s)) /\
        sk_remote_seq_no s' = seq_wrap (sk_remote_seq_no s + n) /\ sk_state s' = sk_state s /\
        sk_rx_fin_received s' = sk_rx_fin_received s /\
        (forall S b, stream_at S b (sk_rx_buffer s) (sk_assembler s) ->
                     stream_at S (b + n) (sk_rx_buffer s') (sk_assembler s'))
    | Err e =>
        s' = s /\ rb_contents (sk_rx_buffer s) = [] /\ may_recv s = false /\
        e = (if sk_rx_fin_received s then RecvFinished else RecvInvalidState)
    end).
Proof.
  intros [Hc Hs] Hd. pose proof (core_rx s Hc) as Hrx. pose proof Hrx as (Hwf & ? & _).
  unfold recv_slice, recv_impl, recv_error_check. destruct (may_recv s) eqn:Em; cbn [negb].
  - cbv iota zeta. rewrite bind_assoc, rb_dequeue_slice_eq, !bind_Ret by done.
    pose proof Hwf as ([? ?] & _). set (n := Z.min (rb_length (sk_rx_buffer s)) data_len).
    seq_step. cbn [wp]. sk_simpl.
    destruct (rb_advance_contents (sk_rx_buffer s) n Hwf ltac:(lia)) as (_ & Hcont & _).
    split; [split|].
    + core_solve; [|apply seq_wrap_range]. apply (stream_dequeue (fun _ => 0) 0 _ _ n Hrx). lia.
    + exact Hs.
    + split; [done|]. split; [done|]. split; [done|]. split; [done|]. split; [done|].
      intros S b. apply (stream_dequeue S b _ _ n Hrx). lia.
  - assert (He : rb_contents (sk_rx_buffer s) = []).
    { unfold may_recv in Em. unfold rb_contents.
      assert (rb_length (sk_rx_buffer s) = 0) as -> by (unfold rb_is_empty, rb_len in Em; destruct (sk_state s); lia).
      done. }
    destr_if; cbn [wp]; by split.
Qed.

(** ** The calls that take a closure *)

(** The closure of [send] and [recv] hands back the slice it was lent and takes no more of it
    than there is; [ring_buffer.rs] asserts the latter. *)
Definition closure_ok {R} (f : Z -> list Z -> res (list Z * Z * R)) : Prop :=
  forall pos buf, wp (f pos buf) (fun '(buf', size, _) => Zlen buf' = Zlen buf /\ 0 <= size <= Zlen buf).

Lemma enqueue_closure_ok {R} (rb : RingBuffer Z) (f : Z -> list Z -> res (list Z * Z * R)) :
  rb_wf rb -> closure_ok f ->
  wp (rb_enqueue_many_with rb f) (fun '(rb', size, _) =>
    rb_wf rb' /\ rb_capacity rb' = rb_capacity rb /\ 0 <= size /\ rb_length rb' = rb_length rb + size).
Proof.
  intros Hwf Hf. pose proof (rb_norm_wf rb Hwf) as Hn. pose proof (rb_cw_range _ Hn) as (Hcw & _).
  rewrite rb_norm_length, rb_norm_capacity in Hcw. pose proof Hwf as (? & _).
  set (buf := sub (rb_view (rb_norm rb)) (rb_length rb) (rb_cw (rb_norm rb))).
  assert (Hb : Zlen buf = rb_cw (rb_norm rb)).
  { unfold buf. rewrite Zlen_sub; rewrite ?Zlen_rb_view, ?rb_norm_capacity; auto; lia. }
  destruct (wp_Ret_inv _ _ (Hf (rb_pos (rb_norm rb) (rb_length rb)) buf)) as ([[buf' size] r] & E & Hl & Hs).
  rewrite (rb_enqueue_many_with_ok rb f buf' size r) by (done || lia). cbn [wp].
  destruct (rb_enqueue_many_contents (rb_norm rb) buf' size Hn ltac:(lia) ltac:(lia)) as (Hw & Hc & _).
  assert (Est : rb_storage (rb_norm rb) = rb_storage rb) by (unfold rb_norm; by destr_if).
  rewrite rb_norm_length, Est in Hw, Hc. rewrite rb_norm_capacity in Hc. split_and!; (done || lia).
Qed.

Lemma dequeue_closure_ok {R} (rb : RingBuffer Z) (f : Z -> list Z -> res (list Z * Z * R)) :
  rb_wf rb -> closure_ok f ->
  wp (rb_dequeue_many_with rb f) (fun '(rb', size, _) =>
    rb_wf rb' /\ rb_capacity rb' = rb_capacity rb /\ 0 <= size /\ rb_length rb' = rb_length rb - size).
Proof.
  intros Hwf Hf. pose proof Hwf as (? & ? & ? & ?).
  set (mx := Z.min (rb_length rb) (rb_capacity rb - rb_read_at rb)).
  assert (Hb : Zlen (sub (rb_view rb) 0 mx) = mx) by (rewrite Zlen_sub; rewrite ?Zlen_rb_view; auto; lia).
  destruct (wp_Ret_inv _ _ (Hf (rb_read_at rb) (sub (rb_view rb) 0 mx))) as ([[buf' size] r] & E & Hl & Hs).
  rewrite (rb_dequeue_many_with_ok rb f buf' size r) by (done || lia). cbn [wp].
  assert (Hst : Zlen (splice (rb_storage rb) (rb_read_at rb) buf') = rb_capacity rb).
  { apply Zlen_splice; unfold rb_capacity in *; lia. }
  destruct (rb_advance_contents rb size Hwf ltac:(lia)) as (Hw & _). unfold rb_wf, rb_capacity in *. cbn in *. rewrite Hst. auto with lia.
Qed.

Lemma send_wf {R} s (f : Z -> list Z -> res (list Z * Z * R)) :
  sk_wf s -> closure_ok f -> wp (send s f) (fun '(s', _) => sk_wf s').
Proof.
  intros [Hc Hs] Hf. destruct (core_tx s Hc) as [Htx Hcap]. unfold send, send_impl.
  destruct (may_send s) eqn:Em; cbn [negb]; [|by cbn]. cbv zeta.
  wp_bind_with (enqueue_closure_ok (sk_tx_buffer s) f Htx Hf). intros [[tx n] r] (Hwf & Hcap' & Hn & Hlen).
  set (s1 := upd_tx_buffer tx s).
  assert (Hc1 : sk_core s1) by (unfold s1; core_solve; split; [done|lia]).
  wp_bind_with (after_send_ok s1 (rb_len (sk_tx_buffer s)) n Hc1). intros s2 [Hc2 Hf2]. cbn [wp].
  eapply same_flow_wf; [done|done|]. split; [done|]. unfold sk_seq, seq_inv, s1 in *. sk_simpl.
  destruct Hs as (? & ? & ? & _). split_and!; try (done || lia). intros E. unfold may_send in Em. by destruct (sk_state s).
Qed.

Lemma recv_wf {R} s (f : Z -> list Z -> res (list Z * Z * R)) :
  sk_wf s -> closure_ok f -> wp (recv s f) (fun '(s', _) => sk_wf s').
Proof.
  intros [Hc Hs] Hf. pose proof (core_rx s Hc) as (Hwf & Hcap & Ha & Hcov). pose proof Hwf as ([? ?] & _).
  unfold recv, recv_impl. destruct (recv_error_check s); [|by cbn].
  wp_bind_with (dequeue_closure_ok (sk_rx_buffer s) f Hwf Hf). intros [[rx n] r] (Hwf' & Hcap' & Hn & Hlen).
  pose proof Hwf' as ([? ?] & _). rewrite seq_add_ok, bind_Ret by mlia. cbn [wp]. split.
  - core_solve; [|apply seq_wrap_range]. split; [done|]. split; [lia|]. split; [done|]. intros k Hk. specialize (Hcov k Hk). lia.
  - exact Hs.
Qed.

Lemma write_str_wf s slice : sk_wf s -> wp (write_str s slice) (fun '(s', _) => sk_wf s').
Proof. intros Hwf. unfold write_str. wp_bind_with (send_slice_ok s slice Hwf). by intros [s' r] [? _]. Qed.

(** ** The stream over a whole connection *)

(** Segments received and reads by the application.  The remote end numbers the octets of its
    stream [S] from [irs + 1] on; [b] is the position in the stream of the next octet to be
    read, [out] what was read so far. *)
Inductive rx_event : Type :=
| EvSegment (cx : Context) (ip : IpRepr) (r : TcpRepr)
| EvRead (data_len : Z).

Definition rx_event_step (s : Socket) (e : rx_event) : res (Socket * list Z) :=
  match e with
  | EvSegment cx ip r => '(_, s, _) ← process cx s ip r; Ret (s, [])
  | EvRead data_len =>
      '(s, r) ← recv_slice s data_len; Ret (s, match r with Ok data => data | Err _ => [] end)
  end.

Fixpoint rx_events (s : Socket) (es : list rx_event) : res (Socket * list Z) :=
  match es with
  | [] => Ret (s, [])
  | e :: es =>
      '(s, out) ← rx_event_step s e;
      '(s, out') ← rx_events s es;
      Ret (s, out ++ out')
  end.

Section Stream.
Context (S : Z -> Z) (irs : SeqNumber).

(** What the network and the application may do in [s] with [b] octets read: a segment of the
    stream for the synchronized socket, before its FIN, less than half the sequence space
    away; or a read. *)
Definition rx_event_ok (s : Socket) (b : Z) (e : rx_event) : Prop :=
  match e with
  | EvSegment cx ip r =>
      process_pre cx s ip r /\ sk_rx_fin_received s = false /\
      sk_state s <> Listen /\ sk_state s <> SynSent /\
      exists p, seq_number r = seq_wrap (irs + 1 + p) /\ - 2 ^ 31 <= p - b < 2 ^ 31 /\
        data_at S p (payload r)
  | EvRead data_len => 0 <= data_len <= usize_max
  end.

(** Each event of the run is allowed where it happens. *)
Fixpoint rx_events_ok (s : Socket) (b : Z) (es : list rx_event) : Prop :=
  match es with
  | [] => True
  | e :: es =>
      rx_event_ok s b e /\
      match rx_event_step s e with
      | Ret (s', out) => rx_events_ok s' (b + Zlen out) es
      | Panic => True
      end
  end.

Definition rx_stream_inv (s : Socket) (b : Z) : Prop :=
  sk_wf s /\ stream_at S b (sk_rx_buffer s) (sk_assembler s) /\
  (sk_rx_fin_received s = false -> sk_remote_seq_no s = seq_wrap (irs + 1 + b)).

Lemma data_at_nil b : data_at S b [].
Proof. intros i Hi. change (Zlen []) with 0 in Hi. lia. Qed.

Lemma data_at_app b l l' : data_at S b l -> data_at S (b + Zlen l) l' -> data_at S b (l ++ l').
Proof.
  intros Hl Hl' i Hi. rewrite Zlen_app in Hi. destruct (Z.lt_ge_cases i (Zlen l)).
  - rewrite lookup_app_l by (unfold Zlen in *; lia). apply Hl. lia.
  - rewrite lookup_app_r by (unfold Zlen in *; lia).
    replace (Z.to_nat i - length l)%nat with (Z.to_nat (i - Zlen l)) by (unfold Zlen in *; lia).
    rewrite Hl' by lia. do 2 f_equal. lia.
Qed.

Lemma rx_event_step_ok s b e :
  rx_stream_inv s b -> rx_event_ok s b e ->
  wp (rx_event_step s e) (fun '(s', out) => rx_stream_inv s' (b + Zlen out) /\ data_at S b out).
Proof.
  intros (Hwf & Hs & Hseq) He. pose proof Hwf as [Hc _].
  pose proof (core_rx s Hc) as (Hrx & _). destruct e as [cx ip r|n]; cbn [rx_event_step rx_event_ok] in *.
  - destruct He as (Hpre & Hfin & Hl1 & Hl2 & p & Hp & Hpb & Hd).
    assert (Hag : seg_agrees S b s r).
    { unfold seg_agrees. rewrite Hp, (Hseq Hfin), seq_dist by lia. intros j Hj Hdj.
      rewrite Hd by done. do 2 f_equal. lia. }
    wp_bind_with (process_ok cx s ip r Hpre). intros [[cx' s'] o] [Hwf' _ _ _ Hrm Hstep _]. cbn [wp].
    rewrite Z.add_0_r. split; [|apply data_at_nil].
    pose proof Hpre as [_ _ (_ & _ & _ & _ & _ & Hpl) _ _ _].
    split; [done|]. split; [by apply (rx_step_stream S b s s' r)|].
    intros Hf. destruct (Hrm Hl1 Hl2) as [_ [[-> _]|(_ & _ & Hf')]]; [auto|congruence].
  - wp_bind_with (recv_slice_ok s n Hwf He). intros [s' [data|err]] [Hwf' H]; cbn [wp].
    + destruct H as (Hdata & Hcont & Hsn & _ & Hf & Hst). pose proof Hrx as ([? ?] & _).
      set (k := Z.min (rb_length (sk_rx_buffer s)) n) in *. pose proof (Zlen_contents _ Hrx).
      assert (Hk : Zlen data = k) by (rewrite Hdata; unfold Zlen in *; rewrite length_take; lia).
      rewrite Hk. split; [split; [done|]; split; [by apply Hst|]|].
      * intros E. rewrite Hsn, Hseq by congruence. rewrite seq_wrap_add_l. f_equal. lia.
      * intros i Hi. rewrite Hdata, lookup_take_lt by lia.
        apply (stream_contents S b _ _ Hrx Hs). lia.
    + destruct H as (-> & _). rewrite Z.add_0_r. split; [done|apply data_at_nil].
Qed.

Lemma rx_events_run s b es :
  rx_stream_inv s b -> rx_events_ok s b es ->
  wp (rx_events s es) (fun '(s', out) => rx_stream_inv s' (b + Zlen out) /\ data_at S b out).
Proof.
  revert s b. induction es as [|e es IH]; intros s b Hinv Hok; cbn [rx_events rx_events_ok] in *.
  - cbn [wp]. rewrite Z.add_0_r. split; [done|apply data_at_nil].
  - destruct Hok as [He Hes]. destruct (wp_Ret_inv _ _ (rx_event_step_ok s b e Hinv He)) as ([s1 out] & E & Hinv1 & Hd).
    rewrite E in *. rewrite bind_Ret. wp_bind_with (IH s1 (b + Zlen out) Hinv1 Hes).
    intros [s2 out'] [Hinv2 Hd']. cbn [wp]. rewrite Zlen_app, Z.add_assoc. split; [done|].
    by apply data_at_app.
Qed.
End Stream.

(** ** Properties *)

(** [send_slice] queues behind the octets already queued the longest prefix of the data
    that fits and returns its length; it fails, and changes nothing, exactly in the states in
    which the transmit half is closed. *)
Theorem send_slice_spec s data :
  sk_wf s ->
  wp (send_slice s data) (fun '(s', r) =>
    sk_wf s' /\
    match r with
    | Ok n =>
        may_send s = true /\ sk_state s' = sk_state s /\
        n = Z.min (rb_capacity (sk_tx_buffer s) - rb_length (sk_tx_buffer s)) (Zlen data) /\
        rb_contents (sk_tx_buffer s') = rb_contents (sk_tx_buffer s) ++ take (Z.to_nat n) data /\
        sk_rx_buffer s' = sk_rx_buffer s /\ sk_local_seq_no s' = sk_local_seq_no s
    | Err _ => may_send s = false /\ s' = s
    end).
Proof. apply send_slice_ok. Qed.

(** [recv_slice] returns the oldest octets received, as many as fit the destination, and
    advances the sequence number expected next past them, so that the window opens by as
    much; it reports [Finished] only when the FIN of the remote end was received and the
    buffer is empty, and an error changes nothing. *)
Theorem recv_slice_spec s data_len :
  sk_wf s -> 0 <= data_len <= usize_max ->
  wp (recv_slice s data_len) (fun '(s', r) =>
    sk_wf s' /\
    match r with
    | Ok data =>
        let n := Z.min (rb_length (sk_rx_buffer s)) data_len in
        data = take (Z.to_nat n) (rb_contents (sk_rx_buffer s)) /\
        rb_contents (sk_rx_buffer s') = drop (Z.to_nat n) (rb_contents (sk_rx_buffer s)) /\
        sk_remote_seq_no s' = seq_wrap (sk_remote_seq_no s + n) /\ sk_state s' = sk_state s /\
        sk_rx_fin_received s' = sk_rx_fin_received s
    | Err e =>
        s' = s /\ rb_contents (sk_rx_buffer s) = [] /\ may_recv s = false /\
        e = (if sk_rx_fin_received s then RecvFinished else RecvInvalidState)
    end).
Proof.
  intros Hwf Hd. eapply wp_mono; [by apply recv_slice_ok|]. intros [s' [data|e]]; cbv zeta; tauto.
Qed.

(** C4: over any sequence of segments and reads on a synchronized connection before the FIN of
    the remote end is received, whatever the order, loss, repetition and overlap of the segments,
    an application reads exactly the stream of the remote end: the octets returned by all reads,
    concatenated, are the stream from its beginning on, and nothing in between panics.  Two
    cases are excluded: once a FIN was received no further segment is considered, since the FIN of a segment whose
    payload was cut off by the window counts as received and loses octets
    ([fin_with_cut_payload_loses_octets]); and with SACK no segment arrives while the
    receive window lies across the sequence number 0, where data out of order panics
    ([sack_near_wrap_panics]).  Segments number less than half the sequence space away from the
    next octet to be read, and at most 2^28 ms after the one being timed. *)
Theorem reads_are_stream (S : Z -> Z) (irs : SeqNumber) s es :
  rx_stream_inv S irs s 0 -> rx_events_ok S irs s 0 es ->
  wp (rx_events s es) (fun '(s', out) =>
    data_at S 0 out /\ data_at S (Zlen out) (rb_contents (sk_rx_buffer s'))).
Proof.
  intros Hinv Hok. eapply wp_mono; [by apply rx_events_run|]. intros [s' out] [(Hwf & Hs & _) Hd].
  split; [done|]. destruct Hwf as [Hc _]. eapply stream_contents; [|exact Hs]. apply (core_rx s' Hc).
Qed.

(** ** Witnesses *)

Definition ex_idle : Socket := ex_socket Established [] [] 0.

Lemma ex_idle_wf : sk_wf ex_idle.
Proof. apply ex_wf; vm_compute; intuition (try discriminate; lia). Qed.

Lemma send_slice_spec_witness :
  wp (send_slice ex_idle [7; 8; 9]) (fun '(s', r) =>
    sk_wf s' /\
    match r with
    | Ok n =>
        may_send ex_idle = true /\ sk_state s' = sk_state ex_idle /\
        n = Z.min (rb_capacity (sk_tx_buffer ex_idle) - rb_length (sk_tx_buffer ex_idle)) (Zlen [7; 8; 9]) /\
        rb_contents (sk_tx_buffer s') = rb_contents (sk_tx_buffer ex_idle) ++ take (Z.to_nat n) [7; 8; 9] /\
        sk_rx_buffer s' = sk_rx_buffer ex_idle /\ sk_local_seq_no s' = sk_local_seq_no ex_idle
    | Err _ => may_send ex_idle = false /\ s' = ex_idle
    end).
Proof. apply (send_slice_spec ex_idle [7; 8; 9]). apply ex_idle_wf. Defined.

Lemma recv_slice_spec_witness :
  wp (recv_slice ex_received 1) (fun '(s', r) =>
    sk_wf s' /\
    match r with
    | Ok data =>
        let n := Z.min (rb_length (sk_rx_buffer ex_received)) 1 in
        data = take (Z.to_nat n) (rb_contents (sk_rx_buffer ex_received)) /\
        rb_contents (sk_rx_buffer s') = drop (Z.to_nat n) (rb_contents (sk_rx_buffer ex_received)) /\
        sk_remote_seq_no s' = seq_wrap (sk_remote_seq_no ex_received + n) /\
        sk_state s' = sk_state ex_received /\ sk_rx_fin_received s' = sk_rx_fin_received ex_received
    | Err e =>
        s' = ex_received /\ rb_contents (sk_rx_buffer ex_received) = [] /\ may_recv ex_received = false /\
        e = (if sk_rx_fin_received ex_received then RecvFinished else RecvInvalidState)
    end).
Proof.
  apply (recv_slice_spec ex_received 1); [|mlia]. apply ex_wf; vm_compute; intuition (try discriminate; lia).
Defined.

Lemma reads_are_stream_witness :
  wp (rx_events ex_idle [EvSegment cx_example ex_ip (ex_segment 200 (Some 100) CtlPsh [1; 2]); EvRead 8])
    (fun '(s', out) =>
      data_at (fun p => p + 1) 0 out /\ data_at (fun p => p + 1) (Zlen out) (rb_contents (sk_rx_buffer s'))).
Proof.
  apply (reads_are_stream (fun p => p + 1) 199).
  - split; [apply ex_idle_wf|]. split; [|by intros _; vm_compute].
    intros k Hk [H|H]; [change (rb_length (sk_rx_buffer ex_idle)) with 0 in H; lia|].
    exfalso. revert H. unfold ex_idle, ex_socket. cbn [sk_assembler]. by rewrite covered_asm_new.
  - split.
    + split; [apply ex_pre; vm_compute; intuition (try discriminate; lia)|].
      split; [done|]. split; [done|]. split; [done|]. exists 0. split; [done|]. split; [lia|].
      intros i Hi. change (Zlen _) with 2 in Hi. assert (i = 0 \/ i = 1) as [-> | ->] by lia; reflexivity.
    + vm_compute. intuition discriminate.
Defined.
