(* ===== verification/TcpDispatchLemmas.v ===== *)
(** * The TCP socket: stages of transmission (socket/tcp.rs, [dispatch])

    No stage of [dispatch] panics under the invariant, and the packet it builds is one of the
    kinds below. *)

From S2P Require Import Prelude SeqNumber RingBuffer Assembler TimeModel TcpTimers Congestion IpTypes TcpRepr IfaceContext TcpSocket TcpProcess TcpDispatch TcpInvariant TcpReplyLemmas TcpProcessLemmas TcpTransitionLemmas TcpReceiveLemmas.

(** The IP MTU of the device, with room for the largest IP header and a TCP header. *)
Definition mtu_is (cx : Context) (mtu : Z) : Prop :=
  cx_ip_mtu cx = Ret mtu /\ IPV6_HEADER_LEN + TCP_HEADER_LEN <= mtu <= usize_max.

(** The right edge of the window advertised last is not behind the data received since. *)
Definition win_edge_ok (s : Socket) : Prop :=
  match sk_remote_last_ack s with
  | Some last_ack =>
      0 <= seq_wrap (seq_wrap (last_ack + sk_remote_last_win s * 2 ^ sk_remote_win_shift s) - next_ack s)
  | None => True
  end.

(** What the stages before the packet is built leave unchanged. *)
Record dispatch_same (s s' : Socket) : Prop := {
  ds_state : sk_state s' = sk_state s \/ sk_state s' = Closed;
  ds_rx : sk_rx_buffer s' = sk_rx_buffer s;
  ds_asm : sk_assembler s' = sk_assembler s;
  ds_fin : sk_rx_fin_received s' = sk_rx_fin_received s;
  ds_tx : sk_tx_buffer s' = sk_tx_buffer s;
  ds_local : sk_local_seq_no s' = sk_local_seq_no s;
  ds_remote : sk_remote_seq_no s' = sk_remote_seq_no s;
  ds_tuple : sk_tuple s' = sk_tuple s;
  ds_last_ack : sk_remote_last_ack s' = sk_remote_last_ack s;
  ds_last_win : sk_remote_last_win s' = sk_remote_last_win s;
  ds_shift : sk_remote_win_shift s' = sk_remote_win_shift s;
  ds_win : sk_remote_win_len s' = sk_remote_win_len s;
  ds_mss : sk_remote_mss s' = sk_remote_mss s;
  ds_tsval : sk_tsval_generator s' = sk_tsval_generator s;
}.

#[export] Instance dispatch_same_refl : Reflexive dispatch_same.
Proof. intros s. constructor; auto. Qed.

#[export] Instance dispatch_same_trans : Transitive dispatch_same.
Proof. intros a b c [[] ?????????????] [[] ?????????????]. all: constructor; try congruence; first [left; congruence|right; congruence]. Qed.

Lemma dispatch_same_edge s s' : dispatch_same s s' -> win_edge_ok s -> win_edge_ok s'.
Proof.
  intros Hd H. unfold win_edge_ok, next_ack in *.
  by rewrite (ds_last_ack _ _ Hd), (ds_last_win _ _ Hd), (ds_shift _ _ Hd), (ds_remote _ _ Hd), (ds_rx _ _ Hd).
Qed.

Section Dispatch.
Context {cfg : BuildConfig} {cfg_ok : BuildConfigOk}.
Implicit Types s : Socket.

(** ** What is due *)

Lemma local_mss_ok cx mtu h :
  mtu_is cx mtu -> 0 <= h <= IPV6_HEADER_LEN -> local_mss cx h = Ret (mtu - h - TCP_HEADER_LEN).
Proof.
  intros [E ?] Hh. unfold local_mss. rewrite E, bind_Ret. unfold IPV6_HEADER_LEN, TCP_HEADER_LEN in *.
  arith_step. by rewrite usize_sub_ok by mlia.
Qed.

Lemma address_header_len_range a : 0 <= address_header_len a <= IPV6_HEADER_LEN.
Proof. destruct a; cbn; unfold IPV4_HEADER_LEN, IPV6_HEADER_LEN; lia. Qed.

Lemma max_send_ok s :
  sk_wf s -> exists n, max_send s = Ret n /\
    n = Z.max 0 (Z.min (sk_remote_win_len s) (rb_length (sk_tx_buffer s)) - in_flight s).
Proof.
  intros [Hc Hs]. destruct (core_tx s Hc) as [([? ?] & _) ?]. pose proof (core_win s Hc).
  destruct Hs as (Hl & Hla & Hfl & _). unfold max_send, rb_len. fold (in_flight s) in Hfl.
  set (m := Z.min _ _) in *. assert (0 <= m <= 2 ^ 30) by lia. clearbody m. seq_step.
  assert (Hd : seq_wrap (seq_wrap (sk_local_seq_no s + m) - sk_remote_last_seq s) = m - in_flight s).
  { assert (ctl_room (sk_state s) <= 1) by (destruct (sk_state s); cbn; lia).
    unfold in_flight in *. set (t := rb_length _ + _) in Hfl. assert (t <= 2 ^ 30 + 1) by lia. clearbody t.
    clear -Hl Hla Hfl H1 H3. seq_lia. }
  unfold seq_ge, seq_sub. rewrite Hd. destr_if; [|eexists; split; [reflexivity|lia]].
  destr_if; [lia|]. eexists. split; [reflexivity|lia].
Qed.

Lemma seq_to_transmit_ok cx s mtu :
  sk_wf s -> mtu_is cx mtu -> sk_tuple s <> None -> wp (seq_to_transmit cx s) (fun _ => True).
Proof.
  intros Hwf Hm Ht. unfold seq_to_transmit. destruct (sk_tuple s) as [t|]; [|done].
  rewrite (local_mss_ok cx mtu) by (auto using address_header_len_range). rewrite bind_Ret. cbv zeta.
  destr_if; [done|]. destruct (max_send_ok s Hwf) as (n & -> & _). rewrite bind_Ret.
  destruct (want_fin (sk_state s)); [|by rewrite bind_Ret].
  destruct Hwf as [Hc _]. destruct (core_tx s Hc) as [([? ?] & _) ?]. unfold rb_len. by seq_step.
Qed.

Lemma ack_to_transmit_ok s : sk_core s -> wp (ack_to_transmit s) (fun _ => True).
Proof.
  intros Hc. unfold ack_to_transmit, rb_len. destruct (sk_remote_last_ack s); [|done].
  destruct (core_rx s Hc) as ([? _] & ? & _). by rewrite rx_len_add, bind_Ret by (auto; lia).
Qed.

Lemma last_scaled_window_ok s : sk_core s -> win_edge_ok s -> wp (last_scaled_window s) (fun _ => True).
Proof.
  intros Hc He. unfold last_scaled_window, rb_len. unfold win_edge_ok in He.
  destruct (sk_remote_last_ack s) as [last|]; [|done]. destruct (core_rx s Hc) as ([? _] & ? & _).
  rewrite rx_len_add, bind_Ret by (auto; lia). fold (next_ack s).
  pose proof (core_shift s Hc). pose proof (core_last_win s Hc) as Hw. unfold_max.
  assert (Hp : 0 < 2 ^ sk_remote_win_shift s <= 2 ^ 15)
    by (split; [apply Z.pow_pos_nonneg; lia|apply Z.pow_le_mono_r; lia]).
  unfold usize_shl, usize_shr. replace (sk_remote_win_shift s <? 64) with true by lia.
  rewrite bind_Ret, Z.shiftl_mul_pow2, wrap_u_id by nia. rewrite seq_add_ok, bind_Ret by (unfold_max; nia).
  rewrite seq_sub_ok, bind_Ret by done. done.
Qed.

Lemma window_to_update_ok s : sk_core s -> win_edge_ok s -> wp (window_to_update s) (fun _ => True).
Proof.
  intros Hc He. unfold window_to_update.
  assert (H : wp (new_win ← scaled_window s; last_win ← last_scaled_window s;
    Ret (match last_win with Some last_win => (0 <? new_win) && (last_win <=? new_win / 2) | None => false end))
    (fun _ => True)).
  { destruct (scaled_window_ok s Hc) as (w & -> & _). rewrite bind_Ret.
    eapply wp_bind_mono; [by apply last_scaled_window_ok|]. done. }
  destruct (sk_state s); done.
Qed.

(** ** The stages before a packet is built *)

Lemma timed_out_ok s now : sk_core s -> wp (timed_out s now) (fun _ => True).
Proof.
  intros Hc. unfold timed_out. pose proof (core_last_ts s Hc) as Ht. pose proof (core_timeout s Hc) as Hd.
  destruct (sk_remote_last_ts s), (sk_timeout s); try done. cbn in *.
  rewrite instant_add_ok; [done|done|]. unfold time_ok in *. lia.
Qed.

Lemma dispatch_start_ok cx s :
  sk_wf s -> time_ok (cx_now cx) -> wp (dispatch_start cx s) (fun s' => sk_wf s' /\ dispatch_same s s').
Proof.
  intros [Hc Hs] Hn. unfold dispatch_start.
  set (s1 := match sk_remote_last_ts s with None => _ | Some _ => s end).
  assert (H1 : sk_core s1 /\ same_flow s s1 /\ dispatch_same s s1).
  { unfold s1. destruct (sk_remote_last_ts s); [done|].
    split; [core_solve|]. split; constructor; sk_simpl; auto. }
  clearbody s1. destruct H1 as (Hc1 & Hf1 & Hd1). cbv zeta.
  wp_bind_with (law_pre_transmit _ _ (core_cc s1 Hc1) Hn). intros c Hcc. cbn [wp].
  split; [split; [core_solve|]|].
  - pose proof (same_flow_seq _ _ Hf1 Hs) as Hs1. unfold sk_seq in *. by sk_simpl.
  - transitivity s1; [done|]. constructor; sk_simpl; auto.
Qed.

Lemma dispatch_timers_ok cx s mtu :
  sk_wf s -> time_ok (cx_now cx) -> mtu_is cx mtu -> sk_tuple s <> None ->
  wp (dispatch_timers cx s) (fun s' => sk_wf s' /\ dispatch_same s s').
Proof.
  intros Hwf Hn Hm Ht. pose proof Hwf as [Hc Hs]. unfold dispatch_timers.
  wp_bind_with (timed_out_ok s (cx_now cx) Hc). intros [|] _.
  { cbn [wp]. split; [split|].
    - by apply wake_state.
    - apply set_state_seq; [done| |done]. by destruct (sk_state s).
    - unfold set_state. constructor; sk_simpl; auto. }
  wp_bind_with (seq_to_transmit_ok cx s mtu Hwf Hm Ht). intros b _. destr_if; [|by cbn].
  cbv zeta. sk_simpl. rewrite timer_set_for_idle_ok, bind_Ret by (done || apply (core_keep_alive s Hc)). sk_simpl.
  destruct (rtte_on_retransmit_ok (sk_rtte s) (core_rtte s Hc)) as (r' & -> & Hr' & _). rewrite bind_Ret.
  cbn [wp]. destruct (core_tx s Hc) as [([? ?] & _) ?]. destruct Hs as (Hl & Hla & Hfl & Hop). split; [split|].
  - core_solve; [exact I|]. apply law_on_retransmit; auto.
  - unfold sk_seq. sk_simpl. by apply seq_inv_same.
  - constructor; sk_simpl; auto.
Qed.

Lemma dispatch_decide_ok cx s mtu :
  sk_wf s -> mtu_is cx mtu -> sk_tuple s <> None -> win_edge_ok s ->
  wp (dispatch_decide cx s) (fun _ => True).
Proof.
  intros Hwf Hm Ht He. pose proof Hwf as [Hc _]. unfold dispatch_decide.
  wp_bind_with (seq_to_transmit_ok cx s mtu Hwf Hm Ht). intros [|] _; [done|].
  wp_bind_with (ack_to_transmit_ok s Hc). intros b _. destr_if; [done|].
  wp_bind_with (window_to_update_ok s Hc He). intros [|] _; [done|].
  by repeat destr_if.
Qed.
(** ** The packet *)

(** A segment with data: [n] octets of the transmit buffer behind the ones in flight, within
    the remote window (or one octet, probing a window that is closed), the MSS of the remote
    end and what the MTU leaves room for; the FIN follows the last octet once the transmit
    half is closed. *)
Definition data_packet s (mss : Z) (r : TcpRepr) (probe : bool) : Prop :=
  let off := in_flight s in
  let n := Zlen (payload r) in
  (payload r = [] \/ off + n <= rb_length (sk_tx_buffer s) /\ payload r = sub (rb_contents (sk_tx_buffer s)) off n) /\
  seq_number r = sk_remote_last_seq s /\ n <= sk_remote_mss s /\ n <= mss /\
  (if probe then sk_remote_win_len s <= off /\ n <= 1 else n = 0 \/ off + n <= sk_remote_win_len s) /\
  match control r with
  | CtlFin => want_fin (sk_state s) = true /\ off + n = rb_length (sk_tx_buffer s)
  | CtlPsh => n <> 0 /\ off + n = rb_length (sk_tx_buffer s)
  | CtlNone => want_fin (sk_state s) = false \/ off + n <> rb_length (sk_tx_buffer s)
  | _ => False
  end.

(** The kinds of packets, by the state of the socket. *)
Inductive packet_kind s (mss : Z) (r : TcpRepr) : bool -> bool -> Prop :=
| pk_rst : sk_state s = Closed -> control r = CtlRst -> payload r = [] ->
    seq_number r = sk_remote_last_seq s -> packet_kind s mss r false false
| pk_syn : is_syn_state (sk_state s) = true -> control r = CtlSyn -> payload r = [] ->
    seq_number r = sk_local_seq_no s -> max_seg_size r = Some (wrap_u 16 mss) -> packet_kind s mss r false false
| pk_data probe :
    (sk_state s = Established \/ sk_state s = FinWait1 \/ sk_state s = Closing \/ sk_state s = CloseWait \/
     sk_state s = LastAck) ->
    data_packet s mss r probe -> packet_kind s mss r probe false
| pk_ack : sk_state s = FinWait2 \/ sk_state s = TimeWait -> control r = CtlNone -> payload r = [] ->
    seq_number r = sk_remote_last_seq s -> packet_kind s mss r false false
| pk_keep_alive probe : is_syn_state (sk_state s) = false -> sk_state s <> Closed -> control r = CtlNone ->
    payload r = [0] -> seq_number r = seq_wrap (sk_remote_last_seq s - 1) -> packet_kind s mss r probe true.

(** No option but the timestamp. *)
Definition plain_options s (r : TcpRepr) : Prop :=
  max_seg_size r = None /\ window_scale r = None /\ sack_permitted r = false /\
  sack_ranges r = (None, None, None) /\ (sk_tsval_generator s = None -> repr_timestamp r = None).

(** Addressed by the connection's endpoints, acknowledging everything received in order. *)
Definition packet_header s (t : Tuple) (o : Outgoing) : Prop :=
  let r := out_tcp o in
  ip_src_addr (out_ip o) = ep_addr (tuple_local t) /\ ip_dst_addr (out_ip o) = ep_addr (tuple_remote t) /\
  src_port r = ep_port (tuple_local t) /\ dst_port r = ep_port (tuple_remote t) /\
  ip_payload_len (out_ip o) = tcp_buffer_len r /\ ip_next_header (out_ip o) = PROTOCOL_TCP /\
  ack_number r = (if sk_state s is SynSent then None else Some (next_ack s)) /\
  in_u16 (window_len r) /\ (control r <> CtlSyn -> plain_options s r).

(** A representation that [dispatch_by_state] may return: [packet_kind] before the keep-alive
    octet and the MSS option are filled in. *)
Definition by_state_ok s (mss : Z) (r : TcpRepr) (probe : bool) : Prop :=
  (sk_state s = Closed /\ control r = CtlRst /\ payload r = [] /\ seq_number r = sk_remote_last_seq s /\ probe = false) \/
  (is_syn_state (sk_state s) = true /\ control r = CtlSyn /\ payload r = [] /\ seq_number r = sk_local_seq_no s /\
   probe = false) \/
  ((sk_state s = Established \/ sk_state s = FinWait1 \/ sk_state s = Closing \/ sk_state s = CloseWait \/
    sk_state s = LastAck) /\ data_packet s mss r probe) \/
  ((sk_state s = FinWait2 \/ sk_state s = TimeWait) /\ control r = CtlNone /\ payload r = [] /\
   seq_number r = sk_remote_last_seq s /\ probe = false).

(** Header fields of the representation that the later stages keep. *)
Definition base_ok s (t : Tuple) (r : TcpRepr) : Prop :=
  src_port r = ep_port (tuple_local t) /\ dst_port r = ep_port (tuple_remote t) /\
  ack_number r = (if sk_state s is SynSent then None else Some (next_ack s)) /\ in_u16 (window_len r) /\
  (control r <> CtlSyn -> plain_options s r).

Lemma dispatch_base_ok cx s t :
  sk_core s ->
  wp (dispatch_base cx s t) (fun r =>
    src_port r = ep_port (tuple_local t) /\ dst_port r = ep_port (tuple_remote t) /\
    ack_number r = Some (next_ack s) /\ in_u16 (window_len r) /\ plain_options s r /\
    control r = CtlNone /\ payload r = [] /\ seq_number r = sk_remote_last_seq s).
Proof.
  intros Hc. unfold dispatch_base, rb_len. destruct (core_rx s Hc) as ([? _] & ? & _).
  rewrite rx_len_add, bind_Ret by (auto; lia). destruct (scaled_window_ok s Hc) as (w & -> & Hw & _).
  rewrite bind_Ret. cbn. repeat (split; [done|]). split; [|done]. unfold plain_options. cbn.
  repeat (split; [done|]). by intros ->.
Qed.

Lemma dispatch_win_limit_ok cx s :
  sk_wf s -> exists l probe, dispatch_win_limit cx s = Ret (l, probe) /\ 0 <= l <= 2 ^ 30 + 1 /\
    if (probe : bool) then sk_remote_win_len s <= in_flight s /\ l = 1
    else l = Z.max 0 (sk_remote_win_len s - in_flight s).
Proof.
  intros [Hc Hs]. destruct (core_tx s Hc) as [([? ?] & _) ?]. pose proof (core_win s Hc) as Hw.
  destruct Hs as (Hl & Hla & Hfl & _). fold (in_flight s) in Hfl. unfold dispatch_win_limit. seq_step.
  assert (ctl_room (sk_state s) <= 1) by (destruct (sk_state s); cbn; lia).
  assert (Hd : seq_wrap (seq_wrap (sk_local_seq_no s + sk_remote_win_len s) - sk_remote_last_seq s)
    = sk_remote_win_len s - in_flight s).
  { unfold in_flight in *. set (t := rb_length _ + _) in Hfl. assert (t <= 2 ^ 30 + 1) by lia. clearbody t.
    clear -Hl Hla Hfl Hw H3. seq_lia. }
  unfold seq_ge, seq_sub. rewrite Hd. clear Hd.
  assert (Hm : (if 0 <=? sk_remote_win_len s - in_flight s
    then if sk_remote_win_len s - in_flight s <? 0 then Panic else Ret (sk_remote_win_len s - in_flight s)
    else Ret 0) = Ret (Z.max 0 (sk_remote_win_len s - in_flight s))).
  { destr_if; [destr_if; [lia|]|]; f_equal; lia. }
  cbv zeta. rewrite Hm, bind_Ret. destr_if; do 2 eexists; (split; [reflexivity|]); lia.
Qed.

Lemma get_flight_ok s size :
  sk_wf s -> 0 <= size ->
  exists d, rb_get_allocated (sk_tx_buffer s) (in_flight s) size = Ret d /\ Zlen d <= size /\
    (d = [] \/ in_flight s + Zlen d <= rb_length (sk_tx_buffer s) /\
               d = sub (rb_contents (sk_tx_buffer s)) (in_flight s) (Zlen d)).
Proof.
  intros [Hc Hs] Hsz. destruct (core_tx s Hc) as [Hwf Hcap]. pose proof Hwf as ([? ?] & _ & ? & ?).
  destruct Hs as (_ & _ & Hfl & _). fold (in_flight s) in Hfl.
  assert (ctl_room (sk_state s) <= 1) by (destruct (sk_state s); cbn; lia).
  destruct (Z.le_gt_cases (in_flight s) (rb_length (sk_tx_buffer s))) as [Hle|Hgt].
  - rewrite rb_get_allocated_ok by (auto; lia). eexists. split; [reflexivity|].
    pose proof (rb_pos_range (sk_tx_buffer s) (in_flight s) Hwf ltac:(lia)).
    set (n := Z.min (Z.min size _) _). pose proof (Zlen_contents _ Hwf).
    assert (Hz : Zlen (sub (rb_contents (sk_tx_buffer s)) (in_flight s) n) = n) by (apply Zlen_sub; lia).
    rewrite Hz. split; [lia|]. right. split; [lia|done].
  - exists []. split; [|split; [done|by left]]. unfold rb_get_allocated.
    rewrite rb_get_idx_ok, bind_Ret by (auto; mlia).
    by replace (rb_length (sk_tx_buffer s) <? in_flight s) with true by lia.
Qed.

Lemma dispatch_data_ok cx s ip r mtu :
  sk_wf s -> mtu_is cx mtu -> control r = CtlNone -> seq_number r = sk_remote_last_seq s ->
  (sk_state s = Established \/ sk_state s = FinWait1 \/ sk_state s = Closing \/ sk_state s = CloseWait \/
    sk_state s = LastAck) ->
  wp (dispatch_data cx s ip r) (fun '(r', probe) =>
    exists c d, r' = tcp_set_data r c (seq_number r) d /\
      data_packet s (mtu - ip_header_len ip - TCP_HEADER_LEN) r' probe).
Proof.
  intros Hwf Hm Hr Hsq Hst. pose proof Hwf as [Hc Hs]. unfold dispatch_data.
  destruct (dispatch_win_limit_ok cx s Hwf) as (l & probe & -> & Hl & Hlp). rewrite bind_Ret.
  rewrite (local_mss_ok cx mtu), bind_Ret by (done || (destruct ip; cbn; unfold IPV4_HEADER_LEN, IPV6_HEADER_LEN; lia)).
  set (mss := mtu - _ - _). assert (0 <= mss) by (destruct Hm as [_ ?], ip; cbn in *; unfold IPV4_HEADER_LEN, IPV6_HEADER_LEN in *; lia).
  pose proof (core_mss s Hc). destruct Hs as (_ & _ & Hfl & _).
  rewrite seq_sub_ok, bind_Ret by lia. fold (in_flight s) in Hfl |- *.
  destruct (get_flight_ok s (Z.min (Z.min l (sk_remote_mss s)) mss) Hwf ltac:(lia)) as (d & -> & Hd & Hsub).
  rewrite bind_Ret. cbv zeta. cbn [wp]. do 2 eexists. split; [reflexivity|].
  pose proof (Zlen_nonneg d). unfold data_packet. cbn [tcp_set_data payload seq_number control].
  split; [done|]. split; [done|]. split; [lia|]. split; [lia|].
  split; [destruct probe; lia|]. unfold rb_len. rewrite Hr.
  destruct (Z.eqb_spec (in_flight s + Zlen d) (rb_length (sk_tx_buffer s))) as [E|E]; [|by right].
  destruct Hst as [-> |[-> |[-> |[-> | ->]]]]; try (by split); destruct d; try (by left); (split; [|done]); zlen;
    pose proof (Zlen_nonneg d); lia.
Qed.

Lemma dispatch_syn_ok s r t :
  sk_core s -> is_syn_state (sk_state s) = true -> base_ok (upd_state Established s) t r -> payload r = [] ->
  wp (dispatch_syn s r) (fun r' => base_ok s t r' /\ control r' = CtlSyn /\ payload r' = [] /\
    seq_number r' = sk_local_seq_no s).
Proof.
  intros Hc Hst (Hs & Hd & Ha & Hw & _) Hp. unfold dispatch_syn. destruct (core_rx s Hc) as (Hwf & _).
  rewrite rb_window_ok, bind_Ret by done. pose proof Hwf as ([? ?] & _).
  pose proof (u16_try_range (rb_capacity (sk_rx_buffer s) - rb_length (sk_rx_buffer s)) ltac:(lia)).
  cbn [wp]. unfold base_ok, state_eqb in *. sk_simpl in *. case_bool_decide as E; cbn.
  - by rewrite E.
  - rewrite Ha. by destruct (sk_state s).
Qed.

Lemma dispatch_by_state_ok cx s ip r t mtu :
  sk_wf s -> mtu_is cx mtu -> control r = CtlNone -> seq_number r = sk_remote_last_seq s -> payload r = [] ->
  base_ok (upd_state Established s) t r ->
  wp (dispatch_by_state cx s ip r) (fun o =>
    match o with
    | None => sk_state s = Listen
    | Some (r', probe) => base_ok s t r' /\ by_state_ok s (mtu - ip_header_len ip - TCP_HEADER_LEN) r' probe
    end).
Proof.
  intros Hwf Hm Hr Hsq Hp Hb. pose proof Hwf as [Hc _]. unfold dispatch_by_state.
  assert (Hsame : sk_state s <> SynSent -> base_ok s t r).
  { unfold base_ok in *. sk_simpl in *. destruct (sk_state s); congruence || done. }
  assert (Hset : forall c q d, sk_state s <> SynSent -> base_ok s t (tcp_set_data r c q d)).
  { intros c q d Hst. destruct (Hsame Hst) as (? & ? & ? & ? & Hpl). rewrite Hr in Hpl. unfold base_ok.
    split; [done|]. split; [done|]. split; [done|]. split; [done|]. intros _. by apply Hpl. }
  assert (Hdata : (sk_state s = Established \/ sk_state s = FinWait1 \/ sk_state s = Closing \/
      sk_state s = CloseWait \/ sk_state s = LastAck) ->
    wp (x ← dispatch_data cx s ip r; Ret (Some x)) (fun o =>
      match o with
      | None => sk_state s = Listen
      | Some (r', probe) => base_ok s t r' /\ by_state_ok s (mtu - ip_header_len ip - TCP_HEADER_LEN) r' probe
      end)).
  { intros Hst. wp_bind_with (dispatch_data_ok cx s ip r mtu Hwf Hm Hr Hsq Hst).
    intros [r' probe] (c & d & -> & Hd). cbn [wp]. split; [apply Hset; intuition congruence|]. right. right. by left. }
  assert (Hsyn : is_syn_state (sk_state s) = true ->
    wp (r ← dispatch_syn s r; Ret (Some (r, false))) (fun o =>
      match o with
      | None => sk_state s = Listen
      | Some (r', probe) => base_ok s t r' /\ by_state_ok s (mtu - ip_header_len ip - TCP_HEADER_LEN) r' probe
      end)).
  { intros Hst. wp_bind_with (dispatch_syn_ok s r t Hc Hst Hb Hp). intros r' (Hb' & ? & ? & ?). cbn [wp].
    split; [done|]. right. by left. }
  unfold by_state_ok in *.
  destruct (sk_state s) eqn:Est; try (apply Hdata; tauto); try (by apply Hsyn); cbn [wp]; try done.
  - split; [by apply Hset|]. left. by cbn.
  - split; [by apply Hsame|]. right. right. right. tauto.
  - split; [by apply Hsame|]. right. right. right. tauto.
Qed.

Lemma dispatch_keep_alive_ok cx s r mss probe t :
  base_ok s t r -> by_state_ok s mss r probe ->
  exists r' ka, dispatch_keep_alive cx s r = Ret (r', ka) /\ base_ok s t r' /\
    ((ka = false /\ r' = r) \/
     (ka = true /\ is_syn_state (sk_state s) = false /\ sk_state s <> Closed /\ control r' = CtlNone /\
      payload r' = [0] /\ seq_number r' = seq_wrap (sk_remote_last_seq s - 1))).
Proof.
  intros Hb H. unfold dispatch_keep_alive. destr_if; [|by exists r, false; auto].
  apply andb_true_iff in Hif as [_ He]. seq_step.
  exists (tcp_set_data r (control r) (seq_wrap (seq_number r - 1)) [0]), true. split; [done|]. split.
  { destruct Hb as (? & ? & ? & ? & Hpl). unfold base_ok. by repeat (split; [done|]). }
  right. split; [done|]. cbn [tcp_set_data control payload seq_number]. unfold tcp_is_empty in He.
  destruct H as [(_ & E & Ep & _)|[(_ & E & Ep & _)|[(Hst & Hd)|(Hst & E & _ & -> & _)]]];
    try (by rewrite E, Ep in He).
  - destruct Hd as (_ & -> & _ & _ & _ & Hctl). destruct (payload r) eqn:Ep; [|done].
    split; [by destruct Hst as [-> |[-> |[-> |[-> | ->]]]]|].
    split; [by destruct Hst as [-> |[-> |[-> |[-> | ->]]]]|].
    destruct (control r); try done. by destruct Hctl.
  - split; [by destruct Hst as [-> | ->]|]. split; [by destruct Hst as [-> | ->]|]. done.
Qed.

Lemma by_state_kind s mss r probe :
  by_state_ok s mss r probe -> (control r = CtlSyn -> max_seg_size r = Some (wrap_u 16 mss)) ->
  packet_kind s mss r probe false.
Proof.
  intros [(? & ? & ? & ? & ->)|[(? & ? & ? & ? & ->)|[(? & ?)|(? & ? & ? & ? & ->)]]] Hm.
  - by apply pk_rst.
  - apply pk_syn; auto.
  - by apply pk_data.
  - by apply pk_ack.
Qed.

(** The options do not matter for the other parts of a packet. *)
Lemma by_state_ext s mss r r' probe :
  control r' = control r -> payload r' = payload r -> seq_number r' = seq_number r ->
  by_state_ok s mss r probe -> by_state_ok s mss r' probe.
Proof. intros E1 E2 E3. unfold by_state_ok, data_packet. by rewrite E1, E2, E3. Qed.

Lemma dispatch_mss_ok cx ip r mtu :
  mtu_is cx mtu ->
  exists r', dispatch_mss cx ip r = Ret r' /\
    (control r <> CtlSyn -> r' = r) /\
    (control r = CtlSyn -> max_seg_size r' = Some (wrap_u 16 (mtu - ip_header_len ip - TCP_HEADER_LEN))) /\
    src_port r' = src_port r /\ dst_port r' = dst_port r /\ control r' = control r /\ payload r' = payload r /\
    seq_number r' = seq_number r /\ ack_number r' = ack_number r /\ window_len r' = window_len r.
Proof.
  intros Hm. unfold dispatch_mss.
  destruct (control_eqb (control r) CtlSyn) eqn:E.
  - apply control_eqb_eq in E.
    rewrite (local_mss_ok cx mtu), bind_Ret
      by (done || (destruct ip; cbn; unfold IPV4_HEADER_LEN, IPV6_HEADER_LEN; lia)).
    eexists. split; [reflexivity|]. cbn. by repeat split.
  - assert (control r <> CtlSyn) by (intros Ec; apply control_eqb_eq in Ec; congruence).
    exists r. by repeat split.
Qed.

Lemma dispatch_build_ok cx s t mtu :
  sk_wf s -> mtu_is cx mtu -> sk_tuple s = Some t ->
  wp (dispatch_build cx s) (fun o =>
    match o with
    | None => sk_state s = Listen
    | Some o =>
        packet_header s t o /\ ip_header_len (out_ip o) = address_header_len (ep_addr (tuple_local t)) /\
        packet_kind s (mtu - ip_header_len (out_ip o) - TCP_HEADER_LEN) (out_tcp o) (out_probe o) (out_keep_alive o)
    end).
Proof.
  intros Hwf Hm Ht. pose proof Hwf as [Hc _]. unfold dispatch_build. rewrite Ht.
  pose proof (core_tuple s Hc) as Hv. rewrite Ht in Hv. cbn [opt_prop] in Hv.
  match goal with |- context [ip_repr_new ?a ?b ?p ?l ?h] =>
    destruct (ip_repr_new_ok a b p l h Hv) as (ip & -> & Hsrc & Hdst & Hnh & _ & _ & Hver) end.
  rewrite bind_Ret. wp_bind_with (dispatch_base_ok cx s t Hc).
  intros r (Hs & Hd & Ha & Hw & Hpl & Hctl & Hp & Hsq).
  wp_bind_with (dispatch_by_state_ok cx s ip r t mtu Hwf Hm Hctl Hsq Hp (conj Hs (conj Hd (conj Ha (conj Hw (fun _ => Hpl)))))).
  intros [[r1 probe]|]; [|done]. intros [Hb1 Hk1].
  destruct (dispatch_keep_alive_ok cx s r1 _ probe t Hb1 Hk1) as (r2 & ka & -> & Hb2 & Hk2). rewrite bind_Ret.
  destruct (dispatch_mss_ok cx ip r2 mtu Hm) as (r3 & -> & Hns & Hsyn & E1 & E2 & E3 & E4 & E5 & E6 & E7).
  rewrite bind_Ret. cbn [wp].
  destruct (ip_set_payload_len_addrs ip (tcp_buffer_len r3)) as (F1 & F2 & F3).
  assert (Hh : ip_header_len (ip_set_payload_len ip (tcp_buffer_len r3)) = ip_header_len ip) by (by destruct ip).
  destruct Hb2 as (B1 & B2 & B3 & B4 & B5).
  split; [|split].
  - unfold packet_header. cbn [out_ip out_tcp]. rewrite F1, F2, F3, E1, E2, E6, E7.
    split; [done|]. split; [done|]. split; [done|]. split; [done|]. split; [done|].
    split; [by destruct ip|]. split; [done|]. split; [done|]. rewrite E3. intros Hn. rewrite (Hns Hn). by apply B5.
  - cbn [out_ip]. rewrite Hh, <- Hsrc. by destruct ip.
  - cbn [out_ip out_tcp out_probe out_keep_alive]. rewrite Hh.
    destruct Hk2 as [[-> ->]|(-> & K1 & K2 & K3 & K4 & K5)].
    + apply by_state_kind; [by apply (by_state_ext s _ r1)|]. rewrite E3. exact Hsyn.
    + apply pk_keep_alive; congruence.
Qed.

(** ** Recording that the packet was sent *)

Lemma packet_seq_ok s mss r probe ka :
  sk_wf s -> packet_kind s mss r probe ka -> probe = false -> ka = false ->
  tcp_segment_len r <= i32_max /\ seq_inv (sk_state s) (rb_length (sk_tx_buffer s)) (sk_local_seq_no s)
    (seq_wrap (seq_number r + tcp_segment_len r)).
Proof.
  intros [Hc Hs] Hk Epr Eka. destruct (core_tx s Hc) as [([? ?] & _) ?]. pose proof (core_mss s Hc).
  destruct Hs as (Hl & Hla & Hfl & Hop). unfold tcp_segment_len.
  assert (Hgen : forall q n, 0 <= n <= rb_length (sk_tx_buffer s) + ctl_room (sk_state s) -> seq_wrap q = seq_wrap (sk_local_seq_no s + n) ->
    seq_inv (sk_state s) (rb_length (sk_tx_buffer s)) (sk_local_seq_no s) (seq_wrap q)).
  { intros q n Hn ->. split; [done|]. split; [apply seq_wrap_range|].
    assert (ctl_room (sk_state s) <= 1) by (destruct (sk_state s); cbn; lia).
    rewrite seq_dist_0 by lia. split; [done|exact Hop]. }
  assert (Hlast : seq_wrap (sk_remote_last_seq s) = seq_wrap (sk_local_seq_no s + in_flight s))
    by (unfold in_flight; clear -Hl Hla; seq_lia).
  fold (in_flight s) in Hfl. revert Epr Eka.
  destruct Hk as [Hst Ec Ep Eq|Hst Ec Ep Eq _|probe Hst Hd|Hst Ec Ep Eq|probe]; intros Epr Eka; [| | | |discriminate];
    rewrite ?Ec, ?Ep, ?Eq; cbn [control_len Zlen length].
  - change (Zlen []) with 0. split; [mlia|]. apply (Hgen _ (in_flight s)); auto. rewrite !Z.add_0_r. exact Hlast.
  - change (Zlen []) with 0. split; [mlia|]. apply (Hgen _ 1); auto. destruct (sk_state s); try done; cbn; lia.
  - subst probe. destruct Hd as (Hp & -> & Hm & _ & _ & Hctl). pose proof (Zlen_nonneg (payload r)).
    assert (0 <= ctl_room (sk_state s)) by (destruct (sk_state s); cbn; lia).
    assert (Hn : in_flight s + (Zlen (payload r) + control_len (control r)) <=
      rb_length (sk_tx_buffer s) + ctl_room (sk_state s)).
    { assert (Hpl : Zlen (payload r) = 0 \/ in_flight s + Zlen (payload r) <= rb_length (sk_tx_buffer s))
        by (destruct Hp as [->|[? _]]; [by left|by right]).
      destruct (control r); cbn [control_len]; try done; try lia.
      destruct Hctl as [Hw Hx]. destruct (sk_state s); cbn in Hw |- *; try done; lia. }
    assert (0 <= control_len (control r) <= 1) by (destruct (control r); cbn; lia).
    split; [mlia|]. apply (Hgen _ (in_flight s + (Zlen (payload r) + control_len (control r)))); auto; [lia|].
    set (z := Zlen _ + _). clearbody z. clear -Hlast. seq_lia.
  - change (Zlen []) with 0. split; [mlia|]. apply (Hgen _ (in_flight s)); auto. rewrite !Z.add_0_r. exact Hlast.
Qed.

Lemma commit_sent_ok cx s mss r :
  sk_wf s -> time_ok (cx_now cx) -> packet_kind s mss r false false ->
  opt_prop in_i32 (ack_number r) -> in_u16 (window_len r) ->
  wp (commit_sent cx s r) sk_wf.
Proof.
  intros Hwf Hn Hk Ha Hw. destruct (packet_seq_ok s mss r false false Hwf Hk eq_refl eq_refl) as [Hlen Hseq].
  destruct Hwf as [Hc _]. unfold commit_sent. seq_step. set (next := seq_wrap _) in *. cbv zeta.
  set (s1 := upd_remote_last_win _ _).
  assert (H1 : sk_wf s1).
  { split; [unfold s1; core_solve|]. unfold sk_seq, s1. by sk_simpl. }
  clearbody s1. clear Hc.
  set (s2 := if 0 <? tcp_segment_len r then _ else s1).
  assert (H2 : sk_wf s2).
  { unfold s2. destr_if; [|done]. pose proof H1 as [Hc _].
    apply (same_flow_wf s1); [constructor; by sk_simpl| |done].
    core_solve; [by apply rtte_on_send_wf|by apply law_post_transmit]. }
  clearbody s2. clear H1.
  eapply wp_bind_mono with (P := sk_wf).
  { destr_if; [|done]. pose proof H2 as [Hc _]. pose proof (rto_time_ok s2 Hc) as [? ?].
    rewrite rtte_timeout_ok, bind_Ret by apply (core_rtte s2 Hc).
    rewrite timer_set_for_retransmit_ok, bind_Ret by done. cbn [wp].
    destruct (upd_timer_ok (match sk_timer s2 with TimerClose _ => sk_timer s2
      | _ => TimerRetransmit (cx_now cx + rto (sk_rtte s2) * 1000) end) s2 Hc) as [Hc' Hf'];
      [by destruct (sk_timer s2)|]. by eapply same_flow_wf. }
  intros s3 H3. destr_if; [|done]. cbn [wp]. destruct H3 as [Hc Hs]. split; [core_solve; exact I|].
  unfold sk_seq in *. by sk_simpl.
Qed.

Lemma packet_kind_flow s s1 mss r probe ka :
  same_flow s s1 -> sk_remote_mss s1 = sk_remote_mss s -> sk_remote_win_len s1 = sk_remote_win_len s ->
  packet_kind s mss r probe ka -> packet_kind s1 mss r probe ka.
Proof.
  intros Hf E1 E2. destruct 1 as [| |probe ? Hd| |].
  - apply pk_rst; by rewrite ?(sf_state _ _ Hf), ?(sf_last _ _ Hf).
  - apply pk_syn; by rewrite ?(sf_state _ _ Hf), ?(sf_local _ _ Hf).
  - apply pk_data; [by rewrite (sf_state _ _ Hf)|]. unfold data_packet, in_flight in *.
    by rewrite (sf_state _ _ Hf), (sf_last _ _ Hf), (sf_local _ _ Hf), (sf_tx _ _ Hf), E1, E2.
  - apply pk_ack; by rewrite ?(sf_state _ _ Hf), ?(sf_last _ _ Hf).
  - apply pk_keep_alive; by rewrite ?(sf_state _ _ Hf), ?(sf_last _ _ Hf).
Qed.

Lemma dispatch_commit_ok cx s mss o :
  sk_wf s -> time_ok (cx_now cx) -> packet_kind s mss (out_tcp o) (out_probe o) (out_keep_alive o) ->
  opt_prop in_i32 (ack_number (out_tcp o)) -> in_u16 (window_len (out_tcp o)) ->
  wp (dispatch_commit cx s o) sk_wf.
Proof.
  intros Hwf Hn Hk Ha Hw. pose proof Hwf as [Hc _]. unfold dispatch_commit.
  rewrite timer_rewind_keep_alive_ok, bind_Ret by (done || apply (core_keep_alive s Hc)). cbv zeta.
  set (t := if timer_is_idle (sk_timer s) then _ else _).
  assert (Ht : timer_wf t) by (unfold t; pose proof (core_timer s Hc); by destruct (sk_timer s)).
  clearbody t. set (s1 := upd_ack_delay_timer AckIdle (upd_timer t s)).
  assert (Hf1 : same_flow s s1) by (unfold s1; constructor; by sk_simpl).
  assert (Hm1 : sk_remote_mss s1 = sk_remote_mss s /\ sk_remote_win_len s1 = sk_remote_win_len s)
    by (unfold s1; by sk_simpl).
  assert (Hc1 : sk_core s1) by (unfold s1; core_solve).
  clearbody s1. pose proof (same_flow_wf _ _ Hf1 Hc1 Hwf) as Hwf1.
  destruct (out_probe o).
  - destruct (timer_rewind_zero_window_probe_ok (sk_timer s1) (cx_now cx) Hn (core_timer s1 Hc1))
      as (t' & -> & Ht' & _). rewrite bind_Ret. cbn [wp].
    destruct (upd_timer_ok t' s1 Hc1 Ht') as [? ?]. by eapply same_flow_wf.
  - destruct (out_keep_alive o) eqn:Eka; [done|]. eapply (commit_sent_ok cx s1 mss); auto.
    destruct Hm1. by apply (packet_kind_flow s).
Qed.

End Dispatch.
