(* ===== verification/TcpDispatchSpec.v ===== *)
(** * The TCP socket: what [dispatch] and [poll_at] do (socket/tcp.rs)

    [dispatch] does not panic and keeps the invariant whatever the device answers, the packet
    it emits is of one of the kinds of [packet_kind], and [poll_at] tells exactly when calling
    it matters. *)

From S2P Require Import Prelude SeqNumber RingBuffer Assembler TimeModel TcpTimers Congestion IpTypes TcpRepr IfaceContext TcpSocket TcpProcess TcpDispatch TcpInvariant TcpReplyLemmas TcpProcessLemmas TcpTransitionLemmas TcpReceiveLemmas TcpExample TcpProcessSpec TcpApp TcpDispatchLemmas.

Section Dispatch.
Context {cfg : BuildConfig} {cfg_ok : BuildConfigOk}.
Implicit Types s : Socket.

Record dispatch_pre (cx : Context) s (mtu : Z) : Prop := {
  dp_wf : sk_wf s;
  dp_now : time_ok (cx_now cx);
  dp_mtu : mtu_is cx mtu;
  dp_edge : win_edge_ok s;
}.

(** The packet of [dispatch_prepare], for the socket it leaves. *)
Definition packet_ok (cx : Context) s s' (mtu : Z) (o : Outgoing) : Prop :=
  dispatch_same s s' /\ exists t, sk_tuple s = Some t /\ packet_header s' t o /\
  ip_header_len (out_ip o) = address_header_len (ep_addr (tuple_local t)) /\
  packet_kind s' (mtu - ip_header_len (out_ip o) - TCP_HEADER_LEN) (out_tcp o) (out_probe o) (out_keep_alive o).

Lemma dispatch_prepare_ok cx s mtu :
  dispatch_pre cx s mtu ->
  wp (dispatch_prepare cx s) (fun '(s', o) => sk_wf s' /\
    match o with Some o => packet_ok cx s s' mtu o | None => True end).
Proof.
  intros [Hwf Hn Hm He]. unfold dispatch_prepare. destruct (sk_tuple s) as [t|] eqn:Et; [|by cbn].
  wp_bind_with (dispatch_start_ok cx s Hwf Hn). intros s1 [Hwf1 Hd1].
  assert (Ht1 : sk_tuple s1 <> None) by (rewrite (ds_tuple _ _ Hd1); congruence).
  wp_bind_with (dispatch_timers_ok cx s1 mtu Hwf1 Hn Hm Ht1). intros s2 [Hwf2 Hd2].
  assert (Hd : dispatch_same s s2) by (by transitivity s1).
  pose proof (dispatch_same_edge _ _ Hd He) as He2.
  assert (Ht2 : sk_tuple s2 = Some t) by (rewrite (ds_tuple _ _ Hd); done).
  destr_if; [by cbn|].
  wp_bind_with (dispatch_decide_ok cx s2 mtu Hwf2 Hm ltac:(congruence) He2). intros [| |] _.
  - wp_bind_with (dispatch_build_ok cx s2 t mtu Hwf2 Hm Ht2). intros [o|] Ho; cbn [wp]; (split; [done|]); [|done].
    split; [done|]. exists t. done.
  - cbn [wp]. split; [|done]. apply reset_wf. by destruct Hwf2.
  - by cbn.
Qed.

Lemma packet_fields_ok s t o :
  packet_header s t o -> opt_prop in_i32 (ack_number (out_tcp o)) /\ in_u16 (window_len (out_tcp o)).
Proof.
  intros (_ & _ & _ & _ & _ & _ & -> & Hw & _). split; [|done].
  assert (in_i32 (next_ack s)) by apply seq_wrap_range. by destruct (sk_state s).
Qed.

Lemma dispatch_ok {C} `{HasContext C} {E} (cx : C) s mtu (emit : C -> IpRepr * TcpRepr -> res (C * result unit E)) :
  dispatch_pre (the_context cx) s mtu ->
  (forall p, wp (emit cx p) (fun '(cx', _) => cx_now (the_context cx') = cx_now (the_context cx))) ->
  wp (dispatch cx s emit) (fun '(_, s', _) => sk_wf s').
Proof.
  intros Hpre Hclock. unfold dispatch. wp_bind_with (dispatch_prepare_ok (the_context cx) s mtu Hpre).
  intros [s1 [o|]] [Hwf1 Hp]; [|done]. specialize (Hclock (out_ip o, out_tcp o)).
  destruct (wp_Ret_inv _ _ Hclock) as ([cx' [[]|e]] & -> & Hnow); ret_step; [|done].
  destruct Hp as (_ & t & _ & Hh & _ & Hk). destruct (packet_fields_ok _ _ _ Hh) as [Ha Hw].
  eapply wp_bind_mono; [eapply dispatch_commit_ok; eauto|done].
  rewrite Hnow. apply Hpre.
Qed.

(** ** When to poll *)

Lemma timer_poll_due t now :
  poll_due (timer_poll_at t) now = false ->
  timer_should_keep_alive t now = false /\ timer_should_retransmit t now = false /\
  timer_should_close t now = false /\ timer_should_zero_window_probe t now = false.
Proof. destruct t as [[k|]|e| |e d|e]; cbn; auto. Qed.

Lemma poll_at_timeout_due s now p :
  poll_at_timeout s = Ret p -> poll_due p now = false -> timed_out s now = Ret false.
Proof.
  unfold poll_at_timeout, timed_out. destruct (sk_remote_last_ts s), (sk_timeout s); try done.
  intros H. bind_inv H. injection H as <-. cbn. intros Hd. by rewrite H0, bind_Ret, Hd.
Qed.

Lemma poll_at_ack_due s now b :
  poll_due (poll_at_ack s b) now = false -> b && delayed_ack_expired s now = false.
Proof. unfold poll_at_ack, delayed_ack_expired. by destruct b, (sk_ack_delay_timer s). Qed.

(** [poll_at] not due: what each of its parts found. *)
Lemma poll_at_not_due cx s p :
  sk_tuple s <> None -> poll_at cx s = Ret p -> poll_due p (cx_now cx) = false ->
  sk_remote_last_ts s <> None /\ sk_state s <> Closed /\ seq_to_transmit cx s = Ret false /\
  window_to_update s = Ret false /\ timed_out s (cx_now cx) = Ret false /\
  poll_due (timer_poll_at (sk_timer s)) (cx_now cx) = false /\
  exists ack, ack_to_transmit s = Ret ack /\ ack && delayed_ack_expired s (cx_now cx) = false.
Proof.
  intros Ht. unfold poll_at. destruct (sk_tuple s); [|done].
  destruct (sk_remote_last_ts s) eqn:Ets; [|intros [= <-]; done].
  unfold state_eqb. case_bool_decide; [intros [= <-]; done|].
  intros E Hd. bind_inv E. destruct x; [injection E as <-; done|].
  bind_inv E. destruct x; [injection E as <-; done|]. bind_inv E. bind_inv E. injection E as <-.
  rewrite !poll_at_min_due in Hd. apply orb_false_iff in Hd as [[Hd1 Hd2]%orb_false_iff Hd3].
  split; [done|]. split; [done|]. split; [done|]. split; [done|].
  split; [by eapply poll_at_timeout_due|]. split; [done|]. eexists. split; [done|]. by apply poll_at_ack_due.
Qed.

Lemma upd_congestion_same s : upd_congestion_controller (sk_congestion_controller s) s = s.
Proof. by destruct s. Qed.

Lemma dispatch_idle cx s p :
  poll_at cx s = Ret p -> poll_due p (cx_now cx) = false ->
  ctl_pre_transmit (sk_congestion_controller s) (cx_now cx) = Ret (sk_congestion_controller s) ->
  dispatch_prepare cx s = Ret (s, None).
Proof.
  intros Hp Hd Hc. unfold dispatch_prepare. destruct (sk_tuple s) eqn:Et; [|done].
  destruct (poll_at_not_due cx s p ltac:(congruence) Hp Hd)
    as (Hts & Hst & Htr & Hup & Hto & Htm & ack & Hack & Hde).
  destruct (timer_poll_due _ _ Htm) as (Hka & Hre & Hcl & Hzw).
  unfold dispatch_start. destruct (sk_remote_last_ts s); [|done]. rewrite Hc, bind_Ret, upd_congestion_same, bind_Ret.
  unfold dispatch_timers. rewrite Hto, bind_Ret, Htr, bind_Ret, Hre. cbn [negb andb]. rewrite bind_Ret.
  destr_if; [done|]. unfold dispatch_decide. rewrite Htr, bind_Ret, Hack, bind_Ret, Hde, Hup, bind_Ret, Hka, Hzw, Hcl.
  unfold state_eqb. by rewrite bool_decide_eq_false_2.
Qed.

(** The length of the timestamp option, padded. *)
Definition timestamp_len s : Z := if sk_tsval_generator s is Some _ then 12 else 0.

Lemma packet_size_ok cx s s' mtu o :
  dispatch_pre cx s mtu -> packet_ok cx s s' mtu o -> control (out_tcp o) <> CtlSyn -> out_keep_alive o = false ->
  ip_header_len (out_ip o) + ip_payload_len (out_ip o) <= mtu + timestamp_len s.
Proof.
  intros Hpre (Hd & t & _ & Hh & _ & Hk) Hsyn Hka. destruct Hh as (_ & _ & _ & _ & -> & _ & _ & _ & Hpl).
  destruct (Hpl Hsyn) as (E1 & E2 & E3 & E4 & E5). rewrite (ds_tsval _ _ Hd) in E5. unfold timestamp_len.
  assert (Hl : tcp_header_len (out_tcp o) <= 20 + match sk_tsval_generator s with Some _ => 12 | None => 0 end).
  { unfold tcp_header_len. rewrite E1, E2, E3, E4. cbn [opt_len sack_range_len].
    destruct (sk_tsval_generator s); [|by rewrite E5]. by destruct (repr_timestamp (out_tcp o)). }
  assert (Hn : Zlen (payload (out_tcp o)) <= mtu - ip_header_len (out_ip o) - TCP_HEADER_LEN).
  { destruct Hpre as [_ _ [_ ?] _].
    assert (0 <= mtu - ip_header_len (out_ip o) - TCP_HEADER_LEN)
      by (destruct (out_ip o); cbn; unfold IPV4_HEADER_LEN, IPV6_HEADER_LEN, TCP_HEADER_LEN in *; lia).
    revert Hka. destruct Hk as [? ? ->|? ? ->|? ? (_ & _ & _ & ? & _)|? ? ->|]; intros Hka; done || lia. }
  unfold tcp_buffer_len, TCP_HEADER_LEN in *. lia.
Qed.
End Dispatch.

(** ** Properties *)

(** C25: [dispatch] never panics, for any socket within its invariant whose advertised window
    was not moved back, any device with room for the headers and any answer of the device,
    and keeps the invariant; in particular what it records as sent stays within the transmit
    buffer and one control flag. *)
Theorem dispatch_keeps_invariant {cfg : BuildConfig} {cfg_ok : BuildConfigOk} {C} `{HasContext C} {E} (cx : C) s mtu
  (emit : C -> IpRepr * TcpRepr -> res (C * result unit E)) :
  dispatch_pre (the_context cx) s mtu ->
  (forall p, wp (emit cx p) (fun '(cx', _) => cx_now (the_context cx') = cx_now (the_context cx))) ->
  wp (dispatch cx s emit) (fun '(_, s', _) => sk_wf s').
Proof. apply dispatch_ok. Qed.

(** C24: for a socket within its invariant whose advertised window was not moved back
    ([win_edge_ok]), the packet [dispatch] hands to the device is addressed by the connection's
    endpoints, acknowledges everything received in order, and is a reset of a closed socket, a SYN
    with the MSS of the device, an acknowledgement, a keep-alive or data: octets of the transmit
    buffer that follow the ones in flight, at their sequence number, inside the remote window
    (or one octet of probe), no more than the remote MSS and than the MTU less the fixed headers, with the
    FIN exactly behind the last octet once the transmit half is closed.  A packet that is neither a SYN
    nor a keep-alive is, with its headers, no longer than the MTU, or with timestamps no longer
    than the MTU and the twelve octets of their option, which the code forgets
    ([timestamps_exceed_mtu]). *)
Theorem dispatch_packet_spec {cfg : BuildConfig} {cfg_ok : BuildConfigOk} cx s mtu :
  dispatch_pre cx s mtu ->
  wp (dispatch_prepare cx s) (fun '(s', o) =>
    match o with
    | Some o =>
        packet_ok cx s s' mtu o /\
        (control (out_tcp o) <> CtlSyn -> out_keep_alive o = false ->
         ip_header_len (out_ip o) + ip_payload_len (out_ip o) <= mtu + timestamp_len s)
    | None => True
    end).
Proof.
  intros H. eapply wp_mono; [by apply dispatch_prepare_ok|]. intros [s' [o|]] [_ Ho]; [|done].
  split; [done|]. by eapply packet_size_ok.
Qed.

(** Without the timestamp option a packet with data never exceeds the MTU of the device,
    headers included. *)
Theorem dispatch_fits_mtu {cfg : BuildConfig} {cfg_ok : BuildConfigOk} cx s mtu :
  dispatch_pre cx s mtu -> sk_tsval_generator s = None ->
  wp (dispatch_prepare cx s) (fun '(_, o) =>
    match o with
    | Some o => control (out_tcp o) <> CtlSyn -> out_keep_alive o = false ->
                ip_header_len (out_ip o) + ip_payload_len (out_ip o) <= mtu
    | None => True
    end).
Proof.
  intros Hpre Hts. eapply wp_mono; [by apply (dispatch_prepare_ok cx s mtu)|].
  intros [s' [o|]] [_ H]; [|done]. intros Hsyn Hka. pose proof (packet_size_ok cx s s' mtu o Hpre H Hsyn Hka) as Hs.
  unfold timestamp_len in Hs. rewrite Hts in Hs. lia.
Qed.

(** C26: [poll_at] is complete: while the time it returns is not reached, calling [dispatch]
    changes nothing and sends nothing, provided the congestion controller has nothing to do
    before a transmission; so an interface that waits until [poll_at] never stalls a
    connection. *)
Theorem poll_at_complete {cfg : BuildConfig} cx s p :
  poll_at cx s = Ret p -> poll_due p (cx_now cx) = false ->
  ctl_pre_transmit (sk_congestion_controller s) (cx_now cx) = Ret (sk_congestion_controller s) ->
  dispatch_prepare cx s = Ret (s, None).
Proof. apply dispatch_idle. Qed.

(** ** Witnesses *)

Definition ex_sending : Socket := ex_socket Established [1; 2] [7; 8; 9] 0.

Lemma ex_sending_pre : dispatch_pre cx_example ex_sending 1500.
Proof.
  split.
  - apply ex_wf; vm_compute; intuition (try discriminate; lia).
  - unfold time_ok. cbn. lia.
  - split; [done|]. unfold IPV6_HEADER_LEN, TCP_HEADER_LEN. mlia.
  - vm_compute. discriminate.
Qed.

Definition ex_emit (cx : Context) (_ : IpRepr * TcpRepr) : res (Context * result unit unit) := Ret (cx, Ok tt).

Lemma dispatch_keeps_invariant_witness :
  wp (dispatch cx_example ex_sending ex_emit) (fun '(_, s', _) => sk_wf s').
Proof. apply (dispatch_keeps_invariant cx_example ex_sending 1500 ex_emit); [apply ex_sending_pre|done]. Defined.

Lemma dispatch_packet_spec_witness :
  wp (dispatch_prepare cx_example ex_sending) (fun '(s', o) =>
    match o with
    | Some o =>
        packet_ok cx_example ex_sending s' 1500 o /\
        (control (out_tcp o) <> CtlSyn -> out_keep_alive o = false ->
         ip_header_len (out_ip o) + ip_payload_len (out_ip o) <= 1500 + timestamp_len ex_sending)
    | None => True
    end).
Proof. apply (dispatch_packet_spec cx_example ex_sending 1500). apply ex_sending_pre. Defined.

Lemma dispatch_fits_mtu_witness :
  wp (dispatch_prepare cx_example ex_sending) (fun '(_, o) =>
    match o with
    | Some o => control (out_tcp o) <> CtlSyn -> out_keep_alive o = false ->
                ip_header_len (out_ip o) + ip_payload_len (out_ip o) <= 1500
    | None => True
    end).
Proof. apply (dispatch_fits_mtu cx_example ex_sending 1500); [apply ex_sending_pre|done]. Defined.

Lemma poll_at_complete_witness : dispatch_prepare cx_example ex_idle = Ret (ex_idle, None).
Proof. apply (poll_at_complete cx_example ex_idle PollIngress); reflexivity. Defined.
