(* ===== verification/TcpRun.v ===== *)
(** * The TCP socket: opening, closing and whole runs (socket/tcp.rs)

    The calls that open and close a connection, and any interleaving of application calls,
    received segments and transmissions. *)

From S2P Require Import Prelude SeqNumber RingBuffer Assembler TimeModel TcpTimers Congestion IpTypes TcpRepr IfaceContext TcpSocket TcpProcess TcpDispatch TcpInvariant TcpReplyLemmas TcpProcessLemmas TcpTransitionLemmas TcpReceiveLemmas TcpExample TcpProcessSpec TcpApp TcpDispatchLemmas TcpDispatchSpec.

Section Run.
Context {cfg : BuildConfig} {cfg_ok : BuildConfigOk}.
Implicit Types s : Socket.

(** ** Opening a connection *)

(** The local address of a connection: the one given, or one of the interface. *)
Definition local_addr_chosen (cx : Context) (remote : Endpoint) (local : ListenEndpoint) (addr : Address) : Prop :=
  match lep_addr local with
  | Some a => addr = a /\ address_is_unspecified a = false
  | None => get_source_address cx (ep_addr remote) = Ret (Some addr)
  end.

Lemma connect_local_addr_ok cx remote local addr :
  connect_local_addr cx remote local = Ret (Ok addr) -> local_addr_chosen cx remote local addr.
Proof.
  unfold connect_local_addr, local_addr_chosen. destruct (lep_addr local).
  - destr_if; intros [= <-]. done.
  - intros H. bind_inv H. rewrite H0. destruct x; [|discriminate H]. by injection H as <-.
Qed.

Definition connected cx s remote local (cx' : Context) s' : Prop :=
  is_open s = false /\ sk_state s' = SynSent /\
  (exists addr, sk_tuple s' = Some (mkTuple (mkEndpoint addr (lep_port local)) remote) /\
    local_addr_chosen cx remote local addr /\ address_version addr = address_version (ep_addr remote)) /\
  sk_local_seq_no s' = snd (random_seq_no cx) /\ in_flight s' = 0 /\
  rb_contents (sk_rx_buffer s') = [] /\ rb_contents (sk_tx_buffer s') = [].

Lemma connect_ok cx s remote local cx' s' r :
  connect cx s remote local = Ret (cx', s', r) ->
  match r with
  | Ok _ => connected cx s remote local cx' s'
  | Err ConnectInvalidState => is_open s = true /\ s' = s /\ cx' = cx
  | Err ConnectUnaddressable => is_open s = false /\ s' = s /\ cx' = cx
  end.
Proof.
  unfold connect. destruct (is_open s) eqn:Eo; [intros [= <- <- <-]; done|].
  destr_if; [intros [= <- <- <-]; done|]. destr_if; [intros [= <- <- <-]; done|].
  intros H. bind_inv H. destruct x as [addr|e].
  2: { injection H as <- <- <-. assert (e = ConnectUnaddressable) as ->; [|done].
       revert H0. unfold connect_local_addr. destruct (lep_addr local); [destr_if; by intros [= <-]|].
       intros H. bind_inv H. destruct x; [discriminate H|]. by injection H as <-. }
  apply connect_local_addr_ok in H0. revert H. destr_if; [intros [= <- <- <-]; done|].
  destruct (reset_fields s) as (_ & _ & _ & Erx & Etx & _). set (s0 := reset s) in *. clearbody s0.
  unfold connected. destruct (random_seq_no cx) as [cx1 seq]. cbv zeta. intros [= <- <- <-].
  apply negb_false_iff, version_eqb_eq in Hif1. unfold in_flight, set_state. sk_simpl.
  rewrite Z.sub_diag. split_and!; try done. exists addr. auto.
Qed.

(** ** Closing *)

(** The state [close] leads to. *)
Definition close_target (st : State) : State :=
  match st with
  | Listen | SynSent => Closed
  | SynReceived | Established => FinWait1
  | CloseWait => LastAck
  | _ => st
  end.

Definition woken (w w' : WakerRegistration) : Prop :=
  wr_waker w' = None /\ wr_woken w' = wr_woken w ++ match wr_waker w with Some t => [t] | None => [] end.

Lemma waker_wake_ok w : woken w (waker_wake w).
Proof. unfold woken, waker_wake. destruct w as [[?|] ?]; cbn; by rewrite ?app_nil_r. Qed.

Lemma close_ok s :
  sk_state (close s) = close_target (sk_state s) /\
  (sk_state (close s) = sk_state s -> close s = s) /\
  (sk_state (close s) <> sk_state s ->
   woken (sk_rx_waker s) (sk_rx_waker (close s)) /\ woken (sk_tx_waker s) (sk_tx_waker (close s))) /\
  sk_rx_buffer (close s) = sk_rx_buffer s /\ sk_tx_buffer (close s) = sk_tx_buffer s.
Proof.
  unfold close, set_state. destruct (sk_state s) eqn:E; sk_simpl; rewrite ?E; cbn [close_target];
    (split; [done|]); (split; [done|]); (split; [|done]); try done; intros _; split; apply waker_wake_ok.
Qed.

(** ** Runs *)

Inductive sk_event : Type :=
| EvListen (local : ListenEndpoint)
| EvConnect (cx : Context) (remote : Endpoint) (local : ListenEndpoint)
| EvClose
| EvAbort
| EvSend (data : list Z)
| EvRecv (data_len : Z)
| EvTimeout (d : option Duration)
| EvKeepAlive (d : option Duration)
| EvAckDelay (d : option Duration)
| EvCongestion (c : CongestionControl)
| EvHopLimit (h : option Z)
| EvNagle (enabled : bool)
| EvTimestamps (g : option TcpTimestampGenerator)
| EvPauseSynack (pause : bool)
| EvRecvWaker (w : Waker)
| EvSendWaker (w : Waker)
| EvSendWith (f : Z -> list Z -> res (list Z * Z * unit))
| EvRecvWith (f : Z -> list Z -> res (list Z * Z * unit))
| EvWriteStr (text : list Z)
| EvProcess (cx : Context) (ip : IpRepr) (r : TcpRepr)
| EvDispatch (cx : Context) (accepted : bool).

(** The device takes the packet or not. *)
Definition device (accepted : bool) (cx : Context) (_ : IpRepr * TcpRepr) : res (Context * result unit unit) :=
  Ret (cx, if accepted then Ok tt else Err tt).

Definition sk_event_step s (e : sk_event) : res Socket :=
  match e with
  | EvListen local => Ret (fst (listen s local))
  | EvConnect cx remote local => '(_, s, _) ← connect cx s remote local; Ret s
  | EvClose => Ret (close s)
  | EvAbort => Ret (abort s)
  | EvSend data => '(s, _) ← send_slice s data; Ret s
  | EvRecv n => '(s, _) ← recv_slice s n; Ret s
  | EvTimeout d => Ret (set_timeout s d)
  | EvKeepAlive d => Ret (set_keep_alive s d)
  | EvAckDelay d => Ret (set_ack_delay s d)
  | EvCongestion c => Ret (set_congestion_control s c)
  | EvHopLimit h => set_hop_limit s h
  | EvNagle enabled => Ret (set_nagle_enabled s enabled)
  | EvTimestamps g => Ret (set_tsval_generator s g)
  | EvPauseSynack pause => Ret (pause_synack s pause)
  | EvRecvWaker w => Ret (register_recv_waker s w)
  | EvSendWaker w => Ret (register_send_waker s w)
  | EvSendWith f => '(s, _) ← send s f; Ret s
  | EvRecvWith f => '(s, _) ← recv s f; Ret s
  | EvWriteStr text => '(s, _) ← write_str s text; Ret s
  | EvProcess cx ip r => '(_, s, _) ← process cx s ip r; Ret s
  | EvDispatch cx accepted => '(_, s, _) ← dispatch cx s (device accepted); Ret s
  end.

(** What an event needs of the socket: durations of a sane size; a hop limit that is not 0, on
    which [set_hop_limit] panics as documented; closures that keep to the slice they are lent; for
    a segment that it was parsed and is for the socket, that its window is not across the sequence number 0
    when SACK is on, and that the running measurement of the round-trip time began less than 2^28
    ms ago; for a transmission the device's room for headers, and that no octet beyond the window
    advertised last was received. *)
Definition sk_event_ok s (e : sk_event) : Prop :=
  match e with
  | EvRecv n => 0 <= n <= usize_max
  | EvTimeout d | EvKeepAlive d | EvAckDelay d => interval_ok d
  | EvHopLimit h => h <> Some 0
  | EvSendWith f | EvRecvWith f => closure_ok f
  | EvProcess cx ip r =>
      sack_room s /\ repr_ok r /\ time_ok (cx_now cx) /\ rtte_fresh (sk_rtte s) (cx_now cx) /\
      accepts s ip r = true
  | EvDispatch cx _ => time_ok (cx_now cx) /\ (exists mtu, mtu_is cx mtu) /\ win_edge_ok s
  | _ => True
  end.

Fixpoint sk_run s (es : list sk_event) : res Socket :=
  match es with
  | [] => Ret s
  | e :: es => s ← sk_event_step s e; sk_run s es
  end.

Fixpoint sk_run_ok s (es : list sk_event) : Prop :=
  match es with
  | [] => True
  | e :: es =>
      sk_event_ok s e /\
      match sk_event_step s e with Ret s' => sk_run_ok s' es | Panic => True end
  end.

Lemma sk_event_step_ok s e : sk_wf s -> sk_event_ok s e -> wp (sk_event_step s e) sk_wf.
Proof.
  intros Hwf He. destruct e; cbn [sk_event_step sk_event_ok wp] in *.
  - by apply listen_wf.
  - wp_bind_with (connect_wf cx s remote local Hwf). intros [[? ?] ?] [? _]. done.
  - by apply close_wf.
  - by apply abort_wf.
  - wp_bind_with (send_slice_ok s data Hwf). intros [? ?] [? _]. done.
  - wp_bind_with (recv_slice_ok s data_len Hwf He). intros [? ?] [? _]. done.
  - by apply set_timeout_wf.
  - by apply set_keep_alive_wf.
  - by apply set_ack_delay_wf.
  - by apply set_congestion_control_wf.
  - pose proof (set_hop_limit_wf s h Hwf) as Hh. unfold set_hop_limit in *. destruct h as [[| |]|]; try apply Hh. by destruct He.
  - by apply (plain_settings_wf s None enabled false 0).
  - by apply (plain_settings_wf s g false false 0).
  - by apply (plain_settings_wf s None false pause 0).
  - by apply (plain_settings_wf s None false false w).
  - by apply (plain_settings_wf s None false false w).
  - wp_bind_with (send_wf s f Hwf He). by intros [? ?] ?.
  - wp_bind_with (recv_wf s f Hwf He). by intros [? ?] ?.
  - wp_bind_with (write_str_wf s text Hwf). by intros [? ?] ?.
  - destruct He as (? & ? & ? & ? & ?).
    wp_bind_with (process_ok cx s ip r ltac:(by constructor)). intros [[? ?] ?] []. done.
  - destruct He as (? & (mtu & ?) & ?).
    wp_bind_with (dispatch_ok cx s mtu (device accepted) ltac:(by constructor) ltac:(done)).
    intros [[? ?] ?] ?. done.
Qed.

Lemma sk_run_wf s es : sk_wf s -> sk_run_ok s es -> wp (sk_run s es) sk_wf.
Proof.
  revert s. induction es as [|e es IH]; intros s Hwf Hok; cbn [sk_run sk_run_ok] in *; [done|].
  destruct Hok as [He Hes]. destruct (wp_Ret_inv _ _ (sk_event_step_ok s e Hwf He)) as (s' & E & Hwf').
  rewrite E in *. rewrite bind_Ret. by apply IH.
Qed.
End Run.

(** ** Properties *)

(** C1: any interleaving of the calls that change a socket (opening and closing, sending and
    receiving by slice, closure or [write_str], every setting, pausing, wakers), received segments and
    transmissions, starting from a new socket over arbitrary buffers of at most 1 GiB, runs
    without a panic and ends in a socket within the invariant, as long as every event meets its
    precondition ([sk_event_ok]): clock and durations of at most 2^61 microseconds, a hop limit other than 0,
    closures that take no more than they are lent, segments that were parsed and are
    for the socket, a device with room for the headers.  Left out, besides: with SACK
    negotiated, a segment while the receive window lies across the sequence number 0
    ([sack_room]; [sack_near_wrap_panics] shows a panic there); a segment 2^28 ms or more
    after the one whose round trip is being measured ([rtte_fresh]); a transmission while octets beyond the
    window advertised last were accepted ([win_edge_ok]; [probe_after_read_panics]). *)
Theorem socket_runs_safely {cfg : BuildConfig} {cfg_ok : BuildConfigOk} rx tx es :
  rb_wf rx -> rb_wf tx -> rb_capacity rx <= 2 ^ 30 -> rb_capacity tx <= 2 ^ 30 ->
  wlp (socket_new rx tx) (fun s => sk_run_ok s es) ->
  wp (s ← socket_new rx tx; sk_run s es) sk_wf.
Proof.
  intros Hrx Htx Hc Hc' Hok.
  destruct (wp_Ret_inv _ _ (socket_new_wf rx tx Hrx Htx Hc Hc')) as (s & E & Hwf).
  rewrite E in *. rewrite bind_Ret. by apply sk_run_wf.
Qed.

(** [connect] succeeds only on a socket that is not open and only with a usable pair of
    endpoints of one IP version; then the socket is in SYN-SENT between the chosen local
    address and the remote endpoint, with a random initial sequence number, nothing in flight
    and empty buffers.  On an error nothing changes, and [InvalidState] means it was open. *)
Theorem connect_spec {cfg : BuildConfig} cx s remote local cx' s' r :
  connect cx s remote local = Ret (cx', s', r) ->
  match r with
  | Ok _ => connected cx s remote local cx' s'
  | Err ConnectInvalidState => is_open s = true /\ s' = s /\ cx' = cx
  | Err ConnectUnaddressable => is_open s = false /\ s' = s /\ cx' = cx
  end.
Proof. apply connect_ok. Qed.

(** [close] follows the state diagram, wakes the tasks waiting to receive and to send
    exactly when the state changes, changes nothing otherwise, and keeps the data queued in
    both directions. *)
Theorem close_spec s :
  sk_state (close s) = close_target (sk_state s) /\
  (sk_state (close s) = sk_state s -> close s = s) /\
  (sk_state (close s) <> sk_state s ->
   woken (sk_rx_waker s) (sk_rx_waker (close s)) /\ woken (sk_tx_waker s) (sk_tx_waker (close s))) /\
  sk_rx_buffer (close s) = sk_rx_buffer s /\ sk_tx_buffer (close s) = sk_tx_buffer s.
Proof. apply close_ok. Qed.

(** ** Witnesses *)

Definition ex_empty : RingBuffer Z := mkRingBuffer (replicate 16 0) 0 0.

(** A handshake answered by the socket, an exchange of data and a close. *)
Definition ex_events : list sk_event :=
  [EvListen (mkListenEndpoint None 80);
   EvProcess cx_example ex_ip (ex_segment 199 None CtlSyn []);
   EvDispatch cx_example true; EvSend [1; 2]; EvClose; EvDispatch cx_example false].

Lemma sk_run_ok_cons s e s' es :
  sk_event_ok s e -> sk_event_step s e = Ret s' -> sk_run_ok s' es -> sk_run_ok s (e :: es).
Proof. intros He E Hes. cbn [sk_run_ok]. by rewrite E. Qed.

Lemma ex_events_ok : wlp (socket_new ex_empty ex_empty) (fun s => sk_run_ok s ex_events).
Proof.
  unfold ex_events. set (s := socket_new _ _). vm_compute in s. subst s. cbn [wlp].
  assert (Hdev : forall b s, win_edge_ok s -> sk_event_ok s (EvDispatch cx_example b)).
  { intros b s He. split; [unfold time_ok; cbn; lia|]. split; [|done]. exists 1500. split; [done|].
    unfold IPV6_HEADER_LEN, TCP_HEADER_LEN. mlia. }
  eapply sk_run_ok_cons; [exact I|vm_compute; reflexivity|].
  eapply sk_run_ok_cons; [|vm_compute; reflexivity|].
  { split; [intros E; discriminate E|]. split; [by apply ex_repr_ok; vm_compute|].
    split; [unfold time_ok; cbn; lia|]. split; [exact I|reflexivity]. }
  eapply sk_run_ok_cons; [apply Hdev; vm_compute; exact I|vm_compute; reflexivity|].
  eapply sk_run_ok_cons; [exact I|vm_compute; reflexivity|].
  eapply sk_run_ok_cons; [exact I|vm_compute; reflexivity|].
  eapply sk_run_ok_cons; [apply Hdev; vm_compute; discriminate|vm_compute; reflexivity|]. exact I.
Qed.

Lemma socket_runs_safely_witness : wp (s ← socket_new ex_empty ex_empty; sk_run s ex_events) sk_wf.
Proof.
  apply (socket_runs_safely ex_empty ex_empty ex_events); [..|apply ex_events_ok];
    vm_compute; intuition discriminate.
Defined.

Definition ex_closed : Socket := abort ex_idle.

Lemma connect_spec_witness :
  exists cx' s' r, connect cx_example ex_closed ex_remote (mkListenEndpoint None 80) = Ret (cx', s', r) /\
  match r with
  | Ok _ => connected cx_example ex_closed ex_remote (mkListenEndpoint None 80) cx' s'
  | Err ConnectInvalidState => is_open ex_closed = true /\ s' = ex_closed /\ cx' = cx_example
  | Err ConnectUnaddressable => is_open ex_closed = false /\ s' = ex_closed /\ cx' = cx_example
  end.
Proof.
  do 3 eexists. split; [vm_compute; reflexivity|]. eapply connect_spec. vm_compute. reflexivity.
Defined.

(** * What the definitions show of the code *)

(** A full receive buffer whose zero window was advertised. *)
Definition full_socket : Socket := ex_socket Established (replicate 16 5) [] 0.

(** The application reads ten octets, and the remote end's probe of one octet arrives before
    the window update went out. *)
Definition probe_after_read : res Socket :=
  '(s, _) ← recv_slice full_socket 10;
  '(_, s, _) ← process cx_example s ex_ip (ex_segment 216 (Some 100) CtlNone [6]);
  Ret s.

(** The window update check panics when an octet beyond the window advertised last was
    accepted because the application had read in between: [last_scaled_window] subtracts the
    next acknowledgement from a smaller window edge, and both [dispatch] and [poll_at] fail. *)
Theorem probe_after_read_panics :
  wp probe_after_read (fun s =>
    poll_at cx_example s = Panic /\ dispatch_prepare cx_example s = Panic).
Proof. vm_compute. split; reflexivity. Qed.

(** [close] before the handshake is complete, and the acknowledgement of the SYN|ACK. *)
Definition close_in_syn_received : res Socket :=
  let s := close (ex_socket SynReceived [] [] 1) in
  '(_, s, _) ← process cx_example s ex_ip (ex_segment 200 (Some 101) CtlNone []);
  Ret s.

(** A socket closed in SYN-RECEIVED takes the acknowledgement of its SYN for that of a FIN:
    it is in FIN-WAIT-2 with no FIN ever sent, and has nothing to transmit, so that the
    remote end never learns that the connection was closed. *)
Theorem close_in_syn_received_loses_fin :
  wp close_in_syn_received (fun s =>
    sk_state s = FinWait2 /\ seq_to_transmit cx_example s = Ret false /\
    wp (dispatch_prepare cx_example s) (fun '(_, o) => o = None)).
Proof. vm_compute. repeat split. Qed.

(** The acknowledgement check counts queued octets as transmitted: a segment that
    acknowledges three octets that were never sent is accepted, and the octets are dropped
    from the transmit buffer. *)
Theorem unsent_octets_acknowledged :
  let s := ex_socket Established [] [7; 8; 9] 0 in
  sk_remote_last_seq s = sk_local_seq_no s /\
  wp (process cx_example s ex_ip (ex_segment 200 (Some 103) CtlNone [])) (fun '(_, s', o) =>
    o = None /\ sk_local_seq_no s' = 103 /\ rb_contents (sk_tx_buffer s') = []).
Proof. vm_compute. repeat split. Qed.

(** A segment of four octets and a FIN of which two octets fit the window, then three reads. *)
Definition fin_with_cut_payload : res (Socket * list Z * result (list Z) RecvError) :=
  let s := ex_socket Established (replicate 14 5) [] 0 in
  '(_, s, _) ← process cx_example s ex_ip (ex_segment 214 (Some 100) CtlFin [6; 7; 8; 9]);
  '(s, r) ← recv_slice s 64;
  '(s, r') ← recv_slice s 64;
  Ret (s, match r with Ok d => d | Err _ => [] end, r').

(** The FIN of a segment whose payload was cut off at the end of the window is processed
    all the same: two octets of the stream are lost, yet the sequence number of the FIN is
    acknowledged and the application is told that the stream finished. *)
Theorem fin_with_cut_payload_loses_octets :
  wp fin_with_cut_payload (fun '(s, d, r) =>
    d = replicate 14 5 ++ [6; 7] /\ r = Err RecvFinished /\ sk_state s = CloseWait /\
    sk_remote_seq_no s = 217).
Proof. vm_compute. repeat split. Qed.

(** With SACK, an acknowledgement number that is negative as an [i32] is sign-extended to
    [usize], and the addition of the assembler's offsets overflows: an out-of-order segment
    near the wrap-around of the sequence numbers panics in a build with overflow checks. *)
Theorem sack_near_wrap_panics :
  let s := upd_remote_has_sack true (upd_remote_seq_no (-5) (ex_socket Established [] [] 0)) in
  process cx_example s ex_ip (ex_segment (-2) (Some 100) CtlNone [1; 2; 3; 4]) = Panic.
Proof. vm_compute. reflexivity. Qed.

(** A receive buffer of exactly 1 GiB is accepted by [new] and advertises a window shift of
    15, although the comment beside it limits the shift to 14. *)
Theorem largest_buffer_shift : win_shift_for (2 ^ 30) = 15.
Proof. reflexivity. Qed.

(** A socket with timestamps on a link with an MTU of 68 octets, and data for a full segment. *)
Definition timestamp_socket : Socket :=
  upd_tsval_generator (Some 1) (upd_tx_buffer (mkRingBuffer (replicate 64 7) 0 64)
    (ex_socket Established [] [] 0)).

Definition cx_small : Context := mkContext 1000000 42 MediumIp 100 [] (fun _ => 7).

(** The room of the timestamp option is not taken off the segment size: with timestamps a
    full segment exceeds the MTU of the device by the twelve octets of the option. *)
Theorem timestamps_exceed_mtu :
  wp (dispatch_prepare cx_small timestamp_socket) (fun '(_, o) =>
    match o with
    | Some o => ip_header_len (out_ip o) + ip_payload_len (out_ip o) = cx_max_transmission_unit cx_small + 12
    | None => False
    end).
Proof. vm_compute. reflexivity. Qed.

(** With its SYN|ACK paused, a socket in SYN-RECEIVED asks to be polled at once, yet
    [dispatch] does nothing and changes nothing, so that polling never becomes idle. *)
Theorem paused_synack_busy :
  let s := pause_synack (ex_socket SynReceived [] [] 0) true in
  poll_at cx_example s = Ret PollNow /\ dispatch_prepare cx_example s = Ret (s, None).
Proof. vm_compute. split; reflexivity. Qed.
