(* ===== verification/TcpWireLemmas.v ===== *)
(** * TCP packets on the wire: fields, flags and options (wire/tcp.rs)

    The fixed header is the layout [hdr] of its fields: each accessor of [Packet] reads or
    replaces one of them.  [opt_bytes] is the encoding of an option: emitting writes it,
    parsing reads it back. *)

From S2P Require Import Prelude SeqNumber ByteOrder IpTypes Checksum TcpRepr TcpWire TcpReplyLemmas TcpInvariant.

(** ** The fixed header *)

Definition hdr_layout (src dst seq ack flags win ck urg : Z) : layout :=
  [(2%nat, src); (2%nat, dst); (4%nat, seq); (4%nat, ack); (2%nat, flags); (2%nat, win); (2%nat, ck); (2%nat, urg)].

Definition hdr (src dst seq ack flags win ck urg : Z) (rest : list Z) : list Z :=
  layout_bytes (hdr_layout src dst seq ack flags win ck urg) ++ rest.

Lemma Zlen_hdr src dst seq ack flags win ck urg rest :
  Zlen (hdr src dst seq ack flags win ck urg rest) = 20 + Zlen rest.
Proof. unfold hdr. by rewrite Zlen_app, Zlen_layout_bytes. Qed.

Lemma hdr_view bs :
  bytes_ok bs -> 20 <= Zlen bs ->
  exists src dst seq ack flags win ck urg rest,
    bs = hdr src dst seq ack flags win ck urg rest /\ bytes_ok rest /\
    in_u16 src /\ in_u16 dst /\ in_u32 seq /\ in_u32 ack /\ in_u16 flags /\ in_u16 win /\ in_u16 ck /\ in_u16 urg.
Proof.
  intros Hb Hl.
  destruct (layout_view [2; 2; 4; 4; 2; 2; 2; 2]%nat bs Hb Hl) as (l & rest & Hm & E & Hr & Hf).
  do 8 (destruct l as [|[? ?] l]; [discriminate|]). destruct l; [|discriminate].
  cbn [map fst] in Hm. injection Hm as -> -> -> -> -> -> -> ->.
  repeat match goal with H : Forall _ (_ :: _) |- _ => inversion H; clear H; subst end. cbn [fst snd] in *.
  change (256 ^ Z.of_nat 2) with 65536 in *. change (256 ^ Z.of_nat 4) with (2 ^ 32) in *.
  do 9 eexists. split; [reflexivity|]. split; [done|]. split_and!; mlia.
Qed.

Lemma hdr_bytes_ok src dst seq ack flags win ck urg rest :
  bytes_ok rest -> bytes_ok (hdr src dst seq ack flags win ck urg rest).
Proof. intros. apply bytes_ok_app. split; [apply layout_bytes_ok | done]. Qed.

(** *** Flags *)

Definition ctl_bit (c : Control) : Z :=
  match c with
  | CtlNone => 0 | CtlPsh => field.FLG_PSH | CtlSyn => field.FLG_SYN
  | CtlFin => field.FLG_FIN | CtlRst => field.FLG_RST
  end.

(** The flags field: the header length in words, the control flag and the ACK flag. *)
Definition flags_word (k : Z) (c : Control) (ack : bool) : Z :=
  4096 * k + ctl_bit c + (if ack then field.FLG_ACK else 0).

Definition flag_set (w mask : Z) : bool := negb (Z.land w mask =? 0).

Lemma words_cases k : 5 <= k <= 15 ->
  k = 5 \/ k = 6 \/ k = 7 \/ k = 8 \/ k = 9 \/ k = 10 \/ k = 11 \/ k = 12 \/ k = 13 \/ k = 14 \/ k = 15.
Proof. lia. Qed.

Lemma flags_word_ok k c ack :
  5 <= k <= 15 ->
  let w := flags_word k c ack in
  in_u16 w /\ Z.shiftr w 12 * 4 = 4 * k /\ flag_set w field.FLG_ACK = ack /\
  control_of_flags (flag_set w field.FLG_SYN) (flag_set w field.FLG_FIN) (flag_set w field.FLG_RST)
    (flag_set w field.FLG_PSH) = Ok c.
Proof.
  intros Hk. apply words_cases in Hk.
  repeat (destruct Hk as [-> | Hk]; [destruct c, ack; vm_compute; repeat split; discriminate|]).
  subst k. destruct c, ack; vm_compute; repeat split; discriminate.
Qed.

(** Setting the header length and clearing the flags leaves the header length only. *)
Lemma clear_flags_word raw k :
  5 <= k <= 15 ->
  Z.land (Z.lor (Z.land raw (Z.lxor 0xffff 0xf000)) (wrap_u 16 (Z.shiftl (4 * k / 4) 12))) (Z.lxor 0xffff 0x0fff)
  = flags_word k CtlNone false.
Proof.
  intros Hk. rewrite Z.land_lor_distr_l, <- Z.land_assoc.
  change (Z.land (Z.lxor 65535 61440) (Z.lxor 65535 4095)) with 0. rewrite Z.land_0_r, Z.lor_0_l.
  apply words_cases in Hk. repeat (destruct Hk as [-> | Hk]; [reflexivity|]). by subst k.
Qed.

Lemma set_control_word k c (ack : bool) :
  5 <= k <= 15 ->
  (if ack then Z.lor (Z.lor (flags_word k CtlNone false) (ctl_bit c)) field.FLG_ACK
   else Z.land (Z.lor (flags_word k CtlNone false) (ctl_bit c)) (Z.lxor 0xffff field.FLG_ACK)) = flags_word k c ack.
Proof.
  intros Hk. apply words_cases in Hk.
  repeat (destruct Hk as [-> | Hk]; [destruct c, ack; reflexivity|]). subst k. destruct c, ack; reflexivity.
Qed.

(** *** Accessors *)

Section Header.
Context `{NetworkEndianLaws}.
Variables src dst seq ack flags win ck urg : Z.
Variable rest : list Z.

Abbreviation h := (hdr src dst seq ack flags win ck urg rest).

(** Read the field with index [i] by the lemma [L]. *)
Ltac field_get i L :=
  unfold field_read, hdr; erewrite (layout_get i) by reflexivity; rewrite bind_Ret; apply L.

Lemma src_port_ok : in_u16 src -> pkt_src_port h = Ret src.
Proof. unfold pkt_src_port. field_get 0%nat read_u16_exact. Qed.
Lemma dst_port_ok : in_u16 dst -> pkt_dst_port h = Ret dst.
Proof. unfold pkt_dst_port. field_get 1%nat read_u16_exact. Qed.
Lemma seq_number_ok : pkt_seq_number h = Ret (seq_wrap seq).
Proof. unfold pkt_seq_number. field_get 2%nat read_i32_exact. Qed.
Lemma ack_number_ok : pkt_ack_number h = Ret (seq_wrap ack).
Proof. unfold pkt_ack_number. field_get 3%nat read_i32_exact. Qed.
Lemma flags_ok : in_u16 flags -> pkt_flags h = Ret flags.
Proof. unfold pkt_flags. field_get 4%nat read_u16_exact. Qed.
Lemma window_len_ok : in_u16 win -> pkt_window_len h = Ret win.
Proof. unfold pkt_window_len. field_get 5%nat read_u16_exact. Qed.
Lemma checksum_ok : in_u16 ck -> pkt_checksum h = Ret ck.
Proof. unfold pkt_checksum. field_get 6%nat read_u16_exact. Qed.
Lemma urgent_at_ok : in_u16 urg -> pkt_urgent_at h = Ret urg.
Proof. unfold pkt_urgent_at. field_get 7%nat read_u16_exact. Qed.

Lemma flag_ok mask : in_u16 flags -> pkt_flag mask h = Ret (flag_set flags mask).
Proof. intros. unfold pkt_flag. by rewrite flags_ok, bind_Ret. Qed.

Lemma header_len_ok :
  in_u16 flags -> pkt_header_len h = Ret (Z.shiftr flags 12 * 4) /\ 0 <= Z.shiftr flags 12 <= 15.
Proof.
  intros Hf. unfold pkt_header_len. rewrite flags_ok, bind_Ret by done.
  assert (Hr : 0 <= Z.shiftr flags 12 <= 15).
  { rewrite Z.shiftr_div_pow2 by lia. split; [apply Z.div_pos; mlia|].
    apply Z.lt_succ_r, Z.div_lt_upper_bound; mlia. }
  split; [|done]. rewrite checked_ok, bind_Ret by mlia. by rewrite wrap_u_id by lia.
Qed.

(** Setters replace the field. *)
Ltac field_set i :=
  unfold hdr; erewrite (layout_set i) by (reflexivity || (rewrite ?write_u16_law, ?write_i32_law by done; by apply be_write_exact));
  reflexivity.

Lemma set_src_port_ok v : in_u16 v -> pkt_set_src_port h v = Ret (hdr v dst seq ack flags win ck urg rest).
Proof. intros. unfold pkt_set_src_port. field_set 0%nat. Qed.
Lemma set_dst_port_ok v : in_u16 v -> pkt_set_dst_port h v = Ret (hdr src v seq ack flags win ck urg rest).
Proof. intros. unfold pkt_set_dst_port. field_set 1%nat. Qed.
Lemma set_seq_number_ok v : in_i32 v -> pkt_set_seq_number h v = Ret (hdr src dst v ack flags win ck urg rest).
Proof. intros. unfold pkt_set_seq_number. field_set 2%nat. Qed.
Lemma set_ack_number_ok v : in_i32 v -> pkt_set_ack_number h v = Ret (hdr src dst seq v flags win ck urg rest).
Proof. intros. unfold pkt_set_ack_number. field_set 3%nat. Qed.
Lemma set_flags_ok v : in_u16 v -> pkt_set_flags h v = Ret (hdr src dst seq ack v win ck urg rest).
Proof. intros. unfold pkt_set_flags. field_set 4%nat. Qed.
Lemma set_window_len_ok v : in_u16 v -> pkt_set_window_len h v = Ret (hdr src dst seq ack flags v ck urg rest).
Proof. intros. unfold pkt_set_window_len. field_set 5%nat. Qed.
Lemma set_checksum_ok v : in_u16 v -> pkt_set_checksum h v = Ret (hdr src dst seq ack flags win v urg rest).
Proof. intros. unfold pkt_set_checksum. field_set 6%nat. Qed.
Lemma set_urgent_at_ok v : in_u16 v -> pkt_set_urgent_at h v = Ret (hdr src dst seq ack flags win ck v rest).
Proof. intros. unfold pkt_set_urgent_at. field_set 7%nat. Qed.
End Header.

(** ** Options *)

(** The encoding of an option. *)
Definition blocks_bytes (bs : list (Z * Z)) : list Z := bs ≫= (fun b => be_bytes 4 b.1 ++ be_bytes 4 b.2).

Definition opt_bytes (o : TcpOption) : list Z :=
  match o with
  | EndOfList => [field.OPT_END]
  | NoOperation => [field.OPT_NOP]
  | MaxSegmentSize v => [field.OPT_MSS; 4] ++ be_bytes 2 v
  | WindowScale v => [field.OPT_WS; 3; v]
  | SackPermitted => [field.OPT_SACKPERM; 2]
  | SackRange s => [field.OPT_SACKRNG; Zlen (sack_blocks s) * 8 + 2] ++ blocks_bytes (sack_blocks s)
  | TimeStamp a b => [field.OPT_TSTAMP; 10] ++ be_bytes 4 a ++ be_bytes 4 b
  | UnknownOption kind data => [kind; 2 + Zlen data] ++ data
  end.

Definition block_ok (b : Z * Z) : Prop := in_u32 b.1 /\ in_u32 b.2.

(** The values fit their fields; the blocks of a SACK option are in front of the empty
    entries; an unknown option has none of the kinds that are known. *)
Definition option_ok (o : TcpOption) : Prop :=
  match o with
  | EndOfList | NoOperation | SackPermitted => True
  | MaxSegmentSize v => in_u16 v
  | WindowScale v => in_u8 v
  | SackRange s =>
      Forall block_ok (sack_blocks s) /\
      match s with (Some _, None, None) | (Some _, Some _, None) | (Some _, Some _, Some _) => True | _ => False end
  | TimeStamp a b => in_u32 a /\ in_u32 b
  | UnknownOption kind data =>
      in_u8 kind /\ bytes_ok data /\ 2 + Zlen data <= u8_max /\
      (5 < kind /\ kind <> field.OPT_TSTAMP \/ kind = field.OPT_TSTAMP /\ Zlen data <> 8)
  end.

Lemma Zlen_blocks_bytes bs : Zlen (blocks_bytes bs) = Zlen bs * 8.
Proof.
  induction bs as [|b bs IH]; [done|]. unfold blocks_bytes in *.
  rewrite bind_cons, !Zlen_app, !Zlen_be_bytes, IH, Zlen_cons. lia.
Qed.

Lemma Zlen_opt_bytes o : Zlen (opt_bytes o) = option_buffer_len o.
Proof.
  destruct o; try reflexivity; cbn [opt_bytes option_buffer_len app];
    rewrite !Zlen_cons, ?Zlen_blocks_bytes; lia.
Qed.

Lemma sack_blocks_len s : 0 <= Zlen (sack_blocks s) <= 3.
Proof. destruct s as [[[?|] [?|]] [?|]]; vm_compute; split; discriminate. Qed.

(** Rewrite with an equation about [p ++ s] for an explicit [p]. *)
Tactic Notation "app_rewrite" open_constr(L) :=
  let E := fresh "E" in pose proof L as E; cbn [app opt_bytes option_buffer_len] in *; rewrite E; clear E.

Section Options.
Context `{NetworkEndianLaws}.

(** A write to a slice that reaches to the end of the buffer. *)
Lemma write_from_ok p m s pos (write : list Z -> Z -> res (list Z)) n v :
  pos = Zlen p -> Zlen m = Z.of_nat n -> write (m ++ s) v = be_write n (m ++ s) v ->
  write_from (p ++ m ++ s) pos write v = Ret (p ++ be_bytes n v ++ s).
Proof.
  intros -> Hm Hw. unfold write_from. pose proof (Zlen_nonneg s).
  pose proof (slice_mut_mid p (m ++ s) (be_bytes n v ++ s) [] (Zlen p) (Zlen (p ++ m ++ s))
    (fun d => write d v)) as E. rewrite !app_nil_r in E. apply E; [done | by rewrite !Zlen_app | |].
  - rewrite Hw, be_write_front by (rewrite Zlen_app; lia).
    rewrite drop_app_length' by (unfold Zlen in *; lia). done.
  - rewrite !length_app. pose proof (Zlen_be_bytes n v). unfold Zlen in *. lia.
Qed.

Lemma write_u32_from p m s pos v :
  pos = Zlen p -> Zlen m = 4 -> in_u32 v -> write_from (p ++ m ++ s) pos write_u32 v = Ret (p ++ be_bytes 4 v ++ s).
Proof. intros ? ? Hv. apply write_from_ok; [done | done | by apply write_u32_law]. Qed.

Lemma write_u16_from p m s pos v :
  pos = Zlen p -> Zlen m = 2 -> in_u16 v -> write_from (p ++ m ++ s) pos write_u16 v = Ret (p ++ be_bytes 2 v ++ s).
Proof. intros ? ? Hv. apply write_from_ok; [done | done | by apply write_u16_law]. Qed.

Lemma emit_blocks_ok bs p m s :
  Forall block_ok bs -> Zlen m = Zlen bs * 8 ->
  emit_blocks (p ++ m ++ s) (Zlen p) bs = Ret (p ++ blocks_bytes bs ++ s).
Proof.
  revert p m. induction bs as [|[a b] bs IH]; intros p m Hb Hm.
  { apply Zlen_nil_inv in Hm. by subst m. }
  inversion Hb as [|? ? [Ha Hb'] Hbs]; subst. cbn [fst snd] in *. rewrite Zlen_cons in Hm.
  pose proof (Zlen_nonneg bs).
  destruct (Zlen_split_at m 4) as (m1 & m2 & -> & Hm1); [lia|]. rewrite Zlen_app in Hm.
  destruct (Zlen_split_at m2 4) as (m3 & m4 & -> & Hm2); [lia|]. rewrite Zlen_app in Hm.
  cbn [emit_blocks]. rewrite <- !app_assoc. rewrite write_u32_from, bind_Ret by done.
  rewrite app_assoc, write_u32_from, bind_Ret by (done || rewrite Zlen_app, Zlen_be_bytes; lia).
  replace ((p ++ be_bytes 4 a) ++ be_bytes 4 b ++ m4 ++ s)
    with ((p ++ be_bytes 4 a ++ be_bytes 4 b) ++ m4 ++ s) by (by rewrite <- !app_assoc).
  replace (Zlen p + 8) with (Zlen (p ++ be_bytes 4 a ++ be_bytes 4 b))
    by (rewrite !Zlen_app, !Zlen_be_bytes; lia).
  rewrite IH by (done || lia). unfold blocks_bytes. by rewrite bind_cons, <- !app_assoc.
Qed.

Lemma slice_rest {A} (p s : list A) a b : a = Zlen p -> b = Zlen (p ++ s) -> slice (p ++ s) a b = Ret s.
Proof.
  intros -> ->. pose proof (slice_mid p s [] (Zlen p) (Zlen (p ++ s))) as E. rewrite app_nil_r in E.
  apply E; [done | by rewrite Zlen_app].
Qed.
(** The data of an unknown option fills its buffer. *)
Definition unknown_last (o : TcpOption) (s : list Z) : Prop :=
  match o with UnknownOption _ _ => s = [] | _ => True end.

(** The kind and the data of an option with a length byte, behind two bytes [a] and [b]. *)
Lemma emit_data_ok o a b m s :
  option_ok o -> o <> EndOfList -> o <> NoOperation -> unknown_last o s ->
  2 + Zlen m = option_buffer_len o ->
  exists k d, opt_bytes o = k :: option_buffer_len o :: d /\
    emit_data o (a :: b :: m ++ s) = Ret (k :: b :: d ++ s).
Proof.
  intros Ho He Hn Hs Hm. destruct o as [| |v|v| |r|v w|k data]; try done;
    cbn [option_ok opt_bytes option_buffer_len emit_data unknown_last] in *.
  - do 2 eexists. split; [reflexivity|]. app_rewrite (index_set_app [] a _ _ 0 eq_refl). rewrite bind_Ret.
    apply (write_u16_from [field.OPT_MSS; b] m s); [done | lia | done].
  - destruct m as [|c [|]]; [| |unfold Zlen in Hm; cbn in Hm; lia]; [unfold Zlen in Hm; cbn in Hm; lia|].
    do 2 eexists. split; [reflexivity|]. app_rewrite (index_set_app [] a _ _ 0 eq_refl). rewrite bind_Ret.
    by app_rewrite (index_set_app [field.OPT_WS; b] c s v 2 eq_refl).
  - do 2 eexists. split; [reflexivity|]. destruct m; [|unfold Zlen in Hm; cbn in Hm; lia]. cbn [app].
    by app_rewrite (index_set_app [] a (b :: s) field.OPT_SACKPERM 0 eq_refl).
  - do 2 eexists. split; [reflexivity|]. app_rewrite (index_set_app [] a _ _ 0 eq_refl). rewrite bind_Ret.
    apply (emit_blocks_ok (sack_blocks r) [field.OPT_SACKRNG; b] m s); [apply Ho | lia].
  - do 2 eexists. split; [reflexivity|]. app_rewrite (index_set_app [] a _ _ 0 eq_refl). rewrite bind_Ret.
    destruct (Zlen_split_at m 4) as (m1 & m2 & -> & Hm1); [lia|]. rewrite Zlen_app in Hm. rewrite <- app_assoc.
    app_rewrite (write_u32_from [field.OPT_TSTAMP; b] m1 (m2 ++ s) 2 v eq_refl Hm1 (proj1 Ho)).
    rewrite bind_Ret. rewrite <- (app_assoc (be_bytes 4 v)).
    apply (write_u32_from ([field.OPT_TSTAMP; b] ++ be_bytes 4 v) m2 s 6 w); [done | lia | apply Ho].
  - subst s. do 2 eexists. split; [reflexivity|]. app_rewrite (index_set_app [] a _ _ 0 eq_refl). rewrite bind_Ret.
    rewrite !app_nil_r. pose proof (slice_mut_mid [k; b] m data [] 2 (Zlen (k :: b :: m))
      (fun d => if Zlen d =? Zlen data then Ret data else Panic)) as E.
    rewrite !app_nil_r in E. apply E; [done | rewrite !Zlen_cons; change (Zlen [k; b]) with 2; lia | | unfold Zlen in *; lia].
    by replace (Zlen m =? Zlen data) with true by lia.
Qed.

(** Emitting an option writes its encoding in front of the buffer. *)
Lemma option_emit_ok o pre s :
  option_ok o -> o <> EndOfList -> unknown_last o s ->
  Zlen pre = option_buffer_len o ->
  option_emit o (pre ++ s) = Ret (opt_bytes o ++ s, option_buffer_len o).
Proof.
  intros Ho He Hs Hp.
  assert (Hrest : slice (opt_bytes o ++ s) (option_buffer_len o) (Zlen (opt_bytes o ++ s)) = Ret s).
  { apply slice_rest; [by rewrite Zlen_opt_bytes | done]. }
  destruct (decide (o = NoOperation)) as [->|Hn].
  { destruct pre as [|x [|]]; try (unfold Zlen in Hp; cbn in Hp; lia). unfold option_emit.
    cbn [app]. app_rewrite (index_set_app [] x s field.OPT_NOP 0 eq_refl). rewrite !bind_Ret.
    by app_rewrite Hrest. }
  assert (H2 : 2 <= option_buffer_len o <= 255).
  { destruct o as [| |v|v| |r|v w|k data]; try done; cbn [option_buffer_len]; try lia.
    - pose proof (sack_blocks_len r). lia.
    - destruct Ho as (_ & _ & Hl & _). pose proof (Zlen_nonneg data). mlia. }
  destruct pre as [|a [|b m]]; try (unfold Zlen in Hp; cbn in Hp; lia). cbn [app].
  rewrite !Zlen_cons in Hp.
  destruct (emit_data_ok o a (option_buffer_len o) m s Ho He Hn Hs ltac:(lia)) as (k & d & Ed & Ee).
  assert (E : (buffer ← index_set (a :: b :: m ++ s) 1 (wrap_u 8 (option_buffer_len o)); emit_data o buffer)
              = Ret (opt_bytes o ++ s)).
  { app_rewrite (index_set_app [a] b (m ++ s) (wrap_u 8 (option_buffer_len o)) 1 eq_refl).
    rewrite bind_Ret, wrap_u_id by lia. by rewrite Ee, Ed. }
  assert (E' : option_emit o (a :: b :: m ++ s) =
    ('(buffer, length) ← (buffer ← (buffer ← index_set (a :: b :: m ++ s) 1 (wrap_u 8 (option_buffer_len o));
       emit_data o buffer); Ret (buffer, option_buffer_len o));
     _ ← slice buffer length (Zlen buffer); Ret (buffer, length))).
  { unfold option_emit. destruct o; try done; by destruct (index_set _ _ _). }
  rewrite E', E, !bind_Ret. by rewrite Hrest.
Qed.

Lemma end_of_list_emit_ok buffer :
  1 <= Zlen buffer -> option_emit EndOfList buffer = Ret (replicate (length buffer) 0, 1).
Proof.
  intros Hl. unfold option_emit. rewrite bind_Ret.
  rewrite slice_ok, bind_Ret by (unfold Zlen in *; rewrite ?length_replicate; lia). done.
Qed.
End Options.

(** ** Parsing options *)

Section ParseOptions.
Context `{NetworkEndianLaws}.

Lemma get_range_mid p m s a b :
  a = Zlen p -> b = a + Zlen m -> get_range (p ++ m ++ s) a b = Some m.
Proof.
  intros -> ->. pose proof (Zlen_nonneg m). pose proof (Zlen_nonneg s). unfold get_range. rewrite !Zlen_app.
  replace ((Zlen p <=? Zlen p + Zlen m) && (Zlen p + Zlen m <=? Zlen p + (Zlen m + Zlen s))) with true by lia.
  by rewrite Z.add_simpl_l, sub_mid.
Qed.

Lemma option_parse_kind kind d s :
  kind <> field.OPT_END -> kind <> field.OPT_NOP ->
  option_parse (kind :: (2 + Zlen d) :: d ++ s) =
  try_bind (option_of_kind kind (2 + Zlen d) d) (fun o => Ret (Ok (s, o))).
Proof.
  intros H0' H1'. unfold option_parse.
  replace (kind =? field.OPT_END) with false by lia. replace (kind =? field.OPT_NOP) with false by lia.
  app_rewrite (get_range_mid [kind; 2 + Zlen d] d s 2 (2 + Zlen d) eq_refl eq_refl).
  unfold try_bind. f_equal.
  assert (E : slice (kind :: (2 + Zlen d) :: d ++ s) (2 + Zlen d) (Zlen (kind :: (2 + Zlen d) :: d ++ s)) = Ret s).
  { apply (slice_rest ([kind; 2 + Zlen d] ++ d) s); [by rewrite Zlen_app | done]. }
  by rewrite E.
Qed.

Lemma sack_range_at_ok bs i :
  Forall block_ok bs -> sack_range_at (blocks_bytes bs) (Z.of_nat i) = Ret (bs !! i).
Proof.
  intros Hb. unfold sack_range_at. rewrite Zlen_blocks_bytes. destruct (bs !! i) as [[a b]|] eqn:E.
  - pose proof (lookup_lt_Some _ _ _ E). replace (Z.of_nat i * 8 <? Zlen bs * 8) with true by (unfold Zlen; lia).
    rewrite Forall_lookup in Hb. destruct (Hb i (a, b) E) as [Ha Hb']. cbn [fst snd] in *.
    assert (Es : blocks_bytes bs = blocks_bytes (take i bs) ++ be_bytes 4 a ++ be_bytes 4 b ++ blocks_bytes (drop (S i) bs)).
    { rewrite <- (take_drop_middle bs i (a, b) E) at 1. unfold blocks_bytes. rewrite bind_app, bind_cons.
      by rewrite <- !app_assoc. }
    assert (Hl : Zlen (blocks_bytes (take i bs)) = Z.of_nat i * 8).
    { rewrite Zlen_blocks_bytes. unfold Zlen. rewrite length_take. lia. }
    set (p := blocks_bytes (take i bs)) in *. set (q := blocks_bytes (drop (S i) bs)) in *.
    assert (E1 : slice (blocks_bytes bs) (Z.of_nat i * 8) (Z.of_nat i * 8 + 4) = Ret (be_bytes 4 a)).
    { rewrite Es. apply slice_mid; [done | by rewrite Zlen_be_bytes]. }
    assert (E2 : slice (blocks_bytes bs) (Z.of_nat i * 8 + 4) (Z.of_nat i * 8 + 4 + 4) = Ret (be_bytes 4 b)).
    { rewrite Es, app_assoc. apply slice_mid; [by rewrite Zlen_app, Zlen_be_bytes, Hl | by rewrite Zlen_be_bytes]. }
    unfold field_read. rewrite E1, bind_Ret, read_u32_exact, bind_Ret by done. rewrite E2, bind_Ret.
    by rewrite read_u32_exact.
  - apply lookup_ge_None in E. by replace (Z.of_nat i * 8 <? Zlen bs * 8) with false by (unfold Zlen; lia).
Qed.

(** Parsing reads an encoded option back, and leaves the rest. *)
Lemma option_parse_ok o s : option_ok o -> option_parse (opt_bytes o ++ s) = Ret (Ok (s, o)).
Proof.
  intros Ho. destruct o as [| |v|v| |r|v w|k data]; cbn [opt_bytes option_ok] in *.
  - cbn [app]. unfold option_parse. by app_rewrite (slice_rest [field.OPT_END] s 1 _ eq_refl eq_refl).
  - cbn [app]. unfold option_parse. by app_rewrite (slice_rest [field.OPT_NOP] s 1 _ eq_refl eq_refl).
  - pose proof (option_parse_kind field.OPT_MSS (be_bytes 2 v) s) as E. rewrite Zlen_be_bytes in E.
    change (2 + Z.of_nat 2) with 4 in E. cbn [app] in *. rewrite E by done. unfold option_of_kind. cbn [Z.eqb]. cbn -[be_bytes].
    by rewrite read_u16_exact.
  - pose proof (option_parse_kind field.OPT_WS [v] s) as E. by apply E.
  - pose proof (option_parse_kind field.OPT_SACKPERM [] s) as E. by apply E.
  - destruct Ho as [Hb Hr]. pose proof (option_parse_kind field.OPT_SACKRNG (blocks_bytes (sack_blocks r)) s) as E.
    rewrite Zlen_blocks_bytes, Z.add_comm in E. cbn [app] in *. rewrite E by done.
    unfold option_of_kind. cbn [Z.eqb field.OPT_SACKRNG field.OPT_MSS field.OPT_WS field.OPT_SACKPERM Pos.eqb].
    rewrite Z.add_simpl_r, Z_mod_mult.
    assert (Hn : (Zlen (sack_blocks r) * 8 + 2 <? 10) = false).
    { destruct r as [[[?|] [?|]] [?|]]; try done. }
    rewrite Hn. cbn [orb negb Z.eqb].
    pose proof (sack_range_at_ok (sack_blocks r)) as Hs.
    rewrite (Hs 0%nat Hb : sack_range_at _ 0 = _), bind_Ret, (Hs 1%nat Hb : sack_range_at _ 1 = _), bind_Ret,
      (Hs 2%nat Hb : sack_range_at _ 2 = _), bind_Ret.
    destruct r as [[[?|] [?|]] [?|]]; done.
  - destruct Ho as [Hv Hw]. pose proof (option_parse_kind field.OPT_TSTAMP (be_bytes 4 v ++ be_bytes 4 w) s) as E.
    rewrite Zlen_app, !Zlen_be_bytes in E. change (2 + (Z.of_nat 4 + Z.of_nat 4)) with 10 in E.
    cbn [app] in *. rewrite E by done.
    unfold option_of_kind, field_read. cbn [Z.eqb]. cbn -[be_bytes slice].
    pose proof (slice_mid [] (be_bytes 4 v) (be_bytes 4 w) 0 4 eq_refl eq_refl) as E0. cbn [app] in E0. rewrite E0.
    rewrite bind_Ret, read_u32_exact, bind_Ret by done.
    pose proof (slice_mid (be_bytes 4 v) (be_bytes 4 w) [] 4 8 eq_refl eq_refl) as E1. rewrite app_nil_r in E1. rewrite E1.
    by rewrite bind_Ret, read_u32_exact.
  - destruct Ho as (Hk & Hd & Hl & Hu). unfold field.OPT_TSTAMP in *.
    pose proof (option_parse_kind k data s) as E. cbn [app] in *. pose proof (Zlen_nonneg data).
    rewrite E by (unfold field.OPT_END, field.OPT_NOP; lia). unfold option_of_kind.
    unfold field.OPT_MSS, field.OPT_WS, field.OPT_SACKPERM, field.OPT_SACKRNG, field.OPT_TSTAMP.
    replace (k =? 2) with false by lia. replace (k =? 3) with false by lia. replace (k =? 4) with false by lia.
    replace (k =? 5) with false by lia. by replace ((k =? 8) && (2 + Zlen data =? 10)) with false by lia.
Qed.

(** *** Parsing arbitrary bytes *)

(** An entry of the array is present exactly when the data reaches behind it. *)
Lemma sack_range_at_wp data i :
  bytes_ok data -> Zlen data mod 8 = 0 -> 0 <= i ->
  wp (sack_range_at data i) (fun o => match o with
    | Some b => block_ok b /\ i * 8 < Zlen data
    | None => Zlen data <= i * 8
    end).
Proof.
  intros Hd Hm Hi. unfold sack_range_at. destr_if; [|cbn [wp]; lia].
  assert (i * 8 + 8 <= Zlen data).
  { pose proof (Z.div_mod (Zlen data) 8). lia. }
  wp_bind_with (field_u32_wp data (i * 8) (i * 8 + 4) Hd); try lia. intros x Hx.
  wp_bind_with (field_u32_wp data (i * 8 + 4) (i * 8 + 4 + 4) Hd); try lia. intros y Hy. cbn [wp].
  split; [done | lia].
Qed.

Lemma option_of_kind_wp kind d :
  in_u8 kind -> kind <> field.OPT_END -> kind <> field.OPT_NOP -> bytes_ok d -> 2 + Zlen d <= u8_max ->
  wp (option_of_kind kind (2 + Zlen d) d) (fun r => match r with Ok o => option_ok o | Err _ => True end).
Proof.
  intros Hk He Hn Hd Hl. pose proof (Zlen_nonneg d).
  unfold option_of_kind, field.OPT_END, field.OPT_NOP in *.
  destruct (Z.eqb_spec kind field.OPT_MSS) as [Ek|Ek].
  { destr_if; [|done]. rewrite read_u16_law, be_read_ok, bind_Ret by lia. cbn [wp option_ok].
    apply be_value_u16; [by apply bytes_ok_take|]. unfold Zlen in *. rewrite length_take. lia. }
  destruct (Z.eqb_spec kind field.OPT_WS) as [Ek1|Ek1].
  { destr_if; [|done]. destruct d as [|v d]; [discriminate Hif|].
    unfold index. cbn. by inversion Hd. }
  destruct (Z.eqb_spec kind field.OPT_SACKPERM) as [Ek2|Ek2]; [by destr_if|].
  destruct (Z.eqb_spec kind field.OPT_SACKRNG) as [Ek3|Ek3].
  { destr_if; [done|]. apply orb_false_iff in Hif as [H10 Hm]. apply negb_false_iff, Z.eqb_eq in Hm.
    replace (2 + Zlen d - 2) with (Zlen d) in Hm by lia.
    wp_bind_with (sack_range_at_wp d 0 Hd Hm); [lia|]. intros [a|] Ha; [|lia].
    wp_bind_with (sack_range_at_wp d 1 Hd Hm); [lia|]. intros b Hb.
    wp_bind_with (sack_range_at_wp d 2 Hd Hm); [lia|]. intros c Hc. cbn [wp option_ok].
    destruct b as [b|], c as [c|]; try lia; (split; [|done]);
      repeat (constructor; [by apply Ha || by apply Hb || by apply Hc|]); constructor. }
  destr_if.
  - apply andb_true_iff in Hif as [Ht Hl10].
    wp_bind_with (field_u32_wp d 0 4 Hd); try lia. intros x Hx.
    wp_bind_with (field_u32_wp d 4 8 Hd); try lia. intros y Hy. done.
  - cbn [wp option_ok]. unfold field.OPT_MSS, field.OPT_WS, field.OPT_SACKPERM, field.OPT_SACKRNG, field.OPT_TSTAMP in *.
    split; [done|]. split; [done|]. split; [done|]. mlia.
Qed.

(** Parsing never panics; an option has values in range and takes bytes off the buffer. *)
Lemma option_parse_wp buffer :
  bytes_ok buffer ->
  wp (option_parse buffer) (fun r => match r with
    | Ok (rest, o) => option_ok o /\ bytes_ok rest /\ (length rest < length buffer)%nat
    | Err _ => True
    end).
Proof.
  intros Hb. destruct buffer as [|kind tail]; [done|]. apply bytes_ok_cons in Hb as [Hk Ht].
  destruct (Z.eq_dec kind field.OPT_END) as [->|He].
  { pose proof (option_parse_ok EndOfList tail I) as E. cbn [opt_bytes app] in E. rewrite E. cbn. split; [done|]. split; [done|lia]. }
  destruct (Z.eq_dec kind field.OPT_NOP) as [->|Hn].
  { pose proof (option_parse_ok NoOperation tail I) as E. cbn [opt_bytes app] in E. rewrite E. cbn. split; [done|]. split; [done|lia]. }
  destruct tail as [|n tail].
  { unfold option_parse. replace (kind =? field.OPT_END) with false by lia.
    by replace (kind =? field.OPT_NOP) with false by lia. }
  apply bytes_ok_cons in Ht as [Hn' Ht].
  destruct (get_range (kind :: n :: tail) 2 n) as [d|] eqn:Eg.
  - unfold get_range in Eg. destruct ((2 <=? n) && (n <=? _)) eqn:Ec; [|discriminate].
    rewrite !Zlen_cons in Ec.
    destruct (Zlen_split_at tail (n - 2)) as (d' & s & -> & Hd'); [lia|].
    apply bytes_ok_app in Ht as [Hbd Hbs]. replace n with (2 + Zlen d') in * by lia.
    rewrite (option_parse_kind kind d' s) by done. unfold try_bind.
    wp_bind_with (option_of_kind_wp kind d' Hk He Hn Hbd); [mlia|].
    intros [o|e] Ho; cbn [wp]; [|done]. split; [done|]. split; [done|].
    cbn [length]. rewrite length_app. lia.
  - unfold option_parse. replace (kind =? field.OPT_END) with false by lia.
    replace (kind =? field.OPT_NOP) with false by lia. by rewrite Eg.
Qed.
End ParseOptions.
