(* ===== verification/TcpWireSpec.v ===== *)
(** * TCP packets on the wire: parsing and emitting (wire/tcp.rs, [Repr::parse], [Repr::emit])

    Parsing is safe on arbitrary bytes and gives a segment in the ranges the socket relies
    on; a segment that is emitted is parsed back, with a checksum that verifies. *)

From S2P Require Import Prelude SeqNumber ByteOrder IpTypes Checksum TcpRepr TcpWire TcpInvariant TcpReplyLemmas TcpWireLemmas.

#[local] Open Scope wire_scope.

(** ** Packets as a header, options and payload *)

Section Packets.
Context `{NetworkEndianLaws}.
Variables src dst seq ack flags win ck urg : Z.
Variables opts pl : list Z.
Hypothesis Hflags : in_u16 flags.
Hypothesis Hlen : Z.shiftr flags 12 * 4 = 20 + Zlen opts.

Abbreviation pkt := (hdr src dst seq ack flags win ck urg (opts ++ pl)) (only parsing).

Lemma options_ok : pkt_options pkt = Ret opts.
Proof using Hflags Hlen H0.
  unfold pkt_options. destruct (header_len_ok src dst seq ack flags win ck urg (opts ++ pl) Hflags) as [-> _].
  rewrite bind_Ret, Hlen. apply slice_mid; [by rewrite Zlen_layout_bytes | done].
Qed.

Lemma payload_ok : pkt_payload pkt = Ret pl.
Proof using Hflags Hlen H0.
  unfold pkt_payload. destruct (header_len_ok src dst seq ack flags win ck urg (opts ++ pl) Hflags) as [-> _].
  rewrite bind_Ret, Hlen. unfold hdr. rewrite app_assoc. apply slice_rest; [|done].
  by rewrite Zlen_app, Zlen_layout_bytes.
Qed.

Lemma check_len_ok : pkt_check_len pkt = Ret (Ok tt).
Proof using Hflags Hlen H0.
  unfold pkt_check_len. rewrite Zlen_hdr, Zlen_app. pose proof (Zlen_nonneg opts). pose proof (Zlen_nonneg pl).
  unfold field.URGENT_end. replace (20 + (Zlen opts + Zlen pl) <? 20) with false by lia.
  destruct (header_len_ok src dst seq ack flags win ck urg (opts ++ pl) Hflags) as [-> _].
  rewrite bind_Ret, Hlen. by replace ((20 + (Zlen opts + Zlen pl) <? 20 + Zlen opts) || (20 + Zlen opts <? 20)) with false by lia.
Qed.

(** The options are replaced by what [f] leaves, the payload is overwritten. *)
Lemma options_mut_ok f opts' :
  f opts = Ret opts' -> length opts' = length opts ->
  pkt_options_mut pkt f = Ret (hdr src dst seq ack flags win ck urg (opts' ++ pl)).
Proof using Hflags Hlen H0.
  intros Hf Hl. unfold pkt_options_mut.
  destruct (header_len_ok src dst seq ack flags win ck urg (opts ++ pl) Hflags) as [-> _].
  rewrite bind_Ret, Hlen. apply slice_mut_mid; [by rewrite Zlen_layout_bytes | done | done | done].
Qed.

Lemma payload_mut_ok f pl' :
  f pl = Ret pl' -> length pl' = length pl ->
  pkt_payload_mut pkt f = Ret (hdr src dst seq ack flags win ck urg (opts ++ pl')).
Proof using Hflags Hlen H0.
  intros Hf Hl. unfold pkt_payload_mut.
  destruct (header_len_ok src dst seq ack flags win ck urg (opts ++ pl) Hflags) as [-> _].
  rewrite bind_Ret, Hlen. unfold hdr. rewrite !app_assoc.
  set (p := layout_bytes _ ++ opts). assert (Hp : Zlen p = 20 + Zlen opts) by (unfold p; by rewrite Zlen_app, Zlen_layout_bytes).
  pose proof (slice_mut_mid p pl pl' [] (20 + Zlen opts) (Zlen (p ++ pl)) f) as E. rewrite !app_nil_r in E.
  apply E; [done | rewrite Zlen_app; lia | done | done].
Qed.
End Packets.

(** ** Parsing arbitrary bytes *)

Definition parsed_options_ok (p : ParsedOptions) : Prop :=
  opt_prop in_u16 (po_max_seg_size p) /\ opt_prop (fun n => 0 <= n <= 14) (po_window_scale p) /\
  Forall block_ok (sack_blocks (po_sack_ranges p)) /\
  opt_prop (fun t => in_u32 (tsval t) /\ in_u32 (tsecr t)) (po_timestamp p).

Section Parse.
Context `{NetworkEndianLaws}.

Lemma parse_option_ok p o : parsed_options_ok p -> option_ok o -> parsed_options_ok (parse_option p o).
Proof.
  intros (Hm & Hw & Hs & Ht) Ho. destruct p as [m w sp sr t]; cbn in *.
  destruct o as [| |v|v| |r|v u|k d]; cbn [parse_option option_ok] in *; try done; split_and!; try done.
  - cbn. destr_if; mlia.
  - cbn. apply Ho.
Qed.

Lemma parse_options_wp fuel p options :
  (length options <= fuel)%nat -> bytes_ok options -> parsed_options_ok p ->
  wp (parse_options fuel p options) (fun r => match r with Ok p' => parsed_options_ok p' | Err _ => True end).
Proof.
  revert p options. induction fuel as [|fuel IH]; intros p options Hf Hb Hp.
  { destruct options; [done | cbn in Hf; lia]. }
  cbn [parse_options]. destruct options as [|b options]; [done|]. unfold try_bind.
  wp_bind_with (option_parse_wp (b :: options) Hb). intros [[rest o]|e] Ho; [|done].
  destruct Ho as (Ho & Hr & Hl). assert (Hl' : (length rest <= fuel)%nat) by lia.
  pose proof (IH (parse_option p o) rest Hl' Hr (parse_option_ok p o Hp Ho)) as Hgo.
  destruct o; done.
Qed.

(** What [check_len] accepts. *)
Lemma check_len_wp bs :
  bytes_ok bs ->
  wp (pkt_check_len bs) (fun r => match r with
    | Ok _ => exists src dst seq ack flags win ck urg opts pl,
        bs = hdr src dst seq ack flags win ck urg (opts ++ pl) /\ bytes_ok (opts ++ pl) /\
        in_u16 src /\ in_u16 dst /\ in_u32 seq /\ in_u32 ack /\ in_u16 flags /\ in_u16 win /\ in_u16 ck /\
        in_u16 urg /\ Z.shiftr flags 12 * 4 = 20 + Zlen opts
    | Err _ => True
    end).
Proof.
  intros Hb. unfold pkt_check_len, field.URGENT_end. destruct (Zlen bs <? 20) eqn:E; [done|].
  destruct (hdr_view bs Hb ltac:(lia))
    as (src & dst & seq & ack & flags & win & ck & urg & rest & -> & Hr & H1' & H2' & H3' & H4' & H5' & H6' & H7' & H8').
  destruct (header_len_ok src dst seq ack flags win ck urg rest H5') as [-> Hk].
  rewrite bind_Ret, Zlen_hdr in *. destr_if; [done|]. cbn [wp].
  destruct (Zlen_split_at rest (Z.shiftr flags 12 * 4 - 20)) as (opts & pl & -> & Hl); [lia|].
  do 10 eexists. split; [reflexivity|]. split; [done|]. do 8 (split; [done|]). lia.
Qed.

Lemma verify_checksum_ok bs src dst :
  bytes_ok bs -> Zlen bs <= 131070 -> address_version src = address_version dst -> addr_ok src -> addr_ok dst ->
  exists b, pkt_verify_checksum bs src dst = Ret b.
Proof.
  intros Hb Hl Hv Hs Hd. unfold pkt_verify_checksum.
  destruct (pseudo_header_ok src dst PROTOCOL_TCP (wrap_u 32 (Zlen bs)) Hv Hs Hd) as (p & -> & Hp); [vm_compute; split; discriminate|].
  rewrite bind_Ret, checksum_data_ok, bind_Ret by (done || mlia).
  rewrite checksum_combine_ok, bind_Ret; [eauto | | done].
  constructor; [done|]. constructor; [apply fold16_u16 | constructor].
Qed.

(** [repr_parse] without its checks, on a packet that [check_len] accepts. *)
Definition parse_fields (bs : list Z) : res (result TcpRepr WireError) :=
  syn ← pkt_syn bs;
  fin ← pkt_fin bs;
  rst ← pkt_rst bs;
  psh ← pkt_psh bs;
  control ←? Ret (control_of_flags syn fin rst psh);
  ack ← pkt_ack bs;
  ack_number ← (if (ack : bool) then n ← pkt_ack_number bs; Ret (Some n) else Ret None);
  options ← pkt_options bs;
  p ←? parse_options (length options) no_options options;
  src_port ← pkt_src_port bs;
  dst_port ← pkt_dst_port bs;
  seq_number ← pkt_seq_number bs;
  window_len ← pkt_window_len bs;
  payload ← pkt_payload bs;
  Ret (Ok (mkTcpRepr src_port dst_port control seq_number ack_number window_len (po_window_scale p)
             (po_max_seg_size p) (po_sack_permitted p) (po_sack_ranges p) (po_timestamp p) payload)).

Lemma repr_parse_checks bs src dst caps :
  repr_parse bs src dst caps = try_bind (parse_checks bs src dst caps) (fun _ => parse_fields bs).
Proof. reflexivity. Qed.

(** The fields of a packet as the segment they are parsed to. *)
Lemma parse_fields_ok src dst seq ack flags win ck urg opts pl :
  in_u16 src -> in_u16 dst -> in_u16 flags -> in_u16 win -> Z.shiftr flags 12 * 4 = 20 + Zlen opts ->
  parse_fields (hdr src dst seq ack flags win ck urg (opts ++ pl)) =
  (control ←? Ret (control_of_flags (flag_set flags field.FLG_SYN) (flag_set flags field.FLG_FIN)
                     (flag_set flags field.FLG_RST) (flag_set flags field.FLG_PSH));
   p ←? parse_options (length opts) no_options opts;
   Ret (Ok (mkTcpRepr src dst control (seq_wrap seq)
              (if flag_set flags field.FLG_ACK then Some (seq_wrap ack) else None) win
              (po_window_scale p) (po_max_seg_size p) (po_sack_permitted p) (po_sack_ranges p) (po_timestamp p) pl))).
Proof.
  intros Hs Hd Hf Hw Hl. unfold parse_fields, pkt_syn, pkt_fin, pkt_rst, pkt_psh, pkt_ack.
  rewrite !flag_ok, !bind_Ret by done. unfold try_bind. rewrite !bind_Ret.
  destruct (control_of_flags _ _ _ _) as [c|e]; [|done]. rewrite ?bind_Ret.
  set (h := hdr _ _ _ _ _ _ _ _ _).
  assert (E : (if flag_set flags field.FLG_ACK then n ← pkt_ack_number h; Ret (Some n) else Ret None) =
              Ret (if flag_set flags field.FLG_ACK then Some (seq_wrap ack) else None)).
  { unfold h. rewrite ack_number_ok, bind_Ret. by destr_if. }
  rewrite E, bind_Ret. unfold h. rewrite options_ok, bind_Ret by done.
  destruct (parse_options _ _ _) as [[p|e]|]; [|done|done].
  rewrite bind_Ret, src_port_ok, bind_Ret, dst_port_ok, bind_Ret, seq_number_ok, bind_Ret, window_len_ok, bind_Ret,
    payload_ok, bind_Ret by done.
  done.
Qed.

Lemma seq_wrap_i32 x : in_i32 (seq_wrap x).
Proof. destruct (seq_wrap_spec x) as [_ ?]. mlia. Qed.

(** A parsed segment is in the ranges the socket relies on, and has ports. *)
Definition parsed_ok (r : TcpRepr) : Prop :=
  repr_ok r /\ 0 < src_port r <= u16_max /\ 0 < dst_port r <= u16_max /\ bytes_ok (payload r) /\
  Forall block_ok (sack_blocks (sack_ranges r)).

Lemma parse_checks_wp bs src dst caps :
  bytes_ok bs -> Zlen bs <= 131070 -> address_version src = address_version dst -> addr_ok src -> addr_ok dst ->
  wp (parse_checks bs src dst caps) (fun r => match r with
    | Ok _ => exists s d seq ack flags win ck urg opts pl,
        bs = hdr s d seq ack flags win ck urg (opts ++ pl) /\ bytes_ok (opts ++ pl) /\
        0 < s <= u16_max /\ 0 < d <= u16_max /\ in_u16 flags /\ in_u16 win /\ Z.shiftr flags 12 * 4 = 20 + Zlen opts
    | Err _ => True
    end).
Proof.
  intros Hb Hl Hv Hs Hd. unfold parse_checks, try_bind. wp_bind_with (check_len_wp bs Hb).
  intros [[]|e]; [|done].
  intros (s & d & seq & ack & flags & win & ck & urg & opts & pl & -> & Hr & H1' & H2' & H3' & H4' & H5' & H6' & H7' & H8' & Hk).
  rewrite src_port_ok, bind_Ret by done. destr_if; [done|].
  rewrite dst_port_ok, bind_Ret by done. destr_if; [done|].
  assert (Hok : exists s' d' seq' ack' flags' win' ck' urg' opts' pl',
    hdr s d seq ack flags win ck urg (opts ++ pl) = hdr s' d' seq' ack' flags' win' ck' urg' (opts' ++ pl') /\
    bytes_ok (opts' ++ pl') /\ 0 < s' <= u16_max /\ 0 < d' <= u16_max /\ in_u16 flags' /\ in_u16 win' /\
    Z.shiftr flags' 12 * 4 = 20 + Zlen opts').
  { do 10 eexists. split; [reflexivity|]. split; [done|]. split; [mlia|]. split; [mlia|]. done. }
  destr_if; [|done]. destruct (verify_checksum_ok _ src dst Hb Hl Hv Hs Hd) as [b ->]. rewrite bind_Ret.
  by destruct b.
Qed.

Lemma repr_parse_ok bs src dst caps :
  bytes_ok bs -> Zlen bs <= 131070 -> address_version src = address_version dst -> addr_ok src -> addr_ok dst ->
  wp (repr_parse bs src dst caps) (fun r => match r with Ok r => parsed_ok r | Err _ => True end).
Proof.
  intros Hb Hl Hv Hs Hd. rewrite repr_parse_checks. unfold try_bind at 1.
  wp_bind_with (parse_checks_wp bs src dst caps Hb Hl Hv Hs Hd). intros [[]|e]; [|done].
  intros (s & d & seq & ack & flags & win & ck & urg & opts & pl & -> & Hr & H1' & H2' & H3' & H4' & Hk).
  rewrite parse_fields_ok by (done || mlia). unfold try_bind. rewrite bind_Ret.
  destruct (control_of_flags _ _ _ _) as [c|e]; [|done]. apply bytes_ok_app in Hr as [Ho Hp].
  wp_bind_with (parse_options_wp (length opts) no_options opts); [done | done | |].
  { split; [done|]. split; [done|]. split; [constructor | done]. }
  intros [p|e]; [|done]. intros (Hm & Hw & Hsr & Ht). cbn [wp]. unfold parsed_ok, repr_ok. cbn.
  rewrite Zlen_hdr, Zlen_app in Hl. pose proof (Zlen_nonneg opts).
  split; [|do 3 (split; [done|]); done]. split; [apply seq_wrap_i32|]. split; [by destr_if; [apply seq_wrap_i32|]|].
  split; [done|]. split; [done|]. split; [done|]. lia.
Qed.
End Parse.

(** ** Emitting *)

Definition obytes (o : option TcpOption) : list Z := from_option opt_bytes [] o.
Definition olen (o : option TcpOption) : Z := from_option option_buffer_len 0 o.

(** The options a segment carries, in their order. *)
Definition options_of (r : TcpRepr) : list TcpOption :=
  omap id [option_map MaxSegmentSize (max_seg_size r); option_map WindowScale (window_scale r);
           sack_option r; option_map timestamp_option (repr_timestamp r)].

Definition options_bytes (r : TcpRepr) : list Z := options_of r ≫= opt_bytes.

Definition sack_shape (s : SackRanges) : Prop :=
  match s with
  | (None, None, None) | (Some _, None, None) | (Some _, Some _, None) | (Some _, Some _, Some _) => True
  | _ => False
  end.

(** A segment whose values fit their fields and whose options fit the header. *)
Record emit_ok (r : TcpRepr) : Prop := {
  eo_src : in_u16 (src_port r);
  eo_dst : in_u16 (dst_port r);
  eo_seq : in_i32 (seq_number r);
  eo_ack : opt_prop in_i32 (ack_number r);
  eo_win : in_u16 (window_len r);
  eo_scale : opt_prop in_u8 (window_scale r);
  eo_mss : opt_prop in_u16 (max_seg_size r);
  eo_blocks : Forall block_ok (sack_blocks (sack_ranges r));
  eo_shape : sack_shape (sack_ranges r);
  eo_ts : opt_prop (fun t => in_u32 (tsval t) /\ in_u32 (tsecr t)) (repr_timestamp r);
  eo_header : tcp_header_len r <= 60;
  eo_payload : bytes_ok (payload r) /\ tcp_buffer_len r <= u16_max;
}.

(** An option that [emit] writes in front of the end of the list. *)
Definition emitted_option (o : TcpOption) : Prop :=
  option_ok o /\ match o with EndOfList | UnknownOption _ _ => False | _ => True end.

Section Emit.
Context `{NetworkEndianLaws}.

Lemma emit_at_ok o p tl :
  opt_prop emitted_option o -> olen o <= Zlen tl ->
  emit_at o (p ++ tl, Zlen p) = Ret (p ++ obytes o ++ drop (Z.to_nat (olen o)) tl, Zlen p + olen o).
Proof.
  intros Ho Hl. destruct o as [o|]; cbn [emit_at obytes olen from_option opt_prop] in *.
  2: { by rewrite Z.add_0_r. }
  destruct Ho as [Ho Hn]. pose proof (Zlen_opt_bytes o) as Hlen. pose proof (Zlen_nonneg (opt_bytes o)).
  rewrite slice_rest, bind_Ret by done.
  rewrite <- (take_drop (Z.to_nat (option_buffer_len o)) tl) at 1.
  rewrite option_emit_ok; [| done | by destruct o | by destruct o | unfold Zlen in *; rewrite length_take; lia].
  rewrite bind_Ret. do 2 f_equal. pose proof (splice_mid p tl (opt_bytes o ++ drop (Z.to_nat (option_buffer_len o)) tl) []) as E.
  rewrite !app_nil_r in E. apply E. rewrite length_app, length_drop. unfold Zlen in *. lia.
Qed.

(** The same, with the position kept as the length of what was written. *)
Lemma emit_at_step o p tl :
  opt_prop emitted_option o -> olen o <= Zlen tl ->
  exists tl', emit_at o (p ++ tl, Zlen p) = Ret ((p ++ obytes o) ++ tl', Zlen (p ++ obytes o)) /\
    Zlen tl' = Zlen tl - olen o.
Proof.
  intros Ho Hl. exists (drop (Z.to_nat (olen o)) tl).
  assert (Zlen (obytes o) = olen o) as Hb by (destruct o; [apply Zlen_opt_bytes | done]).
  pose proof (Zlen_nonneg (obytes o)). split.
  - rewrite emit_at_ok by done. by rewrite Zlen_app, <- app_assoc, Hb.
  - unfold Zlen in *. rewrite length_drop. lia.
Qed.

Lemma sack_option_ok r : emit_ok r -> opt_prop emitted_option (sack_option r).
Proof.
  intros [? ? ? ? ? ? ? Hb Hs ? ? ?]. unfold sack_option. destr_if; [done|].
  destruct (ack_number r); [|done]. destruct (sack_ranges r) as [[[?|] [?|]] [?|]]; done.
Qed.

Lemma options_of_ok r : emit_ok r -> Forall emitted_option (options_of r).
Proof.
  intros Hr. pose proof (sack_option_ok r Hr) as Hs. destruct Hr as [? ? ? ? ? Hw Hm ? ? Ht ? ?].
  assert (E : Forall (opt_prop emitted_option) [option_map MaxSegmentSize (max_seg_size r);
    option_map WindowScale (window_scale r); sack_option r; option_map timestamp_option (repr_timestamp r)]).
  { repeat constructor; try done.
    - by destruct (max_seg_size r).
    - by destruct (window_scale r).
    - by destruct (repr_timestamp r). }
  unfold options_of. induction E as [|o l Ho Hl IH]; [constructor|].
  destruct o; cbn; [by constructor | done].
Qed.

Lemma obytes_options r :
  obytes (option_map MaxSegmentSize (max_seg_size r)) ++ obytes (option_map WindowScale (window_scale r)) ++
  obytes (sack_option r) ++ obytes (option_map timestamp_option (repr_timestamp r)) = options_bytes r.
Proof.
  unfold options_bytes, options_of.
  destruct (option_map MaxSegmentSize _), (option_map WindowScale _), (sack_option r), (option_map timestamp_option _);
    cbn [omap list_omap id obytes from_option app]; rewrite ?bind_cons, ?bind_nil, ?app_nil_r; done.
Qed.

Lemma Zlen_obytes o : Zlen (obytes o) = olen o.
Proof. destruct o; [apply Zlen_opt_bytes | done]. Qed.

(** The header of a segment has room for its options. *)
Lemma options_fit r : 20 + Zlen (options_bytes r) <= tcp_header_len r.
Proof.
  rewrite <- obytes_options, !Zlen_app, !Zlen_obytes. unfold tcp_header_len, TCP_HEADER_LEN.
  set (n := if 0 <? sack_range_len _ then _ else _).
  assert (Hn : 20 + olen (option_map MaxSegmentSize (max_seg_size r)) + olen (option_map WindowScale (window_scale r)) +
    olen (sack_option r) + olen (option_map timestamp_option (repr_timestamp r)) <= n).
  { unfold n, sack_option. destruct (max_seg_size r), (window_scale r), (repr_timestamp r), (sack_permitted r), (ack_number r),
      (sack_ranges r) as [[[?|] [?|]] [?|]]; vm_compute; discriminate. }
  clearbody n. pose proof (Z.mod_pos_bound n 4). destr_if; lia.
Qed.

(** The options area: the options, then the end of the list up to the header length. *)
Definition options_area (r : TcpRepr) : list Z :=
  options_bytes r ++ replicate (Z.to_nat (tcp_header_len r - 20 - Zlen (options_bytes r))) 0.

Lemma Zlen_options_area r : Zlen (options_area r) = tcp_header_len r - 20.
Proof.
  unfold options_area. pose proof (options_fit r). rewrite Zlen_app. unfold Zlen at 2.
  rewrite length_replicate. lia.
Qed.

Lemma emit_options_ok r opts :
  emit_ok r -> Zlen opts = tcp_header_len r - 20 -> emit_options r opts = Ret (options_area r).
Proof.
  intros Hr Hl. pose proof (options_fit r) as Hfit. pose proof (sack_option_ok r Hr) as Hsack.
  destruct Hr as [? ? ? ? ? Hw Hm ? ? Ht ? ?].
  rewrite <- obytes_options, !Zlen_app, !Zlen_obytes in Hfit.
  assert (Hpos : forall o, 0 <= olen o) by (intros o; rewrite <- Zlen_obytes; apply Zlen_nonneg).
  set (o1 := option_map MaxSegmentSize (max_seg_size r)) in *. set (o2 := option_map WindowScale (window_scale r)) in *.
  set (o3 := sack_option r) in *. set (o4 := option_map timestamp_option (repr_timestamp r)) in *.
  assert (H1' : opt_prop emitted_option o1) by (unfold o1; by destruct (max_seg_size r)).
  assert (H2' : opt_prop emitted_option o2) by (unfold o2; by destruct (window_scale r)).
  assert (H4' : opt_prop emitted_option o4) by (unfold o4; by destruct (repr_timestamp r)).
  pose proof (Hpos o1). pose proof (Hpos o2). pose proof (Hpos o3). pose proof (Hpos o4).
  destruct (emit_at_step o1 [] opts H1') as (t1 & E1 & Hl1); [lia|].
  destruct (emit_at_step o2 ([] ++ obytes o1) t1 H2') as (t2 & E2 & Hl2); [lia|].
  destruct (emit_at_step o3 (([] ++ obytes o1) ++ obytes o2) t2 Hsack) as (t3 & E3 & Hl3); [lia|].
  destruct (emit_at_step o4 ((([] ++ obytes o1) ++ obytes o2) ++ obytes o3) t3 H4') as (tl & E4 & Hl4); [lia|].
  unfold emit_options. fold o1 o2 o3 o4. cbn [app] in *. change (Zlen []) with 0 in E1.
  rewrite E1, bind_Ret, E2, bind_Ret, E3, bind_Ret, E4, bind_Ret. clear E1 E2 E3 E4.
  replace (((obytes o1 ++ obytes o2) ++ obytes o3) ++ obytes o4) with (options_bytes r)
    by (by rewrite <- obytes_options, <- !app_assoc).
  assert (Htl : Zlen tl = tcp_header_len r - 20 - Zlen (options_bytes r)).
  { rewrite <- obytes_options, !Zlen_app, !Zlen_obytes. fold o1 o2 o3 o4. lia. }
  rewrite slice_rest, bind_Ret by done.
  unfold options_area. rewrite <- Htl. replace (Z.to_nat (Zlen tl)) with (length tl) by (unfold Zlen; lia).
  destruct (Zlen tl =? 0) eqn:E.
  - apply Z.eqb_eq, Zlen_nil_inv in E. by subst tl.
  - cbn [emit_at]. rewrite slice_rest, bind_Ret by done. rewrite end_of_list_emit_ok, !bind_Ret by (pose proof (Zlen_nonneg tl); lia).
    pose proof (splice_mid (options_bytes r) tl (replicate (length tl) 0) []) as Es. rewrite !app_nil_r in Es.
    rewrite Es by apply length_replicate. done.
Qed.
End Emit.

(** *** The fixed header *)

Definition has_ack (r : TcpRepr) : bool := if ack_number r is Some _ then true else false.

(** Bytes that are listed one by one. *)
Ltac byte_list :=
  unfold field.OPT_END, field.OPT_NOP, field.OPT_MSS, field.OPT_WS, field.OPT_SACKPERM, field.OPT_SACKRNG,
    field.OPT_TSTAMP; repeat (constructor; [mlia|]); constructor.

Section EmitHeader.
Context `{NetworkEndianLaws}.

Lemma set_flag_ok mask (v : bool) s d q a f w c u rest :
  in_u16 f -> in_u16 (if v then Z.lor f mask else Z.land f (Z.lxor 0xffff mask)) ->
  pkt_set_flag mask (hdr s d q a f w c u rest) v =
  Ret (hdr s d q a (if v then Z.lor f mask else Z.land f (Z.lxor 0xffff mask)) w c u rest).
Proof.
  intros Hf Hv. unfold pkt_set_flag. rewrite flags_ok, bind_Ret by done. by apply set_flags_ok.
Qed.

Lemma ctl_bit_u16 c : in_u16 (ctl_bit c).
Proof. destruct c; vm_compute; split; discriminate. Qed.

Lemma emit_control_ok ctl s d q a f w c u rest :
  in_u16 f ->
  emit_control ctl (hdr s d q a f w c u rest) = Ret (hdr s d q a (Z.lor f (ctl_bit ctl)) w c u rest).
Proof.
  intros Hf. pose proof (in_u16_lor f (ctl_bit ctl) Hf (ctl_bit_u16 ctl)) as Hl.
  destruct ctl; cbn [emit_control ctl_bit] in *; [by rewrite Z.lor_0_r | | | |];
    unfold pkt_set_psh, pkt_set_syn, pkt_set_fin, pkt_set_rst; by rewrite set_flag_ok.
Qed.

Lemma emit_header_ok r s d q a f w c u rest k :
  emit_ok r -> in_u16 f -> tcp_header_len r = 4 * k -> 5 <= k <= 15 ->
  emit_header r (hdr s d q a f w c u rest) =
  Ret (hdr (src_port r) (dst_port r) (seq_number r) (default 0 (ack_number r))
         (flags_word k (control r) (has_ack r)) (window_len r) c u rest).
Proof.
  intros Hr Hf Hk Hk'. destruct Hr as [Hsp Hdp Hsq Ha Hw _ _ _ _ _ _ _]. unfold emit_header.
  rewrite set_src_port_ok, bind_Ret, set_dst_port_ok, bind_Ret, set_seq_number_ok, bind_Ret by done.
  rewrite set_ack_number_ok, bind_Ret, set_window_len_ok, bind_Ret
    by (done || (destruct (ack_number r); [done | cbn; mlia])).
  unfold pkt_set_header_len. rewrite flags_ok, bind_Ret by done. rewrite Hk, (wrap_u_id 8 (4 * k)) by lia.
  set (f1 := Z.lor _ _). assert (Hf1 : in_u16 f1).
  { apply in_u16_lor; [by apply in_u16_land_l|]. pose proof (wrap_u_range 16 (Z.shiftl (4 * k / 4) 12) ltac:(lia)). mlia. }
  rewrite set_flags_ok, bind_Ret by done. unfold pkt_clear_flags. rewrite flags_ok, bind_Ret by done.
  unfold f1. rewrite clear_flags_word by done. clear f1 Hf1.
  destruct (flags_word_ok k CtlNone false Hk') as [Hf1 _]. rewrite set_flags_ok, bind_Ret by done.
  rewrite emit_control_ok, bind_Ret by done. unfold pkt_set_ack.
  pose proof (set_control_word k (control r) (has_ack r) Hk') as E.
  destruct (flags_word_ok k (control r) (has_ack r) Hk') as [Hf2 _].
  fold (has_ack r). rewrite set_flag_ok.
  - by rewrite E.
  - apply in_u16_lor; [done | apply ctl_bit_u16].
  - by rewrite E.
Qed.

(** *** The checksum *)

(** The checksum field adds its value to the sum of the words. *)
Lemma word_sum_hdr s d q a f w c u rest :
  in_u16 c -> word_sum (hdr s d q a f w c u rest) = c + word_sum (hdr s d q a f w 0 u rest).
Proof.
  intros Hc. unfold hdr.
  assert (E : forall c', layout_bytes (hdr_layout s d q a f w c' u) ++ rest =
    layout_bytes [(2%nat, s); (2%nat, d); (4%nat, q); (4%nat, a); (2%nat, f); (2%nat, w)] ++
    be_bytes 2 c' ++ layout_bytes [(2%nat, u)] ++ rest).
  { intros c'. apply (layout_split [(2%nat, s); (2%nat, d); (4%nat, q); (4%nat, a); (2%nat, f); (2%nat, w)]). }
  rewrite !E. apply word_sum_field; [by exists 8%nat | done].
Qed.

Lemma fill_checksum_ok s d q a f w c u rest src dst :
  bytes_ok rest -> 20 + Zlen rest <= u16_max ->
  address_version src = address_version dst -> addr_ok src -> addr_ok dst ->
  exists ck, pkt_fill_checksum (hdr s d q a f w c u rest) src dst = Ret (hdr s d q a f w ck u rest) /\
    in_u16 ck /\ pkt_verify_checksum (hdr s d q a f w ck u rest) src dst = Ret true.
Proof.
  intros Hb Hl Hv Hs Hd. unfold pkt_fill_checksum, pkt_verify_checksum.
  rewrite set_checksum_ok, bind_Ret by mlia. rewrite !Zlen_hdr.
  destruct (pseudo_header_ok src dst PROTOCOL_TCP (wrap_u 32 (20 + Zlen rest)) Hv Hs Hd) as (p & Ep & Hp);
    [vm_compute; split; discriminate|]. rewrite Ep.
  assert (Hdata : forall ck, checksum_data (hdr s d q a f w ck u rest) = Ret (fold16 (word_sum (hdr s d q a f w ck u rest)))).
  { intros ck. apply checksum_data_ok; [by apply hdr_bytes_ok | rewrite Zlen_hdr; mlia]. }
  rewrite bind_Ret, Hdata, bind_Ret.
  assert (Hcomb : forall x, in_u16 x -> checksum_combine [p; x] = Ret (fold16 (p + (x + 0)))).
  { intros x Hx. apply checksum_combine_ok; [|done].
    constructor; [done|]. constructor; [done | constructor]. }
  rewrite Hcomb, bind_Ret by apply fold16_u16. rewrite Z.add_0_r.
  set (w0 := word_sum (hdr s d q a f w 0 u rest)).
  assert (Hw0 : 0 <= w0) by (apply word_sum_bounds; by apply hdr_bytes_ok).
  rewrite fold16_add by mlia. set (x := fold16 (p + w0)).
  pose proof (fold16_range (p + w0)). rewrite u16_not by (unfold x; apply fold16_u16).
  exists (65535 - x). assert (Hck : in_u16 (65535 - x)) by (unfold x; mlia).
  split; [by apply set_checksum_ok|]. split; [done|].
  rewrite Zlen_hdr, Ep, bind_Ret, Hdata, bind_Ret. rewrite Hcomb, bind_Ret by apply fold16_u16. rewrite Z.add_0_r.
  rewrite word_sum_hdr by done. fold w0. rewrite fold16_add by mlia.
  replace (p + (65535 - x + w0)) with (p + w0 + (65535 - fold16 (p + w0))) by (unfold x; lia).
  rewrite fold16_complement by mlia. done.
Qed.

(** *** The whole packet *)

Definition emitted (r : TcpRepr) (ck : Z) : list Z :=
  hdr (src_port r) (dst_port r) (seq_number r) (default 0 (ack_number r))
    (flags_word (tcp_header_len r / 4) (control r) (has_ack r)) (window_len r) ck 0 (options_area r ++ payload r).

Lemma header_words r : emit_ok r -> exists k, tcp_header_len r = 4 * k /\ 5 <= k <= 15 /\ tcp_header_len r / 4 = k.
Proof.
  intros Hr. destruct (tcp_header_len_bounds r) as [Hb Hm]. pose proof (eo_header r Hr).
  exists (tcp_header_len r / 4). pose proof (Z.div_mod (tcp_header_len r) 4). unfold TCP_HEADER_LEN in *. lia.
Qed.

Lemma blocks_bytes_ok bs : bytes_ok (blocks_bytes bs).
Proof.
  unfold blocks_bytes. induction bs as [|b bs IH]; [constructor|]. rewrite bind_cons.
  apply bytes_ok_app. split; [apply bytes_ok_app; split; apply be_bytes_ok | exact IH].
Qed.

Lemma opt_bytes_ok o : option_ok o -> bytes_ok (opt_bytes o).
Proof.
  intros Ho. destruct o as [| |v|v| |s|v x|k data]; cbn [opt_bytes option_ok] in *.
  - byte_list.
  - byte_list.
  - apply bytes_ok_app. split; [byte_list | apply be_bytes_ok].
  - byte_list.
  - byte_list.
  - pose proof (sack_blocks_len s). apply bytes_ok_app. split; [byte_list | apply blocks_bytes_ok].
  - apply bytes_ok_app. split; [byte_list|]. apply bytes_ok_app. split; apply be_bytes_ok.
  - destruct Ho as (? & ? & ? & _). pose proof (Zlen_nonneg data). apply bytes_ok_app. split; [byte_list | done].
Qed.

Lemma options_area_bytes r : emit_ok r -> bytes_ok (options_area r).
Proof.
  intros Hr. apply bytes_ok_app. split.
  - unfold options_bytes. pose proof (options_of_ok r Hr) as Ho.
    induction Ho as [|o l [Ho _] Hl IH]; [constructor|]. rewrite bind_cons. apply bytes_ok_app.
    split; [by apply opt_bytes_ok | exact IH].
  - apply Forall_replicate. mlia.
Qed.
End EmitHeader.

(** ** Emitting and parsing *)

Section RoundTrip.
Context `{NetworkEndianLaws}.

(** Emitting fills a buffer of the right length; the checksum verifies. *)
Lemma repr_emit_ok r buffer src dst caps :
  emit_ok r -> bytes_ok buffer -> Zlen buffer = tcp_buffer_len r ->
  address_version src = address_version dst -> addr_ok src -> addr_ok dst ->
  exists ck, repr_emit r buffer src dst caps = Ret (emitted r ck) /\ in_u16 ck /\
    (checksum_tx (caps_tcp caps) = true -> pkt_verify_checksum (emitted r ck) src dst = Ret true).
Proof.
  intros Hr Hb Hl Hv Hs Hd. destruct (header_words r Hr) as (k & Hk & Hk5 & Ek).
  destruct (eo_payload r Hr) as [Hpl Hlen]. unfold tcp_buffer_len in *. pose proof (Zlen_nonneg (payload r)).
  destruct (hdr_view buffer Hb ltac:(lia))
    as (s & d & q & a & f & w & c & u & rest & -> & Hrest & _ & _ & _ & _ & Hf & _ & Hc & _).
  rewrite Zlen_hdr in Hl. unfold repr_emit.
  rewrite (emit_header_ok r s d q a f w c u rest k), bind_Ret by done.
  destruct (flags_word_ok k (control r) (has_ack r) Hk5) as (Hfw & Hsh & _).
  set (fw := flags_word k (control r) (has_ack r)) in *.
  destruct (Zlen_split_at rest (tcp_header_len r - 20)) as (opts & pl & -> & Ho); [lia|].
  rewrite Zlen_app in Hl. assert (Hflen : Z.shiftr fw 12 * 4 = 20 + Zlen opts) by lia.
  pose proof (Zlen_options_area r) as Hoa.
  rewrite (options_mut_ok _ _ _ _ _ _ _ _ opts pl Hfw Hflen _ (options_area r)), bind_Ret;
    [| by apply emit_options_ok | unfold Zlen in *; lia].
  rewrite set_urgent_at_ok, bind_Ret by mlia.
  assert (Hflen' : Z.shiftr fw 12 * 4 = 20 + Zlen (options_area r)) by lia.
  rewrite (payload_mut_ok _ _ _ _ _ _ _ _ (options_area r) pl Hfw Hflen' _ (payload r)), bind_Ret.
  - unfold emitted. rewrite Ek. fold fw.
    assert (Hor : bytes_ok (options_area r ++ payload r)).
    { apply bytes_ok_app. split; [by apply options_area_bytes | done]. }
    destr_if.
    + edestruct (fill_checksum_ok (src_port r) (dst_port r) (seq_number r) (default 0 (ack_number r)) fw (window_len r) c 0
        (options_area r ++ payload r) src dst) as (ck & E & Hck & Hver); try done; [rewrite Zlen_app; lia|].
      exists ck. split; [exact E|]. split; [exact Hck | by intros _].
    + exists 0. split; [by apply set_checksum_ok; mlia|]. split; [mlia | discriminate].
  - assert (Hpl' : Zlen pl = Zlen (payload r)) by lia.
    pose proof (slice_mut_mid [] pl (payload r) [] 0 (Zlen (payload r))
      (fun d => if Zlen d =? Zlen (payload r) then Ret (payload r) else Panic)) as E.
    rewrite !app_nil_r in E. apply E; [done | lia | by rewrite Hpl', Z.eqb_refl | unfold Zlen in *; lia].
  - unfold Zlen in *. lia.
Qed.

(** The loop over emitted options assigns each of them. *)
Lemma parse_options_emitted l n fuel p :
  Forall emitted_option l -> (length ((l ≫= opt_bytes) ++ replicate n 0%Z) <= fuel)%nat ->
  parse_options fuel p ((l ≫= opt_bytes) ++ replicate n 0) = Ret (Ok (foldl parse_option p l)).
Proof.
  intros Hl. revert fuel p. induction Hl as [|o l [Ho He] Hl IH]; intros fuel p Hf.
  - cbn [app mbind list_bind] in *. destruct n as [|n]; [by destruct fuel|].
    cbn [replicate] in *. destruct fuel as [|fuel]; [cbn in Hf; lia|]. cbn [parse_options].
    pose proof (option_parse_ok EndOfList (replicate n 0) I) as E. cbn [opt_bytes app] in E. unfold field.OPT_END in E. by rewrite E.
  - rewrite bind_cons, <- app_assoc in *. pose proof (Zlen_opt_bytes o) as Hlo.
    assert (Hpos : 1 <= option_buffer_len o).
    { destruct o; try done; cbn [option_buffer_len]; unfold Zlen; lia. }
    destruct (opt_bytes o) as [|b bs] eqn:Eb; [change (0 = option_buffer_len o) in Hlo; lia|]. rewrite <- Eb in *.
    destruct fuel as [|fuel]; [rewrite length_app in Hf; unfold Zlen in Hlo; lia|].
    assert (E : parse_options (S fuel) p (opt_bytes o ++ (l ≫= opt_bytes) ++ replicate n 0) =
      parse_options fuel (parse_option p o) ((l ≫= opt_bytes) ++ replicate n 0)).
    { cbn [parse_options]. rewrite option_parse_ok by done. rewrite Eb at 1. cbn [app].
      unfold try_bind. rewrite bind_Ret. by destruct o. }
    rewrite E. apply IH. rewrite length_app in Hf. unfold Zlen in Hlo. lia.
Qed.

(** What parsing makes of a segment: the window scale is limited to 14, and SACK blocks are
    carried by acknowledgements that do not have the SACK-permitted option. *)
Definition reparsed (r : TcpRepr) : TcpRepr :=
  mkTcpRepr (src_port r) (dst_port r) (control r) (seq_number r) (ack_number r) (window_len r)
    (option_map (fun v => if 14 <? v then 14 else v) (window_scale r)) (max_seg_size r) (sack_permitted r)
    (if negb (sack_permitted r) && has_ack r then sack_ranges r else (None, None, None))
    (repr_timestamp r) (payload r).

Lemma fold_options r :
  foldl parse_option no_options (options_of r) =
  mkParsedOptions (max_seg_size r) (option_map (fun v => if 14 <? v then 14 else v) (window_scale r))
    (sack_permitted r) (if negb (sack_permitted r) && has_ack r then sack_ranges r else (None, None, None))
    (repr_timestamp r).
Proof.
  unfold options_of, sack_option, has_ack. destruct r as [sp dp c q a w ws mss sp' sr ts pl]. cbn.
  destruct mss, ws, sp', a, sr as [[[?|] [?|]] [?|]], ts as [[? ?]|]; reflexivity.
Qed.

Lemma parse_emitted r ck :
  emit_ok r -> in_u16 ck -> parse_fields (emitted r ck) = Ret (Ok (reparsed r)).
Proof.
  intros Hr Hck. destruct (header_words r Hr) as (k & Hk & Hk5 & Ek). unfold emitted. rewrite Ek.
  destruct (flags_word_ok k (control r) (has_ack r) Hk5) as (Hfw & Hsh & Hack & Hctl).
  pose proof (Zlen_options_area r) as Hoa. pose proof Hr as [Hsp Hdp Hsq Ha Hw _ _ _ _ _ _ _].
  rewrite parse_fields_ok by (done || lia). unfold try_bind. rewrite Hctl, bind_Ret, Hack.
  unfold options_area. unfold options_bytes at 2 3.
  rewrite parse_options_emitted, bind_Ret by (done || by apply options_of_ok).
  rewrite fold_options. unfold reparsed. cbn [po_window_scale po_max_seg_size po_sack_permitted po_sack_ranges po_timestamp].
  rewrite (seq_wrap_id (seq_number r)) by done. unfold has_ack. destruct (ack_number r) as [n|]; [|done].
  cbn [default]. unfold default, id. by rewrite (seq_wrap_id n).
Qed.

Lemma parse_checks_emitted r ck src dst caps :
  emit_ok r -> in_u16 ck -> src_port r <> 0 -> dst_port r <> 0 ->
  (checksum_rx (caps_tcp caps) = true -> pkt_verify_checksum (emitted r ck) src dst = Ret true) ->
  parse_checks (emitted r ck) src dst caps = Ret (Ok tt).
Proof.
  intros Hr Hck Hs0 Hd0 Hver. destruct (header_words r Hr) as (k & Hk & Hk5 & Ek). unfold emitted in *. rewrite Ek in *.
  destruct (flags_word_ok k (control r) (has_ack r) Hk5) as (Hfw & Hsh & _).
  pose proof (Zlen_options_area r) as Hoa. pose proof Hr as [Hsp Hdp _ _ _ _ _ _ _ _ _ _].
  unfold parse_checks, try_bind. rewrite check_len_ok, bind_Ret by (done || lia).
  rewrite src_port_ok, bind_Ret by done. replace (src_port r =? 0) with false by lia.
  rewrite dst_port_ok, bind_Ret by done. replace (dst_port r =? 0) with false by lia.
  destr_if; [|done]. by rewrite Hver, bind_Ret.
Qed.
End RoundTrip.

(** ** Properties *)

(** C28: parsing is safe: whatever bytes arrive, [Repr::parse] does not panic (no accessor, no
    option, no checksum), and a segment it returns has nonzero ports and is in the ranges the
    socket relies on: sequence numbers, window, a window scale of at most 14, the MSS, SACK
    blocks and a payload of bytes. *)
Theorem repr_parse_safe `{NetworkEndianLaws} bs src dst caps :
  bytes_ok bs -> Zlen bs <= 131070 -> address_version src = address_version dst -> addr_ok src -> addr_ok dst ->
  wp (repr_parse bs src dst caps) (fun r => match r with Ok r => parsed_ok r | Err _ => True end).
Proof. apply repr_parse_ok. Qed.

(** C27: a segment that is emitted into a buffer of [buffer_len] bytes, whatever they were, and
    parsed again with the same addresses is the segment itself, except that a window scale
    above 14 is read as 14 and that SACK blocks are not carried by a segment without an
    acknowledgement or with the SACK-permitted option; the checksum verifies. *)
Theorem repr_emit_parse `{NetworkEndianLaws} r buffer src dst caps caps' :
  emit_ok r -> src_port r <> 0 -> dst_port r <> 0 ->
  bytes_ok buffer -> Zlen buffer = tcp_buffer_len r ->
  address_version src = address_version dst -> addr_ok src -> addr_ok dst ->
  (checksum_rx (caps_tcp caps') = true -> checksum_tx (caps_tcp caps) = true) ->
  (bs ← repr_emit r buffer src dst caps; repr_parse bs src dst caps') = Ret (Ok (reparsed r)).
Proof.
  intros Hr Hs0 Hd0 Hb Hl Hv Hs Hd Hcaps.
  destruct (repr_emit_ok r buffer src dst caps Hr Hb Hl Hv Hs Hd) as (ck & -> & Hck & Hver).
  rewrite bind_Ret, repr_parse_checks. unfold try_bind.
  rewrite parse_checks_emitted, bind_Ret by auto. by apply parse_emitted.
Qed.

(** An option is read back from what [emit] wrote, in front of any bytes that follow, and
    the bytes that follow are left. *)
Theorem option_emit_parse `{NetworkEndianLaws} o pre rest :
  option_ok o -> o <> EndOfList -> unknown_last o rest -> Zlen pre = option_buffer_len o ->
  ('(bs, n) ← option_emit o (pre ++ rest); r ← option_parse bs; Ret (n, r)) =
  Ret (option_buffer_len o, Ok (rest, o)).
Proof.
  intros Ho He Hr Hp. rewrite option_emit_ok, bind_Ret by done. by rewrite option_parse_ok, bind_Ret.
Qed.

(** The loop over the options terminates on any bytes: every iteration that does not stop
    consumes at least one, so that as many iterations as there are bytes give a result, an error
    included, and more give the same. *)
Theorem parse_options_terminates `{NetworkEndianLaws} p options :
  bytes_ok options ->
  exists r, forall fuel, (length options <= fuel)%nat -> parse_options fuel p options = Ret r.
Proof.
  remember (length options) as n eqn:En. assert (Hn : (length options <= n)%nat) by lia. rewrite En. clear En.
  revert p options Hn. induction n as [|n IH]; intros p [|b options] Hn Hb; cbn [length] in *; try lia;
    [exists (Ok p); by intros [|fuel]..|].
  destruct (wp_Ret_inv _ _ (option_parse_wp (b :: options) Hb)) as ([[rest o]|e] & E & Ho).
  - destruct Ho as (_ & Hr & Hl). destruct (IH (parse_option p o) rest ltac:(cbn [length] in *; lia) Hr) as (r & Hall).
    exists (if decide (o = EndOfList) then Ok p else r). intros [|fuel] Hf; [lia|].
    cbn [parse_options]. unfold try_bind. rewrite E. ret_step.
    pose proof (Hall fuel ltac:(cbn [length] in *; lia)) as Hfu. by destruct o.
  - exists (Err e). intros [|fuel] Hf; [lia|]. cbn [parse_options]. unfold try_bind. rewrite E. by ret_step.
Qed.

(** *** Concrete instances: the SYN of the source's tests *)

Definition ex_options : list Z := [1; 3; 3; 7; 0].

Lemma parse_options_terminates_witness :
  exists r, forall fuel, (length ex_options <= fuel)%nat -> @parse_options network_endian fuel no_options ex_options = Ret r.
Proof. apply (@parse_options_terminates network_endian network_endian_laws). unfold ex_options. byte_list. Defined.

Definition ex_src : Address := Ipv4 [192; 168; 1; 1].
Definition ex_dst : Address := Ipv4 [192; 168; 1; 2].
Definition ex_caps : ChecksumCapabilities := mkChecksumCapabilities CkBoth CkBoth CkBoth CkBoth CkBoth.

Definition ex_syn_bytes : list Z :=
  [0xbf; 0x00; 0x00; 0x50; 0x01; 0x23; 0x45; 0x67; 0x00; 0x00; 0x00; 0x00; 0x50; 0x02; 0x01;
   0x23; 0x7a; 0x8d; 0x00; 0x00; 0xaa; 0x00; 0x00; 0xff].

Definition ex_repr : TcpRepr :=
  mkTcpRepr 48896 80 CtlSyn 0x01234567 (Some 77) 0x0123 (Some 7) (Some 1460) true (None, None, None)
    (Some (mkTcpTimestampRepr 5000000 7000000)) [0xaa; 0; 0; 0xff].

Lemma ex_addrs_ok : addr_ok ex_src /\ addr_ok ex_dst.
Proof.
  unfold addr_ok, ex_src, ex_dst. cbn [address_octets].
  split; (split; [byte_list | vm_compute; discriminate]).
Qed.

Lemma repr_parse_safe_witness :
  wp (@repr_parse network_endian ex_syn_bytes ex_src ex_dst ex_caps) (fun r =>
    match r with Ok r => parsed_ok r | Err _ => True end).
Proof.
  apply (@repr_parse_safe network_endian network_endian_laws); try apply ex_addrs_ok; try reflexivity.
  unfold ex_syn_bytes. byte_list.
Defined.

Lemma ex_repr_emit_ok : emit_ok ex_repr.
Proof.
  unfold ex_repr. constructor; cbn [src_port dst_port seq_number ack_number window_len window_scale max_seg_size
    sack_ranges repr_timestamp payload opt_prop tsval tsecr sack_shape]; try mlia; try exact I.
  - constructor.
  - vm_compute. discriminate.
  - split; [byte_list | vm_compute; discriminate].
Qed.

Lemma repr_emit_parse_witness :
  (bs ← @repr_emit network_endian ex_repr (replicate 44 0xa5) ex_src ex_dst ex_caps;
   @repr_parse network_endian bs ex_src ex_dst ex_caps) = Ret (Ok (reparsed ex_repr)).
Proof.
  apply (@repr_emit_parse network_endian network_endian_laws); try apply ex_addrs_ok; try reflexivity; try discriminate.
  - exact ex_repr_emit_ok.
  - apply Forall_replicate. mlia.

Defined.

Lemma option_emit_parse_witness :
  ('(bs, n) ← @option_emit network_endian (TimeStamp 5000000 7000000) (replicate 10 0 ++ [1; 2]);
   r ← @option_parse network_endian bs; Ret (n, r)) = Ret (10, Ok ([1; 2], TimeStamp 5000000 7000000)).
Proof.
  apply (@option_emit_parse network_endian network_endian_laws (TimeStamp 5000000 7000000)); try done.
Defined.
