(* ===== verification/IfaceTcp.v ===== *)
(** * Received TCP packets (iface/interface/tcp.rs)

    [process_tcp] parses the payload of an IP packet, hands the segment to the first socket
    that accepts it, and answers a segment that no socket accepts with a reset.  The other
    kinds of sockets of the socket set are passed over. *)

From S2P Require Import Prelude SeqNumber ByteOrder IpTypes Checksum TcpRepr TcpWire TimeModel TcpTimers IfaceContext TcpSocket TcpProcess TcpInvariant TcpReplyLemmas TcpProcessLemmas TcpProcessSpec TcpWireLemmas TcpWireSpec TcpExample.

(** The sockets of the set, in their order. *)
Inductive SocketItem (O : Type) : Type :=
| TcpItem (s : Socket)
| OtherItem (o : O).
Arguments TcpItem {O} s.
Arguments OtherItem {O} o.

Section ProcessTcp.
Context {cfg : BuildConfig} `{NetworkEndian} {O : Type}.
Implicit Types sockets : list (SocketItem O).

(** The loop over the sockets: [None] when none of them accepts the segment. *)
Fixpoint process_sockets (cx : Context) sockets (ip_repr : IpRepr) (repr : TcpRepr)
  : res (Context * list (SocketItem O) * option (option Reply)) :=
  match sockets with
  | [] => Ret (cx, [], None)
  | TcpItem s :: sockets =>
      if accepts s ip_repr repr then
        '(cx, s, r) ← process cx s ip_repr repr; Ret (cx, TcpItem s :: sockets, Some r)
      else
        '(cx, sockets, r) ← process_sockets cx sockets ip_repr repr; Ret (cx, TcpItem s :: sockets, r)
  | OtherItem o :: sockets =>
      '(cx, sockets, r) ← process_sockets cx sockets ip_repr repr; Ret (cx, OtherItem o :: sockets, r)
  end.

(** [caps] is [self.caps.checksum]. *)
Definition process_tcp (caps : ChecksumCapabilities) (cx : Context) sockets (ip_repr : IpRepr) (ip_payload : list Z)
  : res (Context * list (SocketItem O) * option Reply) :=
  let src_addr := ip_src_addr ip_repr in
  let dst_addr := ip_dst_addr ip_repr in
  p ← pkt_new_checked ip_payload;
  match p with
  | Err _ => Ret (cx, sockets, None)
  | Ok tcp_packet =>
      p ← repr_parse tcp_packet src_addr dst_addr caps;
      match p with
      | Err _ => Ret (cx, sockets, None)
      | Ok tcp_repr =>
          '(cx, sockets, r) ← process_sockets cx sockets ip_repr tcp_repr;
          match r with
          | Some r => Ret (cx, sockets, r)
          | None =>
              if control_eqb (control tcp_repr) CtlRst || address_is_unspecified (ip_dst_addr ip_repr) ||
                 address_is_unspecified (ip_src_addr ip_repr)
              then Ret (cx, sockets, None)
              else r ← rst_reply ip_repr tcp_repr; Ret (cx, sockets, Some r)
          end
      end
  end.
End ProcessTcp.

(** ** What the interface promises about a received packet *)

Section Facts.
Context {cfg : BuildConfig} {cfg_ok : BuildConfigOk} `{NetworkEndianLaws} {O : Type}.
Implicit Types sockets : list (SocketItem O).

(** A socket that can receive a segment now. *)
Definition socket_ready (cx : Context) (i : SocketItem O) : Prop :=
  match i with
  | TcpItem s => sk_wf s /\ sack_room s /\ rtte_fresh (sk_rtte s) (cx_now cx)
  | OtherItem _ => True
  end.

Definition item_wf (i : SocketItem O) : Prop := match i with TcpItem s => sk_wf s | OtherItem _ => True end.

Definition item_accepts (ip : IpRepr) (r : TcpRepr) (i : SocketItem O) : bool :=
  match i with TcpItem s => accepts s ip r | OtherItem _ => false end.

(** The effect of a segment: the first socket that accepts it processes it, and all others
    are as they were. *)
Definition delivered (cx : Context) sockets (ip : IpRepr) (r : TcpRepr) (cx' : Context) sockets' (o : option Reply) : Prop :=
  exists before s after s',
    sockets = before ++ TcpItem s :: after /\ sockets' = before ++ TcpItem s' :: after /\
    Forall (fun i => item_accepts ip r i = false) before /\ accepts s ip r = true /\
    process cx s ip r = Ret (cx', s', o).

(** No socket accepts the segment. *)
Definition unclaimed sockets (ip : IpRepr) (r : TcpRepr) : Prop :=
  Forall (fun i => item_accepts ip r i = false) sockets.

Lemma process_sockets_ok cx sockets ip r :
  Forall (socket_ready cx) sockets -> repr_ok r -> time_ok (cx_now cx) ->
  wp (process_sockets cx sockets ip r) (fun '(cx', sockets', o) =>
    Forall item_wf sockets' /\ same_cx cx cx' /\
    match o with
    | Some o => delivered cx sockets ip r cx' sockets' o /\ opt_answers ip r o
    | None => unclaimed sockets ip r /\ sockets' = sockets /\ cx' = cx
    end).
Proof.
  intros Hs Hr Hn. induction Hs as [|i sockets Hi Hs IH]; cbn [process_sockets].
  { cbn [wp]. split; [constructor|]. split; [done|]. split; [constructor | done]. }
  assert (Hwf : item_wf i) by (destruct i; [apply Hi | done]).
  assert (Hrest : item_accepts ip r i = false ->
    wp ('(cx, sockets, o) ← process_sockets cx sockets ip r; Ret (cx, i :: sockets, o)) (fun '(cx', sockets', o) =>
      Forall item_wf sockets' /\ same_cx cx cx' /\
      match o with
      | Some o => delivered cx (i :: sockets) ip r cx' sockets' o /\ opt_answers ip r o
      | None => unclaimed (i :: sockets) ip r /\ sockets' = i :: sockets /\ cx' = cx
      end)).
  { intros Ha. wp_bind_with IH. intros [[cx' sockets'] o] (Hw & Hcx & Ho). cbn [wp]. split; [by constructor|]. split; [done|].
    destruct o as [o|].
    - destruct Ho as [(before & s & after & s' & -> & -> & Hb & Hacc & Hp) Hans]. split; [|done].
      exists (i :: before), s, after, s'. do 2 (split; [done|]). split; [by constructor | done].
    - destruct Ho as (Hu & -> & ->). split; [by constructor | done]. }
  destruct i as [s|o]; [|by apply Hrest]. cbn [item_accepts] in *.
  destruct (accepts s ip r) eqn:Ea; [|by apply Hrest]. destruct Hi as (Hswf & Hsack & Hfresh).
  destruct (wp_Ret_inv _ _ (process_ok cx s ip r ltac:(by constructor))) as ([[cx' s'] o] & E & Hp).
  rewrite E, bind_Ret. cbn [wp]. split.
  - constructor; [apply Hp|]. eapply Forall_impl; [|exact Hs]. intros [?|?]; [by intros [? _] | done].
  - split; [apply Hp|]. split; [|apply Hp]. exists [], s, sockets, s'. split; [done|]. split; [done|]. split; [constructor | done].
Qed.

(** The addresses of an IP header, as [core::net] gives them. *)
Definition ip_addrs_ok (ip : IpRepr) : Prop := addr_ok (ip_src_addr ip) /\ addr_ok (ip_dst_addr ip).

(** What becomes of the segment [r] parsed from a packet. *)
Definition received (cx : Context) sockets (ip : IpRepr) (r : TcpRepr) (cx' : Context) sockets' (o : option Reply) : Prop :=
  opt_answers ip r o /\
  (delivered cx sockets ip r cx' sockets' o \/
   unclaimed sockets ip r /\ sockets' = sockets /\ cx' = cx /\
   if control_eqb (control r) CtlRst || address_is_unspecified (ip_dst_addr ip) || address_is_unspecified (ip_src_addr ip)
   then o = None else opt_prop (is_rst_for ip r) o /\ o <> None).

Definition tcp_outcome caps cx sockets ip bs (cx' : Context) sockets' (o : option Reply) : Prop :=
  match repr_parse bs (ip_src_addr ip) (ip_dst_addr ip) caps with
  | Ret (Ok r) => received cx sockets ip r cx' sockets' o
  | _ => cx' = cx /\ sockets' = sockets /\ o = None
  end.

(** A segment that was parsed is received. *)
Lemma process_parsed_ok cx sockets ip r :
  Forall (socket_ready cx) sockets -> time_ok (cx_now cx) -> repr_ok r ->
  wp ('(cx, sockets, o) ← process_sockets cx sockets ip r;
      match o with
      | Some o => Ret (cx, sockets, o)
      | None =>
          if control_eqb (control r) CtlRst || address_is_unspecified (ip_dst_addr ip) ||
             address_is_unspecified (ip_src_addr ip)
          then Ret (cx, sockets, None)
          else o ← rst_reply ip r; Ret (cx, sockets, Some o)
      end) (fun '(cx', sockets', o) => Forall item_wf sockets' /\ same_cx cx cx' /\ received cx sockets ip r cx' sockets' o).
Proof.
  intros Hs Hn Hr. wp_bind_with (process_sockets_ok cx sockets ip r Hs Hr Hn). intros [[cx' sockets'] o] (Hw & Hcx & Ho).
  destruct o as [o|].
  { destruct Ho as [Hd Ha]. cbn [wp]. split; [done|]. split; [done|]. split; [done | by left]. }
  destruct Ho as (Hu & -> & ->). destr_if.
  - cbn [wp]. split; [done|]. split; [done|]. split; [done|]. right. by rewrite Hif.
  - assert (Hc : control r <> CtlRst) by (intros E; by rewrite E in Hif).
    wp_bind_with (rst_reply_ok ip r Hr Hc). intros p Hp. cbn [wp]. split; [done|]. split; [done|].
    split; [by apply is_rst_answers|]. right. by rewrite Hif.
Qed.

Lemma process_tcp_ok caps cx sockets ip bs :
  Forall (socket_ready cx) sockets -> time_ok (cx_now cx) -> ip_addrs_ok ip -> bytes_ok bs -> Zlen bs <= 131070 ->
  wp (process_tcp caps cx sockets ip bs) (fun '(cx', sockets', o) =>
    Forall item_wf sockets' /\ same_cx cx cx' /\ tcp_outcome caps cx sockets ip bs cx' sockets' o).
Proof.
  intros Hs Hn [Hsrc Hdst] Hb Hl.
  assert (Hwf : Forall item_wf sockets).
  { eapply Forall_impl; [|exact Hs]. intros [?|?]; [by intros [? _] | done]. }
  assert (Hv : address_version (ip_src_addr ip) = address_version (ip_dst_addr ip)).
  { by destruct (ip_repr_versions ip) as [-> ->]. }
  unfold process_tcp, pkt_new_checked, try_bind, tcp_outcome.
  destruct (wp_Ret_inv _ _ (check_len_wp bs Hb)) as (x & Ec & _). rewrite Ec, bind_Ret.
  destruct x as [[]|e].
  2: { rewrite bind_Ret, repr_parse_checks. unfold parse_checks, try_bind. rewrite Ec. done. }
  rewrite bind_Ret.
  destruct (wp_Ret_inv _ _ (repr_parse_ok bs (ip_src_addr ip) (ip_dst_addr ip) caps Hb Hl Hv Hsrc Hdst))
    as (x & Ep & Hx). rewrite Ep, bind_Ret.
  destruct x as [r|e]; [|done]. apply process_parsed_ok; [done | done | apply Hx].
Qed.
End Facts.

(** ** Properties *)

(** Receiving a TCP packet is safe end to end: whatever bytes an IP packet carries, parsing
    them, finding the socket, processing the segment and building the answer do not panic,
    every socket keeps its invariant, and of the interface only the random number generator changes. *)
Theorem process_tcp_safe {cfg : BuildConfig} {cfg_ok : BuildConfigOk} `{NetworkEndianLaws} {O}
  caps cx (sockets : list (SocketItem O)) ip bs :
  Forall (socket_ready cx) sockets -> time_ok (cx_now cx) -> ip_addrs_ok ip -> bytes_ok bs -> Zlen bs <= 131070 ->
  wp (process_tcp caps cx sockets ip bs) (fun '(cx', sockets', _) => Forall item_wf sockets' /\ same_cx cx cx').
Proof.
  intros. eapply wp_mono; [by apply process_tcp_ok|]. intros [[? ?] ?] (? & ? & _). done.
Qed.

(** C20: a packet that cannot be parsed changes nothing and is not answered; a segment is
    processed by the first socket that accepts it and by no other one; a segment no socket
    accepts changes nothing and is answered by a reset, except when it is itself a reset or
    an address is unspecified. *)
Theorem process_tcp_delivers {cfg : BuildConfig} {cfg_ok : BuildConfigOk} `{NetworkEndianLaws} {O}
  caps cx (sockets : list (SocketItem O)) ip bs :
  Forall (socket_ready cx) sockets -> time_ok (cx_now cx) -> ip_addrs_ok ip -> bytes_ok bs -> Zlen bs <= 131070 ->
  wp (process_tcp caps cx sockets ip bs) (fun '(cx', sockets', o) =>
    match repr_parse bs (ip_src_addr ip) (ip_dst_addr ip) caps with
    | Ret (Ok r) => received cx sockets ip r cx' sockets' o
    | _ => cx' = cx /\ sockets' = sockets /\ o = None
    end).
Proof.
  intros. eapply wp_mono; [by apply process_tcp_ok|]. intros [[? ?] ?] (_ & _ & ?). done.
Qed.

(** *** Concrete instances *)

Definition ex_tcp_bytes : list Z :=
  match @repr_emit network_endian (ex_segment 200 (Some 100) CtlNone [1; 2; 3]) (replicate 23 0) (ip_src_addr ex_ip)
          (ip_dst_addr ex_ip) ex_caps with
  | Ret bs => bs
  | Panic => []
  end.

Definition ex_sockets : list (SocketItem unit) :=
  [OtherItem tt; TcpItem (ex_socket CloseWait [] [] 0); TcpItem (ex_socket Established [] [] 0)].

Lemma ex_socket_ready st : is_opening st = false -> socket_ready cx_example (TcpItem (O := unit) (ex_socket st [] [] 0)).
Proof.
  intros Hst. split; [|split; [done | exact I]].
  assert (0 <= ctl_room st) by (destruct st; cbn; lia).
  apply ex_wf; [cbn; lia | cbn; lia | change (Zlen []) with 0; lia | by rewrite Hst].
Qed.

Lemma ex_sockets_ready : Forall (socket_ready cx_example) ex_sockets.
Proof.
  unfold ex_sockets. constructor; [exact I|]. constructor; [by apply ex_socket_ready|].
  constructor; [by apply ex_socket_ready | constructor].
Qed.

Lemma ex_ip_addrs_ok : ip_addrs_ok ex_ip.
Proof. split; split; [byte_list | done | byte_list | done]. Qed.

Lemma ex_tcp_bytes_ok : bytes_ok ex_tcp_bytes.
Proof. apply (bool_decide_unpack (Forall (fun b => 0 <= b <= 255) ex_tcp_bytes)). vm_compute. exact I. Qed.

Lemma process_tcp_safe_witness :
  wp (process_tcp (H := network_endian) ex_caps cx_example ex_sockets ex_ip ex_tcp_bytes)
    (fun '(cx', sockets', _) => Forall item_wf sockets' /\ same_cx cx_example cx').
Proof.
  apply (process_tcp_safe (H := network_endian) (H0 := network_endian_laws));
    [exact ex_sockets_ready | unfold time_ok; cbn; lia | exact ex_ip_addrs_ok | exact ex_tcp_bytes_ok |].
  vm_compute. discriminate.
Defined.

Lemma process_tcp_delivers_witness :
  wp (process_tcp (H := network_endian) ex_caps cx_example ex_sockets ex_ip ex_tcp_bytes) (fun '(cx', sockets', o) =>
    match repr_parse (H := network_endian) ex_tcp_bytes (ip_src_addr ex_ip) (ip_dst_addr ex_ip) ex_caps with
    | Ret (Ok r) => received cx_example ex_sockets ex_ip r cx' sockets' o
    | _ => cx' = cx_example /\ sockets' = ex_sockets /\ o = None
    end).
Proof.
  apply (process_tcp_delivers (H := network_endian) (H0 := network_endian_laws));
    [exact ex_sockets_ready | unfold time_ok; cbn; lia | exact ex_ip_addrs_ok | exact ex_tcp_bytes_ok |].
  vm_compute. discriminate.
Defined.
