(* ===== verification/IfaceIngress.v ===== *)
(** * Received packets (iface/interface/mod.rs, ethernet.rs, ipv4.rs, ipv6.rs, udp.rs)

    From a frame to the sockets and to the packet that answers it.  The sockets are those that
    [items_mut] yields, in their order; the features [socket-dhcpv4] and [socket-dns] are off. *)

From stdpp Require Import gmap.
From S2P Require Import Prelude ByteOrder TimeModel IpTypes Checksum TcpRepr TcpWire IfaceContext Ipv4Addr Ipv6Addr Heapless Route Neighbor Fragmentation Ipv4Wire Ipv6Wire IpWire UdpWire Icmpv4Wire Icmpv6Packet NdiscWire MldWire Icmpv6Wire Ipv6ExtWire EthernetArp TcpSocket UdpSocket RawSocket IcmpSocket TcpProcess IfaceTcp IfacePacket Iface Multicast.

(** The sockets that are not TCP sockets. *)
Inductive DatagramSocket : Type :=
| OtherRaw (s : RawSocket)
| OtherIcmp (s : IcmpSocket)
| OtherUdp (s : UdpSocket).

Abbreviation AnySocket := (SocketItem DatagramSocket).

Record FragmentsBuffer : Type := mkFragmentsBuffer {
  fb_assembler : list (PacketAssembler Ipv4Key);
  fb_reassembly_timeout : Duration;
}.

Definition NEIGHBOR_FLAG_SOLICITED : Z := 0x40.
Definition NEIGHBOR_FLAG_OVERRIDE : Z := 0x20.

Section Ingress.
Context {cfg : BuildConfig} `{NetworkEndian}.
Context `{LinearMap Address GroupState} `{LinearMap Address Neighbor} `{HeaplessVec Route} `{HeaplessVec Ipv6OptionRepr}.
Implicit Types (i : InterfaceInner) (sockets : list AnySocket) (ip_payload : list Z).

(** ** Raw sockets *)

(** Every raw socket that accepts the packet gets it. *)
Fixpoint raw_socket_filter (caps : ChecksumCapabilities) sockets (ip_repr : IpRepr) ip_payload : res (list AnySocket * bool) :=
  match sockets with
  | [] => Ret ([], false)
  | OtherItem (OtherRaw raw_socket) :: sockets =>
      if raw_accepts raw_socket ip_repr then
        raw_socket ← raw_process raw_socket caps ip_repr ip_payload;
        '(sockets, _) ← raw_socket_filter caps sockets ip_repr ip_payload;
        Ret (OtherItem (OtherRaw raw_socket) :: sockets, true)
      else
        '(sockets, handled) ← raw_socket_filter caps sockets ip_repr ip_payload;
        Ret (OtherItem (OtherRaw raw_socket) :: sockets, handled)
  | socket :: sockets =>
      '(sockets, handled) ← raw_socket_filter caps sockets ip_repr ip_payload; Ret (socket :: sockets, handled)
  end.

(** ** Answers of ICMP *)

Definition icmpv4_reply i (ipv4_repr : IpHeader) (icmp_repr : Icmpv4Repr) : res (option Packet) :=
  let send src_addr :=
    n ← icmpv4_buffer_len icmp_repr;
    Ret (Some (packet_new_ipv4 (mkIpHeader src_addr (iph_src ipv4_repr) PROTOCOL_ICMP n 64) (PayloadIcmpv4 icmp_repr))) in
  src_unicast ← is_unicast_v4 (if_cx i) (iph_src ipv4_repr);
  if negb src_unicast then Ret None
  else
    dst_unicast ← is_unicast_v4 (if_cx i) (iph_dst ipv4_repr);
    if (dst_unicast : bool) then send (iph_dst ipv4_repr)
    else
      dst_broadcast ← is_broadcast_v4 (if_cx i) (iph_dst ipv4_repr);
      if (dst_broadcast : bool) then
        match icmp_repr with
        | Icmpv4EchoReply _ _ _ =>
            match ipv4_addr i with
            | Some src_addr => send src_addr
            | None => Ret None
            end
        | _ => Ret None
        end
      else Ret None.

Definition icmpv6_reply i (ipv6_repr : IpHeader) (icmp_repr : Icmpv6Repr) : res (option Packet) :=
  let src_addr := iph_dst ipv6_repr in
  let dst_addr := iph_src ipv6_repr in
  src_addr ← (if v6_x_is_unicast src_addr then Ret src_addr else get_source_address_ipv6 (if_cx i) dst_addr);
  n ← icmpv6_buffer_len icmp_repr;
  Ret (Some (packet_new_ipv6 (mkIpHeader src_addr dst_addr PROTOCOL_ICMPV6 n 64) (PayloadIcmpv6 icmp_repr))).

(** An error message that quotes the payload, as much of it as fits. *)
Definition unreachable_v4 i (reason : DstUnreachable) (ipv4_repr : IpHeader) ip_payload : res (option Packet) :=
  payload_len ← icmp_reply_payload_len (Zlen ip_payload) IPV4_MIN_MTU (ipv4_buffer_len ipv4_repr);
  data ← slice ip_payload 0 payload_len;
  icmpv4_reply i ipv4_repr (Icmpv4DstUnreachable reason ipv4_repr data).

Definition quote_v6 i (ipv6_repr : IpHeader) ip_payload (message : list Z -> Icmpv6Repr) : res (option Packet) :=
  payload_len ← icmp_reply_payload_len (Zlen ip_payload) IPV6_MIN_MTU (ipv6_buffer_len ipv6_repr);
  data ← slice ip_payload 0 payload_len;
  icmpv6_reply i ipv6_repr (message data).

(** ** UDP *)

(** The loop over the UDP sockets; the boolean says that one of them took the datagram. *)
Fixpoint process_udp_sockets (cx : Context) (meta : PacketMeta) sockets (ip_repr : IpRepr) (repr : UdpRepr) (payload : list Z)
  : res (list AnySocket * bool) :=
  match sockets with
  | [] => Ret ([], false)
  | OtherItem (OtherUdp udp_socket) :: sockets =>
      a ← udp_accepts udp_socket cx ip_repr repr;
      if (a : bool) then
        udp_socket ← udp_process udp_socket cx meta ip_repr repr payload;
        Ret (OtherItem (OtherUdp udp_socket) :: sockets, true)
      else
        '(sockets, handled) ← process_udp_sockets cx meta sockets ip_repr repr payload;
        Ret (OtherItem (OtherUdp udp_socket) :: sockets, handled)
  | socket :: sockets =>
      '(sockets, handled) ← process_udp_sockets cx meta sockets ip_repr repr payload; Ret (socket :: sockets, handled)
  end.

Definition process_udp i (meta : PacketMeta) sockets (handled_by_raw_socket : bool) (ip_repr : IpRepr) ip_payload
  : res (list AnySocket * option Packet) :=
  p ← udp_new_checked ip_payload;
  match p with
  | Err _ => Ret (sockets, None)
  | Ok udp_packet =>
      p ← udp_parse udp_packet (ip_src_addr ip_repr) (ip_dst_addr ip_repr) (if_checksum i);
      match p with
      | Err _ => Ret (sockets, None)
      | Ok udp_repr =>
          payload ← udp_payload udp_packet;
          '(sockets, handled) ← process_udp_sockets (if_cx i) meta sockets ip_repr udp_repr payload;
          if (handled : bool) then Ret (sockets, None)
          else if handled_by_raw_socket then Ret (sockets, None)
          else
            match ip_repr with
            | Ipv4Repr ipv4_repr => o ← unreachable_v4 i PortUnreachable ipv4_repr ip_payload; Ret (sockets, o)
            | Ipv6Repr ipv6_repr =>
                o ← quote_v6 i ipv6_repr ip_payload (Icmpv6DstUnreachable Port6Unreachable ipv6_repr); Ret (sockets, o)
            end
      end
  end.

(** ** TCP *)

Definition process_tcp_packet i sockets (ip_repr : IpRepr) ip_payload : res (InterfaceInner * list AnySocket * option Packet) :=
  '(cx, sockets, r) ← process_tcp (if_checksum i) (if_cx i) sockets ip_repr ip_payload;
  Ret (if_set_cx i cx, sockets, option_map (fun '(ip, tcp) => packet_new ip (PayloadTcp tcp)) r).

(** ** ICMPv4 *)

(** Every ICMP socket that accepts the message gets it. *)
Fixpoint icmp_sockets (accepts_ : IcmpSocket -> res bool) (process_ : IcmpSocket -> res IcmpSocket) sockets
  : res (list AnySocket * bool) :=
  match sockets with
  | [] => Ret ([], false)
  | OtherItem (OtherIcmp icmp_socket) :: sockets =>
      a ← accepts_ icmp_socket;
      if (a : bool) then
        icmp_socket ← process_ icmp_socket;
        '(sockets, _) ← icmp_sockets accepts_ process_ sockets;
        Ret (OtherItem (OtherIcmp icmp_socket) :: sockets, true)
      else
        '(sockets, handled) ← icmp_sockets accepts_ process_ sockets;
        Ret (OtherItem (OtherIcmp icmp_socket) :: sockets, handled)
  | socket :: sockets => '(sockets, handled) ← icmp_sockets accepts_ process_ sockets; Ret (socket :: sockets, handled)
  end.

Definition process_icmpv4 i sockets (ip_repr : IpHeader) ip_payload : res (list AnySocket * option Packet) :=
  match icmp4_new_checked ip_payload with
  | Err _ => Ret (sockets, None)
  | Ok icmp_packet =>
      p ← icmpv4_parse icmp_packet (if_checksum i);
      match p with
      | Err _ => Ret (sockets, None)
      | Ok icmp_repr =>
          '(sockets, _) ← icmp_sockets (fun s => icmp_accepts_v4 s (if_checksum i) ip_repr icmp_repr)
                            (fun s => icmp_process_v4 s ip_repr icmp_repr) sockets;
          match icmp_repr with
          | Icmpv4EchoRequest ident seq_no data =>
              o ← icmpv4_reply i ip_repr (Icmpv4EchoReply ident seq_no data); Ret (sockets, o)
          | _ => Ret (sockets, None)
          end
      end
  end.

(** ** ICMPv6 and neighbor discovery *)

Definition process_ndisc i (ip_repr : IpHeader) (repr : NdiscRepr) : res (InterfaceInner * option Packet) :=
  match repr with
  | NeighborAdvert flags target_addr lladdr =>
      let ip_addr := Ipv6 (iph_src ip_repr) in
      match lladdr with
      | None => Ret (i, None)
      | Some lladdr =>
          p ← raw_hardware_parse lladdr (cx_medium (if_cx i));
          match p with
          | Err _ => Ret (i, None)
          | Ok lladdr =>
              u ← hardware_is_unicast lladdr;
              if negb u || negb (v6_x_is_unicast target_addr) then Ret (i, None)
              else
                fill ← (if negb (Z.land flags NEIGHBOR_FLAG_OVERRIDE =? 0) then Ret true
                        else answer ← cache_lookup (if_neighbor_cache i) ip_addr (if_now i); Ret (negb (answer_found answer)));
                if (fill : bool) then
                  c ← cache_fill (if_neighbor_cache i) ip_addr lladdr (if_now i); Ret (if_set_neighbor_cache i c, None)
                else Ret (i, None)
          end
      end
  | NeighborSolicit target_addr lladdr =>
      r ← match lladdr with
          | None => Ret (Some i)
          | Some lladdr =>
              p ← raw_hardware_parse lladdr (cx_medium (if_cx i));
              match p with
              | Err _ => Ret None
              | Ok lladdr =>
                  u ← hardware_is_unicast lladdr;
                  if negb u || negb (v6_x_is_unicast target_addr) then Ret None
                  else
                    c ← cache_fill (if_neighbor_cache i) (Ipv6 (iph_src ip_repr)) lladdr (if_now i);
                    Ret (Some (if_set_neighbor_cache i c))
              end
          end;
      match r with
      | None => Ret (i, None)
      | Some i =>
          if has_solicited_node i (iph_dst ip_repr) && has_ip_addr i (Ipv6 target_addr) then
            raw ← raw_from_hardware (if_hardware_addr i);
            let advert := Icmpv6Ndisc (NeighborAdvert NEIGHBOR_FLAG_SOLICITED target_addr (Some raw)) in
            n ← icmpv6_buffer_len advert;
            Ret (i, Some (packet_new_ipv6 (mkIpHeader target_addr (iph_src ip_repr) PROTOCOL_ICMPV6 n 0xff) (PayloadIcmpv6 advert)))
          else Ret (i, None)
      end
  | _ => Ret (i, None)
  end.

Definition process_icmpv6 i sockets (ip_repr : IpHeader) ip_payload : res (InterfaceInner * list AnySocket * option Packet) :=
  c ← icmp6_new_checked ip_payload;
  match c with
  | Err _ => Ret (i, sockets, None)
  | Ok icmp_packet =>
      p ← icmpv6_parse (iph_src ip_repr) (iph_dst ip_repr) icmp_packet (if_checksum i);
      match p with
      | Err _ => Ret (i, sockets, None)
      | Ok icmp_repr =>
          '(sockets, _) ← icmp_sockets (fun s => icmp_accepts_v6 s (if_checksum i) ip_repr icmp_repr)
                            (fun s => icmp_process_v6 s ip_repr icmp_repr) sockets;
          match icmp_repr with
          | Icmpv6EchoRequest ident seq_no data =>
              o ← icmpv6_reply i ip_repr (Icmpv6EchoReply ident seq_no data); Ret (i, sockets, o)
          | Icmpv6Ndisc repr =>
              if iph_hop_limit ip_repr =? 0xff then
                match cx_medium (if_cx i) with
                | MediumEthernet | MediumIeee802154 => '(i, o) ← process_ndisc i ip_repr repr; Ret (i, sockets, o)
                | MediumIp => Ret (i, sockets, None)
                end
              else Ret (i, sockets, None)
          | Icmpv6Mld repr =>
              match repr with
              | MldQuery _ _ _ _ _ _ _ =>
                  if (iph_hop_limit ip_repr =? 1) && v6_is_link_local (iph_src ip_repr)
                  then i ← process_mldv2 i ip_repr repr; Ret (i, sockets, None)
                  else Ret (i, sockets, None)
              | _ => Ret (i, sockets, None)
              end
          | _ => Ret (i, sockets, None)
          end
      end
  end.

(** ** IPv6 *)

Inductive HopByHopResponse : Type :=
| HopContinue (next_header : Z) (ip_payload : list Z)
| HopDiscard (p : option Packet).

(** What the options say: [None] when processing goes on. *)
Fixpoint hop_options i (ipv6_repr : IpHeader) ip_payload (options : list Ipv6OptionRepr) : res (option HopByHopResponse) :=
  let param_problem :=
    quote_v6 i ipv6_repr ip_payload (Icmpv6ParamProblem UnrecognizedOption (wrap_u 32 (ipv6_buffer_len ipv6_repr)) ipv6_repr) in
  match options with
  | [] => Ret None
  | OptPad1 :: options | OptPadN _ :: options | OptRouterAlert _ :: options => hop_options i ipv6_repr ip_payload options
  | OptUnknown6 type_ _ _ :: options =>
      f ← failure_type_of type_;
      match f with
      | FailSkip => hop_options i ipv6_repr ip_payload options
      | FailDiscard => Ret (Some (HopDiscard None))
      | FailDiscardSendAll => p ← param_problem; Ret (Some (HopDiscard p))
      | FailDiscardSendUnicast =>
          if negb (v6_is_multicast (iph_dst ipv6_repr)) then p ← param_problem; Ret (Some (HopDiscard p))
          else Ret (Some (HopDiscard None))
      end
  end.

Definition process_hopbyhop i (ipv6_repr : IpHeader) ip_payload : res HopByHopResponse :=
  p ← ext_new_checked ip_payload;
  match p with
  | Err _ => Ret (HopDiscard None)
  | Ok ext_hdr =>
      p ← ext_parse ext_hdr;
      match p with
      | Err _ => Ret (HopDiscard None)
      | Ok ext_repr =>
          match hbh_new_checked (ext_data ext_repr) with
          | Err _ => Ret (HopDiscard None)
          | Ok hbh_hdr =>
              p ← hbh_parse hbh_hdr;
              match p with
              | Err _ => Ret (HopDiscard None)
              | Ok hbh_repr =>
                  r ← hop_options i ipv6_repr ip_payload (hv_elems hbh_repr);
                  match r with
                  | Some r => Ret r
                  | None =>
                      n ← usize_add (ext_header_len ext_repr) (Zlen (ext_data ext_repr));
                      rest ← slice ip_payload n (Zlen ip_payload);
                      Ret (HopContinue (ext_next_header ext_repr) rest)
                  end
              end
          end
      end
  end.

Definition process_nxt_hdr i sockets (meta : PacketMeta) (ipv6_repr : IpHeader) (nxt_hdr : Z) (handled_by_raw_socket : bool) ip_payload
  : res (InterfaceInner * list AnySocket * option Packet) :=
  if nxt_hdr =? PROTOCOL_ICMPV6 then process_icmpv6 i sockets ipv6_repr ip_payload
  else if nxt_hdr =? PROTOCOL_UDP then
    '(sockets, o) ← process_udp i meta sockets handled_by_raw_socket (Ipv6Repr ipv6_repr) ip_payload; Ret (i, sockets, o)
  else if nxt_hdr =? PROTOCOL_TCP then process_tcp_packet i sockets (Ipv6Repr ipv6_repr) ip_payload
  else if handled_by_raw_socket then Ret (i, sockets, None)
  else
    o ← quote_v6 i ipv6_repr ip_payload (Icmpv6ParamProblem UnrecognizedNxtHdr (wrap_u 32 (ipv6_buffer_len ipv6_repr)) ipv6_repr);
    Ret (i, sockets, o).

(** With AnyIP, an address that a route of the interface's own leads to is accepted. *)
Definition any_ip_accepts i (unicast : bool) (dst_addr : Address) : res bool :=
  if negb (if_any_ip i) then Ret false
  else if negb unicast then Ret false
  else
    r ← routes_lookup (if_routes i) dst_addr (if_now i);
    Ret (match r with None => false | Some router_addr => has_ip_addr i router_addr end).

Definition process_ipv6 i sockets (meta : PacketMeta) (source_hardware_addr : HardwareAddress) (ipv6_packet : list Z)
  : res (InterfaceInner * list AnySocket * option Packet) :=
  p ← ipv6_parse ipv6_packet;
  match p with
  | Err _ => Ret (i, sockets, None)
  | Ok ipv6_repr =>
      if negb (v6_x_is_unicast (iph_src ipv6_repr)) then Ret (i, sockets, None)
      else
        payload ← ip6_payload ipv6_packet;
        r ← (if iph_next_header ipv6_repr =? PROTOCOL_HOPBYHOP then process_hopbyhop i ipv6_repr payload
             else Ret (HopContinue (iph_next_header ipv6_repr) payload));
        match r with
        | HopDiscard e => Ret (i, sockets, e)
        | HopContinue next_header ip_payload =>
            let dst_addr := iph_dst ipv6_repr in
            accepted ← (if negb (has_ip_addr i (Ipv6 dst_addr)) && negb (has_multicast_group i (Ipv6 dst_addr)) &&
                           negb (v6_is_loopback dst_addr)
                        then any_ip_accepts i (v6_x_is_unicast dst_addr) (Ipv6 dst_addr) else Ret true);
            if negb accepted then Ret (i, sockets, None)
            else
              '(sockets, handled) ← raw_socket_filter (if_checksum i) sockets (Ipv6Repr ipv6_repr) ip_payload;
              i ← (if v6_x_is_unicast dst_addr then
                     c ← cache_reset_expiry_if_existing (if_neighbor_cache i) (Ipv6 (iph_src ipv6_repr)) source_hardware_addr (if_now i);
                     Ret (if_set_neighbor_cache i c)
                   else Ret i);
              process_nxt_hdr i sockets meta ipv6_repr next_header handled ip_payload
        end
  end.

(** ** IPv4 *)

(** The payload of the packet, or of the packet that this fragment completes. *)
Definition ipv4_reassemble i (ipv4_packet : list Z) (frag : FragmentsBuffer) : res (FragmentsBuffer * option (list Z)) :=
  more_frags ← ip4_more_frags ipv4_packet;
  frag_offset ← ip4_frag_offset ipv4_packet;
  payload ← ip4_payload ipv4_packet;
  if more_frags || negb (frag_offset =? 0) then
    key ← ip4_get_key ipv4_packet;
    total_len ← ip4_total_len ipv4_packet;
    header_len ← ip4_header_len ipv4_packet;
    '(a, o) ← pas_receive (fb_assembler frag) (if_now i) (fb_reassembly_timeout frag)
                (mkFragment key more_frags frag_offset total_len header_len payload);
    Ret (mkFragmentsBuffer a (fb_reassembly_timeout frag), o)
  else Ret (frag, Some payload).

Definition process_ipv4_protocol i sockets (meta : PacketMeta) (ipv4_repr : IpHeader) (handled_by_raw_socket : bool) ip_payload
  : res (InterfaceInner * list AnySocket * option Packet) :=
  let next_header := iph_next_header ipv4_repr in
  if next_header =? PROTOCOL_ICMP then '(sockets, o) ← process_icmpv4 i sockets ipv4_repr ip_payload; Ret (i, sockets, o)
  else if next_header =? PROTOCOL_IGMP then i ← process_igmp i ipv4_repr ip_payload; Ret (i, sockets, None)
  else if next_header =? PROTOCOL_UDP then
    '(sockets, o) ← process_udp i meta sockets handled_by_raw_socket (Ipv4Repr ipv4_repr) ip_payload; Ret (i, sockets, o)
  else if next_header =? PROTOCOL_TCP then process_tcp_packet i sockets (Ipv4Repr ipv4_repr) ip_payload
  else if handled_by_raw_socket then Ret (i, sockets, None)
  else o ← unreachable_v4 i ProtoUnreachable ipv4_repr ip_payload; Ret (i, sockets, o).

Definition process_ipv4 i sockets (meta : PacketMeta) (source_hardware_addr : HardwareAddress) (ipv4_packet : list Z) (frag : FragmentsBuffer)
  : res (InterfaceInner * list AnySocket * FragmentsBuffer * option Packet) :=
  p ← ipv4_parse ipv4_packet (if_checksum i);
  match p with
  | Err _ => Ret (i, sockets, frag, None)
  | Ok ipv4_repr =>
      let dst_addr := iph_dst ipv4_repr in
      src_unicast ← is_unicast_v4 (if_cx i) (iph_src ipv4_repr);
      if negb src_unicast && negb (v4_is_unspecified (iph_src ipv4_repr)) then Ret (i, sockets, frag, None)
      else
        '(frag, o) ← ipv4_reassemble i ipv4_packet frag;
        match o with
        | None => Ret (i, sockets, frag, None)
        | Some ip_payload =>
            '(sockets, handled) ← raw_socket_filter (if_checksum i) sockets (Ipv4Repr ipv4_repr) ip_payload;
            directed ← (if negb (has_ip_addr i (Ipv4 dst_addr)) && negb (has_multicast_group i (Ipv4 dst_addr))
                             then is_broadcast_v4 (if_cx i) dst_addr else Ret true);
            accepted ← (if negb directed then any_ip_accepts i (v4_x_is_unicast dst_addr) (Ipv4 dst_addr) else Ret true);
            if negb accepted then Ret (i, sockets, frag, None)
            else
              dst_unicast ← is_unicast_v4 (if_cx i) dst_addr;
              i ← (if (dst_unicast : bool) then
                     c ← cache_reset_expiry_if_existing (if_neighbor_cache i) (Ipv4 (iph_src ipv4_repr)) source_hardware_addr (if_now i);
                     Ret (if_set_neighbor_cache i c)
                   else Ret i);
              '(i, sockets, o) ← process_ipv4_protocol i sockets meta ipv4_repr handled ip_payload;
              Ret (i, sockets, frag, o)
        end
  end.

(** ** ARP and frames *)

Definition process_arp i (timestamp : Instant) (eth_payload : list Z) : res (InterfaceInner * option EthernetPacket) :=
  p ← arp_new_checked eth_payload;
  match p with
  | Err _ => Ret (i, None)
  | Ok arp_packet =>
      p ← arp_parse arp_packet;
      match p with
      | Err _ => Ret (i, None)
      | Ok (mkArpEthernetIpv4 operation source_hardware_addr source_protocol_addr _ target_protocol_addr) =>
          if negb (has_ip_addr i (Ipv4 target_protocol_addr)) && negb (if_any_ip i) then Ret (i, None)
          else
            match operation with
            | ArpUnknown _ => Ret (i, None)
            | ArpRequest | ArpReply =>
                if negb (v4_x_is_unicast source_protocol_addr) || negb (ethernet_is_unicast source_hardware_addr) then Ret (i, None)
                else
                  local ← in_same_network (if_cx i) (Ipv4 source_protocol_addr);
                  if negb local then Ret (i, None)
                  else
                    c ← cache_fill (if_neighbor_cache i) (Ipv4 source_protocol_addr) (HardwareEthernet source_hardware_addr) timestamp;
                    let i := if_set_neighbor_cache i c in
                    match operation with
                    | ArpRequest =>
                        src_hardware_addr ← ethernet_or_panic (if_hardware_addr i);
                        Ret (i, Some (EthernetArp (mkArpEthernetIpv4 ArpReply src_hardware_addr target_protocol_addr
                                                     source_hardware_addr source_protocol_addr)))
                    | _ => Ret (i, None)
                    end
            end
      end
  end.

(** [InterfaceInner::process_ip]. *)
Definition process_ip i sockets (meta : PacketMeta) ip_payload (frag : FragmentsBuffer)
  : res (InterfaceInner * list AnySocket * FragmentsBuffer * option Packet) :=
  v ← version_of_packet ip_payload;
  match v with
  | Ok Ipv4Version =>
      p ← ip4_new_checked ip_payload;
      match p with
      | Err _ => Ret (i, sockets, frag, None)
      | Ok ipv4_packet => process_ipv4 i sockets meta HardwareIp ipv4_packet frag
      end
  | Ok Ipv6Version =>
      p ← ip6_new_checked ip_payload;
      match p with
      | Err _ => Ret (i, sockets, frag, None)
      | Ok ipv6_packet => '(i, sockets, o) ← process_ipv6 i sockets meta HardwareIp ipv6_packet; Ret (i, sockets, frag, o)
      end
  | Err _ => Ret (i, sockets, frag, None)
  end.

Definition process_ethernet i sockets (meta : PacketMeta) (frame : list Z) (fragments : FragmentsBuffer)
  : res (InterfaceInner * list AnySocket * FragmentsBuffer * option EthernetPacket) :=
  match eth_new_checked frame with
  | Err _ => Ret (i, sockets, fragments, None)
  | Ok eth_frame =>
      dst_addr ← eth_dst_addr eth_frame;
      if negb (ethernet_is_broadcast dst_addr) && negb (ethernet_is_multicast dst_addr) &&
         negb (bool_decide (HardwareEthernet dst_addr = if_hardware_addr i))
      then Ret (i, sockets, fragments, None)
      else
        ethertype ← eth_ethertype eth_frame;
        payload ← eth_payload eth_frame;
        src_addr ← eth_src_addr eth_frame;
        match ethertype with
        | EtherArp => '(i, o) ← process_arp i (if_now i) payload; Ret (i, sockets, fragments, o)
        | EtherIpv4 =>
            p ← ip4_new_checked payload;
            match p with
            | Err _ => Ret (i, sockets, fragments, None)
            | Ok ipv4_packet =>
                '(i, sockets, fragments, o) ← process_ipv4 i sockets meta (HardwareEthernet src_addr) ipv4_packet fragments;
                Ret (i, sockets, fragments, option_map EthernetIp o)
            end
        | EtherIpv6 =>
            p ← ip6_new_checked payload;
            match p with
            | Err _ => Ret (i, sockets, fragments, None)
            | Ok ipv6_packet =>
                '(i, sockets, o) ← process_ipv6 i sockets meta (HardwareEthernet src_addr) ipv6_packet;
                Ret (i, sockets, fragments, option_map EthernetIp o)
            end
        | EtherUnknown _ => Ret (i, sockets, fragments, None)
        end
  end.
End Ingress.
