(* ===== verification/SocketSet.v ===== *)
(** * The sockets of an interface (iface/socket_set.rs, socket_meta.rs, socket/mod.rs)

    A slot of the set is free or holds a socket with its metadata: its handle, which is the position
    of the slot, and whether the interface waits for a neighbor of the socket.  The theorem says that
    the set is a finite map from handles to sockets. *)

From stdpp Require Import gmap.
From S2P Require Import Prelude TimeModel TcpTimers IpTypes Neighbor TcpSocket UdpSocket RawSocket IcmpSocket IfaceTcp IfaceIngress.

(** ** Metadata (socket_meta.rs) *)

Abbreviation SocketHandle := nat (only parsing).

Inductive NeighborState : Type :=
| NeighborActive
| NeighborWaiting (neighbor : Address) (silent_until : Instant).

Record Meta : Type := mkMeta { mt_handle : SocketHandle; mt_neighbor_state : NeighborState }.

Definition DISCOVERY_SILENT_TIME : Duration := 1000000.

(** [Default]. *)
Definition meta_new : Meta := mkMeta 0%nat NeighborActive.
Definition mt_set_handle (m : Meta) (h : SocketHandle) : Meta := mkMeta h (mt_neighbor_state m).
Definition mt_set_state (m : Meta) (s : NeighborState) : Meta := mkMeta (mt_handle m) s.

Section Meta.
(** The closure [has_neighbor] asks the interface. *)
Implicit Types (m : Meta) (has_neighbor : Address -> res bool).

Definition meta_poll_at m (socket_poll_at : PollAt) has_neighbor : res PollAt :=
  match mt_neighbor_state m with
  | NeighborActive => Ret socket_poll_at
  | NeighborWaiting neighbor silent_until =>
      found ← has_neighbor neighbor;
      if (found : bool) then Ret socket_poll_at else Ret (PollTime silent_until)
  end.

Definition meta_egress_permitted m (timestamp : Instant) has_neighbor : res (Meta * bool) :=
  match mt_neighbor_state m with
  | NeighborActive => Ret (m, true)
  | NeighborWaiting neighbor silent_until =>
      found ← has_neighbor neighbor;
      if (found : bool) then Ret (mt_set_state m NeighborActive, true)
      else if silent_until <=? timestamp then Ret (m, true)
      else Ret (m, false)
  end.

Definition meta_neighbor_missing m (timestamp : Instant) (neighbor : Address) : res Meta :=
  silent_until ← instant_add timestamp DISCOVERY_SILENT_TIME;
  Ret (mt_set_state m (NeighborWaiting neighbor silent_until)).
End Meta.

(** ** The kinds of sockets (socket/mod.rs) *)

(** The trait [AnySocket]. *)
Class SocketKind (T : Type) : Type := { upcast : T -> AnySocket; downcast : AnySocket -> option T }.

Class SocketKindLaws (T : Type) `{SocketKind T} : Prop := {
  downcast_upcast s : downcast (upcast s) = Some s;
  downcast_inv a s : downcast a = Some s -> a = upcast s;
}.

#[export] Instance tcp_kind : SocketKind Socket :=
  {| upcast := TcpItem; downcast a := match a with TcpItem s => Some s | _ => None end |}.
#[export] Instance raw_kind : SocketKind RawSocket :=
  {| upcast s := OtherItem (OtherRaw s); downcast a := match a with OtherItem (OtherRaw s) => Some s | _ => None end |}.
#[export] Instance icmp_kind : SocketKind IcmpSocket :=
  {| upcast s := OtherItem (OtherIcmp s); downcast a := match a with OtherItem (OtherIcmp s) => Some s | _ => None end |}.
#[export] Instance udp_kind : SocketKind UdpSocket :=
  {| upcast s := OtherItem (OtherUdp s); downcast a := match a with OtherItem (OtherUdp s) => Some s | _ => None end |}.

#[export] Instance tcp_kind_laws : SocketKindLaws Socket.
Proof. split; [done|]. by intros [] ? [= ->]. Qed.
#[export] Instance raw_kind_laws : SocketKindLaws RawSocket.
Proof. split; [done|]. by intros [|[]] ? [= ->]. Qed.
#[export] Instance icmp_kind_laws : SocketKindLaws IcmpSocket.
Proof. split; [done|]. by intros [|[]] ? [= ->]. Qed.
#[export] Instance udp_kind_laws : SocketKindLaws UdpSocket.
Proof. split; [done|]. by intros [|[]] ? [= ->]. Qed.

(** ** The set (socket_set.rs) *)

Record Item : Type := mkItem { it_meta : Meta; it_socket : AnySocket }.

Abbreviation SocketStorage := (option Item).

(** [ss_owned]: the [ManagedSlice] is a vector, which grows; a borrowed slice does not. *)
Record SocketSet : Type := mkSocketSet { ss_owned : bool; ss_sockets : list SocketStorage }.

Definition socket_set_new (owned : bool) (sockets : list SocketStorage) : SocketSet := mkSocketSet owned sockets.

(** The loop of [add]: the first free slot. *)
Fixpoint free_slot (slots : list SocketStorage) (index : nat) : option nat :=
  match slots with
  | [] => None
  | None :: _ => Some index
  | Some _ :: slots => free_slot slots (S index)
  end.

(** The nested function [put]. *)
Definition put_socket (slots : list SocketStorage) (index : nat) (socket : AnySocket) : list SocketStorage :=
  <[index := Some (mkItem (mt_set_handle meta_new index) socket)]> slots.

Section SocketSet.
Implicit Types (s : SocketSet) (handle : SocketHandle).

Definition socket_set_add {T} `{SocketKind T} s (socket : T) : res (SocketSet * SocketHandle) :=
  let socket := upcast socket in
  match free_slot (ss_sockets s) 0 with
  | Some index => Ret (mkSocketSet (ss_owned s) (put_socket (ss_sockets s) index socket), index)
  | None =>
      if ss_owned s then
        let sockets := ss_sockets s ++ [None] in
        let index := Nat.pred (length sockets) in
        Ret (mkSocketSet true (put_socket sockets index socket), index)
      else Panic
  end.

Definition socket_set_get {T} `{SocketKind T} s handle : res T :=
  slot ← index (ss_sockets s) (Z.of_nat handle);
  match slot with
  | Some item => match downcast (it_socket item) with Some socket => Ret socket | None => Panic end
  | None => Panic
  end.

(** The reference that [get_mut] returns is used by [f]. *)
Definition socket_set_get_mut {T} `{SocketKind T} {A} s handle (f : T -> res (T * A)) : res (SocketSet * A) :=
  slot ← index (ss_sockets s) (Z.of_nat handle);
  match slot with
  | Some item =>
      match downcast (it_socket item) with
      | Some socket =>
          '(socket, a) ← f socket;
          Ret (mkSocketSet (ss_owned s) (<[handle := Some (mkItem (it_meta item) (upcast socket))]> (ss_sockets s)), a)
      | None => Panic
      end
  | None => Panic
  end.

Definition socket_set_remove s handle : res (SocketSet * AnySocket) :=
  slot ← index (ss_sockets s) (Z.of_nat handle);
  match slot with
  | Some item => Ret (mkSocketSet (ss_owned s) (<[handle := None]> (ss_sockets s)), it_socket item)
  | None => Panic
  end.

(** [items], and [items_mut] as the items that the loop leaves. *)
Definition ss_items s : list Item := omap id (ss_sockets s).

Fixpoint put_items (slots : list SocketStorage) (items : list Item) : list SocketStorage :=
  match slots, items with
  | Some _ :: slots, item :: items => Some item :: put_items slots items
  | None :: slots, items => None :: put_items slots items
  | slots, [] => slots
  | [], _ => []
  end.

Definition ss_set_items s (items : list Item) : SocketSet := mkSocketSet (ss_owned s) (put_items (ss_sockets s) items).

(** The sockets alone, as the ingress sees them. *)
Definition ss_sockets_of s : list AnySocket := map it_socket (ss_items s).

Fixpoint put_sockets (items : list Item) (sockets : list AnySocket) : list Item :=
  match items, sockets with
  | item :: items, socket :: sockets => mkItem (it_meta item) socket :: put_sockets items sockets
  | items, _ => items
  end.

Definition ss_set_sockets s (sockets : list AnySocket) : SocketSet := ss_set_items s (put_sockets (ss_items s) sockets).

(** [iter]: the sockets with their handles. *)
Definition ss_iter s : list (SocketHandle * AnySocket) := map (fun item => (mt_handle (it_meta item), it_socket item)) (ss_items s).
End SocketSet.

(** ** The set as a map *)

Section Facts.
Implicit Types (s : SocketSet) (handle : SocketHandle).

(** The socket with a handle. *)
Definition ss_lookup s handle : option Item := ss_sockets s !! handle ≫= id.

(** Every socket knows its handle. *)
Definition ss_wf s : Prop := forall handle item, ss_lookup s handle = Some item -> mt_handle (it_meta item) = handle.

Lemma free_slot_ok slots k :
  match free_slot slots k with
  | Some i => (k <= i)%nat /\ slots !! (i - k)%nat = Some None /\ forall j, (j < i - k)%nat -> slots !! j <> Some None
  | None => forall j, slots !! j <> Some None
  end.
Proof.
  revert k. induction slots as [|[item|] slots IH]; intros k; cbn [free_slot]; [done| |].
  - specialize (IH (S k)). destruct (free_slot slots (S k)) as [i|].
    + destruct IH as (Hk & Hi & Hj). split; [lia|]. replace (i - k)%nat with (S (i - S k)) by lia. split; [done|].
      intros [|j] Hlt; [done|]. apply Hj. lia.
    + intros [|j]; [done | apply IH].
  - rewrite Nat.sub_diag. split; [done|]. split; [done | lia].
Qed.

Lemma index_slot s handle : 
  index (ss_sockets s) (Z.of_nat handle) = match ss_sockets s !! handle with Some slot => Ret slot | None => Panic end.
Proof. unfold index. rewrite Nat2Z.id, (proj2 (Z.leb_le 0 _) (Nat2Z.is_nonneg handle)). by destruct (ss_sockets s !! handle). Qed.

Lemma ss_lookup_insert slots owned k o handle :
  (k < length slots)%nat -> ss_lookup (mkSocketSet owned (<[k := o]> slots)) handle = if decide (handle = k) then o else slots !! handle ≫= id.
Proof.
  intros Hk. unfold ss_lookup. cbn. destruct (decide (handle = k)) as [->|Hne]; [by rewrite list_lookup_insert_eq|].
  by rewrite list_lookup_insert_ne by done.
Qed.

(** Adding gives a handle that was free, and changes no other socket. *)
Lemma socket_set_add_ok {T} `{SocketKind T} s (socket : T) :
  match socket_set_add s socket with
  | Ret (s', handle) => ss_lookup s handle = None /\ forall h,
      ss_lookup s' h = if decide (h = handle) then Some (mkItem (mkMeta handle NeighborActive) (upcast socket)) else ss_lookup s h
  | Panic => ss_owned s = false /\ forall h, (h < length (ss_sockets s))%nat -> is_Some (ss_lookup s h)
  end.
Proof.
  unfold socket_set_add. pose proof (free_slot_ok (ss_sockets s) 0) as Hf. destruct (free_slot (ss_sockets s) 0) as [i|].
  - destruct Hf as (_ & Hi & _). rewrite Nat.sub_0_r in Hi. split; [unfold ss_lookup; by rewrite Hi|]. intros h. unfold put_socket.
    rewrite ss_lookup_insert by (by eapply lookup_lt_Some). done.
  - destruct (ss_owned s) eqn:Eo.
    + replace (Nat.pred (length (ss_sockets s ++ [None]))) with (length (ss_sockets s)) by (rewrite length_app; cbn; lia).
      split; [unfold ss_lookup; by rewrite lookup_ge_None_2|]. intros h. unfold put_socket. rewrite ss_lookup_insert by (rewrite length_app; cbn; lia).
      destruct (decide (h = length (ss_sockets s))) as [->|Hne]; [done|]. unfold ss_lookup.
      destruct (decide (h < length (ss_sockets s))%nat); [by rewrite lookup_app_l by done|].
      rewrite !lookup_ge_None_2; [done | lia | rewrite length_app; cbn; lia].
    + split; [done|]. intros h Hh. apply lookup_lt_is_Some_2 in Hh as [[item|] E]; [unfold ss_lookup; rewrite E; by eexists | by apply Hf in E].
Qed.

Lemma socket_set_remove_ok s handle :
  match ss_lookup s handle with
  | Some item => exists s', socket_set_remove s handle = Ret (s', it_socket item) /\
      forall h, ss_lookup s' h = if decide (h = handle) then None else ss_lookup s h
  | None => socket_set_remove s handle = Panic
  end.
Proof.
  unfold socket_set_remove. rewrite index_slot. unfold ss_lookup at 1. destruct (ss_sockets s !! handle) as [[item|]|] eqn:E; [|done..].
  cbn. eexists. split; [done|]. intros h. apply ss_lookup_insert. by eapply lookup_lt_Some.
Qed.

Lemma socket_set_get_ok {T} `{SocketKindLaws T} s handle :
  socket_set_get s handle =
    match ss_lookup s handle with Some item => match downcast (it_socket item) with Some socket => Ret socket | None => Panic end | None => Panic end.
Proof. unfold socket_set_get. rewrite index_slot. unfold ss_lookup. by destruct (ss_sockets s !! handle) as [[item|]|]. Qed.

(** What the items are put back to. *)
Lemma ss_set_items_ok s items : length items = length (ss_items s) -> ss_items (ss_set_items s items) = items.
Proof.
  unfold ss_items, ss_set_items. cbn. generalize (ss_sockets s). intros slots. revert items. induction slots as [|[item|] slots IH]; intros items Hl; cbn in *.
  - by destruct items.
  - destruct items as [|i items]; [done|]. cbn. f_equal. apply IH. by injection Hl.
  - by apply IH.
Qed.
End Facts.

(** ** Property *)

(** C13: The socket set is a finite map from handles to sockets.  [add] takes a handle that was free,
    [get] gives the added socket back under it, no other handle is affected, and only a full set of
    fixed size refuses it, with a panic; [remove] gives the socket back and frees its handle alone;
    both panic for a handle that is free, and the sockets know their handles all along. *)
Theorem socket_set_is_map {T} `{SocketKindLaws T} s (socket : T) :
  ss_wf s ->
  match socket_set_add s socket with
  | Ret (s', h) => ss_wf s' /\ ss_lookup s h = None /\ socket_set_get s' h = Ret socket /\ forall h', h' <> h -> ss_lookup s' h' = ss_lookup s h'
  | Panic => ss_owned s = false /\ forall h, (h < length (ss_sockets s))%nat -> is_Some (ss_lookup s h)
  end /\
  forall h, match ss_lookup s h with
  | Some item => exists s', socket_set_remove s h = Ret (s', it_socket item) /\ ss_wf s' /\ ss_lookup s' h = None /\
      forall h', h' <> h -> ss_lookup s' h' = ss_lookup s h'
  | None => socket_set_remove s h = Panic /\ @socket_set_get T _ s h = Panic
  end.
Proof.
  intros Hw. split.
  - pose proof (socket_set_add_ok s socket) as Ha. destruct (socket_set_add s socket) as [[s' h]|]; [|done]. destruct Ha as [Hn Hl].
    split; [|split; [done|split]].
    + intros h' item. rewrite Hl. destruct (decide (h' = h)) as [->|]; [by intros [= <-] | apply Hw].
    + rewrite socket_set_get_ok, Hl, decide_True by done. cbn. by rewrite downcast_upcast.
    + intros h' Hne. by rewrite Hl, decide_False.
  - intros h. pose proof (socket_set_remove_ok s h) as Hr. rewrite socket_set_get_ok. destruct (ss_lookup s h) as [item|] eqn:E; [|done].
    destruct Hr as (s' & Er & Hl). exists s'. split; [done|]. split; [|split].
    + intros h' item'. rewrite Hl. destruct (decide (h' = h)); [done | apply Hw].
    + by rewrite Hl, decide_True.
    + intros h' Hne. by rewrite Hl, decide_False.
Qed.
