(* ===== verification/IfacePoll.v ===== *)
(** * The polling loop (iface/interface/mod.rs, multicast.rs)

    [poll] receives what the device has, and sends what is due: the fragments of a packet, the
    reports of the multicast protocols, and the packets of the sockets.  [poll_at] says when it is to
    be called again. *)

From stdpp Require Import gmap.
From S2P Require Import Prelude ByteOrder TimeModel TcpTimers IpTypes Checksum TcpRepr IfaceContext Ipv4Addr Ipv6Addr Heapless Route Neighbor Fragmentation EthernetArp Icmpv6Packet MldWire Icmpv6Wire TcpSocket UdpSocket IgmpWire Ipv6ExtWire UdpWire RawSocket IcmpSocket IfacePacket Iface Multicast IfaceEgress TcpDispatch IfaceTcp IfaceIngress SocketSet.

(** ** The device (phy/mod.rs) *)

(** The trait [Device].  What a device returns may depend on the frames that it was given so far: a
    token that is consumed changes the device.  The capabilities are those that the interface read
    when it was made. *)
Class Device (D : Type) : Type := {
  dev_receive : D -> list (PacketMeta * list Z) -> Instant -> D * option (PacketMeta * list Z * TxToken);
  dev_transmit : D -> list (PacketMeta * list Z) -> Instant -> D * option TxToken;
}.

Inductive PollResult : Type := PollUnchanged | SocketStateChanged.
Inductive PollIngressSingleResult : Type := NoPacket | PacketProcessed | PacketChangedSockets.
Inductive EgressError : Type := EgressExhausted | EgressDispatch.

Section Poll.
Context {cfg : BuildConfig} `{NetworkEndian}.
Context `{LinearMap Address GroupState} `{LinearMap Address Neighbor} `{HeaplessVec Route} `{HeaplessVec Ipv6OptionRepr}.
Context {D : Type} `{!Device D}.

(** The link layer IEEE 802.15.4: [dispatch_ieee802154], [process_ieee802154], [sixlowpan_egress]. *)
Variable dispatch_ieee802154 : Egress -> Ieee802154Address -> TxToken -> PacketMeta -> Packet -> res Egress.
Variable process_ieee802154 : InterfaceInner -> list AnySocket -> PacketMeta -> list Z -> FragmentsBuffer ->
  res (InterfaceInner * list AnySocket * FragmentsBuffer * option Packet).
Variable sixlowpan_egress : Egress -> option TxToken -> res Egress.

(** [Interface] with the device that it is polled with: the inner part and the fragmenter are in
    [in_egress], with the frames that were sent. *)
Record Interface : Type := mkInterface {
  in_egress : Egress;
  in_fragments : FragmentsBuffer;
  in_device : D;
}.
Implicit Types (p : Interface) (sockets : SocketSet).

Definition in_inner p : InterfaceInner := eg_inner (in_egress p).
Definition in_fragmenter p : Fragmenter := eg_frag (in_egress p).
#[export] Instance interface_context : HasContext Interface := fun p => if_cx (in_inner p).

Definition in_set_egress p e : Interface := mkInterface e (in_fragments p) (in_device p).
Definition in_set_inner p i : Interface := in_set_egress p (eg_set_inner (in_egress p) i).
Definition in_set_fragments p f : Interface := mkInterface (in_egress p) f (in_device p).
Definition in_set_device p d : Interface := mkInterface (in_egress p) (in_fragments p) d.
Definition in_set_now p (now : Instant) : Interface := in_set_inner p (if_set_now (in_inner p) now).

(** [device.transmit(self.inner.now)]. *)
Definition transmit p : Interface * option TxToken :=
  let '(d, o) := dev_transmit (in_device p) (eg_sent (in_egress p)) (if_now (in_inner p)) in (in_set_device p d, o).

Definition dispatch_with p (tx_token : TxToken) (meta : PacketMeta) (packet : Packet) : res (Interface * result unit DispatchError) :=
  '(e, r) ← dispatch_ip dispatch_ieee802154 (in_egress p) tx_token meta packet; Ret (in_set_egress p e, r).

(** [.unwrap()] of a result. *)
Definition unwrap {A E} (r : result A E) : res A := match r with Ok a => Ret a | Err _ => Panic end.

(** ** Multicast reports (multicast.rs) *)

(** A packet of the multicast protocols is sent when the device has room: whether it has. *)
Definition send_report p (pkt : Packet) : res (Interface * bool) :=
  match transmit p with
  | (p, None) => Ret (p, false)
  | (p, Some tx_token) => '(p, r) ← dispatch_with p tx_token meta_default pkt; _ ← unwrap r; Ret (p, true)
  end.

Definition join_packet i (addr : Address) : res (option Packet) :=
  match addr with
  | Ipv4 addr => Ret (igmp_report_packet i IgmpVersion2 addr)
  | Ipv6 addr => mldv2_report_packet i [address_record_new ChangeToInclude addr]
  end.

Definition leave_packet i (addr : Address) : res (option Packet) :=
  match addr with
  | Ipv4 addr => Ret (igmp_leave_packet i addr)
  | Ipv6 addr => mldv2_report_packet i [address_record_new ChangeToExclude addr]
  end.

(** The first group in a state. *)
Definition find_group i (state : GroupState) : option Address :=
  option_map fst (List.find (fun g => bool_decide (snd g = state)) (lm_iter (mc_groups (if_multicast i)))).

(** A report that there is no packet for counts as sent. *)
Definition send_optional p (pkt : option Packet) : res (Interface * bool) :=
  match pkt with Some pkt => send_report p pkt | None => Ret (p, true) end.

Fixpoint multicast_joins (fuel : nat) p : res Interface :=
  match find_group (in_inner p) GroupJoining with
  | None => Ret p
  | Some addr =>
      match fuel with
      | O => Panic
      | S fuel =>
          pkt ← join_packet (in_inner p) addr;
          '(p, sent) ← send_optional p pkt;
          if negb sent then Ret p
          else
            let '(groups, r) := lm_insert (mc_groups (if_multicast (in_inner p))) addr GroupJoined in
            _ ← unwrap r;
            multicast_joins fuel (in_set_inner p (if_set_groups (in_inner p) groups))
      end
  end.

Fixpoint multicast_leaves (fuel : nat) p : res Interface :=
  match find_group (in_inner p) GroupLeaving with
  | None => Ret p
  | Some addr =>
      match fuel with
      | O => Panic
      | S fuel =>
          pkt ← leave_packet (in_inner p) addr;
          '(p, sent) ← send_optional p pkt;
          if negb sent then Ret p
          else
            let groups := fst (lm_remove (mc_groups (if_multicast (in_inner p))) addr) in
            multicast_leaves fuel (in_set_inner p (if_set_groups (in_inner p) groups))
      end
  end.

(** The report that a query of IGMP asks for, when its time has come. *)
Definition igmp_report p : res Interface :=
  match mc_igmp_report_state (if_multicast (in_inner p)) with
  | IgmpToSpecificQuery version timeout group =>
      if timeout <=? if_now (in_inner p) then
        match igmp_report_packet (in_inner p) version group with
        | Some pkt =>
            '(p, sent) ← send_report p pkt;
            Ret (if sent : bool then in_set_inner p (if_set_igmp (in_inner p) IgmpInactive) else p)
        | None => Ret p
        end
      else Ret p
  | IgmpToGeneralQuery version timeout interval next_index =>
      if timeout <=? if_now (in_inner p) then
        match omap (fun a => match a with Ipv4 addr => Some addr | Ipv6 _ => None end) (groups_of is_ipv4 (in_inner p)) !! next_index with
        | Some addr =>
            match igmp_report_packet (in_inner p) version addr with
            | Some pkt =>
                '(p, sent) ← send_report p pkt;
                if (sent : bool) then
                  t ← instant_add timeout interval;
                  let next_timeout := Z.max t (if_now (in_inner p)) in
                  Ret (in_set_inner p (if_set_igmp (in_inner p) (IgmpToGeneralQuery version next_timeout interval (S next_index))))
                else Ret p
            | None => Ret p
            end
        | None => Ret (in_set_inner p (if_set_igmp (in_inner p) IgmpInactive))
        end
      else Ret p
  | IgmpInactive => Ret p
  end.

(** The report that a query of MLD asks for; it is not repeated when the device had no room. *)
Definition mld_report p : res Interface :=
  let send records :=
    pkt ← mldv2_report_packet (in_inner p) records;
    '(p, _) ← send_optional p pkt;
    Ret (in_set_inner p (if_set_mld (in_inner p) MldInactive)) in
  match mc_mld_report_state (if_multicast (in_inner p)) with
  | MldToGeneralQuery timeout =>
      if timeout <=? if_now (in_inner p) then
        send (omap (fun a => match a with Ipv6 addr => Some (address_record_new ModeIsExclude addr) | Ipv4 _ => None end)
                (groups_of (fun a => negb (is_ipv4 a)) (in_inner p)))
      else Ret p
  | MldToSpecificQuery group timeout =>
      if timeout <=? if_now (in_inner p) then send [address_record_new ModeIsExclude group] else Ret p
  | MldInactive => Ret p
  end.

(** Each turn of the loops changes the state of a group. *)
Definition multicast_egress p : res Interface :=
  p ← multicast_joins (length (lm_iter (mc_groups (if_multicast (in_inner p))))) p;
  p ← multicast_leaves (length (lm_iter (mc_groups (if_multicast (in_inner p))))) p;
  p ← igmp_report p;
  mld_report p.

(** ** The sockets (mod.rs) *)

(** What sending for a socket leaves behind: the variables [neighbor_addr] and [result]. *)
Record Responding : Type := mkResponding {
  re_interface : Interface;
  re_neighbor_addr : option Address;
  re_result : PollResult;
}.
Implicit Types (r : Responding).
#[export] Instance responding_context : HasContext Responding := fun r => the_context (re_interface r).

Definition re_set_interface r p : Responding := mkResponding p (re_neighbor_addr r) (re_result r).

(** The closure [respond]. *)
Definition respond r (meta : PacketMeta) (response : Packet) : res (Responding * result unit EgressError) :=
  let neighbor_addr := Some (ip_dst_addr (packet_ip_repr response)) in
  match transmit (re_interface r) with
  | (p, None) => Ret (mkResponding p neighbor_addr (re_result r), Err EgressExhausted)
  | (p, Some t) =>
      '(p, o) ← dispatch_with p t meta response;
      match o with
      | Err _ => Ret (mkResponding p neighbor_addr (re_result r), Err EgressDispatch)
      | Ok _ => Ret (mkResponding p neighbor_addr SocketStateChanged, Ok tt)
      end
  end.

(** The [match] on the kind of the socket. *)
Definition socket_dispatch r (socket : AnySocket) : res (Responding * AnySocket * result unit EgressError) :=
  match socket with
  | OtherItem (OtherRaw socket) =>
      '(socket, r, o) ← raw_dispatch (fun r '(ip, raw) => respond r meta_default (packet_new ip (PayloadRaw raw)))
                          socket r (if_checksum (in_inner (re_interface r)));
      Ret (r, OtherItem (OtherRaw socket), o)
  | OtherItem (OtherIcmp socket) =>
      '(socket, r, o) ← icmp_dispatch (fun r response =>
          match response with
          | (Ipv4Repr ipv4_repr, IcmpV4 icmpv4_repr) => respond r meta_default (packet_new_ipv4 ipv4_repr (PayloadIcmpv4 icmpv4_repr))
          | (Ipv6Repr ipv6_repr, IcmpV6 icmpv6_repr) => respond r meta_default (packet_new_ipv6 ipv6_repr (PayloadIcmpv6 icmpv6_repr))
          | _ => Panic
          end) socket r;
      Ret (r, OtherItem (OtherIcmp socket), o)
  | OtherItem (OtherUdp socket) =>
      '(socket, r, o) ← udp_dispatch (fun r meta '(ip, udp, payload) => respond r meta (packet_new ip (PayloadUdp udp payload))) socket r;
      Ret (r, OtherItem (OtherUdp socket), o)
  | TcpItem socket =>
      '(r, socket, o) ← dispatch r socket (fun r '(ip, tcp) => respond r meta_default (packet_new ip (PayloadTcp tcp)));
      Ret (r, TcpItem socket, o)
  end.

(** The loop over the sockets. *)
Fixpoint egress_items r (items : list Item) : res (Responding * list Item) :=
  match items with
  | [] => Ret (r, [])
  | item :: items =>
      let i := in_inner (re_interface r) in
      '(meta, permitted) ← meta_egress_permitted (it_meta item) (if_now i) (if_has_neighbor i);
      if negb permitted then '(r, items) ← egress_items r items; Ret (r, mkItem meta (it_socket item) :: items)
      else
        '(r, socket, o) ← socket_dispatch (mkResponding (re_interface r) None (re_result r)) (it_socket item);
        match o with
        | Err EgressExhausted => Ret (r, mkItem meta socket :: items)
        | Err EgressDispatch =>
            match re_neighbor_addr r with
            | None => Panic
            | Some neighbor_addr =>
                meta ← meta_neighbor_missing meta (if_now (in_inner (re_interface r))) neighbor_addr;
                '(r, items) ← egress_items r items; Ret (r, mkItem meta socket :: items)
            end
        | Ok _ => '(r, items) ← egress_items r items; Ret (r, mkItem meta socket :: items)
        end
  end.

Definition socket_egress p sockets : res (Interface * SocketSet * PollResult) :=
  '(r, items) ← egress_items (mkResponding p None PollUnchanged) (ss_items sockets);
  Ret (re_interface r, ss_set_items sockets items, re_result r).

(** ** Receiving *)

Definition ingress_done p sockets (i : InterfaceInner) (socks : list AnySocket) (frag : FragmentsBuffer) : Interface * SocketSet :=
  (in_set_fragments (in_set_inner p i) frag, ss_set_sockets sockets socks).

(** An answer that cannot be sent is dropped. *)
Definition socket_ingress p sockets : res (Interface * SocketSet * PollIngressSingleResult) :=
  let '(d, o) := dev_receive (in_device p) (eg_sent (in_egress p)) (if_now (in_inner p)) in
  let p := in_set_device p d in
  match o with
  | None => Ret (p, sockets, NoPacket)
  | Some (rx_meta, frame, tx_token) =>
      if bool_decide (frame = []) then Ret (p, sockets, PacketProcessed)
      else
        match cx_medium (if_cx (in_inner p)) with
        | MediumEthernet =>
            '(i, socks, frag, packet) ← process_ethernet (in_inner p) (ss_sockets_of sockets) rx_meta frame (in_fragments p);
            let '(p, sockets) := ingress_done p sockets i socks frag in
            match packet with
            | None => Ret (p, sockets, PacketChangedSockets)
            | Some packet =>
                '(e, _) ← dispatch_ethernet_packet dispatch_ieee802154 (in_egress p) tx_token packet;
                Ret (in_set_egress p e, sockets, PacketChangedSockets)
            end
        | MediumIp | MediumIeee802154 =>
            '(i, socks, frag, packet) ← (match cx_medium (if_cx (in_inner p)) with
                                          | MediumIeee802154 => process_ieee802154
                                          | _ => process_ip
                                          end) (in_inner p) (ss_sockets_of sockets) rx_meta frame (in_fragments p);
            let '(p, sockets) := ingress_done p sockets i socks frag in
            match packet with
            | None => Ret (p, sockets, PacketChangedSockets)
            | Some packet => '(p, _) ← dispatch_with p tx_token meta_default packet; Ret (p, sockets, PacketChangedSockets)
            end
        end
  end.

(** ** Polling *)

Definition remove_expired p (timestamp : Instant) : Interface :=
  in_set_fragments p (mkFragmentsBuffer (pas_remove_expired (fb_assembler (in_fragments p)) timestamp) (fb_reassembly_timeout (in_fragments p))).

Definition poll_ingress_single p (timestamp : Instant) sockets : res (Interface * SocketSet * PollIngressSingleResult) :=
  socket_ingress (remove_expired (in_set_now p timestamp) timestamp) sockets.

(** The part of [ipv4_egress] that asks the device for a token, which it does only when a fragment is due. *)
Definition fragment_due (f : Fragmenter) : bool :=
  negb (fragmenter_finished f) && negb (fragmenter_is_empty f) && (fg_sent_bytes f <? fg_packet_len f).

Definition fragments_egress p : res Interface :=
  let '(p, o) := if fragment_due (in_fragmenter p) then transmit p else (p, None) in
  e ← (match cx_medium (if_cx (in_inner p)) with
       | MediumIeee802154 => sixlowpan_egress (in_egress p) o
       | _ => ipv4_egress (in_egress p) o
       end);
  Ret (in_set_egress p e).

Definition poll_egress p (timestamp : Instant) sockets : res (Interface * SocketSet * PollResult) :=
  let p := in_set_now p timestamp in
  p ← fragments_egress p;
  p ← multicast_egress p;
  socket_egress p sockets.

(** The loop over the received packets. *)
Fixpoint ingress_loop (fuel : nat) p sockets (r : PollResult) : res (Interface * SocketSet * PollResult) :=
  '(p, sockets, o) ← socket_ingress p sockets;
  match o with
  | NoPacket => Ret (p, sockets, r)
  | PacketProcessed => match fuel with O => Panic | S fuel => ingress_loop fuel p sockets r end
  | PacketChangedSockets => match fuel with O => Panic | S fuel => ingress_loop fuel p sockets SocketStateChanged end
  end.

(** [fuel]: the number of packets that the device has. *)
Definition poll (fuel : nat) p (timestamp : Instant) sockets : res (Interface * SocketSet * PollResult) :=
  let p := remove_expired (in_set_now p timestamp) timestamp in
  '(p, sockets, r) ← ingress_loop fuel p sockets PollUnchanged;
  '(p, sockets, o) ← poll_egress p timestamp sockets;
  Ret (p, sockets, match o with SocketStateChanged => SocketStateChanged | PollUnchanged => r end).

(** ** When to poll again *)

(** [Socket::poll_at]. *)
Definition socket_poll_at (cx : Context) (socket : AnySocket) : res PollAt :=
  match socket with
  | OtherItem (OtherRaw s) => Ret (raw_poll_at s)
  | OtherItem (OtherIcmp s) => Ret (icmp_poll_at s)
  | OtherItem (OtherUdp s) => Ret (udp_poll_at s)
  | TcpItem s => poll_at cx s
  end.

(** The closure of [filter_map]. *)
Definition item_poll_at (i : InterfaceInner) (item : Item) : res (option Instant) :=
  socket_poll_at ← socket_poll_at (if_cx i) (it_socket item);
  t ← meta_poll_at (it_meta item) socket_poll_at (if_has_neighbor i);
  Ret (match t with PollIngress => None | PollTime instant => Some instant | PollNow => Some 0 end).

(** [min], of instants that are there. *)
Definition min_instant (a b : option Instant) : option Instant :=
  match a, b with Some a, Some b => Some (Z.min a b) | Some a, None => Some a | None, b => b end.

Fixpoint items_poll_at (i : InterfaceInner) (items : list Item) : res (option Instant) :=
  match items with
  | [] => Ret None
  | item :: items => a ← item_poll_at i item; b ← items_poll_at i items; Ret (min_instant a b)
  end.

Definition interface_poll_at p (timestamp : Instant) sockets : res (Interface * option Instant) :=
  let p := in_set_now p timestamp in
  if negb (fragmenter_is_empty (in_fragmenter p)) then Ret (p, Some 0)
  else t ← items_poll_at (in_inner p) (ss_items sockets); Ret (p, t).

Definition interface_poll_delay p (timestamp : Instant) sockets : res (Interface * option Duration) :=
  '(p, o) ← interface_poll_at p timestamp sockets;
  match o with
  | Some poll_at => if timestamp <? poll_at then d ← instant_sub poll_at timestamp; Ret (p, Some d) else Ret (p, Some 0)
  | None => Ret (p, None)
  end.
End Poll.
