(* ===== verification/IfaceFragments.v ===== *)
(** * Reassembly of arbitrary fragments

    [Fragmentation] shows what fragments of a packet are reassembled to.  Here the fragments are
    any bytes that arrive: reassembly does not panic, and what it returns are octets of bounded
    number. *)

From stdpp Require Import gmap.
From S2P Require Import Prelude SeqNumber Assembler TimeModel TcpTimers IpTypes ByteOrder Checksum Ipv4Wire Fragmentation IfaceContext Ipv4Addr Heapless Route Neighbor TcpSocket IfacePacket Iface Multicast TcpInvariant IfaceIngress.

(** The number of octets that a packet can carry behind the smallest header. *)
Definition MAX_PAYLOAD : Z := 65515.

(** An assembler whose octets have come from anywhere. *)
Definition pa_safe {K} (p : PacketAssembler K) : Prop :=
  asm_wf (pa_assembler p) /\ bytes_ok (pa_buffer p) /\ Zlen (pa_buffer p) <= MAX_PAYLOAD /\
  forall n, pa_total_size p = Some n -> 0 <= n <= Zlen (pa_buffer p).

(** A fragment that does not reach beyond the largest packet. *)
Definition fragment_safe {K} (r : Fragment K) : Prop :=
  bytes_ok (fr_payload r) /\ 0 <= fr_frag_offset r /\ 0 <= fr_header_len r /\
  fr_total_len r = fr_header_len r + Zlen (fr_payload r) /\ fr_total_len r <= u16_max /\
  fr_frag_offset r + Zlen (fr_payload r) <= MAX_PAYLOAD.

Lemma bytes_ok_bool bs : forallb (fun b => (0 <=? b) && (b <=? 255)) bs = true -> bytes_ok bs.
Proof. intros Hb. apply Forall_forall. intros x Hx. rewrite forallb_forall in Hb. specialize (Hb x Hx). mlia. Qed.

Lemma bytes_ok_replicate n : bytes_ok (replicate n 0).
Proof. induction n as [|n IH]; cbn; [constructor|]. constructor; [done | exact IH]. Qed.

Lemma Zlen_replicate {A} n (x : A) : Zlen (replicate n x) = Z.of_nat n.
Proof. unfold Zlen. by rewrite length_replicate. Qed.

Lemma splice_bytes_ok dst k src : bytes_ok dst -> bytes_ok src -> bytes_ok (splice dst k src).
Proof. intros Hd Hs. unfold splice. rewrite !bytes_ok_app. split; [by apply bytes_ok_take|]. split; [done | by apply bytes_ok_drop]. Qed.

Section Safe.
Context {K : Type} `{EqDecision K}.
Implicit Types (p : PacketAssembler K) (s : list (PacketAssembler K)).

Lemma grow_safe buffer n :
  bytes_ok buffer -> 0 <= n <= MAX_PAYLOAD ->
  wp (if Zlen buffer <? n then vec_resize buffer n else Ret buffer) (fun b => bytes_ok b /\ Zlen b = Z.max (Zlen buffer) n).
Proof.
  intros Hb Hn. unfold MAX_PAYLOAD in Hn. destr_if; [|by split; [|lia]].
  rewrite vec_resize_ok by mlia. cbn [wp]. rewrite bytes_ok_app, Zlen_app, Zlen_replicate.
  split; [split; [done | apply bytes_ok_replicate] | lia].
Qed.

Lemma pa_set_total_size_safe p size :
  pa_safe p -> 0 <= size <= MAX_PAYLOAD -> wp (pa_set_total_size p size) (fun '(p', r) => pa_safe p').
Proof.
  intros (Ha & Hb & Hl & Ht) Hn. unfold pa_set_total_size. destr_if; [by split_and!|].
  wp_bind_with (grow_safe (pa_buffer p) size Hb Hn). intros b [Hbb Hz]. cbn [wp]. unfold pa_safe. cbn.
  split; [done|]. split; [done|]. split; [lia|]. intros n [= <-]. lia.
Qed.

Lemma pa_add_safe p data offset :
  pa_safe p -> bytes_ok data -> 0 <= offset -> offset + Zlen data <= MAX_PAYLOAD ->
  wp (pa_add p data offset) (fun '(p', r) => pa_safe p').
Proof.
  intros (Ha & Hb & Hl & Ht) Hd Ho Hm. pose proof (Zlen_nonneg data). unfold MAX_PAYLOAD in *. unfold pa_add.
  unfold usize_add. rewrite checked_ok by mlia. ret_step.
  wp_bind_with (grow_safe (pa_buffer p) (offset + Zlen data) Hb); [unfold MAX_PAYLOAD; lia|]. intros b [Hbb Hz].
  rewrite copy_into_ok by lia. ret_step.
  wp_bind_with (asm_add_ok (pa_assembler p) offset (Zlen data) Ha Ho); [lia | mlia |]. intros [a r] (Haw & _). cbn [wp].
  unfold pa_safe. cbn. rewrite Zlen_splice by lia. split; [done|]. split; [by apply splice_bytes_ok|]. split; [unfold MAX_PAYLOAD; lia|].
  intros n Hn. destruct (Ht n Hn). lia.
Qed.

Lemma pa_reset_safe p : pa_safe p -> pa_safe (pa_reset p).
Proof. intros (Ha & Hb & Hl & _). destruct (asm_clear_wf _ Ha) as [Hc _]. by split_and!. Qed.

Lemma pa_assemble_safe p :
  pa_safe p -> wp (pa_assemble p) (fun '(p', o) => pa_safe p' /\ opt_prop (fun d => bytes_ok d /\ Zlen d <= MAX_PAYLOAD) o).
Proof.
  intros Hp. pose proof Hp as (Ha & Hb & Hl & Ht). unfold pa_assemble, pa_is_complete. rewrite bind_assoc.
  wp_bind_with (asm_peek_front_ok (pa_assembler p) Ha). intros n _. rewrite bind_Ret. destruct (bool_decide _) eqn:E; cbn [negb]; [|by split].
  apply bool_decide_eq_true in E. rewrite E. destruct (Ht n E) as [Hn0 Hn]. rewrite slice_ok by lia. ret_step. cbn [wp].
  split; [by apply pa_reset_safe|]. cbn. split; [by apply bytes_ok_sub|]. rewrite Zlen_sub; lia.
Qed.

Lemma pa_receive_safe p (r : Fragment K) :
  pa_safe p -> fragment_safe r ->
  wp (pa_receive p r) (fun '(p', o) => pa_safe p' /\ opt_prop (fun d => bytes_ok d /\ Zlen d <= MAX_PAYLOAD) o).
Proof.
  intros Hp (Hb & Ho & Hh & Ht & Hm & Hf). pose proof (Zlen_nonneg (fr_payload r)). unfold pa_receive.
  eapply (wp_bind_mono _ _ (fun '(p', _) => pa_safe p')).
  { destruct (fr_more_frags r); cbn [negb]; [done|]. unfold usize_sub, usize_add. rewrite checked_ok by mlia. ret_step.
    unfold MAX_PAYLOAD in Hf. rewrite checked_ok by mlia. ret_step. apply pa_set_total_size_safe; [done|]. unfold MAX_PAYLOAD. lia. }
  intros [p' [[]|[]]] Hp'; [|by split]. wp_bind_with (pa_add_safe p' (fr_payload r) (fr_frag_offset r) Hp' Hb Ho Hf).
  intros [p2 [[]|[]]] Hp2; [|by split]. by apply pa_assemble_safe.
Qed.

Definition pas_safe s : Prop := Forall pa_safe s.

Lemma pas_get_safe s k e :
  pas_safe s -> match pas_get s k e with
                | (s', Ok i) => pas_safe s' /\ (i < length s')%nat
                | (s', Err _) => s' = s
                end.
Proof.
  intros Hs. unfold pas_get. pose proof (pas_find_ok s k 0 None) as Hf. destruct (pas_find s k 0 None) as [[i|] []]; try done.
  - destruct Hf as (p & Hp & _). rewrite Nat.sub_0_r in Hp. split; [done|]. by eapply lookup_lt_Some.
  - destruct Hf as [_ [[? _]|(p & Hp & _ & Hk)]]; [done|]. rewrite Nat.sub_0_r in Hp. rewrite (alter_insert s i p) by done.
    rewrite length_insert. split; [|by eapply lookup_lt_Some]. apply Forall_insert; [done|].
    assert (Hps : pa_safe p) by (by eapply Forall_lookup_1 in Hp). exact Hps.
Qed.

Lemma pas_receive_safe s now timeout (r : Fragment K) :
  pas_safe s -> fragment_safe r -> time_ok now -> time_ok timeout ->
  wp (pas_receive s now timeout r) (fun '(s', o) => pas_safe s' /\ opt_prop (fun d => bytes_ok d /\ Zlen d <= MAX_PAYLOAD) o).
Proof.
  intros Hs Hr Hn Ht. unfold pas_receive. rewrite instant_add_ok by (done || unfold time_ok in *; lia). ret_step. pose proof (pas_get_safe s (fr_key r) (now + timeout) Hs) as Hg.
  destruct (pas_get s (fr_key r) (now + timeout)) as [s' [i|e]]; [|by subst]. destruct Hg as [Hs' Hi].
  destruct (lookup_lt_is_Some_2 s' i Hi) as [p Hp]. rewrite (index_ok s' (Z.of_nat i) p) by (lia || by rewrite Nat2Z.id). ret_step.
  wp_bind_with (pa_receive_safe p r); [by eapply Forall_lookup_1 in Hp | done |]. intros [p' o] [Hp' Ho]. cbn [wp].
  split; [by apply Forall_insert | done].
Qed.

Lemma pas_remove_expired_safe s t : pas_safe s -> pas_safe (pas_remove_expired s t).
Proof.
  intros Hs. unfold pas_remove_expired. apply Forall_map. eapply Forall_impl; [|exact Hs]. intros p Hp. cbn beta. destr_if; [by apply pa_reset_safe | done].
Qed.
End Safe.
