(* ===== verification/IfaceInvariant.v ===== *)
(** * The interface's invariant and its sockets

    What the interface keeps while it receives, and what the loops over the sockets do with a
    packet. *)

From stdpp Require Import gmap.
From S2P Require Import Prelude SeqNumber PacketBuffer TimeModel TcpTimers IpTypes TcpRepr ByteOrder Checksum TcpWire Ipv4Wire Icmpv4Wire UdpWire Fragmentation IfaceContext Ipv4Addr Ipv6Addr Heapless Route Neighbor EthernetArp Ipv6Wire Icmpv6Packet NdiscWire MldWire Icmpv6Wire NdiscWireSpec Icmpv6WireSpec NdiscEmitSpec Icmpv6EmitSpec TcpSocket UdpSocket UdpSocketSpec Ipv6ExtWire IpWire PacketQueue RawSocket IcmpSocket IfacePacket Iface Multicast TcpInvariant TcpReplyLemmas TcpProcessLemmas TcpProcessSpec IfaceTcp IfaceIngress IfaceFragments.

Section Invariant.
Context `{LinearMap Address GroupState} `{LinearMap Address Neighbor} `{HeaplessVec Route}.
Implicit Types i : InterfaceInner.

(** ** The interface *)

(** [set_hardware_addr] and [Interface::new] set an address of the medium. *)
Definition hardware_fits (m : Medium) (a : HardwareAddress) : Prop :=
  match m, a with
  | MediumEthernet, HardwareEthernet o => ethernet_addr_ok o
  | MediumIp, HardwareIp => True
  | MediumIeee802154, HardwareIeee802154 (Extended o) => bytes_ok o /\ Zlen o = 8
  | _, _ => False
  end.

(** The neighbor cache has addresses of the medium. *)
Definition cache_fits (m : Medium) (c : Cache) : Prop :=
  map_Forall (fun _ n => hardware_fits m (nb_hardware_addr n)) (lm_map (ca_storage c)).

(** A gateway is a neighbor. *)
Definition gateway_ok (r : Route) : Prop := address_ok (rt_via_router r) /\ address_is_unicast (rt_via_router r) = true.

Record iface_wf i : Prop := {
  ifw_addrs : Forall cidr_ok (cx_ip_addrs (if_cx i));
  ifw_now : time_ok (if_now i);
  ifw_routes : Forall route_ok (hv_elems (if_routes i));
  ifw_gateways : Forall gateway_ok (hv_elems (if_routes i));
  ifw_hardware : hardware_fits (cx_medium (if_cx i)) (if_hardware_addr i);
  ifw_cache : cache_fits (cx_medium (if_cx i)) (if_neighbor_cache i);
}.

(** What receiving leaves alone: it changes the neighbor cache, the state of the multicast
    protocols and the random number generator. *)
Record same_config i i' : Prop := {
  sc_cx : same_cx (if_cx i) (if_cx i');
  sc_hardware : if_hardware_addr i' = if_hardware_addr i;
  sc_routes : if_routes i' = if_routes i;
  sc_any_ip : if_any_ip i' = if_any_ip i;
  sc_checksum : if_checksum i' = if_checksum i;
  sc_burst : if_max_burst_size i' = if_max_burst_size i;
  sc_ipv4_id : if_ipv4_id i' = if_ipv4_id i;
  sc_cache : cache_fits (cx_medium (if_cx i)) (if_neighbor_cache i) -> cache_fits (cx_medium (if_cx i)) (if_neighbor_cache i');
}.

Lemma same_config_refl i : same_config i i.
Proof. split; done || apply same_cx_refl. Qed.

Lemma same_config_trans i1 i2 i3 : same_config i1 i2 -> same_config i2 i3 -> same_config i1 i3.
Proof.
  intros [] []. assert (Hm : cx_medium (if_cx i2) = cx_medium (if_cx i1)) by apply sc_cx0. rewrite Hm in *.
  split; try congruence; [by eapply same_cx_trans | auto].
Qed.

Lemma same_config_wf i i' : same_config i i' -> iface_wf i -> iface_wf i'.
Proof.
  intros [(Hnow & Hm & _ & Ha & _) Hh Hr _ _ _ _ Hc] []. split; unfold if_now in *; rewrite ?Hr; [by rewrite Ha | by rewrite Hnow | done | done | by rewrite Hm, Hh | rewrite Hm; auto].
Qed.

Lemma set_cache_config i c : 
  (cache_fits (cx_medium (if_cx i)) (if_neighbor_cache i) -> cache_fits (cx_medium (if_cx i)) c) -> same_config i (if_set_neighbor_cache i c).
Proof. split; done || apply same_cx_refl. Qed.
Lemma set_multicast_config i m : same_config i (if_set_multicast i m).
Proof. split; done || apply same_cx_refl. Qed.
Lemma set_cx_config i cx : same_cx (if_cx i) cx -> same_config i (if_set_cx i cx).
Proof. by split. Qed.

Lemma cidrs_v6_ok i : iface_wf i -> cx_addrs_ok (if_cx i).
Proof.
  intros [Ha _ _ _]. unfold cx_addrs_ok. eapply Forall_impl; [|exact Ha]. intros [a p|a p]; [done|]. intros (Hb & Hl & _). split; [done|]. unfold Zlen in Hl. lia.
Qed.

(** ** The sockets *)

Definition other_wf (o : DatagramSocket) : Prop :=
  match o with OtherRaw s => raw_wf s | OtherIcmp s => icmp_wf s | OtherUdp s => udp_wf s end.

Definition any_wf (s : AnySocket) : Prop := match s with TcpItem s => sk_wf s | OtherItem o => other_wf o end.

(** A socket that a packet can be delivered to now. *)
Definition any_ready (cx : Context) (s : AnySocket) : Prop := any_wf s /\ socket_ready cx s.

Lemma ready_other cx o : any_ready cx (OtherItem o) <-> other_wf o.
Proof. split; [by intros [? _] | by split]. Qed.

Lemma any_ready_cx cx cx' s : same_cx cx cx' -> any_ready cx s -> any_ready cx' s.
Proof. intros (Hn & _) [Hw Hr]. split; [done|]. destruct s as [s|o]; [|done]. cbn in *. by rewrite Hn. Qed.

Lemma any_ready_wf cx s : any_ready cx s -> any_wf s.
Proof. by intros [? _]. Qed.
End Invariant.

Section Loops.
Context `{NetworkEndianLaws}.
Implicit Types sockets : list AnySocket.

(** *** Raw sockets *)

(** Each raw socket that accepts the packet gets it, and all others are as they were. *)
Definition raw_seen (caps : ChecksumCapabilities) (ip : IpRepr) (payload : list Z) (s s' : AnySocket) : Prop :=
  match s with
  | OtherItem (OtherRaw r) =>
      if raw_accepts r ip then exists r', s' = OtherItem (OtherRaw r') /\ raw_process r caps ip payload = Ret r' else s' = s
  | _ => s' = s
  end.

Definition raw_wants (ip : IpRepr) (s : AnySocket) : bool :=
  match s with OtherItem (OtherRaw r) => raw_accepts r ip | _ => false end.

Section Datagrams.
(** A property of sockets that says of those for datagrams that they are well formed. *)
Context (P : AnySocket -> Prop) (HP : forall o, P (OtherItem o) <-> other_wf o).

Lemma raw_socket_filter_ok caps sockets ip payload :
  Forall P sockets -> ip_repr_ok ip -> bytes_ok payload -> Zlen payload <= 131070 ->
  wp (raw_socket_filter caps sockets ip payload) (fun '(sockets', handled) =>
    Forall P sockets' /\ Forall2 (raw_seen caps ip payload) sockets sockets' /\ handled = existsb (raw_wants ip) sockets).
Proof.
  intros Hs Hip Hp Hl. induction Hs as [|s sockets Hsk Hs IH]; cbn [raw_socket_filter]; [by cbn; split; [constructor|]; split; [constructor|]|].
  assert (Hrest : raw_wants ip s = false -> wp ('(sockets, handled) ← raw_socket_filter caps sockets ip payload; Ret (s :: sockets, handled))
    (fun '(sockets', handled) => Forall P sockets' /\ Forall2 (raw_seen caps ip payload) (s :: sockets) sockets' /\
      handled = existsb (raw_wants ip) (s :: sockets))).
  { intros Hw. wp_bind_with IH. intros [sockets' handled] (Hr & H2 & ->). cbn [wp existsb]. rewrite Hw. split; [by constructor|]. split; [|done].
    constructor; [|done]. destruct s as [s|[r|r|r]]; try done. cbn in *. by rewrite Hw. }
  destruct s as [s|[r|r|r]]; try by apply Hrest. destruct (raw_accepts r ip) eqn:Ea; [|by apply Hrest].
  pose proof (proj1 (HP _) Hsk) as Hwf. cbn in Hwf.
  destruct (wp_Ret_inv _ _ (raw_process_ok r caps ip payload Hwf Ea Hip Hp ltac:(mlia))) as (r' & E & Hr' & _). rewrite E. ret_step.
  wp_bind_with IH. intros [sockets' handled] (Hr & H2 & ->). cbn [wp existsb raw_wants]. rewrite Ea. split; [constructor; [by apply HP | done]|].
  split; [|done]. constructor; [|done]. cbn. rewrite Ea. eauto.
Qed.

(** *** ICMP sockets *)

Definition icmp_seen (accepts_ : IcmpSocket -> res bool) (process_ : IcmpSocket -> res IcmpSocket) (s s' : AnySocket) : Prop :=
  match s with
  | OtherItem (OtherIcmp r) =>
      accepts_ r = Ret true /\ (exists r', s' = OtherItem (OtherIcmp r') /\ process_ r = Ret r') \/ accepts_ r = Ret false /\ s' = s
  | _ => s' = s
  end.

Lemma icmp_sockets_ok accepts_ process_ sockets :
  (forall s, icmp_wf s -> wp (accepts_ s) (fun _ => True)) ->
  (forall s, icmp_wf s -> accepts_ s = Ret true -> wp (process_ s) icmp_wf) ->
  Forall P sockets ->
  wp (icmp_sockets accepts_ process_ sockets) (fun '(sockets', _) =>
    Forall P sockets' /\ Forall2 (icmp_seen accepts_ process_) sockets sockets').
Proof.
  intros Ha Hp Hs. induction Hs as [|s sockets Hsk Hs IH]; cbn [icmp_sockets]; [by cbn|].
  assert (Hrest : icmp_seen accepts_ process_ s s -> wp ('(sockets, handled) ← icmp_sockets accepts_ process_ sockets; Ret (s :: sockets, handled))
    (fun '(sockets', _) => Forall P sockets' /\ Forall2 (icmp_seen accepts_ process_) (s :: sockets) sockets')).
  { intros Hse. wp_bind_with IH. intros [sockets' handled] (Hr & H2). cbn [wp]. split; by constructor. }
  destruct s as [s|[r|r|r]]; try by apply Hrest. pose proof (proj1 (HP _) Hsk) as Hwf. cbn in Hwf.
  destruct (wp_Ret_inv _ _ (Ha r Hwf)) as ([|] & Ea & _); rewrite Ea; ret_step; [|apply Hrest; by right].
  destruct (wp_Ret_inv _ _ (Hp r Hwf Ea)) as (r' & E & Hr'). rewrite E. ret_step.
  wp_bind_with IH. intros [sockets' handled] (Hr & H2). cbn [wp]. split; constructor; [by apply HP|done|left; eauto|done].
Qed.
End Datagrams.

(** The messages that ICMP sockets are interested in can be written to their buffers. *)
Lemma icmpv4_ok_emit n r : icmpv4_ok n r -> n <= MAX_PAYLOAD -> icmpv4_emit_ok r.
Proof.
  unfold MAX_PAYLOAD. intros Hr Hn. destruct r; cbn [icmpv4_ok icmpv4_emit_ok] in *.
  1-2: destruct Hr as (? & ? & ? & ?); split; [done|]; split; [done|]; split; [done | lia].
  all: destruct Hr as (? & ? & ? & ? & ? & ? & ?); split; [done|]; split; [done|]; split; [split; [done | lia] | done].
Qed.

Lemma addr4_ok a : ipv4_addr_ok a -> addr_ok (Ipv4 a).
Proof. intros [Hb Hl]. split; [done|]. cbn. unfold Zlen. lia. Qed.
Lemma addr6_ok a : ipv6_addr_ok a -> addr_ok (Ipv6 a).
Proof. intros [Hb Hl]. split; [done|]. cbn. unfold Zlen. lia. Qed.

Lemma icmp_accepts_v4_ok s caps ip n r : icmpv4_ok n r -> wp (icmp_accepts_v4 s caps ip r) (fun _ => True).
Proof.
  intros Hr. unfold icmp_accepts_v4.
  assert (Hq : forall l header data, ip_header_ok header -> bytes_ok data ->
    wp (if icmp_bound_to l (Ipv4 (iph_dst ip)) then icmp_quotes_port (lep_port l) (Ipv4 (iph_src header)) (Ipv4 (iph_dst header)) data caps else Ret false) (fun _ => True)).
  { intros l header data [Hsrc Hdst _ _ _] Hd. destr_if; [|done].
    eapply wp_mono; [by apply icmp_quotes_port_ok; [| | apply addr4_ok..]|]. done. }
  destruct (is_endpoint s), r; try done; cbn in Hr; apply Hq; tauto.
Qed.

Lemma icmp_accepts_v6_ok s caps ip n r : icmpv6_ok n r -> wp (icmp_accepts_v6 s caps ip r) (fun _ => True).
Proof.
  intros Hr. unfold icmp_accepts_v6.
  assert (Hq : forall l header data, ip6_header_ok header -> bytes_ok data ->
    wp (if icmp_bound_to l (Ipv6 (iph_dst ip)) then icmp_quotes_port (lep_port l) (Ipv6 (iph_src header)) (Ipv6 (iph_dst header)) data caps else Ret false) (fun _ => True)).
  { intros l header data [Hsrc Hdst _ _ _] Hd. destr_if; [|done].
    eapply wp_mono; [by apply icmp_quotes_port_ok; [| | apply addr6_ok..]|]. done. }
  destruct (is_endpoint s), r; try done; cbn in Hr; unfold quote6_ok in Hr; apply Hq; tauto.
Qed.

Lemma usize_add_Ret a b m : usize_add a b = Ret m -> m = a + b.
Proof. unfold usize_add, checked. destruct (_ && _); [by intros [= <-] | done]. Qed.

Lemma icmp_accepts_v6_emit s caps ip n r m :
  icmpv6_ok n r -> n <= u16_max -> icmp_accepts_v6 s caps ip r = Ret true -> icmpv6_buffer_len r = Ret m -> icmpv6_emit_ok r /\ 0 <= m <= 131070.
Proof.
  intros Hr Hn Ha Em. unfold icmp_accepts_v6 in Ha.
  assert (Hq : forall header data, quote6_ok n header data -> (k ← usize_add (8 + ipv6_buffer_len header) (Zlen data); Ret (Z.min k MAX_ERROR_PACKET_LEN)) = Ret m ->
    0 <= m <= 131070).
  { intros header data _ E. apply bind_Ret_inv in E as (k & E & [= <-]). apply usize_add_Ret in E as ->. pose proof (Zlen_nonneg data).
    change (ipv6_buffer_len header) with 40. unfold MAX_ERROR_PACKET_LEN, IPV6_MIN_MTU, IPV6_HEADER_LEN. lia. }
  destruct (is_endpoint s), r as [re header data|mtu header data|re header data|re ptr header data|id sq data|id sq data|r|r]; try done;
    cbn [icmpv6_ok icmpv6_emit_ok icmpv6_buffer_len] in *.
  1,2: destruct Hr as (Hu & Hinv & Hqo); apply usize_add_Ret in Em as ->; pose proof (Zlen_nonneg data); split; [split; [done|]; split; [done | apply Hqo] | mlia].
  1,2: destruct Hr as (Hu & Hinv & Hqo); split; [|by eapply Hq]; destruct Hqo as (? & ? & _); split; [done|]; split; [done | by split].
Qed.

(** *** UDP sockets *)

Definition udp_wants (cx : Context) (ip : IpRepr) (repr : UdpRepr) (s : AnySocket) : Prop :=
  match s with OtherItem (OtherUdp u) => udp_accepts u cx ip repr = Ret true | _ => False end.

(** The first socket that accepts the datagram gets it. *)
Definition udp_delivered (cx : Context) meta ip repr payload sockets sockets' (handled : bool) : Prop :=
  if handled then
    exists before u after u', sockets = before ++ OtherItem (OtherUdp u) :: after /\ sockets' = before ++ OtherItem (OtherUdp u') :: after /\
      Forall (fun s => ~ udp_wants cx ip repr s) before /\ udp_accepts u cx ip repr = Ret true /\ udp_process u cx meta ip repr payload = Ret u'
  else Forall (fun s => ~ udp_wants cx ip repr s) sockets /\ sockets' = sockets.

Lemma process_udp_sockets_ok cx meta sockets ip repr payload :
  Forall (any_ready cx) sockets -> Forall cidr_ok (cx_ip_addrs cx) ->
  wp (process_udp_sockets cx meta sockets ip repr payload) (fun '(sockets', handled) =>
    Forall (any_ready cx) sockets' /\ udp_delivered cx meta ip repr payload sockets sockets' handled).
Proof.
  intros Hs Hc. induction Hs as [|s sockets Hsk Hs IH]; cbn [process_udp_sockets]; [by cbn|].
  assert (Hrest : ~ udp_wants cx ip repr s -> wp ('(sockets, handled) ← process_udp_sockets cx meta sockets ip repr payload; Ret (s :: sockets, handled))
    (fun '(sockets', handled) => Forall (any_ready cx) sockets' /\ udp_delivered cx meta ip repr payload (s :: sockets) sockets' handled)).
  { intros Hw. wp_bind_with IH. intros [sockets' handled] (Hr & H2). cbn [wp]. split; [by constructor|]. destruct handled; cbn in *.
    - destruct H2 as (before & u & after & u' & -> & -> & Hb & ? & ?). exists (s :: before), u, after, u'. split_and!; try done. by constructor.
    - destruct H2 as [? ->]. split; [by constructor | done]. }
  destruct s as [s|[r|r|u]]; try (by apply Hrest; intros []). destruct Hsk as [Hwf Hre]. cbn in Hwf.
  destruct (udp_accepts_ok u cx ip repr Hc) as ([|] & Ea & _); rewrite Ea; ret_step.
  - pose proof (udp_arrives_step (Er := unit) u cx meta ip repr payload Hwf Hc) as Hst. cbn [udp_step] in Hst.
    rewrite Ea in Hst. ret_steps. cbv iota in Hst.
    destruct (udp_process u cx meta ip repr payload) as [u'|] eqn:Ep; [|done]. ret_step. cbn [wp]. destruct Hst as [Hw _].
    split; [constructor; [by apply ready_other | done]|]. exists [], u, sockets, u'. by split_and!.
  - apply Hrest. cbn. by rewrite Ea.
Qed.

(** *** TCP sockets *)

Lemma process_tcp_any_ok {cfg : BuildConfig} {cfg_ok : BuildConfigOk} caps cx sockets ip bs :
  Forall (any_ready cx) sockets -> time_ok (cx_now cx) -> ip_addrs_ok ip -> bytes_ok bs -> Zlen bs <= 131070 ->
  wp (process_tcp caps cx sockets ip bs) (fun '(cx', sockets', o) => Forall any_wf sockets' /\ same_cx cx cx' /\
    opt_prop (fun p => ip_dst_addr (fst p) = ip_src_addr ip /\ ip_src_addr (fst p) = ip_dst_addr ip) o).
Proof.
  intros Hs Hn Hip Hb Hl. assert (Hr : Forall (socket_ready cx) sockets) by (eapply Forall_impl; [|exact Hs]; by intros ? []).
  assert (Hw : Forall any_wf sockets) by (eapply Forall_impl; [|exact Hs]; by intros ? []).
  eapply wp_mono; [by apply process_tcp_ok|]. intros [[cx' sockets'] o] (Hwf & Hcx & Ho). unfold tcp_outcome in Ho.
  destruct (repr_parse bs _ _ caps) as [[r|]|]; [|by destruct Ho as (_ & -> & ->)..]. destruct Ho as [Ha Hd].
  split; [|split; [done|]].
  - destruct Hd as [(before & s & after & s' & -> & -> & _)|(_ & -> & _)]; [|done].
    apply Forall_app in Hw as [Hw1 Hw2]. inversion Hw2; subst. apply Forall_app in Hwf as [_ Hwf]. inversion Hwf; subst.
    apply Forall_app_2; [done|]. by constructor.
  - destruct o as [[ip' r']|]; [|done]. cbn in *. tauto.
Qed.
End Loops.
