(* ===== verification/IfaceEgressLemmas.v ===== *)
(** * What the transmission of a packet puts on the wire

    The payload of a packet, its IP header and its Ethernet header in the buffer of the device,
    and the hardware address that the frame goes to. *)

From stdpp Require Import gmap.
From S2P Require Import Prelude SeqNumber TimeModel IpTypes TcpRepr ByteOrder Checksum TcpWire Ipv4Wire Icmpv4Wire UdpWire IfaceContext Ipv4Addr Ipv6Addr Heapless Route Neighbor EthernetArp Ipv6Wire Icmpv6Packet NdiscWire MldWire Icmpv6Wire NdiscWireSpec Icmpv6WireSpec NdiscEmitSpec Icmpv6EmitSpec UdpSocket IgmpWire Ipv6ExtWire IpWire IcmpSocket IfacePacket Iface IfaceEgress TcpInvariant TcpWireLemmas TcpWireSpec IfaceInvariant.

(** ** Payloads *)

(** An ICMPv4 message that [emit] can write; a quote may be a part of the packet. *)
Definition icmpv4_writable (r : Icmpv4Repr) : Prop :=
  match r with
  | Icmpv4EchoRequest ident seq_no data | Icmpv4EchoReply ident seq_no data =>
      in_u16 ident /\ in_u16 seq_no /\ bytes_ok data /\ Zlen data <= 65507
  | Icmpv4DstUnreachable reason header data =>
      in_u8 (dst_unreachable_into reason) /\ ip_emit_ok header /\ bytes_ok data /\ Zlen data <= 65487
  | Icmpv4TimeExceeded reason header data =>
      in_u8 (time_exceeded_into reason) /\ ip_emit_ok header /\ bytes_ok data /\ Zlen data <= 65487
  end.

Section Payload.
Context `{NetworkEndianLaws} `{!LinearMap Address GroupState} `{!LinearMap Address Neighbor} `{!HeaplessVec Route}.
Context `{!HeaplessVec Ipv6OptionRepr} {options_max : nat} `{!HeaplessVecLaws Ipv6OptionRepr options_max}.

Lemma icmpv4_writable_len r : icmpv4_writable r ->
  exists n data, icmpv4_buffer_len r = Ret n /\ n = 8 + match r with Icmpv4EchoRequest _ _ _ | Icmpv4EchoReply _ _ _ => 0 | _ => 20 end + Zlen data /\
    data = match r with Icmpv4EchoRequest _ _ d | Icmpv4EchoReply _ _ d | Icmpv4DstUnreachable _ _ d | Icmpv4TimeExceeded _ _ d => d end.
Proof.
  intros Hr. destruct r as [i q d|i q d|re he d|re he d]; cbn [icmpv4_writable icmpv4_buffer_len] in *; pose proof (Zlen_nonneg d);
    unfold ipv4_buffer_len, IPV4_HEADER_LEN, usize_add; rewrite checked_ok by mlia; rewrite ?bind_Ret; rewrite ?checked_ok by mlia.
  all: eexists _, d; split; [reflexivity|]; split; [lia | done].
Qed.

Lemma icmpv4_emit_writes r buffer caps :
  icmpv4_writable r -> bytes_ok buffer -> icmpv4_buffer_len r = Ret (Zlen buffer) ->
  exists bs, icmpv4_emit r buffer caps = Ret bs /\ Zlen bs = Zlen buffer /\ bytes_ok bs.
Proof.
  intros Hr Hb Hl. destruct (icmpv4_writable_len r Hr) as (n & data & El & -> & Ed). rewrite Hl in El. injection El as El.
  pose proof (Zlen_nonneg data).
  destruct (icmp_hdr_view buffer Hb ltac:(destruct r; lia)) as (ty & code & ck & a & b & rest & -> & Hrest & Hty & Hco & Hck & Ha & Hbb).
  rewrite Zlen_icmp_hdr in *. unfold icmpv4_emit. rewrite icmp4_set_msg_code_ok by mlia. rewrite bind_Ret.
  assert (Hfin : forall m reason x y body, bytes_ok body -> Zlen body = Zlen rest -> Zlen rest <= 65535 ->
    exists bs, (if checksum_tx (caps_icmpv4 caps) then icmp4_fill_checksum (icmp_hdr (message_into m) reason ck x y body)
      else icmp4_set_checksum (icmp_hdr (message_into m) reason ck x y body) 0) = Ret bs /\ Zlen bs = 8 + Zlen rest /\ bytes_ok bs).
  { intros m reason x y body Hbo Hz Hm. destruct (icmp4_finish_ok (message_into m) reason ck x y body caps Hbo ltac:(lia) Hck) as (ck' & _ & E & _).
    exists (icmp_hdr (message_into m) reason ck' x y body). rewrite Zlen_icmp_hdr. split; [done|]. split; [lia | by apply icmp_hdr_bytes_ok]. }
  destruct r as [i q d|i q d|re he d|re he d]; subst data; cbn [icmpv4_writable] in Hr; cbv beta iota in El.
  1-2: destruct Hr as (Hi & Hq & Hd & Hd2); rewrite icmp4_emit_echo_ok by (done || mlia); rewrite bind_Ret; apply Hfin; [done | lia | lia].
  all: destruct Hr as (Hre & Hh & Hd & Hd2).
  - destruct (icmp4_emit_quote_ok ty 0 ck a b rest MsgDstUnreachable _ he d caps Hty ltac:(mlia) ltac:(by vm_compute) Hre Hh Hrest ltac:(lia)) as (ipck & _ & ->).
    rewrite bind_Ret. apply Hfin; [by apply ip4_emitted_bytes_ok | rewrite Zlen_ip4_emitted; lia | lia].
  - destruct (icmp4_emit_quote_ok ty 0 ck a b rest MsgTimeExceeded _ he d caps Hty ltac:(mlia) ltac:(by vm_compute) Hre Hh Hrest ltac:(lia)) as (ipck & _ & ->).
    rewrite bind_Ret. apply Hfin; [by apply ip4_emitted_bytes_ok | rewrite Zlen_ip4_emitted; lia | lia].
Qed.

Lemma icmpv6_emit_writes r src dst buffer caps :
  icmpv6_emit_ok r -> bytes_ok buffer -> icmpv6_buffer_len r = Ret (Zlen buffer) -> Zlen buffer <= 65535 ->
  ipv6_addr_ok src -> ipv6_addr_ok dst -> exists bs, icmpv6_emit r src dst buffer caps = Ret bs /\ Zlen bs = Zlen buffer /\ bytes_ok bs.
Proof.
  intros Hr Hb Hl Hm Hs Hd. destruct (icmpv6_emitted_ok r buffer Hr Hb Hl ltac:(lia)) as (ty & code & ck & body & Hem & Hbo & Hz & _).
  destruct (icmp6_finish_ok ty code ck body src dst caps Hbo ltac:(lia) Hs Hd) as (ck' & _ & Ef & _).
  exists (icmp6_msg ty code ck' body). rewrite icmpv6_emit_split, Hem. split; [ret_step; exact Ef|]. rewrite Zlen_icmp6_msg.
  split; [lia | by apply icmp6_msg_bytes_ok].
Qed.

(** *** The payload of a packet *)

(** A payload of the length that the header has, whose values fit their fields. *)
Definition payload_ok (ip : IpRepr) (payload : IpPayload) : Prop :=
  match payload with
  | PayloadIcmpv4 r => icmpv4_writable r /\ icmpv4_buffer_len r = Ret (ip_payload_len ip)
  | PayloadIgmp r => igmp_ok r /\ ip_payload_len ip = igmp_buffer_len r
  | PayloadIcmpv6 r => (exists h, ip = Ipv6Repr h) /\ icmpv6_emit_ok r /\ icmpv6_buffer_len r = Ret (ip_payload_len ip)
  | PayloadHopByHopIcmpv6 options r =>
      (exists h, ip = Ipv6Repr h) /\ Forall option6_ok (hv_elems options) /\
      exists records, r = Icmpv6Mld (MldReportRecords records) /\ Forall record_emit_ok records /\ Zlen records <= 3000 /\
        ip_payload_len ip = 2 + hbh_buffer_len options + (8 + 20 * Zlen records)
  | PayloadRaw d => bytes_ok d /\ Zlen d = ip_payload_len ip
  | PayloadUdp r d => udp_repr_ok r /\ bytes_ok d /\ ip_payload_len ip = 8 + Zlen d
  | PayloadTcp r => emit_ok r /\ ip_payload_len ip = tcp_buffer_len r
  end.

(** A packet that can be emitted. *)
Definition packet_ok (p : Packet) : Prop :=
  ip_repr_ok (packet_ip_repr p) /\ payload_ok (packet_ip_repr p) (packet_payload p) /\
  address_is_unspecified (ip_dst_addr (packet_ip_repr p)) = false.

(** The device has room for the headers, and the product of [burst_window] is computed in [usize]. *)
Record device_ok (caps : DeviceCapabilities) : Prop := {
  do_mtu : 114 <= dc_max_transmission_unit caps <= u32_max;
  do_burst : opt_prop (fun n => 0 <= n <= u16_max) (dc_max_burst_size caps);
}.

(** What the payload is, behind the IP header [ip]. *)
Definition payload_written (p : Packet) (ip : IpRepr) (caps : DeviceCapabilities) (payload : list Z) : Prop :=
  match packet_payload p with
  | PayloadRaw d => payload = d
  | PayloadUdp r d => exists ck, payload = udp_emitted r ck d [] /\
      (checksum_tx (caps_udp (dc_checksum caps)) = true -> udp_verify_checksum payload (ip_src_addr ip) (ip_dst_addr ip) = Ret true)
  | PayloadTcp r => exists r' ck, burst_window ip r caps = Ret r' /\ payload = emitted r' ck /\
      (checksum_tx (caps_tcp (dc_checksum caps)) = true -> pkt_verify_checksum payload (ip_src_addr ip) (ip_dst_addr ip) = Ret true)
  | _ => exists buffer, packet_emit_payload p ip buffer caps = Ret payload
  end.

(** The window is made smaller at most. *)
Lemma burst_window_ok ip r caps :
  device_ok caps -> emit_ok r -> wp (burst_window ip r caps) (fun r' => emit_ok r' /\ tcp_buffer_len r' = tcp_buffer_len r).
Proof.
  intros [Hm Hb] Hr. unfold burst_window. destruct (dc_max_burst_size caps) as [n|]; [|done]. cbn in Hb.
  pose proof (eo_header r Hr). destruct (tcp_header_len_bounds r) as [Ht _]. unfold TCP_HEADER_LEN in Ht.
  assert (Hh : 20 <= ip_header_len ip <= 40) by (destruct ip; cbn; unfold IPV4_HEADER_LEN, IPV6_HEADER_LEN; lia).
  rewrite usize_sub_ok by mlia. ret_step. rewrite usize_sub_ok by mlia. ret_step. set (k := _ - _ - _). assert (0 <= k <= u32_max) by (unfold k; mlia).
  rewrite checked_ok; [|unfold_max; split; [nia|]; transitivity (65535 * (2 ^ 32 - 1)); [nia | lia]].
  ret_step. destr_if; [|done]. cbn [wp]. split; [|done]. destruct Hr. split; try done. cbn. pose proof (wrap_u_range 16 (n * k)). mlia.
Qed.

Lemma ip_addrs_emit ip : ip_repr_ok ip ->
  addr_ok (ip_src_addr ip) /\ addr_ok (ip_dst_addr ip) /\ address_version (ip_src_addr ip) = address_version (ip_dst_addr ip) /\ in_u16 (ip_payload_len ip).
Proof.
  destruct ip as [h|h]; cbn.
  - intros [[Hs Hd _ Hp _] _]. split; [by apply addr4_ok|]. split; [by apply addr4_ok|]. by split.
  - intros [Hs Hd _ Hp _]. split; [by apply addr6_ok|]. split; [by apply addr6_ok|]. by split.
Qed.

Lemma options_concat_ok os : Forall option6_ok os -> bytes_ok (concat (map option6_bytes os)).
Proof.
  induction 1 as [|o os Ho _ IH]; [constructor|]. cbn. apply bytes_ok_app. split; [by apply option6_bytes_ok | done].
Qed.

(** The hop-by-hop header and the report behind it. *)
Lemma emit_hop_by_hop_ok options records h payload caps :
  ip6_header_ok h -> Forall option6_ok (hv_elems options) -> Forall record_emit_ok records -> Zlen records <= 3000 ->
  bytes_ok payload -> Zlen payload = 2 + hbh_buffer_len options + (8 + 20 * Zlen records) -> Zlen payload <= 65535 ->
  exists d, emit_hop_by_hop options (Icmpv6Mld (MldReportRecords records)) h payload caps = Ret d /\ bytes_ok d /\ Zlen d = Zlen payload.
Proof.
  intros [Hs Hd _ _ _] Ho Hr Hn Hb Hl Hm. pose proof (Zlen_nonneg records). destruct (options_len _ Ho) as [Hz _].
  unfold hbh_buffer_len in *. set (n := foldr _ 0 (hv_elems options)) in *.
  assert (Hn0 : 0 <= n) by (rewrite <- Hz; apply Zlen_nonneg). rewrite Hl in Hm.
  fields [1; 1]%nat payload l rest E Hrest. rewrite Zlen_app, Zlen_layout_bytes in Hl. change (layout_len _) with 2 in Hl.
  destruct (Zlen_split_at rest n ltac:(lia)) as (od & rd & -> & Hod). apply bytes_ok_app in Hrest as [Hob Hrb]. rewrite Zlen_app in Hl.
  unfold emit_hop_by_hop. change (ext_header_len _) with 2.
  assert (E1 : slice_mut (layout_bytes [(1%nat, z); (1%nat, z0)] ++ od ++ rd) 0 2 (ext_emit (mkIpv6ExtRepr PROTOCOL_ICMPV6 0 [])) =
    Ret (layout_bytes [(1%nat, 58); (1%nat, 0)] ++ od ++ rd)).
  { apply (slice_mut_mid [] (layout_bytes [(1%nat, z); (1%nat, z0)])); [done | done | | done].
    rewrite <- (app_nil_r (layout_bytes [(1%nat, z); (1%nat, z0)])). rewrite <- (app_nil_r (layout_bytes [(1%nat, 58); (1%nat, 0)])).
    unfold ext_emit, ext_set_next_header, ext_set_header_len. erewrite (layout_index_set 0) by (reflexivity || by vm_compute). ret_step.
    by erewrite (layout_index_set 1) by (reflexivity || by vm_compute). }
  rewrite E1. rewrite bind_Ret. change (hbh_buffer_len options) with n. rewrite usize_add_ok by mlia. rewrite bind_Ret.
  assert (Hp2 : Zlen (layout_bytes [(1%nat, 58); (1%nat, 0)]) = 2) by (by rewrite Zlen_layout_bytes).
  assert (E2 : hbh_emit options od = Ret (concat (map option6_bytes (hv_elems options)))).
  { unfold hbh_emit. rewrite hbh_emit_options_ok by (done || (fold n; lia)). fold n. rewrite drop_ge by (unfold Zlen in *; lia). by rewrite app_nil_r. }
  erewrite (slice_mut_mid _ od _ rd); [|by rewrite Hp2 | by rewrite Hod | exact E2 | unfold Zlen in *; lia]. rewrite bind_Ret.
  destruct (mld_report_writes records (iph_src h) (iph_dst h) rd (dc_checksum caps) Hr Hrb ltac:(lia) Hn Hs Hd) as (ck & _ & E3 & _).
  destruct (report_bytes_ok records ck) as [Hrpb Hrpl]. pose proof (options_concat_ok _ Ho) as Hopb.
  exists (layout_bytes [(1%nat, 58); (1%nat, 0)] ++ concat (map option6_bytes (hv_elems options)) ++ report_bytes records ck). split; [|split].
  - rewrite !app_assoc. rewrite <- (app_nil_r rd) at 1. rewrite <- (app_nil_r (report_bytes records ck)) at 1.
    apply slice_mut_mid; [rewrite Zlen_app; lia | rewrite ?app_nil_r, !Zlen_app; lia | exact E3 | unfold Zlen in *; lia].
  - do 2 (apply bytes_ok_app; split; [done || apply layout_bytes_ok|]). done.
  - assert (Zlen (layout_bytes [(1%nat, z); (1%nat, z0)]) = 2) by (by rewrite Zlen_layout_bytes). rewrite !Zlen_app. lia.
Qed.
Lemma emitted_bytes r ck : emit_ok r -> bytes_ok (emitted r ck) /\ Zlen (emitted r ck) = tcp_buffer_len r.
Proof.
  intros Hr. pose proof (Zlen_options_area r). unfold emitted, tcp_buffer_len. rewrite Zlen_hdr, Zlen_app. split; [|lia].
  apply hdr_bytes_ok, bytes_ok_app. split; [by apply options_area_bytes | apply (eo_payload r Hr)].
Qed.

Lemma emit_payload_ok p buffer caps :
  packet_ok p -> device_ok caps -> bytes_ok buffer -> Zlen buffer = ip_payload_len (packet_ip_repr p) ->
  exists d, packet_emit_payload p (packet_ip_repr p) buffer caps = Ret d /\ bytes_ok d /\ Zlen d = Zlen buffer /\
    payload_written p (packet_ip_repr p) caps d.
Proof.
  intros (Hip & Hp & _) Hdev Hb Hl. set (ip := packet_ip_repr p) in *. destruct (ip_addrs_emit ip Hip) as (Hs & Hd & Hv & Hlen).
  unfold payload_written, packet_emit_payload. destruct (packet_payload p) as [r|r|r|options r|d|r d|r]; cbn [payload_ok] in Hp.
  - destruct Hp as [Hr En]. destruct (icmpv4_emit_writes r buffer (dc_checksum caps) Hr Hb ltac:(by rewrite En, Hl)) as (bs & E & Hz & Hbs).
    exists bs. rewrite E. repeat (split; [done|]). by exists buffer.
  - destruct Hp as [Hr En]. destruct (igmp_emit_parse_ok r buffer Hr Hb ltac:(lia)) as (bs & E & Hz & Hbs & _).
    exists bs. rewrite E. repeat (split; [done|]). by exists buffer.
  - destruct Hp as ((h & Eh) & Hr & En). rewrite Eh in *. cbn [ipv6_repr_of]. rewrite bind_Ret. destruct Hip as [Hs6 Hd6 _ _ _].
    destruct (icmpv6_emit_writes r (iph_src h) (iph_dst h) buffer (dc_checksum caps) Hr Hb ltac:(by rewrite En, Hl) ltac:(mlia) Hs6 Hd6) as (bs & E & Hz & Hbs).
    exists bs. rewrite E. repeat (split; [done|]). by exists buffer.
  - destruct Hp as ((h & Eh) & Ho & records & -> & Hr & Hn & En). rewrite Eh in *. cbn [ipv6_repr_of]. rewrite bind_Ret.
    destruct (emit_hop_by_hop_ok options records h buffer caps Hip Ho Hr Hn Hb ltac:(lia) ltac:(mlia)) as (bs & E & Hbs & Hz).
    exists bs. rewrite E. repeat (split; [done|]). by exists buffer.
  - destruct Hp as [Hd1 Hd2]. exists d. rewrite copy_from_slice_ok by lia. repeat (split; [done || lia|]). done.
  - destruct Hp as (Hr & Hd1 & En). pose proof (Zlen_nonneg d).
    destruct (udp_emit_ok r buffer (ip_src_addr ip) (ip_dst_addr ip) d (fun buf => copy_from_slice buf d) (dc_checksum caps) Hb Hr Hd1 ltac:(lia) ltac:(mlia))
      as (ck & tail & E & Hck & Hbt & Hzt & Hver); [intros; by apply copy_from_slice_ok | done..|].
    assert (tail = []) as ->. { apply length_zero_iff_nil. rewrite Zlen_app in Hzt. unfold Zlen in *. lia. }
    exists (udp_emitted r ck d []). split; [exact E|]. rewrite app_nil_r in *.
    split; [unfold udp_emitted; by apply udp_hdr_bytes_ok; rewrite app_nil_r|]. split; [unfold udp_emitted; rewrite Zlen_udp_hdr, app_nil_r; lia|].
    exists ck. split; [done|]. intros Htx. by apply Hver.
  - destruct Hp as [Hr En]. destruct (wp_Ret_inv _ _ (burst_window_ok ip r caps Hdev Hr)) as (r' & Er & Hr' & Hbl). rewrite Er, bind_Ret.
    destruct (repr_emit_ok r' buffer (ip_src_addr ip) (ip_dst_addr ip) (dc_checksum caps) Hr' Hb ltac:(lia) Hv Hs Hd) as (ck & E & Hck & Hver).
    exists (emitted r' ck). split; [exact E|]. destruct (emitted_bytes r' ck Hr') as [Hbs Hz]. split; [done|]. split; [lia|]. by exists r', ck.
Qed.
End Payload.

(** ** Frames *)

Section Frame.
Context `{NetworkEndianLaws} `{!LinearMap Address GroupState} `{!LinearMap Address Neighbor} `{!HeaplessVec Route}.
Context `{!HeaplessVec Ipv6OptionRepr} {options_max : nat} `{!HeaplessVecLaws Ipv6OptionRepr options_max}.
Implicit Types (i : InterfaceInner) (e : Egress) (p : Packet).

Definition version_ethertype (v : Version) : Z := match v with Ipv4Version => 0x0800 | Ipv6Version => 0x86dd end.

(** The header of the frame on Ethernet; there is none on an IP medium. *)
Definition frame_header_len (m : Medium) : Z := match m with MediumEthernet => 14 | _ => 0 end.

(** The frame that carries [bs] to a hardware address. *)
Definition frame_carries i (dst : list Z) (ethertype : Z) (bs frame : list Z) : Prop :=
  match cx_medium (if_cx i) with
  | MediumEthernet => exists own, if_hardware_addr i = HardwareEthernet own /\ frame = dst ++ own ++ be_bytes 2 ethertype ++ bs
  | _ => frame = bs
  end.

(** The IP packet of [p]. *)
Definition ip_written i p (bs : list Z) : Prop :=
  exists payload, payload_written p (packet_ip_repr p) (if_caps i) payload /\ ip_packet_of (packet_ip_repr p) payload (if_checksum i) bs.

Lemma eth_hdr_app dst src ty rest : ethernet_addr_ok dst -> ethernet_addr_ok src ->
  eth_hdr (be_value dst) (be_value src) ty rest = dst ++ src ++ be_bytes 2 ty ++ rest.
Proof.
  intros Hd Hs. unfold eth_hdr, layout_bytes. cbn [mbind list_bind fst snd]. rewrite !be_value_eth by done.
  by rewrite app_nil_r, <- !app_assoc.
Qed.

Lemma emit_ip_ok i p buffer :
  packet_ok p -> device_ok (if_caps i) -> bytes_ok buffer ->
  Zlen buffer = ip_header_len (packet_ip_repr p) + ip_payload_len (packet_ip_repr p) ->
  exists bs, emit_ip i p (packet_ip_repr p) buffer = Ret bs /\ Zlen bs = Zlen buffer /\ ip_written i p bs.
Proof.
  intros Hp Hdev Hb Hl. pose proof Hp as (Hip & _ & _). destruct (ip_addrs_emit _ Hip) as (_ & _ & _ & Hn).
  assert (Hh : 0 <= ip_header_len (packet_ip_repr p)) by (by destruct (packet_ip_repr p)).
  destruct (ip_repr_emit_ok (packet_ip_repr p) buffer (if_checksum i) Hip Hb ltac:(mlia)) as (hdr & E & Hz & Hbh & Hof).
  unfold emit_ip. rewrite E, bind_Ret. set (rest := drop _ buffer) in *.
  assert (Hr : Zlen rest = ip_payload_len (packet_ip_repr p)) by (unfold rest, Zlen in *; rewrite length_drop; mlia).
  destruct (emit_payload_ok p rest (if_caps i) Hp Hdev ltac:(by apply bytes_ok_drop) Hr) as (d & Ed & Hbd & Hzd & Hw).
  exists (hdr ++ d). split; [|split].
  - rewrite Zlen_app, Hz. rewrite <- (app_nil_r rest), <- (app_nil_r d).
    apply slice_mut_mid; [done | rewrite ?app_nil_r; lia | exact Ed | unfold Zlen in *; lia].
  - rewrite Zlen_app. lia.
  - exists d. split; [done|]. by apply Hof.
Qed.

Lemma emit_frame_ok i dst v emit n tx_buffer (Q : list Z -> Prop) :
  iface_wf i -> cx_medium (if_cx i) <> MediumIeee802154 -> ethernet_addr_ok dst -> 0 <= n ->
  bytes_ok tx_buffer -> Zlen tx_buffer = frame_header_len (cx_medium (if_cx i)) + n ->
  (forall d, bytes_ok d -> Zlen d = n -> exists bs, emit d = Ret bs /\ Zlen bs = n /\ Q bs) ->
  exists frame bs, emit_frame i dst v emit tx_buffer = Ret frame /\ Q bs /\ frame_carries i dst (version_ethertype v) bs frame /\
    Zlen frame = Zlen tx_buffer.
Proof.
  intros [_ _ _ Hhw] Hm Hd Hn Hb Hl Hem. unfold emit_frame, frame_carries. destruct (cx_medium (if_cx i)) eqn:Em; [| |done]; cbn [frame_header_len] in Hl.
  - destruct (if_hardware_addr i) as [|own|] eqn:Eh; try done. cbn in Hhw. unfold emit_ethernet. rewrite Eh. cbn [ethernet_or_panic]. rewrite bind_Ret.
    destruct (eth_hdr_view tx_buffer Hb ltac:(lia)) as (d0 & s0 & t0 & rest & -> & Hrest & _). rewrite Zlen_eth_hdr in Hl.
    rewrite eth_set_src_addr_ok, bind_Ret, eth_set_dst_addr_ok, bind_Ret by done.
    assert (Et : forall d s ty r, eth_set_ethertype (eth_hdr d s ty r) (match v with Ipv4Version => EtherIpv4 | Ipv6Version => EtherIpv6 end) =
      Ret (eth_hdr d s (version_ethertype v) r)) by (intros; destruct v; by rewrite eth_set_ethertype_ok by (by vm_compute)).
    rewrite Et, bind_Ret. destruct (Hem rest Hrest ltac:(lia)) as (bs & Eb & Hzb & HQ).
    exists (eth_hdr (be_value dst) (be_value own) (version_ethertype v) bs), bs. split.
    { apply (eth_payload_mut_ok _ _ _ _ _ _ Eb). lia. }
    split; [done|]. rewrite !Zlen_eth_hdr. split; [|lia]. exists own. split; [done|]. by apply eth_hdr_app.
  - destruct (Hem tx_buffer Hb ltac:(lia)) as (bs & Eb & Hzb & HQ). exists bs, bs. repeat (split; [done || lia|]). lia.
Qed.
End Frame.
