(* ===== verification/IfaceIngressLemmas.v ===== *)
(** * Safety of the protocol handlers

    Each handler, called with a packet whose header was parsed, does not panic, leaves the
    configuration of the interface alone, keeps the sockets well formed, and answers nobody but
    the sender. *)

From stdpp Require Import gmap.
From S2P Require Import Prelude SeqNumber PacketBuffer TimeModel TcpTimers IpTypes TcpRepr ByteOrder Checksum TcpWire Ipv4Wire Icmpv4Wire UdpWire Fragmentation IfaceContext Ipv4Addr Ipv6Addr Heapless Route Neighbor EthernetArp Ipv6Wire Icmpv6Packet NdiscWire MldWire Icmpv6Wire NdiscWireSpec Icmpv6WireSpec NdiscEmitSpec Icmpv6EmitSpec TcpSocket UdpSocket UdpSocketSpec IgmpWire Ipv6ExtWire IpWire PacketQueue RawSocket IcmpSocket IfacePacket Iface Multicast TcpInvariant TcpReplyLemmas TcpProcessLemmas TcpProcessSpec IfaceTcp IfaceIngress IfaceFragments IfaceInvariant.

(** The neighbor cache holds something, and the number of multicast groups is a [u32] that can be
    incremented: the sizes are constants of the build. *)
Class CacheHolds (cache_size : nat) : Prop := cache_holds : (0 < cache_size)%nat.
Class GroupsFit (groups_max : nat) : Prop := groups_fit : Z.of_nat groups_max < u32_max.
Arguments cache_holds cache_size {_}.
Arguments groups_fit groups_max {_}.

Section Handlers.
Context {cfg : BuildConfig} {cfg_ok : BuildConfigOk} `{NetworkEndianLaws}.
Context `{!LinearMap Address GroupState} {groups_max : nat} `{!LinearMapLaws Address GroupState groups_max}.
Context `{!LinearMap Address Neighbor} {cache_size : nat} `{!LinearMapLaws Address Neighbor cache_size}.
Context `{!HeaplessVec Route} {routes_max : nat} `{!HeaplessVecLaws Route routes_max}.
Context `{!HeaplessVec Ipv6OptionRepr} {options_max : nat} `{!HeaplessVecLaws Ipv6OptionRepr options_max}.
Context `{!CacheHolds cache_size} `{!GroupsFit groups_max}.
Implicit Types (i : InterfaceInner) (sockets : list AnySocket) (ip_payload : list Z).

(** An answer goes to the sender of the packet. *)
Definition replies_to (src : Address) (p : Packet) : Prop := ip_dst_addr (packet_ip_repr p) = src.

Definition reply_is (src : Address) (payload : IpPayload) (p : Packet) : Prop := replies_to src p /\ packet_payload p = payload.

(** An error message to the sender that quotes the front of what was received. *)
Definition quotes (src : Address) ip_payload (message : list Z -> IpPayload) (p : Packet) : Prop :=
  exists data, data `prefix_of` ip_payload /\ reply_is src (message data) p.

Lemma quotes_replies src ip_payload message o : opt_prop (quotes src ip_payload message) o -> opt_prop (replies_to src) o.
Proof. intros Ho. apply (opt_prop_mono _ _ _ Ho). by intros p (data & _ & ? & _). Qed.

(** A received header: of IPv6 packets, only those with a unicast source are processed. *)
Definition header_ok (ip : IpRepr) : Prop :=
  ip_repr_ok ip /\ match ip with Ipv4Repr _ => True | Ipv6Repr h => v6_x_is_unicast (iph_src h) = true end.

(** What a handler leaves behind. *)
Definition handled_ok i (src : Address) (out : InterfaceInner * list AnySocket * option Packet) : Prop :=
  let '(i', sockets', o) := out in same_config i i' /\ Forall any_wf sockets' /\ opt_prop (replies_to src) o.

Lemma ready_wf cx sockets : Forall (any_ready cx) sockets -> Forall any_wf sockets.
Proof. intros Hs. eapply Forall_impl; [|exact Hs]. by intros ? []. Qed.

Lemma header_addrs ip : header_ok ip -> ip_addrs_ok ip.
Proof.
  intros [Hr _]. destruct ip as [h|h]; cbn in Hr.
  - destruct Hr as [[Hs Hd _ _ _] _]. split; by apply addr4_ok.
  - destruct Hr as [Hs Hd _ _ _]. split; by apply addr6_ok.
Qed.

Lemma v6_unicast_specified a : v6_x_is_unicast a = true -> address_is_unspecified (Ipv6 a) = false.
Proof. unfold v6_x_is_unicast, v6_is_unspecified. intros Hu%negb_true_iff%orb_false_iff. apply Hu. Qed.

(** ** Answers *)

Lemma icmpv4_reply_ok i ip r n :
  iface_wf i -> icmpv4_buffer_len r = Ret n -> wp (icmpv4_reply i ip r) (opt_prop (reply_is (Ipv4 (iph_src ip)) (PayloadIcmpv4 r))).
Proof.
  intros [Ha _ _ _] En. unfold icmpv4_reply. rewrite En. wp_bind_with (is_unicast_v4_ok (if_cx i) (iph_src ip) Ha). intros [|] _; [|done].
  cbn [negb]. cbv iota. wp_bind_with (is_unicast_v4_ok (if_cx i) (iph_dst ip) Ha). intros [|] _; [by ret_step|].
  wp_bind_with (cx_is_broadcast_ok (if_cx i) (Ipv4 (iph_dst ip)) Ha). intros [|] _; [|done]. destruct r; try done. destruct (ipv4_addr i); [by ret_step | done].
Qed.

Lemma icmpv6_reply_ok i ip r n :
  iface_wf i -> ip6_header_ok ip -> v6_x_is_unicast (iph_src ip) = true -> icmpv6_buffer_len r = Ret n ->
  wp (icmpv6_reply i ip r) (fun o => exists p, o = Some p /\ reply_is (Ipv6 (iph_src ip)) (PayloadIcmpv6 r) p).
Proof.
  intros Hi [Hs _ _ _ _] Hu En. unfold icmpv6_reply. eapply (wp_bind_mono _ _ (fun _ => True)).
  { destr_if; [done|]. destruct (source_v6_ok (if_cx i) (iph_src ip) (cidrs_v6_ok i Hi) Hs (v6_unicast_specified _ Hu)) as (src & -> & _). done. }
  intros src _. rewrite En. ret_step. cbn. by eexists.
Qed.

(** The quote fits, and its length is computed without overflow. *)
Lemma quoted_ok ip_payload mtu header_len :
  0 <= header_len <= 40 -> 576 <= mtu <= 1280 -> Zlen ip_payload <= isize_max ->
  wp (payload_len ← icmp_reply_payload_len (Zlen ip_payload) mtu header_len; slice ip_payload 0 payload_len)
    (fun data => Zlen data <= mtu /\ data `prefix_of` ip_payload).
Proof.
  intros Hh Hm Hl. pose proof (Zlen_nonneg ip_payload). unfold icmp_reply_payload_len, usize_sub.
  rewrite checked_ok by mlia. rewrite bind_Ret, checked_ok by mlia. rewrite bind_Ret, checked_ok by mlia. rewrite !bind_Ret.
  rewrite slice_ok by lia. cbn [wp]. rewrite Z.sub_0_r, Zlen_sub by lia. split; [lia|]. unfold sub. apply prefix_take.
Qed.

Lemma icmpv4_quote_len reason ip (data : list Z) : Zlen data <= 1280 -> exists n, icmpv4_buffer_len (Icmpv4DstUnreachable reason ip data) = Ret n.
Proof.
  intros Hd. pose proof (Zlen_nonneg data). cbn [icmpv4_buffer_len]. change (ipv4_buffer_len ip) with 20. unfold usize_add.
  rewrite checked_ok by done. rewrite bind_Ret. rewrite checked_ok by mlia. by eexists.
Qed.

Lemma unreachable_v4_ok i reason ip ip_payload :
  iface_wf i -> Zlen ip_payload <= isize_max -> wp (unreachable_v4 i reason ip ip_payload)
    (opt_prop (quotes (Ipv4 (iph_src ip)) ip_payload (fun data => PayloadIcmpv4 (Icmpv4DstUnreachable reason ip data)))).
Proof.
  intros Hi Hl. unfold unreachable_v4.
  destruct (wp_Ret_inv _ _ (quoted_ok ip_payload IPV4_MIN_MTU (ipv4_buffer_len ip) ltac:(done) ltac:(done) Hl)) as (data & E & Hd & Hpre).
  apply bind_Ret_inv in E as (n & E1 & E2). rewrite E1, bind_Ret, E2, bind_Ret. pose proof (Zlen_nonneg data). unfold IPV4_MIN_MTU in Hd.
  destruct (icmpv4_quote_len reason ip data ltac:(lia)) as (k & Ek). eapply wp_mono; [by eapply icmpv4_reply_ok|].
  intros o Ho. apply (opt_prop_mono _ _ _ Ho). intros p Hp. by exists data.
Qed.

(** A message that quotes up to the minimum MTU. *)
Lemma quote_v6_ok i ip ip_payload message :
  iface_wf i -> ip6_header_ok ip -> v6_x_is_unicast (iph_src ip) = true -> Zlen ip_payload <= isize_max ->
  (forall data, Zlen data <= 1280 -> exists n, icmpv6_buffer_len (message data) = Ret n) ->
  wp (quote_v6 i ip ip_payload message) (fun o => exists p, o = Some p /\ quotes (Ipv6 (iph_src ip)) ip_payload (fun data => PayloadIcmpv6 (message data)) p).
Proof.
  intros Hi Hip Hu Hl Hm. unfold quote_v6.
  destruct (wp_Ret_inv _ _ (quoted_ok ip_payload IPV6_MIN_MTU (ipv6_buffer_len ip) ltac:(done) ltac:(done) Hl)) as (data & E & Hd & Hpre).
  apply bind_Ret_inv in E as (n & E1 & E2). rewrite E1, bind_Ret, E2, bind_Ret.
  destruct (Hm data Hd) as (k & Ek). eapply wp_mono; [by eapply icmpv6_reply_ok|]. intros o (p & -> & Hp). exists p. split; [done|]. by exists data.
Qed.

Lemma quote_len_ok header (data : list Z) : Zlen data <= 1280 ->
  exists n, (n ← usize_add (8 + ipv6_buffer_len header) (Zlen data); Ret (Z.min n MAX_ERROR_PACKET_LEN)) = Ret n.
Proof.
  intros Hd. pose proof (Zlen_nonneg data). change (ipv6_buffer_len header) with 40. unfold usize_add. rewrite checked_ok by mlia. rewrite bind_Ret. eauto.
Qed.

(** ** UDP and TCP *)

(** What answers a datagram that nobody takes. *)
Definition port_unreachable (ip : IpRepr) ip_payload (p : Packet) : Prop :=
  match ip with
  | Ipv4Repr h => quotes (Ipv4 (iph_src h)) ip_payload (fun data => PayloadIcmpv4 (Icmpv4DstUnreachable PortUnreachable h data)) p
  | Ipv6Repr h => quotes (Ipv6 (iph_src h)) ip_payload (fun data => PayloadIcmpv6 (Icmpv6DstUnreachable Port6Unreachable h data)) p
  end.

Lemma port_unreachable_replies ip ip_payload o : opt_prop (port_unreachable ip ip_payload) o -> opt_prop (replies_to (ip_src_addr ip)) o.
Proof. destruct ip; apply quotes_replies. Qed.

(** What becomes of the payload of a UDP packet. *)
Definition udp_received (cx : Context) caps meta (handled : bool) (ip : IpRepr) ip_payload sockets sockets' (o : option Packet) : Prop :=
  match udp_parse ip_payload (ip_src_addr ip) (ip_dst_addr ip) caps with
  | Ret (Ok repr) => exists payload (taken : bool), udp_payload ip_payload = Ret payload /\
      udp_delivered cx meta ip repr payload sockets sockets' taken /\ (taken || handled = true -> o = None) /\
      opt_prop (port_unreachable ip ip_payload) o
  | _ => sockets' = sockets /\ o = None
  end.

Lemma process_udp_ok i meta sockets handled ip ip_payload :
  iface_wf i -> Forall (any_ready (if_cx i)) sockets -> header_ok ip -> bytes_ok ip_payload -> Zlen ip_payload <= isize_max ->
  wp (process_udp i meta sockets handled ip ip_payload) (fun '(sockets', o) =>
    Forall any_wf sockets' /\ udp_received (if_cx i) (if_checksum i) meta handled ip ip_payload sockets sockets' o).
Proof.
  intros Hi Hs Hip Hb Hl. pose proof (ready_wf _ _ Hs) as Hw. unfold process_udp, udp_new_checked, try_bind, udp_received.
  rewrite bind_assoc. destruct (wp_Ret_inv _ _ (udp_check_len_ok ip_payload Hb)) as ([[]|e] & Ec & _); rewrite Ec; ret_steps.
  2: { unfold udp_parse, try_bind. by rewrite Ec. }
  destruct (header_addrs ip Hip) as [Hsrc Hdst].
  destruct (wp_Ret_inv _ _ (udp_parse_ok ip_payload (ip_src_addr ip) (ip_dst_addr ip) (if_checksum i) Hb ltac:(by destruct (ip_repr_versions ip) as [-> ->]) Hsrc Hdst))
    as ([repr|e] & Ep & Hp); rewrite Ep; ret_step; [|done]. destruct Hp as (_ & _ & _ & sp & dp & ck & pl & tail & _ & _ & Epl). rewrite Epl. ret_step.
  wp_bind_with (process_udp_sockets_ok (if_cx i) meta sockets ip repr pl Hs (ifw_addrs i Hi)). intros [sockets' h] [Hr Hd].
  apply ready_wf in Hr. destruct h; [cbn; eauto 10|]. destruct handled; [cbn; eauto 10|]. destruct Hip as [Hip Hu]. destruct ip as [h|h]; cbn in Hip.
  - wp_bind_with (unreachable_v4_ok i PortUnreachable h ip_payload Hi Hl). intros o Ho. cbn [wp]. split; [done|]. exists pl, false. by split_and!.
  - wp_bind_with (quote_v6_ok i h ip_payload (Icmpv6DstUnreachable Port6Unreachable h) Hi Hip Hu Hl).
    + intros data Hda. by apply quote_len_ok.
    + intros o (p & -> & Hp). cbn [wp]. split; [done|]. exists pl, false. by split_and!.
Qed.

Lemma udp_received_replies cx caps meta handled ip ip_payload sockets sockets' o :
  udp_received cx caps meta handled ip ip_payload sockets sockets' o -> opt_prop (replies_to (ip_src_addr ip)) o.
Proof.
  unfold udp_received. destruct (udp_parse _ _ _ _) as [[r|e]|]; [|by intros [_ ->]..]. intros (? & ? & _ & _ & _ & Ho). by eapply port_unreachable_replies.
Qed.

Lemma process_tcp_packet_ok i sockets ip ip_payload :
  iface_wf i -> Forall (any_ready (if_cx i)) sockets -> header_ok ip -> bytes_ok ip_payload -> Zlen ip_payload <= 131070 ->
  wp (process_tcp_packet i sockets ip ip_payload) (handled_ok i (ip_src_addr ip)).
Proof.
  intros Hi Hs Hip Hb Hl. unfold process_tcp_packet.
  wp_bind_with (process_tcp_any_ok (if_checksum i) (if_cx i) sockets ip ip_payload Hs (ifw_now i Hi) (header_addrs ip Hip) Hb Hl).
  intros [[cx sockets'] o] (Hw & Hcx & Ho). cbn [wp]. split; [by apply set_cx_config|]. split; [done|].
  destruct o as [[ip' r]|]; [|done]. cbn in *. unfold replies_to, packet_ip_repr, packet_new. destruct Ho as [Ho _]. by destruct ip'.
Qed.

(** ** ICMPv4 *)

Lemma process_icmpv4_ok i sockets ip ip_payload :
  iface_wf i -> Forall (any_ready (if_cx i)) sockets -> bytes_ok ip_payload -> Zlen ip_payload <= MAX_PAYLOAD ->
  wp (process_icmpv4 i sockets ip ip_payload) (fun '(sockets', o) => Forall any_wf sockets' /\ opt_prop (replies_to (Ipv4 (iph_src ip))) o).
Proof.
  intros Hi Hs Hb Hl. pose proof (ready_wf _ _ Hs) as Hw. unfold process_icmpv4, icmp4_new_checked.
  destruct (icmp4_check_len ip_payload); [|done]. unfold MAX_PAYLOAD in Hl.
  wp_bind_with (icmpv4_parse_ok ip_payload (if_checksum i) Hb ltac:(mlia)). intros [r|e]; [|done]. intros Hr.
  pose proof (icmpv4_ok_emit _ _ Hr Hl) as Hem. destruct (icmpv4_len _ r Hr ltac:(mlia)) as (n & En).
  eapply wp_bind_mono.
  { apply (icmp_sockets_ok _ (ready_other (if_cx i)) _ _ sockets); [intros s _; by apply (icmp_accepts_v4_ok _ _ _ (Zlen ip_payload)) | | done].
    intros s Hsw _. eapply wp_mono; [apply icmp_process_v4_ok; eauto|]. intros s' Hd. apply Hd. }
  intros [sockets' h] [Hr' _]. apply ready_wf in Hr'. destruct r as [ident seq data|ident seq data|re he data|re he data]; try done.
  wp_bind_with (icmpv4_reply_ok i ip (Icmpv4EchoReply ident seq data) n Hi En). intros o Ho. split; [done|]. apply (opt_prop_mono _ _ _ Ho). by intros p [? _].
Qed.

(** ** The neighbor cache *)

Lemma cache_reset_ok c a h t : time_ok t ->
  wp (cache_reset_expiry_if_existing c a h t) (fun c' => forall m, cache_fits m c -> cache_fits m c').
Proof.
  intros Ht. unfold cache_reset_expiry_if_existing. rewrite lm_get_map. destruct (lm_map (ca_storage c) !! a) as [n|] eqn:E; [|by cbn]. destr_if; [|by cbn].
  rewrite instant_add_ok by (unfold time_ok, ENTRY_LIFETIME in *; lia). ret_step. intros m Hc. unfold cache_fits. cbn [ca_storage].
  rewrite lm_set_map by (rewrite E; eauto). apply map_Forall_insert_2; [exact (Hc _ _ E) | done].
Qed.

Lemma cache_fill_any c a h t :
  address_is_unicast a = true -> hw_ok h -> time_ok t ->
  wp (cache_fill c a h t) (fun c' => forall m, hardware_fits m h -> cache_fits m c -> cache_fits m c').
Proof.
  intros Ha Hh Ht. eapply wp_mono; [by apply (cache_fill_ok (cache_holds cache_size))|]. intros c' (_ & en & E & He) m Hm Hc. unfold cache_fits. rewrite E.
  apply map_Forall_insert_2; [done|]. destruct He as [->|(_ & _ & old & n & _ & -> & _)]; [done | by apply map_Forall_delete].
Qed.

(** An address option is an address of the medium, or is dropped. *)
Lemma raw_hardware_parse_ok lladdr m :
  m <> MediumIp -> bytes_ok lladdr ->
  wp (raw_hardware_parse lladdr m) (fun r => match r with Ok a => hardware_fits m a /\ exists u, hardware_is_unicast a = Ret u | Err _ => True end).
Proof.
  intros Hm Hb. destruct m; [|done|]; cbn [raw_hardware_parse]; destr_if; try done; cbn [wp hardware_is_unicast hardware_fits]; (split; [|eauto]); apply Z.eqb_eq in Hif.
  - split; [done|]. unfold Zlen in Hif. lia.
  - by split.
Qed.

Lemma raw_from_hardware_ok m a : m <> MediumIp -> hardware_fits m a -> exists raw, raw_from_hardware a = Ret raw.
Proof.
  intros Hm Hf. unfold raw_from_hardware, raw_from_bytes, MAX_HARDWARE_ADDRESS_LEN. destruct m, a as [|o|[|o|o]]; try done; cbn in Hf; destruct Hf as [_ Hl]; cbn [hardware_as_bytes ieee802154_as_bytes]; rewrite bind_Ret.
  - unfold Zlen. rewrite Hl. eauto.
  - rewrite Hl. eauto.
Qed.

(** ** Neighbor discovery *)

Lemma process_ndisc_ok i ip r :
  iface_wf i -> cx_medium (if_cx i) <> MediumIp -> v6_x_is_unicast (iph_src ip) = true -> ndisc_ok r ->
  wp (process_ndisc i ip r) (fun '(i', o) => same_config i i' /\ opt_prop (replies_to (Ipv6 (iph_src ip))) o).
Proof.
  intros Hi Hm Hu Hr. pose proof (ifw_now i Hi) as Hn. pose proof (same_config_refl i) as Hrefl.
  assert (Hfill : forall h u, hardware_is_unicast h = Ret u -> negb u || u = true) by (by intros h []).
  unfold process_ndisc. destruct r as [|?|target lladdr|flags target lladdr|]; try done.
  - eapply (wp_bind_mono _ _ (opt_prop (same_config i))).
    { destruct lladdr as [lladdr|]; [|done]. cbn in Hr. wp_bind_with (raw_hardware_parse_ok lladdr _ Hm ltac:(apply Hr)). intros [h|e]; [|done]. intros [Hfits (u & Eu)]. rewrite Eu. ret_step.
      destr_if; [done|]. apply orb_false_iff in Hif as [Hu1%negb_false_iff Hu2%negb_false_iff]. subst u.
      wp_bind_with (cache_fill_any (if_neighbor_cache i) (Ipv6 (iph_src ip)) h (if_now i) Hu Eu Hn). intros c Hc. cbn. apply set_cache_config. auto. }
    intros [i'|] Hc; [|done]. cbn in Hc. destr_if; [|done].
    destruct (raw_from_hardware_ok _ _ Hm (ifw_hardware i Hi)) as (raw & Er). rewrite (sc_hardware _ _ Hc), Er. ret_step. cbn [icmpv6_buffer_len]. by ret_step.
  - destruct lladdr as [lladdr|]; [|done]. cbn in Hr. wp_bind_with (raw_hardware_parse_ok lladdr _ Hm ltac:(apply Hr)). intros [h|e]; [|done]. intros [Hfits (u & Eu)]. rewrite Eu. ret_step.
    destr_if; [done|]. apply orb_false_iff in Hif as [Hu1%negb_false_iff Hu2%negb_false_iff]. subst u.
    eapply (wp_bind_mono _ _ (fun _ => True)).
    { destr_if; [done|]. unfold cache_lookup. cbn [address_is_unicast]. rewrite Hu. cbn [passert]. by ret_steps. }
    intros [|] _; [|done]. wp_bind_with (cache_fill_any (if_neighbor_cache i) (Ipv6 (iph_src ip)) h (if_now i) Hu Eu Hn).
    intros c Hc. cbn. split; [apply set_cache_config; auto | done].
Qed.

(** ** Multicast *)

Lemma groups_count i f : 0 <= Zlen (groups_of f i) <= Z.of_nat groups_max.
Proof.
  unfold groups_of, Zlen. pose proof (lm_bounded (capacity := groups_max) (mc_groups (if_multicast i))) as Hb.
  pose proof (filter_length_le f (map fst (lm_iter (mc_groups (if_multicast i))))) as Hf. rewrite length_map in Hf. lia.
Qed.

Lemma resp_time_bound code t : in_u8 code -> max_resp_code_to_duration code = Ret t -> 0 <= t <= 2 ^ 40.
Proof.
  intros Hc. set (bounded code := match max_resp_code_to_duration code with Ret t => (0 <=? t) && (t <=? 2 ^ 40) | Panic => false end).
  assert (Hall : Forall (fun code => bounded code = true) (seqZ 0 256)) by (apply (bool_decide_unpack _); vm_compute; exact I).
  assert (Hin : code ∈ seqZ 0 256) by (apply elem_of_seqZ; mlia). apply list_elem_of_In in Hin. rewrite Forall_forall in Hall.
  specialize (Hall code Hin). unfold bounded in Hall. intros E. rewrite E in Hall. lia.
Qed.

Lemma process_igmp_ok i ip ip_payload :
  iface_wf i -> bytes_ok ip_payload -> wp (process_igmp i ip ip_payload) (same_config i).
Proof.
  intros Hi Hb. pose proof (ifw_now i Hi) as Hn. pose proof (same_config_refl i) as Hrefl. unfold process_igmp, igmp_new_checked.
  destruct (igmp_check_len ip_payload) as [_|_]; [|done]. wp_bind_with (igmp_parse_ok ip_payload Hb). intros [r|e]; [|done]. intros Hr.
  destruct r as [t a v|a v|a]; try done. destruct Hr as (_ & _ & code & Hc & Et & _). pose proof (resp_time_bound code t Hc Et) as Ht.
  assert (Hadd : forall d, 0 <= d <= 2 ^ 40 -> instant_add (if_now i) d = Ret (if_now i + d)) by (intros; apply instant_add_ok; unfold time_ok in *; lia).
  destr_if.
  - destr_if; [|done]. pose proof (groups_count i is_ipv4) as Hg. pose proof (groups_fit groups_max) as Hfit. eapply (wp_bind_mono _ _ (fun d => 0 <= d <= 2 ^ 40)).
    { destruct v; [by rewrite duration_from_millis_ok|]. unfold wrap_u. rewrite Z.mod_small by mlia. unfold u32_chk. rewrite checked_ok by mlia. ret_step.
      unfold duration_div. replace (Zlen (groups_of is_ipv4 i) + 1 =? 0) with false by lia. cbn [wp].
      pose proof (Z.div_pos t (Zlen (groups_of is_ipv4 i) + 1)). pose proof (Z.div_le_upper_bound t (Zlen (groups_of is_ipv4 i) + 1) t). nia. }
    intros d Hd. rewrite Hadd by done. ret_step. cbn [wp]. apply set_multicast_config.
  - destr_if; [|done]. unfold duration_div. change (4 =? 0) with false. cbv iota. rewrite bind_Ret.
    pose proof (Z.div_pos t 4). pose proof (Z.div_le_upper_bound t 4 t). rewrite Hadd by lia. ret_step. cbn [wp]. apply set_multicast_config.
Qed.

Lemma set_rand_config i r : same_config i (if_set_cx i (cx_set_rand (if_cx i) r)).
Proof. by apply set_cx_config. Qed.

Lemma process_mldv2_ok i ip r : iface_wf i -> mld_ok r -> wp (process_mldv2 i ip r) (same_config i).
Proof.
  intros Hi Hr. pose proof (ifw_now i Hi) as Hn. unfold process_mldv2. destruct r as [code a s q qi n d|n d|rs]; [|apply same_config_refl..].
  destruct Hr as (Hc & _).
  assert (Hd : exists i' delay, (if 0 <? code then let '(r, n) := rand_u16 (cx_rand (if_cx i)) in (if_set_cx i (cx_set_rand (if_cx i) r), n mod code)
    else (i, 0)) = (i', delay) /\ same_config i i' /\ 0 <= delay <= u16_max).
  { destruct (Z.ltb_spec 0 code).
    - destruct (rand_u16 _) as [r k]. eexists _, _. split; [done|]. split; [apply set_rand_config|]. pose proof (Z.mod_pos_bound k code). mlia.
    - eexists _, _. split; [done|]. split; [apply same_config_refl | mlia]. }
  destruct Hd as (i' & delay & -> & Hsc & Hde). rewrite duration_from_millis_ok by mlia. ret_step.
  assert (Hadd : forall i2, same_config i i2 -> instant_add (if_now i2) (delay * 1000) = Ret (if_now i + delay * 1000)).
  { intros i2 [(E & _) _ _ _ _ _ _]. unfold if_now in *. rewrite E. apply instant_add_ok; unfold time_ok in *; mlia. }
  eapply (wp_bind_mono _ _ (same_config i)).
  { destr_if; [|done]. destr_if; [|done]. rewrite Hadd by done. ret_step. cbn [wp]. eapply same_config_trans; [exact Hsc | apply set_multicast_config]. }
  intros i2 Hsc2. destr_if; [|done]. rewrite Hadd by done. ret_step. cbn [wp]. eapply same_config_trans; [exact Hsc2 | apply set_multicast_config].
Qed.

(** ** ICMPv6 *)

Lemma process_icmpv6_ok i sockets ip ip_payload :
  iface_wf i -> Forall (any_ready (if_cx i)) sockets -> ip6_header_ok ip -> v6_x_is_unicast (iph_src ip) = true ->
  bytes_ok ip_payload -> Zlen ip_payload <= u16_max ->
  wp (process_icmpv6 i sockets ip ip_payload) (handled_ok i (Ipv6 (iph_src ip))).
Proof.
  intros Hi Hs Hip Hu Hb Hl. pose proof (ready_wf _ _ Hs) as Hw. pose proof (same_config_refl i) as Hrefl. pose proof Hip as [Hsrc Hdst _ _ _].
  unfold process_icmpv6, icmp6_new_checked. rewrite bind_assoc. wp_bind_with (icmp6_check_len_ok ip_payload Hb). intros [[]|e] _; ret_step; [|done].
  wp_bind_with (icmpv6_parse_ok (iph_src ip) (iph_dst ip) ip_payload (if_checksum i) Hb ltac:(mlia) Hsrc Hdst). intros [r|e]; [|done]. intros Hr.
  destruct (icmpv6_len _ r Hr Hl) as (n & En).
  eapply wp_bind_mono.
  { apply (icmp_sockets_ok _ (ready_other (if_cx i)) _ _ sockets); [intros s _; by apply (icmp_accepts_v6_ok _ _ _ (Zlen ip_payload)) | | done].
    intros s Hsw Ha. destruct (icmp_accepts_v6_emit _ _ _ _ _ n Hr Hl Ha En) as [Hem Hn].
    eapply wp_mono; [by apply (icmp_process_v6_ok _ _ _ n)|]. intros s' Hd; apply Hd. }
  intros [sockets' h] [Hr' _]. apply ready_wf in Hr'. destruct r as [re h' data|mtu h' data|re h' data|re ptr h' data|ident seq data|ident seq data|r|r]; try by split_and!.
  - wp_bind_with (icmpv6_reply_ok i ip (Icmpv6EchoReply ident seq data) n Hi Hip Hu En). intros o (p & -> & Hp & _). by split_and!.
  - destr_if; [|by split_and!]. assert (Hnd : cx_medium (if_cx i) <> MediumIp -> wp ('(i, o) ← process_ndisc i ip r; Ret (i, sockets', o)) (handled_ok i (Ipv6 (iph_src ip)))).
    { intros Hm. wp_bind_with (process_ndisc_ok i ip r Hi Hm Hu Hr). intros [i' o] [Hc Ho]. by cbn. }
    destruct (cx_medium (if_cx i)); [by apply Hnd | by split_and! | by apply Hnd].
  - destruct r as [code a s q qi k d|? ?|?]; try by split_and!. destr_if; [|by split_and!].
    wp_bind_with (process_mldv2_ok i ip (MldQuery code a s q qi k d) Hi Hr). by intros i' Hc.
Qed.
End Handlers.
