(* ===== verification/IfaceExample.v ===== *)
(** * A concrete interface

    The instances of the bounded containers, an interface and its sockets: where the properties
    of the interface are evaluated. *)

From stdpp Require Import gmap.
From S2P Require Import Prelude SeqNumber PacketBuffer TimeModel TcpTimers IpTypes ByteOrder Checksum Ipv4Wire Icmpv4Wire IfaceContext Ipv4Addr Ipv6Addr Heapless Route Neighbor EthernetArp TcpSocket UdpSocket UdpSocketSpec IgmpWire Ipv6ExtWire IpWire PacketQueue RawSocket IcmpSocket Iface Multicast TcpInvariant TcpExample IfaceTcp IfaceIngress IfaceFragments IfaceInvariant IfaceIngressLemmas.

Definition ex_groups_map : LinearMap Address GroupState := list_map Address GroupState 4.
Definition ex_groups_laws : @LinearMapLaws _ _ _ _ ex_groups_map 4 := list_map_laws Address GroupState 4.
Definition ex_cache_map : LinearMap Address Neighbor := list_map Address Neighbor 2.
Definition ex_cache_laws : @LinearMapLaws _ _ _ _ ex_cache_map 2 := list_map_laws Address Neighbor 2.
Definition ex_routes_vec : HeaplessVec Route := list_vec Route 2.
Definition ex_routes_laws : @HeaplessVecLaws _ ex_routes_vec 2 := list_vec_laws Route 2.
Definition ex_options_vec : HeaplessVec Ipv6OptionRepr := list_vec Ipv6OptionRepr 4.
Definition ex_options_laws : @HeaplessVecLaws _ ex_options_vec 4 := list_vec_laws Ipv6OptionRepr 4.

#[export] Existing Instances network_endian network_endian_laws.
#[export] Existing Instances ex_groups_map ex_groups_laws ex_cache_map ex_cache_laws ex_routes_vec ex_routes_laws ex_options_vec ex_options_laws.

#[export] Instance ex_cache_holds : CacheHolds 2.
Proof. unfold CacheHolds. lia. Qed.
#[export] Instance ex_groups_fit : GroupsFit 4.
Proof. unfold GroupsFit. mlia. Qed.

(** 10.0.0.1/24 and fe80::1/64. *)
Definition ex_addrs : list Cidr := [CidrV4 [10; 0; 0; 1] 24; CidrV6 ([0xfe; 0x80] ++ replicate 13 0 ++ [1]) 64].
Definition ex_hardware : list Z := [2; 0; 0; 0; 0; 1].

Definition ex_iface : InterfaceInner :=
  mkInterfaceInner (mkContext 1000000 1 MediumEthernet 1514 ex_addrs (fun _ => 0)) None caps_default cache_new
    (HardwareEthernet ex_hardware) 1 false hv_new mc_new.

Definition ex_iface_ip : InterfaceInner :=
  mkInterfaceInner (mkContext 1000000 1 MediumIp 1500 ex_addrs (fun _ => 0)) None caps_default cache_new HardwareIp 1 false hv_new mc_new.

Definition ex_udp_socket : UdpSocket := fst (udp_bind (udp_new udp_buffer_example udp_buffer_example) (mkListenEndpoint None 7)).

(** One socket of each kind. *)
Definition ex_any_sockets : list AnySocket :=
  [OtherItem (OtherIcmp icmp_socket_example); OtherItem (OtherRaw (raw_new None (Some 47) raw_buffer_example raw_buffer_example));
   OtherItem (OtherUdp ex_udp_socket); TcpItem (ex_socket Established [] [] 0)].

Definition ex_fragments : FragmentsBuffer := mkFragmentsBuffer [] 60000000.

Lemma ex_addrs_cidr_ok : Forall cidr_ok ex_addrs.
Proof.
  unfold ex_addrs. constructor; [|constructor; [|constructor]].
  - split; [split; [byte_list | done] | lia].
  - split; [byte_list | split; [done | lia]].
Qed.

Lemma ex_iface_wf : iface_wf ex_iface /\ iface_wf ex_iface_ip.
Proof.
  split; split; try (exact ex_addrs_cidr_ok || (unfold time_ok; cbn; lia) || constructor || apply map_Forall_empty).
  - byte_list.
  - done.
Qed.

Lemma ex_any_sockets_ready cx : cx_now cx = 1000000 -> Forall (any_ready cx) ex_any_sockets.
Proof.
  intros _. unfold ex_any_sockets. constructor; [|constructor; [|constructor; [|constructor; [|constructor]]]].
  - apply ready_other. split; apply icmp_buffer_example_wf.
  - apply ready_other. split; apply raw_buffer_example_wf.
  - apply ready_other. split; [exact udp_buffer_example_wf|]. split; [exact udp_buffer_example_wf|]. split; [done | constructor].
  - pose proof (ex_socket_ready Established eq_refl) as (Hw & Hs & _). split; [exact Hw|]. split; [exact Hw|]. split; [exact Hs | exact I].
Qed.
