(* ===== verification/IfaceDhcp.v ===== *)
(** * DHCP messages in the interface (iface/interface/ipv4.rs, iface/packet.rs)

    How a received datagram gets to the DHCP socket, how a message of the socket is written, and
    that an answer reaches the client through the octets of its datagram. *)

From stdpp Require Import gmap.
From S2P Require Import Prelude SeqNumber ByteOrder TimeModel TcpTimers IpTypes Checksum Ipv4Wire UdpWire IfaceContext Ipv4Addr Ipv6Addr Heapless Route Neighbor EthernetArp DhcpWire TcpSocket DhcpSocket DhcpSocketSpec IfacePacket Iface IfaceExample.

Section IfaceDhcp.
Context `{LinearMap Address GroupState} `{LinearMap Address Neighbor} `{HeaplessVec Route} `{NetworkEndian} `{!HeaplessVec (list Z)}.

#[export] Instance inner_dhcp : DhcpContext InterfaceInner := {
  dc_hardware_addr := if_hardware_addr;
  dc_set_rand i r := if_set_cx i (cx_set_rand (if_cx i) r);
}.

#[export] Instance inner_dhcp_laws : DhcpContextLaws InterfaceInner.
Proof. split; done. Qed.

(** The part of [process_ipv4] for the first DHCP socket of the set: the socket, and whether
    [process_ipv4] returns. *)
Definition ipv4_process_dhcp (i : InterfaceInner) (dhcp_socket : option DhcpSocket) (ipv4_repr : IpHeader) (ip_payload : list Z)
  : res (option DhcpSocket * bool) :=
  if (iph_next_header ipv4_repr =? PROTOCOL_UDP) && medium_eqb (cx_medium (if_cx i)) MediumEthernet then
    checked ← udp_check_len ip_payload;
    match checked with
    | Err _ => Ret (dhcp_socket, true)
    | Ok _ =>
        match dhcp_socket with
        | None => Ret (None, false)
        | Some s =>
            src_port ← udp_pkt_src_port ip_payload;
            dst_port ← udp_pkt_dst_port ip_payload;
            if (src_port =? dh_server_port s) && (dst_port =? dh_client_port s) then
              parsed ← udp_parse ip_payload (Ipv4 (iph_src ipv4_repr)) (Ipv4 (iph_dst ipv4_repr)) (if_checksum i);
              match parsed with
              | Err _ => Ret (dhcp_socket, true)
              | Ok udp_repr =>
                  payload ← udp_payload ip_payload;
                  s ← dhcp_process i s ipv4_repr udp_repr payload;
                  Ret (Some s, true)
              end
            else Ret (dhcp_socket, false)
        end
    end
  else Ret (dhcp_socket, false).

(** [dhcp_repr.emit(..).unwrap()]. *)
Definition dhcp_emit_unwrap (r : DhcpRepr) (buf : list Z) : res (list Z) :=
  x ← dhcp_emit r buf; match x with Ok buf => Ret buf | Err _ => Panic end.

(** The case [IpPayload::Dhcpv4] of [emit_payload]. *)
Definition emit_dhcp_payload (udp_repr : UdpRepr) (dhcp_repr : DhcpRepr) (ip_repr : IpRepr) (payload : list Z) (caps : DeviceCapabilities)
  : res (list Z) :=
  udp_emit udp_repr payload (ip_src_addr ip_repr) (ip_dst_addr ip_repr) (dhcp_buffer_len dhcp_repr) (dhcp_emit_unwrap dhcp_repr) (dc_checksum caps).
End IfaceDhcp.

(** ** Over the octets of a datagram *)

Section Facts.
Context `{LinearMap Address GroupState} `{LinearMap Address Neighbor} `{HeaplessVec Route}.
Context `{NetworkEndianLaws} `{!HeaplessVec (list Z)} `{!HeaplessVecLaws (list Z) MAX_DNS_SERVER_COUNT}.

(** In a buffer of the length of a message, its octets do not depend on what was there. *)
Lemma emit_unwrap_ok r : dhcp_repr_ok r -> Forall option_foreign (dr_additional_options r) ->
  exists data servers, Zlen data = dhcp_buffer_len r /\ bytes_ok data /\
    (forall d, bytes_ok d -> Zlen d = Zlen data -> dhcp_emit_unwrap r d = Ret data) /\
    dhcp_parse data = Ret (Ok (dhcp_parsed r servers)) /\ option_map hv_elems servers = option_map hv_elems (dr_dns_servers r).
Proof.
  intros Hr Ha. pose proof (dhcp_buffer_len_ok r Hr) as El. pose proof (Zlen_nonneg (options_bytes (dhcp_options_of r))) as Hz.
  set (blank := replicate (Z.to_nat (dhcp_buffer_len r)) 0). assert (Hb : bytes_ok blank) by (by apply Forall_replicate).
  assert (Hl : Zlen blank = dhcp_buffer_len r) by (unfold blank, Zlen; rewrite length_replicate; lia).
  destruct (dhcp_emit_parse_ok r blank Hr Ha Hb ltac:(lia)) as (data & servers & Ee & Hd & Hp & Hs). exists data, servers.
  split; [lia|]. pose proof (dhcp_emit_ok r blank Hr Ha Hb ltac:(lia)) as E. rewrite drop_ge in E by (unfold Zlen in Hl; lia).
  match type of E with _ = Ret (Ok ?x) => assert (Ed : x = data) by congruence end. split; [|split; [|by split]].
  - rewrite <- Ed. apply bytes_ok_app. split; [apply layout_bytes_ok|]. apply bytes_ok_app.
    split; [by apply options_bytes_ok, options_shown_fit, dhcp_options_shown | unfold DHCP_OPT_END; byte_list].
  - intros d Hbd Hld. unfold dhcp_emit_unwrap. rewrite dhcp_emit_ok, drop_ge by (done || (unfold Zlen in *; lia)). rewrite bind_Ret. by rewrite Ed.
Qed.

Lemma v4_addr_ok a : v4_ok a -> addr_ok (Ipv4 a).
Proof. intros [Hb Hl]. split; [done | cbn; lia]. Qed.

(** The datagram of a message, and what its parsers read. *)
Lemma emit_dhcp_ok udp r ip payload caps rx :
  dhcp_repr_ok r -> Forall option_foreign (dr_additional_options r) -> udp_repr_ok udp -> udp_dst_port udp <> 0 ->
  v4_ok (iph_src ip) -> v4_ok (iph_dst ip) -> bytes_ok payload -> Zlen payload = 8 + dhcp_buffer_len r -> Zlen payload <= u16_max ->
  (checksum_rx (caps_udp rx) = true -> checksum_tx (caps_udp (dc_checksum caps)) = true) ->
  exists bs data servers, emit_dhcp_payload udp r (Ipv4Repr ip) payload caps = Ret bs /\ Zlen bs = Zlen payload /\ bytes_ok data /\
    udp_check_len bs = Ret (Ok tt) /\ udp_pkt_src_port bs = Ret (udp_src_port udp) /\ udp_pkt_dst_port bs = Ret (udp_dst_port udp) /\
    udp_parse bs (Ipv4 (iph_src ip)) (Ipv4 (iph_dst ip)) rx = Ret (Ok udp) /\ udp_payload bs = Ret data /\
    dhcp_parse data = Ret (Ok (dhcp_parsed r servers)) /\ option_map hv_elems servers = option_map hv_elems (dr_dns_servers r).
Proof.
  intros Hr Ha Hu Hne Hs Hd Hb Hl Hmax Hc. destruct (emit_unwrap_ok r Hr Ha) as (data & servers & Hld & Hdata & Hemit & Hp & Hsrv).
  pose proof (Zlen_nonneg data).
  destruct (udp_emit_ok udp payload (Ipv4 (iph_src ip)) (Ipv4 (iph_dst ip)) data (dhcp_emit_unwrap r) (dc_checksum caps)) as (ck & tail & Ee & Hck & Hdt & Hlt & Hver);
    [done | done | done | lia | lia | done | done | by apply v4_addr_ok | by apply v4_addr_ok |].
  destruct (udp_parse_emitted udp ck data tail (Ipv4 (iph_src ip)) (Ipv4 (iph_dst ip)) rx Hu Hne Hck ltac:(lia)) as [Hpu Hpp]; [intros Hrx; by apply Hver, Hc|].
  exists (udp_emitted udp ck data tail), data, servers. unfold emit_dhcp_payload. rewrite <- Hld. split; [exact Ee|].
  split; [unfold udp_emitted; rewrite Zlen_udp_hdr; lia|]. split; [done|]. destruct Hu as [Hus Hud].
  assert (Hlen : udp_check_len (udp_emitted udp ck data tail) = Ret (Ok tt)).
  { unfold udp_parse, try_bind in Hpu. destruct (udp_check_len _) as [[[]|e]|]; [done | discriminate | discriminate]. }
  split; [done|]. split; [by apply udp_src_port_ok|]. split; [by apply udp_dst_port_ok|]. done.
Qed.

(** C18: Every message of the DHCP client can be put into a datagram, and is read from it: for a message
    that a well-formed socket hands to the interface, the UDP header with the payload of the announced
    length is written without a panic ([emit] of the message, whose error the interface unwraps, does not
    fail), and a receiver that parses the datagram and the message gets the ports of the socket and the
    same message. *)
Theorem dhcp_message_is_read s hw now xid ip udp r payload caps rx :
  dhcp_wf s -> dhcp_packet_for s hw now xid ip udp r -> in_u16 (dh_client_port s) -> in_u16 (dh_server_port s) -> dh_server_port s <> 0 ->
  v4_ok (iph_dst ip) -> bytes_ok payload -> Zlen payload = iph_payload_len ip ->
  (checksum_rx (caps_udp rx) = true -> checksum_tx (caps_udp (dc_checksum caps)) = true) ->
  wp (emit_dhcp_payload udp r (Ipv4Repr ip) payload caps) (fun bs => Zlen bs = iph_payload_len ip /\
    udp_parse bs (Ipv4 (iph_src ip)) (Ipv4 (iph_dst ip)) rx = Ret (Ok (mkUdpRepr (dh_client_port s) (dh_server_port s))) /\
    exists data servers, udp_payload bs = Ret data /\ dhcp_parse data = Ret (Ok (dhcp_parsed r servers)) /\
      option_map hv_elems servers = option_map hv_elems (dr_dns_servers r)).
Proof.
  intros Hs [Hr Hudp [Hlen Hmax] (_ & _ & Hsrc) _ Hopt _] Hcp Hsp Hne Hdst Hb Hl Hc. unfold UDP_HEADER_LEN in Hlen.
  destruct (emit_dhcp_ok udp r ip payload caps rx) as (bs & data & servers & -> & Hz & _ & _ & _ & _ & Hp & Hpay & Hd & Hsrv);
    [done | rewrite Hopt; apply Hs | by rewrite Hudp | by rewrite Hudp | rewrite Hsrc; apply Hr | done | done | lia | mlia | done |].
  cbn [wp]. split; [lia|]. split; [by rewrite Hp, Hudp|]. by exists data, servers.
Qed.

(** C17: An answer of the server reaches the client through the octets of its datagram: when a server
    writes a message, with any further options of kinds the client does not read, from the server's port to
    the client's, the client's interface recognises the datagram among the
    received ones, takes it from the other sockets, and hands the message that the server wrote to the
    client, which makes exactly the transition for that message ([dhcp_transition]) when it is
    the answer to its last message, and is unchanged when it is not. *)
Theorem dhcp_answer_arrives i s hw ip r payload caps :
  dhcp_wf s -> if_hardware_addr i = HardwareEthernet hw -> cx_medium (if_cx i) = MediumEthernet -> time_ok (if_now i) ->
  dhcp_repr_ok r -> Forall option_foreign (dr_additional_options r) -> in_u16 (dh_client_port s) -> in_u16 (dh_server_port s) -> dh_client_port s <> 0 ->
  v4_ok (iph_src ip) -> v4_ok (iph_dst ip) -> iph_next_header ip = PROTOCOL_UDP ->
  bytes_ok payload -> Zlen payload = 8 + dhcp_buffer_len r -> Zlen payload <= u16_max ->
  (checksum_rx (caps_udp (if_checksum i)) = true -> checksum_tx (caps_udp (dc_checksum caps)) = true) ->
  wp (emit_dhcp_payload (mkUdpRepr (dh_server_port s) (dh_client_port s)) r (Ipv4Repr ip) payload caps) (fun bs =>
    exists s' servers, ipv4_process_dhcp i (Some s) ip bs = Ret (Some s', true) /\ dhcp_wf s' /\
      option_map hv_elems servers = option_map hv_elems (dr_dns_servers r) /\
      let r' := dhcp_parsed r servers in
      ((exists sid, dhcp_for_us hw s r' sid /\ dhcp_transition (if_now i) (iph_src ip) sid r' s (dh_state s')) \/
       ((forall sid, ~ dhcp_for_us hw s r' sid) /\ s' = s))).
Proof.
  intros Hs Hw Hm Hn Hr Ha Hcp Hsp Hne Hsrc Hdst Hnh Hb Hl Hmax Hc. set (udp := mkUdpRepr _ _).
  destruct (emit_dhcp_ok udp r ip payload caps (if_checksum i)) as (bs & data & servers & -> & Hz & Hdata & Hlen & Eus & Eud & Hp & Hpay & Hd & Hsrv); [done..|].
  cbn [wp]. destruct (wp_Ret_inv (dhcp_process i s ip udp data) _ ltac:(by apply dhcp_process_ok)) as (s' & Es & Hs' & Ht).
  exists s', servers. split; [|split; [done|split; [done|by rewrite Hd in Ht]]].
  unfold ipv4_process_dhcp. rewrite Hnh, Hm, Z.eqb_refl. cbn [medium_eqb andb]. rewrite Hlen, bind_Ret, Eus, bind_Ret, Eud, bind_Ret.
  cbn [udp udp_src_port udp_dst_port]. rewrite !Z.eqb_refl. cbn [andb]. rewrite Hp, bind_Ret, Hpay, bind_Ret, Es. done.
Qed.
End Facts.

(** ** Examples *)

Definition ex_servers_vec : HeaplessVec (list Z) := list_vec (list Z) MAX_DNS_SERVER_COUNT.
Definition ex_servers_laws : @HeaplessVecLaws _ ex_servers_vec MAX_DNS_SERVER_COUNT := list_vec_laws (list Z) MAX_DNS_SERVER_COUNT.
#[export] Existing Instances ex_servers_vec ex_servers_laws.

(** A device that takes every packet. *)
Definition ex_dhcp_emit (i : InterfaceInner) (p : IpHeader * UdpRepr * DhcpRepr) : res (InterfaceInner * result unit unit) := Ret (i, Ok tt).

(** What the server at 10.0.0.254 answers. *)
Definition ex_dhcp_answer (kind : DhcpMessageType) (xid : Z) : DhcpRepr :=
  mkDhcpRepr kind xid 0 ex_hardware [0; 0; 0; 0] [10; 0; 0; 7] [10; 0; 0; 254] (Some [10; 0; 0; 254]) (Some [255; 255; 255; 0]) [0; 0; 0; 0] false
    None None (Some [10; 0; 0; 254]) None (Some (fst (hv_push hv_new [10; 0; 0; 53]))) None (Some 3600) None None [].
Definition ex_dhcp_ip : IpHeader := mkIpHeader [10; 0; 0; 254] [255; 255; 255; 255] PROTOCOL_UDP 0 64.
Definition ex_dhcp_udp : UdpRepr := mkUdpRepr DHCP_SERVER_PORT DHCP_CLIENT_PORT.
Definition ex_dhcp_bytes (kind : DhcpMessageType) (xid : Z) : list Z :=
  match dhcp_emit (ex_dhcp_answer kind xid) (replicate 300 0) with Ret (Ok bs) => bs | _ => [] end.

(** The client discovers, is offered an address, requests it, and gets it. *)
Definition ex_dhcp_sent (s : DhcpSocket) : DhcpSocket :=
  match dhcp_dispatch ex_dhcp_emit s ex_iface with Ret (s, _, _) => s | Panic => s end.
Definition ex_dhcp_answered (kind : DhcpMessageType) (s : DhcpSocket) : DhcpSocket :=
  match dhcp_process ex_iface s ex_dhcp_ip ex_dhcp_udp (ex_dhcp_bytes kind (dh_transaction_id s)) with Ret s => s | Panic => s end.
Definition ex_dhcp_leased : DhcpSocket := ex_dhcp_answered DhcpAck (ex_dhcp_sent (ex_dhcp_answered DhcpOffer (ex_dhcp_sent dhcp_new))).

Example dhcp_handshake :
  match dhcp_poll ex_dhcp_leased with
  | (s, Some (Configured c)) =>
      cf_address c = CidrV4 [10; 0; 0; 7] 24 /\ cf_router c = Some [10; 0; 0; 254] /\ hv_elems (cf_dns_servers c) = [[10; 0; 0; 53]] /\
      dhcp_poll_at s = PollTime 1801000000
  | _ => False
  end.
Proof. vm_compute. by repeat split. Qed.

Lemma ex_dhcp_emit_clock : emit_keeps_clock ex_dhcp_emit.
Proof. done. Qed.

Lemma dhcp_dispatch_when_due_witness :
  let now := cx_now (the_context ex_iface) in let '(cx1, xid) := random_transaction_id ex_iface in
  if poll_due (dhcp_poll_at dhcp_new) now then
    (dhcp_gives_up dhcp_new now /\ dhcp_dispatch ex_dhcp_emit dhcp_new ex_iface = Ret (dhcp_reset dhcp_new, cx1, Ok tt)) \/
    (~ dhcp_gives_up dhcp_new now /\ exists ip udp r s_ok s_err,
      dhcp_dispatch ex_dhcp_emit dhcp_new ex_iface = dhcp_sends ex_dhcp_emit cx1 (ip, udp, r) s_ok s_err /\
      dhcp_packet_for dhcp_new ex_hardware now xid ip udp r /\ dhcp_after_send dhcp_new now xid s_ok s_err)
  else dhcp_dispatch ex_dhcp_emit dhcp_new ex_iface = Ret (dhcp_new, cx1, Ok tt).
Proof.
  apply (dhcp_dispatch_when_due ex_dhcp_emit ex_iface dhcp_new ex_hardware ex_dhcp_emit_clock dhcp_new_wf); try (by vm_compute).
  split; [byte_list | done].
Defined.

Lemma dhcp_process_transitions_witness :
  let s := dh_set_transaction_id dhcp_new 7 in let payload := ex_dhcp_bytes DhcpOffer 7 in
  wp (dhcp_process ex_iface s ex_dhcp_ip ex_dhcp_udp payload) (fun s' => dhcp_wf s' /\
    match dhcp_parse payload with
    | Ret (Ok r) =>
        (exists sid, dhcp_for_us ex_hardware s r sid /\
          dhcp_transition (cx_now (the_context ex_iface)) (iph_src ex_dhcp_ip) sid r s (dh_state s')) \/
        ((forall sid, ~ dhcp_for_us ex_hardware s r sid) /\ s' = s)
    | _ => s' = s
    end).
Proof.
  apply (dhcp_process_transitions ex_iface (dh_set_transaction_id dhcp_new 7) ex_hardware ex_dhcp_ip ex_dhcp_udp (ex_dhcp_bytes DhcpOffer 7)).
  - apply set_xid_wf; [apply dhcp_new_wf | by vm_compute].
  - done.
  - by vm_compute.
  - split; [byte_list | done].
  - apply (bool_decide_unpack _). by vm_compute.
  - done.
  - done.
Defined.

Lemma dhcp_events_tell_the_lease_witness :
  exists known s' o, dhcp_poll ex_dhcp_leased = (s', o) /\ dhcp_lease s' = dhcp_lease ex_dhcp_leased /\ apply_event known o = dhcp_lease s'.
Proof.
  assert (Hsent : forall known s, dhcp_run known s -> dhcp_run known (ex_dhcp_sent s)).
  { intros known s Hr. unfold ex_dhcp_sent. destruct (dhcp_dispatch ex_dhcp_emit s ex_iface) as [[[s' i'] r]|] eqn:Ed; [|done].
    apply (run_step known s None s' Hr). by eapply step_dispatch. }
  assert (Hans : forall kind known s, dhcp_run known s -> dhcp_run known (ex_dhcp_answered kind s)).
  { intros kind known s Hr. unfold ex_dhcp_answered. destruct (dhcp_process _ _ _ _ _) as [s'|] eqn:Ed; [|done].
    apply (run_step known s None s' Hr). by eapply step_process. }
  destruct (dhcp_poll ex_dhcp_leased) as [s' o] eqn:Ep. exists None, s', o. split; [done|].
  apply (dhcp_events_tell_the_lease None ex_dhcp_leased s' o); [|done].
  apply Hans, Hsent, Hans, Hsent, run_new.
Defined.

(** The DISCOVER of a new client, in its datagram. *)
Definition ex_discover : DhcpRepr := dhcp_message dhcp_new ex_hardware 7 1432.
Definition ex_discover_ip : IpHeader := mkIpHeader [0; 0; 0; 0] [255; 255; 255; 255] PROTOCOL_UDP (8 + dhcp_buffer_len ex_discover) 64.

Lemma ex_discover_for : dhcp_packet_for dhcp_new ex_hardware 1000000 7 ex_discover_ip (mkUdpRepr DHCP_CLIENT_PORT DHCP_SERVER_PORT) ex_discover.
Proof.
  assert (Hr : dhcp_repr_ok ex_discover); [|constructor; done || by vm_compute].
  apply message_ok; [apply dhcp_new_wf | split; [byte_list | done] | by vm_compute | by vm_compute].
Qed.

Lemma dhcp_message_is_read_witness :
  let payload := replicate (Z.to_nat (iph_payload_len ex_discover_ip)) 7 in
  wp (emit_dhcp_payload (mkUdpRepr DHCP_CLIENT_PORT DHCP_SERVER_PORT) ex_discover (Ipv4Repr ex_discover_ip) payload (if_caps ex_iface)) (fun bs =>
    Zlen bs = iph_payload_len ex_discover_ip /\
    udp_parse bs (Ipv4 (iph_src ex_discover_ip)) (Ipv4 (iph_dst ex_discover_ip)) (if_checksum ex_iface) =
      Ret (Ok (mkUdpRepr (dh_client_port dhcp_new) (dh_server_port dhcp_new))) /\
    exists data servers, udp_payload bs = Ret data /\ dhcp_parse data = Ret (Ok (dhcp_parsed ex_discover servers)) /\
      option_map hv_elems servers = option_map hv_elems (dr_dns_servers ex_discover)).
Proof.
  apply (dhcp_message_is_read dhcp_new ex_hardware 1000000 7 ex_discover_ip (mkUdpRepr DHCP_CLIENT_PORT DHCP_SERVER_PORT) ex_discover).
  - apply dhcp_new_wf.
  - apply ex_discover_for.
  - by vm_compute.
  - by vm_compute.
  - by vm_compute.
  - split; [cbn; byte_list | done].
  - by apply Forall_replicate.
  - by vm_compute.
  - done.
Defined.

Lemma ex_dhcp_answer_ok kind xid : message_type_ok kind -> in_u32 xid -> dhcp_repr_ok (ex_dhcp_answer kind xid).
Proof. intros Hk Hx. constructor; cbn; try done; try (split; [byte_list | done]); try by vm_compute. constructor; [split; [byte_list | done] | constructor]. Qed.

Lemma dhcp_answer_arrives_witness :
  let s := dh_set_transaction_id dhcp_new 7 in let r := ex_dhcp_answer DhcpOffer 7 in
  wp (emit_dhcp_payload (mkUdpRepr (dh_server_port s) (dh_client_port s)) r (Ipv4Repr ex_dhcp_ip) (replicate (Z.to_nat (8 + dhcp_buffer_len (ex_dhcp_answer DhcpOffer 7))) 7) (if_caps ex_iface)) (fun bs =>
    exists s' servers, ipv4_process_dhcp ex_iface (Some s) ex_dhcp_ip bs = Ret (Some s', true) /\ dhcp_wf s' /\
      option_map hv_elems servers = option_map hv_elems (dr_dns_servers r) /\
      let r' := dhcp_parsed r servers in
      ((exists sid, dhcp_for_us ex_hardware s r' sid /\ dhcp_transition (if_now ex_iface) (iph_src ex_dhcp_ip) sid r' s (dh_state s')) \/
       ((forall sid, ~ dhcp_for_us ex_hardware s r' sid) /\ s' = s))).
Proof.
  apply (dhcp_answer_arrives ex_iface (dh_set_transaction_id dhcp_new 7) ex_hardware ex_dhcp_ip (ex_dhcp_answer DhcpOffer 7) (replicate (Z.to_nat (8 + dhcp_buffer_len (ex_dhcp_answer DhcpOffer 7))) 7) (if_caps ex_iface));
    try done; try (split; [cbn; byte_list | done]); try by vm_compute.
  - apply ex_dhcp_answer_ok; by vm_compute.
  - by apply Forall_replicate.
Defined.

(** ** Where the code is not what it means to be *)

(** The server name of a message is at octet 44, behind the sixteen octets for the hardware address;
    [get_sname] reads it from octet 34, where a message has the zeroes that fill up the address. *)
Example sname_is_not_found :
  dhcp_get_sname (replicate 34 1 ++ replicate 10 0 ++ [0x61; 0x62; 0x63] ++ replicate 61 0 ++ replicate 140 0) = Ret (Err MkWireError).
Proof. by vm_compute. Qed.

(** With more than 128 attempts, the 129th shifts the timeout by the width of its type. *)
Example many_retries_panic :
  let s := dhcp_set_retry_config dhcp_new (mkRetryConfig 10000000 1 200 60000000 DURATION_MAX) in
  let s := dh_set_state s (Requesting (mkRequestState 0 128 (mkServerInfo [10; 0; 0; 254] [10; 0; 0; 254]) [10; 0; 0; 7])) in
  dhcp_dispatch ex_dhcp_emit s ex_iface = Panic.
Proof. by vm_compute. Qed.

(** A lease of two minutes: the next attempt of rebinding is set behind the end of the lease. *)
Example rebinding_after_expiry :
  let c := mkConfig (mkServerInfo [10; 0; 0; 254] [10; 0; 0; 254]) (CidrV4 [10; 0; 0; 7] 24) None hv_new None in
  exists rn, dhcp_renew_again retry_config_default 106000000 (mkRenewState c 105000000 106000000 true 121000000) = Ret rn /\
    rn_expires_at rn < rn_rebind_at rn.
Proof. eexists. split; [by vm_compute | by vm_compute]. Qed.

(** An OFFER that arrives while an address is in use overwrites the packet buffer, and is not reported. *)
Example ignored_packet_overwrites_buffer :
  let s := fst (dhcp_poll (dhcp_set_receive_packet_buffer (ex_dhcp_leased) (replicate 300 7))) in
  let s' := ex_dhcp_answered DhcpOffer s in
  dh_receive_packet_buffer s' <> dh_receive_packet_buffer s /\ snd (dhcp_poll s') = None.
Proof. vm_compute. split; [discriminate | done]. Qed.
