(* ===== verification/IfaceIngressSpec.v ===== *)
(** * What the interface promises about received frames

    Whatever octets arrive, receiving them does not panic and keeps the interface, its sockets
    and its reassembly buffers well formed; pings and ARP requests are answered. *)

From stdpp Require Import gmap.
From S2P Require Import Prelude SeqNumber Assembler PacketBuffer TimeModel TcpTimers IpTypes TcpRepr ByteOrder Checksum TcpWire Ipv4Wire Icmpv4Wire UdpWire Fragmentation IfaceContext Ipv4Addr Ipv6Addr Heapless Route Neighbor EthernetArp Ipv6Wire Icmpv6Packet NdiscWire MldWire Icmpv6Wire NdiscWireSpec Icmpv6WireSpec NdiscEmitSpec Icmpv6EmitSpec TcpSocket UdpSocket UdpSocketSpec IgmpWire Ipv6ExtWire IpWire PacketQueue RawSocket IcmpSocket IfacePacket Iface Multicast TcpInvariant TcpReplyLemmas TcpProcessLemmas TcpExample TcpProcessSpec IfaceTcp IfaceIngress IfaceFragments IfaceInvariant IfaceIngressLemmas IfaceExample.

(** The fragments that are being reassembled. *)
Definition fragments_wf (f : FragmentsBuffer) : Prop := pas_safe (fb_assembler f) /\ time_ok (fb_reassembly_timeout f).

(** The fragment does not reach beyond the largest packet. *)
Definition ip4_fits `{NetworkEndian} (bs : list Z) : Prop :=
  forall off d, ip4_frag_offset bs = Ret off -> ip4_payload bs = Ret d -> off + Zlen d <= MAX_PAYLOAD.

Section Ingress.
Context {cfg : BuildConfig} {cfg_ok : BuildConfigOk} `{NetworkEndianLaws}.
Context `{!LinearMap Address GroupState} {groups_max : nat} `{!LinearMapLaws Address GroupState groups_max}.
Context `{!LinearMap Address Neighbor} {cache_size : nat} `{!LinearMapLaws Address Neighbor cache_size}.
Context `{!HeaplessVec Route} {routes_max : nat} `{!HeaplessVecLaws Route routes_max}.
Context `{!HeaplessVec Ipv6OptionRepr} {options_max : nat} `{!HeaplessVecLaws Ipv6OptionRepr options_max}.
Context `{!CacheHolds cache_size} `{!GroupsFit groups_max}.
Implicit Types (i : InterfaceInner) (sockets : list AnySocket) (ip_payload : list Z).

(** ** IPv6 *)

Lemma failure_type_ok t : in_u8 (option6_type_into t) -> exists f, failure_type_of t = Ret f.
Proof.
  intros Ht. unfold failure_type_of. set (x := option6_type_into t) in *.
  assert (Hall : Forall (fun x => match failure_type_from (Z.land x 0xc0) with Ret _ => true | Panic => false end = true) (seqZ 0 256))
    by (apply (bool_decide_unpack _); vm_compute; exact I).
  assert (Hin : x ∈ seqZ 0 256) by (apply elem_of_seqZ; mlia). apply list_elem_of_In in Hin. rewrite Forall_forall in Hall.
  specialize (Hall x Hin). destruct (failure_type_from _) as [f|]; [by exists f | done].
Qed.

Lemma ext_parse_ok bs : bytes_ok bs ->
  wp (ext_check_len bs) (fun _ => True) /\
  wp (ext_parse bs) (fun r => match r with Ok r => bytes_ok (ext_data r) /\ 2 + Zlen (ext_data r) <= Zlen bs /\ Zlen (ext_data r) <= 4096 | Err _ => True end).
Proof.
  intros Hb. assert (Hc : wp (ext_check_len bs) (fun r => match r with Ok _ => exists n, index bs 1 = Ret n /\ in_u8 n /\ ext_payload_end n <= Zlen bs /\ 8 <= Zlen bs | Err _ => True end)).
  { unfold ext_check_len, EXT_MIN_HEADER_SIZE. destruct (Z.ltb_spec (Zlen bs) 8); [done|].
    destruct (wp_Ret_inv _ _ (index_byte_wp bs 1 Hb ltac:(lia))) as (n & En & Hn). rewrite En. ret_step. destr_if; [done|]. cbn [wp]. exists n. split; [done|]. split; [done|]. lia. }
  split; [eapply wp_mono; [exact Hc | done]|]. unfold ext_parse, try_bind. wp_bind_with Hc. intros [[]|e]; [|done]. intros (n & En & Hn & Hl & H8).
  unfold ext_payload_end in Hl. unfold ext_hdr_next_header, ext_hdr_len, ext_payload, ext_payload_end. destruct (wp_Ret_inv _ _ (index_byte_wp bs 0 Hb ltac:(lia))) as (nh & E0 & _).
  rewrite E0, bind_Ret, En, !bind_Ret. destruct (wp_Ret_inv _ _ (slice_wp bs 2 (n * 8 + 8) Hb ltac:(mlia) Hl)) as (d & -> & Hd & Hz). ret_step. cbn. split; [done|]. mlia.
Qed.

Lemma hop_options_ok i ip ip_payload options :
  iface_wf i -> ip6_header_ok ip -> v6_x_is_unicast (iph_src ip) = true -> Zlen ip_payload <= isize_max -> Forall option6_ok options ->
  wp (hop_options i ip ip_payload options) (fun r => match r with
    | None => True
    | Some (HopDiscard p) => opt_prop (replies_to (Ipv6 (iph_src ip))) p
    | Some (HopContinue _ _) => False
    end).
Proof.
  intros Hi Hip Hu Hl Hos. induction Hos as [|o os Ho Hos IH]; cbn [hop_options]; [done|].
  assert (Hq : wp (p ← quote_v6 i ip ip_payload (Icmpv6ParamProblem UnrecognizedOption (wrap_u 32 (ipv6_buffer_len ip)) ip); Ret (Some (HopDiscard p)))
    (fun r => match r with None => True | Some (HopDiscard p) => opt_prop (replies_to (Ipv6 (iph_src ip))) p | Some (HopContinue _ _) => False end)).
  { wp_bind_with (quote_v6_ok i ip ip_payload (Icmpv6ParamProblem UnrecognizedOption (wrap_u 32 (ipv6_buffer_len ip)) ip) Hi Hip Hu Hl); [|by intros o' (p & -> & data & _ & Hp & _)].
    intros data Hd. by apply quote_len_ok. }
  destruct o as [|n|r|t n d]; [exact IH..|]. destruct Ho as (_ & _ & _ & Ht & _). destruct (failure_type_ok t Ht) as (f & Ef). rewrite Ef. ret_step.
  destruct f; [exact IH | done | exact Hq|]. destr_if; [exact Hq | done].
Qed.

(** What may follow the hop-by-hop header. *)
Definition hop_ok (src : Address) ip_payload (r : HopByHopResponse) : Prop :=
  match r with
  | HopContinue _ rest => bytes_ok rest /\ Zlen rest <= Zlen ip_payload
  | HopDiscard p => opt_prop (replies_to src) p
  end.

Lemma process_hopbyhop_ok i ip ip_payload :
  iface_wf i -> ip6_header_ok ip -> v6_x_is_unicast (iph_src ip) = true -> bytes_ok ip_payload -> Zlen ip_payload <= isize_max ->
  wp (process_hopbyhop i ip ip_payload) (hop_ok (Ipv6 (iph_src ip)) ip_payload).
Proof.
  intros Hi Hip Hu Hb Hl. destruct (ext_parse_ok ip_payload Hb) as [Hc Hp]. unfold process_hopbyhop, ext_new_checked, try_bind. rewrite bind_assoc.
  wp_bind_with Hc. intros [[]|e] _; ret_step; [|done]. wp_bind_with Hp. intros [ext|e]; [|done]. intros (Hd & Hz & H4).
  unfold hbh_new_checked. destruct (hbh_check_len (ext_data ext)) as [[]|]; [|done].
  wp_bind_with (hbh_parse_ok (max_options := options_max) (ext_data ext) Hd ltac:(mlia)). intros [h|e]; [|done]. intros Hos.
  wp_bind_with (hop_options_ok i ip ip_payload (hv_elems h) Hi Hip Hu Hl Hos). intros [[nh rest|p]|]; [done | done|]. intros _.
  pose proof (Zlen_nonneg (ext_data ext)). unfold usize_add, ext_header_len. rewrite checked_ok by mlia. ret_step.
  rewrite slice_ok by lia. ret_step. cbn. split; [by apply bytes_ok_sub|]. rewrite Zlen_sub by lia. lia.
Qed.

Lemma process_nxt_hdr_ok i sockets meta ip nh handled ip_payload :
  iface_wf i -> Forall (any_ready (if_cx i)) sockets -> ip6_header_ok ip -> v6_x_is_unicast (iph_src ip) = true ->
  bytes_ok ip_payload -> Zlen ip_payload <= u16_max ->
  wp (process_nxt_hdr i sockets meta ip nh handled ip_payload) (handled_ok i (Ipv6 (iph_src ip))).
Proof.
  intros Hi Hs Hip Hu Hb Hl. pose proof (ready_wf _ _ Hs) as Hw. pose proof (same_config_refl i) as Hrefl.
  assert (Hh : header_ok (Ipv6Repr ip)) by done. unfold process_nxt_hdr.
  destr_if; [by apply process_icmpv6_ok|]. destr_if.
  { wp_bind_with (process_udp_ok i meta sockets handled (Ipv6Repr ip) ip_payload Hi Hs Hh Hb ltac:(mlia)). intros [sockets' o] [? Ho]. split; [done|]. split; [done|]. by eapply (udp_received_replies _ _ _ _ (Ipv6Repr ip)). }
  destr_if; [apply (process_tcp_packet_ok i sockets (Ipv6Repr ip)); done || mlia|]. destr_if; [by cbn|].
  wp_bind_with (quote_v6_ok i ip ip_payload (Icmpv6ParamProblem UnrecognizedNxtHdr (wrap_u 32 (ipv6_buffer_len ip)) ip) Hi Hip Hu ltac:(mlia)).
  - intros data Hd. by apply quote_len_ok.
  - intros o (p & -> & data & _ & Hp & _). by split_and!.
Qed.

Lemma any_ip_accepts_ok i addr : iface_wf i -> address_ok addr -> wp (any_ip_accepts i (address_is_unicast addr) addr) (fun _ => True).
Proof.
  intros Hi Ha. unfold any_ip_accepts. destr_if; [done|]. destr_if; [done|].
  wp_bind_with (routes_lookup_ok (if_routes i) addr (if_now i) (ifw_routes i Hi) Ha ltac:(by apply negb_false_iff)). by intros o _.
Qed.

Lemma address6_ok a : ipv6_addr_ok a -> address_ok (Ipv6 a).
Proof. intros [Hb Hl]. split; [done|]. unfold Zlen. lia. Qed.
Lemma address4_ok a : ipv4_addr_ok a -> address_ok (Ipv4 a).
Proof. intros [Hb Hl]. split; [done|]. unfold Zlen. lia. Qed.

(** The expiry of a neighbor's entry is renewed. *)
Lemma renewed_ok i (b : bool) a h :
  iface_wf i -> wp (if b then c ← cache_reset_expiry_if_existing (if_neighbor_cache i) a h (if_now i); Ret (if_set_neighbor_cache i c) else Ret i)
    (fun i' => same_config i i' /\ if_cx i' = if_cx i).
Proof.
  intros Hi. destruct b; [|by split; [apply same_config_refl|]]. wp_bind_with (cache_reset_ok (if_neighbor_cache i) a h (if_now i) (ifw_now i Hi)).
  intros c Hc. split; [apply set_cache_config; auto | done].
Qed.

(** A handler that runs on the interface behind a renewal. *)
Lemma handled_after i i1 src out : same_config i i1 -> handled_ok i1 src out -> handled_ok i src out.
Proof. destruct out as [[i' sockets'] o]. intros Hc (Hc' & Hr). split; [by eapply same_config_trans | done]. Qed.

Lemma process_ipv6_ok i sockets meta hw bs :
  iface_wf i -> Forall (any_ready (if_cx i)) sockets -> bytes_ok bs -> Zlen bs <= isize_max ->
  wp (process_ipv6 i sockets meta hw bs) (fun '(i', sockets', o) => same_config i i' /\ Forall any_wf sockets').
Proof.
  intros Hi Hs Hb Hl. pose proof (ready_wf _ _ Hs) as Hw. pose proof (same_config_refl i) as Hrefl. unfold process_ipv6.
  wp_bind_with (ipv6_parse_ok bs Hb). intros [ip|e]; [|done]. intros (Hip & Hfit & Epl). destr_if; [done|]. apply negb_false_iff in Hif as Hu.
  rewrite Epl. ret_step. set (payload := sub bs 40 (iph_payload_len ip)) in *. assert (Hpl : in_u16 (iph_payload_len ip)) by apply Hip.
  assert (Hpb : bytes_ok payload) by (by apply bytes_ok_sub). assert (Hpz : Zlen payload <= u16_max) by (unfold payload; rewrite Zlen_sub by mlia; mlia).
  eapply (wp_bind_mono _ _ (hop_ok (Ipv6 (iph_src ip)) payload)).
  { destr_if; [apply process_hopbyhop_ok; done || mlia | done]. }
  intros [nh rest|p]; [|done]. intros [Hrb Hrz]. eapply (wp_bind_mono _ _ (fun _ => True)).
  { destr_if; [|done]. apply (any_ip_accepts_ok i (Ipv6 (iph_dst ip))); [done|]. apply address6_ok, Hip. }
  intros [|] _; [|done]. cbn [negb]. wp_bind_with (raw_socket_filter_ok _ (ready_other (if_cx i)) (if_checksum i) sockets (Ipv6Repr ip) rest Hs Hip Hrb ltac:(mlia)).
  intros [sockets' handled] (Hs' & _). wp_bind_with (renewed_ok i (v6_x_is_unicast (iph_dst ip)) (Ipv6 (iph_src ip)) hw Hi). intros i1 [Hc1 Ecx].
  eapply wp_mono; [apply (process_nxt_hdr_ok i1); [by eapply same_config_wf | by rewrite Ecx | done.. | lia]|].
  intros [[i' sockets2] o] (Hc & Hw2 & _). split; [by eapply same_config_trans | done].
Qed.

(** ** IPv4 *)

Lemma ip4_frag_accessors bs :
  bytes_ok bs -> 20 <= Zlen bs ->
  (exists m, ip4_more_frags bs = Ret m) /\ (exists off, ip4_frag_offset bs = Ret off /\ 0 <= off) /\ exists k, ip4_get_key bs = Ret k.
Proof.
  intros Hb Hl. destruct (ip4_hdr_view bs Hb Hl) as (vi & de & len & id & fo & ttl & proto & ck & src & dst & rest & -> & Hr & Hvi & Hde & Hlen & Hid & Hfo & Httl & Hpr & _).
  unfold ip4_more_frags, ip4_frag_offset, ip4_get_key. rewrite ip4_flg_off_ok by done. rewrite !bind_Ret. split; [by eexists|]. split; [eexists; split; [done|]; apply wrap_u_range; lia|].
  rewrite ip4_ident_ok, ip4_src_addr_ok, ip4_dst_addr_ok, ip4_next_header_ok by done. rewrite !bind_Ret. by eexists.
Qed.

(** What is handed on is as many octets as a packet holds. *)
Definition whole_payload (o : option (list Z)) : Prop := opt_prop (fun d => bytes_ok d /\ Zlen d <= MAX_PAYLOAD) o.

Lemma ipv4_reassemble_ok i bs frag hl n :
  iface_wf i -> fragments_wf frag -> bytes_ok bs -> 20 <= Zlen bs -> ip4_len_ok bs -> ip4_fits bs ->
  ip4_header_len bs = Ret hl -> 0 <= hl -> 0 <= n -> ip4_total_len bs = Ret (hl + n) -> ip4_payload bs = Ret (sub bs hl n) -> hl + n <= Zlen bs ->
  wp (ipv4_reassemble i bs frag) (fun '(frag', o) => fragments_wf frag' /\ whole_payload o).
Proof.
  intros Hi [Hf Ht] Hb Hl (hl' & tl & Eh & Et & _ & _ & Hmax) Hfits Ehl Hhl Hn Etl Epl Hfit. rewrite Ehl in Eh. injection Eh as <-. rewrite Etl in Et. injection Et as <-.
  destruct (ip4_frag_accessors bs Hb Hl) as ((m & Em) & (off & Eo & Ho) & (k & Ek)). specialize (Hfits _ _ Eo Epl).
  assert (Hz : Zlen (sub bs hl n) = n) by (by apply Zlen_sub; lia). rewrite Hz in Hfits. assert (Hsb : bytes_ok (sub bs hl n)) by (by apply bytes_ok_sub).
  unfold ipv4_reassemble. rewrite Em, bind_Ret, Eo, bind_Ret, Epl, bind_Ret. destr_if; [|cbn; split; [by split | split; [done | lia]]].
  rewrite Ek, bind_Ret, Etl, bind_Ret, Ehl, bind_Ret.
  wp_bind_with (pas_receive_safe (fb_assembler frag) (if_now i) (fb_reassembly_timeout frag) (mkFragment k m off (hl + n) hl (sub bs hl n)) Hf); [|apply Hi | done |].
  - unfold fragment_safe. cbn. rewrite Hz. split; [done|]. split; [done|]. split; [done|]. split; [lia|]. split; [done | lia].
  - intros [a o] [Ha Hp]. cbn. by split.
Qed.

Lemma process_ipv4_protocol_ok i sockets meta ip handled ip_payload :
  iface_wf i -> Forall (any_ready (if_cx i)) sockets -> ip_emit_ok ip -> bytes_ok ip_payload -> Zlen ip_payload <= MAX_PAYLOAD ->
  wp (process_ipv4_protocol i sockets meta ip handled ip_payload) (handled_ok i (Ipv4 (iph_src ip))).
Proof.
  intros Hi Hs Hip Hb Hl. pose proof (ready_wf _ _ Hs) as Hw. pose proof (same_config_refl i) as Hrefl. assert (Hh : header_ok (Ipv4Repr ip)) by done.
  assert (Hl' : Zlen ip_payload <= isize_max) by (unfold MAX_PAYLOAD in Hl; mlia). unfold process_ipv4_protocol.
  destr_if; [wp_bind_with (process_icmpv4_ok i sockets ip ip_payload Hi Hs Hb Hl); by intros [? ?] []|].
  destr_if; [wp_bind_with (process_igmp_ok i ip ip_payload Hi Hb); by intros i' Hc|].
  destr_if; [wp_bind_with (process_udp_ok i meta sockets handled (Ipv4Repr ip) ip_payload Hi Hs Hh Hb Hl'); intros [sockets' o] [? Ho]; split; [done|]; split; [done|]; by eapply (udp_received_replies _ _ _ _ (Ipv4Repr ip))|].
  destr_if; [apply (process_tcp_packet_ok i sockets (Ipv4Repr ip)); done || (unfold MAX_PAYLOAD in Hl; lia)|]. destr_if; [by cbn|].
  wp_bind_with (unreachable_v4_ok i ProtoUnreachable ip ip_payload Hi Hl'). intros o Ho. split; [done|]. split; [done|]. by eapply quotes_replies.
Qed.

Lemma process_ipv4_ok i sockets meta hw bs frag :
  iface_wf i -> Forall (any_ready (if_cx i)) sockets -> fragments_wf frag -> bytes_ok bs -> 20 <= Zlen bs -> ip4_len_ok bs -> ip4_fits bs ->
  wp (process_ipv4 i sockets meta hw bs frag) (fun '(i', sockets', frag', o) => same_config i i' /\ Forall any_wf sockets' /\ fragments_wf frag').
Proof.
  intros Hi Hs Hf Hb Hl Hlen Hfits. pose proof (ready_wf _ _ Hs) as Hw. pose proof (same_config_refl i) as Hrefl. pose proof (ifw_addrs i Hi) as Ha. unfold process_ipv4.
  wp_bind_with (ipv4_parse_ok bs (if_checksum i) Hb). intros [ip|e]; [|done]. intros (Hip & hl & Ehl & Hhl & Etl & Epl & Hfit).
  assert (Hpl : in_u16 (iph_payload_len ip)) by apply Hip. assert (Hem : ip_emit_ok ip).
  { split; [done|]. destruct (ip4_frag_accessors bs Hb Hl) as (_ & (off & Eo & Ho) & _). specialize (Hfits _ _ Eo Epl). rewrite Zlen_sub in Hfits by mlia. unfold MAX_PAYLOAD in Hfits. lia. }
  wp_bind_with (is_unicast_v4_ok (if_cx i) (iph_src ip) Ha). intros u _. destr_if; [done|].
  wp_bind_with (ipv4_reassemble_ok i bs frag hl (iph_payload_len ip) Hi Hf Hb Hl Hlen Hfits Ehl Hhl ltac:(mlia) Etl Epl Hfit). intros [frag' [payload|]] [Hf' Hp]; [|done].
  destruct Hp as [Hpb Hpz]. wp_bind_with (raw_socket_filter_ok _ (ready_other (if_cx i)) (if_checksum i) sockets (Ipv4Repr ip) payload Hs Hem Hpb ltac:(unfold MAX_PAYLOAD in Hpz; lia)).
  intros [sockets' handled] (Hs' & _). pose proof (ready_wf _ _ Hs') as Hw'.
  eapply (wp_bind_mono _ _ (fun _ => True)). { destr_if; [|done]. apply (cx_is_broadcast_ok (if_cx i) (Ipv4 (iph_dst ip)) Ha). }
  intros d _. eapply (wp_bind_mono _ _ (fun _ => True)). { destr_if; [|done]. apply (any_ip_accepts_ok i (Ipv4 (iph_dst ip))); [done|]. apply address4_ok, Hip. }
  intros [|] _; [|done]. cbn [negb]. wp_bind_with (is_unicast_v4_ok (if_cx i) (iph_dst ip) Ha). intros ud _.
  wp_bind_with (renewed_ok i ud (Ipv4 (iph_src ip)) hw Hi). intros i1 [Hc1 Ecx].
  wp_bind_with (process_ipv4_protocol_ok i1 sockets' meta ip handled payload); [by eapply same_config_wf | by rewrite Ecx | done.. |].
  intros [[i' sockets2] o] (Hc & Hw2 & _). cbn [wp]. split; [by eapply same_config_trans | done].
Qed.

(** ** ARP and frames *)

Lemma process_arp_ok i eth_payload :
  iface_wf i -> cx_medium (if_cx i) = MediumEthernet -> bytes_ok eth_payload ->
  wp (process_arp i (if_now i) eth_payload) (fun '(i', o) => same_config i i').
Proof.
  intros Hi Hm Hb. pose proof (same_config_refl i) as Hrefl. unfold process_arp, arp_new_checked, try_bind. rewrite bind_assoc.
  wp_bind_with (arp_check_len_ok eth_payload Hb). intros [[]|e] _; ret_step; [|done].
  wp_bind_with (arp_parse_ok eth_payload Hb). intros [[op sha spa tha tpa]|e]; [|done]. intros (_ & _ & Hsha & Hspa & Htha & Htpa). cbn in *.
  destr_if; [done|]. destruct op; [| |done].
  all: destr_if; [done|]; apply orb_false_iff in Hif0 as [Hu%negb_false_iff He%negb_false_iff]; unfold in_same_network;
    rewrite (same_network_ok _ _ (ifw_addrs i Hi) (address4_ok _ Hspa)); ret_step; destr_if; [done|];
    wp_bind_with (cache_fill_any (if_neighbor_cache i) (Ipv4 spa) (HardwareEthernet sha) (if_now i) Hu ltac:(unfold hw_ok; cbn; by rewrite He) (ifw_now i Hi));
    intros c Hc; cbv zeta; pose proof (ifw_hardware i Hi) as Hh; rewrite Hm in Hh; cbn [if_hardware_addr if_set_neighbor_cache];
    destruct (if_hardware_addr i) as [|o|a]; [done | | done]; cbn [ethernet_or_panic]; ret_steps; cbn [wp]; apply set_cache_config; rewrite Hm; by apply Hc.
Qed.

(** What receiving keeps. *)
Definition ingress_keeps {P} i (out : InterfaceInner * list AnySocket * FragmentsBuffer * option P) : Prop :=
  let '(i', sockets', frag', _) := out in same_config i i' /\ iface_wf i' /\ Forall any_wf sockets' /\ fragments_wf frag'.

Lemma ingress_keeps_all {P} i sockets frag (o : option P) :
  iface_wf i -> Forall (any_ready (if_cx i)) sockets -> fragments_wf frag -> ingress_keeps i (i, sockets, frag, o).
Proof. intros Hi Hs Hf. split; [apply same_config_refl|]. split; [done|]. split; [by eapply ready_wf | done]. Qed.

Lemma ip4_checked_ok {B} bs (drop : res B) (k : list Z -> res B) Q :
  bytes_ok bs -> wp drop Q -> (20 <= Zlen bs -> ip4_len_ok bs -> wp (k bs) Q) ->
  wp (p ← ip4_new_checked bs; match p with Err _ => drop | Ok p => k p end) Q.
Proof.
  intros Hb Hd Hk. unfold ip4_new_checked, try_bind. rewrite bind_assoc. wp_bind_with (ip4_check_len_ok bs Hb).
  intros [[]|e]; [|intros _; by ret_step]. intros [Hl Hlen]. ret_step. by apply Hk.
Qed.

Lemma ip6_checked_ok {B} bs (drop : res B) (k : list Z -> res B) Q :
  bytes_ok bs -> wp drop Q -> wp (k bs) Q -> wp (p ← ip6_new_checked bs; match p with Err _ => drop | Ok p => k p end) Q.
Proof.
  intros Hb Hd Hk. unfold ip6_new_checked, try_bind. rewrite bind_assoc. wp_bind_with (ip6_check_len_ok bs Hb).
  intros [[]|e]; [|intros _; by ret_step]. intros _. by ret_step.
Qed.

Lemma ipv4_keeps i sockets meta hw bs frag :
  iface_wf i -> Forall (any_ready (if_cx i)) sockets -> fragments_wf frag -> bytes_ok bs -> ip4_fits bs -> 20 <= Zlen bs -> ip4_len_ok bs ->
  wp (process_ipv4 i sockets meta hw bs frag) (ingress_keeps i).
Proof.
  intros Hi. intros. eapply wp_mono; [by apply process_ipv4_ok|]. intros [[[i' sockets'] frag'] o] (Hc & Hw & Hf').
  split; [done|]. split; [by eapply same_config_wf | done].
Qed.

Lemma process_ip_ok i sockets meta bs frag :
  iface_wf i -> Forall (any_ready (if_cx i)) sockets -> fragments_wf frag ->
  bytes_ok bs -> bs <> [] -> Zlen bs <= isize_max -> (version_of_packet bs = Ret (Ok Ipv4Version) -> ip4_fits bs) ->
  wp (process_ip i sockets meta bs frag) (ingress_keeps i).
Proof.
  intros Hi Hs Hf Hb Hne Hl Hfits. unfold process_ip. destruct (version_of_packet_ok bs Hb Hne) as (v & E). rewrite E in *. ret_step.
  destruct v as [[]|e]; [| |by apply ingress_keeps_all].
  - apply ip4_checked_ok; [done | by apply ingress_keeps_all|]. intros. apply ipv4_keeps; auto.
  - apply ip6_checked_ok; [done | by apply ingress_keeps_all|]. wp_bind_with (process_ipv6_ok i sockets meta HardwareIp bs Hi Hs Hb Hl).
    intros [[i' sockets'] o] (Hc & Hw). split; [done|]. split; [by eapply same_config_wf | done].
Qed.

Lemma process_ethernet_ok i sockets meta frame frag :
  iface_wf i -> cx_medium (if_cx i) = MediumEthernet -> Forall (any_ready (if_cx i)) sockets -> fragments_wf frag ->
  bytes_ok frame -> Zlen frame <= isize_max ->
  (forall p, eth_ethertype frame = Ret EtherIpv4 -> eth_payload frame = Ret p -> ip4_fits p) ->
  wp (process_ethernet i sockets meta frame frag) (ingress_keeps i).
Proof.
  intros Hi Hm Hs Hf Hb Hl Hfits. unfold process_ethernet, eth_new_checked, eth_check_len, ETHERNET_HEADER_LEN.
  destruct (Z.ltb_spec (Zlen frame) 14); [by apply ingress_keeps_all|].
  destruct (eth_hdr_view frame Hb ltac:(done)) as (dst & src & ty & rest & -> & Hr & Hty). rewrite eth_dst_addr_ok. ret_step.
  destr_if; [by apply ingress_keeps_all|]. rewrite eth_ethertype_ok, eth_payload_ok, eth_src_addr_ok in * by done. ret_steps. rewrite Zlen_eth_hdr in Hl.
  destruct (ethertype_from ty) as [| | |v]; [| | |by apply ingress_keeps_all].
  - apply ip4_checked_ok; [done | by apply ingress_keeps_all|]. intros Hl4 Hlen.
    wp_bind_with (ipv4_keeps i sockets meta (HardwareEthernet (be_bytes 6 src)) rest frag Hi Hs Hf Hr (Hfits _ eq_refl eq_refl) Hl4 Hlen). by intros [[[i' sockets'] frag'] o].
  - wp_bind_with (process_arp_ok i rest Hi Hm Hr). intros [i' o] Hc. split; [done|]. split; [by eapply same_config_wf|]. split; [by eapply ready_wf | done].
  - apply ip6_checked_ok; [done | by apply ingress_keeps_all|].
    wp_bind_with (process_ipv6_ok i sockets meta (HardwareEthernet (be_bytes 6 src)) rest Hi Hs Hr ltac:(lia)).
    intros [[i' sockets'] o] (Hc & Hw). split; [done|]. split; [by eapply same_config_wf | done].
Qed.

(** ** What the answers are *)

Lemma icmp_emitted_len payload caps ident seq data :
  bytes_ok payload -> Zlen payload <= u16_max -> icmpv4_parse payload caps = Ret (Ok (Icmpv4EchoRequest ident seq data)) ->
  Zlen payload = 8 + Zlen data /\ icmp4_check_len payload = Ok tt.
Proof.
  intros Hb Hl E. pose proof (icmpv4_parse_ok payload caps Hb Hl) as Hp. rewrite E in Hp. destruct Hp as (_ & _ & _ & Hz).
  split; [done|]. unfold icmp4_check_len, ICMPV4_HEADER_END. pose proof (Zlen_nonneg data). by replace (Zlen payload <? 8) with false by lia.
Qed.

(** The answer to an echo request. *)
Definition echo_answer (h : IpHeader) (ident seq : Z) (data : list Z) : Packet :=
  packet_new_ipv4 (mkIpHeader (iph_dst h) (iph_src h) PROTOCOL_ICMP (8 + Zlen data) 64) (PayloadIcmpv4 (Icmpv4EchoReply ident seq data)).

Lemma process_echo_ok i sockets h payload ident seq data :
  iface_wf i -> Forall any_wf sockets -> bytes_ok payload -> Zlen payload <= MAX_PAYLOAD ->
  is_unicast_v4 (if_cx i) (iph_src h) = Ret true -> is_unicast_v4 (if_cx i) (iph_dst h) = Ret true ->
  icmpv4_parse payload (if_checksum i) = Ret (Ok (Icmpv4EchoRequest ident seq data)) ->
  wp (process_icmpv4 i sockets h payload) (fun '(_, o) => o = Some (echo_answer h ident seq data)).
Proof.
  intros Hi Hs Hb Hl Hsu Hdu Ep. unfold MAX_PAYLOAD in Hl. destruct (icmp_emitted_len payload _ ident seq data Hb ltac:(mlia) Ep) as [Hz Hc].
  pose proof (icmpv4_parse_ok payload (if_checksum i) Hb ltac:(mlia)) as Hr. rewrite Ep in Hr. cbn [wp] in Hr. pose proof (icmpv4_ok_emit _ _ Hr Hl) as Hem.
  unfold process_icmpv4, icmp4_new_checked. rewrite Hc, Ep. ret_step. eapply wp_bind_mono.
  { apply (icmp_sockets_ok any_wf (fun _ => iff_refl _) _ _ sockets); [intros s _; by apply (icmp_accepts_v4_ok _ _ _ (Zlen payload)) | | done].
    intros s Hsw _. destruct (icmpv4_len _ _ Hr ltac:(mlia)) as (n & En). eapply wp_mono; [apply icmp_process_v4_ok; eauto|]. intros s' Hd. apply Hd. }
  intros [sockets' b] _. pose proof (Zlen_nonneg data). unfold icmpv4_reply. rewrite Hsu, bind_Ret. cbn [negb]. cbv iota. rewrite Hdu, bind_Ret. cbv iota. cbn [icmpv4_buffer_len].
  unfold usize_add. rewrite checked_ok by mlia. by rewrite !bind_Ret.
Qed.

Lemma ipv4_parse_checked bs caps h : ipv4_parse bs caps = Ret (Ok h) -> ip4_new_checked bs = Ret (Ok bs).
Proof.
  unfold ipv4_parse, ip4_new_checked, try_bind. by destruct (ip4_check_len bs) as [[[]|e]|].
Qed.

Lemma process_ip_echo_ok i sockets meta frag bs h payload ident seq data :
  iface_wf i -> Forall any_wf sockets -> bytes_ok bs ->
  version_of_packet bs = Ret (Ok Ipv4Version) -> ipv4_parse bs (if_checksum i) = Ret (Ok h) ->
  ip4_more_frags bs = Ret false -> ip4_frag_offset bs = Ret 0 ->
  ip4_payload bs = Ret payload -> Zlen payload <= MAX_PAYLOAD -> iph_next_header h = PROTOCOL_ICMP ->
  has_ip_addr i (Ipv4 (iph_dst h)) = true ->
  is_unicast_v4 (if_cx i) (iph_src h) = Ret true -> is_unicast_v4 (if_cx i) (iph_dst h) = Ret true ->
  icmpv4_parse payload (if_checksum i) = Ret (Ok (Icmpv4EchoRequest ident seq data)) ->
  wp (process_ip i sockets meta bs frag) (fun '(i', _, frag', o) =>
    same_config i i' /\ frag' = frag /\ o = Some (echo_answer h ident seq data)).
Proof.
  intros Hi Hs Hbs Ev Epa Em Eo Epl Hl Hnh Hown Hsu Hdu Ep. pose proof (ipv4_parse_ok bs (if_checksum i) Hbs) as Hp. rewrite Epa in Hp.
  destruct Hp as (Hh & hl & _ & Hhl & _ & Epl' & Hfit). rewrite Epl in Epl'. injection Epl' as Epl'.
  pose proof (iho_payload_len _ Hh) as Hn. assert (Hz : Zlen payload = iph_payload_len h) by (rewrite Epl'; apply Zlen_sub; mlia).
  assert (Hip : ip_emit_ok h) by (split; [done|]; unfold MAX_PAYLOAD in Hl; lia).
  assert (Hb : bytes_ok payload) by (rewrite Epl'; by apply bytes_ok_sub). clear Epl'.
  unfold process_ip. rewrite Ev, bind_Ret, (ipv4_parse_checked _ _ _ Epa), bind_Ret. unfold process_ipv4. rewrite Epa, bind_Ret. cbv zeta. rewrite Hsu, bind_Ret. cbn [negb andb].
  unfold ipv4_reassemble. rewrite Em, bind_Ret, Eo, bind_Ret, Epl, bind_Ret. cbn [Z.eqb negb orb]. rewrite bind_Ret.
  wp_bind_with (raw_socket_filter_ok any_wf (fun _ => iff_refl _) (if_checksum i) sockets (Ipv4Repr h) payload Hs Hip Hb ltac:(unfold MAX_PAYLOAD in Hl; lia)).
  intros [sockets' handled] (Hs' & _). rewrite Hown. cbn [negb andb]. rewrite bind_Ret. cbn [negb]. rewrite bind_Ret. cbn [negb]. rewrite Hdu, bind_Ret.
  wp_bind_with (renewed_ok i true (Ipv4 (iph_src h)) HardwareIp Hi). intros i1 [Hc1 Ecx]. unfold process_ipv4_protocol. rewrite Hnh. change (PROTOCOL_ICMP =? PROTOCOL_ICMP) with true. cbv iota.
  rewrite bind_assoc. wp_bind_with (process_echo_ok i1 sockets' h payload ident seq data); try done.
  - by eapply same_config_wf.
  - by rewrite Ecx.
  - by rewrite Ecx.
  - by rewrite (sc_checksum _ _ Hc1).
  - intros [sockets2 o] ->. by ret_step.
Qed.

Lemma process_arp_answer_ok i own payload sha spa tha tpa :
  iface_wf i -> bytes_ok payload -> if_hardware_addr i = HardwareEthernet own ->
  arp_parse payload = Ret (Ok (mkArpEthernetIpv4 ArpRequest sha spa tha tpa)) ->
  has_ip_addr i (Ipv4 tpa) = true -> v4_x_is_unicast spa = true -> ethernet_is_unicast sha = true ->
  in_same_network (if_cx i) (Ipv4 spa) = Ret true ->
  wp (process_arp i (if_now i) payload) (fun '(i', o) =>
    o = Some (EthernetArp (mkArpEthernetIpv4 ArpReply own tpa sha spa)) /\ same_config i i' /\
    cache_lookup (if_neighbor_cache i') (Ipv4 spa) (if_now i') = Ret (Found (HardwareEthernet sha))).
Proof.
  intros Hi Hb Hown Ep Haddr Hu He Hnet. assert (Ec : arp_check_len payload = Ret (Ok tt)).
  { unfold arp_parse, try_bind in Ep. destruct (arp_check_len payload) as [[[]|e]|]; [done | by destruct e | done]. }
  unfold process_arp, arp_new_checked, try_bind. rewrite Ec, !bind_Ret, Ep, bind_Ret, Haddr. cbn [negb andb]. rewrite Hu, He. cbn [negb orb]. rewrite Hnet, bind_Ret. cbn [negb].
  pose proof (arp_parse_ok payload Hb) as Hok. rewrite Ep in Hok. destruct Hok as (_ & _ & Hsha & _). cbn in Hsha.
  assert (Hhw : hw_ok (HardwareEthernet sha)) by (unfold hw_ok; cbn; by rewrite He).
  destruct (wp_Ret_inv _ _ (cache_fill_ok (cache_holds cache_size) (if_neighbor_cache i) (Ipv4 spa) (HardwareEthernet sha) (if_now i) Hu Hhw (ifw_now i Hi)))
    as (c & Efill & _ & m & Hm & _).
  pose proof (cache_fill_any (if_neighbor_cache i) (Ipv4 spa) (HardwareEthernet sha) (if_now i) Hu Hhw (ifw_now i Hi)) as Hfits. rewrite Efill in Hfits. cbn [wp] in Hfits.
  assert (Hmed : cx_medium (if_cx i) = MediumEthernet) by (pose proof (ifw_hardware i Hi) as Hh; rewrite Hown in Hh; by destruct (cx_medium (if_cx i))).
  rewrite Efill. ret_step. cbv zeta. cbn [if_hardware_addr if_set_neighbor_cache]. rewrite Hown. cbn [ethernet_or_panic]. ret_steps. cbn [wp].
  split; [done|]. split; [apply set_cache_config; rewrite Hmed; by apply Hfits|]. unfold cache_lookup. cbn [address_is_unicast]. rewrite Hu. cbn [passert]. rewrite bind_Ret.
  cbn [if_neighbor_cache if_set_neighbor_cache]. rewrite lm_get_map, Hm, lookup_insert_eq. cbn [nb_expires_at nb_hardware_addr].
  change (if_now _) with (if_now i). pose proof (ifw_now i Hi). unfold ENTRY_LIFETIME. by replace (if_now i <? if_now i + 60000000) with true by lia.
Qed.

(** ** Properties *)

(** C2: Whatever octets a frame holds, receiving it on Ethernet does not panic, down to the sockets and
    the answers, and keeps the invariants of the interface, of every socket and of the reassembly
    buffers; addresses, routes and the rest of the configuration stay as they are.  The exceptions:
    IPv4 packets and fragments that reach beyond the largest packet (65515 octets of payload), and
    times at which a TCP socket is not ready for a segment ([any_ready]): one that negotiated SACK
    while its receive window lies across the sequence number 0, where a segment out of order does
    panic ([sack_near_wrap_panics]), or one whose running round-trip measurement is older than 2^28 ms. *)
Theorem process_ethernet_safe i sockets meta frame frag :
  iface_wf i -> cx_medium (if_cx i) = MediumEthernet -> Forall (any_ready (if_cx i)) sockets -> fragments_wf frag ->
  bytes_ok frame -> Zlen frame <= isize_max ->
  (forall p, eth_ethertype frame = Ret EtherIpv4 -> eth_payload frame = Ret p -> ip4_fits p) ->
  wp (process_ethernet i sockets meta frame frag) (fun '(i', sockets', frag', _) =>
    same_config i i' /\ iface_wf i' /\ Forall any_wf sockets' /\ fragments_wf frag').
Proof. apply process_ethernet_ok. Qed.

(** C5: Whatever octets a packet of either IP version, or of none, holds, receiving it on a medium without
    frames does not panic, and keeps the invariants of the interface, of every socket and of the
    reassembly buffers, and the configuration.  The exceptions are those of receiving a frame: IPv4
    packets and fragments beyond 65515 octets of payload, and times at which a TCP socket is not
    ready ([any_ready]): its receive window lies across the sequence number 0 after SACK was
    negotiated ([sack_near_wrap_panics]), or its round-trip measurement is older than 2^28 ms. *)
Theorem process_ip_safe i sockets meta bs frag :
  iface_wf i -> Forall (any_ready (if_cx i)) sockets -> fragments_wf frag ->
  bytes_ok bs -> bs <> [] -> Zlen bs <= isize_max -> (version_of_packet bs = Ret (Ok Ipv4Version) -> ip4_fits bs) ->
  wp (process_ip i sockets meta bs frag) (fun '(i', sockets', frag', _) =>
    same_config i i' /\ iface_wf i' /\ Forall any_wf sockets' /\ fragments_wf frag').
Proof. apply process_ip_ok. Qed.

(** C6: A ping is answered: an IPv4 packet, whatever its identification, options and other header fields
    are, that parses, is not a fragment, carries an echo request that parses, comes from a
    unicast address and is addressed to a unicast address of the interface, is answered, whatever
    well-formed sockets there are, by an echo reply to the sender from that address with the same
    identifier, sequence number and data.  (A payload over 65515 octets, which only a header length
    below 20 makes possible, is left out.) *)
Theorem ping_answered i sockets meta frag bs h payload ident seq data :
  iface_wf i -> Forall any_wf sockets -> bytes_ok bs ->
  version_of_packet bs = Ret (Ok Ipv4Version) -> ipv4_parse bs (if_checksum i) = Ret (Ok h) ->
  ip4_more_frags bs = Ret false -> ip4_frag_offset bs = Ret 0 ->
  ip4_payload bs = Ret payload -> Zlen payload <= MAX_PAYLOAD -> iph_next_header h = PROTOCOL_ICMP ->
  has_ip_addr i (Ipv4 (iph_dst h)) = true ->
  is_unicast_v4 (if_cx i) (iph_src h) = Ret true -> is_unicast_v4 (if_cx i) (iph_dst h) = Ret true ->
  icmpv4_parse payload (if_checksum i) = Ret (Ok (Icmpv4EchoRequest ident seq data)) ->
  wp (process_ip i sockets meta bs frag) (fun '(i', _, frag', o) =>
    same_config i i' /\ frag' = frag /\
    o = Some (packet_new_ipv4 (mkIpHeader (iph_dst h) (iph_src h) PROTOCOL_ICMP (8 + Zlen data) 64)
                (PayloadIcmpv4 (Icmpv4EchoReply ident seq data)))).
Proof. apply process_ip_echo_ok. Qed.

(** C7: A UDP datagram that parses goes, with its data, to the first socket that accepts it, and to no
    other; when there is none and no raw socket took the packet, at most a port-unreachable message is sent, to
    the sender, that quotes its header and the front of its payload.  Octets that do not parse
    change nothing and are not answered. *)
Theorem process_udp_delivers i meta sockets handled ip ip_payload :
  iface_wf i -> Forall (any_ready (if_cx i)) sockets -> header_ok ip -> bytes_ok ip_payload -> Zlen ip_payload <= isize_max ->
  wp (process_udp i meta sockets handled ip ip_payload) (fun '(sockets', o) =>
    match udp_parse ip_payload (ip_src_addr ip) (ip_dst_addr ip) (if_checksum i) with
    | Ret (Ok repr) => exists payload (taken : bool), udp_payload ip_payload = Ret payload /\
        udp_delivered (if_cx i) meta ip repr payload sockets sockets' taken /\ (taken || handled = true -> o = None) /\
        opt_prop (port_unreachable ip ip_payload) o
    | _ => sockets' = sockets /\ o = None
    end).
Proof. intros. eapply wp_mono; [by apply process_udp_ok|]. by intros [sockets' o] [_ ?]. Qed.

(** C8: An ARP request for an address of the interface, from a unicast neighbor of its network, is
    answered with the interface's hardware address, and the neighbor's address is known from then on. *)
Theorem arp_request_answered i own payload sha spa tha tpa :
  iface_wf i -> bytes_ok payload -> if_hardware_addr i = HardwareEthernet own ->
  arp_parse payload = Ret (Ok (mkArpEthernetIpv4 ArpRequest sha spa tha tpa)) ->
  has_ip_addr i (Ipv4 tpa) = true -> v4_x_is_unicast spa = true -> ethernet_is_unicast sha = true ->
  in_same_network (if_cx i) (Ipv4 spa) = Ret true ->
  wp (process_arp i (if_now i) payload) (fun '(i', o) =>
    o = Some (EthernetArp (mkArpEthernetIpv4 ArpReply own tpa sha spa)) /\ same_config i i' /\
    cache_lookup (if_neighbor_cache i') (Ipv4 spa) (if_now i') = Ret (Found (HardwareEthernet sha))).
Proof. apply process_arp_answer_ok. Qed.
End Ingress.

(** *** Concrete instances *)

(** A ping from 10.0.0.2 with the data 0xaa, 0xbb. *)
Definition ex_ping : list Z :=
  match icmpv4_emit (Icmpv4EchoRequest 0x1234 1 [0xaa; 0xbb]) (replicate 10 0) caps_default with Ret bs => bs | Panic => [] end.
Definition ex_ping_header : IpHeader := mkIpHeader [10; 0; 0; 2] [10; 0; 0; 1] PROTOCOL_ICMP 10 64.
Definition ex_ping_packet : list Z :=
  match ip_repr_emit (Ipv4Repr ex_ping_header) (replicate 20 0) caps_default with Ret bs => bs ++ ex_ping | Panic => [] end.

Definition ex_frame (ethertype : EtherType) (payload : list Z) : list Z :=
  match eth_emit (mkEthernetRepr [2; 0; 0; 0; 0; 2] ex_hardware ethertype) (replicate 14 0) with Ret bs => bs ++ payload | Panic => [] end.

Definition ex_arp_request : list Z :=
  match arp_emit (mkArpEthernetIpv4 ArpRequest [2; 0; 0; 0; 0; 2] [10; 0; 0; 2] (replicate 6 0) [10; 0; 0; 1]) (replicate 28 0) with
  | Ret bs => bs | Panic => [] end.

Definition ex_udp_packet : list Z :=
  match udp_emit (mkUdpRepr 53 7) (replicate 11 0) (Ipv4 [10; 0; 0; 2]) (Ipv4 [10; 0; 0; 1]) 3 (fun buf => copy_from_slice buf [1; 2; 3]) caps_default with
  | Ret bs => bs | Panic => [] end.

Lemma ex_fragments_wf : fragments_wf ex_fragments.
Proof. split; [constructor | unfold time_ok; cbn; lia]. Qed.

Lemma ex_ping_fits p : p = ex_ping_packet -> ip4_fits p.
Proof.
  intros ->. intros off d Eo Ed. assert (E1 : ip4_frag_offset ex_ping_packet = Ret 0) by (vm_compute; reflexivity).
  assert (E2 : ip4_payload ex_ping_packet = Ret ex_ping) by (vm_compute; reflexivity). pose proof (f_equal (fun r => match r with Ret x => x | Panic => 0 end) (eq_trans (eq_sym E1) Eo)) as Ho.
  pose proof (f_equal (fun r => match r with Ret x => x | Panic => [] end) (eq_trans (eq_sym E2) Ed)) as Hd. cbv beta iota in Ho, Hd. rewrite <- Ho, <- Hd.
  vm_compute. discriminate.
Qed.

Lemma process_ethernet_safe_witness :
  wp (process_ethernet ex_iface ex_any_sockets 0 (ex_frame EtherIpv4 ex_ping_packet) ex_fragments) (fun '(i', sockets', frag', _) =>
    same_config ex_iface i' /\ iface_wf i' /\ Forall any_wf sockets' /\ fragments_wf frag').
Proof.
  apply process_ethernet_safe;
    [apply ex_iface_wf | reflexivity | by apply ex_any_sockets_ready | exact ex_fragments_wf | apply bytes_ok_bool; vm_compute; reflexivity | vm_compute; discriminate |].
  intros p _ Ep. apply ex_ping_fits. assert (E : eth_payload (ex_frame EtherIpv4 ex_ping_packet) = Ret ex_ping_packet) by (vm_compute; reflexivity).
  exact (f_equal (fun r => match r with Ret x => x | Panic => p end) (eq_trans (eq_sym Ep) E)).
Defined.

Lemma process_ip_safe_witness :
  wp (process_ip ex_iface_ip ex_any_sockets 0 ex_ping_packet ex_fragments) (fun '(i', sockets', frag', _) =>
    same_config ex_iface_ip i' /\ iface_wf i' /\ Forall any_wf sockets' /\ fragments_wf frag').
Proof.
  apply process_ip_safe; [apply ex_iface_wf | by apply ex_any_sockets_ready | exact ex_fragments_wf | apply bytes_ok_bool; vm_compute; reflexivity | vm_compute; discriminate | vm_compute; discriminate |].
  intros _. by apply ex_ping_fits.
Defined.

Lemma ping_answered_witness :
  wp (process_ip ex_iface_ip ex_any_sockets 0 ex_ping_packet ex_fragments) (fun '(i', _, frag', o) =>
    same_config ex_iface_ip i' /\ frag' = ex_fragments /\
    o = Some (packet_new_ipv4 (mkIpHeader [10; 0; 0; 1] [10; 0; 0; 2] PROTOCOL_ICMP (8 + Zlen [0xaa; 0xbb]) 64)
                (PayloadIcmpv4 (Icmpv4EchoReply 0x1234 1 [0xaa; 0xbb])))).
Proof.
  apply (ping_answered ex_iface_ip ex_any_sockets 0 ex_fragments ex_ping_packet ex_ping_header ex_ping 0x1234 1 [0xaa; 0xbb]);
    [apply ex_iface_wf | eapply ready_wf; by apply (ex_any_sockets_ready (if_cx ex_iface_ip)) | apply bytes_ok_bool; vm_compute; reflexivity |
     first [vm_compute; reflexivity | vm_compute; discriminate]..].
Defined.

Definition ex_udp_ip : IpRepr := Ipv4Repr (mkIpHeader [10; 0; 0; 2] [10; 0; 0; 1] PROTOCOL_UDP 11 64).

Lemma process_udp_delivers_witness :
  wp (process_udp ex_iface 0 ex_any_sockets false ex_udp_ip ex_udp_packet) (fun '(sockets', o) =>
    match udp_parse ex_udp_packet (ip_src_addr ex_udp_ip) (ip_dst_addr ex_udp_ip) (if_checksum ex_iface) with
    | Ret (Ok repr) => exists payload (taken : bool), udp_payload ex_udp_packet = Ret payload /\
        udp_delivered (if_cx ex_iface) 0 ex_udp_ip repr payload ex_any_sockets sockets' taken /\ (taken || false = true -> o = None) /\
        opt_prop (port_unreachable ex_udp_ip ex_udp_packet) o
    | _ => sockets' = ex_any_sockets /\ o = None
    end).
Proof.
  apply process_udp_delivers; [apply ex_iface_wf | by apply ex_any_sockets_ready | | apply bytes_ok_bool; vm_compute; reflexivity | vm_compute; discriminate].
  split; [|exact I]. split; [split; [split; [byte_list | done] | split; [byte_list | done] | by vm_compute | by vm_compute | by vm_compute] | vm_compute; discriminate].
Defined.

Lemma arp_request_answered_witness :
  wp (process_arp ex_iface (if_now ex_iface) ex_arp_request) (fun '(i', o) =>
    o = Some (EthernetArp (mkArpEthernetIpv4 ArpReply ex_hardware [10; 0; 0; 1] [2; 0; 0; 0; 0; 2] [10; 0; 0; 2])) /\ same_config ex_iface i' /\
    cache_lookup (if_neighbor_cache i') (Ipv4 [10; 0; 0; 2]) (if_now i') = Ret (Found (HardwareEthernet [2; 0; 0; 0; 0; 2]))).
Proof.
  apply (arp_request_answered ex_iface ex_hardware ex_arp_request [2; 0; 0; 0; 0; 2] [10; 0; 0; 2] (replicate 6 0) [10; 0; 0; 1]);
    [apply ex_iface_wf | apply bytes_ok_bool; vm_compute; reflexivity | reflexivity | vm_compute; reflexivity..].
Defined.

(** * What the definitions show of the code *)

(** A packet for another host's address that ends in the same two octets as an address of the
    interface is taken for one for its solicited-node group. *)
Theorem foreign_address_accepted :
  let foreign := [0x20; 0x01; 0x0d; 0xb8] ++ replicate 10 0xaa ++ [0; 1] in
  has_ip_addr ex_iface (Ipv6 foreign) = false /\ v6_is_multicast foreign = false /\
  has_multicast_group ex_iface (Ipv6 foreign) = true.
Proof. by vm_compute. Qed.

(** The unspecified address passes the check of the addresses, and then panics. *)
Theorem unspecified_address_panics :
  let addrs := [CidrV6 (replicate 16 0) 64] in
  check_ip_addrs addrs = Ret tt /\ update_ip_addrs ex_iface (fun _ => addrs) = Panic.
Proof. split; vm_compute; reflexivity. Qed.

(** A neighbor advertisement for one address is stored under the address of its sender. *)
Theorem advert_stored_under_source :
  let target := [0xfe; 0x80] ++ replicate 13 0 ++ [9] in
  let source := [0xfe; 0x80] ++ replicate 13 0 ++ [2] in
  let advert := NeighborAdvert NEIGHBOR_FLAG_OVERRIDE target (Some [2; 0; 0; 0; 0; 9]) in
  match process_ndisc ex_iface (mkIpHeader source ([0xfe; 0x80] ++ replicate 13 0 ++ [1]) 58 32 255) advert with
  | Ret (i, _) =>
      cache_lookup (if_neighbor_cache i) (Ipv6 target) (if_now i) = Ret NotFound /\
      cache_lookup (if_neighbor_cache i) (Ipv6 source) (if_now i) = Ret (Found (HardwareEthernet [2; 0; 0; 0; 0; 9]))
  | Panic => False
  end.
Proof. by vm_compute. Qed.

(** A packet of ten octets in two fragments, as a raw socket gets it: the header announces the two
    octets of the last fragment. *)
Definition ex_fragment (offset_flags : Z) (payload : list Z) : list Z :=
  let bytes := ip4_hdr 0x45 0 (20 + Zlen payload) 7 offset_flags 64 47 0 (be_value [10; 0; 0; 2]) (be_value [10; 0; 0; 1]) payload in
  match ip4_fill_checksum bytes with Ret bs => bs | Panic => [] end.

Definition ex_reassembling : FragmentsBuffer := mkFragmentsBuffer (pas_new 4 4) 60000000.

Definition ex_raw_received (sockets : list AnySocket) : list (list Z) :=
  sockets ≫= fun s => match s with OtherItem (OtherRaw r) => raw_rx r | _ => [] end.

Theorem raw_header_of_last_fragment :
  match process_ip ex_iface_ip ex_any_sockets 0 (ex_fragment 0x2000 [1; 2; 3; 4; 5; 6; 7; 8]) ex_reassembling with
  | Ret (i, sockets, frag, _) =>
      match process_ip i sockets 0 (ex_fragment 0x0001 [9; 10]) frag with
      | Ret (_, sockets, _, _) => exists packet, ex_raw_received sockets = [packet] /\
          drop 20 packet = [1; 2; 3; 4; 5; 6; 7; 8; 9; 10] /\ Zlen packet = 30 /\ ip4_total_len packet = Ret 22
      | Panic => False
      end
  | Panic => False
  end.
Proof. vm_compute. eexists. by split_and!. Qed.
