(* ===== verification/IfaceEgressSpec.v ===== *)
(** * What the transmission of a packet promises

    A packet that fits the device reaches it as one frame, with the hardware address of the next
    hop; a packet whose next hop is unknown starts the discovery of the neighbor instead; and an
    IPv4 packet that is too long is sent in fragments. *)

From stdpp Require Import gmap.
From S2P Require Import Prelude TimeModel TcpTimers IpTypes ByteOrder Checksum Ipv4Wire Icmpv4Wire UdpWire Fragmentation IfaceContext Ipv4Addr Ipv6Addr Heapless Route Neighbor EthernetArp Ipv6Wire Icmpv6Packet NdiscWire Icmpv6Wire NdiscWireSpec NdiscEmitSpec Icmpv6EmitSpec TcpSocket UdpSocket IgmpWire Ipv6ExtWire IpWire PacketQueue IcmpSocket IfacePacket Iface Multicast IfaceEgress TcpInvariant TcpExample IfaceIngress IfaceFragments IfaceInvariant IfaceEgressLemmas IfaceIngressLemmas IfaceExample.

Section Egress.
Context `{NetworkEndianLaws}.
Context `{!LinearMap Address GroupState} {groups_max : nat} `{!LinearMapLaws Address GroupState groups_max}.
Context `{!LinearMap Address Neighbor} {cache_size : nat} `{!LinearMapLaws Address Neighbor cache_size}.
Context `{!HeaplessVec Route} {routes_max : nat} `{!HeaplessVecLaws Route routes_max}.
Context `{!HeaplessVec Ipv6OptionRepr} {options_max : nat} `{!HeaplessVecLaws Ipv6OptionRepr options_max}.
Implicit Types (i : InterfaceInner) (e : Egress) (p : Packet) (tx : TxToken).

(** ** The interface *)

(** An interface that packets can be sent with. *)
Record egress_ready i : Prop := {
  er_wf : iface_wf i;
  er_device : device_ok (if_caps i);
  er_medium : cx_medium (if_cx i) <> MediumIeee802154;
  er_ident : in_u16 (if_ipv4_id i);
}.

(** Sending takes identifiers of fragments, and keeps the configuration. *)
Definition egress_config i i' : Prop := exists n, in_u16 n /\ same_config (if_set_ipv4_id i n) i'.

Lemma set_id_config i n i' : same_config (if_set_ipv4_id i n) i' ->
  same_cx (if_cx i) (if_cx i') /\ if_caps i' = if_caps i /\ if_hardware_addr i' = if_hardware_addr i /\ if_routes i' = if_routes i.
Proof.
  intros [Hcx Hh Hr _ Hck Hb _ _]. cbn in *. split; [done|]. split; [|done]. unfold if_caps. destruct Hcx as (_ & -> & -> & _). by rewrite Hck, Hb.
Qed.

Lemma set_id_ready i n : in_u16 n -> egress_ready i -> egress_ready (if_set_ipv4_id i n).
Proof. intros Hn [[] Hd Hm _]. split; [by split | done | done | done]. Qed.

Lemma next_id_ok i : in_u16 (wrap_u 16 (if_ipv4_id i + 1)).
Proof. pose proof (wrap_u_range 16 (if_ipv4_id i + 1)). mlia. Qed.

Lemma same_config_ready i i' : same_config i i' -> egress_ready i -> egress_ready i'.
Proof.
  intros Hc [Hi Hd Hm Hid]. split; [by eapply same_config_wf | | |]; destruct Hc as [Hcx _ _ _ Hck Hb Hci _]; [| | by rewrite Hci].
  - unfold if_caps in *. destruct Hcx as (_ & Em & Et & _). by rewrite Em, Et, Hck, Hb.
  - destruct Hcx as (_ & Em & _). by rewrite Em.
Qed.

Lemma egress_config_refl i : in_u16 (if_ipv4_id i) -> egress_config i i.
Proof. intros Hid. exists (if_ipv4_id i). split; [done|]. destruct i. apply same_config_refl. Qed.

Lemma egress_config_ready i i' : egress_config i i' -> egress_ready i -> egress_ready i'.
Proof. intros (n & Hn & Hc) Hi. eapply same_config_ready; [exact Hc|]. by apply set_id_ready. Qed.

Lemma ip_mtu_ok i : egress_ready i -> exists mtu, if_ip_mtu i = Ret mtu /\ mtu = dc_max_transmission_unit (if_caps i) - frame_header_len (cx_medium (if_cx i)) /\ 100 <= mtu.
Proof.
  intros [_ [Hm _] Hmed _]. unfold if_ip_mtu, dc_ip_mtu. cbn [dc_medium if_caps] in *. destruct (cx_medium (if_cx i)); [| |done]; cbn [frame_header_len].
  - unfold ETHERNET_HEADER_LEN. rewrite usize_sub_ok by mlia. eexists. split; [done|]. mlia.
  - eexists. split; [done|]. mlia.
Qed.

Lemma ip_total_ok ip : ip_repr_ok ip -> ip_buffer_len ip = Ret (ip_header_len ip + ip_payload_len ip) /\
  20 <= ip_header_len ip + ip_payload_len ip <= 65575.
Proof.
  intros Hip. destruct (ip_addrs_emit ip Hip) as (_ & _ & _ & Hn). unfold ip_buffer_len.
  assert (20 <= ip_header_len ip <= 40) by (destruct ip; cbn; unfold IPV4_HEADER_LEN, IPV6_HEADER_LEN; lia).
  rewrite usize_add_ok by mlia. split; [done | mlia].
Qed.

(** ** One packet *)

Definition ip_total p : Z := ip_header_len (packet_ip_repr p) + ip_payload_len (packet_ip_repr p).

(** The metadata is handed on with IPv4 packets only. *)
Definition sent_meta p (meta : PacketMeta) : PacketMeta := match packet_ip_repr p with Ipv4Repr _ => meta | Ipv6Repr _ => meta_default end.

(** The device was given one frame more: the packet, for the hardware address [dst]. *)
Definition sends i p dst (meta : PacketMeta) (frames frames' : list (PacketMeta * list Z)) : Prop :=
  exists frame bs, frames' = frames ++ [(sent_meta p meta, frame)] /\ ip_written i p bs /\
    frame_carries i dst (version_ethertype (ip_version (packet_ip_repr p))) bs frame /\
    Zlen frame = frame_header_len (cx_medium (if_cx i)) + ip_total p /\ Zlen frame <= dc_max_transmission_unit (if_caps i).

Lemma dispatch_packet_ok e tx meta p dst id :
  egress_ready (eg_inner e) -> tx_ok tx -> packet_ok p -> ethernet_addr_ok dst ->
  (forall mtu, if_ip_mtu (eg_inner e) = Ret mtu -> ip_total p <= mtu) ->
  exists frames, dispatch_packet e tx meta p dst id (frame_header_len (cx_medium (if_cx (eg_inner e))) + ip_total p) =
      Ret (mkEgress (eg_inner e) (eg_frag e) frames) /\ sends (eg_inner e) p dst meta (eg_sent e) frames.
Proof.
  intros Hr Htx Hp Hd Hfits. pose proof Hr as [Hi Hdev Hm _]. pose proof Hp as (Hip & _ & _). destruct (ip_total_ok _ Hip) as [Et Htl].
  destruct (ip_mtu_ok _ Hr) as (mtu & Emtu & -> & _). specialize (Hfits _ Emtu). fold (ip_total p) in Htl.
  set (i := eg_inner e) in *. set (len := frame_header_len (cx_medium (if_cx i)) + ip_total p).
  assert (Hlen : 0 <= len) by (unfold len; destruct (cx_medium (if_cx i)); cbn [frame_header_len]; lia).
  destruct (Htx len Hlen) as [Hbt Hlt].
  assert (Hgo : forall m v, m = sent_meta p meta -> v = ip_version (packet_ip_repr p) -> exists frames,
    tx_consume e tx m len (emit_frame i dst v (emit_ip i p (packet_ip_repr p))) = Ret (mkEgress i (eg_frag e) frames) /\
    sends i p dst meta (eg_sent e) frames).
  { intros m v -> ->. destruct (emit_frame_ok i dst (ip_version (packet_ip_repr p)) (emit_ip i p (packet_ip_repr p)) (ip_total p) (tx len) (ip_written i p)
      Hi Hm Hd ltac:(lia) Hbt Hlt) as (frame & bs & E & Hw & Hc & Hz).
    { intros d Hbd Hld. destruct (emit_ip_ok i p d Hp Hdev Hbd Hld) as (bs & E & Hz & Hw). exists bs. rewrite <- Hld. by split_and!. }
    unfold tx_consume. rewrite E, bind_Ret. eexists. split; [done|]. exists frame, bs. split; [done|]. split; [done|]. split; [done|].
    rewrite Hz, Hlt. unfold len. split; [done | lia]. }
  unfold dispatch_packet. fold i. rewrite Et, bind_Ret, Emtu, bind_Ret. fold (ip_total p).
  destruct (packet_ip_repr p) as [h|h] eqn:Eip; replace (_ <? ip_total p) with false by lia.
  - by apply Hgo; rewrite ?Eip; unfold sent_meta; rewrite ?Eip.
  - by apply Hgo; rewrite ?Eip; unfold sent_meta; rewrite ?Eip.
Qed.

(** An IPv6 packet that is too long is dropped. *)
Lemma dispatch_packet_dropped e tx meta h payload dst id len :
  egress_ready (eg_inner e) -> ip6_header_ok h -> (forall mtu, if_ip_mtu (eg_inner e) = Ret mtu -> mtu < ip_total (PacketIpv6 h payload)) ->
  dispatch_packet e tx meta (PacketIpv6 h payload) dst id len = Ret e.
Proof.
  intros Hr Hh Hlong. destruct (ip_total_ok (Ipv6Repr h) Hh) as [Et _]. destruct (ip_mtu_ok _ Hr) as (mtu & Emtu & _).
  specialize (Hlong _ Emtu). unfold dispatch_packet. cbn [packet_ip_repr]. rewrite Et, bind_Ret, Emtu, bind_Ret.
  unfold ip_total in Hlong. cbn [packet_ip_repr] in Hlong. by replace (mtu <? _) with true by lia.
Qed.

(** ** The hardware address *)

(** A group of receivers needs no lookup: everybody, or the hardware address of the group. *)
Definition group_hardware (broadcast : bool) (dst : Address) : option (list Z) :=
  if broadcast then Some ethernet_broadcast
  else match dst with
  | Ipv4 b => if v4_is_multicast b then Some [0x01; 0x00; 0x5e; Z.land (octet b 1) 0x7f; octet b 2; octet b 3] else None
  | Ipv6 b => if v6_is_multicast b then Some [0x33; 0x33; octet b 12; octet b 13; octet b 14; octet b 15] else None
  end.

Lemma octet_u8 a k : bytes_ok a -> in_u8 (octet a k).
Proof. intros Hb. unfold octet. destruct (nth_in_or_default k a 0%Z) as [Hin | ->]; [|mlia]. unfold bytes_ok in Hb. rewrite List.Forall_forall in Hb. auto. Qed.

Lemma group_hardware_ok b dst o : address_ok dst -> group_hardware b dst = Some o -> ethernet_addr_ok o.
Proof.
  unfold group_hardware. intros Ha. destruct b; [intros [= <-]; split; [unfold ethernet_broadcast; byte_list | done]|].
  destruct dst as [a|a]; cbn in Ha; destruct Ha as [Hb _]; (destr_if; [|done]); intros [= <-]; (split; [|done]);
    repeat (constructor; [try apply in_u8_land_l; try apply octet_u8; done || mlia |]); constructor.
Qed.

Section Lookup.
Variable rec : Egress -> TxToken -> PacketMeta -> Packet -> res (Egress * result unit DispatchError).

Lemma lookup_group_ok e tx dst o :
  iface_wf (eg_inner e) -> cx_medium (if_cx (eg_inner e)) = MediumEthernet ->
  (forall b, cx_is_broadcast (if_cx (eg_inner e)) dst = Ret b -> group_hardware b dst = Some o) ->
  lookup_hardware_addr rec e tx dst = Ret (e, Ok (HardwareEthernet o)).
Proof.
  intros Hi Hm Hg. unfold lookup_hardware_addr. destruct (wp_Ret_inv _ _ (cx_is_broadcast_ok (if_cx (eg_inner e)) dst (ifw_addrs _ Hi))) as (b & E & _).
  specialize (Hg b E). rewrite E, bind_Ret, Hm. unfold group_hardware in Hg. destruct b; [by injection Hg as <-|].
  destruct dst as [a|a]; cbn [address_is_multicast multicast_hardware_addr]; (destr_if; [|done]); by injection Hg as <-.
Qed.

(** The next hop of a destination that is not a group: a neighbor, or a gateway. *)
Lemma next_hop_ok i dst :
  iface_wf i -> address_ok dst -> address_is_unspecified dst = false -> cx_is_broadcast (if_cx i) dst = Ret false -> address_is_multicast dst = false ->
  wp (iface_route (if_cx i) (if_routes i) dst (if_now i)) (opt_prop (fun hop => address_ok hop /\ address_is_unicast hop = true)).
Proof.
  intros Hi Ha Hu Hb Hm.
  assert (Huni : address_is_unicast dst = true).
  { destruct dst as [a|a]; cbn in *.
    - unfold is_broadcast_v4 in Hb. unfold v4_x_is_unicast, v4_is_unspecified in *. rewrite Hm. destruct (v4_is_broadcast a); [done|]. by rewrite Hu.
    - unfold v6_x_is_unicast, v6_is_unspecified. rewrite Hm. by rewrite Hu. }
  eapply wp_mono; [apply iface_route_ok; [apply (ifw_addrs _ Hi) | apply (ifw_routes _ Hi) | done | by left]|].
  intros o Ho. destruct (_ || _); [by subst o; cbn|]. destruct Ho as ([b|] & Hl & ->); [|done]. destruct Hl as (r1 & r2 & Er & _).
  pose proof (ifw_gateways _ Hi) as Hg. rewrite Er in Hg. apply Forall_app in Hg as [_ Hg]. by inversion Hg.
Qed.
End Lookup.

(** ** Discovery *)

Lemma arp_emit_in_frame e tx dst own r :
  iface_wf (eg_inner e) -> if_hardware_addr (eg_inner e) = HardwareEthernet own -> tx_ok tx -> ethernet_addr_ok dst -> ethernet_addr_ok own -> arp_repr_ok r ->
  exists arp, dispatch_arp e tx dst r = Ret (mkEgress (eg_inner e) (eg_frag e) (eg_sent e ++ [(meta_default, dst ++ own ++ be_bytes 2 0x0806 ++ arp)])) /\
    arp_parse arp = Ret (Ok r) /\ Zlen arp = 28.
Proof.
  intros Hi Hown Htx Hd Ho Hr. unfold dispatch_arp, dispatch_ethernet, eth_buffer_len. change (arp_buffer_len r) with 28. unfold ETHERNET_HEADER_LEN.
  rewrite usize_add_ok by mlia. rewrite bind_Ret. destruct (Htx 42 ltac:(lia)) as [Hb Hl].
  destruct (eth_hdr_view (tx 42) Hb ltac:(lia)) as (d0 & s0 & t0 & rest & E & Hrest & _). rewrite E, Zlen_eth_hdr in Hl.
  destruct (arp_emit_parse_ok r rest Hr Hrest ltac:(change (arp_buffer_len r) with 28; lia)) as (arp & Ea & Hz & _ & Hp).
  exists arp. unfold tx_consume. change (14 + 28) with 42. rewrite E, Zlen_eth_hdr, Hl. cbn [passert Z.eqb Pos.eqb]. rewrite bind_Ret, Hown.
  cbn [ethernet_or_panic]. rewrite bind_Ret, eth_set_src_addr_ok, bind_Ret, eth_set_dst_addr_ok, bind_Ret by done.
  rewrite eth_set_ethertype_ok, bind_Ret by (by vm_compute). rewrite (eth_payload_mut_ok _ _ _ _ _ _ Ea Hz), bind_Ret.
  rewrite eth_hdr_app by done. split; [done|]. split; [done | lia].
Qed.

Lemma address_addr6 a : address_ok (Ipv6 a) -> ipv6_addr_ok a.
Proof. intros [Hb Hl]. split; [done|]. unfold Zlen in Hl. lia. Qed.
Lemma address_addr4 a : address_ok (Ipv4 a) -> ipv4_addr_ok a.
Proof. intros [Hb Hl]. split; [done|]. unfold Zlen in Hl. lia. Qed.

Lemma neighbor_solicitation_ok i own a :
  iface_wf i -> if_hardware_addr i = HardwareEthernet own -> ethernet_addr_ok own -> address_ok (Ipv6 a) -> address_is_unicast (Ipv6 a) = true ->
  exists p, neighbor_solicitation i a = Ret p /\ packet_ok p /\ packet_payload p = PayloadIcmpv6 (Icmpv6Ndisc (NeighborSolicit a (Some own))) /\
    Ret (ip_dst_addr (packet_ip_repr p)) = (g ← v6_solicited_node a; Ret (Ipv6 g)) /\ ip_total p = 72.
Proof.
  intros Hi Hown [Hob Hol] Ha Hu. cbn [address_is_unicast] in Hu. pose proof (address_addr6 a Ha) as Ha6.
  assert (Hun : address_is_unspecified (Ipv6 a) = false) by (by apply v6_unicast_specified).
  destruct (source_v6_ok (if_cx i) a (cidrs_v6_ok i Hi) Ha6 Hun) as (src & Es & Hs).
  unfold neighbor_solicitation. rewrite Hown. unfold raw_from_hardware, raw_from_bytes, MAX_HARDWARE_ADDRESS_LEN. cbn [hardware_as_bytes]. rewrite bind_Ret.
  assert (Hlo : Zlen own = 6) by (unfold Zlen; lia). rewrite Hlo. change (6 <=? 8) with true. cbv iota. rewrite !bind_Ret, Es, bind_Ret.
  unfold v6_solicited_node. rewrite Hu. cbn [passert]. rewrite !bind_Ret.
  assert (En : icmpv6_buffer_len (Icmpv6Ndisc (NeighborSolicit a (Some own))) = Ret 32).
  { cbn [icmpv6_buffer_len ndisc_buffer_len nd_opt_len]. unfold ndisc_option_buffer_len. by rewrite Hlo. }
  rewrite En, bind_Ret. eexists. split; [done|]. cbn [packet_new_ipv6 packet_ip_repr packet_payload ip_dst_addr iph_dst].
  split; [|split; [done | split; [done|]]]; [|done]. split; [|split].
  - split; cbn; [done | | by vm_compute | by vm_compute | by vm_compute]. split; [|done].
    repeat (constructor; [first [mlia | by apply octet_u8, Ha6]|]). constructor.
  - split; [by eexists|]. split; [|exact En]. split; [done|]. cbn. split; [done | by left].
  - done.
Qed.

(** A destination whose hardware address is asked for: one frame is sent, an ARP request to
    everybody or a neighbor solicitation to the group of the neighbor. *)
Definition asks i (hop : Address) (frames frames' : list (PacketMeta * list Z)) : Prop :=
  match hop with
  | Ipv4 a => exists own src arp, if_hardware_addr i = HardwareEthernet own /\ get_source_address_ipv4 (if_cx i) a = Some src /\
      frames' = frames ++ [(meta_default, ethernet_broadcast ++ own ++ be_bytes 2 0x0806 ++ arp)] /\
      arp_parse arp = Ret (Ok (mkArpEthernetIpv4 ArpRequest own src ethernet_broadcast a))
  | Ipv6 a => exists p g own, if_hardware_addr i = HardwareEthernet own /\ packet_payload p = PayloadIcmpv6 (Icmpv6Ndisc (NeighborSolicit a (Some own))) /\
      v6_solicited_node a = Ret g /\ ip_dst_addr (packet_ip_repr p) = Ipv6 g /\
      exists o, group_hardware false (Ipv6 g) = Some o /\ sends i p o meta_default frames frames'
  end.

(** What becomes of a destination. *)
Inductive resolution : Type :=
| ResolvedTo (o : list Z)  (* the hardware address is known *)
| ResolvedNoRoute
| ResolvedPending  (* a request was sent a short time ago *)
| ResolvedAsk (hop : Address).

(** An ARP request needs an address of the interface. *)
Definition can_ask i (hop : Address) : bool :=
  match hop with Ipv4 a => if get_source_address_ipv4 (if_cx i) a is Some _ then true else false | Ipv6 _ => true end.

Definition resolve i (dst : Address) : res resolution :=
  b ← cx_is_broadcast (if_cx i) dst;
  match group_hardware b dst with
  | Some o => Ret (ResolvedTo o)
  | None =>
      hop ← iface_route (if_cx i) (if_routes i) dst (if_now i);
      match hop with
      | None => Ret ResolvedNoRoute
      | Some hop =>
          a ← cache_lookup (if_neighbor_cache i) hop (if_now i);
          match a with
          | Found (HardwareEthernet o) => Ret (ResolvedTo o)
          | Found _ => Panic
          | RateLimited => Ret ResolvedPending
          | NotFound => Ret (if can_ask i hop then ResolvedAsk hop else ResolvedNoRoute)
          end
      end
  end.

(** A request was sent, and no other is sent for a while. *)
Definition asked e hop (out : Egress * result (list Z) DispatchError) : Prop :=
  let '(e', r) := out in
  r = Err DispatchNeighborPending /\ egress_config (eg_inner e) (eg_inner e') /\ eg_frag e' = eg_frag e /\
  asks (eg_inner e) hop (eg_sent e) (eg_sent e') /\ ca_silent_until (if_neighbor_cache (eg_inner e')) = if_now (eg_inner e) + SILENT_TIME.

(** The lookup does what the resolution says. *)
Definition looked_up e (out : Egress * result (list Z) DispatchError) (res : resolution) : Prop :=
  match res with
  | ResolvedTo o => out = (e, Ok o) /\ ethernet_addr_ok o
  | ResolvedNoRoute => out = (e, Err DispatchNoRoute)
  | ResolvedPending => out = (e, Err DispatchNeighborPending)
  | ResolvedAsk hop => asked e hop out
  end.

Definition as_hardware (r : result (list Z) DispatchError) : result HardwareAddress DispatchError :=
  match r with Ok o => Ok (HardwareEthernet o) | Err err => Err err end.

Section Dispatch.
Variable dispatch_ieee802154 : Egress -> Ieee802154Address -> TxToken -> PacketMeta -> Packet -> res Egress.
Abbreviation dispatch := (dispatch_ip_fuel dispatch_ieee802154).

(** A packet to a group needs no lookup, and so no recursion. *)
Lemma dispatch_group_ok fuel e tx meta p o :
  egress_ready (eg_inner e) -> cx_medium (if_cx (eg_inner e)) = MediumEthernet -> tx_ok tx -> packet_ok p ->
  (forall b, cx_is_broadcast (if_cx (eg_inner e)) (ip_dst_addr (packet_ip_repr p)) = Ret b -> group_hardware b (ip_dst_addr (packet_ip_repr p)) = Some o) ->
  ethernet_addr_ok o -> (forall mtu, if_ip_mtu (eg_inner e) = Ret mtu -> ip_total p <= mtu) ->
  exists frames, dispatch (S fuel) e tx meta p =
      Ret (mkEgress (if_set_ipv4_id (eg_inner e) (wrap_u 16 (if_ipv4_id (eg_inner e) + 1))) (eg_frag e) frames, Ok tt) /\
    sends (eg_inner e) p o meta (eg_sent e) frames.
Proof.
  intros Hr Hm Htx Hp Hg Ho Hfits. pose proof Hp as (Hip & _ & Hu). destruct (ip_total_ok _ Hip) as [Et Htl]. fold (ip_total p) in Et, Htl.
  cbn [dispatch_ip_fuel]. rewrite Hu. cbn [negb passert]. rewrite bind_Ret, Hm. cbn [next_ipv4_frag_ident]. rewrite Et, bind_Ret.
  unfold eth_buffer_len, ETHERNET_HEADER_LEN. rewrite usize_add_ok by mlia. rewrite bind_Ret.
  set (i' := if_set_ipv4_id (eg_inner e) _). pose proof (set_id_ready (eg_inner e) (wrap_u 16 (if_ipv4_id (eg_inner e) + 1)) (next_id_ok _) Hr) as Hr'. fold i' in Hr'.
  rewrite (lookup_group_ok _ (eg_set_inner e i') tx _ o); [| apply Hr' | done | done]. rewrite bind_Ret.
  destruct (dispatch_packet_ok (eg_set_inner e i') tx meta p o (if_ipv4_id (eg_inner e)) Hr' Htx Hp Ho Hfits) as (frames & E & Hs).
  cbn [eg_inner eg_set_inner] in E. change (cx_medium (if_cx i')) with (cx_medium (if_cx (eg_inner e))) in E. rewrite Hm in E. cbn [frame_header_len] in E.
  rewrite E, bind_Ret. by eexists.
Qed.

Lemma egress_config_silent i n c : in_u16 n -> ca_storage c = ca_storage (if_neighbor_cache i) ->
  egress_config i (if_set_neighbor_cache (if_set_ipv4_id i n) c).
Proof. intros Hn Hc. exists n. split; [done|]. apply set_cache_config. unfold cache_fits. by rewrite Hc. Qed.

Lemma discovery_sent_ok e hop n frames :
  iface_wf (eg_inner e) -> in_u16 n -> asks (eg_inner e) hop (eg_sent e) frames ->
  exists e', discovery_sent (mkEgress (if_set_ipv4_id (eg_inner e) n) (eg_frag e) frames) = Ret (e', Err DispatchNeighborPending) /\
    asked e hop (e', Err DispatchNeighborPending).
Proof.
  intros Hi Hn Ha. unfold discovery_sent, cache_limit_rate. pose proof (ifw_now _ Hi) as Hnow. cbn [eg_inner].
  change (if_now (if_set_ipv4_id (eg_inner e) n)) with (if_now (eg_inner e)).
  rewrite instant_add_ok by (unfold time_ok, SILENT_TIME in *; lia). rewrite !bind_Ret.
  eexists. split; [done|]. split; [done|]. split; [by apply egress_config_silent|]. done.
Qed.

Lemma ask_neighbor_ok fuel e tx hop :
  egress_ready (eg_inner e) -> cx_medium (if_cx (eg_inner e)) = MediumEthernet -> tx_ok tx -> address_ok hop -> address_is_unicast hop = true ->
  exists e' r, ask_neighbor (dispatch (S fuel)) e tx hop = Ret (e', as_hardware r) /\
    looked_up e (e', r) (if can_ask (eg_inner e) hop then ResolvedAsk hop else ResolvedNoRoute).
Proof.
  intros Hr Hm Htx Ha Hu. pose proof Hr as [Hi Hdev Hmed Hid]. pose proof (ifw_hardware _ Hi) as Hhw. unfold ask_neighbor. rewrite Hm in *.
  destruct (if_hardware_addr (eg_inner e)) as [|own|] eqn:Eown; [done| |done]. cbn in Hhw. destruct hop as [a|a]; cbn [can_ask].
  - cbn [ethernet_or_panic]. rewrite bind_Ret. destruct (get_source_address_ipv4 (if_cx (eg_inner e)) a) as [src|] eqn:Esrc;
      [|by exists e, (Err DispatchNoRoute)].
    assert (Hr4 : arp_repr_ok (mkArpEthernetIpv4 ArpRequest own src ethernet_broadcast a)).
    { split; [by vm_compute|]. split; [done|]. cbn. split; [done|]. split; [|split; [split; [unfold ethernet_broadcast; byte_list | done] | by apply address_addr4]].
      unfold get_source_address_ipv4 in Esrc. apply head_Some_elem_of, list_elem_of_omap in Esrc as ([o p|] & Hin & [= <-]).
      pose proof (ifw_addrs _ Hi) as Hc. rewrite Forall_forall in Hc. apply list_elem_of_In, Hc in Hin. destruct Hin as [Hv _]. by apply address_addr4. }
    destruct (arp_emit_in_frame e tx ethernet_broadcast own _ Hi Eown Htx ltac:(split; [unfold ethernet_broadcast; byte_list | done]) Hhw Hr4) as (arp & E & Hp & _).
    rewrite E, bind_Ret. destruct (discovery_sent_ok e (Ipv4 a) (if_ipv4_id (eg_inner e)) _ Hi Hid (ex_intro _ own (ex_intro _ src (ex_intro _ arp (conj Eown (conj Esrc (conj eq_refl Hp)))))))
      as (e' & Ed & Has).
    exists e', (Err DispatchNeighborPending). split; [|done].
    assert (Eid : if_set_ipv4_id (eg_inner e) (if_ipv4_id (eg_inner e)) = eg_inner e) by (by destruct (eg_inner e)). rewrite Eid in Ed. exact Ed.
  - destruct (neighbor_solicitation_ok (eg_inner e) own a Hi Eown Hhw Ha Hu) as (p & Ep & Hp & Epl & Eg & Etot). rewrite Ep, bind_Ret.
    destruct (v6_solicited_node a) as [g|] eqn:Esn; [|done]. rewrite bind_Ret in Eg. injection Eg as Eg.
    assert (Hg : exists o, group_hardware false (Ipv6 g) = Some o /\ ethernet_addr_ok o).
    { unfold v6_solicited_node in Esn. cbn [address_is_unicast] in Hu. rewrite Hu in Esn. cbn [passert] in Esn. rewrite bind_Ret in Esn. injection Esn as <-.
      eexists. split; [reflexivity|]. split; [|done]. destruct Ha as [Hb _]. cbn. repeat (constructor; [first [mlia | by apply octet_u8]|]). constructor. }
    destruct Hg as (o & Hgo & Ho). destruct (ip_mtu_ok _ Hr) as (mtu & Emtu & _ & Hmtu).
    destruct (dispatch_group_ok fuel e tx meta_default p o Hr Hm Htx Hp) as (frames & E & Hs); [| done | rewrite Emtu; intros ? [= <-]; lia |].
    { rewrite Eg. cbn [cx_is_broadcast]. by intros b [= <-]. }
    rewrite E, bind_Ret. cbv beta iota. edestruct (discovery_sent_ok e (Ipv6 a)) as (e' & Ed & Has); [done | apply next_id_ok | | rewrite Ed; by exists e', (Err DispatchNeighborPending)].
    exists p, g, own. split_and!; [done.. | by exists o].
Qed.

Lemma lookup_ok fuel e tx dst :
  egress_ready (eg_inner e) -> cx_medium (if_cx (eg_inner e)) = MediumEthernet -> tx_ok tx -> address_ok dst -> address_is_unspecified dst = false ->
  exists e' r res, lookup_hardware_addr (dispatch (S fuel)) e tx dst = Ret (e', as_hardware r) /\
    resolve (eg_inner e) dst = Ret res /\ looked_up e (e', r) res.
Proof.
  intros Hr Hm Htx Ha Hu. pose proof Hr as [Hi Hdev Hmed Hid]. unfold resolve.
  destruct (wp_Ret_inv _ _ (cx_is_broadcast_ok (if_cx (eg_inner e)) dst (ifw_addrs _ Hi))) as (b & Eb & _).
  destruct (group_hardware b dst) as [o|] eqn:Eg.
  { exists e, (Ok o), (ResolvedTo o). split; [apply lookup_group_ok; [done..|]; intros b'; rewrite Eb; by intros [= <-]|].
    rewrite Eb, bind_Ret, Eg. split; [done|]. split; [done|]. by eapply group_hardware_ok. }
  assert (b = false /\ address_is_multicast dst = false) as [-> Hmc].
  { unfold group_hardware in Eg. destruct b; [done|]. split; [done|]. destruct dst as [a|a]; cbn in *; [by destruct (v4_is_multicast a) | by destruct (v6_is_multicast a)]. }
  pose proof (next_hop_ok (eg_inner e) dst Hi Ha Hu Eb Hmc) as Hhop.
  unfold lookup_hardware_addr. rewrite Eb, !bind_Ret, Hmc, Eg. cbv iota.
  destruct (iface_route _ _ _ _) as [hop|] eqn:Er; [|done]. rewrite !bind_Ret. cbn [wp] in Hhop.
  destruct hop as [hop|]; [|by exists e, (Err DispatchNoRoute), ResolvedNoRoute]. cbn in Hhop. destruct Hhop as [Hha Hhu].
  unfold cache_lookup. rewrite Hhu. cbn [passert]. rewrite !bind_Ret, lm_get_map.
  assert (Hask : exists e' r res, ask_neighbor (dispatch (S fuel)) e tx hop = Ret (e', as_hardware r) /\
    Ret (if can_ask (eg_inner e) hop then ResolvedAsk hop else ResolvedNoRoute) = Ret res /\ looked_up e (e', r) res).
  { destruct (ask_neighbor_ok fuel e tx hop Hr Hm Htx Hha Hhu) as (e' & r & E & Hl). by eexists e', r, _. }
  assert (Hwait : exists e' r res, Ret (e, Err DispatchNeighborPending) = Ret (e', as_hardware r) /\ Ret ResolvedPending = Ret res /\ looked_up e (e', r) res)
    by (by exists e, (Err DispatchNeighborPending), ResolvedPending).
  destruct (lm_map (ca_storage (if_neighbor_cache (eg_inner e))) !! hop) as [nb|] eqn:El; [|by destr_if].
  destr_if; [|by destr_if]. pose proof (ifw_cache _ Hi _ _ El) as Hnb. cbn in Hnb. rewrite Hm in Hnb. destruct (nb_hardware_addr nb) as [|o|]; try done.
  by exists e, (Ok o), (ResolvedTo o).
Qed.

(** What the dispatch of a packet that fits the device does. *)
Definition delivers e p meta (res : resolution) (out : Egress * result unit DispatchError) : Prop :=
  let '(e', r) := out in
  egress_config (eg_inner e) (eg_inner e') /\ eg_frag e' = eg_frag e /\
  match res with
  | ResolvedTo o => r = Ok tt /\ sends (eg_inner e) p o meta (eg_sent e) (eg_sent e')
  | ResolvedNoRoute => r = Err DispatchNoRoute /\ eg_sent e' = eg_sent e
  | ResolvedPending => r = Err DispatchNeighborPending /\ eg_sent e' = eg_sent e
  | ResolvedAsk hop => r = Err DispatchNeighborPending /\ asks (eg_inner e) hop (eg_sent e) (eg_sent e') /\
      ca_silent_until (if_neighbor_cache (eg_inner e')) = if_now (eg_inner e) + SILENT_TIME
  end.

(** On an IP medium nothing is looked up. *)
Definition resolve_on i (dst : Address) : res resolution :=
  match cx_medium (if_cx i) with MediumIp => Ret (ResolvedTo (replicate 6 0)) | _ => resolve i dst end.

Lemma ip_dst_ok ip : ip_repr_ok ip -> address_ok (ip_dst_addr ip).
Proof. destruct ip as [h|h]; cbn; [intros [[_ [Hb Hl] _ _ _] _] | intros [_ [Hb Hl] _ _ _]]; (split; [done|]; unfold Zlen; lia). Qed.

Lemma next_id_config i i' : same_config (if_set_ipv4_id i (wrap_u 16 (if_ipv4_id i + 1))) i' -> egress_config i i'.
Proof. intros Hc. eexists. split; [apply next_id_ok | exact Hc]. Qed.

Lemma egress_config_id i n i' : egress_config (if_set_ipv4_id i n) i' -> egress_config i i'.
Proof. intros (m & Hc). by exists m. Qed.

Lemma dispatch_fuel_ok fuel e tx meta p :
  egress_ready (eg_inner e) -> tx_ok tx -> packet_ok p -> (forall mtu, if_ip_mtu (eg_inner e) = Ret mtu -> ip_total p <= mtu) ->
  exists out res, dispatch (S (S fuel)) e tx meta p = Ret out /\ resolve_on (eg_inner e) (ip_dst_addr (packet_ip_repr p)) = Ret res /\ delivers e p meta res out.
Proof.
  intros Hr Htx Hp Hfits. pose proof Hp as (Hip & _ & Hu). destruct (ip_total_ok _ Hip) as [Et Htl]. fold (ip_total p) in Et, Htl.
  set (i' := if_set_ipv4_id (eg_inner e) (wrap_u 16 (if_ipv4_id (eg_inner e) + 1))).
  pose proof (set_id_ready (eg_inner e) (wrap_u 16 (if_ipv4_id (eg_inner e) + 1)) (next_id_ok _) Hr) as Hr'. fold i' in Hr'.
  remember (S fuel) as n eqn:En. cbn [dispatch_ip_fuel]. rewrite Hu. cbn [negb passert]. rewrite bind_Ret. unfold resolve_on.
  assert (Hsend : forall o, ethernet_addr_ok o -> exists e', dispatch_packet (eg_set_inner e i') tx meta p o (if_ipv4_id (eg_inner e))
      (frame_header_len (cx_medium (if_cx (eg_inner e))) + ip_total p) = Ret e' /\ delivers e p meta (ResolvedTo o) (e', Ok tt)).
  { intros o Ho. destruct (dispatch_packet_ok (eg_set_inner e i') tx meta p o (if_ipv4_id (eg_inner e)) Hr' Htx Hp Ho Hfits) as (frames & E & Hs).
    eexists. split; [exact E|]. split; [apply next_id_config, same_config_refl|]. by split. }
  destruct (cx_medium (if_cx (eg_inner e))) eqn:Em; [| |by destruct Hr].
  - cbn [next_ipv4_frag_ident]. rewrite Et, bind_Ret. unfold eth_buffer_len, ETHERNET_HEADER_LEN. rewrite usize_add_ok by mlia. rewrite bind_Ret. fold i'.
    destruct (lookup_ok fuel (eg_set_inner e i') tx _ Hr' Em Htx (ip_dst_ok _ Hip) Hu) as (e1 & r & res & El & Er & Hl). rewrite <- En in El.
    rewrite El, bind_Ret. change (resolve (eg_inner e)) with (resolve i'). destruct res as [o| | |hop]; cbn [looked_up] in Hl.
    + destruct Hl as [[= -> ->] Ho]. cbn [as_hardware]. destruct (Hsend o Ho) as (e' & E & Hd). cbn [frame_header_len] in E.
      rewrite E, bind_Ret. by exists (e', Ok tt), (ResolvedTo o).
    + injection Hl as -> ->. cbn [as_hardware]. eexists _, ResolvedNoRoute. split; [done|]. split; [done|]. split; [apply next_id_config, same_config_refl|]. done.
    + injection Hl as -> ->. cbn [as_hardware]. eexists _, ResolvedPending. split; [done|]. split; [done|]. split; [apply next_id_config, same_config_refl|]. done.
    + destruct Hl as (-> & Hc & Hf & Ha & Hq). cbn [as_hardware]. eexists _, (ResolvedAsk hop). split; [done|]. split; [done|].
      split; [exact (egress_config_id _ (wrap_u 16 (if_ipv4_id (eg_inner e) + 1)) _ Hc)|]. done.
  - cbn [next_ipv4_frag_ident]. rewrite Et, bind_Ret. fold i'. assert (Ho : ethernet_addr_ok (replicate 6 0)) by (split; [byte_list | done]).
    destruct (Hsend _ Ho) as (e' & E & Hd). cbn [frame_header_len] in E. change (0 + ip_total p) with (ip_total p) in E.
    rewrite E, bind_Ret. by exists (e', Ok tt), (ResolvedTo (replicate 6 0)).
Qed.

(** ** The recursion *)







(** ** Properties *)

(** C10: What becomes of a packet that fits the device: when the hardware address of its next hop is
    known it is sent, in one frame to that address; when it has no route, or was asked for a short
    time ago, nothing is sent; and otherwise one request for the address is sent instead of it, an
    ARP request to everybody or a neighbor solicitation to the group of the neighbor, and none for
    the next second.  No case panics, and the fragmenter is left alone. *)
Theorem dispatch_ip_delivers e tx meta p :
  egress_ready (eg_inner e) -> tx_ok tx -> packet_ok p -> (forall mtu, if_ip_mtu (eg_inner e) = Ret mtu -> ip_total p <= mtu) ->
  exists out res, dispatch_ip dispatch_ieee802154 e tx meta p = Ret out /\
    resolve_on (eg_inner e) (ip_dst_addr (packet_ip_repr p)) = Ret res /\ delivers e p meta res out.
Proof. exact (dispatch_fuel_ok 0 e tx meta p). Qed.

End Dispatch.
End Egress.

(** ** A concrete run *)

Definition ex_device : TxToken := fun n => replicate (Z.to_nat n) 0.
Definition no_ieee802154 : Egress -> Ieee802154Address -> TxToken -> PacketMeta -> Packet -> res Egress := fun _ _ _ _ _ => Panic.

Lemma ex_device_ok : tx_ok ex_device.
Proof. intros n Hn. unfold ex_device. split; [apply bytes_ok_replicate|]. rewrite Zlen_replicate. lia. Qed.

Lemma ex_iface_ready : egress_ready ex_iface.
Proof. split; [apply ex_iface_wf | | done | by vm_compute]. split; [split; vm_compute; discriminate | done]. Qed.

Definition ex_small_header : IpHeader := mkIpHeader [10; 0; 0; 1] [10; 0; 0; 2] PROTOCOL_UDP 10 64.
Definition ex_small_packet : Packet := PacketIpv4 ex_small_header (PayloadUdp (mkUdpRepr 7 9) [1; 2]).

Lemma ex_small_packet_ok : packet_ok ex_small_packet.
Proof.
  split; [|split; [|done]].
  - split; [split; [split; [byte_list | done] | split; [byte_list | done] | by vm_compute | by vm_compute | by vm_compute] | vm_compute; discriminate].
  - split; [by vm_compute|]. split; [byte_list|]. by vm_compute.
Qed.

(** The hardware address of the neighbor is not known: an ARP request is sent. *)
Lemma dispatch_ip_delivers_witness :
  exists out, dispatch_ip no_ieee802154 (mkEgress ex_iface (fragmenter_new 200) []) ex_device 0 ex_small_packet = Ret out /\
    delivers (mkEgress ex_iface (fragmenter_new 200) []) ex_small_packet 0 (ResolvedAsk (Ipv4 [10; 0; 0; 2])) out.
Proof.
  destruct (dispatch_ip_delivers no_ieee802154 (mkEgress ex_iface (fragmenter_new 200) []) ex_device 0 ex_small_packet) as (out & res & E & Er & Hd);
    [exact ex_iface_ready | exact ex_device_ok | exact ex_small_packet_ok | |].
  - intros mtu Em. assert (mtu = 1500) as -> by (vm_compute in Em; congruence). by vm_compute.
  - exists out. split; [exact E|]. assert (res = ResolvedAsk (Ipv4 [10; 0; 0; 2])) as -> by (vm_compute in Er; congruence). exact Hd.
Defined.
