(* ===== verification/IfaceFragmentSpec.v ===== *)
(** * What the fragments of a packet promise (iface/interface/mod.rs, ipv4.rs)

    A UDP datagram that is longer than the MTU leaves in fragments: one when it is dispatched,
    and one more for each call of [ipv4_egress], until all of it was sent. *)

From stdpp Require Import gmap.
From S2P Require Import Prelude PacketBuffer TimeModel TcpTimers IpTypes ByteOrder Checksum Ipv4Wire Icmpv4Wire UdpWire Fragmentation IfaceContext Ipv4Addr Ipv6Addr Heapless Route Neighbor EthernetArp Ipv6Wire Icmpv6Packet TcpSocket UdpSocket IgmpWire Ipv6ExtWire IpWire PacketQueue IcmpSocket IfacePacket Iface Multicast IfaceEgress TcpInvariant TcpExample IfaceIngress IfaceFragments IfaceInvariant IfaceEgressLemmas IfaceIngressLemmas IfaceExample IfaceEgressSpec.

(** The word with the flags and the offset of a fragment. *)
Definition fragment_word (more_frags : bool) (off : Z) : Z := Z.lor (if more_frags then 0x2000 else 0) (Z.shiftr off 3).

(** The octets [data] of a packet with the header [h], from [off] on. *)
Definition fragment_bytes (h : IpHeader) (id off : Z) (more_frags : bool) (ck : Z) (data : list Z) : list Z :=
  ip4_hdr 0x45 0 (20 + Zlen data) id (fragment_word more_frags off) (iph_hop_limit h) (iph_next_header h) ck
    (be_value (iph_src h)) (be_value (iph_dst h)) data.

(** How a payload is cut: all fragments but the last have [chunk] octets. *)
Inductive cut_of (chunk : Z) : Z -> list Z -> list (Z * bool * list Z) -> Prop :=
| cut_last off data : 0 < Zlen data <= chunk -> cut_of chunk off data [(off, false, data)]
| cut_more off data rest l : Zlen data = chunk -> 0 < Zlen rest -> cut_of chunk (off + chunk) rest l ->
    cut_of chunk off (data ++ rest) ((off, true, data) :: l).

Lemma cut_exists chunk off data : 0 < chunk -> 0 < Zlen data -> exists l, cut_of chunk off data l.
Proof.
  intros Hc. remember (Z.to_nat (Zlen data)) as n eqn:Hn. revert off data Hn. induction n as [n IH] using lt_wf_ind. intros off data Hn Hd.
  destruct (decide (Zlen data <= chunk)); [by eexists; apply cut_last|].
  destruct (Zlen_split_at data chunk ltac:(lia)) as (a & rest & -> & Ha). rewrite Zlen_app in *.
  destruct (IH (Z.to_nat (Zlen rest)) ltac:(lia) (off + chunk) rest eq_refl ltac:(lia)) as (l & Hl). eexists. apply cut_more; [done | lia | done].
Qed.

Lemma cut_concat chunk off data l : cut_of chunk off data l -> concat (map snd l) = data.
Proof. induction 1 as [off data Hd|off data rest l Ha Hr Hl IH]; cbn; [by rewrite app_nil_r | by rewrite IH]. Qed.

(** The number of fragments. *)
Lemma cut_count chunk off data l : 0 < chunk -> cut_of chunk off data l -> Zlen l = (Zlen data + chunk - 1) / chunk.
Proof.
  intros Hc. induction 1 as [off data Hd|off data rest l Ha Hr Hl IH].
  - change (Zlen [(off, false, data)]) with 1. apply (Z.div_unique _ _ _ (Zlen data - 1)); lia.
  - rewrite Zlen_cons, IH, Zlen_app, Ha. replace (chunk + Zlen rest + chunk - 1) with (1 * chunk + (Zlen rest + chunk - 1)) by lia.
    rewrite Z.div_add_l by lia. lia.
Qed.

Lemma fragment_word_ok more_frags off : 0 <= off <= u16_max -> in_u16 (fragment_word more_frags off).
Proof.
  intros Ho. apply in_u16_lor; [by destruct more_frags; vm_compute|]. rewrite Z.shiftr_div_pow2 by lia. change (2 ^ 3) with 8.
  split; [apply Z.div_pos; lia|]. transitivity off; [|mlia]. apply Z.div_le_upper_bound; lia.
Qed.

(** What is read back from the word: the flag, and the offset when it is a multiple of eight. *)
Lemma fragment_word_read more_frags off : 0 <= off <= u16_max ->
  negb (Z.land (fragment_word more_frags off) 0x2000 =? 0) = more_frags /\
  wrap_u 16 (Z.shiftl (fragment_word more_frags off) 3) = off / 8 * 8.
Proof.
  intros Ho. unfold fragment_word. rewrite Z.shiftr_div_pow2 by lia. change (2 ^ 3) with 8.
  assert (Hq : 0 <= off / 8 < 2 ^ 13) by (split; [apply Z.div_pos; lia | apply Z.div_lt_upper_bound; mlia]).
  assert (Hl : Z.land (off / 8) 0x2000 = 0).
  { apply Z.bits_inj'. intros k Hk. rewrite Z.land_spec, Z.bits_0. change 0x2000 with (2 ^ 13). rewrite Z.pow2_bits_eqb by lia.
    destruct (Z.eqb_spec 13 k) as [<-|]; [|by rewrite andb_false_r]. rewrite (Z.bits_above_log2 (off / 8)); [done | lia |].
    destruct (decide (off / 8 = 0)) as [->|]; [done|]. apply Z.log2_lt_pow2; lia. }
  rewrite Z.land_lor_distr_l, Hl, Z.lor_0_r. split; [by destruct more_frags|].
  rewrite Z.shiftl_lor, !Z.shiftl_mul_pow2 by lia. change (2 ^ 3) with 8. unfold wrap_u.
  destruct more_frags; cbn [Z.mul Pos.mul].
  - rewrite <- (Z.land_ones _ 16), Z.land_lor_distr_l by lia. change (Z.land (0x2000 * 8) (Z.ones 16)) with 0. rewrite Z.lor_0_l, Z.land_ones by lia. apply Z.mod_small. lia.
  - rewrite Z.lor_0_l. apply Z.mod_small. lia.
Qed.

Section Fragments.
Context `{NetworkEndianLaws}.
Context `{!LinearMap Address GroupState} {groups_max : nat} `{!LinearMapLaws Address GroupState groups_max}.
Context `{!LinearMap Address Neighbor} {cache_size : nat} `{!LinearMapLaws Address Neighbor cache_size}.
Context `{!HeaplessVec Route} {routes_max : nat} `{!HeaplessVecLaws Route routes_max}.
Context `{!HeaplessVec Ipv6OptionRepr} {options_max : nat} `{!HeaplessVecLaws Ipv6OptionRepr options_max}.
Implicit Types (i : InterfaceInner) (e : Egress) (p : Packet) (tx : TxToken) (h : IpHeader).

Definition is_fragment i h (id off : Z) (more_frags : bool) (data bs : list Z) : Prop :=
  exists ck, in_u16 ck /\ bs = fragment_bytes h id off more_frags ck data /\
    (checksum_tx (caps_ipv4 (if_checksum i)) = true -> ip4_verify_checksum bs = Ret true).

(** A frame with a fragment. *)
Definition fragment_sent i h (dst : list Z) (id : Z) (f : Z * bool * list Z) (s : PacketMeta * list Z) : Prop :=
  let '(off, more_frags, data) := f in
  exists bs frame, s = (meta_default, frame) /\ is_fragment i h id off more_frags data bs /\ frame_carries i dst 0x0800 bs frame.

(** The header as [emit] writes it becomes that of a fragment. *)
Lemma set_fragment_ok i len id off more_frags ttl proto ck src dst rest :
  in_u16 ck -> in_u16 id -> 0 <= off <= u16_max -> bytes_ok rest ->
  exists ck', in_u16 ck' /\
    set_fragment i id off more_frags (ip4_hdr 0x45 0 len 0 0x4000 ttl proto ck src dst rest) =
      Ret (ip4_hdr 0x45 0 len id (fragment_word more_frags off) ttl proto ck' src dst rest) /\
    (checksum_tx (caps_ipv4 (if_checksum i)) = true ->
      ip4_verify_checksum (ip4_hdr 0x45 0 len id (fragment_word more_frags off) ttl proto ck' src dst rest) = Ret true).
Proof.
  intros Hck Hid Ho Hb. pose proof (fragment_word_ok more_frags off Ho) as Hw. unfold set_fragment, ip4_set_more_frags, ip4_set_dont_frag, ip4_set_flag, ip4_set_frag_offset.
  rewrite ip4_set_ident_ok, bind_Ret by done. rewrite ip4_flg_off_ok, bind_Ret by (by vm_compute).
  assert (E1 : (if more_frags then Z.lor 0x4000 0x2000 else Z.land 0x4000 (Z.lxor 0xffff 0x2000)) = (if more_frags then 0x6000 else 0x4000)) by (by destruct more_frags).
  rewrite E1, ip4_set_flg_off_ok, bind_Ret by (by destruct more_frags; vm_compute). rewrite ip4_flg_off_ok, bind_Ret by (by destruct more_frags; vm_compute).
  assert (E2 : Z.land (if more_frags then 0x6000 else 0x4000) (Z.lxor 0xffff 0x4000) = (if more_frags then 0x2000 else 0)) by (by destruct more_frags).
  rewrite E2, ip4_set_flg_off_ok, bind_Ret by (by destruct more_frags; vm_compute). rewrite ip4_flg_off_ok, bind_Ret by (by destruct more_frags; vm_compute).
  assert (E3 : Z.lor (Z.land (if more_frags then 0x2000 else 0) 0xe000) (Z.shiftr off 3) = fragment_word more_frags off) by (by destruct more_frags).
  rewrite E3, ip4_set_flg_off_ok, bind_Ret by done.
  destruct (checksum_tx (caps_ipv4 (if_checksum i))); [|by exists ck].
  destruct (ip4_fill_checksum_ok len id (fragment_word more_frags off) ttl proto ck src dst rest Hb) as (ck' & Hck' & E & Hv). by exists ck'.
Qed.

(** The checksum is that of the header. *)
Lemma verify_rest de len id fo ttl proto ck src dst rest rest' :
  ip4_verify_checksum (ip4_hdr 0x45 de len id fo ttl proto ck src dst rest) = Ret true ->
  ip4_verify_checksum (ip4_hdr 0x45 de len id fo ttl proto ck src dst rest') = Ret true.
Proof.
  unfold ip4_verify_checksum.
  assert (Hh : forall t, ip4_header_len (ip4_hdr 0x45 de len id fo ttl proto ck src dst t) = Ret 20).
  { intros t. by destruct (ip4_header_len_ok 0x45 de len id fo ttl proto ck src dst t ltac:(by vm_compute)) as [-> _]. }
  by rewrite !Hh, !bind_Ret, !ip4_header_slice.
Qed.

Lemma Zlen_fragment_bytes h id off m ck data : Zlen (fragment_bytes h id off m ck data) = 20 + Zlen data.
Proof. unfold fragment_bytes. apply Zlen_ip4_hdr. Qed.

(** The header and the octets of a fragment in the buffer of the device. *)
Lemma emit_fragment_ok i h id off more_frags data buffer :
  ip_emit_ok (set_iph_payload_len h (Zlen data)) -> in_u16 id -> 0 <= off <= u16_max -> bytes_ok data -> bytes_ok buffer -> Zlen buffer = 20 + Zlen data ->
  exists bs, (tx_buffer ← slice_mut buffer 0 20 (fun packet =>
        packet ← ipv4_emit (set_iph_payload_len h (Zlen data)) packet (if_checksum i);
        set_fragment i id off more_frags packet);
      slice_mut tx_buffer 20 (20 + Zlen data) (fun d => copy_from_slice d data)) = Ret bs /\
    Zlen bs = Zlen buffer /\ is_fragment i h id off more_frags data bs.
Proof.
  intros Hh Hid Ho Hd Hb Hl. pose proof (Zlen_nonneg data). destruct (Zlen_split_at buffer 20 ltac:(lia)) as (hd & rest & -> & Hhd).
  apply bytes_ok_app in Hb as [Hbh Hbr]. rewrite Zlen_app in Hl.
  destruct (ipv4_emit_ok (set_iph_payload_len h (Zlen data)) hd (if_checksum i) Hbh ltac:(lia) Hh) as (ck & Hck & E & _).
  rewrite (drop_ge hd 20) in E by (unfold Zlen in *; lia). unfold ip4_emitted in E. cbn [iph_payload_len set_iph_payload_len iph_hop_limit iph_next_header iph_src iph_dst] in E.
  edestruct (set_fragment_ok i (20 + Zlen data) id off more_frags (iph_hop_limit h) (iph_next_header h) ck (be_value (iph_src h)) (be_value (iph_dst h)) [])
    as (ck' & Hck' & Es & Hv); [done | done | done | constructor|].
  set (hdr := ip4_hdr 0x45 0 (20 + Zlen data) id (fragment_word more_frags off) (iph_hop_limit h) (iph_next_header h) ck' (be_value (iph_src h)) (be_value (iph_dst h)) []) in *.
  assert (Hz : Zlen hdr = 20) by apply Zlen_ip4_hdr.
  assert (E1 : slice_mut (hd ++ rest) 0 20 (fun packet => packet ← ipv4_emit (set_iph_payload_len h (Zlen data)) packet (if_checksum i);
    set_fragment i id off more_frags packet) = Ret (hdr ++ rest)).
  { apply (slice_mut_mid [] hd hdr rest); [done | done | by rewrite E, bind_Ret | unfold Zlen in *; lia]. }
  rewrite E1, bind_Ret. exists (hdr ++ data). split; [|split].
  - pose proof (slice_mut_mid hdr rest data [] 20 (20 + Zlen data) (fun d => copy_from_slice d data)) as Em. rewrite !app_nil_r in Em.
    apply Em; [done | lia | apply copy_from_slice_ok; lia | unfold Zlen in *; lia].
  - rewrite !Zlen_app. lia.
  - assert (Eb : hdr ++ data = fragment_bytes h id off more_frags ck' data) by (unfold hdr, fragment_bytes, ip4_hdr; by rewrite app_nil_r).
    exists ck'. split; [done|]. split; [done|]. intros Htx. rewrite Eb. unfold fragment_bytes. by eapply verify_rest, Hv.
Qed.

(** ** The next fragment *)

(** The fragmenter has sent the first [off] octets of the payload [P] behind the header [h]. *)
Record sending h (dst : list Z) (id : Z) (P : list Z) (off : Z) (f : Fragmenter) : Prop := {
  sd_packet_len : fg_packet_len f = 20 + Zlen P;
  sd_sent_bytes : fg_sent_bytes f = 20 + off;
  sd_frag_offset : f4_frag_offset (fg_ipv4 f) = off;
  sd_ident : f4_ident (fg_ipv4 f) = id;
  sd_dst : f4_dst_hardware_addr (fg_ipv4 f) = dst;
  sd_repr : exists n, f4_repr (fg_ipv4 f) = set_iph_payload_len h n;
  sd_buffer : 20 + Zlen P <= Zlen (fg_buffer f) /\ sub (fg_buffer f) 20 (Zlen P) = P;
}.

(** A payload that is sent in fragments. *)
Definition payload_fits h (P : list Z) : Prop := ip_emit_ok h /\ bytes_ok P /\ 0 < Zlen P <= 65515.

Lemma sub_of_sub {A} (l : list A) a n k m : 0 <= a -> 0 <= k -> 0 <= m -> k + m <= n -> sub (sub l a n) k m = sub l (a + k) m.
Proof.
  intros Ha Hk Hm Hn. unfold sub. rewrite skipn_firstn_comm, take_take, drop_drop. f_equal; [lia|]. f_equal. lia.
Qed.

Lemma payload_header h P n : payload_fits h P -> 0 <= n <= Zlen P -> ip_emit_ok (set_iph_payload_len h n).
Proof. intros ([[] _] & _ & Hl) Hn. split; [split; cbn; done || mlia | cbn; lia]. Qed.

Lemma next_fragment_ok e tx h dst id P off mtu :
  egress_ready (eg_inner e) -> tx_ok tx -> payload_fits h P -> ethernet_addr_ok dst -> in_u16 id -> if_ip_mtu (eg_inner e) = Ret mtu ->
  sending h dst id P off (eg_frag e) -> 0 <= off < Zlen P ->
  let n := Z.min (Zlen P - off) (mtu - 20) in
  exists f s, dispatch_ipv4_frag e tx = Ret (mkEgress (eg_inner e) f (eg_sent e ++ [s])) /\ sending h dst id P (off + n) f /\
    fragment_sent (eg_inner e) h dst id (off, negb (Zlen P - off =? n), sub P off n) s.
Proof.
  intros Hr Htx Hfit Hd Hid Emtu [E1 E2 E3 E4 E5 (k & E6) [Hbl Hbs]] Ho n. pose proof Hr as [Hi Hdev Hm _]. pose proof Hfit as (Hh & HP & HPl).
  destruct (ip_mtu_ok _ Hr) as (mtu' & Emtu' & Edev & Hmtu). rewrite Emtu in Emtu'. injection Emtu' as <-. destruct Hdev as [Hdm _].
  assert (Hn : 0 < n <= Zlen P - off) by (unfold n; lia).
  unfold dispatch_ipv4_frag, ipv4_buffer_len, IPV4_HEADER_LEN. cbv zeta. rewrite Emtu, bind_Ret, E1, E2, E3, E4, E5, E6.
  rewrite usize_sub_ok by mlia. rewrite bind_Ret. replace (20 + Zlen P - (20 + off)) with (Zlen P - off) by lia.
  rewrite (usize_add_ok (Zlen P - off) 20) by mlia. rewrite bind_Ret. replace (Z.min (Zlen P - off + 20) mtu) with (n + 20) by (unfold n; lia).
  rewrite usize_sub_ok by mlia. rewrite bind_Ret. replace (n + 20 - 20) with n by lia. rewrite (usize_add_ok (20 + off) n) by mlia. rewrite bind_Ret.
  assert (Etx : (match cx_medium (if_cx (eg_inner e)) with MediumEthernet => usize_add (n + 20) ETHERNET_HEADER_LEN | _ => Ret (n + 20) end) =
    Ret (frame_header_len (cx_medium (if_cx (eg_inner e))) + (20 + n))).
  { unfold ETHERNET_HEADER_LEN. destruct (cx_medium (if_cx (eg_inner e))); [|f_equal; cbn; lia | done]. rewrite usize_add_ok by mlia. f_equal. cbn. lia. }
  rewrite Etx, bind_Ret. rewrite wrap_u_id by lia. rewrite checked_ok by mlia. rewrite bind_Ret.
  set (len := frame_header_len _ + _). assert (Hlen : 0 <= len) by (unfold len; destruct (cx_medium _); cbn; lia). destruct (Htx len Hlen) as [Hbt Hlt].
  assert (Edata : slice (fg_buffer (eg_frag e)) (off + 20) (off + 20 + n) = Ret (sub P off n)).
  { rewrite slice_ok by lia. f_equal. rewrite <- Hbs, sub_of_sub by lia. f_equal; lia. }
  assert (Hdz : Zlen (sub P off n) = n) by (apply Zlen_sub; lia).
  edestruct (emit_frame_ok (eg_inner e) dst Ipv4Version (fun tx_buffer =>
      tx_buffer ← slice_mut tx_buffer 0 20 (fun packet => packet ← ipv4_emit (set_iph_payload_len h n) packet (if_checksum (eg_inner e));
        set_fragment (eg_inner e) id off (negb (Zlen P - off =? n)) packet);
      start ← usize_add off 20; stop ← usize_add start n; payload ← slice (fg_buffer (eg_frag e)) start stop; tx_stop ← usize_add 20 n;
      slice_mut tx_buffer 20 tx_stop (fun d => copy_from_slice d payload)) (20 + n) (tx len)
      (is_fragment (eg_inner e) h id off (negb (Zlen P - off =? n)) (sub P off n)) Hi Hm Hd ltac:(lia) Hbt Hlt) as (frame & bs & Ef & Hfr & Hc & _).
  { intros d Hbd Hld. rewrite (usize_add_ok off 20), (usize_add_ok 20 n) by mlia.
    destruct (emit_fragment_ok (eg_inner e) h id off (negb (Zlen P - off =? n)) (sub P off n) d) as (bs & Eb & Hz & Hf);
      [rewrite Hdz; apply (payload_header h P); [done | lia] | done | mlia | by apply bytes_ok_sub | done | by rewrite Hdz |].
    rewrite Hdz in Eb. exists bs. split; [|split; [lia | done]]. rewrite <- Eb. destruct (slice_mut d 0 20 _); [|done]. rewrite !bind_Ret.
    rewrite (usize_add_ok (off + 20) n), bind_Ret, Edata, !bind_Ret by mlia. done. }
  change (set_iph_payload_len (set_iph_payload_len h k) n) with (set_iph_payload_len h n).
  unfold tx_consume. cbn [eg_inner eg_set_frag]. rewrite Ef, bind_Ret. eexists _, (meta_default, frame). split; [reflexivity|]. split.
  - split; cbn; [done | lia | done | done | done | by exists n | done].
  - by exists bs, frame.
Qed.

(** ** The first fragment *)

Lemma udp_verify_tail r ck d tail sa da :
  in_u16 (8 + Zlen d) -> in_u16 ck ->
  udp_verify_checksum (udp_emitted r ck d tail) sa da = Ret true -> udp_verify_checksum (udp_emitted r ck d []) sa da = Ret true.
Proof.
  intros Hl Hck. unfold udp_verify_checksum, udp_emitted. rewrite !udp_checksum_ok, !bind_Ret by done. destr_if; [done|].
  assert (Hsum : forall t, udp_sum (udp_hdr (udp_src_port r) (udp_dst_port r) (8 + Zlen d) ck (d ++ t)) sa da =
    (p ← pseudo_header sa da PROTOCOL_UDP (8 + Zlen d); c ← checksum_data (udp_hdr (udp_src_port r) (udp_dst_port r) (8 + Zlen d) ck d); checksum_combine [p; c])).
  { intros t. unfold udp_sum. rewrite !udp_len_ok, !bind_Ret by done. destruct (pseudo_header _ _ _ _); [|done]. by rewrite !bind_Ret, udp_slice, bind_Ret. }
  by rewrite !Hsum.
Qed.

(** The datagram in the buffer of the fragmenter, which is longer than it. *)
Lemma emit_udp_whole i h r d n buffer :
  packet_ok (PacketIpv4 h (PayloadUdp r d)) -> bytes_ok buffer -> 28 + Zlen d <= Zlen buffer -> 0 <= n <= 8 + Zlen d ->
  exists P ck tail, payload_written (PacketIpv4 h (PayloadUdp r d)) (Ipv4Repr h) (if_caps i) P /\ bytes_ok (P ++ tail) /\ Zlen P = 8 + Zlen d /\ in_u16 ck /\
    Zlen (P ++ tail) = Zlen buffer - 20 /\
    emit_ip i (PacketIpv4 h (PayloadUdp r d)) (Ipv4Repr (set_iph_payload_len h n)) buffer = Ret (ip4_emitted (set_iph_payload_len h n) ck (P ++ tail)).
Proof.
  intros (Hip & Hp & _) Hb Hl Hn. cbn [packet_ip_repr packet_payload payload_ok ip_payload_len ip_header] in Hip, Hp. destruct Hp as (Hr & Hd & Epl). change (iph_payload_len h = 8 + Zlen d) in Epl.
  pose proof (Zlen_nonneg d). assert (Hh : ip_emit_ok (set_iph_payload_len h n)).
  { destruct Hip as [[] Hmax]. split; [split; cbn; done || mlia | cbn; lia]. }
  destruct (ipv4_emit_ok (set_iph_payload_len h n) buffer (if_checksum i) Hb ltac:(lia) Hh) as (ck & Hck & E & _).
  destruct (ip_addrs_emit (Ipv4Repr h) Hip) as (Hs & Hdst & Hv & _).
  assert (Hld : Zlen (drop 20 buffer) = Zlen buffer - 20) by (unfold Zlen in *; rewrite length_drop; lia).
  destruct (udp_emit_ok r (drop 20 buffer) (ip_src_addr (Ipv4Repr h)) (ip_dst_addr (Ipv4Repr h)) d (fun buf => copy_from_slice buf d) (if_checksum i)
    ltac:(by apply bytes_ok_drop) Hr Hd ltac:(lia) ltac:(destruct Hip; mlia)) as (uck & tail & Eu & Huck & Hbt & Hzt & Hver);
    [intros; by apply copy_from_slice_ok | done..|].
  apply bytes_ok_app in Hbt as [_ Hbt]. rewrite Zlen_app in Hzt.
  assert (Et : forall t, udp_emitted r uck d t = udp_emitted r uck d [] ++ t) by (intros; unfold udp_emitted, udp_hdr; by rewrite app_nil_r, app_assoc).
  assert (Hz : Zlen (udp_emitted r uck d []) = 8 + Zlen d) by (unfold udp_emitted; by rewrite Zlen_udp_hdr, app_nil_r).
  exists (udp_emitted r uck d []), ck, tail. split; [|split; [|split; [done|split; [done|split; [rewrite Zlen_app; lia|]]]]].
  - exists uck. split; [done|]. intros Htx. cbn [dc_checksum if_caps] in Htx. apply (udp_verify_tail r uck d tail); [destruct Hip; mlia | done | by apply Hver].
  - apply bytes_ok_app. split; [|done]. unfold udp_emitted. apply udp_hdr_bytes_ok. by rewrite app_nil_r.
  - unfold emit_ip. cbn [ip_repr_emit]. rewrite E, bind_Ret. cbn [ip_header_len]. unfold IPV4_HEADER_LEN, ip4_emitted. rewrite Zlen_ip4_hdr.
    rewrite <- Et. unfold ip4_hdr.
    pose proof (slice_mut_mid (layout_bytes [(1%nat, 69); (1%nat, 0); (2%nat, 20 + iph_payload_len (set_iph_payload_len h n)); (2%nat, 0); (2%nat, 0x4000);
      (1%nat, iph_hop_limit (set_iph_payload_len h n)); (1%nat, iph_next_header (set_iph_payload_len h n)); (2%nat, ck);
      (4%nat, be_value (iph_src (set_iph_payload_len h n))); (4%nat, be_value (iph_dst (set_iph_payload_len h n)))]) (drop 20 buffer) (udp_emitted r uck d tail) [] 20
      (20 + Zlen (drop 20 buffer)) (fun payload => packet_emit_payload (PacketIpv4 h (PayloadUdp r d)) (Ipv4Repr (set_iph_payload_len h n)) payload (if_caps i))) as Em.
    rewrite !app_nil_r in Em. apply Em; [by rewrite Zlen_layout_bytes | done | exact Eu |].
    unfold udp_emitted. pose proof (Zlen_udp_hdr (udp_src_port r) (udp_dst_port r) (8 + Zlen d) uck (d ++ tail)) as Hzu. rewrite Zlen_app in Hzu. unfold Zlen in *. lia.
Qed.

Lemma first_fragment_ok e tx h r d dst id mtu :
  egress_ready (eg_inner e) -> tx_ok tx -> packet_ok (PacketIpv4 h (PayloadUdp r d)) -> ethernet_addr_ok dst -> in_u16 id ->
  if_ip_mtu (eg_inner e) = Ret mtu -> mtu < 28 + Zlen d -> bytes_ok (fg_buffer (eg_frag e)) -> 28 + Zlen d <= Zlen (fg_buffer (eg_frag e)) ->
  exists P f s, dispatch_first_fragment e tx (PacketIpv4 h (PayloadUdp r d)) h dst id (28 + Zlen d) =
      Ret (mkEgress (eg_inner e) f (eg_sent e ++ [s])) /\
    payload_written (PacketIpv4 h (PayloadUdp r d)) (Ipv4Repr h) (if_caps (eg_inner e)) P /\ payload_fits h P /\ Zlen P = 8 + Zlen d /\
    sending h dst id P (mtu - 20) f /\ bytes_ok (fg_buffer f) /\ Zlen (fg_buffer f) = Zlen (fg_buffer (eg_frag e)) /\
    fragment_sent (eg_inner e) h dst id (0, true, sub P 0 (mtu - 20)) s.
Proof.
  intros Hr Htx Hp Hd Hid Emtu Hlong Hb Hl. pose proof Hr as [Hi Hdev Hm _]. pose proof Hp as (Hip & (_ & _ & Epl) & _). change (iph_payload_len h = 8 + Zlen d) in Epl.
  destruct (ip_mtu_ok _ Hr) as (mtu' & Emtu' & Edev & Hmtu). rewrite Emtu in Emtu'. injection Emtu' as <-. destruct Hdev as [Hdm _]. pose proof (Zlen_nonneg d).
  assert (Hmax : iph_payload_len h <= 65515) by apply Hip.
  destruct (emit_udp_whole (eg_inner e) h r d (mtu - 20) (fg_buffer (eg_frag e)) Hp Hb Hl ltac:(lia)) as (P & ck & tail & Hw & HPt & HPz & Hck & HPtz & E).
  pose proof HPt as [HPb Htb]%bytes_ok_app. rewrite Zlen_app in HPtz.
  unfold dispatch_first_fragment, ipv4_buffer_len, IPV4_HEADER_LEN. cbv zeta. rewrite Emtu, bind_Ret. replace (Zlen (fg_buffer (eg_frag e)) <? 28 + Zlen d) with false by lia.
  rewrite usize_sub_ok by mlia. rewrite !bind_Ret, E, bind_Ret. unfold ip4_emitted. cbn [iph_payload_len set_iph_payload_len iph_hop_limit iph_next_header iph_src iph_dst].
  replace (20 + (mtu - 20)) with mtu by lia.
  destruct (set_fragment_ok (eg_inner e) mtu id 0 true (iph_hop_limit h) (iph_next_header h) ck (be_value (iph_src h)) (be_value (iph_dst h)) (P ++ tail) Hck Hid ltac:(mlia) HPt)
    as (ck' & Hck' & Es & Hv). rewrite Es, !bind_Ret. cbv beta.
  set (hdr := fun t => ip4_hdr 0x45 0 mtu id (fragment_word true 0) (iph_hop_limit h) (iph_next_header h) ck' (be_value (iph_src h)) (be_value (iph_dst h)) t).
  assert (Hhdr : forall t, hdr t = hdr [] ++ t) by (intros; unfold hdr, ip4_hdr; by rewrite app_nil_r).
  assert (Hhz : Zlen (hdr []) = 20) by apply Zlen_ip4_hdr.
  assert (Hsz : Zlen (sub P 0 (mtu - 20)) = mtu - 20) by (apply Zlen_sub; lia).
  assert (Efirst : slice (hdr (P ++ tail)) 0 mtu = Ret (hdr (sub P 0 (mtu - 20)))).
  { rewrite (Hhdr (P ++ tail)), (Hhdr (sub P 0 (mtu - 20))).
    replace (P ++ tail) with (sub P 0 (mtu - 20) ++ drop (Z.to_nat (mtu - 20)) P ++ tail) by (rewrite sub_0, app_assoc, take_drop; done).
    rewrite app_assoc. apply (slice_mid []); [done|]. rewrite Zlen_app. lia. }
  fold (hdr (P ++ tail)). set (f := mkFragmenter _ _ _ _ _).
  assert (Hlen : frame_header_len (cx_medium (if_cx (eg_inner e))) + mtu = dc_max_transmission_unit (if_caps (eg_inner e))) by lia.
  destruct (Htx (dc_max_transmission_unit (if_caps (eg_inner e))) ltac:(mlia)) as [Hbt Hlt]. rewrite <- Hlen in Hlt at 2.
  edestruct (emit_frame_ok (eg_inner e) dst Ipv4Version (fun tx_buffer => first ← slice (hdr (P ++ tail)) 0 mtu;
      slice_mut tx_buffer 0 mtu (fun d => copy_from_slice d first)) mtu (tx (dc_max_transmission_unit (if_caps (eg_inner e))))
      (is_fragment (eg_inner e) h id 0 true (sub P 0 (mtu - 20))) Hi Hm Hd ltac:(lia) Hbt Hlt) as (frame & bs & Ef & Hfr & Hc & _).
  { intros d' Hbd Hld. rewrite Efirst, bind_Ret. exists (hdr (sub P 0 (mtu - 20))).
    assert (Hz : Zlen (hdr (sub P 0 (mtu - 20))) = mtu) by (rewrite Hhdr, Zlen_app; lia). split; [|split; [done|]].
    - pose proof (slice_mut_mid [] d' (hdr (sub P 0 (mtu - 20))) [] 0 mtu (fun d => copy_from_slice d (hdr (sub P 0 (mtu - 20))))) as Em. rewrite !app_nil_r in Em.
      apply Em; [done | lia | apply copy_from_slice_ok; lia | unfold Zlen in *; lia].
    - exists ck'. split; [done|]. unfold fragment_bytes. rewrite Hsz. replace (20 + (mtu - 20)) with mtu by lia. split; [done|]. intros Ht. by eapply verify_rest, Hv. }
  unfold tx_consume. cbn [eg_inner eg_set_frag]. rewrite Ef, bind_Ret. exists P, f, (meta_default, frame).
  assert (Hhb : forall t, bytes_ok t -> bytes_ok (hdr t)) by (intros; by apply ip4_hdr_bytes_ok).
  split; [done|]. split; [done|]. split; [split; [done | split; [done | lia]]|]. split; [done|]. split; [|split; [by apply Hhb | split]].
  - split; [cbn; lia | cbn; lia | cbn; rewrite wrap_u_id; lia | done | done | exists (iph_payload_len h); by destruct h |].
    change (fg_buffer f) with (hdr (P ++ tail)). rewrite (Hhdr (P ++ tail)), !Zlen_app. split; [lia|]. rewrite <- Hhz. apply sub_mid.
  - change (fg_buffer f) with (hdr (P ++ tail)). rewrite Hhdr, !Zlen_app. lia.
  - by exists bs, frame.
Qed.

(** ** All fragments *)

(** Calls of [ipv4_egress] while the device has room. *)
Fixpoint egress_run (txs : list TxToken) e : res Egress :=
  match txs with
  | [] => Ret e
  | tx :: txs => e ← ipv4_egress e (Some tx); egress_run txs e
  end.

Lemma egress_run_ok P h dst id mtu off rest l :
  payload_fits h P -> ethernet_addr_ok dst -> in_u16 id -> cut_of (mtu - 20) off rest l ->
  forall e pre txs, egress_ready (eg_inner e) -> if_ip_mtu (eg_inner e) = Ret mtu -> P = pre ++ rest -> off = Zlen pre ->
  sending h dst id P off (eg_frag e) -> Forall tx_ok txs -> length txs = length l ->
  exists f ss, egress_run txs e = Ret (mkEgress (eg_inner e) f (eg_sent e ++ ss)) /\
    Forall2 (fragment_sent (eg_inner e) h dst id) l ss /\ fragmenter_finished f = true.
Proof.
  intros Hfit Hd Hid Hcut.
  assert (Hstep : forall e tx off, egress_ready (eg_inner e) -> if_ip_mtu (eg_inner e) = Ret mtu -> tx_ok tx -> sending h dst id P off (eg_frag e) -> 0 <= off < Zlen P ->
    let n := Z.min (Zlen P - off) (mtu - 20) in
    exists f s, ipv4_egress e (Some tx) = Ret (mkEgress (eg_inner e) f (eg_sent e ++ [s])) /\ sending h dst id P (off + n) f /\
      fragment_sent (eg_inner e) h dst id (off, negb (Zlen P - off =? n), sub P off n) s).
  { intros e tx o Hr Emtu Htx Hs Ho n. destruct (next_fragment_ok e tx h dst id P o mtu Hr Htx Hfit Hd Hid Emtu Hs Ho) as (f & s & E & Hs' & Hf).
    exists f, s. split; [|done]. destruct Hs as [E1 E2 _ _ _ _ _]. unfold ipv4_egress, fragmenter_finished, fragmenter_is_empty. rewrite E1, E2.
    replace (20 + Zlen P =? 20 + o) with false by lia. cbv zeta iota. cbn [eg_frag eg_set_frag]. rewrite E1, E2.
    replace (20 + Zlen P =? 0) with false by lia. replace (20 + o <? 20 + Zlen P) with true by lia.
    assert (Ee : eg_set_frag e (eg_frag e) = e) by (by destruct e). by rewrite Ee. }
  induction Hcut as [off data Hl|off data rest l Hl Hrest Hcut IH]; intros e pre txs Hr Emtu EP Eoff Hs Htx Elen; (destruct txs as [|tx txs]; [done|]);
    inversion Htx as [|? ? Htx1 Htx2]; subst; cbn [egress_run]; pose proof (Zlen_nonneg pre).
  - destruct txs; [|done]. destruct (Hstep e tx (Zlen pre) Hr Emtu Htx1 Hs ltac:(rewrite Zlen_app; lia)) as (f & s & E & Hs' & Hf).
    rewrite E, bind_Ret. cbn [egress_run]. exists f, [s]. split; [done|]. split.
    + constructor; [|constructor]. rewrite Zlen_app in Hf. replace (Zlen pre + Zlen data - Zlen pre) with (Zlen data) in Hf by lia.
      rewrite Z.min_l in Hf by lia. rewrite Z.eqb_refl in Hf.
      assert (Esub : sub (pre ++ data) (Zlen pre) (Zlen data) = data) by (rewrite <- (app_nil_r data) at 1; apply sub_mid). rewrite Esub in Hf. exact Hf.
    + destruct Hs' as [E1 E2 _ _ _ _ _]. unfold fragmenter_finished. rewrite E1, E2, Zlen_app. lia.
  - pose proof (Zlen_nonneg data).
    destruct (Hstep e tx (Zlen pre) Hr Emtu Htx1 Hs ltac:(rewrite !Zlen_app; lia)) as (f & s & E & Hs' & Hf). rewrite E, bind_Ret.
    rewrite !Zlen_app in Hf, Hs'. replace (Zlen pre + (Zlen data + Zlen rest) - Zlen pre) with (Zlen data + Zlen rest) in * by lia.
    rewrite Z.min_r in Hf, Hs' by lia. rewrite <- Hl in Hf, Hs'. replace (Zlen data + Zlen rest =? Zlen data) with false in Hf by lia. cbn [negb] in Hf.
    rewrite sub_mid in Hf.
    destruct (IH (mkEgress (eg_inner e) f (eg_sent e ++ [s])) (pre ++ data) txs) as (f' & ss & E' & Hss & Hfin); try done.
    + by rewrite <- app_assoc.
    + by rewrite Zlen_app, Hl.
    + rewrite <- Hl. exact Hs'.
    + by injection Elen.
    + exists f', (s :: ss). rewrite E'. cbn [eg_sent eg_inner]. rewrite <- app_assoc. split; [done|]. split; [by constructor | done].
Qed.

(** Sending the datagram: the first fragment when it is dispatched, and the others as the device
    has room for them. *)
Lemma fragments_sent_ok dispatch_ieee802154 e tx meta h r d o mtu :
  egress_ready (eg_inner e) -> tx_ok tx -> packet_ok (PacketIpv4 h (PayloadUdp r d)) ->
  if_ip_mtu (eg_inner e) = Ret mtu -> mtu < 28 + Zlen d -> bytes_ok (fg_buffer (eg_frag e)) -> 28 + Zlen d <= Zlen (fg_buffer (eg_frag e)) ->
  resolve_on (eg_inner e) (Ipv4 (iph_dst h)) = Ret (ResolvedTo o) ->
  exists P l e', payload_written (PacketIpv4 h (PayloadUdp r d)) (Ipv4Repr h) (if_caps (eg_inner e)) P /\ payload_fits h P /\ Zlen P = 8 + Zlen d /\
    cut_of (mtu - 20) 0 P l /\ (1 < length l)%nat /\ dispatch_ip dispatch_ieee802154 e tx meta (PacketIpv4 h (PayloadUdp r d)) = Ret (e', Ok tt) /\
    forall txs, Forall tx_ok txs -> S (length txs) = length l ->
      exists f ss, egress_run txs e' = Ret (mkEgress (eg_inner e') f (eg_sent e ++ ss)) /\
        Forall2 (fragment_sent (eg_inner e) h o (if_ipv4_id (eg_inner e))) l ss /\ fragmenter_finished f = true.
Proof.
  intros Hr Htx Hp Emtu Hlong Hb Hl Hres. pose proof Hp as (Hip & (_ & _ & Epl) & Hu). change (iph_payload_len h = 8 + Zlen d) in Epl.
  set (i' := if_set_ipv4_id (eg_inner e) (wrap_u 16 (if_ipv4_id (eg_inner e) + 1))).
  assert (Hr' : egress_ready i') by (apply set_id_ready; [apply next_id_ok | done]).
  assert (Etot : ip_buffer_len (Ipv4Repr h) = Ret (28 + Zlen d)).
  { destruct (ip_total_ok (Ipv4Repr h) Hip) as [E _]. rewrite E. change (ip_header_len (Ipv4Repr h) + ip_payload_len (Ipv4Repr h)) with (20 + iph_payload_len h). rewrite Epl. f_equal. lia. }
  assert (Hdisp : ethernet_addr_ok o -> forall len, exists P f s,
    dispatch_packet (eg_set_inner e i') tx meta (PacketIpv4 h (PayloadUdp r d)) o (if_ipv4_id (eg_inner e)) len =
      Ret (mkEgress i' f (eg_sent e ++ [s])) /\
    payload_written (PacketIpv4 h (PayloadUdp r d)) (Ipv4Repr h) (if_caps (eg_inner e)) P /\ payload_fits h P /\ Zlen P = 8 + Zlen d /\
    sending h o (if_ipv4_id (eg_inner e)) P (mtu - 20) f /\
    fragment_sent (eg_inner e) h o (if_ipv4_id (eg_inner e)) (0, true, sub P 0 (mtu - 20)) s).
  { intros Ho len. destruct (first_fragment_ok (eg_set_inner e i') tx h r d o (if_ipv4_id (eg_inner e)) mtu Hr' Htx Hp Ho ltac:(apply Hr) Emtu Hlong Hb Hl)
      as (P & f & s & E & Hw & Hfit & HPz & Hs & _ & _ & Hf).
    exists P, f, s. split; [|by split_and!]. unfold dispatch_packet. cbn [packet_ip_repr eg_inner eg_set_inner]. rewrite Etot, bind_Ret.
    change (if_ip_mtu i') with (if_ip_mtu (eg_inner e)). rewrite Emtu, bind_Ret. by replace (mtu <? 28 + Zlen d) with true by lia. }
  destruct (ip_mtu_ok _ Hr) as (mtu' & Emtu' & _ & Hmtu). rewrite Emtu in Emtu'. injection Emtu' as <-.
  assert (Hgo : exists P f s, dispatch_ip dispatch_ieee802154 e tx meta (PacketIpv4 h (PayloadUdp r d)) = Ret (mkEgress i' f (eg_sent e ++ [s]), Ok tt) /\
    ethernet_addr_ok o /\
    payload_written (PacketIpv4 h (PayloadUdp r d)) (Ipv4Repr h) (if_caps (eg_inner e)) P /\ payload_fits h P /\ Zlen P = 8 + Zlen d /\
    sending h o (if_ipv4_id (eg_inner e)) P (mtu - 20) f /\
    fragment_sent (eg_inner e) h o (if_ipv4_id (eg_inner e)) (0, true, sub P 0 (mtu - 20)) s).
  { unfold dispatch_ip. remember 1%nat as n eqn:En. cbn [dispatch_ip_fuel packet_ip_repr ip_dst_addr]. cbn [packet_ip_repr ip_dst_addr] in Hu. rewrite Hu. cbn [negb passert]. rewrite bind_Ret.
    unfold resolve_on in Hres. destruct (cx_medium (if_cx (eg_inner e))) eqn:Em; [| |by destruct Hr].
    - cbn [next_ipv4_frag_ident]. fold i'. rewrite Etot, bind_Ret. unfold eth_buffer_len, ETHERNET_HEADER_LEN.
      assert (Hmax : iph_payload_len h <= 65515) by apply Hip. rewrite usize_add_ok by mlia. rewrite bind_Ret.
      destruct (lookup_ok dispatch_ieee802154 0 (eg_set_inner e i') tx (Ipv4 (iph_dst h)) Hr' Em Htx (ip_dst_ok _ Hip) Hu) as (e1 & r1 & res & El & Er & Hlk).
      change (resolve (eg_inner (eg_set_inner e i'))) with (resolve (eg_inner e)) in Er. rewrite Hres in Er. injection Er as <-. destruct Hlk as [[= -> ->] Ho].
      rewrite <- En in El. rewrite El, bind_Ret. cbn [as_hardware]. destruct (Hdisp Ho (28 + Zlen d + 14)) as (P & f & s & E & Hrest).
      replace (14 + (28 + Zlen d)) with (28 + Zlen d + 14) by lia. rewrite E, bind_Ret. exists P, f, s. split; [done|]. split; [done | exact Hrest].
    - assert (Eo : replicate 6 0 = o) by congruence. cbn [next_ipv4_frag_ident]. fold i'. rewrite Etot, bind_Ret, Eo.
      assert (Ho : ethernet_addr_ok o) by (rewrite <- Eo; split; [byte_list | done]).
      destruct (Hdisp Ho (28 + Zlen d)) as (P & f & s & E & Hrest). rewrite E, bind_Ret. exists P, f, s. split; [done|]. split; [done | exact Hrest]. }
  destruct Hgo as (P & f & s & E & Ho & Hw & Hfit & HPz & Hs & Hf).
  destruct (Zlen_split_at P (mtu - 20) ltac:(lia)) as (a & rest & EP & Ha).
  destruct (cut_exists (mtu - 20) (0 + (mtu - 20)) rest ltac:(lia)) as (l & Hcut); [subst P; rewrite Zlen_app in HPz; lia|].
  exists P, ((0, true, a) :: l), (mkEgress i' f (eg_sent e ++ [s])). split; [done|]. split; [done|]. split; [done|]. split; [|split; [|split; [done|]]].
  - rewrite EP. apply cut_more; [done | subst P; rewrite Zlen_app in HPz; lia | done].
  - inversion Hcut; cbn; lia.
  - intros txs Htxs Hn. cbn [length] in Hn. injection Hn as Hn.
    destruct (egress_run_ok P h o (if_ipv4_id (eg_inner e)) mtu (0 + (mtu - 20)) rest l Hfit Ho ltac:(apply Hr) Hcut
      (mkEgress i' f (eg_sent e ++ [s])) a txs Hr' Emtu EP ltac:(lia) ltac:(exact Hs) Htxs Hn) as (f' & ss & Er & Hss & Hfin).
    exists f', (s :: ss). cbn [eg_inner eg_sent] in *. rewrite Er, <- app_assoc. split; [done|]. split; [|done]. constructor; [|exact Hss].
    assert (Esub : sub P 0 (mtu - 20) = a) by (rewrite EP, <- Ha; pose proof (sub_mid [] a rest) as Hm; exact Hm). by rewrite Esub in Hf.
Qed.

(** ** The receiver *)

(** The payloads that a receiver puts together from packets. *)
Fixpoint reassemble_run i (packets : list (list Z)) (frag : FragmentsBuffer) : res (list (list Z)) :=
  match packets with
  | [] => Ret []
  | packet :: packets =>
      '(frag, o) ← ipv4_reassemble i packet frag;
      ds ← reassemble_run i packets frag;
      Ret (option_list o ++ ds)
  end.

Definition fragment_key h (id : Z) : Ipv4Key := mkIpv4Key id (iph_src h) (iph_dst h) (iph_next_header h).

(** What reassembly reads from a fragment whose offset is a multiple of eight. *)
Lemma fragment_read i h id off more_frags ck data frag :
  ip_emit_ok h -> in_u16 id -> 0 <= off <= u16_max -> off mod 8 = 0 -> more_frags || negb (off =? 0) = true -> Zlen data <= 65515 ->
  ipv4_reassemble i (fragment_bytes h id off more_frags ck data) frag =
    ('(a, o) ← pas_receive (fb_assembler frag) (if_now i) (fb_reassembly_timeout frag)
       (mkFragment (fragment_key h id) more_frags off (20 + Zlen data) 20 data);
     Ret (mkFragmentsBuffer a (fb_reassembly_timeout frag), o)).
Proof.
  intros [[Hs Hd Hn _ _] _] Hid Ho H8 Hfr Hl. pose proof (Zlen_nonneg data). pose proof (fragment_word_ok more_frags off Ho) as Hw.
  destruct (fragment_word_read more_frags off Ho) as [Em Eo]. assert (E8 : off / 8 * 8 = off) by (pose proof (Z.div_mod off 8 ltac:(lia)); lia).
  unfold ipv4_reassemble, ip4_more_frags, ip4_frag_offset, ip4_get_key, ip4_payload, fragment_bytes.
  rewrite !ip4_flg_off_ok, !bind_Ret, Em, Eo, E8 by done.
  rewrite !(proj1 (ip4_header_len_ok 0x45 _ _ _ _ _ _ _ _ _ _ ltac:(by vm_compute))), !ip4_total_len_ok, !bind_Ret by mlia.
  change (Z.land 0x45 15 * 4) with 20. rewrite Hfr, ip4_ident_ok, ip4_src_addr_ok, ip4_dst_addr_ok, ip4_next_header_ok, !be_value_addr, !bind_Ret by done.
  rewrite slice_ok by (rewrite ?Zlen_ip4_hdr; lia). rewrite bind_Ret. replace (20 + Zlen data - 20) with (Zlen data) by lia.
  assert (Ep : forall vi de len id fo ttl proto ck src dst, sub (ip4_hdr vi de len id fo ttl proto ck src dst data) 20 (Zlen data) = data).
  { intros. unfold ip4_hdr. set (hd := layout_bytes _). assert (Hz : Zlen hd = 20) by (unfold hd; by rewrite Zlen_layout_bytes).
    rewrite <- Hz, <- (app_nil_r data) at 1. apply sub_mid. }
  by rewrite Ep.
Qed.

(** The cut as [fragments_of] describes it. *)
Lemma cut_fragments chunk off rest l (k : Ipv4Key) :
  cut_of chunk off rest l ->
  map (fun '(off, m, data) => mkFragment k m off (20 + Zlen data) 20 data) l = fragments_of k 20 off (map snd l).
Proof.
  induction 1 as [off data Hd|off data rest l Ha Hr Hl IH]; [done|]. cbn [map fragments_of snd]. rewrite Ha, IH. f_equal.
  by inversion Hl.
Qed.

Lemma cut_nonempty chunk off rest l : 0 < chunk -> cut_of chunk off rest l -> Forall (fun c => c <> []) (map snd l).
Proof. intros Hc. induction 1; cbn; (constructor; [by intros ->; unfold Zlen in *; cbn in *; lia|]); done || constructor. Qed.

Lemma cut_offsets chunk off rest l :
  0 < chunk -> chunk mod 8 = 0 -> off mod 8 = 0 -> 0 <= off -> cut_of chunk off rest l -> (0 < off \/ (1 < length l)%nat) ->
  Forall (fun '(o, m, data) => off <= o /\ o + Zlen data <= off + Zlen rest /\ o mod 8 = 0 /\ m || negb (o =? 0) = true) l.
Proof.
  intros Hc H8 Ho8 Ho Hcut. revert Ho8 Ho. induction Hcut as [off data Hd|off data rest l Ha Hr Hl IH]; intros Ho8 Ho Hor.
  - constructor; [|constructor]. split; [lia|]. split; [lia|]. split; [done|]. cbn in Hor. destruct Hor; lia.
  - rewrite Zlen_app. constructor; [split; [lia|]; split; [lia|]; by split|].
    assert (Hm : (off + chunk) mod 8 = 0) by (by rewrite Zplus_mod, H8, Ho8).
    eapply Forall_impl; [|exact (IH Hm ltac:(lia) ltac:(left; lia))].
    intros [[o m] data'] (? & ? & ? & ?). split; [lia|]. split; [lia|]. by split.
Qed.

Lemma reassemble_run_ok i j h id l bss : forall frag,
  ip_emit_ok h -> in_u16 id ->
  Forall (fun '(o, m, data) => 0 <= o /\ o + Zlen data <= 65515 /\ o mod 8 = 0 /\ m || negb (o =? 0) = true) l ->
  Forall2 (fun '(o, m, data) bs => is_fragment j h id o m data bs) l bss ->
  reassemble_run i bss frag =
    (ds ← frag_run (fb_reassembly_timeout frag) (fb_assembler frag)
            (map (FragmentArrives (if_now i)) (map (fun '(off, m, data) => mkFragment (fragment_key h id) m off (20 + Zlen data) 20 data) l));
     Ret (map snd ds)).
Proof.
  intros frag Hh Hid Hl H2. revert frag Hl. induction H2 as [|[[o m] data] bs l bss Hf H2 IH]; intros frag Hl; [done|].
  apply Forall_cons_iff in Hl as [(Ho & Hod & H8 & Hm) Hl']. destruct Hf as (ck & _ & -> & _). pose proof (Zlen_nonneg data).
  cbn [reassemble_run map frag_run frag_step fr_key]. rewrite (fragment_read i h id o m ck data frag) by (done || mlia).
  destruct (pas_receive _ _ _ _) as [[a d]|]; [|done]. rewrite !bind_Ret, IH by done. cbn [fb_reassembly_timeout fb_assembler].
  destruct (frag_run _ _ _) as [ds|]; [|done]. rewrite !bind_Ret. rewrite map_app. by destruct d.
Qed.

(** The fragments of a payload, at a receiver with a free slot, give the payload. *)
Lemma fragments_reassembled_ok i j (packet : Ipv4Key -> list Z) h id P chunk l bss frag :
  payload_fits h P -> in_u16 id -> 0 < chunk -> chunk mod 8 = 0 -> cut_of chunk 0 P l -> (1 < length l)%nat ->
  Forall2 (fun '(o, m, data) bs => is_fragment j h id o m data bs) l bss ->
  time_ok (if_now i) -> time_ok (fb_reassembly_timeout frag) ->
  (forall k, Zlen (packet k) <= isize_max) -> pas_wf packet (fb_assembler frag) -> packet (fragment_key h id) = P ->
  Forall (fun a => pa_key a <> Some (fragment_key h id)) (fb_assembler frag) -> Exists (fun a => pa_is_free a = true) (fb_assembler frag) ->
  reassemble_run i bss frag = Ret [P].
Proof.
  intros (Hh & HP & HPl) Hid Hc H8 Hcut Hn H2 Hnow Hto Hfit Hwf EP Hno Hfree.
  rewrite (reassemble_run_ok i j h id l bss frag Hh Hid); [| |done].
  - rewrite (cut_fragments chunk 0 P l _ Hcut).
    destruct (pas_get_fresh packet (fb_assembler frag) (fragment_key h id) (if_now i + fb_reassembly_timeout frag) Hwf Hno Hfree) as (k & s' & Hg & Hs').
    rewrite (in_order_ok packet Hfit (if_now i) (fb_reassembly_timeout frag) 20 (fragment_key h id) (map snd l) (fb_assembler frag) s' k 0);
      try done; [by rewrite bind_Ret, EP | | by eapply cut_nonempty | |].
    + destruct l; [cbn in Hn; lia | done].
    + by rewrite EP, (cut_concat chunk 0 P l).
    + by rewrite EP, (cut_concat chunk 0 P l), Z2Nat.inj_0, drop_0.
  - eapply Forall_impl; [|exact (cut_offsets chunk 0 P l Hc H8 eq_refl (Z.le_refl 0) Hcut (or_intror Hn))].
    intros [[o m] data] (? & ? & ? & ?). split; [done|]. split; [lia|]. by split.
Qed.

(** ** Property *)

(** A frame of the run, and the packet that it carries. *)
Definition carried i (dst : list Z) (s : PacketMeta * list Z) (bs : list Z) : Prop :=
  exists frame, s = (meta_default, frame) /\ frame_carries i dst 0x0800 bs frame.

Lemma fragment_packets i h dst id l ss : Forall2 (fragment_sent i h dst id) l ss ->
  exists bss, Forall2 (carried i dst) ss bss /\ Forall2 (fun '(o, m, data) bs => is_fragment i h id o m data bs) l bss.
Proof.
  induction 1 as [|[[o m] data] s l ss (bs & frame & -> & Hf & Hc) H2 (bss & H3 & H4)]; [by exists []|].
  exists (bs :: bss). split; constructor; try done. by exists frame.
Qed.

(** C9: A UDP datagram that is longer than the MTU, and that with its headers fits the fragmentation
    buffer (28 octets and its data; the buffer holds 1500 unless configured otherwise, and a larger
    datagram is dropped), arrives.  Dispatched to a neighbor whose hardware
    address is known, it leaves in as many fragments as the MTU requires, one at once and one each
    time the device has room, after which the fragmenter is free.  When the octets of a fragment are
    a multiple of eight (the MTU less 20), a receiver with a free reassembly slot gets exactly the datagram from the
    packets that the frames carry; every fragment is an IPv4 packet whose header checksum is right. *)
Theorem fragmented_datagram_arrives dispatch_ieee802154 e tx meta h r d o mtu :
  egress_ready (eg_inner e) -> tx_ok tx -> packet_ok (PacketIpv4 h (PayloadUdp r d)) ->
  if_ip_mtu (eg_inner e) = Ret mtu -> mtu < 28 + Zlen d -> bytes_ok (fg_buffer (eg_frag e)) -> 28 + Zlen d <= Zlen (fg_buffer (eg_frag e)) ->
  resolve_on (eg_inner e) (Ipv4 (iph_dst h)) = Ret (ResolvedTo o) ->
  exists P l e', payload_written (PacketIpv4 h (PayloadUdp r d)) (Ipv4Repr h) (if_caps (eg_inner e)) P /\
    cut_of (mtu - 20) 0 P l /\ Zlen l = (8 + Zlen d + mtu - 21) / (mtu - 20) /\
    dispatch_ip dispatch_ieee802154 e tx meta (PacketIpv4 h (PayloadUdp r d)) = Ret (e', Ok tt) /\
    forall txs, Forall tx_ok txs -> S (length txs) = length l ->
      exists f ss bss, egress_run txs e' = Ret (mkEgress (eg_inner e') f (eg_sent e ++ ss)) /\ fragmenter_finished f = true /\
        Forall2 (carried (eg_inner e) o) ss bss /\
        Forall2 (fun '(off, m, data) bs => is_fragment (eg_inner e) h (if_ipv4_id (eg_inner e)) off m data bs) l bss /\
        forall i packet frag, (mtu - 20) mod 8 = 0 -> time_ok (if_now i) -> time_ok (fb_reassembly_timeout frag) ->
          (forall k, Zlen (packet k) <= isize_max) -> pas_wf packet (fb_assembler frag) ->
          packet (fragment_key h (if_ipv4_id (eg_inner e))) = P ->
          Forall (fun a => pa_key a <> Some (fragment_key h (if_ipv4_id (eg_inner e)))) (fb_assembler frag) ->
          Exists (fun a => pa_is_free a = true) (fb_assembler frag) ->
          reassemble_run i bss frag = Ret [P].
Proof.
  intros Hr Htx Hp Emtu Hlong Hb Hl Hres. destruct (ip_mtu_ok _ Hr) as (mtu' & Emtu' & _ & Hmtu). rewrite Emtu in Emtu'. injection Emtu' as <-.
  destruct (fragments_sent_ok dispatch_ieee802154 e tx meta h r d o mtu Hr Htx Hp Emtu Hlong Hb Hl Hres) as (P & l & e' & Hw & Hfit & HPz & Hcut & Hn & E & Hrun).
  exists P, l, e'. split; [done|]. split; [done|]. split; [rewrite (cut_count (mtu - 20) 0 P l), HPz by (done || lia); f_equal; lia|]. split; [done|].
  intros txs Htxs Hlen. destruct (Hrun txs Htxs Hlen) as (f & ss & Er & Hss & Hfin). destruct (fragment_packets _ _ _ _ _ _ Hss) as (bss & Hc & Hf).
  exists f, ss, bss. do 4 (split; [done|]). intros i packet frag H8 Hnow Hto Hpk Hwf EP Hno Hfree.
  by apply (fragments_reassembled_ok i (eg_inner e) packet h (if_ipv4_id (eg_inner e)) P (mtu - 20) l bss frag Hfit (er_ident _ Hr) ltac:(lia) H8 Hcut Hn Hf).
Qed.
End Fragments.

(** ** A concrete run *)

Definition ex_narrow : InterfaceInner :=
  mkInterfaceInner (mkContext 1000000 1 MediumIp 116 ex_addrs (fun _ => 0)) None caps_default cache_new HardwareIp 7 false hv_new mc_new.
Definition ex_sender : Egress := mkEgress ex_narrow (fragmenter_new 200) [].
Definition ex_datagram : list Z := replicate 100 0x61.
Definition ex_datagram_header : IpHeader := mkIpHeader [10; 0; 0; 1] [10; 0; 0; 2] PROTOCOL_UDP 108 64.
Definition ex_datagram_packet : Packet := PacketIpv4 ex_datagram_header (PayloadUdp (mkUdpRepr 7 9) ex_datagram).
Lemma ex_narrow_ready : egress_ready ex_narrow.
Proof.
  split; [| | done | by vm_compute].
  - split; try (exact ex_addrs_cidr_ok || (unfold time_ok; cbn; lia) || constructor || apply map_Forall_empty).
  - split; [split; vm_compute; discriminate | done].
Qed.

Lemma ex_datagram_packet_ok : packet_ok ex_datagram_packet.
Proof.
  split; [|split; [|done]].
  - split; [split; [split; [byte_list | done] | split; [byte_list | done] | by vm_compute | by vm_compute | by vm_compute] | vm_compute; discriminate].
  - split; [by vm_compute|]. split; [apply bytes_ok_bool; by vm_compute|]. by vm_compute.
Qed.

Lemma fragmented_datagram_arrives_witness :
  exists P e' f ss bss, dispatch_ip no_ieee802154 ex_sender ex_device 0 ex_datagram_packet = Ret (e', Ok tt) /\
    egress_run [ex_device] e' = Ret (mkEgress (eg_inner e') f ss) /\ Forall2 (carried ex_narrow (replicate 6 0)) ss bss /\ Zlen ss = 2 /\ Zlen P = 108 /\
    reassemble_run ex_iface_ip bss (mkFragmentsBuffer (pas_new 4 4) 60000000) = Ret [P].
Proof.
  destruct (fragmented_datagram_arrives no_ieee802154 ex_sender ex_device 0 ex_datagram_header (mkUdpRepr 7 9) ex_datagram (replicate 6 0) 116)
    as (P & l & e' & (ck & EP & _) & Hcut & Hlen & E & Hrun);
    [exact ex_narrow_ready | exact ex_device_ok | exact ex_datagram_packet_ok | reflexivity | vm_compute; reflexivity | apply bytes_ok_replicate | vm_compute; discriminate | reflexivity |].
  change (Zlen l = 2) in Hlen. assert (Hz : Zlen P = 108) by (by rewrite EP).
  destruct (Hrun [ex_device]) as (f & ss & bss & Er & _ & Hc & Hf & Hre); [constructor; [exact ex_device_ok | constructor] | unfold Zlen in Hlen; cbn; lia |].
  exists P, e', f, ss, bss. split; [exact E|]. split; [exact Er|]. split; [exact Hc|]. split; [|split; [exact Hz|]].
  - unfold Zlen in *. apply Forall2_length in Hc, Hf. lia.
  - apply (Hre ex_iface_ip (fun _ => P)); [reflexivity | by apply ex_iface_wf | unfold time_ok; cbn; lia | intros _; rewrite Hz; by vm_compute | | reflexivity | repeat (constructor; [done|]); constructor | by constructor].
    apply Forall_replicate. apply pa_new_wf; [lia | done].
Defined.
