(* ===== verification/IfacePollSpec.v ===== *)
(** * What the polling loop promises (iface/interface/mod.rs)

    Before the time that [poll_at] returns there is nothing to send for the sockets and no fragment
    is due; a poll ends when the device has no more packets. *)

From stdpp Require Import gmap.
From S2P Require Import Prelude RingBuffer PacketBuffer TimeModel TcpTimers Congestion IpTypes TcpRepr ByteOrder Checksum UdpWire Fragmentation IfaceContext Ipv4Addr Ipv6Addr Heapless Route Neighbor EthernetArp Icmpv6Packet MldWire Icmpv6Wire TcpSocket UdpSocket UdpSocketSpec IgmpWire Ipv6ExtWire PacketQueue RawSocket IcmpSocket IfacePacket Iface Multicast IfaceEgress TcpDispatch TcpExample TcpDispatchSpec IfaceTcp IfaceIngress SocketSet IfacePoll IfaceExample IfaceIngressSpec IfaceEgressSpec IfaceFragmentSpec.

(** ** Datagram sockets with nothing to send *)

Lemma dequeue_with_empty {H R E} (pb : PacketBuffer H) (f : H -> list Z -> res (H * list Z * result R E)) :
  pb_is_empty pb = true -> pb_dequeue_with pb f = Ret (pb, Err EmptyErr).
Proof.
  unfold pb_is_empty. intros He. unfold pb_dequeue_with, pb_dequeue_padding, rb_dequeue_one_with. rewrite He. ret_steps.
  cbn [metadata_ring payload_ring]. rewrite He. ret_steps. by destruct pb.
Qed.

Section Poll.
Context {cfg : BuildConfig} `{NetworkEndian}.
Context `{LinearMap Address GroupState} `{LinearMap Address Neighbor} `{HeaplessVec Route} `{HeaplessVec Ipv6OptionRepr}.
Context {D : Type} `{!Device D}.
Variable dispatch_ieee802154 : Egress -> Ieee802154Address -> TxToken -> PacketMeta -> Packet -> res Egress.
Variable process_ieee802154 : InterfaceInner -> list AnySocket -> PacketMeta -> list Z -> FragmentsBuffer ->
  res (InterfaceInner * list AnySocket * FragmentsBuffer * option Packet).
Variable sixlowpan_egress : Egress -> option TxToken -> res Egress.
Implicit Types (p : Interface (D := D)) (sockets : SocketSet) (r : Responding (D := D)).

(** ** Nothing is sent before its time *)

(** The congestion controller has nothing to do before a transmission. *)
Definition controller_quiet (now : Instant) (socket : AnySocket) : Prop :=
  match socket with
  | TcpItem s => ctl_pre_transmit (sk_congestion_controller s) now = Ret (sk_congestion_controller s)
  | OtherItem _ => True
  end.

Lemma socket_idle r socket t :
  let cx := if_cx (in_inner (re_interface r)) in
  socket_poll_at cx socket = Ret t -> poll_due t (cx_now cx) = false -> controller_quiet (cx_now cx) socket ->
  socket_dispatch dispatch_ieee802154 r socket = Ret (r, socket, Ok tt).
Proof.
  intros cx Et Hd Hq. destruct socket as [s|[s|s|s]]; cbn [socket_poll_at socket_dispatch controller_quiet] in *.
  - unfold dispatch, the_context, responding_context, the_context, interface_context.
    rewrite (dispatch_idle cx s t) by done. by rewrite !bind_Ret.
  - injection Et as <-. unfold raw_poll_at in Hd. destruct (pb_is_empty (rs_tx_buffer s)) eqn:Ee; [|done].
    unfold raw_dispatch. rewrite dequeue_with_empty by done. rewrite !bind_Ret. by destruct s.
  - injection Et as <-. unfold icmp_poll_at in Hd. destruct (pb_is_empty (is_tx_buffer s)) eqn:Ee; [|done].
    unfold icmp_dispatch. rewrite dequeue_with_empty by done. rewrite !bind_Ret. by destruct s.
  - injection Et as <-. unfold udp_poll_at in Hd. destruct (pb_is_empty (us_tx_buffer s)) eqn:Ee; [|done].
    unfold udp_dispatch. rewrite dequeue_with_empty by done. rewrite !bind_Ret. by destruct s.
Qed.

(** The time has not come. *)
Definition not_yet (now : Instant) (t : option Instant) : Prop := match t with Some t => now < t | None => True end.

Lemma not_yet_min now a b : not_yet now (min_instant a b) -> not_yet now a /\ not_yet now b.
Proof. destruct a, b; cbn; lia. Qed.

Lemma item_not_yet i item t :
  0 <= if_now i -> item_poll_at i item = Ret t -> not_yet (if_now i) t ->
  exists meta permitted, meta_egress_permitted (it_meta item) (if_now i) (if_has_neighbor i) = Ret (meta, permitted) /\
    mt_handle meta = mt_handle (it_meta item) /\
    (permitted = true -> exists t, socket_poll_at (if_cx i) (it_socket item) = Ret t /\ poll_due t (if_now i) = false).
Proof.
  intros Hn E Ht. unfold item_poll_at in E. apply bind_Ret_inv in E as (t0 & E0 & E). apply bind_Ret_inv in E as (t1 & E1 & E). injection E as E.
  assert (Hdue : poll_due t1 (if_now i) = false) by (subst t; destruct t1; cbn in *; lia || done).
  unfold meta_poll_at in E1. unfold meta_egress_permitted. destruct (mt_neighbor_state (it_meta item)) as [|neighbor silent_until].
  - injection E1 as ->. exists (it_meta item), true. split; [done|]. split; [done|]. intros _. by exists t1.
  - apply bind_Ret_inv in E1 as (found & Ef & E1). rewrite Ef, bind_Ret. destruct found.
    + injection E1 as ->. eexists _, true. split; [done|]. split; [done|]. intros _. by exists t1.
    + injection E1 as <-. cbn in Hdue. rewrite Hdue. by exists (it_meta item), false.
Qed.

(** The sockets and their handles are as they were. *)
Definition same_sockets (items items' : list Item) : Prop :=
  Forall2 (fun a b => it_socket b = it_socket a /\ mt_handle (it_meta b) = mt_handle (it_meta a)) items items'.

Lemma items_idle items : forall r t,
  let i := in_inner (re_interface r) in
  0 <= if_now i -> items_poll_at i items = Ret t -> not_yet (if_now i) t ->
  Forall (fun item => controller_quiet (if_now i) (it_socket item)) items ->
  exists items' o, egress_items dispatch_ieee802154 r items = Ret (mkResponding (re_interface r) o (re_result r), items') /\ same_sockets items items'.
Proof.
  induction items as [|item items IH]; intros r t i Hn Et Hnot Hq; cbn [egress_items items_poll_at] in *.
  { exists [], (re_neighbor_addr r). split; [by destruct r | constructor]. }
  apply bind_Ret_inv in Et as (a & Ea & Et). apply bind_Ret_inv in Et as (b & Eb & Et). injection Et as <-.
  apply not_yet_min in Hnot as [Hna Hnb]. apply Forall_cons_iff in Hq as [Hqi Hqs].
  destruct (item_not_yet i item a Hn Ea Hna) as (meta & permitted & Em & Eh & Hp). fold i. rewrite Em, bind_Ret. destruct permitted; cbn [negb].
  - destruct (Hp eq_refl) as (t & Et & Hd). set (r0 := mkResponding (re_interface r) None (re_result r)).
    rewrite (socket_idle r0 (it_socket item) t) by done. rewrite bind_Ret.
    destruct (IH r0 b Hn Eb Hnb Hqs) as (items' & o & E & Hs). rewrite E, bind_Ret. eexists _, o. split; [done|]. by constructor.
  - destruct (IH r b Hn Eb Hnb Hqs) as (items' & o & E & Hs). rewrite E, bind_Ret. eexists _, o. split; [done|]. by constructor.
Qed.

Lemma same_sockets_length items items' : same_sockets items items' -> length items' = length items.
Proof. intros Hs. symmetry. by eapply Forall2_length. Qed.

(** C12: [Interface::poll_at] is complete for the fragmenter and the sockets: as long as the time it returns
    has not come, no fragment is due and polling the sockets asks the device for nothing and sends
    nothing; every socket keeps its state and its place in the set.  So an interface that sleeps until
    [poll_at] stalls no connection and no datagram, whichever neighbors the sockets wait for,
    provided no congestion controller acts before a transmission.  (It is not complete for multicast:
    a group being joined or left, and a report due, do not count in [poll_at].) *)
Theorem sleeping_until_poll_at p timestamp sockets p' t :
  0 <= timestamp -> interface_poll_at p timestamp sockets = Ret (p', t) -> not_yet timestamp t ->
  Forall (fun item => controller_quiet timestamp (it_socket item)) (ss_items sockets) ->
  fragment_due (in_fragmenter p') = false /\
  exists sockets', socket_egress dispatch_ieee802154 p' sockets = Ret (p', sockets', PollUnchanged) /\
    same_sockets (ss_items sockets) (ss_items sockets').
Proof.
  intros Hn Et Hnot Hq. unfold interface_poll_at in Et. destruct (fragmenter_is_empty _) eqn:Ef; cbn [negb] in Et.
  - apply bind_Ret_inv in Et as (t' & Et & E). injection E as <- <-. split.
    + unfold fragment_due. rewrite Ef. by rewrite andb_false_r.
    + unfold socket_egress. destruct (items_idle (ss_items sockets) (mkResponding (in_set_now p timestamp) None PollUnchanged) t' Hn Et Hnot Hq)
        as (items' & o & E & Hs). rewrite E, bind_Ret. eexists. split; [done|].
      rewrite ss_set_items_ok; [done | by apply same_sockets_length].
  - injection Et as <- <-. cbn in Hnot. lia.
Qed.

(** ** The end of a poll *)

(** A device that has a number of packets, which receiving makes smaller and sending does not
    make larger. *)
Class DeviceQueue : Type := {
  dev_pending : D -> nat;
  dev_receive_pending d sent now : match dev_receive d sent now with
    | (d', Some _) => (dev_pending d' < dev_pending d)%nat
    | (d', None) => True
    end;
}.

(** Packets that were received one after the other. *)
Inductive ingress_steps : Interface -> SocketSet -> Interface -> SocketSet -> Prop :=
| ingress_here p sockets : ingress_steps p sockets p sockets
| ingress_step p sockets p1 sockets1 p2 sockets2 o :
    socket_ingress dispatch_ieee802154 process_ieee802154 p sockets = Ret (p1, sockets1, o) -> o <> NoPacket ->
    ingress_steps p1 sockets1 p2 sockets2 -> ingress_steps p sockets p2 sockets2.

Context `{!DeviceQueue}.

(** A packet is received from the device's queue. *)
Lemma ingress_pending p sockets p' sockets' o :
  socket_ingress dispatch_ieee802154 process_ieee802154 p sockets = Ret (p', sockets', o) -> o <> NoPacket ->
  (dev_pending (in_device p') < dev_pending (in_device p))%nat.
Proof.
  unfold socket_ingress, ingress_done, dispatch_with. pose proof (dev_receive_pending (in_device p) (eg_sent (in_egress p)) (if_now (in_inner p))) as Hd.
  destruct (dev_receive _ _ _) as [d [[[rx_meta frame] tx]|]]; [|intros [= <- <- <-]; done]. destr_if; [intros [= <- <- <-]; done|].
  intros E Ho. destruct (cx_medium _).
  - apply bind_Ret_inv in E as ([[[i socks] frag] [packet|]] & _ & E); [|injection E as <- <- <-; done].
    apply bind_Ret_inv in E as ([e r] & _ & E). injection E as <- <- <-. done.
  - apply bind_Ret_inv in E as ([[[i socks] frag] [packet|]] & _ & E); [|injection E as <- <- <-; done].
    apply bind_Ret_inv in E as ([e r] & E1 & E). apply bind_Ret_inv in E1 as ([e1 r1] & _ & E1). injection E1 as <- <-. injection E as <- <- <-. done.
  - apply bind_Ret_inv in E as ([[[i socks] frag] [packet|]] & _ & E); [|injection E as <- <- <-; done].
    apply bind_Ret_inv in E as ([e r] & E1 & E). apply bind_Ret_inv in E1 as ([e1 r1] & _ & E1). injection E1 as <- <-. injection E as <- <- <-. done.
Qed.

Lemma ingress_loop_ok fuel : forall p sockets (res : PollResult),
  (dev_pending (in_device p) <= fuel)%nat ->
  exists p1 sockets1, ingress_steps p sockets p1 sockets1 /\
    match ingress_loop dispatch_ieee802154 process_ieee802154 fuel p sockets res with
    | Ret (p', sockets', _) => socket_ingress dispatch_ieee802154 process_ieee802154 p1 sockets1 = Ret (p', sockets', NoPacket)
    | Panic => socket_ingress dispatch_ieee802154 process_ieee802154 p1 sockets1 = Panic
    end.
Proof.
  induction fuel as [|fuel IH]; intros p sockets res Hf; cbn [ingress_loop];
    (destruct (socket_ingress _ _ p sockets) as [[[p' sockets'] o]|] eqn:E; [|exists p, sockets; by split; [constructor|]]);
    rewrite bind_Ret; pose proof (ingress_pending p sockets p' sockets' o E) as Hp.
  - destruct o; [exists p, sockets; by split; [constructor|] | |]; specialize (Hp ltac:(done)); lia.
  - destruct o; [exists p, sockets; by split; [constructor|]| |]; specialize (Hp ltac:(done));
      (edestruct (IH p' sockets') as (p1 & sockets1 & Hs & Hr); [lia|]); exists p1, sockets1; (split; [by eapply ingress_step | exact Hr]).
Qed.

(** A poll ends: with as much fuel as the device has packets, the loop over the received packets
    stops because the device has no more of them, or because one of its steps panics; it never runs
    out of fuel. *)
Theorem ingress_loop_ends fuel p sockets res :
  (dev_pending (in_device p) <= fuel)%nat ->
  exists p1 sockets1, ingress_steps p sockets p1 sockets1 /\
    match ingress_loop dispatch_ieee802154 process_ieee802154 fuel p sockets res with
    | Ret (p', sockets', _) => socket_ingress dispatch_ieee802154 process_ieee802154 p1 sockets1 = Ret (p', sockets', NoPacket)
    | Panic => socket_ingress dispatch_ieee802154 process_ieee802154 p1 sockets1 = Panic
    end.
Proof. apply ingress_loop_ok. Qed.
End Poll.

(** ** A concrete interface and its device *)

(** The frames that are waiting; there is always room for a frame to send. *)
#[export] Instance ex_queue : Device (list (list Z)) := {|
  dev_receive frames _ _ := match frames with [] => ([], None) | frame :: frames => (frames, Some (meta_default, frame, ex_device)) end;
  dev_transmit frames _ _ := (frames, Some ex_device);
|}.

#[export] Instance ex_queue_pending : DeviceQueue (D := list (list Z)).
Proof. refine {| dev_pending := length |}. intros [|frame frames] sent now; cbn; [done | lia]. Defined.

Definition no_process_ieee802154 : InterfaceInner -> list AnySocket -> PacketMeta -> list Z -> FragmentsBuffer ->
  res (InterfaceInner * list AnySocket * FragmentsBuffer * option Packet) := fun _ _ _ _ _ => Panic.

Definition ex_interface (frames : list (list Z)) : Interface := mkInterface (mkEgress ex_iface (fragmenter_new 200) []) ex_fragments frames.

(** A connection, a free slot and a UDP socket that waits for a neighbor. *)
Definition ex_socket_set : SocketSet :=
  mkSocketSet true [Some (mkItem (mkMeta 0 NeighborActive) (TcpItem (ex_socket Established [] [] 0))); None;
    Some (mkItem (mkMeta 2 (NeighborWaiting (Ipv4 [10; 0; 0; 9]) 2000000)) (OtherItem (OtherUdp ex_udp_socket)))].

Lemma socket_set_is_map_witness :
  ss_wf ex_socket_set /\
  match socket_set_add ex_socket_set ex_udp_socket with
  | Ret (s', h) => h = 1%nat /\ ss_wf s' /\ ss_lookup ex_socket_set h = None /\ socket_set_get s' h = Ret ex_udp_socket /\
      forall h', h' <> h -> ss_lookup s' h' = ss_lookup ex_socket_set h'
  | Panic => False
  end.
Proof.
  assert (Hw : ss_wf ex_socket_set) by (intros [|[|[|h]]] item [= <-]; done).
  split; [exact Hw|]. pose proof (proj1 (socket_set_is_map ex_socket_set ex_udp_socket Hw)) as Hm. exact (conj eq_refl Hm).
Defined.

(** The set waits for its neighbor's silence to end, at two seconds. *)
Lemma sleeping_until_poll_at_witness :
  let p := in_set_now (ex_interface []) 1500000 in
  interface_poll_at (ex_interface []) 1500000 ex_socket_set = Ret (p, Some 2000000) /\
  exists sockets', socket_egress no_ieee802154 p ex_socket_set = Ret (p, sockets', PollUnchanged) /\
    same_sockets (ss_items ex_socket_set) (ss_items sockets').
Proof.
  set (p := in_set_now (ex_interface []) 1500000).
  assert (Et : items_poll_at (in_inner p) (ss_items ex_socket_set) = Ret (Some 2000000)) by (vm_compute; reflexivity).
  assert (E : interface_poll_at (ex_interface []) 1500000 ex_socket_set = Ret (p, Some 2000000))
    by (unfold interface_poll_at; fold p; rewrite Et; reflexivity).
  split; [exact E|]. refine (proj2 (sleeping_until_poll_at no_ieee802154 (ex_interface []) 1500000 ex_socket_set p (Some 2000000) _ E _ _)); [done | done|].
  constructor; [vm_compute; reflexivity | constructor; [exact I | constructor]].
Defined.

Lemma ingress_loop_ends_witness :
  let p := ex_interface [[]; ex_frame EtherIpv4 ex_ping_packet] in
  exists p1 sockets1, ingress_steps no_ieee802154 no_process_ieee802154 p ex_socket_set p1 sockets1 /\
    match ingress_loop no_ieee802154 no_process_ieee802154 2 p ex_socket_set PollUnchanged with
    | Ret (p', sockets', _) => socket_ingress no_ieee802154 no_process_ieee802154 p1 sockets1 = Ret (p', sockets', NoPacket)
    | Panic => socket_ingress no_ieee802154 no_process_ieee802154 p1 sockets1 = Panic
    end.
Proof. exact (ingress_loop_ends no_ieee802154 no_process_ieee802154 2 (ex_interface [[]; ex_frame EtherIpv4 ex_ping_packet]) ex_socket_set PollUnchanged (le_n 2)). Defined.
