(* ===== verification/MulticastSpec.v ===== *)
(** * What the multicast reports promise (iface/interface/multicast.rs)

    [multicast_egress] announces the groups that were joined and left, as far as the device has room,
    and never panics. *)

From stdpp Require Import gmap.
From S2P Require Import Prelude TimeModel TcpTimers IpTypes ByteOrder Checksum Ipv4Wire UdpWire Fragmentation IfaceContext Ipv4Addr Ipv6Addr Heapless Route Neighbor EthernetArp Ipv6Wire Icmpv6Packet MldWire Icmpv6Wire NdiscWireSpec NdiscEmitSpec Icmpv6EmitSpec TcpSocket UdpSocket IgmpWire Ipv6ExtWire IpWire RawSocket IcmpSocket IfacePacket Iface Multicast IfaceEgress TcpInvariant IfaceTcp IfaceIngress SocketSet IfacePoll IfaceInvariant IfaceEgressLemmas IfaceIngressLemmas IfaceExample IfaceEgressSpec IfacePollSpec.

(** A report of all groups is no longer than a packet can be. *)
Class ReportFits (groups_max : nat) : Prop := report_fits : Z.of_nat groups_max <= 3000.

(** The vector of options has room for the two options of a report. *)
Class OptionsFit (options_max : nat) : Prop := options_fit_two : (2 <= options_max)%nat.

Section Multicast.
Context {cfg : BuildConfig} `{NetworkEndianLaws}.
Context `{!LinearMap Address GroupState} {groups_max : nat} `{!LinearMapLaws Address GroupState groups_max} `{!GroupsFit groups_max} `{!ReportFits groups_max}.
Context `{!LinearMap Address Neighbor} {cache_size : nat} `{!LinearMapLaws Address Neighbor cache_size}.
Context `{!HeaplessVec Route} {routes_max : nat} `{!HeaplessVecLaws Route routes_max}.
Context `{!HeaplessVec Ipv6OptionRepr} {options_max : nat} `{!HeaplessVecLaws Ipv6OptionRepr options_max} `{!OptionsFit options_max}.
Context {D : Type} `{!Device D}.
Variable dispatch_ieee802154 : Egress -> Ieee802154Address -> TxToken -> PacketMeta -> Packet -> res Egress.
Implicit Types (i : InterfaceInner) (e : Egress) (pkt : Packet) (tx : TxToken) (p : Interface (D := D)).

(** ** The packets *)












(** ** A report is sent *)





(** ** The device *)

(** Tokens have buffers of the length that is asked for. *)
Class DeviceTokens : Prop := device_tokens d sent now d' tx : dev_transmit (D := D) d sent now = (d', Some tx) -> tx_ok tx.


Context `{!DeviceTokens}.

(** What sending changes of the interface. *)
Definition upd i (n : Z) (m : MulticastState) : InterfaceInner := if_set_multicast (if_set_ipv4_id i n) m.




(** ** Groups *)






(** ** Announcing groups *)







(** The packets do not depend on what sending changes. *)
Definition packet_stable (packet_of : InterfaceInner -> Address -> res (option Packet)) : Prop :=
  forall i n m a, packet_of (upd i n m) a = packet_of i a.

Lemma join_stable : packet_stable join_packet.
Proof. by intros i n m [a|a]. Qed.







(** ** Queries *)











(** ** All of it *)




End Multicast.

(** ** A concrete run *)

#[export] Instance ex_report_fits : ReportFits 4.
Proof. unfold ReportFits. lia. Qed.
#[export] Instance ex_options_fit : OptionsFit 4.
Proof. unfold OptionsFit. lia. Qed.
#[export] Instance ex_queue_tokens : DeviceTokens (D := list (list Z)).
Proof. intros d sent now d' tx [= _ <-]. exact ex_device_ok. Qed.




(** ** A query for a unicast address *)

(** An MLD query for the group fe80::1, sent from fe80::2 to fe80::1. *)
Definition ex_unicast : list Z := [0xfe; 0x80] ++ replicate 13 0 ++ [1].
Definition ex_unicast_query_header : IpHeader := mkIpHeader ([0xfe; 0x80] ++ replicate 13 0 ++ [2]) ex_unicast PROTOCOL_ICMPV6 28 1.
Definition ex_unicast_query : res (list Z) :=
  body ← icmp6_fill_checksum ([130; 0; 0; 0; 0; 0; 0; 0] ++ ex_unicast ++ [0; 0; 0; 0]) (iph_src ex_unicast_query_header) ex_unicast;
  header ← ipv6_emit ex_unicast_query_header (replicate 40 0);
  Ret (header ++ body).

(** The interface after the query: nothing was answered, and the report is due at once. *)
Definition after_query : res InterfaceInner :=
  packet ← ex_unicast_query;
  '(i, _, _, _) ← process_ip ex_iface_ip [] meta_default packet ex_fragments;
  Ret i.

(** The query is for an address of the host, whose last two octets are those of its own solicited-node
    group, so [has_multicast_group] accepts it as a group; the report has it as a group too, and emitting
    a record of an address that is not multicast panics.  [wire/mld.rs], [iface/interface/multicast.rs]. *)
Lemma unicast_query_panics :
  (i ← after_query; Ret (mc_mld_report_state (if_multicast i))) = Ret (MldToSpecificQuery ex_unicast 1000000) /\
  (i ← after_query; multicast_egress no_ieee802154 (in_set_inner (ex_interface []) i)) = Panic.
Proof. split; vm_compute; reflexivity. Qed.
